(* ===== verification/_CoqProject ===== *)
-Q . S2P
Prelude.v
Keyed.v
Text.v
Domain.v
DomainRules.v
DomainConfig.v
StoreState.v
WorktreeJournals.v
SessionJournals.v
Transactions.v
JournalInvariant.v
JournalPreservation.v
Samples.v
RelocationInvariant.v
StoreGuarantees.v
WriteAhead.v
Replay.v
ArchiveRoundTrip.v
DomainClaims.v
Workflow.v
WorkflowEngine.v
WorkflowGrammar.v
WorkflowRun.v
WorkflowProgress.v
WorkflowLiveness.v
WorkflowClaims.v
WorkflowRecords.v
WorkflowRuntime.v
DeliveryRuntime.v
DeliveryWorker.v
DeliveryFacts.v
DeliverySafety.v
DeliveryConfirmation.v
DeliveryClaims.v
TerminalWire.v
TerminalStructure.v
InputReadiness.v
OutputActivity.v
TerminalClaims.v
InputClassify.v
InputClaims.v
Agents.v
Subagents.v
AgentPlans.v
AgentClaims.v
ObservedSession.v
ObservedClaims.v
ObservationIngress.v
SessionRecords.v
RunRecords.v
AccountRecords.v
RoutineRecords.v
TaskRecords.v
CurrentValidation.v
PlaybookRecords.v
RecordApi.v
SessionInvariant.v
SessionPreservation.v
SessionLifecycle.v
SessionRestart.v
SessionValidity.v
SessionClaims.v
RecordTransactions.v
RecordInvariant.v
VersionInvariant.v
RecordPreservation.v
RecordRoutines.v
RecordTasks.v
RecordProjects.v
RecordPlaybooks.v
RecordClaims.v
StoreHistory.v
LaunchTypes.v
Launch.v
LaunchFacts.v
LaunchManifest.v
LaunchClaims.v
TaskWorktrees.v
CleanupSaga.v
CleanupClaims.v
