(* ===== verification/Prelude.v ===== *)
(** * TermLoop: a verification development (root file)

    TermLoop is a desktop workspace for coding agents.  A local daemon
    ([src/apps/server]) owns one [CoreRuntime] ([src/modules/core]); the runtime
    drives git worktrees ([src/modules/gitio]), terminals and provider processes
    ([src/modules/terminal], [src/modules/agent-runtime]) and keeps every durable
    fact in one [Store] ([src/modules/store]) whose records are the types of
    [src/modules/domain].  The store holds the whole state in memory
    ([CurrentState]) and writes it as one snapshot per commit; after a crash the
    daemon knows nothing but that snapshot, so every step that touches a
    directory, a branch or a Session is announced in a journal of the store
    before it is taken.  A provider's process is started from a launch that
    [src/modules/launch] resolves: its arguments, environment, permissions and
    first input.  Between the daemon and a provider's terminal stand
    trackers that read the terminal's output byte by byte, a classifier of what
    the user types, and worker threads that paste generated prompts and press
    Enter.  This development models the durable core (all records, all methods
    that write them, the checks a loaded snapshot has to pass, the workflow
    machine that the daemon runs on top of them), the launches, the delivery of
    generated input with the terminal logic it relies on, and what the daemon
    makes of the reports that providers send about their own sessions.

    ** Components and files

    Shared ground:
    - [Prelude] (this file): record update, the [Exec] monad of methods that
      take [&mut self] and return a [Result], integers at their width, the
      slice operations of Rust's standard library with their lemmas, the
      tactics and hint databases.
    - [Keyed]: sorting, extrema and keyed vectors; [Text]: strings as UTF-8
      bytes with [len], [chars], [trim], [split].
    - [Domain]: the records and enums of [src/modules/domain/src] that the
      journals hold, field by field; [DomainRules]: tool names, path comparison
      keys, resume references, developer notes, identifiers, launch selections,
      accounts, Steward configurations and the personal Agents of the library;
      [DomainConfig]: companions, playbooks, task sources, task automation,
      branch sets, issue links and preferences, and when they are valid.

    The store ([src/modules/store]), its methods:
    - [StoreState]: [CurrentState], [Store] (memory, the file, the file
      system's answers to come), [commit], [commit_or_restore],
      [persist_state] ([store/src/lib.rs]).
    - [WorktreeJournals]: provisioning, cleanup, repair and stale resolution;
      [SessionJournals]: relocation and the archives of Tasks and Sessions.
      Every method of [store/src/journal/*.rs], one definition per method, with
      its loops, guards and early returns.
    - [SessionRecords]: [records/session.rs], [deleted_session.rs],
      [terminal_restore.rs], standalone admission and the reconciliation of a
      restart; [Workflow] (second half): [records/workflow.rs];
      [AgentPlans]: [records/agent_plan.rs].
    - [RunRecords]: configuration versions, with the lemmas on recording one,
      and run configurations;
      [AccountRecords]: accounts, the Agent library, preferences, issue links,
      branch sets; [RoutineRecords]: Stewards and Routines; [TaskRecords]:
      Tasks, task sources, automation and Projects; [PlaybookRecords]:
      Playbooks, evaluations, companion transcripts, the reset of an assistant.
    - [JournalInvariant] (first half) and [CurrentValidation]: the clauses of
      [store/src/validation.rs].

    The store, its proofs:
    - [Transactions]: the postcondition calculus of store methods
      ([transaction]), and the journal methods as one type of calls;
      [RecordApi]: the record methods as one type of calls;
      [RecordTransactions]: each of them is a transaction.
    - [JournalInvariant], [JournalPreservation], [RelocationInvariant]: the
      validity of the journals as propositions, equivalent to the executable
      check, and its preservation by each method; [Samples]: concrete records
      the witnesses run on.
    - [SessionInvariant], [SessionPreservation], [SessionLifecycle],
      [SessionRestart], [SessionValidity]: the same for Sessions.
    - [RecordInvariant], [VersionInvariant], [RecordPreservation],
      [RecordRoutines], [RecordTasks], [RecordProjects], [RecordPlaybooks]: the
      same for all other records.

    Workflows:
    - [Workflow]: [domain/src/workflow.rs], configurations and executions and
      when they are valid.
    - [WorkflowEngine]: [core/src/session_launch/workflow_execution.rs], the
      transitions of an execution and the five runtime methods that apply one
      and write it back.
    - [WorkflowGrammar], [WorkflowRun], [WorkflowProgress],
      [WorkflowLiveness]: the grammar of steps, the validity invariant, the
      machine of events that the runtime refines, and the measures behind
      termination and liveness.

    Launches ([src/modules/launch]):
    - [LaunchTypes]: environments, terminal input and spawn targets
      ([src/modules/platform]), requests, resolved launches and manifests;
      [Launch]: every function of the crate, from the choice of arguments and
      permissions to the manifest, and from templates to pasted prompts.
    - [LaunchFacts]: what the tables accept, what a resolved launch is made of,
      where markers stand and what binding them makes of a template;
      [LaunchManifest]: what a manifest depends on.

    Worktrees of Tasks ([core/src/task_worktree], [src/modules/gitio]):
    - [TaskWorktrees]: what git reports of a repository and its worktrees, the
      runtime's bounded projections of health and Session presence
      ([health.rs]), the guard of archived Tasks ([archive.rs]) and the mapping
      of git's errors.
    - [CleanupSaga]: [cleanup/mod.rs], [policy.rs], [saga.rs] and
      [reconcile.rs], from a request's parameters to the store's cleanup
      journal, and the loop of the server's handler that asks git between the
      steps.

    Generated input ([agent-runtime/src/delivery.rs]):
    - [DeliveryRuntime]: constants, states, failures and diagnostics,
      [GeneratedInputDeliveryRuntime] and its methods; [DeliveryWorker]: the
      worker thread's closure and the functions it runs, as a program over
      loads, stores, questions, writes and events, and the runtime with its
      workers interleaved step by step.
    - [DeliveryFacts], [DeliverySafety], [DeliveryConfirmation]: where a program
      can stand, what each method keeps, and the invariants of reachable
      systems.

    The terminal:
    - [TerminalWire]: the frames of [terminal-wire], encoding and decoding.
    - [TerminalStructure]: [TerminalStructureParser], [ErasedTerminalRows],
      [record_marker]; [OutputActivity]: the tracker and the waits of
      [output_settlement.rs]; [InputReadiness]: [input_readiness.rs]; each with
      its invariants.
    - [InputClassify]: [input_activity.rs], the output side (requests that a
      program sends to the terminal, modes it enables) and the input side (what
      the user's terminal sends back, and which of it is a key press).

    Providers ([src/modules/agents], [src/modules/agent-runtime]):
    - [Agents]: the catalog, agent states and signals with
      [reduce_observation], the hooks of each provider, Codex App Server
      messages and the scope of its threads.
    - [Subagents]: [subagents.rs] and [pending_wakes.rs], from a hook payload to
      the roster of children and the wakes a resting turn waits on.
    - [AgentPlans]: plan reports from the payload ([agents/src/lib.rs]) through
      the handlers of the runtime ([core/src/lib.rs]) to the store and its
      validation.
    - [ObservedSession]: [readiness.rs], [observation.rs],
      [observation_ingress.rs], [queue.rs] and [observed_session.rs], one live
      Session on top of the delivery runtime and its workers.

    ** What the theorems show

    - [StoreHistory]: every writing method of the store is a transaction
      (refused without an effect, undone when its write fails, or committed
      with the file equal to memory); memory and file agree along every history
      of all methods and every pattern of failed writes; one revision names one
      state while revisions have not wrapped around.
    - [StoreGuarantees]: journals the loader accepts stay acceptable.
    - [WriteAhead]: a removed, repaired or discarded checkout was announced in
      the file before; a Task's generation names one checkout.
    - [SessionClaims]: Sessions stay loadable along every history whose
      insertions fit; the reconciliation of a restart succeeds and leaves no
      Session running; two paths end in a file the next start refuses.
    - [RecordClaims]: all other records stay loadable along every history of
      calls that keep what a method leaves to its caller; a deleted Project is
      gone with everything it owned; two saves of versions fail too late.
    - [Replay]: repeating a completed cleanup answers its receipt; start-up
      recovery of relocations succeeds and leaves none in flight.
    - [ArchiveRoundTrip]: archive methods are transactions, and restoring
      undoes archiving; two states the journals reach and the rest of the
      program does not expect.
    - [WorkflowGrammar], [WorkflowClaims]: which configurations are valid; an
      execution stays valid, its review loop ends, no state is a dead end, the
      fix step follows the reviews, and the outcome says what they decided.
    - [WorkflowRecords], [WorkflowRuntime]: workflow records stay loadable; the
      runtime methods refine the machine, and the store accepts its steps.
    - [LaunchClaims]: an accepted read-only launch cannot write; the manifest
      depends on no secret; resolving never panics; the tables accept exactly
      what the catalog offers; binding a template is the substitution it names;
      a generated prompt cannot leave its paste.
    - [CleanupClaims]: when the policy lets a checkout go; git is told to remove
      one only on a fresh observation that authorises it and after the
      announcement is in the file, and not again for the same operation; a Task
      forgets only a checkout that is gone; a request ends.
    - [DeliveryClaims]: under every interleaving a worker pastes its prompt at
      most once and presses Enter at most twice (a persistent wake apart), a
      cancelled worker writes at most the part it had decided on, the runtime
      holds at most 256 deliveries and never evicts a running one, and a
      delivery is confirmed only after a newer provider observation; a blocked
      delivery that is tried again can paste a second time.
    - [TerminalClaims]: the reported modes are exact at every chunking of the
      output; a composer is reported ready, or an output settled, only on the
      evidence that the receipt names; the tracker's state is well formed.
    - [InputClaims]: control keys and text never pass for protocol traffic, and
      replies to requests that were made do when the input is split.
    - [TerminalWire]: decoding undoes encoding, and only frames decode.
    - [AgentClaims]: a plan that a provider reports never violates a constraint
      of the store, and the stored plans stay loadable; whatever JSON a hook
      carries, the roster and the wakes folded from it are bounded.
    - [ObservedClaims]: a request whose paste may have reached the terminal is
      never started again by the Session that owns it.
    - [ObservationIngress]: the rate limit on hooks, over every history.
    - [DomainClaims]: tool names, path containment, resume references.

    ** Conventions, bounds, assumptions

    A [u64], [u32] or [u8] is an [N]; arithmetic that can wrap is [u64_add],
    [u8_add] or [as_u8], as a release build computes it.  A history is a list
    of calls and the file system's answers are a list in the store, so failures
    are explicit and every sequence of them is covered.  Recursion is
    structural on a list, except in six places.  A loop of a worker that runs
    until a deadline takes the number of rounds the clock allows, and the
    theorems hold for every number.  A wait on a condition variable takes the
    list of its wake-ups (the tracker's state then, and what the clock says).
    The classifier's loops over unconsumed input take the number of bytes as
    fuel, which each round decreases.  Lossy decoding takes the number of bytes,
    the eviction of projections the length of the queue it empties (a victim
    stands in it and leaves it), and a cleanup request's loop its number of
    rounds, of which three are enough.  The bound of 22 reports per
    workflow run is a theorem: at most eight steps, the reviews and the fix up
    to three times.  Hash maps are [gmap]s; where the code searches a [Vec] the
    model searches a list in the same order.

    A cleanup's methods run under the core's lock, and git is asked between them:
    a history of cleanups is a sequence of such calls and of whatever else
    happens to the runtime in between, and a request's loop takes at most three
    rounds, which is a theorem.

    A method of the delivery runtime is one step with respect to the workers,
    which share only flags and channels with it; a worker's step is one load,
    store, question, write or event.  Answers of the terminal and the clock to
    a worker are arbitrary.  A lock is never found poisoned.  In a method of
    [ObservedSession], which calls the runtime several times, the workers run
    between any two accesses: [others k] is what they do before access [k], any
    number of their steps.

    Parameters: the [uuid] crate's parser ([UuidParser]) and its fixed-width
    bytes ([UuidCrate]) and canonical text ([UuidText]); the values of
    [serde_json], read through its accessors ([JsonValue], [JsonNumbers];
    [JsonStrings] says that its strings are UTF-8), its compact text of a document ([JsonText]) and
    its bytes of a manifest before the digest ([ManifestText]); SHA-256
    ([Sha256], 32 bytes); the order in which a [HashMap] iterates ([HashOrder],
    some order of its entries); the inherited environment and the executable
    search of the operating system ([Host]); the clock and generated
    identifiers, passed as the values the code read; the answers of the file
    system and of git during one observation ([Git], [Directories]), any answers
    at all; the Task as clients see it, computed by the projection the runtime
    is given; and, for the workflow methods only, token authentication, the
    Ask-To planner, profile lookup, prompt composition and terminal input, of
    which the refinement theorem assumes that planning and submitting write no
    execution.
    Serialization is not modelled: the file holds the state itself.  A write
    that fails leaves the file as it was, which is what
    [termloop_platform::atomic_replace_private_file] provides.  The three
    groups of records (journals, Sessions, the others) each have their own
    history theorem about loadability; a joint one would need what the runtime
    checks between their calls, which is code of the sagas below.

    ** Not modelled

    Sockets, HTTP and JSON dispatch ([src/apps]), generated contract types,
    provider clients, git's processes and their output, operating system access:
    input and output around the core.  The opening of the store and the
    migration of older files ([store/src/migration.rs]): rewriting of JSON
    documents.  The prompt texts of [src/modules/invocation].  In
    [src/modules/core]: Ask-To requests between Sessions ([ask_to.rs]), the
    start, resumption and moving of Sessions ([session_launch]) and, of
    [task_worktree], the sagas other than cleanup (provisioning, repair, stale
    resolution, archives) and the inspection and preview of a cleanup, which
    interleave store methods modelled here with git processes, terminals and
    locks; of the runtime only the workflow methods, the plan handlers, the
    observation of one live Session and the cleanup of worktrees are modelled. *)

From stdpp Require Export base sets list strings numbers option decidable.

(** ** Record update

    [r <| f := v |>] is Rust's field assignment on an owned value.  A record
    type opts in with an [Eta] instance, its eta expansion; the setter for one
    projection is computed from it. *)

Class Eta (R : Type) := eta_expand : R -> R.

Class Setter {R T : Type} (proj : R -> T) := set_field : (T -> T) -> R -> R.
Arguments set_field {R T} proj {_} _ _.

Ltac derive_setter :=
  lazymatch goal with
  | |- @Setter ?R ?T ?proj =>
      let e := constr:(_ : Eta R) in
      let body := eval red in e in
      lazymatch eval pattern proj in body with
      | ?abs _ => exact (fun (f : T -> T) => abs (fun r : R => f (proj r)))
      end
  end.

#[export] Hint Extern 0 (Setter _) => derive_setter : typeclass_instances.

Declare Scope rust_scope.
Delimit Scope rust_scope with rust.
#[export] Set Warnings "-postfix-notation-not-level-1".

Notation "r <| f := v |>" := (set_field f (fun _ => v) r)
  (at level 1, f at next level, left associativity) : rust_scope.

(** Rust's derived [==] and [!=] on values with decidable equality. *)
Notation "x == y" := (bool_decide (x = y)) (at level 70, no associativity) : rust_scope.
Notation "x != y" := (negb (bool_decide (x = y))) (at level 70, no associativity) : rust_scope.
Open Scope rust_scope.

(** ** Results, and computations that mutate a state and may fail

    [Exec S E A] is a Rust method taking [&mut self] and returning
    [Result<A, E>]: an early return through [?] keeps every mutation made
    before it. *)

Inductive result (E A : Type) : Type :=
| Ok (value : A)
| Err (error : E).
Arguments Ok {E A} _.
Arguments Err {E A} _.

Definition is_ok {E A} (r : result E A) : bool :=
  match r with Ok _ => true | Err _ => false end.
Definition is_err {E A} (r : result E A) : bool := negb (is_ok r).

Definition ok_or {E A} (o : option A) (e : E) : result E A :=
  match o with Some a => Ok a | None => Err e end.

(** [let x = result?;] in a function that returns a [Result] *)
Notation "'let?' x ':=' r 'in' k" := (match r with Ok x => k | Err e => Err e end)
  (at level 200, x pattern, k at level 200) : rust_scope.

Definition Exec (S E A : Type) : Type := S -> result E A * S.

Section exec.
Context {S E : Type}.

Definition ret {A} (a : A) : Exec S E A := fun s => (Ok a, s).
Definition fail {A} (e : E) : Exec S E A := fun s => (Err e, s).
Definition lift {A} (r : result E A) : Exec S E A := fun s => (r, s).
Definition gets {A} (f : S -> A) : Exec S E A := fun s => (Ok (f s), s).
Definition modify (f : S -> S) : Exec S E unit := fun s => (Ok tt, f s).
Definition bind {A B} (m : Exec S E A) (k : A -> Exec S E B) : Exec S E B :=
  fun s => match m s with
           | (Ok a, s') => k a s'
           | (Err e, s') => (Err e, s')
           end.

(** The [for] loop over a slice: stops at the first early return. *)
Fixpoint for_each {A} (xs : list A) (body : A -> Exec S E unit) : Exec S E unit :=
  match xs with
  | [] => ret tt
  | x :: rest => bind (body x) (fun _ => for_each rest body)
  end.

(** A [for] loop that also threads a local mutable variable. *)
Fixpoint for_fold {A L} (xs : list A) (acc : L) (body : L -> A -> Exec S E L) : Exec S E L :=
  match xs with
  | [] => ret acc
  | x :: rest => bind (body acc x) (fun acc' => for_fold rest acc' body)
  end.
End exec.

Notation "'let!' x ':=' m 'in' k" := (bind m (fun x => k))
  (at level 10, x binder, m at level 100, k at level 200) : rust_scope.
Notation "m ;; k" := (bind m (fun _ => k))
  (at level 100, k at level 200, right associativity) : rust_scope.

(** ** Slices and vectors *)

Section slices.
Context {A : Type}.

(** [iter().find(p)] *)
Fixpoint find_first (p : A -> bool) (l : list A) : option A :=
  match l with
  | [] => None
  | x :: rest => if p x then Some x else find_first p rest
  end.

(** [iter().position(p)], with the element the index refers to. *)
Fixpoint position (p : A -> bool) (l : list A) : option (nat * A) :=
  match l with
  | [] => None
  | x :: rest =>
      if p x then Some (0, x)
      else match position p rest with
           | Some (i, y) => Some (S i, y)
           | None => None
           end
  end.

(** [iter().any(p)] *)
Fixpoint any (p : A -> bool) (l : list A) : bool :=
  match l with [] => false | x :: rest => p x || any p rest end.

(** [iter().all(p)] *)
Fixpoint all (p : A -> bool) (l : list A) : bool :=
  match l with [] => true | x :: rest => p x && all p rest end.

(** [iter().enumerate().any(|(i, x)| f(x, &l[i + 1..]))] *)
Fixpoint any_with_rest (f : A -> list A -> bool) (l : list A) : bool :=
  match l with [] => false | x :: rest => f x rest || any_with_rest f rest end.

(** [iter().enumerate().all(|(i, x)| f(x, &l[i + 1..]))] *)
Fixpoint all_with_rest (f : A -> list A -> bool) (l : list A) : bool :=
  match l with [] => true | x :: rest => f x rest && all_with_rest f rest end.

(** [iter().enumerate().all(|(i, x)| f(&l[..i], x))], with the elements already
    passed in [before]. *)
Fixpoint all_with_before (f : list A -> A -> bool) (before l : list A) : bool :=
  match l with [] => true | x :: rest => f before x && all_with_before f (before ++ [x]) rest end.

(** The indexes [i] from [i0] on with [p l[i]]:
    [iter().enumerate().filter_map(|(i, x)| p(x).then_some(i)).collect()] *)
Fixpoint indexes_from (i0 : nat) (p : A -> bool) (l : list A) : list nat :=
  match l with
  | [] => []
  | x :: rest => if p x then i0 :: indexes_from (S i0) p rest else indexes_from (S i0) p rest
  end.

(** [iter().take_while(p)] *)
Fixpoint take_while (p : A -> bool) (l : list A) : list A :=
  match l with [] => [] | x :: rest => if p x then x :: take_while p rest else [] end.

(** [iter().skip_while(p)] *)
Fixpoint skip_while (p : A -> bool) (l : list A) : list A :=
  match l with [] => [] | x :: rest => if p x then skip_while p rest else x :: rest end.

(** [&l[a..b]] *)
Definition slice (l : list A) (a b : nat) : list A := drop a (take b l).

(** [retain(p)] *)
Fixpoint retain (p : A -> bool) (l : list A) : list A :=
  match l with [] => [] | x :: rest => if p x then x :: retain p rest else retain p rest end.

(** [iter_mut().find(p)] followed by the assignments [f] through the
    reference: the element after the assignments and the updated vector. *)
Fixpoint find_mut (p : A -> bool) (f : A -> A) (l : list A) : option (A * list A) :=
  match l with
  | [] => None
  | x :: rest =>
      if p x then Some (f x, f x :: rest)
      else match find_mut p f rest with
           | Some (y, rest') => Some (y, x :: rest')
           | None => None
           end
  end.

(** [iter().filter(p).count()] *)
Fixpoint count (p : A -> bool) (l : list A) : N :=
  match l with [] => 0%N | x :: rest => ((if p x then 1 else 0) + count p rest)%N end.
End slices.

Definition is_some_and {A} (o : option A) (p : A -> bool) : bool :=
  match o with Some a => p a | None => false end.
Definition is_none_or {A} (o : option A) (p : A -> bool) : bool :=
  match o with Some a => p a | None => true end.
Definition is_some {A} (o : option A) : bool := match o with Some _ => true | None => false end.
Definition is_none {A} (o : option A) : bool := match o with Some _ => false | None => true end.

(** ** Machine integers

    [u64] values are [N]; [+] on them is modulo [2 ^ 64], as in a build with
    overflow checks off. *)

Definition u64_modulus : N := (2 ^ 64)%N.
Definition u64_max : N := 18446744073709551615%N.
Definition u64_add (a b : N) : N := ((a + b) mod u64_modulus)%N.
Definition u64_checked_add (a b : N) : option N :=
  if (a + b <=? u64_max)%N then Some (a + b)%N else None.
Definition u64_saturating_add (a b : N) : N := N.min (a + b) u64_max.

(** [x as u8] and [+] on [u8]. *)
Definition as_u8 (a : N) : N := (a mod 256)%N.
Definition u8_add (a b : N) : N := as_u8 (a + b).

Lemma u64_checked_add_Some a b c :
  u64_checked_add a b = Some c -> c = (a + b)%N /\ (a + b <= u64_max)%N.
Proof. unfold u64_checked_add. destruct (N.leb_spec (a + b) u64_max); intros; simplify_eq; done. Qed.

Lemma u64_add_small a b : (a + b <= u64_max)%N -> u64_add a b = (a + b)%N.
Proof. unfold u64_add, u64_max. intros. apply N.mod_small.
  change u64_modulus with 18446744073709551616%N. lia. Qed.

Lemma u64_add_bound a b : (u64_add a b <= u64_max)%N.
Proof.
  unfold u64_add, u64_max. pose proof (N.mod_lt (a + b) u64_modulus).
  change u64_modulus with 18446744073709551616%N in *. lia.
Qed.

Lemma as_u8_small a : (a < 256)%N -> as_u8 a = a.
Proof. apply N.mod_small. Qed.

(** ** Lemmas on slices *)

Section slice_lemmas.
Context {A : Type}.
Implicit Types (p q : A -> bool) (l : list A).

Lemma find_first_Some p l x : find_first p l = Some x -> x ∈ l /\ p x = true.
Proof.
  induction l as [|y l IH]; simpl; [done|]. rewrite elem_of_cons.
  case_match; naive_solver.
Qed.

Lemma find_first_elem p l x : find_first p l = Some x -> x ∈ l.
Proof. intros H. by destruct (find_first_Some p l x H). Qed.

Lemma find_first_holds p l x : find_first p l = Some x -> p x = true.
Proof. intros H. by destruct (find_first_Some p l x H). Qed.

Lemma find_first_None p l : find_first p l = None <-> forall x, x ∈ l -> p x = false.
Proof.
  rewrite <- (list.Forall_forall (fun x => p x = false)).
  induction l as [|y l IH]; simpl; [by split|]. rewrite list.Forall_cons.
  destruct (p y); naive_solver.
Qed.

Lemma find_first_app p l k :
  find_first p (l ++ k) =
  match find_first p l with Some x => Some x | None => find_first p k end.
Proof. induction l as [|y l IH]; simpl; [done|]. by destruct (p y). Qed.

Lemma find_first_ext p q l : (forall x, p x = q x) -> find_first p l = find_first q l.
Proof. intros H. induction l as [|y l IH]; simpl; [done|]. by rewrite H, IH. Qed.

Lemma position_find p l : find_first p l = snd <$> position p l.
Proof.
  induction l as [|y l IH]; simpl; [done|].
  destruct (p y); [done|]. rewrite IH. by destruct (position p l) as [[]|].
Qed.

Lemma position_Some p l i x :
  position p l = Some (i, x) -> l !! i = Some x /\ p x = true.
Proof.
  revert i. induction l as [|y l IH]; intros i; simpl; [done|].
  destruct (p y) eqn:E; intros; simplify_eq; [done|].
  destruct (position p l) as [[j z]|]; simplify_eq. by apply IH.
Qed.

Lemma position_insert p l i x y :
  position p l = Some (i, x) -> p y = true -> position p (<[i := y]> l) = Some (i, y).
Proof.
  intros Hpos Hy. revert i Hpos. induction l as [|z l IH]; intros i; simpl; [done|].
  destruct (p z) eqn:E; intros; simplify_eq; simpl; [by rewrite Hy|].
  destruct (position p l) as [[j w]|]; simplify_eq. simpl. rewrite E.
  by rewrite (IH j).
Qed.

Lemma position_elem p l i x : position p l = Some (i, x) -> x ∈ l.
Proof. intros [H _]%position_Some. by eapply list_elem_of_lookup_2. Qed.

Lemma find_mut_position p f l :
  find_mut p f l =
  match position p l with
  | Some (i, x) => Some (f x, <[i := f x]> l)
  | None => None
  end.
Proof.
  induction l as [|y l IH]; simpl; [done|].
  destruct (p y); [done|]. rewrite IH. by destruct (position p l) as [[]|].
Qed.

Lemma find_mut_find p f l :
  find_mut p f l = None <-> find_first p l = None.
Proof.
  rewrite find_mut_position, position_find. by destruct (position p l) as [[]|].
Qed.

Lemma any_true p l : any p l = true <-> exists x, x ∈ l /\ p x = true.
Proof.
  rewrite <- (list.Exists_exists (fun x => p x = true)).
  induction l as [|y l IH]; simpl; [by rewrite Exists_nil|].
  by rewrite orb_true_iff, IH, Exists_cons.
Qed.

Lemma any_false p l : any p l = false <-> forall x, x ∈ l -> p x = false.
Proof.
  rewrite <- (list.Forall_forall (fun x => p x = false)).
  induction l as [|y l IH]; simpl; [by split|].
  by rewrite orb_false_iff, IH, list.Forall_cons.
Qed.

Lemma all_true p l : all p l = true <-> forall x, x ∈ l -> p x = true.
Proof.
  rewrite <- (list.Forall_forall (fun x => p x = true)).
  induction l as [|y l IH]; simpl; [by split|].
  by rewrite andb_true_iff, IH, list.Forall_cons.
Qed.

Lemma elem_of_retain p l x : x ∈ retain p l <-> x ∈ l /\ p x = true.
Proof.
  induction l as [|y l IH]; simpl; [rewrite elem_of_nil; tauto|].
  destruct (p y) eqn:E; rewrite ?elem_of_cons, IH; naive_solver congruence.
Qed.

Lemma retain_sublist p l : retain p l `sublist_of` l.
Proof.
  induction l as [|y l IH]; simpl; [done|].
  destruct (p y); by constructor.
Qed.

Lemma find_first_retain p q l :
  (forall x, p x = true -> q x = true) -> find_first p (retain q l) = find_first p l.
Proof.
  intros H. induction l as [|y l IH]; simpl; [done|].
  destruct (q y) eqn:Eq; simpl; rewrite IH; [done|].
  destruct (p y) eqn:Ep; [|done]. apply H in Ep. congruence.
Qed.

Lemma retain_all p l : (forall x, x ∈ l -> p x = true) -> retain p l = l.
Proof.
  induction l as [|y l IH]; intros H; simpl; [done|].
  rewrite H by (left; done). rewrite IH; [done|]. intros x Hx. apply H. by right.
Qed.

Lemma retain_app p l k : retain p (l ++ k) = retain p l ++ retain p k.
Proof. induction l as [|x l IH]; simpl; [done|]. rewrite IH. by destruct (p x). Qed.

Lemma take_while_skip_while p l : take_while p l ++ skip_while p l = l.
Proof. induction l as [|y l IH]; simpl; [done|]. destruct (p y); simpl; congruence. Qed.

Lemma elem_of_take_while p l x : x ∈ take_while p l -> x ∈ l /\ p x = true.
Proof.
  induction l as [|y l IH]; simpl; [by intros ?%elem_of_nil|].
  destruct (p y) eqn:E; [|by intros ?%elem_of_nil].
  rewrite !elem_of_cons. intros [->|H]; [tauto|]. apply IH in H. tauto.
Qed.

Lemma skip_while_head p l x : head (skip_while p l) = Some x -> p x = false.
Proof.
  induction l as [|y l IH]; simpl; [done|].
  destruct (p y) eqn:E; [done|]. simpl. congruence.
Qed.

(** A run of elements with [p] followed by one without it. *)
Lemma take_while_app p l k :
  (forall x, x ∈ l -> p x = true) -> is_some_and (head k) p = false ->
  take_while p (l ++ k) = l.
Proof.
  intros Hl Hk. induction l as [|y l IH]; simpl.
  - destruct k as [|z k]; simpl in *; [done|]. by rewrite Hk.
  - rewrite Hl by (left; done). rewrite IH; [done|]. intros x Hx. apply Hl. by right.
Qed.

Lemma elem_of_insert_list l i x y : y ∈ <[i := x]> l -> y = x \/ y ∈ l.
Proof.
  intros [j Hj]%list_elem_of_lookup_1.
  apply list_lookup_insert_Some in Hj as [(-> & <- & _)|[_ Hj]]; [by left|].
  right. by eapply list_elem_of_lookup_2.
Qed.

(** Replacing an element by one with the same key keeps the keys. *)
Lemma fmap_insert_same {B} (key : A -> B) l i x y :
  l !! i = Some x -> key y = key x -> key <$> <[i := y]> l = key <$> l.
Proof.
  intros Hi Hk. rewrite list_fmap_insert, Hk. apply list_insert_id.
  by rewrite list_lookup_fmap, Hi.
Qed.
End slice_lemmas.

(** Looking a record up by key after the first record with some key was
    replaced by one with the same key. *)
Lemma find_first_insert_key {A} (key : A -> string) (l : list A) i x y a b :
  position (fun r => key r == a) l = Some (i, x) -> key y = a ->
  find_first (fun r => key r == b) (<[i := y]> l) =
  (if decide (b = a) then Some y else find_first (fun r => key r == b) l).
Proof.
  revert i. induction l as [|z l IH]; intros i; simpl; [done|].
  case_bool_decide as Hz; intros Hp Hy; simplify_eq; simpl.
  - repeat case_bool_decide; repeat case_decide; congruence.
  - destruct (position _ l) as [[j w]|] eqn:Hpos; simplify_eq; simpl.
    rewrite (IH j) by done. repeat case_bool_decide; repeat case_decide; congruence.
Qed.

Lemma find_first_key {A} (key : A -> string) (l : list A) a x :
  find_first (fun r => key r == a) l = Some x -> key x = a.
Proof. intros [_ H]%find_first_Some. by apply bool_decide_eq_true in H. Qed.

Lemma any_ext {A} (f g : A -> bool) l : (forall x, f x = g x) -> any f l = any g l.
Proof. intros H. induction l as [|x l IH]; simpl; [done|]. by rewrite H, IH. Qed.

Lemma any_with_rest_ext {A} (f g : A -> list A -> bool) l :
  (forall x rest, f x rest = g x rest) -> any_with_rest f l = any_with_rest g l.
Proof. intros Hfg. induction l as [|x l IH]; simpl; [done|]. by rewrite Hfg, IH. Qed.

Lemma any_with_rest_or {A} (f : A -> bool) (g : A -> list A -> bool) l :
  any_with_rest (fun x rest => f x || g x rest) l = any f l || any_with_rest g l.
Proof.
  induction l as [|x l IH]; simpl; [done|]. rewrite IH.
  destruct (f x), (g x l), (any f l); done.
Qed.

Lemma any_with_rest_or_false {A} (f : A -> bool) (g : A -> list A -> bool) l :
  any_with_rest (fun x rest => f x || g x rest) l = false <->
  (forall x, x ∈ l -> f x = false) /\ any_with_rest g l = false.
Proof.
  induction l as [|x l IH]; simpl.
  { split; [|done]. split; [by intros ? ?%not_elem_of_nil|done]. }
  rewrite !orb_false_iff, IH. setoid_rewrite elem_of_cons. naive_solver.
Qed.

(** A pairwise check on a vector against a key is a duplicate check. *)
Lemma any_with_rest_NoDup {A} (key : A -> string) (l : list A) :
  any_with_rest (fun x rest => any (fun y => key y == key x) rest) l = false <->
  NoDup (key <$> l).
Proof.
  induction l as [|x l IH]; simpl.
  - split; [intros; apply NoDup_nil_2|done].
  - rewrite orb_false_iff, IH, list.NoDup_cons, any_false, list_elem_of_fmap.
    split; intros [H1 H2]; (split; [|done]).
    + intros (y & Hk & Hy). specialize (H1 y Hy). apply bool_decide_eq_false in H1. congruence.
    + intros y Hy. apply bool_decide_eq_false. intros ?. apply H1. exists y. done.
Qed.

Lemma all_with_rest_NoDup {A} (key : A -> string) (l : list A) :
  all_with_rest (fun x rest => negb (any (fun y => key y == key x) rest)) l = true <->
  NoDup (key <$> l).
Proof.
  rewrite <- any_with_rest_NoDup.
  induction l as [|x l IH]; simpl; [done|].
  rewrite andb_true_iff, negb_true_iff, orb_false_iff. tauto.
Qed.

(** A check of each element together with a duplicate check splits. *)
Lemma all_with_rest_and {A} (f : A -> bool) (g : A -> list A -> bool) l :
  all_with_rest (fun x rest => f x && g x rest) l = all f l && all_with_rest g l.
Proof.
  induction l as [|x l IH]; simpl; [done|]. rewrite IH.
  destruct (f x), (g x l), (all f l), (all_with_rest g l); reflexivity.
Qed.

(** Every element satisfies [f] with respect to the elements before it. *)
Lemma all_with_before_true {A} (f : list A -> A -> bool) before l :
  all_with_before f before l = true <->
  forall i x, l !! i = Some x -> f (before ++ take i l) x = true.
Proof.
  revert before. induction l as [|y l IH]; intros before; simpl.
  { split; [intros _ i x; by rewrite lookup_nil|done]. }
  rewrite andb_true_iff, IH. split.
  - intros [Hy Hl] [|i] x Hx; simpl in *.
    + injection Hx as <-. by rewrite app_nil_r.
    + specialize (Hl i x Hx). by rewrite <- app_assoc in Hl.
  - intros H. split.
    + specialize (H 0 y eq_refl). simpl in H. by rewrite app_nil_r in H.
    + intros i x Hx. specialize (H (S i) x Hx). simpl in H. by rewrite <- app_assoc.
Qed.

(** ** Automation

    [guards] turns the boolean conditions of the code, once decided, into
    propositions; the rewrite database [guards] does the same inside one
    hypothesis; the database [slices] finds the membership facts that a search
    through a list leaves behind. *)

Create HintDb slices.
#[export] Hint Resolve position_elem find_first_elem find_first_holds : slices.
#[export] Hint Resolve <- find_first_None any_true all_true : slices.

Create Rewrite HintDb guards.
#[export] Hint Rewrite andb_true_iff orb_true_iff negb_true_iff @bool_decide_eq_true
  N.leb_le N.ltb_lt Nat.leb_le Nat.ltb_lt : guards.

Ltac guard_hyp H :=
  lazymatch type of H with
  | (_ && _)%bool = true => apply andb_true_iff in H as [? ?]
  | (_ || _)%bool = false => apply orb_false_iff in H as [? ?]
  | negb _ = true => apply negb_true_iff in H
  | negb _ = false => apply negb_false_iff in H
  | bool_decide _ = true => apply bool_decide_eq_true in H
  | bool_decide _ = false => apply bool_decide_eq_false in H
  | any _ _ = false => rewrite any_false in H
  | all _ _ = true => rewrite all_true in H
  | is_some ?o = false => destruct o eqn:?; [discriminate H|clear H]
  | is_none ?o = true => destruct o eqn:?; [discriminate H|clear H]
  | is_some ?o = true => destruct o eqn:?; [clear H|discriminate H]
  | is_none ?o = false => destruct o eqn:?; [clear H|discriminate H]
  | true = false => discriminate H
  | false = true => discriminate H
  end.

Ltac guards := repeat match goal with H : _ = _ :> bool |- _ => progress guard_hyp H end.
