(* ===== verification/Keyed.v ===== *)
(** * Sorting and extrema of slices

    [slice::sort_by_key], [Iterator::min_by_key] and [Iterator::max_by_key] of
    Rust's standard library, for a key with a total order given by its [<=]:
    the sort is stable, [min_by_key] answers the first of several minima and
    [max_by_key] the last of several maxima. *)

From S2P Require Import Prelude.

Section orders.
Context {A : Type} (le : A -> A -> bool).

Fixpoint insert_sorted (x : A) (l : list A) : list A :=
  match l with
  | [] => [x]
  | y :: rest => if le x y then x :: l else y :: insert_sorted x rest
  end.

Fixpoint sort_by (l : list A) : list A :=
  match l with
  | [] => []
  | x :: rest => insert_sorted x (sort_by rest)
  end.

Fixpoint min_by (l : list A) : option A :=
  match l with
  | [] => None
  | x :: rest =>
      match min_by rest with
      | None => Some x
      | Some y => if le x y then Some x else Some y
      end
  end.

Fixpoint max_by (l : list A) : option A :=
  match l with
  | [] => None
  | x :: rest =>
      match max_by rest with
      | None => Some x
      | Some y => if le x y then Some y else Some x
      end
  end.

Lemma insert_sorted_perm x l : insert_sorted x l ≡ₚ x :: l.
Proof.
  induction l as [|y l IH]; simpl; [done|]. destruct (le x y); [done|].
  rewrite IH. apply Permutation_swap.
Qed.

Lemma sort_by_perm l : sort_by l ≡ₚ l.
Proof. induction l as [|x l IH]; simpl; [done|]. by rewrite insert_sorted_perm, IH. Qed.

Lemma elem_of_sort_by x l : x ∈ sort_by l <-> x ∈ l.
Proof. by rewrite sort_by_perm. Qed.

Lemma min_by_None l : min_by l = None <-> l = [].
Proof.
  destruct l as [|x l]; simpl; [done|]. destruct (min_by l) as [y|]; [|done]. by destruct (le x y).
Qed.

Lemma max_by_None l : max_by l = None <-> l = [].
Proof.
  destruct l as [|x l]; simpl; [done|]. destruct (max_by l) as [y|]; [|done]. by destruct (le x y).
Qed.

Lemma min_by_elem l x : min_by l = Some x -> x ∈ l.
Proof.
  revert x. induction l as [|y l IH]; simpl; [done|]. intros x.
  destruct (min_by l) as [z|]; [|intros [= ->]; left]. specialize (IH z eq_refl).
  destruct (le y z); intros [= ->]; [left|by right].
Qed.

Lemma max_by_elem l x : max_by l = Some x -> x ∈ l.
Proof.
  revert x. induction l as [|y l IH]; simpl; [done|]. intros x.
  destruct (max_by l) as [z|]; [|intros [= ->]; left]. specialize (IH z eq_refl).
  destruct (le y z); intros [= ->]; [by right|left].
Qed.

Context (le_total : forall x y, le x y = true \/ le y x = true).
Context (le_trans : forall x y z, le x y = true -> le y z = true -> le x z = true).

Lemma le_refl x : le x x = true.
Proof. by destruct (le_total x x). Qed.

Lemma le_flip x y : le x y = false -> le y x = true.
Proof. destruct (le_total x y) as [->|]; done. Qed.

Lemma min_by_least l x y : min_by l = Some x -> y ∈ l -> le x y = true.
Proof.
  revert x. induction l as [|z l IH]; simpl; [done|]. intros x Hx Hy.
  apply elem_of_cons in Hy. destruct (min_by l) as [w|] eqn:E.
  - destruct (le z w) eqn:Ez; injection Hx as <-; destruct Hy as [->|Hy];
      eauto using le_refl, le_flip.
  - injection Hx as <-. apply min_by_None in E as ->. destruct Hy as [->|Hy%not_elem_of_nil]; [|done].
    apply le_refl.
Qed.

Lemma max_by_greatest l x y : max_by l = Some x -> y ∈ l -> le y x = true.
Proof.
  revert x. induction l as [|z l IH]; simpl; [done|]. intros x Hx Hy.
  apply elem_of_cons in Hy. destruct (max_by l) as [w|] eqn:E.
  - destruct (le z w) eqn:Ez; injection Hx as <-; destruct Hy as [->|Hy];
      eauto using le_refl, le_flip.
  - injection Hx as <-. apply max_by_None in E as ->. destruct Hy as [->|Hy%not_elem_of_nil]; [|done].
    apply le_refl.
Qed.

(** The head of a sorted list is least. *)
Lemma sort_by_head l x y : head (sort_by l) = Some x -> y ∈ l -> le x y = true.
Proof.
  revert x. induction l as [|z l IH]; simpl; [done|]. intros x Hx Hy.
  apply elem_of_cons in Hy. destruct (sort_by l) as [|w rest] eqn:E; simpl in *.
  - injection Hx as <-. destruct Hy as [->|Hy]; [apply le_refl|].
    apply (elem_of_sort_by y) in Hy. rewrite E in Hy. by apply not_elem_of_nil in Hy.
  - destruct (le z w) eqn:Ez; injection Hx as <-; destruct Hy as [->|Hy];
      eauto using le_refl, le_flip.
Qed.
End orders.

(** [a <= b] on integer keys and on strings, which compare byte by byte. *)
Definition le_key {A} (key : A -> N) (x y : A) : bool := (key x <=? key y)%N.

Lemma le_key_total {A} (key : A -> N) x y : le_key key x y = true \/ le_key key y x = true.
Proof. unfold le_key. rewrite !N.leb_le. lia. Qed.

Lemma le_key_trans {A} (key : A -> N) x y z :
  le_key key x y = true -> le_key key y z = true -> le_key key x z = true.
Proof. unfold le_key. rewrite !N.leb_le. lia. Qed.

Definition string_le (a b : string) : bool := String.leb a b.

(** Lexicographic order on a pair of an integer and a string. *)
Definition le_pair (x y : N * string) : bool :=
  (x.1 <? y.1)%N || ((x.1 =? y.1)%N && string_le x.2 y.2).

(** * Vectors of records with a key

    A vector in which every record satisfies a condition and no two share a key
    ([keyed]), and a vector with a bounded number of records per key
    ([counted]): what almost every clause of load-time validation asks, and how
    the edits of the store's methods preserve it. *)

Local Open Scope list_scope.

(** ** Positions *)

Lemma position_None {A} (p : A -> bool) l : position p l = None <-> forall x, x ∈ l -> p x = false.
Proof.
  rewrite <- find_first_None, position_find. destruct (position p l) as [[i x]|]; simpl; [|done].
  by split.
Qed.

Lemma elem_of_delete {A} (l : list A) i x : x ∈ delete i l -> x ∈ l.
Proof. intros Hx. eapply elem_of_submseteq; [exact Hx|]. apply sublist_submseteq, sublist_delete. Qed.

(** Deleting one element keeps the others. *)
Lemma elem_of_delete_ne {A} (l : list A) i x y : l !! i = Some x -> y ∈ l -> y <> x -> y ∈ delete i l.
Proof.
  intros Hi [j Hj]%list_elem_of_lookup_1 Hne. assert (i <> j) by congruence.
  apply list_elem_of_lookup. destruct (decide (j < i)).
  - exists j. by rewrite list_lookup_delete_lt.
  - exists (Nat.pred j). rewrite list_lookup_delete_ge by lia. by replace (S (Nat.pred j)) with j by lia.
Qed.

(** ** Conditions with unique keys *)

Record keyed {A K} (P : A -> Prop) (key : A -> K) (l : list A) : Prop := MkKeyed {
  kd_each : forall x, x ∈ l -> P x;
  kd_unique : NoDup (key <$> l)
}.

Section keyed.
Context {A K : Type} (key : A -> K).
Implicit Types (P Q : A -> Prop) (l : list A).

Lemma keyed_impl P Q l : keyed P key l -> (forall x, x ∈ l -> P x -> Q x) -> keyed Q key l.
Proof. intros [He Hu] Hpq. split; auto. Qed.

Lemma keyed_sublist P l k : keyed P key l -> k `sublist_of` l -> keyed P key k.
Proof.
  intros [He Hu] Hs. split.
  - intros x Hx. apply He. eapply elem_of_submseteq; [exact Hx|]. by apply sublist_submseteq.
  - eapply sublist_NoDup; [exact Hu|]. by apply fmap_sublist.
Qed.

Lemma keyed_retain P l p : keyed P key l -> keyed P key (retain p l).
Proof. intros Hk. eapply keyed_sublist; [exact Hk|apply retain_sublist]. Qed.

Lemma keyed_delete P l i : keyed P key l -> keyed P key (delete i l).
Proof. intros Hk. eapply keyed_sublist; [exact Hk|apply sublist_delete]. Qed.

Lemma keyed_insert P l i x y :
  keyed P key l -> l !! i = Some x -> key y = key x -> P y -> keyed P key (<[i := y]> l).
Proof.
  intros [He Hu] Hi Hk Hy. split.
  - intros z [->|Hz]%elem_of_insert_list; auto.
  - by rewrite (fmap_insert_same key _ _ x).
Qed.

Lemma keyed_app P l x : keyed P key l -> P x -> key x ∉ key <$> l -> keyed P key (l ++ [x]).
Proof.
  intros [He Hu] Hx Hn. split.
  - intros z [Hz| ->%list_elem_of_singleton]%elem_of_app; auto.
  - rewrite fmap_app. apply list.NoDup_app. split_and!; [done| |apply NoDup_singleton].
    intros k Hk ->%list_elem_of_singleton. done.
Qed.

Lemma keyed_app_iff P l x :
  keyed P key (l ++ [x]) <-> keyed P key l /\ P x /\ key x ∉ key <$> l.
Proof.
  split; [|intros (? & ? & ?); by apply keyed_app]. intros [He Hu].
  rewrite fmap_app in Hu. apply list.NoDup_app in Hu as (Hu & Hd & _). split_and!.
  - split; [|done]. intros y Hy. apply He, elem_of_app. by left.
  - apply He, elem_of_app. right. by left.
  - intros Hx. apply (Hd _ Hx). by left.
Qed.

Lemma keyed_fmap P Q l (f : A -> A) :
  keyed P key l -> (forall x, x ∈ l -> P x -> Q (f x)) -> (forall x, key (f x) = key x) ->
  keyed Q key (f <$> l).
Proof.
  intros [He Hu] Hf Hk. split.
  - intros y (x & -> & Hx)%list_elem_of_fmap. auto.
  - rewrite <- list_fmap_compose. rewrite (list_fmap_ext _ key); [done|]. intros. apply Hk.
Qed.

(** [match position { Some(index) => l[index] = x, None => l.push(x) }] *)
Lemma keyed_upsert P l (p : A -> bool) x :
  keyed P key l -> P x -> (forall y, p y = true <-> key y = key x) ->
  keyed P key (match position p l with Some (i, _) => <[i := x]> l | None => l ++ [x] end).
Proof.
  intros Hk Hx Hp. destruct (position p l) as [[i y]|] eqn:E.
  - apply position_Some in E as [Hi Hy%Hp]. by eapply keyed_insert.
  - apply keyed_app; [done..|]. intros (y & Hy & Hin)%list_elem_of_fmap.
    rewrite position_None in E. specialize (E _ Hin). symmetry in Hy. apply Hp in Hy. congruence.
Qed.

Context `{EqDecision K}.

(** The loader's checks: no key occurs again later, and with that a condition on
    each record. *)
Lemma keyed_NoDup (same : A -> A -> bool) l :
  (forall x y, same x y = true <-> key y = key x) ->
  any_with_rest (fun x rest => any (same x) rest) l = false <-> NoDup (key <$> l).
Proof.
  intros Hs. induction l as [|x l IH]; simpl; [split; [intros; apply NoDup_nil_2|done]|].
  rewrite orb_false_iff, IH, list.NoDup_cons, any_false, list_elem_of_fmap.
  split; intros [H1 H2]; (split; [|done]).
  - intros (y & Hk & Hy). specialize (H1 y Hy). apply not_true_iff_false in H1. by rewrite Hs in H1.
  - intros y Hy. apply not_true_iff_false. rewrite Hs. intros ?. apply H1. eauto.
Qed.

Lemma keyed_check (f : A -> bool) (same : A -> A -> bool) l :
  (forall x y, same x y = true <-> key y = key x) ->
  any_with_rest (fun x rest => f x || any (same x) rest) l = false <->
  keyed (fun x => f x = false) key l.
Proof.
  intros Hs. rewrite any_with_rest_or_false, (keyed_NoDup same) by done.
  split; [intros [? ?]; by split|intros [? ?]; by split].
Qed.

(** ** Bounded counts *)

Definition of_key (k : K) (x : A) : bool := key x == k.
Definition counted (max : nat) (l : list A) : Prop :=
  forall k, (length (retain (of_key k) l) <= max)%nat.

Lemma of_key_true k x : of_key k x = true <-> key x = k.
Proof. apply bool_decide_eq_true. Qed.

Lemma retain_length_sublist (p : A -> bool) l k :
  k `sublist_of` l -> (length (retain p k) <= length (retain p l))%nat.
Proof.
  induction 1; simpl; [done|..]; destruct (p _); simpl; lia.
Qed.

Lemma counted_sublist max l k : counted max l -> k `sublist_of` l -> counted max k.
Proof. intros Hc Hs k0. eapply Nat.le_trans; [by apply retain_length_sublist|apply Hc]. Qed.

Lemma counted_retain max l p : counted max l -> counted max (retain p l).
Proof. intros Hc. eapply counted_sublist; [exact Hc|apply retain_sublist]. Qed.

Lemma counted_delete max l i : counted max l -> counted max (delete i l).
Proof. intros Hc. eapply counted_sublist; [exact Hc|apply sublist_delete]. Qed.

Lemma retain_length_fmap (p : A -> bool) (f : A -> A) l :
  (forall x, p (f x) = p x) -> length (retain p (f <$> l)) = length (retain p l).
Proof.
  intros Hp. induction l as [|x l IH]; simpl; [done|]. rewrite Hp.
  destruct (p x); simpl; [f_equal|]; exact IH.
Qed.

Lemma counted_fmap max l (f : A -> A) :
  counted max l -> (forall x, key (f x) = key x) -> counted max (f <$> l).
Proof.
  intros Hc Hf k. rewrite retain_length_fmap; [apply Hc|]. intros x. unfold of_key. by rewrite Hf.
Qed.

Lemma retain_length_insert (p : A -> bool) l i x y :
  l !! i = Some x -> p y = p x -> length (retain p (<[i := y]> l)) = length (retain p l).
Proof.
  intros Hi Hp. revert i Hi. induction l as [|z l IH]; intros [|i] Hi; simplify_eq/=.
  - rewrite Hp. by destruct (p x).
  - specialize (IH i Hi). destruct (p z); simpl; congruence.
Qed.

Lemma counted_insert max l i x y :
  counted max l -> l !! i = Some x -> key y = key x -> counted max (<[i := y]> l).
Proof.
  intros Hc Hi Hk k. rewrite (retain_length_insert _ _ _ x); [apply Hc|done|].
  unfold of_key. by rewrite Hk.
Qed.

Lemma counted_app max l x :
  counted max l -> (length (retain (of_key (key x)) l) < max)%nat -> counted max (l ++ [x]).
Proof.
  intros Hc Hx k. specialize (Hc k). rewrite retain_app, length_app. simpl.
  destruct (of_key k x) eqn:E; simpl; [|lia]. apply of_key_true in E as <-. lia.
Qed.

Lemma counted_app_iff max l x :
  counted max (l ++ [x]) <-> counted max l /\ (length (retain (of_key (key x)) l) < max)%nat.
Proof.
  split; [|intros [? ?]; by apply counted_app]. intros Hc. split.
  - eapply counted_sublist; [exact Hc|]. by apply sublist_inserts_r.
  - specialize (Hc (key x)). rewrite retain_app, length_app in Hc. simpl in Hc.
    rewrite (proj2 (of_key_true _ _) eq_refl) in Hc. simpl in Hc. lia.
Qed.

(** The loader counts the records that share the key of each record. *)
Lemma count_each (same : A -> A -> bool) max l :
  (forall x y, same x y = true <-> key y = key x) ->
  (forall x, x ∈ l -> (length (retain (same x) l) <= max)%nat) <-> counted max l.
Proof.
  intros Hs.
  assert (forall x, retain (same x) l = retain (of_key (key x)) l) as Hr.
  { intros x. induction l as [|y l IH]; simpl; [done|].
    assert (same x y = of_key (key x) y) as ->; [|by rewrite IH].
    apply eq_true_iff_eq. rewrite Hs, of_key_true. done. }
  split.
  - intros Hl k. destruct (retain (of_key k) l) as [|x rest] eqn:E; [simpl; lia|].
    assert (x ∈ retain (of_key k) l) as [Hx Hp]%elem_of_retain by (rewrite E; left).
    apply of_key_true in Hp as <-. rewrite <- E, <- Hr. by apply Hl.
  - intros Hc x _. rewrite Hr. apply Hc.
Qed.
End keyed.

Lemma any_with_rest_or_both {A} (f g : A -> list A -> bool) l :
  any_with_rest (fun x rest => f x rest || g x rest) l = false <->
  any_with_rest f l = false /\ any_with_rest g l = false.
Proof. induction l as [|x l IH]; simpl; [done|]. rewrite !orb_false_iff, IH. tauto. Qed.

(** ** Searches by a key *)

Lemma any_key {A K} `{EqDecision K} (key : A -> K) l k :
  any (fun x => key x == k) l = true <-> k ∈ key <$> l.
Proof.
  rewrite any_true, list_elem_of_fmap. split; intros (x & H1 & H2); exists x.
  - by apply bool_decide_eq_true in H2.
  - subst. split; [done|by apply bool_decide_eq_true].
Qed.

Lemma any_key2 {A} (key1 key2 : A -> string) l a b :
  any (fun x => (key1 x == a) && (key2 x == b)) l = true <-> (a, b) ∈ (fun x => (key1 x, key2 x)) <$> l.
Proof.
  rewrite any_true, list_elem_of_fmap. split; intros (x & H1 & H2); exists x.
  - guards. by subst.
  - simplify_eq. split; [done|]. by rewrite !bool_decide_eq_true_2.
Qed.

Lemma any_key2_swap {A} (key1 key2 : A -> string) l a b :
  any (fun x => (key1 x == a) && (key2 x == b)) l = true <-> (b, a) ∈ (fun x => (key2 x, key1 x)) <$> l.
Proof.
  rewrite any_true, list_elem_of_fmap. split; intros (x & H1 & H2); exists x.
  - guards. by subst.
  - simplify_eq. split; [done|]. by rewrite !bool_decide_eq_true_2.
Qed.

(** A key that no record of [l] has. *)
Lemma any_key_fresh {A K} `{EqDecision K} (key : A -> K) l k :
  any (fun x => key x == k) l = false <-> k ∉ key <$> l.
Proof. rewrite <- any_key. symmetry. apply not_true_iff_false. Qed.

(** The loader's check in any order of its tests, and with any reading of the
    condition. *)
Lemma keyed_reflect {A K} (g : A -> list A -> bool) (f : A -> bool) (same : A -> A -> bool)
    (P : A -> Prop) (key : A -> K) l :
  (forall x rest, g x rest = f x || any (same x) rest) ->
  (forall x y, same x y = true <-> key y = key x) ->
  (forall x, f x = false <-> P x) ->
  any_with_rest g l = false <-> keyed P key l.
Proof.
  intros Hg Hs Hf. rewrite (any_with_rest_ext g _ l Hg), (keyed_check key f same l Hs).
  split; intros Hk; (eapply keyed_impl; [exact Hk|]); intros x _; by rewrite Hf.
Qed.

Lemma all_with_rest_negb {A} (g : A -> list A -> bool) l :
  all_with_rest (fun x rest => negb (g x rest)) l = negb (any_with_rest g l).
Proof. induction l as [|x l IH]; simpl; [done|]. rewrite IH. by destruct (g x l). Qed.

(** Every key occurs once. *)
Lemma counts_one {A} (key : A -> string) l :
  (forall x, x ∈ l -> length (retain (of_key key (key x)) l) = 1) <-> NoDup (key <$> l).
Proof.
  assert (forall k l, k ∉ key <$> l -> retain (of_key key k) l = []) as Hnone.
  { intros k l'. induction l' as [|y l' IH]; [done|]. cbn. rewrite elem_of_cons. intros Hn.
    rewrite IH by tauto. destruct (of_key key k y) eqn:E; [|done]. apply of_key_true in E. naive_solver. }
  induction l as [|x l IH]; simpl.
  { split; [intros; apply NoDup_nil_2|by intros _ ? ?%not_elem_of_nil]. }
  rewrite list.NoDup_cons. split.
  - intros Hl. pose proof (Hl x ltac:(left)) as Hx. rewrite (proj2 (of_key_true _ _ _) eq_refl) in Hx.
    simpl in Hx. injection Hx as Hx. apply nil_length_inv in Hx.
    assert (key x ∉ key <$> l) as Hn.
    { intros (y & Hy & Hin)%list_elem_of_fmap. assert (y ∈ retain (of_key key (key x)) l) as Hr.
      { apply elem_of_retain. split; [done|]. by apply of_key_true. }
      rewrite Hx in Hr. by apply not_elem_of_nil in Hr. }
    split; [done|]. apply IH. intros y Hy. pose proof (Hl y ltac:(by right)) as Hc.
    destruct (of_key key (key y) x) eqn:E; [|done]. apply of_key_true in E.
    destruct Hn. apply list_elem_of_fmap. eauto.
  - intros [Hn Hu] y [->|Hy]%elem_of_cons.
    + rewrite (proj2 (of_key_true _ _ _) eq_refl). simpl. by rewrite Hnone.
    + destruct (of_key key (key y) x) eqn:E; [|by apply IH]. apply of_key_true in E.
      destruct Hn. apply list_elem_of_fmap. eauto.
Qed.

(** ** Checks on mapped vectors *)

Lemma any_fmap {A B} (p : B -> bool) (f : A -> B) l : any p (f <$> l) = any (fun x => p (f x)) l.
Proof. induction l as [|x l IH]; simpl; [done|]. by rewrite <- IH. Qed.

Lemma all_with_rest_fmap {A B} (f : A -> B) (g : B -> list B -> bool) l :
  all_with_rest g (f <$> l) = all_with_rest (fun x rest => g (f x) (f <$> rest)) l.
Proof. induction l as [|x l IH]; simpl; [done|]. by rewrite <- IH. Qed.

Lemma all_with_rest_ext {A} (f g : A -> list A -> bool) l :
  (forall x rest, f x rest = g x rest) -> all_with_rest f l = all_with_rest g l.
Proof. intros Hfg. induction l as [|x l IH]; simpl; [done|]. by rewrite Hfg, IH. Qed.

(** The keys after an upsert that keeps the key of what it replaces. *)
Lemma upsert_keys {A K} (key : A -> K) (p : A -> bool) l x :
  (forall i y, position p l = Some (i, y) -> key x = key y) ->
  (forall k, k ∈ key <$> l ->
     k ∈ key <$> match position p l with Some (i, _) => <[i := x]> l | None => l ++ [x] end)
  /\ key x ∈ key <$> match position p l with Some (i, _) => <[i := x]> l | None => l ++ [x] end.
Proof.
  intros Hx. destruct (position p l) as [[i y]|] eqn:E.
  - specialize (Hx i y eq_refl). apply position_Some in E as [Hi _].
    rewrite (fmap_insert_same key _ i y) by done. split; [done|]. rewrite Hx.
    apply list_elem_of_fmap. eauto using list_elem_of_lookup_2.
  - rewrite fmap_app. split; [intros k Hk; apply elem_of_app; by left|]. apply elem_of_app. right. by left.
Qed.

Lemma counted_upsert {A K} `{EqDecision K} (key : A -> K) (p : A -> bool) max l x :
  counted key max l ->
  (forall i y, position p l = Some (i, y) -> key x = key y) ->
  (position p l = None -> (length (retain (of_key key (key x)) l) < max)%nat) ->
  counted key max (match position p l with Some (i, _) => <[i := x]> l | None => l ++ [x] end).
Proof.
  intros Hc Hx Hn. destruct (position p l) as [[i y]|] eqn:E.
  - specialize (Hx i y eq_refl). apply position_Some in E as [Hi _]. by eapply counted_insert.
  - apply counted_app; auto.
Qed.

Lemma keyed_perm {A K} (P : A -> Prop) (key : A -> K) l k : l ≡ₚ k -> keyed P key l -> keyed P key k.
Proof.
  intros Hp [He Hu]. split.
  - intros x Hx. apply He. by rewrite Hp.
  - by rewrite <- Hp.
Qed.

(** [find_mut] finds what [position] finds. *)
Lemma find_mut_Some {A} (p : A -> bool) f l x k :
  find_mut p f l = Some (x, k) ->
  exists i y, position p l = Some (i, y) /\ x = f y /\ k = <[i := f y]> l.
Proof.
  rewrite find_mut_position. destruct (position p l) as [[i y]|]; [|done]. intros [= <- <-]. eauto.
Qed.

Lemma elem_of_insert_ne {A} (l : list A) i x y z : l !! i = Some x -> z ∈ l -> z <> x -> z ∈ <[i := y]> l.
Proof.
  intros Hi [j Hj]%list_elem_of_lookup_1 Hne. apply list_elem_of_lookup. exists j.
  rewrite list_lookup_insert_ne; [done|congruence].
Qed.

Lemma elem_of_insert_eq {A} (l : list A) i x y : l !! i = Some x -> y ∈ <[i := y]> l.
Proof.
  intros Hi. apply list_elem_of_lookup. exists i. apply list_lookup_insert_eq. by eapply lookup_lt_Some.
Qed.

(** ** Pairs of records that exclude each other *)

Section apart.
Context {A : Type} (r : A -> A -> bool).

(** No record is related to a later one. *)
Definition apart (l : list A) : Prop := any_with_rest (fun x rest => any (r x) rest) l = false.

Lemma apart_cons x l : apart (x :: l) <-> (forall y, y ∈ l -> r x y = false) /\ apart l.
Proof. unfold apart. simpl. by rewrite orb_false_iff, any_false. Qed.

Lemma apart_retain p l : apart l -> apart (retain p l).
Proof.
  induction l as [|x l IH]; [done|]. rewrite apart_cons. intros [Hx Hl]. simpl.
  destruct (p x); [|auto]. apply apart_cons. split; [|auto]. intros y [Hy _]%elem_of_retain. auto.
Qed.

Lemma apart_app l x : apart l -> (forall y, y ∈ l -> r y x = false) -> apart (l ++ [x]).
Proof.
  induction l as [|y l IH]; simpl; [done|]. rewrite !apart_cons. intros [Hy Hl] Hx. split.
  - intros z [Hz| ->%list_elem_of_singleton]%elem_of_app; [auto|]. apply Hx. by left.
  - apply IH; [done|]. intros z Hz. apply Hx. by right.
Qed.

Lemma apart_insert l i x y :
  apart l -> l !! i = Some x -> (forall z, r z y = r z x) -> (forall z, r y z = r x z) ->
  apart (<[i := y]> l).
Proof.
  intros Hl Hi H1 H2. revert i Hi Hl. induction l as [|z l IH]; intros [|i] Hi; simplify_eq/=;
    rewrite !apart_cons; intros [Hz Hl].
  - split; [|done]. intros w Hw. rewrite H2. auto.
  - split; [|by apply IH]. intros w [->|Hw]%elem_of_insert_list; [|auto].
    rewrite H1. apply Hz. by eapply list_elem_of_lookup_2.
Qed.
End apart.
