(* ===== verification/Text.v ===== *)
(** * Rust strings

    A [str] is its UTF-8 bytes.  [len] counts bytes; [chars] decodes scalar
    values, on which [trim] and [char::is_control] are defined.  A [str] is
    valid UTF-8 by its type, so [chars] does not report malformed input: a
    truncated character is passed through byte by byte. *)

From S2P Require Import Prelude.
From Stdlib Require Import Ascii.

Definition bytes (s : string) : list N := N_of_ascii <$> String.list_ascii_of_string s.

(** [str::len] *)
Definition len (s : string) : N := N.of_nat (String.length s).

Definition str_is_empty (s : string) : bool :=
  match s with EmptyString => true | String _ _ => false end.

Definition in_range (lo hi b : N) : bool := ((lo <=? b) && (b <=? hi))%N.

Definition is_ascii_lowercase (b : N) : bool := in_range 97 122 b.
Definition is_ascii_uppercase (b : N) : bool := in_range 65 90 b.
Definition is_ascii_digit (b : N) : bool := in_range 48 57 b.
Definition is_ascii_alphanumeric (b : N) : bool :=
  is_ascii_lowercase b || is_ascii_uppercase b || is_ascii_digit b.
Definition is_ascii_control (b : N) : bool := (b <? 32)%N || (b =? 127)%N.

(** The bytes of each character.  A truncated last character is cut into
    single bytes. *)
Fixpoint utf8_chunks (bs : list N) : list (list N) :=
  match bs with
  | [] => []
  | b :: rest =>
      if (b <? 192)%N then [b] :: utf8_chunks rest
      else match rest with
      | b1 :: rest1 =>
          if (b <? 224)%N then [b; b1] :: utf8_chunks rest1
          else match rest1 with
          | b2 :: rest2 =>
              if (b <? 240)%N then [b; b1; b2] :: utf8_chunks rest2
              else match rest2 with
              | b3 :: rest3 => [b; b1; b2; b3] :: utf8_chunks rest3
              | [] => [b] :: utf8_chunks rest
              end
          | [] => [b] :: utf8_chunks rest
          end
      | [] => [b] :: utf8_chunks rest
      end
  end.

(** The scalar value of one encoded character. *)
Definition utf8_scalar (chunk : list N) : N :=
  let tail b := N.land b 63 in
  match chunk with
  | [b; b1] => N.lor (N.shiftl (N.land b 31) 6) (tail b1)
  | [b; b1; b2] => N.lor (N.shiftl (N.land b 15) 12) (N.lor (N.shiftl (tail b1) 6) (tail b2))
  | [b; b1; b2; b3] =>
      N.lor (N.shiftl (N.land b 7) 18)
        (N.lor (N.shiftl (tail b1) 12) (N.lor (N.shiftl (tail b2) 6) (tail b3)))
  | b :: _ => b
  | [] => 0%N
  end.

(** [str::chars] *)
Definition chars (s : string) : list N := utf8_scalar <$> utf8_chunks (bytes s).

(** [str::chars().count()] *)
Definition chars_count (s : string) : N := N.of_nat (length (chars s)).

(** [char::is_control]: general category Cc. *)
Definition is_control (c : N) : bool := (c <? 32)%N || in_range 127 159 c.

(** [char::is_whitespace]: the White_Space property. *)
Definition is_whitespace (c : N) : bool :=
  in_range 9 13 c || (c =? 32)%N || (c =? 133)%N || (c =? 160)%N || (c =? 5760)%N ||
  in_range 8192 8202 c || (c =? 8232)%N || (c =? 8233)%N || (c =? 8239)%N ||
  (c =? 8287)%N || (c =? 12288)%N.

(** [value.trim().is_empty()] *)
Definition trim_is_empty (s : string) : bool := all is_whitespace (chars s).

(** [str::trim] *)
Definition string_of_bytes (bs : list N) : string :=
  String.string_of_list_ascii (ascii_of_N <$> bs).
Definition blank_chunk (chunk : list N) : bool := is_whitespace (utf8_scalar chunk).
Definition trim_chunks (chunks : list (list N)) : list (list N) :=
  rev (skip_while blank_chunk (rev (skip_while blank_chunk chunks))).
Definition trim (s : string) : string :=
  string_of_bytes (concat (trim_chunks (utf8_chunks (bytes s)))).

(** [str::contains] for an ASCII character. *)
Definition contains_byte (b : N) (s : string) : bool := any (N.eqb b) (bytes s).

(** [split(b)] for an ASCII separator, on the bytes. *)
Fixpoint split_bytes (sep : N) (bs : list N) : list (list N) :=
  match bs with
  | [] => [[]]
  | b :: rest =>
      if (b =? sep)%N then [] :: split_bytes sep rest
      else match split_bytes sep rest with
           | part :: parts => (b :: part) :: parts
           | [] => [[b]]
           end
  end.

(** [value.trim() == value] *)
Definition is_trimmed (s : string) : bool :=
  negb (is_some_and (head (chars s)) is_whitespace) &&
  negb (is_some_and (list.last (chars s)) is_whitespace).

(** [str::strip_prefix] *)
Fixpoint strip_prefix (pre s : string) : option string :=
  match pre, s with
  | EmptyString, _ => Some s
  | String a pre', String b s' => if a == b then strip_prefix pre' s' else None
  | String _ _, EmptyString => None
  end.

Definition starts_with (pre s : string) : bool := is_some (strip_prefix pre s).

(** [windows(2)] *)
Fixpoint windows2 {A} (l : list A) : list (A * A) :=
  match l with
  | a :: ((b :: _) as rest) => (a, b) :: windows2 rest
  | _ => []
  end.

Lemma strip_prefix_Some pre s rest :
  strip_prefix pre s = Some rest <-> s = (pre ++ rest)%string.
Proof.
  revert s. induction pre as [|a pre IH]; intros s; simpl.
  { change ("" +:+ rest) with rest. split; congruence. }
  change (String a pre +:+ rest) with (String a (pre +:+ rest)).
  destruct s as [|b s]; [by split|].
  case_bool_decide as E; [rewrite IH; subst; split; congruence|split; congruence].
Qed.

Lemma str_is_empty_true s : str_is_empty s = true <-> s = ""%string.
Proof. destruct s; simpl; split; congruence. Qed.

(** ** Trimming *)

(** Where the first character of a byte sequence ends. *)
Definition chunk_width (bs : list N) : nat :=
  match bs with
  | [] => 0
  | b :: _ =>
      let w := if (b <? 192)%N then 1 else if (b <? 224)%N then 2
               else if (b <? 240)%N then 3 else 4 in
      if (w <=? length bs)%nat then w else 1
  end.

#[local] Arguments chunk_width : simpl never.

Lemma utf8_chunks_step b rest :
  utf8_chunks (b :: rest) =
  take (chunk_width (b :: rest)) (b :: rest)
  :: utf8_chunks (drop (chunk_width (b :: rest)) (b :: rest)).
Proof.
  unfold chunk_width. simpl. destruct (b <? 192)%N; [done|].
  destruct rest as [|b1 rest]; [by repeat case_match|]. destruct (b <? 224)%N; [done|].
  destruct rest as [|b2 rest]; [by repeat case_match|]. destruct (b <? 240)%N; [done|].
  by destruct rest as [|b3 rest].
Qed.

(** [injection] would unfold the widths. *)
Lemma cons_inj {A} (x y : A) l k : x :: l = y :: k -> x = y /\ l = k.
Proof. by intros [= -> ->]. Qed.

Lemma chunk_width_pos b rest : 0 < chunk_width (b :: rest) <= length (b :: rest).
Proof. unfold chunk_width. simpl. repeat case_match; rewrite ?Nat.leb_le in *; simpl in *; lia. Qed.

(** A sequence of characters that decodes to itself. *)
Definition chunked (chunks : list (list N)) : Prop := utf8_chunks (concat chunks) = chunks.

Lemma utf8_chunks_concat bs : concat (utf8_chunks bs) = bs.
Proof.
  remember (length bs) as n eqn:Hn. revert bs Hn.
  induction n as [n IH] using lt_wf_ind. intros [|b rest] ->; [done|].
  rewrite utf8_chunks_step. cbn [concat]. pose proof (chunk_width_pos b rest) as Hw.
  rewrite (IH (length (drop (chunk_width (b :: rest)) (b :: rest)))); [|rewrite length_drop; lia|done]. apply take_drop.
Qed.

Lemma utf8_chunks_chunked bs : chunked (utf8_chunks bs).
Proof. unfold chunked. by rewrite utf8_chunks_concat. Qed.

Lemma chunked_tail c cs : chunked (c :: cs) -> chunked cs /\ c <> [].
Proof.
  unfold chunked. cbn [concat]. destruct (c ++ concat cs) as [|b rest] eqn:E; [done|].
  rewrite utf8_chunks_step. pose proof (chunk_width_pos b rest) as Hw.
  intros [Hc Hcs]%cons_inj. subst c. split.
  - rewrite <- Hcs at 2. f_equal.
    apply (app_inv_head (take (chunk_width (b :: rest)) (b :: rest))).
    by rewrite E, take_drop.
  - destruct (chunk_width (b :: rest)); [lia|done].
Qed.

Lemma chunk_width_prefix b xs ys :
  chunk_width (b :: xs ++ ys) <= length (b :: xs) ->
  chunk_width (b :: xs) = chunk_width (b :: xs ++ ys).
Proof.
  unfold chunk_width. simpl. rewrite length_app.
  repeat case_match; rewrite ?Nat.leb_le, ?Nat.leb_nle in *; simpl in *; lia.
Qed.

Lemma chunked_snoc cs c : chunked (cs ++ [c]) -> chunked cs.
Proof.
  induction cs as [|d ds IH]; [done|]. intros H. cbn [app] in H.
  pose proof H as [Htail Hne]%chunked_tail. apply IH in Htail.
  unfold chunked in *. cbn [concat] in *. rewrite concat_app, app_assoc in H.
  destruct d as [|b d]; [done|]. cbn [app] in *.
  rewrite utf8_chunks_step in H. apply cons_inj in H as [Hd _].
  set (w := chunk_width (b :: (d ++ concat ds) ++ concat [c])) in *.
  pose proof (chunk_width_pos b ((d ++ concat ds) ++ concat [c])) as Hw. fold w in Hw.
  assert (w = length (b :: d)) as Hlen.
  { rewrite <- Hd, length_take. lia. }
  assert (chunk_width (b :: d ++ concat ds) = w) as Hw'.
  { unfold w. apply chunk_width_prefix. fold w. rewrite Hlen. simpl. rewrite length_app. lia. }
  rewrite utf8_chunks_step, Hw', Hlen.
  change (b :: d ++ concat ds) with ((b :: d) ++ concat ds).
  by rewrite take_app_length, drop_app_length, Htail.
Qed.

Lemma chunked_skip cs : chunked cs -> chunked (skip_while blank_chunk cs).
Proof.
  induction cs as [|c cs IH]; [done|]. simpl.
  destruct (blank_chunk c); [|done]. intros [H _]%chunked_tail. by apply IH.
Qed.

Lemma chunked_skip_rev cs : chunked cs -> chunked (rev (skip_while blank_chunk (rev cs))).
Proof.
  induction cs as [|c cs IH] using rev_ind; [done|]. intros H. rewrite rev_app_distr. simpl.
  destruct (blank_chunk c).
  - apply IH. by eapply chunked_snoc.
  - cbn [rev]. by rewrite rev_involutive.
Qed.

Lemma bytes_of_bytes bs : Forall (fun b => (b < 256)%N) bs -> bytes (string_of_bytes bs) = bs.
Proof.
  unfold bytes, string_of_bytes. rewrite String.list_ascii_of_string_of_list_ascii.
  induction 1 as [|b bs Hb _ IH]; [done|]. cbn. f_equal; [|exact IH]. by apply N_ascii_embedding.
Qed.

Lemma bytes_bounded s : Forall (fun b => (b < 256)%N) (bytes s).
Proof.
  unfold bytes. apply Forall_fmap, list.Forall_true. intros a. apply N_ascii_bounded.
Qed.

Lemma elem_of_rev {A} (x : A) l : x ∈ rev l <-> x ∈ l.
Proof. rewrite !list_elem_of_In. symmetry. apply in_rev. Qed.

Lemma skip_while_suffix {A} (p : A -> bool) l : skip_while p l `suffix_of` l.
Proof.
  induction l as [|x l IH]; simpl; [done|]. destruct (p x); [|done].
  by apply suffix_cons_r.
Qed.

Lemma trim_chunks_elem chunks c : c ∈ trim_chunks chunks -> c ∈ chunks.
Proof.
  unfold trim_chunks. rewrite elem_of_rev.
  destruct (skip_while_suffix blank_chunk chunks) as [k Hk].
  destruct (skip_while_suffix blank_chunk (rev (skip_while blank_chunk chunks))) as [k' Hk'].
  intros Hc. rewrite Hk, elem_of_app. right. rewrite <- elem_of_rev, Hk', elem_of_app. by right.
Qed.

(** A trimmed text that is not empty has a character that is not blank. *)
Lemma trim_not_blank s : str_is_empty (trim s) = false -> trim_is_empty (trim s) = false.
Proof.
  set (cs := trim_chunks (utf8_chunks (bytes s))).
  assert (chunked cs) as Hcs by apply chunked_skip_rev, chunked_skip, utf8_chunks_chunked.
  assert (bytes (trim s) = concat cs) as Hb.
  { apply bytes_of_bytes. rewrite list.Forall_forall. intros b Hb.
    apply list_elem_of_In, in_concat in Hb as (c & Hc & Hb).
    apply list_elem_of_In in Hc. apply trim_chunks_elem in Hc.
    pose proof (bytes_bounded s) as Hall. rewrite list.Forall_forall in Hall. apply Hall.
    rewrite <- (utf8_chunks_concat (bytes s)). apply list_elem_of_In, in_concat. exists c.
    by rewrite <- list_elem_of_In. }
  unfold trim_is_empty, chars. rewrite Hb, Hcs. intros Hne.
  destruct (all is_whitespace (utf8_scalar <$> cs)) eqn:Hall; [|done]. exfalso.
  rewrite all_true in Hall. unfold cs, trim_chunks in *.
  destruct (skip_while blank_chunk (rev (skip_while _ _))) as [|c l] eqn:Hl.
  - apply (f_equal length) in Hb. simpl in Hb. unfold bytes in Hb.
    rewrite length_fmap in Hb. by destruct (trim s).
  - pose proof (skip_while_head blank_chunk _ c (f_equal head Hl)) as Hc.
    assert (blank_chunk c = true); [|congruence].
    apply Hall, list_elem_of_fmap_2, elem_of_rev. by left.
Qed.
