(* ===== verification/Domain.v ===== *)
(** * Domain records

    The durable data of TermLoop, from [src/modules/domain/src]: one record or
    inductive type per Rust [struct] or [enum], same fields in the same order.
    A field [f] of a struct carries a short prefix naming the struct ([t_] for
    [TaskRecord], [co_] for [WorktreeCleanupOperation], ...); a variant carries
    one naming its enum.  [u64], [u32], [u8] and [usize] are [N], [String] is a byte
    string, [Vec] a list. *)

From S2P Require Import Prelude.

(** ** Projects and Tasks *)

Record ProjectRecord : Type := MkProjectRecord {
  p_id : string;
  p_name : string;
  p_folder_path : string
}.
#[export] Instance ProjectRecord_eq_dec : EqDecision ProjectRecord.
Proof. solve_decision. Defined.
#[export] Instance ProjectRecord_eta : Eta ProjectRecord := fun r =>
  MkProjectRecord (p_id r) (p_name r) (p_folder_path r).

Inductive TaskStatus : Type :=
| TaskStatus_Open | TaskStatus_Closed.
#[export] Instance TaskStatus_eq_dec : EqDecision TaskStatus.
Proof. solve_decision. Defined.

Record TaskBranchBinding : Type := MkTaskBranchBinding {
  tb_repository_root : string;
  tb_name : string
}.
#[export] Instance TaskBranchBinding_eq_dec : EqDecision TaskBranchBinding.
Proof. solve_decision. Defined.
#[export] Instance TaskBranchBinding_eta : Eta TaskBranchBinding := fun r =>
  MkTaskBranchBinding (tb_repository_root r) (tb_name r).

Record TaskWorktreeBinding : Type := MkTaskWorktreeBinding {
  tw_path : string
}.
#[export] Instance TaskWorktreeBinding_eq_dec : EqDecision TaskWorktreeBinding.
Proof. solve_decision. Defined.
#[export] Instance TaskWorktreeBinding_eta : Eta TaskWorktreeBinding := fun r =>
  MkTaskWorktreeBinding (tw_path r).

Record TaskDeveloperNote : Type := MkTaskDeveloperNote {
  dn_id : string;
  dn_text : string;
  dn_completed : bool
}.
#[export] Instance TaskDeveloperNote_eq_dec : EqDecision TaskDeveloperNote.
Proof. solve_decision. Defined.
#[export] Instance TaskDeveloperNote_eta : Eta TaskDeveloperNote := fun r =>
  MkTaskDeveloperNote (dn_id r) (dn_text r) (dn_completed r).

Record TaskRecord : Type := MkTaskRecord {
  t_id : string;
  t_project_id : string;
  t_title : string;
  t_brief : option string;
  t_developer_notes : list TaskDeveloperNote;
  t_status : TaskStatus;
  t_archived_at_epoch_ms : option N;
  t_branch : option TaskBranchBinding;
  t_worktree : option TaskWorktreeBinding;
  t_worktree_generation : N;
  t_steward_brief_markdown : string;
  t_steward_brief_revision : N;
  t_rank : N;
  t_created_at_epoch_ms : N;
  t_updated_at_epoch_ms : N
}.
#[export] Instance TaskRecord_eq_dec : EqDecision TaskRecord.
Proof. solve_decision. Defined.
#[export] Instance TaskRecord_eta : Eta TaskRecord := fun r =>
  MkTaskRecord (t_id r) (t_project_id r) (t_title r) (t_brief r) (t_developer_notes r) (t_status
    r) (t_archived_at_epoch_ms r) (t_branch r) (t_worktree r) (t_worktree_generation r)
    (t_steward_brief_markdown r) (t_steward_brief_revision r) (t_rank r) (t_created_at_epoch_ms
    r) (t_updated_at_epoch_ms r).

(** ** Worktree provisioning *)

Inductive ProvisioningBranchMode : Type :=
| BranchMode_Existing | BranchMode_Create.
#[export] Instance ProvisioningBranchMode_eq_dec : EqDecision ProvisioningBranchMode.
Proof. solve_decision. Defined.

Record NormalizedWorktreeSpec : Type := MkNormalizedWorktreeSpec {
  ws_version : N;
  ws_repository_root : string;
  ws_repository_common_dir : string;
  ws_destination_path : string;
  ws_branch_name : string;
  ws_branch_mode : ProvisioningBranchMode;
  ws_base_ref : option string;
  ws_base_oid : option string
}.
#[export] Instance NormalizedWorktreeSpec_eq_dec : EqDecision NormalizedWorktreeSpec.
Proof. solve_decision. Defined.
#[export] Instance NormalizedWorktreeSpec_eta : Eta NormalizedWorktreeSpec := fun r =>
  MkNormalizedWorktreeSpec (ws_version r) (ws_repository_root r) (ws_repository_common_dir r)
    (ws_destination_path r) (ws_branch_name r) (ws_branch_mode r) (ws_base_ref r) (ws_base_oid
    r).

Inductive ProvisioningStage : Type :=
| PS_Reserved | PS_BranchCreated | PS_WorktreeAdded | PS_BindingCommitted.
#[export] Instance ProvisioningStage_eq_dec : EqDecision ProvisioningStage.
Proof. solve_decision. Defined.

Inductive ProvisioningFailureKind : Type :=
| PF_GitUnavailable | PF_UnsupportedGit | PF_PermissionDenied | PF_RepositoryUnavailable
| PF_BranchConflict | PF_PathConflict | PF_WorktreeLocked | PF_Timeout | PF_OutputLimit
| PF_RecoveryAttention | PF_OperationFailed.
#[export] Instance ProvisioningFailureKind_eq_dec : EqDecision ProvisioningFailureKind.
Proof. solve_decision. Defined.

Record WorktreeProvisioningOperation : Type := MkWorktreeProvisioningOperation {
  po_operation_id : string;
  po_task_id : string;
  po_project_id : string;
  po_spec : NormalizedWorktreeSpec;
  po_stage : ProvisioningStage;
  po_created_branch_ref : bool;
  po_failure : option ProvisioningFailureKind;
  po_started_at_epoch_ms : N;
  po_updated_at_epoch_ms : N
}.
#[export] Instance WorktreeProvisioningOperation_eq_dec : EqDecision WorktreeProvisioningOperation.
Proof. solve_decision. Defined.
#[export] Instance WorktreeProvisioningOperation_eta : Eta WorktreeProvisioningOperation := fun r =>
  MkWorktreeProvisioningOperation (po_operation_id r) (po_task_id r) (po_project_id r) (po_spec
    r) (po_stage r) (po_created_branch_ref r) (po_failure r) (po_started_at_epoch_ms r)
    (po_updated_at_epoch_ms r).

Record ManagedWorktreeProof : Type := MkManagedWorktreeProof {
  mw_task_id : string;
  mw_operation_id : string;
  mw_worktree_generation : N;
  mw_normalized_spec_version : N;
  mw_normalized_spec : NormalizedWorktreeSpec;
  mw_repository_common_dir : string;
  mw_registered_worktree_path : string;
  mw_branch_ref : string
}.
#[export] Instance ManagedWorktreeProof_eq_dec : EqDecision ManagedWorktreeProof.
Proof. solve_decision. Defined.
#[export] Instance ManagedWorktreeProof_eta : Eta ManagedWorktreeProof := fun r =>
  MkManagedWorktreeProof (mw_task_id r) (mw_operation_id r) (mw_worktree_generation r)
    (mw_normalized_spec_version r) (mw_normalized_spec r) (mw_repository_common_dir r)
    (mw_registered_worktree_path r) (mw_branch_ref r).

(** ** Worktree cleanup *)

Inductive WorktreeCleanupStage : Type :=
| CS_Reserved | CS_RemovePrepared | CS_RemovalVerified | CS_BindingCleared.
#[export] Instance WorktreeCleanupStage_eq_dec : EqDecision WorktreeCleanupStage.
Proof. solve_decision. Defined.

Inductive WorktreeCleanupFailureKind : Type :=
| CF_Refused | CF_ManagedProofChanged | CF_RepositoryUnavailable | CF_PermissionDenied
| CF_UnsupportedGit | CF_Timeout | CF_OutputLimit | CF_CheckoutContentAppeared
| CF_RemovalFailed | CF_RecoveryAttention | CF_OperationFailed.
#[export] Instance WorktreeCleanupFailureKind_eq_dec : EqDecision WorktreeCleanupFailureKind.
Proof. solve_decision. Defined.

Inductive WorktreeCleanupMode : Type :=
| CM_Safe | CM_DiscardCheckoutContent.
#[export] Instance WorktreeCleanupMode_eq_dec : EqDecision WorktreeCleanupMode.
Proof. solve_decision. Defined.

Inductive WorktreeCleanupBlocker : Type :=
| CB_NoBinding | CB_ProvisioningInProgress | CB_CleanupInProgress | CB_ManagedProofMissing
| CB_ManagedProofMismatch | CB_PathReplaced | CB_PathRegistrationInconsistent
| CB_OrphanedManagedDirectory | CB_RegistrationMismatch | CB_BranchMismatch | CB_HeadMismatch
| CB_SessionAttached | CB_TrackedChanges | CB_StagedChanges | CB_UntrackedContent
| CB_IgnoredContent | CB_SubmodulePresent | CB_WorktreeLock | CB_IndexLock
| CB_RepositoryUnavailable | CB_PermissionDenied | CB_UnsupportedGit | CB_Timeout
| CB_OutputLimit | CB_ObservationFailed | CB_RecoveryAttention.
#[export] Instance WorktreeCleanupBlocker_eq_dec : EqDecision WorktreeCleanupBlocker.
Proof. solve_decision. Defined.

Record WorktreeCleanupFailure : Type := MkWorktreeCleanupFailure {
  cf_kind : WorktreeCleanupFailureKind;
  cf_blockers : list WorktreeCleanupBlocker
}.
#[export] Instance WorktreeCleanupFailure_eq_dec : EqDecision WorktreeCleanupFailure.
Proof. solve_decision. Defined.
#[export] Instance WorktreeCleanupFailure_eta : Eta WorktreeCleanupFailure := fun r =>
  MkWorktreeCleanupFailure (cf_kind r) (cf_blockers r).

Inductive WorktreeCleanupOutcome : Type :=
| CO_Removed | CO_BindingCleared.
#[export] Instance WorktreeCleanupOutcome_eq_dec : EqDecision WorktreeCleanupOutcome.
Proof. solve_decision. Defined.

Record WorktreeCleanupBaseline : Type := MkWorktreeCleanupBaseline {
  cb_repository_root : string;
  cb_repository_common_dir : string;
  cb_worktree_path : string;
  cb_registered_worktree_path : string;
  cb_branch_ref : string;
  cb_checkout_branch_ref : option string;
  cb_head_oid : string
}.
#[export] Instance WorktreeCleanupBaseline_eq_dec : EqDecision WorktreeCleanupBaseline.
Proof. solve_decision. Defined.
#[export] Instance WorktreeCleanupBaseline_eta : Eta WorktreeCleanupBaseline := fun r =>
  MkWorktreeCleanupBaseline (cb_repository_root r) (cb_repository_common_dir r)
    (cb_worktree_path r) (cb_registered_worktree_path r) (cb_branch_ref r)
    (cb_checkout_branch_ref r) (cb_head_oid r).

Record WorktreeCleanupOperation : Type := MkWorktreeCleanupOperation {
  co_operation_id : string;
  co_task_id : string;
  co_worktree_generation : N;
  co_managed_worktree_operation_id : string;
  co_cleanup_mode : WorktreeCleanupMode;
  co_acknowledged_content_blockers : list WorktreeCleanupBlocker;
  co_baseline : WorktreeCleanupBaseline;
  co_stage : WorktreeCleanupStage;
  co_failure : option WorktreeCleanupFailure;
  co_started_at_epoch_ms : N;
  co_updated_at_epoch_ms : N
}.
#[export] Instance WorktreeCleanupOperation_eq_dec : EqDecision WorktreeCleanupOperation.
Proof. solve_decision. Defined.
#[export] Instance WorktreeCleanupOperation_eta : Eta WorktreeCleanupOperation := fun r =>
  MkWorktreeCleanupOperation (co_operation_id r) (co_task_id r) (co_worktree_generation r)
    (co_managed_worktree_operation_id r) (co_cleanup_mode r) (co_acknowledged_content_blockers
    r) (co_baseline r) (co_stage r) (co_failure r) (co_started_at_epoch_ms r)
    (co_updated_at_epoch_ms r).

Record WorktreeCleanupReceipt : Type := MkWorktreeCleanupReceipt {
  cr_operation_id : string;
  cr_task_id : string;
  cr_worktree_generation : N;
  cr_managed_worktree_operation_id : string;
  cr_cleanup_mode : WorktreeCleanupMode;
  cr_acknowledged_content_blockers : list WorktreeCleanupBlocker;
  cr_outcome : WorktreeCleanupOutcome;
  cr_completed_at_epoch_ms : N
}.
#[export] Instance WorktreeCleanupReceipt_eq_dec : EqDecision WorktreeCleanupReceipt.
Proof. solve_decision. Defined.
#[export] Instance WorktreeCleanupReceipt_eta : Eta WorktreeCleanupReceipt := fun r =>
  MkWorktreeCleanupReceipt (cr_operation_id r) (cr_task_id r) (cr_worktree_generation r)
    (cr_managed_worktree_operation_id r) (cr_cleanup_mode r) (cr_acknowledged_content_blockers
    r) (cr_outcome r) (cr_completed_at_epoch_ms r).

(** ** Stale worktree resolution *)

Inductive WorktreeStaleResolutionMode : Type :=
| SM_ForgetBinding | SM_DiscardDirectory.
#[export] Instance WorktreeStaleResolutionMode_eq_dec : EqDecision WorktreeStaleResolutionMode.
Proof. solve_decision. Defined.

Inductive WorktreeStaleResolutionStage : Type :=
| SS_Reserved | SS_RemovalPrepared | SS_RemovalInvoked | SS_RemovalVerified.
#[export] Instance WorktreeStaleResolutionStage_eq_dec : EqDecision WorktreeStaleResolutionStage.
Proof. solve_decision. Defined.

Inductive WorktreeStaleResolutionFailureKind : Type :=
| SF_Refused | SF_ManagedProofChanged | SF_PermissionDenied | SF_RemovalFailed
| SF_VerificationFailed | SF_RecoveryAttention | SF_OperationFailed.
#[export] Instance WorktreeStaleResolutionFailureKind_eq_dec : EqDecision WorktreeStaleResolutionFailureKind.
Proof. solve_decision. Defined.

Inductive WorktreeStaleResolutionBlocker : Type :=
| SB_NoBinding | SB_ManagedProofMissing | SB_ManagedProofMismatch | SB_ProvisioningInProgress
| SB_CleanupInProgress | SB_RepairInProgress | SB_StaleDisposalInProgress
| SB_RepositoryUnavailable | SB_CommonRepositoryChanged | SB_PathAbsent | SB_PathReplaced
| SB_RegistrationPresent | SB_BranchMissing | SB_GitMetadataPresent | SB_SessionAttached
| SB_ProtectedPath | SB_PermissionDenied | SB_Timeout | SB_ObservationFailed
| SB_RecoveryAttention.
#[export] Instance WorktreeStaleResolutionBlocker_eq_dec : EqDecision WorktreeStaleResolutionBlocker.
Proof. solve_decision. Defined.

Record WorktreeStaleResolutionFailure : Type := MkWorktreeStaleResolutionFailure {
  sf_kind : WorktreeStaleResolutionFailureKind;
  sf_blockers : list WorktreeStaleResolutionBlocker
}.
#[export] Instance WorktreeStaleResolutionFailure_eq_dec : EqDecision WorktreeStaleResolutionFailure.
Proof. solve_decision. Defined.
#[export] Instance WorktreeStaleResolutionFailure_eta : Eta WorktreeStaleResolutionFailure := fun r =>
  MkWorktreeStaleResolutionFailure (sf_kind r) (sf_blockers r).

Record WorktreeStaleResolutionOperation : Type := MkWorktreeStaleResolutionOperation {
  so_operation_id : string;
  so_task_id : string;
  so_managed_worktree_operation_id : option string;
  so_worktree_generation : N;
  so_target_path : string;
  so_mode : WorktreeStaleResolutionMode;
  so_stage : WorktreeStaleResolutionStage;
  so_failure : option WorktreeStaleResolutionFailure;
  so_started_at_epoch_ms : N;
  so_updated_at_epoch_ms : N
}.
#[export] Instance WorktreeStaleResolutionOperation_eq_dec : EqDecision WorktreeStaleResolutionOperation.
Proof. solve_decision. Defined.
#[export] Instance WorktreeStaleResolutionOperation_eta : Eta WorktreeStaleResolutionOperation := fun r =>
  MkWorktreeStaleResolutionOperation (so_operation_id r) (so_task_id r)
    (so_managed_worktree_operation_id r) (so_worktree_generation r) (so_target_path r) (so_mode
    r) (so_stage r) (so_failure r) (so_started_at_epoch_ms r) (so_updated_at_epoch_ms r).

Record WorktreeStaleResolutionReceipt : Type := MkWorktreeStaleResolutionReceipt {
  sr_operation_id : string;
  sr_task_id : string;
  sr_managed_worktree_operation_id : option string;
  sr_worktree_generation : N;
  sr_target_path : string;
  sr_mode : WorktreeStaleResolutionMode;
  sr_completed_at_epoch_ms : N
}.
#[export] Instance WorktreeStaleResolutionReceipt_eq_dec : EqDecision WorktreeStaleResolutionReceipt.
Proof. solve_decision. Defined.
#[export] Instance WorktreeStaleResolutionReceipt_eta : Eta WorktreeStaleResolutionReceipt := fun r =>
  MkWorktreeStaleResolutionReceipt (sr_operation_id r) (sr_task_id r)
    (sr_managed_worktree_operation_id r) (sr_worktree_generation r) (sr_target_path r) (sr_mode
    r) (sr_completed_at_epoch_ms r).

(** ** Worktree repair *)

Inductive WorktreeRepairStage : Type :=
| RS_Reserved | RS_RepairPrepared | RS_RepairInvoked | RS_Verified | RS_ProofCommitted.
#[export] Instance WorktreeRepairStage_eq_dec : EqDecision WorktreeRepairStage.
Proof. solve_decision. Defined.

Inductive WorktreeRepairFailureKind : Type :=
| RF_Refused | RF_ManagedProofChanged | RF_PermissionDenied | RF_UnsupportedGit | RF_Timeout
| RF_OutputLimit | RF_RepairFailed | RF_VerificationFailed | RF_RecoveryAttention
| RF_OperationFailed.
#[export] Instance WorktreeRepairFailureKind_eq_dec : EqDecision WorktreeRepairFailureKind.
Proof. solve_decision. Defined.

Inductive WorktreeRepairBlocker : Type :=
| RB_NoBinding | RB_ManagedProofMissing | RB_ManagedProofMismatch | RB_ProvisioningInProgress
| RB_CleanupInProgress | RB_RepairInProgress | RB_CommonRepositoryUnavailable
| RB_CommonRepositoryChanged | RB_CandidateMissing | RB_CandidateReplaced
| RB_OldPathStillPresent | RB_CandidatePathConflict | RB_RegistrationAlreadyMatching
| RB_RegistrationEvidenceMissing | RB_RegistrationEvidenceAmbiguous | RB_BranchMismatch
| RB_HeadMismatch | RB_SessionAttached | RB_WorktreeLock | RB_IndexLock | RB_PermissionDenied
| RB_UnsupportedGit | RB_Timeout | RB_OutputLimit | RB_ObservationFailed | RB_RecoveryAttention.
#[export] Instance WorktreeRepairBlocker_eq_dec : EqDecision WorktreeRepairBlocker.
Proof. solve_decision. Defined.

Record WorktreeRepairFailure : Type := MkWorktreeRepairFailure {
  rf_kind : WorktreeRepairFailureKind;
  rf_blockers : list WorktreeRepairBlocker
}.
#[export] Instance WorktreeRepairFailure_eq_dec : EqDecision WorktreeRepairFailure.
Proof. solve_decision. Defined.
#[export] Instance WorktreeRepairFailure_eta : Eta WorktreeRepairFailure := fun r =>
  MkWorktreeRepairFailure (rf_kind r) (rf_blockers r).

Record WorktreeRepairOperation : Type := MkWorktreeRepairOperation {
  ro_operation_id : string;
  ro_task_id : string;
  ro_managed_worktree_operation_id : string;
  ro_expected_worktree_generation : N;
  ro_candidate_path : string;
  ro_stage : WorktreeRepairStage;
  ro_failure : option WorktreeRepairFailure;
  ro_started_at_epoch_ms : N;
  ro_updated_at_epoch_ms : N
}.
#[export] Instance WorktreeRepairOperation_eq_dec : EqDecision WorktreeRepairOperation.
Proof. solve_decision. Defined.
#[export] Instance WorktreeRepairOperation_eta : Eta WorktreeRepairOperation := fun r =>
  MkWorktreeRepairOperation (ro_operation_id r) (ro_task_id r) (ro_managed_worktree_operation_id
    r) (ro_expected_worktree_generation r) (ro_candidate_path r) (ro_stage r) (ro_failure r)
    (ro_started_at_epoch_ms r) (ro_updated_at_epoch_ms r).

Record WorktreeRepairReceipt : Type := MkWorktreeRepairReceipt {
  rr_operation_id : string;
  rr_task_id : string;
  rr_managed_worktree_operation_id : string;
  rr_previous_worktree_generation : N;
  rr_worktree_generation : N;
  rr_candidate_path : string;
  rr_completed_at_epoch_ms : N
}.
#[export] Instance WorktreeRepairReceipt_eq_dec : EqDecision WorktreeRepairReceipt.
Proof. solve_decision. Defined.
#[export] Instance WorktreeRepairReceipt_eta : Eta WorktreeRepairReceipt := fun r =>
  MkWorktreeRepairReceipt (rr_operation_id r) (rr_task_id r) (rr_managed_worktree_operation_id
    r) (rr_previous_worktree_generation r) (rr_worktree_generation r) (rr_candidate_path r)
    (rr_completed_at_epoch_ms r).

(** ** Sessions *)

Inductive SessionKind : Type :=
| SessionKind_Terminal | SessionKind_Agent.
#[export] Instance SessionKind_eq_dec : EqDecision SessionKind.
Proof. solve_decision. Defined.

Inductive AgentConversationReadiness : Type :=
| ACR_Unconfirmed | ACR_LegacyUnknown | ACR_Resumable.
#[export] Instance AgentConversationReadiness_eq_dec : EqDecision AgentConversationReadiness.
Proof. solve_decision. Defined.

Record AgentConversationReadinessRecord : Type := MkAgentConversationReadinessRecord {
  rd_session_id : string;
  rd_readiness : AgentConversationReadiness
}.
#[export] Instance AgentConversationReadinessRecord_eq_dec : EqDecision AgentConversationReadinessRecord.
Proof. solve_decision. Defined.
#[export] Instance AgentConversationReadinessRecord_eta : Eta AgentConversationReadinessRecord := fun r =>
  MkAgentConversationReadinessRecord (rd_session_id r) (rd_readiness r).

Inductive ResumeProvider : Type :=
| RP_Claude | RP_Codex | RP_Gemini | RP_Opencode | RP_Unknown.
#[export] Instance ResumeProvider_eq_dec : EqDecision ResumeProvider.
Proof. solve_decision. Defined.

Record ResumeRef : Type := MkResumeRef {
  ref_provider : ResumeProvider;
  ref_native_session_id : string
}.
#[export] Instance ResumeRef_eq_dec : EqDecision ResumeRef.
Proof. solve_decision. Defined.
#[export] Instance ResumeRef_eta : Eta ResumeRef := fun r =>
  MkResumeRef (ref_provider r) (ref_native_session_id r).

Record ResumeLaunchGuard : Type := MkResumeLaunchGuard {
  g_task_id : string;
  g_managed_worktree_operation_id : string;
  g_worktree_generation : N;
  g_path : string
}.
#[export] Instance ResumeLaunchGuard_eq_dec : EqDecision ResumeLaunchGuard.
Proof. solve_decision. Defined.
#[export] Instance ResumeLaunchGuard_eta : Eta ResumeLaunchGuard := fun r =>
  MkResumeLaunchGuard (g_task_id r) (g_managed_worktree_operation_id r) (g_worktree_generation
    r) (g_path r).

Inductive ResumeFailureReason : Type :=
| RFR_ResumeRefMissing | RFR_InvalidResumeRef | RFR_ResumeCapabilityUnavailable
| RFR_RuntimeOwnershipUncertain | RFR_ProviderSessionUnavailable | RFR_ProviderHistoryDamaged
| RFR_ResumeRejected | RFR_ProviderMismatch | RFR_StartupTimedOut | RFR_DaemonInterrupted
| RFR_ResumeQueueFull | RFR_PtySpawnFailed | RFR_CwdUnavailable | RFR_LaunchReserved
| RFR_RuntimeConflict.
#[export] Instance ResumeFailureReason_eq_dec : EqDecision ResumeFailureReason.
Proof. solve_decision. Defined.

Record ProcessDescriptor : Type := MkProcessDescriptor {
  pd_program : string;
  pd_args : list string;
  pd_cwd : string;
  pd_agent_id : option string;
  pd_template_ref : option string;
  pd_template_version : option N
}.
#[export] Instance ProcessDescriptor_eq_dec : EqDecision ProcessDescriptor.
Proof. solve_decision. Defined.
#[export] Instance ProcessDescriptor_eta : Eta ProcessDescriptor := fun r =>
  MkProcessDescriptor (pd_program r) (pd_args r) (pd_cwd r) (pd_agent_id r) (pd_template_ref r)
    (pd_template_version r).

Record AgentLaunchSelection : Type := MkAgentLaunchSelection {
  als_model : string;
  als_permission : string;
  als_reasoning : string;
  als_account_id : option string
}.
#[export] Instance AgentLaunchSelection_eq_dec : EqDecision AgentLaunchSelection.
Proof. solve_decision. Defined.
#[export] Instance AgentLaunchSelection_eta : Eta AgentLaunchSelection := fun r =>
  MkAgentLaunchSelection (als_model r) (als_permission r) (als_reasoning r) (als_account_id r).

Inductive ImproverSessionTargetKind : Type :=
| ITK_StewardInstructions | ITK_RoutineInstructions | ITK_RoutineBuilder | ITK_Playbook
| ITK_RunConfiguration | ITK_NewRunConfiguration | ITK_SettingsSkill | ITK_SettingsPrompt
| ITK_SettingsMcpTool | ITK_AgentCreator | ITK_WorkflowDraft.
#[export] Instance ImproverSessionTargetKind_eq_dec : EqDecision ImproverSessionTargetKind.
Proof. solve_decision. Defined.

Record ImproverSessionTarget : Type := MkImproverSessionTarget {
  ist_target_kind : ImproverSessionTargetKind;
  ist_target_id : option string
}.
#[export] Instance ImproverSessionTarget_eq_dec : EqDecision ImproverSessionTarget.
Proof. solve_decision. Defined.
#[export] Instance ImproverSessionTarget_eta : Eta ImproverSessionTarget := fun r =>
  MkImproverSessionTarget (ist_target_kind r) (ist_target_id r).

Record AskToContinuation : Type := MkAskToContinuation {
  atc_conversation_id : string;
  atc_current_request_id : option string
}.
#[export] Instance AskToContinuation_eq_dec : EqDecision AskToContinuation.
Proof. solve_decision. Defined.
#[export] Instance AskToContinuation_eta : Eta AskToContinuation := fun r =>
  MkAskToContinuation (atc_conversation_id r) (atc_current_request_id r).

Record SessionRecord : Type := MkSessionRecord {
  s_id : string;
  s_project_id : string;
  s_name : option string;
  s_kind : SessionKind;
  s_process : ProcessDescriptor;
  s_launch_selection : AgentLaunchSelection;
  s_lifecycle_state : string;
  s_runtime_epoch : N;
  s_archived_at_epoch_ms : option N;
  s_ask_to_source_session_id : option string;
  s_fork_source_session_id : option string;
  s_run_configuration_id : option string;
  s_improver_target : option ImproverSessionTarget;
  s_ask_to_continuation : option AskToContinuation;
  s_resume_ref : option ResumeRef;
  s_resume_launch_guard : option ResumeLaunchGuard;
  s_resume_failure : option ResumeFailureReason
}.
#[export] Instance SessionRecord_eq_dec : EqDecision SessionRecord.
Proof. solve_decision. Defined.
#[export] Instance SessionRecord_eta : Eta SessionRecord := fun r =>
  MkSessionRecord (s_id r) (s_project_id r) (s_name r) (s_kind r) (s_process r)
    (s_launch_selection r) (s_lifecycle_state r) (s_runtime_epoch r) (s_archived_at_epoch_ms r)
    (s_ask_to_source_session_id r) (s_fork_source_session_id r) (s_run_configuration_id r)
    (s_improver_target r) (s_ask_to_continuation r) (s_resume_ref r) (s_resume_launch_guard r)
    (s_resume_failure r).

Record DeletedSessionRecord : Type := MkDeletedSessionRecord {
  ds_session : SessionRecord;
  ds_deleted_at_epoch_ms : N;
  ds_conversation_readiness : AgentConversationReadiness
}.
#[export] Instance DeletedSessionRecord_eq_dec : EqDecision DeletedSessionRecord.
Proof. solve_decision. Defined.
#[export] Instance DeletedSessionRecord_eta : Eta DeletedSessionRecord := fun r =>
  MkDeletedSessionRecord (ds_session r) (ds_deleted_at_epoch_ms r) (ds_conversation_readiness
    r).

Record SavedAgentLaunchSelection : Type := MkSavedAgentLaunchSelection {
  sal_agent_id : string;
  sal_selection : AgentLaunchSelection
}.
#[export] Instance SavedAgentLaunchSelection_eq_dec : EqDecision SavedAgentLaunchSelection.
Proof. solve_decision. Defined.
#[export] Instance SavedAgentLaunchSelection_eta : Eta SavedAgentLaunchSelection := fun r =>
  MkSavedAgentLaunchSelection (sal_agent_id r) (sal_selection r).

(** ** Archive journals *)

Inductive SessionArchiveOperationState : Type :=
| SA_Prepared | SA_RecoveryAttention.
#[export] Instance SessionArchiveOperationState_eq_dec : EqDecision SessionArchiveOperationState.
Proof. solve_decision. Defined.

Record SessionArchiveOperation : Type := MkSessionArchiveOperation {
  sao_operation_id : string;
  sao_session_id : string;
  sao_project_id : string;
  sao_runtime_epoch : N;
  sao_state : SessionArchiveOperationState;
  sao_requested_at_epoch_ms : N
}.
#[export] Instance SessionArchiveOperation_eq_dec : EqDecision SessionArchiveOperation.
Proof. solve_decision. Defined.
#[export] Instance SessionArchiveOperation_eta : Eta SessionArchiveOperation := fun r =>
  MkSessionArchiveOperation (sao_operation_id r) (sao_session_id r) (sao_project_id r)
    (sao_runtime_epoch r) (sao_state r) (sao_requested_at_epoch_ms r).

Inductive TaskSuspensionReason : Type :=
| TSR_Archived | TSR_ClosedWorktreeRemoved | TSR_Closed.
#[export] Instance TaskSuspensionReason_eq_dec : EqDecision TaskSuspensionReason.
Proof. solve_decision. Defined.

Record TaskArchiveSuspension : Type := MkTaskArchiveSuspension {
  sus_task_id : option string;
  sus_session_id : string;
  sus_archived_at_epoch_ms : N;
  sus_prior_lifecycle_state : string;
  sus_prior_resume_failure : option ResumeFailureReason;
  sus_reason : TaskSuspensionReason
}.
#[export] Instance TaskArchiveSuspension_eq_dec : EqDecision TaskArchiveSuspension.
Proof. solve_decision. Defined.
#[export] Instance TaskArchiveSuspension_eta : Eta TaskArchiveSuspension := fun r =>
  MkTaskArchiveSuspension (sus_task_id r) (sus_session_id r) (sus_archived_at_epoch_ms r)
    (sus_prior_lifecycle_state r) (sus_prior_resume_failure r) (sus_reason r).

Inductive TaskArchiveOperationState : Type :=
| TA_Prepared | TA_RecoveryAttention.
#[export] Instance TaskArchiveOperationState_eq_dec : EqDecision TaskArchiveOperationState.
Proof. solve_decision. Defined.

Record TaskArchiveTarget : Type := MkTaskArchiveTarget {
  tat_session_id : string;
  tat_runtime_epoch : N;
  tat_prior_lifecycle_state : string;
  tat_prior_resume_failure : option ResumeFailureReason;
  tat_was_live_agent : bool
}.
#[export] Instance TaskArchiveTarget_eq_dec : EqDecision TaskArchiveTarget.
Proof. solve_decision. Defined.
#[export] Instance TaskArchiveTarget_eta : Eta TaskArchiveTarget := fun r =>
  MkTaskArchiveTarget (tat_session_id r) (tat_runtime_epoch r) (tat_prior_lifecycle_state r)
    (tat_prior_resume_failure r) (tat_was_live_agent r).

Record TaskArchiveOperation : Type := MkTaskArchiveOperation {
  tao_operation_id : string;
  tao_task_id : string;
  tao_project_id : string;
  tao_worktree_path : option string;
  tao_worktree_generation : N;
  tao_targets : list TaskArchiveTarget;
  tao_state : TaskArchiveOperationState
}.
#[export] Instance TaskArchiveOperation_eq_dec : EqDecision TaskArchiveOperation.
Proof. solve_decision. Defined.
#[export] Instance TaskArchiveOperation_eta : Eta TaskArchiveOperation := fun r =>
  MkTaskArchiveOperation (tao_operation_id r) (tao_task_id r) (tao_project_id r)
    (tao_worktree_path r) (tao_worktree_generation r) (tao_targets r) (tao_state r).

(** ** Session relocation *)

Inductive SessionRelocationStage : Type :=
| RLS_SourceRetiring | RLS_TargetStarting.
#[export] Instance SessionRelocationStage_eq_dec : EqDecision SessionRelocationStage.
Proof. solve_decision. Defined.

Inductive SessionRelocationTarget : Type :=
| RLT_TaskWorktree | RLT_ProjectRoot.
#[export] Instance SessionRelocationTarget_eq_dec : EqDecision SessionRelocationTarget.
Proof. solve_decision. Defined.

Record SessionRelocationOperation : Type := MkSessionRelocationOperation {
  rlo_operation_id : string;
  rlo_session_id : string;
  rlo_project_id : string;
  rlo_source_runtime_epoch : N;
  rlo_source_cwd : string;
  rlo_target : SessionRelocationTarget;
  rlo_target_task_id : string;
  rlo_target_cwd : string;
  rlo_target_worktree_generation : N;
  rlo_target_managed_worktree_operation_id : string;
  rlo_stage : SessionRelocationStage;
  rlo_started_at_epoch_ms : N;
  rlo_updated_at_epoch_ms : N
}.
#[export] Instance SessionRelocationOperation_eq_dec : EqDecision SessionRelocationOperation.
Proof. solve_decision. Defined.
#[export] Instance SessionRelocationOperation_eta : Eta SessionRelocationOperation := fun r =>
  MkSessionRelocationOperation (rlo_operation_id r) (rlo_session_id r) (rlo_project_id r)
    (rlo_source_runtime_epoch r) (rlo_source_cwd r) (rlo_target r) (rlo_target_task_id r)
    (rlo_target_cwd r) (rlo_target_worktree_generation r)
    (rlo_target_managed_worktree_operation_id r) (rlo_stage r) (rlo_started_at_epoch_ms r)
    (rlo_updated_at_epoch_ms r).

Record SessionRelocationReceipt : Type := MkSessionRelocationReceipt {
  rlr_operation_id : string;
  rlr_session_id : string;
  rlr_project_id : string;
  rlr_target : SessionRelocationTarget;
  rlr_target_task_id : string;
  rlr_target_cwd : string;
  rlr_target_worktree_generation : N;
  rlr_target_managed_worktree_operation_id : string;
  rlr_runtime_epoch : N
}.
#[export] Instance SessionRelocationReceipt_eq_dec : EqDecision SessionRelocationReceipt.
Proof. solve_decision. Defined.
#[export] Instance SessionRelocationReceipt_eta : Eta SessionRelocationReceipt := fun r =>
  MkSessionRelocationReceipt (rlr_operation_id r) (rlr_session_id r) (rlr_project_id r)
    (rlr_target r) (rlr_target_task_id r) (rlr_target_cwd r) (rlr_target_worktree_generation r)
    (rlr_target_managed_worktree_operation_id r) (rlr_runtime_epoch r).

(** ** Agent library *)

Record PersonalAgent : Type := MkPersonalAgent {
  pa_id : string;
  pa_version : N;
  pa_name : string;
  pa_description : string;
  pa_category : string;
  pa_instructions : string;
  pa_agent_id : string;
  pa_selection : AgentLaunchSelection
}.
#[export] Instance PersonalAgent_eq_dec : EqDecision PersonalAgent.
Proof. solve_decision. Defined.
#[export] Instance PersonalAgent_eta : Eta PersonalAgent := fun r =>
  MkPersonalAgent (pa_id r) (pa_version r) (pa_name r) (pa_description r) (pa_category r)
    (pa_instructions r) (pa_agent_id r) (pa_selection r).

Record AgentLibrary : Type := MkAgentLibrary {
  al_revision : N;
  al_agents : list PersonalAgent;
  al_favorites : list string
}.
#[export] Instance AgentLibrary_eq_dec : EqDecision AgentLibrary.
Proof. solve_decision. Defined.
#[export] Instance AgentLibrary_eta : Eta AgentLibrary := fun r =>
  MkAgentLibrary (al_revision r) (al_agents r) (al_favorites r).

Record SessionAgentProfile : Type := MkSessionAgentProfile {
  sap_session_id : string;
  sap_agent : PersonalAgent
}.
#[export] Instance SessionAgentProfile_eq_dec : EqDecision SessionAgentProfile.
Proof. solve_decision. Defined.
#[export] Instance SessionAgentProfile_eta : Eta SessionAgentProfile := fun r =>
  MkSessionAgentProfile (sap_session_id r) (sap_agent r).

(** ** Run setup marks and Routines *)

Record RunSetupMark : Type := MkRunSetupMark {
  rsm_project_id : string;
  rsm_configuration_id : string;
  rsm_worktree_path : string;
  rsm_configuration_generation : N;
  rsm_completed_at_epoch_ms : N
}.
#[export] Instance RunSetupMark_eq_dec : EqDecision RunSetupMark.
Proof. solve_decision. Defined.
#[export] Instance RunSetupMark_eta : Eta RunSetupMark := fun r =>
  MkRunSetupMark (rsm_project_id r) (rsm_configuration_id r) (rsm_worktree_path r)
    (rsm_configuration_generation r) (rsm_completed_at_epoch_ms r).

Inductive RoutineTriggerMode : Type :=
| RTM_Schedule | RTM_OnDemand.
#[export] Instance RoutineTriggerMode_eq_dec : EqDecision RoutineTriggerMode.
Proof. solve_decision. Defined.

Inductive RoutineActionHandling : Type :=
| RAH_Off | RAH_Ask | RAH_Auto.
#[export] Instance RoutineActionHandling_eq_dec : EqDecision RoutineActionHandling.
Proof. solve_decision. Defined.

Record PendingRoutineFinding : Type := MkPendingRoutineFinding {
  prf_id : string;
  prf_source_key : string;
  prf_routine_generation : N;
  prf_summary : string;
  prf_evidence : string;
  prf_source_references : list string;
  prf_related_task_ids : list string;
  prf_created_at_epoch_ms : N
}.
#[export] Instance PendingRoutineFinding_eq_dec : EqDecision PendingRoutineFinding.
Proof. solve_decision. Defined.
#[export] Instance PendingRoutineFinding_eta : Eta PendingRoutineFinding := fun r =>
  MkPendingRoutineFinding (prf_id r) (prf_source_key r) (prf_routine_generation r) (prf_summary
    r) (prf_evidence r) (prf_source_references r) (prf_related_task_ids r)
    (prf_created_at_epoch_ms r).

Record TrackerConfiguration : Type := MkTrackerConfiguration {
  tc_id : string;
  tc_project_id : string;
  tc_trigger_mode : RoutineTriggerMode;
  tc_name : string;
  tc_prompt : string;
  tc_steward_instructions : string;
  tc_enabled : bool;
  tc_schedule_interval_seconds : N;
  tc_generation : N;
  tc_context_markdown : string;
  tc_context_revision : N;
  tc_recent_source_keys : list string;
  tc_related_task_ids : list string;
  tc_action_handling : RoutineActionHandling;
  tc_pending_routine_findings : list PendingRoutineFinding;
  tc_last_check_started_at_epoch_ms : option N;
  tc_last_attempt_at_epoch_ms : option N;
  tc_last_successful_report_at_epoch_ms : option N;
  tc_updated_at_epoch_ms : N
}.
#[export] Instance TrackerConfiguration_eq_dec : EqDecision TrackerConfiguration.
Proof. solve_decision. Defined.
#[export] Instance TrackerConfiguration_eta : Eta TrackerConfiguration := fun r =>
  MkTrackerConfiguration (tc_id r) (tc_project_id r) (tc_trigger_mode r) (tc_name r) (tc_prompt
    r) (tc_steward_instructions r) (tc_enabled r) (tc_schedule_interval_seconds r)
    (tc_generation r) (tc_context_markdown r) (tc_context_revision r) (tc_recent_source_keys r)
    (tc_related_task_ids r) (tc_action_handling r) (tc_pending_routine_findings r)
    (tc_last_check_started_at_epoch_ms r) (tc_last_attempt_at_epoch_ms r)
    (tc_last_successful_report_at_epoch_ms r) (tc_updated_at_epoch_ms r).

(** ** Configuration versions *)

Record ConfigurationVersion : Type := MkConfigurationVersion {
  cv_id : string;
  cv_project_id : string;
  cv_target : ImproverSessionTarget;
  cv_sequence : N;
  cv_content : string;
  cv_summary : string;
  cv_source_session_id : option string;
  cv_created_at_epoch_ms : N
}.
#[export] Instance ConfigurationVersion_eq_dec : EqDecision ConfigurationVersion.
Proof. solve_decision. Defined.
#[export] Instance ConfigurationVersion_eta : Eta ConfigurationVersion := fun r =>
  MkConfigurationVersion (cv_id r) (cv_project_id r) (cv_target r) (cv_sequence r) (cv_content
    r) (cv_summary r) (cv_source_session_id r) (cv_created_at_epoch_ms r).

Record ConfigurationVersionSelection : Type := MkConfigurationVersionSelection {
  cvs_project_id : string;
  cvs_target : ImproverSessionTarget;
  cvs_version_id : string
}.
#[export] Instance ConfigurationVersionSelection_eq_dec : EqDecision ConfigurationVersionSelection.
Proof. solve_decision. Defined.
#[export] Instance ConfigurationVersionSelection_eta : Eta ConfigurationVersionSelection := fun r =>
  MkConfigurationVersionSelection (cvs_project_id r) (cvs_target r) (cvs_version_id r).

(** ** Workflows *)

Inductive WorkflowStepKind : Type :=
| WK_Discuss | WK_Implement | WK_Review | WK_Fix.
#[export] Instance WorkflowStepKind_eq_dec : EqDecision WorkflowStepKind.
Proof. solve_decision. Defined.

Record WorkflowStep : Type := MkWorkflowStep {
  wst_id : string;
  wst_kind : WorkflowStepKind;
  wst_title : string;
  wst_instructions : string;
  wst_agent_id : option string;
  wst_reuse_step_id : option string;
  wst_profile_ref : option string;
  wst_launch_selection : option AgentLaunchSelection
}.
#[export] Instance WorkflowStep_eq_dec : EqDecision WorkflowStep.
Proof. solve_decision. Defined.
#[export] Instance WorkflowStep_eta : Eta WorkflowStep := fun r =>
  MkWorkflowStep (wst_id r) (wst_kind r) (wst_title r) (wst_instructions r) (wst_agent_id r)
    (wst_reuse_step_id r) (wst_profile_ref r) (wst_launch_selection r).

Record WorkflowConfiguration : Type := MkWorkflowConfiguration {
  wc_id : string;
  wc_project_id : string;
  wc_name : string;
  wc_coordinator_agent_id : string;
  wc_launch_selection : AgentLaunchSelection;
  wc_max_review_cycles : N;
  wc_steps : list WorkflowStep;
  wc_generation : N;
  wc_updated_at_epoch_ms : N
}.
#[export] Instance WorkflowConfiguration_eq_dec : EqDecision WorkflowConfiguration.
Proof. solve_decision. Defined.
#[export] Instance WorkflowConfiguration_eta : Eta WorkflowConfiguration := fun r =>
  MkWorkflowConfiguration (wc_id r) (wc_project_id r) (wc_name r) (wc_coordinator_agent_id r)
    (wc_launch_selection r) (wc_max_review_cycles r) (wc_steps r) (wc_generation r)
    (wc_updated_at_epoch_ms r).

Inductive WorkflowExecutionPhase : Type :=
| WP_AwaitingCoordinator | WP_AwaitingHelper | WP_AwaitingStepCompletion | WP_Completed.
#[export] Instance WorkflowExecutionPhase_eq_dec : EqDecision WorkflowExecutionPhase.
Proof. solve_decision. Defined.

Inductive WorkflowCompletionOutcome : Type :=
| WCO_Completed | WCO_Approved | WCO_ChangesRequested | WCO_ReviewLimitReached.
#[export] Instance WorkflowCompletionOutcome_eq_dec : EqDecision WorkflowCompletionOutcome.
Proof. solve_decision. Defined.

Record WorkflowParticipant : Type := MkWorkflowParticipant {
  wp_step_id : string;
  wp_helper_session_id : string
}.
#[export] Instance WorkflowParticipant_eq_dec : EqDecision WorkflowParticipant.
Proof. solve_decision. Defined.
#[export] Instance WorkflowParticipant_eta : Eta WorkflowParticipant := fun r =>
  MkWorkflowParticipant (wp_step_id r) (wp_helper_session_id r).

Record WorkflowReviewRequest : Type := MkWorkflowReviewRequest {
  wr_step_id : string;
  wr_request_id : string;
  wr_reply_delivered : bool
}.
#[export] Instance WorkflowReviewRequest_eq_dec : EqDecision WorkflowReviewRequest.
Proof. solve_decision. Defined.
#[export] Instance WorkflowReviewRequest_eta : Eta WorkflowReviewRequest := fun r =>
  MkWorkflowReviewRequest (wr_step_id r) (wr_request_id r) (wr_reply_delivered r).

Inductive WorkflowStepResultOutcome : Type :=
| WRO_Completed | WRO_Approved | WRO_ChangesRequested | WRO_Skipped.
#[export] Instance WorkflowStepResultOutcome_eq_dec : EqDecision WorkflowStepResultOutcome.
Proof. solve_decision. Defined.

Record WorkflowStepResult : Type := MkWorkflowStepResult {
  wsr_step_id : string;
  wsr_review_cycle : N;
  wsr_outcome : WorkflowStepResultOutcome;
  wsr_summary : string;
  wsr_completed_at_epoch_ms : N
}.
#[export] Instance WorkflowStepResult_eq_dec : EqDecision WorkflowStepResult.
Proof. solve_decision. Defined.
#[export] Instance WorkflowStepResult_eta : Eta WorkflowStepResult := fun r =>
  MkWorkflowStepResult (wsr_step_id r) (wsr_review_cycle r) (wsr_outcome r) (wsr_summary r)
    (wsr_completed_at_epoch_ms r).

Record WorkflowExecution : Type := MkWorkflowExecution {
  we_id : string;
  we_project_id : string;
  we_task_id : option string;
  we_configuration : WorkflowConfiguration;
  we_goal : string;
  we_coordinator_session_id : string;
  we_current_step_index : N;
  we_review_cycle : N;
  we_phase : WorkflowExecutionPhase;
  we_coordinator_prompt_pending : bool;
  we_current_request_id : option string;
  we_participants : list WorkflowParticipant;
  we_review_requests : list WorkflowReviewRequest;
  we_step_results : list WorkflowStepResult;
  we_review_changes_requested : bool;
  we_started_at_epoch_ms : N;
  we_updated_at_epoch_ms : N
}.
#[export] Instance WorkflowExecution_eq_dec : EqDecision WorkflowExecution.
Proof. solve_decision. Defined.
#[export] Instance WorkflowExecution_eta : Eta WorkflowExecution := fun r =>
  MkWorkflowExecution (we_id r) (we_project_id r) (we_task_id r) (we_configuration r) (we_goal
    r) (we_coordinator_session_id r) (we_current_step_index r) (we_review_cycle r) (we_phase r)
    (we_coordinator_prompt_pending r) (we_current_request_id r) (we_participants r)
    (we_review_requests r) (we_step_results r) (we_review_changes_requested r)
    (we_started_at_epoch_ms r) (we_updated_at_epoch_ms r).

(** ** Agent plans *)

Inductive DurableAgentPlanSource : Type := DPS_ClaudeHook | DPS_CodexAppServer.
#[export] Instance DurableAgentPlanSource_eq_dec : EqDecision DurableAgentPlanSource.
Proof. solve_decision. Defined.

Inductive DurableAgentPlanStepStatus : Type := DSS_Pending | DSS_InProgress | DSS_Completed.
#[export] Instance DurableAgentPlanStepStatus_eq_dec : EqDecision DurableAgentPlanStepStatus.
Proof. solve_decision. Defined.

Record DurableAgentPlanStep : Type := MkPlanStep {
  dps_text : string;
  dps_status : DurableAgentPlanStepStatus;
  dps_provider_task_id : option string
}.
#[export] Instance DurableAgentPlanStep_eq_dec : EqDecision DurableAgentPlanStep.
Proof. solve_decision. Defined.
#[export] Instance DurableAgentPlanStep_eta : Eta DurableAgentPlanStep := fun r =>
  MkPlanStep (dps_text r) (dps_status r) (dps_provider_task_id r).

Record DurableAgentPlan : Type := MkPlan {
  dap_session_id : string;
  dap_source : DurableAgentPlanSource;
  dap_explanation : option string;
  dap_steps : list DurableAgentPlanStep;
  dap_updated_at_epoch_ms : N
}.
#[export] Instance DurableAgentPlan_eq_dec : EqDecision DurableAgentPlan.
Proof. solve_decision. Defined.
#[export] Instance DurableAgentPlan_eta : Eta DurableAgentPlan := fun r =>
  MkPlan (dap_session_id r) (dap_source r) (dap_explanation r) (dap_steps r)
    (dap_updated_at_epoch_ms r).

(** ** Accounts, Stewards and run configurations *)

Inductive AgentAccountProvider : Type :=
| AAP_Codex | AAP_Claude.
#[export] Instance AgentAccountProvider_eq_dec : EqDecision AgentAccountProvider.
Proof. solve_decision. Defined.

Record AgentAccount : Type := MkAgentAccount {
  aa_agent_id : AgentAccountProvider;
  aa_account_id : string;
  aa_name : string;
  aa_is_default : bool
}.
#[export] Instance AgentAccount_eq_dec : EqDecision AgentAccount.
Proof. solve_decision. Defined.
#[export] Instance AgentAccount_eta : Eta AgentAccount := fun r =>
  MkAgentAccount (aa_agent_id r) (aa_account_id r) (aa_name r) (aa_is_default r).

Inductive StewardAgentId : Type :=
| SAI_Claude | SAI_Codex.
#[export] Instance StewardAgentId_eq_dec : EqDecision StewardAgentId.
Proof. solve_decision. Defined.

Record PlaybookEvaluatorSettings : Type := MkPlaybookEvaluatorSettings {
  pes_codex_model : option string;
  pes_claude_model : option string;
  pes_permission : string
}.
#[export] Instance PlaybookEvaluatorSettings_eq_dec : EqDecision PlaybookEvaluatorSettings.
Proof. solve_decision. Defined.
#[export] Instance PlaybookEvaluatorSettings_eta : Eta PlaybookEvaluatorSettings := fun r =>
  MkPlaybookEvaluatorSettings (pes_codex_model r) (pes_claude_model r) (pes_permission r).

Record StewardConfiguration : Type := MkStewardConfiguration {
  stw_project_id : string;
  stw_agent_id : StewardAgentId;
  stw_model : string;
  stw_permission : string;
  stw_reasoning : string;
  stw_playbook_evaluator : PlaybookEvaluatorSettings;
  stw_enabled : bool;
  stw_system_prompt : string;
  stw_executor_session_id : option string;
  stw_generation : N;
  stw_updated_at_epoch_ms : N
}.
#[export] Instance StewardConfiguration_eq_dec : EqDecision StewardConfiguration.
Proof. solve_decision. Defined.
#[export] Instance StewardConfiguration_eta : Eta StewardConfiguration := fun r =>
  MkStewardConfiguration (stw_project_id r) (stw_agent_id r) (stw_model r) (stw_permission r)
    (stw_reasoning r) (stw_playbook_evaluator r) (stw_enabled r) (stw_system_prompt r)
    (stw_executor_session_id r) (stw_generation r) (stw_updated_at_epoch_ms r).

Inductive RunConfigurationKind : Type :=
| RCK_DevServer | RCK_Build | RCK_TestRunner | RCK_Typecheck | RCK_Storybook | RCK_Custom.
#[export] Instance RunConfigurationKind_eq_dec : EqDecision RunConfigurationKind.
Proof. solve_decision. Defined.

Inductive RunSetupPolicy : Type :=
| RSP_OncePerWorktree | RSP_Always | RSP_Never.
#[export] Instance RunSetupPolicy_eq_dec : EqDecision RunSetupPolicy.
Proof. solve_decision. Defined.

Record RunConfigurationEnvVar : Type := MkRunConfigurationEnvVar {
  rce_name : string;
  rce_value : string
}.
#[export] Instance RunConfigurationEnvVar_eq_dec : EqDecision RunConfigurationEnvVar.
Proof. solve_decision. Defined.
#[export] Instance RunConfigurationEnvVar_eta : Eta RunConfigurationEnvVar := fun r =>
  MkRunConfigurationEnvVar (rce_name r) (rce_value r).

Record RunConfiguration : Type := MkRunConfiguration {
  rcf_id : string;
  rcf_project_id : string;
  rcf_name : string;
  rcf_kind : RunConfigurationKind;
  rcf_command : string;
  rcf_working_directory : string;
  rcf_env : list RunConfigurationEnvVar;
  rcf_setup_command : option string;
  rcf_setup_policy : RunSetupPolicy;
  rcf_url_auto_detect : bool;
  rcf_fallback_urls : list string;
  rcf_auto_open_first_url : bool;
  rcf_generation : N;
  rcf_updated_at_epoch_ms : N
}.
#[export] Instance RunConfiguration_eq_dec : EqDecision RunConfiguration.
Proof. solve_decision. Defined.
#[export] Instance RunConfiguration_eta : Eta RunConfiguration := fun r =>
  MkRunConfiguration (rcf_id r) (rcf_project_id r) (rcf_name r) (rcf_kind r) (rcf_command r)
    (rcf_working_directory r) (rcf_env r) (rcf_setup_command r) (rcf_setup_policy r)
    (rcf_url_auto_detect r) (rcf_fallback_urls r) (rcf_auto_open_first_url r) (rcf_generation r)
    (rcf_updated_at_epoch_ms r).
