(* ===== verification/DomainRules.v ===== *)
(** * Pure rules of the domain crate

    The value-object checks of [src/modules/domain/src/lib.rs] and
    [agent_library.rs]: MCP tool identities, path comparison keys, resume
    references, agent identities, launch selections and library profile ids.
    Domain code owns no I/O; each function below is total and executable. *)

From S2P Require Import Prelude Text Domain.

Local Open Scope string_scope.

(** ** MCP tool identities *)

Inductive McpToolName : Type :=
| Mcp_AskTo | Mcp_SendToAgent | Mcp_ReplyToRequest | Mcp_PlaybookEvaluationRead
| Mcp_PlaybookEvaluationComplete | Mcp_WorkflowDelegate | Mcp_WorkflowStepComplete
| Mcp_ProjectRead | Mcp_TaskRead | Mcp_AgentStatusRead | Mcp_TaskAgentTranscriptTailRead
| Mcp_TaskAgentRequest | Mcp_RoutineReportRead | Mcp_CompanionTranscriptRead
| Mcp_StewardSystemPromptRead | Mcp_StewardSystemPromptUpdate | Mcp_TaskAgentStart
| Mcp_TaskCreate | Mcp_TaskRename | Mcp_TaskUpdateBrief | Mcp_TaskSetJiraUrl | Mcp_TaskClose
| Mcp_TaskReopen | Mcp_TaskDelete | Mcp_AgentMessageSend | Mcp_StewardSuggest
| Mcp_RoutineFindingRead | Mcp_RoutineFindingResolve | Mcp_StewardNextAssignment
| Mcp_StewardCompleteAssignment | Mcp_PlaybookRead | Mcp_TaskSetStewardBrief
| Mcp_ConfigurationVersionRead | Mcp_ConfigurationVersionWrite | Mcp_AgentLibraryRead
| Mcp_AgentProfileCreate | Mcp_PlaybookStepRead | Mcp_PlaybookStepReport | Mcp_ProposeJiraTask.
#[export] Instance McpToolName_eq_dec : EqDecision McpToolName.
Proof. solve_decision. Defined.

(** [McpToolName::ALL] *)
Definition mcp_all : list McpToolName :=
  [ Mcp_AskTo; Mcp_SendToAgent; Mcp_ReplyToRequest; Mcp_PlaybookEvaluationRead;
  Mcp_PlaybookEvaluationComplete; Mcp_WorkflowDelegate; Mcp_WorkflowStepComplete;
  Mcp_ProjectRead; Mcp_TaskRead; Mcp_AgentStatusRead; Mcp_TaskAgentTranscriptTailRead;
  Mcp_TaskAgentRequest; Mcp_RoutineReportRead; Mcp_CompanionTranscriptRead;
  Mcp_StewardSystemPromptRead; Mcp_StewardSystemPromptUpdate; Mcp_TaskAgentStart;
  Mcp_TaskCreate; Mcp_TaskRename; Mcp_TaskUpdateBrief; Mcp_TaskSetJiraUrl; Mcp_TaskClose;
  Mcp_TaskReopen; Mcp_TaskDelete; Mcp_AgentMessageSend; Mcp_StewardSuggest;
  Mcp_RoutineFindingRead; Mcp_RoutineFindingResolve; Mcp_StewardNextAssignment;
  Mcp_StewardCompleteAssignment; Mcp_PlaybookRead; Mcp_TaskSetStewardBrief;
  Mcp_ConfigurationVersionRead; Mcp_ConfigurationVersionWrite; Mcp_AgentLibraryRead;
  Mcp_AgentProfileCreate; Mcp_PlaybookStepRead; Mcp_PlaybookStepReport; Mcp_ProposeJiraTask].

(** [McpToolName::as_str] *)
Definition mcp_as_str (tool : McpToolName) : string :=
  match tool with
  | Mcp_AskTo => "ask_to"
  | Mcp_SendToAgent => "send_to_agent"
  | Mcp_ReplyToRequest => "reply_to_request"
  | Mcp_PlaybookEvaluationRead => "playbook_evaluation_read"
  | Mcp_PlaybookEvaluationComplete => "playbook_evaluation_complete"
  | Mcp_WorkflowDelegate => "workflow_delegate"
  | Mcp_WorkflowStepComplete => "workflow_step_complete"
  | Mcp_ProjectRead => "project_read"
  | Mcp_TaskRead => "task_read"
  | Mcp_AgentStatusRead => "agent_status_read"
  | Mcp_TaskAgentTranscriptTailRead => "task_agent_transcript_tail_read"
  | Mcp_TaskAgentRequest => "task_agent_request"
  | Mcp_RoutineReportRead => "routine_report_read"
  | Mcp_CompanionTranscriptRead => "companion_transcript_read"
  | Mcp_StewardSystemPromptRead => "steward_system_prompt_read"
  | Mcp_StewardSystemPromptUpdate => "steward_system_prompt_update"
  | Mcp_TaskAgentStart => "task_agent_start"
  | Mcp_TaskCreate => "task_create"
  | Mcp_TaskRename => "task_rename"
  | Mcp_TaskUpdateBrief => "task_update_brief"
  | Mcp_TaskSetJiraUrl => "task_set_jira_url"
  | Mcp_TaskClose => "task_close"
  | Mcp_TaskReopen => "task_reopen"
  | Mcp_TaskDelete => "task_delete"
  | Mcp_AgentMessageSend => "agent_message_send"
  | Mcp_StewardSuggest => "steward_suggest"
  | Mcp_RoutineFindingRead => "routine_finding_read"
  | Mcp_RoutineFindingResolve => "routine_finding_resolve"
  | Mcp_StewardNextAssignment => "steward_next_assignment"
  | Mcp_StewardCompleteAssignment => "steward_complete_assignment"
  | Mcp_PlaybookRead => "playbook_read"
  | Mcp_TaskSetStewardBrief => "task_set_steward_brief"
  | Mcp_ConfigurationVersionRead => "configuration_version_read"
  | Mcp_ConfigurationVersionWrite => "configuration_version_write"
  | Mcp_AgentLibraryRead => "agent_library_read"
  | Mcp_AgentProfileCreate => "agent_profile_create"
  | Mcp_PlaybookStepRead => "playbook_step_read"
  | Mcp_PlaybookStepReport => "playbook_step_report"
  | Mcp_ProposeJiraTask => "propose_jira_task"
  end.

(** [McpToolName::from_str] *)
Definition mcp_from_str (value : string) : result unit McpToolName :=
  if (value == "ask_to") then Ok Mcp_AskTo else
  if (value == "send_to_agent") then Ok Mcp_SendToAgent else
  if (value == "reply_to_request") then Ok Mcp_ReplyToRequest else
  if (value == "playbook_evaluation_read") then Ok Mcp_PlaybookEvaluationRead else
  if (value == "playbook_evaluation_complete") then Ok Mcp_PlaybookEvaluationComplete else
  if (value == "workflow_delegate") then Ok Mcp_WorkflowDelegate else
  if (value == "workflow_step_complete") then Ok Mcp_WorkflowStepComplete else
  if (value == "project_read") then Ok Mcp_ProjectRead else
  if (value == "task_read") then Ok Mcp_TaskRead else
  if (value == "agent_status_read") then Ok Mcp_AgentStatusRead else
  if (value == "task_agent_transcript_tail_read") then Ok Mcp_TaskAgentTranscriptTailRead else
  if (value == "task_agent_request") then Ok Mcp_TaskAgentRequest else
  if (value == "routine_report_read") || (value == "tracker_report_read") then Ok Mcp_RoutineReportRead else
  if (value == "companion_transcript_read") then Ok Mcp_CompanionTranscriptRead else
  if (value == "steward_system_prompt_read") then Ok Mcp_StewardSystemPromptRead else
  if (value == "steward_system_prompt_update") then Ok Mcp_StewardSystemPromptUpdate else
  if (value == "task_agent_start") then Ok Mcp_TaskAgentStart else
  if (value == "task_create") then Ok Mcp_TaskCreate else
  if (value == "task_rename") then Ok Mcp_TaskRename else
  if (value == "task_update_brief") then Ok Mcp_TaskUpdateBrief else
  if (value == "task_set_jira_url") then Ok Mcp_TaskSetJiraUrl else
  if (value == "task_close") then Ok Mcp_TaskClose else
  if (value == "task_reopen") then Ok Mcp_TaskReopen else
  if (value == "task_delete") then Ok Mcp_TaskDelete else
  if (value == "agent_message_send") then Ok Mcp_AgentMessageSend else
  if (value == "steward_suggest") then Ok Mcp_StewardSuggest else
  if (value == "routine_finding_read") || (value == "action_candidate_read") then Ok Mcp_RoutineFindingRead else
  if (value == "routine_finding_resolve") || (value == "action_candidate_resolve") then Ok Mcp_RoutineFindingResolve else
  if (value == "steward_next_assignment") then Ok Mcp_StewardNextAssignment else
  if (value == "steward_complete_assignment") then Ok Mcp_StewardCompleteAssignment else
  if (value == "playbook_read") then Ok Mcp_PlaybookRead else
  if (value == "task_set_steward_brief") then Ok Mcp_TaskSetStewardBrief else
  if (value == "configuration_version_read") then Ok Mcp_ConfigurationVersionRead else
  if (value == "configuration_version_write") then Ok Mcp_ConfigurationVersionWrite else
  if (value == "agent_library_read") then Ok Mcp_AgentLibraryRead else
  if (value == "agent_profile_create") then Ok Mcp_AgentProfileCreate else
  if (value == "playbook_step_read") then Ok Mcp_PlaybookStepRead else
  if (value == "playbook_step_report") then Ok Mcp_PlaybookStepReport else
  if (value == "propose_jira_task") then Ok Mcp_ProposeJiraTask else
  Err tt.

(** [McpToolDescription::new], on the description text. *)
Definition mcp_description_max_characters : N := 4096.

Definition mcp_description_new (value : string) : option string :=
  let characters := chars_count value in
  if ((0 <? characters)%N && (characters <=? mcp_description_max_characters)%N
      && is_trimmed value && negb (trim_is_empty value))
  then Some value else None.

(** ** Path comparison keys *)

Record PathComparisonKey : Type := MkPathComparisonKey {
  pck_root : list N;
  pck_segments : list (list N)
}.
#[export] Instance PathComparisonKey_eq_dec : EqDecision PathComparisonKey.
Proof. solve_decision. Defined.

Inductive PathComparisonKeyError : Type := PCK_MissingRoot | PCK_EmptySegment.

(** [PathComparisonKey::from_normalized_parts] *)
Definition from_normalized_parts (root : list N) (segments : list (list N))
  : result PathComparisonKeyError PathComparisonKey :=
  if root == [] then Err PCK_MissingRoot
  else if any (fun segment => segment == []) segments then Err PCK_EmptySegment
  else Ok (MkPathComparisonKey root segments).

(** [slice::starts_with] *)
Fixpoint slice_starts_with {A} `{EqDecision A} (l needle : list A) : bool :=
  match needle, l with
  | [], _ => true
  | n :: needle', x :: l' => (x == n) && slice_starts_with l' needle'
  | _ :: _, [] => false
  end.

(** [PathComparisonKey::contains_or_equals] *)
Definition contains_or_equals (self candidate : PathComparisonKey) : bool :=
  (pck_root self == pck_root candidate)
  && slice_starts_with (pck_segments candidate) (pck_segments self).

(** ** Developer notes *)

Definition task_developer_note_id_max_chars : N := 120.
Definition task_developer_note_text_max_chars : N := 280.

(** [TaskDeveloperNote::is_valid] *)
Definition developer_note_is_valid (note : TaskDeveloperNote) : bool :=
  negb (str_is_empty (dn_id note))
  && (chars_count (dn_id note) <=? task_developer_note_id_max_chars)%N
  && negb (trim_is_empty (dn_text note))
  && (chars_count (dn_text note) <=? task_developer_note_text_max_chars)%N.

(** ** Resume references

    Claude and Gemini identities are UUIDs in canonical hyphenated form; that
    check is the [uuid] crate's, so it is a parameter: [uuid_is_canonical s]
    stands for [Uuid::parse_str(s).is_ok_and(|v| v.hyphenated() == s)]. *)

Class UuidParser := uuid_is_canonical : string -> bool.

Section resume_refs.
Context `{UuidParser}.

Definition resume_ref_max_native_id_bytes : N := 256.

(** [ResumeRef::validate] *)
Definition resume_ref_validate (self : ResumeRef) : bool :=
  let id := ref_native_session_id self in
  negb (str_is_empty id)
  && (len id <=? resume_ref_max_native_id_bytes)%N
  && negb (any is_control (chars id))
  && match ref_provider self with
     | RP_Claude | RP_Gemini => uuid_is_canonical id
     | RP_Codex => true
     | RP_Opencode =>
         is_some_and (strip_prefix "ses_" id) (fun rest =>
           negb (str_is_empty rest)
           && all (fun byte => is_ascii_alphanumeric byte || (byte =? 95)%N || (byte =? 45)%N)
                  (bytes rest))
     | RP_Unknown => false
     end.

(** [ResumeRef::for_provider] *)
Definition resume_ref_for_provider (provider : ResumeProvider) (native_session_id : string)
  : option ResumeRef :=
  let value := MkResumeRef provider native_session_id in
  if resume_ref_validate value then Some value else None.
End resume_refs.

(** [ResumeFailureReason::is_retryable] *)
Definition resume_failure_is_retryable (self : ResumeFailureReason) : bool :=
  match self with
  | RFR_ResumeCapabilityUnavailable | RFR_RuntimeOwnershipUncertain | RFR_ResumeRejected
  | RFR_StartupTimedOut | RFR_DaemonInterrupted | RFR_ResumeQueueFull | RFR_PtySpawnFailed
  | RFR_CwdUnavailable | RFR_LaunchReserved | RFR_RuntimeConflict => true
  | _ => false
  end.

(** [migration::provider_matches_agent] *)
Definition provider_matches_agent (provider : ResumeProvider) (agent_id : option string) : bool :=
  match provider with
  | RP_Claude => agent_id == Some "claude"
  | RP_Codex => agent_id == Some "codex"
  | RP_Gemini => agent_id == Some "gemini"
  | RP_Opencode => agent_id == Some "opencode"
  | RP_Unknown => false
  end.

(** ** Agent identities and launch selections *)

Definition max_agent_id_bytes : N := 64.

(** [agent_id_is_well_formed] *)
Definition agent_id_is_well_formed (value : string) : bool :=
  match bytes value with
  | [] => false
  | first :: rest =>
      (len value <=? max_agent_id_bytes)%N
      && is_ascii_lowercase first
      && all (fun byte => is_ascii_lowercase byte || is_ascii_digit byte || (byte =? 45)%N) rest
      && is_some_and (list.last (first :: rest)) (fun byte =>
           is_ascii_lowercase byte || is_ascii_digit byte)
      && negb (any (fun pair => (fst pair =? 45)%N && (snd pair =? 45)%N)
                   (windows2 (first :: rest)))
  end.

Definition system_agent_account_id : string := "default".

(** [u8::is_ascii_hexdigit] *)
Definition is_ascii_hexdigit (b : N) : bool :=
  is_ascii_digit b || in_range 97 102 b || in_range 65 70 b.

(** [valid_agent_account_id] *)
Definition valid_agent_account_id (id : string) : bool :=
  (id == system_agent_account_id)
  || ((len id =? 36)%N
      && all (fun entry =>
                if bool_decide (fst entry ∈ [8; 13; 18; 23]) then (snd entry =? 45)%N
                else is_ascii_hexdigit (snd entry) && negb (is_ascii_uppercase (snd entry)))
             (imap pair (bytes id))).

(** [AgentLaunchSelection::is_well_formed] *)
Definition launch_selection_is_well_formed (self : AgentLaunchSelection) : bool :=
  is_none_or (als_account_id self) valid_agent_account_id
  && all (fun value =>
            negb (str_is_empty value) && (len value <=? 128)%N
            && negb (any is_control (chars value)))
         [als_model self; als_permission self; als_reasoning self].

(** [SavedAgentLaunchSelection::is_valid] *)
Definition saved_selection_is_valid (self : SavedAgentLaunchSelection) : bool :=
  agent_id_is_well_formed (sal_agent_id self)
  && launch_selection_is_well_formed (sal_selection self).

(** ** Agent library profiles *)

(** [valid_profile_id] *)
Definition valid_profile_id (id prefix : string) : bool :=
  is_some_and (strip_prefix prefix id) (fun slug =>
    (len id <=? 128)%N
    && is_some_and (head (bytes slug)) is_ascii_lowercase
    && all (fun part =>
              negb (bool_decide (part = []))
              && all (fun byte => is_ascii_lowercase byte || is_ascii_digit byte) part)
           (split_bytes 45 (bytes slug))).

(** [valid_personal_agent_id], [valid_agent_profile_id] *)
Definition valid_personal_agent_id (id : string) : bool :=
  valid_profile_id id "custom.agent-profile.".
Definition valid_agent_profile_id (id : string) : bool :=
  valid_personal_agent_id id || valid_profile_id id "builtin.agent-profile.".

(** ** Agent plans *)

(** [DurableAgentPlan::is_well_formed] *)
Definition plan_is_well_formed (self : DurableAgentPlan) : bool :=
  negb (str_is_empty (dap_session_id self))
  && (len (dap_session_id self) <=? 128)%N
  && is_none_or (dap_explanation self) (fun value => (len value <=? 1024)%N)
  && (length (dap_steps self) <=? 32)%nat
  && all (fun step =>
       negb (trim_is_empty (dps_text step)) && (len (dps_text step) <=? 512)%N
       && is_none_or (dps_provider_task_id step)
            (fun task_id => negb (trim_is_empty task_id) && (len task_id <=? 128)%N))
       (dap_steps self)
  && all_with_rest (fun step rest =>
       is_none_or (dps_provider_task_id step) (fun task_id =>
         negb (any (fun candidate => dps_provider_task_id candidate == Some task_id) rest)))
       (dap_steps self).

(** ** Sessions *)

(** [AgentLaunchSelection::is_default] *)
Definition launch_selection_is_default (self : AgentLaunchSelection) : bool :=
  (als_model self == "default") && (als_permission self == "default")
  && (als_reasoning self == "default") && is_none (als_account_id self).

(** [AskToContinuation::is_well_formed] *)
Definition ask_to_id_is_valid (value : string) : bool :=
  negb (str_is_empty value) && (len value <=? 128)%N && negb (any is_control (chars value)).
Definition continuation_is_well_formed (self : AskToContinuation) : bool :=
  ask_to_id_is_valid (atc_conversation_id self)
  && is_none_or (atc_current_request_id self) ask_to_id_is_valid.

(** [ImproverSessionTarget::is_well_formed] *)
Definition improver_target_is_well_formed (self : ImproverSessionTarget) : bool :=
  match ist_target_kind self, ist_target_id self with
  | ITK_WorkflowDraft, None => true
  | (ITK_StewardInstructions | ITK_RoutineBuilder | ITK_Playbook | ITK_AgentCreator), None => true
  | (ITK_StewardInstructions | ITK_RoutineBuilder | ITK_Playbook | ITK_AgentCreator), Some _ => false
  | _, Some target_id =>
      negb (str_is_empty target_id) && (len target_id <=? 4096)%N
      && negb (any is_control (chars target_id))
  | _, None => false
  end.

(** [AgentAccountProvider::parse] *)
Definition account_provider_parse (value : string) : option AgentAccountProvider :=
  if value == "codex" then Some AAP_Codex
  else if value == "claude" then Some AAP_Claude
  else None.

(** [default_agent_accounts] *)
Definition default_agent_accounts : list AgentAccount :=
  (fun agent_id => MkAgentAccount agent_id system_agent_account_id "Default account" true)
    <$> [AAP_Codex; AAP_Claude].

(** [AgentAccountProvider::command] *)
Definition account_provider_command (self : AgentAccountProvider) : string :=
  match self with AAP_Codex => "codex" | AAP_Claude => "claude" end.

(** [AgentAccount::is_valid] *)
Definition agent_account_is_valid (self : AgentAccount) : bool :=
  valid_agent_account_id (aa_account_id self) && negb (str_is_empty (trim (aa_name self)))
  && (len (aa_name self) <=? 80)%N && negb (any is_control (chars (aa_name self)))
  && (trim (aa_name self) == aa_name self).

(** [str::eq_ignore_ascii_case] *)
Definition to_ascii_lowercase (b : N) : N := if is_ascii_uppercase b then (b + 32)%N else b.
Definition eq_ignore_ascii_case (a b : string) : bool :=
  (to_ascii_lowercase <$> bytes a) == (to_ascii_lowercase <$> bytes b).

(** [valid_agent_accounts] *)
Definition agent_accounts_per_provider_max : nat := 16.
Definition accounts_of (provider : AgentAccountProvider) (accounts : list AgentAccount)
  : list AgentAccount :=
  retain (fun account => aa_agent_id account == provider) accounts.
Definition valid_account_rows (rows : list AgentAccount) : bool :=
  negb (rows == []) && (length rows <=? agent_accounts_per_provider_max)%nat
  && (length (retain aa_is_default rows) =? 1)%nat
  && any (fun account => aa_account_id account == system_agent_account_id) rows
  && all_with_rest (fun account rest =>
       agent_account_is_valid account
       && negb (any (fun other =>
                  (aa_account_id other == aa_account_id account)
                  || eq_ignore_ascii_case (aa_name other) (aa_name account)) rest)) rows.
Definition valid_agent_accounts (accounts : list AgentAccount) : bool :=
  all (fun provider => valid_account_rows (accounts_of provider accounts)) [AAP_Codex; AAP_Claude].

(** [DeletedSessionRecord::purge_at_epoch_ms] *)
Definition deleted_session_retention_ms : N := 30 * 24 * 60 * 60 * 1000.
Definition purge_at_epoch_ms (self : DeletedSessionRecord) : N :=
  u64_saturating_add (ds_deleted_at_epoch_ms self) deleted_session_retention_ms.

(** ** Stewards *)

Definition steward_system_prompt_max_bytes : N := 16 * 1024.

(** [valid_assistant_launch_option], [valid_assistant_permission] *)
Definition valid_assistant_launch_option (value : string) : bool :=
  negb (str_is_empty value) && (len value <=? 128)%N && negb (any is_control (chars value)).
Definition valid_assistant_permission (value : string) : bool :=
  (value == "default") || (value == "acceptEdits") || (value == "plan")
  || (value == "bypassPermissions").

(** [PlaybookEvaluatorSettings::is_valid] *)
Definition playbook_evaluator_is_valid (self : PlaybookEvaluatorSettings) : bool :=
  all (fun model =>
         is_none_or model (fun model => valid_assistant_launch_option model && (len model <=? 80)%N))
      [pes_codex_model self; pes_claude_model self]
  && valid_assistant_permission (pes_permission self).

(** [StewardConfiguration::is_valid] *)
Definition steward_configuration_is_valid (self : StewardConfiguration) : bool :=
  negb (trim_is_empty (stw_project_id self)) && (0 <? stw_generation self)%N
  && valid_assistant_launch_option (stw_model self)
  && valid_assistant_permission (stw_permission self)
  && valid_assistant_launch_option (stw_reasoning self)
  && playbook_evaluator_is_valid (stw_playbook_evaluator self)
  && (len (stw_system_prompt self) <=? steward_system_prompt_max_bytes)%N
  && (str_is_empty (stw_system_prompt self) || negb (trim_is_empty (stw_system_prompt self))).

(** ** The agent library *)

Definition personal_agents_max : nat := 60.
Definition agent_instructions_max : N := 32 * 1024.

(** [bounded_text] *)
Definition bounded_text (value : string) (max : N) : bool :=
  negb (trim_is_empty value) && (chars_count value <=? max)%N
  && negb (any (fun ch => is_control ch && negb (bool_decide (ch ∈ [10; 13; 9]%N))) (chars value)).

(** [PersonalAgent::is_valid] *)
Definition personal_agent_is_valid (self : PersonalAgent) : bool :=
  (valid_personal_agent_id (pa_id self) || valid_profile_id (pa_id self) "builtin.agent-profile.")
  && (0 <? pa_version self)%N && bounded_text (pa_name self) 80
  && bounded_text (pa_description self) 240 && bounded_text (pa_category self) 40
  && bounded_text (pa_instructions self) agent_instructions_max
  && (len (pa_instructions self) <=? agent_instructions_max)%N
  && ((pa_agent_id self == "claude") || (pa_agent_id self == "codex"))
  && launch_selection_is_well_formed (pa_selection self).

(** [AgentLibrary::is_valid] *)
Definition agent_library_is_valid (self : AgentLibrary) : bool :=
  (length (al_agents self) <=? 64)%nat
  && (length (retain (fun agent => valid_personal_agent_id (pa_id agent)) (al_agents self))
      <=? personal_agents_max)%nat
  && all_with_rest (fun agent rest =>
       personal_agent_is_valid agent && negb (any (fun other => pa_id other == pa_id agent) rest))
       (al_agents self)
  && (length (al_favorites self) <=? 64)%nat
  && all_with_rest (fun id rest =>
       (len id <=? 128)%N
       && (starts_with "builtin.agent-profile." id
           || any (fun agent => pa_id agent == id) (al_agents self))
       && negb (bool_decide (id ∈ rest))) (al_favorites self).
