(* ===== verification/DomainConfig.v ===== *)
(** * Configuration records of the domain crate

    Companions, Stewards, Playbooks, task sources, task automation, branch sets,
    issue links and preferences: the types of [companion.rs], [playbook.rs],
    [playbook_evaluation.rs], [task_source.rs], [project_task_automation.rs] and
    the rest of [lib.rs], field by field. *)

From S2P Require Import Prelude Text Domain DomainRules.

Inductive CompanionMessageAuthor : Type :=
| CMA_User | CMA_Steward.
#[export] Instance CompanionMessageAuthor_eq_dec : EqDecision CompanionMessageAuthor.
Proof. solve_decision. Defined.

Inductive CompanionMessageKind : Type :=
| CMK_Reply | CMK_Update | CMK_Attention | CMK_Problem | CMK_Suggestion | CMK_Acceptance
| CMK_Action | CMK_Proposal | CMK_Approval | CMK_Decline.
#[export] Instance CompanionMessageKind_eq_dec : EqDecision CompanionMessageKind.
Proof. solve_decision. Defined.

Inductive CompanionMessageInputMode : Type :=
| CMI_Text | CMI_Voice.
#[export] Instance CompanionMessageInputMode_eq_dec : EqDecision CompanionMessageInputMode.
Proof. solve_decision. Defined.

Record CompanionMessageRefs : Type := MkCompanionMessageRefs {
  cmr_task_id : option string;
  cmr_session_id : option string;
  cmr_routine_finding_id : option string;
  cmr_routine_finding_ids : list string
}.
#[export] Instance CompanionMessageRefs_eq_dec : EqDecision CompanionMessageRefs.
Proof. solve_decision. Defined.
#[export] Instance CompanionMessageRefs_eta : Eta CompanionMessageRefs := fun r =>
  MkCompanionMessageRefs (cmr_task_id r) (cmr_session_id r) (cmr_routine_finding_id r)
    (cmr_routine_finding_ids r).

Record CompanionMessage : Type := MkCompanionMessage {
  msg_id : string;
  msg_project_id : string;
  msg_sequence : N;
  msg_author : CompanionMessageAuthor;
  msg_kind : CompanionMessageKind;
  msg_input_mode : CompanionMessageInputMode;
  msg_refs : option CompanionMessageRefs;
  msg_content : string;
  msg_created_at_epoch_ms : N
}.
#[export] Instance CompanionMessage_eq_dec : EqDecision CompanionMessage.
Proof. solve_decision. Defined.
#[export] Instance CompanionMessage_eta : Eta CompanionMessage := fun r =>
  MkCompanionMessage (msg_id r) (msg_project_id r) (msg_sequence r) (msg_author r) (msg_kind r)
    (msg_input_mode r) (msg_refs r) (msg_content r) (msg_created_at_epoch_ms r).

Record StewardConversationRef : Type := MkStewardConversationRef {
  scr_project_id : string;
  scr_resume_ref : ResumeRef
}.
#[export] Instance StewardConversationRef_eq_dec : EqDecision StewardConversationRef.
Proof. solve_decision. Defined.
#[export] Instance StewardConversationRef_eta : Eta StewardConversationRef := fun r =>
  MkStewardConversationRef (scr_project_id r) (scr_resume_ref r).

Inductive PlaybookGateKind : Type :=
| PGK_Automatic | PGK_Human.
#[export] Instance PlaybookGateKind_eq_dec : EqDecision PlaybookGateKind.
Proof. solve_decision. Defined.

Inductive PlaybookAgentReportPolicy : Type :=
| PAR_Off | PAR_Signal | PAR_Trusted.
#[export] Instance PlaybookAgentReportPolicy_eq_dec : EqDecision PlaybookAgentReportPolicy.
Proof. solve_decision. Defined.

Inductive PlaybookDeterministicCheckKind : Type :=
| PCK_PullRequestOpen | PCK_PullRequestChecksPassing | PCK_PullRequestMerged
| PCK_BranchCommitted.
#[export] Instance PlaybookDeterministicCheckKind_eq_dec : EqDecision PlaybookDeterministicCheckKind.
Proof. solve_decision. Defined.

Record PlaybookDeterministicCheck : Type := MkPlaybookDeterministicCheck {
  pdc_kind : PlaybookDeterministicCheckKind;
  pdc_base_branch : option string
}.
#[export] Instance PlaybookDeterministicCheck_eq_dec : EqDecision PlaybookDeterministicCheck.
Proof. solve_decision. Defined.
#[export] Instance PlaybookDeterministicCheck_eta : Eta PlaybookDeterministicCheck := fun r =>
  MkPlaybookDeterministicCheck (pdc_kind r) (pdc_base_branch r).

Record PlaybookMilestone : Type := MkPlaybookMilestone {
  pm_id : string;
  pm_title : string;
  pm_gate : PlaybookGateKind;
  pm_routine_id : string;
  pm_retry_delay_seconds : N;
  pm_approver : option string;
  pm_deterministic_check : option PlaybookDeterministicCheck;
  pm_agent_report : PlaybookAgentReportPolicy
}.
#[export] Instance PlaybookMilestone_eq_dec : EqDecision PlaybookMilestone.
Proof. solve_decision. Defined.
#[export] Instance PlaybookMilestone_eta : Eta PlaybookMilestone := fun r =>
  MkPlaybookMilestone (pm_id r) (pm_title r) (pm_gate r) (pm_routine_id r)
    (pm_retry_delay_seconds r) (pm_approver r) (pm_deterministic_check r) (pm_agent_report r).

Inductive PlaybookStepEvaluator : Type :=
| PSE_Deterministic | PSE_Routine | PSE_Agent.
#[export] Instance PlaybookStepEvaluator_eq_dec : EqDecision PlaybookStepEvaluator.
Proof. solve_decision. Defined.

Inductive PlaybookDeterministicFallback : Type :=
| PDF_NoTaskBranch | PDF_UnsupportedRepository | PDF_ProviderUnavailable | PDF_Unauthorized
| PDF_Offline | PDF_RateLimited | PDF_Timeout | PDF_ProviderFailure | PDF_MultipleMatches
| PDF_ChecksUnsupported | PDF_CommitsUnavailable.
#[export] Instance PlaybookDeterministicFallback_eq_dec : EqDecision PlaybookDeterministicFallback.
Proof. solve_decision. Defined.

Record PlaybookPipeline : Type := MkPlaybookPipeline {
  pp_name : string;
  pp_milestones : list PlaybookMilestone
}.
#[export] Instance PlaybookPipeline_eq_dec : EqDecision PlaybookPipeline.
Proof. solve_decision. Defined.
#[export] Instance PlaybookPipeline_eta : Eta PlaybookPipeline := fun r =>
  MkPlaybookPipeline (pp_name r) (pp_milestones r).

Record PlaybookConfiguration : Type := MkPlaybookConfiguration {
  pb_project_id : string;
  pb_revision : N;
  pb_active_pipeline_name : string;
  pb_milestones : list PlaybookMilestone;
  pb_saved_pipelines : list PlaybookPipeline;
  pb_updated_at_epoch_ms : N
}.
#[export] Instance PlaybookConfiguration_eq_dec : EqDecision PlaybookConfiguration.
Proof. solve_decision. Defined.
#[export] Instance PlaybookConfiguration_eta : Eta PlaybookConfiguration := fun r =>
  MkPlaybookConfiguration (pb_project_id r) (pb_revision r) (pb_active_pipeline_name r)
    (pb_milestones r) (pb_saved_pipelines r) (pb_updated_at_epoch_ms r).

Inductive PlaybookStepVerdict : Type :=
| PSV_Passed | PSV_Waiting | PSV_Blocked.
#[export] Instance PlaybookStepVerdict_eq_dec : EqDecision PlaybookStepVerdict.
Proof. solve_decision. Defined.

Record PlaybookStepProgress : Type := MkPlaybookStepProgress {
  psp_task_id : string;
  psp_milestone_id : string;
  psp_routine_id : string;
  psp_verdict : PlaybookStepVerdict;
  psp_evidence : string;
  psp_decided_at_epoch_ms : N;
  psp_next_attempt_at_epoch_ms : option N;
  psp_evaluator : PlaybookStepEvaluator;
  psp_deterministic_fallback : option PlaybookDeterministicFallback
}.
#[export] Instance PlaybookStepProgress_eq_dec : EqDecision PlaybookStepProgress.
Proof. solve_decision. Defined.
#[export] Instance PlaybookStepProgress_eta : Eta PlaybookStepProgress := fun r =>
  MkPlaybookStepProgress (psp_task_id r) (psp_milestone_id r) (psp_routine_id r) (psp_verdict r)
    (psp_evidence r) (psp_decided_at_epoch_ms r) (psp_next_attempt_at_epoch_ms r) (psp_evaluator
    r) (psp_deterministic_fallback r).

Inductive PlaybookEvaluationOutcome : Type :=
| PEO_InProgress | PEO_Passed | PEO_Waiting | PEO_Blocked | PEO_Failed | PEO_Interrupted.
#[export] Instance PlaybookEvaluationOutcome_eq_dec : EqDecision PlaybookEvaluationOutcome.
Proof. solve_decision. Defined.

Record PlaybookEvaluationRecord : Type := MkPlaybookEvaluationRecord {
  per_id : string;
  per_project_id : string;
  per_task_id : string;
  per_task_title : string;
  per_milestone_id : string;
  per_milestone_title : string;
  per_source_session_id : option string;
  per_source_name : option string;
  per_session_id : string;
  per_agent_id : string;
  per_model : string;
  per_permission : string;
  per_started_at_epoch_ms : N;
  per_finished_at_epoch_ms : option N;
  per_outcome : PlaybookEvaluationOutcome;
  per_evidence : string
}.
#[export] Instance PlaybookEvaluationRecord_eq_dec : EqDecision PlaybookEvaluationRecord.
Proof. solve_decision. Defined.
#[export] Instance PlaybookEvaluationRecord_eta : Eta PlaybookEvaluationRecord := fun r =>
  MkPlaybookEvaluationRecord (per_id r) (per_project_id r) (per_task_id r) (per_task_title r)
    (per_milestone_id r) (per_milestone_title r) (per_source_session_id r) (per_source_name r)
    (per_session_id r) (per_agent_id r) (per_model r) (per_permission r)
    (per_started_at_epoch_ms r) (per_finished_at_epoch_ms r) (per_outcome r) (per_evidence r).

Inductive TaskSourceProvider : Type :=
| TSP_Jira.
#[export] Instance TaskSourceProvider_eq_dec : EqDecision TaskSourceProvider.
Proof. solve_decision. Defined.

Inductive TaskSourceScope : Type :=
| TSS_All
| TSS_AssignedToMe
| TSS_Board (board_id board_name : string)
| TSS_Jql (jql : string).
#[export] Instance TaskSourceScope_eq_dec : EqDecision TaskSourceScope.
Proof. solve_decision. Defined.

Record TaskSourceBoardSelection : Type := MkTaskSourceBoardSelection {
  tsb_id : string;
  tsb_name : string
}.
#[export] Instance TaskSourceBoardSelection_eq_dec : EqDecision TaskSourceBoardSelection.
Proof. solve_decision. Defined.
#[export] Instance TaskSourceBoardSelection_eta : Eta TaskSourceBoardSelection := fun r =>
  MkTaskSourceBoardSelection (tsb_id r) (tsb_name r).

Record TaskSourceStatusSelection : Type := MkTaskSourceStatusSelection {
  tst_id : string;
  tst_name : string
}.
#[export] Instance TaskSourceStatusSelection_eq_dec : EqDecision TaskSourceStatusSelection.
Proof. solve_decision. Defined.
#[export] Instance TaskSourceStatusSelection_eta : Eta TaskSourceStatusSelection := fun r =>
  MkTaskSourceStatusSelection (tst_id r) (tst_name r).

Inductive TaskSourceImportPolicy : Type :=
| TSI_Review | TSI_AutoAdd.
#[export] Instance TaskSourceImportPolicy_eq_dec : EqDecision TaskSourceImportPolicy.
Proof. solve_decision. Defined.

Inductive TaskSourceBranchNaming : Type :=
| TSN_Title | TSN_IssueKey.
#[export] Instance TaskSourceBranchNaming_eq_dec : EqDecision TaskSourceBranchNaming.
Proof. solve_decision. Defined.

Record TaskSourceConfiguration : Type := MkTaskSourceConfiguration {
  tsc_id : string;
  tsc_project_id : string;
  tsc_provider : TaskSourceProvider;
  tsc_name : string;
  tsc_enabled : bool;
  tsc_generation : N;
  tsc_site_base_url : string;
  tsc_scope : TaskSourceScope;
  tsc_boards : list TaskSourceBoardSelection;
  tsc_statuses : list TaskSourceStatusSelection;
  tsc_import_policy : TaskSourceImportPolicy;
  tsc_auto_import_active_task_limit : N;
  tsc_refresh_interval_seconds : N;
  tsc_ignored_external_ids : list string;
  tsc_branch_naming : TaskSourceBranchNaming;
  tsc_created_at_epoch_ms : N;
  tsc_updated_at_epoch_ms : N
}.
#[export] Instance TaskSourceConfiguration_eq_dec : EqDecision TaskSourceConfiguration.
Proof. solve_decision. Defined.
#[export] Instance TaskSourceConfiguration_eta : Eta TaskSourceConfiguration := fun r =>
  MkTaskSourceConfiguration (tsc_id r) (tsc_project_id r) (tsc_provider r) (tsc_name r)
    (tsc_enabled r) (tsc_generation r) (tsc_site_base_url r) (tsc_scope r) (tsc_boards r)
    (tsc_statuses r) (tsc_import_policy r) (tsc_auto_import_active_task_limit r)
    (tsc_refresh_interval_seconds r) (tsc_ignored_external_ids r) (tsc_branch_naming r)
    (tsc_created_at_epoch_ms r) (tsc_updated_at_epoch_ms r).

Record ProjectTaskAutomationConfiguration : Type := MkProjectTaskAutomationConfiguration {
  pta_project_id : string;
  pta_create_worktree : bool;
  pta_worktree_prefix : string;
  pta_base_ref : option string;
  pta_agent_id : option string;
  pta_workflow_id : option string;
  pta_model : option string;
  pta_permission : option string;
  pta_reasoning : option string;
  pta_kickoff_message : option string
}.
#[export] Instance ProjectTaskAutomationConfiguration_eq_dec : EqDecision ProjectTaskAutomationConfiguration.
Proof. solve_decision. Defined.
#[export] Instance ProjectTaskAutomationConfiguration_eta : Eta ProjectTaskAutomationConfiguration := fun r =>
  MkProjectTaskAutomationConfiguration (pta_project_id r) (pta_create_worktree r)
    (pta_worktree_prefix r) (pta_base_ref r) (pta_agent_id r) (pta_workflow_id r) (pta_model r)
    (pta_permission r) (pta_reasoning r) (pta_kickoff_message r).

Record McpToolDescriptionOverride : Type := MkMcpToolDescriptionOverride {
  mto_tool : McpToolName;
  mto_description : string
}.
#[export] Instance McpToolDescriptionOverride_eq_dec : EqDecision McpToolDescriptionOverride.
Proof. solve_decision. Defined.
#[export] Instance McpToolDescriptionOverride_eta : Eta McpToolDescriptionOverride := fun r =>
  MkMcpToolDescriptionOverride (mto_tool r) (mto_description r).

Inductive TaskBranchMembershipEvidence : Type :=
| TBE_CurrentBranch | TBE_WorktreeReflog | TBE_BranchCreationReflog.
#[export] Instance TaskBranchMembershipEvidence_eq_dec : EqDecision TaskBranchMembershipEvidence.
Proof. solve_decision. Defined.

Record TaskBranchMembership : Type := MkTaskBranchMembership {
  tbm_id : string;
  tbm_repository_root : string;
  tbm_repository_common_dir : string;
  tbm_ref_name : string;
  tbm_first_observed_worktree_generation : N;
  tbm_first_observed_oid : string;
  tbm_parent_ref_name : option string;
  tbm_evidence : TaskBranchMembershipEvidence
}.
#[export] Instance TaskBranchMembership_eq_dec : EqDecision TaskBranchMembership.
Proof. solve_decision. Defined.
#[export] Instance TaskBranchMembership_eta : Eta TaskBranchMembership := fun r =>
  MkTaskBranchMembership (tbm_id r) (tbm_repository_root r) (tbm_repository_common_dir r)
    (tbm_ref_name r) (tbm_first_observed_worktree_generation r) (tbm_first_observed_oid r)
    (tbm_parent_ref_name r) (tbm_evidence r).

Record TaskBranchSet : Type := MkTaskBranchSet {
  tbs_task_id : string;
  tbs_evidence_truncated : bool;
  tbs_memberships : list TaskBranchMembership
}.
#[export] Instance TaskBranchSet_eq_dec : EqDecision TaskBranchSet.
Proof. solve_decision. Defined.
#[export] Instance TaskBranchSet_eta : Eta TaskBranchSet := fun r =>
  MkTaskBranchSet (tbs_task_id r) (tbs_evidence_truncated r) (tbs_memberships r).

Inductive IssueLinkProvider : Type :=
| ILP_Jira.
#[export] Instance IssueLinkProvider_eq_dec : EqDecision IssueLinkProvider.
Proof. solve_decision. Defined.

Inductive IssueLinkSyncAuthority : Type :=
| ILA_None | ILA_LocalWins | ILA_RemoteWins.
#[export] Instance IssueLinkSyncAuthority_eq_dec : EqDecision IssueLinkSyncAuthority.
Proof. solve_decision. Defined.

Record IssueLink : Type := MkIssueLink {
  il_task_id : string;
  il_provider : IssueLinkProvider;
  il_external_ref : string;
  il_source_id : option string;
  il_external_id : option string;
  il_external_updated_at : option string;
  il_url : option string;
  il_sync_authority : IssueLinkSyncAuthority
}.
#[export] Instance IssueLink_eq_dec : EqDecision IssueLink.
Proof. solve_decision. Defined.
#[export] Instance IssueLink_eta : Eta IssueLink := fun r =>
  MkIssueLink (il_task_id r) (il_provider r) (il_external_ref r) (il_source_id r)
    (il_external_id r) (il_external_updated_at r) (il_url r) (il_sync_authority r).

Inductive KeepAwakeMode : Type :=
| KAM_Off | KAM_WhileAgentsRun | KAM_Always.
#[export] Instance KeepAwakeMode_eq_dec : EqDecision KeepAwakeMode.
Proof. solve_decision. Defined.

Record KeepAwakePreference : Type := MkKeepAwakePreference {
  kap_mode : KeepAwakeMode;
  kap_keep_display_awake : bool;
  kap_expires_at_epoch_ms : option N
}.
#[export] Instance KeepAwakePreference_eq_dec : EqDecision KeepAwakePreference.
Proof. solve_decision. Defined.
#[export] Instance KeepAwakePreference_eta : Eta KeepAwakePreference := fun r =>
  MkKeepAwakePreference (kap_mode r) (kap_keep_display_awake r) (kap_expires_at_epoch_ms r).

Record AgentForkPreference : Type := MkAgentForkPreference {
  afp_system_prompt_enabled : bool
}.
#[export] Instance AgentForkPreference_eq_dec : EqDecision AgentForkPreference.
Proof. solve_decision. Defined.
#[export] Instance AgentForkPreference_eta : Eta AgentForkPreference := fun r =>
  MkAgentForkPreference (afp_system_prompt_enabled r).

Record AgentRestartPreference : Type := MkAgentRestartPreference {
  arp_auto_continue_interrupted : bool
}.
#[export] Instance AgentRestartPreference_eq_dec : EqDecision AgentRestartPreference.
Proof. solve_decision. Defined.
#[export] Instance AgentRestartPreference_eta : Eta AgentRestartPreference := fun r =>
  MkAgentRestartPreference (arp_auto_continue_interrupted r).

(** * When configuration records are valid

    The [is_valid] methods and their helpers of [domain/src/companion.rs],
    [playbook.rs], [playbook_evaluation.rs], [task_source.rs] and
    [project_task_automation.rs], and the position of a Task on a pipeline. *)

Local Open Scope string_scope.
Local Open Scope list_scope.

(** [str::ends_with], [str::contains] of a text, [str::split_once] at a byte *)
Definition ends_with (suffix s : string) : bool :=
  bool_decide (bytes suffix `suffix_of` bytes s).
Definition contains_text (needle s : string) : bool :=
  any (fun index => bool_decide (bytes needle `prefix_of` drop index (bytes s)))
    (seq 0 (S (length (bytes s)))).
Definition contains_any (needles : list N) (s : string) : bool :=
  any (fun b => bool_decide (b ∈ needles)) (bytes s).
Definition split_once (sep : N) (s : string) : option (string * string) :=
  let bs := bytes s in
  match skip_while (fun b => negb (b =? sep)%N) bs with
  | [] => None
  | _ :: rest =>
      Some (string_of_bytes (take_while (fun b => negb (b =? sep)%N) bs), string_of_bytes rest)
  end.

(** ** Companion messages ([companion.rs]) *)

Definition companion_message_max_bytes : N := 48 * 1024.
Definition companion_transcript_hard_bytes : N := 50 * 1024 * 1024.
Definition companion_transcript_hard_messages : N := 10000.
Definition routine_pending_findings_max : nat := 16.
Definition message_ref_id_max_bytes : N := 256.

(** [CompanionMessageRefs::all_routine_finding_ids] *)
Definition all_routine_finding_ids (self : CompanionMessageRefs) : list string :=
  option_list (cmr_routine_finding_id self) ++ cmr_routine_finding_ids self.

(** [CompanionMessageRefs::is_valid] *)
Definition message_refs_are_valid (self : CompanionMessageRefs) : bool :=
  let values := [cmr_task_id self; cmr_session_id self; cmr_routine_finding_id self] in
  all (fun value => negb (trim_is_empty value) && (len value <=? message_ref_id_max_bytes)%N)
    (omap id values)
  && (length (cmr_routine_finding_ids self) <=? routine_pending_findings_max)%nat
  && all_with_rest (fun value rest =>
       negb (trim_is_empty value) && (len value <=? message_ref_id_max_bytes)%N
       && (cmr_routine_finding_id self != Some value)
       && negb (any (fun other => other == value) rest)) (cmr_routine_finding_ids self)
  && (any is_some values || negb (cmr_routine_finding_ids self == [])).

(** [CompanionMessage::is_valid] *)
Definition companion_message_is_valid (self : CompanionMessage) : bool :=
  negb (trim_is_empty (msg_id self))
  && negb (trim_is_empty (msg_project_id self))
  && (0 <? msg_sequence self)%N
  && is_none_or (msg_refs self) message_refs_are_valid
  && negb (trim_is_empty (msg_content self))
  && (len (msg_content self) <=? companion_message_max_bytes)%N.

(** [StewardConversationRef::is_valid] *)
Definition conversation_ref_is_valid `{UuidParser} (self : StewardConversationRef) : bool :=
  negb (trim_is_empty (scr_project_id self)) && resume_ref_validate (scr_resume_ref self).

(** ** Routines ([companion.rs]) *)

Definition tracker_name_max_bytes : N := 80.
Definition tracker_prompt_max_bytes : N := 9 * 1024.
Definition tracker_schedule_min_seconds : N := 60.
Definition tracker_schedule_max_seconds : N := 24 * 60 * 60.
Definition tracker_report_source_refs_max : nat := 16.
Definition tracker_report_source_ref_max_bytes : N := 512.
Definition routine_context_max_bytes : N := 32 * 1024.
Definition routine_recent_source_keys_max : nat := 128.
Definition routine_source_key_max_bytes : N := 256.
Definition routine_related_tasks_max : nat := 16.
Definition routine_finding_summary_max_bytes : N := 4 * 1024.
Definition routine_finding_evidence_max_bytes : N := 2 * 1024.

Definition bounded_unique_values (values : list string) (max_items : nat) (max_bytes : N) : bool :=
  (length values <=? max_items)%nat
  && all_with_rest (fun value rest =>
       negb (trim_is_empty value) && (len value <=? max_bytes)%N
       && negb (any (fun other => other == value) rest)) values.

(** [PendingRoutineFinding::is_valid] *)
Definition finding_is_valid (self : PendingRoutineFinding) : bool :=
  negb (trim_is_empty (prf_id self))
  && (len (prf_id self) <=? message_ref_id_max_bytes)%N
  && negb (trim_is_empty (prf_source_key self))
  && (len (prf_source_key self) <=? routine_source_key_max_bytes)%N
  && (0 <? prf_routine_generation self)%N
  && negb (trim_is_empty (prf_summary self))
  && (len (prf_summary self) <=? routine_finding_summary_max_bytes)%N
  && negb (trim_is_empty (prf_evidence self))
  && (len (prf_evidence self) <=? routine_finding_evidence_max_bytes)%N
  && bounded_unique_values (prf_source_references self) tracker_report_source_refs_max
       tracker_report_source_ref_max_bytes
  && bounded_unique_values (prf_related_task_ids self) routine_related_tasks_max
       message_ref_id_max_bytes
  && (0 <? prf_created_at_epoch_ms self)%N.

(** [TrackerConfiguration::is_valid] *)
Definition tracker_configuration_is_valid (self : TrackerConfiguration) : bool :=
  negb (trim_is_empty (tc_id self))
  && negb (trim_is_empty (tc_project_id self))
  && negb (trim_is_empty (tc_name self))
  && (len (tc_name self) <=? tracker_name_max_bytes)%N
  && negb (trim_is_empty (tc_prompt self))
  && (len (tc_prompt self) <=? tracker_prompt_max_bytes)%N
  && (len (tc_steward_instructions self) <=? tracker_prompt_max_bytes)%N
  && (len (tc_context_markdown self) <=? routine_context_max_bytes)%N
  && (0 <? tc_context_revision self)%N
  && bounded_unique_values (tc_recent_source_keys self) routine_recent_source_keys_max
       routine_source_key_max_bytes
  && bounded_unique_values (tc_related_task_ids self) routine_related_tasks_max
       message_ref_id_max_bytes
  && (length (tc_pending_routine_findings self) <=? routine_pending_findings_max)%nat
  && all_with_rest (fun finding rest =>
       finding_is_valid finding
       && (prf_routine_generation finding =? tc_generation self)%N
       && negb (any (fun other =>
                   (prf_id other == prf_id finding)
                   || (prf_source_key other == prf_source_key finding)) rest))
       (tc_pending_routine_findings self)
  && ((tc_action_handling self != RAH_Off) || (tc_pending_routine_findings self == []))
  && in_range tracker_schedule_min_seconds tracker_schedule_max_seconds
       (tc_schedule_interval_seconds self)
  && (0 <? tc_generation self)%N.

(** ** Playbooks ([playbook.rs]) *)

Definition playbook_milestones_max : nat := 24.
Definition playbook_entry_id_max_bytes : N := 64.
Definition playbook_title_max_bytes : N := 120.
Definition playbook_approver_max_bytes : N := 120.
Definition playbook_routine_id_max_bytes : N := 64.
Definition playbook_pipeline_name_max_bytes : N := 120.
Definition playbook_saved_pipelines_max : nat := 16.
Definition playbook_retry_delay_min_seconds : N := 60.
Definition playbook_retry_delay_max_seconds : N := 86400.
Definition playbook_evidence_max_bytes : N := 600.
Definition playbook_base_branch_max_bytes : N := 255.

Definition valid_routine_reference (value : string) : bool :=
  negb (trim_is_empty value) && (len value <=? playbook_routine_id_max_bytes)%N.
Definition valid_entry_id (value : string) : bool :=
  negb (str_is_empty value) && (len value <=? playbook_entry_id_max_bytes)%N
  && all (fun c => is_ascii_alphanumeric c || (c =? 45)%N || (c =? 95)%N) (chars value).
Definition valid_required_text (value : string) (max_bytes : N) : bool :=
  negb (trim_is_empty value) && (len value <=? max_bytes)%N && negb (any is_control (chars value)).
Definition valid_optional_text (value : string) (max_bytes : N) : bool :=
  (len value <=? max_bytes)%N && (str_is_empty value || negb (trim_is_empty value))
  && negb (any (fun c => is_control c && negb (c =? 10)%N) (chars value)).
Definition unique_ids (ids : list string) : bool :=
  all_with_rest (fun id rest => negb (any (fun other => other == id) rest)) ids.

(** [PlaybookDeterministicCheck::is_valid] *)
Definition deterministic_check_is_valid (self : PlaybookDeterministicCheck) : bool :=
  if pdc_kind self == PCK_BranchCommitted then is_none (pdc_base_branch self)
  else
    is_none_or (pdc_base_branch self) (fun branch =>
      negb (str_is_empty branch) && (len branch <=? playbook_base_branch_max_bytes)%N
      && negb (any (fun c => is_control c || is_whitespace c) (chars branch))).

(** [PlaybookMilestone::is_valid] *)
Definition milestone_is_valid (self : PlaybookMilestone) : bool :=
  valid_routine_reference (pm_routine_id self)
  && in_range playbook_retry_delay_min_seconds playbook_retry_delay_max_seconds
       (pm_retry_delay_seconds self)
  && valid_entry_id (pm_id self)
  && valid_required_text (pm_title self) playbook_title_max_bytes
  && match pm_gate self, pm_approver self with
     | PGK_Human, Some approver => valid_required_text approver playbook_approver_max_bytes
     | PGK_Human, None => false
     | PGK_Automatic, approver => is_none approver
     end
  && match pm_gate self, pm_deterministic_check self with
     | _, None => true
     | PGK_Human, Some _ => false
     | PGK_Automatic, Some check => deterministic_check_is_valid check
     end
  && negb ((pm_gate self == PGK_Human) && (pm_agent_report self == PAR_Trusted)).

(** [PlaybookPipeline::is_valid] *)
Definition pipeline_is_valid (self : PlaybookPipeline) : bool :=
  valid_required_text (pp_name self) playbook_pipeline_name_max_bytes
  && (length (pp_milestones self) <=? playbook_milestones_max)%nat
  && all milestone_is_valid (pp_milestones self)
  && unique_ids (pm_id <$> pp_milestones self).

(** [PlaybookConfiguration::is_valid] *)
Definition playbook_configuration_is_valid (self : PlaybookConfiguration) : bool :=
  negb (trim_is_empty (pb_project_id self))
  && (0 <? pb_revision self)%N
  && (length (pb_milestones self) <=? playbook_milestones_max)%nat
  && all milestone_is_valid (pb_milestones self)
  && unique_ids (pm_id <$> pb_milestones self)
  && valid_required_text (pb_active_pipeline_name self) playbook_pipeline_name_max_bytes
  && (length (pb_saved_pipelines self) <=? playbook_saved_pipelines_max)%nat
  && all pipeline_is_valid (pb_saved_pipelines self)
  && unique_ids (pb_active_pipeline_name self :: (pp_name <$> pb_saved_pipelines self)).

(** [PlaybookConfiguration::all_milestones] *)
Definition all_milestones (self : PlaybookConfiguration) : list PlaybookMilestone :=
  pb_milestones self ++ (pb_saved_pipelines self ≫= pp_milestones).

(** [PlaybookConfiguration::progress_matches_current_step] *)
Definition progress_matches_current_step (self : PlaybookConfiguration)
    (progress : PlaybookStepProgress) : bool :=
  any (fun milestone =>
    (pm_id milestone == psp_milestone_id progress)
    && (pm_routine_id milestone == psp_routine_id progress)) (pb_milestones self).

(** [PlaybookStepProgress::is_valid] *)
Definition step_progress_is_valid (self : PlaybookStepProgress) : bool :=
  negb (trim_is_empty (psp_task_id self)) && (len (psp_task_id self) <=? 256)%N
  && valid_entry_id (psp_milestone_id self)
  && valid_routine_reference (psp_routine_id self)
  && valid_optional_text (psp_evidence self) playbook_evidence_max_bytes
  && ((psp_evaluator self == PSE_Routine) || is_none (psp_deterministic_fallback self))
  && match psp_verdict self with
     | PSV_Passed => is_none (psp_next_attempt_at_epoch_ms self)
     | PSV_Waiting | PSV_Blocked => is_some (psp_next_attempt_at_epoch_ms self)
     end.

(** [PlaybookPosition], [pipeline_position] *)
Inductive PlaybookPosition : Type :=
| Position_At (index : nat)
| Position_Done.
#[export] Instance PlaybookPosition_eq_dec : EqDecision PlaybookPosition.
Proof. solve_decision. Defined.

Definition has_passed (answers : list PlaybookStepProgress) (milestone : PlaybookMilestone) : bool :=
  any (fun answer =>
    (psp_milestone_id answer == pm_id milestone)
    && (psp_routine_id answer == pm_routine_id milestone)
    && (psp_verdict answer == PSV_Passed)) answers.
Fixpoint position_from (index : nat) (milestones : list PlaybookMilestone)
    (answers : list PlaybookStepProgress) : PlaybookPosition :=
  match milestones with
  | [] => Position_Done
  | milestone :: rest =>
      if negb (has_passed answers milestone) then Position_At index
      else position_from (S index) rest answers
  end.
Definition pipeline_position (milestones : list PlaybookMilestone)
    (answers : list PlaybookStepProgress) : PlaybookPosition :=
  position_from 0 milestones answers.

(** ** Evaluation receipts ([playbook_evaluation.rs]) *)

Definition playbook_evaluations_per_project_max : nat := 200.

Definition bounded_chars (text : string) (max : N) : bool :=
  negb (trim_is_empty text) && (chars_count text <=? max)%N.

(** [PlaybookEvaluationRecord::is_valid] *)
Definition evaluation_is_valid (self : PlaybookEvaluationRecord) : bool :=
  bounded_chars (per_id self) 128
  && all (fun id => bounded_chars id 64)
       [per_project_id self; per_task_id self; per_session_id self]
  && match per_source_session_id self, per_source_name self with
     | Some id, Some name => bounded_chars id 64 && bounded_chars name 4096
     | None, None => true
     | _, _ => false
     end
  && bounded_chars (per_milestone_id self) 128
  && all (fun text => bounded_chars text 4096) [per_task_title self; per_milestone_title self]
  && ((per_agent_id self == "codex") || (per_agent_id self == "claude"))
  && bounded_chars (per_model self) 80
  && valid_assistant_permission (per_permission self)
  && (len (per_evidence self) <=? playbook_evidence_max_bytes)%N
  && match per_outcome self with
     | PEO_InProgress => is_none (per_finished_at_epoch_ms self) && str_is_empty (per_evidence self)
     | _ =>
         is_some_and (per_finished_at_epoch_ms self) (fun time =>
           (per_started_at_epoch_ms self <=? time)%N)
         && negb (trim_is_empty (per_evidence self))
     end.

(** ** Task sources ([task_source.rs]) *)

Definition task_source_name_max_bytes : N := 80.
Definition task_source_site_max_bytes : N := 2048.
Definition task_source_jql_max_bytes : N := 4096.
Definition task_source_board_name_max_bytes : N := 256.
Definition task_source_boards_max : nat := 10.
Definition task_source_statuses_max : nat := 100.
Definition task_source_ignored_max : nat := 500.
Definition task_source_external_id_max_bytes : N := 64.
Definition task_sources_per_project_max : nat := 16.
Definition task_source_refresh_min_seconds : N := 60.
Definition task_source_refresh_max_seconds : N := 86400.
Definition task_source_auto_import_active_task_limit_max : N := 50.

Definition has_ascii_control (value : string) : bool := any is_ascii_control (bytes value).

Definition valid_board_id (value : string) : bool :=
  negb (str_is_empty value) && (len value <=? 20)%N
  && (head (bytes value) != Some 48%N)
  && all is_ascii_digit (bytes value).
Definition valid_board_name (name : string) : bool :=
  negb (trim_is_empty name) && (len name <=? task_source_board_name_max_bytes)%N
  && negb (has_ascii_control name).

(** [TaskSourceScope::is_valid] *)
Definition scope_is_valid (self : TaskSourceScope) : bool :=
  match self with
  | TSS_All | TSS_AssignedToMe => true
  | TSS_Board board_id board_name => valid_board_id board_id && valid_board_name board_name
  | TSS_Jql jql =>
      negb (trim_is_empty jql) && (len jql <=? task_source_jql_max_bytes)%N
      && negb (has_ascii_control jql)
  end.

(** [TaskSourceBoardSelection::is_valid], [TaskSourceStatusSelection::is_valid] *)
Definition board_selection_is_valid (self : TaskSourceBoardSelection) : bool :=
  valid_board_id (tsb_id self) && valid_board_name (tsb_name self).
Definition status_selection_is_valid (self : TaskSourceStatusSelection) : bool :=
  valid_board_id (tst_id self) && valid_board_name (tst_name self).

(** [issue_key_branch_name] *)
Definition issue_key_branch_name (external_ref : string) : option string :=
  '(project, number) ← split_once 45 external_ref;
  let project_valid :=
    (len project <=? 32)%N
    && is_some_and (head (bytes project)) is_ascii_uppercase
    && all (fun b => is_ascii_uppercase b || is_ascii_digit b || (b =? 95)%N) (bytes project) in
  let number_valid :=
    in_range 1 16 (len number) && negb (starts_with "0" number)
    && all is_ascii_digit (bytes number) in
  if project_valid && number_valid then Some external_ref else None.

(** [valid_site_base_url_shape] *)
Definition valid_site_base_url_shape (value : string) : bool :=
  match strip_prefix "https://" value with
  | None => false
  | Some host =>
      (len ".atlassian.net" <? len host)%N && (len value <=? task_source_site_max_bytes)%N
      && ends_with ".atlassian.net" host
      && negb (contains_any [47; 63; 35; 64] host)%N
      && all (fun b => is_ascii_lowercase b || is_ascii_digit b || (b =? 46)%N || (b =? 45)%N)
           (bytes host)
  end.

(** [TaskSourceConfiguration::is_valid] *)
Definition task_source_is_valid (self : TaskSourceConfiguration) : bool :=
  negb (trim_is_empty (tsc_id self))
  && (len (tsc_id self) <=? 64)%N
  && negb (trim_is_empty (tsc_project_id self))
  && negb (trim_is_empty (tsc_name self))
  && (len (tsc_name self) <=? task_source_name_max_bytes)%N
  && valid_site_base_url_shape (tsc_site_base_url self)
  && scope_is_valid (tsc_scope self)
  && (length (tsc_boards self) <=? task_source_boards_max)%nat
  && all_with_rest (fun board rest =>
       board_selection_is_valid board
       && negb (any (fun candidate => tsb_id candidate == tsb_id board) rest)) (tsc_boards self)
  && (length (tsc_statuses self) <=? task_source_statuses_max)%nat
  && all_with_rest (fun status rest =>
       status_selection_is_valid status
       && negb (any (fun candidate => tst_id candidate == tst_id status) rest)) (tsc_statuses self)
  && ((tsc_statuses self == []) || (tsc_boards self != []))
  && (match tsc_scope self with TSS_Board _ _ => false | _ => true end || (tsc_boards self == []))
  && in_range 1 task_source_auto_import_active_task_limit_max
       (tsc_auto_import_active_task_limit self)
  && in_range task_source_refresh_min_seconds task_source_refresh_max_seconds
       (tsc_refresh_interval_seconds self)
  && (0 <? tsc_generation self)%N
  && (0 <? tsc_created_at_epoch_ms self)%N
  && (tsc_created_at_epoch_ms self <=? tsc_updated_at_epoch_ms self)%N
  && (length (tsc_ignored_external_ids self) <=? task_source_ignored_max)%nat
  && all_with_rest (fun value rest =>
       negb (trim_is_empty value) && (len value <=? task_source_external_id_max_bytes)%N
       && negb (has_ascii_control value) && negb (any (fun other => other == value) rest))
       (tsc_ignored_external_ids self).

(** ** Task automation ([project_task_automation.rs]) *)

Definition project_task_automation_kickoff_message_max_bytes : N := 8192.

Definition valid_worktree_prefix (value : string) : bool :=
  match bytes value with
  | [] => false
  | first :: rest =>
      (len value <=? 32)%N && is_ascii_lowercase first
      && all (fun b => is_ascii_lowercase b || is_ascii_digit b || (b =? 45)%N) rest
      && is_some_and (head (rev (bytes value))) (fun b => is_ascii_lowercase b || is_ascii_digit b)
      && negb (any (fun pair => ((pair.1 =? 45) && (pair.2 =? 45))%N) (windows2 (bytes value)))
  end.

Definition valid_remote_base_ref (value : string) : bool :=
  match strip_prefix "refs/remotes/" value ≫= split_once 47 with
  | None => false
  | Some (remote, branch) =>
      negb (str_is_empty remote) && negb (str_is_empty branch) && (branch != "HEAD")
      && (len value <=? 1024)%N
      && negb (ends_with "/" value) && negb (ends_with "." value)
      && negb (contains_text ".." value) && negb (contains_text "@{" value)
      && negb (contains_text "//" value)
      && negb (any (fun b =>
                  is_ascii_control b || (b =? 127)%N
                  || bool_decide (b ∈ [32; 126; 94; 58; 63; 42; 91; 92])%N) (bytes value))
      && all (fun component =>
           negb (starts_with "." (string_of_bytes component))
           && negb (ends_with ".lock" (string_of_bytes component))) (split_bytes 47 (bytes value))
  end.

Definition valid_model (value : string) : bool :=
  negb (str_is_empty value) && (len value <=? 80)%N && negb (any is_control (chars value)).
Definition valid_reasoning (value : string) : bool :=
  bool_decide (value ∈
    ["default"; "low"; "medium"; "high"; "xhigh"; "max"; "none"; "thinking"]).
Definition valid_permission (value : string) : bool :=
  bool_decide (value ∈ ["default"; "acceptEdits"; "plan"; "bypassPermissions"]).
Definition valid_kickoff_message (value : string) : bool :=
  negb (trim_is_empty value)
  && (len value <=? project_task_automation_kickoff_message_max_bytes)%N
  && negb (any (fun c => is_control c && negb ((c =? 10) || (c =? 9))%N) (chars value)).

(** [ProjectTaskAutomationConfiguration::is_valid] *)
Definition task_automation_is_valid (self : ProjectTaskAutomationConfiguration) : bool :=
  if trim_is_empty (pta_project_id self)
     || negb (valid_worktree_prefix (pta_worktree_prefix self))
     || is_some_and (pta_base_ref self) (fun value => negb (valid_remote_base_ref value))
  then false
  else
    match pta_workflow_id self with
    | Some workflow_id =>
        pta_create_worktree self
        && negb (trim_is_empty workflow_id) && (len workflow_id <=? 64)%N
        && negb (any is_control (chars workflow_id))
        && is_none (pta_agent_id self) && is_none (pta_model self)
        && is_none (pta_permission self) && is_none (pta_reasoning self)
        && is_none (pta_kickoff_message self)
    | None =>
        match pta_agent_id self, pta_model self, pta_permission self, pta_reasoning self with
        | None, None, None, None => is_none (pta_kickoff_message self)
        | Some agent_id, Some model, Some permission, Some reasoning =>
            pta_create_worktree self
            && agent_id_is_well_formed agent_id && valid_model model
            && valid_permission permission && valid_reasoning reasoning
            && is_none_or (pta_kickoff_message self) valid_kickoff_message
        | _, _, _, _ => false
        end
    end.
