(* ===== verification/StoreState.v ===== *)
(** * The durable store

    [src/modules/store/src/lib.rs]: the in-memory current state, the state file
    on disk, and the commit discipline every mutation goes through.

    [CurrentState] has every field of the Rust struct but
    [worker_configurations], an input of migrations that is never written.
    [Store] pairs the Rust [Store]
    with its environment: [disk] is the content of the state file, and [io] the
    outcomes of the coming attempts to replace it (an exhausted list means
    success), so a theorem about every [Store] covers every I/O failure
    pattern.  Serialization is [serde_json]'s and the atomic replacement of the
    file the operating system's: an attempt either replaces the whole file or
    leaves it as it was. *)

From S2P Require Import Prelude Text Domain DomainRules DomainConfig.

Record CurrentState : Type := MkCurrentState {
  schema_version : N;
  agent_library : AgentLibrary;
  session_agent_profiles : list SessionAgentProfile;
  revision : N;
  mcp_tool_description_overrides : list McpToolDescriptionOverride;
  projects : list ProjectRecord;
  tasks : list TaskRecord;
  task_branch_sets : list TaskBranchSet;
  task_archive_operations : list TaskArchiveOperation;
  task_archive_suspensions : list TaskArchiveSuspension;
  session_archive_operations : list SessionArchiveOperation;
  session_relocation_operations : list SessionRelocationOperation;
  session_relocation_receipts : list SessionRelocationReceipt;
  issue_links : list IssueLink;
  task_source_configurations : list TaskSourceConfiguration;
  project_task_automation_configurations : list ProjectTaskAutomationConfiguration;
  provisioning_operations : list WorktreeProvisioningOperation;
  managed_worktrees : list ManagedWorktreeProof;
  cleanup_operations : list WorktreeCleanupOperation;
  cleanup_receipts : list WorktreeCleanupReceipt;
  repair_operations : list WorktreeRepairOperation;
  repair_receipts : list WorktreeRepairReceipt;
  stale_resolution_operations : list WorktreeStaleResolutionOperation;
  stale_resolution_receipts : list WorktreeStaleResolutionReceipt;
  companion_messages : list CompanionMessage;
  steward_configurations : list StewardConfiguration;
  steward_conversation_refs : list StewardConversationRef;
  tracker_configurations : list TrackerConfiguration;
  playbook_configurations : list PlaybookConfiguration;
  playbook_step_progress : list PlaybookStepProgress;
  playbook_evaluations : list PlaybookEvaluationRecord;
  run_configurations : list RunConfiguration;
  workflow_configurations : list WorkflowConfiguration;
  workflow_executions : list WorkflowExecution;
  configuration_versions : list ConfigurationVersion;
  configuration_version_selections : list ConfigurationVersionSelection;
  run_setup_marks : list RunSetupMark;
  last_agent_launch_selection : option SavedAgentLaunchSelection;
  agent_accounts : list AgentAccount;
  keep_awake_preference : KeepAwakePreference;
  agent_fork_preference : AgentForkPreference;
  agent_restart_preference : AgentRestartPreference;
  agent_plans : list DurableAgentPlan;
  agent_conversation_readiness : list AgentConversationReadinessRecord;
  sessions : list SessionRecord;
  deleted_sessions : list DeletedSessionRecord
}.

#[export] Instance CurrentState_eta : Eta CurrentState := fun r =>
  MkCurrentState (schema_version r) (agent_library r) (session_agent_profiles r) (revision r)
    (mcp_tool_description_overrides r) (projects r) (tasks r) (task_branch_sets r)
    (task_archive_operations r) (task_archive_suspensions r) (session_archive_operations r)
    (session_relocation_operations r) (session_relocation_receipts r) (issue_links r)
    (task_source_configurations r) (project_task_automation_configurations r)
    (provisioning_operations r) (managed_worktrees r) (cleanup_operations r) (cleanup_receipts
    r) (repair_operations r) (repair_receipts r) (stale_resolution_operations r)
    (stale_resolution_receipts r) (companion_messages r) (steward_configurations r)
    (steward_conversation_refs r) (tracker_configurations r) (playbook_configurations r)
    (playbook_step_progress r) (playbook_evaluations r) (run_configurations r)
    (workflow_configurations r) (workflow_executions r) (configuration_versions r)
    (configuration_version_selections r) (run_setup_marks r) (last_agent_launch_selection r)
    (agent_accounts r) (keep_awake_preference r) (agent_fork_preference r)
    (agent_restart_preference r) (agent_plans r) (agent_conversation_readiness r) (sessions r)
    (deleted_sessions r).

Definition current_schema_version : N := 66.

(** [CurrentState::default] *)
Definition current_state_default : CurrentState :=
  MkCurrentState current_schema_version (MkAgentLibrary 0 [] []) [] 0 [] [] [] [] [] [] [] [] []
    [] [] [] [] [] [] [] [] [] [] [] [] [] [] [] [] [] [] [] [] [] [] [] [] None
    default_agent_accounts (MkKeepAwakePreference KAM_Off false None) (MkAgentForkPreference
    true) (MkAgentRestartPreference false) [] [] [] [].

(** [Panicked] is not a value of the Rust type: it marks the panic of an
    [expect], which takes the thread down instead of returning. *)
Inductive StoreError : Type :=
| UnsupportedSchema (version : N)
| AlreadyExists
| NotFound
| ProjectHasWorktrees
| ConstraintViolation
| RevisionConflict
| InvalidResumeRef
| ResumeProviderMismatch
| ResumeRefReplacement
| SessionNotClosable
| CompanionTranscriptQuotaExceeded
| OperationIdReused (operation_id : string)
| JournalConflict (operation_id : string)
| WorktreePathHeld (task_id : string)
| BranchHeld (task_id : string)
| ManagedWorktreeProofChanged (task_id : string)
| CorruptRecord
| Io (message : string)
| Panicked (message : string).

(** Outcome of one attempt to replace the state file: the size written, or the
    operating system's error. *)
Inductive PersistOutcome : Type :=
| Persisted (size : N)
| PersistFailed (message : string).

Record Store : Type := MkStore {
  state : CurrentState;
  persisted_bytes : N;
  disk : CurrentState;
  io : list PersistOutcome
}.
#[export] Instance Store_eta : Eta Store := fun r =>
  MkStore (state r) (persisted_bytes r) (disk r) (io r).

Definition StoreM (A : Type) : Type := Exec Store StoreError A.

Definition get_state : StoreM CurrentState := gets state.
Definition put_state (st : CurrentState) : StoreM unit := modify (fun s => s <| state := st |>).

(** [persist_state]: on success the file holds the given state. *)
Definition persist_state (st : CurrentState) : StoreM N := fun s =>
  match io s with
  | [] => (Ok 0%N, s <| disk := st |>)
  | Persisted size :: rest => (Ok size, s <| disk := st |> <| io := rest |>)
  | PersistFailed message :: rest => (Err (Io message), s <| io := rest |>)
  end.

(** [records::agent_library::prune_session_profiles] *)
Definition prune_session_profiles (st : CurrentState) : CurrentState :=
  match session_agent_profiles st with
  | [] => st
  | _ =>
      let ids := (s_id <$> sessions st)
                 ++ ((fun entry => s_id (ds_session entry)) <$> deleted_sessions st) in
      st <| session_agent_profiles :=
              retain (fun entry => bool_decide (sap_session_id entry ∈ ids))
                     (session_agent_profiles st) |>
  end.

Definition bump_revision (st : CurrentState) : CurrentState :=
  st <| revision := u64_add (revision st) 1 |>.

(** [Store::commit] *)
Definition commit : StoreM N :=
  let! st := get_state in
  put_state (bump_revision (prune_session_profiles st)) ;;
  let! st' := get_state in
  let! size := persist_state st' in
  modify (fun s => s <| persisted_bytes := size |>) ;;
  ret (revision st').

(** [Store::commit_or_restore] *)
Definition commit_or_restore (previous : CurrentState) : StoreM N := fun s =>
  match commit s with
  | (Ok rev, s') => (Ok rev, s')
  | (Err e, s') => (Err e, s' <| state := previous |>)
  end.

(** ** Operation identities *)

Definition operation_id_owned_by_provisioning (st : CurrentState) (operation_id : string) : bool :=
  any (fun operation => po_operation_id operation == operation_id) (provisioning_operations st)
  || any (fun proof => mw_operation_id proof == operation_id) (managed_worktrees st).

Definition operation_id_owned_by_cleanup (st : CurrentState) (operation_id : string) : bool :=
  any (fun operation =>
         (co_operation_id operation == operation_id)
         || (co_managed_worktree_operation_id operation == operation_id)) (cleanup_operations st)
  || any (fun receipt =>
         (cr_operation_id receipt == operation_id)
         || (cr_managed_worktree_operation_id receipt == operation_id)) (cleanup_receipts st).

Definition operation_id_owned_anywhere (st : CurrentState) (operation_id : string) : bool :=
  any (fun operation => tao_operation_id operation == operation_id) (task_archive_operations st)
  || any (fun operation => sao_operation_id operation == operation_id)
         (session_archive_operations st)
  || any (fun operation => rlo_operation_id operation == operation_id)
         (session_relocation_operations st)
  || any (fun receipt => rlr_operation_id receipt == operation_id)
         (session_relocation_receipts st)
  || operation_id_owned_by_provisioning st operation_id
  || operation_id_owned_by_cleanup st operation_id
  || any (fun operation =>
            (ro_operation_id operation == operation_id)
            || (ro_managed_worktree_operation_id operation == operation_id))
         (repair_operations st)
  || any (fun receipt =>
            (rr_operation_id receipt == operation_id)
            || (rr_managed_worktree_operation_id receipt == operation_id)) (repair_receipts st)
  || any (fun operation =>
            (so_operation_id operation == operation_id)
            || (so_managed_worktree_operation_id operation == Some operation_id))
         (stale_resolution_operations st)
  || any (fun receipt =>
            (sr_operation_id receipt == operation_id)
            || (sr_managed_worktree_operation_id receipt == Some operation_id))
         (stale_resolution_receipts st).

(** ** Current tuples

    The lookups [state.tasks.iter().find(|task| task.id == id)] and
    [state.managed_worktrees.iter().find(|proof| proof.task_id == id)], which
    every journal uses. *)

Definition find_task (st : CurrentState) (id : string) : option TaskRecord :=
  find_first (fun task => t_id task == id) (tasks st).
Definition find_proof (st : CurrentState) (task_id : string) : option ManagedWorktreeProof :=
  find_first (fun proof => mw_task_id proof == task_id) (managed_worktrees st).
Definition find_session (st : CurrentState) (id : string) : option SessionRecord :=
  find_first (fun session => s_id session == id) (sessions st).
Definition find_project (st : CurrentState) (id : string) : option ProjectRecord :=
  find_first (fun project => p_id project == id) (projects st).

Definition proof_changed {A} (task_id : string) : result StoreError A :=
  Err (ManagedWorktreeProofChanged task_id).

Definition ensure_stale_resolution_tuple (st : CurrentState)
    (operation : WorktreeStaleResolutionOperation) : result StoreError unit :=
  match find_task st (so_task_id operation) with
  | None => Err NotFound
  | Some task =>
      let proof := find_proof st (so_task_id operation) in
      if (t_worktree_generation task == so_worktree_generation operation)
         && is_some_and (t_worktree task) (fun binding =>
              tw_path binding == so_target_path operation)
         && match so_managed_worktree_operation_id operation, proof with
            | Some expected, Some proof =>
                (0 <? so_worktree_generation operation)%N
                && (mw_worktree_generation proof == so_worktree_generation operation)
                && (mw_operation_id proof == expected)
                && (mw_registered_worktree_path proof == so_target_path operation)
            | None, None =>
                (so_worktree_generation operation == 0%N) && is_some (t_branch task)
            | _, _ => false
            end
      then Ok tt
      else proof_changed (so_task_id operation)
  end.

Definition ensure_repair_tuple (st : CurrentState) (operation : WorktreeRepairOperation)
  : result StoreError unit :=
  match find_task st (ro_task_id operation) with
  | None => Err NotFound
  | Some task =>
  match find_proof st (ro_task_id operation) with
  | None => proof_changed (ro_task_id operation)
  | Some proof =>
  match t_worktree task with
  | None => proof_changed (ro_task_id operation)
  | Some binding =>
      if (t_worktree_generation task != ro_expected_worktree_generation operation)
         || (mw_worktree_generation proof != ro_expected_worktree_generation operation)
         || (mw_operation_id proof != ro_managed_worktree_operation_id operation)
         || (tw_path binding != mw_registered_worktree_path proof)
      then proof_changed (ro_task_id operation)
      else Ok tt
  end end end.

(** The journals' repeated refusal: another journal already holds the Task. *)
Definition holder {A} (key id : A -> string) (l : list A) (task_id : string) : option string :=
  id <$> find_first (fun candidate => key candidate == task_id) l.

(** [if let Some(holder) = ... { return Err(error(holder)); }] *)
Definition refuse_held (held : option string) (error : string -> StoreError) : StoreM unit :=
  match held with
  | Some id => fail (error id)
  | None => ret tt
  end.

(** [if condition { return Err(error); }] *)
Definition refuse_if (condition : bool) (error : StoreError) : StoreM unit :=
  if condition then fail error else ret tt.

(** [value.expect(message)] *)
Definition expect {A} (value : option A) (message : string) : StoreM A :=
  lift (ok_or value (Panicked message)).

(** Every mutating method ends by installing the new state and calling
    [self.commit_or_restore(previous)?]. *)
Definition install {A} (previous next : CurrentState) (value : A) : StoreM A :=
  put_state next ;;
  let! _ := commit_or_restore previous in
  ret value.

(** Same, for the methods that return the new revision. *)
Definition install_revision (previous next : CurrentState) : StoreM N :=
  put_state next ;;
  commit_or_restore previous.
