(* ===== verification/WorktreeJournals.v ===== *)
(** * Worktree provisioning journal

    The four worktree journals of [src/modules/store/src/journal/], each under
    its own heading: provisioning ([provisioning.rs]), cleanup ([cleanup.rs]),
    repair ([repair.rs]) and stale resolution ([stale_resolution.rs]). *)

From S2P Require Import Prelude Text Domain DomainRules StoreState.

Inductive BeginProvisioningOutcome : Type :=
| ProvisioningStarted (operation : WorktreeProvisioningOperation)
| ProvisioningCurrent (operation : WorktreeProvisioningOperation)
| ProvisioningCompleted (proof : ManagedWorktreeProof).

Record ProvisioningCommit : Type := MkProvisioningCommit {
  pc_branch : TaskBranchBinding;
  pc_worktree : TaskWorktreeBinding;
  pc_proof : ManagedWorktreeProof;
  pc_updated_at_epoch_ms : N
}.

(** Selects the operation a caller names by Task and operation ID. *)
Definition is_provisioning (task_id operation_id : string) (o : WorktreeProvisioningOperation)
  : bool := (po_task_id o == task_id) && (po_operation_id o == operation_id).

Definition begin_task_worktree_provisioning (operation : WorktreeProvisioningOperation)
  : StoreM BeginProvisioningOutcome :=
  let task_id := po_task_id operation in
  let operation_id := po_operation_id operation in
  let spec := po_spec operation in
  let! st := get_state in
  let! task := lift (ok_or (find_task st task_id) NotFound) in
  refuse_if ((t_project_id task != po_project_id operation)
             || is_some_and (t_branch task) (fun binding =>
                  (tb_repository_root binding != ws_repository_root spec)
                  || (tb_name binding != ws_branch_name spec))) ConstraintViolation ;;
  refuse_if (operation_id_owned_by_cleanup st operation_id
             || any (fun current => ro_operation_id current == operation_id) (repair_operations st)
             || any (fun current => rr_operation_id current == operation_id) (repair_receipts st)
             || any (fun current => so_operation_id current == operation_id)
                    (stale_resolution_operations st)
             || any (fun current => sr_operation_id current == operation_id)
                    (stale_resolution_receipts st)) (OperationIdReused operation_id) ;;
  refuse_held (holder co_task_id co_operation_id (cleanup_operations st) task_id) JournalConflict ;;
  refuse_held (holder ro_task_id ro_operation_id (repair_operations st) task_id) JournalConflict ;;
  refuse_held (holder so_task_id so_operation_id (stale_resolution_operations st) task_id)
    JournalConflict ;;
  match find_first (fun proof => mw_operation_id proof == operation_id) (managed_worktrees st) with
  | Some proof =>
      if (mw_task_id proof == task_id) && (mw_normalized_spec proof == spec)
      then ret (ProvisioningCompleted proof)
      else fail (OperationIdReused operation_id)
  | None =>
  refuse_if (any (fun current =>
               (po_operation_id current == operation_id)
               && ((po_task_id current != task_id) || (po_spec current != spec)))
               (provisioning_operations st)) (OperationIdReused operation_id) ;;
  match find_first (fun current => po_task_id current == task_id) (provisioning_operations st) with
  | Some current =>
      if po_spec current == spec
      then ret (ProvisioningCurrent current)
      else fail (JournalConflict (po_operation_id current))
  | None =>
  refuse_if (is_some (t_worktree task)) ConstraintViolation ;;
  refuse_held (t_id <$> find_first (fun candidate =>
      (t_id candidate != task_id)
      && (t_project_id candidate == po_project_id operation)
      && is_some_and (t_branch candidate) (fun binding =>
           (tb_repository_root binding == ws_repository_root spec)
           && (tb_name binding == ws_branch_name spec))) (tasks st)) BranchHeld ;;
  refuse_held (po_task_id <$> find_first (fun candidate =>
      (po_task_id candidate != task_id)
      && (po_project_id candidate == po_project_id operation)
      && (ws_repository_root (po_spec candidate) == ws_repository_root spec)
      && (ws_branch_name (po_spec candidate) == ws_branch_name spec))
      (provisioning_operations st)) BranchHeld ;;
  refuse_held (t_id <$> find_first (fun candidate =>
      (t_id candidate != task_id)
      && is_some_and (t_worktree candidate) (fun binding =>
           tw_path binding == ws_destination_path spec)) (tasks st)) WorktreePathHeld ;;
  refuse_held (po_task_id <$> find_first (fun candidate =>
      ws_destination_path (po_spec candidate) == ws_destination_path spec)
      (provisioning_operations st)) WorktreePathHeld ;;
  install st (st <| provisioning_operations := provisioning_operations st ++ [operation] |>)
    (ProvisioningStarted operation)
  end
  end.

(** Assigns through [iter_mut().find(..)] and commits. *)
Definition edit_provisioning (st : CurrentState) (task_id operation_id : string)
    (assign : WorktreeProvisioningOperation -> WorktreeProvisioningOperation)
  : StoreM WorktreeProvisioningOperation :=
  match find_mut (is_provisioning task_id operation_id) assign (provisioning_operations st) with
  | None => fail NotFound
  | Some (updated, operations) =>
      install st (st <| provisioning_operations := operations |>) updated
  end.

Definition find_provisioning (st : CurrentState) (task_id operation_id : string)
  : StoreM WorktreeProvisioningOperation :=
  lift (ok_or (find_first (is_provisioning task_id operation_id) (provisioning_operations st))
          NotFound).

(** The stage moves [advance_task_worktree_provisioning] accepts. *)
Definition provisioning_stage_move (from to : ProvisioningStage) : bool :=
  match from, to with
  | PS_Reserved, PS_BranchCreated | PS_Reserved, PS_WorktreeAdded
  | PS_BranchCreated, PS_WorktreeAdded => true
  | _, _ => false
  end.

Definition advance_task_worktree_provisioning (task_id operation_id : string)
    (stage : ProvisioningStage) (created_branch_ref : bool) (updated_at_epoch_ms : N)
  : StoreM WorktreeProvisioningOperation :=
  let! st := get_state in
  let! operation := find_provisioning st task_id operation_id in
  if (po_stage operation == stage) && (po_created_branch_ref operation == created_branch_ref)
  then ret operation
  else
    refuse_if (negb (provisioning_stage_move (po_stage operation) stage)) ConstraintViolation ;;
    edit_provisioning st task_id operation_id (fun o =>
      o <| po_stage := stage |> <| po_created_branch_ref := created_branch_ref |>
        <| po_failure := None |> <| po_updated_at_epoch_ms := updated_at_epoch_ms |>).

Definition fail_task_worktree_provisioning (task_id operation_id : string)
    (failure : ProvisioningFailureKind) (updated_at_epoch_ms : N)
  : StoreM WorktreeProvisioningOperation :=
  let! st := get_state in
  let! operation := find_provisioning st task_id operation_id in
  if po_failure operation == Some failure then ret operation
  else
    edit_provisioning st task_id operation_id (fun o =>
      o <| po_failure := Some failure |> <| po_updated_at_epoch_ms := updated_at_epoch_ms |>).

Definition retry_task_worktree_provisioning (task_id operation_id : string)
    (updated_at_epoch_ms : N) : StoreM WorktreeProvisioningOperation :=
  let! st := get_state in
  let! operation := find_provisioning st task_id operation_id in
  if is_none (po_failure operation) then ret operation
  else
    edit_provisioning st task_id operation_id (fun o =>
      o <| po_failure := None |> <| po_updated_at_epoch_ms := updated_at_epoch_ms |>).

Definition record_provisioning_ref_rollback (task_id operation_id : string)
    (failure : ProvisioningFailureKind) (updated_at_epoch_ms : N)
  : StoreM WorktreeProvisioningOperation :=
  let! st := get_state in
  let! operation := find_provisioning st task_id operation_id in
  refuse_if ((po_stage operation != PS_BranchCreated) || negb (po_created_branch_ref operation))
    ConstraintViolation ;;
  edit_provisioning st task_id operation_id (fun o =>
    o <| po_stage := PS_Reserved |> <| po_created_branch_ref := false |>
      <| po_failure := Some failure |> <| po_updated_at_epoch_ms := updated_at_epoch_ms |>).

(** The Task and proof a provisioning commit leaves behind. *)
Definition provisioned_task (task : TaskRecord) (c : ProvisioningCommit) (generation : N)
  : TaskRecord :=
  task <| t_branch := Some (pc_branch c) |> <| t_worktree := Some (pc_worktree c) |>
       <| t_worktree_generation := generation |>
       <| t_updated_at_epoch_ms := pc_updated_at_epoch_ms c |>.

Definition commit_task_worktree_provisioning (task_id operation_id : string)
    (c : ProvisioningCommit) : StoreM TaskRecord :=
  let branch := pc_branch c in
  let worktree := pc_worktree c in
  let proof := pc_proof c in
  let! st := get_state in
  match position (is_provisioning task_id operation_id) (provisioning_operations st) with
  | None => fail NotFound
  | Some (operation_index, operation) =>
  refuse_if ((po_stage operation != PS_WorktreeAdded)
             || (po_spec operation != mw_normalized_spec proof)
             || (ws_repository_root (po_spec operation) != tb_repository_root branch)
             || (ws_branch_name (po_spec operation) != tb_name branch)
             || (mw_task_id proof != task_id)
             || (mw_operation_id proof != operation_id)
             || (mw_registered_worktree_path proof != tw_path worktree)) ConstraintViolation ;;
  match position (fun task => t_id task == task_id) (tasks st) with
  | None => fail NotFound
  | Some (task_index, task) =>
  refuse_if (is_some (t_worktree task)
             || (t_project_id task != po_project_id operation)
             || is_some_and (t_branch task) (fun existing => existing != branch)
             || any (fun candidate =>
                       (mw_task_id candidate != task_id)
                       && (mw_registered_worktree_path candidate == tw_path worktree))
                    (managed_worktrees st)
             || any (fun candidate => co_task_id candidate == task_id) (cleanup_operations st)
             || any (fun candidate => ro_task_id candidate == task_id) (repair_operations st))
    ConstraintViolation ;;
  refuse_held (t_id <$> find_first (fun candidate =>
      (t_id candidate != task_id)
      && (t_project_id candidate == t_project_id task)
      && (t_branch candidate == Some branch)) (tasks st)) BranchHeld ;;
  refuse_held (po_task_id <$> find_first (fun candidate =>
      (po_task_id candidate != task_id)
      && (po_project_id candidate == t_project_id task)
      && (ws_repository_root (po_spec candidate) == tb_repository_root branch)
      && (ws_branch_name (po_spec candidate) == tb_name branch))
      (provisioning_operations st)) BranchHeld ;;
  match u64_checked_add (t_worktree_generation task) 1 with
  | None => fail ConstraintViolation
  | Some next_generation =>
  let updated := provisioned_task task c next_generation in
  install st
    (st <| tasks := <[task_index := updated]> (tasks st) |>
        <| managed_worktrees :=
             retain (fun candidate => mw_task_id candidate != task_id) (managed_worktrees st)
             ++ [proof <| mw_worktree_generation := next_generation |>] |>
        <| provisioning_operations :=
             <[operation_index :=
                 operation <| po_stage := PS_BindingCommitted |> <| po_failure := None |>
                           <| po_updated_at_epoch_ms := pc_updated_at_epoch_ms c |>]>
               (provisioning_operations st) |>)
    updated
  end
  end
  end.

Definition clear_task_worktree_provisioning (task_id operation_id : string) : StoreM N :=
  let! st := get_state in
  match position (is_provisioning task_id operation_id) (provisioning_operations st) with
  | None => fail NotFound
  | Some (index, _) =>
      install_revision st
        (st <| provisioning_operations := delete index (provisioning_operations st) |>)
  end.

(** * Worktree cleanup journal

    [src/modules/store/src/journal/cleanup.rs], with the intent and failure
    checks of [validation.rs]. *)

Inductive BeginCleanupOutcome : Type :=
| CleanupStarted (operation : WorktreeCleanupOperation)
| CleanupCurrent (operation : WorktreeCleanupOperation)
| CleanupCompleted (receipt : WorktreeCleanupReceipt).

Record CleanupCommit : Type := MkCleanupCommit {
  cc_task : TaskRecord;
  cc_receipt : WorktreeCleanupReceipt
}.

(** The derived [Ord] of [WorktreeCleanupBlocker]: declaration order. *)
Definition cleanup_blocker_rank (b : WorktreeCleanupBlocker) : N :=
  match b with
  | CB_NoBinding => 0 | CB_ProvisioningInProgress => 1 | CB_CleanupInProgress => 2
  | CB_ManagedProofMissing => 3 | CB_ManagedProofMismatch => 4 | CB_PathReplaced => 5
  | CB_PathRegistrationInconsistent => 6 | CB_OrphanedManagedDirectory => 7
  | CB_RegistrationMismatch => 8 | CB_BranchMismatch => 9 | CB_HeadMismatch => 10
  | CB_SessionAttached => 11 | CB_TrackedChanges => 12 | CB_StagedChanges => 13
  | CB_UntrackedContent => 14 | CB_IgnoredContent => 15 | CB_SubmodulePresent => 16
  | CB_WorktreeLock => 17 | CB_IndexLock => 18 | CB_RepositoryUnavailable => 19
  | CB_PermissionDenied => 20 | CB_UnsupportedGit => 21 | CB_Timeout => 22
  | CB_OutputLimit => 23 | CB_ObservationFailed => 24 | CB_RecoveryAttention => 25
  end%N.

(** [validate_cleanup_failure] *)
Definition validate_cleanup_failure (failure : WorktreeCleanupFailure) : result StoreError unit :=
  if (32 <? N.of_nat (length (cf_blockers failure)))%N
     || any_with_rest (fun blocker rest => any (fun candidate => candidate == blocker) rest)
          (cf_blockers failure)
  then Err ConstraintViolation else Ok tt.

(** The blockers a discard may acknowledge. *)
Definition is_content_blocker (b : WorktreeCleanupBlocker) : bool :=
  match b with
  | CB_TrackedChanges | CB_StagedChanges | CB_UntrackedContent | CB_IgnoredContent
  | CB_SubmodulePresent => true
  | _ => false
  end.

(** [validate_cleanup_intent] *)
Definition validate_cleanup_intent (mode : WorktreeCleanupMode)
    (blockers : list WorktreeCleanupBlocker) : result StoreError unit :=
  let canonical :=
    all (fun pair => (cleanup_blocker_rank pair.1 <? cleanup_blocker_rank pair.2)%N)
        (windows2 blockers) in
  let eligible := all is_content_blocker blockers in
  let valid :=
    match mode with
    | CM_Safe => blockers == []
    | CM_DiscardCheckoutContent =>
        (blockers != []) && (N.of_nat (length blockers) <=? 5)%N && canonical && eligible
    end in
  if valid then Ok tt else Err ConstraintViolation.

Definition is_cleanup (task_id operation_id : string) (o : WorktreeCleanupOperation) : bool :=
  (co_task_id o == task_id) && (co_operation_id o == operation_id).

(** [current_cleanup] *)
Definition current_cleanup (st : CurrentState) (task_id operation_id : string)
  : result StoreError WorktreeCleanupOperation :=
  ok_or (find_first (is_cleanup task_id operation_id) (cleanup_operations st)) NotFound.

(** [ensure_cleanup_tuple] *)
Definition ensure_cleanup_tuple (st : CurrentState) (operation : WorktreeCleanupOperation)
  : result StoreError unit :=
  let baseline := co_baseline operation in
  match find_task st (co_task_id operation) with
  | None => Err NotFound
  | Some task =>
  match find_proof st (co_task_id operation) with
  | None => proof_changed (co_task_id operation)
  | Some proof =>
      if (0 <? co_worktree_generation operation)%N
         && (t_worktree_generation task == co_worktree_generation operation)
         && (mw_worktree_generation proof == co_worktree_generation operation)
         && (mw_operation_id proof == co_managed_worktree_operation_id operation)
         && is_some_and (t_worktree task) (fun binding =>
              (tw_path binding == cb_worktree_path baseline)
              && (tw_path binding == cb_registered_worktree_path baseline))
         && is_some_and (t_branch task) (fun binding =>
              (tb_repository_root binding == cb_repository_root baseline)
              && (mw_branch_ref proof == cb_branch_ref baseline))
         && (mw_repository_common_dir proof == cb_repository_common_dir baseline)
         && (mw_registered_worktree_path proof == cb_registered_worktree_path baseline)
      then Ok tt
      else proof_changed (co_task_id operation)
  end end.

(** [checked_current_cleanup] *)
Definition checked_current_cleanup (st : CurrentState) (task_id operation_id : string)
  : StoreM WorktreeCleanupOperation :=
  let! operation := lift (current_cleanup st task_id operation_id) in
  lift (ensure_cleanup_tuple st operation) ;;
  ret operation.

(** [ensure_cleanup_receipt_is_current] *)
Definition ensure_cleanup_receipt_is_current (st : CurrentState)
    (receipt : WorktreeCleanupReceipt) : result StoreError unit :=
  match find_task st (cr_task_id receipt) with
  | None => Err NotFound
  | Some task =>
      if (t_worktree_generation task == cr_worktree_generation receipt)
         && is_none (t_worktree task)
         && negb (any (fun proof => mw_task_id proof == cr_task_id receipt) (managed_worktrees st))
      then Ok tt
      else proof_changed (cr_task_id receipt)
  end.

Definition begin_task_worktree_cleanup (operation : WorktreeCleanupOperation)
  : StoreM BeginCleanupOutcome :=
  let task_id := co_task_id operation in
  let operation_id := co_operation_id operation in
  let! st := get_state in
  lift (validate_cleanup_intent (co_cleanup_mode operation)
          (co_acknowledged_content_blockers operation)) ;;
  match find_first (fun receipt => cr_operation_id receipt == operation_id)
          (cleanup_receipts st) with
  | Some receipt =>
      if (cr_task_id receipt == task_id)
         && (cr_worktree_generation receipt == co_worktree_generation operation)
         && (cr_managed_worktree_operation_id receipt == co_managed_worktree_operation_id operation)
         && (cr_cleanup_mode receipt == co_cleanup_mode operation)
         && (cr_acknowledged_content_blockers receipt
               == co_acknowledged_content_blockers operation)
      then lift (ensure_cleanup_receipt_is_current st receipt) ;; ret (CleanupCompleted receipt)
      else fail (OperationIdReused operation_id)
  | None =>
  match find_first (fun current => co_operation_id current == operation_id)
          (cleanup_operations st) with
  | Some current =>
      if (co_task_id current == task_id)
         && (co_worktree_generation current == co_worktree_generation operation)
         && (co_managed_worktree_operation_id current == co_managed_worktree_operation_id operation)
         && (co_baseline current == co_baseline operation)
         && (co_cleanup_mode current == co_cleanup_mode operation)
         && (co_acknowledged_content_blockers current
               == co_acknowledged_content_blockers operation)
      then ret (CleanupCurrent current)
      else fail (OperationIdReused operation_id)
  | None =>
  refuse_if (operation_id_owned_anywhere st operation_id) (OperationIdReused operation_id) ;;
  lift (ensure_cleanup_tuple st operation) ;;
  refuse_held (holder po_task_id po_operation_id (provisioning_operations st) task_id)
    JournalConflict ;;
  refuse_held (holder ro_task_id ro_operation_id (repair_operations st) task_id) JournalConflict ;;
  refuse_held (holder so_task_id so_operation_id (stale_resolution_operations st) task_id)
    JournalConflict ;;
  refuse_held (holder rlo_target_task_id rlo_operation_id (session_relocation_operations st) task_id)
    JournalConflict ;;
  match find_first (fun current => co_task_id current == task_id) (cleanup_operations st) with
  | Some current =>
      if (co_worktree_generation current == co_worktree_generation operation)
         && (co_managed_worktree_operation_id current == co_managed_worktree_operation_id operation)
         && (co_cleanup_mode current == co_cleanup_mode operation)
         && (co_acknowledged_content_blockers current
               == co_acknowledged_content_blockers operation)
      then ret (CleanupCurrent current)
      else fail (JournalConflict (co_operation_id current))
  | None =>
  refuse_if ((co_stage operation != CS_Reserved) || is_some (co_failure operation))
    ConstraintViolation ;;
  install st (st <| cleanup_operations := cleanup_operations st ++ [operation] |>)
    (CleanupStarted operation)
  end
  end
  end.

(** Assigns through [current_cleanup_mut] and commits. *)
Definition edit_cleanup (st : CurrentState) (task_id operation_id : string)
    (assign : WorktreeCleanupOperation -> WorktreeCleanupOperation)
  : StoreM WorktreeCleanupOperation :=
  match find_mut (is_cleanup task_id operation_id) assign (cleanup_operations st) with
  | None => fail NotFound
  | Some (updated, operations) =>
      install st (st <| cleanup_operations := operations |>) updated
  end.

Definition cleanup_stage_move (from to : WorktreeCleanupStage) : bool :=
  match from, to with
  | CS_Reserved, CS_RemovePrepared | CS_RemovePrepared, CS_RemovalVerified => true
  | _, _ => false
  end.

Definition advance_task_worktree_cleanup (task_id operation_id : string)
    (stage : WorktreeCleanupStage) (updated_at_epoch_ms : N) : StoreM WorktreeCleanupOperation :=
  let! st := get_state in
  let! operation := checked_current_cleanup st task_id operation_id in
  if (co_stage operation == stage) && is_none (co_failure operation) then ret operation
  else
    refuse_if (negb (cleanup_stage_move (co_stage operation) stage)) ConstraintViolation ;;
    edit_cleanup st task_id operation_id (fun o =>
      o <| co_stage := stage |> <| co_failure := None |>
        <| co_updated_at_epoch_ms := updated_at_epoch_ms |>).

Definition fail_task_worktree_cleanup (task_id operation_id : string)
    (failure : WorktreeCleanupFailure) (updated_at_epoch_ms : N)
  : StoreM WorktreeCleanupOperation :=
  let! st := get_state in
  let! operation := checked_current_cleanup st task_id operation_id in
  lift (validate_cleanup_failure failure) ;;
  if co_failure operation == Some failure then ret operation
  else
    edit_cleanup st task_id operation_id (fun o =>
      o <| co_failure := Some failure |> <| co_updated_at_epoch_ms := updated_at_epoch_ms |>).

(** Where a retry restarts: a Safe cleanup that met new checkout content goes
    back before the removal was prepared. *)
Definition cleanup_retry_stage (operation : WorktreeCleanupOperation) : WorktreeCleanupStage :=
  if (co_cleanup_mode operation == CM_Safe)
     && (co_stage operation == CS_RemovePrepared)
     && is_some_and (co_failure operation) (fun failure =>
          cf_kind failure == CF_CheckoutContentAppeared)
  then CS_Reserved
  else co_stage operation.

Definition retry_task_worktree_cleanup (task_id operation_id : string) (updated_at_epoch_ms : N)
  : StoreM WorktreeCleanupOperation :=
  let! st := get_state in
  let! operation := checked_current_cleanup st task_id operation_id in
  if is_none (co_failure operation) then ret operation
  else
    edit_cleanup st task_id operation_id (fun o =>
      o <| co_stage := cleanup_retry_stage operation |> <| co_failure := None |>
        <| co_updated_at_epoch_ms := updated_at_epoch_ms |>).

Definition supersede_failed_task_worktree_cleanup (previous_operation_id : string)
    (replacement : WorktreeCleanupOperation) : StoreM WorktreeCleanupOperation :=
  let! st := get_state in
  lift (validate_cleanup_intent (co_cleanup_mode replacement)
          (co_acknowledged_content_blockers replacement)) ;;
  refuse_if ((co_stage replacement != CS_Reserved) || is_some (co_failure replacement))
    ConstraintViolation ;;
  match position (is_cleanup (co_task_id replacement) previous_operation_id)
          (cleanup_operations st) with
  | None => fail NotFound
  | Some (index, previous_operation) =>
  refuse_if (is_none (co_failure previous_operation)
             || (co_cleanup_mode replacement != CM_DiscardCheckoutContent)
             || (co_worktree_generation previous_operation != co_worktree_generation replacement)
             || (co_managed_worktree_operation_id previous_operation
                   != co_managed_worktree_operation_id replacement)) ConstraintViolation ;;
  refuse_if (operation_id_owned_anywhere st (co_operation_id replacement))
    (OperationIdReused (co_operation_id replacement)) ;;
  lift (ensure_cleanup_tuple st replacement) ;;
  install st (st <| cleanup_operations := <[index := replacement]> (cleanup_operations st) |>)
    replacement
  end.

(** The Task a completed removal leaves behind. *)
Definition unbound_task (task : TaskRecord) (completed_at_epoch_ms : N) : TaskRecord :=
  task <| t_worktree := None |>
       <| t_updated_at_epoch_ms :=
            N.max completed_at_epoch_ms (u64_add (t_updated_at_epoch_ms task) 1) |>.

Definition cleanup_receipt (operation : WorktreeCleanupOperation) (task_id : string)
    (outcome : WorktreeCleanupOutcome) (completed_at_epoch_ms : N) : WorktreeCleanupReceipt :=
  {| cr_operation_id := co_operation_id operation;
     cr_task_id := task_id;
     cr_worktree_generation := co_worktree_generation operation;
     cr_managed_worktree_operation_id := co_managed_worktree_operation_id operation;
     cr_cleanup_mode := co_cleanup_mode operation;
     cr_acknowledged_content_blockers := co_acknowledged_content_blockers operation;
     cr_outcome := outcome;
     cr_completed_at_epoch_ms := completed_at_epoch_ms |}.

Definition cleanup_outcome (stage : WorktreeCleanupStage) : option WorktreeCleanupOutcome :=
  match stage with
  | CS_Reserved => Some CO_BindingCleared
  | CS_RemovalVerified => Some CO_Removed
  | CS_RemovePrepared | CS_BindingCleared => None
  end.

Definition complete_task_worktree_cleanup (task_id operation_id : string)
    (completed_at_epoch_ms : N) : StoreM CleanupCommit :=
  let! st := get_state in
  let! operation := checked_current_cleanup st task_id operation_id in
  refuse_if (is_some (co_failure operation)) ConstraintViolation ;;
  match cleanup_outcome (co_stage operation) with
  | None => fail ConstraintViolation
  | Some outcome =>
  match position (fun task => t_id task == task_id) (tasks st) with
  | None => fail NotFound
  | Some (task_index, task) =>
  let updated_task := unbound_task task completed_at_epoch_ms in
  let receipt := cleanup_receipt operation task_id outcome completed_at_epoch_ms in
  put_state
    (st <| tasks := <[task_index := updated_task]> (tasks st) |>
        <| managed_worktrees :=
             retain (fun proof => mw_task_id proof != task_id) (managed_worktrees st) |>
        <| run_setup_marks :=
             match t_worktree task with
             | Some binding =>
                 retain (fun mark => rsm_worktree_path mark != tw_path binding) (run_setup_marks st)
             | None => run_setup_marks st
             end |>
        <| cleanup_receipts :=
             retain (fun candidate => cr_task_id candidate != task_id) (cleanup_receipts st)
             ++ [receipt] |>) ;;
  let! st' := get_state in
  match find_mut (is_cleanup task_id operation_id) (fun journal =>
          journal <| co_stage := CS_BindingCleared |> <| co_failure := None |>
                  <| co_updated_at_epoch_ms := completed_at_epoch_ms |>)
          (cleanup_operations st') with
  | None => fail NotFound
  | Some (_, operations) =>
  install st (st' <| cleanup_operations := operations |>)
    {| cc_task := updated_task; cc_receipt := receipt |}
  end
  end
  end.

Definition clear_task_worktree_cleanup (task_id operation_id : string) : StoreM N :=
  let! st := get_state in
  match position (is_cleanup task_id operation_id) (cleanup_operations st) with
  | None => fail NotFound
  | Some (index, _) =>
      install_revision st (st <| cleanup_operations := delete index (cleanup_operations st) |>)
  end.

(** * Worktree repair journal

    [src/modules/store/src/journal/repair.rs]. *)

Inductive BeginRepairOutcome : Type :=
| RepairStarted (operation : WorktreeRepairOperation)
| RepairCurrent (operation : WorktreeRepairOperation)
| RepairCompleted (receipt : WorktreeRepairReceipt).

Record RepairCommit : Type := MkRepairCommit {
  rc_task : TaskRecord;
  rc_proof : ManagedWorktreeProof;
  rc_receipt : WorktreeRepairReceipt
}.

Definition is_repair (task_id operation_id : string) (o : WorktreeRepairOperation) : bool :=
  (ro_task_id o == task_id) && (ro_operation_id o == operation_id).

(** The receipt's tuple is still the Task's current one. *)
Definition ensure_repair_receipt_is_current (st : CurrentState) (receipt : WorktreeRepairReceipt)
  : result StoreError unit :=
  match find_task st (rr_task_id receipt) with
  | None => Err NotFound
  | Some task =>
  match find_proof st (rr_task_id receipt) with
  | None => proof_changed (rr_task_id receipt)
  | Some proof =>
      if (t_worktree_generation task != rr_worktree_generation receipt)
         || (mw_worktree_generation proof != rr_worktree_generation receipt)
         || (mw_registered_worktree_path proof != rr_candidate_path receipt)
      then proof_changed (rr_task_id receipt)
      else Ok tt
  end end.

Definition begin_task_worktree_repair (operation : WorktreeRepairOperation)
  : StoreM BeginRepairOutcome :=
  let task_id := ro_task_id operation in
  let operation_id := ro_operation_id operation in
  let! st := get_state in
  match find_first (fun receipt => rr_operation_id receipt == operation_id) (repair_receipts st) with
  | Some receipt =>
      if (rr_task_id receipt == task_id)
         && (rr_managed_worktree_operation_id receipt == ro_managed_worktree_operation_id operation)
         && (rr_previous_worktree_generation receipt == ro_expected_worktree_generation operation)
         && (rr_candidate_path receipt == ro_candidate_path operation)
      then lift (ensure_repair_receipt_is_current st receipt) ;; ret (RepairCompleted receipt)
      else fail (OperationIdReused operation_id)
  | None =>
  match find_first (fun current => ro_operation_id current == operation_id)
          (repair_operations st) with
  | Some current =>
      if (ro_task_id current == task_id)
         && (ro_managed_worktree_operation_id current == ro_managed_worktree_operation_id operation)
         && (ro_expected_worktree_generation current == ro_expected_worktree_generation operation)
         && (ro_candidate_path current == ro_candidate_path operation)
      then ret (RepairCurrent current)
      else fail (OperationIdReused operation_id)
  | None =>
  refuse_if (operation_id_owned_anywhere st operation_id) (OperationIdReused operation_id) ;;
  lift (ensure_repair_tuple st operation) ;;
  refuse_held (holder po_task_id po_operation_id (provisioning_operations st) task_id)
    JournalConflict ;;
  refuse_held (holder co_task_id co_operation_id (cleanup_operations st) task_id) JournalConflict ;;
  refuse_held (holder so_task_id so_operation_id (stale_resolution_operations st) task_id)
    JournalConflict ;;
  refuse_held (holder rlo_target_task_id rlo_operation_id (session_relocation_operations st) task_id)
    JournalConflict ;;
  refuse_held (holder ro_task_id ro_operation_id (repair_operations st) task_id) JournalConflict ;;
  refuse_if ((ro_stage operation != RS_Reserved) || is_some (ro_failure operation))
    ConstraintViolation ;;
  install st (st <| repair_operations := repair_operations st ++ [operation] |>)
    (RepairStarted operation)
  end
  end.

(** Assigns to [self.state.repair_operations[index]] and commits. *)
Definition edit_repair (st : CurrentState) (index : nat) (updated : WorktreeRepairOperation)
  : StoreM WorktreeRepairOperation :=
  install st (st <| repair_operations := <[index := updated]> (repair_operations st) |>) updated.

Definition repair_stage_move (from to : WorktreeRepairStage) : bool :=
  match from, to with
  | RS_Reserved, RS_RepairPrepared | RS_RepairPrepared, RS_RepairInvoked
  | RS_RepairInvoked, RS_Verified | RS_RepairPrepared, RS_Verified => true
  | _, _ => false
  end.

(** Recovery may record a verified outcome from any stage past the prepare. *)
Definition repair_recovering_verified (from to : WorktreeRepairStage) : bool :=
  (to == RS_Verified)
  && match from with
     | RS_RepairPrepared | RS_RepairInvoked | RS_Verified => true
     | _ => false
     end.

Definition advance_task_worktree_repair (task_id operation_id : string)
    (stage : WorktreeRepairStage) (updated_at_epoch_ms : N) : StoreM WorktreeRepairOperation :=
  let! st := get_state in
  match position (is_repair task_id operation_id) (repair_operations st) with
  | None => fail NotFound
  | Some (index, current) =>
  lift (ensure_repair_tuple st current) ;;
  if (ro_stage current == stage) && is_none (ro_failure current) then ret current
  else
  refuse_if ((ro_stage current == stage) && (stage != RS_Verified)) ConstraintViolation ;;
  refuse_if ((is_some (ro_failure current) || negb (repair_stage_move (ro_stage current) stage))
             && negb (repair_recovering_verified (ro_stage current) stage)) ConstraintViolation ;;
  edit_repair st index
    (current <| ro_stage := stage |> <| ro_failure := None |>
             <| ro_updated_at_epoch_ms := updated_at_epoch_ms |>)
  end.

Definition resume_task_worktree_repair_before_mutation (task_id operation_id : string)
    (updated_at_epoch_ms : N) : StoreM WorktreeRepairOperation :=
  let! st := get_state in
  match position (is_repair task_id operation_id) (repair_operations st) with
  | None => fail NotFound
  | Some (index, current) =>
  lift (ensure_repair_tuple st current) ;;
  refuse_if (negb match ro_stage current with
                  | RS_Reserved | RS_RepairPrepared => true
                  | _ => false
                  end) ConstraintViolation ;;
  if is_none (ro_failure current) then ret current
  else
  edit_repair st index
    (current <| ro_failure := None |> <| ro_updated_at_epoch_ms := updated_at_epoch_ms |>)
  end.

Definition fail_task_worktree_repair (task_id operation_id : string)
    (failure : WorktreeRepairFailure) (updated_at_epoch_ms : N) : StoreM WorktreeRepairOperation :=
  let! st := get_state in
  match position (is_repair task_id operation_id) (repair_operations st) with
  | None => fail NotFound
  | Some (index, current) =>
  edit_repair st index
    (current <| ro_failure := Some failure |> <| ro_updated_at_epoch_ms := updated_at_epoch_ms |>)
  end.

Definition repair_receipt (operation : WorktreeRepairOperation) (task_id : string)
    (next_generation completed_at_epoch_ms : N) : WorktreeRepairReceipt :=
  {| rr_operation_id := ro_operation_id operation;
     rr_task_id := task_id;
     rr_managed_worktree_operation_id := ro_managed_worktree_operation_id operation;
     rr_previous_worktree_generation := ro_expected_worktree_generation operation;
     rr_worktree_generation := next_generation;
     rr_candidate_path := ro_candidate_path operation;
     rr_completed_at_epoch_ms := completed_at_epoch_ms |}.

Definition repaired_task (task : TaskRecord) (path : string) (generation now : N) : TaskRecord :=
  task <| t_worktree := Some (MkTaskWorktreeBinding path) |>
       <| t_worktree_generation := generation |> <| t_updated_at_epoch_ms := now |>.

Definition repaired_proof (proof : ManagedWorktreeProof) (path : string) (generation : N)
  : ManagedWorktreeProof :=
  proof <| mw_registered_worktree_path := path |> <| mw_worktree_generation := generation |>.

Definition complete_task_worktree_repair (task_id operation_id : string)
    (completed_at_epoch_ms : N) : StoreM RepairCommit :=
  let! st := get_state in
  match find_first (is_repair task_id operation_id) (repair_operations st) with
  | None => fail NotFound
  | Some operation =>
  lift (ensure_repair_tuple st operation) ;;
  refuse_if ((ro_stage operation != RS_Verified) || is_some (ro_failure operation))
    ConstraintViolation ;;
  match u64_checked_add (ro_expected_worktree_generation operation) 1 with
  | None => fail ConstraintViolation
  | Some next_generation =>
  match position (fun task => t_id task == task_id) (tasks st) with
  | None => fail NotFound
  | Some (task_index, task) =>
  match position (fun proof => mw_task_id proof == task_id) (managed_worktrees st) with
  | None => fail NotFound
  | Some (proof_index, proof) =>
  let path := ro_candidate_path operation in
  let task' := repaired_task task path next_generation completed_at_epoch_ms in
  let proof' := repaired_proof proof path next_generation in
  let receipt := repair_receipt operation task_id next_generation completed_at_epoch_ms in
  install st
    (st <| tasks := <[task_index := task']> (tasks st) |>
        <| managed_worktrees := <[proof_index := proof']> (managed_worktrees st) |>
        <| repair_operations :=
             retain (fun candidate => ro_task_id candidate != task_id) (repair_operations st) |>
        <| repair_receipts :=
             retain (fun candidate => rr_task_id candidate != task_id) (repair_receipts st)
             ++ [receipt] |>)
    {| rc_task := task'; rc_proof := proof'; rc_receipt := receipt |}
  end
  end
  end
  end.

Definition dismiss_task_worktree_repair (task_id operation_id : string) : StoreM TaskRecord :=
  let! st := get_state in
  match position (is_repair task_id operation_id) (repair_operations st) with
  | None => fail NotFound
  | Some (index, operation) =>
  refuse_if ((ro_stage operation != RS_Reserved) || is_none (ro_failure operation))
    ConstraintViolation ;;
  lift (ensure_repair_tuple st operation) ;;
  let! task := lift (ok_or (find_task st task_id) NotFound) in
  install st (st <| repair_operations := delete index (repair_operations st) |>) task
  end.

(** * Stale worktree resolution journal

    [src/modules/store/src/journal/stale_resolution.rs]. *)

Inductive BeginStaleResolutionOutcome : Type :=
| StaleStarted (operation : WorktreeStaleResolutionOperation)
| StaleCurrent (operation : WorktreeStaleResolutionOperation)
| StaleCompleted (receipt : WorktreeStaleResolutionReceipt).

Record StaleResolutionCommit : Type := MkStaleResolutionCommit {
  sc_task : TaskRecord;
  sc_receipt : WorktreeStaleResolutionReceipt
}.

(** [validate_stale_resolution_failure] *)
Definition validate_stale_resolution_failure (failure : WorktreeStaleResolutionFailure)
  : result StoreError unit :=
  if (32 <? N.of_nat (length (sf_blockers failure)))%N
     || any_with_rest (fun blocker rest => any (fun candidate => candidate == blocker) rest)
          (sf_blockers failure)
  then Err ConstraintViolation else Ok tt.

Definition stale_operations_have_same_intent (left right : WorktreeStaleResolutionOperation)
  : bool :=
  (so_task_id left == so_task_id right)
  && (so_managed_worktree_operation_id left == so_managed_worktree_operation_id right)
  && (so_worktree_generation left == so_worktree_generation right)
  && (so_target_path left == so_target_path right)
  && (so_mode left == so_mode right).

Definition stale_receipt_matches_operation (receipt : WorktreeStaleResolutionReceipt)
    (operation : WorktreeStaleResolutionOperation) : bool :=
  (sr_task_id receipt == so_task_id operation)
  && (sr_managed_worktree_operation_id receipt == so_managed_worktree_operation_id operation)
  && (sr_worktree_generation receipt == so_worktree_generation operation)
  && (sr_target_path receipt == so_target_path operation)
  && (sr_mode receipt == so_mode operation).

Definition is_stale (task_id operation_id : string) (o : WorktreeStaleResolutionOperation) : bool :=
  (so_task_id o == task_id) && (so_operation_id o == operation_id).

(** [current_stale_resolution_index], with the operation at that index. *)
Definition current_stale_resolution (st : CurrentState) (task_id operation_id : string)
  : StoreM (nat * WorktreeStaleResolutionOperation) :=
  lift (ok_or (position (is_stale task_id operation_id) (stale_resolution_operations st)) NotFound).

(** The cleanup a stale resolution supersedes: its position among the cleanup
    operations, or the refusal. *)
Definition superseded_cleanup (st : CurrentState) (task_id : string)
    (supersedes_cleanup_operation_id : option string) : StoreM (option nat) :=
  match position (fun current => co_task_id current == task_id) (cleanup_operations st) with
  | Some (index, current) =>
      refuse_if ((Some (co_operation_id current) != supersedes_cleanup_operation_id)
                 || negb match co_stage current with
                         | CS_Reserved | CS_RemovePrepared => true
                         | _ => false
                         end) (JournalConflict (co_operation_id current)) ;;
      ret (Some index)
  | None =>
      refuse_if (is_some supersedes_cleanup_operation_id) NotFound ;;
      ret None
  end.

Definition begin_task_worktree_stale_resolution (operation : WorktreeStaleResolutionOperation)
    (supersedes_cleanup_operation_id : option string) : StoreM BeginStaleResolutionOutcome :=
  let task_id := so_task_id operation in
  let operation_id := so_operation_id operation in
  let! st := get_state in
  match find_first (fun receipt => sr_operation_id receipt == operation_id)
          (stale_resolution_receipts st) with
  | Some receipt =>
      if stale_receipt_matches_operation receipt operation
         && any (fun task =>
                   (t_id task == sr_task_id receipt)
                   && is_none (t_worktree task)
                   && (t_worktree_generation task == sr_worktree_generation receipt)) (tasks st)
      then ret (StaleCompleted receipt)
      else fail (OperationIdReused operation_id)
  | None =>
  match find_first (fun current => so_operation_id current == operation_id)
          (stale_resolution_operations st) with
  | Some current =>
      if stale_operations_have_same_intent current operation
      then ret (StaleCurrent current)
      else fail (OperationIdReused operation_id)
  | None =>
  refuse_if (operation_id_owned_anywhere st operation_id) (OperationIdReused operation_id) ;;
  lift (ensure_stale_resolution_tuple st operation) ;;
  refuse_if ((so_stage operation != SS_Reserved) || is_some (so_failure operation))
    ConstraintViolation ;;
  refuse_held (holder po_task_id po_operation_id (provisioning_operations st) task_id)
    JournalConflict ;;
  refuse_held (holder ro_task_id ro_operation_id (repair_operations st) task_id) JournalConflict ;;
  refuse_held (holder rlo_target_task_id rlo_operation_id (session_relocation_operations st) task_id)
    JournalConflict ;;
  let! cleanup_index := superseded_cleanup st task_id supersedes_cleanup_operation_id in
  refuse_held (holder so_task_id so_operation_id (stale_resolution_operations st) task_id)
    JournalConflict ;;
  install st
    (st <| cleanup_operations :=
             match cleanup_index with
             | Some index => delete index (cleanup_operations st)
             | None => cleanup_operations st
             end |>
        <| stale_resolution_operations := stale_resolution_operations st ++ [operation] |>)
    (StaleStarted operation)
  end
  end.

(** Assigns to [self.state.stale_resolution_operations[index]] and commits. *)
Definition edit_stale (st : CurrentState) (index : nat) (updated : WorktreeStaleResolutionOperation)
  : StoreM WorktreeStaleResolutionOperation :=
  install st
    (st <| stale_resolution_operations := <[index := updated]> (stale_resolution_operations st) |>)
    updated.

Definition stale_stage_move (from to : WorktreeStaleResolutionStage) : bool :=
  match from, to with
  | SS_Reserved, SS_RemovalPrepared | SS_RemovalPrepared, SS_RemovalInvoked
  | SS_RemovalInvoked, SS_RemovalVerified => true
  | _, _ => false
  end.

Definition advance_task_worktree_stale_resolution (task_id operation_id : string)
    (stage : WorktreeStaleResolutionStage) (updated_at_epoch_ms : N)
  : StoreM WorktreeStaleResolutionOperation :=
  let! st := get_state in
  let! '(index, current) := current_stale_resolution st task_id operation_id in
  if (so_stage current == stage) && is_none (so_failure current) then ret current
  else
  refuse_if (negb ((so_mode current == SM_DiscardDirectory)
                   && stale_stage_move (so_stage current) stage)) ConstraintViolation ;;
  edit_stale st index
    (current <| so_stage := stage |> <| so_failure := None |>
             <| so_updated_at_epoch_ms := updated_at_epoch_ms |>).

Definition fail_task_worktree_stale_resolution (task_id operation_id : string)
    (failure : WorktreeStaleResolutionFailure) (updated_at_epoch_ms : N)
  : StoreM WorktreeStaleResolutionOperation :=
  let! st := get_state in
  lift (validate_stale_resolution_failure failure) ;;
  let! '(index, current) := current_stale_resolution st task_id operation_id in
  if so_failure current == Some failure then ret current
  else
  edit_stale st index
    (current <| so_failure := Some failure |> <| so_updated_at_epoch_ms := updated_at_epoch_ms |>).

(** [failure.as_ref().is_none_or(|failure| failure.kind != RecoveryAttention)] *)
Definition lacks_recovery_attention (operation : WorktreeStaleResolutionOperation) : bool :=
  is_none_or (so_failure operation) (fun failure => sf_kind failure != SF_RecoveryAttention).

Definition retry_task_worktree_stale_resolution (task_id operation_id : string)
    (updated_at_epoch_ms : N) : StoreM WorktreeStaleResolutionOperation :=
  let! st := get_state in
  let! '(index, current) := current_stale_resolution st task_id operation_id in
  refuse_if ((so_mode current != SM_DiscardDirectory)
             || (so_stage current != SS_RemovalPrepared)
             || lacks_recovery_attention current) ConstraintViolation ;;
  edit_stale st index
    (current <| so_failure := None |> <| so_updated_at_epoch_ms := updated_at_epoch_ms |>).

Definition verify_absent_task_worktree_stale_resolution (task_id operation_id : string)
    (updated_at_epoch_ms : N) : StoreM WorktreeStaleResolutionOperation :=
  let! st := get_state in
  let! '(index, current) := current_stale_resolution st task_id operation_id in
  lift (ensure_stale_resolution_tuple st current) ;;
  refuse_if ((so_mode current != SM_DiscardDirectory)
             || negb match so_stage current with
                     | SS_RemovalPrepared | SS_RemovalInvoked => true
                     | _ => false
                     end
             || lacks_recovery_attention current) ConstraintViolation ;;
  edit_stale st index
    (current <| so_stage := SS_RemovalVerified |> <| so_failure := None |>
             <| so_updated_at_epoch_ms := updated_at_epoch_ms |>).

Definition clear_task_worktree_stale_resolution_before_mutation (task_id operation_id : string)
  : StoreM N :=
  let! st := get_state in
  let! '(index, operation) := current_stale_resolution st task_id operation_id in
  refuse_if (negb match so_stage operation with
                  | SS_Reserved | SS_RemovalPrepared => true
                  | _ => false
                  end
             || is_some (so_failure operation)) ConstraintViolation ;;
  install_revision st
    (st <| stale_resolution_operations := delete index (stale_resolution_operations st) |>).

Definition stale_receipt (operation : WorktreeStaleResolutionOperation) (completed_at_epoch_ms : N)
  : WorktreeStaleResolutionReceipt :=
  {| sr_operation_id := so_operation_id operation;
     sr_task_id := so_task_id operation;
     sr_managed_worktree_operation_id := so_managed_worktree_operation_id operation;
     sr_worktree_generation := so_worktree_generation operation;
     sr_target_path := so_target_path operation;
     sr_mode := so_mode operation;
     sr_completed_at_epoch_ms := completed_at_epoch_ms |}.

(** The stage each mode must have reached before it may complete. *)
Definition stale_final_stage (mode : WorktreeStaleResolutionMode) : WorktreeStaleResolutionStage :=
  match mode with
  | SM_ForgetBinding => SS_Reserved
  | SM_DiscardDirectory => SS_RemovalVerified
  end.

(** The Task a completed stale resolution leaves behind. *)
Definition stale_unbound_task (task : TaskRecord) (completed_at_epoch_ms : N) : TaskRecord :=
  task <| t_worktree := None |>
       <| t_updated_at_epoch_ms :=
            N.max completed_at_epoch_ms (u64_add (t_updated_at_epoch_ms task) 1) |>.

Definition complete_task_worktree_stale_resolution (task_id operation_id : string)
    (completed_at_epoch_ms : N) : StoreM StaleResolutionCommit :=
  let! st := get_state in
  let! '(operation_index, operation) := current_stale_resolution st task_id operation_id in
  lift (ensure_stale_resolution_tuple st operation) ;;
  refuse_if ((so_stage operation != stale_final_stage (so_mode operation))
             || is_some (so_failure operation)) ConstraintViolation ;;
  match position (fun task => t_id task == task_id) (tasks st) with
  | None => fail NotFound
  | Some (task_index, task) =>
  let updated_task := stale_unbound_task task completed_at_epoch_ms in
  let receipt := stale_receipt operation completed_at_epoch_ms in
  install st
    (st <| tasks := <[task_index := updated_task]> (tasks st) |>
        <| managed_worktrees :=
             retain (fun proof => mw_task_id proof != task_id) (managed_worktrees st) |>
        <| stale_resolution_receipts :=
             retain (fun candidate => sr_task_id candidate != task_id) (stale_resolution_receipts st)
             ++ [receipt] |>
        <| stale_resolution_operations :=
             delete operation_index (stale_resolution_operations st) |>)
    {| sc_task := updated_task; sc_receipt := receipt |}
  end.
