(* ===== verification/SessionJournals.v ===== *)
(** * Session relocation journal

    [src/modules/store/src/journal/relocation.rs]: replacing an Agent's PTY by a
    resume in another checkout; and, under the second heading, the archives of
    Tasks and Sessions. *)

From S2P Require Import Prelude Text Domain DomainRules StoreState.

Local Open Scope string_scope.
Local Open Scope list_scope.

Section relocation.
Context `{UuidParser}.

Definition is_relocation (session_id operation_id : string) (o : SessionRelocationOperation)
  : bool := (rlo_session_id o == session_id) && (rlo_operation_id o == operation_id).

(** The guard names exactly this Task's current checkout. *)
Definition guard_names_checkout (guard : ResumeLaunchGuard) (task : TaskRecord)
    (binding : TaskWorktreeBinding) (proof : ManagedWorktreeProof) : bool :=
  (g_task_id guard == t_id task)
  && (g_path guard == tw_path binding)
  && (g_managed_worktree_operation_id guard == mw_operation_id proof)
  && (g_worktree_generation guard == mw_worktree_generation proof).

(** [task_worktree_matches] of both relocation methods. *)
Definition relocation_worktree_matches (operation : SessionRelocationOperation)
    (session : SessionRecord) (task : TaskRecord) (proof : ManagedWorktreeProof) : bool :=
  is_some_and (t_worktree task) (fun binding =>
    (tw_path binding == mw_registered_worktree_path proof)
    && ((rlo_target operation == RLT_TaskWorktree)
          && (tw_path binding == rlo_target_cwd operation)
        || (rlo_target operation == RLT_ProjectRoot)
          && ((tw_path binding == rlo_source_cwd operation)
              || is_some_and (s_resume_launch_guard session) (fun guard =>
                   guard_names_checkout guard task binding proof)))).

Definition begin_relocation_is_valid (st : CurrentState) (operation : SessionRelocationOperation)
    (session : SessionRecord) (task : TaskRecord) (proof : ManagedWorktreeProof)
    (project : ProjectRecord) : bool :=
  let target_matches :=
    match rlo_target operation with
    | RLT_TaskWorktree =>
        (t_status task == TaskStatus_Open)
        && (rlo_target_cwd operation != rlo_source_cwd operation)
    | RLT_ProjectRoot =>
        (p_folder_path project == rlo_target_cwd operation)
        && (rlo_target_cwd operation != rlo_source_cwd operation)
    end in
  negb (str_is_empty (rlo_operation_id operation))
  && (len (rlo_operation_id operation) <=? 64)%N
  && (0 <? rlo_started_at_epoch_ms operation)%N
  && (rlo_started_at_epoch_ms operation <=? rlo_updated_at_epoch_ms operation)%N
  && (rlo_stage operation == RLS_SourceRetiring)
  && (s_kind session == SessionKind_Agent)
  && (s_project_id session == rlo_project_id operation)
  && (s_runtime_epoch session == rlo_source_runtime_epoch operation)
  && (pd_cwd (s_process session) == rlo_source_cwd operation)
  && ((s_lifecycle_state session == "running")
      || ((s_lifecycle_state session == "resumeFailed")
          && is_some_and (s_resume_failure session) resume_failure_is_retryable))
  && is_none (s_archived_at_epoch_ms session)
  && is_some_and (s_resume_ref session) resume_ref_validate
  && (t_project_id task == rlo_project_id operation)
  && is_none (t_archived_at_epoch_ms task)
  && (t_worktree_generation task == rlo_target_worktree_generation operation)
  && relocation_worktree_matches operation session task proof
  && target_matches
  && (mw_operation_id proof == rlo_target_managed_worktree_operation_id operation)
  && (mw_worktree_generation proof == rlo_target_worktree_generation operation)
  && negb (any (fun current => rlo_session_id current == rlo_session_id operation)
             (session_relocation_operations st))
  && negb (any (fun current => tao_task_id current == rlo_target_task_id operation)
             (task_archive_operations st))
  && negb (any (fun current => po_task_id current == rlo_target_task_id operation)
             (provisioning_operations st))
  && negb (any (fun current => co_task_id current == rlo_target_task_id operation)
             (cleanup_operations st))
  && negb (any (fun current => ro_task_id current == rlo_target_task_id operation)
             (repair_operations st))
  && negb (any (fun current => so_task_id current == rlo_target_task_id operation)
             (stale_resolution_operations st))
  && negb (any (fun current => sao_session_id current == rlo_session_id operation)
             (session_archive_operations st)).

(** The source Session while its replacement starts. *)
Definition relocating_session (session : SessionRecord) : SessionRecord :=
  session <| s_lifecycle_state := "resuming" |> <| s_resume_failure := None |>.

Definition begin_session_relocation (operation : SessionRelocationOperation) : StoreM N :=
  let operation_id := rlo_operation_id operation in
  let! st := get_state in
  match find_first (fun current => rlo_operation_id current == operation_id)
          (session_relocation_operations st) with
  | Some current =>
      if current == operation then ret (revision st)
      else fail (OperationIdReused operation_id)
  | None =>
  refuse_if (any (fun receipt => rlr_operation_id receipt == operation_id)
               (session_relocation_receipts st)) (OperationIdReused operation_id) ;;
  refuse_if (operation_id_owned_anywhere st operation_id) (OperationIdReused operation_id) ;;
  let! session := lift (ok_or (find_session st (rlo_session_id operation)) NotFound) in
  let! task := lift (ok_or (find_task st (rlo_target_task_id operation)) NotFound) in
  let! proof :=
    lift (ok_or (find_proof st (rlo_target_task_id operation)) ConstraintViolation) in
  let! project := lift (ok_or (find_project st (rlo_project_id operation)) NotFound) in
  refuse_if (negb (begin_relocation_is_valid st operation session task proof project))
    ConstraintViolation ;;
  match find_mut (fun session => s_id session == rlo_session_id operation) relocating_session
          (sessions st) with
  | None => fail NotFound
  | Some (_, sessions') =>
  install_revision st
    (st <| sessions := sessions' |>
        <| session_relocation_receipts :=
             retain (fun receipt => rlr_session_id receipt != rlo_session_id operation)
               (session_relocation_receipts st) |>
        <| session_relocation_operations := session_relocation_operations st ++ [operation] |>)
  end
  end.

Definition mark_session_relocation_target_starting (session_id operation_id : string)
    (updated_at_epoch_ms : N) : StoreM N :=
  let! st := get_state in
  let! operation := lift (ok_or (find_first (is_relocation session_id operation_id)
                                   (session_relocation_operations st)) NotFound) in
  if rlo_stage operation == RLS_TargetStarting then ret (revision st)
  else
  refuse_if ((rlo_stage operation != RLS_SourceRetiring)
             || (updated_at_epoch_ms <? rlo_updated_at_epoch_ms operation)%N)
    ConstraintViolation ;;
  match find_mut (is_relocation session_id operation_id) (fun o =>
          o <| rlo_stage := RLS_TargetStarting |>
            <| rlo_updated_at_epoch_ms := updated_at_epoch_ms |>)
          (session_relocation_operations st) with
  | None => fail NotFound
  | Some (_, operations) =>
      install_revision st (st <| session_relocation_operations := operations |>)
  end.

Definition commit_relocation_is_valid (operation : SessionRelocationOperation)
    (runtime_epoch : N) (resume_ref : ResumeRef) (session : SessionRecord) (task : TaskRecord)
    (proof : ManagedWorktreeProof) (project : ProjectRecord) : bool :=
  let target_matches :=
    match rlo_target operation with
    | RLT_TaskWorktree => t_status task == TaskStatus_Open
    | RLT_ProjectRoot => p_folder_path project == rlo_target_cwd operation
    end in
  (rlo_stage operation == RLS_TargetStarting)
  && (runtime_epoch != 0%N)
  && (runtime_epoch != rlo_source_runtime_epoch operation)
  && (s_project_id session == rlo_project_id operation)
  && (s_runtime_epoch session == rlo_source_runtime_epoch operation)
  && (s_lifecycle_state session == "resuming")
  && (pd_cwd (s_process session) == rlo_source_cwd operation)
  && is_some_and (s_resume_ref session) resume_ref_validate
  && resume_ref_validate resume_ref
  && provider_matches_agent (ref_provider resume_ref) (pd_agent_id (s_process session))
  && (t_project_id task == rlo_project_id operation)
  && is_none (t_archived_at_epoch_ms task)
  && (t_worktree_generation task == rlo_target_worktree_generation operation)
  && relocation_worktree_matches operation session task proof
  && target_matches
  && (mw_operation_id proof == rlo_target_managed_worktree_operation_id operation)
  && (mw_worktree_generation proof == rlo_target_worktree_generation operation)
  && (rlo_target_cwd operation != rlo_source_cwd operation).

(** The launch guard the relocated Session carries. *)
Definition relocation_guard (operation : SessionRelocationOperation)
  : option ResumeLaunchGuard :=
  match rlo_target operation with
  | RLT_TaskWorktree =>
      Some {| g_task_id := rlo_target_task_id operation;
              g_managed_worktree_operation_id := rlo_target_managed_worktree_operation_id operation;
              g_worktree_generation := rlo_target_worktree_generation operation;
              g_path := rlo_target_cwd operation |}
  | RLT_ProjectRoot => None
  end.

Definition relocated_session (session : SessionRecord) (operation : SessionRelocationOperation)
    (runtime_epoch : N) (resume_ref : ResumeRef) : SessionRecord :=
  session <| s_process := (s_process session) <| pd_cwd := rlo_target_cwd operation |> |>
          <| s_resume_launch_guard := relocation_guard operation |>
          <| s_lifecycle_state := "running" |>
          <| s_runtime_epoch := runtime_epoch |>
          <| s_resume_ref := Some resume_ref |>
          <| s_resume_failure := None |>.

Definition relocation_receipt (operation : SessionRelocationOperation) (runtime_epoch : N)
  : SessionRelocationReceipt :=
  {| rlr_operation_id := rlo_operation_id operation;
     rlr_session_id := rlo_session_id operation;
     rlr_project_id := rlo_project_id operation;
     rlr_target := rlo_target operation;
     rlr_target_task_id := rlo_target_task_id operation;
     rlr_target_cwd := rlo_target_cwd operation;
     rlr_target_worktree_generation := rlo_target_worktree_generation operation;
     rlr_target_managed_worktree_operation_id :=
       rlo_target_managed_worktree_operation_id operation;
     rlr_runtime_epoch := runtime_epoch |}.

Definition commit_session_relocation (session_id operation_id : string) (runtime_epoch : N)
    (resume_ref : ResumeRef) : StoreM SessionRecord :=
  let! st := get_state in
  let! '(operation_index, operation) :=
    lift (ok_or (position (is_relocation session_id operation_id)
                   (session_relocation_operations st)) NotFound) in
  let! '(session_index, session) :=
    lift (ok_or (position (fun session => s_id session == session_id) (sessions st)) NotFound) in
  let! '(readiness_index, readiness) :=
    lift (ok_or (position (fun record => rd_session_id record == session_id)
                   (agent_conversation_readiness st)) ConstraintViolation) in
  let! task := lift (ok_or (find_task st (rlo_target_task_id operation)) NotFound) in
  let! proof :=
    lift (ok_or (find_proof st (rlo_target_task_id operation)) ConstraintViolation) in
  let! project := lift (ok_or (find_project st (rlo_project_id operation)) NotFound) in
  refuse_if (negb (commit_relocation_is_valid operation runtime_epoch resume_ref session task
                     proof project)) ConstraintViolation ;;
  let relocated := relocated_session session operation runtime_epoch resume_ref in
  install st
    (st <| sessions := <[session_index := relocated]> (sessions st) |>
        <| agent_conversation_readiness :=
             <[readiness_index := readiness <| rd_readiness := ACR_Resumable |>]>
               (agent_conversation_readiness st) |>
        <| session_relocation_operations :=
             delete operation_index (session_relocation_operations st) |>
        <| session_relocation_receipts :=
             retain (fun receipt => rlr_session_id receipt != session_id)
               (session_relocation_receipts st)
             ++ [relocation_receipt operation runtime_epoch] |>)
    relocated.

Definition failed_session (session : SessionRecord) (failure : ResumeFailureReason)
  : SessionRecord :=
  session <| s_lifecycle_state := "resumeFailed" |> <| s_resume_failure := Some failure |>.

Definition fail_session_relocation (session_id operation_id : string)
    (failure : ResumeFailureReason) : StoreM SessionRecord :=
  let! st := get_state in
  match position (is_relocation session_id operation_id) (session_relocation_operations st) with
  | None =>
      let! session := lift (ok_or (find_session st session_id) NotFound) in
      if (s_lifecycle_state session == "resumeFailed")
         && (s_resume_failure session == Some failure)
      then ret session
      else fail NotFound
  | Some (operation_index, operation) =>
  let! '(session_index, session) :=
    lift (ok_or (position (fun session => s_id session == session_id) (sessions st)) NotFound) in
  refuse_if ((s_project_id session != rlo_project_id operation)
             || (pd_cwd (s_process session) != rlo_source_cwd operation)
             || (s_runtime_epoch session != rlo_source_runtime_epoch operation))
    ConstraintViolation ;;
  let failed := failed_session session failure in
  install st
    (st <| sessions := <[session_index := failed]> (sessions st) |>
        <| session_relocation_operations :=
             delete operation_index (session_relocation_operations st) |>)
    failed
  end.

Definition reconcile_session_relocations : StoreM unit :=
  let! st := get_state in
  for_each (session_relocation_operations st) (fun operation =>
    let! _ := fail_session_relocation (rlo_session_id operation) (rlo_operation_id operation)
                RFR_DaemonInterrupted in
    ret tt).
End relocation.

(** * Archive journals

    [src/modules/store/src/journal/archive.rs]: archiving one Session, archiving
    a Task with its Sessions, restoring it, and closing or reopening a Task
    whose Sessions are parked. *)

(** [archive_journal_holding_session] *)
Definition archive_journal_holding_session (st : CurrentState) (session_id : string)
  : option string :=
  match sao_operation_id <$> find_first (fun operation => sao_session_id operation == session_id)
                               (session_archive_operations st) with
  | Some operation_id => Some operation_id
  | None =>
      tao_operation_id <$> find_first (fun operation =>
        any (fun target => tat_session_id target == session_id) (tao_targets operation))
        (task_archive_operations st)
  end.

(** [current_worktree_guard] *)
Definition current_worktree_guard (st : CurrentState) (cwd : string) : option ResumeLaunchGuard :=
  match find_first (fun task =>
          is_some_and (t_worktree task) (fun worktree => tw_path worktree == cwd)) (tasks st) with
  | None => None
  | Some task =>
  match find_first (fun proof =>
          (mw_task_id proof == t_id task)
          && (mw_worktree_generation proof == t_worktree_generation task)
          && (mw_registered_worktree_path proof == cwd)) (managed_worktrees st) with
  | None => None
  | Some proof =>
      Some {| g_task_id := t_id task;
              g_managed_worktree_operation_id := mw_operation_id proof;
              g_worktree_generation := mw_worktree_generation proof;
              g_path := cwd |}
  end end.

(** ** One Session *)

Definition is_session_archive (session_id operation_id : string) (o : SessionArchiveOperation)
  : bool := (sao_session_id o == session_id) && (sao_operation_id o == operation_id).

Definition begin_session_archive (operation : SessionArchiveOperation) : StoreM N :=
  let! st := get_state in
  let! session := lift (ok_or (find_session st (sao_session_id operation)) NotFound) in
  refuse_if ((s_project_id session != sao_project_id operation)
             || (s_runtime_epoch session != sao_runtime_epoch operation)
             || is_some (s_archived_at_epoch_ms session)
             || (s_lifecycle_state session != "running")
             || any (fun current => sao_session_id current == sao_session_id operation)
                    (session_archive_operations st)
             || any (fun current => rlo_session_id current == sao_session_id operation)
                    (session_relocation_operations st)
             || operation_id_owned_anywhere st (sao_operation_id operation)) ConstraintViolation ;;
  install_revision st
    (st <| session_archive_operations := session_archive_operations st ++ [operation] |>).

Definition mark_session_archive_recovery_attention (session_id operation_id : string) : StoreM N :=
  let! st := get_state in
  let! operation := lift (ok_or (find_first (is_session_archive session_id operation_id)
                                   (session_archive_operations st)) NotFound) in
  if sao_state operation == SA_RecoveryAttention then ret (revision st)
  else
  match find_mut (is_session_archive session_id operation_id)
          (fun o => o <| sao_state := SA_RecoveryAttention |>) (session_archive_operations st) with
  | None => fail NotFound
  | Some (_, operations) =>
      install_revision st (st <| session_archive_operations := operations |>)
  end.

Definition archived_session (session : SessionRecord) (archived_at_epoch_ms : N) : SessionRecord :=
  session <| s_lifecycle_state := "exited" |> <| s_resume_failure := None |>
          <| s_archived_at_epoch_ms := Some archived_at_epoch_ms |>.

Definition commit_session_archive (session_id operation_id : string) (archived_at_epoch_ms : N)
  : StoreM SessionRecord :=
  let! st := get_state in
  let! '(operation_index, operation) :=
    lift (ok_or (position (is_session_archive session_id operation_id)
                   (session_archive_operations st)) NotFound) in
  let! session := lift (ok_or (find_session st session_id) NotFound) in
  refuse_if ((s_project_id session != sao_project_id operation)
             || (s_runtime_epoch session != sao_runtime_epoch operation)
             || is_some (s_archived_at_epoch_ms session)) ConstraintViolation ;;
  match find_mut (fun session => s_id session == session_id)
          (fun session => archived_session session archived_at_epoch_ms) (sessions st) with
  | None => fail NotFound
  | Some (archived, sessions') =>
  install st
    (st <| sessions := sessions' |>
        <| session_archive_operations :=
             delete operation_index (session_archive_operations st) |>)
    archived
  end.

(** ** A Task and its Sessions *)

Definition is_task_archive (task_id operation_id : string) (o : TaskArchiveOperation) : bool :=
  (tao_task_id o == task_id) && (tao_operation_id o == operation_id).

Definition begin_task_archive (operation : TaskArchiveOperation) : StoreM N :=
  let! st := get_state in
  let! task := lift (ok_or (find_task st (tao_task_id operation)) NotFound) in
  refuse_if (is_some (t_archived_at_epoch_ms task)
             || (t_project_id task != tao_project_id operation)
             || any (fun current => tao_task_id current == tao_task_id operation)
                    (task_archive_operations st)
             || any (fun current => rlo_target_task_id current == tao_task_id operation)
                    (session_relocation_operations st)
             || operation_id_owned_anywhere st (tao_operation_id operation)) ConstraintViolation ;;
  install_revision st
    (st <| task_archive_operations := task_archive_operations st ++ [operation] |>).

Definition mark_task_archive_recovery_attention (task_id operation_id : string) : StoreM N :=
  let! st := get_state in
  let! operation := lift (ok_or (find_first (is_task_archive task_id operation_id)
                                   (task_archive_operations st)) NotFound) in
  if tao_state operation == TA_RecoveryAttention then ret (revision st)
  else
  match find_mut (is_task_archive task_id operation_id)
          (fun o => o <| tao_state := TA_RecoveryAttention |>) (task_archive_operations st) with
  | None => fail NotFound
  | Some (_, operations) => install_revision st (st <| task_archive_operations := operations |>)
  end.

(** [self.state.<field> = ...] on the store's current state. *)
Definition modify_state (f : CurrentState -> CurrentState) : StoreM unit :=
  modify (fun s => s <| state := f (state s) |>).

(** Suspends one target of a Task archive, in place. *)
Definition suspend_target (task_id : string) (archived_at_epoch_ms : N) (target : TaskArchiveTarget)
  : StoreM unit :=
  let! st := get_state in
  match find_mut (fun session => s_id session == tat_session_id target)
          (fun session =>
             if tat_was_live_agent target
             then session <| s_lifecycle_state := "exited" |> <| s_resume_failure := None |>
             else session) (sessions st) with
  | None => fail NotFound
  | Some (_, sessions') =>
      modify_state (fun st =>
        st <| sessions := sessions' |>
           <| task_archive_suspensions :=
                task_archive_suspensions st ++
                [{| sus_task_id := Some task_id;
                    sus_session_id := tat_session_id target;
                    sus_archived_at_epoch_ms := archived_at_epoch_ms;
                    sus_prior_lifecycle_state := tat_prior_lifecycle_state target;
                    sus_prior_resume_failure := tat_prior_resume_failure target;
                    sus_reason := TSR_Archived |}] |>)
  end.

(** [RoutineTriggerMode::is_scheduled] *)
Definition is_scheduled (mode : RoutineTriggerMode) : bool :=
  match mode with RTM_Schedule => true | RTM_OnDemand => false end.

(** An on-demand Routine drops its pending findings about an archived Task. *)
Definition drop_task_findings (task_id : string) (routine : TrackerConfiguration)
  : TrackerConfiguration :=
  if is_scheduled (tc_trigger_mode routine) then routine
  else routine <| tc_pending_routine_findings :=
         retain (fun finding => negb (any (fun id => id == task_id) (prf_related_task_ids finding)))
           (tc_pending_routine_findings routine) |>.

Definition commit_task_archive (task_id operation_id : string) (archived_at_epoch_ms : N)
  : StoreM N :=
  let! st := get_state in
  let! '(operation_index, operation) :=
    lift (ok_or (position (is_task_archive task_id operation_id) (task_archive_operations st))
            NotFound) in
  let! '(task_index, task) :=
    lift (ok_or (position (fun task => t_id task == task_id) (tasks st)) NotFound) in
  refuse_if (is_some (t_archived_at_epoch_ms task)
             || any (fun target =>
                  any (fun suspension => sus_session_id suspension == tat_session_id target)
                      (task_archive_suspensions st)
                  || negb (any (fun session =>
                       (s_id session == tat_session_id target)
                       && (s_project_id session == tao_project_id operation)
                       && (s_runtime_epoch session == tat_runtime_epoch target)) (sessions st)))
                (tao_targets operation)) ConstraintViolation ;;
  for_each (tao_targets operation) (suspend_target task_id archived_at_epoch_ms) ;;
  let! st' := get_state in
  install_revision st
    (st' <| tasks := <[task_index := task <| t_archived_at_epoch_ms := Some archived_at_epoch_ms |>
                                          <| t_updated_at_epoch_ms := archived_at_epoch_ms |>]>
                       (tasks st') |>
         <| tracker_configurations := drop_task_findings task_id <$> tracker_configurations st' |>
         <| task_archive_operations :=
              delete operation_index (task_archive_operations st') |>).

Definition abandon_task_archive (task_id operation_id : string) : StoreM N :=
  let! st := get_state in
  match position (fun operation =>
          is_task_archive task_id operation_id operation
          && (tao_state operation == TA_RecoveryAttention)) (task_archive_operations st) with
  | None => fail ConstraintViolation
  | Some (index, _) =>
      install_revision st
        (st <| task_archive_operations := delete index (task_archive_operations st) |>)
  end.

(** The suspension belongs to this Task, or predates Task ownership. *)
Definition suspension_of_task (task_id : string) (suspension : TaskArchiveSuspension) : bool :=
  is_none_or (sus_task_id suspension) (fun owner => owner == task_id).

(** What un-suspending does to the Session's lifecycle. *)
Definition restored_session (session : SessionRecord) (suspension : TaskArchiveSuspension)
  : SessionRecord :=
  if sus_prior_lifecycle_state suspension == "running"
  then session <| s_lifecycle_state := "resumeFailed" |>
               <| s_resume_failure := Some RFR_DaemonInterrupted |>
  else session <| s_lifecycle_state := sus_prior_lifecycle_state suspension |>
               <| s_resume_failure := sus_prior_resume_failure suspension |>.

(** One iteration of [restore_task_archive]'s loop. *)
Definition restore_one (task_id : string) (resumable : list string) (session_id : string)
  : StoreM (list string) :=
  let! st := get_state in
  let! '(suspension_index, suspension) :=
    lift (ok_or (position (fun suspension =>
                   (sus_session_id suspension == session_id)
                   && suspension_of_task task_id suspension) (task_archive_suspensions st))
            ConstraintViolation) in
  modify_state (fun st =>
    st <| task_archive_suspensions := delete suspension_index (task_archive_suspensions st) |>) ;;
  match find_mut (fun session => s_id session == session_id)
          (fun session => restored_session session suspension) (sessions st) with
  | None => fail NotFound
  | Some (_, sessions') =>
      modify_state (fun st => st <| sessions := sessions' |>) ;;
      ret (if sus_prior_lifecycle_state suspension == "running"
           then resumable ++ [session_id] else resumable)
  end.

Definition restore_task_archive (task_id : string) (session_ids : list string)
    (updated_at_epoch_ms : N) : StoreM (list string) :=
  let! st := get_state in
  let! '(task_index, task) :=
    lift (ok_or (position (fun task => t_id task == task_id) (tasks st)) NotFound) in
  let! archived_at := lift (ok_or (t_archived_at_epoch_ms task) ConstraintViolation) in
  refuse_if (any (fun session_id =>
               negb (any (fun suspension =>
                      (sus_session_id suspension == session_id)
                      && (sus_archived_at_epoch_ms suspension == archived_at)
                      && suspension_of_task task_id suspension)
                    (task_archive_suspensions st))) session_ids) ConstraintViolation ;;
  let! resumable := for_fold session_ids [] (restore_one task_id) in
  let! st' := get_state in
  install st
    (st' <| tasks := <[task_index := task <| t_archived_at_epoch_ms := None |>
                                          <| t_updated_at_epoch_ms := updated_at_epoch_ms |>]>
                       (tasks st') |>)
    resumable.

(** ** Closing and reopening *)

(** The checkout of this Task generation is durably known to be gone. *)
Definition removal_proven (st : CurrentState) (task_id : string) (generation : N) : bool :=
  any (fun receipt =>
         (cr_task_id receipt == task_id)
         && (cr_worktree_generation receipt == generation)
         && (cr_outcome receipt == CO_Removed)) (cleanup_receipts st)
  || any (fun receipt =>
         (sr_task_id receipt == task_id)
         && (sr_worktree_generation receipt == generation)
         && (sr_mode receipt == SM_DiscardDirectory)) (stale_resolution_receipts st).

(** One iteration of the finalizing loop: the suspension at this index. *)
Definition finalize_one (task_id project_folder : string) (archived_at : N) (index : nat)
  : StoreM unit :=
  let! st := get_state in
  match task_archive_suspensions st !! index with
  | None => ret tt
  | Some suspension =>
  if (sus_task_id suspension == Some task_id)
     && (sus_archived_at_epoch_ms suspension == archived_at)
  then
    modify_state (fun st =>
      st <| task_archive_suspensions :=
              <[index := suspension <| sus_reason := TSR_ClosedWorktreeRemoved |>]>
                (task_archive_suspensions st) |>) ;;
    match find_mut (fun session => s_id session == sus_session_id suspension)
            (fun session =>
               session <| s_process := (s_process session) <| pd_cwd := project_folder |> |>
                       <| s_resume_launch_guard := None |>) (sessions st) with
    | None => fail ConstraintViolation
    | Some (_, sessions') => modify_state (fun st => st <| sessions := sessions' |>)
    end
  else ret tt
  end.

Definition finalize_archived_task_as_closed_after_worktree_removal (task_id : string)
    (updated_at_epoch_ms : N) : StoreM TaskRecord :=
  let! st := get_state in
  let! '(task_index, task) :=
    lift (ok_or (position (fun task => t_id task == task_id) (tasks st)) NotFound) in
  let! archived_at := lift (ok_or (t_archived_at_epoch_ms task) ConstraintViolation) in
  let generation := t_worktree_generation task in
  let! project_folder :=
    lift (ok_or (p_folder_path <$> find_project st (t_project_id task)) ConstraintViolation) in
  refuse_if (is_some (t_worktree task)
             || negb (removal_proven st task_id generation)
             || any (fun operation => tao_task_id operation == task_id) (task_archive_operations st)
             || any (fun operation => co_task_id operation == task_id) (cleanup_operations st)
             || any (fun operation => so_task_id operation == task_id)
                    (stale_resolution_operations st)) ConstraintViolation ;;
  for_each (seq 0 (length (task_archive_suspensions st)))
    (finalize_one task_id project_folder archived_at) ;;
  let! st' := get_state in
  let updated :=
    task <| t_archived_at_epoch_ms := None |> <| t_status := TaskStatus_Closed |>
         <| t_updated_at_epoch_ms :=
              N.max updated_at_epoch_ms (u64_add (t_updated_at_epoch_ms task) 1) |> in
  install st (st' <| tasks := <[task_index := updated]> (tasks st') |>) updated.

(** [TaskSuspensionReason::parks_closed_task] *)
Definition parks_closed_task (reason : TaskSuspensionReason) : bool :=
  match reason with
  | TSR_ClosedWorktreeRemoved | TSR_Closed => true
  | TSR_Archived => false
  end.

Definition parked_for (task_id : string) (suspension : TaskArchiveSuspension) : bool :=
  (sus_task_id suspension == Some task_id) && parks_closed_task (sus_reason suspension).

(** Where a parked Session resumes: a checkout recreated at reopen, or the
    Project root when the checkout is gone. *)
Definition reopened_session (session : SessionRecord) (suspension : TaskArchiveSuspension)
    (relocated_cwd recreated_worktree : option string)
    (recreated_guard : option ResumeLaunchGuard) : SessionRecord :=
  let session :=
    match sus_reason suspension, relocated_cwd with
    | TSR_Closed, Some cwd =>
        session <| s_process := (s_process session) <| pd_cwd := cwd |> |>
                <| s_resume_launch_guard := None |>
    | _, _ => session
    end in
  let session :=
    match sus_reason suspension, recreated_worktree with
    | TSR_ClosedWorktreeRemoved, Some cwd =>
        session <| s_process := (s_process session) <| pd_cwd := cwd |> |>
                <| s_resume_launch_guard := recreated_guard |>
    | _, _ => session
    end in
  restored_session session suspension.

(** One iteration of [reopen_task_with_suspended_sessions]'s loop. *)
Definition reopen_one (task_id : string) (relocated_cwd recreated_worktree : option string)
    (resumable : list string) (session_id : string) : StoreM (list string) :=
  let! st := get_state in
  let! '(suspension_index, suspension) :=
    lift (ok_or (position (fun suspension =>
                   (sus_session_id suspension == session_id) && parked_for task_id suspension)
                   (task_archive_suspensions st)) ConstraintViolation) in
  modify_state (fun st =>
    st <| task_archive_suspensions := delete suspension_index (task_archive_suspensions st) |>) ;;
  let recreated_guard :=
    match recreated_worktree with
    | Some cwd => current_worktree_guard st cwd
    | None => None
    end in
  match find_mut (fun session => s_id session == session_id)
          (fun session =>
             reopened_session session suspension relocated_cwd recreated_worktree recreated_guard)
          (sessions st) with
  | None => fail NotFound
  | Some (_, sessions') =>
      modify_state (fun st => st <| sessions := sessions' |>) ;;
      ret (if sus_prior_lifecycle_state suspension == "running"
           then resumable ++ [session_id] else resumable)
  end.

Definition reopen_task_with_suspended_sessions (task_id : string) (updated_at_epoch_ms : N)
  : StoreM (TaskRecord * list string) :=
  let! st := get_state in
  let! '(task_index, task) :=
    lift (ok_or (position (fun task => t_id task == task_id) (tasks st)) NotFound) in
  refuse_if ((t_status task != TaskStatus_Closed) || is_some (t_archived_at_epoch_ms task))
    ConstraintViolation ;;
  let recreated_worktree := tw_path <$> t_worktree task in
  let relocated_cwd :=
    if is_none (t_worktree task)
    then p_folder_path <$> find_project st (t_project_id task)
    else None in
  let session_ids := sus_session_id <$> retain (parked_for task_id) (task_archive_suspensions st) in
  let! resumable := for_fold session_ids [] (reopen_one task_id relocated_cwd recreated_worktree) in
  let! st' := get_state in
  let updated :=
    task <| t_status := TaskStatus_Open |>
         <| t_updated_at_epoch_ms :=
              N.max updated_at_epoch_ms (u64_add (t_updated_at_epoch_ms task) 1) |> in
  install st (st' <| tasks := <[task_index := updated]> (tasks st') |>) (updated, resumable).
