(* ===== verification/Transactions.v ===== *)
(** * The commit discipline, proved once

    [transaction s r]: what a store method started on [s] may do.  Either it
    refuses or answers without touching anything, or its single attempt to
    persist failed and the in-memory state is back to what it was, or it
    committed: one revision further, and the file holds exactly the new
    state.  The second part lists the journal methods as one type of calls, the
    third shows that each is a transaction. *)

From S2P Require Import Prelude Text Domain DomainRules StoreState WorktreeJournals SessionJournals.

(** The state a commit installs for the state a method computed. *)
Definition committed (next : CurrentState) : CurrentState :=
  bump_revision (prune_session_profiles next).

Inductive transaction {A} (s : Store) : result StoreError A * Store -> Prop :=
| tx_refused e : transaction s (Err e, s)
| tx_answered a : transaction s (Ok a, s)
| tx_io_failed message rest :
    io s = PersistFailed message :: rest ->
    transaction s (Err (Io message), s <| io := rest |>)
| tx_committed a next size rest :
    revision next = revision (state s) ->
    transaction s (Ok a, MkStore (committed next) size (committed next) rest).

(** Memory and file agree. *)
Definition coherent (s : Store) : Prop := state s = disk s.

Lemma commit_run s :
  commit s =
  match io s with
  | [] => (Ok (revision (committed (state s))),
           MkStore (committed (state s)) 0 (committed (state s)) [])
  | Persisted size :: rest =>
      (Ok (revision (committed (state s))),
       MkStore (committed (state s)) size (committed (state s)) rest)
  | PersistFailed message :: rest =>
      (Err (Io message), s <| state := committed (state s) |> <| io := rest |>)
  end.
Proof. destruct s as [st b d [|[] ios]]; reflexivity. Qed.

Lemma install_run {A} (previous next : CurrentState) (a : A) s :
  install previous next a s =
  match io s with
  | [] => (Ok a, MkStore (committed next) 0 (committed next) [])
  | Persisted size :: rest => (Ok a, MkStore (committed next) size (committed next) rest)
  | PersistFailed message :: rest =>
      (Err (Io message), s <| state := previous |> <| io := rest |>)
  end.
Proof.
  unfold install, put_state, commit_or_restore, bind, modify, ret. rewrite commit_run.
  destruct s as [st b d [|[] ios]]; reflexivity.
Qed.

Lemma install_revision_run (previous next : CurrentState) s :
  install_revision previous next s =
  match io s with
  | [] => (Ok (revision (committed next)), MkStore (committed next) 0 (committed next) [])
  | Persisted size :: rest =>
      (Ok (revision (committed next)), MkStore (committed next) size (committed next) rest)
  | PersistFailed message :: rest =>
      (Err (Io message), s <| state := previous |> <| io := rest |>)
  end.
Proof.
  unfold install_revision, put_state, commit_or_restore, bind, modify, ret. rewrite commit_run.
  destruct s as [st b d [|[] ios]]; reflexivity.
Qed.

(** [install] after in-place mutations [mid] of the state of [s]. *)
Lemma install_transaction {A} s mid next (a : A) :
  revision next = revision (state s) ->
  transaction s (install (state s) next a (s <| state := mid |>)).
Proof.
  intros Hrev. rewrite install_run. destruct s as [st b d ios]; simpl in *.
  destruct ios as [|[size|message] rest]; simpl.
  - by apply tx_committed.
  - by apply tx_committed.
  - exact (tx_io_failed (MkStore st b d (PersistFailed message :: rest)) message rest eq_refl).
Qed.

Lemma install_revision_transaction s mid next :
  revision next = revision (state s) ->
  transaction s (install_revision (state s) next (s <| state := mid |>)).
Proof.
  intros Hrev. rewrite install_revision_run. destruct s as [st b d ios]; simpl in *.
  destruct ios as [|[size|message] rest]; simpl.
  - by apply tx_committed.
  - by apply tx_committed.
  - exact (tx_io_failed (MkStore st b d (PersistFailed message :: rest)) message rest eq_refl).
Qed.

Lemma store_eta s : s <| state := state s |> = s.
Proof. by destruct s. Qed.

Lemma install_transaction_direct {A} s next (a : A) :
  revision next = revision (state s) -> transaction s (install (state s) next a s).
Proof. intros. rewrite <- (store_eta s) at 3. by apply install_transaction. Qed.

Lemma install_revision_transaction_direct s next :
  revision next = revision (state s) -> transaction s (install_revision (state s) next s).
Proof. intros. rewrite <- (store_eta s) at 3. by apply install_revision_transaction. Qed.

(** ** Running straight-line code

    [run_code] executes the monadic code of a method on a store, splitting on
    every condition; the remaining goals are its exits. *)

Lemma bind_run {S E A B} (m : Exec S E A) (k : A -> Exec S E B) s :
  bind m k s = match m s with (Ok a, s') => k a s' | (Err e, s') => (Err e, s') end.
Proof. done. Qed.

Lemma bind_bind {S E A B C} (m : Exec S E A) (k : A -> Exec S E B) (k' : B -> Exec S E C) s :
  bind (bind m k) k' s = bind m (fun a => bind (k a) k') s.
Proof. unfold bind. by destruct (m s) as [[] ?]. Qed.

Ltac run_split x := let E := fresh "Hcode" in destruct x eqn:E.

Ltac run_goal P T :=
  lazymatch T with
  | bind (bind ?m ?k) ?k' ?s => rewrite (bind_bind m k k' s)
  | bind get_state ?k ?s => change (P (k (state s) s)); cbv beta
  | bind (put_state ?st) ?k ?s => change (P (k tt (s <| state := st |>))); cbv beta
  | bind (ret ?a) ?k ?s => change (P (k a s)); cbv beta
  | bind (fail ?e) _ ?s => change (P (Err e, s))
  | bind (lift (Ok ?a)) ?k ?s => change (P (k a s)); cbv beta
  | bind (lift (Err ?e)) _ ?s => change (P (Err e, s))
  | bind (lift (ok_or (Some ?a) _)) ?k ?s => change (P (k a s)); cbv beta
  | bind (lift (ok_or None ?e)) _ ?s => change (P (Err e, s))
  | bind (lift (ok_or ?o _)) _ _ => run_split o
  | bind (lift ?r) _ _ => run_split r
  | bind (refuse_if ?b ?e) ?k ?s =>
      run_split b; [change (P (Err e, s)) | change (P (k tt s)); cbv beta]
  | bind (refuse_held (Some ?id) ?e) ?k ?s => change (P (Err (e id), s))
  | bind (refuse_held None ?e) ?k ?s => change (P (k tt s)); cbv beta
  | bind (refuse_held ?o _) _ _ => run_split o
  | bind (match ?x with _ => _ end) _ _ => run_split x
  | ret ?a ?s => change (P (Ok a, s))
  | fail ?e ?s => change (P (Err e, s))
  | match ?x with _ => _ end _ => run_split x
  | match ?x with _ => _ end => run_split x
  end.

Ltac run_step := lazymatch goal with |- ?P ?T => run_goal P T end.

Ltac tx_exit :=
  lazymatch goal with
  | |- transaction ?s (Ok _, ?s) => apply tx_answered
  | |- transaction ?s (Err _, ?s) => apply tx_refused
  | |- transaction ?s (install (state ?s) _ _ ?s) =>
      apply install_transaction_direct; reflexivity
  | |- transaction ?s (install_revision (state ?s) _ ?s) =>
      apply install_revision_transaction_direct; reflexivity
  end.

Ltac tx := repeat first [tx_exit | run_step].

(** ** Successful runs *)

(** [post Q r]: if the run succeeded, its value and final store satisfy [Q]. *)
Definition post {A} (Q : A -> Store -> Prop) (r : result StoreError A * Store) : Prop :=
  match r.1 with Ok a => Q a r.2 | Err _ => True end.

Lemma post_install {A} (Q : A -> Store -> Prop) previous next a s :
  (forall size rest, Q a (MkStore (committed next) size (committed next) rest)) ->
  post Q (install previous next a s).
Proof. intros HQ. rewrite install_run. unfold post. destruct (io s) as [|[] ?]; simpl; auto. Qed.

Lemma post_install_revision (Q : N -> Store -> Prop) previous next s :
  (forall size rest, Q (revision (committed next))
     (MkStore (committed next) size (committed next) rest)) ->
  post Q (install_revision previous next s).
Proof.
  intros HQ. rewrite install_revision_run. unfold post. destruct (io s) as [|[] ?]; simpl; auto.
Qed.

Ltac post_exit :=
  lazymatch goal with
  | |- post _ (Err _, _) => exact I
  | |- post _ (install _ _ _ _) => apply post_install; intros
  | |- post _ (install_revision _ _ _) => apply post_install_revision; intros
  end.
Ltac run_post := repeat first [post_exit | run_step].

Lemma post_ok {A} (Q : A -> Store -> Prop) r a s : post Q r -> r = (Ok a, s) -> Q a s.
Proof. intros H ->. exact H. Qed.

(** ** Writes that succeed *)

(** The coming writes all succeed. *)
Definition io_healthy (s : Store) : Prop :=
  forall outcome, outcome ∈ io s -> exists size, outcome = Persisted size.

Lemma install_healthy {A} (previous next : CurrentState) (a : A) s :
  io_healthy s ->
  exists s', install previous next a s = (Ok a, s') /\ state s' = committed next /\ io_healthy s'.
Proof.
  intros Hio. rewrite install_run. destruct (io s) as [|[size|message] rest] eqn:E.
  - eexists. split_and!; [done..|]. by intros o ?%elem_of_nil.
  - eexists. split_and!; [done..|]. intros o Ho. apply Hio. rewrite E. by right.
  - destruct (Hio (PersistFailed message)) as [? ?]; [rewrite E; by left|discriminate].
Qed.

(** * The worktree and relocation journals as one interface

    One constructor per store method of the provisioning, cleanup, repair,
    stale-resolution and relocation journals, so that a history of the store is
    a list of calls.  [exec_call] runs a call and forgets its answer;
    [exec_calls] runs a history, later calls seeing what earlier ones left
    whatever their answers were. *)

Inductive JournalCall : Type :=
| Call_begin_task_worktree_provisioning (operation : WorktreeProvisioningOperation)
| Call_advance_task_worktree_provisioning (task_id operation_id : string) (stage : ProvisioningStage) (created_branch_ref : bool) (now : N)
| Call_fail_task_worktree_provisioning (task_id operation_id : string) (failure : ProvisioningFailureKind) (now : N)
| Call_retry_task_worktree_provisioning (task_id operation_id : string) (now : N)
| Call_record_provisioning_ref_rollback (task_id operation_id : string) (failure : ProvisioningFailureKind) (now : N)
| Call_commit_task_worktree_provisioning (task_id operation_id : string) (c : ProvisioningCommit)
| Call_clear_task_worktree_provisioning (task_id operation_id : string)
| Call_begin_task_worktree_cleanup (operation : WorktreeCleanupOperation)
| Call_advance_task_worktree_cleanup (task_id operation_id : string) (stage : WorktreeCleanupStage) (now : N)
| Call_fail_task_worktree_cleanup (task_id operation_id : string) (failure : WorktreeCleanupFailure) (now : N)
| Call_retry_task_worktree_cleanup (task_id operation_id : string) (now : N)
| Call_supersede_failed_task_worktree_cleanup (previous_operation_id : string) (replacement : WorktreeCleanupOperation)
| Call_complete_task_worktree_cleanup (task_id operation_id : string) (now : N)
| Call_clear_task_worktree_cleanup (task_id operation_id : string)
| Call_begin_task_worktree_repair (operation : WorktreeRepairOperation)
| Call_advance_task_worktree_repair (task_id operation_id : string) (stage : WorktreeRepairStage) (now : N)
| Call_resume_task_worktree_repair_before_mutation (task_id operation_id : string) (now : N)
| Call_fail_task_worktree_repair (task_id operation_id : string) (failure : WorktreeRepairFailure) (now : N)
| Call_complete_task_worktree_repair (task_id operation_id : string) (now : N)
| Call_dismiss_task_worktree_repair (task_id operation_id : string)
| Call_begin_task_worktree_stale_resolution (operation : WorktreeStaleResolutionOperation) (supersedes : option string)
| Call_advance_task_worktree_stale_resolution (task_id operation_id : string) (stage : WorktreeStaleResolutionStage) (now : N)
| Call_fail_task_worktree_stale_resolution (task_id operation_id : string) (failure : WorktreeStaleResolutionFailure) (now : N)
| Call_retry_task_worktree_stale_resolution (task_id operation_id : string) (now : N)
| Call_verify_absent_task_worktree_stale_resolution (task_id operation_id : string) (now : N)
| Call_clear_task_worktree_stale_resolution_before_mutation (task_id operation_id : string)
| Call_complete_task_worktree_stale_resolution (task_id operation_id : string) (now : N)
| Call_begin_session_relocation (operation : SessionRelocationOperation)
| Call_mark_session_relocation_target_starting (session_id operation_id : string) (now : N)
| Call_commit_session_relocation (session_id operation_id : string) (runtime_epoch : N) (resume_ref : ResumeRef)
| Call_fail_session_relocation (session_id operation_id : string) (failure : ResumeFailureReason).

(** Forgets a method's answer, keeping whether it failed. *)
Definition erase {A} (m : StoreM A) : StoreM unit := let! _ := m in ret tt.

Section calls.
Context `{UuidParser}.

Definition exec_call (call : JournalCall) : StoreM unit :=
  match call with
  | Call_begin_task_worktree_provisioning operation =>
      erase (begin_task_worktree_provisioning operation)
  | Call_advance_task_worktree_provisioning task_id operation_id stage created_branch_ref now =>
      erase (advance_task_worktree_provisioning task_id operation_id stage created_branch_ref now)
  | Call_fail_task_worktree_provisioning task_id operation_id failure now =>
      erase (fail_task_worktree_provisioning task_id operation_id failure now)
  | Call_retry_task_worktree_provisioning task_id operation_id now =>
      erase (retry_task_worktree_provisioning task_id operation_id now)
  | Call_record_provisioning_ref_rollback task_id operation_id failure now =>
      erase (record_provisioning_ref_rollback task_id operation_id failure now)
  | Call_commit_task_worktree_provisioning task_id operation_id c =>
      erase (commit_task_worktree_provisioning task_id operation_id c)
  | Call_clear_task_worktree_provisioning task_id operation_id =>
      erase (clear_task_worktree_provisioning task_id operation_id)
  | Call_begin_task_worktree_cleanup operation => erase (begin_task_worktree_cleanup operation)
  | Call_advance_task_worktree_cleanup task_id operation_id stage now =>
      erase (advance_task_worktree_cleanup task_id operation_id stage now)
  | Call_fail_task_worktree_cleanup task_id operation_id failure now =>
      erase (fail_task_worktree_cleanup task_id operation_id failure now)
  | Call_retry_task_worktree_cleanup task_id operation_id now =>
      erase (retry_task_worktree_cleanup task_id operation_id now)
  | Call_supersede_failed_task_worktree_cleanup previous_operation_id replacement =>
      erase (supersede_failed_task_worktree_cleanup previous_operation_id replacement)
  | Call_complete_task_worktree_cleanup task_id operation_id now =>
      erase (complete_task_worktree_cleanup task_id operation_id now)
  | Call_clear_task_worktree_cleanup task_id operation_id =>
      erase (clear_task_worktree_cleanup task_id operation_id)
  | Call_begin_task_worktree_repair operation => erase (begin_task_worktree_repair operation)
  | Call_advance_task_worktree_repair task_id operation_id stage now =>
      erase (advance_task_worktree_repair task_id operation_id stage now)
  | Call_resume_task_worktree_repair_before_mutation task_id operation_id now =>
      erase (resume_task_worktree_repair_before_mutation task_id operation_id now)
  | Call_fail_task_worktree_repair task_id operation_id failure now =>
      erase (fail_task_worktree_repair task_id operation_id failure now)
  | Call_complete_task_worktree_repair task_id operation_id now =>
      erase (complete_task_worktree_repair task_id operation_id now)
  | Call_dismiss_task_worktree_repair task_id operation_id =>
      erase (dismiss_task_worktree_repair task_id operation_id)
  | Call_begin_task_worktree_stale_resolution operation supersedes =>
      erase (begin_task_worktree_stale_resolution operation supersedes)
  | Call_advance_task_worktree_stale_resolution task_id operation_id stage now =>
      erase (advance_task_worktree_stale_resolution task_id operation_id stage now)
  | Call_fail_task_worktree_stale_resolution task_id operation_id failure now =>
      erase (fail_task_worktree_stale_resolution task_id operation_id failure now)
  | Call_retry_task_worktree_stale_resolution task_id operation_id now =>
      erase (retry_task_worktree_stale_resolution task_id operation_id now)
  | Call_verify_absent_task_worktree_stale_resolution task_id operation_id now =>
      erase (verify_absent_task_worktree_stale_resolution task_id operation_id now)
  | Call_clear_task_worktree_stale_resolution_before_mutation task_id operation_id =>
      erase (clear_task_worktree_stale_resolution_before_mutation task_id operation_id)
  | Call_complete_task_worktree_stale_resolution task_id operation_id now =>
      erase (complete_task_worktree_stale_resolution task_id operation_id now)
  | Call_begin_session_relocation operation => erase (begin_session_relocation operation)
  | Call_mark_session_relocation_target_starting session_id operation_id now =>
      erase (mark_session_relocation_target_starting session_id operation_id now)
  | Call_commit_session_relocation session_id operation_id runtime_epoch resume_ref =>
      erase (commit_session_relocation session_id operation_id runtime_epoch resume_ref)
  | Call_fail_session_relocation session_id operation_id failure =>
      erase (fail_session_relocation session_id operation_id failure)
  end.

Fixpoint exec_calls (calls : list JournalCall) (s : Store) : Store :=
  match calls with
  | [] => s
  | call :: rest => exec_calls rest (exec_call call s).2
  end.
End calls.

(** * Every journal method is a transaction

    Failure atomicity, agreement of memory and file, and revision counting for
    the worktree and relocation journals, over arbitrary histories and I/O
    failure patterns. *)

Ltac unfold_journals :=
  unfold begin_task_worktree_provisioning, advance_task_worktree_provisioning,
    fail_task_worktree_provisioning, retry_task_worktree_provisioning,
    record_provisioning_ref_rollback, commit_task_worktree_provisioning,
    clear_task_worktree_provisioning, edit_provisioning, find_provisioning,
    begin_task_worktree_cleanup, advance_task_worktree_cleanup, fail_task_worktree_cleanup,
    retry_task_worktree_cleanup, supersede_failed_task_worktree_cleanup,
    clear_task_worktree_cleanup, edit_cleanup, checked_current_cleanup, current_cleanup,
    begin_task_worktree_repair, advance_task_worktree_repair,
    resume_task_worktree_repair_before_mutation, fail_task_worktree_repair,
    complete_task_worktree_repair, dismiss_task_worktree_repair, edit_repair,
    begin_task_worktree_stale_resolution, advance_task_worktree_stale_resolution,
    fail_task_worktree_stale_resolution, retry_task_worktree_stale_resolution,
    verify_absent_task_worktree_stale_resolution,
    clear_task_worktree_stale_resolution_before_mutation,
    complete_task_worktree_stale_resolution, current_stale_resolution, superseded_cleanup,
    edit_stale,
    begin_session_relocation, mark_session_relocation_target_starting,
    commit_session_relocation, fail_session_relocation.

Section transactions.
Context `{UuidParser}.
Implicit Types (s : Store) (call : JournalCall).

Lemma transaction_erase {A} (m : StoreM A) s :
  transaction s (m s) -> transaction s (erase m s).
Proof.
  unfold erase, bind, ret. destruct (m s) as [r s'] eqn:E.
  inversion 1; subst; try constructor; done.
Qed.

(** Completing a cleanup mutates the state before looking its journal entry
    up again; that lookup cannot fail. *)
Lemma complete_cleanup_transaction task_id operation_id now s :
  transaction s (complete_task_worktree_cleanup task_id operation_id now s).
Proof.
  unfold complete_task_worktree_cleanup, checked_current_cleanup, current_cleanup.
  tx.
  - refine (install_transaction s _ _ _ _). reflexivity.
  - exfalso. cbn in *. apply find_mut_find in Hcode5. congruence.
Qed.

(** Every method of the worktree and relocation journals is a transaction. *)
Lemma exec_call_transaction call s : transaction s (exec_call call s).
Proof.
  destruct call; cbn [exec_call]; apply transaction_erase;
    try apply complete_cleanup_transaction;
    unfold_journals; tx.
Qed.

Lemma transaction_coherent {A} s (r : result StoreError A * Store) :
  transaction s r -> coherent s -> coherent r.2.
Proof. destruct 1; unfold coherent in *; simpl; congruence. Qed.

Lemma transaction_atomic {A} s (r : result StoreError A * Store) :
  transaction s r -> is_err r.1 = true -> state r.2 = state s /\ disk r.2 = disk s.
Proof. destruct 1; simpl; try done; discriminate. Qed.

Lemma prune_revision st : revision (prune_session_profiles st) = revision st.
Proof. unfold prune_session_profiles. by destruct (session_agent_profiles st). Qed.

Lemma transaction_revision {A} s (r : result StoreError A * Store) :
  transaction s r ->
  state r.2 = state s \/ revision (state r.2) = u64_add (revision (state s)) 1.
Proof.
  destruct 1 as [| | |? next ? ? Hrev]; [by left..|]. right. simpl.
  by rewrite prune_revision, Hrev.
Qed.
End transactions.
