(* ===== verification/JournalInvariant.v ===== *)
(** * Load-time validation of the journals

    [src/modules/store/src/validation.rs]: the clauses of [validate_current_state]
    about Tasks, the worktree journals, the archive journals and the relocation
    journal.  A state file failing any of them is refused with
    [CorruptRecord], so an operation that persisted such a state would make the
    store unopenable. *)

From S2P Require Import Prelude Text Domain DomainRules StoreState WorktreeJournals Transactions.

Local Open Scope string_scope.
Local Open Scope list_scope.

Definition task_developer_notes_max : N := 50.
Definition task_steward_brief_max_bytes : N := 8192.

(** The Task clause. *)
Definition task_record_is_invalid (task : TaskRecord) : bool :=
  (is_some (t_worktree task) && is_none (t_branch task))
  || (task_developer_notes_max <? N.of_nat (length (t_developer_notes task)))%N
  || any (fun note => negb (developer_note_is_valid note)) (t_developer_notes task)
  || any_with_rest (fun note rest => any (fun candidate => dn_id candidate == dn_id note) rest)
       (t_developer_notes task)
  || (t_steward_brief_revision task == 0%N)
  || (task_steward_brief_max_bytes <? len (t_steward_brief_markdown task))%N
  || (negb (str_is_empty (t_steward_brief_markdown task))
      && trim_is_empty (t_steward_brief_markdown task)).

(** [has_duplicate_task_ids] and its three siblings, on any journal. *)
Definition has_duplicate_keys {A} (key : A -> string) (l : list A) : bool :=
  any_with_rest (fun operation rest => any (fun candidate => key candidate == key operation) rest) l.

(** The journals named by a clause hold no entry of this Task. *)
Definition holds_task {A} (key : A -> string) (l : list A) (task_id : string) : bool :=
  any (fun operation => key operation == task_id) l.

(** The inline failure clause of the repair journal. *)
Definition repair_failure_is_invalid (failure : WorktreeRepairFailure) : bool :=
  (32 <? N.of_nat (length (rf_blockers failure)))%N
  || any_with_rest (fun blocker rest => any (fun candidate => candidate == blocker) rest)
       (rf_blockers failure).

(** The worktree-journal clauses of [validate_current_state]. *)
Definition worktree_records_are_invalid (st : CurrentState) : bool :=
  any task_record_is_invalid (tasks st)
  || has_duplicate_keys co_task_id (cleanup_operations st)
  || has_duplicate_keys cr_task_id (cleanup_receipts st)
  || has_duplicate_keys so_task_id (stale_resolution_operations st)
  || has_duplicate_keys sr_task_id (stale_resolution_receipts st)
  || has_duplicate_keys ro_task_id (repair_operations st)
  || has_duplicate_keys rr_task_id (repair_receipts st)
  || any (fun repair =>
            holds_task co_task_id (cleanup_operations st) (ro_task_id repair)
            || holds_task po_task_id (provisioning_operations st) (ro_task_id repair))
         (repair_operations st)
  || any (fun cleanup => holds_task po_task_id (provisioning_operations st) (co_task_id cleanup))
         (cleanup_operations st)
  || any (fun stale =>
            holds_task po_task_id (provisioning_operations st) (so_task_id stale)
            || holds_task co_task_id (cleanup_operations st) (so_task_id stale)
            || holds_task ro_task_id (repair_operations st) (so_task_id stale))
         (stale_resolution_operations st)
  || any (fun operation =>
            is_err (validate_cleanup_intent (co_cleanup_mode operation)
                      (co_acknowledged_content_blockers operation))) (cleanup_operations st)
  || any (fun receipt =>
            is_err (validate_cleanup_intent (cr_cleanup_mode receipt)
                      (cr_acknowledged_content_blockers receipt))) (cleanup_receipts st)
  || any (fun operation =>
            is_some_and (co_failure operation) (fun failure =>
              is_err (validate_cleanup_failure failure))) (cleanup_operations st)
  || any (fun operation => is_some_and (ro_failure operation) repair_failure_is_invalid)
         (repair_operations st)
  || any (fun operation => is_err (ensure_repair_tuple st operation)) (repair_operations st)
  || any (fun operation =>
            is_err (ensure_stale_resolution_tuple st operation)
            || is_some_and (so_failure operation) (fun failure =>
                 is_err (validate_stale_resolution_failure failure)))
         (stale_resolution_operations st).

(** ** Relocation *)

Section relocation_validation.
Context `{UuidParser}.

(** The clauses of one relocation operation about its own fields and the
    Session, Task, proof and Project it names. *)
Definition relocation_operation_mismatch (operation : SessionRelocationOperation)
    (session : option SessionRecord) (task : option TaskRecord)
    (proof : option ManagedWorktreeProof) (project : option ProjectRecord) : bool :=
  str_is_empty (rlo_operation_id operation)
  || (64 <? len (rlo_operation_id operation))%N
  || (rlo_started_at_epoch_ms operation == 0%N)
  || (rlo_updated_at_epoch_ms operation <? rlo_started_at_epoch_ms operation)%N
  || (rlo_target_cwd operation == rlo_source_cwd operation)
  || negb (match rlo_stage operation with
           | RLS_SourceRetiring | RLS_TargetStarting => true
           end)
  || is_none_or session (fun session =>
       (s_kind session != SessionKind_Agent)
       || (s_project_id session != rlo_project_id operation)
       || (s_runtime_epoch session != rlo_source_runtime_epoch operation)
       || (pd_cwd (s_process session) != rlo_source_cwd operation)
       || (s_lifecycle_state session != "resuming")
       || is_some (s_archived_at_epoch_ms session)
       || is_none_or (s_resume_ref session) (fun value => negb (resume_ref_validate value)))
  || is_none_or project (fun project =>
       (rlo_target operation == RLT_ProjectRoot)
       && (p_folder_path project != rlo_target_cwd operation))
  || is_none_or task (fun task =>
       (t_project_id task != rlo_project_id operation)
       || ((rlo_target operation == RLT_TaskWorktree) && (t_status task != TaskStatus_Open))
       || is_some (t_archived_at_epoch_ms task)
       || (t_worktree_generation task != rlo_target_worktree_generation operation)
       || is_none_or (t_worktree task) (fun binding =>
            (rlo_target operation == RLT_TaskWorktree)
              && (tw_path binding != rlo_target_cwd operation)
            || (rlo_target operation == RLT_ProjectRoot)
              && (tw_path binding != rlo_source_cwd operation)
              && is_none_or session (fun session =>
                   is_none_or (s_resume_launch_guard session) (fun guard =>
                     (g_task_id guard != t_id task) || (g_path guard != tw_path binding)))))
  || is_none_or proof (fun proof =>
       (mw_operation_id proof != rlo_target_managed_worktree_operation_id operation)
       || (mw_worktree_generation proof != rlo_target_worktree_generation operation)
       || is_none_or task (fun task =>
            is_none_or (t_worktree task) (fun binding =>
              mw_registered_worktree_path proof != tw_path binding))).

Definition relocation_operation_is_invalid (st : CurrentState)
    (operation : SessionRelocationOperation) (rest : list SessionRelocationOperation) : bool :=
  relocation_operation_mismatch operation
    (find_session st (rlo_session_id operation)) (find_task st (rlo_target_task_id operation))
    (find_proof st (rlo_target_task_id operation)) (find_project st (rlo_project_id operation))
  || holds_task sao_session_id (session_archive_operations st) (rlo_session_id operation)
  || holds_task tao_task_id (task_archive_operations st) (rlo_target_task_id operation)
  || holds_task po_task_id (provisioning_operations st) (rlo_target_task_id operation)
  || holds_task co_task_id (cleanup_operations st) (rlo_target_task_id operation)
  || holds_task ro_task_id (repair_operations st) (rlo_target_task_id operation)
  || holds_task so_task_id (stale_resolution_operations st) (rlo_target_task_id operation)
  || any (fun candidate =>
            (rlo_session_id candidate == rlo_session_id operation)
            || (rlo_operation_id candidate == rlo_operation_id operation)) rest.

(** The clauses of one relocation receipt about its Session. *)
Definition relocation_receipt_mismatch (projects : list ProjectRecord)
    (receipt : SessionRelocationReceipt) (session : option SessionRecord) : bool :=
  str_is_empty (rlr_operation_id receipt)
  || (64 <? len (rlr_operation_id receipt))%N
  || (rlr_runtime_epoch receipt == 0%N)
  || is_none_or session (fun session =>
       (s_kind session != SessionKind_Agent)
       || (s_project_id session != rlr_project_id receipt)
       || (s_runtime_epoch session != rlr_runtime_epoch receipt)
       || (pd_cwd (s_process session) != rlr_target_cwd receipt)
       || match rlr_target receipt with
          | RLT_TaskWorktree =>
              is_none_or (s_resume_launch_guard session) (fun guard =>
                (g_task_id guard != rlr_target_task_id receipt)
                || (g_managed_worktree_operation_id guard
                      != rlr_target_managed_worktree_operation_id receipt)
                || (g_worktree_generation guard != rlr_target_worktree_generation receipt)
                || (g_path guard != rlr_target_cwd receipt))
          | RLT_ProjectRoot =>
              is_some (s_resume_launch_guard session)
              || all (fun project =>
                        (p_id project != rlr_project_id receipt)
                        || (p_folder_path project != rlr_target_cwd receipt)) projects
          end).

Definition relocation_receipt_is_invalid (st : CurrentState)
    (receipt : SessionRelocationReceipt) (rest : list SessionRelocationReceipt) : bool :=
  relocation_receipt_mismatch (projects st) receipt (find_session st (rlr_session_id receipt))
  || any (fun candidate =>
            (rlr_session_id candidate == rlr_session_id receipt)
            || (rlr_operation_id candidate == rlr_operation_id receipt)) rest
  || any (fun operation =>
            (rlo_session_id operation == rlr_session_id receipt)
            || (rlo_operation_id operation == rlr_operation_id receipt))
         (session_relocation_operations st).

(** [relocation_records_are_invalid] *)
Definition relocation_records_are_invalid (st : CurrentState) : bool :=
  any_with_rest (relocation_operation_is_invalid st) (session_relocation_operations st)
  || any_with_rest (relocation_receipt_is_invalid st) (session_relocation_receipts st).
End relocation_validation.

(** ** Archive *)

Definition session_archive_operation_is_invalid (st : CurrentState)
    (operation : SessionArchiveOperation) (rest : list SessionArchiveOperation) : bool :=
  str_is_empty (sao_operation_id operation)
  || (sao_requested_at_epoch_ms operation == 0%N)
  || is_none_or (find_session st (sao_session_id operation)) (fun session =>
       (s_project_id session != sao_project_id operation)
       || (s_kind session != SessionKind_Agent)
       || (s_runtime_epoch session != sao_runtime_epoch operation)
       || is_some (s_archived_at_epoch_ms session))
  || any (fun candidate =>
            (sao_session_id candidate == sao_session_id operation)
            || (sao_operation_id candidate == sao_operation_id operation)) rest.

Definition task_archive_operation_is_invalid (st : CurrentState)
    (operation : TaskArchiveOperation) (rest : list TaskArchiveOperation) : bool :=
  is_none_or (find_task st (tao_task_id operation)) (fun task =>
    is_some (t_archived_at_epoch_ms task)
    || (t_project_id task != tao_project_id operation)
    || ((tw_path <$> t_worktree task) != tao_worktree_path operation)
    || (t_worktree_generation task != tao_worktree_generation operation))
  || str_is_empty (tao_operation_id operation)
  || any (fun candidate =>
            (tao_task_id candidate == tao_task_id operation)
            || (tao_operation_id candidate == tao_operation_id operation)) rest
  || any_with_rest (fun target targets_rest =>
       any (fun suspension => sus_session_id suspension == tat_session_id target)
           (task_archive_suspensions st)
       || negb (any (fun session =>
              (s_id session == tat_session_id target)
              && (s_project_id session == tao_project_id operation)
              && (s_runtime_epoch session == tat_runtime_epoch target)) (sessions st))
       || any (fun candidate => tat_session_id candidate == tat_session_id target) targets_rest)
       (tao_targets operation).

Definition suspension_matches_task (suspension : TaskArchiveSuspension) (session : SessionRecord)
    (task : TaskRecord) : bool :=
  (t_project_id task == s_project_id session)
  && is_none_or (sus_task_id suspension) (fun task_id => task_id == t_id task)
  && match sus_reason suspension with
     | TSR_Archived => t_archived_at_epoch_ms task == Some (sus_archived_at_epoch_ms suspension)
     | TSR_ClosedWorktreeRemoved =>
         (sus_task_id suspension == Some (t_id task))
         && is_none (t_archived_at_epoch_ms task)
         && (t_status task == TaskStatus_Closed)
         && is_none (t_worktree task)
     | TSR_Closed =>
         (sus_task_id suspension == Some (t_id task)) && (t_status task == TaskStatus_Closed)
     end.

Definition suspension_is_invalid (st : CurrentState) (suspension : TaskArchiveSuspension)
    (rest : list TaskArchiveSuspension) : bool :=
  is_none_or (find_session st (sus_session_id suspension)) (fun session =>
    negb (any (suspension_matches_task suspension session) (tasks st)))
  || any (fun candidate => sus_session_id candidate == sus_session_id suspension) rest.

(** [archive_records_are_invalid] *)
Definition archive_records_are_invalid (st : CurrentState) : bool :=
  any_with_rest (session_archive_operation_is_invalid st) (session_archive_operations st)
  || any_with_rest (task_archive_operation_is_invalid st) (task_archive_operations st)
  || any_with_rest (suspension_is_invalid st) (task_archive_suspensions st).

(** * The invariant of the worktree journals

    [journals_ok] restates, clause by clause and as propositions, what
    load-time validation demands of the worktree journals, together with one
    demand it does not make (a Task has at most one provisioning operation). *)

(** The Tasks some worktree journal holds, one entry per journal entry. *)
Definition journal_keys (st : CurrentState) : list string :=
  (po_task_id <$> provisioning_operations st) ++ (co_task_id <$> cleanup_operations st)
  ++ (ro_task_id <$> repair_operations st) ++ (so_task_id <$> stale_resolution_operations st).

Definition cleanup_entry_ok (o : WorktreeCleanupOperation) : Prop :=
  validate_cleanup_intent (co_cleanup_mode o) (co_acknowledged_content_blockers o) = Ok tt /\
  forall failure, co_failure o = Some failure -> validate_cleanup_failure failure = Ok tt.

Definition repair_entry_ok (st : CurrentState) (o : WorktreeRepairOperation) : Prop :=
  ensure_repair_tuple st o = Ok tt /\
  forall failure, ro_failure o = Some failure -> repair_failure_is_invalid failure = false.

Definition stale_entry_ok (st : CurrentState) (o : WorktreeStaleResolutionOperation) : Prop :=
  ensure_stale_resolution_tuple st o = Ok tt /\
  forall failure, so_failure o = Some failure -> validate_stale_resolution_failure failure = Ok tt.

Record journals_ok (st : CurrentState) : Prop := {
  ok_exclusive : NoDup (journal_keys st);
  ok_tasks : forall task, task ∈ tasks st -> task_record_is_invalid task = false;
  ok_cleanup : forall o, o ∈ cleanup_operations st -> cleanup_entry_ok o;
  ok_repair : forall o, o ∈ repair_operations st -> repair_entry_ok st o;
  ok_stale : forall o, o ∈ stale_resolution_operations st -> stale_entry_ok st o;
  ok_cleanup_receipts : forall r, r ∈ cleanup_receipts st ->
    validate_cleanup_intent (cr_cleanup_mode r) (cr_acknowledged_content_blockers r) = Ok tt;
  ok_cleanup_receipt_keys : NoDup (cr_task_id <$> cleanup_receipts st);
  ok_repair_receipt_keys : NoDup (rr_task_id <$> repair_receipts st);
  ok_stale_receipt_keys : NoDup (sr_task_id <$> stale_resolution_receipts st)
}.

(** ** Agreement with load-time validation *)

Lemma holds_task_false {A} (key : A -> string) (l : list A) task_id :
  holds_task key l task_id = false <-> task_id ∉ key <$> l.
Proof.
  unfold holds_task. rewrite any_false, list_elem_of_fmap. split.
  - intros H (x & -> & Hx). specialize (H x Hx). by apply bool_decide_eq_false in H.
  - intros H x Hx. apply bool_decide_eq_false. intros <-. apply H. by exists x.
Qed.

Lemma is_err_false {E} (r : result E unit) : is_err r = false <-> r = Ok tt.
Proof. destruct r as [[]|]; unfold is_err; simpl; split; congruence. Qed.

Lemma is_some_and_false {A} (o : option A) (p : A -> bool) :
  is_some_and o p = false <-> forall a, o = Some a -> p a = false.
Proof.
  destruct o; simpl; split; intros; simplify_eq; auto.
Qed.

Lemma has_duplicate_keys_false {A} (key : A -> string) (l : list A) :
  has_duplicate_keys key l = false <-> NoDup (key <$> l).
Proof. apply any_with_rest_NoDup. Qed.

(** The key clauses of validation are exactly exclusivity, once provisioning
    operations are unique per Task. *)
Lemma journal_keys_NoDup st :
  NoDup (journal_keys st) <->
  (NoDup (po_task_id <$> provisioning_operations st) /\
   NoDup (co_task_id <$> cleanup_operations st) /\
   NoDup (ro_task_id <$> repair_operations st) /\
   NoDup (so_task_id <$> stale_resolution_operations st) /\
   (forall o, o ∈ repair_operations st ->
      (ro_task_id o ∉ co_task_id <$> cleanup_operations st) /\
      (ro_task_id o ∉ po_task_id <$> provisioning_operations st)) /\
   (forall o, o ∈ cleanup_operations st ->
      co_task_id o ∉ po_task_id <$> provisioning_operations st) /\
   (forall o, o ∈ stale_resolution_operations st ->
      (so_task_id o ∉ po_task_id <$> provisioning_operations st) /\
      (so_task_id o ∉ co_task_id <$> cleanup_operations st) /\
      (so_task_id o ∉ ro_task_id <$> repair_operations st))).
Proof.
  unfold journal_keys. rewrite !list.NoDup_app.
  setoid_rewrite elem_of_app. setoid_rewrite elem_of_app.
  split.
  - intros (HP & HPx & HC & HCx & HR & HRx & HS). split_and!; try done.
    + intros o Ho. split; intros Hk.
      * apply (HCx _ Hk). left. by apply list_elem_of_fmap_2.
      * apply (HPx _ Hk). right; left. by apply list_elem_of_fmap_2.
    + intros o Ho Hk. apply (HPx _ Hk). left. by apply list_elem_of_fmap_2.
    + intros o Ho. split_and!; intros Hk.
      * apply (HPx _ Hk). right; right. by apply list_elem_of_fmap_2.
      * apply (HCx _ Hk). right. by apply list_elem_of_fmap_2.
      * apply (HRx _ Hk). by apply list_elem_of_fmap_2.
  - intros (HP & HC & HR & HS & HRx & HCx & HSx).
    split_and!; try done; intros k Hk;
      [intros [H|[H|H]]|intros [H|H]|intros H]; apply list_elem_of_fmap in H as (o & -> & Ho);
      first [by apply (HCx o Ho) | destruct (HRx o Ho); done | destruct (HSx o Ho) as (? & ? & ?); done].
Qed.

#[local] Opaque task_record_is_invalid repair_failure_is_invalid.

Lemma worktree_records_valid st :
  journals_ok st <->
  NoDup (po_task_id <$> provisioning_operations st) /\ worktree_records_are_invalid st = false.
Proof.
  unfold worktree_records_are_invalid.
  rewrite !orb_false_iff, !has_duplicate_keys_false, !any_false.
  repeat setoid_rewrite orb_false_iff. repeat setoid_rewrite holds_task_false.
  repeat setoid_rewrite is_err_false. repeat setoid_rewrite is_some_and_false.
  repeat setoid_rewrite is_err_false.
  split.
  - intros [Hx Ht Hc Hr Hs Hcr K1 K2 K3].
    apply journal_keys_NoDup in Hx as (? & ? & ? & ? & Kr & Kc & Ks).
    split_and!; auto; intros o Ho;
      first [apply (Kr o Ho) | apply (Kc o Ho) | by apply (Hc o Ho) | by apply (Hr o Ho)
            | by apply (Hs o Ho) | destruct (Ks o Ho) as (? & ? & ?); done].
  - intros (HP & Hv). destruct_and! Hv. split; try done.
    + apply journal_keys_NoDup. split_and!; try done.
      intros o Ho. match goal with
      | H : forall x, x ∈ stale_resolution_operations st -> (_ /\ _) /\ _ |- _ =>
          destruct (H o Ho) as [[? ?] ?]; done
      end.
    + intros o Ho. split; eauto.
    + intros o Ho. split; eauto.
Qed.

#[local] Transparent task_record_is_invalid repair_failure_is_invalid.

(** ** Frames

    A clause about one Task only reads that Task's record, its proof and its
    own journal entry. *)

Lemma ensure_repair_tuple_frame st st' o :
  find_task st' (ro_task_id o) = find_task st (ro_task_id o) ->
  find_proof st' (ro_task_id o) = find_proof st (ro_task_id o) ->
  ensure_repair_tuple st' o = ensure_repair_tuple st o.
Proof. unfold ensure_repair_tuple. by intros -> ->. Qed.

Lemma ensure_stale_tuple_frame st st' o :
  find_task st' (so_task_id o) = find_task st (so_task_id o) ->
  find_proof st' (so_task_id o) = find_proof st (so_task_id o) ->
  ensure_stale_resolution_tuple st' o = ensure_stale_resolution_tuple st o.
Proof. unfold ensure_stale_resolution_tuple. by intros -> ->. Qed.

(** Looking another Task up after one Task record was replaced. *)
Lemma find_task_other st st' task_id i task task' other :
  tasks st' = <[i := task']> (tasks st) ->
  position (fun task => t_id task == task_id) (tasks st) = Some (i, task) ->
  t_id task' = task_id -> other <> task_id ->
  find_task st' other = find_task st other.
Proof.
  unfold find_task. intros -> Hpos Hid Hne.
  rewrite (find_first_insert_key t_id _ _ _ _ _ other Hpos Hid). by case_decide.
Qed.

Lemma find_task_same st st' task_id i task task' :
  tasks st' = <[i := task']> (tasks st) ->
  position (fun task => t_id task == task_id) (tasks st) = Some (i, task) ->
  t_id task' = task_id -> find_task st' task_id = Some task'.
Proof.
  unfold find_task. intros -> Hpos Hid.
  rewrite (find_first_insert_key t_id _ _ _ _ _ task_id Hpos Hid). by case_decide.
Qed.

Lemma find_proof_retain_other st task_id other :
  other <> task_id ->
  find_first (fun proof => mw_task_id proof == other)
    (retain (fun proof => mw_task_id proof != task_id) (managed_worktrees st))
  = find_proof st other.
Proof.
  intros Hne. apply find_first_retain. intros x Hx.
  apply bool_decide_eq_true in Hx. apply negb_true_iff, bool_decide_eq_false. congruence.
Qed.

Lemma find_proof_replace_other st task_id other proof :
  other <> task_id -> mw_task_id proof = task_id ->
  find_first (fun proof => mw_task_id proof == other)
    (retain (fun proof => mw_task_id proof != task_id) (managed_worktrees st) ++ [proof])
  = find_proof st other.
Proof.
  intros Hne Hid. rewrite find_first_app, find_proof_retain_other by done.
  destruct (find_proof st other); [done|]. simpl. case_bool_decide; congruence.
Qed.

Lemma position_task st task_id i task :
  position (fun task => t_id task == task_id) (tasks st) = Some (i, task) ->
  find_task st task_id = Some task /\ t_id task = task_id /\ task ∈ tasks st.
Proof.
  intros Hpos. split_and!.
  - unfold find_task. by rewrite position_find, Hpos.
  - apply position_Some in Hpos as [_ Hp]. by apply bool_decide_eq_true in Hp.
  - eauto with slices.
Qed.

(** ** Exclusivity under the four ways a journal changes *)

Lemma journal_keys_elem st task_id :
  task_id ∈ journal_keys st <->
  task_id ∈ po_task_id <$> provisioning_operations st \/
  task_id ∈ co_task_id <$> cleanup_operations st \/
  task_id ∈ ro_task_id <$> repair_operations st \/
  task_id ∈ so_task_id <$> stale_resolution_operations st.
Proof. unfold journal_keys. by rewrite !elem_of_app. Qed.

Lemma holder_None {A} (key id : A -> string) (l : list A) task_id :
  holder key id l task_id = None -> task_id ∉ key <$> l.
Proof.
  unfold holder. intros H%fmap_None. rewrite find_first_None in H.
  intros (x & -> & Hx)%list_elem_of_fmap. specialize (H x Hx).
  by apply bool_decide_eq_false in H.
Qed.

Lemma find_first_key_None {A} (key : A -> string) (l : list A) task_id :
  find_first (fun x => key x == task_id) l = None -> task_id ∉ key <$> l.
Proof. intros H. apply (holder_None key key). unfold holder. by rewrite H. Qed.

Lemma NoDup_fmap_delete {A} (key : A -> string) (l : list A) i :
  NoDup (key <$> l) -> NoDup (key <$> delete i l).
Proof. rewrite list_fmap_delete. intros H. by eapply sublist_NoDup, sublist_delete. Qed.

Lemma NoDup_fmap_retain {A} (key : A -> string) (l : list A) p :
  NoDup (key <$> l) -> NoDup (key <$> retain p l).
Proof. intros H. eapply sublist_NoDup; [exact H|]. apply fmap_sublist, retain_sublist. Qed.

(** Dropping a Task's receipt and appending its new one keeps receipts unique. *)
Lemma NoDup_fmap_replace {A} (key : A -> string) (l : list A) k x :
  NoDup (key <$> l) -> key x = k ->
  NoDup (key <$> (retain (fun r => key r != k) l ++ [x])).
Proof.
  intros H Hk. rewrite fmap_app. apply list.NoDup_app. split_and!.
  - by apply NoDup_fmap_retain.
  - intros y (r & -> & Hr)%list_elem_of_fmap. apply elem_of_retain in Hr as [_ Hr].
    apply negb_true_iff, bool_decide_eq_false in Hr.
    simpl. rewrite list_elem_of_singleton. congruence.
  - simpl. apply NoDup_singleton.
Qed.

(** A fresh key may enter at any of the four journals. *)
Lemma NoDup_push (a b : list string) x :
  NoDup (a ++ b) -> x ∉ a ++ b -> NoDup ((a ++ [x]) ++ b).
Proof.
  intros H Hx. rewrite <- app_assoc. simpl.
  rewrite <- Permutation_middle. by apply list.NoDup_cons.
Qed.

Lemma NoDup_push_middle (a b c : list string) x :
  NoDup (a ++ b ++ c) -> x ∉ a ++ b ++ c -> NoDup (a ++ (b ++ [x]) ++ c).
Proof. rewrite !(assoc_L app a). apply (NoDup_push (a ++ b)). Qed.

Section exclusivity.
Implicit Types st : CurrentState.

Lemma keys_push_provisioning st o :
  NoDup (journal_keys st) -> po_task_id o ∉ journal_keys st ->
  NoDup (journal_keys (st <| provisioning_operations := provisioning_operations st ++ [o] |>)).
Proof. unfold journal_keys; simpl. rewrite fmap_app. apply NoDup_push. Qed.

Lemma keys_push_cleanup st o :
  NoDup (journal_keys st) -> co_task_id o ∉ journal_keys st ->
  NoDup (journal_keys (st <| cleanup_operations := cleanup_operations st ++ [o] |>)).
Proof.
  unfold journal_keys; simpl. rewrite fmap_app. apply NoDup_push_middle.
Qed.

Lemma keys_push_repair st o :
  NoDup (journal_keys st) -> ro_task_id o ∉ journal_keys st ->
  NoDup (journal_keys (st <| repair_operations := repair_operations st ++ [o] |>)).
Proof.
  unfold journal_keys; simpl. rewrite fmap_app. intros. rewrite !(assoc_L app).
  apply NoDup_push; by rewrite <- !(assoc_L app).
Qed.

Lemma keys_push_stale st o :
  NoDup (journal_keys st) -> so_task_id o ∉ journal_keys st ->
  NoDup (journal_keys
    (st <| stale_resolution_operations := stale_resolution_operations st ++ [o] |>)).
Proof.
  unfold journal_keys; simpl. rewrite fmap_app. intros. rewrite !(assoc_L app).
  rewrite <- (app_nil_r (_ ++ [so_task_id o])).
  apply NoDup_push; rewrite app_nil_r; by rewrite <- !(assoc_L app).
Qed.

(** Removing entries of the journals keeps exclusivity. *)
Lemma keys_sublist st st' :
  provisioning_operations st' `sublist_of` provisioning_operations st ->
  cleanup_operations st' `sublist_of` cleanup_operations st ->
  repair_operations st' `sublist_of` repair_operations st ->
  stale_resolution_operations st' `sublist_of` stale_resolution_operations st ->
  NoDup (journal_keys st) -> NoDup (journal_keys st').
Proof.
  intros HP HC HR HS H. eapply sublist_NoDup; [exact H|].
  unfold journal_keys. repeat apply sublist_app; by apply fmap_sublist.
Qed.
End exclusivity.
