(* ===== verification/JournalPreservation.v ===== *)
(** * Every journal method preserves the worktree invariant *)

From S2P Require Import Prelude Text Domain DomainRules StoreState WorktreeJournals SessionJournals.
From S2P Require Import Transactions JournalInvariant.

Lemma journals_ok_committed st : journals_ok st -> journals_ok (committed st).
Proof.
  intros []. unfold committed, prune_session_profiles.
  destruct (session_agent_profiles st); constructor; assumption.
Qed.

(** A state predicate that survives committing survives [install]. *)
Section install.
Context (I : CurrentState -> Prop) (Hcommit : forall st, I st -> I (committed st)).

Lemma install_preserves {A} previous next (a : A) s :
  I previous -> I next -> I (state (install previous next a s).2).
Proof.
  intros Hp Hn. rewrite install_run. destruct (io s) as [|[] ?]; simpl; auto.
Qed.

Lemma install_revision_preserves previous next s :
  I previous -> I next -> I (state (install_revision previous next s).2).
Proof.
  intros Hp Hn. rewrite install_revision_run. destruct (io s) as [|[] ?]; simpl; auto.
Qed.
End install.

(** ** State changes *)

(** What a change must establish, given the invariant before it. *)
Lemma journals_ok_change st st' :
  journals_ok st ->
  NoDup (journal_keys st') ->
  (forall t, t ∈ tasks st' -> t ∈ tasks st \/ task_record_is_invalid t = false) ->
  (forall o, o ∈ cleanup_operations st' -> o ∈ cleanup_operations st \/ cleanup_entry_ok o) ->
  (forall o, o ∈ repair_operations st' ->
     (o ∈ repair_operations st /\ ensure_repair_tuple st' o = ensure_repair_tuple st o)
     \/ repair_entry_ok st' o) ->
  (forall o, o ∈ stale_resolution_operations st' ->
     (o ∈ stale_resolution_operations st
      /\ ensure_stale_resolution_tuple st' o = ensure_stale_resolution_tuple st o)
     \/ stale_entry_ok st' o) ->
  (forall r, r ∈ cleanup_receipts st' -> r ∈ cleanup_receipts st \/
     validate_cleanup_intent (cr_cleanup_mode r) (cr_acknowledged_content_blockers r) = Ok tt) ->
  NoDup (cr_task_id <$> cleanup_receipts st') ->
  NoDup (rr_task_id <$> repair_receipts st') ->
  NoDup (sr_task_id <$> stale_resolution_receipts st') ->
  journals_ok st'.
Proof.
  intros [Hx Ht Hc Hr Hs Hcr K1 K2 K3] H1 H2 H3 H4 H5 H6 H7 H8 H9. split; try done.
  - intros t Hin. destruct (H2 t Hin); auto.
  - intros o Hin. destruct (H3 o Hin); auto.
  - intros o Hin. destruct (H4 o Hin) as [[Hin' Heq]|]; auto.
    destruct (Hr o Hin'). split; [by rewrite Heq|done].
  - intros o Hin. destruct (H5 o Hin) as [[Hin' Heq]|]; auto.
    destruct (Hs o Hin'). split; [by rewrite Heq|done].
  - intros r Hin. destruct (H6 r Hin); auto.
Qed.

(** Clauses about fields the change does not touch. *)
Ltac untouched :=
  first [ by intros; left | by intros; left; split | assumption
        | match goal with H : journals_ok _ |- _ =>
            first [ exact (ok_cleanup_receipt_keys _ H) | exact (ok_repair_receipt_keys _ H)
                  | exact (ok_stale_receipt_keys _ H) ] end ].

Section changes.
Implicit Types st : CurrentState.

Lemma journals_ok_edit_provisioning st i x y :
  journals_ok st -> provisioning_operations st !! i = Some x -> po_task_id y = po_task_id x ->
  journals_ok (st <| provisioning_operations := <[i := y]> (provisioning_operations st) |>).
Proof.
  intros Hok Hi Hk. apply (journals_ok_change st); try untouched.
  unfold journal_keys; simpl. rewrite (fmap_insert_same po_task_id _ _ x) by done.
  apply Hok.
Qed.

Lemma journals_ok_edit_cleanup st i x y :
  journals_ok st -> cleanup_operations st !! i = Some x -> co_task_id y = co_task_id x ->
  cleanup_entry_ok y ->
  journals_ok (st <| cleanup_operations := <[i := y]> (cleanup_operations st) |>).
Proof.
  intros Hok Hi Hk Hy. apply (journals_ok_change st); try untouched.
  - unfold journal_keys; simpl. rewrite (fmap_insert_same co_task_id _ _ x) by done.
    apply Hok.
  - intros o [->|]%elem_of_insert_list; auto.
Qed.

Lemma journals_ok_edit_repair st i x y :
  journals_ok st -> repair_operations st !! i = Some x -> ro_task_id y = ro_task_id x ->
  repair_entry_ok st y ->
  journals_ok (st <| repair_operations := <[i := y]> (repair_operations st) |>).
Proof.
  intros Hok Hi Hk Hy. apply (journals_ok_change st); try untouched.
  - unfold journal_keys; simpl. rewrite (fmap_insert_same ro_task_id _ _ x) by done.
    apply Hok.
  - intros o [->|]%elem_of_insert_list; auto.
Qed.

Lemma journals_ok_edit_stale st i x y :
  journals_ok st -> stale_resolution_operations st !! i = Some x ->
  so_task_id y = so_task_id x -> stale_entry_ok st y ->
  journals_ok (st <| stale_resolution_operations := <[i := y]> (stale_resolution_operations st) |>).
Proof.
  intros Hok Hi Hk Hy. apply (journals_ok_change st); try untouched.
  - unfold journal_keys; simpl. rewrite (fmap_insert_same so_task_id _ _ x) by done.
    apply Hok.
  - intros o [->|]%elem_of_insert_list; auto.
Qed.

Lemma journals_ok_push_provisioning st o :
  journals_ok st -> po_task_id o ∉ journal_keys st ->
  journals_ok (st <| provisioning_operations := provisioning_operations st ++ [o] |>).
Proof.
  intros Hok Hk. apply (journals_ok_change st); try untouched.
  apply keys_push_provisioning; [apply Hok|done].
Qed.

Lemma journals_ok_push_cleanup st o :
  journals_ok st -> co_task_id o ∉ journal_keys st -> cleanup_entry_ok o ->
  journals_ok (st <| cleanup_operations := cleanup_operations st ++ [o] |>).
Proof.
  intros Hok Hk Ho. apply (journals_ok_change st); try untouched.
  - apply keys_push_cleanup; [apply Hok|done].
  - intros o' [ ? | ->%list_elem_of_singleton ]%elem_of_app; auto.
Qed.

Lemma journals_ok_push_repair st o :
  journals_ok st -> ro_task_id o ∉ journal_keys st -> repair_entry_ok st o ->
  journals_ok (st <| repair_operations := repair_operations st ++ [o] |>).
Proof.
  intros Hok Hk Ho. apply (journals_ok_change st); try untouched.
  - apply keys_push_repair; [apply Hok|done].
  - intros o' [ ? | ->%list_elem_of_singleton ]%elem_of_app; auto.
Qed.

Lemma journals_ok_push_stale st o :
  journals_ok st -> so_task_id o ∉ journal_keys st -> stale_entry_ok st o ->
  journals_ok
    (st <| stale_resolution_operations := stale_resolution_operations st ++ [o] |>).
Proof.
  intros Hok Hk Ho. apply (journals_ok_change st); try untouched.
  - apply keys_push_stale; [apply Hok|done].
  - intros o' [ ? | ->%list_elem_of_singleton ]%elem_of_app; auto.
Qed.

(** Forgetting journal entries, nothing else. *)
Lemma journals_ok_forget st st' :
  journals_ok st ->
  provisioning_operations st' `sublist_of` provisioning_operations st ->
  cleanup_operations st' `sublist_of` cleanup_operations st ->
  repair_operations st' `sublist_of` repair_operations st ->
  stale_resolution_operations st' `sublist_of` stale_resolution_operations st ->
  tasks st' = tasks st -> managed_worktrees st' = managed_worktrees st ->
  cleanup_receipts st' = cleanup_receipts st -> repair_receipts st' = repair_receipts st ->
  stale_resolution_receipts st' = stale_resolution_receipts st ->
  journals_ok st'.
Proof.
  intros Hok HP HC HR HS Ht Hm E1 E2 E3.
  apply (journals_ok_change st); rewrite ?Ht, ?E1, ?E2, ?E3; try untouched.
  - eapply keys_sublist; [done..|]. apply Hok.
  - intros o Ho. left. by eapply elem_of_sublist.
  - intros o Ho. left. split; [by eapply elem_of_sublist|].
    apply ensure_repair_tuple_frame; unfold find_task, find_proof; by rewrite ?Ht, ?Hm.
  - intros o Ho. left. split; [by eapply elem_of_sublist|].
    apply ensure_stale_tuple_frame; unfold find_task, find_proof; by rewrite ?Ht, ?Hm.
Qed.
End changes.

(** ** Completing a journal: one Task's binding changes *)

(** A Task held by one journal is held by no other. *)
Section held.
Context (st : CurrentState) (Hok : journals_ok st) (task_id : string).

Lemma held_by_provisioning :
  task_id ∈ po_task_id <$> provisioning_operations st ->
  (task_id ∉ ro_task_id <$> repair_operations st)
  /\ (task_id ∉ so_task_id <$> stale_resolution_operations st).
Proof.
  intros Hk. pose proof (ok_exclusive _ Hok) as Hx. unfold journal_keys in Hx.
  apply list.NoDup_app in Hx as (_ & Hx & _). specialize (Hx _ Hk).
  rewrite !not_elem_of_app in Hx. tauto.
Qed.

Lemma held_by_cleanup :
  task_id ∈ co_task_id <$> cleanup_operations st ->
  (task_id ∉ ro_task_id <$> repair_operations st)
  /\ (task_id ∉ so_task_id <$> stale_resolution_operations st).
Proof.
  intros Hk. pose proof (ok_exclusive _ Hok) as Hx. unfold journal_keys in Hx.
  apply list.NoDup_app in Hx as (_ & _ & Hx). apply list.NoDup_app in Hx as (_ & Hx & _).
  specialize (Hx _ Hk). rewrite !not_elem_of_app in Hx. tauto.
Qed.

Lemma held_by_repair :
  task_id ∈ ro_task_id <$> repair_operations st ->
  task_id ∉ so_task_id <$> stale_resolution_operations st.
Proof.
  intros Hk. pose proof (ok_exclusive _ Hok) as Hx. unfold journal_keys in Hx.
  do 2 apply list.NoDup_app in Hx as (_ & _ & Hx). apply list.NoDup_app in Hx as (_ & Hx & _).
  by apply Hx.
Qed.

Lemma held_by_stale :
  task_id ∈ so_task_id <$> stale_resolution_operations st ->
  task_id ∉ ro_task_id <$> repair_operations st.
Proof. intros Hs Hr. by apply held_by_repair in Hr. Qed.
End held.

Lemma key_of_position {A} (key id : A -> string) (l : list A) a b i x :
  position (fun o => (key o == a) && (id o == b)) l = Some (i, x) ->
  l !! i = Some x /\ key x = a /\ id x = b /\ a ∈ key <$> l.
Proof.
  intros [Hi Hp]%position_Some. guards. split_and!; try done. subst.
  apply list_elem_of_fmap_2. by eapply list_elem_of_lookup_2.
Qed.

Lemma task_rebound_valid task branch worktree generation now :
  task_record_is_invalid task = false -> is_some worktree && is_none branch = false ->
  task_record_is_invalid
    (task <| t_branch := branch |> <| t_worktree := worktree |>
          <| t_worktree_generation := generation |> <| t_updated_at_epoch_ms := now |>) = false.
Proof.
  unfold task_record_is_invalid; simpl. rewrite !orb_false_iff. tauto.
Qed.

(** A change of one Task's record and proof, when that Task is left in no
    repair and no stale resolution. *)
Lemma journals_ok_complete st st' task_id i task task' :
  journals_ok st ->
  position (fun task => t_id task == task_id) (tasks st) = Some (i, task) ->
  tasks st' = <[i := task']> (tasks st) ->
  t_id task' = task_id ->
  task_record_is_invalid task' = false ->
  (forall other, other <> task_id -> find_proof st' other = find_proof st other) ->
  NoDup (journal_keys st') ->
  (forall o, o ∈ cleanup_operations st' -> o ∈ cleanup_operations st \/ cleanup_entry_ok o) ->
  (forall o, o ∈ repair_operations st' -> o ∈ repair_operations st /\ ro_task_id o <> task_id) ->
  (forall o, o ∈ stale_resolution_operations st' ->
     o ∈ stale_resolution_operations st /\ so_task_id o <> task_id) ->
  (forall r, r ∈ cleanup_receipts st' -> r ∈ cleanup_receipts st \/
     validate_cleanup_intent (cr_cleanup_mode r) (cr_acknowledged_content_blockers r) = Ok tt) ->
  NoDup (cr_task_id <$> cleanup_receipts st') ->
  NoDup (rr_task_id <$> repair_receipts st') ->
  NoDup (sr_task_id <$> stale_resolution_receipts st') ->
  journals_ok st'.
Proof.
  intros Hok Hpos Ht Hid Hvalid Hproof Hkeys Hc Hr Hs Hcr K1 K2 K3.
  apply (journals_ok_change st); try done.
  - rewrite Ht. intros t [->|]%elem_of_insert_list; auto.
  - intros o Ho. destruct (Hr o Ho) as [Hin Hne]. left. split; [done|].
    apply ensure_repair_tuple_frame; [by eapply find_task_other|by apply Hproof].
  - intros o Ho. destruct (Hs o Ho) as [Hin Hne]. left. split; [done|].
    apply ensure_stale_tuple_frame; [by eapply find_task_other|by apply Hproof].
Qed.

(** With unique keys, deleting an entry removes its key. *)
Lemma deleted_key_gone {A} (key : A -> string) (l : list A) i x :
  NoDup (key <$> l) -> l !! i = Some x -> key x ∉ key <$> delete i l.
Proof.
  intros Hx Hi. rewrite list_fmap_delete. intros (j & Hj)%list_elem_of_lookup.
  assert ((key <$> l) !! i = Some (key x)) as Hi' by (by rewrite list_lookup_fmap, Hi).
  destruct (decide (j < i)) as [Hlt|Hge].
  - rewrite list_lookup_delete_lt in Hj by done.
    pose proof (NoDup_lookup _ _ _ _ Hx Hj Hi'). lia.
  - rewrite list_lookup_delete_ge in Hj by lia.
    pose proof (NoDup_lookup _ _ _ _ Hx Hj Hi'). lia.
Qed.

(** Entries of a journal that does not hold the Task are about other Tasks. *)
Lemma other_task {A} (key : A -> string) (l : list A) task_id o :
  task_id ∉ key <$> l -> o ∈ l -> o ∈ l /\ key o <> task_id.
Proof. intros Hk Ho. split; [done|]. intros <-. by apply Hk, list_elem_of_fmap_2. Qed.

(** ** The methods *)

(** The run ended with the predicate true of the in-memory state. *)
Definition keeps {A} (I : CurrentState -> Prop) (r : result StoreError A * Store) : Prop :=
  I (state r.2).

(** Runs the code of a method; leaves one goal per state it may install. *)
Ltac keep_exit Hok :=
  lazymatch goal with
  | |- keeps _ (Ok _, _) => exact Hok
  | |- keeps _ (Err _, _) => exact Hok
  | |- keeps ?I (install _ _ _ _) =>
      apply (install_preserves I); [ apply journals_ok_committed | exact Hok | ]
  | |- keeps ?I (install_revision _ _ _) =>
      apply (install_revision_preserves I); [ apply journals_ok_committed | exact Hok | ]
  end.
Ltac keep Hok := repeat first [keep_exit Hok | run_step].

(** A successful [find_mut] edits the element [position] finds. *)
Ltac open_find_mut :=
  match goal with
  | H : find_mut ?p ?f ?l = Some _ |- _ =>
      rewrite find_mut_position in H;
      let i := fresh "i" in let x := fresh "x" in
      destruct (position p l) as [[i x]|] eqn:?; [simplify_eq|discriminate H]
  end.

(** ** The states the remaining methods install *)

Ltac edited_provisioning :=
  open_find_mut; eapply journals_ok_edit_provisioning; [assumption|by eapply position_Some|reflexivity].

(** A failure the code just validated, or none. *)
Ltac checked_failure :=
  let f := fresh in let H := fresh in
  intros f H; simplify_eq/=;
  match goal with
  | E : validate_cleanup_failure _ = Ok ?v |- _ => by destruct v
  | E : validate_stale_resolution_failure _ = Ok ?v |- _ => by destruct v
  end.
Ltac entry_kept lem Hok x :=
  let Hx := fresh in
  assert (Hx := lem _ Hok x ltac:(eauto with slices)); destruct Hx as [Hx _];
  split; [exact Hx | first [done | checked_failure]].

Ltac edited_cleanup Hok :=
  open_find_mut; eapply journals_ok_edit_cleanup;
  [exact Hok | by eapply position_Some | reflexivity |];
  match goal with H : position _ _ = Some (_, ?x) |- _ => entry_kept ok_cleanup Hok x end.

Ltac edited_repair Hok :=
  eapply journals_ok_edit_repair; [exact Hok | by eapply position_Some | reflexivity |];
  match goal with H : position _ _ = Some (_, ?x) |- _ => entry_kept ok_repair Hok x end.

Ltac edited_stale Hok :=
  eapply journals_ok_edit_stale; [exact Hok | by eapply position_Some | reflexivity |];
  match goal with H : position _ _ = Some (_, ?x) |- _ => entry_kept ok_stale Hok x end.

Ltac forgotten :=
  eapply journals_ok_forget; [eassumption|cbn..]; first [reflexivity|apply sublist_delete].

Section methods.
Implicit Types s : Store.

Lemma provisioning_edit_keeps s task_id operation_id assign :
  journals_ok (state s) -> (forall o, po_task_id (assign o) = po_task_id o) ->
  keeps journals_ok (edit_provisioning (state s) task_id operation_id assign s).
Proof.
  intros Hok Hassign. unfold edit_provisioning. keep Hok. open_find_mut.
  eapply journals_ok_edit_provisioning; [done| |apply Hassign].
  by eapply position_Some.
Qed.

Lemma begin_provisioning_keeps s operation :
  journals_ok (state s) -> keeps journals_ok (begin_task_worktree_provisioning operation s).
Proof.
  intros Hok. unfold begin_task_worktree_provisioning. keep Hok.
  apply journals_ok_push_provisioning; [done|].
  rewrite journal_keys_elem.
  intros [H|[H|[H|H]]]; revert H;
    first [by eapply holder_None | by apply find_first_key_None].
Qed.

Lemma commit_provisioning_keeps s task_id operation_id c :
  journals_ok (state s) ->
  keeps journals_ok (commit_task_worktree_provisioning task_id operation_id c s).
Proof.
  intros Hok. unfold commit_task_worktree_provisioning. keep Hok.
  apply (key_of_position po_task_id po_operation_id) in Hcode as (Hi & Hk & _ & Hheld).
  destruct (position_task _ _ _ _ Hcode2) as (_ & Hid & Hin).
  destruct (held_by_provisioning _ Hok _ Hheld) as [Hnr Hns].
  eapply (journals_ok_complete (state s)); try done.
  - apply task_rebound_valid; [by apply Hok|done].
  - intros other Hne. guards. by apply find_proof_replace_other.
  - unfold journal_keys; simpl. rewrite (fmap_insert_same po_task_id _ _ w) by done. apply Hok.
  - by left.
  - intros o. by apply other_task.
  - intros o. by apply other_task.
  - by left.
  - apply Hok.
  - apply Hok.
  - apply Hok.
Qed.

Lemma cleanup_edit_keeps s task_id operation_id assign :
  journals_ok (state s) -> (forall o, co_task_id (assign o) = co_task_id o) ->
  (forall o, cleanup_entry_ok o -> cleanup_entry_ok (assign o)) ->
  keeps journals_ok (edit_cleanup (state s) task_id operation_id assign s).
Proof.
  intros Hok Hk Hassign. unfold edit_cleanup. keep Hok. open_find_mut.
  eapply journals_ok_edit_cleanup; [done| |apply Hk|].
  - by eapply position_Some.
  - apply Hassign, Hok. eauto with slices.
Qed.

Lemma begin_cleanup_keeps s operation :
  journals_ok (state s) -> keeps journals_ok (begin_task_worktree_cleanup operation s).
Proof.
  intros Hok. unfold begin_task_worktree_cleanup. keep Hok.
  apply journals_ok_push_cleanup; [done| |].
  - rewrite journal_keys_elem.
    intros [H|[H|[H|H]]]; revert H;
      first [by eapply holder_None | by apply find_first_key_None].
  - guards. split; [|congruence]. by destruct value.
Qed.

Lemma supersede_cleanup_keeps s previous_id replacement :
  journals_ok (state s) ->
  keeps journals_ok (supersede_failed_task_worktree_cleanup previous_id replacement s).
Proof.
  intros Hok. unfold supersede_failed_task_worktree_cleanup. keep Hok.
  apply (key_of_position co_task_id co_operation_id) in Hcode1 as (Hi & Hk & _ & _).
  eapply journals_ok_edit_cleanup; [done|exact Hi|by rewrite Hk|].
  guards. split; [|congruence]. by destruct value.
Qed.

Lemma complete_cleanup_keeps s task_id operation_id now :
  journals_ok (state s) ->
  keeps journals_ok (complete_task_worktree_cleanup task_id operation_id now s).
Proof.
  intros Hok. unfold complete_task_worktree_cleanup, checked_current_cleanup, current_cleanup.
  keep Hok; cbn in *; [open_find_mut|exfalso; apply find_mut_find in Hcode5; congruence].
  rewrite position_find in Hcode. rewrite Heqo in Hcode. simplify_eq/=.
  apply (key_of_position co_task_id co_operation_id) in Heqo as (Hi & Hk & _ & Hheld).
  destruct (position_task _ _ _ _ Hcode3) as (_ & Hid & Hin).
  destruct (held_by_cleanup _ Hok _ Hheld) as [Hnr Hns].
  assert (cleanup_entry_ok w) as [Hintent _]
    by (apply Hok; by eapply list_elem_of_lookup_2).
  eapply (journals_ok_complete (state s)); try done.
  - apply task_rebound_valid; [by apply Hok|done].
  - intros other Hne. by apply find_proof_retain_other.
  - unfold journal_keys; simpl. rewrite (fmap_insert_same co_task_id _ _ w) by done. apply Hok.
  - intros o [->|]%elem_of_insert_list; [right|by left]. by split.
  - intros o. by apply other_task.
  - intros o. by apply other_task.
  - intros r [ []%elem_of_retain | ->%list_elem_of_singleton ]%elem_of_app; auto.
  - apply NoDup_fmap_replace; [apply Hok|done].
  - apply Hok.
  - apply Hok.
Qed.

(** Relocation touches none of the worktree journals. *)
Lemma journals_ok_elsewhere st st' :
  journals_ok st ->
  provisioning_operations st' = provisioning_operations st ->
  cleanup_operations st' = cleanup_operations st ->
  repair_operations st' = repair_operations st ->
  stale_resolution_operations st' = stale_resolution_operations st ->
  tasks st' = tasks st -> managed_worktrees st' = managed_worktrees st ->
  cleanup_receipts st' = cleanup_receipts st -> repair_receipts st' = repair_receipts st ->
  stale_resolution_receipts st' = stale_resolution_receipts st ->
  journals_ok st'.
Proof.
  intros Hok E1 E2 E3 E4 E5 E6 E7 E8 E9.
  apply (journals_ok_forget st); rewrite ?E1, ?E2, ?E3, ?E4, ?E5, ?E6, ?E7, ?E8, ?E9; done.
Qed.

Lemma begin_repair_keeps s operation :
  journals_ok (state s) -> keeps journals_ok (begin_task_worktree_repair operation s).
Proof.
  intros Hok. unfold begin_task_worktree_repair. keep Hok.
  apply journals_ok_push_repair; [done| |].
  - rewrite journal_keys_elem.
    intros [H|[H|[H|H]]]; revert H; by eapply holder_None.
  - guards. split; [|congruence]. by destruct value.
Qed.

(** The entries a repair method writes back. *)
Lemma repair_position_entry s task_id operation_id i x :
  journals_ok (state s) ->
  position (is_repair task_id operation_id) (repair_operations (state s)) = Some (i, x) ->
  repair_operations (state s) !! i = Some x /\ repair_entry_ok (state s) x.
Proof.
  intros Hok Hpos. split; [by eapply position_Some|].
  apply Hok. eauto with slices.
Qed.

Lemma fail_repair_keeps s task_id operation_id failure now :
  repair_failure_is_invalid failure = false -> journals_ok (state s) ->
  keeps journals_ok (fail_task_worktree_repair task_id operation_id failure now s).
Proof.
  intros Hf Hok. unfold fail_task_worktree_repair, edit_repair. keep Hok.
  destruct (repair_position_entry _ _ _ _ _ Hok Hcode) as [Hi [Ht _]].
  eapply journals_ok_edit_repair; [done|exact Hi|done|].
  split; [exact Ht|]. simpl. congruence.
Qed.

Lemma complete_repair_keeps s task_id operation_id now :
  journals_ok (state s) ->
  keeps journals_ok (complete_task_worktree_repair task_id operation_id now s).
Proof.
  intros Hok. unfold complete_task_worktree_repair. keep Hok.
  rewrite position_find in Hcode.
  destruct (position _ (repair_operations _)) as [[i x]|] eqn:Hpos; simplify_eq/=.
  apply (key_of_position ro_task_id ro_operation_id) in Hpos as (Hi & Hk & _ & Hheld).
  destruct (position_task _ _ _ _ Hcode3) as (Hfind & Hid & Hin).
  pose proof (held_by_repair _ Hok _ Hheld) as Hns.
  apply position_Some in Hcode5 as Hproof. destruct Hproof as [Hproof Hpid]. guards.
  assert (is_some (t_branch t) = true) as Hbranch.
  { pose proof (ok_tasks _ Hok t Hin) as Hv. unfold task_record_is_invalid in Hv.
    unfold ensure_repair_tuple in Hcode0. rewrite Hk, Hfind in Hcode0.
    destruct (find_proof _ _), (t_worktree t), (t_branch t); simpl in *; done. }
  eapply (journals_ok_complete (state s)); try done.
  - apply (task_rebound_valid t (t_branch t)); [by apply Hok|].
    simpl. by destruct (t_branch t).
  - intros other Hne. unfold find_proof; simpl.
    rewrite (find_first_insert_key mw_task_id _ _ _ _ task_id other Hcode5) by done.
    by case_decide.
  - apply (keys_sublist (state s)); [done|done|apply retain_sublist|done|apply Hok].
  - by left.
  - intros o [Ho Hne]%elem_of_retain. guards. done.
  - intros o. by apply other_task.
  - by left.
  - apply Hok.
  - apply NoDup_fmap_replace; [apply Hok|done].
  - apply Hok.
Qed.

Lemma stale_position_entry s task_id operation_id i x :
  journals_ok (state s) ->
  position (is_stale task_id operation_id) (stale_resolution_operations (state s))
    = Some (i, x) ->
  stale_resolution_operations (state s) !! i = Some x /\ stale_entry_ok (state s) x.
Proof.
  intros Hok Hpos. split; [by eapply position_Some|].
  apply Hok. eauto with slices.
Qed.

(** Starting a stale resolution: its superseded cleanup leaves, it enters. *)
Lemma journals_ok_supersede st k o :
  journals_ok st ->
  so_task_id o ∉ journal_keys (st <| cleanup_operations := k |>) ->
  k `sublist_of` cleanup_operations st -> stale_entry_ok st o ->
  journals_ok (st <| cleanup_operations := k |>
                  <| stale_resolution_operations := stale_resolution_operations st ++ [o] |>).
Proof.
  intros Hok Hk Hsub Ho.
  refine (journals_ok_push_stale (st <| cleanup_operations := k |>) o _ Hk Ho).
  by apply (journals_ok_forget st).
Qed.

(** After removing the cleanup found for a Task, no cleanup holds it. *)
Lemma cleanup_superseded st task_id i x :
  journals_ok st ->
  position (fun current => co_task_id current == task_id) (cleanup_operations st)
    = Some (i, x) ->
  task_id ∉ co_task_id <$> delete i (cleanup_operations st).
Proof.
  intros Hok [Hi Hk]%position_Some. guards. subst.
  apply deleted_key_gone; [|done].
  pose proof (ok_exclusive _ Hok) as Hx. by apply journal_keys_NoDup in Hx as (_ & Hx & _).
Qed.

Lemma begin_stale_keeps s operation supersedes :
  journals_ok (state s) ->
  keeps journals_ok (begin_task_worktree_stale_resolution operation supersedes s).
Proof.
  intros Hok. unfold begin_task_worktree_stale_resolution, superseded_cleanup. keep Hok.
  - apply journals_ok_supersede; [done| |apply sublist_delete|].
    + rewrite journal_keys_elem; simpl. intros [H|[H|[H|H]]]; revert H;
        first [by eapply cleanup_superseded | by eapply holder_None].
    + guards. split; [|congruence]. by destruct value.
  - apply journals_ok_supersede; [done| |done|].
    + rewrite journal_keys_elem; simpl. intros [H|[H|[H|H]]]; revert H;
        try by eapply holder_None. apply find_first_key_None.
      match goal with
      | H : position _ (cleanup_operations _) = None |- _ => by rewrite position_find, H
      end.
    + guards. split; [|congruence]. by destruct value.
Qed.

Lemma complete_stale_keeps s task_id operation_id now :
  journals_ok (state s) ->
  keeps journals_ok (complete_task_worktree_stale_resolution task_id operation_id now s).
Proof.
  intros Hok. unfold complete_task_worktree_stale_resolution, current_stale_resolution.
  keep Hok.
  apply (key_of_position so_task_id so_operation_id) in Hcode as (Hi & Hk & _ & Hheld).
  match goal with H : position _ (tasks _) = Some _ |- _ => rename H into Hpos end.
  destruct (position_task _ _ _ _ Hpos) as (_ & Hid & Hin).
  pose proof (held_by_stale _ Hok _ Hheld) as Hnr.
  eapply (journals_ok_complete (state s)); try done.
  - apply (task_rebound_valid _ (t_branch _)); [by apply Hok|done].
  - intros other Hne. by apply find_proof_retain_other.
  - apply (keys_sublist (state s)); [done|done|done|apply sublist_delete|apply Hok].
  - by left.
  - intros o. by apply other_task.
  - intros o Ho. split; [exact (list_elem_of_delete_inv _ _ _ Ho)|]. intros Heq.
    pose proof (ok_exclusive _ Hok) as Hx.
    apply journal_keys_NoDup in Hx as (_ & _ & _ & Hx & _).
    apply (deleted_key_gone so_task_id _ _ _ Hx Hi).
    rewrite Hk, <- Heq. by apply list_elem_of_fmap_2.
  - by left.
  - apply Hok.
  - apply Hok.
  - apply NoDup_fmap_replace; [apply Hok|done].
Qed.

(** All methods of the five journals, given well-formed repair failures. *)
Context `{UuidParser}.

Definition call_ok (call : JournalCall) : Prop :=
  match call with
  | Call_fail_task_worktree_repair _ _ failure _ => repair_failure_is_invalid failure = false
  | _ => True
  end.

Lemma keeps_erase {A} (I : CurrentState -> Prop) (m : StoreM A) s :
  keeps I (m s) -> keeps I (erase m s).
Proof. unfold keeps, erase, bind, ret. by destruct (m s) as [[] ?]. Qed.

Lemma exec_call_keeps call s :
  call_ok call -> journals_ok (state s) -> keeps journals_ok (exec_call call s).
Proof.
  intros Hcall Hok. destruct call; cbn [exec_call]; apply keeps_erase.
  all: try first [ by apply begin_provisioning_keeps | by apply commit_provisioning_keeps
    | by apply begin_cleanup_keeps | by apply supersede_cleanup_keeps
    | by apply complete_cleanup_keeps | by apply begin_repair_keeps
    | by apply fail_repair_keeps | by apply complete_repair_keeps
    | by apply begin_stale_keeps | by apply complete_stale_keeps ].
  all: unfold_journals; keep Hok; cbn in *.
  all: first [ by edited_provisioning | edited_cleanup Hok | edited_repair Hok
             | edited_stale Hok | forgotten | by eapply journals_ok_elsewhere ].
Qed.
End methods.
