(* ===== verification/Samples.v ===== *)
(** * A small store, for evaluating theorems on concrete inputs

    One Project with one Task bound to a managed worktree and one running
    Agent Session, and the operations a client would submit for them.  Nothing
    here models code: the witnesses of the other files apply their theorems to
    these values. *)

From S2P Require Import Prelude Text Domain DomainRules StoreState.

Local Open Scope string_scope.
Local Open Scope list_scope.

(** A concrete canonical-UUID check: 36 bytes, hyphens at 8, 13, 18 and 23,
    lower-case hexadecimal elsewhere. *)
Definition canonical_uuid : UuidParser := fun s =>
  let hex b := is_ascii_digit b || in_range 97 102 b in
  (len s =? 36)%N
  && all (fun '(i, b) =>
       if bool_decide (i ∈ [8; 13; 18; 23]) then (b =? 45)%N else hex b)
       (zip (seq 0 36) (bytes s)).

Definition sample_spec : NormalizedWorktreeSpec :=
  {| ws_version := 1; ws_repository_root := "/repo"; ws_repository_common_dir := "/repo/.git";
     ws_destination_path := "/wt/a"; ws_branch_name := "task-a"; ws_branch_mode := BranchMode_Create;
     ws_base_ref := None; ws_base_oid := None |}.

Definition sample_project : ProjectRecord := MkProjectRecord "p" "Project" "/repo".

Definition sample_branch : TaskBranchBinding := MkTaskBranchBinding "/repo" "task-a".

(** The Task before and after its worktree was provisioned. *)
Definition sample_task_unbound : TaskRecord :=
  {| t_id := "a"; t_project_id := "p"; t_title := "Task"; t_brief := None; t_developer_notes := [];
     t_status := TaskStatus_Open; t_archived_at_epoch_ms := None; t_branch := None;
     t_worktree := None; t_worktree_generation := 0; t_steward_brief_markdown := "";
     t_steward_brief_revision := 1; t_rank := 0; t_created_at_epoch_ms := 1;
     t_updated_at_epoch_ms := 1 |}.

Definition sample_task : TaskRecord :=
  sample_task_unbound <| t_branch := Some sample_branch |>
    <| t_worktree := Some (MkTaskWorktreeBinding "/wt/a") |> <| t_worktree_generation := 1%N |>.

Definition sample_proof : ManagedWorktreeProof :=
  {| mw_task_id := "a"; mw_operation_id := "op-provision"; mw_worktree_generation := 1;
     mw_normalized_spec_version := 1; mw_normalized_spec := sample_spec;
     mw_repository_common_dir := "/repo/.git"; mw_registered_worktree_path := "/wt/a";
     mw_branch_ref := "refs/heads/task-a" |}.

Definition sample_session : SessionRecord :=
  {| s_id := "s"; s_project_id := "p"; s_name := None; s_kind := SessionKind_Agent;
     s_process := {| pd_program := "codex"; pd_args := []; pd_cwd := "/repo";
                     pd_agent_id := Some "codex"; pd_template_ref := None;
                     pd_template_version := None |};
     s_launch_selection := MkAgentLaunchSelection "" "" "" None;
     s_lifecycle_state := "running"; s_runtime_epoch := 7; s_archived_at_epoch_ms := None;
     s_ask_to_source_session_id := None; s_fork_source_session_id := None;
     s_run_configuration_id := None; s_improver_target := None; s_ask_to_continuation := None;
     s_resume_ref := Some (MkResumeRef RP_Codex "native-1"); s_resume_launch_guard := None;
     s_resume_failure := None |}.

Definition sample_readiness : AgentConversationReadinessRecord :=
  MkAgentConversationReadinessRecord "s" ACR_Unconfirmed.

Definition sample_mark : RunSetupMark := MkRunSetupMark "p" "run" "/wt/a" 1 5.

(** Before provisioning, and after. *)
Definition sample_state_unbound : CurrentState :=
  current_state_default <| projects := [sample_project] |> <| tasks := [sample_task_unbound] |>
    <| sessions := [sample_session] |>
    <| agent_conversation_readiness := [sample_readiness] |>.

Definition sample_state : CurrentState :=
  sample_state_unbound <| tasks := [sample_task] |> <| managed_worktrees := [sample_proof] |>
    <| run_setup_marks := [sample_mark] |>.

Definition store_of (st : CurrentState) : Store := MkStore st 0 st [].

Definition sample_provisioning : WorktreeProvisioningOperation :=
  {| po_operation_id := "op-provision"; po_task_id := "a"; po_project_id := "p";
     po_spec := sample_spec; po_stage := PS_Reserved; po_created_branch_ref := false;
     po_failure := None; po_started_at_epoch_ms := 2; po_updated_at_epoch_ms := 2 |}.

Definition sample_cleanup : WorktreeCleanupOperation :=
  {| co_operation_id := "op-cleanup"; co_task_id := "a"; co_worktree_generation := 1;
     co_managed_worktree_operation_id := "op-provision"; co_cleanup_mode := CM_Safe;
     co_acknowledged_content_blockers := [];
     co_baseline := {| cb_repository_root := "/repo"; cb_repository_common_dir := "/repo/.git";
                       cb_worktree_path := "/wt/a"; cb_registered_worktree_path := "/wt/a";
                       cb_branch_ref := "refs/heads/task-a"; cb_checkout_branch_ref := None;
                       cb_head_oid := "0123" |};
     co_stage := CS_Reserved; co_failure := None; co_started_at_epoch_ms := 3;
     co_updated_at_epoch_ms := 3 |}.

Definition sample_repair : WorktreeRepairOperation :=
  {| ro_operation_id := "op-repair"; ro_task_id := "a";
     ro_managed_worktree_operation_id := "op-provision"; ro_expected_worktree_generation := 1;
     ro_candidate_path := "/wt/moved"; ro_stage := RS_Reserved; ro_failure := None;
     ro_started_at_epoch_ms := 3; ro_updated_at_epoch_ms := 3 |}.

Definition sample_stale : WorktreeStaleResolutionOperation :=
  {| so_operation_id := "op-stale"; so_task_id := "a";
     so_managed_worktree_operation_id := Some "op-provision"; so_worktree_generation := 1;
     so_target_path := "/wt/a"; so_mode := SM_DiscardDirectory; so_stage := SS_Reserved;
     so_failure := None; so_started_at_epoch_ms := 3; so_updated_at_epoch_ms := 3 |}.

Definition sample_relocation : SessionRelocationOperation :=
  {| rlo_operation_id := "op-move"; rlo_session_id := "s"; rlo_project_id := "p";
     rlo_source_runtime_epoch := 7; rlo_source_cwd := "/repo"; rlo_target := RLT_TaskWorktree;
     rlo_target_task_id := "a"; rlo_target_cwd := "/wt/a"; rlo_target_worktree_generation := 1;
     rlo_target_managed_worktree_operation_id := "op-provision"; rlo_stage := RLS_SourceRetiring;
     rlo_started_at_epoch_ms := 4; rlo_updated_at_epoch_ms := 4 |}.
