(* ===== verification/RelocationInvariant.v ===== *)
(** * The invariant of the relocation journal

    [relocations_ok] says of the relocation journal what [journals_ok] says of
    the worktree journals: it is load-time validation's
    [relocation_records_are_invalid], as propositions, and every method of the
    worktree and relocation journals preserves it. *)

From S2P Require Import Prelude Text Domain DomainRules StoreState WorktreeJournals SessionJournals.
From S2P Require Import Transactions JournalInvariant JournalPreservation.

Section relocation_invariant.
Context `{UuidParser}.
Implicit Types st : CurrentState.

(** One operation agrees with the records it names. *)
Definition relocation_matches st (o : SessionRelocationOperation) : Prop :=
  relocation_operation_mismatch o (find_session st (rlo_session_id o))
    (find_task st (rlo_target_task_id o)) (find_proof st (rlo_target_task_id o))
    (find_project st (rlo_project_id o)) = false.

Definition relocation_receipt_matches st (r : SessionRelocationReceipt) : Prop :=
  relocation_receipt_mismatch (projects st) r (find_session st (rlr_session_id r)) = false.

(** No other journal holds its Session or its target Task. *)
Definition relocation_unheld st (o : SessionRelocationOperation) : Prop :=
  (rlo_session_id o ∉ sao_session_id <$> session_archive_operations st)
  /\ (rlo_target_task_id o ∉ tao_task_id <$> task_archive_operations st)
  /\ rlo_target_task_id o ∉ journal_keys st.

Record relocations_ok st : Prop := {
  rl_matches : forall o, o ∈ session_relocation_operations st -> relocation_matches st o;
  rl_unheld : forall o, o ∈ session_relocation_operations st -> relocation_unheld st o;
  rl_sessions : NoDup (rlo_session_id <$> session_relocation_operations st);
  rl_ids : NoDup (rlo_operation_id <$> session_relocation_operations st);
  rl_receipts : forall r, r ∈ session_relocation_receipts st -> relocation_receipt_matches st r;
  rl_receipt_sessions : NoDup (rlr_session_id <$> session_relocation_receipts st);
  rl_receipt_ids : NoDup (rlr_operation_id <$> session_relocation_receipts st);
  rl_disjoint : forall r, r ∈ session_relocation_receipts st ->
    (rlr_session_id r ∉ rlo_session_id <$> session_relocation_operations st)
    /\ rlr_operation_id r ∉ rlo_operation_id <$> session_relocation_operations st
}.

(** ** Agreement with load-time validation *)

(** A pairwise check against two keys at once. *)
Lemma any_with_rest_NoDup2 {A} (f : A -> bool) (key id : A -> string) (l : list A) :
  any_with_rest (fun x rest =>
    f x || any (fun y => (key y == key x) || (id y == id x)) rest) l = false <->
  (forall x, x ∈ l -> f x = false) /\ NoDup (key <$> l) /\ NoDup (id <$> l).
Proof.
  induction l as [|x l IH]; simpl.
  { split; [|done]. intros _. split_and!; [by intros ? ?%elem_of_nil|constructor..]. }
  rewrite !orb_false_iff, IH, any_false, !list.NoDup_cons, !list_elem_of_fmap.
  split.
  - intros [[Hf Hx] (HF & Hk & Hi)]. split_and!; try done.
    + intros y [->|Hy]%elem_of_cons; auto.
    + intros (y & Heq & Hy). specialize (Hx y Hy). guards. congruence.
    + intros (y & Heq & Hy). specialize (Hx y Hy). guards. congruence.
  - intros (HF & [Hxk Hk] & [Hxi Hi]). split_and!; try done.
    + apply HF. by left.
    + intros y Hy. apply orb_false_iff. split; apply bool_decide_eq_false; intros Heq;
        [apply Hxk|apply Hxi]; by exists y.
    + intros y Hy. apply HF. by right.
Qed.

Definition relocation_conflict st (o : SessionRelocationOperation) : bool :=
  relocation_operation_mismatch o
    (find_session st (rlo_session_id o)) (find_task st (rlo_target_task_id o))
    (find_proof st (rlo_target_task_id o)) (find_project st (rlo_project_id o))
  || holds_task sao_session_id (session_archive_operations st) (rlo_session_id o)
  || holds_task tao_task_id (task_archive_operations st) (rlo_target_task_id o)
  || holds_task po_task_id (provisioning_operations st) (rlo_target_task_id o)
  || holds_task co_task_id (cleanup_operations st) (rlo_target_task_id o)
  || holds_task ro_task_id (repair_operations st) (rlo_target_task_id o)
  || holds_task so_task_id (stale_resolution_operations st) (rlo_target_task_id o).

Lemma relocation_conflict_false st o :
  relocation_conflict st o = false <-> relocation_matches st o /\ relocation_unheld st o.
Proof.
  unfold relocation_conflict, relocation_matches, relocation_unheld, journal_keys.
  rewrite !orb_false_iff, !holds_task_false, !not_elem_of_app. tauto.
Qed.

Definition receipt_conflict st (r : SessionRelocationReceipt) : bool :=
  relocation_receipt_mismatch (projects st) r (find_session st (rlr_session_id r))
  || any (fun operation =>
            (rlo_session_id operation == rlr_session_id r)
            || (rlo_operation_id operation == rlr_operation_id r))
         (session_relocation_operations st).

Lemma receipt_conflict_false st r :
  receipt_conflict st r = false <->
  relocation_receipt_matches st r
  /\ (rlr_session_id r ∉ rlo_session_id <$> session_relocation_operations st)
  /\ rlr_operation_id r ∉ rlo_operation_id <$> session_relocation_operations st.
Proof.
  unfold receipt_conflict, relocation_receipt_matches.
  rewrite orb_false_iff, any_false, !list_elem_of_fmap. split.
  - intros [Hm Hx]. split_and!; [done| |]; intros (o & Heq & Ho); specialize (Hx o Ho);
      guards; congruence.
  - intros (Hm & Hs & Hi). split; [done|]. intros o Ho.
    apply orb_false_iff. split; apply bool_decide_eq_false; intros Heq;
      [apply Hs|apply Hi]; by exists o.
Qed.

Lemma relocation_records_valid st :
  relocations_ok st <-> relocation_records_are_invalid st = false.
Proof.
  unfold relocation_records_are_invalid. rewrite orb_false_iff.
  rewrite (any_with_rest_ext (relocation_operation_is_invalid st) (fun o rest =>
    relocation_conflict st o || any (fun c => (rlo_session_id c == rlo_session_id o)
      || (rlo_operation_id c == rlo_operation_id o)) rest)) by done.
  rewrite (any_with_rest_ext (relocation_receipt_is_invalid st) (fun r rest =>
    receipt_conflict st r || any (fun c => (rlr_session_id c == rlr_session_id r)
      || (rlr_operation_id c == rlr_operation_id r)) rest)).
  2:{ intros r rest. unfold relocation_receipt_is_invalid, receipt_conflict.
      rewrite <- !orb_assoc. f_equal. apply orb_comm. }
  rewrite !any_with_rest_NoDup2.
  setoid_rewrite relocation_conflict_false. setoid_rewrite receipt_conflict_false.
  split.
  - intros []. split_and!; auto; intros; split_and?; auto; by apply rl_disjoint0.
  - intros [(Ho & ? & ?) (Hr & ? & ?)].
    split; auto; intros x Hx;
      first [by apply (Ho x Hx) | by apply (Hr x Hx) | destruct (Hr x Hx) as (?&?&?); done].
Qed.

Lemma relocations_ok_committed st : relocations_ok st -> relocations_ok (committed st).
Proof.
  intros []. unfold committed, prune_session_profiles.
  destruct (session_agent_profiles st); constructor; assumption.
Qed.

(** ** The worktree journals leave relocations alone *)

(** The relocation target Tasks keep their record and their proof, and stay
    free of worktree journals. *)
Lemma relocations_ok_frame st st' :
  relocations_ok st ->
  sessions st' = sessions st -> projects st' = projects st ->
  session_archive_operations st' = session_archive_operations st ->
  task_archive_operations st' = task_archive_operations st ->
  session_relocation_operations st' = session_relocation_operations st ->
  session_relocation_receipts st' = session_relocation_receipts st ->
  (forall task_id, task_id ∉ journal_keys st ->
     task_id ∈ rlo_target_task_id <$> session_relocation_operations st ->
     find_task st' task_id = find_task st task_id
     /\ find_proof st' task_id = find_proof st task_id
     /\ task_id ∉ journal_keys st') ->
  relocations_ok st'.
Proof.
  intros [Hm Hu ? ? Hr ? ? Hd] Es Ep Esa Eta Eo Er Hframe.
  assert (forall o, o ∈ session_relocation_operations st ->
    find_task st' (rlo_target_task_id o) = find_task st (rlo_target_task_id o)
    /\ find_proof st' (rlo_target_task_id o) = find_proof st (rlo_target_task_id o)
    /\ rlo_target_task_id o ∉ journal_keys st') as Hf.
  { intros o Ho. apply Hframe; [by apply Hu|by apply list_elem_of_fmap_2]. }
  split; rewrite ?Eo, ?Er; try done.
  - intros o Ho. destruct (Hf o Ho) as (Ht & Hp & _).
    unfold relocation_matches, find_session, find_project. rewrite Es, Ep, Ht, Hp.
    by apply Hm.
  - intros o Ho. destruct (Hf o Ho) as (_ & _ & Hk), (Hu o Ho) as (? & ? & _).
    unfold relocation_unheld. by rewrite Esa, Eta.
  - intros r Hin. unfold relocation_receipt_matches, find_session. rewrite Es, Ep.
    by apply Hr.
Qed.

(** A change that only moves entries of the worktree journals. *)
Lemma relocations_ok_journals st st' :
  relocations_ok st ->
  sessions st' = sessions st -> projects st' = projects st ->
  session_archive_operations st' = session_archive_operations st ->
  task_archive_operations st' = task_archive_operations st ->
  session_relocation_operations st' = session_relocation_operations st ->
  session_relocation_receipts st' = session_relocation_receipts st ->
  tasks st' = tasks st -> managed_worktrees st' = managed_worktrees st ->
  (forall task_id, task_id ∈ journal_keys st' ->
     task_id ∈ journal_keys st
     \/ task_id ∉ rlo_target_task_id <$> session_relocation_operations st) ->
  relocations_ok st'.
Proof.
  intros Hok Es Ep Esa Eta Eo Er Et Em Hk. apply (relocations_ok_frame st); try done.
  intros task_id Hno Hin. unfold find_task, find_proof. rewrite Et, Em. split_and!; try done.
  intros Hin'. by destruct (Hk _ Hin').
Qed.
End relocation_invariant.

(** A journal entry edited in place, dropped, or left alone keeps no new key. *)
Lemma keys_edit st st' task_id :
  (forall x, x ∈ po_task_id <$> provisioning_operations st' ->
             x ∈ po_task_id <$> provisioning_operations st) ->
  (forall x, x ∈ co_task_id <$> cleanup_operations st' ->
             x ∈ co_task_id <$> cleanup_operations st) ->
  (forall x, x ∈ ro_task_id <$> repair_operations st' ->
             x ∈ ro_task_id <$> repair_operations st) ->
  (forall x, x ∈ so_task_id <$> stale_resolution_operations st' ->
             x ∈ so_task_id <$> stale_resolution_operations st) ->
  task_id ∈ journal_keys st' -> task_id ∈ journal_keys st.
Proof. rewrite !journal_keys_elem. intros ? ? ? ? [H|[H|[H|H]]]; auto. Qed.

Lemma fmap_elem_insert {A} (key : A -> string) (l : list A) i x y k :
  l !! i = Some x -> key y = key x -> k ∈ key <$> <[i := y]> l -> k ∈ key <$> l.
Proof. intros. by erewrite <- fmap_insert_same. Qed.

Lemma fmap_elem_sublist {A} (key : A -> string) (l l' : list A) k :
  l' `sublist_of` l -> k ∈ key <$> l' -> k ∈ key <$> l.
Proof. intros Hl Hk. eapply elem_of_sublist; [exact Hk|]. by apply fmap_sublist. Qed.

Lemma not_relocating (ops : list SessionRelocationOperation) task_id :
  holder rlo_target_task_id rlo_operation_id ops task_id = None ->
  task_id ∉ rlo_target_task_id <$> ops.
Proof. apply holder_None. Qed.

(** * Every journal method preserves the relocation invariant *)

Ltac reloc_exit Hrl :=
  lazymatch goal with
  | |- keeps _ (Ok _, _) => exact Hrl
  | |- keeps _ (Err _, _) => exact Hrl
  | |- keeps ?I (install _ _ _ _) =>
      apply (install_preserves I); [ apply relocations_ok_committed | exact Hrl | ]
  | |- keeps ?I (install_revision _ _ _) =>
      apply (install_revision_preserves I); [ apply relocations_ok_committed | exact Hrl | ]
  end.
Ltac reloc Hrl := repeat first [reloc_exit Hrl | run_step].

(** The edited, dropped or untouched journal of [keys_edit]. *)
Ltac same_keys :=
  intros ?; cbn;
  first [ done
        | apply fmap_elem_sublist; first [apply sublist_delete | apply retain_sublist]
        | eapply fmap_elem_insert; [by eapply position_Some | reflexivity] ].

Ltac moved Hrl :=
  try open_find_mut; apply (relocations_ok_journals _ _ Hrl); try reflexivity;
  let Hin := fresh in intros ? Hin; left; revert Hin; apply keys_edit; same_keys.

Section worktree_journals.
Context `{UuidParser}.
Implicit Types s : Store.

(** The new entry's Task is no relocation target. *)
Lemma relocations_ok_push st st' task_id :
  relocations_ok st ->
  sessions st' = sessions st -> projects st' = projects st ->
  session_archive_operations st' = session_archive_operations st ->
  task_archive_operations st' = task_archive_operations st ->
  session_relocation_operations st' = session_relocation_operations st ->
  session_relocation_receipts st' = session_relocation_receipts st ->
  tasks st' = tasks st -> managed_worktrees st' = managed_worktrees st ->
  task_id ∉ rlo_target_task_id <$> session_relocation_operations st ->
  (forall k, k ∈ journal_keys st' -> k ∈ journal_keys st \/ k = task_id) ->
  relocations_ok st'.
Proof.
  intros Hrl ? ? ? ? ? ? ? ? Hfree Hk. apply (relocations_ok_journals st); try done.
  intros k Hin. destruct (Hk k Hin) as [?| ->]; [by left|by right].
Qed.

(** One Task held by a worktree journal is rebound. *)
Lemma relocations_ok_complete st st' task_id i task task' :
  relocations_ok st -> task_id ∈ journal_keys st ->
  sessions st' = sessions st -> projects st' = projects st ->
  session_archive_operations st' = session_archive_operations st ->
  task_archive_operations st' = task_archive_operations st ->
  session_relocation_operations st' = session_relocation_operations st ->
  session_relocation_receipts st' = session_relocation_receipts st ->
  position (fun task => t_id task == task_id) (tasks st) = Some (i, task) ->
  tasks st' = <[i := task']> (tasks st) -> t_id task' = task_id ->
  (forall other, other <> task_id -> find_proof st' other = find_proof st other) ->
  (forall k, k ∈ journal_keys st' -> k ∈ journal_keys st) ->
  relocations_ok st'.
Proof.
  intros Hrl Hheld ? ? ? ? ? ? Hpos Et Hid Hproof Hk. apply (relocations_ok_frame st); try done.
  intros other Hno _. assert (other <> task_id) as Hne by congruence.
  split_and!; [by eapply find_task_other|by apply Hproof|by intros ?%Hk].
Qed.

(** A relocation target has a worktree. *)
Lemma relocation_target_bound st task_id task :
  relocations_ok st -> find_task st task_id = Some task -> is_some (t_worktree task) = false ->
  task_id ∉ rlo_target_task_id <$> session_relocation_operations st.
Proof.
  intros Hrl Ht Hw (o & -> & Ho)%list_elem_of_fmap.
  pose proof (rl_matches _ Hrl o Ho) as Hm. unfold relocation_matches in Hm.
  rewrite Ht in Hm. destruct (t_worktree task) eqn:E; [done|].
  unfold relocation_operation_mismatch in Hm. simpl in Hm. rewrite E in Hm. simpl in Hm.
  rewrite !orb_true_r in Hm. done.
Qed.

Ltac pushed :=
  intros ?; rewrite !journal_keys_elem; cbn; rewrite fmap_app, elem_of_app;
  cbn; rewrite list_elem_of_singleton; tauto.

Lemma begin_provisioning_relocations s operation :
  relocations_ok (state s) -> keeps relocations_ok (begin_task_worktree_provisioning operation s).
Proof.
  intros Hrl. unfold begin_task_worktree_provisioning. reloc Hrl.
  apply (relocations_ok_push _ _ (po_task_id operation) Hrl); try reflexivity.
  - by eapply relocation_target_bound.
  - pushed.
Qed.

Lemma begin_cleanup_relocations s operation :
  relocations_ok (state s) -> keeps relocations_ok (begin_task_worktree_cleanup operation s).
Proof.
  intros Hrl. unfold begin_task_worktree_cleanup. reloc Hrl.
  apply (relocations_ok_push _ _ (co_task_id operation) Hrl); try reflexivity.
  - by apply not_relocating.
  - pushed.
Qed.

Lemma begin_repair_relocations s operation :
  relocations_ok (state s) -> keeps relocations_ok (begin_task_worktree_repair operation s).
Proof.
  intros Hrl. unfold begin_task_worktree_repair. reloc Hrl.
  apply (relocations_ok_push _ _ (ro_task_id operation) Hrl); try reflexivity.
  - by apply not_relocating.
  - pushed.
Qed.

Lemma begin_stale_relocations s operation supersedes :
  relocations_ok (state s) ->
  keeps relocations_ok (begin_task_worktree_stale_resolution operation supersedes s).
Proof.
  intros Hrl. unfold begin_task_worktree_stale_resolution, superseded_cleanup. reloc Hrl.
  - apply (relocations_ok_push _ _ (so_task_id operation) Hrl); try reflexivity.
    + by apply not_relocating.
    + intros k. rewrite !journal_keys_elem; cbn. rewrite fmap_app, elem_of_app.
      cbn. rewrite list_elem_of_singleton.
      intros [ ? | [ Hc | ? ] ]; [tauto| |tauto].
      eapply fmap_elem_sublist in Hc; [|apply sublist_delete]. tauto.
  - apply (relocations_ok_push _ _ (so_task_id operation) Hrl); try reflexivity.
    + by apply not_relocating.
    + pushed.
Qed.

Ltac completed Hrl Hpos :=
  eapply (relocations_ok_complete _ _ _ _ _ _ Hrl); [ | reflexivity .. | | | | | ];
  [ | exact Hpos | reflexivity | | | ].

Lemma commit_provisioning_relocations s task_id operation_id c :
  relocations_ok (state s) ->
  keeps relocations_ok (commit_task_worktree_provisioning task_id operation_id c s).
Proof.
  intros Hrl. unfold commit_task_worktree_provisioning. reloc Hrl.
  destruct (key_of_position po_task_id po_operation_id _ _ _ _ _ Hcode) as (Hi & Hk & _ & Hheld).
  destruct (position_task _ _ _ _ Hcode2) as (_ & Hid & _). guards.
  completed Hrl Hcode2.
  - apply journal_keys_elem. by left.
  - exact Hid.
  - intros other Hne. by apply find_proof_replace_other.
  - intros k. eapply keys_edit; same_keys.
Qed.

Lemma complete_cleanup_relocations s task_id operation_id now :
  relocations_ok (state s) ->
  keeps relocations_ok (complete_task_worktree_cleanup task_id operation_id now s).
Proof.
  intros Hrl. unfold complete_task_worktree_cleanup, checked_current_cleanup, current_cleanup.
  reloc Hrl; cbn in *; [open_find_mut|exfalso; apply find_mut_find in Hcode5; congruence].
  destruct (key_of_position co_task_id co_operation_id _ _ _ _ _ Heqo) as (Hi & Hk & _ & Hheld).
  destruct (position_task _ _ _ _ Hcode3) as (_ & Hid & _).
  completed Hrl Hcode3.
  - apply journal_keys_elem. tauto.
  - exact Hid.
  - intros other Hne. by apply find_proof_retain_other.
  - intros k. eapply keys_edit; same_keys.
Qed.

Lemma complete_repair_relocations s task_id operation_id now :
  relocations_ok (state s) ->
  keeps relocations_ok (complete_task_worktree_repair task_id operation_id now s).
Proof.
  intros Hrl. unfold complete_task_worktree_repair. reloc Hrl.
  rewrite position_find in Hcode.
  destruct (position _ (repair_operations _)) as [[i x]|] eqn:Hpos; simplify_eq/=.
  destruct (key_of_position ro_task_id ro_operation_id _ _ _ _ _ Hpos) as (Hi & Hk & _ & Hheld).
  destruct (position_task _ _ _ _ Hcode3) as (_ & Hid & _).
  apply position_Some in Hcode5 as Hproof. destruct Hproof as [Hproof Hpid]. guards.
  completed Hrl Hcode3.
  - apply journal_keys_elem. tauto.
  - exact Hid.
  - intros other Hne. unfold find_proof; simpl.
    rewrite (find_first_insert_key mw_task_id _ _ _ _ task_id other Hcode5) by done.
    by case_decide.
  - intros k. eapply keys_edit; same_keys.
Qed.

Lemma complete_stale_relocations s task_id operation_id now :
  relocations_ok (state s) ->
  keeps relocations_ok (complete_task_worktree_stale_resolution task_id operation_id now s).
Proof.
  intros Hrl. unfold complete_task_worktree_stale_resolution, current_stale_resolution.
  reloc Hrl.
  destruct (key_of_position so_task_id so_operation_id _ _ _ _ _ Hcode) as (Hi & Hk & _ & Hheld).
  match goal with H : position _ (tasks _) = Some _ |- _ => rename H into Hpos end.
  destruct (position_task _ _ _ _ Hpos) as (_ & Hid & _).
  completed Hrl Hpos.
  - apply journal_keys_elem. tauto.
  - exact Hid.
  - intros other Hne. by apply find_proof_retain_other.
  - intros k. eapply keys_edit; same_keys.
Qed.

Lemma supersede_cleanup_relocations s previous_id replacement :
  relocations_ok (state s) ->
  keeps relocations_ok (supersede_failed_task_worktree_cleanup previous_id replacement s).
Proof.
  intros Hrl. unfold supersede_failed_task_worktree_cleanup. reloc Hrl.
  apply (key_of_position co_task_id co_operation_id) in Hcode1 as (Hi & Hk & _ & _).
  apply (relocations_ok_journals _ _ Hrl); try reflexivity.
  intros k Hin. left. revert Hin. apply keys_edit; [same_keys| |same_keys..].
  intros ?. cbn. eapply fmap_elem_insert; [exact Hi|by rewrite Hk].
Qed.
End worktree_journals.

(** ** The relocation journal itself *)

Lemma NoDup_app_singleton (l : list string) x : NoDup l -> x ∉ l -> NoDup (l ++ [x]).
Proof.
  intros Hl Hx. apply list.NoDup_app. split_and!; [done| |apply NoDup_singleton].
  intros y Hy ->%list_elem_of_singleton. done.
Qed.

Section relocation_methods.
Context `{UuidParser}.
Implicit Types (s : Store) (st : CurrentState).

Lemma find_session_other st st' session_id i session session' other :
  sessions st' = <[i := session']> (sessions st) ->
  position (fun session => s_id session == session_id) (sessions st) = Some (i, session) ->
  s_id session' = session_id -> other <> session_id ->
  find_session st' other = find_session st other.
Proof.
  unfold find_session. intros -> Hpos Hid Hne.
  rewrite (find_first_insert_key s_id _ _ _ _ _ other Hpos Hid). by case_decide.
Qed.

Lemma find_session_same st st' session_id i session session' :
  sessions st' = <[i := session']> (sessions st) ->
  position (fun session => s_id session == session_id) (sessions st) = Some (i, session) ->
  s_id session' = session_id -> find_session st' session_id = Some session'.
Proof.
  unfold find_session. intros -> Hpos Hid.
  rewrite (find_first_insert_key s_id _ _ _ _ _ session_id Hpos Hid). by case_decide.
Qed.

Lemma position_session st session_id i session :
  position (fun session => s_id session == session_id) (sessions st) = Some (i, session) ->
  find_session st session_id = Some session /\ s_id session = session_id.
Proof.
  intros Hpos. split; [unfold find_session; by rewrite position_find, Hpos|].
  apply position_Some in Hpos as [_ Hp]. by guards.
Qed.

(** One Session's record changes: the operations and receipts kept are about
    other Sessions, unless they are shown to match the new record. *)
Lemma relocations_ok_session st st' session_id i session session' :
  relocations_ok st ->
  position (fun session => s_id session == session_id) (sessions st) = Some (i, session) ->
  sessions st' = <[i := session']> (sessions st) -> s_id session' = session_id ->
  tasks st' = tasks st -> managed_worktrees st' = managed_worktrees st ->
  projects st' = projects st ->
  session_archive_operations st' = session_archive_operations st ->
  task_archive_operations st' = task_archive_operations st ->
  journal_keys st' = journal_keys st ->
  (forall o, o ∈ session_relocation_operations st' ->
     o ∈ session_relocation_operations st /\ rlo_session_id o <> session_id
     \/ relocation_matches st' o /\ relocation_unheld st' o) ->
  (forall r, r ∈ session_relocation_receipts st' ->
     r ∈ session_relocation_receipts st /\ rlr_session_id r <> session_id
     \/ relocation_receipt_matches st' r) ->
  NoDup (rlo_session_id <$> session_relocation_operations st') ->
  NoDup (rlo_operation_id <$> session_relocation_operations st') ->
  NoDup (rlr_session_id <$> session_relocation_receipts st') ->
  NoDup (rlr_operation_id <$> session_relocation_receipts st') ->
  (forall r, r ∈ session_relocation_receipts st' ->
     (rlr_session_id r ∉ rlo_session_id <$> session_relocation_operations st')
     /\ rlr_operation_id r ∉ rlo_operation_id <$> session_relocation_operations st') ->
  relocations_ok st'.
Proof.
  intros [Hm Hu ? ? Hr ? ? ?] Hpos Es Hid Et Em Ep Esa Eta Ek Ho Hr' ? ? ? ? ?.
  split; try done.
  - intros o Hin. destruct (Ho o Hin) as [[Hin' Hne]|[? _]]; [|done].
    unfold relocation_matches, find_task, find_proof, find_project. rewrite Et, Em, Ep.
    rewrite (find_session_other st st' session_id i session session' _ Es Hpos Hid Hne).
    by apply Hm.
  - intros o Hin. destruct (Ho o Hin) as [[Hin' Hne]|[_ ?]]; [|done].
    unfold relocation_unheld. rewrite Esa, Eta, Ek. by apply Hu.
  - intros r Hin. destruct (Hr' r Hin) as [[Hin' Hne]|?]; [|done].
    unfold relocation_receipt_matches. rewrite Ep.
    rewrite (find_session_other st st' session_id i session session' _ Es Hpos Hid Hne).
    by apply Hr.
Qed.

(** The operation found for a Session is the Session's only one. *)
Lemma relocation_deleted st session_id operation_id i o :
  relocations_ok st ->
  position (is_relocation session_id operation_id) (session_relocation_operations st)
    = Some (i, o) ->
  forall o', o' ∈ delete i (session_relocation_operations st) ->
  o' ∈ session_relocation_operations st /\ rlo_session_id o' <> session_id
  /\ rlo_operation_id o' <> operation_id.
Proof.
  intros Hrl Hpos o' Ho'.
  apply (key_of_position rlo_session_id rlo_operation_id) in Hpos as (Hi & Hk & Hid & _).
  split_and!.
  - exact (list_elem_of_delete_inv _ _ _ Ho').
  - intros Heq. apply (deleted_key_gone rlo_session_id _ _ _ (rl_sessions _ Hrl) Hi).
    rewrite Hk, <- Heq. by apply list_elem_of_fmap_2.
  - intros Heq. apply (deleted_key_gone rlo_operation_id _ _ _ (rl_ids _ Hrl) Hi).
    rewrite Hid, <- Heq. by apply list_elem_of_fmap_2.
Qed.

(** A Session being relocated has no relocation receipt. *)
Lemma relocating_without_receipt st session_id r :
  relocations_ok st -> session_id ∈ rlo_session_id <$> session_relocation_operations st ->
  r ∈ session_relocation_receipts st -> rlr_session_id r <> session_id.
Proof. intros Hrl Hin Hr <-. by destruct (rl_disjoint _ Hrl r Hr). Qed.

Lemma fail_relocation_keeps s session_id operation_id failure :
  relocations_ok (state s) ->
  keeps relocations_ok (fail_session_relocation session_id operation_id failure s).
Proof.
  intros Hrl. unfold fail_session_relocation. reloc Hrl.
  destruct (key_of_position rlo_session_id rlo_operation_id _ _ _ _ _ Hcode)
    as (Hi & Hk & Hid & Hheld).
  match goal with H : position _ (sessions _) = Some _ |- _ => rename H into Hpos end.
  destruct (position_session _ _ _ _ Hpos) as [Hfind Hsid].
  eapply (relocations_ok_session (state s) _ _ _ _ _ Hrl Hpos); try reflexivity; try done.
  - intros o Ho. left. by destruct (relocation_deleted _ _ _ _ _ Hrl Hcode o Ho) as (?&?&?).
  - intros r Hr. left. split; [done|]. by eapply relocating_without_receipt.
  - apply NoDup_fmap_delete, Hrl.
  - apply NoDup_fmap_delete, Hrl.
  - apply Hrl.
  - apply Hrl.
  - intros r Hr. destruct (rl_disjoint _ Hrl r Hr) as [? ?].
    split; intros Hin; cbn in Hin; (eapply fmap_elem_sublist in Hin; [done|apply sublist_delete]).
Qed.

(** The stage and time stamp of an operation are not compared with other
    records. *)
Lemma relocation_restaged st o now :
  (rlo_updated_at_epoch_ms o <= now)%N -> relocation_matches st o ->
  relocation_matches st (o <| rlo_stage := RLS_TargetStarting |>
                           <| rlo_updated_at_epoch_ms := now |>).
Proof.
  unfold relocation_matches, relocation_operation_mismatch. simpl. rewrite !orb_false_iff.
  intros Hle. rewrite !N.ltb_ge. intros (((((((((?&?)&?)&?)&?)&?)&?)&?)&?)&?).
  split_and!; try done. lia.
Qed.

Lemma mark_relocation_keeps s session_id operation_id now :
  relocations_ok (state s) ->
  keeps relocations_ok (mark_session_relocation_target_starting session_id operation_id now s).
Proof.
  intros Hrl. unfold mark_session_relocation_target_starting. reloc Hrl. open_find_mut.
  match goal with H : position _ _ = Some (?i, ?x) |- _ => rename H into Hpos end.
  rewrite position_find, Hpos in Hcode. simplify_eq/=.
  destruct (key_of_position rlo_session_id rlo_operation_id _ _ _ _ _ Hpos)
    as (Hi & Hk & Hid & _).
  assert (s0 ∈ session_relocation_operations (state s)) as Hin by (by eapply list_elem_of_lookup_2).
  apply orb_false_iff in Hcode1 as [_ Hle]. apply N.ltb_ge in Hle.
  destruct Hrl as [Hm Hu Hs Hids Hr Hrs Hri Hd].
  split; cbn; rewrite ?(fmap_insert_same rlo_session_id _ _ s0) by done;
    rewrite ?(fmap_insert_same rlo_operation_id _ _ s0) by done; try done.
  - intros o [->|Ho]%elem_of_insert_list; [|by apply Hm].
    apply relocation_restaged; [done|by apply Hm].
  - intros o [->|Ho]%elem_of_insert_list; [|by apply Hu]. by apply (Hu s0).
Qed.

(** ** What [relocation_worktree_matches] and validation say of the checkout *)

(** The clause of validation about the target Task's binding. *)
Definition binding_mismatch (o : SessionRelocationOperation) (session : SessionRecord)
    (task : TaskRecord) : bool :=
  is_none_or (t_worktree task) (fun binding =>
    (rlo_target o == RLT_TaskWorktree) && (tw_path binding != rlo_target_cwd o)
    || (rlo_target o == RLT_ProjectRoot) && (tw_path binding != rlo_source_cwd o)
       && is_none_or (s_resume_launch_guard session) (fun guard =>
            (g_task_id guard != t_id task) || (g_path guard != tw_path binding))).

Lemma worktree_matches_binding o session task proof :
  relocation_worktree_matches o session task proof = true ->
  binding_mismatch o session task = false
  /\ exists binding, t_worktree task = Some binding
       /\ mw_registered_worktree_path proof = tw_path binding.
Proof.
  unfold relocation_worktree_matches, binding_mismatch, guard_names_checkout.
  destruct (t_worktree task) as [binding|]; simpl; [|done].
  rewrite andb_true_iff. intros [Hp Ht]. guards. split; [|by exists binding].
  destruct (rlo_target o); simpl in *; rewrite ?orb_false_r in *; guards.
  - by rewrite Ht, bool_decide_eq_true_2.
  - destruct (decide (tw_path binding = rlo_source_cwd o)) as [E|E].
    + by rewrite E, bool_decide_eq_true_2.
    + rewrite (bool_decide_eq_false_2 (tw_path binding = _)) in Ht |- * by done. simpl in *.
      destruct (s_resume_launch_guard session) as [guard|]; simpl in *; [|done].
      guards. rewrite !bool_decide_eq_true_2 by done. done.
Qed.

Lemma begin_relocation_matches st o session task proof project :
  begin_relocation_is_valid st o session task proof project = true ->
  relocation_operation_mismatch o (Some (relocating_session session)) (Some task) (Some proof)
    (Some project) = false.
Proof.
  unfold begin_relocation_is_valid. intros Hv. guards.
  match goal with H : relocation_worktree_matches _ _ _ _ = true |- _ =>
    apply worktree_matches_binding in H as (Hb & binding & Hbind & Hreg) end.
  unfold binding_mismatch in Hb. rewrite Hbind in Hb.
  unfold relocation_operation_mismatch. simpl. rewrite Hbind. simpl in *.
  repeat match goal with
    | H : (_ <? _)%N = true |- _ => apply N.ltb_lt in H
    | H : (_ <=? _)%N = true |- _ => apply N.leb_le in H
    end.
  rewrite !orb_false_iff, !andb_false_iff, !negb_false_iff, !bool_decide_eq_false in Hb.
  rewrite !orb_false_iff, !andb_false_iff, !negb_false_iff, !N.ltb_ge, !bool_decide_eq_false.
  destruct Hb as [Hb1 Hb2]. split_and!; try done; try lia.
  all: repeat match goal with E : ?x = _ |- context [?x] => rewrite E end; simpl; try done.
  all: try by rewrite bool_decide_eq_true.
  all: try by apply negb_false_iff.
  all: try (destruct (s_resume_ref session); simpl in *; by rewrite ?negb_false_iff).
  all: destruct (rlo_target o); guards; try done; try (by left); right; by apply bool_decide_eq_true.
Qed.

Lemma begin_relocation_unheld st o session task proof project :
  begin_relocation_is_valid st o session task proof project = true ->
  relocation_unheld st o
  /\ rlo_session_id o ∉ rlo_session_id <$> session_relocation_operations st.
Proof.
  unfold begin_relocation_is_valid, relocation_unheld. intros Hv. guards.
  rewrite journal_keys_elem, !list_elem_of_fmap.
  repeat match goal with
    | H : forall x, x ∈ _ -> _ = false |- _ => setoid_rewrite bool_decide_eq_false in H
    end.
  split_and!; intros Hin; destruct_or? Hin; destruct Hin as (x & Heq & Hx); symmetry in Heq;
    match goal with Hn : forall y, y ∈ _ -> _ |- _ => by apply (Hn x Hx) end.
Qed.
Lemma begin_relocation_keeps s operation :
  relocations_ok (state s) -> keeps relocations_ok (begin_session_relocation operation s).
Proof.
  intros Hrl. unfold begin_session_relocation. reloc Hrl. open_find_mut.
  match goal with H : position _ (sessions _) = Some _ |- _ => rename H into Hpos end.
  destruct (position_session _ _ _ _ Hpos) as [Hfind Hsid].
  match goal with H : negb (begin_relocation_is_valid _ _ _ _ _ _) = false |- _ =>
    apply negb_false_iff in H; rename H into Hvalid end.
  rewrite Hfind in *. simplify_eq.
  pose proof (begin_relocation_matches _ _ _ _ _ _ Hvalid) as Hmatch.
  destruct (begin_relocation_unheld _ _ _ _ _ _ Hvalid) as [Hunheld Hfree].
  assert (rlo_operation_id operation ∉ rlo_operation_id <$> session_relocation_operations (state s))
    as Hnew by (by apply find_first_key_None).
  assert (rlo_operation_id operation ∉ rlr_operation_id <$> session_relocation_receipts (state s))
    as Hnewr by (by apply holds_task_false).
  eapply (relocations_ok_session (state s) _ _ _ _ _ Hrl Hpos); try reflexivity; try done.
  - intros o [ Ho | ->%list_elem_of_singleton ]%elem_of_app.
    + left. split; [done|]. intros Heq. apply Hfree. rewrite <- Heq. by apply list_elem_of_fmap_2.
    + right. split; [|exact Hunheld]. unfold relocation_matches.
      erewrite (find_session_same (state s)); [|reflexivity|exact Hpos|done].
      match goal with Ht : find_task _ _ = Some _, Hp : find_proof _ _ = Some _,
        Hj : find_project _ _ = Some _ |- _ =>
        unfold find_task, find_proof, find_project in *; cbn; rewrite Ht, Hp, Hj end.
      exact Hmatch.
  - intros r [Hr Hne]%elem_of_retain. guards. by left.
  - cbn. rewrite fmap_app. apply NoDup_app_singleton; [apply Hrl|done].
  - cbn. rewrite fmap_app. apply NoDup_app_singleton; [apply Hrl|done].
  - apply NoDup_fmap_retain, Hrl.
  - apply NoDup_fmap_retain, Hrl.
  - intros r [Hr Hne]%elem_of_retain. guards. destruct (rl_disjoint _ Hrl r Hr) as [Hs Hi].
    cbn. rewrite !fmap_app, !not_elem_of_app. cbn. rewrite !list_elem_of_singleton.
    split_and!; try done. intros Heq. apply Hnewr. rewrite <- Heq. by apply list_elem_of_fmap_2.
Qed.

Lemma all_false {A} (p : A -> bool) (l : list A) x : x ∈ l -> p x = false -> all p l = false.
Proof.
  intros Hx Hp. apply not_true_iff_false. rewrite all_true. intros Hall.
  specialize (Hall x Hx). congruence.
Qed.

(** The receipt of a committed relocation matches the relocated Session. *)
Lemma commit_relocation_receipt st o epoch ref session task proof project :
  commit_relocation_is_valid o epoch ref session task proof project = true ->
  find_session st (rlo_session_id o) = Some session ->
  find_project st (rlo_project_id o) = Some project ->
  relocation_matches st o ->
  relocation_receipt_mismatch (projects st) (relocation_receipt o epoch)
    (Some (relocated_session session o epoch ref)) = false.
Proof.
  unfold commit_relocation_is_valid, relocation_matches, relocation_operation_mismatch.
  intros Hv Hs Hj Hm. rewrite Hs in Hm. cbn [is_none_or] in Hm. guards.
  apply find_first_Some in Hj as [Hin Hpid]. guards.
  unfold relocation_receipt_mismatch. simpl.
  rewrite !orb_false_iff, !negb_false_iff, !bool_decide_eq_false.
  split_and!; try done; try by apply bool_decide_eq_true_2.
  unfold relocation_guard. destruct (rlo_target o); simpl; guards.
  - rewrite !bool_decide_eq_true_2 by done. done.
  - eapply all_false; [exact Hin|]. rewrite !bool_decide_eq_true_2 by done. done.
Qed.

Lemma commit_relocation_keeps s session_id operation_id epoch ref :
  relocations_ok (state s) ->
  keeps relocations_ok (commit_session_relocation session_id operation_id epoch ref s).
Proof.
  intros Hrl. unfold commit_session_relocation. reloc Hrl.
  destruct (key_of_position rlo_session_id rlo_operation_id _ _ _ _ _ Hcode)
    as (Hi & Hk & Hid & Hheld).
  match goal with H : position _ (sessions _) = Some _ |- _ => rename H into Hpos end.
  destruct (position_session _ _ _ _ Hpos) as [Hfind Hsid].
  match goal with H : negb (commit_relocation_is_valid _ _ _ _ _ _ _) = false |- _ =>
    apply negb_false_iff in H; rename H into Hvalid end.
  match goal with H : find_project _ _ = Some _ |- _ => rename H into Hproject end.
  match type of Hi with _ = Some ?o => rename o into operation end.
  assert (operation ∈ session_relocation_operations (state s)) as Hop
    by (by eapply list_elem_of_lookup_2).
  pose proof (relocation_deleted _ _ _ _ _ Hrl Hcode) as Hothers.
  assert (forall r, r ∈ session_relocation_receipts (state s) ->
    rlr_operation_id r <> operation_id) as Hfresh.
  { intros r Hr Heq. destruct (rl_disjoint _ Hrl r Hr) as [_ Hd]. apply Hd.
    rewrite Heq, <- Hid. by apply list_elem_of_fmap_2. }
  eapply (relocations_ok_session (state s) _ _ _ _ _ Hrl Hpos); try reflexivity; try done.
  - intros o Ho. left. by destruct (Hothers o Ho) as (?&?&?).
  - intros r [ [Hr Hne]%elem_of_retain | ->%list_elem_of_singleton ]%elem_of_app;
      [guards; by left|right].
    unfold relocation_receipt_matches. cbn [relocation_receipt rlr_session_id].
    rewrite Hk. erewrite (find_session_same (state s)); [|reflexivity|exact Hpos|done].
    eapply (commit_relocation_receipt (state s)); try done; [by rewrite Hk|by apply Hrl].
  - apply NoDup_fmap_delete, Hrl.
  - apply NoDup_fmap_delete, Hrl.
  - apply NoDup_fmap_replace; [apply Hrl|done].
  - cbn. rewrite fmap_app. apply NoDup_app_singleton; [apply NoDup_fmap_retain, Hrl|].
    intros (r & Heq & [Hr _]%elem_of_retain)%list_elem_of_fmap. apply (Hfresh r Hr). cbn in Heq. congruence.
  - intros r [ [Hr Hne]%elem_of_retain | ->%list_elem_of_singleton ]%elem_of_app.
    + destruct (rl_disjoint _ Hrl r Hr) as [? ?].
      split; intros Hin; cbn in Hin; (eapply fmap_elem_sublist in Hin; [done|apply sublist_delete]).
    + cbn. split; intros (o & Heq & Ho)%list_elem_of_fmap; destruct (Hothers o Ho) as (?&?&?);
        congruence.
Qed.

(** ** All methods *)

Lemma exec_call_relocations call s :
  relocations_ok (state s) -> keeps relocations_ok (exec_call call s).
Proof.
  intros Hrl. destruct call; cbn [exec_call]; apply keeps_erase.
  all: try first [ by apply begin_provisioning_relocations | by apply commit_provisioning_relocations
    | by apply begin_cleanup_relocations | by apply supersede_cleanup_relocations
    | by apply complete_cleanup_relocations | by apply begin_repair_relocations
    | by apply complete_repair_relocations | by apply begin_stale_relocations
    | by apply complete_stale_relocations | by apply begin_relocation_keeps
    | by apply mark_relocation_keeps | by apply commit_relocation_keeps
    | by apply fail_relocation_keeps ].
  all: unfold_journals; reloc Hrl; cbn in *; moved Hrl.
Qed.
End relocation_methods.
