(* ===== verification/StoreGuarantees.v ===== *)
(** * What a history of journal calls guarantees

    The worktree and relocation records stay acceptable to load-time validation
    along arbitrary histories of the worktree and relocation journals. *)

From S2P Require Import Prelude Text Domain DomainRules StoreState WorktreeJournals SessionJournals.
From S2P Require Import Transactions JournalInvariant JournalPreservation Samples.
From S2P Require Import RelocationInvariant.

Local Open Scope string_scope.
Local Open Scope list_scope.

(** ** Lemmas on histories *)

Section histories.
Context `{UuidParser}.
Implicit Types (s : Store) (calls : list JournalCall).

Lemma history_keeps (I : CurrentState -> Prop) (ok : JournalCall -> Prop) calls s :
  (forall call s, ok call -> I (state s) -> keeps I (exec_call call s)) ->
  (forall call, call ∈ calls -> ok call) -> I (state s) -> I (state (exec_calls calls s)).
Proof.
  intros Hstep. revert s. induction calls as [|call calls IH]; intros s Hcalls Hs; simpl; [done|].
  apply IH; [intros; apply Hcalls; by right|]. apply Hstep; [apply Hcalls; by left|done].
Qed.
End histories.

(** A relocation that fails, then a repair that succeeds although one write
    failed (the call is repeated) and its first attempt timed out. *)
Definition sample_history : list JournalCall :=
  [ Call_begin_session_relocation sample_relocation;
    Call_mark_session_relocation_target_starting "s" "op-move" 5;
    Call_fail_session_relocation "s" "op-move" RFR_PtySpawnFailed;
    Call_begin_task_worktree_repair sample_repair;
    Call_advance_task_worktree_repair "a" "op-repair" RS_RepairPrepared 6;
    Call_advance_task_worktree_repair "a" "op-repair" RS_RepairPrepared 6;
    Call_fail_task_worktree_repair "a" "op-repair" (MkWorktreeRepairFailure RF_Timeout [RB_Timeout]) 7;
    Call_advance_task_worktree_repair "a" "op-repair" RS_Verified 8;
    Call_complete_task_worktree_repair "a" "op-repair" 9 ].

Definition sample_store : Store :=
  MkStore sample_state 0 sample_state
    [Persisted 10; Persisted 11; Persisted 12; Persisted 13; PersistFailed "disk full"].

Example sample_history_repairs :
  let s := exec_calls (H := canonical_uuid) sample_history sample_store in
  (tw_path <$> (find_task (state s) "a" ≫= t_worktree)) = Some "/wt/moved"
  /\ revision (state s) = 8%N.
Proof. split; vm_compute; reflexivity. Qed.

Section claims.
Context `{UuidParser}.

(** C3: a state load-time validation accepts stays accepted along any history of
    journal calls: the worktree records are never invalid, no Task ever has two
    provisioning operations, no worktree method invalidates a running relocation
    and no relocation method leaves records the loader would refuse.  Repair
    failures are the callers': those must be well-formed, since
    [fail_task_worktree_repair] stores them unchecked. *)
Theorem journal_history_stays_loadable (calls : list JournalCall) (s : Store) :
  (forall call, call ∈ calls -> call_ok call) ->
  NoDup (po_task_id <$> provisioning_operations (state s)) ->
  worktree_records_are_invalid (state s) = false ->
  relocation_records_are_invalid (state s) = false ->
  NoDup (po_task_id <$> provisioning_operations (state (exec_calls calls s)))
  /\ worktree_records_are_invalid (state (exec_calls calls s)) = false
  /\ relocation_records_are_invalid (state (exec_calls calls s)) = false.
Proof.
  rewrite <- !relocation_records_valid. intros Hcalls Hnd Hv Hr.
  assert (journals_ok (state (exec_calls calls s))) as Hj.
  { apply (history_keeps journals_ok call_ok); [|done|by apply worktree_records_valid].
    intros call s' Hc Hok. by apply exec_call_keeps. }
  apply worktree_records_valid in Hj as [? ?]. split_and!; [done..|].
  apply (history_keeps relocations_ok (fun _ => True)); [|done|done].
  intros call s' _. apply exec_call_relocations.
Qed.
End claims.

(** ** Witnesses *)

Lemma journal_history_stays_loadable_witness :
  relocation_records_are_invalid (H := canonical_uuid)
    (state (exec_calls (H := canonical_uuid) sample_history sample_store)) = false.
Proof.
  apply (journal_history_stays_loadable (H := canonical_uuid)).
  - intros call Hin. unfold sample_history in Hin.
    repeat (apply elem_of_cons in Hin as [->|Hin]; [exact I || reflexivity|]).
    by apply elem_of_nil in Hin.
  - apply NoDup_nil_2.
  - vm_compute. reflexivity.
  - vm_compute. reflexivity.
Defined.
