(* ===== verification/WriteAhead.v ===== *)
(** * Histories: write-ahead intent and worktree generations

    Two facts no single call shows.  First, the journals are write-ahead: a
    receipt that attests an external effect (a removed checkout, a repaired
    registration) is only ever written after the intent to perform that effect
    was durable.  Second, a worktree generation names at most one checkout.

    Both are proved from what one call may change ([stepped]), which
    [run_step] computes from the code of each method. *)

From S2P Require Import Prelude Text Domain DomainRules StoreState WorktreeJournals SessionJournals.
From S2P Require Import Transactions JournalInvariant JournalPreservation Samples.

Local Open Scope string_scope.
Local Open Scope list_scope.

(** ** One call *)

(** The run relates the state before to the state after. *)
Definition stepped {A} (R : CurrentState -> CurrentState -> Prop) (s : Store)
    (r : result StoreError A * Store) : Prop := R (state s) (state r.2).

(** A relation that ignores what committing adds. *)
Class CommitStable (R : CurrentState -> CurrentState -> Prop) := {
  cs_refl : forall st, R st st;
  cs_committed : forall st st', R st st' -> R st (committed st')
}.

Section steps.
Context (R : CurrentState -> CurrentState -> Prop) `{!CommitStable R}.

Lemma stepped_install {A} s next (a : A) s' :
  R (state s) next -> stepped R s (install (state s) next a s').
Proof.
  intros Hn. unfold stepped. rewrite install_run.
  destruct (io s') as [|[] ?]; simpl; first [apply cs_refl | by apply cs_committed].
Qed.

Lemma stepped_install_revision s next s' :
  R (state s) next -> stepped R s (install_revision (state s) next s').
Proof.
  intros Hn. unfold stepped. rewrite install_revision_run.
  destruct (io s') as [|[] ?]; simpl; first [apply cs_refl | by apply cs_committed].
Qed.

Lemma stepped_erase {A} (m : StoreM A) s : stepped R s (m s) -> stepped R s (erase m s).
Proof. unfold stepped, erase, bind, ret. by destruct (m s) as [[] ?]. Qed.
End steps.

Ltac step_exit :=
  lazymatch goal with
  | |- stepped ?R ?s (Ok _, ?s) => apply (cs_refl (R := R))
  | |- stepped ?R ?s (Err _, ?s) => apply (cs_refl (R := R))
  | |- stepped _ _ (install _ _ _ _) => apply stepped_install; [exact _|]
  | |- stepped _ _ (install_revision _ _ _) => apply stepped_install_revision; [exact _|]
  end.
(** Runs every method; leaves one goal per state it may install. *)
Ltac step_all :=
  repeat first [step_exit | run_step]; cbn in *;
  try match goal with H : find_mut _ _ _ = None |- _ =>
    exfalso; apply find_mut_find in H; congruence end.

(** ** Write-ahead *)

Section write_ahead.
Context `{UuidParser}.
(** One journal: its entries, their operation IDs, the entries that record
    the intent ([early]) and those that record the effect ([late]), and the
    operation IDs of the receipts attesting the effect. *)
Context {A : Type} (entries : CurrentState -> list A) (id : A -> string)
  (early late : A -> Prop) (attested : CurrentState -> list string).

Definition write_ahead_step (st st' : CurrentState) : Prop :=
  (forall o', o' ∈ entries st' -> late o' ->
     exists o, o ∈ entries st /\ id o = id o' /\ (early o \/ late o))
  /\ (forall k, k ∈ attested st' ->
     k ∈ attested st \/ exists o, o ∈ entries st /\ id o = k /\ late o).

Context (Hstep : forall call s, stepped write_ahead_step s (exec_call call s)).

Lemma exec_calls_app calls calls' s :
  exec_calls (calls ++ calls') s = exec_calls calls' (exec_calls calls s).
Proof. revert s. induction calls as [|c calls IH]; intros s; simpl; auto. Qed.

(** The intent of operation [k] was durable at some point of the history. *)
Definition intended (calls : list JournalCall) (s : Store) (k : string) : Prop :=
  exists n o, o ∈ entries (state (exec_calls (take n calls) s)) /\ id o = k /\ early o.

Lemma intended_snoc calls call s k : intended calls s k -> intended (calls ++ [call]) s k.
Proof.
  intros (n & o & Ho & Hk & He). exists (min n (length calls)), o. split_and!; try done.
  rewrite take_app_le by lia. destruct (decide (n <= length calls)).
  - by rewrite Nat.min_l.
  - rewrite Nat.min_r by lia. rewrite take_ge in Ho by lia. by rewrite firstn_all.
Qed.

Lemma intended_now calls call s o :
  o ∈ entries (state (exec_calls calls s)) -> early o -> intended (calls ++ [call]) s (id o).
Proof.
  intros Ho He. exists (length calls), o. rewrite take_app_length. done.
Qed.

Lemma write_ahead calls s :
  (forall o, o ∈ entries (state s) -> ~ late o) -> attested (state s) = [] ->
  (forall o, o ∈ entries (state (exec_calls calls s)) -> late o -> intended calls s (id o))
  /\ (forall k, k ∈ attested (state (exec_calls calls s)) -> intended calls s k).
Proof.
  intros Hnone Hempty. induction calls as [|call calls [IHo IHk]] using rev_ind; simpl.
  { split; [intros o Ho Hl; by apply Hnone in Ho|]. rewrite Hempty. by intros k ?%elem_of_nil. }
  rewrite exec_calls_app. simpl. destruct (Hstep call (exec_calls calls s)) as [Ho Hk].
  split.
  - intros o' Hin Hl. destruct (Ho o' Hin Hl) as (o & Hin' & <- & [He|Hl']).
    + by apply intended_now.
    + by apply intended_snoc, IHo.
  - intros k Hin. destruct (Hk k Hin) as [Hin'|(o & Hin' & <- & Hl)].
    + by apply intended_snoc, IHk.
    + by apply intended_snoc, IHo.
Qed.
End write_ahead.

(** *** The three journals with external effects *)

Definition cleanup_step : CurrentState -> CurrentState -> Prop :=
  write_ahead_step cleanup_operations co_operation_id
    (fun o => co_stage o = CS_RemovePrepared) (fun o => co_stage o = CS_RemovalVerified)
    (fun st => cr_operation_id <$> retain (fun r => cr_outcome r == CO_Removed)
                                     (cleanup_receipts st)).

Definition repair_step : CurrentState -> CurrentState -> Prop :=
  write_ahead_step repair_operations ro_operation_id
    (fun o => ro_stage o = RS_RepairPrepared)
    (fun o => ro_stage o = RS_RepairInvoked \/ ro_stage o = RS_Verified)
    (fun st => rr_operation_id <$> repair_receipts st).

Definition stale_step : CurrentState -> CurrentState -> Prop :=
  write_ahead_step stale_resolution_operations so_operation_id
    (fun o => so_stage o = SS_RemovalPrepared)
    (fun o => so_stage o = SS_RemovalInvoked \/ so_stage o = SS_RemovalVerified)
    (fun st => sr_operation_id <$> retain (fun r => sr_mode r == SM_DiscardDirectory)
                                     (stale_resolution_receipts st)).

(** A step that leaves the journal and its receipts alone. *)
Lemma write_ahead_same {A} (entries : CurrentState -> list A) id early late attested st st' :
  entries st' = entries st -> attested st' = attested st ->
  write_ahead_step entries id early late attested st st'.
Proof.
  intros He Ha. split; rewrite ?He, ?Ha; [|by left].
  intros o Ho Hl. exists o. auto.
Qed.

(** Entries are removed, or replaced by one that shows no new effect. *)
Lemma write_ahead_entries {A} (entries : CurrentState -> list A) id early late attested st st' :
  attested st' = attested st ->
  (forall o', o' ∈ entries st' -> o' ∈ entries st \/
     (late o' -> exists o, o ∈ entries st /\ id o = id o' /\ (early o \/ late o))) ->
  write_ahead_step entries id early late attested st st'.
Proof.
  intros Ha He. split; [|rewrite Ha; by left].
  intros o' Ho Hl. destruct (He o' Ho) as [Hin|Hex]; [|by apply Hex]. exists o'. auto.
Qed.

Lemma write_ahead_stable {A} (entries : CurrentState -> list A) id early late attested :
  (forall st, entries (committed st) = entries st) ->
  (forall st, attested (committed st) = attested st) ->
  CommitStable (write_ahead_step entries id early late attested).
Proof.
  intros He Ha. split; [intros; by apply write_ahead_same|].
  intros st st' [Ho Hk]. split; rewrite ?He, ?Ha; done.
Qed.

Lemma committed_fields st :
  cleanup_operations (committed st) = cleanup_operations st
  /\ cleanup_receipts (committed st) = cleanup_receipts st
  /\ repair_operations (committed st) = repair_operations st
  /\ repair_receipts (committed st) = repair_receipts st
  /\ stale_resolution_operations (committed st) = stale_resolution_operations st
  /\ stale_resolution_receipts (committed st) = stale_resolution_receipts st
  /\ tasks (committed st) = tasks st.
Proof. unfold committed, prune_session_profiles. by destruct (session_agent_profiles st). Qed.

Ltac committed_field := intros st; destruct (committed_fields st) as (?&?&?&?&?&?&?); congruence.

#[export] Instance cleanup_step_stable : CommitStable cleanup_step.
Proof. apply write_ahead_stable; committed_field. Qed.
#[export] Instance repair_step_stable : CommitStable repair_step.
Proof. apply write_ahead_stable; committed_field. Qed.
#[export] Instance stale_step_stable : CommitStable stale_step.
Proof. apply write_ahead_stable; committed_field. Qed.

Ltac untouched_journal := apply write_ahead_same; reflexivity.

(** The entry found by [find] and the one edited through [iter_mut().find] are
    the same. *)
Ltac same_entry :=
  try open_find_mut;
  repeat match goal with
  | H : find_first ?p ?l = Some _, Hp : position ?p ?l = Some _ |- _ =>
      rewrite position_find, Hp in H; simplify_eq/=
  end.

(** Only the journal's entries changed: appended, deleted or edited. *)
Ltac entries_changed :=
  apply write_ahead_entries; [reflexivity|];
  let o := fresh "o" in let Ho := fresh "Ho" in
  intros o Ho; cbn in Ho;
  lazymatch type of Ho with
  | _ ∈ _ ++ [_] =>
      apply elem_of_app in Ho as [Ho|Ho]; [by left|right];
      apply list_elem_of_singleton in Ho; subst; guards; intros; exfalso; intuition congruence
  | _ ∈ delete _ _ => left; exact (list_elem_of_delete_inv _ _ _ Ho)
  | _ ∈ retain _ _ => left; by apply elem_of_retain in Ho
  | _ ∈ <[_ := _]> _ =>
      apply elem_of_insert_list in Ho as [Ho|Ho]; [right; subst|by left]
  end.

(** The edited entry shows an effect the entry before the edit accounts for. *)
Ltac edited_entry :=
  match goal with
  | Hp : position _ _ = Some (_, ?x) |- exists _, _ =>
      exists x; split; [eauto with slices|]; split; [reflexivity|]; auto
  | _ => idtac
  end.

Section journal_steps.
Context `{UuidParser}.

Lemma retry_stage_late o : cleanup_retry_stage o = CS_RemovalVerified -> co_stage o = CS_RemovalVerified.
Proof. unfold cleanup_retry_stage. by case_match. Qed.

Lemma cleanup_stepped call s : stepped cleanup_step s (exec_call call s).
Proof.
  destruct call; cbn [exec_call]; apply stepped_erase.
  all: unfold_journals; unfold complete_task_worktree_cleanup, checked_current_cleanup,
         current_cleanup; step_all.
  all: try untouched_journal; same_entry.
  all: try (entries_changed; cbn; intros Hl; edited_entry).
  - destruct (co_stage w), stage; simpl in *; try discriminate; auto.
  - right. by apply retry_stage_late.
  - guards. congruence.
  - split.
    + intros o [->|Ho]%elem_of_insert_list Hl; [discriminate Hl|]. exists o. auto.
    + intros k (r & -> & [Hr Hout]%elem_of_retain)%list_elem_of_fmap. cbn in Hr.
      apply elem_of_app in Hr as [[Hr _]%elem_of_retain | ->%list_elem_of_singleton].
      * left. apply list_elem_of_fmap_2, elem_of_retain. done.
      * right. exists w. guards. split_and!; [eauto with slices|done|].
        cbn in *. subst. by destruct (co_stage w).
Qed.

Lemma repair_stepped call s : stepped repair_step s (exec_call call s).
Proof.
  destruct call; cbn [exec_call]; apply stepped_erase.
  all: unfold_journals; unfold complete_task_worktree_cleanup, checked_current_cleanup,
         current_cleanup; step_all.
  all: try untouched_journal; same_entry.
  all: try (entries_changed; cbn; intros Hl; edited_entry).
  - unfold repair_recovering_verified in *.
    destruct Hl as [-> | ->]; destruct (ro_stage w), (is_some (ro_failure w));
      first [by auto | by vm_compute in Hcode4].
  - split.
    + intros o [Ho _]%elem_of_retain Hl. exists o. auto.
    + intros k (r & -> & [ [Hr _]%elem_of_retain | ->%list_elem_of_singleton ]%elem_of_app)
        %list_elem_of_fmap.
      * left. by apply list_elem_of_fmap_2.
      * right. exists w. guards. apply find_first_Some in Hcode as [Hin _]. auto.
Qed.

Lemma stale_stepped call s : stepped stale_step s (exec_call call s).
Proof.
  destruct call; cbn [exec_call]; apply stepped_erase.
  all: unfold_journals; unfold complete_task_worktree_cleanup, checked_current_cleanup,
         current_cleanup; step_all.
  all: try untouched_journal; same_entry.
  all: try (entries_changed; cbn; intros Hl; edited_entry).
  - guards. destruct Hl as [-> | ->], (so_stage w); auto; discriminate.
  - guards. destruct (so_stage w); auto; discriminate.
  - split.
    + intros o Ho Hl. exists o. split_and!; auto. exact (list_elem_of_delete_inv _ _ _ Ho).
    + intros k (r & -> & [Hr Hmode]%elem_of_retain)%list_elem_of_fmap. cbn in Hr.
      apply elem_of_app in Hr as [ [Hr _]%elem_of_retain | ->%list_elem_of_singleton ].
      * left. apply list_elem_of_fmap_2, elem_of_retain. done.
      * right. exists w. guards. cbn in Hmode.
        split_and!; [eauto with slices|done|]. right.
        match goal with E : so_stage w = stale_final_stage _ |- _ => rewrite E, Hmode end. done.
Qed.
End journal_steps.

(** ** Generations *)

(** A Task's generation never goes back, and under one generation its worktree
    binding can only be dropped. *)
Definition generations_step (st st' : CurrentState) : Prop :=
  forall task_id task, find_task st task_id = Some task ->
  exists task', find_task st' task_id = Some task'
  /\ (t_worktree_generation task <= t_worktree_generation task')%N
  /\ (t_worktree_generation task' = t_worktree_generation task ->
      t_worktree task' = t_worktree task \/ t_worktree task' = None).

#[export] Instance generations_step_stable : CommitStable generations_step.
Proof.
  split.
  - intros st task_id task Ht. exists task. split_and!; [done|lia|by left].
  - intros st st' Hs task_id task Ht. unfold find_task.
    destruct (committed_fields st') as (_&_&_&_&_&_& ->). by apply Hs.
Qed.

Lemma generations_same st st' : tasks st' = tasks st -> generations_step st st'.
Proof.
  intros Ht task_id task Hf. exists task. unfold find_task in *. rewrite Ht.
  split_and!; [done|lia|by left].
Qed.

(** One Task is rewritten. *)
Lemma generations_rewrite st st' task_id i task task' :
  position (fun task => t_id task == task_id) (tasks st) = Some (i, task) ->
  tasks st' = <[i := task']> (tasks st) -> t_id task' = task_id ->
  (t_worktree_generation task <= t_worktree_generation task')%N ->
  (t_worktree_generation task' = t_worktree_generation task -> t_worktree task' = None) ->
  generations_step st st'.
Proof.
  intros Hpos Et Hid Hle Hdrop other t Hf.
  destruct (position_task _ _ _ _ Hpos) as (Hfind & _ & _).
  destruct (decide (other = task_id)) as [->|Hne].
  - rewrite Hfind in Hf. simplify_eq. exists task'. split_and!; [|done|auto].
    by eapply find_task_same.
  - exists t. split_and!; [|lia|by left]. by erewrite find_task_other.
Qed.

Lemma generations_trans st1 st2 st3 :
  generations_step st1 st2 -> generations_step st2 st3 -> generations_step st1 st3.
Proof.
  intros H12 H23 task_id t1 Hf1.
  destruct (H12 _ _ Hf1) as (t2 & Hf2 & Hle12 & Hw12).
  destruct (H23 _ _ Hf2) as (t3 & Hf3 & Hle23 & Hw23).
  exists t3. split_and!; [done|lia|]. intros Heq.
  destruct Hw12 as [E12|E12], Hw23 as [E23|E23]; try lia; rewrite ?E23, ?E12; auto.
Qed.

Lemma ensure_repair_tuple_generation st o v task :
  ensure_repair_tuple st o = Ok v -> find_task st (ro_task_id o) = Some task ->
  t_worktree_generation task = ro_expected_worktree_generation o.
Proof.
  unfold ensure_repair_tuple, proof_changed. intros Ho Ht. rewrite Ht in Ho.
  destruct (find_proof _ _), (t_worktree task); try discriminate.
  case_match; [discriminate|]. by guards.
Qed.

Section generation_steps.
Context `{UuidParser}.

Lemma generations_stepped call s : stepped generations_step s (exec_call call s).
Proof.
  destruct call; cbn [exec_call]; apply stepped_erase.
  all: unfold_journals; unfold complete_task_worktree_cleanup, checked_current_cleanup,
         current_cleanup; step_all.
  all: try (apply generations_same; reflexivity).
  all: match goal with Hp : position _ (tasks _) = Some _ |- _ =>
         destruct (position_task _ _ _ _ Hp) as (Hfind & Hid & _);
         eapply generations_rewrite; [exact Hp | reflexivity | exact Hid | cbn | cbn] end.
  all: try match goal with Hc : u64_checked_add _ _ = Some _ |- _ =>
         apply u64_checked_add_Some in Hc as [-> _] end.
  all: try lia; try done.
  all: apply find_first_Some in Hcode as [_ Hw]; unfold is_repair in Hw; guards.
  all: assert (t_worktree_generation t = ro_expected_worktree_generation w)
         by (eapply ensure_repair_tuple_generation; [eassumption|congruence]).
  all: lia.
Qed.

Lemma generations_history calls s :
  generations_step (state s) (state (exec_calls calls s)).
Proof.
  revert s. induction calls as [|call calls IH]; intros s; simpl; [apply cs_refl|].
  eapply generations_trans; [apply generations_stepped|apply IH].
Qed.
End generation_steps.

(** ** Claims *)

Section claims.
Context `{UuidParser}.

(** Cleanup is write-ahead.  Starting without cleanup records, along any
    history of journal calls: a receipt saying a checkout was removed is only
    there if its operation was durably at [RemovePrepared] earlier in the
    history. *)
Lemma cleanup_is_write_ahead (calls : list JournalCall) (s : Store)
    (receipt : WorktreeCleanupReceipt) :
  cleanup_operations (state s) = [] -> cleanup_receipts (state s) = [] ->
  receipt ∈ cleanup_receipts (state (exec_calls calls s)) ->
  cr_outcome receipt = CO_Removed ->
  exists n o, o ∈ cleanup_operations (state (exec_calls (take n calls) s))
  /\ co_operation_id o = cr_operation_id receipt /\ co_stage o = CS_RemovePrepared.
Proof.
  intros Ho Hr Hin Hout.
  destruct (write_ahead _ _ _ _ _ cleanup_stepped calls s) as [_ Hk]; cbn.
  - rewrite Ho. by intros o ?%elem_of_nil.
  - by rewrite Hr.
  - apply Hk, list_elem_of_fmap_2, elem_of_retain. by rewrite bool_decide_eq_true.
Qed.

(** Repair is write-ahead: every repair receipt's operation was durably at
    [RepairPrepared] before it. *)
Lemma repair_is_write_ahead (calls : list JournalCall) (s : Store)
    (receipt : WorktreeRepairReceipt) :
  repair_operations (state s) = [] -> repair_receipts (state s) = [] ->
  receipt ∈ repair_receipts (state (exec_calls calls s)) ->
  exists n o, o ∈ repair_operations (state (exec_calls (take n calls) s))
  /\ ro_operation_id o = rr_operation_id receipt /\ ro_stage o = RS_RepairPrepared.
Proof.
  intros Ho Hr Hin.
  destruct (write_ahead _ _ _ _ _ repair_stepped calls s) as [_ Hk]; cbn.
  - rewrite Ho. by intros o ?%elem_of_nil.
  - by rewrite Hr.
  - by apply Hk, list_elem_of_fmap_2.
Qed.

(** Stale resolution is write-ahead: a receipt of a discarded directory's
    operation was durably at [RemovalPrepared] before it. *)
Lemma stale_resolution_is_write_ahead (calls : list JournalCall) (s : Store)
    (receipt : WorktreeStaleResolutionReceipt) :
  stale_resolution_operations (state s) = [] -> stale_resolution_receipts (state s) = [] ->
  receipt ∈ stale_resolution_receipts (state (exec_calls calls s)) ->
  sr_mode receipt = SM_DiscardDirectory ->
  exists n o, o ∈ stale_resolution_operations (state (exec_calls (take n calls) s))
  /\ so_operation_id o = sr_operation_id receipt /\ so_stage o = SS_RemovalPrepared.
Proof.
  intros Ho Hr Hin Hmode.
  destruct (write_ahead _ _ _ _ _ stale_stepped calls s) as [_ Hk]; cbn.
  - rewrite Ho. by intros o ?%elem_of_nil.
  - by rewrite Hr.
  - apply Hk, list_elem_of_fmap_2, elem_of_retain. by rewrite bool_decide_eq_true.
Qed.


End claims.

(** ** Witnesses *)

Definition removal_history : list JournalCall :=
  [ Call_begin_task_worktree_cleanup sample_cleanup;
    Call_advance_task_worktree_cleanup "a" "op-cleanup" CS_RemovePrepared 4;
    Call_advance_task_worktree_cleanup "a" "op-cleanup" CS_RemovalVerified 5;
    Call_complete_task_worktree_cleanup "a" "op-cleanup" 6 ].


