(* ===== verification/Replay.v ===== *)
(** * Replays and recovery

    What a client sees when it repeats a request whose answer it lost, and what
    start-up recovery leaves of the relocation journal. *)

From S2P Require Import Prelude Text Domain DomainRules StoreState WorktreeJournals SessionJournals.
From S2P Require Import Transactions JournalInvariant JournalPreservation Samples.
From S2P Require Import RelocationInvariant.

Local Open Scope string_scope.
Local Open Scope list_scope.

(** Looking an appended record up by an ID no earlier record has. *)
Lemma find_first_appended {A} (id : A -> string) (p : A -> bool) (l : list A) x k :
  (forall y, y ∈ l -> id y <> k) -> id x = k ->
  find_first (fun y => id y == k) (retain p l ++ [x]) = Some x.
Proof.
  intros Hnone Hx. rewrite find_first_app.
  destruct (find_first _ (retain p l)) as [y|] eqn:E.
  - apply find_first_Some in E as [[Hy _]%elem_of_retain Hk]. guards. by apply Hnone in Hy.
  - simpl. by rewrite bool_decide_eq_true_2.
Qed.

(** ** Cleanup *)

(** Two requests for the same cleanup. *)
Definition same_cleanup_request (a b : WorktreeCleanupOperation) : Prop :=
  co_task_id a = co_task_id b /\ co_operation_id a = co_operation_id b
  /\ co_worktree_generation a = co_worktree_generation b
  /\ co_managed_worktree_operation_id a = co_managed_worktree_operation_id b
  /\ co_cleanup_mode a = co_cleanup_mode b
  /\ co_acknowledged_content_blockers a = co_acknowledged_content_blockers b.

(** What completing a cleanup leaves for a replay to find. *)
Definition replayable_cleanup (op : WorktreeCleanupOperation) (c : CleanupCommit) (s : Store) : Prop :=
  find_first (fun r => cr_operation_id r == co_operation_id op) (cleanup_receipts (state s))
    = Some (cc_receipt c)
  /\ cr_task_id (cc_receipt c) = co_task_id op
  /\ cr_worktree_generation (cc_receipt c) = co_worktree_generation op
  /\ cr_managed_worktree_operation_id (cc_receipt c) = co_managed_worktree_operation_id op
  /\ cr_cleanup_mode (cc_receipt c) = co_cleanup_mode op
  /\ cr_acknowledged_content_blockers (cc_receipt c) = co_acknowledged_content_blockers op
  /\ ensure_cleanup_receipt_is_current (state s) (cc_receipt c) = Ok tt.

Lemma ensure_cleanup_tuple_generation st op v task :
  ensure_cleanup_tuple st op = Ok v -> find_task st (co_task_id op) = Some task ->
  t_worktree_generation task = co_worktree_generation op.
Proof.
  unfold ensure_cleanup_tuple, proof_changed. intros Ho Ht. rewrite Ht in Ho.
  destruct (find_proof _ _); try discriminate. case_match; [|discriminate]. by guards.
Qed.

(** The receipt is current: the Task has lost its binding and its proofs. *)
Lemma receipt_current st st' task_id i task now r :
  position (fun task => t_id task == task_id) (tasks st) = Some (i, task) ->
  tasks st' = <[i := unbound_task task now]> (tasks st) ->
  managed_worktrees st' = retain (fun proof => mw_task_id proof != task_id) (managed_worktrees st) ->
  cr_task_id r = task_id -> cr_worktree_generation r = t_worktree_generation task ->
  ensure_cleanup_receipt_is_current st' r = Ok tt.
Proof.
  intros Hpos Et Em Hid Hg. unfold ensure_cleanup_receipt_is_current. rewrite Hid.
  destruct (position_task _ _ _ _ Hpos) as (_ & Htid & _).
  erewrite find_task_same; [|exact Et|exact Hpos|done]. simpl.
  rewrite Hg, bool_decide_eq_true_2 by done. simpl. rewrite Em.
  assert (any (fun proof => mw_task_id proof == task_id)
    (retain (fun proof => mw_task_id proof != task_id) (managed_worktrees st)) = false) as ->; [|done].
  apply any_false. intros p [_ Hp]%elem_of_retain. by guards; apply bool_decide_eq_false.
Qed.

Lemma committed_current st r :
  ensure_cleanup_receipt_is_current (committed st) r = ensure_cleanup_receipt_is_current st r.
Proof.
  unfold ensure_cleanup_receipt_is_current, find_task, committed, prune_session_profiles.
  by destruct (session_agent_profiles st).
Qed.

Lemma committed_cleanup_receipts st : cleanup_receipts (committed st) = cleanup_receipts st.
Proof. unfold committed, prune_session_profiles. by destruct (session_agent_profiles st). Qed.

Lemma complete_cleanup_replayable s op now :
  current_cleanup (state s) (co_task_id op) (co_operation_id op) = Ok op ->
  (forall r, r ∈ cleanup_receipts (state s) -> cr_operation_id r <> co_operation_id op) ->
  post (replayable_cleanup op)
    (complete_task_worktree_cleanup (co_task_id op) (co_operation_id op) now s).
Proof.
  intros Hop Hfresh. unfold complete_task_worktree_cleanup, checked_current_cleanup.
  run_post.
  match goal with H : current_cleanup _ _ _ = Ok ?w |- _ => assert (w = op) as -> by congruence end.
  unfold replayable_cleanup; cbn [cc_receipt state].
  rewrite committed_cleanup_receipts, committed_current. cbn. split_and!; try done.
  - by apply find_first_appended.
  - match goal with H : position _ (tasks _) = Some (_, ?t) |- _ =>
      rename H into Hpos; rename t into task end.
    destruct (position_task _ _ _ _ Hpos) as (Hfind & _ & _).
    eapply (receipt_current (state s)); [exact Hpos|done|done|done|]. cbn.
    symmetry. by eapply ensure_cleanup_tuple_generation.
Qed.

Lemma begin_cleanup_replay s op request c :
  replayable_cleanup op c s -> same_cleanup_request request op ->
  validate_cleanup_intent (co_cleanup_mode op) (co_acknowledged_content_blockers op) = Ok tt ->
  begin_task_worktree_cleanup request s = (Ok (CleanupCompleted (cc_receipt c)), s).
Proof.
  intros (Hfind & E1 & E2 & E3 & E4 & E5 & Hcur) (F1 & F2 & F3 & F4 & F5 & F6) Hintent.
  unfold begin_task_worktree_cleanup, get_state, gets, bind at 1, lift at 1.
  unfold bind at 1. rewrite F5, F6, Hintent, F2, Hfind, E1, E2, E3, E4, E5, F1, F3, F4.
  rewrite !bool_decide_eq_true_2 by done. simpl. unfold bind, lift. by rewrite Hcur.
Qed.

(** ** Recovery of relocations *)

Lemma committed_relocations st :
  session_relocation_operations (committed st) = session_relocation_operations st
  /\ sessions (committed st) = sessions st.
Proof. unfold committed, prune_session_profiles. by destruct (session_agent_profiles st). Qed.

Section recovery.
Context `{UuidParser}.

(** The Session an operation names is the one it was journaled for. *)
Lemma relocation_matches_session st o :
  relocation_matches st o ->
  exists session, find_session st (rlo_session_id o) = Some session
  /\ s_project_id session = rlo_project_id o
  /\ pd_cwd (s_process session) = rlo_source_cwd o
  /\ s_runtime_epoch session = rlo_source_runtime_epoch o.
Proof.
  unfold relocation_matches, relocation_operation_mismatch. intros Hm.
  destruct (find_session st (rlo_session_id o)) as [session|]; simpl in Hm; guards.
  by exists session.
Qed.

(** The successful branch of [fail_session_relocation]. *)
Lemma fail_relocation_run s session_id operation_id failure j o i session :
  position (is_relocation session_id operation_id) (session_relocation_operations (state s))
    = Some (j, o) ->
  position (fun session => s_id session == session_id) (sessions (state s)) = Some (i, session) ->
  s_project_id session = rlo_project_id o -> pd_cwd (s_process session) = rlo_source_cwd o ->
  s_runtime_epoch session = rlo_source_runtime_epoch o ->
  fail_session_relocation session_id operation_id failure s =
  install (state s)
    ((state s) <| sessions := <[i := failed_session session failure]> (sessions (state s)) |>
               <| session_relocation_operations :=
                    delete j (session_relocation_operations (state s)) |>)
    (failed_session session failure) s.
Proof.
  intros Ho Hs Hp Hc He.
  unfold fail_session_relocation, get_state, gets, bind, lift, refuse_if, ret. cbn.
  rewrite Ho. cbn. rewrite Hs. cbn. rewrite Hp, Hc, He, !bool_decide_eq_true_2 by done. done.
Qed.

(** Failing the first journaled operation, on a healthy disk. *)
Lemma fail_first_relocation s o rest failure :
  relocations_ok (state s) -> io_healthy s ->
  session_relocation_operations (state s) = o :: rest ->
  exists session s',
    find_session (state s) (rlo_session_id o) = Some session
    /\ fail_session_relocation (rlo_session_id o) (rlo_operation_id o) failure s
       = (Ok (failed_session session failure), s')
    /\ relocations_ok (state s') /\ io_healthy s'
    /\ session_relocation_operations (state s') = rest
    /\ find_session (state s') (rlo_session_id o) = Some (failed_session session failure)
    /\ (forall other, other <> rlo_session_id o ->
        find_session (state s') other = find_session (state s) other).
Proof.
  intros Hrl Hio Hops.
  destruct (relocation_matches_session (state s) o) as (session & Hfind & Hp & Hc & He).
  { apply Hrl. rewrite Hops. by left. }
  pose proof (fail_relocation_keeps s (rlo_session_id o) (rlo_operation_id o) failure Hrl) as Hkeep.
  unfold find_session in Hfind. rewrite position_find in Hfind.
  destruct (position _ (sessions (state s))) as [[i session']|] eqn:Hpos; simplify_eq/=.
  destruct (position_session _ _ _ _ Hpos) as [Hfind Hsid].
  assert (position (is_relocation (rlo_session_id o) (rlo_operation_id o))
    (session_relocation_operations (state s)) = Some (0, o)) as Hop.
  { rewrite Hops. cbn. unfold is_relocation. by rewrite !bool_decide_eq_true_2. }
  rewrite (fail_relocation_run s _ _ failure 0 o i session Hop Hpos Hp Hc He) in Hkeep |- *.
  match goal with |- context [install ?p ?next ?a s] =>
    destruct (install_healthy p next a s Hio) as (s' & Hrun & Hst & Hio');
    destruct (committed_relocations next) as [Eo Es] end.
  rewrite Hrun in Hkeep |- *. exists session, s'. rewrite <- Hst in Eo, Es.
  split_and!; try done.
  - rewrite Eo. cbn. by rewrite Hops.
  - eapply (find_session_same (state s)); [exact Es|exact Hpos|done].
  - intros other Hne.
    eapply (find_session_other (state s)); [exact Es|exact Hpos|done|exact Hne].
Qed.

(** The whole loop. *)
Lemma reconcile_loop ops s :
  relocations_ok (state s) -> io_healthy s -> session_relocation_operations (state s) = ops ->
  exists s', for_each ops (fun operation =>
      let! _ := fail_session_relocation (rlo_session_id operation) (rlo_operation_id operation)
                  RFR_DaemonInterrupted in ret tt) s = (Ok tt, s')
    /\ relocations_ok (state s') /\ session_relocation_operations (state s') = []
    /\ (forall o, o ∈ ops -> exists session,
          find_session (state s) (rlo_session_id o) = Some session
          /\ find_session (state s') (rlo_session_id o)
             = Some (failed_session session RFR_DaemonInterrupted))
    /\ (forall other, other ∉ rlo_session_id <$> ops ->
          find_session (state s') other = find_session (state s) other).
Proof.
  revert s. induction ops as [|o ops IH]; intros s Hrl Hio Hops.
  { exists s. split_and!; try done. by intros o ?%elem_of_nil. }
  destruct (fail_first_relocation s o ops RFR_DaemonInterrupted Hrl Hio Hops)
    as (session & s1 & Hf & Hrun & Hrl1 & Hio1 & Hops1 & Hf1 & Hoth1).
  destruct (IH s1 Hrl1 Hio1 Hops1) as (s2 & Hrun2 & Hrl2 & Hops2 & Hdone2 & Hoth2).
  pose proof (rl_sessions _ Hrl) as Hnd. rewrite Hops in Hnd. cbn in Hnd.
  apply list.NoDup_cons in Hnd as [Hfresh _].
  exists s2. split_and!; try done.
  - cbn [for_each]. unfold bind at 1 2. rewrite Hrun. exact Hrun2.
  - intros o' [->|Ho']%elem_of_cons.
    + exists session. split; [done|]. by rewrite Hoth2.
    + destruct (Hdone2 o' Ho') as (session' & Hs1 & Hs2). exists session'. split; [|done].
      rewrite <- Hs1. symmetry. apply Hoth1. intros Heq. apply Hfresh.
      rewrite <- Heq. by apply list_elem_of_fmap_2.
  - intros other Hno. cbn in Hno. apply not_elem_of_cons in Hno as [? ?].
    rewrite Hoth2, Hoth1; done.
Qed.
End recovery.

(** ** Claims *)

(** Completing a cleanup answers its replays.  A client that repeats the
    request of a completed cleanup, whatever stage and times it writes into it,
    gets the receipt, and the store is left untouched. *)
Theorem completed_cleanup_replays (s s' : Store) (op request : WorktreeCleanupOperation)
    (c : CleanupCommit) (now : N) :
  current_cleanup (state s) (co_task_id op) (co_operation_id op) = Ok op ->
  (forall r, r ∈ cleanup_receipts (state s) -> cr_operation_id r <> co_operation_id op) ->
  validate_cleanup_intent (co_cleanup_mode op) (co_acknowledged_content_blockers op) = Ok tt ->
  complete_task_worktree_cleanup (co_task_id op) (co_operation_id op) now s = (Ok c, s') ->
  same_cleanup_request request op ->
  begin_task_worktree_cleanup request s' = (Ok (CleanupCompleted (cc_receipt c)), s').
Proof.
  intros Hop Hfresh Hintent Hrun Hsame. apply (begin_cleanup_replay _ op); [|done|done].
  exact (post_ok _ _ _ _ (complete_cleanup_replayable s op now Hop Hfresh) Hrun).
Qed.

(** Start-up recovery of relocations.  On a store whose relocation records
    the loader accepts and whose disk works, [reconcile_session_relocations]
    succeeds, leaves no relocation in flight and records the loader still
    accepts; every Session that was being relocated is at [resumeFailed] with
    reason [DaemonInterrupted], retryable and still at its source directory,
    and every other Session is untouched. *)
Theorem reconcile_recovers_relocations `{UuidParser} (s : Store) :
  relocation_records_are_invalid (state s) = false -> io_healthy s ->
  exists s', reconcile_session_relocations s = (Ok tt, s')
  /\ relocation_records_are_invalid (state s') = false
  /\ session_relocation_operations (state s') = []
  /\ (forall o, o ∈ session_relocation_operations (state s) -> exists session,
        find_session (state s) (rlo_session_id o) = Some session
        /\ find_session (state s') (rlo_session_id o)
           = Some (failed_session session RFR_DaemonInterrupted))
  /\ (forall other, other ∉ rlo_session_id <$> session_relocation_operations (state s) ->
        find_session (state s') other = find_session (state s) other).
Proof.
  rewrite <- relocation_records_valid. intros Hrl Hio.
  destruct (reconcile_loop _ s Hrl Hio eq_refl) as (s' & Hrun & Hrl' & Hops & Hdone & Hoth).
  exists s'. rewrite <- relocation_records_valid. done.
Qed.

(** ** Witnesses *)

Definition verified_cleanup : WorktreeCleanupOperation :=
  sample_cleanup <| co_stage := CS_RemovalVerified |>.

Lemma completed_cleanup_replays_witness :
  let s := store_of (sample_state <| cleanup_operations := [verified_cleanup] |>) in
  let run := complete_task_worktree_cleanup "a" "op-cleanup" 9 s in
  exists c, run.1 = Ok c /\ cr_outcome (cc_receipt c) = CO_Removed
  /\ begin_task_worktree_cleanup sample_cleanup run.2
     = (Ok (CleanupCompleted (cc_receipt c)), run.2).
Proof.
  eexists. split; [vm_compute; reflexivity|]. split; [reflexivity|].
  apply (completed_cleanup_replays
    (store_of (sample_state <| cleanup_operations := [verified_cleanup] |>)) _
    verified_cleanup sample_cleanup _ 9).
  - reflexivity.
  - intros r Hr. by apply elem_of_nil in Hr.
  - reflexivity.
  - vm_compute. reflexivity.
  - repeat split.
Defined.

Lemma reconcile_recovers_relocations_witness :
  let st := sample_state <| session_relocation_operations := [sample_relocation] |>
              <| sessions := [relocating_session sample_session] |> in
  exists s', reconcile_session_relocations (store_of st) = (Ok tt, s')
  /\ session_relocation_operations (state s') = [].
Proof.
  edestruct (reconcile_recovers_relocations (H := canonical_uuid) (store_of
    (sample_state <| session_relocation_operations := [sample_relocation] |>
              <| sessions := [relocating_session sample_session] |>)))
    as (s' & Hrun & _ & Hops & _).
  - vm_compute. reflexivity.
  - intros o Ho. by apply elem_of_nil in Ho.
  - exists s'. exact (conj Hrun Hops).
Defined.
