(* ===== verification/ArchiveRoundTrip.v ===== *)
(** * Loops of the archive journals

    The archive methods mutate the state in loops that may return early; here
    each loop is shown to run to its end under the conditions its method has
    checked or load-time validation guarantees, and its effect is computed.  On top of them, the round trip of archiving and
    restoring, and three concrete states that the methods reach. *)

From S2P Require Import Prelude Text Domain DomainRules StoreState WorktreeJournals SessionJournals.
From S2P Require Import Transactions JournalInvariant Samples.

Local Open Scope string_scope.
Local Open Scope list_scope.

(** ** Loops that only touch Sessions and suspensions *)

(** [st'] differs from [st] at most in its Sessions and suspensions. *)
Definition parks (st st' : CurrentState) : Prop :=
  st' = st <| sessions := sessions st' |>
           <| task_archive_suspensions := task_archive_suspensions st' |>.

#[export] Instance parks_preorder : PreOrder parks.
Proof.
  split; [by intros []|]. intros [] [] []; unfold parks; cbn. intros H1 H2.
  injection H1; injection H2; intros; subst; reflexivity.
Qed.

Lemma parks_fields st st' :
  parks st st' ->
  revision st' = revision st /\ tasks st' = tasks st /\ projects st' = projects st
  /\ task_archive_operations st' = task_archive_operations st
  /\ tracker_configurations st' = tracker_configurations st
  /\ managed_worktrees st' = managed_worktrees st.
Proof. by intros ->. Qed.

Lemma set_state_twice (s : Store) a b : s <| state := a |> <| state := b |> = s <| state := b |>.
Proof. done. Qed.

(** A loop whose every iteration succeeds under an invariant [P] of the state
    and the elements still to come. *)
Lemma for_each_run {A} (body : A -> StoreM unit) (f : A -> CurrentState -> CurrentState)
    (P : list A -> CurrentState -> Prop) xs s :
  (forall x rest s, P (x :: rest) (state s) ->
     body x s = (Ok tt, s <| state := f x (state s) |>) /\ P rest (f x (state s))) ->
  P xs (state s) ->
  for_each xs body s = (Ok tt, s <| state := foldl (fun st x => f x st) (state s) xs |>)
  /\ P [] (foldl (fun st x => f x st) (state s) xs).
Proof.
  intros Hstep. revert s. induction xs as [|x xs IH]; intros s HP.
  { split; [by destruct s|done]. }
  destruct (Hstep x xs s HP) as [Hrun HP'].
  destruct (IH (s <| state := f x (state s) |>)) as [Hloop Hend]; [exact HP'|].
  split; [|exact Hend].
  cbn [for_each]. unfold bind. rewrite Hrun. exact Hloop.
Qed.

(** The same for a loop with an accumulator: the effect of one iteration on the
    state and on the accumulator. *)
Definition loop_step {A L} (f : A -> CurrentState -> CurrentState)
    (g : A -> CurrentState -> L -> L) (p : CurrentState * L) (x : A) : CurrentState * L :=
  (f x p.1, g x p.1 p.2).

Lemma loop_step_state {A L} f (g : A -> CurrentState -> L -> L) xs p :
  (foldl (loop_step f g) p xs).1 = foldl (fun st x => f x st) p.1 xs.
Proof. revert p. induction xs as [|x xs IH]; intros p; simpl; [done|]. apply IH. Qed.

Lemma for_fold_run {A L} (body : L -> A -> StoreM L) (f : A -> CurrentState -> CurrentState)
    (g : A -> CurrentState -> L -> L) (P : list A -> CurrentState -> Prop) xs acc s :
  (forall x rest acc s, P (x :: rest) (state s) ->
     body acc x s = (Ok (g x (state s) acc), s <| state := f x (state s) |>)
     /\ P rest (f x (state s))) ->
  P xs (state s) ->
  for_fold xs acc body s =
  (Ok (foldl (loop_step f g) (state s, acc) xs).2,
   s <| state := foldl (fun st x => f x st) (state s) xs |>).
Proof.
  intros Hstep. revert acc s. induction xs as [|x xs IH]; intros acc s HP; [by destruct s|].
  destruct (Hstep x xs acc s HP) as [Hrun HP'].
  cbn [for_fold]. unfold bind. rewrite Hrun. by rewrite IH.
Qed.

Lemma foldl_parks {A} (f : A -> CurrentState -> CurrentState) xs st :
  (forall x st, parks st (f x st)) -> parks st (foldl (fun st x => f x st) st xs).
Proof.
  intros Hf. revert st. induction xs as [|x xs IH]; intros st; simpl; [reflexivity|].
  etrans; [apply Hf|apply IH].
Qed.

(** ** Editing one Session in place *)

(** [iter_mut().find(|session| session.id == id)], when the Session is there. *)
Definition edit_session (id : string) (f : SessionRecord -> SessionRecord) (l : list SessionRecord)
  : list SessionRecord :=
  match find_mut (fun session => s_id session == id) f l with
  | Some (_, l') => l'
  | None => l
  end.

Section edit_session.
Context (id : string) (f : SessionRecord -> SessionRecord) (Hf : forall x, s_id (f x) = s_id x).

Lemma edit_session_ids l : s_id <$> edit_session id f l = s_id <$> l.
Proof.
  unfold edit_session. rewrite find_mut_position.
  destruct (position _ l) as [[i x]|] eqn:E; [|done].
  apply position_Some in E as [Hi _]. eapply fmap_insert_same; [exact Hi|apply Hf].
Qed.

Lemma edit_session_find l other :
  find_first (fun session => s_id session == other) (edit_session id f l) =
  if decide (other = id)
  then f <$> find_first (fun session => s_id session == id) l
  else find_first (fun session => s_id session == other) l.
Proof.
  unfold edit_session. rewrite find_mut_position.
  rewrite (position_find (fun session => s_id session == id) l).
  destruct (position (fun session => s_id session == id) l) as [[i x]|] eqn:E; simpl.
  - apply position_Some in E as E'. destruct E' as [_ Hx]. guards.
    by rewrite (find_first_insert_key s_id l i x (f x) id other E) by (by rewrite Hf).
  - case_decide; [|done]. subst. by rewrite position_find, E.
Qed.
End edit_session.

Lemma session_found st id :
  id ∈ s_id <$> sessions st -> exists session, find_session st id = Some session.
Proof.
  intros (x & -> & Hx)%list_elem_of_fmap. unfold find_session.
  destruct (find_first _ (sessions st)) as [y|] eqn:E; [by exists y|].
  rewrite find_first_None in E. specialize (E x Hx). guards. done.
Qed.

Lemma find_mut_edit st id f :
  id ∈ s_id <$> sessions st ->
  exists session, find_mut (fun session => s_id session == id) f (sessions st)
    = Some (f session, edit_session id f (sessions st)) /\ find_session st id = Some session.
Proof.
  intros Hin. destruct (session_found st id Hin) as [session Hs]. exists session.
  split; [|done]. unfold edit_session, find_session in *.
  rewrite position_find in Hs. rewrite find_mut_position.
  destruct (position _ (sessions st)) as [[i x]|]; by simplify_eq/=.
Qed.

(** ** Archiving a Task: the suspending loop *)

Definition suspend_session (target : TaskArchiveTarget) (session : SessionRecord) : SessionRecord :=
  if tat_was_live_agent target
  then session <| s_lifecycle_state := "exited" |> <| s_resume_failure := None |>
  else session.

Definition suspension_of (task_id : string) (now : N) (target : TaskArchiveTarget)
  : TaskArchiveSuspension :=
  {| sus_task_id := Some task_id; sus_session_id := tat_session_id target;
     sus_archived_at_epoch_ms := now;
     sus_prior_lifecycle_state := tat_prior_lifecycle_state target;
     sus_prior_resume_failure := tat_prior_resume_failure target; sus_reason := TSR_Archived |}.

(** The effect of one iteration. *)
Definition suspended (task_id : string) (now : N) (target : TaskArchiveTarget) (st : CurrentState)
  : CurrentState :=
  st <| sessions := edit_session (tat_session_id target) (suspend_session target) (sessions st) |>
     <| task_archive_suspensions :=
          task_archive_suspensions st ++ [suspension_of task_id now target] |>.

Lemma suspend_session_id target x : s_id (suspend_session target x) = s_id x.
Proof. unfold suspend_session. by case_match. Qed.

Lemma suspended_parks task_id now target st : parks st (suspended task_id now target st).
Proof. by destruct st. Qed.

(** Every target still to come has its Session. *)
Definition targets_found (targets : list TaskArchiveTarget) (st : CurrentState) : Prop :=
  forall target, target ∈ targets -> tat_session_id target ∈ s_id <$> sessions st.

Lemma suspend_loop task_id now targets s :
  targets_found targets (state s) ->
  for_each targets (suspend_target task_id now) s =
  (Ok tt, s <| state := foldl (fun st t => suspended task_id now t st) (state s) targets |>).
Proof.
  intros Hfound. apply (for_each_run _ (suspended task_id now) targets_found); [|done].
  clear. intros target rest s Hf. split.
  - destruct (find_mut_edit (state s) (tat_session_id target) (suspend_session target))
      as (session & Hmut & _); [apply Hf; by left|].
    unfold suspend_target, get_state, gets, bind. fold (suspend_session target).
    change (fun session0 : SessionRecord => if tat_was_live_agent target then _ else session0)
      with (suspend_session target).
    rewrite Hmut. done.
  - intros t Ht. cbn. rewrite edit_session_ids by apply suspend_session_id.
    apply Hf. by right.
Qed.

(** The check [commit_task_archive] makes before its loop. *)
Lemma targets_checked st op (sus : TaskArchiveTarget -> bool) :
  any (fun target => sus target
         || negb (any (fun session => (s_id session == tat_session_id target)
              && (s_project_id session == tao_project_id op)
              && (s_runtime_epoch session == tat_runtime_epoch target)) (sessions st)))
      (tao_targets op) = false ->
  targets_found (tao_targets op) st.
Proof.
  rewrite any_false. intros Hchk target Hin. specialize (Hchk target Hin).
  apply orb_false_iff in Hchk as [_ Hs]. guards.
  apply any_true in Hs as (session & Hses & Hid). guards.
  match goal with E : s_id session = _ |- _ => rewrite <- E end. by apply list_elem_of_fmap_2.
Qed.

Lemma commit_task_archive_transaction s task_id operation_id now :
  transaction s (commit_task_archive task_id operation_id now s).
Proof.
  unfold commit_task_archive. tx.
  match goal with H : _ || any _ _ = false |- _ => apply orb_false_iff in H as [_ Hchk] end.
  apply targets_checked in Hchk.
  rewrite bind_run, (suspend_loop _ _ _ _ Hchk). tx.
  apply install_revision_transaction. cbn.
  by apply parks_fields, (foldl_parks (suspended task_id now)), suspended_parks.
Qed.

(** ** Un-suspending *)

(** What load-time validation guarantees of suspensions: each names an existing
    Session, and no Session is suspended twice. *)
Definition suspensions_ok (st : CurrentState) : Prop :=
  (forall sus, sus ∈ task_archive_suspensions st -> sus_session_id sus ∈ s_id <$> sessions st)
  /\ NoDup (sus_session_id <$> task_archive_suspensions st).

Lemma any_with_rest_split {A} (f : A -> bool) (g : A -> list A -> bool) l :
  any_with_rest (fun x rest => f x || g x rest) l = any f l || any_with_rest g l.
Proof.
  induction l as [|x l IH]; simpl; [done|]. rewrite IH.
  destruct (f x), (g x l), (any f l); simpl; rewrite ?orb_true_r; done.
Qed.

Lemma archive_records_suspensions st :
  archive_records_are_invalid st = false -> suspensions_ok st.
Proof.
  unfold archive_records_are_invalid. rewrite !orb_false_iff. intros [_ Hs].
  unfold suspension_is_invalid in Hs.
  rewrite any_with_rest_split, orb_false_iff in Hs. destruct Hs as [Hf Hd]. split.
  - intros sus Hin. rewrite any_false in Hf. specialize (Hf sus Hin).
    destruct (find_session st (sus_session_id sus)) as [session|] eqn:E; [|discriminate].
    pose proof (find_first_key s_id _ _ _ E) as <-.
    apply list_elem_of_fmap_2. by apply find_first_Some in E as [? _].
  - by apply any_with_rest_NoDup.
Qed.

(** One iteration of a loop that takes a Session's suspension out, selected by
    [sel], and edits the Session by [f]. *)
Definition unsuspended (sel : TaskArchiveSuspension -> bool)
    (f : TaskArchiveSuspension -> CurrentState -> SessionRecord -> SessionRecord)
    (session_id : string) (st : CurrentState) : CurrentState :=
  match position (fun sus => (sus_session_id sus == session_id) && sel sus)
          (task_archive_suspensions st) with
  | Some (i, sus) =>
      st <| task_archive_suspensions := delete i (task_archive_suspensions st) |>
         <| sessions := edit_session session_id (f sus st) (sessions st) |>
  | None => st
  end.

(** The Sessions still to come have a selected suspension and exist. *)
Definition unsuspendable (sel : TaskArchiveSuspension -> bool) (ids : list string)
    (st : CurrentState) : Prop :=
  NoDup ids /\
  forall id, id ∈ ids -> id ∈ s_id <$> sessions st
  /\ exists sus, sus ∈ task_archive_suspensions st /\ sus_session_id sus = id /\ sel sus = true.

Lemma position_is_Some {A} (p : A -> bool) l x :
  x ∈ l -> p x = true -> exists i y, position p l = Some (i, y).
Proof.
  intros Hx Hp. destruct (position p l) as [[i y]|] eqn:E; [by exists i, y|].
  assert (find_first p l = None) as Hn by (by rewrite position_find, E).
  rewrite find_first_None in Hn. specialize (Hn x Hx). congruence.
Qed.

(** Deleting the entry at [i] keeps every element with another key. *)
Lemma elem_of_delete_other {A} (l : list A) i x y :
  l !! i = Some x -> y ∈ l -> y <> x -> y ∈ delete i l.
Proof.
  intros Hi Hy Hne. rewrite delete_take_drop. apply elem_of_app.
  rewrite <- (take_drop_middle l i x Hi) in Hy.
  apply elem_of_app in Hy as [?|[?|?]%elem_of_cons]; [by left|done|by right].
Qed.

Section unsuspend.
Context (sel : TaskArchiveSuspension -> bool)
  (f : TaskArchiveSuspension -> CurrentState -> SessionRecord -> SessionRecord)
  (Hf : forall sus st x, s_id (f sus st x) = s_id x).

Lemma unsuspended_parks id st : parks st (unsuspended sel f id st).
Proof. unfold unsuspended. destruct (position _ _) as [[]|]; [by destruct st|reflexivity]. Qed.

Lemma unsuspendable_step id ids st :
  unsuspendable sel (id :: ids) st -> unsuspendable sel ids (unsuspended sel f id st).
Proof.
  intros [Hnd Hids]. apply list.NoDup_cons in Hnd as [Hfresh Hnd]. split; [done|].
  intros other Hother. destruct (Hids other) as (Hs & sus & Hin & Hid & Hsel); [by right|].
  unfold unsuspended. destruct (position _ _) as [[i x]|] eqn:Hpos; [|by eauto]. cbn. split.
  - by rewrite edit_session_ids.
  - exists sus. split_and!; try done. apply position_Some in Hpos as [Hi Hx]. guards.
    eapply elem_of_delete_other; [exact Hi|done|]. intros ->. congruence.
Qed.
End unsuspend.

(** The accumulator of both loops: the Sessions that were running. *)
Definition collect_running (sel : TaskArchiveSuspension -> bool) (session_id : string)
    (st : CurrentState) (resumable : list string) : list string :=
  match position (fun sus => (sus_session_id sus == session_id) && sel sus)
          (task_archive_suspensions st) with
  | Some (_, sus) =>
      if sus_prior_lifecycle_state sus == "running" then resumable ++ [session_id] else resumable
  | None => resumable
  end.

Definition restore_effect (sus : TaskArchiveSuspension) (_ : CurrentState) (session : SessionRecord)
  : SessionRecord := restored_session session sus.

Lemma restored_session_id session sus : s_id (restored_session session sus) = s_id session.
Proof. unfold restored_session. by case_match. Qed.

Lemma restore_one_run task_id resumable session_id rest s :
  unsuspendable (suspension_of_task task_id) (session_id :: rest) (state s) ->
  restore_one task_id resumable session_id s =
  (Ok (collect_running (suspension_of_task task_id) session_id (state s) resumable),
   s <| state := unsuspended (suspension_of_task task_id) restore_effect session_id (state s) |>).
Proof.
  intros [_ Hids]. destruct (Hids session_id) as (Hs & sus & Hin & Hid & Hsel); [by left|].
  destruct (position_is_Some (fun sus => (sus_session_id sus == session_id)
    && suspension_of_task task_id sus) _ _ Hin) as (i & found & Hpos).
  { by rewrite Hid, bool_decide_eq_true_2. }
  destruct (find_mut_edit (state s) session_id (restore_effect found (state s)) Hs)
    as (session & Hmut & _).
  unfold restore_one, unsuspended, collect_running, get_state, gets, modify_state, modify, bind, lift.
  rewrite Hpos. cbn. unfold restore_effect in Hmut. rewrite Hmut. cbn. done.
Qed.

Lemma restore_loop task_id session_ids s :
  unsuspendable (suspension_of_task task_id) session_ids (state s) ->
  for_fold session_ids [] (restore_one task_id) s =
  (Ok (foldl (loop_step (unsuspended (suspension_of_task task_id) restore_effect)
               (collect_running (suspension_of_task task_id))) (state s, []) session_ids).2,
   s <| state := foldl (fun st id =>
     unsuspended (suspension_of_task task_id) restore_effect id st) (state s) session_ids |>).
Proof.
  intros Hun. apply (for_fold_run _ _ _ (unsuspendable (suspension_of_task task_id))); [|done].
  clear. intros id rest acc s Hun. split; [by eapply restore_one_run|].
  apply unsuspendable_step; [intros; apply restored_session_id|done].
Qed.

Lemma restore_task_archive_transaction s task_id session_ids now :
  suspensions_ok (state s) -> NoDup session_ids ->
  transaction s (restore_task_archive task_id session_ids now s).
Proof.
  intros [Hsess Hnd] Hids. unfold restore_task_archive. tx.
  match goal with H : any _ session_ids = false |- _ => rename H into Hchk end.
  rewrite any_false in Hchk.
  assert (unsuspendable (suspension_of_task task_id) session_ids (state s)) as Hun.
  { split; [done|]. intros id Hin. specialize (Hchk id Hin). guards.
    apply any_true in Hchk as (sus & Hsus & Hp). guards. subst.
    split; [by apply Hsess|]. by exists sus. }
  rewrite bind_run, (restore_loop _ _ _ Hun). tx. apply install_transaction. cbn.
  apply parks_fields, (foldl_parks (unsuspended (suspension_of_task task_id) restore_effect)).
  intros. apply unsuspended_parks.
Qed.

(** ** Reopening *)

Definition reopen_effect (relocated recreated : option string) (sus : TaskArchiveSuspension)
    (st : CurrentState) (session : SessionRecord) : SessionRecord :=
  reopened_session session sus relocated recreated
    (match recreated with Some cwd => current_worktree_guard st cwd | None => None end).

Lemma reopen_effect_id relocated recreated sus st session :
  s_id (reopen_effect relocated recreated sus st session) = s_id session.
Proof.
  unfold reopen_effect, reopened_session. rewrite restored_session_id.
  destruct (sus_reason sus), relocated, recreated; done.
Qed.

Lemma reopen_loop task_id relocated recreated session_ids s :
  unsuspendable (parked_for task_id) session_ids (state s) ->
  for_fold session_ids [] (reopen_one task_id relocated recreated) s =
  (Ok (foldl (loop_step (unsuspended (parked_for task_id) (reopen_effect relocated recreated))
               (collect_running (parked_for task_id))) (state s, []) session_ids).2,
   s <| state := foldl (fun st id =>
     unsuspended (parked_for task_id) (reopen_effect relocated recreated) id st)
     (state s) session_ids |>).
Proof.
  intros Hun. apply (for_fold_run _ _ _ (unsuspendable (parked_for task_id))); [|done].
  clear. intros id rest acc s Hun. split.
  - destruct Hun as [_ Hids]. destruct (Hids id) as (Hs & sus & Hin & Hid & Hsel); [by left|].
    destruct (position_is_Some (fun sus => (sus_session_id sus == id) && parked_for task_id sus)
      _ _ Hin) as (i & found & Hpos). { by rewrite Hid, bool_decide_eq_true_2. }
    destruct (find_mut_edit (state s) id (reopen_effect relocated recreated found (state s)) Hs)
      as (session & Hmut & _).
    unfold reopen_one, unsuspended, collect_running, get_state, gets, modify_state, modify, bind, lift.
    rewrite Hpos. cbn. unfold reopen_effect in Hmut. rewrite Hmut. cbn. done.
  - apply unsuspendable_step; [intros; apply reopen_effect_id|done].
Qed.

(** The Sessions reopening takes out of suspension. *)
Lemma parked_unsuspendable st task_id :
  suspensions_ok st ->
  unsuspendable (parked_for task_id)
    (sus_session_id <$> retain (parked_for task_id) (task_archive_suspensions st)) st.
Proof.
  intros [Hsess Hnd]. split; [by apply NoDup_fmap_retain|].
  intros id (sus & -> & [Hin Hp]%elem_of_retain)%list_elem_of_fmap.
  split; [by apply Hsess|]. by exists sus.
Qed.

Lemma reopen_transaction s task_id now :
  suspensions_ok (state s) ->
  transaction s (reopen_task_with_suspended_sessions task_id now s).
Proof.
  intros Hok. unfold reopen_task_with_suspended_sessions. tx.
  match goal with |- transaction s (bind (for_fold _ _ (reopen_one _ ?relocated ?recreated)) _ _) =>
    rewrite bind_run, (reopen_loop task_id relocated recreated _ s
      (parked_unsuspendable _ task_id Hok)); tx; apply install_transaction; cbn;
    apply parks_fields, (foldl_parks (unsuspended (parked_for task_id)
      (reopen_effect relocated recreated)))
  end.
  intros. apply unsuspended_parks.
Qed.

(** * Archiving and restoring

    The archive methods are transactions on states the loader accepts, and
    restoring a Task undoes archiving it. *)

(** ** Finalizing *)

Definition finalized (task_id folder : string) (archived_at : N) (index : nat) (st : CurrentState)
  : CurrentState :=
  match task_archive_suspensions st !! index with
  | Some sus =>
      if (sus_task_id sus == Some task_id) && (sus_archived_at_epoch_ms sus == archived_at)
      then st <| task_archive_suspensions :=
                   <[index := sus <| sus_reason := TSR_ClosedWorktreeRemoved |>]>
                     (task_archive_suspensions st) |>
              <| sessions := edit_session (sus_session_id sus) (fun session =>
                   session <| s_process := (s_process session) <| pd_cwd := folder |> |>
                           <| s_resume_launch_guard := None |>) (sessions st) |>
      else st
  | None => st
  end.

Lemma finalized_parks task_id folder archived_at i st :
  parks st (finalized task_id folder archived_at i st).
Proof. unfold finalized. repeat case_match; by destruct st. Qed.

(** Every suspension names an existing Session. *)
Definition suspended_sessions_exist (st : CurrentState) : Prop :=
  forall sus, sus ∈ task_archive_suspensions st -> sus_session_id sus ∈ s_id <$> sessions st.

Lemma finalize_loop task_id folder archived_at indexes s :
  suspended_sessions_exist (state s) ->
  for_each indexes (finalize_one task_id folder archived_at) s =
  (Ok tt, s <| state := foldl (fun st i => finalized task_id folder archived_at i st)
                          (state s) indexes |>).
Proof.
  intros Hok. apply (for_each_run _ (finalized task_id folder archived_at)
    (fun _ => suspended_sessions_exist)); [|done].
  clear. intros i _ s Hok. unfold finalize_one, finalized, get_state, gets.
  unfold bind at 1. cbn. destruct (task_archive_suspensions (state s) !! i) as [sus|] eqn:Hi;
    [|by rewrite store_eta].
  destruct (_ && _) eqn:Hsel; [|by rewrite store_eta].
  assert (sus ∈ task_archive_suspensions (state s)) as Hin by (by eapply list_elem_of_lookup_2).
  destruct (find_mut_edit (state s) (sus_session_id sus) (fun session =>
    session <| s_process := (s_process session) <| pd_cwd := folder |> |>
            <| s_resume_launch_guard := None |>) (Hok sus Hin)) as (session & Hmut & _).
  unfold modify_state, modify, bind. cbn. rewrite Hmut. split; [done|].
  intros sus' Hin'. cbn in *. rewrite edit_session_ids by done.
  apply elem_of_insert_list in Hin' as [->|]; [exact (Hok sus Hin)|by apply Hok].
Qed.

Lemma finalize_transaction s task_id now :
  suspended_sessions_exist (state s) ->
  transaction s (finalize_archived_task_as_closed_after_worktree_removal task_id now s).
Proof.
  intros Hok. unfold finalize_archived_task_as_closed_after_worktree_removal. tx.
  rewrite bind_run, (finalize_loop _ _ _ _ _ Hok). tx. apply install_transaction. cbn.
  match goal with |- context [finalized ?a ?b ?c] =>
    apply parks_fields, (foldl_parks (finalized a b c)) end.
  intros. apply finalized_parks.
Qed.

(** ** The archive methods as calls *)

Inductive ArchiveCall : Type :=
| Call_begin_session_archive (operation : SessionArchiveOperation)
| Call_mark_session_archive_recovery_attention (session_id operation_id : string)
| Call_commit_session_archive (session_id operation_id : string) (now : N)
| Call_begin_task_archive (operation : TaskArchiveOperation)
| Call_mark_task_archive_recovery_attention (task_id operation_id : string)
| Call_commit_task_archive (task_id operation_id : string) (now : N)
| Call_abandon_task_archive (task_id operation_id : string)
| Call_restore_task_archive (task_id : string) (session_ids : list string) (now : N)
| Call_finalize_archived_task (task_id : string) (now : N)
| Call_reopen_task (task_id : string) (now : N).

(** Runs a call and forgets its answer. *)
Definition forget {A} (m : StoreM A) : StoreM unit := let! _ := m in ret tt.

Definition exec_archive_call (call : ArchiveCall) : StoreM unit :=
  match call with
  | Call_begin_session_archive operation => forget (begin_session_archive operation)
  | Call_mark_session_archive_recovery_attention session_id operation_id =>
      forget (mark_session_archive_recovery_attention session_id operation_id)
  | Call_commit_session_archive session_id operation_id now =>
      forget (commit_session_archive session_id operation_id now)
  | Call_begin_task_archive operation => forget (begin_task_archive operation)
  | Call_mark_task_archive_recovery_attention task_id operation_id =>
      forget (mark_task_archive_recovery_attention task_id operation_id)
  | Call_commit_task_archive task_id operation_id now =>
      forget (commit_task_archive task_id operation_id now)
  | Call_abandon_task_archive task_id operation_id =>
      forget (abandon_task_archive task_id operation_id)
  | Call_restore_task_archive task_id session_ids now =>
      forget (restore_task_archive task_id session_ids now)
  | Call_finalize_archived_task task_id now =>
      forget (finalize_archived_task_as_closed_after_worktree_removal task_id now)
  | Call_reopen_task task_id now => forget (reopen_task_with_suspended_sessions task_id now)
  end.

(** Restoring names each Session once. *)
Definition archive_call_ok (call : ArchiveCall) : Prop :=
  match call with
  | Call_restore_task_archive _ session_ids _ => NoDup session_ids
  | _ => True
  end.

Lemma transaction_forget {A} (m : StoreM A) s : transaction s (m s) -> transaction s (forget m s).
Proof.
  unfold forget, bind, ret. destruct (m s) as [r s'] eqn:E.
  inversion 1; subst; try constructor; done.
Qed.

Lemma exec_archive_call_transaction call s :
  archive_call_ok call -> suspensions_ok (state s) -> transaction s (exec_archive_call call s).
Proof.
  intros Hcall Hok. destruct call; cbn [exec_archive_call]; apply transaction_forget.
  all: try first [ apply commit_task_archive_transaction
    | by apply restore_task_archive_transaction | exact (finalize_transaction _ _ _ (proj1 Hok))
    | by apply reopen_transaction ].
  all: unfold begin_session_archive, mark_session_archive_recovery_attention,
    commit_session_archive, begin_task_archive, mark_task_archive_recovery_attention,
    abandon_task_archive; tx.
Qed.

(** ** Archiving then restoring *)

Section round_trip.
Context (task_id : string) (now : N).
Implicit Types (st : CurrentState) (targets : list TaskArchiveTarget).

(** The effect of the whole suspending loop. *)
Definition suspend_all targets st : CurrentState := foldl (fun st t => suspended task_id now t st) st targets.
Definition target_ids targets : list string := tat_session_id <$> targets.

Lemma suspend_all_suspensions targets st :
  task_archive_suspensions (suspend_all targets st)
  = task_archive_suspensions st ++ (suspension_of task_id now <$> targets).
Proof.
  unfold suspend_all. revert st. induction targets as [|t targets IH]; intros st; simpl;
    [by rewrite app_nil_r|].
  rewrite IH. cbn. by rewrite <- app_assoc.
Qed.

Lemma suspend_all_other targets st id :
  id ∉ target_ids targets -> find_session (suspend_all targets st) id = find_session st id.
Proof.
  unfold suspend_all, target_ids. revert st. induction targets as [|t targets IH]; intros st Hid; simpl;
    [done|]. cbn in Hid. apply not_elem_of_cons in Hid as [Hne Hid].
  rewrite IH by done. unfold find_session. cbn.
  rewrite edit_session_find by apply suspend_session_id. by case_decide.
Qed.

Lemma suspend_all_target targets st t :
  NoDup (target_ids targets) -> t ∈ targets ->
  find_session (suspend_all targets st) (tat_session_id t)
  = suspend_session t <$> find_session st (tat_session_id t).
Proof.
  unfold target_ids. revert st. induction targets as [|t' targets IH]; intros st Hnd Hin;
    [by apply elem_of_nil in Hin|].
  cbn in Hnd. apply list.NoDup_cons in Hnd as [Hfresh Hnd].
  apply elem_of_cons in Hin as [->|Hin].
  - change (suspend_all (t' :: targets) st) with (suspend_all targets (suspended task_id now t' st)).
    rewrite suspend_all_other by done. unfold find_session. cbn.
    rewrite edit_session_find by apply suspend_session_id. by rewrite decide_True.
  - change (suspend_all (t' :: targets) st) with (suspend_all targets (suspended task_id now t' st)).
    rewrite IH by done. f_equal. unfold find_session. cbn.
    rewrite edit_session_find by apply suspend_session_id. rewrite decide_False; [done|].
    intros Heq. apply Hfresh. rewrite <- Heq. by apply list_elem_of_fmap_2.
Qed.

Lemma suspend_all_ids targets st :
  s_id <$> sessions (suspend_all targets st) = s_id <$> sessions st.
Proof.
  unfold suspend_all. revert st. induction targets as [|t targets IH]; intros st; simpl; [done|].
  rewrite IH. cbn. apply edit_session_ids, suspend_session_id.
Qed.

(** Restoring, from a state whose suspensions end with those of the targets. *)
Definition restore_step : CurrentState * list string -> string -> CurrentState * list string :=
  loop_step (unsuspended (suspension_of_task task_id) restore_effect)
                      (collect_running (suspension_of_task task_id)).

(** The targets whose Agent was running, which the caller resumes. *)
Definition running_targets targets : list string :=
  target_ids (retain (fun t => tat_prior_lifecycle_state t == "running") targets).

(** The next target's suspension is the first one of its Session. *)
Lemma next_suspension old t later :
  (forall sus, sus ∈ old -> sus_session_id sus <> tat_session_id t) ->
  position (fun sus => (sus_session_id sus == tat_session_id t) && suspension_of_task task_id sus)
    (old ++ suspension_of task_id now t :: later)
  = Some (length old, suspension_of task_id now t).
Proof.
  intros Hold. induction old as [|sus old IH]; simpl.
  - unfold suspension_of_task. cbn. by rewrite !bool_decide_eq_true_2.
  - rewrite (bool_decide_eq_false_2 (sus_session_id sus = _)) by (apply Hold; by left). simpl.
    rewrite IH; [done|]. intros; apply Hold. by right.
Qed.

Lemma restore_all targets old st acc :
  NoDup (target_ids targets) ->
  task_archive_suspensions st = old ++ (suspension_of task_id now <$> targets) ->
  (forall sus, sus ∈ old -> sus_session_id sus ∉ target_ids targets) ->
  let p := foldl restore_step (st, acc) (target_ids targets) in
  p.2 = acc ++ running_targets targets
  /\ task_archive_suspensions p.1 = old
  /\ (forall t, t ∈ targets -> find_session p.1 (tat_session_id t)
       = (fun x => restored_session x (suspension_of task_id now t))
           <$> find_session st (tat_session_id t))
  /\ (forall id, id ∉ target_ids targets -> find_session p.1 id = find_session st id).
Proof.
  unfold running_targets, target_ids. revert st acc. induction targets as [|t targets IH]; intros st acc Hnd Hsus Hold.
  { cbn in *. rewrite app_nil_r in Hsus. split_and!; try done; [by rewrite app_nil_r|].
    by intros t ?%elem_of_nil. }
  cbn in Hnd. apply list.NoDup_cons in Hnd as [Hfresh Hnd]. cbn [fmap list_fmap foldl].
  assert (position (fun sus => (sus_session_id sus == tat_session_id t)
    && suspension_of_task task_id sus) (task_archive_suspensions st)
    = Some (length old, suspension_of task_id now t)) as Hpos.
  { rewrite Hsus. apply next_suspension. intros sus Hin Heq. apply (Hold sus Hin).
    rewrite Heq. cbn. by left. }
  set (st1 := unsuspended (suspension_of_task task_id) restore_effect (tat_session_id t) st).
  assert (task_archive_suspensions st1 = old ++ (suspension_of task_id now <$> targets)) as Hsus1.
  { unfold st1, unsuspended. rewrite Hpos. cbn. rewrite Hsus.
    cbn. rewrite delete_middle. done. }
  assert (forall id, find_session st1 id = if decide (id = tat_session_id t)
    then (fun x => restored_session x (suspension_of task_id now t)) <$> find_session st (tat_session_id t)
    else find_session st id) as Hfind1.
  { intros id. unfold st1, unsuspended. rewrite Hpos. unfold find_session. cbn.
    apply edit_session_find. intros; apply restored_session_id. }
  set (acc1 := collect_running (suspension_of_task task_id) (tat_session_id t) st acc).
  assert (acc1 = acc ++ (tat_session_id <$> retain (fun t =>
    tat_prior_lifecycle_state t == "running") [t])) as Hacc1.
  { unfold acc1, collect_running. rewrite Hpos. cbn. case_bool_decide; [done|by rewrite app_nil_r]. }
  destruct (IH st1 acc1 Hnd Hsus1) as (Hp2 & Hp1 & Hin & Hout).
  { intros sus Hs Hk. apply (Hold sus Hs). cbn. by right. }
  change (restore_step (st, acc) (tat_session_id t)) with (st1, acc1).
  split_and!.
  - rewrite Hp2, Hacc1. cbn. case_bool_decide; cbn; by rewrite <- app_assoc.
  - done.
  - intros t' [->|Ht']%elem_of_cons.
    + rewrite Hout by done. rewrite Hfind1. by rewrite decide_True.
    + rewrite Hin by done. rewrite Hfind1, decide_False; [done|]. intros Heq.
      apply Hfresh. rewrite <- Heq. by apply list_elem_of_fmap_2.
  - intros id [Hne Hid]%not_elem_of_cons. rewrite Hout by done.
    rewrite Hfind1. by rewrite decide_False.
Qed.

Lemma restore_all_tasks session_ids st acc :
  tasks (foldl restore_step (st, acc) session_ids).1 = tasks st.
Proof.
  unfold restore_step. rewrite loop_step_state. cbn [fst].
  assert (parks st (foldl (fun st' x => unsuspended (suspension_of_task task_id)
    restore_effect x st') st session_ids)) as Hp
    by (apply foldl_parks; intros; apply unsuspended_parks).
  by apply parks_fields in Hp as (_ & -> & _).
Qed.
End round_trip.

Lemma find_session_eq st st' id :
  sessions st' = sessions st -> find_session st' id = find_session st id.
Proof. unfold find_session. by intros ->. Qed.

(** The state an archived Task is committed with. *)
Definition archived_state (st : CurrentState) (task_id : string) (now : N)
    (i : nat) (op : TaskArchiveOperation) (j : nat) (task : TaskRecord) : CurrentState :=
  let mid := suspend_all task_id now (tao_targets op) st in
  mid <| tasks := <[j := task <| t_archived_at_epoch_ms := Some now |>
                              <| t_updated_at_epoch_ms := now |>]> (tasks mid) |>
      <| tracker_configurations := drop_task_findings task_id <$> tracker_configurations mid |>
      <| task_archive_operations := delete i (task_archive_operations mid) |>.

(** What a successful commit tells. *)
Definition archive_committed (s : Store) (task_id : string) (now : N)
    (i : nat) (op : TaskArchiveOperation) (s1 : Store) : Prop :=
  exists j task,
    position (fun task => t_id task == task_id) (tasks (state s)) = Some (j, task)
    /\ t_archived_at_epoch_ms task = None
    /\ targets_found (tao_targets op) (state s)
    /\ (forall sus, sus ∈ task_archive_suspensions (state s) ->
          sus_session_id sus ∉ target_ids (tao_targets op))
    /\ state s1 = committed (archived_state (state s) task_id now i op j task).

Lemma commit_task_archive_post s task_id operation_id now i op :
  position (is_task_archive task_id operation_id) (task_archive_operations (state s)) = Some (i, op) ->
  post (fun _ => archive_committed s task_id now i op)
    (commit_task_archive task_id operation_id now s).
Proof.
  intros Hop. unfold commit_task_archive. run_post.
  rewrite Hop in *. simplify_eq.
  match goal with H : _ || any _ _ = false |- _ => apply orb_false_iff in H as [Hna Hchk] end.
  pose proof (targets_checked _ _ _ Hchk) as Hfound.
  rewrite bind_run, (suspend_loop _ _ _ _ Hfound). run_post.
  eexists _, _. split_and!; [eassumption| |done| |done].
  - by guards.
  - intros sus Hsus (t & Heq & Ht)%list_elem_of_fmap. rewrite any_false in Hchk.
    specialize (Hchk t Ht). guards.
    match goal with H : forall x, x ∈ task_archive_suspensions _ -> _ |- _ =>
      specialize (H sus Hsus) end. guards. done.
Qed.

Lemma restored_suspended t x sus :
  restored_session (suspend_session t x) sus = restored_session x sus.
Proof. unfold restored_session, suspend_session. by repeat case_match. Qed.

Lemma committed_archive_fields st :
  tasks (committed st) = tasks st /\ sessions (committed st) = sessions st
  /\ task_archive_suspensions (committed st) = task_archive_suspensions st.
Proof. unfold committed, prune_session_profiles. by destruct (session_agent_profiles st). Qed.

Section restore_after_archive.
Context (s s1 : Store) (task_id : string) (at_ms : N) (i : nat) (op : TaskArchiveOperation)
  (j : nat) (task : TaskRecord).
Context (Htask : position (fun task => t_id task == task_id) (tasks (state s)) = Some (j, task))
  (Hfound : targets_found (tao_targets op) (state s))
  (Hfresh : forall sus, sus ∈ task_archive_suspensions (state s) ->
     sus_session_id sus ∉ target_ids (tao_targets op))
  (Hnd : NoDup (target_ids (tao_targets op)))
  (Hst : state s1 = committed (archived_state (state s) task_id at_ms i op j task)).

Let archived_task := task <| t_archived_at_epoch_ms := Some at_ms |>
                          <| t_updated_at_epoch_ms := at_ms |>.

Lemma archived_fields :
  tasks (state s1) = <[j := archived_task]> (tasks (state s))
  /\ sessions (state s1) = sessions (suspend_all task_id at_ms (tao_targets op) (state s))
  /\ task_archive_suspensions (state s1)
     = task_archive_suspensions (state s) ++ (suspension_of task_id at_ms <$> tao_targets op).
Proof.
  rewrite Hst. destruct (committed_archive_fields
    (archived_state (state s) task_id at_ms i op j task)) as (-> & -> & ->).
  unfold archived_state. cbn. rewrite suspend_all_suspensions. split_and!; try done.
  assert (parks (state s) (suspend_all task_id at_ms (tao_targets op) (state s))) as Hp.
  { apply (foldl_parks (suspended task_id at_ms)), suspended_parks. }
  by apply parks_fields in Hp as (_ & -> & _).
Qed.

Lemma archived_unsuspendable :
  unsuspendable (suspension_of_task task_id) (target_ids (tao_targets op)) (state s1).
Proof.
  destruct archived_fields as (_ & Es & Esus). split; [done|].
  intros id (t & -> & Ht)%list_elem_of_fmap. rewrite Es, suspend_all_ids, Esus.
  split; [by apply Hfound|]. exists (suspension_of task_id at_ms t). split_and!; [|done|].
  - apply elem_of_app. right. by apply list_elem_of_fmap_2.
  - unfold suspension_of_task. cbn. by apply bool_decide_eq_true.
Qed.

(** Every target has a suspension of this archive. *)
Lemma archived_targets_suspended :
  any (fun session_id =>
    negb (any (fun suspension =>
           (sus_session_id suspension == session_id)
           && (sus_archived_at_epoch_ms suspension == at_ms)
           && suspension_of_task task_id suspension)
         (task_archive_suspensions (state s1)))) (target_ids (tao_targets op)) = false.
Proof.
  destruct archived_fields as (_ & _ & Esus). apply any_false.
  intros id (t & -> & Ht)%list_elem_of_fmap. apply negb_false_iff, any_true.
  exists (suspension_of task_id at_ms t). rewrite Esus. split.
  - apply elem_of_app. right. by apply list_elem_of_fmap_2.
  - unfold suspension_of_task. cbn. by rewrite !bool_decide_eq_true_2.
Qed.

Definition restored_task (now : N) : TaskRecord :=
  task <| t_archived_at_epoch_ms := None |> <| t_updated_at_epoch_ms := now |>.

Lemma archived_task_position :
  position (fun task => t_id task == task_id) (tasks (state s1)) = Some (j, archived_task).
Proof.
  destruct archived_fields as (Et & _ & _), (position_task _ _ _ _ Htask) as (_ & Hid & _).
  rewrite Et. eapply position_insert; [exact Htask|]. by apply bool_decide_eq_true.
Qed.

Lemma restore_after_archive now :
  io_healthy s1 ->
  exists s2,
    restore_task_archive task_id (target_ids (tao_targets op)) now s1
    = (Ok (running_targets (tao_targets op)), s2)
    /\ find_task (state s2) task_id = Some (restored_task now)
    /\ task_archive_suspensions (state s2) = task_archive_suspensions (state s)
    /\ (forall t, t ∈ tao_targets op -> find_session (state s2) (tat_session_id t)
        = (fun x => restored_session x (suspension_of task_id at_ms t))
            <$> find_session (state s) (tat_session_id t))
    /\ (forall id, id ∉ target_ids (tao_targets op) ->
        find_session (state s2) id = find_session (state s) id).
Proof.
  intros Hio. destruct archived_fields as (Et & Es & Esus).
  destruct (position_task _ _ _ _ Htask) as (_ & Hid & _).
  pose proof archived_task_position as Hpos1.
  pose proof (restore_all task_id at_ms (tao_targets op) _ (state s1) [] Hnd Esus Hfresh)
    as (Hp2 & Hp1 & Hin & Hout).
  pose proof (restore_loop task_id _ s1 archived_unsuspendable) as Hloop.
  rewrite <- (loop_step_state _ (collect_running (suspension_of_task task_id)) _ (state s1, []))
    in Hloop. fold (restore_step task_id) in Hloop.
  pose proof (restore_all_tasks task_id (target_ids (tao_targets op)) (state s1) []) as Etp.
  set (p := foldl (restore_step task_id) (state s1, []) (target_ids (tao_targets op))) in *.
  destruct (install_healthy (state s1) (p.1 <| tasks := <[j := restored_task now]> (tasks p.1) |>)
    p.2 (s1 <| state := p.1 |>)) as (s2 & Hrun & Hst2 & _); [exact Hio|].
  destruct (committed_archive_fields (p.1 <| tasks := <[j := restored_task now]> (tasks p.1) |>))
    as (Et2 & Es2 & Esus2). rewrite <- Hst2 in Et2, Es2, Esus2.
  exists s2. split_and!.
  - unfold restore_task_archive, get_state, gets, bind, lift, refuse_if, ret. cbn.
    rewrite Hpos1. cbn. rewrite archived_targets_suspended, Hloop. cbn.
    rewrite Hp2 in Hrun |- *. exact Hrun.
  - eapply (find_task_same (state s1)); [|exact Hpos1|exact Hid]. rewrite Et2. cbn. by rewrite Etp.
  - by rewrite Esus2.
  - intros t Ht. rewrite (find_session_eq p.1), Hin by done. rewrite (find_session_eq _ _ _ Es).
    rewrite suspend_all_target by done. destruct (find_session (state s) _); [|done].
    cbn. by rewrite restored_suspended.
  - intros id Hno. rewrite (find_session_eq p.1), Hout by done.
    rewrite (find_session_eq _ _ _ Es). by apply suspend_all_other.
Qed.
End restore_after_archive.

(** ** Claims *)

(** C11: restoring undoes archiving.  After a Task archive was committed, restoring
    the Task with all its archived Sessions succeeds, gives the suspensions and
    the Task's archive mark back, and answers exactly the Sessions whose Agent
    was running.  Each of those comes back as [resumeFailed] ([DaemonInterrupted]),
    every other target in the lifecycle state it was archived from, and no other
    Session is touched. *)
Theorem archive_restore_round_trip (s s1 : Store) (task_id operation_id : string)
    (i : nat) (op : TaskArchiveOperation) (at_ms now rev : N) :
  position (is_task_archive task_id operation_id) (task_archive_operations (state s))
    = Some (i, op) ->
  NoDup (target_ids (tao_targets op)) ->
  commit_task_archive task_id operation_id at_ms s = (Ok rev, s1) -> io_healthy s1 ->
  exists s2 task,
    restore_task_archive task_id (target_ids (tao_targets op)) now s1
    = (Ok (running_targets (tao_targets op)), s2)
    /\ find_task (state s) task_id = Some task
    /\ find_task (state s2) task_id = Some (restored_task task now)
    /\ task_archive_suspensions (state s2) = task_archive_suspensions (state s)
    /\ (forall t, t ∈ tao_targets op -> find_session (state s2) (tat_session_id t)
        = (fun x => restored_session x (suspension_of task_id at_ms t))
            <$> find_session (state s) (tat_session_id t))
    /\ (forall id, id ∉ target_ids (tao_targets op) ->
        find_session (state s2) id = find_session (state s) id).
Proof.
  intros Hop Hnd Hrun Hio.
  destruct (post_ok _ _ _ _ (commit_task_archive_post s task_id operation_id at_ms i op Hop) Hrun)
    as (j & task & Htask & Hna & Hfound & Hfresh & Hst).
  destruct (restore_after_archive s s1 task_id at_ms i op j task Htask Hfound Hfresh Hnd Hst now Hio)
    as (s2 & Hs2). exists s2, task. destruct (position_task _ _ _ _ Htask) as (Hf & _ & _).
  tauto.
Qed.

(** ** Witnesses *)

Definition sample_target : TaskArchiveTarget :=
  {| tat_session_id := "s"; tat_runtime_epoch := 7; tat_prior_lifecycle_state := "running";
     tat_prior_resume_failure := None; tat_was_live_agent := true |}.

Definition sample_archive : TaskArchiveOperation :=
  {| tao_operation_id := "op-archive"; tao_task_id := "a"; tao_project_id := "p";
     tao_worktree_path := Some "/wt/a"; tao_worktree_generation := 1;
     tao_targets := [sample_target]; tao_state := TA_Prepared |}.

Definition archiving_state : CurrentState :=
  sample_state <| task_archive_operations := [sample_archive] |>.

Definition archived_store : Store :=
  (commit_task_archive "a" "op-archive" 20 (store_of archiving_state)).2.

Lemma archive_restore_round_trip_witness :
  exists s2, restore_task_archive "a" ["s"] 30 archived_store = (Ok ["s"], s2)
  /\ task_archive_suspensions (state s2) = [].
Proof.
  edestruct (archive_restore_round_trip (store_of archiving_state) archived_store "a" "op-archive"
    0 sample_archive 20 30 1) as (s2 & task & Hrun & _ & _ & Hsus & _).
  - reflexivity.
  - apply NoDup_singleton.
  - vm_compute. reflexivity.
  - intros o Ho. by apply elem_of_nil in Ho.
  - exists s2. exact (conj Hrun Hsus).
Defined.

(** * Three gaps, on concrete states

    Executions of the modelled methods that end where the rest of the code says
    they should not.  Each is evaluated, not assumed. *)

(** ** Reprovisioning a closed Task *)

Definition closed_task : TaskRecord :=
  sample_task_unbound <| t_status := TaskStatus_Closed |> <| t_branch := Some sample_branch |>
    <| t_worktree_generation := 1%N |>.

Definition closed_suspension : TaskArchiveSuspension :=
  {| sus_task_id := Some "a"; sus_session_id := "s"; sus_archived_at_epoch_ms := 20;
     sus_prior_lifecycle_state := "running"; sus_prior_resume_failure := None;
     sus_reason := TSR_ClosedWorktreeRemoved |}.

(** A Task closed after its checkout was removed, its Session parked. *)
Definition closed_state : CurrentState :=
  sample_state_unbound <| tasks := [closed_task] |>
    <| task_archive_suspensions := [closed_suspension] |>.

Definition reprovision : list JournalCall :=
  [ Call_begin_task_worktree_provisioning sample_provisioning;
    Call_advance_task_worktree_provisioning "a" "op-provision" PS_WorktreeAdded false 4;
    Call_commit_task_worktree_provisioning "a" "op-provision"
      {| pc_branch := sample_branch; pc_worktree := MkTaskWorktreeBinding "/wt/a";
         pc_proof := sample_proof; pc_updated_at_epoch_ms := 5 |};
    Call_clear_task_worktree_provisioning "a" "op-provision" ].


(** ** Setup marks after a stale discard *)

(** Removing a checkout through cleanup forgets that its setup ran; removing it
    through stale resolution does not. *)
Theorem stale_discard_keeps_setup_marks :
  let cleaned := complete_task_worktree_cleanup "a" "op-cleanup" 9 (store_of
        (sample_state <| cleanup_operations :=
           [sample_cleanup <| co_stage := CS_RemovalVerified |>] |>)) in
  let discarded := complete_task_worktree_stale_resolution "a" "op-stale" 9 (store_of
        (sample_state <| stale_resolution_operations :=
           [sample_stale <| so_stage := SS_RemovalVerified |>] |>)) in
  run_setup_marks (state cleaned.2) = []
  /\ is_ok discarded.1 = true /\ run_setup_marks (state discarded.2) = [sample_mark].
Proof. split_and!; vm_compute; reflexivity. Qed.

(** ** Restoring a Session twice *)

(** Naming a Session twice makes [restore_task_archive] return an error after it
    has changed the in-memory state, which then differs from the file. *)
Example duplicate_restore_is_not_atomic :
  let r := restore_task_archive "a" ["s"; "s"] 30 archived_store in
  is_err r.1 = true
  /\ task_archive_suspensions (state r.2) = []
  /\ task_archive_suspensions (disk r.2) <> [].
Proof. split_and!; vm_compute; [reflexivity|reflexivity|discriminate]. Qed.
