(* ===== verification/DomainClaims.v ===== *)
(** * Claims about the domain rules

    Tool names, path comparison keys and resume references. *)

From S2P Require Import Prelude Text Domain DomainRules Samples.

Local Open Scope string_scope.
Local Open Scope list_scope.

(** ** Tool names *)

(** The retired spellings [from_str] still accepts. *)
Definition mcp_alias (value : string) : option McpToolName :=
  if value == "tracker_report_read" then Some Mcp_RoutineReportRead
  else if value == "action_candidate_read" then Some Mcp_RoutineFindingRead
  else if value == "action_candidate_resolve" then Some Mcp_RoutineFindingResolve
  else None.

Lemma mcp_from_str_sound value tool :
  mcp_from_str value = Ok tool -> value = mcp_as_str tool \/ mcp_alias value = Some tool.
Proof.
  unfold mcp_from_str, mcp_alias.
  repeat (match goal with |- (if ?b then _ else _) = _ -> _ => destruct b eqn:? end;
    [intros; simplify_eq; guards; try (by left)|]); try done.
  all: match goal with H : _ || _ = true |- _ => apply orb_true_iff in H as [H|H] end;
    guards; subst; first [by left | by right; vm_compute].
Qed.

(** ** Paths *)

Lemma slice_starts_with_spec {A} `{EqDecision A} (l needle : list A) :
  slice_starts_with l needle = true <-> exists rest, l = needle ++ rest.
Proof.
  revert l. induction needle as [|n needle IH]; intros l; simpl.
  { split; [intros _; by exists l|by destruct l]. }
  destruct l as [|x l]; simpl.
  { split; [done|]. intros [? ?]. discriminate. }
  rewrite andb_true_iff, bool_decide_eq_true, IH. split.
  - intros [-> [rest ->]]. by exists rest.
  - intros [rest Heq]. simplify_eq. split; [done|]. by exists rest.
Qed.

Lemma contains_spec self candidate :
  contains_or_equals self candidate = true <->
  pck_root self = pck_root candidate
  /\ exists rest, pck_segments candidate = pck_segments self ++ rest.
Proof.
  unfold contains_or_equals. by rewrite andb_true_iff, bool_decide_eq_true, slice_starts_with_spec.
Qed.

Lemma contains_antisym a b :
  contains_or_equals a b = true -> contains_or_equals b a = true -> a = b.
Proof.
  rewrite !contains_spec. destruct a as [ra sa], b as [rb sb]; simpl.
  intros [<- [x ->]] [_ [y Hy]]. rewrite <- app_assoc in Hy.
  assert (x ++ y = []) as [-> ->]%app_nil by (apply (app_inv_head sa); by rewrite app_nil_r).
  by rewrite app_nil_r.
Qed.

(** ** Claims *)

(** Tool names round trip.  [as_str] is injective and parses back to the same
    tool, [ALL] lists every tool once, and [from_str] accepts nothing but those
    names and the three retired spellings. *)
Theorem mcp_names_round_trip (tool : McpToolName) (value : string) :
  mcp_from_str (mcp_as_str tool) = Ok tool
  /\ tool ∈ mcp_all /\ NoDup (mcp_as_str <$> mcp_all)
  /\ (forall tool', mcp_from_str value = Ok tool' ->
      value = mcp_as_str tool' \/ mcp_alias value = Some tool').
Proof.
  split_and!.
  - by destruct tool.
  - apply (bool_decide_eq_true_1 (tool ∈ mcp_all)). by destruct tool; vm_compute.
  - apply (bool_decide_unpack _). vm_compute. exact I.
  - intros tool'. apply mcp_from_str_sound.
Qed.

(** Containment of comparison keys is a partial order whose roots separate
    path families: a key contains exactly the keys that extend its segments
    under the same root. *)
Theorem path_containment_is_partial_order (a b c : PathComparisonKey) :
  contains_or_equals a a = true
  /\ (contains_or_equals a b = true -> contains_or_equals b a = true -> a = b)
  /\ (contains_or_equals a b = true -> contains_or_equals b c = true ->
      contains_or_equals a c = true)
  /\ (contains_or_equals a b = true <->
      pck_root a = pck_root b /\ exists rest, pck_segments b = pck_segments a ++ rest).
Proof.
  split_and!.
  - apply contains_spec. split; [done|]. exists []. by rewrite app_nil_r.
  - apply contains_antisym.
  - rewrite !contains_spec. intros [-> [x Hx]] [-> [y Hy]]. split; [done|].
    exists (x ++ y). by rewrite Hy, Hx, app_assoc.
  - apply contains_spec.
Qed.

(** Resume references are bounded and stable.  What [for_provider] accepts is a
    non-empty native identity of at most 256 bytes, without control characters,
    of a known provider; and accepting it again gives the same reference. *)
Theorem resume_refs_are_bounded `{UuidParser} (provider : ResumeProvider) (id : string)
    (value : ResumeRef) :
  resume_ref_for_provider provider id = Some value ->
  value = MkResumeRef provider id
  /\ (0 < len id <= 256)%N
  /\ (forall c, c ∈ chars id -> is_control c = false)
  /\ provider <> RP_Unknown
  /\ resume_ref_for_provider (ref_provider value) (ref_native_session_id value) = Some value.
Proof.
  unfold resume_ref_for_provider. destruct (resume_ref_validate _) eqn:Hv; [|done].
  intros ?; simplify_eq. split; [done|]. pose proof Hv as Hv'.
  unfold resume_ref_validate in Hv. simpl in Hv.
  rewrite !andb_true_iff, negb_true_iff, N.leb_le in Hv. destruct Hv as [[[He Hl] Hc] Hp].
  split_and!.
  - unfold len. destruct id; [done|]. simpl. lia.
  - exact Hl.
  - intros c Hin. apply negb_true_iff in Hc. rewrite any_false in Hc. by apply Hc.
  - by intros ->.
  - simpl. by rewrite Hv'.
Qed.

Lemma resume_refs_are_bounded_witness :
  let value := MkResumeRef RP_Claude "123e4567-e89b-12d3-a456-426614174000" in
  resume_ref_for_provider (H := canonical_uuid) RP_Claude "123e4567-e89b-12d3-a456-426614174000"
    = Some value
  /\ (0 < len (ref_native_session_id value) <= 256)%N.
Proof.
  split; [vm_compute; reflexivity|].
  apply (resume_refs_are_bounded (H := canonical_uuid) RP_Claude _
    (MkResumeRef RP_Claude "123e4567-e89b-12d3-a456-426614174000")).
  vm_compute. reflexivity.
Defined.
