(* ===== verification/Workflow.v ===== *)
(** * Workflow configurations and executions

    [src/modules/domain/src/workflow.rs]: a workflow is a recipe (discussions,
    one implementation, a group of reviews, an optional fix loop); an execution
    is the durable routing state of the one current run of a Task or Project.
    The validity checks below are the ones every write of the store and
    load-time validation apply.  The second half holds the methods of the store
    on them ([store/src/records/workflow.rs]). *)

From S2P Require Import Prelude Text Domain DomainRules StoreState.

Local Open Scope string_scope.
Local Open Scope list_scope.

Definition workflow_configurations_per_project_max : N := 16.
Definition workflow_steps_max : nat := 8.
Definition workflow_id_max_bytes : N := 64.
Definition workflow_name_max_bytes : N := 80.
Definition workflow_step_id_max_bytes : N := 64.
Definition workflow_step_title_max_bytes : N := 120.
Definition workflow_step_instructions_max_bytes : N := 4096.
Definition workflow_review_cycles_max : N := 3.
Definition workflow_goal_max_bytes : N := 32768.
Definition workflow_execution_id_max_bytes : N := 64.
Definition workflow_step_result_summary_max_bytes : N := 2048.

(** [bounded_slug] *)
Definition workflow_bounded_slug (value : string) (max_bytes : N) : bool :=
  negb (str_is_empty value)
  && (len value <=? max_bytes)%N
  && all (fun byte => is_ascii_alphanumeric byte || (byte =? 45)%N || (byte =? 95)%N)
         (bytes value).

(** [bounded_text] *)
Definition workflow_bounded_text (value : string) (max_bytes : N) : bool :=
  negb (trim_is_empty value) && (len value <=? max_bytes)%N && negb (contains_byte 0 value).

(** ** Steps *)

(** [matches!(step.kind, Discuss | Review)]: the steps a helper Agent runs. *)
Definition is_helper_kind (kind : WorkflowStepKind) : bool :=
  match kind with WK_Discuss | WK_Review => true | WK_Implement | WK_Fix => false end.

(** [WorkflowStep::is_valid] *)
Definition workflow_step_is_valid (self : WorkflowStep) : bool :=
  workflow_bounded_slug (wst_id self) workflow_step_id_max_bytes
  && workflow_bounded_text (wst_title self) workflow_step_title_max_bytes
  && workflow_bounded_text (wst_instructions self) workflow_step_instructions_max_bytes
  && match wst_kind self with
     | WK_Discuss | WK_Review =>
         is_some_and (wst_agent_id self) agent_id_is_well_formed
         && match wst_reuse_step_id self with
            | Some _ => is_none (wst_launch_selection self)
            | None => is_some_and (wst_launch_selection self) launch_selection_is_well_formed
            end
         && is_none_or (wst_profile_ref self) valid_agent_profile_id
     | WK_Implement | WK_Fix =>
         is_none (wst_agent_id self) && is_none (wst_launch_selection self)
         && is_none (wst_profile_ref self)
     end
  && ((wst_kind self == WK_Review) || is_none (wst_reuse_step_id self))
  && (is_none (wst_reuse_step_id self) || is_none (wst_profile_ref self))
  && is_none_or (wst_reuse_step_id self) (fun id =>
       workflow_bounded_slug id workflow_step_id_max_bytes).

(** ** Configurations *)

Definition kind_is (kind : WorkflowStepKind) (step : WorkflowStep) : bool :=
  wst_kind step == kind.

(** The shape check inside [WorkflowConfiguration::is_valid], once the
    implementation step is found. *)
Definition steps_have_shape (steps : list WorkflowStep) (implement_index : nat) : bool :=
  let fix_indexes := indexes_from 0 (kind_is WK_Fix) steps in
  (count (kind_is WK_Implement) steps =? 1)%N
  && all (kind_is WK_Discuss) (take implement_index steps)
  && all (fun step => kind_is WK_Review step || kind_is WK_Fix step)
         (drop (implement_index + 1) steps)
  && (length fix_indexes <=? 1)%nat
  && is_none_or (head fix_indexes) (fun fix_index =>
       (fix_index =? length steps - 1)%nat
       && any (kind_is WK_Review) (slice steps (implement_index + 1) fix_index)).

(** A review that continues a conversation names an earlier helper step of the
    same Agent. *)
Definition reuse_is_valid (before : list WorkflowStep) (step : WorkflowStep) : bool :=
  is_none_or (wst_reuse_step_id step) (fun reuse_step_id =>
    any (fun candidate =>
           (wst_id candidate == reuse_step_id)
           && is_helper_kind (wst_kind candidate)
           && (wst_agent_id candidate == wst_agent_id step)) before).

(** [WorkflowConfiguration::is_valid] *)
Definition workflow_configuration_is_valid (self : WorkflowConfiguration) : bool :=
  let steps := wc_steps self in
  let implement_index := fst <$> position (kind_is WK_Implement) steps in
  workflow_bounded_slug (wc_id self) workflow_id_max_bytes
  && negb (trim_is_empty (wc_project_id self))
  && workflow_bounded_text (wc_name self) workflow_name_max_bytes
  && agent_id_is_well_formed (wc_coordinator_agent_id self)
  && launch_selection_is_well_formed (wc_launch_selection self)
  && in_range 1 workflow_review_cycles_max (wc_max_review_cycles self)
  && negb (bool_decide (steps = []))
  && (length steps <=? workflow_steps_max)%nat
  && all workflow_step_is_valid steps
  && all_with_rest (fun step rest =>
       negb (any (fun candidate => wst_id candidate == wst_id step) rest)) steps
  && is_some_and implement_index (steps_have_shape steps)
  && all_with_before reuse_is_valid [] steps
  && (1 <=? wc_generation self)%N.

(** ** Executions *)

(** [WorkflowExecution::shares_scope] *)
Definition shares_scope (self other : WorkflowExecution) : bool :=
  (we_project_id self == we_project_id other) && (we_task_id self == we_task_id other).

Definition we_steps (self : WorkflowExecution) : list WorkflowStep :=
  wc_steps (we_configuration self).

(** [usize::from(self.current_step_index)] *)
Definition step_index (self : WorkflowExecution) : nat := N.to_nat (we_current_step_index self).

(** [WorkflowExecution::current_step] *)
Definition current_step (self : WorkflowExecution) : option WorkflowStep :=
  we_steps self !! step_index self.

(** [review_group]: the contiguous review steps at the current index. *)
Definition review_group (execution : WorkflowExecution) : list WorkflowStep :=
  take_while (kind_is WK_Review) (drop (step_index execution) (we_steps execution)).

(** [WorkflowExecution::completion_outcome] *)
Definition completion_outcome (self : WorkflowExecution) : option WorkflowCompletionOutcome :=
  if we_phase self != WP_Completed then None
  else if we_review_changes_requested self then
    Some (if any (kind_is WK_Fix) (we_steps self)
             && (wc_max_review_cycles (we_configuration self) <=? we_review_cycle self)%N
          then WCO_ReviewLimitReached else WCO_ChangesRequested)
  else
    let reviews := retain (kind_is WK_Review) (we_steps self) in
    let approved :=
      is_some (head reviews)
      && all (fun step =>
           any (fun result =>
                  (wsr_step_id result == wst_id step)
                  && (wsr_review_cycle result == we_review_cycle self)
                  && (wsr_outcome result == WRO_Approved)) (we_step_results self)) reviews in
    Some (if approved then WCO_Approved else WCO_Completed).

(** [WorkflowStepResult::is_valid_for] *)
Definition result_is_valid_for (self : WorkflowStepResult) (step : WorkflowStep)
    (execution : WorkflowExecution) : bool :=
  let outcome_is_valid :=
    match wst_kind step with
    | WK_Discuss | WK_Implement | WK_Fix =>
        (wsr_outcome self == WRO_Completed)
        || ((wst_kind step == WK_Fix) && (wsr_outcome self == WRO_Skipped))
    | WK_Review => (wsr_outcome self == WRO_Approved) || (wsr_outcome self == WRO_ChangesRequested)
    end in
  (wsr_step_id self == wst_id step)
  && workflow_bounded_text (wsr_summary self) workflow_step_result_summary_max_bytes
  && in_range 1 (we_review_cycle execution) (wsr_review_cycle self)
  && (kind_is WK_Review step || kind_is WK_Fix step || (wsr_review_cycle self =? 1)%N)
  && outcome_is_valid
  && (we_started_at_epoch_ms execution <=? wsr_completed_at_epoch_ms self)%N
  && (wsr_completed_at_epoch_ms self <=? we_updated_at_epoch_ms execution)%N.

(** [!request_id.trim().is_empty() && request_id.len() <= 128] *)
Definition request_id_is_valid (request_id : string) : bool :=
  negb (trim_is_empty request_id) && (len request_id <=? 128)%N.

(** [review_requests_are_valid] *)
Definition review_requests_are_valid (self : WorkflowExecution) : bool :=
  let active_review_step_ids := wst_id <$> review_group self in
  (length (we_review_requests self) <=? length active_review_step_ids)%nat
  && all_with_rest (fun request rest =>
       bool_decide (wr_step_id request ∈ active_review_step_ids)
       && request_id_is_valid (wr_request_id request)
       && negb (any (fun candidate =>
            (wr_step_id candidate == wr_step_id request)
            || (wr_request_id candidate == wr_request_id request)) rest))
       (we_review_requests self).

(** [active_review_request_state_is_valid] *)
Definition active_review_request_state_is_valid (self : WorkflowExecution) : bool :=
  let active := length (review_group self) in
  let requests := we_review_requests self in
  if is_some_and (current_step self) (kind_is WK_Review) then
    match we_phase self with
    | WP_AwaitingCoordinator =>
        is_none (we_current_request_id self) && (length requests <? active)%nat
    | WP_AwaitingHelper =>
        is_none (we_current_request_id self) && (length requests =? active)%nat
        && any (fun request => negb (wr_reply_delivered request)) requests
    | WP_AwaitingStepCompletion =>
        is_none (we_current_request_id self) && (length requests =? active)%nat
        && all wr_reply_delivered requests
    | WP_Completed => false
    end
  else bool_decide (requests = []).

(** [active_step_is_valid] *)
Definition active_step_is_valid (self : WorkflowExecution) : bool :=
  is_some_and (current_step self) (fun step =>
    match we_phase self with
    | WP_AwaitingCoordinator | WP_AwaitingStepCompletion => true
    | WP_AwaitingHelper => is_helper_kind (wst_kind step)
    | WP_Completed => false
    end).

(** The [match self.phase] of [is_valid]. *)
Definition phase_is_valid (self : WorkflowExecution) : bool :=
  match we_phase self with
  | WP_Completed =>
      (step_index self =? length (we_steps self))%nat && is_none (we_current_request_id self)
  | WP_AwaitingCoordinator =>
      active_step_is_valid self && is_none (we_current_request_id self)
  | WP_AwaitingStepCompletion =>
      active_step_is_valid self && is_none (we_current_request_id self)
      && is_some_and (current_step self) (fun step => is_helper_kind (wst_kind step))
  | WP_AwaitingHelper =>
      active_step_is_valid self
      && (is_some_and (current_step self) (kind_is WK_Review)
          || is_some_and (we_current_request_id self) request_id_is_valid)
  end.

(** The participant clauses of [is_valid]. *)
Definition participants_are_valid (self : WorkflowExecution) : bool :=
  (length (we_participants self) <=? length (we_steps self))%nat
  && all_with_rest (fun participant rest =>
       workflow_bounded_slug (wp_step_id participant) workflow_step_id_max_bytes
       && negb (trim_is_empty (wp_helper_session_id participant))
       && any (fun step =>
                 (wst_id step == wp_step_id participant) && is_helper_kind (wst_kind step))
              (we_steps self)
       && negb (any (fun candidate => wp_step_id candidate == wp_step_id participant) rest))
       (we_participants self).

(** The result clauses of [is_valid]. *)
Definition step_results_are_valid (self : WorkflowExecution) : bool :=
  (length (we_step_results self) <=? length (we_steps self))%nat
  && all_with_rest (fun result rest =>
       is_some_and (find_first (fun step => wst_id step == wsr_step_id result) (we_steps self))
         (fun step => result_is_valid_for result step self)
       && negb (any (fun candidate => wsr_step_id candidate == wsr_step_id result) rest))
       (we_step_results self).

Definition find_participant (participants : list WorkflowParticipant) (step_id : string)
  : option WorkflowParticipant :=
  find_first (fun participant => wp_step_id participant == step_id) participants.

(** The reuse clause of [is_valid]: a step that continues a conversation has
    the helper of its source step. *)
Definition reuses_are_valid (self : WorkflowExecution) : bool :=
  all (fun step =>
    is_none_or (wst_reuse_step_id step) (fun source_step_id =>
      let participant := find_participant (we_participants self) (wst_id step) in
      let source := find_participant (we_participants self) source_step_id in
      is_none participant
      || is_some_and source (fun source =>
           is_some_and participant (fun participant =>
             wp_helper_session_id participant == wp_helper_session_id source))))
    (we_steps self).

(** [WorkflowExecution::is_valid] *)
Definition workflow_execution_is_valid (self : WorkflowExecution) : bool :=
  workflow_bounded_slug (we_id self) workflow_execution_id_max_bytes
  && negb (trim_is_empty (we_project_id self))
  && is_none_or (we_task_id self) (fun id => negb (trim_is_empty id))
  && workflow_configuration_is_valid (we_configuration self)
  && (wc_project_id (we_configuration self) == we_project_id self)
  && workflow_bounded_text (we_goal self) workflow_goal_max_bytes
  && negb (trim_is_empty (we_coordinator_session_id self))
  && in_range 1 (wc_max_review_cycles (we_configuration self)) (we_review_cycle self)
  && (negb (we_coordinator_prompt_pending self) || (we_phase self == WP_AwaitingCoordinator))
  && phase_is_valid self
  && review_requests_are_valid self
  && active_review_request_state_is_valid self
  && participants_are_valid self
  && step_results_are_valid self
  && reuses_are_valid self
  && (0 <? we_started_at_epoch_ms self)%N
  && (we_started_at_epoch_ms self <=? we_updated_at_epoch_ms self)%N.

(** * Workflow records of the store

    [src/modules/store/src/records/workflow.rs], the workflow branch of
    [records/session_admission.rs] and the workflow clauses of
    [validation.rs]. *)

(** ** Configurations *)

(** [set_workflow_configuration] *)
Definition set_workflow_configuration (configuration : WorkflowConfiguration)
    (expected_revision : N) : StoreM WorkflowConfiguration :=
  let! st := get_state in
  refuse_if (expected_revision != revision st) RevisionConflict ;;
  let current_index :=
    position (fun current => wc_id current == wc_id configuration)
      (workflow_configurations st) in
  let project_count :=
    count (fun current => wc_project_id current == wc_project_id configuration)
      (workflow_configurations st) in
  refuse_if (negb (workflow_configuration_is_valid configuration)
             || negb (any (fun project => p_id project == wc_project_id configuration)
                          (projects st))
             || (is_none current_index
                 && (workflow_configurations_per_project_max <=? project_count)%N)
             || is_some_and current_index (fun entry =>
                  wc_project_id (snd entry) != wc_project_id configuration))
    ConstraintViolation ;;
  if snd <$> current_index == Some configuration then ret configuration
  else
    install st
      (st <| workflow_configurations :=
               match current_index with
               | Some (index, _) => <[index := configuration]> (workflow_configurations st)
               | None => workflow_configurations st ++ [configuration]
               end |>)
      configuration.

(** [is_draft] in [delete_workflow_configuration] *)
Definition is_workflow_draft (configuration_id : string) (target : ImproverSessionTarget)
  : bool :=
  (ist_target_kind target == ITK_WorkflowDraft)
  && (ist_target_id target == Some configuration_id).

(** [delete_workflow_configuration] *)
Definition delete_workflow_configuration (configuration_id : string) (expected_revision : N)
  : StoreM WorkflowConfiguration :=
  let! st := get_state in
  refuse_if (expected_revision != revision st) RevisionConflict ;;
  match position (fun configuration => wc_id configuration == configuration_id)
          (workflow_configurations st) with
  | None => fail NotFound
  | Some (index, deleted) =>
      let is_draft := is_workflow_draft configuration_id in
      install st
        (st <| workflow_configurations := delete index (workflow_configurations st) |>
            <| configuration_versions :=
                 retain (fun version =>
                   negb ((cv_project_id version == wc_project_id deleted)
                         && is_draft (cv_target version))) (configuration_versions st) |>
            <| configuration_version_selections :=
                 retain (fun selection =>
                   negb ((cvs_project_id selection == wc_project_id deleted)
                         && is_draft (cvs_target selection)))
                   (configuration_version_selections st) |>)
        deleted
  end.

(** ** Executions *)

(** [replace_workflow_execution] *)
Definition replace_workflow_execution (expected replacement : WorkflowExecution) : StoreM N :=
  let! st := get_state in
  refuse_if (negb (workflow_execution_is_valid replacement)
             || (we_id replacement != we_id expected)
             || (we_task_id replacement != we_task_id expected)
             || (we_project_id replacement != we_project_id expected)
             || (we_configuration replacement != we_configuration expected)
             || (we_goal replacement != we_goal expected)
             || (we_coordinator_session_id replacement != we_coordinator_session_id expected)
             || (we_started_at_epoch_ms replacement != we_started_at_epoch_ms expected))
    ConstraintViolation ;;
  match position (fun execution => we_id execution == we_id expected)
          (workflow_executions st) with
  | None => fail NotFound
  | Some (index, current) =>
      refuse_if (current != expected) RevisionConflict ;;
      if replacement == expected then ret (revision st)
      else
        install_revision st
          (st <| workflow_executions := <[index := replacement]> (workflow_executions st) |>)
  end.

(** [cancel_workflow_execution] *)
Definition cancel_workflow_execution (execution_id : string) (expected_revision : N)
  : StoreM WorkflowExecution :=
  let! st := get_state in
  refuse_if (revision st != expected_revision) RevisionConflict ;;
  match position (fun execution => we_id execution == execution_id)
          (workflow_executions st) with
  | None => fail NotFound
  | Some (index, removed) =>
      install st
        (st <| workflow_executions := delete index (workflow_executions st) |>) removed
  end.

(** [validate_workflow_coordinator_session] *)
Definition validate_workflow_coordinator_session (st : CurrentState) (session : SessionRecord)
    (execution : WorkflowExecution) : result StoreError SavedAgentLaunchSelection :=
  if (s_kind session != SessionKind_Agent)
     || (s_id session != we_coordinator_session_id execution)
     || (s_project_id session != we_project_id execution)
     || (pd_agent_id (s_process session)
           != Some (wc_coordinator_agent_id (we_configuration execution)))
     || negb (workflow_execution_is_valid execution)
     || any (fun value => s_id value == s_id session) (sessions st)
     || any (fun current =>
               shares_scope current execution && (we_phase current != WP_Completed))
            (workflow_executions st)
  then Err ConstraintViolation
  else
    let scope_exists :=
      any (fun project => p_id project == we_project_id execution) (projects st)
      && is_none_or (we_task_id execution) (fun task_id =>
           any (fun task =>
                  (t_id task == task_id) && (t_project_id task == we_project_id execution))
               (tasks st)) in
    let preference :=
      (fun agent_id => MkSavedAgentLaunchSelection agent_id (s_launch_selection session))
      <$> pd_agent_id (s_process session) in
    if negb scope_exists then Err ConstraintViolation
    else match preference with
         | Some preference =>
             if saved_selection_is_valid preference then Ok preference
             else Err ConstraintViolation
         | None => Err ConstraintViolation
         end.

(** [apply_workflow_coordinator_execution] *)
Definition apply_workflow_coordinator_execution (execution : WorkflowExecution)
    (st : CurrentState) : CurrentState :=
  st <| workflow_executions :=
          retain (fun current => negb (shares_scope current execution)) (workflow_executions st)
          ++ [execution] |>.

(** [insert_workflow_coordinator_session], through
    [admit_fresh_session(session, FreshSessionAdmission::Workflow { .. })]. *)
Definition insert_workflow_coordinator_session (session : SessionRecord)
    (execution : WorkflowExecution) : StoreM N :=
  let! st := get_state in
  let! preference := lift (validate_workflow_coordinator_session st session execution) in
  let readiness :=
    if s_kind session == SessionKind_Agent
    then agent_conversation_readiness st
         ++ [MkAgentConversationReadinessRecord (s_id session) ACR_Unconfirmed]
    else agent_conversation_readiness st in
  install_revision st
    (apply_workflow_coordinator_execution execution
       (st <| agent_conversation_readiness := readiness |>
           <| sessions := sessions st ++ [session] |>
           <| last_agent_launch_selection := Some preference |>)).

(** ** Load-time validation *)

(** [workflow_configurations_are_invalid] *)
Definition workflow_configurations_are_invalid (st : CurrentState) : bool :=
  any (fun project =>
         (workflow_configurations_per_project_max
            <? count (fun configuration => wc_project_id configuration == p_id project)
                 (workflow_configurations st))%N) (projects st)
  || any_with_rest (fun configuration rest =>
       negb (workflow_configuration_is_valid configuration)
       || negb (any (fun project => p_id project == wc_project_id configuration) (projects st))
       || any (fun candidate => wc_id candidate == wc_id configuration) rest)
       (workflow_configurations st).

(** [workflow_executions_are_invalid] *)
Definition workflow_executions_are_invalid (st : CurrentState) : bool :=
  any_with_rest (fun execution rest =>
    negb (workflow_execution_is_valid execution)
    || negb (any (fun project =>
               (p_id project == we_project_id execution)
               && (wc_project_id (we_configuration execution) == p_id project)) (projects st))
    || is_some_and (we_task_id execution) (fun task_id =>
         negb (any (fun task =>
                 (t_id task == task_id) && (t_project_id task == we_project_id execution))
                 (tasks st)))
    || any (fun candidate =>
              (we_id candidate == we_id execution) || shares_scope candidate execution) rest)
    (workflow_executions st).
