(* ===== verification/WorkflowEngine.v ===== *)
(** * Workflow progression

    [src/modules/core/src/session_launch/workflow_execution.rs]: how the
    coordinator Agent's tool calls and the confirmed deliveries move the one
    current execution of a Task or Project.  The pure transitions come first,
    then the runtime methods that look an execution up, apply one and write it
    back with [Store::replace_workflow_execution].

    The methods call other parts of the runtime: token authentication, the
    Ask-To planner, prompt composition and terminal input.  Those are
    parameters of the section; [now] is the value the method reads from
    [termloop_platform::current_epoch_ms]. *)

From stdpp Require Import gmap pretty.
From S2P Require Import Prelude Text Domain DomainRules StoreState Workflow.

Local Open Scope string_scope.
Local Open Scope list_scope.

(** ** Pure transitions *)

(** [complete_execution] *)
Definition complete_execution (execution : WorkflowExecution) (step_count : nat)
  : WorkflowExecution :=
  execution <| we_current_step_index := as_u8 (N.of_nat step_count) |>
            <| we_phase := WP_Completed |>
            <| we_coordinator_prompt_pending := false |>
            <| we_current_request_id := None |>
            <| we_review_requests := [] |>.

(** [finish_review_group]: the execution, and the index of a skipped step. *)
Definition finish_review_group (execution : WorkflowExecution)
  : WorkflowExecution * option nat :=
  let review_count := length (review_group execution) in
  let next_index := step_index execution + review_count in
  let execution := execution <| we_review_requests := [] |> in
  let finished := complete_execution execution (length (we_steps execution)) in
  match we_steps execution !! next_index with
  | Some next =>
      if kind_is WK_Fix next then
        if we_review_changes_requested execution
        then (execution <| we_current_step_index := as_u8 (N.of_nat next_index) |>
                        <| we_phase := WP_AwaitingCoordinator |>, None)
        else (finished, Some next_index)
      else (finished, None)
  | None => (finished, None)
  end.

(** The fall-through of [advance_execution]. *)
Definition advance_to_next (execution : WorkflowExecution) : WorkflowExecution :=
  let step_count := length (we_steps execution) in
  let next_index := step_index execution + 1 in
  if (step_count <=? next_index)%nat then complete_execution execution step_count
  else execution <| we_current_step_index := as_u8 (N.of_nat next_index) |>
                 <| we_phase := WP_AwaitingCoordinator |>
                 <| we_current_request_id := None |>.

(** [advance_execution] *)
Definition advance_execution (execution : WorkflowExecution) (completed_kind : WorkflowStepKind)
  : WorkflowExecution * option nat :=
  let steps := we_steps execution in
  let step_count := length steps in
  let next_index := step_index execution + 1 in
  match completed_kind with
  | WK_Fix =>
      match position (kind_is WK_Review) steps with
      | Some (review_index, _) =>
          if we_review_changes_requested execution
             && (we_review_cycle execution <? wc_max_review_cycles (we_configuration execution))%N
          then (execution <| we_current_step_index := as_u8 (N.of_nat review_index) |>
                          <| we_review_cycle := u8_add (we_review_cycle execution) 1 |>
                          <| we_review_changes_requested := false |>
                          <| we_review_requests := [] |>
                          <| we_phase := WP_AwaitingCoordinator |>, None)
          else (complete_execution execution step_count, None)
      | None => (complete_execution execution step_count, None)
      end
  | WK_Review =>
      match steps !! next_index with
      | Some next =>
          if kind_is WK_Fix next && negb (we_review_changes_requested execution)
          then (complete_execution execution step_count, Some next_index)
          else (advance_to_next execution, None)
      | None => (complete_execution execution step_count, None)
      end
  | WK_Discuss | WK_Implement => (advance_to_next execution, None)
  end.

(** [upsert_step_result] *)
Definition upsert_step_result (execution : WorkflowExecution) (result : WorkflowStepResult)
  : WorkflowExecution :=
  match find_mut (fun current => wsr_step_id current == wsr_step_id result) (fun _ => result)
          (we_step_results execution) with
  | Some (_, results) => execution <| we_step_results := results |>
  | None => execution <| we_step_results := we_step_results execution ++ [result] |>
  end.

Definition has_result (execution : WorkflowExecution) (step : WorkflowStep) : bool :=
  any (fun result =>
         (wsr_step_id result == wst_id step)
         && (wsr_review_cycle result == we_review_cycle execution)) (we_step_results execution).

(** The step [complete_workflow_step] reports on: the current step, or the
    first review of the group without a report in this cycle. *)
Definition step_to_complete (expected : WorkflowExecution) : option WorkflowStep :=
  match current_step expected with
  | None => None
  | Some current =>
      if kind_is WK_Review current
      then find_first (fun candidate => negb (has_result expected candidate))
             (review_group expected)
      else Some current
  end.

Definition completion_is_expected (expected : WorkflowExecution) (step : WorkflowStep)
    (outcome : string) : bool :=
  let phase_is_valid :=
    match wst_kind step with
    | WK_Discuss | WK_Review => we_phase expected == WP_AwaitingStepCompletion
    | WK_Implement | WK_Fix => we_phase expected == WP_AwaitingCoordinator
    end in
  let outcome_is_valid :=
    match wst_kind step with
    | WK_Review => (outcome == "approved") || (outcome == "changesRequested")
    | WK_Discuss | WK_Implement | WK_Fix => outcome == "completed"
    end in
  negb (we_coordinator_prompt_pending expected || negb phase_is_valid || negb outcome_is_valid).

Definition parse_outcome (outcome : string) : option WorkflowStepResultOutcome :=
  if outcome == "completed" then Some WRO_Completed
  else if outcome == "approved" then Some WRO_Approved
  else if outcome == "changesRequested" then Some WRO_ChangesRequested
  else None.

(** The replacement [complete_workflow_step] computes for an accepted report,
    and whether the coordinator needs the next step's prompt. *)
Definition report_step (expected : WorkflowExecution) (step : WorkflowStep) (outcome : string)
    (result_outcome : WorkflowStepResultOutcome) (summary : string) (completed_at_epoch_ms : N)
  : WorkflowExecution * bool :=
  let is_review := kind_is WK_Review step in
  let replacement :=
    if is_review && (outcome == "changesRequested")
    then expected <| we_review_changes_requested := true |> else expected in
  let replacement := replacement <| we_updated_at_epoch_ms := completed_at_epoch_ms |> in
  let replacement := upsert_step_result replacement
    (MkWorkflowStepResult (wst_id step) (we_review_cycle expected) result_outcome summary
       completed_at_epoch_ms) in
  let review_group_completed :=
    is_review && all (has_result replacement) (review_group replacement) in
  let '(replacement, skipped_step_index) :=
    if review_group_completed then finish_review_group replacement
    else if is_review then (replacement <| we_phase := WP_AwaitingStepCompletion |>, None)
    else advance_execution replacement (wst_kind step) in
  let replacement :=
    match skipped_step_index ≫= (fun index => we_steps replacement !! index) with
    | Some skipped =>
        upsert_step_result replacement
          (MkWorkflowStepResult (wst_id skipped) (we_review_cycle expected) WRO_Skipped
             "No review changes were requested." completed_at_epoch_ms)
    | None => replacement
    end in
  let needs_next_prompt := negb is_review || review_group_completed in
  let replacement :=
    if needs_next_prompt && (we_phase replacement != WP_Completed)
    then replacement <| we_coordinator_prompt_pending := true |> else replacement in
  (replacement, needs_next_prompt && (we_phase replacement != WP_Completed)).

(** The step a new delegation serves. *)
Definition step_to_delegate (execution : WorkflowExecution) : option WorkflowStep :=
  match current_step execution with
  | None => None
  | Some current =>
      match wst_kind current with
      | WK_Discuss => Some current
      | WK_Review =>
          find_first (fun step =>
            negb (any (fun request => wr_step_id request == wst_id step)
                      (we_review_requests execution))) (review_group execution)
      | WK_Implement | WK_Fix => None
      end
  end.

(** The step a delegation for [step_id] may be committed to. *)
Definition delegated_step (expected : WorkflowExecution) (step_id : string)
  : option WorkflowStep :=
  match current_step expected with
  | None => None
  | Some current =>
      if kind_is WK_Review current then
        match find_first (fun step => wst_id step == step_id) (review_group expected) with
        | Some step =>
            if any (fun request => wr_step_id request == wst_id step)
                   (we_review_requests expected)
            then None else Some step
        | None => None
        end
      else if (wst_id current == step_id) && kind_is WK_Discuss current then Some current
      else None
  end.

(** The replacement of [complete_workflow_delegate], once the request and the
    helper Session are known to match. *)
Definition delegate_step (expected : WorkflowExecution) (step : WorkflowStep)
    (request_id helper_session_id : string) (now : N) : WorkflowExecution :=
  let replacement :=
    match find_participant (we_participants expected) (wst_id step) with
    | Some _ => expected
    | None =>
        expected <| we_participants :=
          we_participants expected ++ [MkWorkflowParticipant (wst_id step) helper_session_id] |>
    end in
  let replacement :=
    if kind_is WK_Review step then
      let replacement := replacement <| we_review_requests :=
        we_review_requests replacement
        ++ [MkWorkflowReviewRequest (wst_id step) request_id false] |> in
      replacement <| we_phase :=
                       if (length (we_review_requests replacement)
                             =? length (review_group replacement))%nat
                       then WP_AwaitingHelper else WP_AwaitingCoordinator |>
                  <| we_current_request_id := None |>
    else
      replacement <| we_phase := WP_AwaitingHelper |>
                  <| we_current_request_id := Some request_id |> in
  replacement <| we_updated_at_epoch_ms := now |>.

(** The executions [complete_workflow_helper_reply_delivery] looks for. *)
Definition awaits_reply (request_id : string) (execution : WorkflowExecution) : bool :=
  ((we_phase execution == WP_AwaitingHelper)
   && (we_current_request_id execution == Some request_id))
  || (((we_phase execution == WP_AwaitingCoordinator)
       || (we_phase execution == WP_AwaitingHelper))
      && any (fun request => wr_request_id request == request_id)
             (we_review_requests execution)).

(** Its replacement. *)
Definition deliver_reply (expected : WorkflowExecution) (request_id : string) (now : N)
  : WorkflowExecution :=
  let replacement :=
    match find_mut (fun request => wr_request_id request == request_id)
            (fun request => request <| wr_reply_delivered := true |>)
            (we_review_requests expected) with
    | Some (_, requests) =>
        let replacement := expected <| we_review_requests := requests |> in
        if (length (we_review_requests replacement) =? length (review_group replacement))%nat
           && all wr_reply_delivered (we_review_requests replacement)
        then replacement <| we_phase := WP_AwaitingStepCompletion |>
        else replacement
    | None =>
        expected <| we_phase := WP_AwaitingStepCompletion |> <| we_current_request_id := None |>
    end in
  replacement <| we_updated_at_epoch_ms := now |>.

(** The executions [complete_workflow_coordinator_prompt_delivery] and
    [redeliver_pending_workflow_prompt] look for. *)
Definition awaits_prompt (coordinator_session_id : string) (execution : WorkflowExecution)
  : bool :=
  (we_coordinator_session_id execution == coordinator_session_id)
  && (we_phase execution == WP_AwaitingCoordinator)
  && we_coordinator_prompt_pending execution.

(** The replacement of [complete_workflow_coordinator_prompt_delivery]. *)
Definition confirm_prompt (expected : WorkflowExecution) (now : N) : WorkflowExecution :=
  expected <| we_coordinator_prompt_pending := false |> <| we_updated_at_epoch_ms := now |>.

(** [plan_workflow_delegate]'s retry of a discussion whose helper request was
    lost with a daemon restart. *)
Definition retry_discussion (expected : WorkflowExecution) (now : N) : WorkflowExecution :=
  expected <| we_phase := WP_AwaitingCoordinator |> <| we_current_request_id := None |>
           <| we_updated_at_epoch_ms := now |>.

(** [workflow_prompt_template] *)
Definition workflow_prompt_template (execution : WorkflowExecution) : string :=
  if is_some (we_task_id execution) then "builtin.agent.task-workflow"
  else "builtin.agent.project-workflow".

(** The execution a coordinator starts with
    ([session_launch::complete_agent_launch]). *)
Definition initial_execution (execution_id project_id : string) (task_id : option string)
    (configuration : WorkflowConfiguration) (goal coordinator_session_id : string) (now : N)
  : WorkflowExecution :=
  MkWorkflowExecution execution_id project_id task_id configuration goal coordinator_session_id
    0 1 WP_AwaitingCoordinator false None [] [] [] false now now.

(** ** Runtime methods *)

(** The [CoreError] values that the methods of this library return.
    [CoreError::Store] is [CoreStore] with the store's error in place of its
    text, or [CoreStoreMessage] where the runtime writes the text itself. *)
Inductive CoreError : Type :=
| CoreInvalidParams (key : string)
| CoreNotFound
| CoreRevisionConflict
| CoreProjectDeleteBlocked
| CoreCompanionTranscriptQuotaExceeded
| CoreCapabilityDenied
| CoreConversationUnavailable
| CoreAskToRequestUnavailable
| CoreWorkflowExecutionState
| CoreOperationIdReused (operation_id : string)
| CoreProvisioningAlreadyInProgress (operation_id : string)
| CoreManagedWorktreeProofChanged (task_id : string)
    (current_managed_worktree_operation_id : option string) (current_worktree_generation : N)
| CoreWorktreePathHeldByTask (task_id : string)
| CoreBranchHeldByTask (task_id : string)
| CoreCleanupInProgress (task_id operation_id : string)
| CoreWorktreeCleanupRefused (task_id expected_managed_worktree_operation_id : string)
    (expected_worktree_generation : N) (blockers : list WorktreeCleanupBlocker)
| CoreWorktreeCleanupRecoveryAttention (operation_id : string)
| CoreRepairInProgress (task_id operation_id : string)
| CoreWorktreePathConflict
| CoreWorktreeLocked
| CoreWorktreeRequired
| CoreRepositoryUnavailable
| CoreGitUnavailable
| CoreGitUnsupportedVersion
| CoreRepositoryPermissionDenied
| CoreGitObservationTimedOut
| CoreGitObservationOutputBound
| CoreCorruptRepository
| CoreUnsupportedRepository
| CoreStore (error : StoreError)
| CoreStoreMessage (message : string)
| CoreTerminal (message : string).

(** [error::store_error] *)
Definition store_error (error : StoreError) : CoreError :=
  match error with
  | NotFound => CoreNotFound
  | RevisionConflict => CoreRevisionConflict
  | ProjectHasWorktrees => CoreProjectDeleteBlocked
  | CompanionTranscriptQuotaExceeded => CoreCompanionTranscriptQuotaExceeded
  | OperationIdReused operation_id => CoreOperationIdReused operation_id
  | JournalConflict operation_id => CoreProvisioningAlreadyInProgress operation_id
  | ManagedWorktreeProofChanged task_id => CoreManagedWorktreeProofChanged task_id None 0
  | WorktreePathHeld task_id => CoreWorktreePathHeldByTask task_id
  | BranchHeld task_id => CoreBranchHeldByTask task_id
  | other => CoreStore other
  end.

(** [ask_to::AskToStatus], [ask_to::AskToRequest], [ask_to::AskToInput] *)
Inductive AskToStatus : Type :=
| ATS_Pending | ATS_Completed (reply : string) | ATS_HelperUnavailable | ATS_RequestGone.

Record AskToRequest : Type := MkAskToRequest {
  atr_request_id : string;
  atr_conversation_id : string;
  atr_source_session_id : string;
  atr_source_runtime_epoch : N;
  atr_helper_session_id : string;
  atr_project_id : string;
  atr_idempotency_key : option string;
  atr_status : AskToStatus;
  atr_reply_delivered : bool
}.

Record AskToInput : Type := MkAskToInput {
  ati_target : string;
  ati_message : string;
  ati_model : option string;
  ati_reasoning : option string;
  ati_idempotency_key : option string;
  ati_conversation_id : option string;
  ati_launch_selection : option AgentLaunchSelection;
  ati_agent_profile : option PersonalAgent
}.

(** The part of [CoreRuntime] the workflow methods touch. *)
Record CoreRuntime : Type := MkCoreRuntime {
  rt_store : Store;
  rt_ask_to_requests : gmap string AskToRequest
}.
#[export] Instance CoreRuntime_eta : Eta CoreRuntime := fun r =>
  MkCoreRuntime (rt_store r) (rt_ask_to_requests r).

Definition CoreM (A : Type) : Type := Exec CoreRuntime CoreError A.

(** [self.store.method(..).map_err(store_error)?] *)
Definition on_store {A} (m : StoreM A) : CoreM A := fun rt =>
  let '(r, store) := m (rt_store rt) in
  (match r with Ok a => Ok a | Err e => Err (store_error e) end, rt <| rt_store := store |>).

Definition executions (rt : CoreRuntime) : list WorkflowExecution :=
  workflow_executions (state (rt_store rt)).

(** [option.ok_or(error)?] *)
Definition require {A} (o : option A) (error : CoreError) : CoreM A := lift (ok_or o error).
Definition core_refuse_if (condition : bool) (error : CoreError) : CoreM unit :=
  if condition then fail error else ret tt.

(** [WorkflowDelegateCommit] *)
Record WorkflowDelegateCommit : Type := MkWorkflowDelegateCommit {
  wdc_execution_id : string;
  wdc_step_id : string;
  wdc_request_id : string;
  wdc_conversation_id : string;
  wdc_coordinator_session_id : string
}.

(** [workflow_action_json] *)
Record WorkflowAction : Type := MkWorkflowAction {
  wa_execution_id : string;
  wa_status : string;
  wa_current_step_index : N;
  wa_review_cycle : N
}.
Definition workflow_action_json (execution : WorkflowExecution) : WorkflowAction :=
  MkWorkflowAction (we_id execution)
    (if we_phase execution == WP_Completed then "completed" else "running")
    (we_current_step_index execution) (we_review_cycle execution).

(** [WorkflowHelperConversation::resolve] and [into_input] *)
Definition helper_input (step : WorkflowStep) (conversation_id : option string)
    (profile : result CoreError (option PersonalAgent))
    (target message idempotency_key : string) : result CoreError AskToInput :=
  match conversation_id with
  | Some id =>
      Ok (MkAskToInput target message None None (Some idempotency_key) (Some id) None None)
  | None =>
      match wst_launch_selection step with
      | None => Err CoreWorkflowExecutionState
      | Some selection =>
          match profile with
          | Err e => Err e
          | Ok profile =>
              Ok (MkAskToInput target message None None (Some idempotency_key) None
                    (Some selection) profile)
          end
      end
  end.

(** The helper conversation a step continues: its own earlier one, or the one
    of the step it reuses.  [None]: a fresh helper.  [Some None]: the
    conversation is gone. *)
Definition pinned_conversation (st : CurrentState) (execution : WorkflowExecution)
    (step : WorkflowStep) : option (option string) :=
  let participant_step_id :=
    match find_participant (we_participants execution) (wst_id step) with
    | Some participant => Some (wp_step_id participant)
    | None => wst_reuse_step_id step
    end in
  (fun step_id =>
     find_participant (we_participants execution) step_id ≫= fun participant =>
     find_session st (wp_helper_session_id participant) ≫= fun session =>
     s_ask_to_continuation session ≫= fun continuation =>
     Some (atc_conversation_id continuation)) <$> participant_step_id.

Section runtime.
Context {Prompt PlanOutcome : Type}.

(** [mcp_authorizer.authenticate(token)?.session_id()] *)
Context (authenticate : string -> result CoreError string).
(** [plan_parallel_ask_to] (for [true]) and [plan_ask_to], and the request id
    of the plan they return. *)
Context (plan_ask_to : bool -> string -> AskToInput -> CoreM PlanOutcome).
Context (outcome_request_id : PlanOutcome -> option string).
(** [workflow_agent_profile], [compose_workflow_step_prompt] *)
Context (workflow_agent_profile : CurrentState -> WorkflowStep
                                  -> result CoreError (option PersonalAgent)).
Context (compose_workflow_step_prompt : CurrentState -> WorkflowExecution
                                        -> result CoreError Prompt).
(** [submit_generated_terminal_input] *)
Context (submit_generated_terminal_input : string -> Prompt -> CoreM unit).

Definition retry_lost_discussion (execution : WorkflowExecution) (now : N)
  : CoreM WorkflowExecution :=
  if (we_phase execution == WP_AwaitingHelper)
     && is_some_and (current_step execution) (kind_is WK_Discuss)
  then
    let! requests := gets rt_ask_to_requests in
    core_refuse_if (is_some_and (we_current_request_id execution) (fun request_id =>
      is_some (requests !! request_id))) CoreWorkflowExecutionState ;;
    let retried := retry_discussion execution now in
    on_store (replace_workflow_execution execution retried) ;;
    ret retried
  else ret execution.

(** [plan_workflow_delegate] *)
Definition plan_workflow_delegate (token message : string) (now : N)
  : CoreM (PlanOutcome * WorkflowDelegateCommit) :=
  let! coordinator_session_id := lift (authenticate token) in
  let! all_executions := gets executions in
  let! execution := require
    (find_first (fun execution =>
       we_coordinator_session_id execution == coordinator_session_id) all_executions)
    CoreCapabilityDenied in
  let! execution := retry_lost_discussion execution now in
  core_refuse_if ((we_phase execution != WP_AwaitingCoordinator)
                  || we_coordinator_prompt_pending execution) CoreWorkflowExecutionState ;;
  let! step := require (step_to_delegate execution) CoreWorkflowExecutionState in
  let! target := require (wst_agent_id step) CoreWorkflowExecutionState in
  let! st := gets (fun rt => state (rt_store rt)) in
  let pinned := pinned_conversation st execution step in
  core_refuse_if (is_some_and pinned is_none) CoreConversationUnavailable ;;
  let idempotency_key :=
    "workflow:" +:+ we_id execution +:+ ":" +:+ pretty (we_review_cycle execution) +:+ ":"
    +:+ wst_id step in
  let! input := lift (helper_input step (mjoin pinned) (workflow_agent_profile st step)
                        target message idempotency_key) in
  let! outcome := plan_ask_to (kind_is WK_Review step) token input in
  let! request_id := require (outcome_request_id outcome) CoreAskToRequestUnavailable in
  let! requests := gets rt_ask_to_requests in
  let! request := require
    (requests !! request_id ≫= fun request =>
       if atr_source_session_id request == coordinator_session_id
       then Some request else None) CoreAskToRequestUnavailable in
  ret (outcome, MkWorkflowDelegateCommit (we_id execution) (wst_id step) request_id
                  (atr_conversation_id request) coordinator_session_id).

(** [complete_workflow_delegate] *)
Definition complete_workflow_delegate (token : string) (commit : WorkflowDelegateCommit)
    (now : N) : CoreM WorkflowAction :=
  let! session_id := lift (authenticate token) in
  core_refuse_if (session_id != wdc_coordinator_session_id commit) CoreCapabilityDenied ;;
  let! all_executions := gets executions in
  let! expected := require
    (find_first (fun execution => we_id execution == wdc_execution_id commit) all_executions)
    CoreWorkflowExecutionState in
  let! step := require (delegated_step expected (wdc_step_id commit))
                 CoreWorkflowExecutionState in
  core_refuse_if ((we_coordinator_session_id expected != wdc_coordinator_session_id commit)
                  || (we_phase expected != WP_AwaitingCoordinator)
                  || we_coordinator_prompt_pending expected) CoreWorkflowExecutionState ;;
  let! requests := gets rt_ask_to_requests in
  let! request := require
    (requests !! wdc_request_id commit ≫= fun request =>
       if (atr_source_session_id request == wdc_coordinator_session_id commit)
          && (atr_conversation_id request == wdc_conversation_id commit)
       then Some request else None) CoreAskToRequestUnavailable in
  let helper_session_id := atr_helper_session_id request in
  (match wst_reuse_step_id step with
   | Some reuse_step_id =>
       let! reused := require (find_participant (we_participants expected) reuse_step_id)
                        CoreWorkflowExecutionState in
       core_refuse_if (wp_helper_session_id reused != helper_session_id)
         CoreConversationUnavailable
   | None => ret tt
   end) ;;
  core_refuse_if (is_some_and (find_participant (we_participants expected) (wst_id step))
    (fun participant => wp_helper_session_id participant != helper_session_id))
    CoreConversationUnavailable ;;
  let replacement :=
    delegate_step expected step (wdc_request_id commit) helper_session_id now in
  on_store (replace_workflow_execution expected replacement) ;;
  ret (workflow_action_json replacement).

(** [complete_workflow_step] *)
Definition complete_workflow_step (token outcome summary : string) (now : N)
  : CoreM WorkflowAction :=
  let summary := trim summary in
  core_refuse_if (str_is_empty summary
                  || (workflow_step_result_summary_max_bytes <? len summary)%N
                  || contains_byte 0 summary) (CoreInvalidParams "summary") ;;
  let! session_id := lift (authenticate token) in
  let! all_executions := gets executions in
  let! expected := require
    (find_first (fun execution => we_coordinator_session_id execution == session_id)
       all_executions) CoreCapabilityDenied in
  let! step := require (step_to_complete expected) CoreWorkflowExecutionState in
  core_refuse_if (negb (completion_is_expected expected step outcome))
    CoreWorkflowExecutionState ;;
  let! result_outcome := require (parse_outcome outcome) CoreWorkflowExecutionState in
  let '(replacement, needs_prompt) :=
    report_step expected step outcome result_outcome summary now in
  let! st := gets (fun rt => state (rt_store rt)) in
  let! next_prompt :=
    (if needs_prompt
     then let! prompt := lift (compose_workflow_step_prompt st replacement) in ret (Some prompt)
     else ret None) in
  on_store (replace_workflow_execution expected replacement) ;;
  (match next_prompt with
   | Some prompt =>
       submit_generated_terminal_input (we_coordinator_session_id replacement) prompt
   | None => ret tt
   end) ;;
  ret (workflow_action_json replacement).
End runtime.

(** [complete_workflow_helper_reply_delivery] *)
Definition complete_workflow_helper_reply_delivery (request_id : string) (now : N)
  : CoreM bool :=
  let! all_executions := gets executions in
  match find_first (awaits_reply request_id) all_executions with
  | None => ret false
  | Some expected =>
      on_store (replace_workflow_execution expected (deliver_reply expected request_id now)) ;;
      ret true
  end.

(** [complete_workflow_coordinator_prompt_delivery].  [delivered] is the
    template of the prompt the coordinator's runtime confirmed, if any. *)
Definition complete_workflow_coordinator_prompt_delivery (coordinator_session_id : string)
    (delivered : option string) (now : N) : CoreM bool :=
  let! all_executions := gets executions in
  match find_first (awaits_prompt coordinator_session_id) all_executions with
  | None => ret false
  | Some expected =>
      if is_none_or delivered (fun template => template != workflow_prompt_template expected)
      then ret false
      else
        on_store (replace_workflow_execution expected (confirm_prompt expected now)) ;;
        ret true
  end.
