(* ===== verification/WorkflowGrammar.v ===== *)
(** * The grammar of a workflow

    [WorkflowConfiguration::is_valid] checks positions and counts; what it
    accepts is a grammar: any number of discussions, one implementation, any
    number of reviews, and one fix step allowed only behind a review.  The
    progression theorems use the grammar, never the index arithmetic. *)

From S2P Require Import Prelude Text Domain DomainRules Workflow.

Local Open Scope list_scope.

(** [steps] is [discusses ++ implement :: reviews ++ fixes]. *)
Record workflow_shape (steps discusses : list WorkflowStep) (implement : WorkflowStep)
    (reviews fixes : list WorkflowStep) : Prop := {
  shape_eq : steps = discusses ++ implement :: reviews ++ fixes;
  shape_discusses : Forall (fun step => wst_kind step = WK_Discuss) discusses;
  shape_implement : wst_kind implement = WK_Implement;
  shape_reviews : Forall (fun step => wst_kind step = WK_Review) reviews;
  shape_fixes : fixes = [] \/
    exists fix_step, fixes = [fix_step] /\ wst_kind fix_step = WK_Fix /\ reviews <> []
}.

Lemma kind_is_true kind step : kind_is kind step = true <-> wst_kind step = kind.
Proof. apply bool_decide_eq_true. Qed.

Lemma kind_is_false kind step : kind_is kind step = false <-> wst_kind step <> kind.
Proof. apply bool_decide_eq_false. Qed.

Lemma all_kind kind steps :
  all (kind_is kind) steps = true <-> Forall (fun step => wst_kind step = kind) steps.
Proof.
  rewrite all_true, list.Forall_forall. by setoid_rewrite kind_is_true.
Qed.

(** ** Counting and locating kinds in a concatenation *)

Lemma count_app {A} (p : A -> bool) l k : (count p (l ++ k) = count p l + count p k)%N.
Proof. induction l as [|x l IH]; simpl; [done|]. rewrite IH. lia. Qed.

Lemma count_zero {A} (p : A -> bool) l : count p l = 0%N <-> any p l = false.
Proof.
  induction l as [|x l IH]; simpl; [done|]. destruct (p x); simpl; [split; [lia|done]|].
  by rewrite N.add_0_l.
Qed.

Lemma indexes_from_app {A} i0 (p : A -> bool) l k :
  indexes_from i0 p (l ++ k) = indexes_from i0 p l ++ indexes_from (i0 + length l) p k.
Proof.
  revert i0. induction l as [|x l IH]; intros i0; simpl; [by rewrite Nat.add_0_r|].
  rewrite IH. replace (S i0 + length l) with (i0 + S (length l)) by lia. by destruct (p x).
Qed.

Lemma indexes_from_nil {A} i0 (p : A -> bool) l : indexes_from i0 p l = [] <-> any p l = false.
Proof.
  revert i0. induction l as [|x l IH]; intros i0; simpl; [done|]. by destruct (p x); simpl.
Qed.

Lemma indexes_from_lt {A} i0 (p : A -> bool) l i : i ∈ indexes_from i0 p l -> i < i0 + length l.
Proof.
  revert i0. induction l as [|x l IH]; intros i0; simpl; [by intros ?%elem_of_nil|].
  destruct (p x); [rewrite elem_of_cons; intros [->|H]; [lia|]|intros H];
    apply IH in H; lia.
Qed.

Lemma position_app {A} (p : A -> bool) l x k :
  any p l = false -> p x = true -> position p (l ++ x :: k) = Some (length l, x).
Proof.
  intros Hl Hx. induction l as [|y l IH]; simpl in *; [by rewrite Hx|].
  apply orb_false_iff in Hl as [-> Hl]. by rewrite IH.
Qed.

Lemma position_split {A} (p : A -> bool) l i x :
  position p l = Some (i, x) -> l = take i l ++ x :: drop (S i) l /\ any p (take i l) = false.
Proof.
  revert i. induction l as [|y l IH]; intros i; simpl; [done|].
  destruct (p y) eqn:E; intros; simplify_eq; [done|].
  destruct (position p l) as [[j z]|]; simplify_eq. destruct (IH j eq_refl) as [H1 H2].
  cbn. rewrite E. split; [by rewrite <- H1|done].
Qed.

Lemma any_kind_other kind kind' steps :
  Forall (fun step => wst_kind step = kind) steps -> kind <> kind' ->
  any (kind_is kind') steps = false.
Proof.
  intros H Hne. apply any_false. intros x Hx. apply kind_is_false.
  rewrite list.Forall_forall in H. by rewrite (H x Hx).
Qed.

(** ** The shape check is the grammar *)

Definition shape_check (steps : list WorkflowStep) : bool :=
  is_some_and (fst <$> position (kind_is WK_Implement) steps) (steps_have_shape steps).

(** The steps behind the implementation, when every one is a review or a fix,
    at most one is a fix, and a fix comes last and behind a review. *)
Lemma split_reviews i0 rest :
  all (fun step => kind_is WK_Review step || kind_is WK_Fix step) rest = true ->
  length (indexes_from i0 (kind_is WK_Fix) rest) <= 1 ->
  (forall i, head (indexes_from i0 (kind_is WK_Fix) rest) = Some i ->
     i = i0 + length rest - 1 /\ any (kind_is WK_Review) (take (i - i0) rest) = true) ->
  exists reviews fixes, rest = reviews ++ fixes /\
    Forall (fun step => wst_kind step = WK_Review) reviews /\
    (fixes = [] \/ exists fix_step,
        fixes = [fix_step] /\ wst_kind fix_step = WK_Fix /\ reviews <> []).
Proof.
  destruct rest as [|x r _] using rev_ind.
  { intros _ _ _. exists [], []. by auto. }
  intros Hall Hlen Hhead. rewrite indexes_from_app in *. simpl in *.
  assert (forall y, y ∈ r -> kind_is WK_Fix y = false -> wst_kind y = WK_Review) as Hr.
  { intros y Hy HF. rewrite all_true in Hall.
    specialize (Hall y ltac:(apply elem_of_app; by left)).
    rewrite HF, orb_false_r in Hall. by apply kind_is_true. }
  destruct (kind_is WK_Fix x) eqn:Hx.
  - rewrite length_app in Hlen. simpl in Hlen.
    destruct (indexes_from i0 (kind_is WK_Fix) r) eqn:Hi; simpl in *; [|lia].
    apply indexes_from_nil in Hi. rewrite any_false in Hi.
    exists r, [x]. split; [done|]. split; [apply list.Forall_forall; auto|].
    right. exists x. split_and!; [done|by apply kind_is_true|]. intros ->.
    destruct (Hhead _ eq_refl) as [_ Hany]. simpl in Hany.
    by rewrite Nat.add_0_r, Nat.sub_diag in Hany.
  - rewrite app_nil_r in *.
    assert (indexes_from i0 (kind_is WK_Fix) r = []) as Hi.
    { destruct (indexes_from _ _ r) as [|j js] eqn:Hi; [done|]. exfalso.
      destruct (Hhead _ eq_refl) as [Hj _].
      pose proof (indexes_from_lt i0 (kind_is WK_Fix) r j) as Hlt. rewrite Hi in Hlt.
      specialize (Hlt ltac:(by left)). rewrite length_app in Hj. simpl in Hj. lia. }
    apply indexes_from_nil in Hi. rewrite any_false in Hi.
    exists (r ++ [x]), []. rewrite app_nil_r. split; [done|]. split; [|by left].
    apply Forall_app. split; [apply list.Forall_forall; auto|].
    rewrite list.Forall_singleton. rewrite all_true in Hall.
    specialize (Hall x ltac:(apply elem_of_app; right; by left)).
    rewrite Hx, orb_false_r in Hall. by apply kind_is_true.
Qed.

Lemma shape_check_sound steps :
  shape_check steps = true ->
  exists discusses implement reviews fixes,
    workflow_shape steps discusses implement reviews fixes.
Proof.
  unfold shape_check, steps_have_shape.
  destruct (position _ steps) as [[i impl]|] eqn:Hpos; [|done]. simpl.
  rewrite !andb_true_iff, Nat.add_1_r, all_kind, Nat.leb_le.
  intros ((((_ & Hdiscuss) & Hrest) & Hlen) & Hhead).
  pose proof (position_Some _ _ _ _ Hpos) as [Hi Himpl].
  destruct (position_split _ _ _ _ Hpos) as [Hsplit _].
  apply lookup_lt_Some in Hi as Hlt. apply kind_is_true in Himpl.
  assert (indexes_from 0 (kind_is WK_Fix) steps =
          indexes_from (S i) (kind_is WK_Fix) (drop (S i) steps)) as Hidx.
  { rewrite Hsplit at 1. rewrite indexes_from_app.
    rewrite (proj2 (indexes_from_nil 0 (kind_is WK_Fix) (take i steps)))
      by (by eapply any_kind_other).
    simpl. rewrite length_take.
    destruct (kind_is WK_Fix impl) eqn:E; [apply kind_is_true in E; congruence|].
    f_equal. lia. }
  rewrite Hidx in *.
  destruct (split_reviews (S i) (drop (S i) steps)) as (reviews & fixes & Heq & Hrev & Hfix);
    [done|done| |].
  - intros j Hj. rewrite Hj in Hhead. simpl in Hhead. unfold slice in Hhead.
    rewrite andb_true_iff, Nat.eqb_eq, skipn_firstn_comm in Hhead.
    destruct Hhead as [-> Hany]. rewrite length_drop. split; [lia|done].
  - exists (take i steps), impl, reviews, fixes. split; try done. by rewrite <- Heq.
Qed.

Lemma shape_check_complete steps discusses implement reviews fixes :
  workflow_shape steps discusses implement reviews fixes -> shape_check steps = true.
Proof.
  intros [-> Hd Hi Hr Hf]. unfold shape_check, steps_have_shape.
  rewrite position_app; [|by eapply any_kind_other|by apply kind_is_true]. simpl.
  assert (forall kind, kind <> WK_Implement -> kind_is kind implement = false) as Hne.
  { intros kind Hk. apply kind_is_false. congruence. }
  assert (any (kind_is WK_Implement) fixes = false) as Hfi.
  { destruct Hf as [->|(f & -> & Hf & _)]; [done|]. simpl. rewrite orb_false_r.
    apply kind_is_false. congruence. }
  assert (indexes_from 0 (kind_is WK_Fix) (discusses ++ implement :: reviews ++ fixes) =
          indexes_from (length discusses + S (length reviews)) (kind_is WK_Fix) fixes) as ->.
  { rewrite indexes_from_app. simpl. rewrite Hne by done. rewrite indexes_from_app.
    rewrite !(proj2 (indexes_from_nil _ _ _)) by (by eapply any_kind_other).
    simpl. f_equal. lia. }
  rewrite take_app_length, count_app. cbn [count]. rewrite count_app.
  rewrite (proj2 (kind_is_true WK_Implement implement) Hi).
  rewrite !(proj2 (count_zero _ _)); [|done|by eapply any_kind_other|by eapply any_kind_other].
  rewrite (proj2 (all_kind _ _) Hd). cbn [N.add N.eqb andb].
  unfold slice. rewrite Nat.add_1_r, drop_app_ge by lia.
  replace (S (length discusses) - length discusses) with 1 by lia. cbn [drop].
  apply all_kind in Hr as Hr'. rewrite all_true in Hr'.
  destruct Hf as [->|(f & -> & Hf & Hne')].
  - rewrite app_nil_r. simpl. rewrite !andb_true_r. apply all_true. intros x Hx.
    by rewrite Hr'.
  - apply kind_is_true in Hf. cbn [indexes_from]. rewrite Hf. simpl.
    rewrite !andb_true_iff. split_and!.
    + apply all_true. intros x [Hx|Hx]%elem_of_app; [by rewrite Hr'|].
      apply list_elem_of_singleton in Hx as ->. by rewrite Hf, orb_true_r.
    + done.
    + apply Nat.eqb_eq. rewrite length_app. simpl. rewrite length_app. simpl. lia.
    + apply any_true. destruct reviews as [|r reviews]; [done|]. exists r.
      split; [|apply Hr'; by left].
      rewrite skipn_firstn_comm, drop_app_ge by lia.
      replace (S (length discusses) - length discusses) with 1 by lia. cbn [drop].
      replace (_ - _) with (S (length reviews)) by (simpl; lia). by left.
Qed.

Lemma shape_check_spec steps :
  shape_check steps = true <->
  exists discusses implement reviews fixes,
    workflow_shape steps discusses implement reviews fixes.
Proof.
  split; [apply shape_check_sound|]. intros (d & i & r & f & H).
  by eapply shape_check_complete.
Qed.

(** ** Where the steps are *)

Section shape.
Context (steps discusses : list WorkflowStep) (implement : WorkflowStep).
Context (reviews fixes : list WorkflowStep).
Context (Hshape : workflow_shape steps discusses implement reviews fixes).

Lemma shape_fix_kind step : step ∈ fixes -> wst_kind step = WK_Fix.
Proof.
  destruct (shape_fixes _ _ _ _ _ Hshape) as [->|(f & -> & Hf & _)]; [by intros ?%elem_of_nil|].
  by intros ->%list_elem_of_singleton.
Qed.

Lemma shape_discuss_kind step : step ∈ discusses -> wst_kind step = WK_Discuss.
Proof.
  pose proof (shape_discusses _ _ _ _ _ Hshape) as H. rewrite list.Forall_forall in H. auto.
Qed.

Lemma shape_review_kind step : step ∈ reviews -> wst_kind step = WK_Review.
Proof.
  pose proof (shape_reviews _ _ _ _ _ Hshape) as H. rewrite list.Forall_forall in H. auto.
Qed.

(** The kind of a step tells which part of the workflow it is in. *)
Lemma shape_lookup n step :
  steps !! n = Some step ->
  match wst_kind step with
  | WK_Discuss => n < length discusses
  | WK_Implement => n = length discusses /\ step = implement
  | WK_Review => exists i, n = length discusses + 1 + i /\ reviews !! i = Some step
  | WK_Fix => n = length discusses + 1 + length reviews /\ fixes = [step]
  end.
Proof.
  rewrite (shape_eq _ _ _ _ _ Hshape), lookup_app_Some.
  intros [Hn|[Hge Hn]].
  { rewrite (shape_discuss_kind step) by (by eapply list_elem_of_lookup_2).
    by apply lookup_lt_Some in Hn. }
  destruct (n - length discusses) as [|k] eqn:Hk; simpl in Hn.
  { injection Hn as <-. rewrite (shape_implement _ _ _ _ _ Hshape). split; [lia|done]. }
  apply lookup_app_Some in Hn as [Hn|[Hge' Hn]].
  { rewrite (shape_review_kind step) by (by eapply list_elem_of_lookup_2).
    exists k. split; [lia|done]. }
  rewrite (shape_fix_kind step) by (by eapply list_elem_of_lookup_2).
  destruct (shape_fixes _ _ _ _ _ Hshape) as [Hf|(f & Hf & _)]; rewrite Hf in *; [done|].
  destruct (k - length reviews) as [|j] eqn:Hj; simpl in Hn; [|done].
  injection Hn as <-. split; [lia|done].
Qed.

Lemma shape_length : length steps = length discusses + 1 + length reviews + length fixes.
Proof.
  rewrite (shape_eq _ _ _ _ _ Hshape), length_app. simpl. rewrite length_app. lia.
Qed.

Lemma shape_at_implement : steps !! length discusses = Some implement.
Proof. rewrite (shape_eq _ _ _ _ _ Hshape). by rewrite list_lookup_middle. Qed.

Lemma shape_at_review i : i < length reviews -> steps !! (length discusses + 1 + i) = reviews !! i.
Proof.
  intros Hi. rewrite (shape_eq _ _ _ _ _ Hshape), lookup_app_r by lia.
  replace (length discusses + 1 + i - length discusses) with (S i) by lia. simpl.
  by rewrite lookup_app_l.
Qed.

Lemma shape_at_fix : steps !! (length discusses + 1 + length reviews) = head fixes.
Proof.
  rewrite (shape_eq _ _ _ _ _ Hshape), lookup_app_r by lia.
  replace (length discusses + 1 + length reviews - length discusses)
    with (S (length reviews)) by lia. simpl.
  rewrite lookup_app_r, Nat.sub_diag by lia. by destruct fixes.
Qed.

(** A discussion is followed by a discussion or the implementation. *)
Lemma shape_after_discuss n step :
  steps !! n = Some step -> wst_kind step = WK_Discuss ->
  exists next, steps !! (n + 1) = Some next /\
    (wst_kind next = WK_Discuss \/ wst_kind next = WK_Implement).
Proof.
  intros Hn Hk. pose proof (shape_lookup n step Hn) as H. rewrite Hk in H.
  pose proof shape_length as Hlen.
  destruct (lookup_lt_is_Some_2 steps (n + 1)) as [next Hnext]; [lia|].
  exists next. split; [done|]. pose proof (shape_lookup _ _ Hnext) as H'.
  destruct (wst_kind next); [by left|by right| |].
  - destruct H' as (i & ? & _). lia.
  - destruct H' as [? _]. lia.
Qed.

(** The first review is right behind the implementation. *)
Lemma shape_first_review :
  position (kind_is WK_Review) steps =
  match reviews with
  | [] => None
  | review :: _ => Some (length discusses + 1, review)
  end.
Proof.
  assert (any (kind_is WK_Review) (discusses ++ [implement]) = false) as Hno.
  { apply any_false. intros x [Hx|Hx]%elem_of_app; apply kind_is_false.
    - by rewrite (shape_discuss_kind x Hx).
    - apply list_elem_of_singleton in Hx as ->. by rewrite (shape_implement _ _ _ _ _ Hshape). }
  rewrite (shape_eq _ _ _ _ _ Hshape), cons_middle, app_assoc.
  pose proof (shape_fixes _ _ _ _ _ Hshape) as Hf. pose proof shape_review_kind as Hk.
  clear Hshape. destruct reviews as [|review rest]; simpl.
  - destruct Hf as [->|(f & _ & _ & Hne)]; [|done].
    rewrite app_nil_r. pose proof (position_find (kind_is WK_Review) (discusses ++ [implement])) as H.
    rewrite (proj2 (find_first_None _ _)) in H by (by apply any_false).
    by destruct (position _ _) as [[]|].
  - rewrite position_app; [|done|apply kind_is_true, Hk; by left].
    by rewrite length_app.
Qed.

(** From the first review, the group is all reviews of the workflow. *)
Lemma shape_review_group :
  take_while (kind_is WK_Review) (drop (length discusses + 1) steps) = reviews.
Proof.
  rewrite (shape_eq _ _ _ _ _ Hshape), drop_app_ge by lia.
  replace (length discusses + 1 - length discusses) with 1 by lia. cbn [drop].
  apply take_while_app.
  - intros x Hx. by apply kind_is_true, shape_review_kind.
  - destruct (shape_fixes _ _ _ _ _ Hshape) as [->|(f & -> & Hf & _)]; [done|]. simpl.
    apply kind_is_false. congruence.
Qed.

Lemma shape_reviews_elem step : step ∈ steps -> wst_kind step = WK_Review -> step ∈ reviews.
Proof.
  intros [n Hn]%list_elem_of_lookup_1 Hk. apply shape_lookup in Hn. rewrite Hk in Hn.
  destruct Hn as (i & _ & Hi). by eapply list_elem_of_lookup_2.
Qed.

Lemma shape_any_fix : any (kind_is WK_Fix) steps = bool_decide (fixes <> []).
Proof.
  apply eq_true_iff_eq. rewrite any_true, bool_decide_eq_true. split.
  - intros (step & [n Hn]%list_elem_of_lookup_1 & Hk%kind_is_true).
    apply shape_lookup in Hn. rewrite Hk in Hn. destruct Hn as [_ ->]. done.
  - destruct (shape_fixes _ _ _ _ _ Hshape) as [Hf|(f & Hf & Hk & _)]; [done|]. intros _.
    exists f. split; [|by apply kind_is_true].
    rewrite (shape_eq _ _ _ _ _ Hshape), Hf. apply elem_of_app. right. right.
    apply elem_of_app. right. by left.
Qed.
End shape.

(** ** What a valid configuration is *)

(** Every step with a reuse reference names an earlier discussion or review of
    the same Agent. *)
Definition reuses_earlier (steps : list WorkflowStep) : Prop :=
  forall i step source_id, steps !! i = Some step -> wst_reuse_step_id step = Some source_id ->
    exists j source, j < i /\ steps !! j = Some source /\ wst_id source = source_id /\
      (wst_kind source = WK_Discuss \/ wst_kind source = WK_Review) /\
      wst_agent_id source = wst_agent_id step.

Lemma is_helper_kind_true kind : is_helper_kind kind = true <-> kind = WK_Discuss \/ kind = WK_Review.
Proof. destruct kind; simpl; split; intros H; try done; try (by auto); by destruct H. Qed.

Lemma reuses_earlier_spec steps :
  all_with_before reuse_is_valid [] steps = true <-> reuses_earlier steps.
Proof.
  rewrite all_with_before_true. unfold reuse_is_valid, reuses_earlier. cbn [app].
  split; intros H i step.
  - intros source_id Hi Hs. specialize (H i step Hi). rewrite Hs in H. simpl in H.
    apply any_true in H as (source & Hin & H). rewrite !andb_true_iff in H.
    destruct H as [[H1 H2] H3]. apply bool_decide_eq_true in H1, H3.
    apply list_elem_of_lookup_1 in Hin as [j Hj]. apply lookup_take_Some in Hj as [Hj Hlt].
    exists j, source. by rewrite is_helper_kind_true in H2.
  - intros Hi. destruct (wst_reuse_step_id step) as [source_id|] eqn:Hs; [|done]. simpl.
    destruct (H i step source_id Hi Hs) as (j & source & Hlt & Hj & H1 & H2 & H3).
    apply any_true. exists source. split.
    + apply (list_elem_of_lookup_2 _ j). by apply lookup_take_Some.
    + rewrite !andb_true_iff, !bool_decide_eq_true, is_helper_kind_true. done.
Qed.

(** What [is_valid] demands besides the steps. *)
Definition configuration_header_ok (c : WorkflowConfiguration) : Prop :=
  workflow_bounded_slug (wc_id c) workflow_id_max_bytes = true /\
  trim_is_empty (wc_project_id c) = false /\
  workflow_bounded_text (wc_name c) workflow_name_max_bytes = true /\
  agent_id_is_well_formed (wc_coordinator_agent_id c) = true /\
  launch_selection_is_well_formed (wc_launch_selection c) = true /\
  (1 <= wc_max_review_cycles c <= 3)%N /\ (1 <= wc_generation c)%N.

Lemma in_range_true lo hi b : in_range lo hi b = true <-> (lo <= b <= hi)%N.
Proof. unfold in_range. rewrite andb_true_iff, !N.leb_le. done. Qed.

Lemma configuration_valid_facts (c : WorkflowConfiguration) :
  workflow_configuration_is_valid c = true <->
  configuration_header_ok c /\
  length (wc_steps c) <= 8 /\
  Forall (fun step => workflow_step_is_valid step = true) (wc_steps c) /\
  NoDup (wst_id <$> wc_steps c) /\ shape_check (wc_steps c) = true /\
  reuses_earlier (wc_steps c).
Proof.
  unfold workflow_configuration_is_valid, configuration_header_ok.
  rewrite <- reuses_earlier_spec, <- all_with_rest_NoDup.
  fold (shape_check (wc_steps c)).
  rewrite !andb_true_iff, !negb_true_iff, in_range_true, Nat.leb_le, N.leb_le, all_true.
  rewrite list.Forall_forall, bool_decide_eq_false. split; [tauto|].
  intros (Hh & Hlen & Hv & Hn & Hs & Hr). split_and!; try tauto.
  intros He. by rewrite He in Hs.
Qed.

(** C16: [WorkflowConfiguration::is_valid] accepts exactly the configurations
    with a well-formed header and one to eight individually valid steps with
    distinct ids, of the form discussions, one implementation, reviews and, only
    behind a review, one fix, in which every continued conversation belongs to
    an earlier helper step of the same Agent. *)
Theorem configuration_grammar (c : WorkflowConfiguration) :
  workflow_configuration_is_valid c = true <->
  configuration_header_ok c /\
  length (wc_steps c) <= 8 /\
  Forall (fun step => workflow_step_is_valid step = true) (wc_steps c) /\
  NoDup (wst_id <$> wc_steps c) /\
  (exists discusses implement reviews fixes,
     workflow_shape (wc_steps c) discusses implement reviews fixes) /\
  reuses_earlier (wc_steps c).
Proof. rewrite <- shape_check_spec. apply configuration_valid_facts. Qed.
