(* ===== verification/WorkflowRun.v ===== *)
(** * What a valid workflow execution is

    [workflow_execution_is_valid], restated as propositions: [execution_ok].
    The interesting part is [stage_ok], which says for each kind of current
    step what the phase, the outstanding request and the review requests may
    be. *)

From S2P Require Import Prelude Text Domain DomainRules StoreState Workflow WorkflowEngine.
From S2P Require Import WorkflowGrammar.

Local Open Scope string_scope.
Local Open Scope list_scope.

(** ** Review requests *)

(** Requests for distinct steps of the group, under distinct valid ids. *)
Record requests_ok (group : list WorkflowStep) (requests : list WorkflowReviewRequest) : Prop := {
  requests_steps : NoDup (wr_step_id <$> requests);
  requests_ids : NoDup (wr_request_id <$> requests);
  requests_in_group : Forall (fun request => wr_step_id request ∈ (wst_id <$> group)) requests;
  requests_valid : Forall (fun request => request_id_is_valid (wr_request_id request) = true) requests
}.

Lemma requests_ok_nil group : requests_ok group [].
Proof. split; constructor. Qed.

Lemma requests_ok_cons group request requests :
  requests_ok group (request :: requests) <->
  wr_step_id request ∈ (wst_id <$> group) /\ request_id_is_valid (wr_request_id request) = true /\
  wr_step_id request ∉ (wr_step_id <$> requests) /\
  wr_request_id request ∉ (wr_request_id <$> requests) /\ requests_ok group requests.
Proof.
  split.
  - intros [H1 H2 H3 H4]. rewrite !fmap_cons, !list.NoDup_cons in *.
    apply list.Forall_cons in H3 as [? ?], H4 as [? ?]. split_and!; try tauto. split; tauto.
  - intros (H1 & H2 & H3 & H4 & [H5 H6 H7 H8]).
    split; rewrite ?fmap_cons, ?list.NoDup_cons, ?list.Forall_cons; tauto.
Qed.

Lemma any_eq_false {A} (key : A -> string) x l :
  any (fun y => key y == x) l = false <-> x ∉ key <$> l.
Proof.
  rewrite any_false, list_elem_of_fmap. split.
  - intros H (y & -> & Hy). specialize (H y Hy). by apply bool_decide_eq_false in H.
  - intros H y Hy. apply bool_decide_eq_false. intros Heq. apply H. by exists y.
Qed.

Lemma any_orb {A} (p q : A -> bool) l : any (fun x => p x || q x) l = any p l || any q l.
Proof.
  induction l as [|x l IH]; simpl; [done|]. rewrite IH.
  destruct (p x), (q x), (any p l); done.
Qed.

Lemma requests_ok_spec group requests :
  all_with_rest (fun request rest =>
    bool_decide (wr_step_id request ∈ (wst_id <$> group))
    && request_id_is_valid (wr_request_id request)
    && negb (any (fun candidate =>
         (wr_step_id candidate == wr_step_id request)
         || (wr_request_id candidate == wr_request_id request)) rest)) requests = true
  <-> requests_ok group requests.
Proof.
  induction requests as [|request requests IH]; simpl.
  { split; [intros; apply requests_ok_nil|done]. }
  rewrite requests_ok_cons, !andb_true_iff, IH, negb_true_iff, any_orb, orb_false_iff.
  rewrite !any_eq_false, bool_decide_eq_true. tauto.
Qed.

(** Requests for distinct steps of a group are no more than its steps. *)
Lemma requests_ok_length group requests :
  requests_ok group requests -> length requests <= length group.
Proof.
  intros [H1 _ H3 _]. rewrite <- (length_fmap wr_step_id requests), <- (length_fmap wst_id group).
  apply submseteq_length, NoDup_submseteq; [done|].
  intros x (request & -> & Hx)%list_elem_of_fmap. rewrite list.Forall_forall in H3. by apply H3.
Qed.

Lemma requests_ok_snoc group requests step_id request_id delivered :
  requests_ok group requests -> step_id ∈ wst_id <$> group ->
  request_id_is_valid request_id = true ->
  step_id ∉ wr_step_id <$> requests -> request_id ∉ wr_request_id <$> requests ->
  requests_ok group (requests ++ [MkWorkflowReviewRequest step_id request_id delivered]).
Proof.
  intros [H1 H2 H3 H4] Hg Hv Hs Hr. split.
  - rewrite fmap_app. apply list.NoDup_app. split_and!; [done| |apply NoDup_singleton].
    simpl. intros x Hx ->%list_elem_of_singleton. done.
  - rewrite fmap_app. apply list.NoDup_app. split_and!; [done| |apply NoDup_singleton].
    simpl. intros x Hx ->%list_elem_of_singleton. done.
  - apply Forall_app. split; [done|]. by apply list.Forall_singleton.
  - apply Forall_app. split; [done|]. by apply list.Forall_singleton.
Qed.

(** ** Stages *)

Definition stage_ok (e : WorkflowExecution) : Prop :=
  match current_step e with
  | None =>
      we_phase e = WP_Completed /\ step_index e = length (we_steps e) /\
      we_current_request_id e = None /\ we_review_requests e = []
  | Some step =>
      match wst_kind step with
      | WK_Implement | WK_Fix =>
          we_phase e = WP_AwaitingCoordinator /\ we_current_request_id e = None /\
          we_review_requests e = []
      | WK_Discuss =>
          we_review_requests e = [] /\
          match we_phase e with
          | WP_AwaitingCoordinator | WP_AwaitingStepCompletion => we_current_request_id e = None
          | WP_AwaitingHelper =>
              exists request_id, we_current_request_id e = Some request_id /\
                request_id_is_valid request_id = true
          | WP_Completed => False
          end
      | WK_Review =>
          we_current_request_id e = None /\
          requests_ok (review_group e) (we_review_requests e) /\
          match we_phase e with
          | WP_AwaitingCoordinator =>
              length (we_review_requests e) < length (review_group e)
          | WP_AwaitingHelper =>
              length (we_review_requests e) = length (review_group e) /\
              any (fun request => negb (wr_reply_delivered request)) (we_review_requests e) = true
          | WP_AwaitingStepCompletion =>
              length (we_review_requests e) = length (review_group e) /\
              all wr_reply_delivered (we_review_requests e) = true
          | WP_Completed => False
          end
      end
  end.

Lemma is_none_true {A} (o : option A) : is_none o = true <-> o = None.
Proof. by destruct o. Qed.

Lemma review_requests_spec e :
  review_requests_are_valid e = true <-> requests_ok (review_group e) (we_review_requests e).
Proof.
  unfold review_requests_are_valid.
  rewrite andb_true_iff, Nat.leb_le, length_fmap, requests_ok_spec. split; [tauto|].
  intros H. split; [by apply requests_ok_length|done].
Qed.

Lemma stage_ok_spec e :
  phase_is_valid e && review_requests_are_valid e && active_review_request_state_is_valid e = true
  <-> stage_ok e.
Proof.
  rewrite !andb_true_iff, review_requests_spec.
  unfold phase_is_valid, active_review_request_state_is_valid, active_step_is_valid, stage_ok.
  destruct (current_step e) as [step|] eqn:Hc; simpl.
  2:{ destruct (we_phase e); rewrite ?andb_true_iff, ?Nat.eqb_eq, ?is_none_true,
        ?bool_decide_eq_true; split; try (intros [[? ?] ?]; done); try (by intros (? & ?)).
      - intros [[[? ?] ?] ?]. done.
      - intros (? & ? & ? & ->). split_and!; try done. apply requests_ok_nil. }
  assert (step_index e < length (we_steps e)) as Hlt by (by apply lookup_lt_Some in Hc).
  unfold kind_is.
  destruct (wst_kind step), (we_phase e) eqn:Hp; simpl;
    rewrite ?andb_true_iff, ?Nat.eqb_eq, ?Nat.ltb_lt, ?is_none_true, ?bool_decide_eq_true;
    try (split; [intros; destruct_and?; (done || lia)|intros; destruct_and?; done]);
    try (split; [tauto|intros; destruct_and?; split_and!; try done;
                       match goal with H : we_review_requests _ = [] |- _ => rewrite H end;
                       apply requests_ok_nil]).
  split.
  - intros [[Hr _] Hn]. split; [done|].
    destruct (we_current_request_id e) as [id|]; [by exists id|done].
  - intros (Hn & id & -> & Hid). rewrite Hn. split_and!; try done. apply requests_ok_nil.
Qed.

(** The two ways a transition ends: at a step nobody started, or at the end. *)
Lemma stage_ok_fresh e step :
  current_step e = Some step -> we_phase e = WP_AwaitingCoordinator ->
  we_current_request_id e = None -> we_review_requests e = [] -> stage_ok e.
Proof.
  intros Hc Hp Hr Hn. unfold stage_ok. rewrite Hc, Hp, Hr, Hn.
  destruct (wst_kind step) eqn:Hk; [done|done| |done].
  split_and!; [done|apply requests_ok_nil|].
  unfold review_group, current_step in *. apply drop_S in Hc as ->. simpl.
  rewrite (proj2 (kind_is_true WK_Review step) Hk). simpl. lia.
Qed.

Lemma stage_ok_completed e :
  we_phase e = WP_Completed -> step_index e = length (we_steps e) ->
  we_current_request_id e = None -> we_review_requests e = [] -> stage_ok e.
Proof.
  intros Hp Hi Hr Hn. unfold stage_ok, current_step. rewrite Hi.
  by rewrite lookup_ge_None_2.
Qed.

(** ** Participants *)

Definition helper_step (steps : list WorkflowStep) (step_id : string) : Prop :=
  exists step, step ∈ steps /\ wst_id step = step_id /\ is_helper_kind (wst_kind step) = true.

Record participants_ok (steps : list WorkflowStep) (participants : list WorkflowParticipant)
  : Prop := {
  participants_distinct : NoDup (wp_step_id <$> participants);
  participants_each : Forall (fun participant =>
    workflow_bounded_slug (wp_step_id participant) workflow_step_id_max_bytes = true /\
    trim_is_empty (wp_helper_session_id participant) = false /\
    helper_step steps (wp_step_id participant)) participants
}.

(** Records keyed by distinct step ids are no more than the steps. *)
Lemma keyed_by_steps_length {A} (key : A -> string) (l : list A) (steps : list WorkflowStep) :
  NoDup (key <$> l) -> (forall x, x ∈ l -> key x ∈ wst_id <$> steps) ->
  length l <= length steps.
Proof.
  intros Hn Hin. rewrite <- (length_fmap key l), <- (length_fmap wst_id steps).
  apply submseteq_length, NoDup_submseteq; [done|].
  intros x (y & -> & Hy)%list_elem_of_fmap. by apply Hin.
Qed.

Lemma participants_spec e :
  participants_are_valid e = true <-> participants_ok (we_steps e) (we_participants e).
Proof.
  unfold participants_are_valid.
  rewrite andb_true_iff, Nat.leb_le, all_with_rest_and, andb_true_iff, all_with_rest_NoDup.
  rewrite all_true. split.
  - intros (_ & Heach & Hn). split; [done|]. apply list.Forall_forall. intros x Hx.
    specialize (Heach x Hx). rewrite !andb_true_iff, negb_true_iff, any_true in Heach.
    destruct Heach as [[? ?] (step & Hin & Hs)]. split_and!; try done. exists step.
    by rewrite andb_true_iff, bool_decide_eq_true in Hs.
  - intros [Hn Heach]. rewrite list.Forall_forall in Heach. split_and!; [| |done].
    + apply (keyed_by_steps_length wp_step_id); [done|]. intros x Hx.
      destruct (Heach x Hx) as (_ & _ & step & Hin & <- & _). by apply list_elem_of_fmap_2.
    + intros x Hx. destruct (Heach x Hx) as (? & ? & step & Hin & Hs & Hk).
      rewrite !andb_true_iff, negb_true_iff, any_true. split_and!; try done. exists step.
      by rewrite andb_true_iff, bool_decide_eq_true.
Qed.

(** ** Results *)

Record results_ok (e : WorkflowExecution) (results : list WorkflowStepResult) : Prop := {
  results_distinct : NoDup (wsr_step_id <$> results);
  results_each : Forall (fun result => exists step,
    find_first (fun step => wst_id step == wsr_step_id result) (we_steps e) = Some step /\
    result_is_valid_for result step e = true) results
}.

Lemma step_results_spec e :
  step_results_are_valid e = true <-> results_ok e (we_step_results e).
Proof.
  unfold step_results_are_valid.
  rewrite andb_true_iff, Nat.leb_le, all_with_rest_and, andb_true_iff, all_with_rest_NoDup.
  rewrite all_true. split.
  - intros (_ & Heach & Hn). split; [done|]. apply list.Forall_forall. intros x Hx.
    specialize (Heach x Hx). destruct (find_first _ _) as [step|]; [by exists step|done].
  - intros [Hn Heach]. rewrite list.Forall_forall in Heach. split_and!; [| |done].
    + apply (keyed_by_steps_length wsr_step_id); [done|]. intros x Hx.
      destruct (Heach x Hx) as (step & Hf & _).
      apply find_first_Some in Hf as [Hin Hid]. apply bool_decide_eq_true in Hid as <-.
      by apply list_elem_of_fmap_2.
    + intros x Hx. by destruct (Heach x Hx) as (step & -> & Hv).
Qed.

(** ** Continued conversations *)

Definition reuses_ok (steps : list WorkflowStep) (participants : list WorkflowParticipant) : Prop :=
  forall step source_id participant, step ∈ steps -> wst_reuse_step_id step = Some source_id ->
    find_participant participants (wst_id step) = Some participant ->
    exists source, find_participant participants source_id = Some source /\
      wp_helper_session_id participant = wp_helper_session_id source.

Lemma reuses_spec e :
  reuses_are_valid e = true <-> reuses_ok (we_steps e) (we_participants e).
Proof.
  unfold reuses_are_valid, reuses_ok. rewrite all_true. split.
  - intros H step source_id participant Hin Hs Hp. specialize (H step Hin).
    rewrite Hs in H. simpl in H. rewrite Hp in H. simpl in H.
    destruct (find_participant _ source_id) as [source|]; [|done]. exists source.
    simpl in H. by apply bool_decide_eq_true in H.
  - intros H step Hin. destruct (wst_reuse_step_id step) as [source_id|] eqn:Hs; [|done]. simpl.
    destruct (find_participant _ (wst_id step)) as [participant|] eqn:Hp; [|done]. simpl.
    destruct (H step source_id participant Hin Hs Hp) as (source & -> & Heq). simpl.
    by apply bool_decide_eq_true.
Qed.

(** ** Executions *)

(** The clauses about fields no transition changes. *)
Definition identity_ok (e : WorkflowExecution) : Prop :=
  workflow_bounded_slug (we_id e) workflow_execution_id_max_bytes = true /\
  trim_is_empty (we_project_id e) = false /\
  is_none_or (we_task_id e) (fun id => negb (trim_is_empty id)) = true /\
  workflow_configuration_is_valid (we_configuration e) = true /\
  wc_project_id (we_configuration e) = we_project_id e /\
  workflow_bounded_text (we_goal e) workflow_goal_max_bytes = true /\
  trim_is_empty (we_coordinator_session_id e) = false /\
  (0 < we_started_at_epoch_ms e)%N.

Record execution_ok (e : WorkflowExecution) : Prop := {
  ok_identity : identity_ok e;
  ok_cycle : (1 <= we_review_cycle e <= wc_max_review_cycles (we_configuration e))%N;
  ok_pending : we_coordinator_prompt_pending e = true -> we_phase e = WP_AwaitingCoordinator;
  ok_stage : stage_ok e;
  ok_participants : participants_ok (we_steps e) (we_participants e);
  ok_results : results_ok e (we_step_results e);
  ok_reuses : reuses_ok (we_steps e) (we_participants e);
  ok_updated : (we_started_at_epoch_ms e <= we_updated_at_epoch_ms e)%N
}.

Lemma execution_ok_spec e : workflow_execution_is_valid e = true <-> execution_ok e.
Proof.
  unfold workflow_execution_is_valid.
  rewrite !andb_true_iff, orb_true_iff, !negb_true_iff, !bool_decide_eq_true, in_range_true,
    N.ltb_lt, N.leb_le, participants_spec, step_results_spec, reuses_spec.
  assert (stage_ok e <->
    (phase_is_valid e = true /\ review_requests_are_valid e = true) /\
    active_review_request_state_is_valid e = true) as Hstage.
  { rewrite <- stage_ok_spec, !andb_true_iff. done. }
  split.
  - intros H. split; [unfold identity_ok; tauto|tauto| |tauto..].
    intros Hp. rewrite Hp in H.
    assert (true = false \/ we_phase e = WP_AwaitingCoordinator) as [|] by tauto; done.
  - intros [Hi Hc Hp Hs Hpa Hre Hru Hu]. unfold identity_ok in Hi.
    assert (we_coordinator_prompt_pending e = false \/ we_phase e = WP_AwaitingCoordinator)
      by (destruct (we_coordinator_prompt_pending e); auto).
    tauto.
Qed.

(** * Runs of a workflow

    The progression as a state machine: one event per way the runtime changes
    an execution, [apply_event] with the guards of the runtime methods, and
    [run] for a sequence of events with the clock readings at which they
    happen.  [admissible] is what the machine relies on: a clock that does not
    go back behind the last update, and fresh, well-formed identifiers from
    Ask-To.  Every admissible event takes valid executions to valid
    executions, so the store never refuses a transition as a
    [ConstraintViolation]. *)


Inductive WorkflowEvent : Type :=
| Delegated (step_id request_id helper_session_id : string)
| DiscussionRetried
| ReplyDelivered (request_id : string)
| PromptDelivered
| StepReported (outcome summary : string).

(** The conversation checks of [complete_workflow_delegate]. *)
Definition helper_matches (e : WorkflowExecution) (step : WorkflowStep) (helper : string) : bool :=
  is_none_or (wst_reuse_step_id step) (fun source_id =>
    is_some_and (find_participant (we_participants e) source_id) (fun source =>
      wp_helper_session_id source == helper))
  && is_none_or (find_participant (we_participants e) (wst_id step)) (fun participant =>
       wp_helper_session_id participant == helper).

Definition apply_event (e : WorkflowExecution) (now : N) (event : WorkflowEvent)
  : option WorkflowExecution :=
  match event with
  | Delegated step_id request_id helper =>
      match delegated_step e step_id with
      | Some step =>
          if (we_phase e == WP_AwaitingCoordinator) && negb (we_coordinator_prompt_pending e)
             && helper_matches e step helper
          then Some (delegate_step e step request_id helper now) else None
      | None => None
      end
  | DiscussionRetried =>
      if (we_phase e == WP_AwaitingHelper) && is_some_and (current_step e) (kind_is WK_Discuss)
      then Some (retry_discussion e now) else None
  | ReplyDelivered request_id =>
      if awaits_reply request_id e then Some (deliver_reply e request_id now) else None
  | PromptDelivered =>
      if awaits_prompt (we_coordinator_session_id e) e then Some (confirm_prompt e now) else None
  | StepReported outcome summary =>
      let summary := trim summary in
      if str_is_empty summary || (workflow_step_result_summary_max_bytes <? len summary)%N
         || contains_byte 0 summary then None
      else match step_to_complete e, parse_outcome outcome with
           | Some step, Some result_outcome =>
               if completion_is_expected e step outcome
               then Some (fst (report_step e step outcome result_outcome summary now))
               else None
           | _, _ => None
           end
  end.

Definition admissible (e : WorkflowExecution) (now : N) (event : WorkflowEvent) : bool :=
  (we_updated_at_epoch_ms e <=? now)%N
  && match event with
     | Delegated _ request_id helper =>
         request_id_is_valid request_id && negb (trim_is_empty helper)
         && negb (any (fun request => wr_request_id request == request_id)
                      (we_review_requests e))
     | _ => true
     end.

Fixpoint run (e : WorkflowExecution) (events : list (N * WorkflowEvent))
  : option WorkflowExecution :=
  match events with
  | [] => Some e
  | (now, event) :: rest =>
      if admissible e now event
      then match apply_event e now event with
           | Some e' => run e' rest
           | None => None
           end
      else None
  end.

(** ** Participants *)

Lemma find_participant_snoc participants p step_id :
  find_participant (participants ++ [p]) step_id =
  match find_participant participants step_id with
  | Some q => Some q
  | None => if wp_step_id p == step_id then Some p else None
  end.
Proof.
  unfold find_participant. rewrite find_first_app. simpl.
  by destruct (find_first _ participants).
Qed.

Lemma find_participant_None participants step_id :
  find_participant participants step_id = None <-> step_id ∉ wp_step_id <$> participants.
Proof.
  unfold find_participant. rewrite find_first_None, <- any_false. apply any_eq_false.
Qed.

Lemma find_participant_Some participants step_id p :
  find_participant participants step_id = Some p -> p ∈ participants /\ wp_step_id p = step_id.
Proof. intros [H1 H2]%find_first_Some. by apply bool_decide_eq_true in H2. Qed.

Lemma participants_ok_snoc steps participants step helper :
  participants_ok steps participants ->
  find_participant participants (wst_id step) = None ->
  step ∈ steps -> is_helper_kind (wst_kind step) = true ->
  workflow_bounded_slug (wst_id step) workflow_step_id_max_bytes = true ->
  trim_is_empty helper = false ->
  participants_ok steps (participants ++ [MkWorkflowParticipant (wst_id step) helper]).
Proof.
  intros [Hn He] Hf%find_participant_None Hin Hk Hs Ht. split.
  - rewrite fmap_app. apply list.NoDup_app. split_and!; [done| |apply NoDup_singleton].
    by intros x Hx ->%list_elem_of_singleton.
  - apply Forall_app. split; [done|]. apply list.Forall_singleton. simpl.
    split_and!; try done. by exists step.
Qed.

(** Adding the helper of a step keeps continued conversations with the helper
    of their source. *)
Lemma reuses_ok_snoc steps participants step helper :
  reuses_ok steps participants -> NoDup (wst_id <$> steps) -> step ∈ steps ->
  find_participant participants (wst_id step) = None ->
  is_none_or (wst_reuse_step_id step) (fun source_id =>
    is_some_and (find_participant participants source_id) (fun source =>
      wp_helper_session_id source == helper)) = true ->
  reuses_ok steps (participants ++ [MkWorkflowParticipant (wst_id step) helper]).
Proof.
  intros Hok Hn Hin Hnone Hsrc step' source_id p Hin' Hreuse.
  rewrite !find_participant_snoc. simpl.
  destruct (find_participant participants (wst_id step')) as [q|] eqn:Hq.
  - intros [= ->]. destruct (Hok step' source_id p Hin' Hreuse Hq) as (source & Hs & Heq).
    exists source. by rewrite Hs.
  - case_bool_decide as Hid; [|done]. intros [= <-]. simpl.
    assert (step' = step) as ->.
    { apply list_elem_of_lookup_1 in Hin as [i Hi], Hin' as [j Hj].
      assert (i = j) as ->; [|congruence].
      apply (NoDup_lookup (wst_id <$> steps) i j (wst_id step) Hn);
        rewrite list_lookup_fmap; [by rewrite Hi|rewrite Hj; simpl; congruence]. }
    rewrite Hreuse in Hsrc. simpl in Hsrc.
    destruct (find_participant participants source_id) as [source|] eqn:Hs; [|done].
    simpl in Hsrc. apply bool_decide_eq_true in Hsrc. by exists source.
Qed.

(** ** Results *)

(** Later readings of the clock and later cycles keep a result valid. *)
Lemma result_valid_mono result step e e' :
  result_is_valid_for result step e = true ->
  (we_review_cycle e <= we_review_cycle e')%N ->
  we_started_at_epoch_ms e' = we_started_at_epoch_ms e ->
  (we_updated_at_epoch_ms e <= we_updated_at_epoch_ms e')%N ->
  result_is_valid_for result step e' = true.
Proof.
  unfold result_is_valid_for. intros H Hc Hs Hu. rewrite Hs.
  rewrite !andb_true_iff, in_range_true, !N.leb_le in *. split_and!; try tauto; lia.
Qed.

Lemma results_ok_mono e e' results :
  results_ok e results -> we_steps e' = we_steps e ->
  (we_review_cycle e <= we_review_cycle e')%N ->
  we_started_at_epoch_ms e' = we_started_at_epoch_ms e ->
  (we_updated_at_epoch_ms e <= we_updated_at_epoch_ms e')%N ->
  results_ok e' results.
Proof.
  intros [Hn He] Hst Hc Hs Hu. split; [done|]. rewrite Hst.
  eapply list.Forall_impl; [exact He|]. intros result (step & Hf & Hv). exists step.
  split; [done|]. by eapply result_valid_mono.
Qed.

Definition upsert (results : list WorkflowStepResult) (result : WorkflowStepResult)
  : list WorkflowStepResult :=
  match position (fun current => wsr_step_id current == wsr_step_id result) results with
  | Some (i, _) => <[i := result]> results
  | None => results ++ [result]
  end.

Lemma upsert_step_result_eq e result :
  upsert_step_result e result = e <| we_step_results := upsert (we_step_results e) result |>.
Proof.
  unfold upsert_step_result, upsert. rewrite find_mut_position.
  by destruct (position _ _) as [[]|].
Qed.

Lemma results_ok_upsert e results result step :
  results_ok e results ->
  find_first (fun step => wst_id step == wsr_step_id result) (we_steps e) = Some step ->
  result_is_valid_for result step e = true -> results_ok e (upsert results result).
Proof.
  intros [Hn He] Hf Hv. unfold upsert. destruct (position _ results) as [[i x]|] eqn:Hp.
  - apply position_Some in Hp as [Hi Hx]. apply bool_decide_eq_true in Hx. split.
    + by rewrite (fmap_insert_same wsr_step_id results i x result Hi (eq_sym Hx)).
    + apply list.Forall_insert; [done|]. by exists step.
  - pose proof (position_find (fun r => wsr_step_id r == wsr_step_id result) results) as Hff.
    rewrite Hp in Hff. simpl in Hff. rewrite find_first_None in Hff.
    rewrite <- any_false in Hff. apply any_eq_false in Hff. split.
    + rewrite fmap_app. apply list.NoDup_app. split_and!; [done| |apply NoDup_singleton].
      by intros y Hy ->%list_elem_of_singleton.
    + apply Forall_app. split; [done|]. apply list.Forall_singleton. by exists step.
Qed.

(** ** What no transition changes *)

Record same_run (e e' : WorkflowExecution) : Prop := {
  same_id : we_id e' = we_id e;
  same_project : we_project_id e' = we_project_id e;
  same_task : we_task_id e' = we_task_id e;
  same_configuration : we_configuration e' = we_configuration e;
  same_goal : we_goal e' = we_goal e;
  same_coordinator : we_coordinator_session_id e' = we_coordinator_session_id e;
  same_started : we_started_at_epoch_ms e' = we_started_at_epoch_ms e
}.

#[export] Instance same_run_preorder : PreOrder same_run.
Proof.
  split; [by split|]. intros e1 e2 e3 [] []. split; congruence.
Qed.

Lemma identity_ok_same e e' : same_run e e' -> identity_ok e -> identity_ok e'.
Proof. intros [H1 H2 H3 H4 H5 H6 H7]. unfold identity_ok. by rewrite H1, H2, H3, H4, H5, H6, H7. Qed.

Lemma same_steps e e' : same_run e e' -> we_steps e' = we_steps e.
Proof. intros []. unfold we_steps. congruence. Qed.

(** ** Valid configurations, unpacked *)

Lemma configuration_facts e :
  execution_ok e ->
  length (we_steps e) <= 8 /\ NoDup (wst_id <$> we_steps e) /\
  Forall (fun step => workflow_step_is_valid step = true) (we_steps e) /\
  shape_check (we_steps e) = true /\
  (wc_max_review_cycles (we_configuration e) <= 3)%N.
Proof.
  intros [(_ & _ & _ & Hc & _) _ _ _ _ _ _ _]. unfold we_steps.
  apply configuration_valid_facts in Hc. unfold configuration_header_ok in Hc.
  split_and!; tauto.
Qed.

Lemma step_facts e step :
  execution_ok e -> step ∈ we_steps e ->
  workflow_bounded_slug (wst_id step) workflow_step_id_max_bytes = true.
Proof.
  intros Hok Hin. destruct (configuration_facts e Hok) as (_ & _ & Hv & _).
  rewrite list.Forall_forall in Hv. specialize (Hv step Hin).
  unfold workflow_step_is_valid in Hv. rewrite !andb_true_iff in Hv. tauto.
Qed.

(** With distinct ids, a step is found under its id. *)
Lemma find_step steps step :
  NoDup (wst_id <$> steps) -> step ∈ steps ->
  find_first (fun candidate => wst_id candidate == wst_id step) steps = Some step.
Proof.
  induction steps as [|s steps IH]; [by intros _ ?%elem_of_nil|].
  rewrite fmap_cons, list.NoDup_cons, elem_of_cons. simpl. intros [Hs Hn] [->|Hin].
  - by rewrite bool_decide_eq_true_2.
  - rewrite bool_decide_eq_false_2; [by apply IH|]. intros Heq. apply Hs. rewrite Heq.
    by apply list_elem_of_fmap_2.
Qed.

Lemma current_step_elem e step : current_step e = Some step -> step ∈ we_steps e.
Proof. apply list_elem_of_lookup_2. Qed.

Lemma review_group_elem e step :
  step ∈ review_group e -> step ∈ we_steps e /\ wst_kind step = WK_Review.
Proof.
  intros [H1 H2]%elem_of_take_while. apply kind_is_true in H2. split; [|done].
  apply list_elem_of_lookup_1 in H1 as [i Hi]. rewrite lookup_drop in Hi.
  by eapply list_elem_of_lookup_2.
Qed.

(** ** Delegation *)

Lemma delegated_step_Some e step_id step :
  delegated_step e step_id = Some step ->
  exists current, current_step e = Some current /\
    ((wst_kind current = WK_Review /\ wst_kind step = WK_Review /\ step ∈ review_group e /\
      wst_id step ∉ wr_step_id <$> we_review_requests e) \/
     (wst_kind current = WK_Discuss /\ step = current)).
Proof.
  unfold delegated_step. destruct (current_step e) as [current|]; [|done].
  destruct (kind_is WK_Review current) eqn:Hk.
  - destruct (find_first _ _) as [s|] eqn:Hf; [|done].
    destruct (any _ _) eqn:Ha; [done|]. intros [= <-]. exists current. split; [done|]. left.
    apply find_first_Some in Hf as [Hin _]. apply kind_is_true in Hk.
    split_and!; [done|by apply review_group_elem in Hin as [_ ?]|done|].
    by apply any_eq_false.
  - destruct (bool_decide _); simpl; [|done].
    destruct (kind_is WK_Discuss current) eqn:Hd; [|done]. intros [= <-].
    exists current. apply kind_is_true in Hd. auto.
Qed.

Lemma delegate_participants e step helper now :
  execution_ok e -> step ∈ we_steps e -> is_helper_kind (wst_kind step) = true ->
  helper_matches e step helper = true -> trim_is_empty helper = false ->
  forall request_id, let e' := delegate_step e step request_id helper now in
  participants_ok (we_steps e) (we_participants e') /\
  reuses_ok (we_steps e) (we_participants e').
Proof.
  intros Hok Hin Hk Hm Ht request_id e'.
  assert (we_participants e' = match find_participant (we_participants e) (wst_id step) with
    | Some _ => we_participants e
    | None => we_participants e ++ [MkWorkflowParticipant (wst_id step) helper] end) as ->.
  { unfold e', delegate_step. by destruct (find_participant _ _), (kind_is _ _). }
  destruct (find_participant _ _) as [p|] eqn:Hp; [by destruct Hok|].
  unfold helper_matches in Hm. apply andb_true_iff in Hm as [Hm _]. split.
  - apply participants_ok_snoc; try done; [by destruct Hok|by eapply step_facts].
  - apply reuses_ok_snoc; try done; [by destruct Hok|by eapply configuration_facts].
Qed.

Lemma delegate_frame e step request_id helper now :
  let e' := delegate_step e step request_id helper now in
  same_run e e' /\ current_step e' = current_step e /\ review_group e' = review_group e /\
  we_review_cycle e' = we_review_cycle e /\
  we_coordinator_prompt_pending e' = we_coordinator_prompt_pending e /\
  we_step_results e' = we_step_results e /\
  we_review_changes_requested e' = we_review_changes_requested e /\
  we_updated_at_epoch_ms e' = now.
Proof.
  unfold delegate_step. destruct (find_participant _ _), (kind_is _ _); split_and!; done.
Qed.

Lemma delegate_stage e step request_id helper now current :
  stage_ok e -> current_step e = Some current -> we_phase e = WP_AwaitingCoordinator ->
  ((wst_kind current = WK_Review /\ wst_kind step = WK_Review /\ step ∈ review_group e /\
    wst_id step ∉ wr_step_id <$> we_review_requests e) \/
   (wst_kind current = WK_Discuss /\ step = current)) ->
  request_id_is_valid request_id = true ->
  request_id ∉ wr_request_id <$> we_review_requests e ->
  stage_ok (delegate_step e step request_id helper now).
Proof.
  intros Hs Hcur Hphase Hstep Hid Hfresh.
  destruct (delegate_frame e step request_id helper now) as (_ & Hcur' & Hgroup & _).
  unfold stage_ok in *. rewrite Hcur', Hgroup. rewrite Hcur, Hphase in *.
  destruct Hstep as [(Hkc & Hk & Hin & Hnew)|[Hk ->]].
  - rewrite Hkc in *. apply (kind_is_true WK_Review) in Hk. destruct Hs as (_ & Hok & Hlt).
    assert (requests_ok (review_group e) (we_review_requests e
      ++ [MkWorkflowReviewRequest (wst_id step) request_id false])) as Hok'.
    { apply requests_ok_snoc; try done. by apply list_elem_of_fmap_2. }
    set (ph := if (length (we_review_requests e
                             ++ [MkWorkflowReviewRequest (wst_id step) request_id false])
                    =? length (review_group e))%nat then WP_AwaitingHelper
               else WP_AwaitingCoordinator).
    assert (we_phase (delegate_step e step request_id helper now) = ph /\
      we_current_request_id (delegate_step e step request_id helper now) = None /\
      we_review_requests (delegate_step e step request_id helper now) = we_review_requests e
        ++ [MkWorkflowReviewRequest (wst_id step) request_id false]) as (-> & -> & ->).
    { unfold delegate_step. rewrite Hk. by destruct (find_participant _ _). }
    split_and!; [done|done|]. pose proof (requests_ok_length _ _ Hok') as Hle.
    unfold ph. destruct (Nat.eqb_spec (length (we_review_requests e
      ++ [MkWorkflowReviewRequest (wst_id step) request_id false])) (length (review_group e)))
      as [Heq|Hne].
    + split; [done|]. apply any_true. eexists. split; [apply elem_of_app; right; by left|done].
    + lia.
  - rewrite Hk in *. destruct Hs as [Hn Hreq].
    assert (kind_is WK_Review current = false) as Hr by (apply kind_is_false; congruence).
    unfold delegate_step. rewrite Hr.
    destruct (find_participant _ _); simpl; (split; [done|]); by exists request_id.
Qed.

Lemma delegate_preserves e step_id request_id helper now e' :
  execution_ok e -> admissible e now (Delegated step_id request_id helper) = true ->
  apply_event e now (Delegated step_id request_id helper) = Some e' -> execution_ok e'.
Proof.
  intros Hok Hadm. simpl. destruct (delegated_step e step_id) as [step|] eqn:Hd; [|done].
  destruct (_ && _) eqn:Hg; [|done]. intros [= <-].
  unfold admissible in Hadm. rewrite !andb_true_iff, !negb_true_iff, N.leb_le in Hadm.
  rewrite !andb_true_iff, negb_true_iff in Hg.
  destruct Hadm as (Hnow & [Hid Hhelper] & Hfresh), Hg as [[Hphase Hpend] Hm].
  apply bool_decide_eq_true in Hphase. apply any_eq_false in Hfresh.
  apply delegated_step_Some in Hd as (current & Hcur & Hstep).
  assert (step ∈ we_steps e /\ is_helper_kind (wst_kind step) = true) as [Hin Hkind].
  { destruct Hstep as [(_ & Hk & Hin & _)|[Hk ->]]; rewrite Hk.
    - by apply review_group_elem in Hin as [Hin _].
    - split; [by apply current_step_elem|done]. }
  destruct (delegate_participants e step helper now Hok Hin Hkind Hm Hhelper request_id)
    as [Hpart Hreuse].
  destruct (delegate_frame e step request_id helper now)
    as (Hsame & _ & _ & Hcy & Hpe & Hre & _ & Hup).
  pose proof (same_steps _ _ Hsame) as Hst.
  destruct Hok as [Hi Hc Hp Hs _ Hr _ Hu]. split; rewrite ?Hst, ?Hcy, ?Hup; try done.
  - by eapply identity_ok_same.
  - by rewrite (same_configuration _ _ Hsame).
  - rewrite Hpe. congruence.
  - by eapply delegate_stage.
  - rewrite Hre. apply (results_ok_mono e); rewrite ?Hcy, ?Hup; try done. apply Hsame.
  - rewrite (same_started _ _ Hsame). lia.
Qed.

(** ** Retries, replies and prompts *)

Lemma retry_preserves e now e' :
  execution_ok e -> admissible e now DiscussionRetried = true ->
  apply_event e now DiscussionRetried = Some e' -> execution_ok e'.
Proof.
  intros Hok Hadm. simpl. destruct (_ && _) eqn:Hg; [|done]. intros [= <-].
  apply andb_true_iff in Hg as [_ Hd]. unfold admissible in Hadm.
  rewrite andb_true_r, N.leb_le in Hadm.
  destruct Hok as [Hi Hc Hp Hs Hpa Hr Hre Hu]. split; try done.
  - unfold stage_ok in *. change (current_step (retry_discussion e now)) with (current_step e).
    destruct (current_step e) as [current|]; [|done]. simpl in Hd.
    apply kind_is_true in Hd. rewrite Hd in *. by destruct Hs.
  - apply (results_ok_mono e); done.
  - simpl. lia.
Qed.

Lemma confirm_preserves e now e' :
  execution_ok e -> admissible e now PromptDelivered = true ->
  apply_event e now PromptDelivered = Some e' -> execution_ok e'.
Proof.
  intros Hok Hadm. simpl. destruct (awaits_prompt _ _) eqn:Hg; [|done]. intros [= <-].
  unfold admissible in Hadm. rewrite andb_true_r, N.leb_le in Hadm.
  destruct Hok as [Hi Hc Hp Hs Hpa Hr Hre Hu]. split; try done.
  - apply (results_ok_mono e); done.
  - simpl. lia.
Qed.

Lemma all_false_any {A} (p : A -> bool) l : all p l = false -> any (fun x => negb (p x)) l = true.
Proof.
  induction l as [|x l IH]; simpl; [done|]. destruct (p x); simpl; [apply IH|done].
Qed.

(** Marking a request delivered keeps the requests distinct and in the group. *)
Lemma requests_ok_deliver group requests i request :
  requests_ok group requests -> requests !! i = Some request ->
  requests_ok group (<[i := request <| wr_reply_delivered := true |>]> requests).
Proof.
  intros [H1 H2 H3 H4] Hi.
  pose proof (list_elem_of_lookup_2 _ _ _ Hi) as Hin.
  rewrite !list.Forall_forall in *. split.
  - by rewrite (fmap_insert_same wr_step_id requests i request).
  - by rewrite (fmap_insert_same wr_request_id requests i request).
  - apply list.Forall_forall. intros x [->|Hx]%elem_of_insert_list; [by apply (H3 request)|auto].
  - apply list.Forall_forall. intros x [->|Hx]%elem_of_insert_list; [by apply (H4 request)|auto].
Qed.

Lemma deliver_frame e request_id now :
  let e' := deliver_reply e request_id now in
  same_run e e' /\ current_step e' = current_step e /\ review_group e' = review_group e /\
  we_review_cycle e' = we_review_cycle e /\
  we_coordinator_prompt_pending e' = we_coordinator_prompt_pending e /\
  we_participants e' = we_participants e /\ we_step_results e' = we_step_results e /\
  we_review_changes_requested e' = we_review_changes_requested e /\
  we_updated_at_epoch_ms e' = now.
Proof.
  unfold deliver_reply.
  destruct (find_mut _ _ _) as [[]|]; [destruct (_ && _)|]; split_and!; done.
Qed.

(** In what stage a reply finds the execution, and where it leaves it. *)
Lemma deliver_stage e request_id now :
  stage_ok e -> awaits_reply request_id e = true ->
  stage_ok (deliver_reply e request_id now) /\
  (we_phase (deliver_reply e request_id now) = we_phase e \/
   (we_phase e = WP_AwaitingHelper /\
    we_phase (deliver_reply e request_id now) = WP_AwaitingStepCompletion)).
Proof.
  intros Hs Ha. destruct (deliver_frame e request_id now) as (_ & Hcur & Hgroup & _).
  unfold stage_ok in *. rewrite Hcur, Hgroup.
  unfold deliver_reply, awaits_reply in *. rewrite find_mut_position in *.
  destruct (position _ _) as [[i request]|] eqn:Hpos.
  - apply position_Some in Hpos as [Hi Hid].
    assert (we_review_requests e <> []) as Hne by (intros Heq; by rewrite Heq in Hi).
    destruct (current_step e) as [current|]; [|by destruct Hs as (_ & _ & _ & ?)].
    destruct (wst_kind current); try (by destruct_and!).
    change (review_group (e <| we_review_requests := _ |>)) with (review_group e).
    destruct Hs as (Hreq & Hok & Hph). apply (requests_ok_deliver _ _ i request) in Hok; [|done].
    cbn [we_review_requests set_field] in *. rewrite length_insert.
    destruct (we_phase e) eqn:Hphase; try done.
    + rewrite (proj2 (Nat.eqb_neq _ _)) by lia. simpl. rewrite length_insert, Hphase. auto.
    + destruct Hph as [Hlen _]. rewrite (proj2 (Nat.eqb_eq _ _)) by done. simpl.
      destruct (all _ _) eqn:Hall; simpl; rewrite ?Hphase, length_insert; [by auto|].
      apply all_false_any in Hall. auto.
  - assert (any (fun request => wr_request_id request == request_id) (we_review_requests e)
            = false) as Hnone.
    { apply any_false, find_first_None. by rewrite position_find, Hpos. }
    rewrite Hnone, andb_false_r, orb_false_r, andb_true_iff, !bool_decide_eq_true in Ha.
    destruct Ha as [Hph Hreq]. rewrite Hph, Hreq in *. simpl.
    destruct (current_step e) as [current|]; [|by destruct Hs].
    destruct (wst_kind current); [|by destruct Hs..]. destruct Hs as [Hn _]. auto.
Qed.

Lemma deliver_preserves e request_id now e' :
  execution_ok e -> admissible e now (ReplyDelivered request_id) = true ->
  apply_event e now (ReplyDelivered request_id) = Some e' -> execution_ok e'.
Proof.
  intros Hok Hadm. simpl. destruct (awaits_reply _ _) eqn:Ha; [|done]. intros [= <-].
  unfold admissible in Hadm. rewrite andb_true_r, N.leb_le in Hadm.
  destruct (deliver_frame e request_id now)
    as (Hsame & _ & _ & Hcy & Hpe & Hpa' & Hre & _ & Hup).
  destruct Hok as [Hi Hc Hp Hs Hpa Hr Hru Hu].
  destruct (deliver_stage e request_id now Hs Ha) as [Hs' Hphase].
  split; rewrite ?(same_steps _ _ Hsame), ?(same_configuration _ _ Hsame), ?Hpa', ?Hcy, ?Hup;
    try done.
  - by eapply identity_ok_same.
  - rewrite Hpe. intros Hpend. specialize (Hp Hpend).
    destruct Hphase as [->|[Hph _]]; [done|congruence].
  - rewrite Hre. apply (results_ok_mono e); rewrite ?Hcy, ?Hup; try done;
      [by apply same_steps|apply Hsame].
  - rewrite (same_started _ _ Hsame). lia.
Qed.
