(* ===== verification/WorkflowProgress.v ===== *)
(** * Reports and progress

    What a report of the coordinator does, case by case ([report_result]), and
    the part of the invariant that load-time validation does not check:
    [progress_ok] ties the position of the execution to the results recorded
    so far. *)

From S2P Require Import Prelude Text Domain DomainRules StoreState Workflow WorkflowEngine.
From S2P Require Import WorkflowGrammar WorkflowRun.

Local Open Scope string_scope.
Local Open Scope list_scope.

(** ** The result recorded *)

(** The execution with the report recorded, before it moves on. *)
Definition recorded (e : WorkflowExecution) (step : WorkflowStep) (outcome : string)
    (result_outcome : WorkflowStepResultOutcome) (summary : string) (now : N)
  : WorkflowExecution :=
  let e1 := if kind_is WK_Review step && (outcome == "changesRequested")
            then e <| we_review_changes_requested := true |> else e in
  upsert_step_result (e1 <| we_updated_at_epoch_ms := now |>)
    (MkWorkflowStepResult (wst_id step) (we_review_cycle e) result_outcome summary now).

(** The places a recorded report can take the execution to. *)
Inductive report_result (b : WorkflowExecution) (step : WorkflowStep) (now : N)
  : WorkflowExecution -> Prop :=
| report_more :
    wst_kind step = WK_Review -> all (has_result b) (review_group b) = false ->
    report_result b step now (b <| we_phase := WP_AwaitingStepCompletion |>)
| report_to_fix next :
    wst_kind step = WK_Review -> all (has_result b) (review_group b) = true ->
    we_steps b !! (step_index b + length (review_group b)) = Some next ->
    wst_kind next = WK_Fix -> we_review_changes_requested b = true ->
    report_result b step now
      (b <| we_review_requests := [] |>
         <| we_current_step_index :=
              as_u8 (N.of_nat (step_index b + length (review_group b))) |>
         <| we_phase := WP_AwaitingCoordinator |> <| we_coordinator_prompt_pending := true |>)
| report_skip_fix next :
    wst_kind step = WK_Review -> all (has_result b) (review_group b) = true ->
    we_steps b !! (step_index b + length (review_group b)) = Some next ->
    wst_kind next = WK_Fix -> we_review_changes_requested b = false ->
    report_result b step now
      (upsert_step_result
         (complete_execution (b <| we_review_requests := [] |>) (length (we_steps b)))
         (MkWorkflowStepResult (wst_id next) (we_review_cycle b) WRO_Skipped
            "No review changes were requested." now))
| report_reviewed :
    wst_kind step = WK_Review -> all (has_result b) (review_group b) = true ->
    is_some_and (we_steps b !! (step_index b + length (review_group b))) (kind_is WK_Fix)
      = false ->
    report_result b step now
      (complete_execution (b <| we_review_requests := [] |>) (length (we_steps b)))
| report_next :
    wst_kind step = WK_Discuss \/ wst_kind step = WK_Implement ->
    step_index b + 1 < length (we_steps b) ->
    report_result b step now
      (b <| we_current_step_index := as_u8 (N.of_nat (step_index b + 1)) |>
         <| we_phase := WP_AwaitingCoordinator |> <| we_current_request_id := None |>
         <| we_coordinator_prompt_pending := true |>)
| report_last :
    wst_kind step = WK_Discuss \/ wst_kind step = WK_Implement ->
    length (we_steps b) <= step_index b + 1 ->
    report_result b step now (complete_execution b (length (we_steps b)))
| report_cycle i review :
    wst_kind step = WK_Fix -> position (kind_is WK_Review) (we_steps b) = Some (i, review) ->
    we_review_changes_requested b = true ->
    (we_review_cycle b < wc_max_review_cycles (we_configuration b))%N ->
    report_result b step now
      (b <| we_current_step_index := as_u8 (N.of_nat i) |>
         <| we_review_cycle := u8_add (we_review_cycle b) 1 |>
         <| we_review_changes_requested := false |> <| we_review_requests := [] |>
         <| we_phase := WP_AwaitingCoordinator |> <| we_coordinator_prompt_pending := true |>)
| report_fixed :
    wst_kind step = WK_Fix ->
    (position (kind_is WK_Review) (we_steps b) = None \/
     we_review_changes_requested b = false \/
     (wc_max_review_cycles (we_configuration b) <= we_review_cycle b)%N) ->
    report_result b step now (complete_execution b (length (we_steps b))).

Lemma recorded_eq e step outcome ro summary now :
  recorded e step outcome ro summary now =
  e <| we_review_changes_requested :=
         we_review_changes_requested e || (kind_is WK_Review step && (outcome == "changesRequested")) |>
    <| we_updated_at_epoch_ms := now |>
    <| we_step_results := upsert (we_step_results e)
         (MkWorkflowStepResult (wst_id step) (we_review_cycle e) ro summary now) |>.
Proof.
  unfold recorded. rewrite upsert_step_result_eq.
  destruct (_ && _); simpl; [by rewrite orb_true_r|]. rewrite orb_false_r. by destruct e.
Qed.

Lemma upsert_step_phase e result : we_phase (upsert_step_result e result) = we_phase e.
Proof. by rewrite upsert_step_result_eq. Qed.

(** The places, from the three ways a report moves the execution. *)
Lemma finish_group_result b step now :
  wst_kind step = WK_Review -> all (has_result b) (review_group b) = true ->
  let '(e', skipped) := finish_review_group b in
  let e' := match skipped ≫= (fun index => we_steps e' !! index) with
            | Some next => upsert_step_result e'
                (MkWorkflowStepResult (wst_id next) (we_review_cycle b) WRO_Skipped
                   "No review changes were requested." now)
            | None => e' end in
  report_result b step now
    (if we_phase e' != WP_Completed then e' <| we_coordinator_prompt_pending := true |> else e').
Proof.
  intros Hk Hall. unfold finish_review_group. simpl.
  change (we_steps (b <| we_review_requests := [] |>)) with (we_steps b).
  destruct (we_steps b !! _) as [next|] eqn:Hn.
  2:{ simpl. apply report_reviewed; [done..|]. by rewrite Hn. }
  destruct (kind_is WK_Fix next) eqn:Hf.
  2:{ simpl. apply report_reviewed; [done..|]. by rewrite Hn. }
  apply kind_is_true in Hf. destruct (we_review_changes_requested b) eqn:Hc; simpl.
  - by eapply report_to_fix.
  - change (we_steps (complete_execution _ _)) with (we_steps b). rewrite Hn, upsert_step_phase.
    by apply report_skip_fix.
Qed.

Lemma advance_next_result b step now :
  wst_kind step = WK_Discuss \/ wst_kind step = WK_Implement ->
  let e' := advance_to_next b in
  report_result b step now
    (if we_phase e' != WP_Completed then e' <| we_coordinator_prompt_pending := true |> else e').
Proof.
  intros Hk. unfold advance_to_next. destruct (_ <=? _)%nat eqn:Hle; simpl.
  - apply report_last; [done|]. by apply Nat.leb_le.
  - apply report_next; [done|]. by apply Nat.leb_gt.
Qed.

Lemma advance_fix_result b step now :
  wst_kind step = WK_Fix ->
  let e' := fst (advance_execution b WK_Fix) in
  snd (advance_execution b WK_Fix) = None /\
  report_result b step now
    (if we_phase e' != WP_Completed then e' <| we_coordinator_prompt_pending := true |> else e').
Proof.
  intros Hk. unfold advance_execution.
  destruct (position _ _) as [[i review]|] eqn:Hp; simpl.
  2:{ split; [done|]. apply report_fixed; auto. }
  destruct (we_review_changes_requested b) eqn:Hc; simpl.
  2:{ split; [done|]. apply report_fixed; auto. }
  destruct (_ <? _)%N eqn:Hlt; simpl; (split; [done|]).
  - apply N.ltb_lt in Hlt. by eapply report_cycle.
  - apply N.ltb_ge in Hlt. apply report_fixed; auto.
Qed.

(** [report_step] goes to one of these places. *)
Lemma report_step_result e step outcome ro summary now :
  report_result (recorded e step outcome ro summary now) step now
    (fst (report_step e step outcome ro summary now)).
Proof.
  unfold report_step. fold (recorded e step outcome ro summary now).
  assert (we_review_cycle e = we_review_cycle (recorded e step outcome ro summary now)) as Hcy
    by (by rewrite recorded_eq).
  rewrite Hcy. generalize (recorded e step outcome ro summary now) as b. clear. intros b.
  destruct (kind_is WK_Review step) eqn:Hr; simpl.
  - apply kind_is_true in Hr. destruct (all _ _) eqn:Hall.
    + pose proof (finish_group_result b step now Hr Hall) as H.
      by destruct (finish_review_group b) as [e' skipped].
    + by apply report_more.
  - apply kind_is_false in Hr. destruct (wst_kind step) eqn:Hk; [| |done|].
    + unfold advance_execution. simpl. apply advance_next_result. auto.
    + unfold advance_execution. simpl. apply advance_next_result. auto.
    + destruct (advance_fix_result b step now Hk) as [Hsnd Hres].
      destruct (advance_execution b WK_Fix) as [e' skipped]. simpl in *. by subst skipped.
Qed.

(** ** Progress *)

(** Every review of the workflow has reported in the current cycle. *)
Definition reviews_reported (e : WorkflowExecution) : Prop :=
  forall step, step ∈ we_steps e -> wst_kind step = WK_Review -> has_result e step = true.

(** Some review of the current cycle asked for changes. *)
Definition changes_in_cycle (e : WorkflowExecution) : bool :=
  any (fun result =>
         (wsr_review_cycle result == we_review_cycle e)
         && (wsr_outcome result == WRO_ChangesRequested)) (we_step_results e).

(** Discussions and the implementation belong to the first cycle; a review
    group starts at the first review; the fix step is only reached when the
    complete group asked for changes; an execution ends only with a complete
    group, and with changes asked for only when no fix or no cycle is left. *)
Definition position_ok (e : WorkflowExecution) : Prop :=
  match current_step e with
  | Some step =>
      match wst_kind step with
      | WK_Discuss | WK_Implement => we_review_cycle e = 1%N
      | WK_Review => fst <$> position (kind_is WK_Review) (we_steps e) = Some (step_index e)
      | WK_Fix => we_review_changes_requested e = true /\ reviews_reported e
      end
  | None =>
      reviews_reported e /\
      (we_review_changes_requested e = true -> any (kind_is WK_Fix) (we_steps e) = true ->
       (wc_max_review_cycles (we_configuration e) <= we_review_cycle e)%N)
  end.

Record progress_ok (e : WorkflowExecution) : Prop := {
  pg_changes : we_review_changes_requested e = changes_in_cycle e;
  pg_position : position_ok e
}.

(** Events that do not report leave all of this alone. *)
Record same_place (e e' : WorkflowExecution) : Prop := {
  same_place_run : same_run e e';
  same_place_index : we_current_step_index e' = we_current_step_index e;
  same_place_cycle : we_review_cycle e' = we_review_cycle e;
  same_place_results : we_step_results e' = we_step_results e;
  same_place_changes : we_review_changes_requested e' = we_review_changes_requested e
}.

Lemma progress_same_place e e' : same_place e e' -> progress_ok e -> progress_ok e'.
Proof.
  intros [Hrun Hi Hc Hr Hf] [Hch Hpos].
  assert (current_step e' = current_step e /\ step_index e' = step_index e) as [Hcur Hidx].
  { unfold current_step, step_index. by rewrite (same_steps _ _ Hrun), Hi. }
  split.
  - unfold changes_in_cycle in *. by rewrite Hf, Hr, Hc.
  - unfold position_ok, reviews_reported, has_result in *.
    by rewrite Hcur, Hidx, Hc, Hr, Hf, (same_steps _ _ Hrun), (same_configuration _ _ Hrun).
Qed.

Lemma other_event_same_place e now event e' :
  (forall outcome summary, event <> StepReported outcome summary) ->
  apply_event e now event = Some e' -> same_place e e'.
Proof.
  intros Hne. destruct event; simpl; [| | | |by destruct (Hne outcome summary)].
  - destruct (delegated_step _ _) as [step|]; [|done].
    destruct (_ && _); [|done]. intros [= <-]. unfold delegate_step.
    destruct (find_participant _ _), (kind_is _ _); by repeat split.
  - destruct (_ && _); [|done]. intros [= <-]. by repeat split.
  - destruct (awaits_reply _ _); [|done]. intros [= <-]. unfold deliver_reply.
    destruct (find_mut _ _ _) as [[]|]; [destruct (_ && _)|]; by repeat split.
  - destruct (awaits_prompt _ _); [|done]. intros [= <-]. by repeat split.
Qed.

(** ** Upserting a result *)

Lemma any_insert {A} (p : A -> bool) l i x y :
  l !! i = Some x -> p x = false -> any p (<[i := y]> l) = any p l || p y.
Proof.
  revert i. induction l as [|z l IH]; intros [|i]; simpl; intros Hi Hx; try done.
  - injection Hi as ->. rewrite Hx. simpl. apply orb_comm.
  - rewrite (IH i) by done. by rewrite orb_assoc.
Qed.

Lemma any_app {A} (p : A -> bool) l k : any p (l ++ k) = any p l || any p k.
Proof. induction l as [|x l IH]; simpl; [done|]. by rewrite IH, orb_assoc. Qed.

(** A property the replaced report of the step did not have. *)
Lemma any_upsert (p : WorkflowStepResult -> bool) results result :
  (forall x, x ∈ results -> wsr_step_id x = wsr_step_id result -> p x = false) ->
  any p (upsert results result) = any p results || p result.
Proof.
  intros H. unfold upsert. destruct (position _ _) as [[i x]|] eqn:Hp.
  - pose proof (position_elem _ _ _ _ Hp) as Hin.
    apply position_Some in Hp as [Hi Hx%bool_decide_eq_true]. by apply any_insert with x; auto.
  - rewrite any_app. simpl. by rewrite orb_false_r.
Qed.

Lemma upsert_elem results result : result ∈ upsert results result.
Proof.
  unfold upsert. destruct (position _ _) as [[i x]|] eqn:Hp.
  - apply position_Some in Hp as [Hi _]. apply lookup_lt_Some in Hi.
    apply (list_elem_of_lookup_2 _ i). by apply list_lookup_insert_eq.
  - apply elem_of_app. right. by left.
Qed.

(** What the step of a report and its result have to do with the execution. *)
Lemma step_to_complete_Some e step :
  step_to_complete e = Some step ->
  exists current, current_step e = Some current /\
    ((wst_kind current = WK_Review /\ wst_kind step = WK_Review /\ step ∈ review_group e /\
      has_result e step = false) \/
     (wst_kind current <> WK_Review /\ step = current)).
Proof.
  unfold step_to_complete. destruct (current_step e) as [current|]; [|done].
  destruct (kind_is WK_Review current) eqn:Hk.
  - intros [Hin Hr]%find_first_Some. apply kind_is_true in Hk. apply negb_true_iff in Hr.
    exists current. split; [done|]. left. by apply review_group_elem in Hin as ?; destruct_and!.
  - intros [= ->]. apply kind_is_false in Hk. exists step. auto.
Qed.

Lemma completed_step_elem e step : step_to_complete e = Some step -> step ∈ we_steps e.
Proof.
  intros (current & Hc & [(_ & _ & Hin & _)|[_ ->]])%step_to_complete_Some.
  - by apply review_group_elem in Hin as [? _].
  - by apply current_step_elem.
Qed.

(** ** The report is recorded *)

Lemma result_of_step e result step :
  execution_ok e -> result ∈ we_step_results e -> step ∈ we_steps e ->
  wsr_step_id result = wst_id step -> result_is_valid_for result step e = true.
Proof.
  intros Hok Hin Hs Hid. destruct (configuration_facts e Hok) as (_ & Hn & _).
  destruct (ok_results _ Hok) as [_ He]. rewrite list.Forall_forall in He.
  destruct (He result Hin) as (step' & Hf & Hv). rewrite Hid, (find_step _ _ Hn Hs) in Hf.
  by injection Hf as ->.
Qed.

Lemma result_cycle e result :
  execution_ok e -> result ∈ we_step_results e -> (wsr_review_cycle result <= we_review_cycle e)%N.
Proof.
  intros Hok Hin. destruct (ok_results _ Hok) as [_ He]. rewrite list.Forall_forall in He.
  destruct (He result Hin) as (step & _ & Hv). unfold result_is_valid_for in Hv.
  rewrite !andb_true_iff, in_range_true in Hv. lia.
Qed.

(** Only reviews ask for changes. *)
Lemma only_reviews_request_changes e result step :
  execution_ok e -> result ∈ we_step_results e -> step ∈ we_steps e ->
  wsr_step_id result = wst_id step -> wst_kind step <> WK_Review ->
  wsr_outcome result <> WRO_ChangesRequested.
Proof.
  intros Hok Hin Hs Hid Hk Ho. pose proof (result_of_step e result step Hok Hin Hs Hid) as Hv.
  unfold result_is_valid_for in Hv. rewrite Ho, !andb_true_iff in Hv.
  destruct (wst_kind step); destruct_and!; try done.
Qed.

Lemma summary_bounded summary :
  str_is_empty (trim summary) || (workflow_step_result_summary_max_bytes <? len (trim summary))%N
    || contains_byte 0 (trim summary) = false ->
  workflow_bounded_text (trim summary) workflow_step_result_summary_max_bytes = true.
Proof.
  rewrite !orb_false_iff. intros [[He Hl] Hn]. unfold workflow_bounded_text.
  rewrite (trim_not_blank _ He), Hn. simpl. rewrite andb_true_r.
  apply N.leb_le. by apply N.ltb_ge.
Qed.

(** The outcome the validator wants for the kind of the step. *)
Lemma expected_outcome_valid e step outcome ro :
  completion_is_expected e step outcome = true -> parse_outcome outcome = Some ro ->
  match wst_kind step with
  | WK_Review => ro = WRO_Approved \/ ro = WRO_ChangesRequested
  | _ => ro = WRO_Completed
  end /\ (wst_kind step = WK_Review -> (outcome == "changesRequested") = (ro == WRO_ChangesRequested)).
Proof.
  unfold completion_is_expected, parse_outcome. rewrite negb_true_iff, !orb_false_iff.
  intros [_ Ho]. apply negb_false_iff in Ho. destruct (wst_kind step).
  - apply bool_decide_eq_true in Ho as ->. by intros [= <-].
  - apply bool_decide_eq_true in Ho as ->. by intros [= <-].
  - apply orb_true_iff in Ho as [Ho|Ho]; apply bool_decide_eq_true in Ho as ->;
      intros [= <-]; auto.
  - apply bool_decide_eq_true in Ho as ->. by intros [= <-].
Qed.

Section recorded.
Context (e : WorkflowExecution) (step : WorkflowStep) (outcome : string).
Context (ro : WorkflowStepResultOutcome) (summary : string) (now : N).
Context (Hok : execution_ok e) (Hpg : progress_ok e).
Context (Hnow : (we_updated_at_epoch_ms e <= now)%N).
Context (Hstep : step_to_complete e = Some step).
Context (Hexp : completion_is_expected e step outcome = true).
Context (Hparse : parse_outcome outcome = Some ro).
Context (Hsum : workflow_bounded_text summary workflow_step_result_summary_max_bytes = true).

Let result : WorkflowStepResult :=
  MkWorkflowStepResult (wst_id step) (we_review_cycle e) ro summary now.
Let b : WorkflowExecution := recorded e step outcome ro summary now.

Lemma recorded_result_valid :
  result_is_valid_for result step (e <| we_updated_at_epoch_ms := now |>) = true.
Proof.
  destruct (expected_outcome_valid e step outcome ro Hexp Hparse) as [Hro _].
  destruct (step_to_complete_Some e step Hstep) as (current & Hcur & Hcase).
  unfold result_is_valid_for. rewrite !andb_true_iff, in_range_true, !N.leb_le. simpl.
  pose proof (ok_cycle _ Hok). pose proof (ok_updated _ Hok).
  split_and!; try done; try lia.
  - by apply bool_decide_eq_true.
  - destruct (wst_kind step) eqn:Hk; unfold kind_is; rewrite Hk; simpl; try done;
      destruct Hcase as [(? & ? & _)|[_ ->]]; try congruence;
      pose proof (pg_position _ Hpg) as Hp; unfold position_ok in Hp; rewrite Hcur, Hk in Hp;
      by rewrite Hp.
  - destruct (wst_kind step); [by rewrite Hro..| |by rewrite Hro].
    by destruct Hro as [-> | ->].
Qed.

Lemma recorded_ok : execution_ok b.
Proof.
  unfold b. rewrite recorded_eq. pose proof (configuration_facts e Hok) as (_ & Hn & _).
  pose proof (find_step _ _ Hn (completed_step_elem e step Hstep)) as Hfind.
  pose proof recorded_result_valid as Hv.
  destruct Hok as [Hi Hc Hp Hs Hpa Hr Hre Hu]. split; try done.
  - set (e1 := e <| we_updated_at_epoch_ms := now |>) in *.
    assert (results_ok e1 (upsert (we_step_results e) result)) as [H1 H2].
    { apply results_ok_upsert with step; try done. apply (results_ok_mono e); done. }
    split; done.
  - simpl. lia.
Qed.

Lemma recorded_has_result s :
  has_result b s = has_result e s || bool_decide (wst_id step = wst_id s).
Proof.
  unfold b. rewrite recorded_eq. unfold has_result. simpl.
  destruct (decide (wst_id step = wst_id s)) as [Heq|Hne].
  - rewrite (bool_decide_eq_true_2 _ Heq), orb_true_r. apply any_true.
    exists result. split; [apply upsert_elem|]. simpl.
    by rewrite Heq, !bool_decide_eq_true_2.
  - rewrite any_upsert; simpl.
    + by rewrite (bool_decide_eq_false_2 (wst_id step = wst_id s)).
    + intros x Hx Hid. rewrite bool_decide_eq_false_2; [done|]. simpl in Hid. congruence.
Qed.

Lemma recorded_progress : progress_ok b.
Proof.
  destruct (step_to_complete_Some e step Hstep) as (current & Hcur & Hcase).
  destruct (expected_outcome_valid e step outcome ro Hexp Hparse) as [Hro Hch].
  split.
  - unfold b. rewrite recorded_eq. unfold changes_in_cycle. simpl. rewrite any_upsert.
    + rewrite (pg_changes _ Hpg). fold (changes_in_cycle e). f_equal. simpl.
      rewrite (bool_decide_eq_true_2 (we_review_cycle e = _)) by done. simpl.
      destruct (kind_is WK_Review step) eqn:Hk; simpl.
      * apply kind_is_true in Hk. by rewrite Hch.
      * apply kind_is_false in Hk. rewrite bool_decide_eq_false_2; [done|].
        destruct (wst_kind step); congruence.
    + simpl. intros x Hx Hid. destruct Hcase as [(_ & _ & _ & Hno)|[Hk ->]].
      * unfold has_result in Hno. rewrite any_false in Hno. specialize (Hno x Hx).
        rewrite Hid, bool_decide_eq_true_2 in Hno by done. simpl in Hno. by rewrite Hno.
      * rewrite (bool_decide_eq_false_2 (wsr_outcome x = _)); [by rewrite andb_false_r|].
        eapply only_reviews_request_changes; try done. by apply current_step_elem.
  - pose proof (pg_position _ Hpg) as Hp. unfold position_ok in *.
    assert (current_step b = current_step e /\ we_steps b = we_steps e /\
      we_review_cycle b = we_review_cycle e /\ step_index b = step_index e /\
      we_review_changes_requested b = we_review_changes_requested e ||
        (kind_is WK_Review step && (outcome == "changesRequested")))
      as (-> & Hst & Hcy & Hix & Hfl) by (unfold b; by rewrite recorded_eq).
    rewrite Hcur in *. rewrite Hst, Hcy, Hix, Hfl. destruct (wst_kind current); try done.
    destruct Hp as [-> Hrep]. split; [done|]. intros s Hs Hks. rewrite Hst in Hs.
    rewrite recorded_has_result. by rewrite Hrep.
Qed.
End recorded.

(** ** Moving on *)

Lemma step_index_as_u8 e n :
  n < 256 -> step_index (e <| we_current_step_index := as_u8 (N.of_nat n) |>) = n.
Proof. intros Hn. unfold step_index. simpl. rewrite as_u8_small by lia. lia. Qed.

(** In a review, the group is all reviews and the fix step, if any, follows. *)
Lemma at_review_shape b current :
  execution_ok b -> progress_ok b -> current_step b = Some current ->
  wst_kind current = WK_Review ->
  exists discusses implement reviews fixes,
    workflow_shape (we_steps b) discusses implement reviews fixes /\
    step_index b = length discusses + 1 /\ review_group b = reviews /\
    we_steps b !! (step_index b + length (review_group b)) = head fixes.
Proof.
  intros Hok Hpg Hcur Hk. destruct (configuration_facts b Hok) as (_ & _ & _ & Hs & _).
  apply shape_check_spec in Hs as (d & i & r & f & Hs). exists d, i, r, f.
  pose proof (pg_position _ Hpg) as Hp. unfold position_ok in Hp. rewrite Hcur, Hk in Hp.
  rewrite (shape_first_review _ _ _ _ _ Hs) in Hp.
  assert (step_index b = length d + 1) as Hidx by (destruct r; simplify_eq/=; congruence).
  assert (review_group b = r) as Hg.
  { unfold review_group. rewrite Hidx. by eapply shape_review_group. }
  split_and!; try done. rewrite Hg, Hidx. by eapply shape_at_fix.
Qed.

Lemma group_reported b current :
  execution_ok b -> progress_ok b -> current_step b = Some current ->
  wst_kind current = WK_Review -> all (has_result b) (review_group b) = true ->
  reviews_reported b.
Proof.
  intros Hok Hpg Hcur Hk Hall s Hs Hks.
  destruct (at_review_shape b current Hok Hpg Hcur Hk) as (d & i & r & f & Hsh & _ & Hg & _).
  rewrite all_true in Hall. apply Hall. rewrite Hg. by eapply shape_reviews_elem.
Qed.

Lemma complete_preserves b :
  execution_ok b -> progress_ok b -> reviews_reported b ->
  (we_review_changes_requested b = true -> any (kind_is WK_Fix) (we_steps b) = true ->
   (wc_max_review_cycles (we_configuration b) <= we_review_cycle b)%N) ->
  let e' := complete_execution b (length (we_steps b)) in
  execution_ok e' /\ progress_ok e' /\ current_step e' = None.
Proof.
  intros Hok Hpg Hrep Hcyc e'. destruct (configuration_facts b Hok) as (Hlen & _).
  assert (step_index e' = length (we_steps e')) as Hidx.
  { unfold e', complete_execution. change (we_steps _) with (we_steps b) at 2.
    change (step_index _) with (step_index (b <| we_current_step_index :=
      as_u8 (N.of_nat (length (we_steps b))) |>)). apply step_index_as_u8. lia. }
  assert (current_step e' = None) as Hnone.
  { unfold current_step. rewrite Hidx. by apply lookup_ge_None_2. }
  split_and!; [| |done].
  - destruct Hok as [Hi Hc Hp Hs Hpa Hr Hre Hu]. split; try done.
    + by apply stage_ok_completed.
    + by apply (results_ok_mono b).
  - split; [apply Hpg|]. unfold position_ok. rewrite Hnone. done.
Qed.

Lemma fresh_step_ok b n next e' :
  we_steps b !! n = Some next -> same_run b e' -> step_index e' = n ->
  we_phase e' = WP_AwaitingCoordinator -> we_current_request_id e' = None ->
  we_review_requests e' = [] -> current_step e' = Some next /\ stage_ok e'.
Proof.
  intros Hn Hrun Hidx Hph Hreq Hrr.
  assert (current_step e' = Some next) as Hcur.
  { unfold current_step. by rewrite Hidx, (same_steps _ _ Hrun). }
  split; [done|]. by eapply stage_ok_fresh.
Qed.

Section moves.
Context (b : WorkflowExecution) (current : WorkflowStep).
Context (Hok : execution_ok b) (Hpg : progress_ok b) (Hcur : current_step b = Some current).

Lemma move_to_fix next :
  wst_kind current = WK_Review -> all (has_result b) (review_group b) = true ->
  we_steps b !! (step_index b + length (review_group b)) = Some next ->
  wst_kind next = WK_Fix -> we_review_changes_requested b = true ->
  let e' := b <| we_review_requests := [] |>
              <| we_current_step_index :=
                   as_u8 (N.of_nat (step_index b + length (review_group b))) |>
              <| we_phase := WP_AwaitingCoordinator |>
              <| we_coordinator_prompt_pending := true |> in
  execution_ok e' /\ progress_ok e' /\ current_step e' = Some next.
Proof.
  intros Hk Hall Hnext Hf Hch e'. destruct (configuration_facts b Hok) as (Hlen & _).
  pose proof (lookup_lt_Some _ _ _ Hnext) as Hlt.
  pose proof (group_reported b current Hok Hpg Hcur Hk Hall) as Hrep.
  assert (we_current_request_id b = None) as Hreq.
  { pose proof (ok_stage _ Hok) as Hs. unfold stage_ok in Hs. rewrite Hcur, Hk in Hs. tauto. }
  destruct (fresh_step_ok b _ next e' Hnext) as [Hc Hs]; try done.
  { unfold step_index at 1. simpl. rewrite as_u8_small by lia. lia. }
  split_and!; [| |done].
  - destruct Hok as [Hi Hcy Hp _ Hpa Hr Hre Hu]. split; try done. by apply (results_ok_mono b).
  - split; [apply Hpg|]. unfold position_ok. rewrite Hc, Hf. done.
Qed.

Lemma move_to_next :
  wst_kind current = WK_Discuss \/ wst_kind current = WK_Implement ->
  step_index b + 1 < length (we_steps b) ->
  let e' := b <| we_current_step_index := as_u8 (N.of_nat (step_index b + 1)) |>
              <| we_phase := WP_AwaitingCoordinator |> <| we_current_request_id := None |>
              <| we_coordinator_prompt_pending := true |> in
  execution_ok e' /\ progress_ok e' /\ current_step e' = we_steps b !! (step_index b + 1).
Proof.
  intros Hk Hlt e'. destruct (configuration_facts b Hok) as (Hlen & _ & _ & Hsh & _).
  apply shape_check_spec in Hsh as (d & i & r & f & Hsh).
  destruct (lookup_lt_is_Some_2 _ _ Hlt) as [next Hnext].
  assert (we_review_requests b = [] /\ we_review_cycle b = 1%N) as [Hrr Hcy1].
  { pose proof (ok_stage _ Hok) as Hs. pose proof (pg_position _ Hpg) as Hp.
    unfold stage_ok, position_ok in *. rewrite Hcur in *.
    destruct Hk as [Hk|Hk]; rewrite Hk in *; tauto. }
  assert (step_index e' = step_index b + 1) as Hidx.
  { unfold step_index at 1. simpl. rewrite as_u8_small by lia. lia. }
  destruct (fresh_step_ok b _ next e' Hnext) as [Hc Hs]; try done.
  rewrite Hnext. split_and!; [| |done].
  - destruct Hok as [Hi Hcy Hp _ Hpa Hr Hre Hu]. split; try done. by apply (results_ok_mono b).
  - split; [apply Hpg|]. unfold position_ok. rewrite Hc, Hidx.
    change (we_steps e') with (we_steps b). change (we_review_cycle e') with (we_review_cycle b).
    destruct Hk as [Hk|Hk].
    + destruct (shape_after_discuss _ _ _ _ _ Hsh _ _ Hcur Hk) as (next' & Hn' & Hk').
      rewrite Hnext in Hn'. injection Hn' as <-. by destruct Hk' as [-> | ->].
    + pose proof (shape_lookup _ _ _ _ _ Hsh _ _ Hcur) as Hat. rewrite Hk in Hat.
      destruct Hat as [Hat _]. pose proof (shape_length _ _ _ _ _ Hsh) as Hl.
      pose proof (shape_lookup _ _ _ _ _ Hsh _ _ Hnext) as Hn.
      rewrite (shape_first_review _ _ _ _ _ Hsh).
      destruct (shape_fixes _ _ _ _ _ Hsh) as [->|(fx & -> & _ & Hne)], r as [|rv r];
        simpl in Hl; try done; try lia.
      * destruct (wst_kind next); try done; [simpl; f_equal; lia|by destruct Hn].
      * destruct (wst_kind next); try done; [simpl; f_equal; lia|]. destruct Hn. simpl in *. lia.
Qed.

Lemma move_to_cycle i review :
  wst_kind current = WK_Fix -> position (kind_is WK_Review) (we_steps b) = Some (i, review) ->
  (we_review_cycle b < wc_max_review_cycles (we_configuration b))%N ->
  let e' := b <| we_current_step_index := as_u8 (N.of_nat i) |>
              <| we_review_cycle := u8_add (we_review_cycle b) 1 |>
              <| we_review_changes_requested := false |> <| we_review_requests := [] |>
              <| we_phase := WP_AwaitingCoordinator |>
              <| we_coordinator_prompt_pending := true |> in
  execution_ok e' /\ progress_ok e' /\ current_step e' = Some review /\
  we_review_cycle e' = (we_review_cycle b + 1)%N.
Proof.
  intros Hk Hpos Hlt e'. destruct (configuration_facts b Hok) as (Hlen & _ & _ & _ & Hmax).
  destruct (position_Some _ _ _ _ Hpos) as [Hi Hrv]. pose proof (lookup_lt_Some _ _ _ Hi) as Hil.
  assert (we_review_cycle e' = (we_review_cycle b + 1)%N) as Hcy'.
  { apply as_u8_small. lia. }
  assert (step_index e' = i) as Hidx.
  { unfold step_index. simpl. rewrite as_u8_small by lia. lia. }
  assert (we_current_request_id b = None) as Hreq.
  { pose proof (ok_stage _ Hok) as Hs. unfold stage_ok in Hs. rewrite Hcur, Hk in Hs. tauto. }
  destruct (fresh_step_ok b _ review e' Hi) as [Hc Hs]; try done.
  split_and!; [| |done|done].
  - pose proof Hok as [Hid Hcy Hp _ Hpa Hr Hre Hu]. split; try done.
    + rewrite Hcy'. change (we_configuration e') with (we_configuration b). lia.
    + apply (results_ok_mono b); try done. rewrite Hcy'. lia.
  - apply kind_is_true in Hrv. split.
    + change (we_review_changes_requested e') with false. symmetry. apply any_false.
      intros x Hx. change (we_step_results e') with (we_step_results b) in Hx.
      apply result_cycle in Hx; [|done]. rewrite bool_decide_eq_false_2; [done|].
      rewrite Hcy'. lia.
    + unfold position_ok. rewrite Hc, Hrv, Hidx. change (we_steps e') with (we_steps b).
      by rewrite Hpos.
Qed.
End moves.

(** Recording that the optional fix step was skipped. *)
Lemma skip_preserves e next now :
  execution_ok e -> progress_ok e -> current_step e = None -> next ∈ we_steps e ->
  wst_kind next = WK_Fix -> now = we_updated_at_epoch_ms e ->
  let e' := upsert_step_result e (MkWorkflowStepResult (wst_id next) (we_review_cycle e)
              WRO_Skipped "No review changes were requested." now) in
  execution_ok e' /\ progress_ok e'.
Proof.
  intros Hok Hpg Hcur Hin Hk Hnow e'. unfold e'. rewrite upsert_step_result_eq.
  set (result := MkWorkflowStepResult _ _ _ _ _).
  destruct (configuration_facts e Hok) as (_ & Hn & _).
  pose proof (find_step _ _ Hn Hin) as Hfind.
  assert (result_is_valid_for result next e = true) as Hv.
  { unfold result_is_valid_for. rewrite Hk. unfold kind_is. rewrite Hk. simpl.
    rewrite !bool_decide_eq_true_2 by done. simpl.
    rewrite !andb_true_iff, in_range_true, !N.leb_le.
    pose proof (ok_cycle _ Hok). pose proof (ok_updated _ Hok). subst now.
    split_and!; (done || lia). }
  split.
  - pose proof Hok as [Hi Hcy Hp Hs Hpa Hr Hre Hu]. split; try done.
    destruct (results_ok_upsert e (we_step_results e) result next) as [H1 H2]; done.
  - destruct Hpg as [Hch Hpos]. split.
    + unfold changes_in_cycle in *. simpl. rewrite any_upsert.
      * simpl. rewrite andb_false_r, orb_false_r. apply Hch.
      * simpl. intros x Hx Hid. rewrite (bool_decide_eq_false_2 (wsr_outcome x = _));
          [by rewrite andb_false_r|].
        eapply only_reviews_request_changes; try done. congruence.
    + unfold position_ok in *.
      change (current_step (e <| we_step_results := _ |>)) with (current_step e).
      rewrite Hcur in *. destruct Hpos as [Hrep Hcyc]. split; [|done].
      intros s Hs Hks. specialize (Hrep s Hs Hks). unfold has_result in *. simpl.
      rewrite any_upsert; [by rewrite Hrep|]. simpl. intros x Hx Hid.
      rewrite bool_decide_eq_false_2; [done|]. intros Heq.
      assert (s = next); [|congruence].
      assert (Some s = Some next); [|congruence].
      rewrite <- Hfind, <- (find_step _ s Hn Hs). apply find_first_ext. intros y.
      by rewrite <- Heq, <- Hid.
Qed.

(** The three reports that end the execution. *)
Section ends.
Context (b : WorkflowExecution) (current : WorkflowStep).
Context (Hok : execution_ok b) (Hpg : progress_ok b) (Hcur : current_step b = Some current).

Let finished : WorkflowExecution := complete_execution b (length (we_steps b)).

Lemma reviewed_ends :
  wst_kind current = WK_Review -> all (has_result b) (review_group b) = true ->
  is_some_and (we_steps b !! (step_index b + length (review_group b))) (kind_is WK_Fix) = false ->
  execution_ok finished /\ progress_ok finished.
Proof.
  intros Hk Hall Hn. assert (reviews_reported b) by (by eapply group_reported).
  destruct (at_review_shape b current Hok Hpg Hcur Hk) as (d & i & r & f & Hsh & _ & _ & Hh).
  destruct (complete_preserves b) as (? & ? & _); try done.
  rewrite (shape_any_fix _ _ _ _ _ Hsh). intros _ Hne%bool_decide_eq_true.
  rewrite Hh in Hn. destruct (shape_fixes _ _ _ _ _ Hsh) as [->|(fx & -> & Hfx & _)]; [done|].
  simpl in Hn. apply kind_is_false in Hn. congruence.
Qed.

Lemma last_step_ends :
  wst_kind current = WK_Discuss \/ wst_kind current = WK_Implement ->
  length (we_steps b) <= step_index b + 1 -> execution_ok finished /\ progress_ok finished.
Proof.
  intros Hk Hge. destruct (configuration_facts b Hok) as (_ & _ & _ & Hsh & _).
  apply shape_check_spec in Hsh as (d & i & r & f & Hsh). destruct Hk as [Hk|Hk].
  { destruct (shape_after_discuss _ _ _ _ _ Hsh _ _ Hcur Hk) as (next & Hn & _).
    apply lookup_lt_Some in Hn. lia. }
  pose proof (shape_lookup _ _ _ _ _ Hsh _ _ Hcur) as Hat. rewrite Hk in Hat.
  destruct Hat as [Hat _]. pose proof (shape_length _ _ _ _ _ Hsh) as Hl.
  destruct r, f; simpl in Hl; try lia.
  destruct (complete_preserves b) as (? & ? & _); try done.
  - intros s Hs Hks. eapply shape_reviews_elem in Hs; [|done..]. by apply elem_of_nil in Hs.
  - rewrite (shape_any_fix _ _ _ _ _ Hsh). done.
Qed.

Lemma fixed_ends :
  wst_kind current = WK_Fix ->
  (position (kind_is WK_Review) (we_steps b) = None \/ we_review_changes_requested b = false \/
   (wc_max_review_cycles (we_configuration b) <= we_review_cycle b)%N) ->
  execution_ok finished /\ progress_ok finished.
Proof.
  intros Hk Hc. destruct (configuration_facts b Hok) as (_ & _ & _ & Hsh & _).
  apply shape_check_spec in Hsh as (d & i & r & f & Hsh).
  pose proof (pg_position _ Hpg) as Hp. unfold position_ok in Hp. rewrite Hcur, Hk in Hp.
  destruct Hp as [Hflag Hrep]. destruct (complete_preserves b) as (? & ? & _); try done.
  intros _ Hany. destruct Hc as [Hc|[Hc|Hc]]; [|congruence|done].
  rewrite (shape_first_review _ _ _ _ _ Hsh) in Hc. rewrite (shape_any_fix _ _ _ _ _ Hsh) in Hany.
  apply bool_decide_eq_true in Hany.
  destruct (shape_fixes _ _ _ _ _ Hsh) as [->|(fx & -> & _ & Hr)]; [done|]. by destruct r.
Qed.
End ends.

(** The cases of a report that agree with where the execution is: [Hcase]
    says that the step is a review of the current group, or the current step. *)
Ltac report_cases Hres Hcase :=
  let Hk := fresh "Hk" in
  let Hkc := fresh "Hkc" in
  destruct Hres as [Hk Hall|next Hk Hall Hn Hf Hc|next Hk Hall Hn Hf Hc|Hk Hall Hn|Hk Hlt|Hk Hge
    |j review Hk Hpos Hc Hlt|Hk Hc];
    (destruct Hcase as [(Hkc & Hks & Hph)|[Hkc Heq]];
     [try (exfalso; destruct Hk; congruence); try (exfalso; congruence)
     |subst; try (exfalso; destruct Hk; congruence); try (exfalso; congruence)]).

Lemma report_result_preserves b current step now e' :
  execution_ok b -> progress_ok b -> current_step b = Some current ->
  now = we_updated_at_epoch_ms b ->
  (wst_kind current = WK_Review /\ wst_kind step = WK_Review /\
   we_phase b = WP_AwaitingStepCompletion) \/
  (wst_kind current <> WK_Review /\ step = current) ->
  report_result b step now e' -> execution_ok e' /\ progress_ok e'.
Proof.
  intros Hok Hpg Hcur Hnow Hcase Hres.
  report_cases Hres Hcase.
  - replace (b <| we_phase := WP_AwaitingStepCompletion |>) with b; [done|].
    clear -Hph. destruct b. simpl in *. by subst.
  - edestruct (move_to_fix b current Hok Hpg Hcur next) as (? & ? & _); try done.
  - assert (reviews_reported b) by (by eapply group_reported).
    destruct (complete_preserves b) as (? & ? & ?); try done; [by rewrite Hc|].
    change (complete_execution (b <| we_review_requests := [] |>) (length (we_steps b)))
      with (complete_execution b (length (we_steps b))).
    apply (skip_preserves (complete_execution b (length (we_steps b))) next now); try done.
    by eapply list_elem_of_lookup_2.
  - by apply (reviewed_ends b current).
  - destruct (move_to_next b current Hok Hpg Hcur Hk Hlt) as (? & ? & _). done.
  - by apply (last_step_ends b current).
  - destruct (move_to_cycle b current Hok Hcur j review Hk Hpos Hlt) as (? & ? & _). done.
  - by apply (fixed_ends b current).
Qed.

(** ** Every event *)

(** An accepted report, taken apart. *)
Lemma report_event_inv e outcome summary now e' :
  execution_ok e -> progress_ok e -> admissible e now (StepReported outcome summary) = true ->
  apply_event e now (StepReported outcome summary) = Some e' ->
  exists step ro current, let b := recorded e step outcome ro (trim summary) now in
    step_to_complete e = Some step /\ completion_is_expected e step outcome = true /\
    current_step e = Some current /\ current_step b = Some current /\
    execution_ok b /\ progress_ok b /\ now = we_updated_at_epoch_ms b /\
    ((wst_kind current = WK_Review /\ wst_kind step = WK_Review /\
      we_phase b = WP_AwaitingStepCompletion) \/
     (wst_kind current <> WK_Review /\ step = current)) /\
    report_result b step now e'.
Proof.
  intros Hok Hpg Hadm. unfold apply_event.
  destruct (_ || _ || _) eqn:Hsum; [done|]. apply summary_bounded in Hsum.
  destruct (step_to_complete e) as [step|] eqn:Hstep; [|done].
  destruct (parse_outcome outcome) as [ro|] eqn:Hparse; [|done].
  destruct (completion_is_expected e step outcome) eqn:Hexp; [|done]. intros [= <-].
  unfold admissible in Hadm. rewrite andb_true_r, N.leb_le in Hadm.
  destruct (step_to_complete_Some e step Hstep) as (current & Hcur & Hcase).
  exists step, ro, current. set (b := recorded e step outcome ro (trim summary) now).
  assert (current_step b = current_step e /\ we_phase b = we_phase e /\
          we_updated_at_epoch_ms b = now) as (Hcur' & Hph & Hup)
    by (unfold b; by rewrite recorded_eq).
  split_and!; try done.
  - congruence.
  - by apply recorded_ok.
  - by apply recorded_progress.
  - destruct Hcase as [(Hk & Hks & _)|[Hk ->]]; [left|by right]. split_and!; try done.
    unfold completion_is_expected in Hexp. rewrite Hks, negb_true_iff, !orb_false_iff in Hexp.
    destruct Hexp as [[_ Hexp] _]. apply negb_false_iff, bool_decide_eq_true in Hexp. congruence.
  - apply report_step_result.
Qed.

Lemma report_preserves e outcome summary now e' :
  execution_ok e -> progress_ok e -> admissible e now (StepReported outcome summary) = true ->
  apply_event e now (StepReported outcome summary) = Some e' -> execution_ok e' /\ progress_ok e'.
Proof.
  intros Hok Hpg Hadm Happ.
  destruct (report_event_inv e outcome summary now e' Hok Hpg Hadm Happ)
    as (step & ro & current & _ & _ & _ & Hcur & Hokb & Hpgb & Hup & Hcase & Hres).
  by eapply report_result_preserves.
Qed.

Lemma event_preserves e now event e' :
  execution_ok e -> progress_ok e -> admissible e now event = true ->
  apply_event e now event = Some e' -> execution_ok e' /\ progress_ok e'.
Proof.
  intros Hok Hpg Hadm Happ. destruct event.
  5:{ by eapply report_preserves. }
  all: split; [|apply (progress_same_place e); [|done];
                eapply other_event_same_place; [|exact Happ]; done].
  - by eapply delegate_preserves.
  - by eapply retry_preserves.
  - by eapply deliver_preserves.
  - by eapply confirm_preserves.
Qed.

Lemma run_preserves e events e' :
  execution_ok e -> progress_ok e -> run e events = Some e' -> execution_ok e' /\ progress_ok e'.
Proof.
  revert e. induction events as [|[now event] events IH]; intros e Hok Hpg; simpl; [by intros [= <-]|].
  destruct (admissible e now event) eqn:Hadm; [|done].
  destruct (apply_event e now event) as [e1|] eqn:Happ; [|done].
  destruct (event_preserves e now event e1) as [H1 H2]; try done. by apply IH.
Qed.

(** ** The beginning *)

(** What [session_launch] and the store check before a coordinator starts. *)
Definition launchable (execution_id project_id : string) (task_id : option string)
    (configuration : WorkflowConfiguration) (goal coordinator_session_id : string) (now : N)
  : bool :=
  workflow_bounded_slug execution_id workflow_execution_id_max_bytes
  && negb (trim_is_empty project_id)
  && is_none_or task_id (fun id => negb (trim_is_empty id))
  && workflow_configuration_is_valid configuration
  && (wc_project_id configuration == project_id)
  && workflow_bounded_text goal workflow_goal_max_bytes
  && negb (trim_is_empty coordinator_session_id) && (0 <? now)%N.

Lemma initial_ok execution_id project_id task_id configuration goal coordinator now :
  launchable execution_id project_id task_id configuration goal coordinator now = true ->
  let e := initial_execution execution_id project_id task_id configuration goal coordinator now in
  execution_ok e /\ progress_ok e.
Proof.
  intros Hl e. unfold launchable in Hl.
  rewrite !andb_true_iff, !negb_true_iff, bool_decide_eq_true, N.ltb_lt in Hl.
  destruct Hl as (((((((? & ?) & ?) & Hc) & ?) & ?) & ?) & ?).
  pose proof Hc as (Hh & _ & _ & _ & Hsh & _)%configuration_valid_facts.
  apply shape_check_spec in Hsh as (d & i & r & f & Hsh).
  destruct (current_step e) as [step|] eqn:Hcur.
  2:{ apply lookup_ge_None_1 in Hcur. change (length (wc_steps configuration) <= 0) in Hcur.
      rewrite (shape_length _ _ _ _ _ Hsh) in Hcur. lia. }
  unfold configuration_header_ok in Hh. split.
  - split; try done.
    + simpl. lia.
    + by eapply stage_ok_fresh.
    + split; constructor.
    + split; constructor.
  - split; [done|]. unfold position_ok. rewrite Hcur.
    pose proof (shape_lookup _ _ _ _ _ Hsh _ _ Hcur) as Hat.
    change (step_index e) with 0 in Hat.
    destruct (wst_kind step); try done; [destruct Hat as (? & ? & _)|destruct Hat]; lia.
Qed.
