(* ===== verification/WorkflowLiveness.v ===== *)
(** * A workflow takes boundedly many reports

    [reports_left] counts the reports an execution can still accept at most:
    every accepted report lowers it, nothing raises it, and it starts at no
    more than 22. *)

From S2P Require Import Prelude Text Domain DomainRules StoreState Workflow WorkflowEngine.
From S2P Require Import WorkflowGrammar WorkflowRun WorkflowProgress.

Local Open Scope string_scope.
Local Open Scope list_scope.

(** Reports of one review cycle: every review, and the fix step if there is
    one. *)
Definition cycle_cost (steps : list WorkflowStep) : nat :=
  length (retain (kind_is WK_Review) steps) + length (retain (kind_is WK_Fix) steps).

Definition unreported (e : WorkflowExecution) : nat :=
  length (retain (fun step => negb (has_result e step)) (review_group e)).

Definition cycles_left (e : WorkflowExecution) : nat :=
  N.to_nat (wc_max_review_cycles (we_configuration e) - we_review_cycle e).

Definition reports_left (e : WorkflowExecution) : nat :=
  match current_step e with
  | None => 0
  | Some step =>
      match wst_kind step with
      | WK_Discuss | WK_Implement =>
          length (retain (fun step => kind_is WK_Discuss step || kind_is WK_Implement step)
                    (drop (step_index e) (we_steps e)))
          + cycle_cost (we_steps e) + cycles_left e * cycle_cost (we_steps e)
      | WK_Review =>
          unreported e + length (retain (kind_is WK_Fix) (we_steps e))
          + cycles_left e * cycle_cost (we_steps e)
      | WK_Fix => 1 + cycles_left e * cycle_cost (we_steps e)
      end
  end.

(** ** Counting in a workflow of the right shape *)

Lemma retain_none {A} (p : A -> bool) l : (forall x, x ∈ l -> p x = false) -> retain p l = [].
Proof.
  induction l as [|x l IH]; intros H; simpl; [done|].
  rewrite (H x) by (by left). apply IH. intros y Hy. apply H. by right.
Qed.

Section counts.
Context (steps discusses : list WorkflowStep) (implement : WorkflowStep).
Context (reviews fixes : list WorkflowStep).
Context (Hshape : workflow_shape steps discusses implement reviews fixes).

Lemma kind_is_of kind step : wst_kind step = kind -> forall k, kind_is k step = bool_decide (kind = k).
Proof. intros <- k. done. Qed.

(** The steps of a kind are one of the parts. *)
Lemma retain_shape (p : WorkflowStep -> bool) (want : WorkflowStepKind -> bool) :
  (forall step, p step = want (wst_kind step)) ->
  retain p steps =
  (if want WK_Discuss then discusses else []) ++ (if want WK_Implement then [implement] else [])
  ++ (if want WK_Review then reviews else []) ++ (if want WK_Fix then fixes else []).
Proof.
  intros Hp. assert (forall k l, (forall x, x ∈ l -> wst_kind x = k) ->
    retain p l = if want k then l else []) as Hl.
  { intros k l Hk. destruct (want k) eqn:Hw.
    - apply retain_all. intros x Hx. by rewrite Hp, (Hk x Hx).
    - apply retain_none. intros x Hx. by rewrite Hp, (Hk x Hx). }
  rewrite (shape_eq _ _ _ _ _ Hshape), cons_middle, !retain_app.
  rewrite (Hl WK_Discuss discusses), (Hl WK_Implement [implement]), (Hl WK_Review reviews),
    (Hl WK_Fix fixes); [done|..].
  - by eapply shape_fix_kind.
  - by eapply shape_review_kind.
  - intros x ->%list_elem_of_singleton. apply Hshape.
  - by eapply shape_discuss_kind.
Qed.

Lemma cycle_cost_shape : cycle_cost steps = length reviews + length fixes.
Proof.
  unfold cycle_cost.
  rewrite (retain_shape (kind_is WK_Review) (fun k => bool_decide (k = WK_Review)));
    [|done].
  rewrite (retain_shape (kind_is WK_Fix) (fun k => bool_decide (k = WK_Fix))); [|done].
  simpl. by rewrite app_nil_r.
Qed.

Lemma fixes_shape : retain (kind_is WK_Fix) steps = fixes.
Proof.
  by rewrite (retain_shape (kind_is WK_Fix) (fun k => bool_decide (k = WK_Fix))).
Qed.

(** What is left of the discussions and the implementation. *)
Lemma first_part_left n :
  n <= length discusses ->
  length (retain (fun step => kind_is WK_Discuss step || kind_is WK_Implement step)
            (drop n steps)) = length discusses + 1 - n.
Proof.
  intros Hn. rewrite (shape_eq _ _ _ _ _ Hshape), drop_app_le by done. rewrite retain_app.
  rewrite (retain_all _ (drop n discusses)).
  2:{ intros x Hx. rewrite (kind_is_of WK_Discuss); [done|].
      eapply shape_discuss_kind; [done|]. apply list_elem_of_lookup_1 in Hx as [j Hj].
      rewrite lookup_drop in Hj. by eapply list_elem_of_lookup_2. }
  rewrite length_app, length_drop. cbn [retain].
  rewrite (kind_is_of WK_Implement implement (shape_implement _ _ _ _ _ Hshape)),
    (kind_is_of WK_Implement implement (shape_implement _ _ _ _ _ Hshape)). simpl.
  rewrite (retain_none _ (reviews ++ fixes)).
  2:{ intros x [Hx|Hx]%elem_of_app.
      - by rewrite !(kind_is_of WK_Review x) by (by eapply shape_review_kind).
      - by rewrite !(kind_is_of WK_Fix x) by (by eapply shape_fix_kind). }
  simpl. lia.
Qed.
End counts.

(** ** Each report counts *)

Lemma retain_length_le {A} (p : A -> bool) l : length (retain p l) <= length l.
Proof. apply sublist_length, retain_sublist. Qed.

Lemma retain_length_mono {A} (p q : A -> bool) l :
  (forall x, x ∈ l -> p x = true -> q x = true) -> length (retain p l) <= length (retain q l).
Proof.
  induction l as [|x l IH]; intros H; simpl; [done|].
  specialize (IH ltac:(intros y Hy; apply H; by right)).
  destruct (p x) eqn:Hp; [rewrite (H x) by (done || by left); simpl; lia|].
  destruct (q x); simpl; lia.
Qed.

Lemma retain_length_strict {A} (p q : A -> bool) l x :
  (forall y, y ∈ l -> p y = true -> q y = true) -> x ∈ l -> p x = false -> q x = true ->
  length (retain p l) < length (retain q l).
Proof.
  intros H Hx Hp Hq. induction l as [|y l IH]; [by apply elem_of_nil in Hx|]. simpl.
  pose proof (retain_length_mono p q l ltac:(intros z Hz; apply H; by right)) as Hle.
  apply elem_of_cons in Hx as [->|Hx].
  - rewrite Hp, Hq. simpl. lia.
  - specialize (IH ltac:(intros z Hz; apply H; by right) Hx).
    destruct (p y) eqn:Hpy; [rewrite (H y) by (done || by left)|destruct (q y)]; simpl; lia.
Qed.

Lemma complete_current b :
  length (we_steps b) <= 8 -> current_step (complete_execution b (length (we_steps b))) = None.
Proof.
  intros Hlen. unfold current_step. change (we_steps (complete_execution _ _)) with (we_steps b).
  apply lookup_ge_None_2. unfold step_index. simpl. rewrite as_u8_small by lia. lia.
Qed.

Lemma completed_left b : length (we_steps b) <= 8 ->
  reports_left (complete_execution b (length (we_steps b))) = 0.
Proof. intros H. unfold reports_left. by rewrite complete_current. Qed.

Section report.
Context (e : WorkflowExecution) (step : WorkflowStep) (outcome summary : string) (now : N).
Context (ro : WorkflowStepResultOutcome).
Context (Hok : execution_ok e) (Hpg : progress_ok e).
Context (Hstep : step_to_complete e = Some step).

Let b : WorkflowExecution := recorded e step outcome ro summary now.

Lemma recorded_fields :
  current_step b = current_step e /\ we_steps b = we_steps e /\ cycles_left b = cycles_left e /\
  step_index b = step_index e /\ review_group b = review_group e /\
  we_configuration b = we_configuration e /\ we_review_cycle b = we_review_cycle e.
Proof. unfold b. by rewrite recorded_eq. Qed.

(** Recording a review lowers the number of unreported ones. *)
Lemma recorded_unreported current :
  current_step e = Some current -> wst_kind current = WK_Review -> unreported b < unreported e.
Proof.
  intros Hcur Hk. destruct (step_to_complete_Some e step Hstep) as (c & Hc & Hcase).
  rewrite Hcur in Hc. injection Hc as <-.
  destruct Hcase as [(_ & _ & Hin & Hno)|[Hne _]]; [|done].
  unfold unreported. destruct recorded_fields as (_ & _ & _ & _ & -> & _).
  apply retain_length_strict with step; try done.
  - intros s Hs. rewrite (recorded_has_result e step outcome ro summary now). fold b.
    rewrite !negb_true_iff, orb_false_iff. tauto.
  - unfold b. rewrite (recorded_has_result e step outcome ro summary now).
    rewrite bool_decide_eq_true_2 by done. by rewrite orb_true_r.
  - by rewrite Hno.
Qed.

(** A report is only accepted while one is left. *)
Lemma reports_left_pos : 0 < reports_left e.
Proof.
  destruct (step_to_complete_Some e step Hstep) as (current & Hcur & Hcase).
  destruct (configuration_facts e Hok) as (_ & _ & _ & Hsh & _).
  apply shape_check_spec in Hsh as (d & i & r & f & Hsh).
  pose proof (shape_lookup _ _ _ _ _ Hsh _ _ Hcur) as Hat.
  unfold reports_left. rewrite Hcur. destruct (wst_kind current) eqn:Hk.
  - rewrite (first_part_left _ _ _ _ _ Hsh); lia.
  - rewrite (first_part_left _ _ _ _ _ Hsh); lia.
  - pose proof (recorded_unreported current Hcur Hk). lia.
  - lia.
Qed.
End report.

Lemma reports_left_next b current next e' :
  execution_ok b -> current_step b = Some current ->
  wst_kind current = WK_Discuss \/ wst_kind current = WK_Implement ->
  current_step e' = Some next -> step_index e' = step_index b + 1 ->
  we_configuration e' = we_configuration b -> we_review_cycle e' = we_review_cycle b ->
  reports_left e' < reports_left b.
Proof.
  intros Hok Hcur Hk Hnext Hidx Hcfg Hcy.
  destruct (configuration_facts b Hok) as (_ & _ & _ & Hsh & _).
  apply shape_check_spec in Hsh as (d & i & r & f & Hsh).
  assert (we_steps e' = we_steps b) as Hst by (unfold we_steps; by rewrite Hcfg).
  assert (cycles_left e' = cycles_left b) as Hcl by (unfold cycles_left; by rewrite Hcfg, Hcy).
  assert (step_index b <= length d) as Hle.
  { pose proof (shape_lookup _ _ _ _ _ Hsh _ _ Hcur) as H.
    destruct Hk as [Hk|Hk]; rewrite Hk in H; lia. }
  assert (reports_left b = length d + 1 - step_index b + cycle_cost (we_steps b)
            + cycles_left b * cycle_cost (we_steps b)) as ->.
  { unfold reports_left. rewrite Hcur, (first_part_left _ _ _ _ _ Hsh) by done.
    by destruct Hk as [-> | ->]. }
  unfold current_step in Hnext. rewrite Hst in Hnext.
  pose proof (shape_lookup _ _ _ _ _ Hsh _ _ Hnext) as H. rewrite Hidx in H.
  unfold reports_left. unfold current_step. rewrite Hst, Hnext, Hcl.
  destruct (wst_kind next); rewrite ?Hidx.
  - rewrite (first_part_left _ _ _ _ _ Hsh); lia.
  - rewrite (first_part_left _ _ _ _ _ Hsh); lia.
  - destruct H as (j & Hj & Hr). assert (step_index b = length d /\ j = 0) as [Hd ->] by lia.
    rewrite (fixes_shape _ _ _ _ _ Hsh), (cycle_cost_shape _ _ _ _ _ Hsh).
    assert (unreported e' <= length r); [|lia].
    unfold unreported. etransitivity; [apply retain_length_le|].
    unfold review_group. rewrite Hst, Hidx, Hd. by rewrite (shape_review_group _ _ _ _ _ Hsh).
  - destruct H as [H Hf]. rewrite (cycle_cost_shape _ _ _ _ _ Hsh), Hf. simpl. lia.
Qed.

Lemma reports_left_cycle b current i review e' :
  execution_ok b -> current_step b = Some current -> wst_kind current = WK_Fix ->
  position (kind_is WK_Review) (we_steps b) = Some (i, review) ->
  (we_review_cycle b < wc_max_review_cycles (we_configuration b))%N ->
  current_step e' = Some review -> step_index e' = i ->
  we_configuration e' = we_configuration b -> we_review_cycle e' = (we_review_cycle b + 1)%N ->
  reports_left e' < reports_left b.
Proof.
  intros Hok Hcur Hk Hpos Hlt Hrev Hidx Hcfg Hcy.
  destruct (configuration_facts b Hok) as (_ & _ & _ & Hsh & _).
  apply shape_check_spec in Hsh as (d & im & r & f & Hsh).
  assert (we_steps e' = we_steps b) as Hst by (unfold we_steps; by rewrite Hcfg).
  assert (cycles_left b = S (cycles_left e')) as Hcl.
  { unfold cycles_left. rewrite Hcfg, Hcy. lia. }
  pose proof (position_Some _ _ _ _ Hpos) as [_ Hkr%kind_is_true].
  unfold reports_left. rewrite Hcur, Hk, Hrev, Hkr, Hst, Hcl.
  rewrite (fixes_shape _ _ _ _ _ Hsh), (cycle_cost_shape _ _ _ _ _ Hsh).
  assert (unreported e' <= length r); [|lia].
  unfold unreported. etransitivity; [apply retain_length_le|].
  rewrite (shape_first_review _ _ _ _ _ Hsh) in Hpos.
  assert (i = length d + 1) as Hi by (destruct r; simplify_eq/=; done).
  unfold review_group. rewrite Hst, Hidx, Hi. by rewrite (shape_review_group _ _ _ _ _ Hsh).
Qed.

(** Before a report, the recorded execution has no more left than the one it
    was recorded in; in a review it has strictly less. *)
Lemma recorded_left e step outcome ro summary now current :
  step_to_complete e = Some step -> current_step e = Some current ->
  let b := recorded e step outcome ro summary now in
  reports_left b <= reports_left e /\
  (wst_kind current = WK_Review -> reports_left b < reports_left e).
Proof.
  intros Hstep Hcur b.
  destruct (recorded_fields e step outcome summary now ro)
    as (Hc & Hst & Hcl & Hix & Hg & _). fold b in Hc, Hst, Hcl, Hix, Hg.
  unfold reports_left. rewrite Hc, Hcur, Hst, Hcl, Hix.
  destruct (wst_kind current) eqn:Hk; (split; [|try done]); try lia.
  - pose proof (recorded_unreported e step outcome summary now ro Hstep current Hcur Hk).
    fold b in H. lia.
  - intros _. pose proof (recorded_unreported e step outcome summary now ro Hstep current Hcur Hk).
    fold b in H. lia.
Qed.

Lemma current_step_results e results :
  current_step (e <| we_step_results := results |>) = current_step e.
Proof. done. Qed.

Lemma complete_clears b n :
  complete_execution (b <| we_review_requests := [] |>) n = complete_execution b n.
Proof. done. Qed.

Lemma skipped_left b result : length (we_steps b) <= 8 ->
  reports_left (upsert_step_result
    (complete_execution (b <| we_review_requests := [] |>) (length (we_steps b))) result) = 0.
Proof.
  intros H. rewrite upsert_step_result_eq, complete_clears. unfold reports_left.
  by rewrite current_step_results, complete_current.
Qed.

(** Where the recorded execution goes, less is left; in a review the recording
    itself already counted. *)
Lemma report_result_left b current step now e' :
  execution_ok b -> progress_ok b -> current_step b = Some current ->
  (wst_kind current = WK_Review /\ wst_kind step = WK_Review /\
   we_phase b = WP_AwaitingStepCompletion) \/
  (wst_kind current <> WK_Review /\ step = current) ->
  report_result b step now e' ->
  (wst_kind current = WK_Review -> reports_left e' <= reports_left b) /\
  (wst_kind current <> WK_Review -> 0 < reports_left b -> reports_left e' < reports_left b).
Proof.
  intros Hok Hpg Hcur Hcase Hres. destruct (configuration_facts b Hok) as (Hlen & _).
  assert (forall e', reports_left e' = 0 ->
    (wst_kind current = WK_Review -> reports_left e' <= reports_left b) /\
    (wst_kind current <> WK_Review -> 0 < reports_left b -> reports_left e' < reports_left b))
    as Hdone by (intros ? ->; split; lia).
  report_cases Hres Hcase.
  - split; [done|congruence].
  - split; [intros _|congruence].
    destruct (move_to_fix b current Hok Hpg Hcur next Hkc Hall Hn Hf Hc) as (_ & _ & Hc').
    unfold reports_left. rewrite Hc', Hf, Hcur, Hkc.
    assert (next ∈ retain (kind_is WK_Fix) (we_steps b)) as Hin.
    { apply elem_of_retain. split; [by eapply list_elem_of_lookup_2|by apply kind_is_true]. }
    destruct (retain (kind_is WK_Fix) (we_steps b)); [by apply elem_of_nil in Hin|].
    change (cycles_left (b <| we_review_requests := _ |> <| we_current_step_index := _ |>
      <| we_phase := _ |> <| we_coordinator_prompt_pending := _ |>)) with (cycles_left b).
    change (we_steps (b <| we_review_requests := _ |> <| we_current_step_index := _ |>
      <| we_phase := _ |> <| we_coordinator_prompt_pending := _ |>)) with (we_steps b).
    simpl. lia.
  - apply Hdone. by apply skipped_left.
  - apply Hdone. rewrite complete_clears. by apply completed_left.
  - split; [congruence|intros _ _].
    destruct (move_to_next b current Hok Hpg Hcur Hk Hlt) as (_ & _ & Hc').
    destruct (lookup_lt_is_Some_2 _ _ Hlt) as [next Hnext]. rewrite Hnext in Hc'.
    eapply reports_left_next; try done. unfold step_index at 1. simpl.
    rewrite as_u8_small by lia. lia.
  - apply Hdone. by apply completed_left.
  - split; [congruence|intros _ _].
    destruct (move_to_cycle b current Hok Hcur j review Hk Hpos Hlt) as (_ & _ & Hc' & Hcy').
    eapply reports_left_cycle; try done.
    pose proof (position_Some _ _ _ _ Hpos) as [Hj%lookup_lt_Some _].
    unfold step_index. simpl. rewrite as_u8_small by lia. lia.
  - apply Hdone. by apply completed_left.
Qed.

Lemma report_decreases e outcome summary now e' :
  execution_ok e -> progress_ok e -> admissible e now (StepReported outcome summary) = true ->
  apply_event e now (StepReported outcome summary) = Some e' ->
  reports_left e' < reports_left e.
Proof.
  intros Hok Hpg Hadm Happ.
  destruct (report_event_inv e outcome summary now e' Hok Hpg Hadm Happ)
    as (step & ro & current & Hstep & _ & Hcur & Hcurb & Hokb & Hpgb & _ & Hcase & Hres).
  set (b := recorded e step outcome ro (trim summary) now) in *.
  destruct (recorded_left e step outcome ro (trim summary) now current Hstep Hcur) as [Hle Hlt].
  fold b in Hle, Hlt.
  destruct (report_result_left b current step now e' Hokb Hpgb Hcurb Hcase Hres) as [H1 H2].
  destruct (decide (wst_kind current = WK_Review)) as [Hk|Hk].
  - specialize (H1 Hk). specialize (Hlt Hk). lia.
  - specialize (H2 Hk). destruct Hcase as [(? & _)|[_ ->]]; [done|].
    pose proof (reports_left_pos b current outcome (trim summary) now ro Hokb) as Hb.
    unfold step_to_complete in Hb. rewrite Hcurb in Hb.
    rewrite (proj2 (kind_is_false WK_Review current) Hk) in Hb. specialize (Hb eq_refl). lia.
Qed.

Definition is_report (event : N * WorkflowEvent) : bool :=
  match event with (_, StepReported _ _) => true | _ => false end.

Lemma event_left e now event e' :
  execution_ok e -> progress_ok e -> admissible e now event = true ->
  apply_event e now event = Some e' ->
  (if is_report (now, event) then 1 else 0) + reports_left e' <= reports_left e.
Proof.
  intros Hok Hpg Hadm Happ. destruct event as [| | | |outcome summary].
  5:{ simpl. pose proof (report_decreases e outcome summary now e' Hok Hpg Hadm Happ). lia. }
  all: assert (same_place e e') as [Hrun Hi Hc Hr _]
         by (eapply other_event_same_place; [|exact Happ]; done);
       unfold reports_left, unreported, review_group, cycles_left, has_result, current_step,
         step_index; simpl;
       by rewrite (same_steps _ _ Hrun), Hi, Hc, Hr, (same_configuration _ _ Hrun).
Qed.

Lemma run_left e events e' :
  execution_ok e -> progress_ok e -> run e events = Some e' ->
  N.to_nat (count is_report events) + reports_left e' <= reports_left e.
Proof.
  revert e. induction events as [|[now event] events IH]; intros e Hok Hpg;
    [by intros [= <-]|]. cbn [run].
  destruct (admissible e now event) eqn:Hadm; [|done].
  destruct (apply_event e now event) as [e1|] eqn:Happ; [|done]. intros Hrun.
  destruct (event_preserves e now event e1) as [H1 H2]; try done.
  pose proof (event_left e now event e1 Hok Hpg Hadm Happ) as Hl.
  specialize (IH e1 H1 H2 Hrun). cbn [count].
  destruct (is_report (now, event)); lia.
Qed.

Lemma initial_left execution_id project_id task_id configuration goal coordinator now :
  launchable execution_id project_id task_id configuration goal coordinator now = true ->
  reports_left (initial_execution execution_id project_id task_id configuration goal
                  coordinator now) <= 22.
Proof.
  intros Hl. destruct (initial_ok _ _ _ _ _ _ _ Hl) as [Hok Hpg].
  set (e := initial_execution _ _ _ _ _ _ _) in *.
  destruct (configuration_facts e Hok) as (Hlen & _ & _ & Hsh & Hmax).
  apply shape_check_spec in Hsh as (d & i & r & f & Hsh).
  rewrite (shape_length _ _ _ _ _ Hsh) in Hlen.
  assert (cycles_left e <= 2) as Hcl.
  { unfold cycles_left. change (we_review_cycle e) with 1%N. lia. }
  unfold reports_left. destruct (current_step e) as [step|] eqn:Hcur; [|lia].
  pose proof (shape_lookup _ _ _ _ _ Hsh _ _ Hcur) as Hat.
  change (step_index e) with 0 in Hat |- *.
  rewrite (cycle_cost_shape _ _ _ _ _ Hsh), (first_part_left _ _ _ _ _ Hsh) by lia.
  destruct (wst_kind step); [nia|nia|destruct Hat as (? & ? & _); lia|destruct Hat; lia].
Qed.

(** * A workflow can always be finished

    [routed]: every conversation a later step may have to continue is pinned.
    With it, whatever state an execution is in, some sequence of events brings
    it to its end: no state of the machine is a dead end. *)


Definition pinned (e : WorkflowExecution) (step_id : string) : Prop :=
  is_Some (find_participant (we_participants e) step_id).

Record routed (e : WorkflowExecution) : Prop := {
  routed_discussions : forall n step, we_steps e !! n = Some step -> n < step_index e ->
    wst_kind step = WK_Discuss -> pinned e (wst_id step);
  routed_requests : forall request, request ∈ we_review_requests e ->
    pinned e (wr_step_id request);
  routed_current : forall step, current_step e = Some step -> wst_kind step = WK_Discuss ->
    we_phase e <> WP_AwaitingCoordinator -> pinned e (wst_id step)
}.

(** Helpers stay pinned. *)
Definition keeps_pins (e e' : WorkflowExecution) : Prop :=
  forall step_id, pinned e step_id -> pinned e' step_id.

Lemma routed_same_place e e' :
  routed e -> same_place e e' -> keeps_pins e e' ->
  (forall request, request ∈ we_review_requests e' -> pinned e' (wr_step_id request)) ->
  (forall step, current_step e' = Some step -> wst_kind step = WK_Discuss ->
     we_phase e' <> WP_AwaitingCoordinator ->
     we_phase e = WP_AwaitingCoordinator -> pinned e' (wst_id step)) ->
  routed e'.
Proof.
  intros [H1 H2 H3] [Hrun Hi _ _ _] Hk Hr Hc.
  assert (step_index e' = step_index e /\ current_step e' = current_step e) as [Hix Hcur].
  { unfold current_step, step_index. by rewrite Hi, (same_steps _ _ Hrun). }
  split; [|done|].
  - intros n step. rewrite (same_steps _ _ Hrun), Hix. intros Hn Hlt Hd. apply Hk. by eapply H1.
  - intros step Hs Hd Hp. destruct (decide (we_phase e = WP_AwaitingCoordinator)); [by apply Hc|].
    apply Hk, H3; congruence.
Qed.

Lemma delegate_pins e step request_id helper now :
  let e' := delegate_step e step request_id helper now in
  keeps_pins e e' /\ pinned e' (wst_id step).
Proof.
  intros e'.
  assert (we_participants e' = match find_participant (we_participants e) (wst_id step) with
    | Some _ => we_participants e
    | None => we_participants e ++ [MkWorkflowParticipant (wst_id step) helper] end) as Hp.
  { unfold e', delegate_step. by destruct (find_participant _ _), (kind_is _ _). }
  unfold keeps_pins, pinned. rewrite Hp.
  destruct (find_participant _ (wst_id step)) as [p|] eqn:Hf; [by rewrite Hf|]. split.
  - intros step_id [q Hq]. rewrite find_participant_snoc, Hq. by exists q.
  - rewrite find_participant_snoc, Hf. simpl. rewrite bool_decide_eq_true_2 by done. by eexists.
Qed.

Lemma delegate_requests e step request_id helper now :
  we_review_requests (delegate_step e step request_id helper now) =
  if kind_is WK_Review step
  then we_review_requests e ++ [MkWorkflowReviewRequest (wst_id step) request_id false]
  else we_review_requests e.
Proof. unfold delegate_step. by destruct (find_participant _ _), (kind_is _ _). Qed.

Lemma deliver_requests e request_id now request :
  request ∈ we_review_requests (deliver_reply e request_id now) ->
  exists old, old ∈ we_review_requests e /\ wr_step_id old = wr_step_id request.
Proof.
  unfold deliver_reply. rewrite find_mut_position.
  destruct (position _ _) as [[i old]|] eqn:Hp.
  - assert (we_review_requests e !! i = Some old) as Hi by (by apply position_Some in Hp as [? _]).
    intros Hin. assert (request ∈ <[i := old <| wr_reply_delivered := true |>]>
      (we_review_requests e)) as [->|Hx]%elem_of_insert_list by (by destruct (_ && _)).
    + exists old. split; [by eapply list_elem_of_lookup_2|done].
    + by exists request.
  - intros Hin. by exists request.
Qed.

Lemma other_event_routed e now event e' :
  execution_ok e -> routed e -> (forall o s, event <> StepReported o s) ->
  apply_event e now event = Some e' -> routed e'.
Proof.
  intros Hok Hro Hne Happ.
  pose proof (other_event_same_place e now event e' Hne Happ) as Hsame.
  destruct event; [| | | |by destruct (Hne outcome summary)]; simpl in Happ.
  - destruct (delegated_step e step_id) as [step|] eqn:Hd; [|done].
    destruct (_ && _); [|done]. injection Happ as <-.
    destruct (delegate_pins e step request_id helper_session_id now) as [Hk Hp].
    apply (routed_same_place e); try done.
    + intros request. rewrite delegate_requests.
      destruct (kind_is WK_Review step); [|intros; by apply Hk, Hro].
      intros [Hin|Hin]%elem_of_app; [by apply Hk, Hro|].
      by apply list_elem_of_singleton in Hin as ->.
    + intros s Hs Hkd _ _. apply delegated_step_Some in Hd as (current & Hcur & Hcase).
      destruct (delegate_frame e step request_id helper_session_id now) as (_ & Hcur' & _).
      rewrite Hcur', Hcur in Hs. injection Hs as ->.
      destruct Hcase as [(? & _)|[_ ->]]; [congruence|done].
  - destruct (_ && _); [|done]. injection Happ as <-.
    apply (routed_same_place e); try done; [by intros x|apply Hro].
  - destruct (awaits_reply _ _) eqn:Ha; [|done]. injection Happ as <-.
    destruct (deliver_frame e request_id now) as (_ & Hcur & _ & _ & _ & Hpa & _).
    assert (keeps_pins e (deliver_reply e request_id now)) as Hk
      by (intros x; unfold pinned; by rewrite Hpa).
    apply (routed_same_place e); try done.
    + intros request (old & Hold & <-)%deliver_requests. by apply Hk, Hro.
    + intros s Hs Hkd Hp Hp'. exfalso. apply Hp.
      destruct (deliver_stage e request_id now (ok_stage _ Hok) Ha) as [_ [Hph|[Hph _]]]; congruence.
  - destruct (awaits_prompt _ _) eqn:Ha; [|done]. injection Happ as <-.
    apply (routed_same_place e); try done; [by intros x|apply Hro].
Qed.

(** ** Reports *)

(** A move to a step nobody started, or to the end. *)
Lemma routed_moved b e' :
  we_steps e' = we_steps b -> we_participants e' = we_participants b ->
  we_review_requests e' = [] ->
  (we_phase e' = WP_AwaitingCoordinator \/ current_step e' = None) ->
  (forall n step, we_steps b !! n = Some step -> n < step_index e' ->
     wst_kind step = WK_Discuss -> pinned b (wst_id step)) ->
  routed e'.
Proof.
  intros Hst Hp Hr Hph Hd. unfold pinned in *. split.
  - intros n step. rewrite Hst. unfold pinned. rewrite Hp. apply Hd.
  - intros request. by rewrite Hr, elem_of_nil.
  - intros step Hs _ Hne. destruct Hph; congruence.
Qed.

(** Past the discussions, every one of them is pinned. *)
Lemma discussions_pinned b current n step :
  execution_ok b -> routed b -> current_step b = Some current ->
  (wst_kind current = WK_Discuss -> pinned b (wst_id current) /\ n <= step_index b) ->
  we_steps b !! n = Some step -> wst_kind step = WK_Discuss -> pinned b (wst_id step).
Proof.
  intros Hok Hro Hcur Hpin Hn Hk.
  destruct (configuration_facts b Hok) as (_ & _ & _ & Hsh & _).
  apply shape_check_spec in Hsh as (d & i & r & f & Hsh).
  pose proof (shape_lookup _ _ _ _ _ Hsh _ _ Hcur) as Hc.
  pose proof (shape_lookup _ _ _ _ _ Hsh _ _ Hn) as Hs. rewrite Hk in Hs.
  destruct (wst_kind current) eqn:Hkc.
  - destruct (Hpin eq_refl) as [Hp Hle]. destruct (decide (n = step_index b)) as [->|Hne].
    + unfold current_step in Hcur. rewrite Hcur in Hn. by injection Hn as ->.
    + eapply routed_discussions; try done. lia.
  - eapply routed_discussions; try done. lia.
  - destruct Hc as (j & Hc & _). eapply routed_discussions; try done. lia.
  - destruct Hc as [Hc _]. eapply routed_discussions; try done. lia.
Qed.

Lemma report_result_routed b current step now e' :
  execution_ok b -> routed b -> current_step b = Some current ->
  (wst_kind current = WK_Discuss -> pinned b (wst_id current)) ->
  (wst_kind current = WK_Review /\ wst_kind step = WK_Review /\
   we_phase b = WP_AwaitingStepCompletion) \/
  (wst_kind current <> WK_Review /\ step = current) ->
  report_result b step now e' -> routed e'.
Proof.
  intros Hok Hro Hcur Hpin Hcase Hres. destruct (configuration_facts b Hok) as (Hlen & _).
  assert (forall e', we_steps e' = we_steps b -> we_participants e' = we_participants b ->
    we_review_requests e' = [] ->
    (we_phase e' = WP_AwaitingCoordinator \/ current_step e' = None) ->
    (wst_kind current = WK_Discuss -> step_index e' <= step_index b + 1) -> routed e') as Hmove.
  { intros e1 H1 H2 H3 H4 H5. apply (routed_moved b); try done. intros n s Hn Hlt Hk.
    eapply discussions_pinned; try done. intros Hd. split; [auto|]. specialize (H5 Hd). lia. }
  assert (we_review_requests b = [] \/ wst_kind current = WK_Review) as Hreq.
  { pose proof (ok_stage _ Hok) as Hs. unfold stage_ok in Hs. rewrite Hcur in Hs.
    destruct (wst_kind current); [left; tauto|left; tauto|by right|left; tauto]. }
  report_cases Hres Hcase.
  - split; [apply Hro|apply Hro|]. intros s Hs Hd.
    change (current_step b = Some s) in Hs. congruence.
  - apply Hmove; try done; [by left|congruence].
  - rewrite upsert_step_result_eq, complete_clears.
    apply Hmove; try done; [|congruence]. right.
    by rewrite current_step_results, complete_current.
  - rewrite complete_clears. apply Hmove; try done; [|congruence]. right.
    by apply complete_current.
  - destruct Hreq as [Hreq|Hreq]; [|done].
    apply Hmove; try done; [by left|]. intros _. unfold step_index at 1. simpl.
    rewrite as_u8_small by lia. lia.
  - apply Hmove; try done; [right; by apply complete_current|]. intros _.
    unfold step_index at 1. simpl. rewrite as_u8_small by lia. lia.
  - apply Hmove; try done; [by left|congruence].
  - apply Hmove; try done; [right; by apply complete_current|congruence].
Qed.

Lemma report_routed e outcome summary now e' :
  execution_ok e -> progress_ok e -> routed e ->
  admissible e now (StepReported outcome summary) = true ->
  apply_event e now (StepReported outcome summary) = Some e' -> routed e'.
Proof.
  intros Hok Hpg Hro Hadm Happ.
  destruct (report_event_inv e outcome summary now e' Hok Hpg Hadm Happ)
    as (step & ro & current & _ & Hexp & Hcur & Hcurb & Hokb & _ & _ & Hcase & Hres).
  eapply report_result_routed; try done.
  - rewrite recorded_eq. by destruct Hro.
  - intros Hk. assert (pinned e (wst_id current)) as Hp.
    { eapply routed_current; try done. destruct Hcase as [(? & _)|[_ ->]]; [congruence|].
      unfold completion_is_expected in Hexp.
      rewrite Hk, negb_true_iff, !orb_false_iff in Hexp. destruct Hexp as [[_ Hexp] _].
      apply negb_false_iff, bool_decide_eq_true in Hexp. congruence. }
    unfold pinned. by rewrite recorded_eq.
Qed.

Lemma event_routed e now event e' :
  execution_ok e -> progress_ok e -> routed e -> admissible e now event = true ->
  apply_event e now event = Some e' -> routed e'.
Proof.
  intros Hok Hpg Hro Hadm Happ. destruct event as [| | | |outcome summary].
  5:{ by eapply report_routed. }
  all: eapply other_event_routed; [done|done| |exact Happ]; done.
Qed.

Lemma run_routed e events e' :
  execution_ok e -> progress_ok e -> routed e -> run e events = Some e' -> routed e'.
Proof.
  revert e. induction events as [|[now event] events IH]; intros e Hok Hpg Hro; simpl;
    [by intros [= <-]|].
  destruct (admissible e now event) eqn:Hadm; [|done].
  destruct (apply_event e now event) as [e1|] eqn:Happ; [|done].
  destruct (event_preserves e now event e1) as [H1 H2]; try done.
  apply IH; try done. by apply (event_routed e now event e1).
Qed.

Lemma initial_routed execution_id project_id task_id configuration goal coordinator now :
  routed (initial_execution execution_id project_id task_id configuration goal coordinator now).
Proof.
  split; [intros n step _ Hn; change (n < 0) in Hn; lia|by intros ? ?%elem_of_nil|done].
Qed.

(** ** Reviews still to report

    Before the review group no review has reported; in it, not all have. *)

Definition reviews_open (e : WorkflowExecution) : Prop :=
  match current_step e with
  | Some step =>
      match wst_kind step with
      | WK_Discuss | WK_Implement =>
          forall s, s ∈ we_steps e -> wst_kind s = WK_Review -> has_result e s = false
      | WK_Review => all (has_result e) (review_group e) = false
      | WK_Fix => True
      end
  | None => True
  end.

Lemma reviews_open_same_place e e' : same_place e e' -> reviews_open e -> reviews_open e'.
Proof.
  intros [Hrun Hi Hc Hr _]. unfold reviews_open, review_group, has_result, current_step, step_index.
  by rewrite (same_steps _ _ Hrun), Hi, Hc, Hr.
Qed.

(** At the first review, a group without any report is open. *)
Lemma group_open e review :
  current_step e = Some review -> wst_kind review = WK_Review ->
  has_result e review = false -> all (has_result e) (review_group e) = false.
Proof.
  intros Hcur Hk Hno. unfold review_group, current_step in *. apply drop_S in Hcur as ->. simpl.
  rewrite (proj2 (kind_is_true WK_Review review) Hk). simpl. by rewrite Hno.
Qed.

Lemma report_result_open b current step now e' :
  execution_ok b -> progress_ok b -> current_step b = Some current ->
  (wst_kind current <> WK_Review -> reviews_open b) ->
  (wst_kind current = WK_Review /\ wst_kind step = WK_Review /\
   we_phase b = WP_AwaitingStepCompletion) \/
  (wst_kind current <> WK_Review /\ step = current) ->
  report_result b step now e' -> reviews_open e'.
Proof.
  intros Hok Hpg Hcur Hopen Hcase Hres. destruct (configuration_facts b Hok) as (Hlen & _).
  assert (forall e', current_step e' = None -> reviews_open e') as Hdone.
  { intros e1 H. unfold reviews_open. by rewrite H. }
  report_cases Hres Hcase.
  - unfold reviews_open. change (current_step _) with (current_step b). by rewrite Hcur, Hkc.
  - destruct (move_to_fix b current Hok Hpg Hcur next Hkc Hall Hn Hf Hc) as (_ & _ & Hc').
    unfold reviews_open. by rewrite Hc', Hf.
  - apply Hdone. rewrite upsert_step_result_eq, complete_clears, current_step_results.
    by apply complete_current.
  - apply Hdone. rewrite complete_clears. by apply complete_current.
  - specialize (Hopen Hkc). unfold reviews_open in Hopen. rewrite Hcur in Hopen.
    assert (forall s, s ∈ we_steps b -> wst_kind s = WK_Review -> has_result b s = false) as Hno
      by (destruct Hk as [Hk|Hk]; by rewrite Hk in Hopen).
    destruct (move_to_next b current Hok Hpg Hcur Hk Hlt) as (_ & _ & Hc').
    destruct (lookup_lt_is_Some_2 _ _ Hlt) as [next Hnext]. rewrite Hnext in Hc'.
    unfold reviews_open. rewrite Hc'. destruct (wst_kind next) eqn:Hkn; try done.
    apply (group_open _ next Hc' Hkn). apply (Hno next); [|done]. by eapply list_elem_of_lookup_2.
  - apply Hdone. by apply complete_current.
  - destruct (move_to_cycle b current Hok Hcur j review Hk Hpos Hlt) as (_ & _ & Hc' & Hcy').
    pose proof (position_Some _ _ _ _ Hpos) as [_ Hkr%kind_is_true].
    unfold reviews_open. rewrite Hc', Hkr. apply (group_open _ review Hc' Hkr).
    unfold has_result. rewrite Hcy'. apply any_false. intros x Hx.
    apply (result_cycle b x Hok) in Hx.
    rewrite (bool_decide_eq_false_2 (wsr_review_cycle x = _)) by lia. apply andb_false_r.
  - apply Hdone. by apply complete_current.
Qed.

(** Reports before the review group are not reports of reviews. *)
Lemma recorded_open e current outcome ro summary now :
  execution_ok e -> reviews_open e -> current_step e = Some current ->
  wst_kind current <> WK_Review -> reviews_open (recorded e current outcome ro summary now).
Proof.
  intros Hok Hopen Hcur Hne. unfold reviews_open in *.
  assert (current_step (recorded e current outcome ro summary now) = Some current /\
          we_steps (recorded e current outcome ro summary now) = we_steps e) as [-> Hst]
    by (by rewrite recorded_eq).
  rewrite Hcur in Hopen.
  assert (forall s, s ∈ we_steps e -> wst_kind s = WK_Review -> wst_id current <> wst_id s) as Hid.
  { intros s Hs Hks Heq. destruct (configuration_facts e Hok) as (_ & Hn & _).
    pose proof (find_step _ _ Hn Hs) as H1.
    pose proof (find_step _ _ Hn (current_step_elem _ _ Hcur)) as H2. rewrite Heq in H2.
    rewrite H1 in H2. injection H2 as ->. done. }
  destruct (wst_kind current); try done; intros s Hs Hks; rewrite Hst in Hs;
    rewrite recorded_has_result, (Hopen s Hs Hks); simpl; by apply bool_decide_eq_false_2, Hid.
Qed.

Lemma event_open e now event e' :
  execution_ok e -> progress_ok e -> reviews_open e -> admissible e now event = true ->
  apply_event e now event = Some e' -> reviews_open e'.
Proof.
  intros Hok Hpg Hopen Hadm Happ. destruct event as [| | | |outcome summary].
  1-4: eapply reviews_open_same_place; [|done];
    eapply other_event_same_place; [|exact Happ]; done.
  destruct (report_event_inv e outcome summary now e' Hok Hpg Hadm Happ)
    as (step & ro & current & _ & _ & Hcur & Hcurb & Hokb & Hpgb & _ & Hcase & Hres).
  eapply report_result_open; try done. intros Hne.
  destruct Hcase as [(? & _)|[_ ->]]; [done|]. by apply recorded_open.
Qed.

(** ** A way to the end *)

(** What is left to do before the next report. *)
Definition work_left (e : WorkflowExecution) : nat :=
  (if we_coordinator_prompt_pending e then 1 else 0)
  + match current_step e with
    | Some step =>
        match wst_kind step with
        | WK_Discuss =>
            match we_phase e with
            | WP_AwaitingCoordinator => 2 | WP_AwaitingHelper => 1 | _ => 0
            end
        | WK_Review =>
            2 * (length (review_group e) - length (we_review_requests e))
            + length (retain (fun r => negb (wr_reply_delivered r)) (we_review_requests e))
        | _ => 0
        end
    | None => 0
    end.

(** An event brings the execution closer to its end. *)
Definition advances (e : WorkflowExecution) (event : WorkflowEvent) : Prop :=
  let now := we_updated_at_epoch_ms e in
  admissible e now event = true /\
  exists e', apply_event e now event = Some e' /\
    (reports_left e' < reports_left e \/
     (reports_left e' = reports_left e /\ work_left e' < work_left e)).

Lemma advances_report e step outcome ro :
  execution_ok e -> progress_ok e ->
  step_to_complete e = Some step -> completion_is_expected e step outcome = true ->
  parse_outcome outcome = Some ro -> advances e (StepReported outcome "done").
Proof.
  intros Hok Hpg Hs He Hp.
  assert (admissible e (we_updated_at_epoch_ms e) (StepReported outcome "done") = true) as Hadm.
  { unfold admissible. by rewrite N.leb_refl. }
  assert (exists e', apply_event e (we_updated_at_epoch_ms e) (StepReported outcome "done")
                     = Some e') as [e' Happ].
  { unfold apply_event. replace (trim "done") with "done" by (vm_compute; reflexivity).
    simpl. rewrite Hs, Hp, He. by eexists. }
  split; [done|]. exists e'. split; [done|]. left. by eapply report_decreases.
Qed.

(** Events other than reports leave the number of reports alone. *)
Lemma other_event_left e now event e' :
  (forall o s, event <> StepReported o s) -> apply_event e now event = Some e' ->
  reports_left e' = reports_left e.
Proof.
  intros Hne Happ. destruct (other_event_same_place e now event e' Hne Happ) as [Hrun Hi Hc Hr _].
  unfold reports_left, unreported, review_group, cycles_left, has_result, current_step, step_index.
  by rewrite (same_steps _ _ Hrun), Hi, Hc, Hr, (same_configuration _ _ Hrun).
Qed.

Lemma advances_other e event e' :
  (forall o s, event <> StepReported o s) ->
  admissible e (we_updated_at_epoch_ms e) event = true ->
  apply_event e (we_updated_at_epoch_ms e) event = Some e' ->
  work_left e' < work_left e -> advances e event.
Proof.
  intros Hne Hadm Happ Hw. split; [done|]. exists e'. split; [done|]. right. split; [|done].
  by eapply other_event_left.
Qed.

Lemma advances_prompt e :
  execution_ok e -> we_coordinator_prompt_pending e = true -> advances e PromptDelivered.
Proof.
  intros Hok Hp. apply (advances_other e _ (confirm_prompt e (we_updated_at_epoch_ms e))); [done| | |].
  - unfold admissible. by rewrite N.leb_refl.
  - simpl. unfold awaits_prompt. rewrite Hp, (ok_pending _ Hok Hp).
    by rewrite !bool_decide_eq_true_2.
  - unfold work_left. rewrite Hp.
    change (current_step (confirm_prompt _ _)) with (current_step e).
    change (review_group (confirm_prompt _ _)) with (review_group e). simpl. lia.
Qed.

Lemma group_ids_distinct e : NoDup (wst_id <$> we_steps e) -> NoDup (wst_id <$> review_group e).
Proof.
  intros H. eapply sublist_NoDup; [exact H|]. apply fmap_sublist.
  unfold review_group. etransitivity; [|apply (sublist_drop (we_steps e) (step_index e))].
  rewrite <- (take_while_skip_while (kind_is WK_Review) (drop _ _)) at 2. apply sublist_inserts_r. done.
Qed.

(** A valid request id no current request uses. *)
Lemma fresh_request_id (used : list string) :
  length used < 9 -> exists id, request_id_is_valid id = true /\ id ∉ used.
Proof.
  intros Hlen.
  set (ids := ["a"; "b"; "c"; "d"; "e"; "f"; "g"; "h"; "i"]).
  destruct (decide (Forall (fun id => id ∈ used) ids)) as [Hall|Hnot].
  - assert (length ids <= length used); [|simpl in *; lia].
    apply submseteq_length, NoDup_submseteq.
    + apply (bool_decide_unpack (NoDup ids)). vm_compute. done.
    + by rewrite list.Forall_forall in Hall.
  - apply not_Forall_Exists in Hnot; [|apply _].
    apply list.Exists_exists in Hnot as (id & Hid & Hfresh). exists id. split; [|done].
    assert (Forall (fun id => request_id_is_valid id = true) ids) as Hv
      by (repeat constructor).
    rewrite list.Forall_forall in Hv. by apply Hv.
Qed.

Lemma find_first_split {A} (p : A -> bool) l x :
  find_first p l = Some x -> exists l1 l2, l = l1 ++ x :: l2 /\ (forall y, y ∈ l1 -> p y = false).
Proof.
  induction l as [|y l IH]; simpl; [done|]. destruct (p y) eqn:Hp.
  - intros [= ->]. exists [], l. split; [done|]. by intros ? ?%elem_of_nil.
  - intros (l1 & l2 & -> & H)%IH. exists (y :: l1), l2. split; [done|].
    intros z [->|Hz]%elem_of_cons; auto.
Qed.

Lemma all_ext {A} (p q : A -> bool) l : (forall x, p x = q x) -> all p l = all q l.
Proof. intros H. induction l as [|x l IH]; simpl; [done|]. by rewrite H, IH. Qed.

Lemma find_first_exists {A} (p : A -> bool) l :
  all (fun x => negb (p x)) l = false -> exists x, find_first p l = Some x.
Proof.
  intros H. destruct (find_first p l) as [x|] eqn:Hf; [by exists x|]. exfalso.
  rewrite find_first_None in Hf. assert (all (fun x => negb (p x)) l = true); [|congruence].
  apply all_true. intros x Hx. by rewrite Hf.
Qed.

Lemma take_while_length {A} (p : A -> bool) l : length (take_while p l) <= length l.
Proof. rewrite <- (take_while_skip_while p l) at 2. rewrite length_app. lia. Qed.

(** The conversation a review continues is pinned when its turn comes. *)
Lemma source_pinned e current step source_id :
  execution_ok e -> progress_ok e -> routed e -> current_step e = Some current ->
  wst_kind current = WK_Review ->
  find_first (fun s => negb (any (fun r => wr_step_id r == wst_id s) (we_review_requests e)))
    (review_group e) = Some step ->
  wst_reuse_step_id step = Some source_id -> pinned e source_id.
Proof.
  intros Hok Hpg Hro Hcur Hk Hff Hreuse.
  destruct (at_review_shape e current Hok Hpg Hcur Hk) as (d & i & r & f & Hsh & Hidx & Hg & _).
  rewrite Hg in Hff. apply find_first_split in Hff as (l1 & l2 & Hr & Hbefore).
  assert (we_steps e !! (length d + 1 + length l1) = Some step) as Hn.
  { rewrite (shape_at_review _ _ _ _ _ Hsh); rewrite Hr; [by rewrite list_lookup_middle|].
    rewrite length_app. simpl. lia. }
  pose proof (ok_identity _ Hok) as (_ & _ & _ & Hc & _).
  apply configuration_valid_facts in Hc as (_ & _ & _ & _ & _ & Hearlier).
  destruct (Hearlier _ step source_id Hn Hreuse) as (j & source & Hlt & Hj & <- & Hkind & _).
  pose proof (shape_lookup _ _ _ _ _ Hsh _ _ Hj) as Hat.
  destruct Hkind as [Hkd|Hkr].
  - eapply discussions_pinned; try done. congruence.
  - rewrite Hkr in Hat. destruct Hat as (k & Hjk & Hsrc).
    assert (k < length l1) as Hkl by lia. rewrite Hr, lookup_app_l in Hsrc by done.
    specialize (Hbefore source (list_elem_of_lookup_2 _ _ _ Hsrc)).
    apply negb_false_iff, any_true in Hbefore as (request & Hin & Hid).
    apply bool_decide_eq_true in Hid as <-. by apply (routed_requests _ Hro).
Qed.

(** A helper Session that may serve the step. *)
Lemma helper_for e step :
  execution_ok e -> step ∈ we_steps e ->
  (forall source_id, wst_reuse_step_id step = Some source_id -> pinned e source_id) ->
  exists helper, trim_is_empty helper = false /\ helper_matches e step helper = true.
Proof.
  intros Hok Hin Hsrc. destruct (ok_participants _ Hok) as [_ Heach].
  rewrite list.Forall_forall in Heach.
  assert (forall id p, find_participant (we_participants e) id = Some p ->
    trim_is_empty (wp_helper_session_id p) = false) as Hnb.
  { intros id p [Hp _]%find_participant_Some. by destruct (Heach p Hp) as (_ & ? & _). }
  unfold helper_matches. destruct (find_participant _ (wst_id step)) as [p|] eqn:Hp.
  - exists (wp_helper_session_id p). split; [by eapply Hnb|].
    destruct (wst_reuse_step_id step) as [source_id|] eqn:Hr; simpl;
      [|by rewrite bool_decide_eq_true_2].
    destruct (ok_reuses _ Hok step source_id p Hin Hr Hp) as (source & -> & ->). simpl.
    by rewrite bool_decide_eq_true_2.
  - destruct (wst_reuse_step_id step) as [source_id|] eqn:Hr; simpl; [|by exists "helper"].
    destruct (Hsrc source_id eq_refl) as [source Hs]. exists (wp_helper_session_id source).
    split; [by eapply Hnb|]. rewrite Hs. simpl. by rewrite bool_decide_eq_true_2.
Qed.

Lemma retain_snoc {A} (p : A -> bool) l x :
  length (retain p (l ++ [x])) = length (retain p l) + (if p x then 1 else 0).
Proof. rewrite retain_app, length_app. simpl. by destruct (p x). Qed.

Lemma delegate_work e current step request_id helper now :
  execution_ok e -> current_step e = Some current -> we_phase e = WP_AwaitingCoordinator ->
  (wst_kind current = WK_Review /\ wst_kind step = WK_Review) \/
  (wst_kind current = WK_Discuss /\ step = current) ->
  work_left (delegate_step e step request_id helper now) < work_left e.
Proof.
  intros Hok Hcur Hph Hcase.
  destruct (delegate_frame e step request_id helper now) as (_ & Hcur' & Hg & _ & Hpend & _).
  unfold work_left. rewrite Hcur', Hg, Hpend, Hcur, delegate_requests, Hph.
  destruct Hcase as [[Hk Hks]|[Hk ->]]; rewrite Hk.
  - rewrite (proj2 (kind_is_true WK_Review step) Hks), retain_snoc, length_app. simpl.
    pose proof (ok_stage _ Hok) as Hs. unfold stage_ok in Hs. rewrite Hcur, Hk, Hph in Hs. lia.
  - assert (we_phase (delegate_step e current request_id helper now) = WP_AwaitingHelper) as ->;
      [|lia].
    unfold delegate_step.
    rewrite (proj2 (kind_is_false WK_Review current)) by congruence.
    by destruct (find_participant _ _).
Qed.

Lemma advances_delegate e current step :
  execution_ok e -> current_step e = Some current -> we_phase e = WP_AwaitingCoordinator ->
  we_coordinator_prompt_pending e = false ->
  (wst_kind current = WK_Review /\ wst_kind step = WK_Review) \/
  (wst_kind current = WK_Discuss /\ step = current) ->
  delegated_step e (wst_id step) = Some step ->
  (forall source_id, wst_reuse_step_id step = Some source_id -> pinned e source_id) ->
  exists event, advances e event.
Proof.
  intros Hok Hcur Hph Hpend Hcase Hd Hsrc.
  assert (step ∈ we_steps e) as Hin.
  { apply delegated_step_Some in Hd as (c & Hc & [(_ & _ & Hg & _)|[_ ->]]).
    - by apply review_group_elem in Hg as [? _].
    - by apply current_step_elem. }
  destruct (helper_for e step Hok Hin Hsrc) as (helper & Hnb & Hm).
  destruct (fresh_request_id (wr_request_id <$> we_review_requests e)) as (id & Hid & Hfresh).
  { rewrite length_fmap. destruct (configuration_facts e Hok) as (Hlen & _).
    pose proof (ok_stage _ Hok) as Hs. unfold stage_ok in Hs. rewrite Hcur in Hs.
    destruct Hcase as [[Hk _]|[Hk _]]; rewrite Hk in Hs.
    - destruct Hs as (_ & Hreq%requests_ok_length & _).
      assert (length (review_group e) <= length (we_steps e)); [|lia].
      unfold review_group. etransitivity; [apply take_while_length|]. rewrite length_drop. lia.
    - destruct Hs as [-> _]. simpl. lia. }
  exists (Delegated (wst_id step) id helper).
  apply (advances_other e _ (delegate_step e step id helper (we_updated_at_epoch_ms e))); [done| | |].
  - unfold admissible. rewrite N.leb_refl, Hid, Hnb. simpl. apply negb_true_iff.
    by apply any_eq_false.
  - simpl. by rewrite Hd, Hph, Hpend, Hm.
  - by apply (delegate_work e current).
Qed.

Lemma retain_insert_drops {A} (p : A -> bool) l i x y :
  l !! i = Some x -> p x = true -> p y = false ->
  length (retain p (<[i := y]> l)) < length (retain p l).
Proof.
  intros Hi Hx Hy. revert i Hi. induction l as [|z l IH]; intros [|i]; simpl; try done.
  - intros [= ->]. rewrite Hx, Hy. simpl. lia.
  - intros Hi%IH. destruct (p z); simpl; lia.
Qed.

Lemma position_unique {A} (key : A -> string) l i x :
  NoDup (key <$> l) -> l !! i = Some x -> position (fun y => key y == key x) l = Some (i, x).
Proof.
  revert i. induction l as [|z l IH]; intros [|i]; simpl; try done.
  - intros _ [= ->]. by rewrite bool_decide_eq_true_2.
  - intros [Hz Hn]%list.NoDup_cons Hi. rewrite bool_decide_eq_false_2.
    + by rewrite (IH i).
    + intros Heq. apply Hz. rewrite Heq. apply list_elem_of_fmap_2. by eapply list_elem_of_lookup_2.
Qed.

Lemma advances_reply e current :
  execution_ok e -> current_step e = Some current -> we_phase e = WP_AwaitingHelper ->
  exists event, advances e event.
Proof.
  intros Hok Hcur Hph. pose proof (ok_stage _ Hok) as Hs. unfold stage_ok in Hs.
  rewrite Hcur, Hph in Hs.
  assert (we_coordinator_prompt_pending e = false) as Hpend.
  { destruct (we_coordinator_prompt_pending e) eqn:Hp; [|done].
    apply (ok_pending _ Hok) in Hp. congruence. }
  assert (forall id e', deliver_reply e id (we_updated_at_epoch_ms e) = e' ->
    awaits_reply id e = true -> work_left e' < work_left e -> exists event, advances e event)
    as Hgo.
  { intros id e' <- Ha Hw. exists (ReplyDelivered id).
    apply (advances_other e _ (deliver_reply e id (we_updated_at_epoch_ms e))); try done.
    - unfold admissible. by rewrite N.leb_refl.
    - simpl. by rewrite Ha. }
  destruct (wst_kind current) eqn:Hk; try (by destruct Hs).
  - destruct Hs as (Hn & id & Hid & _). eapply (Hgo id); [done| |].
    + unfold awaits_reply. rewrite Hph, Hid. by rewrite (bool_decide_eq_true_2 (Some id = _)).
    + destruct (deliver_frame e id (we_updated_at_epoch_ms e)) as (_ & Hcur' & _ & _ & Hpe & _).
      unfold work_left. rewrite Hcur', Hpe, Hcur, Hk, Hph, Hpend.
      assert (we_phase (deliver_reply e id (we_updated_at_epoch_ms e))
              = WP_AwaitingStepCompletion) as ->; [|lia].
      unfold deliver_reply. by rewrite Hn.
  - destruct Hs as (_ & Hreq & _ & (request & Hin & Hund)%any_true).
    apply list_elem_of_lookup_1 in Hin as [i Hi].
    pose proof (position_unique wr_request_id _ i request (requests_ids _ _ Hreq) Hi) as Hpos.
    eapply (Hgo (wr_request_id request)); [done| |].
    + unfold awaits_reply. rewrite Hph. apply orb_true_iff. right.
      rewrite (proj2 (any_true _ _)); [done|]. exists request.
      split; [by eapply list_elem_of_lookup_2|by apply bool_decide_eq_true_2].
    + destruct (deliver_frame e (wr_request_id request) (we_updated_at_epoch_ms e))
        as (_ & Hcur' & Hg & _ & Hpe & _).
      unfold work_left. rewrite Hcur', Hpe, Hcur, Hk, Hpend, Hg.
      assert (we_review_requests (deliver_reply e (wr_request_id request)
                (we_updated_at_epoch_ms e))
              = <[i := request <| wr_reply_delivered := true |>]> (we_review_requests e)) as ->.
      { unfold deliver_reply. rewrite find_mut_position, Hpos. by destruct (_ && _). }
      rewrite length_insert.
      pose proof (retain_insert_drops (fun r => negb (wr_reply_delivered r)) _ i request
        (request <| wr_reply_delivered := true |>) Hi Hund eq_refl). lia.
Qed.

(** The coordinator's turn: delegate, or report its own step. *)
Lemma advances_coordinator e current :
  execution_ok e -> progress_ok e -> routed e -> current_step e = Some current ->
  we_phase e = WP_AwaitingCoordinator -> we_coordinator_prompt_pending e = false ->
  exists event, advances e event.
Proof.
  intros Hok Hpg Hro Hcur Hph Hpend. pose proof (ok_stage _ Hok) as Hs. unfold stage_ok in Hs.
  rewrite Hcur, Hph in Hs.
  assert (wst_kind current = WK_Implement \/ wst_kind current = WK_Fix ->
          exists event, advances e event) as Hown.
  { intros Hk. exists (StepReported "completed" "done").
    apply (advances_report e current "completed" WRO_Completed); try done.
    - unfold step_to_complete. rewrite Hcur.
      rewrite (proj2 (kind_is_false WK_Review current)); [done|]. by destruct Hk as [-> | ->].
    - unfold completion_is_expected. rewrite Hph, Hpend. by destruct Hk as [-> | ->]. }
  destruct (wst_kind current) eqn:Hk; [|by apply Hown; auto| |by apply Hown; auto].
  - apply (advances_delegate e current current); try done; [by right| |].
    + unfold delegated_step. rewrite Hcur.
      rewrite (proj2 (kind_is_false WK_Review current)) by congruence.
      rewrite bool_decide_eq_true_2 by done. by rewrite (proj2 (kind_is_true WK_Discuss current) Hk).
    + intros source_id Hr. destruct (configuration_facts e Hok) as (_ & _ & Hv & _).
      rewrite list.Forall_forall in Hv. specialize (Hv current (current_step_elem _ _ Hcur)).
      unfold workflow_step_is_valid in Hv. rewrite Hr, Hk, !andb_true_iff in Hv.
      by destruct_and!.
  - destruct Hs as (_ & Hreq & Hlt).
    destruct (find_first_exists (fun s => negb (any (fun r => wr_step_id r == wst_id s)
      (we_review_requests e))) (review_group e)) as [step Hff].
    { apply not_true_is_false. intros Hall. rewrite all_true in Hall.
      assert (length (review_group e) <= length (we_review_requests e)); [|lia].
      destruct (configuration_facts e Hok) as (_ & Hn & _).
      rewrite <- (length_fmap wst_id (review_group e)), <- (length_fmap wr_step_id).
      apply submseteq_length, NoDup_submseteq; [by apply group_ids_distinct|].
      intros x (s & -> & Hx)%list_elem_of_fmap. specialize (Hall s Hx).
      rewrite negb_involutive in Hall. apply any_true in Hall as (r & Hr & Hid).
      apply bool_decide_eq_true in Hid as <-. by apply list_elem_of_fmap_2. }
    pose proof Hff as [Hin Hnew]%find_first_Some. apply negb_true_iff in Hnew.
    pose proof (review_group_elem e step Hin) as [_ Hks].
    apply (advances_delegate e current step); try done; [by left| |].
    + unfold delegated_step. rewrite Hcur, (proj2 (kind_is_true WK_Review current) Hk).
      destruct (configuration_facts e Hok) as (_ & Hn & _).
      rewrite (find_step (review_group e) step); [|by apply group_ids_distinct|done].
      by rewrite Hnew.
    + intros source_id Hr. by eapply source_pinned.
Qed.

(** In every state but the last, some event gets closer to the end. *)
Lemma some_event_advances e :
  execution_ok e -> progress_ok e -> routed e -> reviews_open e ->
  we_phase e <> WP_Completed -> exists event, advances e event.
Proof.
  intros Hok Hpg Hro Hopen Hne.
  destruct (we_coordinator_prompt_pending e) eqn:Hpend.
  { exists PromptDelivered. by apply advances_prompt. }
  pose proof (ok_stage _ Hok) as Hs. unfold stage_ok in Hs.
  destruct (current_step e) as [current|] eqn:Hcur; [|by destruct Hs as [? _]].
  destruct (we_phase e) eqn:Hph; [| | |done].
  - by apply (advances_coordinator e current).
  - by apply (advances_reply e current).
  - unfold reviews_open in Hopen. rewrite Hcur in Hopen.
    destruct (wst_kind current) eqn:Hk; try (by destruct Hs).
    + exists (StepReported "completed" "done").
      apply (advances_report e current "completed" WRO_Completed); try done.
      * unfold step_to_complete. rewrite Hcur.
        by rewrite (proj2 (kind_is_false WK_Review current)) by congruence.
      * unfold completion_is_expected. by rewrite Hph, Hpend, Hk.
    + destruct (find_first_exists (fun s => negb (has_result e s)) (review_group e))
        as [step Hff].
      { rewrite <- Hopen. apply all_ext. intros s. apply negb_involutive. }
      exists (StepReported "approved" "done").
      apply (advances_report e step "approved" WRO_Approved); try done.
      * unfold step_to_complete. by rewrite Hcur, (proj2 (kind_is_true WK_Review current) Hk).
      * apply find_first_Some in Hff as [Hin _]. apply review_group_elem in Hin as [_ Hks].
        unfold completion_is_expected. by rewrite Hph, Hpend, Hks.
Qed.

(** ** To the end *)

Lemma drives_to_completion e :
  execution_ok e -> progress_ok e -> routed e -> reviews_open e ->
  exists events e', run e events = Some e' /\ we_phase e' = WP_Completed.
Proof.
  remember (reports_left e) as n eqn:Hn. revert e Hn.
  induction n as [n IHn] using lt_wf_ind. intros e Hn.
  remember (work_left e) as w eqn:Hw. revert e Hn Hw.
  induction w as [w IHw] using lt_wf_ind. intros e Hn Hw Hok Hpg Hro Hopen.
  destruct (decide (we_phase e = WP_Completed)) as [Hdone|Hne].
  { exists [], e. done. }
  destruct (some_event_advances e Hok Hpg Hro Hopen Hne) as (event & Hadm & e1 & Happ & Hless).
  destruct (event_preserves e _ event e1 Hok Hpg Hadm Happ) as [Hok1 Hpg1].
  pose proof (event_routed e _ event e1 Hok Hpg Hro Hadm Happ) as Hro1.
  pose proof (event_open e _ event e1 Hok Hpg Hopen Hadm Happ) as Hopen1.
  assert (exists events e', run e1 events = Some e' /\ we_phase e' = WP_Completed)
    as (events & e' & Hrun & Hfin).
  { destruct Hless as [Hlt|[Heq Hlt]].
    - apply (IHn (reports_left e1)); [lia|done..].
    - apply (IHw (work_left e1)); [lia|congruence|done..]. }
  exists ((we_updated_at_epoch_ms e, event) :: events), e'. split; [|done].
  cbn [run]. by rewrite Hadm, Happ.
Qed.

Lemma initial_open execution_id project_id task_id configuration goal coordinator now :
  launchable execution_id project_id task_id configuration goal coordinator now = true ->
  reviews_open (initial_execution execution_id project_id task_id configuration goal
                  coordinator now).
Proof.
  intros Hl. destruct (initial_ok _ _ _ _ _ _ _ Hl) as [Hok Hpg].
  set (e := initial_execution _ _ _ _ _ _ _) in *. unfold reviews_open.
  destruct (current_step e) as [step|] eqn:Hcur; [|done].
  destruct (wst_kind step) eqn:Hk; try done. by apply (group_open e step).
Qed.

Lemma run_open e events e' :
  execution_ok e -> progress_ok e -> reviews_open e -> run e events = Some e' -> reviews_open e'.
Proof.
  revert e. induction events as [|[now event] events IH]; intros e Hok Hpg Hro; simpl;
    [by intros [= <-]|].
  destruct (admissible e now event) eqn:Hadm; [|done].
  destruct (apply_event e now event) as [e1|] eqn:Happ; [|done].
  destruct (event_preserves e now event e1) as [H1 H2]; try done.
  apply IH; try done. by apply (event_open e now event e1).
Qed.
