(* ===== verification/WorkflowClaims.v ===== *)
(** * What a workflow run guarantees

    The claims about the progression machine, for every execution reached from
    a launch by any admissible sequence of events. *)

From S2P Require Import Prelude Text Domain DomainRules StoreState Workflow WorkflowEngine.
From S2P Require Import WorkflowGrammar WorkflowRun WorkflowProgress WorkflowLiveness.

Local Open Scope string_scope.
Local Open Scope list_scope.

(** [e] is reached from a launch that passed the checks of the store. *)
Definition reachable (e : WorkflowExecution) : Prop :=
  exists execution_id project_id task_id configuration goal coordinator now events,
    launchable execution_id project_id task_id configuration goal coordinator now = true /\
    run (initial_execution execution_id project_id task_id configuration goal coordinator now)
      events = Some e.

Lemma reachable_ok e :
  reachable e -> execution_ok e /\ progress_ok e /\ routed e /\ reviews_open e.
Proof.
  intros (id & p & t & c & g & co & now & events & Hl & Hrun).
  destruct (initial_ok _ _ _ _ _ _ _ Hl) as [Hok Hpg].
  destruct (run_preserves _ _ _ Hok Hpg Hrun) as [H1 H2]. split_and!; try done.
  - eapply run_routed; [exact Hok|exact Hpg|apply initial_routed|exact Hrun].
  - eapply run_open; [exact Hok|exact Hpg|by apply initial_open|exact Hrun].
Qed.

(** ** A sample run *)

Definition sample_selection : AgentLaunchSelection :=
  MkAgentLaunchSelection "default" "default" "default" None.
Definition helper (id : string) (kind : WorkflowStepKind) (agent : string)
    (reuse : option string) : WorkflowStep :=
  MkWorkflowStep id kind "Title" "Do it." (Some agent) reuse None
    (if is_some reuse then None else Some sample_selection).
Definition own (id : string) (kind : WorkflowStepKind) : WorkflowStep :=
  MkWorkflowStep id kind "Title" "Do it." None None None None.
Definition sample_configuration : WorkflowConfiguration :=
  MkWorkflowConfiguration "wf" "p" "Discuss, build, review" "codex" sample_selection 2
    [helper "discuss" WK_Discuss "claude" None; own "build" WK_Implement;
     helper "review-a" WK_Review "claude" (Some "discuss");
     helper "review-b" WK_Review "codex" None; own "fix" WK_Fix] 1 1.

(** Both reviewers ask for changes, the fix is made, and one asks again in the
    second and last cycle. *)
Definition review_events (first second : string) : list (N * WorkflowEvent) :=
  [(10, Delegated "review-a" ("ra" +:+ first) "h1"); (11, ReplyDelivered ("ra" +:+ first));
   (12, Delegated "review-b" ("rb" +:+ first) "h2"); (13, ReplyDelivered ("rb" +:+ first));
   (14, StepReported first "looked at it"); (15, StepReported second " twice ")]%N.
Definition sample_events : list (N * WorkflowEvent) :=
  [(1, Delegated "discuss" "r1" "h1"); (2, DiscussionRetried);
   (3, Delegated "discuss" "r2" "h1"); (4, ReplyDelivered "r2");
   (5, StepReported "completed" "agreed"); (6, PromptDelivered);
   (7, StepReported "completed" "built"); (8, PromptDelivered)]%N
  ++ review_events "approved" "changesRequested"
  ++ [(16, PromptDelivered); (17, StepReported "completed" "fixed")]%N.
Definition sample_initial : WorkflowExecution :=
  initial_execution "run" "p" (Some "t") sample_configuration "Build it." "coordinator" 1.
Definition sample_end : WorkflowExecution :=
  match run sample_initial
          (sample_events ++ [(18, PromptDelivered)]%N
           ++ ((fun entry => (fst entry + 10, snd entry)%N)
               <$> review_events "approved" "changesRequested")
           ++ [(26, PromptDelivered); (27, StepReported "completed" "fixed again")]%N) with
  | Some e => e
  | None => sample_initial
  end.

Lemma sample_launchable :
  launchable "run" "p" (Some "t") sample_configuration "Build it." "coordinator" 1 = true.
Proof. vm_compute. reflexivity. Qed.

Lemma sample_end_reachable : reachable sample_end.
Proof.
  exists "run", "p", (Some "t"), sample_configuration, "Build it.", "coordinator", 1%N.
  exists (sample_events ++ [(18, PromptDelivered)]%N
           ++ ((fun entry => (fst entry + 10, snd entry)%N)
               <$> review_events "approved" "changesRequested")
           ++ [(26, PromptDelivered); (27, StepReported "completed" "fixed again")]%N).
  split; [apply sample_launchable|]. vm_compute. reflexivity.
Qed.

(** After the first cycle's fix, before the prompt of the second cycle. *)
Definition sample_middle : WorkflowExecution :=
  match run sample_initial sample_events with Some e => e | None => sample_initial end.

Lemma sample_middle_reachable : reachable sample_middle.
Proof.
  exists "run", "p", (Some "t"), sample_configuration, "Build it.", "coordinator", 1%N.
  exists sample_events. split; [apply sample_launchable|]. vm_compute. reflexivity.
Qed.

(** ** Outcomes *)

(** The step has a report with this outcome in the current cycle. *)
Definition result_in_cycle (e : WorkflowExecution) (step : WorkflowStep)
    (outcome : WorkflowStepResultOutcome) : Prop :=
  exists result, result ∈ we_step_results e /\ wsr_step_id result = wst_id step /\
    wsr_review_cycle result = we_review_cycle e /\ wsr_outcome result = outcome.

Definition has_kind (e : WorkflowExecution) (kind : WorkflowStepKind) : Prop :=
  exists step, step ∈ we_steps e /\ wst_kind step = kind.

Definition asks_for_changes (e : WorkflowExecution) : Prop :=
  exists step, step ∈ we_steps e /\ wst_kind step = WK_Review /\
    result_in_cycle e step WRO_ChangesRequested.

Lemma changes_in_cycle_spec e :
  execution_ok e -> changes_in_cycle e = true <-> asks_for_changes e.
Proof.
  intros Hok. unfold changes_in_cycle, asks_for_changes, result_in_cycle. rewrite any_true.
  split.
  - intros (result & Hin & H). autorewrite with guards in H.
    destruct H as [Hc Ho]. destruct (ok_results _ Hok) as [_ He].
    rewrite list.Forall_forall in He. destruct (He result Hin) as (step & Hf & Hv).
    apply find_first_Some in Hf as [Hs Hid]. apply bool_decide_eq_true in Hid.
    exists step. split_and!; [done| |by exists result].
    destruct (decide (wst_kind step = WK_Review)) as [|Hne]; [done|].
    exfalso. by eapply only_reviews_request_changes.
  - intros (step & _ & _ & result & Hin & _ & Hc & Ho). exists result. split; [done|].
    by rewrite Hc, Ho, !bool_decide_eq_true_2.
Qed.

Lemma reported_outcome e step :
  execution_ok e -> step ∈ we_steps e -> wst_kind step = WK_Review -> has_result e step = true ->
  result_in_cycle e step WRO_Approved \/ result_in_cycle e step WRO_ChangesRequested.
Proof.
  intros Hok Hs Hk (result & Hin & H)%any_true.
  autorewrite with guards in H. destruct H as [Hid Hc].
  pose proof (result_of_step e result step Hok Hin Hs Hid) as Hv.
  unfold result_is_valid_for in Hv. rewrite Hk, !andb_true_iff in Hv.
  destruct Hv as [[[_ Ho] _] _].
  apply orb_true_iff in Ho as [Ho|Ho]; apply bool_decide_eq_true in Ho; [left|right]; by exists result.
Qed.

(** One report per step: it cannot both approve and ask for changes. *)
Lemma result_in_cycle_unique e step o o' :
  execution_ok e -> result_in_cycle e step o -> result_in_cycle e step o' -> o = o'.
Proof.
  intros Hok (r & Hr & Hid & _ & <-) (r' & Hr' & Hid' & _ & <-).
  destruct (ok_results _ Hok) as [Hn _].
  apply list_elem_of_lookup_1 in Hr as [i Hi], Hr' as [j Hj].
  assert (i = j) as ->; [|congruence].
  apply (NoDup_lookup _ i j (wst_id step) Hn); rewrite list_lookup_fmap;
    [by rewrite Hi, <- Hid|by rewrite Hj, <- Hid'].
Qed.

Lemma completed_facts e :
  reachable e -> we_phase e = WP_Completed ->
  execution_ok e /\ reviews_reported e /\
  we_review_changes_requested e = changes_in_cycle e /\
  (asks_for_changes e -> has_kind e WK_Fix ->
   we_review_cycle e = wc_max_review_cycles (we_configuration e)).
Proof.
  intros (Hok & [Hch Hpos] & _)%reachable_ok Hph.
  pose proof (ok_stage _ Hok) as Hs. unfold stage_ok, position_ok in *.
  destruct (current_step e) as [step|].
  { rewrite Hph in Hs. destruct (wst_kind step); destruct_and?; done. }
  destruct Hpos as [Hrep Hmax]. split_and!; try done.
  intros Hask%changes_in_cycle_spec (f & Hf & Hk); [|done].
  rewrite <- Hch in Hask. pose proof (ok_cycle _ Hok).
  assert (any (kind_is WK_Fix) (we_steps e) = true) as Hany.
  { apply any_true. exists f. split; [done|by apply kind_is_true]. }
  specialize (Hmax Hask Hany). lia.
Qed.

(** What [completion_outcome] evaluates to. *)
Lemma completion_outcome_eq e :
  reachable e -> we_phase e = WP_Completed ->
  completion_outcome e = Some
    (if changes_in_cycle e then
       if any (kind_is WK_Fix) (we_steps e) then WCO_ReviewLimitReached
       else WCO_ChangesRequested
     else if any (kind_is WK_Review) (we_steps e) then WCO_Approved else WCO_Completed).
Proof.
  intros Hr Hph. destruct (completed_facts e Hr Hph) as (Hok & Hrep & Hch & Hmax).
  unfold completion_outcome. rewrite Hph, Hch. simpl.
  destruct (changes_in_cycle e) eqn:Hc.
  - destruct (any (kind_is WK_Fix) (we_steps e)) eqn:Hf; [|done]. simpl.
    rewrite Hmax; [by rewrite N.leb_refl|by apply changes_in_cycle_spec|].
    apply any_true in Hf as (f & Hin & Hk%kind_is_true). by exists f.
  - assert (all (fun step => any (fun result => (wsr_step_id result == wst_id step)
        && (wsr_review_cycle result == we_review_cycle e)
        && (wsr_outcome result == WRO_Approved)) (we_step_results e))
        (retain (kind_is WK_Review) (we_steps e)) = true) as ->.
    { apply all_true. intros step [Hin Hk%kind_is_true]%elem_of_retain. apply any_true.
      destruct (reported_outcome e step Hok Hin Hk (Hrep step Hin Hk)) as [H|H].
      - destruct H as (result & Hr' & H1 & H2 & H3). exists result.
        by rewrite H1, H2, H3, !bool_decide_eq_true_2.
      - exfalso. assert (changes_in_cycle e = true); [|congruence].
        apply changes_in_cycle_spec; [done|]. by exists step. }
    rewrite andb_true_r. destruct (retain _ _) as [|x l] eqn:Hl.
    + destruct (any (kind_is WK_Review) (we_steps e)) eqn:Ha; [|done].
      apply any_true in Ha as (y & Hy). apply elem_of_retain in Hy. rewrite Hl in Hy.
      by apply elem_of_nil in Hy.
    + assert (x ∈ retain (kind_is WK_Review) (we_steps e)) as [Hx Hk]%elem_of_retain
        by (rewrite Hl; by left).
      simpl. by rewrite (proj2 (any_true (kind_is WK_Review) (we_steps e))) by (by exists x).
Qed.

Lemma any_kind_spec e kind : any (kind_is kind) (we_steps e) = true <-> has_kind e kind.
Proof.
  rewrite any_true. unfold has_kind. by setoid_rewrite kind_is_true.
Qed.

(** ** Claims *)

(** C12: every execution a run reaches is one [WorkflowExecution::is_valid]
    accepts, so the store never refuses a transition of the machine as a
    constraint violation and the loader accepts what was stored. *)
Theorem workflow_stays_valid (e : WorkflowExecution) :
  reachable e -> workflow_execution_is_valid e = true.
Proof. intros [H _]%reachable_ok. by apply execution_ok_spec. Qed.

Lemma workflow_stays_valid_witness : workflow_execution_is_valid sample_end = true.
Proof. apply workflow_stays_valid, sample_end_reachable. Defined.

(** C15: the workflow ends: a run accepts at most 22 step reports, whatever its
    events are, so the review loop ends; and no state of a run is a dead end:
    from every execution it reaches some sequence of events completes the
    workflow. *)
Theorem workflow_terminates execution_id project_id task_id configuration goal coordinator
    now events e :
  launchable execution_id project_id task_id configuration goal coordinator now = true ->
  run (initial_execution execution_id project_id task_id configuration goal coordinator now)
    events = Some e ->
  (count is_report events <= 22)%N
  /\ exists more e', run e more = Some e' /\ we_phase e' = WP_Completed.
Proof.
  intros Hl Hrun. destruct (initial_ok _ _ _ _ _ _ _ Hl) as [Hok Hpg]. split.
  - pose proof (run_left _ _ _ Hok Hpg Hrun). pose proof (initial_left _ _ _ _ _ _ _ Hl). lia.
  - assert (reachable e) as (H1 & H2 & H3 & H4)%reachable_ok by (repeat eexists; eauto).
    by apply drives_to_completion.
Qed.

Lemma workflow_terminates_witness :
  exists e, run sample_initial sample_events = Some e
  /\ (count is_report sample_events <= 22)%N
  /\ exists more e', run e more = Some e' /\ we_phase e' = WP_Completed.
Proof.
  destruct (run sample_initial sample_events) as [e|] eqn:Hrun.
  - exists e. split; [done|]. exact (workflow_terminates _ _ _ _ _ _ _ _ e sample_launchable Hrun).
  - vm_compute in Hrun. discriminate Hrun.
Defined.

(** C13: the outcome of a completed run says what happened in its last cycle:
    Completed means the workflow has no review; Approved means that it has and
    every one approved; ChangesRequested means some review asked for changes
    and there is no fix step to make them; ReviewLimitReached means some review
    asked for changes although every allowed cycle was used. *)
Theorem workflow_outcome (e : WorkflowExecution) :
  reachable e -> we_phase e = WP_Completed ->
  (completion_outcome e = Some WCO_Completed <-> ~ has_kind e WK_Review) /\
  (completion_outcome e = Some WCO_Approved <->
   has_kind e WK_Review /\
   forall step, step ∈ we_steps e -> wst_kind step = WK_Review ->
     result_in_cycle e step WRO_Approved) /\
  (completion_outcome e = Some WCO_ChangesRequested <->
   asks_for_changes e /\ ~ has_kind e WK_Fix) /\
  (completion_outcome e = Some WCO_ReviewLimitReached <->
   asks_for_changes e /\ has_kind e WK_Fix /\
   we_review_cycle e = wc_max_review_cycles (we_configuration e)).
Proof.
  intros Hr Hph. destruct (completed_facts e Hr Hph) as (Hok & Hrep & _ & Hmax).
  rewrite completion_outcome_eq by done.
  assert (asks_for_changes e -> has_kind e WK_Review) as Hrev
    by (intros (step & ? & ? & _); by exists step).
  assert ((forall step, step ∈ we_steps e -> wst_kind step = WK_Review ->
     result_in_cycle e step WRO_Approved) <-> ~ asks_for_changes e) as Happ.
  { split.
    - intros H (step & Hin & Hk & Hc). by pose proof (result_in_cycle_unique e step _ _ Hok (H step Hin Hk) Hc).
    - intros H step Hin Hk. destruct (reported_outcome e step Hok Hin Hk (Hrep step Hin Hk)) as [|Hc];
        [done|]. destruct H. by exists step. }
  rewrite <- (any_kind_spec e WK_Fix), <- (any_kind_spec e WK_Review) in *.
  rewrite <- (changes_in_cycle_spec e Hok) in *. rewrite Happ.
  destruct (changes_in_cycle e), (any (kind_is WK_Fix) (we_steps e)),
    (any (kind_is WK_Review) (we_steps e)); simpl; naive_solver.
Qed.

Lemma workflow_outcome_witness :
  completion_outcome sample_end = Some WCO_ReviewLimitReached /\ asks_for_changes sample_end.
Proof.
  assert (completion_outcome sample_end = Some WCO_ReviewLimitReached) as H
    by (vm_compute; reflexivity).
  split; [exact H|].
  destruct (workflow_outcome sample_end sample_end_reachable eq_refl) as (_ & _ & _ & Hlimit).
  apply Hlimit in H. exact (proj1 H).
Defined.

(** The fix step is only ever current when every review of the workflow has
    reported in the current cycle and at least one asked for changes; and a
    later cycle than the first never goes back to the discussions or the
    implementation. *)
Theorem workflow_fix_follows_reviews (e : WorkflowExecution) (step : WorkflowStep) :
  reachable e -> current_step e = Some step ->
  (wst_kind step = WK_Fix ->
   asks_for_changes e /\
   forall review, review ∈ we_steps e -> wst_kind review = WK_Review ->
     has_result e review = true) /\
  ((1 < we_review_cycle e)%N -> wst_kind step = WK_Review \/ wst_kind step = WK_Fix).
Proof.
  intros (Hok & [Hch Hpos] & _)%reachable_ok Hcur. unfold position_ok in Hpos.
  rewrite Hcur in Hpos. destruct (wst_kind step); (split; [try done|try lia; auto]).
  intros _. destruct Hpos as [Hflag Hrep]. split; [|done].
  apply changes_in_cycle_spec; [done|]. congruence.
Qed.

(** The sample after the reviews of the first cycle, at its fix step. *)
Definition sample_fix : WorkflowExecution :=
  match run sample_initial (take 15 sample_events) with Some e => e | None => sample_initial end.

Lemma workflow_fix_follows_reviews_witness :
  current_step sample_fix = Some (own "fix" WK_Fix) /\ asks_for_changes sample_fix.
Proof.
  assert (current_step sample_fix = Some (own "fix" WK_Fix)) as Hcur by (vm_compute; reflexivity).
  assert (reachable sample_fix) as Hr.
  { exists "run", "p", (Some "t"), sample_configuration, "Build it.", "coordinator", 1%N.
    exists (take 15 sample_events). split; [apply sample_launchable|vm_compute; reflexivity]. }
  split; [exact Hcur|].
  destruct (workflow_fix_follows_reviews sample_fix (own "fix" WK_Fix) Hr Hcur) as [Hfix _].
  exact (proj1 (Hfix eq_refl)).
Defined.
