(* ===== verification/WorkflowRecords.v ===== *)
(** * Workflow records of the store stay loadable

    [workflow_records_ok] is what load-time validation demands of the workflow
    records; every store method that writes them preserves it and is a
    transaction. *)

From S2P Require Import Prelude Text Domain DomainRules StoreState Transactions JournalPreservation.
From S2P Require Import Samples Workflow WorkflowGrammar WorkflowRun WorkflowProgress.
From S2P Require Import WorkflowClaims.

Local Open Scope string_scope.
Local Open Scope list_scope.

(** ** The demands of the loader *)

Definition scope_of (e : WorkflowExecution) : string * option string :=
  (we_project_id e, we_task_id e).

Record configurations_ok (st : CurrentState) : Prop := {
  cfg_valid : forall c, c ∈ workflow_configurations st ->
    workflow_configuration_is_valid c = true;
  cfg_project : forall c, c ∈ workflow_configurations st ->
    any (fun project => p_id project == wc_project_id c) (projects st) = true;
  cfg_distinct : NoDup (wc_id <$> workflow_configurations st);
  cfg_bounded : forall p, p ∈ projects st ->
    (count (fun c => wc_project_id c == p_id p) (workflow_configurations st) <= 16)%N
}.

Definition scope_exists (st : CurrentState) (e : WorkflowExecution) : Prop :=
  any (fun project => (p_id project == we_project_id e)
         && (wc_project_id (we_configuration e) == p_id project)) (projects st) = true /\
  is_some_and (we_task_id e) (fun task_id =>
    negb (any (fun task => (t_id task == task_id) && (t_project_id task == we_project_id e))
              (tasks st))) = false.

Record executions_ok (st : CurrentState) : Prop := {
  exec_valid : forall e, e ∈ workflow_executions st -> workflow_execution_is_valid e = true;
  exec_scope : forall e, e ∈ workflow_executions st -> scope_exists st e;
  exec_distinct : NoDup (we_id <$> workflow_executions st);
  exec_one_per_scope : NoDup (scope_of <$> workflow_executions st)
}.

Lemma configurations_spec st :
  workflow_configurations_are_invalid st = false <-> configurations_ok st.
Proof.
  unfold workflow_configurations_are_invalid.
  rewrite orb_false_iff, any_with_rest_or, orb_false_iff, any_with_rest_NoDup, !any_false.
  split.
  - intros (Hb & He & Hn). split; try done.
    + intros c Hc. specialize (He c Hc). rewrite orb_false_iff, !negb_false_iff in He. tauto.
    + intros c Hc. specialize (He c Hc). rewrite orb_false_iff, !negb_false_iff in He. tauto.
    + intros p Hp. specialize (Hb p Hp). by apply N.ltb_ge in Hb.
  - intros [Hv Hp Hn Hb]. split_and!; [|intros c Hc|done].
    + intros p Hin. apply N.ltb_ge. by apply Hb.
    + by rewrite Hv, Hp.
Qed.

Lemma any_with_rest_executions l :
  any_with_rest (fun e rest =>
    any (fun candidate => (we_id candidate == we_id e) || shares_scope candidate e) rest) l = false
  <-> NoDup (we_id <$> l) /\ NoDup (scope_of <$> l).
Proof.
  induction l as [|e l IH]; simpl; [split; [split; constructor|done]|].
  rewrite orb_false_iff, IH, any_orb, orb_false_iff, !list.NoDup_cons, any_eq_false.
  assert (any (fun candidate => shares_scope candidate e) l = false <-> scope_of e ∉ scope_of <$> l)
    as ->; [|tauto].
  rewrite any_false, list_elem_of_fmap. unfold shares_scope, scope_of. split.
  - intros H (y & [= H1 H2] & Hy). specialize (H y Hy).
    by rewrite H1, H2, !bool_decide_eq_true_2 in H.
  - intros H y Hy. apply not_true_is_false. rewrite andb_true_iff, !bool_decide_eq_true.
    intros [H1 H2]. apply H. exists y. by rewrite H1, H2.
Qed.

Lemma executions_spec st :
  workflow_executions_are_invalid st = false <-> executions_ok st.
Proof.
  unfold workflow_executions_are_invalid.
  rewrite any_with_rest_or, orb_false_iff, any_with_rest_executions, any_false. split.
  - intros (He & Hn & Hs). split; try done; intros e Hin; specialize (He e Hin);
      rewrite !orb_false_iff, !negb_false_iff in He; unfold scope_exists; tauto.
  - intros [Hv Hsc Hn Hs]. split_and!; [|done|done]. intros e Hin.
    destruct (Hsc e Hin) as [H1 H2]. by rewrite Hv, H1, H2.
Qed.

Definition workflow_records_ok (st : CurrentState) : Prop := configurations_ok st /\ executions_ok st.

Lemma workflow_records_committed st : workflow_records_ok st -> workflow_records_ok (committed st).
Proof.
  unfold committed, prune_session_profiles. intros [[] []].
  destruct (session_agent_profiles st); split; split; assumption.
Qed.

(** ** The store methods, as calls *)

Inductive WorkflowStoreCall : Type :=
| Call_set_workflow_configuration (configuration : WorkflowConfiguration) (expected_revision : N)
| Call_delete_workflow_configuration (configuration_id : string) (expected_revision : N)
| Call_insert_workflow_coordinator_session (session : SessionRecord)
    (execution : WorkflowExecution)
| Call_replace_workflow_execution (expected replacement : WorkflowExecution)
| Call_cancel_workflow_execution (execution_id : string) (expected_revision : N).

Definition exec_workflow_call (call : WorkflowStoreCall) : StoreM unit :=
  match call with
  | Call_set_workflow_configuration configuration revision =>
      erase (set_workflow_configuration configuration revision)
  | Call_delete_workflow_configuration id revision =>
      erase (delete_workflow_configuration id revision)
  | Call_insert_workflow_coordinator_session session execution =>
      erase (insert_workflow_coordinator_session session execution)
  | Call_replace_workflow_execution expected replacement =>
      erase (replace_workflow_execution expected replacement)
  | Call_cancel_workflow_execution id revision => erase (cancel_workflow_execution id revision)
  end.

Lemma exec_workflow_call_transaction call s : transaction s (exec_workflow_call call s).
Proof.
  destruct call; cbn [exec_workflow_call]; apply transaction_erase;
    unfold set_workflow_configuration, delete_workflow_configuration,
      insert_workflow_coordinator_session, replace_workflow_execution, cancel_workflow_execution;
    tx.
Qed.

(** ** Changes of the records *)

Lemma configurations_ok_unchanged st st' :
  configurations_ok st -> workflow_configurations st' = workflow_configurations st ->
  projects st' = projects st -> configurations_ok st'.
Proof. intros [] Hc Hp. split; rewrite ?Hc, ?Hp; done. Qed.

Lemma executions_ok_unchanged st st' :
  executions_ok st -> workflow_executions st' = workflow_executions st ->
  projects st' = projects st -> tasks st' = tasks st -> executions_ok st'.
Proof.
  intros [Hv Hs Hn Ho] He Hp Ht. split; rewrite ?He; try done.
  intros e Hin. unfold scope_exists. rewrite Hp, Ht. by apply Hs.
Qed.

Lemma count_sublist {A} (p : A -> bool) l k : l `sublist_of` k -> (count p l <= count p k)%N.
Proof. induction 1; simpl; [done| |]; destruct (p _); lia. Qed.

Lemma configurations_ok_sublist st st' :
  configurations_ok st -> workflow_configurations st' `sublist_of` workflow_configurations st ->
  projects st' = projects st -> configurations_ok st'.
Proof.
  intros [Hv Hp Hn Hb] Hsub Hpr. split; rewrite ?Hpr.
  - intros c Hc. apply Hv. by eapply elem_of_sublist.
  - intros c Hc. apply Hp. by eapply elem_of_sublist.
  - eapply sublist_NoDup; [exact Hn|]. by apply fmap_sublist.
  - intros p Hin. etransitivity; [by apply count_sublist|by apply Hb].
Qed.

Lemma executions_ok_sublist st st' :
  executions_ok st -> workflow_executions st' `sublist_of` workflow_executions st ->
  projects st' = projects st -> tasks st' = tasks st -> executions_ok st'.
Proof.
  intros [Hv Hs Hn Ho] Hsub Hp Ht. split.
  - intros e He. apply Hv. by eapply elem_of_sublist.
  - intros e He. unfold scope_exists. rewrite Hp, Ht. apply Hs. by eapply elem_of_sublist.
  - eapply sublist_NoDup; [exact Hn|]. by apply fmap_sublist.
  - eapply sublist_NoDup; [exact Ho|]. by apply fmap_sublist.
Qed.

Lemma count_insert_same {A} (p : A -> bool) l i x y :
  l !! i = Some x -> p y = p x -> count p (<[i := y]> l) = count p l.
Proof.
  revert i. induction l as [|z l IH]; intros [|i]; simpl; intros Hi Hp; try done.
  - injection Hi as ->. by rewrite Hp.
  - by rewrite (IH i).
Qed.

Lemma NoDup_snoc {A} (l : list A) x : NoDup l -> x ∉ l -> NoDup (l ++ [x]).
Proof.
  intros Hn Hx. apply list.NoDup_app. split_and!; [done| |apply NoDup_singleton].
  by intros y Hy ->%list_elem_of_singleton.
Qed.

Lemma configurations_ok_set st st' c :
  configurations_ok st -> workflow_configuration_is_valid c = true ->
  any (fun project => p_id project == wc_project_id c) (projects st) = true ->
  projects st' = projects st ->
  (exists i old, workflow_configurations st !! i = Some old /\ wc_id old = wc_id c /\
     wc_project_id old = wc_project_id c /\
     workflow_configurations st' = <[i := c]> (workflow_configurations st)) \/
  (wc_id c ∉ wc_id <$> workflow_configurations st /\
   (count (fun current => wc_project_id current == wc_project_id c)
      (workflow_configurations st) < 16)%N /\
   workflow_configurations st' = workflow_configurations st ++ [c]) ->
  configurations_ok st'.
Proof.
  intros [Hv Hp Hn Hb] Hc Hcp Hpr [(i & old & Hi & Hid & Hop & Heq)|(Hnew & Hlt & Heq)];
    split; rewrite ?Heq, ?Hpr.
  - intros x [->|Hx]%elem_of_insert_list; auto.
  - intros x [->|Hx]%elem_of_insert_list; auto.
  - by rewrite (fmap_insert_same wc_id _ i old).
  - intros p Hin. rewrite (count_insert_same _ _ i old); [by apply Hb|done|by rewrite Hop].
  - intros x [Hx|Hx]%elem_of_app; [auto|]. by apply list_elem_of_singleton in Hx as ->.
  - intros x [Hx|Hx]%elem_of_app; [auto|]. by apply list_elem_of_singleton in Hx as ->.
  - rewrite fmap_app. by apply NoDup_snoc.
  - intros p Hin. rewrite count_app. simpl. destruct (decide (wc_project_id c = p_id p)) as [He|He].
    + rewrite bool_decide_eq_true_2 by done. rewrite He in Hlt. lia.
    + rewrite bool_decide_eq_false_2 by done. specialize (Hb p Hin). lia.
Qed.

Lemma executions_ok_replace st st' i old e :
  executions_ok st -> workflow_executions st !! i = Some old ->
  workflow_execution_is_valid e = true -> we_id e = we_id old -> scope_of e = scope_of old ->
  we_configuration e = we_configuration old ->
  workflow_executions st' = <[i := e]> (workflow_executions st) ->
  projects st' = projects st -> tasks st' = tasks st -> executions_ok st'.
Proof.
  intros [Hv Hs Hn Ho] Hi Hve Hid Hsc Hcfg Heq Hp Ht.
  assert (old ∈ workflow_executions st) as Hold by (by eapply list_elem_of_lookup_2).
  split; rewrite ?Heq.
  - intros x [->|Hx]%elem_of_insert_list; auto.
  - unfold scope_exists. rewrite Hp, Ht. intros x [->|Hx]%elem_of_insert_list; [|by apply Hs].
    unfold scope_of in Hsc. injection Hsc as -> ->. rewrite Hcfg. by apply Hs.
  - by rewrite (fmap_insert_same we_id _ i old).
  - by rewrite (fmap_insert_same scope_of _ i old).
Qed.

Lemma executions_ok_start st st' e :
  executions_ok st -> workflow_execution_is_valid e = true -> scope_exists st e ->
  we_id e ∉ we_id <$> retain (fun current => negb (shares_scope current e))
                        (workflow_executions st) ->
  workflow_executions st' =
    retain (fun current => negb (shares_scope current e)) (workflow_executions st) ++ [e] ->
  projects st' = projects st -> tasks st' = tasks st -> executions_ok st'.
Proof.
  intros Hok Hve Hse Hid Heq Hp Ht.
  set (kept := retain _ _) in *.
  assert (kept `sublist_of` workflow_executions st) as Hsub by apply retain_sublist.
  destruct Hok as [Hv Hs Hn Ho]. split; rewrite ?Heq.
  - intros x [Hx|Hx]%elem_of_app; [apply Hv; by eapply elem_of_sublist|].
    by apply list_elem_of_singleton in Hx as ->.
  - unfold scope_exists in *. rewrite Hp, Ht.
    intros x [Hx|Hx]%elem_of_app; [apply Hs; by eapply elem_of_sublist|].
    by apply list_elem_of_singleton in Hx as ->.
  - rewrite fmap_app. apply NoDup_snoc; [|done].
    eapply sublist_NoDup; [exact Hn|]. by apply fmap_sublist.
  - rewrite fmap_app. apply NoDup_snoc.
    + eapply sublist_NoDup; [exact Ho|]. by apply fmap_sublist.
    + intros (x & [= H1 H2] & Hx)%list_elem_of_fmap.
      apply elem_of_retain in Hx as [_ Hx]. unfold shares_scope in Hx.
      by rewrite H1, H2, !bool_decide_eq_true_2 in Hx.
Qed.

(** ** The methods *)

Ltac workflow_exit Hok :=
  lazymatch goal with
  | |- keeps _ (Ok _, _) => exact Hok
  | |- keeps _ (Err _, _) => exact Hok
  | |- keeps ?I (install _ _ _ _) =>
      apply (install_preserves I); [ apply workflow_records_committed | exact Hok | ]
  | |- keeps ?I (install_revision _ _ _) =>
      apply (install_revision_preserves I); [ apply workflow_records_committed | exact Hok | ]
  end.
Ltac workflow_keep Hok := repeat first [workflow_exit Hok | run_step].

Lemma set_configuration_keeps s configuration expected_revision :
  workflow_records_ok (state s) ->
  keeps workflow_records_ok (set_workflow_configuration configuration expected_revision s).
Proof.
  intros Hok. unfold set_workflow_configuration. workflow_keep Hok.
  destruct Hok as [Hc He]. split; [|by eapply executions_ok_unchanged].
  rewrite !orb_false_iff, !negb_false_iff in Hcode0.
  destruct Hcode0 as [[[Hv Hp] Hb] Hsame].
  apply (configurations_ok_set (state s) _ configuration); try done. simpl.
  destruct (position _ _) as [[i old]|] eqn:Hpos; [left|right].
  - apply position_Some in Hpos as [Hi Hid]. apply bool_decide_eq_true in Hid.
    simpl in Hsame. apply negb_false_iff, bool_decide_eq_true in Hsame. by exists i, old.
  - split_and!; [| |done].
    + apply any_eq_false, any_false, find_first_None. by rewrite position_find, Hpos.
    + simpl in Hb. by apply N.leb_gt in Hb.
Qed.

Lemma delete_configuration_keeps s configuration_id expected_revision :
  workflow_records_ok (state s) ->
  keeps workflow_records_ok (delete_workflow_configuration configuration_id expected_revision s).
Proof.
  intros Hok. unfold delete_workflow_configuration. workflow_keep Hok.
  destruct Hok as [Hc He]. split; [|by eapply executions_ok_unchanged].
  apply (configurations_ok_sublist (state s)); try done. apply sublist_delete.
Qed.

Lemma cancel_execution_keeps s execution_id expected_revision :
  workflow_records_ok (state s) ->
  keeps workflow_records_ok (cancel_workflow_execution execution_id expected_revision s).
Proof.
  intros Hok. unfold cancel_workflow_execution. workflow_keep Hok.
  destruct Hok as [Hc He]. split; [by eapply configurations_ok_unchanged|].
  apply (executions_ok_sublist (state s)); try done. apply sublist_delete.
Qed.

Lemma replace_execution_keeps s expected replacement :
  workflow_records_ok (state s) ->
  keeps workflow_records_ok (replace_workflow_execution expected replacement s).
Proof.
  intros Hok. unfold replace_workflow_execution. workflow_keep Hok.
  destruct Hok as [Hc He]. split; [by eapply configurations_ok_unchanged|].
  rewrite !orb_false_iff, !negb_false_iff, !bool_decide_eq_true in Hcode.
  destruct Hcode as (((((((Hv & Hid) & Ht) & Hp) & Hcfg) & _) & _) & _).
  apply position_Some in Hcode0 as [Hi _].
  match goal with H : (_ != expected) = false |- _ =>
    apply negb_false_iff, bool_decide_eq_true in H; subst end.
  eapply (executions_ok_replace (state s)); try done. unfold scope_of. by rewrite Ht, Hp.
Qed.

(** A new execution under an id no other scope's execution has. *)
Definition fresh_execution (st : CurrentState) (execution : WorkflowExecution) : bool :=
  negb (any (fun current => (we_id current == we_id execution)
               && negb (shares_scope current execution)) (workflow_executions st)).

Lemma validate_coordinator_Ok st session execution preference :
  validate_workflow_coordinator_session st session execution = Ok preference ->
  workflow_execution_is_valid execution = true /\ scope_exists st execution /\
  s_id session = we_coordinator_session_id execution /\
  (forall current, current ∈ workflow_executions st -> scope_of current = scope_of execution ->
     we_phase current = WP_Completed).
Proof.
  unfold validate_workflow_coordinator_session. destruct (_ || any _ (workflow_executions st)) eqn:Hg; [done|].
  cbv zeta. match goal with |- (if negb ?b then _ else _) = _ -> _ => destruct b eqn:Hs end;
    [|done]. intros _.
  rewrite !orb_false_iff, !negb_false_iff, !bool_decide_eq_true in Hg.
  destruct Hg as ((((((_ & Hid) & _) & _) & Hv) & _) & Hone).
  apply andb_true_iff in Hs as [Hp Ht]. split_and!; try done.
  - pose proof (proj1 (execution_ok_spec execution) Hv) as [(_ & _ & _ & _ & Hcp & _) _ _ _ _ _ _ _].
    split.
    + apply any_true in Hp as (p & Hin & Hp). apply any_true. exists p. split; [done|].
      apply bool_decide_eq_true in Hp. by rewrite Hcp, Hp, !bool_decide_eq_true_2.
    + destruct (we_task_id execution) as [t|]; [|done]. simpl in *. by rewrite Ht.
  - intros current Hin Hsc. rewrite any_false in Hone. specialize (Hone current Hin).
    unfold scope_of in Hsc. injection Hsc as H1 H2. unfold shares_scope in Hone.
    rewrite H1, H2, !bool_decide_eq_true_2 in Hone by done. simpl in Hone.
    by apply negb_false_iff, bool_decide_eq_true in Hone.
Qed.

Lemma insert_coordinator_keeps s session execution :
  workflow_records_ok (state s) -> fresh_execution (state s) execution = true ->
  keeps workflow_records_ok (insert_workflow_coordinator_session session execution s).
Proof.
  intros Hok Hfresh. unfold insert_workflow_coordinator_session. workflow_keep Hok.
  destruct Hok as [Hc He]. split; [by eapply configurations_ok_unchanged|].
  apply validate_coordinator_Ok in Hcode as (Hv & Hs & _).
  apply (executions_ok_start (state s) _ execution); try done.
  intros (x & Hid & [Hx Hns]%elem_of_retain)%list_elem_of_fmap.
  unfold fresh_execution in Hfresh. apply negb_true_iff in Hfresh. rewrite any_false in Hfresh.
  specialize (Hfresh x Hx). by rewrite Hid, Hns, bool_decide_eq_true_2 in Hfresh.
Qed.

(** ** Histories *)

(** The ids of new executions are fresh when they are inserted. *)
Definition call_is_fresh (st : CurrentState) (call : WorkflowStoreCall) : bool :=
  match call with
  | Call_insert_workflow_coordinator_session _ execution => fresh_execution st execution
  | _ => true
  end.

Fixpoint exec_workflow_calls (calls : list WorkflowStoreCall) (s : Store) : Store :=
  match calls with
  | [] => s
  | call :: rest => exec_workflow_calls rest (exec_workflow_call call s).2
  end.

Fixpoint calls_are_fresh (calls : list WorkflowStoreCall) (s : Store) : bool :=
  match calls with
  | [] => true
  | call :: rest =>
      call_is_fresh (state s) call && calls_are_fresh rest (exec_workflow_call call s).2
  end.

Lemma exec_workflow_call_keeps s call :
  workflow_records_ok (state s) -> call_is_fresh (state s) call = true ->
  keeps workflow_records_ok (exec_workflow_call call s).
Proof.
  intros Hok Hf. destruct call; cbn [exec_workflow_call]; apply keeps_erase.
  - by apply set_configuration_keeps.
  - by apply delete_configuration_keeps.
  - by apply insert_coordinator_keeps.
  - by apply replace_execution_keeps.
  - by apply cancel_execution_keeps.
Qed.

(** Sample: create a configuration, launch its run, record a delegation, cancel
    the run, delete the configuration; two writes fail on the way. *)
Definition sample_workflow_session : SessionRecord :=
  sample_session <| s_id := "coordinator" |>
                 <| s_launch_selection := sample_selection |>.

(** ** Claims *)

(** C17: along any history of the store's workflow methods, under any pattern of
    failed writes, memory and file agree and load-time validation keeps
    accepting the workflow configurations and executions: valid records of
    existing Projects and Tasks, at most sixteen configurations per Project and
    one execution per scope. *)
Theorem workflow_history_stays_loadable (calls : list WorkflowStoreCall) (s : Store) :
  coherent s ->
  workflow_configurations_are_invalid (state s) = false ->
  workflow_executions_are_invalid (state s) = false ->
  calls_are_fresh calls s = true ->
  let s' := exec_workflow_calls calls s in
  coherent s' /\ workflow_configurations_are_invalid (disk s') = false /\
  workflow_executions_are_invalid (disk s') = false.
Proof.
  rewrite configurations_spec, executions_spec. intros Hco Hc He.
  assert (workflow_records_ok (state s)) as Hok by done. clear Hc He.
  revert s Hco Hok. induction calls as [|call calls IH]; intros s Hco Hok; cbn.
  - intros _. rewrite configurations_spec, executions_spec, <- Hco. by destruct Hok.
  - rewrite andb_true_iff. intros [Hf Hrest]. apply IH; [| |done].
    + eapply transaction_coherent; [apply exec_workflow_call_transaction|done].
    + by apply exec_workflow_call_keeps.
Qed.

Definition sample_workflow_calls : list WorkflowStoreCall :=
  [ Call_set_workflow_configuration sample_configuration 0;
    Call_set_workflow_configuration sample_configuration 0;
    Call_insert_workflow_coordinator_session sample_workflow_session
      (sample_initial <| we_task_id := Some "a" |>);
    Call_cancel_workflow_execution "run" 2;
    Call_delete_workflow_configuration "wf" 3 ].

Definition sample_workflow_store : Store :=
  MkStore sample_state 0 sample_state [PersistFailed "disk full"; Persisted 10; Persisted 11].

Lemma workflow_history_stays_loadable_witness :
  (we_id <$> workflow_executions
     (state (exec_workflow_calls (take 3 sample_workflow_calls) sample_workflow_store)))
    = ["run"] /\
  workflow_executions_are_invalid
    (disk (exec_workflow_calls sample_workflow_calls sample_workflow_store)) = false.
Proof.
  split; [vm_compute; reflexivity|].
  exact (proj2 (proj2 (workflow_history_stays_loadable sample_workflow_calls
    sample_workflow_store eq_refl ltac:(vm_compute; reflexivity) ltac:(vm_compute; reflexivity)
    ltac:(vm_compute; reflexivity)))).
Defined.
