(* ===== verification/WorkflowRuntime.v ===== *)
(** * The runtime methods refine the workflow machine

    Whatever the other parts of the runtime answer, each workflow method of
    [CoreRuntime] leaves the stored executions alone or replaces exactly one of
    them by what one event of the machine makes of it; and on executions a run
    can reach, the store has no reason to refuse that write. *)

From stdpp Require Import gmap.
From S2P Require Import Prelude Text Domain DomainRules StoreState Transactions Samples Workflow.
From S2P Require Import WorkflowEngine WorkflowGrammar WorkflowRun WorkflowProgress WorkflowClaims.

Local Open Scope string_scope.
Local Open Scope list_scope.

(** ** Writing an execution back *)

Definition stored (s : Store) : list WorkflowExecution := workflow_executions (state s).

Lemma committed_executions st : workflow_executions (committed st) = workflow_executions st.
Proof.
  unfold committed, prune_session_profiles. by destruct (session_agent_profiles st).
Qed.

Definition replaces (expected replacement : WorkflowExecution) (s : Store)
    (r : result StoreError N * Store) : Prop :=
  stored r.2 = stored s \/
  exists i, stored s !! i = Some expected /\ stored r.2 = <[i := replacement]> (stored s).

Lemma replace_effect expected replacement s :
  replaces expected replacement s (replace_workflow_execution expected replacement s).
Proof.
  unfold replace_workflow_execution. repeat run_step; try (by left).
  rewrite install_revision_run.
  match goal with H : (_ != expected) = false |- _ =>
    apply negb_false_iff, bool_decide_eq_true in H; subst end.
  match goal with H : position _ _ = Some (?n, _) |- _ =>
    apply position_Some in H as [Hi _];
    destruct (io s) as [|[size|message] rest]; [right..|by left]; exists n; (split; [done|]);
    unfold stored; cbn [snd state]; by rewrite committed_executions
  end.
Qed.

(** The only thing the store refuses besides I/O errors is an execution that
    is not valid, not the stored one, or renamed. *)
Lemma replace_accepted expected replacement s i :
  workflow_execution_is_valid replacement = true -> same_run expected replacement ->
  position (fun e => we_id e == we_id expected) (stored s) = Some (i, expected) ->
  (exists revision, (replace_workflow_execution expected replacement s).1 = Ok revision) \/
  (exists message, (replace_workflow_execution expected replacement s).1 = Err (Io message)).
Proof.
  intros Hv [H1 H2 H3 H4 H5 H6 H7] Hpos. unfold stored in Hpos.
  unfold replace_workflow_execution, refuse_if, bind, get_state, gets.
  rewrite Hv, H1, H2, H3, H4, H5, H6, H7, !bool_decide_eq_true_2 by done. cbn [negb orb ret].
  unfold ret. rewrite Hpos, bool_decide_eq_true_2 by done. cbn [negb].
  destruct (bool_decide (replacement = expected)); [left; by eexists|].
  rewrite install_revision_run. destruct (io s) as [|[size|message] rest];
    [left; by eexists|left; by eexists|right; by eexists].
Qed.

(** ** One method, at most one event *)

Definition refines {A} (now : N) (rt : CoreRuntime) (r : result CoreError A * CoreRuntime) : Prop :=
  executions r.2 = executions rt \/
  exists i e event e', executions rt !! i = Some e /\ apply_event e now event = Some e' /\
    executions r.2 = <[i := e']> (executions rt).

(** Code that does not touch the stored executions. *)
Definition leaves_executions {A} (m : CoreM A) : Prop :=
  forall rt, executions (m rt).2 = executions rt.

Lemma leaves_ret {A} (a : A) : leaves_executions (ret a).
Proof. done. Qed.

Lemma leaves_bind {A B} (m : CoreM A) (k : A -> CoreM B) :
  leaves_executions m -> (forall a, leaves_executions (k a)) -> leaves_executions (bind m k).
Proof.
  intros Hm Hk rt. unfold bind. specialize (Hm rt). destruct (m rt) as [[a|e] rt'] eqn:E; [|done].
  simpl in *. rewrite Hk. done.
Qed.

(** The write at the end of a method. *)
Lemma write_refines {B} now expected replacement event (k : N -> CoreM B) rt :
  apply_event expected now event = Some replacement -> (forall a, leaves_executions (k a)) ->
  refines now rt (bind (on_store (replace_workflow_execution expected replacement)) k rt).
Proof.
  intros Happ Hk. unfold bind, on_store.
  pose proof (replace_effect expected replacement (rt_store rt)) as Heff.
  destruct (replace_workflow_execution expected replacement (rt_store rt)) as [[a|e] s'] eqn:E.
  - assert (executions (k a (rt <| rt_store := s' |>)).2 = stored s') as Hex.
    { rewrite Hk. done. }
    destruct Heff as [Hs|(i & Hi & Hs)]; simpl in Hs.
    + left. rewrite Hex. done.
    + right. exists i, expected, event, replacement. by rewrite Hex.
  - destruct Heff as [Hs|(i & Hi & Hs)]; simpl in Hs.
    + left. done.
    + right. exists i, expected, event, replacement. done.
Qed.

Ltac core_step :=
  lazymatch goal with
  | |- ?P (bind (lift ?r) ?k ?rt) =>
      let E := fresh "Hcode" in destruct r eqn:E;
      [match goal with |- P (bind (lift (Ok ?a)) _ _) => change (P (k a rt)) end; cbv beta
      |by left]
  | |- ?P (bind (require ?o ?e) ?k ?rt) =>
      let E := fresh "Hcode" in destruct o eqn:E;
      [match goal with |- P (bind (require (Some ?a) _) _ _) => change (P (k a rt)) end; cbv beta
      |by left]
  | |- ?P (bind (core_refuse_if ?b ?e) ?k ?rt) =>
      let E := fresh "Hcode" in destruct b eqn:E; [by left|change (P (k tt rt)); cbv beta]
  | |- ?P (bind (bind ?m ?k) ?k' ?rt) => rewrite (bind_bind m k k' rt)
  | |- ?P (bind (ret ?a) ?k ?rt) => change (P (k a rt)); cbv beta
  | |- ?P (bind (match ?x with _ => _ end) ?k ?rt) =>
      let E := fresh "Hcode" in destruct x eqn:E
  | |- ?P (bind (gets ?f) ?k ?rt) => change (P (k (f rt) rt)); cbv beta
  | |- ?P (ret ?a ?rt) => by left
  | |- ?P (match ?x with _ => _ end ?rt) => let E := fresh "Hcode" in destruct x eqn:E
  end.

Lemma reply_refines request_id now rt :
  refines now rt (complete_workflow_helper_reply_delivery request_id now rt).
Proof.
  unfold complete_workflow_helper_reply_delivery. repeat core_step.
  apply (write_refines now _ _ (ReplyDelivered request_id)); [|intros ?; apply leaves_ret].
  apply find_first_Some in Hcode as [_ Ha]. simpl. by rewrite Ha.
Qed.

Lemma prompt_refines coordinator delivered now rt :
  refines now rt (complete_workflow_coordinator_prompt_delivery coordinator delivered now rt).
Proof.
  unfold complete_workflow_coordinator_prompt_delivery. repeat core_step.
  apply (write_refines now _ _ PromptDelivered); [|intros ?; apply leaves_ret].
  apply find_first_Some in Hcode as [_ Ha]. simpl. unfold awaits_prompt in *.
  rewrite !andb_true_iff in Ha. destruct Ha as [[_ H1] H2].
  by rewrite H1, H2, bool_decide_eq_true_2.
Qed.

(** The guards of [complete_workflow_delegate] are those of the event. *)
Lemma delegated_applies e step_id step request_id helper now session_id :
  delegated_step e step_id = Some step ->
  (we_coordinator_session_id e != session_id) || (we_phase e != WP_AwaitingCoordinator)
    || we_coordinator_prompt_pending e = false ->
  match wst_reuse_step_id step with
  | Some source_id => exists source, find_participant (we_participants e) source_id = Some source /\
      (wp_helper_session_id source != helper) = false
  | None => True
  end ->
  is_some_and (find_participant (we_participants e) (wst_id step)) (fun participant =>
    wp_helper_session_id participant != helper) = false ->
  apply_event e now (Delegated step_id request_id helper)
  = Some (delegate_step e step request_id helper now).
Proof.
  intros Hd Hg Hr Hp. simpl. rewrite Hd.
  rewrite !orb_false_iff, !negb_false_iff in Hg. destruct Hg as [[_ Hph] Hpend].
  rewrite Hph, Hpend. unfold helper_matches.
  assert (is_none_or (find_participant (we_participants e) (wst_id step)) (fun participant =>
    wp_helper_session_id participant == helper) = true) as ->.
  { destruct (find_participant _ _); [|done]. simpl in *. by apply negb_false_iff in Hp. }
  destruct (wst_reuse_step_id step) as [source_id|]; [|done].
  destruct Hr as (source & Hf & Hs). simpl. rewrite Hf. simpl.
  apply negb_false_iff in Hs. by rewrite Hs.
Qed.

Lemma delegate_refines authenticate token commit now rt :
  refines now rt (complete_workflow_delegate authenticate token commit now rt).
Proof.
  unfold complete_workflow_delegate. repeat core_step;
    (eapply write_refines; [|intros ?; apply leaves_ret];
     eapply delegated_applies; [eassumption|eassumption| |eassumption]);
    match goal with H : wst_reuse_step_id _ = _ |- _ => rewrite H end; eauto.
Qed.

Section services.
Context {Prompt PlanOutcome : Type}.
Context (authenticate : string -> result CoreError string).
Context (plan_ask_to : bool -> string -> AskToInput -> CoreM PlanOutcome).
Context (outcome_request_id : PlanOutcome -> option string).
Context (workflow_agent_profile : CurrentState -> WorkflowStep
                                  -> result CoreError (option PersonalAgent)).
Context (compose_workflow_step_prompt : CurrentState -> WorkflowExecution
                                        -> result CoreError Prompt).
Context (submit_generated_terminal_input : string -> Prompt -> CoreM unit).

(** The services write no workflow execution themselves. *)
Context (Hplan : forall parallel token input,
           leaves_executions (plan_ask_to parallel token input)).
Context (Hsubmit : forall session_id prompt,
           leaves_executions (submit_generated_terminal_input session_id prompt)).

Lemma reported_applies e step outcome ro summary now :
  str_is_empty (trim summary) || (workflow_step_result_summary_max_bytes <? len (trim summary))%N
    || contains_byte 0 (trim summary) = false ->
  step_to_complete e = Some step -> negb (completion_is_expected e step outcome) = false ->
  parse_outcome outcome = Some ro ->
  apply_event e now (StepReported outcome summary)
  = Some (report_step e step outcome ro (trim summary) now).1.
Proof.
  intros Hs Hstep Hexp Hp. unfold apply_event. rewrite Hs, Hstep, Hp.
  apply negb_false_iff in Hexp. by rewrite Hexp.
Qed.

Lemma report_refines token outcome summary now rt :
  refines now rt (complete_workflow_step authenticate compose_workflow_step_prompt
                    submit_generated_terminal_input token outcome summary now rt).
Proof.
  unfold complete_workflow_step. repeat core_step;
    match goal with H : report_step _ _ _ _ _ _ = (?e', _) |- _ =>
      apply (f_equal fst) in H; cbn [fst] in H; subst e' end;
    (eapply write_refines; [by apply reported_applies|intros ?]).
  - apply leaves_bind; [apply Hsubmit|intros ?; apply leaves_ret].
  - apply leaves_bind; intros; apply leaves_ret.
Qed.

Ltac leaves :=
  repeat first [ apply Hplan | apply leaves_bind; [|intros ?]
               | match goal with |- leaves_executions (match ?x with _ => _ end) => destruct x end
               | intros ?; reflexivity
               | intros ?; unfold require, lift, core_refuse_if, ok_or; by repeat case_match ].

Lemma plan_refines token message now rt :
  refines now rt (plan_workflow_delegate authenticate plan_ask_to outcome_request_id
                    workflow_agent_profile token message now rt).
Proof.
  unfold plan_workflow_delegate. do 3 core_step. unfold retry_lost_discussion. core_step.
  - repeat core_step. apply (write_refines now _ _ DiscussionRetried).
    + simpl. by rewrite Hcode1.
    + intros ?. leaves.
  - core_step. left.
    match goal with |- executions (?m rt).2 = _ => enough (leaves_executions m) by done end.
    leaves.
Qed.

(** The workflow methods of [CoreRuntime], as calls. *)
Inductive WorkflowCall : Type :=
| CallPlanDelegate (token message : string)
| CallCompleteDelegate (token : string) (commit : WorkflowDelegateCommit)
| CallCompleteStep (token outcome summary : string)
| CallReplyDelivered (request_id : string)
| CallPromptDelivered (coordinator_session_id : string) (delivered : option string).

Definition core_erase {A} (m : CoreM A) : CoreM unit := let! _ := m in ret tt.

Definition exec_runtime_call (call : WorkflowCall) (now : N) : CoreM unit :=
  match call with
  | CallPlanDelegate token message =>
      core_erase (plan_workflow_delegate authenticate plan_ask_to outcome_request_id
                    workflow_agent_profile token message now)
  | CallCompleteDelegate token commit =>
      core_erase (complete_workflow_delegate authenticate token commit now)
  | CallCompleteStep token outcome summary =>
      core_erase (complete_workflow_step authenticate compose_workflow_step_prompt
                    submit_generated_terminal_input token outcome summary now)
  | CallReplyDelivered request_id =>
      core_erase (complete_workflow_helper_reply_delivery request_id now)
  | CallPromptDelivered coordinator delivered =>
      core_erase (complete_workflow_coordinator_prompt_delivery coordinator delivered now)
  end.

Lemma refines_erase {A} now rt (m : CoreM A) :
  refines now rt (m rt) -> refines now rt (core_erase m rt).
Proof. unfold refines, core_erase, bind, ret. by destruct (m rt) as [[] ?]. Qed.

End services.

(** A runtime whose coordinator just got the prompt of its second cycle, with
    services that answer and write nothing. *)
Definition sample_runtime : CoreRuntime :=
  MkCoreRuntime (store_of (sample_state <| workflow_executions := [sample_middle] |>)) ∅.
Definition sample_call : WorkflowCall :=
  CallPromptDelivered "coordinator" (Some "builtin.agent.task-workflow").
Definition sample_exec (call : WorkflowCall) (now : N) : CoreM unit :=
  exec_runtime_call (fun _ => Ok "coordinator") (fun _ _ _ => ret tt) (fun _ => None)
    (fun _ _ => Ok None) (fun _ _ => Ok tt) (fun _ _ => ret tt) call now.


Lemma event_same_run e now event e' :
  execution_ok e -> progress_ok e -> admissible e now event = true ->
  apply_event e now event = Some e' -> same_run e e'.
Proof.
  intros Hok Hpg Hadm Happ. destruct event as [| | | |outcome summary].
  1-4: apply same_place_run; eapply other_event_same_place; [|exact Happ]; done.
  destruct (report_event_inv e outcome summary now e' Hok Hpg Hadm Happ)
    as (step & ro & current & _ & _ & _ & _ & _ & _ & _ & _ & Hres).
  transitivity (recorded e step outcome ro (trim summary) now).
  { rewrite recorded_eq. by split. }
  destruct Hres; try (by split). rewrite upsert_step_result_eq. by split.
Qed.

(** When an execution of a run is the stored one, the store accepts what any
    admissible event makes of it: the write succeeds or fails in the file
    system, and is never refused. *)
Theorem workflow_writes_are_accepted (e e' : WorkflowExecution) (now : N) (event : WorkflowEvent)
    (s : Store) (i : nat) :
  reachable e -> admissible e now event = true -> apply_event e now event = Some e' ->
  position (fun execution => we_id execution == we_id e) (workflow_executions (state s))
    = Some (i, e) ->
  (exists revision, (replace_workflow_execution e e' s).1 = Ok revision) \/
  (exists message, (replace_workflow_execution e e' s).1 = Err (Io message)).
Proof.
  intros (Hok & Hpg & _)%reachable_ok Hadm Happ Hpos.
  destruct (event_preserves e now event e' Hok Hpg Hadm Happ) as [Hok' _].
  apply (replace_accepted e e' s i); [by apply execution_ok_spec| |done].
  by eapply event_same_run.
Qed.

Lemma workflow_writes_are_accepted_witness :
  let e' := confirm_prompt sample_middle 20 in
  (exists revision,
     (replace_workflow_execution sample_middle e' (rt_store sample_runtime)).1 = Ok revision) \/
  (exists message,
     (replace_workflow_execution sample_middle e' (rt_store sample_runtime)).1
       = Err (Io message)).
Proof.
  apply (workflow_writes_are_accepted sample_middle _ 20 PromptDelivered _ 0
    sample_middle_reachable); vm_compute; reflexivity.
Defined.
