(* ===== verification/DeliveryRuntime.v ===== *)
(** * Generated terminal input: the delivery record

    [src/modules/agent-runtime/src/delivery.rs], the part that runs inside the
    runtime: one current delivery per Session, which pastes a generated prompt
    into an Agent's terminal, presses Enter and waits until the provider
    reports the new turn.  The worker thread of a delivery is in
    [DeliveryWorker].

    A delivery and its worker share three atomic flags and a channel.  They
    live in [dr_cells], one entry per delivery ever started; the delivery and
    its worker hold the index of their entry ([Arc::clone]). *)

From stdpp Require Import gmap.
From S2P Require Import Prelude Text.

Local Open Scope string_scope.
Local Open Scope list_scope.

(** ** Constants *)

Definition max_runtime_deliveries : nat := 256.
Definition write_receipt_timeout : N := 2000.
Definition output_activity_settlement_quiet : N := 160.
Definition output_activity_settlement_timeout : N := 3000.
Definition composer_render_settlement_quiet : N := 1500.
Definition composer_render_settlement_timeout : N := 10000.
Definition composer_ready_timeout : N := 20000.
Definition late_settlement_timeout : N := 120000.
Definition late_settlement_poll : N := 3000.
Definition protocol_reply_settlement_timeout : N := 125.
Definition max_protocol_reply_settlement_waits : nat := 8.
Definition provider_ack_timeout : N := 5000.
Definition provider_ack_after_retry_timeout : N := 5000.
Definition persistent_wake_submit_window : N := 120000.
Definition persistent_wake_template : string := "builtin.assistant.wake".

(** ** What the terminal reports *)

Record UserInputActivitySnapshot : Type := MkUserInputActivitySnapshot {
  ua_sequence : N;
  ua_mutation_sequence : N
}.
#[export] Instance UserInputActivitySnapshot_eq_dec : EqDecision UserInputActivitySnapshot.
Proof. solve_decision. Defined.

Record OutputActivityDiagnostics : Type := MkOutputActivityDiagnostics {
  oa_output_chunks : N;
  oa_synchronized_frames : N;
  oa_composer_renders : N;
  oa_completed_composer_frames : N;
  oa_composer_surface_frames : N;
  oa_composer_cursor_moved : bool
}.
#[export] Instance OutputActivityDiagnostics_eq_dec : EqDecision OutputActivityDiagnostics.
Proof. solve_decision. Defined.
Definition output_activity_default : OutputActivityDiagnostics :=
  MkOutputActivityDiagnostics 0 0 0 0 0 false.

Inductive OutputSettlementEvidence : Type :=
| OSE_Quiescence | OSE_SynchronizedFrame | OSE_ComposerRenderQuiescence
| OSE_ComposerCursorMovement | OSE_ComposerSurfaceStability.
#[export] Instance OutputSettlementEvidence_eq_dec : EqDecision OutputSettlementEvidence.
Proof. solve_decision. Defined.

Inductive OutputSettlementFailure : Type :=
| OSF_TimedOut | OSF_TerminalClosed | OSF_TrackerUnavailable | OSF_InvalidWindow.
#[export] Instance OutputSettlementFailure_eq_dec : EqDecision OutputSettlementFailure.
Proof. solve_decision. Defined.

Record InputReadinessFacts : Type := MkInputReadinessFacts {
  rf_sequence : N;
  rf_bracketed_paste_enabled : bool;
  rf_alternate_screen_active : bool;
  rf_composer_prompt_seen_in_current_alternate_screen : bool;
  rf_composer_prompt_render_count : N;
  rf_composer_prompt_seen_after_bracketed_paste : bool;
  rf_composer_prompt_ready_count : N
}.

Inductive TerminalError : Type :=
| TE_SessionNotFound | TE_SessionExists | TE_OwnershipConflict | TE_LaunchCancelled
| TE_Pty (message : string) | TE_InputQueueFull | TE_InputWriterUnavailable
| TE_UserInputInterleaved | TE_ProtocolReplyPending | TE_RegistryPoisoned
| TE_TerminationTimeout.

(** [InputWriteFailure], without the receipts it carries. *)
Inductive InputWriteFailure : Type :=
| IWF_Write | IWF_Flush | IWF_ReceiptTimedOut | IWF_WriterStopped
| IWF_OutputBarrierUnavailable.

(** ** Submissions *)

Record Provenance : Type := MkProvenance {
  prov_template_ref : string;
  prov_template_version : N
}.
#[export] Instance Provenance_eq_dec : EqDecision Provenance.
Proof. solve_decision. Defined.

Record GeneratedTerminalSubmission : Type := MkGeneratedTerminalSubmission {
  gts_provenance : Provenance;
  gts_paste_input : list N;
  gts_submit_input : list N
}.
#[export] Instance GeneratedTerminalSubmission_eq_dec : EqDecision GeneratedTerminalSubmission.
Proof. solve_decision. Defined.

(** ** Deliveries *)

Inductive GeneratedInputDeliveryState : Type :=
| GS_WritingPaste | GS_AwaitingProviderAck | GS_Confirmed | GS_ConfirmedUnattributed
| GS_Stalled | GS_Blocked | GS_Failed | GS_RequiresUserResubmit.
#[export] Instance GeneratedInputDeliveryState_eq_dec : EqDecision GeneratedInputDeliveryState.
Proof. solve_decision. Defined.

(** [GeneratedInputDeliveryState::is_active], [accepts_replacement] *)
Definition is_active (self : GeneratedInputDeliveryState) : bool :=
  match self with GS_WritingPaste | GS_AwaitingProviderAck => true | _ => false end.
Definition accepts_replacement (self : GeneratedInputDeliveryState) : bool :=
  match self with
  | GS_Confirmed | GS_ConfirmedUnattributed | GS_RequiresUserResubmit => true
  | _ => false
  end.

Inductive GeneratedInputDeliveryFailure : Type :=
| GF_TerminalUnavailable | GF_PasteWriteFailed | GF_OutputDidNotSettle
| GF_UserInputInterleaved | GF_ProviderAckMissing | GF_ComposerUnavailable
| GF_ComposerNotReady | GF_RuntimeEpochChanged | GF_TerminalClosed
| GF_SubmitWriteFailed | GF_WorkerUnavailable.
#[export] Instance GeneratedInputDeliveryFailure_eq_dec : EqDecision GeneratedInputDeliveryFailure.
Proof. solve_decision. Defined.

Inductive GeneratedInputDeliveryCancelCause : Type :=
| GC_PermissionRequested | GC_Notification | GC_ProviderAwaitingInput
| GC_ProviderBusy | GC_ProviderTurnFailed.
#[export] Instance GeneratedInputDeliveryCancelCause_eq_dec :
  EqDecision GeneratedInputDeliveryCancelCause.
Proof. solve_decision. Defined.

Inductive GeneratedInputSettlement : Type :=
| ST_OutputActivity | ST_ComposerRender | ST_CodexComposerRender | ST_ProviderQueue.
#[export] Instance GeneratedInputSettlement_eq_dec : EqDecision GeneratedInputSettlement.
Proof. solve_decision. Defined.

(** The shared side of a delivery: its atomic flags, and the acknowledgement
    channel as its receiver sees it. *)
Inductive AckChannel : Type := AckOpen | AckSent | AckClosed.

Record Cells : Type := MkCells {
  c_paste_started : bool;
  c_submit_receipted : bool;
  c_cancel_submit : bool;
  c_ack : AckChannel
}.
#[export] Instance Cells_eta : Eta Cells := fun r =>
  MkCells (c_paste_started r) (c_submit_receipted r) (c_cancel_submit r) (c_ack r).
Definition fresh_cells : Cells := MkCells false false false AckOpen.

(** [gid_cells] is the delivery's clone of the shared flags, and
    [gid_provider_ack_signal] says whether it still holds the sender. *)
Record GeneratedInputDelivery : Type := MkGeneratedInputDelivery {
  gid_id : N;
  gid_runtime_epoch : N;
  gid_provider_sequence_baseline : N;
  gid_settlement : GeneratedInputSettlement;
  gid_submission : GeneratedTerminalSubmission;
  gid_state : GeneratedInputDeliveryState;
  gid_failure : option GeneratedInputDeliveryFailure;
  gid_original_failure : option GeneratedInputDeliveryFailure;
  gid_cancel_cause : option GeneratedInputDeliveryCancelCause;
  gid_cancel_notification_type : option string;
  gid_paste_receipted : bool;
  gid_settlement_evidence : option OutputSettlementEvidence;
  gid_submit_receipted : bool;
  gid_submit_attempts : N;
  gid_protocol_reply_waits : N;
  gid_user_input_mutated : option bool;
  gid_output_activity : OutputActivityDiagnostics;
  gid_user_input_sequence_baseline : N;
  gid_user_input_mutation_sequence_baseline : N;
  gid_provider_confirmation : option (N * option UserInputActivitySnapshot);
  gid_cells : nat;
  gid_provider_ack_signal : bool
}.
#[export] Instance GeneratedInputDelivery_eta : Eta GeneratedInputDelivery := fun r =>
  MkGeneratedInputDelivery (gid_id r) (gid_runtime_epoch r) (gid_provider_sequence_baseline r)
    (gid_settlement r) (gid_submission r) (gid_state r) (gid_failure r) (gid_original_failure r)
    (gid_cancel_cause r) (gid_cancel_notification_type r) (gid_paste_receipted r)
    (gid_settlement_evidence r) (gid_submit_receipted r) (gid_submit_attempts r)
    (gid_protocol_reply_waits r) (gid_user_input_mutated r) (gid_output_activity r)
    (gid_user_input_sequence_baseline r) (gid_user_input_mutation_sequence_baseline r)
    (gid_provider_confirmation r) (gid_cells r) (gid_provider_ack_signal r).

(** [GeneratedInputDeliveryRuntime], without the event channel. *)
Record DeliveryRuntime : Type := MkDeliveryRuntime {
  dr_next_id : N;
  dr_deliveries : gmap string GeneratedInputDelivery;
  dr_order : list string;
  dr_cells : list Cells
}.
#[export] Instance DeliveryRuntime_eta : Eta DeliveryRuntime := fun r =>
  MkDeliveryRuntime (dr_next_id r) (dr_deliveries r) (dr_order r) (dr_cells r).
Definition delivery_runtime_default : DeliveryRuntime := MkDeliveryRuntime 1 ∅ [] [].

(** ** Events of the worker *)

Inductive GeneratedInputTransportOutcome : Type :=
| TO_Submitted
| TO_SubmitRetried
| TO_SubmitRetryFailed (failure : GeneratedInputDeliveryFailure)
| TO_ProviderAckTimedOut
| TO_Blocked (failure : GeneratedInputDeliveryFailure)
| TO_Failed (failure : GeneratedInputDeliveryFailure).

Record GeneratedInputTransportDiagnostics : Type := MkTransportDiagnostics {
  td_paste_receipted : bool;
  td_settlement_evidence : option OutputSettlementEvidence;
  td_submit_receipted : bool;
  td_submit_attempts : N;
  td_protocol_reply_waits : N;
  td_output_activity : OutputActivityDiagnostics
}.
#[export] Instance GeneratedInputTransportDiagnostics_eta : Eta GeneratedInputTransportDiagnostics :=
  fun r => MkTransportDiagnostics (td_paste_receipted r) (td_settlement_evidence r)
    (td_submit_receipted r) (td_submit_attempts r) (td_protocol_reply_waits r)
    (td_output_activity r).
Definition transport_diagnostics_default : GeneratedInputTransportDiagnostics :=
  MkTransportDiagnostics false None false 0 0 output_activity_default.

Record GeneratedInputRuntimeEvent : Type := MkRuntimeEvent {
  ev_session_id : string;
  ev_runtime_epoch : N;
  ev_delivery_id : N;
  ev_outcome : GeneratedInputTransportOutcome;
  ev_diagnostics : GeneratedInputTransportDiagnostics
}.

(** * Generated terminal input: the runtime's methods

    The methods of [GeneratedInputDeliveryRuntime]
    ([src/modules/agent-runtime/src/delivery.rs]).  The caller holds the core
    lock, so a method is one step with respect to the other methods; a method
    that touches a delivery reads and writes its flags through [dr_cells].

    What the terminal answers to [begin] is an argument ([BeginAnswers]). *)

(** ** Access to a delivery and its cells *)

Definition cells_of (r : DeliveryRuntime) (delivery : GeneratedInputDelivery) : Cells :=
  default fresh_cells (dr_cells r !! gid_cells delivery).

(** A delivery with its cells: what the methods assign to. *)
Definition Slot : Type := GeneratedInputDelivery * Cells.

Definition write_back (session_id : string) (slot : Slot) (r : DeliveryRuntime) : DeliveryRuntime :=
  r <| dr_deliveries := <[session_id := slot.1]> (dr_deliveries r) |>
    <| dr_cells := <[gid_cells slot.1 := slot.2]> (dr_cells r) |>.

(** [delivery.provider_ack_signal.take()]: the sender is dropped. *)
Definition take_ack (slot : Slot) : Slot :=
  let '(delivery, cells) := slot in
  (delivery <| gid_provider_ack_signal := false |>,
   if gid_provider_ack_signal delivery then cells <| c_ack := AckClosed |> else cells).

(** [signal_provider_ack] *)
Definition signal_provider_ack (slot : Slot) : Slot :=
  let '(delivery, cells) := slot in
  (delivery <| gid_provider_ack_signal := false |>,
   if gid_provider_ack_signal delivery then cells <| c_ack := AckSent |> else cells).

(** [delivery.cancel_submit.store(true, Release)] *)
Definition cancel (slot : Slot) : Slot := (slot.1, slot.2 <| c_cancel_submit := true |>).

(** A delivery that leaves the map is dropped, its sender with it. *)
Definition drop_delivery (delivery : GeneratedInputDelivery) (r : DeliveryRuntime)
  : DeliveryRuntime :=
  r <| dr_cells := <[gid_cells delivery := (take_ack (delivery, cells_of r delivery)).2]>
                     (dr_cells r) |>.

(** ** Helpers on a delivery *)

(** [record_delivery_failure] *)
Definition record_delivery_failure (failure : GeneratedInputDeliveryFailure)
    (delivery : GeneratedInputDelivery) : GeneratedInputDelivery :=
  delivery <| gid_original_failure :=
                match gid_original_failure delivery with
                | Some original => Some original
                | None => Some failure
                end |>
           <| gid_failure := Some failure |>.

(** [bounded_notification_type] *)
Definition bounded_notification_type (value : string) : string :=
  string_of_bytes (concat (take 64 (utf8_chunks (bytes value)))).

(** [record_confirmation_activity] *)
Definition record_confirmation_activity (activity : option UserInputActivitySnapshot)
    (delivery : GeneratedInputDelivery) : GeneratedInputDelivery :=
  delivery <| gid_user_input_mutated :=
    (fun a => ua_mutation_sequence a != gid_user_input_mutation_sequence_baseline delivery)
      <$> activity |>.

(** [submission_content_unchanged] *)
Definition submission_content_unchanged (delivery : GeneratedInputDelivery)
    (activity : option UserInputActivitySnapshot) : bool :=
  is_some_and activity (fun activity =>
    (gid_user_input_sequence_baseline delivery <=? ua_sequence activity)%N
    && (ua_mutation_sequence activity == gid_user_input_mutation_sequence_baseline delivery)).

(** [manual_recovery_is_attributed] *)
Definition manual_recovery_is_attributed (delivery : GeneratedInputDelivery)
    (failure : GeneratedInputDeliveryFailure) (activity : option UserInputActivitySnapshot)
  : bool :=
  match failure with
  | GF_OutputDidNotSettle | GF_UserInputInterleaved | GF_SubmitWriteFailed =>
      submission_content_unchanged delivery activity
  | _ => false
  end.

(** [unwritten_readiness_failure] *)
Definition unwritten_readiness_failure (cells : Cells) (failure : GeneratedInputDeliveryFailure)
  : bool :=
  (failure == GF_ComposerNotReady) && negb (c_paste_started cells).

(** [merge_transport_diagnostics] *)
Definition merge_transport_diagnostics (slot : Slot)
    (diagnostics : GeneratedInputTransportDiagnostics) : Slot * bool :=
  let '(delivery, cells) := slot in
  let cells :=
    if td_submit_receipted diagnostics then cells <| c_submit_receipted := true |> else cells in
  let seen d := (gid_paste_receipted d, gid_settlement_evidence d, gid_submit_receipted d,
                 gid_submit_attempts d, gid_protocol_reply_waits d, gid_output_activity d) in
  let merged :=
    delivery
      <| gid_paste_receipted := gid_paste_receipted delivery || td_paste_receipted diagnostics |>
      <| gid_settlement_evidence :=
           if is_some (td_settlement_evidence diagnostics) then td_settlement_evidence diagnostics
           else gid_settlement_evidence delivery |>
      <| gid_submit_receipted :=
           gid_submit_receipted delivery || td_submit_receipted diagnostics |>
      <| gid_submit_attempts :=
           N.max (gid_submit_attempts delivery) (td_submit_attempts diagnostics) |>
      <| gid_protocol_reply_waits :=
           N.max (gid_protocol_reply_waits delivery) (td_protocol_reply_waits diagnostics) |>
      <| gid_output_activity :=
           if td_output_activity diagnostics != output_activity_default
           then td_output_activity diagnostics else gid_output_activity delivery |> in
  (merged, cells, seen delivery != seen merged).

(** ** Queries *)

(** [state], [failure], [provenance], [contains_submission] *)
Definition delivery_in_epoch (r : DeliveryRuntime) (session_id : string) (runtime_epoch : N)
  : option GeneratedInputDelivery :=
  match dr_deliveries r !! session_id with
  | Some delivery => if gid_runtime_epoch delivery == runtime_epoch then Some delivery else None
  | None => None
  end.
Definition delivery_state (r : DeliveryRuntime) (session_id : string) (runtime_epoch : N)
  : option GeneratedInputDeliveryState :=
  gid_state <$> delivery_in_epoch r session_id runtime_epoch.
Definition delivery_failure (r : DeliveryRuntime) (session_id : string) (runtime_epoch : N)
  : option GeneratedInputDeliveryFailure :=
  delivery_in_epoch r session_id runtime_epoch ≫= gid_failure.
Definition delivery_provenance (r : DeliveryRuntime) (session_id : string) (runtime_epoch : N)
  : option Provenance :=
  (fun delivery => gts_provenance (gid_submission delivery))
    <$> delivery_in_epoch r session_id runtime_epoch.
Definition contains_submission (r : DeliveryRuntime) (session_id : string) (runtime_epoch : N)
    (submission : GeneratedTerminalSubmission) : bool :=
  is_some_and (dr_deliveries r !! session_id) (fun delivery =>
    (gid_runtime_epoch delivery == runtime_epoch) && (gid_submission delivery == submission)).

(** [accepts_new_submission] *)
Definition accepts_new_submission (r : DeliveryRuntime) (session_id : string) (runtime_epoch : N)
  : bool :=
  is_none_or (dr_deliveries r !! session_id) (fun delivery =>
    (gid_runtime_epoch delivery == runtime_epoch) && accepts_replacement (gid_state delivery)).

(** A blocked delivery whose paste was not started. *)
Definition unwritten_block (r : DeliveryRuntime) (delivery : GeneratedInputDelivery) : bool :=
  (gid_state delivery == GS_Blocked)
  && is_some_and (gid_failure delivery) (fun failure =>
       (failure == GF_ComposerUnavailable) || (failure == GF_ComposerNotReady))
  && negb (c_paste_started (cells_of r delivery)).

(** [can_begin_pending_submission] *)
Definition can_begin_pending_submission (r : DeliveryRuntime) (session_id : string)
    (runtime_epoch : N) : bool :=
  is_none_or (dr_deliveries r !! session_id) (fun delivery =>
    (gid_runtime_epoch delivery == runtime_epoch)
    && (accepts_replacement (gid_state delivery) || unwritten_block r delivery)).

(** ** Ending a delivery *)

(** [remove_session] *)
Definition remove_session (session_id : string) (r : DeliveryRuntime) : DeliveryRuntime :=
  let r :=
    match dr_deliveries r !! session_id with
    | Some delivery =>
        let r := r <| dr_deliveries := delete session_id (dr_deliveries r) |> in
        r <| dr_cells := <[gid_cells delivery :=
                             (take_ack (cancel (delivery, cells_of r delivery))).2]>
                           (dr_cells r) |>
    | None => r
    end in
  r <| dr_order := retain (fun candidate => candidate != session_id) (dr_order r) |>.

(** [evict_oldest_terminal_delivery] *)
Definition evict_oldest_terminal_delivery (r : DeliveryRuntime) : DeliveryRuntime :=
  match position (fun session_id =>
          is_some_and (dr_deliveries r !! session_id) (fun delivery =>
            negb (is_active (gid_state delivery)))) (dr_order r) with
  | None => r
  | Some (index, session_id) =>
      let r' := r <| dr_order := delete index (dr_order r) |>
                  <| dr_deliveries := delete session_id (dr_deliveries r) |> in
      match dr_deliveries r !! session_id with
      | Some delivery => drop_delivery delivery r'
      | None => r'
      end
  end.

(** [fail_immediately] *)
Definition fail_immediately (session_id : string) (failure : GeneratedInputDeliveryFailure)
    (r : DeliveryRuntime) : DeliveryRuntime :=
  match dr_deliveries r !! session_id with
  | Some delivery =>
      let '(delivery, cells) := take_ack (delivery, cells_of r delivery) in
      let delivery := record_delivery_failure failure (delivery <| gid_state := GS_Failed |>) in
      write_back session_id (delivery, cells) r
  | None => r
  end.

(** [self.order.retain(..); self.order.push_back(..); self.deliveries.insert(..)]:
    the delivery gets the next free cells. *)
Definition insert_delivery (session_id : string) (delivery : GeneratedInputDelivery)
    (cells : Cells) (r : DeliveryRuntime) : DeliveryRuntime :=
  let delivery_id := dr_next_id r in
  let r := r <| dr_next_id := u64_saturating_add (dr_next_id r) 1 |>
             <| dr_order := retain (fun candidate => candidate != session_id) (dr_order r)
                            ++ [session_id] |> in
  let r := match dr_deliveries r !! session_id with
           | Some old => drop_delivery old r
           | None => r
           end in
  r <| dr_deliveries :=
         <[session_id := delivery <| gid_id := delivery_id |>
                                  <| gid_cells := length (dr_cells r) |>]>
           (dr_deliveries r) |>
    <| dr_cells := dr_cells r ++ [cells] |>.

(** ** Starting a delivery *)

(** What the terminal and the operating system answer to [begin], in the order
    it asks. *)
Record BeginAnswers : Type := MkBeginAnswers {
  ba_user_input_activity : result TerminalError UserInputActivitySnapshot;
  ba_input_readiness : result TerminalError InputReadinessFacts;
  ba_output_before_paste : result TerminalError N;
  ba_paste_write : result TerminalError unit;
  ba_spawned : bool
}.

(** [GeneratedInputTransportPlan] and what else the worker's closure captures.
    An output snapshot is its sequence number. *)
Record GeneratedInputTransportPlan : Type := MkTransportPlan {
  tp_session_id : string;
  tp_runtime_epoch : N;
  tp_delivery_id : N;
  tp_submission : GeneratedTerminalSubmission;
  tp_input_readiness : InputReadinessFacts;
  tp_prepared_paste : option N;
  tp_settlement : GeneratedInputSettlement;
  tp_user_input_baseline : UserInputActivitySnapshot;
  tp_cells : nat
}.

(** The result of [begin]: whether it took the submission, whether it put the
    paste on the terminal's input queue, and the worker it spawned. *)
Record Began : Type := MkBegan {
  bg_runtime : DeliveryRuntime;
  bg_accepted : bool;
  bg_pasted : bool;
  bg_worker : option GeneratedInputTransportPlan
}.

Definition renders_composer (settlement : GeneratedInputSettlement) : bool :=
  match settlement with
  | ST_ComposerRender | ST_CodexComposerRender => true
  | ST_OutputActivity | ST_ProviderQueue => false
  end.

(** The delivery [begin] inserts.  A blocked delivery that it replaces hands
    its diagnosis on. *)
Definition new_delivery (r : DeliveryRuntime) (session_id : string) (runtime_epoch baseline : N)
    (submission : GeneratedTerminalSubmission) (settlement : GeneratedInputSettlement)
    (activity : result TerminalError UserInputActivitySnapshot) : GeneratedInputDelivery :=
  let inherited :=
    match dr_deliveries r !! session_id with
    | Some delivery =>
        if (gid_runtime_epoch delivery == runtime_epoch) && unwritten_block r delivery
        then Some delivery else None
    | None => None
    end in
  let baseline_of f := match activity with Ok activity => f activity | Err _ => 0%N end in
  MkGeneratedInputDelivery 0 runtime_epoch baseline settlement submission GS_WritingPaste
    None (inherited ≫= gid_original_failure) (inherited ≫= gid_cancel_cause)
    (inherited ≫= gid_cancel_notification_type) false None false 0 0 None
    output_activity_default (baseline_of ua_sequence) (baseline_of ua_mutation_sequence) None 0
    true.

(** The part of [begin] after the insertion: the terminal is asked, the paste of
    a settlement that does not wait for the composer is written, and the worker
    is spawned. *)
Definition launch_worker (answers : BeginAnswers) (session_id : string) (runtime_epoch : N)
    (delivery_id : N) (cells : nat) (submission : GeneratedTerminalSubmission)
    (settlement : GeneratedInputSettlement) (r : DeliveryRuntime) : Began :=
  let failed r failure pasted :=
    MkBegan (fail_immediately session_id failure r) true pasted None in
  let spawn r prepared_paste activity readiness :=
    if ba_spawned answers
    then MkBegan r true (is_some prepared_paste)
           (Some (MkTransportPlan session_id runtime_epoch delivery_id submission readiness
                    prepared_paste settlement activity cells))
    else failed r GF_WorkerUnavailable (is_some prepared_paste) in
  match ba_user_input_activity answers with
  | Err _ => failed r GF_TerminalUnavailable false
  | Ok activity =>
  match ba_input_readiness answers with
  | Err _ => failed r GF_TerminalUnavailable false
  | Ok readiness =>
  if renders_composer settlement then spawn r None activity readiness
  else
  match ba_output_before_paste answers with
  | Err _ => failed r GF_TerminalUnavailable false
  | Ok output_before_paste =>
      let r := r <| dr_cells := alter (fun c => c <| c_paste_started := true |>) cells
                                  (dr_cells r) |> in
      match ba_paste_write answers with
      | Err _ => failed r GF_TerminalUnavailable false
      | Ok _ => spawn r (Some output_before_paste) activity readiness
      end
  end
  end
  end.

(** [begin] *)
Definition begin (answers : BeginAnswers) (session_id : string) (runtime_epoch : N)
    (provider_sequence_baseline : N) (submission : GeneratedTerminalSubmission)
    (settlement : GeneratedInputSettlement) (r : DeliveryRuntime) : Began :=
  if negb (can_begin_pending_submission r session_id runtime_epoch)
  then MkBegan r false false None
  else
    let replacing := is_some (dr_deliveries r !! session_id) in
    let delivery := new_delivery r session_id runtime_epoch provider_sequence_baseline submission
                      settlement (ba_user_input_activity answers) in
    let full r := (max_runtime_deliveries <=? size (dr_deliveries r))%nat in
    let r := if negb replacing && full r then evict_oldest_terminal_delivery r else r in
    if negb replacing && full r then MkBegan r false false None
    else
      launch_worker answers session_id runtime_epoch (dr_next_id r) (length (dr_cells r))
        submission settlement (insert_delivery session_id delivery fresh_cells r).

(** ** Blocking and epochs *)

(** The record of a submission that was never handed to the terminal. *)
Definition blocked_delivery (runtime_epoch provider_sequence_baseline : N)
    (submission : GeneratedTerminalSubmission) (cancel_cause : GeneratedInputDeliveryCancelCause)
    (cancel_notification_type : option string) : GeneratedInputDelivery :=
  MkGeneratedInputDelivery 0 runtime_epoch provider_sequence_baseline ST_OutputActivity submission
    GS_Blocked (Some GF_ComposerUnavailable) (Some GF_ComposerUnavailable) (Some cancel_cause)
    (bounded_notification_type <$> cancel_notification_type) false None false 0 0 None
    output_activity_default 0 0 None 0 false.

(** What [block_for_unavailable_composer] does to a delivery being written. *)
Definition block_writing (cancel_cause : GeneratedInputDeliveryCancelCause)
    (cancel_notification_type : option string) (slot : Slot) : Slot :=
  let '(delivery, cells) := take_ack (cancel slot) in
  (record_delivery_failure GF_ComposerUnavailable (delivery <| gid_state := GS_Blocked |>)
     <| gid_cancel_cause := Some cancel_cause |>
     <| gid_cancel_notification_type := bounded_notification_type <$> cancel_notification_type |>,
   cells).

(** [block_for_unavailable_composer] *)
Definition block_for_unavailable_composer (session_id : string) (runtime_epoch : N)
    (provider_sequence_baseline : N) (submission : GeneratedTerminalSubmission)
    (cancel_cause : GeneratedInputDeliveryCancelCause) (cancel_notification_type : option string)
    (r : DeliveryRuntime) : bool * DeliveryRuntime :=
  let blocked := blocked_delivery runtime_epoch provider_sequence_baseline submission cancel_cause
                   cancel_notification_type in
  let blocked_cells := MkCells false false true AckClosed in
  match dr_deliveries r !! session_id with
  | Some delivery =>
      if gid_runtime_epoch delivery != runtime_epoch then (false, r)
      else if gid_state delivery == GS_WritingPaste then
        (true, write_back session_id
                 (block_writing cancel_cause cancel_notification_type
                    (delivery, cells_of r delivery)) r)
      else if negb (accepts_replacement (gid_state delivery)) then (false, r)
      else
        let r := write_back session_id (take_ack (cancel (delivery, cells_of r delivery))) r in
        (true, insert_delivery session_id blocked blocked_cells r)
  | None =>
      let full r := (max_runtime_deliveries <=? size (dr_deliveries r))%nat in
      let r := if full r then evict_oldest_terminal_delivery r else r in
      if full r then (false, r) else (true, insert_delivery session_id blocked blocked_cells r)
  end.

(** [transition_runtime_epoch] *)
Definition transition_runtime_epoch (session_id : string) (runtime_epoch : N)
    (r : DeliveryRuntime) : bool * DeliveryRuntime :=
  match dr_deliveries r !! session_id with
  | None => (false, r)
  | Some delivery =>
      if gid_runtime_epoch delivery == runtime_epoch then (false, r)
      else
        let '(delivery, cells) := take_ack (cancel (delivery, cells_of r delivery)) in
        let delivery := delivery <| gid_runtime_epoch := runtime_epoch |>
                                 <| gid_provider_confirmation := None |> in
        let delivery :=
          if gid_state delivery != GS_Confirmed
          then record_delivery_failure GF_RuntimeEpochChanged
                 (delivery <| gid_state := GS_RequiresUserResubmit |>)
          else delivery in
        (true, write_back session_id (delivery, cells) r)
  end.

(** ** Worker events *)

(** The [Blocked] and [Failed] branches of [apply_transport_event], which differ
    in the state they end in. *)
Definition apply_transport_failure (failure : GeneratedInputDeliveryFailure)
    (terminal_state : GeneratedInputDeliveryState) (slot : Slot) : Slot :=
  let '(delivery, cells) := take_ack slot in
  let delivery := record_delivery_failure failure delivery in
  if unwritten_readiness_failure cells failure then
    (delivery <| gid_provider_confirmation := None |> <| gid_state := terminal_state |>, cells)
  else
    match gid_provider_confirmation delivery with
    | Some (_, user_input_activity) =>
        let delivery := record_confirmation_activity user_input_activity delivery in
        let next :=
          if manual_recovery_is_attributed delivery failure user_input_activity
          then GS_Confirmed else GS_ConfirmedUnattributed in
        (delivery <| gid_state := next |> <| gid_failure := None |>, cells)
    | None => (delivery <| gid_state := terminal_state |>, cells)
    end.

(** The [match outcome] of [apply_transport_event]; [None] where it returns
    early. *)
Definition apply_outcome (outcome : GeneratedInputTransportOutcome) (slot : Slot) : option Slot :=
  let state := gid_state slot.1 in
  match outcome with
  | TO_Submitted =>
      if state != GS_WritingPaste then None
      else
        let delivery := slot.1 in
        Some (match gid_provider_confirmation delivery with
              | Some (provider_sequence, user_input_activity) =>
                  if (gid_provider_sequence_baseline delivery <? provider_sequence)%N
                  then record_confirmation_activity user_input_activity delivery
                         <| gid_state := GS_Confirmed |> <| gid_failure := None |>
                  else delivery <| gid_state := GS_AwaitingProviderAck |> <| gid_failure := None |>
              | None => delivery <| gid_state := GS_AwaitingProviderAck |> <| gid_failure := None |>
              end, slot.2)
  | TO_SubmitRetried => if state != GS_AwaitingProviderAck then None else Some slot
  | TO_SubmitRetryFailed failure =>
      if state != GS_AwaitingProviderAck then None
      else
        let '(delivery, cells) := take_ack slot in
        Some (record_delivery_failure failure (delivery <| gid_state := GS_Stalled |>), cells)
  | TO_ProviderAckTimedOut =>
      if state != GS_AwaitingProviderAck then None
      else
        let '(delivery, cells) := take_ack slot in
        Some (record_delivery_failure GF_ProviderAckMissing
                (delivery <| gid_state := GS_Stalled |>), cells)
  | TO_Blocked failure =>
      if state != GS_WritingPaste then None
      else Some (apply_transport_failure failure GS_Blocked slot)
  | TO_Failed failure =>
      if state != GS_WritingPaste then None
      else Some (apply_transport_failure failure GS_Failed slot)
  end.

(** [apply_transport_event] *)
Definition apply_transport_event (event : GeneratedInputRuntimeEvent) (r : DeliveryRuntime)
  : bool * DeliveryRuntime :=
  let session_id := ev_session_id event in
  match dr_deliveries r !! session_id with
  | None => (false, r)
  | Some delivery =>
      if (gid_id delivery != ev_delivery_id event)
         || (gid_runtime_epoch delivery != ev_runtime_epoch event)
      then (false, r)
      else
        let '(slot, diagnostics_changed) :=
          merge_transport_diagnostics (delivery, cells_of r delivery) (ev_diagnostics event) in
        match apply_outcome (ev_outcome event) slot with
        | None => (diagnostics_changed, write_back session_id slot r)
        | Some slot => (true, write_back session_id slot r)
        end
  end.

(** ** Provider observations *)

(** The confirmation remembered while the paste is still being written. *)
Definition remember_confirmation (delivery : GeneratedInputDelivery) (provider_sequence : N)
    (activity : option UserInputActivitySnapshot) : option (N * option UserInputActivitySnapshot) :=
  match gid_provider_confirmation delivery with
  | Some (current, current_user_input) =>
      if (provider_sequence <? current)%N then Some (current, current_user_input)
      else Some (provider_sequence, activity)
  | None => Some (provider_sequence, activity)
  end.

(** [confirm_provider_submission] *)
Definition confirm_provider_submission (session_id : string) (runtime_epoch : N)
    (provider_sequence : N) (user_input_activity : option UserInputActivitySnapshot)
    (r : DeliveryRuntime) : bool * DeliveryRuntime :=
  match dr_deliveries r !! session_id with
  | None => (false, r)
  | Some delivery =>
      let cells := cells_of r delivery in
      if (gid_runtime_epoch delivery != runtime_epoch)
         || (provider_sequence <=? gid_provider_sequence_baseline delivery)%N
      then (false, r)
      else if is_some_and (gid_failure delivery) (unwritten_readiness_failure cells)
      then (false, r)
      else if gid_state delivery == GS_WritingPaste then
        (false, write_back session_id
                  (signal_provider_ack
                     (delivery <| gid_provider_confirmation :=
                        remember_confirmation delivery provider_sequence user_input_activity |>,
                      cells)) r)
      else
        let next_state :=
          match gid_state delivery with
          | GS_AwaitingProviderAck | GS_Stalled => Some GS_Confirmed
          | GS_Blocked | GS_Failed =>
              Some (if is_some_and (gid_failure delivery) (fun failure =>
                         manual_recovery_is_attributed delivery failure user_input_activity)
                    then GS_Confirmed else GS_ConfirmedUnattributed)
          | _ => None
          end in
        match next_state with
        | None => (false, r)
        | Some next_state =>
            let delivery := record_confirmation_activity user_input_activity
              (delivery <| gid_provider_confirmation :=
                             Some (provider_sequence, user_input_activity) |>) in
            (true, write_back session_id
                     (signal_provider_ack
                        (delivery <| gid_state := next_state |> <| gid_failure := None |>, cells))
                     r)
        end
  end.

(** [confirm_provider_progress] *)
Definition confirm_provider_progress (session_id : string) (runtime_epoch : N)
    (provider_sequence : N) (r : DeliveryRuntime) : bool * DeliveryRuntime :=
  match dr_deliveries r !! session_id with
  | None => (false, r)
  | Some delivery =>
      let cells := cells_of r delivery in
      if gid_runtime_epoch delivery != runtime_epoch then (false, r)
      else if (gid_state delivery == GS_AwaitingProviderAck)
              && (gid_provider_sequence_baseline delivery <? provider_sequence)%N
      then (false, write_back session_id (cancel (delivery, cells)) r)
      else if gid_state delivery != GS_ConfirmedUnattributed then (false, r)
      else
        match gid_provider_confirmation delivery with
        | None => (false, r)
        | Some (confirmation_sequence, _) =>
            if (provider_sequence <=? confirmation_sequence)%N then (false, r)
            else
              (true, write_back session_id
                       (signal_provider_ack
                          (delivery <| gid_state := GS_Confirmed |> <| gid_failure := None |>,
                           cells)) r)
        end
  end.

(** [confirm_provider_queue_progress] *)
Definition confirm_provider_queue_progress (session_id : string) (runtime_epoch : N)
    (provider_sequence : N) (r : DeliveryRuntime) : bool * DeliveryRuntime :=
  match dr_deliveries r !! session_id with
  | None => (false, r)
  | Some delivery =>
      let cells := cells_of r delivery in
      if (gid_runtime_epoch delivery != runtime_epoch)
         || (gid_settlement delivery != ST_ProviderQueue)
         || negb (c_submit_receipted cells)
         || (provider_sequence <=? gid_provider_sequence_baseline delivery)%N
      then (false, r)
      else if gid_state delivery == GS_WritingPaste then
        (false, write_back session_id
                  (delivery <| gid_provider_confirmation :=
                                 remember_confirmation delivery provider_sequence None |>,
                   cells) r)
      else if gid_state delivery != GS_AwaitingProviderAck then (false, r)
      else
        (true, write_back session_id
                 (signal_provider_ack
                    (delivery <| gid_provider_confirmation := Some (provider_sequence, None) |>
                              <| gid_state := GS_Confirmed |> <| gid_failure := None |>, cells)) r)
  end.
