(* ===== verification/DeliveryWorker.v ===== *)
(** * Generated terminal input: the worker thread

    The closure that [begin] spawns and the functions it runs
    ([src/modules/agent-runtime/src/delivery.rs]), as a program over the
    effects a thread has: loads and stores of the shared flags, reads of the
    acknowledgement channel, questions to the terminal and the clock, writes to
    the terminal's input queue, and events sent to the runtime.

    A loop that runs until a deadline takes the number of rounds the clock
    allows ([rounds]): with none left, the deadline has passed.
    [bracketed] is [termloop_platform::host_uses_bracketed_paste_framing]. *)

From stdpp Require Import gmap relations.
From S2P Require Import Prelude Text DeliveryRuntime.

Local Open Scope string_scope.
Local Open Scope list_scope.

(** ** Programs *)

Inductive Part : Type := Paste | Submit.
#[export] Instance Part_eq_dec : EqDecision Part.
Proof. solve_decision. Defined.

(** Which [wait_for_*] method of an output snapshot is called. *)
Inductive SettlementWait : Type :=
| NormalizedComposerRender | ComposerRender | AfterObservedActivity | Activity.

(** A question to the terminal or the clock, with the type of its answer.
    An output snapshot is its sequence number, durations are milliseconds. *)
Inductive Query : Type -> Type :=
| QDeadline (duration : N) : Query bool
| QRemaining : Query (option N)
| QWaitForChange (timeout : N) : Query (result OutputSettlementFailure InputReadinessFacts)
| QCurrentFacts : Query (result OutputSettlementFailure InputReadinessFacts)
| QInputReadiness : Query (result TerminalError InputReadinessFacts)
| QOutputSnapshot : Query (result TerminalError N)
| QUserInputActivity : Query (result TerminalError UserInputActivitySnapshot)
| QWriteReceipt (timeout : N) : Query (result InputWriteFailure N)
| QSettlement (wait : SettlementWait) (snapshot quiet timeout : N)
    : Query (result OutputSettlementFailure OutputSettlementEvidence)
| QProtocolReplySettlement (timeout : N) : Query (result TerminalError bool)
| QDiagnosticsSince (snapshot : N)
    : Query (result OutputSettlementFailure OutputActivityDiagnostics).

Inductive Prog (A : Type) : Type :=
| Return (a : A)
| LoadCancel (k : bool -> Prog A)
| StorePasteStarted (k : Prog A)
| StoreSubmitReceipted (k : Prog A)
| RecvAck (timeout : N) (k : bool -> Prog A)
| Ask {B : Type} (query : Query B) (k : B -> Prog A)
| Write (part : Part) (input : list N) (k : result TerminalError unit -> Prog A)
| Send (outcome : GeneratedInputTransportOutcome)
       (diagnostics : GeneratedInputTransportDiagnostics) (k : Prog A).
Arguments Return {A} _.
Arguments LoadCancel {A} _.
Arguments StorePasteStarted {A} _.
Arguments StoreSubmitReceipted {A} _.
Arguments RecvAck {A} _ _.
Arguments Ask {A B} _ _.
Arguments Write {A} _ _ _.
Arguments Send {A} _ _ _.

Fixpoint prog_bind {A B} (p : Prog A) (f : A -> Prog B) : Prog B :=
  match p with
  | Return a => f a
  | LoadCancel k => LoadCancel (fun b => prog_bind (k b) f)
  | StorePasteStarted k => StorePasteStarted (prog_bind k f)
  | StoreSubmitReceipted k => StoreSubmitReceipted (prog_bind k f)
  | RecvAck timeout k => RecvAck timeout (fun b => prog_bind (k b) f)
  | Ask query k => Ask query (fun b => prog_bind (k b) f)
  | Write part input k => Write part input (fun r => prog_bind (k r) f)
  | Send outcome diagnostics k => Send outcome diagnostics (prog_bind k f)
  end.

Declare Scope worker_scope.
Notation "'let^' x ':=' m 'in' k" := (prog_bind m (fun x => k))
  (at level 10, x binder, m at level 100, k at level 200) : worker_scope.
Local Open Scope worker_scope.

Definition ask {B} (query : Query B) : Prog B := Ask query Return.
Definition load_cancel : Prog bool := LoadCancel Return.
Definition write_part (part : Part) (input : list N) : Prog (result TerminalError unit) :=
  Write part input Return.
Definition store_paste_started : Prog unit := StorePasteStarted (Return tt).
Definition store_submit_receipted : Prog unit := StoreSubmitReceipted (Return tt).

(** [recv_timeout] or [try_recv] on the acknowledgement channel: [true] when it
    reports neither a message nor a dropped sender. *)
Definition recv_ack (timeout : N) : Prog bool := RecvAck timeout Return.
Definition send_event (outcome : GeneratedInputTransportOutcome)
    (diagnostics : GeneratedInputTransportDiagnostics) : Prog unit :=
  Send outcome diagnostics (Return tt).

Record GeneratedInputTransportResult : Type := MkTransportResult {
  tr_outcome : GeneratedInputTransportOutcome;
  tr_diagnostics : GeneratedInputTransportDiagnostics;
  tr_retry_readiness_baseline : option InputReadinessFacts;
  tr_retry_output_baseline : option N
}.

Inductive SubmitAttemptFailure : Type :=
| SA_Blocked (failure : GeneratedInputDeliveryFailure)
| SA_Failed (failure : GeneratedInputDeliveryFailure).

(** [transport_result] *)
Definition transport_result (outcome : GeneratedInputTransportOutcome)
    (diagnostics : GeneratedInputTransportDiagnostics) (output_at_write_start : option N)
  : Prog GeneratedInputTransportResult :=
  match output_at_write_start with
  | None => Return (MkTransportResult outcome diagnostics None None)
  | Some snapshot =>
      let^ activity := ask (QDiagnosticsSince snapshot) in
      Return (MkTransportResult outcome
                match activity with
                | Ok activity => diagnostics <| td_output_activity := activity |>
                | Err _ => diagnostics
                end None None)
  end.

(** [submission_is_persistent_wake] *)
Definition submission_is_persistent_wake (submission : GeneratedTerminalSubmission) : bool :=
  prov_template_ref (gts_provenance submission) == persistent_wake_template.

Section worker.
Context (bracketed : bool).

(** [codex_composer_is_ready], [composer_is_ready] *)
Definition codex_composer_is_ready (facts : InputReadinessFacts) : bool :=
  if bracketed
  then rf_bracketed_paste_enabled facts && rf_composer_prompt_seen_after_bracketed_paste facts
  else rf_alternate_screen_active facts
       && rf_composer_prompt_seen_in_current_alternate_screen facts.
Definition composer_is_ready (settlement : GeneratedInputSettlement) (facts : InputReadinessFacts)
  : bool :=
  match settlement with
  | ST_CodexComposerRender => codex_composer_is_ready facts
  | ST_ComposerRender => negb bracketed || rf_bracketed_paste_enabled facts
  | ST_OutputActivity | ST_ProviderQueue => true
  end.

(** The loop of [wait_for_composer_ready]; [Ok] carries nothing. *)
Fixpoint composer_ready_loop (settlement : GeneratedInputSettlement) (rounds : nat)
    (facts : InputReadinessFacts) : Prog (option OutputSettlementFailure) :=
  if composer_is_ready settlement facts then Return None
  else
    let^ cancelled := load_cancel in
    if cancelled then Return (Some OSF_TimedOut)
    else
      match rounds with
      | O => Return (Some OSF_TimedOut)
      | S rounds =>
          let^ remaining := ask QRemaining in
          match remaining with
          | None => Return (Some OSF_TimedOut)
          | Some remaining =>
              let^ changed := ask (QWaitForChange (N.min remaining 100)) in
              match changed with
              | Ok facts => composer_ready_loop settlement rounds facts
              | Err OSF_TimedOut =>
                  let^ remaining := ask QRemaining in
                  if is_some remaining then composer_ready_loop settlement rounds facts
                  else Return (Some OSF_TimedOut)
              | Err failure => Return (Some failure)
              end
          end
      end.

(** [wait_for_composer_ready] *)
Definition wait_for_composer_ready (settlement : GeneratedInputSettlement) (rounds : nat)
    (readiness : InputReadinessFacts) : Prog (option OutputSettlementFailure) :=
  let^ deadline := ask (QDeadline composer_ready_timeout) in
  if negb deadline then Return (Some OSF_InvalidWindow)
  else composer_ready_loop settlement rounds readiness.

Definition terminal_failure (error : TerminalError) : OutputSettlementFailure :=
  match error with TE_SessionNotFound => OSF_TerminalClosed | _ => OSF_TrackerUnavailable end.

(** [input_untouched()] *)
Definition input_untouched (baseline : UserInputActivitySnapshot)
  : Prog (result OutputSettlementFailure bool) :=
  let^ activity := ask QUserInputActivity in
  Return (match activity with
          | Ok activity => Ok (activity == baseline)
          | Err error => Err (terminal_failure error)
          end).

(** The loop of [wait_for_late_settlement]. *)
Fixpoint late_settlement_loop (baseline : UserInputActivitySnapshot) (rounds : nat)
  : Prog (result OutputSettlementFailure OutputSettlementEvidence) :=
  let^ cancelled := load_cancel in
  if cancelled then Return (Err OSF_TimedOut)
  else
    let^ untouched := input_untouched baseline in
    match untouched with
    | Err failure => Return (Err failure)
    | Ok false => Return (Err OSF_TimedOut)
    | Ok true =>
        match rounds with
        | O => Return (Err OSF_TimedOut)
        | S rounds =>
            let^ remaining := ask QRemaining in
            match remaining with
            | None => Return (Err OSF_TimedOut)
            | Some remaining =>
                if (remaining <? composer_render_settlement_quiet)%N
                then Return (Err OSF_TimedOut)
                else
                  let^ output := ask QOutputSnapshot in
                  match output with
                  | Err error => Return (Err (terminal_failure error))
                  | Ok output =>
                      let^ settled := ask (QSettlement AfterObservedActivity output
                        composer_render_settlement_quiet
                        (N.min remaining late_settlement_poll)) in
                      match settled with
                      | Err OSF_TimedOut => late_settlement_loop baseline rounds
                      | Err failure => Return (Err failure)
                      | Ok evidence =>
                          let^ untouched := input_untouched baseline in
                          Return (match untouched with
                                  | Err failure => Err failure
                                  | Ok false => Err OSF_TimedOut
                                  | Ok true => Ok evidence
                                  end)
                      end
                  end
            end
        end
    end.

(** [wait_for_late_settlement] *)
Definition wait_for_late_settlement (baseline : UserInputActivitySnapshot) (rounds : nat)
  : Prog (result OutputSettlementFailure OutputSettlementEvidence) :=
  let^ deadline := ask (QDeadline late_settlement_timeout) in
  if negb deadline then Return (Err OSF_InvalidWindow)
  else late_settlement_loop baseline rounds.

(** ** Pressing Enter *)

(** The loop of [write_submit_attempt]: [waits] more protocol replies may be
    waited for. *)
Fixpoint submit_write_loop (submit_input : list N) (waits : nat)
    (diagnostics : GeneratedInputTransportDiagnostics)
  : Prog (result SubmitAttemptFailure unit * GeneratedInputTransportDiagnostics) :=
  let^ written := write_part Submit submit_input in
  match written with
  | Ok _ => Return (Ok tt, diagnostics)
  | Err TE_SessionNotFound => Return (Err (SA_Failed GF_TerminalClosed), diagnostics)
  | Err TE_ProtocolReplyPending =>
      match waits with
      | O => Return (Err (SA_Blocked GF_UserInputInterleaved), diagnostics)
      | S waits =>
          let diagnostics := diagnostics <| td_protocol_reply_waits :=
            N.min (td_protocol_reply_waits diagnostics + 1) 255 |> in
          let^ settled := ask (QProtocolReplySettlement protocol_reply_settlement_timeout) in
          match settled with
          | Ok true => submit_write_loop submit_input waits diagnostics
          | Ok false => Return (Err (SA_Blocked GF_UserInputInterleaved), diagnostics)
          | Err TE_SessionNotFound => Return (Err (SA_Failed GF_TerminalClosed), diagnostics)
          | Err _ => Return (Err (SA_Failed GF_TerminalUnavailable), diagnostics)
          end
      end
  | Err _ => Return (Err (SA_Failed GF_SubmitWriteFailed), diagnostics)
  end.

(** [write_submit_attempt] *)
Definition write_submit_attempt (submit_input : list N) (attempt : N)
    (diagnostics : GeneratedInputTransportDiagnostics)
  : Prog (result SubmitAttemptFailure N * GeneratedInputTransportDiagnostics) :=
  let diagnostics := diagnostics <| td_submit_attempts :=
    N.max (td_submit_attempts diagnostics) attempt |> in
  let^ written := submit_write_loop submit_input max_protocol_reply_settlement_waits diagnostics in
  match written with
  | (Err failure, diagnostics) => Return (Err failure, diagnostics)
  | (Ok _, diagnostics) =>
      let^ receipt := ask (QWriteReceipt write_receipt_timeout) in
      match receipt with
      | Ok output_before_write =>
          let^ _ := store_submit_receipted in
          Return (Ok output_before_write, diagnostics <| td_submit_receipted := true |>)
      | Err _ => Return (Err (SA_Failed GF_SubmitWriteFailed), diagnostics)
      end
  end.

(** ** One delivery *)

(** The settlement wait after the paste was receipted. *)
Definition wait_for_paste_settlement (plan : GeneratedInputTransportPlan) (rounds : nat)
    (output_before_paste output_at_write_start : N)
  : Prog (result OutputSettlementFailure OutputSettlementEvidence) :=
  let^ settlement :=
    (if renders_composer (tp_settlement plan)
     then ask (QSettlement (if bracketed then ComposerRender else NormalizedComposerRender)
                 output_at_write_start composer_render_settlement_quiet
                 composer_render_settlement_timeout)
     else ask (QSettlement (if (output_before_paste <? output_at_write_start)%N
                            then AfterObservedActivity else Activity)
                 output_at_write_start output_activity_settlement_quiet
                 output_activity_settlement_timeout)) in
  match settlement with
  | Err OSF_TimedOut => wait_for_late_settlement (tp_user_input_baseline plan) rounds
  | settled => Return settled
  end.

(** What follows the receipt of the paste in [run_transport_delivery]. *)
Definition submit_pasted (plan : GeneratedInputTransportPlan) (rounds : nat)
    (output_before_paste output_at_write_start : N)
    (diagnostics : GeneratedInputTransportDiagnostics) : Prog GeneratedInputTransportResult :=
  let refused outcome diagnostics :=
    transport_result outcome diagnostics (Some output_at_write_start) in
  let^ cancelled := load_cancel in
  if cancelled then refused (TO_Blocked GF_ComposerUnavailable) diagnostics
  else
    let^ settlement := wait_for_paste_settlement plan rounds output_before_paste
                         output_at_write_start in
    match settlement with
    | Err OSF_TimedOut => refused (TO_Blocked GF_OutputDidNotSettle) diagnostics
    | Err OSF_TerminalClosed => refused (TO_Failed GF_TerminalClosed) diagnostics
    | Err (OSF_TrackerUnavailable | OSF_InvalidWindow) =>
        refused (TO_Failed GF_TerminalUnavailable) diagnostics
    | Ok evidence =>
        let diagnostics := diagnostics <| td_settlement_evidence := Some evidence |> in
        let^ cancelled := load_cancel in
        if cancelled then refused (TO_Blocked GF_ComposerUnavailable) diagnostics
        else
          let^ readiness := ask QInputReadiness in
          let^ attempt :=
            write_submit_attempt (gts_submit_input (tp_submission plan)) 1 diagnostics in
          let '(submitted, diagnostics) := attempt in
          let^ transported :=
            refused (match submitted with
                     | Ok _ => TO_Submitted
                     | Err (SA_Blocked failure) => TO_Blocked failure
                     | Err (SA_Failed failure) => TO_Failed failure
                     end) diagnostics in
          Return (MkTransportResult (tr_outcome transported) (tr_diagnostics transported)
                    (match readiness with Ok facts => Some facts | Err _ => None end)
                    (match submitted with Ok output => Some output | Err _ => None end))
    end.

(** [run_transport_delivery], from the paste write on. *)
Definition run_pasted (plan : GeneratedInputTransportPlan) (rounds : nat)
    (output_before_paste : N) : Prog GeneratedInputTransportResult :=
  let diagnostics := transport_diagnostics_default in
  let^ receipt := ask (QWriteReceipt write_receipt_timeout) in
  match receipt with
  | Err _ => transport_result (TO_Failed GF_PasteWriteFailed) diagnostics None
  | Ok output_at_write_start =>
      submit_pasted plan rounds output_before_paste output_at_write_start
        (diagnostics <| td_paste_receipted := true |>)
  end.

(** [run_transport_delivery] once the composer is ready and no paste was
    prepared. *)
Definition run_unpasted (plan : GeneratedInputTransportPlan) (rounds : nat)
  : Prog GeneratedInputTransportResult :=
  let diagnostics := transport_diagnostics_default in
  let^ cancelled := load_cancel in
  if cancelled then transport_result (TO_Blocked GF_ComposerUnavailable) diagnostics None
  else
    let^ output := ask QOutputSnapshot in
    match output with
    | Err _ => transport_result (TO_Failed GF_TerminalUnavailable) diagnostics None
    | Ok output_before_paste =>
        let^ _ := store_paste_started in
        let^ written := write_part Paste (gts_paste_input (tp_submission plan)) in
        match written with
        | Ok _ => run_pasted plan rounds output_before_paste
        | Err TE_SessionNotFound =>
            transport_result (TO_Failed GF_TerminalClosed) diagnostics (Some output_before_paste)
        | Err _ =>
            transport_result (TO_Failed GF_TerminalUnavailable) diagnostics
              (Some output_before_paste)
        end
    end.

(** [run_transport_delivery] *)
Definition run_transport_delivery (plan : GeneratedInputTransportPlan) (rounds : nat)
  : Prog GeneratedInputTransportResult :=
  let^ readiness :=
    (if renders_composer (tp_settlement plan)
     then wait_for_composer_ready (tp_settlement plan) rounds (tp_input_readiness plan)
     else Return None) in
  match readiness with
  | Some failure =>
      let^ cancelled := load_cancel in
      transport_result
        (if cancelled then TO_Blocked GF_ComposerUnavailable
         else match failure with
              | OSF_TimedOut => TO_Blocked GF_ComposerNotReady
              | OSF_TerminalClosed => TO_Failed GF_TerminalClosed
              | OSF_TrackerUnavailable | OSF_InvalidWindow => TO_Failed GF_TerminalUnavailable
              end) transport_diagnostics_default None
  | None =>
      match tp_prepared_paste plan with
      | Some output_before_paste => run_pasted plan rounds output_before_paste
      | None => run_unpasted plan rounds
      end
  end.

(** ** Retrying Enter *)

(** [submit_retry_has_structural_evidence] *)
Definition submit_retry_has_structural_evidence (settlement : GeneratedInputSettlement)
    (readiness_baseline : option InputReadinessFacts) (output_baseline : option N) : Prog bool :=
  let^ composer_redrew :=
    match output_baseline with
    | None => Return false
    | Some snapshot =>
        let^ diagnostics := ask (QDiagnosticsSince snapshot) in
        Return (match diagnostics with
                | Ok diagnostics => (0 <? oa_completed_composer_frames diagnostics)%N
                | Err _ => false
                end)
    end in
  match settlement with
  | ST_CodexComposerRender =>
      match readiness_baseline with
      | None => Return false
      | Some baseline =>
          let^ current := ask QCurrentFacts in
          Return (match current with
                  | Err _ => false
                  | Ok current =>
                      let prompt_redrew :=
                        if bracketed
                        then (rf_composer_prompt_ready_count baseline
                                <? rf_composer_prompt_ready_count current)%N
                        else (rf_composer_prompt_render_count baseline
                                <? rf_composer_prompt_render_count current)%N in
                      composer_redrew && prompt_redrew && codex_composer_is_ready current
                  end)
      end
  | ST_ComposerRender => Return composer_redrew
  | ST_OutputActivity | ST_ProviderQueue => Return false
  end.

(** The retry loop of the worker.  [rounds] more retries fit in the window of a
    persistent wake; other submissions have no window. *)
Fixpoint retry_loop (plan : GeneratedInputTransportPlan) (persistent_wake : bool)
    (rounds : nat) (attempt : N) : Prog unit :=
  let timed_out := send_event TO_ProviderAckTimedOut transport_diagnostics_default in
  let^ waiting := recv_ack 0 in
  if negb waiting then Return tt
  else
    let^ cancelled := load_cancel in
    let^ disturbed :=
      (if cancelled then Return true
       else if persistent_wake then
         let^ activity := ask QUserInputActivity in
         Return (match activity with
                 | Ok activity => activity != tp_user_input_baseline plan
                 | Err _ => true
                 end)
       else Return false) in
    if disturbed then timed_out
    else
      let^ result := write_submit_attempt (gts_submit_input (tp_submission plan)) attempt
                       transport_diagnostics_default in
      let '(submitted, diagnostics) := result in
      match submitted with
      | Err (SA_Blocked failure | SA_Failed failure) =>
          send_event (TO_SubmitRetryFailed failure) diagnostics
      | Ok _ =>
          let^ _ := send_event TO_SubmitRetried diagnostics in
          let^ waiting := recv_ack provider_ack_after_retry_timeout in
          if negb waiting then Return tt
          else
            match rounds with
            | O => timed_out
            | S rounds =>
                let^ remaining := (if persistent_wake then ask QRemaining else Return None) in
                if is_some remaining
                then retry_loop plan persistent_wake rounds (N.min (attempt + 1) 255)
                else timed_out
            end
      end.

(** The closure [begin] spawns, after it reported a submit. *)
Definition await_ack (plan : GeneratedInputTransportPlan) (rounds : nat)
    (transported : GeneratedInputTransportResult) : Prog unit :=
  if tp_settlement plan == ST_ProviderQueue then Return tt
  else
    let^ waiting := recv_ack provider_ack_timeout in
    if negb waiting then Return tt
    else
      let^ waiting := recv_ack 0 in
      if negb waiting then Return tt
      else
        let^ cancelled := load_cancel in
        if cancelled then Return tt
        else
          let persistent_wake := submission_is_persistent_wake (tp_submission plan) in
          let^ evidence :=
            (if persistent_wake then Return true
             else submit_retry_has_structural_evidence (tp_settlement plan)
                    (tr_retry_readiness_baseline transported)
                    (tr_retry_output_baseline transported)) in
          if negb evidence
          then send_event TO_ProviderAckTimedOut transport_diagnostics_default
          else
            let^ window :=
              (if persistent_wake then ask (QDeadline persistent_wake_submit_window)
               else Return false) in
            retry_loop plan persistent_wake (if window then rounds else O) 2.

(** The closure [begin] spawns. *)
Definition deliver (plan : GeneratedInputTransportPlan) (rounds : nat) : Prog unit :=
  let^ transported := run_transport_delivery plan rounds in
  let^ _ := send_event (tr_outcome transported) (tr_diagnostics transported) in
  match tr_outcome transported with
  | TO_Submitted => await_ack plan rounds transported
  | _ => Return tt
  end.
End worker.

(** * Generated terminal input: runtime and workers together

    The concurrent system of [src/modules/agent-runtime/src/delivery.rs]: the
    runtime's methods, one at a time under the core lock, interleaved with the
    steps of every worker thread ever spawned.  A worker step is one atomic
    access, one question to the terminal, one write or one event; what the
    terminal and the clock answer is arbitrary. *)

(** ** States *)

Record Worker : Type := MkWorker {
  wk_plan : GeneratedInputTransportPlan;
  wk_prog : Prog unit
}.
#[export] Instance Worker_eta : Eta Worker := fun r => MkWorker (wk_plan r) (wk_prog r).

(** One input part accepted by the terminal's input queue, and the delivery it
    belongs to. *)
Record TerminalWrite : Type := MkTerminalWrite {
  tw_cells : nat;
  tw_session_id : string;
  tw_runtime_epoch : N;
  tw_part : Part;
  tw_input : list N
}.

(** [sy_events] is the channel from the workers to the runtime; [sy_writes] and
    [sy_observed] record what happened: accepted writes, and the provider
    observations the runtime was told of. *)
Record System : Type := MkSystem {
  sy_runtime : DeliveryRuntime;
  sy_workers : list Worker;
  sy_events : list GeneratedInputRuntimeEvent;
  sy_writes : list TerminalWrite;
  sy_observed : list (string * N * N)
}.
#[export] Instance System_eta : Eta System := fun r =>
  MkSystem (sy_runtime r) (sy_workers r) (sy_events r) (sy_writes r) (sy_observed r).
Definition initial_system : System := MkSystem delivery_runtime_default [] [] [] [].

(** ** Runtime steps *)

Inductive DeliveryCall : Type :=
| CallBegin (answers : BeginAnswers) (rounds : nat) (session_id : string)
    (runtime_epoch provider_sequence_baseline : N) (submission : GeneratedTerminalSubmission)
    (settlement : GeneratedInputSettlement)
| CallBlock (session_id : string) (runtime_epoch provider_sequence_baseline : N)
    (submission : GeneratedTerminalSubmission) (cause : GeneratedInputDeliveryCancelCause)
    (notification_type : option string)
| CallTransition (session_id : string) (runtime_epoch : N)
| CallRemove (session_id : string)
| CallApplyEvent
| CallSubmission (session_id : string) (runtime_epoch provider_sequence : N)
    (activity : option UserInputActivitySnapshot)
| CallProgress (session_id : string) (runtime_epoch provider_sequence : N)
| CallQueueProgress (session_id : string) (runtime_epoch provider_sequence : N).

Section system.
Context (bracketed : bool).

Definition observe (session_id : string) (runtime_epoch provider_sequence : N) (s : System)
  : System :=
  s <| sy_observed := sy_observed s ++ [(session_id, runtime_epoch, provider_sequence)] |>.

(** [begin]: the paste it writes and the worker it spawns. *)
Definition begin_step (answers : BeginAnswers) (rounds : nat) (session_id : string)
    (runtime_epoch provider_sequence_baseline : N) (submission : GeneratedTerminalSubmission)
    (settlement : GeneratedInputSettlement) (s : System) : System :=
  let began := begin answers session_id runtime_epoch provider_sequence_baseline submission
                 settlement (sy_runtime s) in
  let cells := length (dr_cells (sy_runtime s)) in
  s <| sy_runtime := bg_runtime began |>
    <| sy_writes :=
         sy_writes s ++
         (if bg_pasted began
          then [MkTerminalWrite cells session_id runtime_epoch Paste (gts_paste_input submission)]
          else []) |>
    <| sy_workers :=
         sy_workers s ++
         match bg_worker began with
         | Some plan => [MkWorker plan (deliver bracketed plan rounds)]
         | None => []
         end |>.

Definition run_delivery_call (call : DeliveryCall) (s : System) : System :=
  let r := sy_runtime s in
  match call with
  | CallBegin answers rounds session_id runtime_epoch baseline submission settlement =>
      begin_step answers rounds session_id runtime_epoch baseline submission settlement s
  | CallBlock session_id runtime_epoch baseline submission cause notification_type =>
      s <| sy_runtime := (block_for_unavailable_composer session_id runtime_epoch baseline
                            submission cause notification_type r).2 |>
  | CallTransition session_id runtime_epoch =>
      s <| sy_runtime := (transition_runtime_epoch session_id runtime_epoch r).2 |>
  | CallRemove session_id => s <| sy_runtime := remove_session session_id r |>
  | CallApplyEvent =>
      match sy_events s with
      | [] => s
      | event :: events =>
          s <| sy_runtime := (apply_transport_event event r).2 |> <| sy_events := events |>
      end
  | CallSubmission session_id runtime_epoch provider_sequence activity =>
      observe session_id runtime_epoch provider_sequence
        (s <| sy_runtime := (confirm_provider_submission session_id runtime_epoch
                               provider_sequence activity r).2 |>)
  | CallProgress session_id runtime_epoch provider_sequence =>
      observe session_id runtime_epoch provider_sequence
        (s <| sy_runtime := (confirm_provider_progress session_id runtime_epoch
                               provider_sequence r).2 |>)
  | CallQueueProgress session_id runtime_epoch provider_sequence =>
      observe session_id runtime_epoch provider_sequence
        (s <| sy_runtime := (confirm_provider_queue_progress session_id runtime_epoch
                               provider_sequence r).2 |>)
  end.

(** ** Worker steps *)

(** What one step of a thread leaves: the rest of its program, its cells, an
    accepted write, an event. *)
Record Move : Type := MkMove {
  mv_prog : Prog unit;
  mv_cells : Cells;
  mv_write : option (Part * list N);
  mv_event : option (GeneratedInputTransportOutcome * GeneratedInputTransportDiagnostics)
}.

Definition ack_waiting (channel : AckChannel) : bool :=
  match channel with AckOpen => true | AckSent | AckClosed => false end.

Definition moves (p : Prog unit) (cells : Cells) (m : Move) : Prop :=
  match p with
  | Return _ => False
  | LoadCancel k => m = MkMove (k (c_cancel_submit cells)) cells None None
  | StorePasteStarted k => m = MkMove k (cells <| c_paste_started := true |>) None None
  | StoreSubmitReceipted k => m = MkMove k (cells <| c_submit_receipted := true |>) None None
  | RecvAck _ k => m = MkMove (k (ack_waiting (c_ack cells))) cells None None
  | Ask _ k => exists answer, m = MkMove (k answer) cells None None
  | Write part input k =>
      m = MkMove (k (Ok tt)) cells (Some (part, input)) None \/
      exists error, m = MkMove (k (Err error)) cells None None
  | Send outcome diagnostics k => m = MkMove k cells None (Some (outcome, diagnostics))
  end.

(** The effect of a step of the worker with plan [plan] at index [i]. *)
Definition apply_move (i : nat) (plan : GeneratedInputTransportPlan) (m : Move) (s : System)
  : System :=
  s <| sy_runtime := (sy_runtime s)
         <| dr_cells := <[tp_cells plan := mv_cells m]> (dr_cells (sy_runtime s)) |> |>
    <| sy_workers := <[i := MkWorker plan (mv_prog m)]> (sy_workers s) |>
    <| sy_writes :=
         sy_writes s ++
         match mv_write m with
         | Some (part, input) =>
             [MkTerminalWrite (tp_cells plan) (tp_session_id plan) (tp_runtime_epoch plan) part
                input]
         | None => []
         end |>
    <| sy_events :=
         sy_events s ++
         match mv_event m with
         | Some (outcome, diagnostics) =>
             [MkRuntimeEvent (tp_session_id plan) (tp_runtime_epoch plan) (tp_delivery_id plan)
                outcome diagnostics]
         | None => []
         end |>.

Inductive system_step : System -> System -> Prop :=
| step_call call s : system_step s (run_delivery_call call s)
| step_worker i worker cells m s :
    sy_workers s !! i = Some worker ->
    dr_cells (sy_runtime s) !! tp_cells (wk_plan worker) = Some cells ->
    moves (wk_prog worker) cells m ->
    system_step s (apply_move i (wk_plan worker) m s).

Definition reachable_system (s : System) : Prop := rtc system_step initial_system s.
End system.

(** ** What is counted *)

Definition counted (cells : nat) (part : Part) (writes : list TerminalWrite) : nat :=
  length (retain (fun w => (tw_cells w == cells) && (tw_part w == part)) writes).
Definition writes_of (cells : nat) (part : Part) (s : System) : nat :=
  counted cells part (sy_writes s).
Definition pastes (cells : nat) (s : System) : nat := writes_of cells Paste s.
Definition submits (cells : nat) (s : System) : nat := writes_of cells Submit s.
