(* ===== verification/DeliveryFacts.v ===== *)
(** * Generated terminal input: what a worker can do

    Predicates on worker programs, by recursion on the program: how many parts
    it writes, that it announces a paste before writing it, and that it stops
    once its delivery is cancelled.  Each quantifies over every answer of the
    terminal and the clock. *)

From stdpp Require Import gmap.
From S2P Require Import Prelude Text DeliveryRuntime DeliveryWorker.

(** ** Bounded writes *)

(** At most [np] pastes and [ns] submits are accepted. *)
Fixpoint within {A} (np ns : nat) (p : Prog A) : Prop :=
  match p with
  | Return _ => True
  | LoadCancel k | RecvAck _ k => forall b, within np ns (k b)
  | StorePasteStarted k | StoreSubmitReceipted k | Send _ _ k => within np ns k
  | Ask _ k => forall answer, within np ns (k answer)
  | Write part _ k =>
      (forall error, within np ns (k (Err error))) /\
      match part with
      | Paste => match np with O => False | S np => within np ns (k (Ok tt)) end
      | Submit => match ns with O => False | S ns => within np ns (k (Ok tt)) end
      end
  end.

(** Once the delivery is cancelled, at most [n] parts are accepted: a load of
    the flag sees it. *)
Fixpoint cancelled_within {A} (n : nat) (p : Prog A) : Prop :=
  match p with
  | Return _ => True
  | LoadCancel k => cancelled_within n (k true)
  | RecvAck _ k => forall b, cancelled_within n (k b)
  | StorePasteStarted k | StoreSubmitReceipted k | Send _ _ k => cancelled_within n k
  | Ask _ k => forall answer, cancelled_within n (k answer)
  | Write _ _ k =>
      (forall error, cancelled_within n (k (Err error))) /\
      match n with O => False | S n => cancelled_within n (k (Ok tt)) end
  end.

(** Wherever the program is, a cancellation leaves it at most one more write. *)
Fixpoint stops {A} (p : Prog A) : Prop :=
  cancelled_within 1 p /\
  match p with
  | Return _ => True
  | LoadCancel k | RecvAck _ k => forall b, stops (k b)
  | StorePasteStarted k | StoreSubmitReceipted k | Send _ _ k => stops k
  | Ask _ k => forall answer, stops (k answer)
  | Write _ _ k => forall r, stops (k r)
  end.

(** A paste is written only once [paste_started] is set. *)
Fixpoint announced {A} (started : bool) (p : Prog A) : Prop :=
  match p with
  | Return _ => True
  | LoadCancel k | RecvAck _ k => forall b, announced started (k b)
  | StorePasteStarted k => announced true k
  | StoreSubmitReceipted k | Send _ _ k => announced started k
  | Ask _ k => forall answer, announced started (k answer)
  | Write part _ k => (part = Paste -> started = true) /\ forall r, announced started (k r)
  end.

(** A submit is written only after a paste was accepted; [Q] holds of that fact
    and the result at the end. *)
Fixpoint follows {A} (pasted : bool) (p : Prog A) (Q : bool -> A -> Prop) : Prop :=
  match p with
  | Return a => Q pasted a
  | LoadCancel k | RecvAck _ k => forall b, follows pasted (k b) Q
  | StorePasteStarted k | StoreSubmitReceipted k | Send _ _ k => follows pasted k Q
  | Ask _ k => forall answer, follows pasted (k answer) Q
  | Write Paste _ k =>
      (forall error, follows pasted (k (Err error)) Q) /\ follows true (k (Ok tt)) Q
  | Write Submit _ k => pasted = true /\ forall r, follows pasted (k r) Q
  end.

(** ** Composition *)

Section programs.
Context {A B : Type}.
Implicit Types (p : Prog A) (f : A -> Prog B).

Lemma within_mono {C} (p : Prog C) np ns np' ns' :
  np <= np' -> ns <= ns' -> within np ns p -> within np' ns' p.
Proof.
  revert np ns np' ns'.
  induction p as [a|k IH|k IH|k IH|t k IH|X q k IH|part i k IH|o d k IH];
    intros np ns np' ns' Hp Hs; simpl; eauto.
  intros [He Ho]. split; [eauto|]. destruct part.
  - destruct np as [|np]; [done|]. destruct np' as [|np']; [lia|]. eapply IH; [..|exact Ho]; lia.
  - destruct ns as [|ns]; [done|]. destruct ns' as [|ns']; [lia|].
    eapply IH; [..|exact Ho]; lia.
Qed.

Lemma within_bind p f np ns np' ns' :
  within np ns p -> (forall a, within np' ns' (f a)) ->
  within (np + np') (ns + ns') (prog_bind p f).
Proof.
  intros Hp Hf. revert np ns Hp.
  induction p as [a|k IH|k IH|k IH|t k IH|X q k IH|part i k IH|o d k IH];
    intros np ns; simpl; eauto.
  - intros _. eapply within_mono; [..|apply Hf]; lia.
  - intros [He Ho]. split; [eauto|]. destruct part.
    + destruct np as [|np]; [done|]. simpl. eauto.
    + destruct ns as [|ns]; [done|]. simpl. eauto.
Qed.

Lemma cancelled_mono {C} (p : Prog C) n m :
  n <= m -> cancelled_within n p -> cancelled_within m p.
Proof.
  revert n m. induction p as [a|k IH|k IH|k IH|t k IH|X q k IH|part i k IH|o d k IH];
    intros n m Hn; simpl; eauto.
  intros [He Ho]. split; [eauto|]. destruct n as [|n]; [done|]. destruct m as [|m]; [lia|].
  eapply IH; [|exact Ho]. lia.
Qed.

Lemma within_cancelled {C} (p : Prog C) np ns : within np ns p -> cancelled_within (np + ns) p.
Proof.
  revert np ns. induction p as [a|k IH|k IH|k IH|t k IH|X q k IH|part i k IH|o d k IH];
    intros np ns; simpl; eauto.
  intros [He Ho]. split; [eauto|]. destruct part.
  - destruct np as [|np]; [done|]. simpl. by apply IH.
  - destruct ns as [|ns]; [done|]. rewrite Nat.add_succ_r. by apply IH.
Qed.

Lemma cancelled_bind p f n m :
  cancelled_within n p -> (forall a, cancelled_within m (f a)) ->
  cancelled_within (n + m) (prog_bind p f).
Proof.
  intros Hp Hf. revert n Hp.
  induction p as [a|k IH|k IH|k IH|t k IH|X q k IH|part i k IH|o d k IH];
    intros n; simpl; eauto.
  - intros _. eapply cancelled_mono; [|apply Hf]. lia.
  - intros [He Ho]. split; [eauto|]. destruct n as [|n]; [done|]. simpl. eauto.
Qed.

Lemma stops_cancelled {C} (p : Prog C) : stops p -> cancelled_within 1 p.
Proof. by destruct p; intros [H _]. Qed.

Lemma within_stops {C} (p : Prog C) np ns : np + ns <= 1 -> within np ns p -> stops p.
Proof.
  revert np ns. induction p as [a|k IH|k IH|k IH|t k IH|X q k IH|part i k IH|o d k IH];
    intros np ns Hn H;
    (split; [by eapply cancelled_mono, within_cancelled|]); simpl in H; eauto.
  destruct H as [He Ho]. intros [[]|error]; [|eauto]. destruct part.
  - destruct np as [|np]; [done|]. eapply IH; [|exact Ho]. lia.
  - destruct ns as [|ns]; [done|]. eapply IH; [|exact Ho]. lia.
Qed.

(** After a part that may write, the rest has to look at the flag first. *)
Lemma stops_bind p f :
  stops p -> (forall a, cancelled_within 0 (f a)) -> (forall a, stops (f a)) ->
  stops (prog_bind p f).
Proof.
  intros Hp Hc Hf. induction p as [a|k IH|k IH|k IH|t k IH|X q k IH|part i k IH|o d k IH];
    [apply Hf|..]; (split; [exact (cancelled_bind _ f 1 0 (stops_cancelled _ Hp) Hc)|]);
    destruct Hp as [_ Hk]; simpl; eauto.
Qed.

Lemma stops_quiet_bind p f :
  within 0 0 p -> (forall a, stops (f a)) -> stops (prog_bind p f).
Proof.
  intros Hp Hf. induction p as [a|k IH|k IH|k IH|t k IH|X q k IH|part i k IH|o d k IH];
    [apply Hf|..].
  6: by destruct Hp as [_ Hp]; destruct part.
  all: split;
    [exact (cancelled_bind _ f 0 1 (within_cancelled _ 0 0 Hp) (fun a => stops_cancelled _ (Hf a)))
    |simpl in *; eauto].
Qed.

Lemma announced_quiet {C} (p : Prog C) ns started : within 0 ns p -> announced started p.
Proof.
  revert ns started. induction p as [a|k IH|k IH|k IH|t k IH|X q k IH|part i k IH|o d k IH];
    intros ns started; simpl; eauto.
  intros [He Ho]. destruct part; [done|]. split; [done|]. intros [[]|error]; [|eauto].
  destruct ns as [|ns]; [done|]. eauto.
Qed.

Lemma announced_bind p f started :
  announced started p -> (forall a started, announced started (f a)) ->
  announced started (prog_bind p f).
Proof.
  intros Hp Hf. revert started Hp.
  induction p as [a|k IH|k IH|k IH|t k IH|X q k IH|part i k IH|o d k IH];
    intros started; simpl; eauto.
  intros [? ?]. split; [done|]. eauto.
Qed.

Lemma announced_mono {C} (p : Prog C) started : announced started p -> announced true p.
Proof.
  revert started. induction p as [a|k IH|k IH|k IH|t k IH|X q k IH|part i k IH|o d k IH];
    intros started; simpl; eauto.
  intros [? ?]. split; [done|]. eauto.
Qed.

Lemma announced_quiet_bind p f started :
  within 0 0 p -> (forall a, announced started (f a)) -> announced started (prog_bind p f).
Proof.
  intros Hp Hf.
  assert (forall s, s = started \/ s = true -> forall a, announced s (f a)) as Hs
    by (intros s [->| ->] a; [done|by eapply announced_mono]).
  clear Hf. enough (forall s, s = started \/ s = true -> announced s (prog_bind p f)) by auto.
  induction p as [a|k IH|k IH|k IH|t k IH|X q k IH|part i k IH|o d k IH];
    intros s Hcase; simpl in *; eauto.
  destruct Hp as [_ Hp]. by destruct part.
Qed.

Lemma follows_mono {C} (p : Prog C) pasted (Q R : bool -> C -> Prop) :
  (forall b c, Q b c -> R b c) -> follows pasted p Q -> follows pasted p R.
Proof.
  intros H. revert pasted.
  induction p as [a|k IH|k IH|k IH|t k IH|X q k IH|part i k IH|o d k IH];
    intros pasted; simpl; eauto.
  destruct part; intros []; eauto.
Qed.

Lemma follows_bind p f pasted Q :
  follows pasted p (fun b a => follows b (f a) Q) -> follows pasted (prog_bind p f) Q.
Proof.
  revert pasted. induction p as [a|k IH|k IH|k IH|t k IH|X q k IH|part i k IH|o d k IH];
    intros pasted; simpl; eauto.
  destruct part; intros []; eauto.
Qed.

Lemma follows_pasted {C} (p : Prog C) : follows true p (fun b _ => b = true).
Proof.
  induction p as [a|k IH|k IH|k IH|t k IH|X q k IH|part i k IH|o d k IH]; simpl; auto.
  destruct part; auto.
Qed.

Lemma follows_quiet {C} (p : Prog C) pasted : within 0 0 p -> follows pasted p (fun b _ => b = pasted).
Proof.
  induction p as [a|k IH|k IH|k IH|t k IH|X q k IH|part i k IH|o d k IH]; simpl; eauto.
  by destruct part; intros [_ []].
Qed.
End programs.

(** ** The worker's functions *)

(** Runs the program up to its next function call. *)
Ltac walk :=
  cbn [within cancelled_within announced prog_bind load_cancel ask store_paste_started
       store_submit_receipted write_part recv_ack send_event].

(** Steps through the branches of a program that writes nothing by itself. *)
Ltac quiet :=
  repeat first
    [ progress walk | progress intros | done
    | match goal with
      | |- within _ _ (prog_bind (match ?x with _ => _ end) _) => destruct x
      | |- within _ _ (match ?x with _ => _ end) => destruct x
      end ].

Section worker_facts.
Context (bracketed : bool).

Lemma transport_result_quiet outcome diagnostics snapshot :
  within 0 0 (transport_result outcome diagnostics snapshot).
Proof. unfold transport_result. quiet. Qed.

Lemma refused_within outcome diagnostics snapshot np ns :
  within np ns (transport_result outcome diagnostics snapshot).
Proof. eapply within_mono; [..|apply transport_result_quiet]; lia. Qed.

Lemma composer_ready_loop_quiet settlement rounds facts :
  within 0 0 (composer_ready_loop bracketed settlement rounds facts).
Proof.
  revert facts. induction rounds as [|rounds IH]; intros facts; cbn [composer_ready_loop];
    quiet; apply IH.
Qed.

Lemma late_settlement_loop_quiet baseline rounds :
  within 0 0 (late_settlement_loop baseline rounds).
Proof.
  induction rounds as [|rounds IH]; cbn [late_settlement_loop]; unfold input_untouched;
    quiet; apply IH.
Qed.

Lemma paste_settlement_quiet plan rounds before at_start :
  within 0 0 (wait_for_paste_settlement bracketed plan rounds before at_start).
Proof.
  unfold wait_for_paste_settlement, wait_for_late_settlement.
  quiet; apply late_settlement_loop_quiet.
Qed.

Lemma submit_write_loop_within input waits diagnostics :
  within 0 1 (submit_write_loop input waits diagnostics).
Proof.
  revert diagnostics. induction waits as [|waits IH]; intros diagnostics;
    cbn [submit_write_loop]; walk; (split; [|done]); quiet; apply IH.
Qed.

Lemma write_submit_attempt_within input attempt diagnostics :
  within 0 1 (write_submit_attempt input attempt diagnostics).
Proof.
  apply (within_bind _ _ 0 1 0 0); [apply submit_write_loop_within|]. intros [[] ?]; quiet.
Qed.

Lemma submit_pasted_within plan rounds before at_start diagnostics :
  within 0 1 (submit_pasted bracketed plan rounds before at_start diagnostics).
Proof.
  unfold submit_pasted. walk. intros []; [apply refused_within|].
  apply (within_bind _ _ 0 0 0 1); [apply paste_settlement_quiet|].
  intros [evidence|[]]; try apply refused_within. walk. intros []; [apply refused_within|].
  intros readiness. apply (within_bind _ _ 0 1 0 0); [apply write_submit_attempt_within|].
  intros [submitted diagnostics']. by apply (within_bind _ _ 0 0 0 0); [apply refused_within|].
Qed.

Lemma submit_pasted_cancelled plan rounds before at_start diagnostics :
  cancelled_within 0 (submit_pasted bracketed plan rounds before at_start diagnostics).
Proof.
  unfold submit_pasted. walk. apply (within_cancelled _ 0 0), transport_result_quiet.
Qed.

Lemma run_pasted_within plan rounds before : within 0 1 (run_pasted bracketed plan rounds before).
Proof.
  unfold run_pasted. walk. intros [at_start|]; [apply submit_pasted_within|apply refused_within].
Qed.

Lemma run_pasted_cancelled plan rounds before :
  cancelled_within 0 (run_pasted bracketed plan rounds before).
Proof.
  unfold run_pasted. walk. intros [at_start|]; [apply submit_pasted_cancelled|].
  apply (within_cancelled _ 0 0), transport_result_quiet.
Qed.

Lemma run_unpasted_within plan rounds : within 1 1 (run_unpasted bracketed plan rounds).
Proof.
  unfold run_unpasted. walk. intros []; [apply refused_within|].
  intros [before|]; [|apply refused_within]. walk. split.
  - intros []; apply refused_within.
  - apply run_pasted_within.
Qed.

Lemma refused_stops outcome diagnostics snapshot :
  stops (transport_result outcome diagnostics snapshot).
Proof. eapply within_stops; [|apply transport_result_quiet]. lia. Qed.

Lemma run_unpasted_stops plan rounds : stops (run_unpasted bracketed plan rounds).
Proof.
  unfold run_unpasted. apply (stops_quiet_bind load_cancel); [done|].
  intros []; [apply refused_stops|].
  apply (stops_quiet_bind (ask QOutputSnapshot)); [done|].
  intros [before|]; [|apply refused_stops].
  apply (stops_quiet_bind store_paste_started); [done|]. intros _. split; walk.
  - split; [|apply run_pasted_cancelled].
    intros []; apply (within_cancelled _ 0 1), refused_within.
  - intros [[]|[]]; [|apply refused_stops..]. eapply within_stops; [|apply run_pasted_within]. lia.
Qed.

Lemma run_unpasted_announced plan rounds :
  announced false (run_unpasted bracketed plan rounds).
Proof.
  unfold run_unpasted. walk.
  intros []; [eapply announced_quiet, transport_result_quiet|].
  intros [before|]; [|eapply announced_quiet, transport_result_quiet]. walk. split; [done|].
  intros [[]|[]]; eapply announced_quiet;
    first [apply run_pasted_within|apply transport_result_quiet].
Qed.

(** [run_transport_delivery] is a quiet wait, then one of the two. *)
Lemma run_transport_cases plan rounds (P : Prog GeneratedInputTransportResult -> Prop) :
  (forall p f, within 0 0 p -> (forall a, P (f a)) ->
     P (@prog_bind (option OutputSettlementFailure) _ p f)) ->
  (forall p, within 0 0 p -> P p) ->
  P (match tp_prepared_paste plan with
     | Some before => run_pasted bracketed plan rounds before
     | None => run_unpasted bracketed plan rounds
     end) ->
  P (run_transport_delivery bracketed plan rounds).
Proof.
  intros Hbind Hquiet Hmain. unfold run_transport_delivery. apply Hbind.
  - destruct (renders_composer _); [|done]. unfold wait_for_composer_ready. walk.
    intros []; [|done]. apply composer_ready_loop_quiet.
  - intros [failure|]; [|done]. apply Hquiet. walk. intros b. apply transport_result_quiet.
Qed.

Definition pastes_left (plan : GeneratedInputTransportPlan) : nat :=
  if is_some (tp_prepared_paste plan) then 0 else 1.

Lemma run_transport_within plan rounds :
  within (pastes_left plan) 1 (run_transport_delivery bracketed plan rounds).
Proof.
  apply run_transport_cases.
  - intros p f Hp Hf. by apply (within_bind _ _ 0 0).
  - intros p Hp. eapply within_mono; [..|exact Hp]; lia.
  - unfold pastes_left. destruct (tp_prepared_paste plan);
      [apply run_pasted_within|apply run_unpasted_within].
Qed.

Lemma run_transport_stops plan rounds : stops (run_transport_delivery bracketed plan rounds).
Proof.
  apply run_transport_cases.
  - intros p f. apply stops_quiet_bind.
  - intros p Hp. eapply within_stops; [|exact Hp]. lia.
  - destruct (tp_prepared_paste plan); [|apply run_unpasted_stops].
    eapply within_stops; [|apply run_pasted_within]. lia.
Qed.

Lemma run_transport_announced plan rounds :
  announced (is_some (tp_prepared_paste plan)) (run_transport_delivery bracketed plan rounds).
Proof.
  apply run_transport_cases.
  - intros p f. apply announced_quiet_bind.
  - intros p Hp. by eapply announced_quiet.
  - destruct (tp_prepared_paste plan); [|apply run_unpasted_announced].
    eapply announced_quiet, run_pasted_within.
Qed.

(** The result reports a submit only if the paste was accepted. *)
Definition reports_pasted (pasted : bool) (transported : GeneratedInputTransportResult) : Prop :=
  tr_outcome transported = TO_Submitted -> pasted = true.

Lemma refused_follows outcome diagnostics snapshot pasted :
  outcome <> TO_Submitted ->
  follows pasted (transport_result outcome diagnostics snapshot) reports_pasted.
Proof.
  intros Ho. unfold transport_result.
  destruct snapshot; cbn [follows prog_bind ask]; intros; by unfold reports_pasted.
Qed.

Lemma run_unpasted_follows plan rounds :
  follows false (run_unpasted bracketed plan rounds) reports_pasted.
Proof.
  unfold run_unpasted. cbn [follows prog_bind load_cancel ask store_paste_started write_part].
  intros []; [by apply refused_follows|]. intros [before|]; [|by apply refused_follows].
  cbn [follows prog_bind store_paste_started write_part]. split.
  - intros []; by apply refused_follows.
  - eapply follows_mono; [|apply follows_pasted]. by intros b a -> _.
Qed.

Lemma run_transport_follows plan rounds :
  follows (is_some (tp_prepared_paste plan)) (run_transport_delivery bracketed plan rounds)
    reports_pasted.
Proof.
  destruct (tp_prepared_paste plan) as [before|] eqn:Hprep.
  { eapply follows_mono; [|apply follows_pasted]. by intros b a -> _. }
  unfold run_transport_delivery. rewrite Hprep. apply follows_bind.
  eapply follows_mono; [|apply follows_quiet].
  - intros b [failure|] ->; [|apply run_unpasted_follows].
    cbn [follows prog_bind load_cancel]. intros []; [by apply refused_follows|].
    by destruct failure; apply refused_follows.
  - destruct (renders_composer _); [|done]. unfold wait_for_composer_ready. walk.
    intros []; [|done]. apply composer_ready_loop_quiet.
Qed.

(** How often the retry loop may press Enter. *)
Definition retries (persistent_wake : bool) (rounds : nat) : nat :=
  if persistent_wake then S rounds else 1.

Lemma retry_loop_within plan wake rounds attempt :
  within 0 (retries wake rounds) (retry_loop plan wake rounds attempt).
Proof.
  revert attempt. induction rounds as [|rounds IH]; intros attempt; cbn [retry_loop]; walk;
    (intros []; [|done]); walk; intros cancelled.
  all: apply (within_bind _ _ 0 0 0 _); [destruct cancelled, wake; quiet|].
  all: intros []; [done|].
  - apply (within_mono _ 0 (1 + 0)); [lia|destruct wake; simpl; lia|].
    apply (within_bind _ _ 0 1 0 0); [apply write_submit_attempt_within|].
    intros [[] ?]; quiet.
  - apply (within_mono _ 0 (1 + (if wake then S rounds else 0)));
      [lia|destruct wake; simpl; lia|].
    apply (within_bind _ _ 0 1 0 _); [apply write_submit_attempt_within|].
    intros [[] ?]; [|quiet]. walk. intros []; [|done]. destruct wake; walk; [|done].
    intros []; [|done]. apply IH.
Qed.

Lemma retry_loop_cancelled plan wake rounds attempt :
  cancelled_within 0 (retry_loop plan wake rounds attempt).
Proof. destruct rounds; cbn [retry_loop]; walk; intros []; done. Qed.

Lemma retry_loop_stops plan wake rounds attempt : stops (retry_loop plan wake rounds attempt).
Proof.
  revert attempt. induction rounds as [|rounds IH]; intros attempt; cbn [retry_loop].
  all: apply (stops_quiet_bind (recv_ack 0)); [done|]; intros []; [|done].
  all: apply (stops_quiet_bind load_cancel); [done|]; intros cancelled.
  all: apply stops_quiet_bind; [destruct cancelled, wake; quiet|]; intros []; [done|].
  all: apply stops_bind;
    [eapply within_stops; [|apply write_submit_attempt_within]; lia|intros [[?|[]] ?]; try done..].
  - walk. intros []; done.
  - apply (stops_quiet_bind (send_event _ _)); [done|]. intros _.
    apply (stops_quiet_bind (recv_ack _)); [done|]. intros []; done.
  - walk. intros []; [|done]. destruct wake; walk; [|done]. intros []; [|done].
    apply retry_loop_cancelled.
  - apply (stops_quiet_bind (send_event _ _)); [done|]. intros _.
    apply (stops_quiet_bind (recv_ack _)); [done|]. intros []; [|done].
    apply stops_quiet_bind; [destruct wake; quiet|]. intros []; [|done]. apply IH.
Qed.

Lemma retry_evidence_quiet settlement readiness output :
  within 0 0 (submit_retry_has_structural_evidence bracketed settlement readiness output).
Proof. unfold submit_retry_has_structural_evidence. quiet. Qed.

Lemma await_ack_within plan rounds transported :
  within 0 (retries (submission_is_persistent_wake (tp_submission plan)) rounds)
    (await_ack bracketed plan rounds transported).
Proof.
  unfold await_ack. destruct (tp_settlement plan == ST_ProviderQueue); [done|]. walk.
  intros []; [|done]. walk. intros []; [|done]. walk. intros []; [done|].
  apply (within_bind _ _ 0 0 0 _);
    [destruct (submission_is_persistent_wake _); [done|apply retry_evidence_quiet]|].
  intros []; [|done]. cbn [negb].
  apply (within_bind _ _ 0 0 0 _); [by destruct (submission_is_persistent_wake _)|].
  intros window. eapply within_mono; [..|apply retry_loop_within]; [lia|].
  unfold retries. destruct (submission_is_persistent_wake _), window; lia.
Qed.

Lemma await_ack_cancelled plan rounds transported :
  cancelled_within 0 (await_ack bracketed plan rounds transported).
Proof.
  unfold await_ack. destruct (tp_settlement plan == ST_ProviderQueue); [done|]. walk.
  intros []; [|done]. walk. intros []; done.
Qed.

Lemma await_ack_stops plan rounds transported :
  stops (await_ack bracketed plan rounds transported).
Proof.
  unfold await_ack. destruct (tp_settlement plan == ST_ProviderQueue); [done|].
  apply (stops_quiet_bind (recv_ack _)); [done|]. intros []; [|done].
  apply (stops_quiet_bind (recv_ack _)); [done|]. intros []; [|done].
  apply (stops_quiet_bind load_cancel); [done|]. intros []; [done|].
  apply stops_quiet_bind;
    [destruct (submission_is_persistent_wake _); [done|apply retry_evidence_quiet]|].
  intros []; [|done]. cbn [negb].
  apply stops_quiet_bind; [by destruct (submission_is_persistent_wake _)|].
  intros window. apply retry_loop_stops.
Qed.

(** ** The whole worker *)

Lemma deliver_within plan rounds :
  within (pastes_left plan)
    (1 + retries (submission_is_persistent_wake (tp_submission plan)) rounds)
    (deliver bracketed plan rounds).
Proof.
  rewrite <- (Nat.add_0_r (pastes_left plan)).
  apply within_bind; [apply run_transport_within|]. intros transported. walk.
  destruct (tr_outcome transported); first [apply await_ack_within|done].
Qed.

Lemma deliver_stops plan rounds : stops (deliver bracketed plan rounds).
Proof.
  apply stops_bind; [apply run_transport_stops|..]; intros transported.
  - walk. destruct (tr_outcome transported); first [apply await_ack_cancelled|done].
  - apply (stops_quiet_bind (send_event _ _)); [done|]. intros _.
    destruct (tr_outcome transported); first [apply await_ack_stops|done].
Qed.

Lemma deliver_follows plan rounds :
  follows (is_some (tp_prepared_paste plan)) (deliver bracketed plan rounds) (fun _ _ => True).
Proof.
  apply follows_bind. eapply follows_mono; [|apply run_transport_follows].
  intros pasted transported Hr. cbn [follows prog_bind send_event].
  destruct (tr_outcome transported) eqn:Ho; try done. rewrite (Hr Ho).
  eapply follows_mono; [|apply follows_pasted]. done.
Qed.

Lemma deliver_announced plan rounds :
  announced (is_some (tp_prepared_paste plan)) (deliver bracketed plan rounds).
Proof.
  apply announced_bind; [apply run_transport_announced|]. intros transported started. walk.
  destruct (tr_outcome transported); try done. eapply announced_quiet, await_ack_within.
Qed.
End worker_facts.

(** * Generated terminal input: invariants of the runtime

    The bookkeeping invariant of [GeneratedInputDeliveryRuntime] and its
    preservation by every method, and that no method ever clears a shared
    flag. *)

(** ** Flags only get set *)

Record cells_le (c c' : Cells) : Prop := {
  le_paste : c_paste_started c = true -> c_paste_started c' = true;
  le_cancel : c_cancel_submit c = true -> c_cancel_submit c' = true
}.

#[export] Instance cells_le_preorder : PreOrder cells_le.
Proof. split; [by constructor|]. intros a b c [] []. constructor; auto. Qed.

(** Later states of the shared cells: none disappears, none is cleared. *)
Definition heap_le (h h' : list Cells) : Prop :=
  forall i c, h !! i = Some c -> exists c', h' !! i = Some c' /\ cells_le c c'.

#[export] Instance heap_le_preorder : PreOrder heap_le.
Proof.
  split.
  - intros h i c Hi. by exists c.
  - intros a b c Hab Hbc i x Hi. destruct (Hab i x Hi) as (y & Hy & Hxy).
    destruct (Hbc i y Hy) as (z & Hz & Hyz). exists z. split; [done|]. by transitivity y.
Qed.

Lemma heap_le_length h h' : heap_le h h' -> length h <= length h'.
Proof.
  intros H. destruct (decide (length h = 0)) as [->|Hne]; [lia|].
  destruct (lookup_lt_is_Some_2 h (length h - 1) ltac:(lia)) as [c Hc].
  destruct (H _ _ Hc) as (c' & Hc' & _). apply lookup_lt_Some in Hc'. lia.
Qed.

Lemma heap_le_insert h i c c' :
  h !! i = Some c -> cells_le c c' -> heap_le h (<[i := c']> h).
Proof.
  intros Hi Hle j x Hj. destruct (decide (i = j)) as [->|Hne].
  - exists c'. rewrite list_lookup_insert_eq by (by eapply lookup_lt_Some).
    split; [done|]. congruence.
  - exists x. by rewrite list_lookup_insert_ne.
Qed.

Lemma heap_le_app h h' : heap_le h (h ++ h').
Proof. intros i c Hi. exists c. by rewrite lookup_app_l by (by eapply lookup_lt_Some). Qed.

Lemma heap_le_write r d c :
  cells_le (cells_of r d) c -> heap_le (dr_cells r) (<[gid_cells d := c]> (dr_cells r)).
Proof.
  unfold cells_of. intros Hle. destruct (dr_cells r !! gid_cells d) as [c0|] eqn:Hc.
  - by apply (heap_le_insert _ _ c0).
  - apply lookup_ge_None in Hc. by rewrite list_insert_ge by lia.
Qed.

Lemma take_ack_le slot : cells_le slot.2 (take_ack slot).2.
Proof. destruct slot as [d c]. unfold take_ack. by destruct (gid_provider_ack_signal d). Qed.
Lemma signal_ack_le slot : cells_le slot.2 (signal_provider_ack slot).2.
Proof.
  destruct slot as [d c]. unfold signal_provider_ack. by destruct (gid_provider_ack_signal d).
Qed.
Lemma cancel_le slot : cells_le slot.2 (cancel slot).2.
Proof. by constructor. Qed.

Lemma take_ack_cells slot : gid_cells (take_ack slot).1 = gid_cells slot.1.
Proof. by destruct slot. Qed.
Lemma signal_ack_cells slot : gid_cells (signal_provider_ack slot).1 = gid_cells slot.1.
Proof. by destruct slot. Qed.

(** ** The bookkeeping invariant *)

Record runtime_ok (r : DeliveryRuntime) : Prop := {
  ok_size : size (dr_deliveries r) <= max_runtime_deliveries;
  ok_order : NoDup (dr_order r);
  ok_tracked : forall x, x ∈ dr_order r <-> is_Some (dr_deliveries r !! x);
  ok_cells : forall x d, dr_deliveries r !! x = Some d -> gid_cells d < length (dr_cells r);
  ok_owner : forall x y d e, dr_deliveries r !! x = Some d -> dr_deliveries r !! y = Some e ->
               gid_cells d = gid_cells e -> x = y
}.

Lemma runtime_ok_default : runtime_ok delivery_runtime_default.
Proof.
  split; simpl; try done.
  - rewrite map_size_empty. unfold max_runtime_deliveries. lia.
  - constructor.
  - intros x. rewrite lookup_empty. split; [by intros ?%elem_of_nil|by intros []].
Qed.

(** Assigning to a delivery and its cells. *)
Lemma runtime_ok_write_back r x d slot :
  runtime_ok r -> dr_deliveries r !! x = Some d -> gid_cells slot.1 = gid_cells d ->
  runtime_ok (write_back x slot r).
Proof.
  intros [H1 H2 H3 H4 H5] Hx Hc. split; simpl.
  - rewrite map_size_insert, Hx. simpl. done.
  - done.
  - intros y. rewrite H3. destruct (decide (x = y)) as [->|Hne].
    + rewrite lookup_insert_eq, Hx. done.
    + by rewrite lookup_insert_ne.
  - intros y e He. rewrite length_insert. destruct (decide (x = y)) as [->|Hne].
    + rewrite lookup_insert_eq in He. simplify_eq. rewrite Hc. eauto.
    + rewrite lookup_insert_ne in He by done. eauto.
  - intros y z e f He Hf Heq. rewrite lookup_insert_Some in He, Hf.
    destruct He as [[-> <-]|[? He]], Hf as [[-> <-]|[? Hf]]; try done; eauto.
    + rewrite Hc in Heq. by eapply H5.
    + rewrite Hc in Heq. by eapply H5.
Qed.

(** The cells alone. *)
Lemma runtime_ok_cells r cells :
  runtime_ok r -> length (dr_cells r) <= length cells -> runtime_ok (r <| dr_cells := cells |>).
Proof. intros [H1 H2 H3 H4 H5] Hl. split; simpl; eauto. intros x d Hd. specialize (H4 x d Hd). lia. Qed.

(** Deleting the delivery of [x] with its place in the order. *)
Lemma runtime_ok_delete r x order :
  runtime_ok r -> NoDup order -> (forall y, y ∈ order <-> y ∈ dr_order r /\ y <> x) ->
  runtime_ok (r <| dr_deliveries := delete x (dr_deliveries r) |> <| dr_order := order |>).
Proof.
  intros [H1 H2 H3 H4 H5] Hn Ho. split; simpl.
  - rewrite map_size_delete. destruct (dr_deliveries r !! x); simpl; lia.
  - done.
  - intros y. rewrite Ho, H3. destruct (decide (x = y)) as [->|Hne].
    + rewrite lookup_delete_eq. split; [by intros []|by intros []].
    + rewrite lookup_delete_ne by done. naive_solver.
  - intros y d [_ Hd]%lookup_delete_Some. eauto.
  - intros y z d e [_ Hd]%lookup_delete_Some [_ He]%lookup_delete_Some. eauto.
Qed.

(** ** Every method keeps the invariant and the flags *)

(** A change of the runtime that keeps the bookkeeping and clears no flag. *)
Record kept (r r' : DeliveryRuntime) : Prop := {
  kept_ok : runtime_ok r -> runtime_ok r';
  kept_heap : heap_le (dr_cells r) (dr_cells r')
}.

#[export] Instance kept_preorder : PreOrder kept.
Proof.
  split; [intros r; split; [auto|reflexivity]|].
  intros a b c [? ?] [? ?]. split; [auto|]. by transitivity (dr_cells b).
Qed.

Lemma kept_write_back r x d slot :
  dr_deliveries r !! x = Some d -> gid_cells slot.1 = gid_cells d ->
  cells_le (cells_of r d) slot.2 -> kept r (write_back x slot r).
Proof.
  intros Hx Hc Hle. split.
  - intros Hok. by eapply runtime_ok_write_back.
  - simpl. rewrite Hc. by apply heap_le_write.
Qed.

Lemma kept_drop r d : kept r (drop_delivery d r).
Proof.
  assert (heap_le (dr_cells r) (dr_cells (drop_delivery d r)))
    by (apply heap_le_write, (take_ack_le (d, cells_of r d))).
  split; [|done]. intros Hok. apply runtime_ok_cells; [done|]. by apply heap_le_length.
Qed.

Lemma elem_of_delete_NoDup {A} (l : list A) i x y :
  NoDup l -> l !! i = Some x -> y ∈ delete i l <-> y ∈ l /\ y <> x.
Proof.
  intros Hn Hi. pose proof (delete_Permutation l i x Hi) as Hp.
  rewrite Hp in Hn. apply list.NoDup_cons in Hn as [Hx _].
  assert (y ∈ l <-> y = x \/ y ∈ delete i l) as -> by (by rewrite Hp at 1; rewrite elem_of_cons).
  split; [intros Hy; split; [by right|by intros ->]|naive_solver].
Qed.

Lemma kept_evict r : kept r (evict_oldest_terminal_delivery r).
Proof.
  unfold evict_oldest_terminal_delivery.
  destruct (position _ _) as [[index x]|] eqn:Hpos; [|reflexivity].
  apply position_Some in Hpos as [Hi _].
  assert (kept r (r <| dr_order := delete index (dr_order r) |>
                    <| dr_deliveries := delete x (dr_deliveries r) |>)) as Hk.
  { split; [|reflexivity]. intros Hok.
    apply (runtime_ok_delete r x (delete index (dr_order r))); [done|..].
    - eapply sublist_NoDup; [apply Hok|apply sublist_delete].
    - intros y. by apply elem_of_delete_NoDup; [apply Hok|]. }
  destruct (dr_deliveries r !! x) as [d|]; [|done].
  etransitivity; [exact Hk|]. apply kept_drop.
Qed.

Lemma elem_of_retain_ne (l : list string) x y :
  y ∈ retain (fun candidate => candidate != x) l <-> y ∈ l /\ y <> x.
Proof. by rewrite elem_of_retain, negb_true_iff, bool_decide_eq_false. Qed.

Lemma NoDup_retain {A} (p : A -> bool) l : NoDup l -> NoDup (retain p l).
Proof. intros Hn. eapply sublist_NoDup; [exact Hn|apply retain_sublist]. Qed.

Lemma kept_remove r x : kept r (remove_session x r).
Proof.
  unfold remove_session. set (order := retain _ _).
  assert (forall r, kept r (r <| dr_deliveries := delete x (dr_deliveries r) |>
    <| dr_order := retain (fun candidate => candidate != x) (dr_order r) |>)) as Hk.
  { intros r'. split; [|reflexivity]. intros Hok. apply runtime_ok_delete; [done|..].
    - apply NoDup_retain, Hok.
    - intros y. apply elem_of_retain_ne. }
  destruct (dr_deliveries r !! x) as [d|] eqn:Hx; simpl in *.
  - set (c := (take_ack (cancel (d, cells_of r d))).2).
    assert (heap_le (dr_cells r) (<[gid_cells d := c]> (dr_cells r))) as Hh.
    { apply heap_le_write. etransitivity; [apply (cancel_le (d, cells_of r d))|].
      apply take_ack_le. }
    split; [|done]. intros Hok. apply (Hk r), (runtime_ok_cells _ (<[gid_cells d := c]> (dr_cells r)))
      in Hok; [|by apply heap_le_length]. exact Hok.
  - specialize (Hk r). by rewrite delete_id in Hk by done.
Qed.

Lemma kept_fail r x failure : kept r (fail_immediately x failure r).
Proof.
  unfold fail_immediately. destruct (dr_deliveries r !! x) as [d|] eqn:Hx; [|reflexivity].
  apply (kept_write_back r x d); [done|done|]. apply (take_ack_le (d, cells_of r d)).
Qed.

(** Inserting a new delivery, with new cells, when there is room for it. *)
Lemma insert_delivery_cells r x d cells :
  exists d', dr_deliveries (insert_delivery x d cells r) !! x = Some d' /\
    gid_cells d' = length (dr_cells r) /\ gid_runtime_epoch d' = gid_runtime_epoch d /\
    gid_state d' = gid_state d /\ gid_provider_confirmation d' = gid_provider_confirmation d.
Proof.
  unfold insert_delivery. simpl. eexists. split; [apply lookup_insert_eq|]. simpl.
  split_and!; try done. destruct (dr_deliveries r !! x); simpl; [|done].
  by rewrite length_insert.
Qed.

Lemma kept_insert r x d cells :
  is_Some (dr_deliveries r !! x) \/ size (dr_deliveries r) < max_runtime_deliveries ->
  kept r (insert_delivery x d cells r).
Proof.
  intros Hroom. unfold insert_delivery. simpl.
  set (r0 := r <| dr_next_id := u64_saturating_add (dr_next_id r) 1 |>
               <| dr_order := retain (fun candidate => candidate != x) (dr_order r) ++ [x] |>).
  set (r1 := match dr_deliveries r !! x with Some old => drop_delivery old r0 | None => r0 end).
  assert (dr_deliveries r1 = dr_deliveries r /\ dr_order r1 = retain (fun candidate => candidate != x) (dr_order r) ++ [x] /\
          heap_le (dr_cells r) (dr_cells r1)) as (Hd & Ho & Hh).
  { unfold r1. destruct (dr_deliveries r !! x) as [old|]; [|done].
    split_and!; [done..|]. apply (kept_drop r0 old). }
  split; [|simpl; etransitivity; [exact Hh|apply heap_le_app]].
  intros [H1 H2 H3 H4 H5]. pose proof (heap_le_length _ _ Hh) as Hlen. split; simpl; rewrite ?Hd, ?Ho.
  - rewrite map_size_insert. destruct (dr_deliveries r !! x) eqn:Hx; simpl; [done|].
    destruct Hroom as [[? ?]|]; [done|lia].
  - apply list.NoDup_app. split_and!; [by apply NoDup_retain| |apply NoDup_singleton].
    intros y [_ Hne]%elem_of_retain_ne ->%list_elem_of_singleton. done.
  - intros y. rewrite elem_of_app, elem_of_retain_ne, list_elem_of_singleton, H3.
    destruct (decide (x = y)) as [->|Hne].
    + rewrite lookup_insert_eq. naive_solver.
    + rewrite lookup_insert_ne by done. naive_solver.
  - intros y e He. rewrite length_app. simpl. apply lookup_insert_Some in He as [[-> <-]|[_ He]].
    + simpl. lia.
    + specialize (H4 y e He). lia.
  - intros y z e f He Hf Heq. rewrite lookup_insert_Some in He, Hf.
    destruct He as [[-> <-]|[? He]], Hf as [[-> <-]|[? Hf]]; simpl in Heq; try done; [..|eauto].
    + specialize (H4 _ _ Hf). lia.
    + specialize (H4 _ _ He). lia.
Qed.

Lemma evict_length r : length (dr_cells (evict_oldest_terminal_delivery r)) = length (dr_cells r).
Proof.
  unfold evict_oldest_terminal_delivery. destruct (position _ _) as [[index x]|]; [|done].
  destruct (dr_deliveries r !! x); [|done]. simpl. by rewrite length_insert.
Qed.

Lemma fail_length r x failure :
  length (dr_cells (fail_immediately x failure r)) = length (dr_cells r).
Proof.
  unfold fail_immediately. destruct (dr_deliveries r !! x); [|done]. simpl.
  by rewrite length_insert.
Qed.

Lemma insert_delivery_length r x d cells :
  length (dr_cells (insert_delivery x d cells r)) = S (length (dr_cells r)).
Proof.
  unfold insert_delivery. simpl. rewrite length_app. simpl.
  destruct (dr_deliveries r !! x); simpl; [rewrite length_insert|]; lia.
Qed.

Lemma insert_delivery_fresh r x d cells :
  dr_cells (insert_delivery x d cells r) !! length (dr_cells r) = Some cells.
Proof.
  unfold insert_delivery. simpl. rewrite lookup_app_r.
  - destruct (dr_deliveries r !! x); simpl; rewrite ?length_insert, Nat.sub_diag; done.
  - destruct (dr_deliveries r !! x); simpl; rewrite ?length_insert; lia.
Qed.

Lemma kept_paste_flag r cells :
  kept r (r <| dr_cells := alter (fun c => c <| c_paste_started := true |>) cells (dr_cells r) |>).
Proof.
  assert (heap_le (dr_cells r) (alter (fun c => c <| c_paste_started := true |>) cells (dr_cells r))).
  { intros i c Hi. destruct (decide (cells = i)) as [->|Hne].
    - exists (c <| c_paste_started := true |>). rewrite list_lookup_alter_eq, Hi. by split.
    - exists c. by rewrite list_lookup_alter_ne. }
  split; [|done]. intros Hok. apply runtime_ok_cells; [done|]. by apply heap_le_length.
Qed.

(** What [launch_worker] leaves behind. *)
Record launched (r : DeliveryRuntime) (x : string) (epoch : N) (cells : nat)
    (submission : GeneratedTerminalSubmission) (b : Began) : Prop := {
  launched_kept : kept r (bg_runtime b);
  launched_accepted : bg_accepted b = true;
  launched_length : length (dr_cells (bg_runtime b)) = length (dr_cells r);
  launched_pasted : bg_pasted b = true -> forall c, dr_cells (bg_runtime b) !! cells = Some c ->
    c_paste_started c = true;
  launched_worker : forall plan, bg_worker b = Some plan ->
    tp_cells plan = cells /\ tp_session_id plan = x /\ tp_runtime_epoch plan = epoch /\
    tp_submission plan = submission /\ is_some (tp_prepared_paste plan) = bg_pasted b
}.

Lemma paste_flag_set r cells c :
  alter (fun c => c <| c_paste_started := true |>) cells (dr_cells r) !! cells = Some c ->
  c_paste_started c = true.
Proof.
  rewrite list_lookup_alter_eq. destruct (dr_cells r !! cells); simpl; [|done]. by intros [= <-].
Qed.

Lemma launched_failed r r' x epoch cells submission failure pasted :
  kept r r' -> length (dr_cells r') = length (dr_cells r) ->
  (pasted = true -> forall c, dr_cells r' !! cells = Some c -> c_paste_started c = true) ->
  launched r x epoch cells submission (MkBegan (fail_immediately x failure r') true pasted None).
Proof.
  intros Hk Hl Hp. split; simpl.
  - etransitivity; [exact Hk|apply kept_fail].
  - done.
  - by rewrite fail_length.
  - intros Hpasted c Hc.
    assert (cells < length (dr_cells r')) as Hlt
      by (rewrite <- (fail_length r' x failure); by eapply lookup_lt_Some).
    destruct (lookup_lt_is_Some_2 _ _ Hlt) as [c0 Hc0].
    destruct (kept_heap _ _ (kept_fail r' x failure) _ _ Hc0) as (c1 & Hc1 & Hle).
    simplify_eq. apply Hle. by apply Hp.
  - done.
Qed.

Lemma launch_worker_spec answers x epoch delivery_id cells submission settlement r :
  launched r x epoch cells submission
    (launch_worker answers x epoch delivery_id cells submission settlement r).
Proof.
  unfold launch_worker.
  destruct (ba_user_input_activity answers) as [activity|]; [|by apply launched_failed].
  destruct (ba_input_readiness answers) as [readiness|]; [|by apply launched_failed].
  destruct (renders_composer settlement).
  - destruct (ba_spawned answers); [|by apply launched_failed].
    split; simpl; [done..|]. by intros plan [= <-].
  - destruct (ba_output_before_paste answers) as [output|]; [|by apply launched_failed].
    set (r' := r <| dr_cells := _ |>).
    assert (length (dr_cells r') = length (dr_cells r)) as Hl by (simpl; by rewrite length_alter).
    pose proof (kept_paste_flag r cells) as Hk.
    destruct (ba_paste_write answers); [|by apply launched_failed].
    destruct (ba_spawned answers).
    + split; simpl; [done|done|done| |].
      * intros _ c. apply paste_flag_set.
      * by intros plan [= <-].
    + apply launched_failed; [done|done|]. intros _ c. apply paste_flag_set.
Qed.

(** [begin], as the rest of the development uses it. *)
Record began_ok (r : DeliveryRuntime) (x : string) (epoch : N)
    (submission : GeneratedTerminalSubmission) (b : Began) : Prop := {
  began_kept : kept r (bg_runtime b);
  began_refused : bg_accepted b = false -> bg_pasted b = false /\ bg_worker b = None;
  began_allowed : bg_accepted b = true -> can_begin_pending_submission r x epoch = true /\
    length (dr_cells r) < length (dr_cells (bg_runtime b));
  began_pasted : bg_pasted b = true -> forall c,
    dr_cells (bg_runtime b) !! length (dr_cells r) = Some c -> c_paste_started c = true;
  began_worker : forall plan, bg_worker b = Some plan ->
    tp_cells plan = length (dr_cells r) /\ tp_session_id plan = x /\
    tp_runtime_epoch plan = epoch /\ tp_submission plan = submission /\
    is_some (tp_prepared_paste plan) = bg_pasted b
}.

Lemma refused_ok r r' x epoch submission :
  kept r r' -> began_ok r x epoch submission (MkBegan r' false false None).
Proof. intros Hk. by split. Qed.

Lemma begin_spec answers x epoch baseline submission settlement r :
  began_ok r x epoch submission (begin answers x epoch baseline submission settlement r).
Proof.
  unfold begin. destruct (can_begin_pending_submission r x epoch) eqn:Hcan; cbn [negb];
    [|by apply refused_ok].
  set (delivery := new_delivery _ _ _ _ _ _ _).
  set (r0 := if negb (is_some (dr_deliveries r !! x))
                && (max_runtime_deliveries <=? size (dr_deliveries r))%nat
             then evict_oldest_terminal_delivery r else r).
  assert (kept r r0 /\ length (dr_cells r0) = length (dr_cells r)) as [Hk Hl].
  { unfold r0. case_match; [|done]. split; [apply kept_evict|apply evict_length]. }
  destruct (negb (is_some (dr_deliveries r !! x))
            && (max_runtime_deliveries <=? size (dr_deliveries r0))%nat) eqn:Hroom;
    [by apply refused_ok|].
  assert (is_Some (dr_deliveries r0 !! x) \/ size (dr_deliveries r0) < max_runtime_deliveries)
    as Hfree.
  { apply andb_false_iff in Hroom as [Hr|Hr].
    - left. unfold r0. apply negb_false_iff in Hr. rewrite Hr. simpl.
      by destruct (dr_deliveries r !! x).
    - right. by apply Nat.leb_gt in Hr. }
  rewrite Hl.
  destruct (launch_worker_spec answers x epoch (dr_next_id r0) (length (dr_cells r)) submission
    settlement (insert_delivery x delivery fresh_cells r0)) as [L1 L0 L2 L3 L4].
  split.
  - transitivity r0; [done|]. etransitivity; [by apply (kept_insert r0 x delivery fresh_cells)|done].
  - by rewrite L0.
  - intros _. split; [done|]. rewrite L2, insert_delivery_length. lia.
  - done.
  - done.
Qed.

Lemma merge_slot slot diagnostics :
  let slot' := (merge_transport_diagnostics slot diagnostics).1 in
  gid_cells slot'.1 = gid_cells slot.1 /\ cells_le slot.2 slot'.2.
Proof.
  destruct slot as [d c]. simpl. split; [done|].
  by destruct (td_submit_receipted diagnostics).
Qed.

Lemma transport_failure_slot failure st slot :
  let slot' := apply_transport_failure failure st slot in
  gid_cells slot'.1 = gid_cells slot.1 /\ cells_le slot.2 slot'.2.
Proof.
  pose proof (take_ack_le slot) as Hle. pose proof (take_ack_cells slot) as Hc.
  unfold apply_transport_failure. destruct (take_ack slot) as [d c]. simpl in *.
  destruct (unwritten_readiness_failure c failure); [done|].
  destruct (gid_provider_confirmation d) as [[? activity]|]; done.
Qed.

Lemma apply_outcome_slot outcome slot slot' :
  apply_outcome outcome slot = Some slot' ->
  gid_cells slot'.1 = gid_cells slot.1 /\ cells_le slot.2 slot'.2.
Proof.
  unfold apply_outcome. pose proof (take_ack_le slot) as Hle.
  pose proof (take_ack_cells slot) as Hc. destruct outcome; case_match; try done.
  - intros [= <-]. simpl. split; [|done].
    destruct (gid_provider_confirmation slot.1) as [[? ?]|]; [case_match|]; done.
  - by intros [= <-].
  - destruct (take_ack slot) as [d c]. by intros [= <-].
  - destruct (take_ack slot) as [d c]. by intros [= <-].
  - intros [= <-]. apply transport_failure_slot.
  - intros [= <-]. apply transport_failure_slot.
Qed.

Lemma block_writing_slot cause notification slot :
  let slot' := block_writing cause notification slot in
  gid_cells slot'.1 = gid_cells slot.1 /\ cells_le slot.2 slot'.2.
Proof.
  pose proof (take_ack_le (cancel slot)) as Hle. pose proof (take_ack_cells (cancel slot)) as Hc.
  unfold block_writing. destruct (take_ack (cancel slot)) as [d c]. simpl in *.
  split; [by rewrite Hc|]. etransitivity; [apply cancel_le|done].
Qed.

Lemma kept_block r x epoch baseline submission cause notification :
  kept r (block_for_unavailable_composer x epoch baseline submission cause notification r).2.
Proof.
  unfold block_for_unavailable_composer. destruct (dr_deliveries r !! x) as [d|] eqn:Hx.
  - destruct (gid_runtime_epoch d != epoch); [reflexivity|].
    destruct (gid_state d == GS_WritingPaste).
    { destruct (block_writing_slot cause notification (d, cells_of r d)).
      by apply (kept_write_back r x d). }
    destruct (negb _); [reflexivity|]. simpl.
    set (slot := take_ack (cancel (d, cells_of r d))).
    assert (kept r (write_back x slot r)) as Hk.
    { apply (kept_write_back r x d); [done|apply take_ack_cells|].
      etransitivity; [apply (cancel_le (d, cells_of r d))|apply take_ack_le]. }
    etransitivity; [exact Hk|]. apply kept_insert. left. simpl. rewrite lookup_insert_eq. by eexists.
  - set (r0 := if (max_runtime_deliveries <=? size (dr_deliveries r))%nat
               then evict_oldest_terminal_delivery r else r).
    assert (kept r r0) as Hk by (unfold r0; case_match; [apply kept_evict|reflexivity]).
    destruct (max_runtime_deliveries <=? size (dr_deliveries r0))%nat eqn:Hroom; [done|].
    etransitivity; [exact Hk|]. apply kept_insert. right. by apply Nat.leb_gt in Hroom.
Qed.

Lemma kept_transition r x epoch : kept r (transition_runtime_epoch x epoch r).2.
Proof.
  unfold transition_runtime_epoch. destruct (dr_deliveries r !! x) as [d|] eqn:Hx; [|reflexivity].
  destruct (gid_runtime_epoch d == epoch); [reflexivity|].
  pose proof (take_ack_le (cancel (d, cells_of r d))) as Hle.
  pose proof (take_ack_cells (cancel (d, cells_of r d))) as Hc.
  destruct (take_ack _) as [d' c]. simpl in *.
  apply (kept_write_back r x d); [done|by destruct (_ != _)|].
  etransitivity; [apply (cancel_le (d, cells_of r d))|done].
Qed.

Lemma kept_apply r event : kept r (apply_transport_event event r).2.
Proof.
  unfold apply_transport_event. destruct (dr_deliveries r !! _) as [d|] eqn:Hx; [|reflexivity].
  destruct (_ || _); [reflexivity|].
  pose proof (merge_slot (d, cells_of r d) (ev_diagnostics event)) as [Hc Hle].
  destruct (merge_transport_diagnostics _ _) as [slot changed]. simpl in Hc, Hle.
  destruct (apply_outcome _ _) as [slot'|] eqn:Happ; simpl.
  - destruct (apply_outcome_slot _ _ _ Happ) as [Hc' Hle'].
    apply (kept_write_back r _ d); [done|congruence|]. by transitivity slot.2.
  - by apply (kept_write_back r _ d).
Qed.

(** A method that only assigns to the delivery it finds. *)
Lemma kept_signal r x d d' :
  dr_deliveries r !! x = Some d -> gid_cells d' = gid_cells d ->
  kept r (write_back x (signal_provider_ack (d', cells_of r d)) r).
Proof.
  intros Hx Hc. apply (kept_write_back r x d); [done|by rewrite signal_ack_cells|].
  apply (signal_ack_le (d', cells_of r d)).
Qed.

Lemma kept_submission r x epoch sequence activity :
  kept r (confirm_provider_submission x epoch sequence activity r).2.
Proof.
  unfold confirm_provider_submission.
  destruct (dr_deliveries r !! x) as [d|] eqn:Hx; [|reflexivity].
  destruct (_ || _); [reflexivity|]. destruct (is_some_and _ _); [reflexivity|].
  destruct (_ == _); [by apply kept_signal|].
  destruct (gid_state d); try reflexivity; by apply kept_signal.
Qed.

Lemma kept_progress r x epoch sequence : kept r (confirm_provider_progress x epoch sequence r).2.
Proof.
  unfold confirm_provider_progress.
  destruct (dr_deliveries r !! x) as [d|] eqn:Hx; [|reflexivity].
  destruct (_ != _); [reflexivity|]. destruct (_ && _).
  { apply (kept_write_back r x d); [done|done|]. apply (cancel_le (d, cells_of r d)). }
  destruct (_ != _); [reflexivity|].
  destruct (gid_provider_confirmation d) as [[sequence' ?]|]; [|reflexivity].
  destruct (_ <=? _)%N; [reflexivity|]. by apply kept_signal.
Qed.

Lemma kept_queue_progress r x epoch sequence :
  kept r (confirm_provider_queue_progress x epoch sequence r).2.
Proof.
  unfold confirm_provider_queue_progress.
  destruct (dr_deliveries r !! x) as [d|] eqn:Hx; [|reflexivity].
  destruct (_ || _); [reflexivity|]. destruct (_ == _).
  { by apply (kept_write_back r x d). }
  destruct (_ != _); [reflexivity|]. by apply kept_signal.
Qed.
