(* ===== verification/DeliverySafety.v ===== *)
(** * Generated terminal input: invariants of the concurrent system

    What holds in every interleaving of the runtime's methods with the workers:
    how often a delivery writes, that a paste is announced before it is
    written, and what a worker may still do once its delivery is cancelled. *)

From stdpp Require Import gmap relations.
From S2P Require Import Prelude Text DeliveryRuntime DeliveryWorker DeliveryFacts.

(** ** One step of a worker *)

Definition spent (part : Part) (write : option (Part * list N)) : nat :=
  match write with Some (part', _) => if part' == part then 1 else 0 | None => 0 end.

Lemma moves_cells p c m : moves p c m -> cells_le c (mv_cells m).
Proof.
  destruct p as [a|k|k|k|t k|X q k|part i k|o d k]; simpl; intros Hm; [done|..].
  5: destruct Hm as [answer ->]. 6: destruct Hm as [->|[error ->]].
  all: by try subst m.
Qed.

Lemma moves_stops p c m : moves p c m -> stops p -> stops (mv_prog m).
Proof.
  destruct p as [a|k|k|k|t k|X q k|part i k|o d k]; simpl; intros Hm [_ Hk]; [done|..].
  5: destruct Hm as [answer ->]. 6: destruct Hm as [->|[error ->]].
  all: try subst m; simpl; auto.
Qed.

Lemma moves_announced p c m :
  moves p c m -> announced (c_paste_started c) p ->
  announced (c_paste_started (mv_cells m)) (mv_prog m) /\
  (0 < spent Paste (mv_write m) -> c_paste_started (mv_cells m) = true).
Proof.
  destruct p as [a|k|k|k|t k|X q k|part i k|o d k]; simpl; intros Hm Hk; [done|..].
  5: destruct Hm as [answer ->]. 6: destruct Hm as [->|[error ->]].
  all: try subst m; simpl; split; eauto; try lia; try apply Hk.
  destruct Hk as [Hk _]. case_bool_decide; [auto|lia].
Qed.

Lemma moves_within p c m np ns :
  moves p c m -> within np ns p ->
  exists np' ns', within np' ns' (mv_prog m) /\ np' + spent Paste (mv_write m) = np /\
    ns' + spent Submit (mv_write m) = ns.
Proof.
  destruct p as [a|k|k|k|t k|X q k|part i k|o d k]; simpl; intros Hm Hk; [done|..].
  5: destruct Hm as [answer ->]. 6: destruct Hm as [->|[error ->]].
  all: try subst m; simpl.
  all: try (exists np, ns; split_and!; [eauto|lia..]).
  - destruct Hk as [_ Hk]. destruct part; simpl.
    + destruct np as [|np]; [done|]. exists np, ns. split_and!; [done|lia..].
    + destruct ns as [|ns]; [done|]. exists np, ns. split_and!; [done|lia..].
  - by destruct Hk.
Qed.

Lemma moves_cancelled p c m n :
  moves p c m -> c_cancel_submit c = true -> cancelled_within n p ->
  exists n', cancelled_within n' (mv_prog m) /\
    n' + (spent Paste (mv_write m) + spent Submit (mv_write m)) = n.
Proof.
  destruct p as [a|k|k|k|t k|X q k|part i k|o d k]; simpl; intros Hm Hc Hk; [done|..].
  5: destruct Hm as [answer ->]. 6: destruct Hm as [->|[error ->]].
  all: try subst m; simpl; rewrite ?Hc.
  all: try (exists n; split_and!; [eauto|lia]).
  - destruct Hk as [_ Hk]. destruct n as [|n]; [done|]. exists n. split; [done|].
    destruct part; simpl; lia.
  - by destruct Hk.
Qed.

Lemma moves_follows p c m pasted Q :
  moves p c m -> follows pasted p Q ->
  follows (pasted || (0 <? spent Paste (mv_write m))%nat) (mv_prog m) Q /\
  (0 < spent Submit (mv_write m) -> pasted = true).
Proof.
  destruct p as [a|k|k|k|t k|X q k|part i k|o d k]; simpl; intros Hm Hk; [done|..].
  5: destruct Hm as [answer ->]. 6: destruct Hm as [->|[error ->]].
  all: try subst m; simpl; rewrite ?orb_false_r; try (split; [by eauto|lia]).
  - destruct part; simpl; rewrite ?orb_true_r, ?orb_false_r; destruct Hk; split; auto; lia.
  - destruct part; destruct Hk; split; auto; lia.
Qed.

(** ** Counting writes *)

Lemma retain_length_app {A} (p : A -> bool) l k :
  length (retain p (l ++ k)) = length (retain p l) + length (retain p k).
Proof. induction l as [|x l IH]; simpl; [done|]. destruct (p x); simpl; lia. Qed.

Lemma counted_none cells part writes :
  (forall w, w ∈ writes -> tw_cells w <> cells) -> counted cells part writes = 0.
Proof.
  intros H. unfold counted. induction writes as [|w l IH]; [done|]. simpl.
  rewrite bool_decide_eq_false_2 by (apply H; by left). simpl. apply IH.
  intros v Hv. apply H. by right.
Qed.

(** The entries an accepted part adds to the log. *)
Definition logged (plan : GeneratedInputTransportPlan) (write : option (Part * list N))
  : list TerminalWrite :=
  match write with
  | Some (part, input) =>
      [MkTerminalWrite (tp_cells plan) (tp_session_id plan) (tp_runtime_epoch plan) part input]
  | None => []
  end.

Lemma counted_logged plan write part : counted (tp_cells plan) part (logged plan write) = spent part write.
Proof.
  unfold counted, spent. destruct write as [[part' input]|]; [|done]. simpl.
  rewrite bool_decide_eq_true_2 by done. simpl. by destruct (part' == part).
Qed.

Lemma counted_logged_other plan write part cells :
  cells <> tp_cells plan -> counted cells part (logged plan write) = 0.
Proof.
  intros Hne. apply counted_none. unfold logged. destruct write as [[part' input]|].
  - intros w ->%list_elem_of_singleton. simpl. congruence.
  - by intros w ?%elem_of_nil.
Qed.

Lemma writes_of_move i plan m s cells part :
  writes_of cells part (apply_move i plan m s)
  = writes_of cells part s + counted cells part (logged plan (mv_write m)).
Proof. apply retain_length_app. Qed.

(** ** The invariant *)

Record worker_ok (s : System) (w : Worker) : Prop := {
  wo_cells : tp_cells (wk_plan w) < length (dr_cells (sy_runtime s));
  wo_stops : stops (wk_prog w);
  wo_announced : forall c, dr_cells (sy_runtime s) !! tp_cells (wk_plan w) = Some c ->
    announced (c_paste_started c) (wk_prog w);
  wo_within : exists np ns, within np ns (wk_prog w) /\
    pastes (tp_cells (wk_plan w)) s + np <= 1 /\
    (submission_is_persistent_wake (tp_submission (wk_plan w)) = false ->
     submits (tp_cells (wk_plan w)) s + ns <= 2);
  wo_follows : follows (0 <? pastes (tp_cells (wk_plan w)) s)%nat (wk_prog w) (fun _ _ => True)
}.

Record system_ok (s : System) : Prop := {
  so_runtime : runtime_ok (sy_runtime s);
  so_workers : forall i w, sy_workers s !! i = Some w -> worker_ok s w;
  so_distinct : forall i j w v, sy_workers s !! i = Some w -> sy_workers s !! j = Some v ->
    tp_cells (wk_plan w) = tp_cells (wk_plan v) -> i = j;
  so_writes : forall w, w ∈ sy_writes s -> tw_cells w < length (dr_cells (sy_runtime s));
  so_once : forall i, pastes i s <= 1;
  so_first : forall i, 0 < submits i s -> 0 < pastes i s;
  so_flag : forall i c, 0 < pastes i s -> dr_cells (sy_runtime s) !! i = Some c ->
    c_paste_started c = true
}.

Lemma initial_system_ok : system_ok initial_system.
Proof.
  split; simpl; try done.
  - apply runtime_ok_default.
  - by intros w ?%elem_of_nil.
  - intros i. unfold pastes, writes_of, counted. simpl. lia.
Qed.

(** Later cells keep what a worker relies on. *)
Lemma announced_later h h' i c' (p : Prog unit) :
  heap_le h h' -> i < length h -> h' !! i = Some c' ->
  (forall c, h !! i = Some c -> announced (c_paste_started c) p) ->
  announced (c_paste_started c') p.
Proof.
  intros Hle Hi Hc' Ha. destruct (lookup_lt_is_Some_2 _ _ Hi) as [c Hc].
  destruct (Hle i c Hc) as (c1 & Hc1 & [Hp _]). rewrite Hc' in Hc1. injection Hc1 as <-.
  specialize (Ha c Hc). destruct (c_paste_started c); [by rewrite Hp by done|].
  destruct (c_paste_started c'); [by eapply announced_mono|done].
Qed.

Lemma flag_later h h' i c' :
  heap_le h h' -> i < length h -> h' !! i = Some c' ->
  (forall c, h !! i = Some c -> c_paste_started c = true) -> c_paste_started c' = true.
Proof.
  intros Hle Hi Hc' Ha. destruct (lookup_lt_is_Some_2 _ _ Hi) as [c Hc].
  destruct (Hle i c Hc) as (c1 & Hc1 & [Hp _]). rewrite Hc' in Hc1. injection Hc1 as <-. auto.
Qed.

Lemma pasted_in_range s i : system_ok s -> 0 < pastes i s -> i < length (dr_cells (sy_runtime s)).
Proof.
  intros Hok Hp. destruct (decide (i < length (dr_cells (sy_runtime s)))) as [|Hge]; [done|].
  exfalso. unfold pastes, writes_of in Hp. rewrite (counted_none i Paste) in Hp; [lia|].
  intros w Hw Heq. apply Hge. rewrite <- Heq. by apply Hok.
Qed.

(** A step of the runtime that starts no delivery. *)
Lemma system_ok_call s s' :
  kept (sy_runtime s) (sy_runtime s') -> sy_workers s' = sy_workers s ->
  sy_writes s' = sy_writes s -> system_ok s -> system_ok s'.
Proof.
  intros [Hrt Hle] Hw Hwr Hok. pose proof (heap_le_length _ _ Hle) as Hlen.
  assert (forall i part, writes_of i part s' = writes_of i part s) as Hcount
    by (intros; unfold writes_of; by rewrite Hwr).
  split.
  - apply Hrt, Hok.
  - intros i w. rewrite Hw. intros Hi. destruct (so_workers _ Hok i w Hi) as [A B C D F].
    split; [lia|done| |..].
    + intros c Hc. by eapply announced_later.
    + unfold pastes, submits in *. by setoid_rewrite Hcount.
    + unfold pastes in *. by rewrite Hcount.
  - rewrite Hw. apply Hok.
  - intros w. rewrite Hwr. intros Hin. pose proof (so_writes _ Hok w Hin). lia.
  - intros i. unfold pastes. rewrite Hcount. apply Hok.
  - intros i. unfold pastes, submits. rewrite !Hcount. apply Hok.
  - intros i c. unfold pastes. rewrite Hcount. intros Hp Hc.
    eapply flag_later; [exact Hle|by apply pasted_in_range|exact Hc|].
    intros c0 Hc0. by eapply so_flag.
Qed.

Section steps.
Context (bracketed : bool).

(** A worker does not disturb another: their cells differ. *)
Lemma other_worker_ok s i w m j v :
  system_ok s -> sy_workers s !! i = Some w -> sy_workers s !! j = Some v -> i <> j ->
  heap_le (dr_cells (sy_runtime s)) (<[tp_cells (wk_plan w) := mv_cells m]> (dr_cells (sy_runtime s))) ->
  worker_ok (apply_move i (wk_plan w) m s) v.
Proof.
  intros Hok Hi Hj Hne Hle. destruct (so_workers _ Hok j v Hj) as [A B C D F].
  assert (tp_cells (wk_plan v) <> tp_cells (wk_plan w)) as Hc
    by (intros Heq; by apply Hne; symmetry; eapply (so_distinct _ Hok)).
  split; simpl.
  - by rewrite length_insert.
  - done.
  - intros c. rewrite list_lookup_insert_ne by done. apply C.
  - unfold pastes, submits. rewrite !writes_of_move, !counted_logged_other, !Nat.add_0_r by done.
    exact D.
  - unfold pastes. rewrite writes_of_move, counted_logged_other, Nat.add_0_r by done. exact F.
Qed.

Lemma moved_worker_ok s i w c m :
  system_ok s -> sy_workers s !! i = Some w ->
  dr_cells (sy_runtime s) !! tp_cells (wk_plan w) = Some c -> moves (wk_prog w) c m ->
  worker_ok (apply_move i (wk_plan w) m s) (MkWorker (wk_plan w) (mv_prog m)).
Proof.
  intros Hok Hi Hc Hm. destruct (so_workers _ Hok i w Hi) as [A B C (np & ns & Hin & Hp & Hs) F].
  split; simpl.
  - by rewrite length_insert.
  - by eapply moves_stops.
  - intros c'. rewrite list_lookup_insert_eq by done. intros [= <-].
    by apply (moves_announced _ _ _ Hm (C c Hc)).
  - destruct (moves_within _ _ _ _ _ Hm Hin) as (np' & ns' & Hin' & Hnp & Hns).
    exists np', ns'. unfold pastes, submits in *.
    rewrite !writes_of_move, !counted_logged.
    split_and!; [done|lia|]. intros Hwake. specialize (Hs Hwake). lia.
  - unfold pastes in *. rewrite writes_of_move, counted_logged.
    destruct (moves_follows _ _ _ _ _ Hm F) as [F' _].
    destruct (writes_of (tp_cells (wk_plan w)) Paste s); [exact F'|].
    destruct (spent Paste (mv_write m)); simpl in *; done.
Qed.

Lemma system_ok_worker s i w c m :
  system_ok s -> sy_workers s !! i = Some w ->
  dr_cells (sy_runtime s) !! tp_cells (wk_plan w) = Some c -> moves (wk_prog w) c m ->
  system_ok (apply_move i (wk_plan w) m s).
Proof.
  intros Hok Hi Hc Hm.
  assert (heap_le (dr_cells (sy_runtime s))
            (<[tp_cells (wk_plan w) := mv_cells m]> (dr_cells (sy_runtime s)))) as Hle
    by (apply (heap_le_insert _ _ c); [done|by eapply moves_cells]).
  pose proof (moved_worker_ok s i w c m Hok Hi Hc Hm) as Hw.
  split.
  - apply runtime_ok_cells; [apply Hok|]. by apply heap_le_length.
  - intros j v. simpl. rewrite list_lookup_insert_Some.
    intros [(<- & <- & _)|[Hne Hj]]; [done|]. by apply (other_worker_ok s i w m j v).
  - intros j k v u Hj Hk Heq. simpl in Hj, Hk.
    assert (forall l x, <[i := MkWorker (wk_plan w) (mv_prog m)]> (sy_workers s) !! l = Some x ->
      exists y, sy_workers s !! l = Some y /\ wk_plan y = wk_plan x) as Hold.
    { intros l x. rewrite list_lookup_insert_Some. intros [(<- & <- & _)|[_ Hl]]; eauto. }
    destruct (Hold j v Hj) as (v' & Hv' & Ev), (Hold k u Hk) as (u' & Hu' & Eu).
    eapply (so_distinct _ Hok j k v' u'); congruence.
  - intros x. simpl. rewrite length_insert, elem_of_app. intros [Hx|Hx]; [by apply Hok|].
    assert (tw_cells x = tp_cells (wk_plan w)) as ->; [|by eapply so_workers].
    destruct (mv_write m) as [[part input]|]; [by apply list_elem_of_singleton in Hx as ->|].
    by apply elem_of_nil in Hx.
  - intros k. destruct (decide (k = tp_cells (wk_plan w))) as [->|Hne].
    + destruct (wo_within _ _ Hw) as (np & ns & _ & Hp & _). simpl in Hp. lia.
    + unfold pastes. rewrite writes_of_move, counted_logged_other, Nat.add_0_r by done. apply Hok.
  - intros k. unfold pastes, submits. rewrite !writes_of_move.
    destruct (decide (k = tp_cells (wk_plan w))) as [->|Hne].
    + rewrite !counted_logged. pose proof (so_first _ Hok (tp_cells (wk_plan w))) as Hfirst.
      destruct (moves_follows _ _ _ _ _ Hm (wo_follows _ _ (so_workers _ Hok i w Hi))) as [_ Hsub].
      rewrite Nat.ltb_lt in Hsub. unfold pastes, submits in *. lia.
    + rewrite !counted_logged_other, !Nat.add_0_r by done. apply Hok.
  - intros k c' Hp. simpl. rewrite list_lookup_insert_Some. unfold pastes in Hp.
    rewrite writes_of_move in Hp. intros [(<- & <- & _)|[Hne Hk]].
    + rewrite counted_logged in Hp. destruct (spent Paste (mv_write m)) as [|n] eqn:Hsp.
      * apply (moves_cells _ _ _ Hm). eapply (so_flag _ Hok); [|exact Hc]. unfold pastes. lia.
      * eapply (moves_announced _ _ _ Hm); [|lia].
        by apply (wo_announced _ _ (so_workers _ Hok i w Hi)).
    + rewrite counted_logged_other, Nat.add_0_r in Hp by done. by eapply (so_flag _ Hok).
Qed.

Lemma fresh_unwritten s part : system_ok s -> writes_of (length (dr_cells (sy_runtime s))) part s = 0.
Proof.
  intros Hok. apply counted_none. intros w Hw Heq. pose proof (so_writes _ Hok w Hw). lia.
Qed.

(** The worker [begin] spawns. *)
Lemma spawned_worker_ok s s' plan rounds b epoch submission x :
  system_ok s -> began_ok (sy_runtime s) x epoch submission b -> bg_worker b = Some plan ->
  sy_runtime s' = bg_runtime b ->
  pastes (tp_cells plan) s' = (if bg_pasted b then 1 else 0) -> submits (tp_cells plan) s' = 0 ->
  worker_ok s' (MkWorker plan (deliver bracketed plan rounds)).
Proof.
  intros Hok Hb Hplan Hrt Hp Hs.
  destruct (began_worker _ _ _ _ _ Hb plan Hplan) as (Hc & _ & _ & _ & Hprep).
  destruct (bg_accepted b) eqn:Hacc;
    [|by destruct (began_refused _ _ _ _ _ Hb Hacc) as [_ ?]; congruence].
  destruct (began_allowed _ _ _ _ _ Hb Hacc) as [_ Hlen].
  split; cbn [wk_plan wk_prog].
  - rewrite Hrt, Hc. lia.
  - apply deliver_stops.
  - intros c. rewrite Hrt, Hc. intros Hcell. pose proof (deliver_announced bracketed plan rounds) as Ha.
    rewrite Hprep in Ha. destruct (bg_pasted b) eqn:Hpst.
    + by rewrite (began_pasted _ _ _ _ _ Hb Hpst c Hcell).
    + destruct (c_paste_started c); [by eapply announced_mono|done].
  - eexists _, _. split; [apply deliver_within|]. rewrite Hp, Hs. unfold pastes_left. rewrite Hprep.
    split; [by destruct (bg_pasted b)|]. intros ->. simpl. lia.
  - rewrite Hp. pose proof (deliver_follows bracketed plan rounds) as Hf. rewrite Hprep in Hf.
    by destruct (bg_pasted b).
Qed.

(** A step that adds writes and a worker for new cells [n]. *)
Lemma system_ok_extend s s' n entries :
  system_ok s -> kept (sy_runtime s) (sy_runtime s') ->
  n = length (dr_cells (sy_runtime s)) ->
  sy_writes s' = sy_writes s ++ entries ->
  (forall w, w ∈ entries -> tw_cells w = n /\ n < length (dr_cells (sy_runtime s'))) ->
  pastes n s' <= 1 -> submits n s' = 0 ->
  (forall c, 0 < pastes n s' -> dr_cells (sy_runtime s') !! n = Some c -> c_paste_started c = true) ->
  (forall i w, sy_workers s' !! i = Some w ->
     sy_workers s !! i = Some w \/
     (i = length (sy_workers s) /\ tp_cells (wk_plan w) = n /\ worker_ok s' w)) ->
  system_ok s'.
Proof.
  intros Hok [Hrt Hle] Hn Hwr Hent Hone Hnone Hflag Hnew.
  pose proof (heap_le_length _ _ Hle) as Hlen.
  assert (forall k part, k <> n -> writes_of k part s' = writes_of k part s) as Hother.
  { intros k part Hk. unfold writes_of. rewrite Hwr. unfold counted.
    rewrite retain_length_app. fold (counted k part entries). rewrite counted_none; [lia|].
    intros w Hw. destruct (Hent w Hw) as [-> _]. congruence. }
  assert (forall i w, sy_workers s !! i = Some w -> tp_cells (wk_plan w) < n) as Hold
    by (intros i w Hi; pose proof (wo_cells _ _ (so_workers _ Hok i w Hi)); lia).
  split.
  - apply Hrt, Hok.
  - intros i w Hi. destruct (Hnew i w Hi) as [Hi'|(_ & _ & Hw)]; [|done].
    specialize (Hold i w Hi'). destruct (so_workers _ Hok i w Hi') as [A B C D F].
    split; [lia|done| |..].
    + intros c Hc. by eapply announced_later.
    + unfold pastes, submits in *. by rewrite !Hother by lia.
    + unfold pastes in *. by rewrite Hother by lia.
  - intros i j w v Hi Hj Heq.
    destruct (Hnew i w Hi) as [Hi'|(Ei & Ci & _)], (Hnew j v Hj) as [Hj'|(Ej & Cj & _)].
    + by eapply (so_distinct _ Hok).
    + pose proof (Hold i w Hi'). lia.
    + pose proof (Hold j v Hj'). lia.
    + congruence.
  - intros w. rewrite Hwr, elem_of_app. intros [Hw|Hw].
    + pose proof (so_writes _ Hok w Hw). lia.
    + destruct (Hent w Hw). lia.
  - intros i. destruct (decide (i = n)) as [->|Hne]; [done|].
    unfold pastes. rewrite Hother by done. apply Hok.
  - intros i. destruct (decide (i = n)) as [->|Hne]; [lia|].
    unfold pastes, submits. rewrite !Hother by done. apply Hok.
  - intros i c Hp Hc. destruct (decide (i = n)) as [->|Hne]; [by apply Hflag|].
    unfold pastes in Hp. rewrite Hother in Hp by done.
    eapply flag_later; [exact Hle|by apply pasted_in_range|exact Hc|].
    intros c0 Hc0. by eapply (so_flag _ Hok).
Qed.

Lemma system_ok_begin s answers rounds x epoch baseline submission settlement :
  system_ok s ->
  system_ok (begin_step bracketed answers rounds x epoch baseline submission settlement s).
Proof.
  intros Hok.
  pose proof (begin_spec answers x epoch baseline submission settlement (sy_runtime s)) as Hb.
  unfold begin_step. set (b := begin _ _ _ _ _ _ _) in *.
  set (n := length (dr_cells (sy_runtime s))) in *.
  set (entries := if bg_pasted b then _ else []).
  set (new := match bg_worker b with Some _ => _ | None => _ end).
  set (s' := s <| sy_runtime := _ |> <| sy_writes := _ |> <| sy_workers := _ |>).
  assert (forall k part, writes_of k part s' = writes_of k part s + counted k part entries) as Hcount
    by (intros; apply retain_length_app).
  assert (pastes n s' = if bg_pasted b then 1 else 0) as Hpn.
  { unfold pastes. rewrite Hcount, (fresh_unwritten s) by done. unfold entries, counted.
    destruct (bg_pasted b); [|done]. simpl. by rewrite !bool_decide_eq_true_2. }
  assert (submits n s' = 0) as Hsn.
  { unfold submits. rewrite Hcount, (fresh_unwritten s) by done. unfold entries, counted.
    destruct (bg_pasted b); [|done]. simpl. by rewrite andb_false_r. }
  assert (bg_pasted b = true -> n < length (dr_cells (bg_runtime b))) as Hroom.
  { intros Hp. destruct (bg_accepted b) eqn:Hacc; [by apply (began_allowed _ _ _ _ _ Hb)|].
    destruct (began_refused _ _ _ _ _ Hb Hacc). congruence. }
  apply (system_ok_extend s s' n entries Hok); [apply Hb|done|done|..].
  - unfold entries. destruct (bg_pasted b); [|by intros w ?%elem_of_nil].
    intros w ->%list_elem_of_singleton. split; [done|]. by apply Hroom.
  - rewrite Hpn. destruct (bg_pasted b); lia.
  - done.
  - intros c. rewrite Hpn. destruct (bg_pasted b) eqn:Hp; [|lia]. intros _.
    apply (began_pasted _ _ _ _ _ Hb Hp).
  - intros i w Hi. apply lookup_app_Some in Hi as [Hi|[Hge Hi]]; [by left|right].
    unfold new in Hi. destruct (bg_worker b) as [plan|] eqn:Hplan; [|done].
    apply list_lookup_singleton_Some in Hi as [Hi <-].
    destruct (began_worker _ _ _ _ _ Hb plan Hplan) as (Hc & _). split; [lia|]. split; [done|].
    eapply spawned_worker_ok; [done|exact Hb|done|done|..]; by rewrite Hc.
Qed.

(** ** Every reachable state *)

Lemma system_ok_step s s' : system_step bracketed s s' -> system_ok s -> system_ok s'.
Proof.
  intros [call s0|i w c m s0 Hi Hc Hm] Hok; [|by eapply system_ok_worker].
  destruct call; cbn [run_delivery_call].
  - by apply system_ok_begin.
  - apply (system_ok_call s0); [apply kept_block|done..].
  - apply (system_ok_call s0); [apply kept_transition|done..].
  - apply (system_ok_call s0); [apply kept_remove|done..].
  - destruct (sy_events s0); [done|]. apply (system_ok_call s0); [apply kept_apply|done..].
  - apply (system_ok_call s0); [apply kept_submission|done..].
  - apply (system_ok_call s0); [apply kept_progress|done..].
  - apply (system_ok_call s0); [apply kept_queue_progress|done..].
Qed.

Lemma reachable_system_ok s : reachable_system bracketed s -> system_ok s.
Proof.
  unfold reachable_system. pose proof initial_system_ok as Hok. revert Hok.
  generalize initial_system. intros s0 Hok H. revert Hok.
  induction H as [|s0 s1 s2 Hstep _ IH]; [done|]. intros Hok. by eapply IH, system_ok_step.
Qed.

(** ** After a cancellation *)

Definition cancelled (k : nat) (s : System) : Prop :=
  exists c, dr_cells (sy_runtime s) !! k = Some c /\ c_cancel_submit c = true.
Definition total_writes (k : nat) (s : System) : nat := pastes k s + submits k s.

(** The worker of cells [k] has at most [n] writes left. *)
Definition writes_left (k n : nat) (s : System) : Prop :=
  forall i w, sy_workers s !! i = Some w -> tp_cells (wk_plan w) = k ->
    cancelled_within n (wk_prog w).

Lemma cancelled_later k s s' :
  heap_le (dr_cells (sy_runtime s)) (dr_cells (sy_runtime s')) -> cancelled k s -> cancelled k s'.
Proof.
  intros Hle (c & Hc & Hcan). destruct (Hle k c Hc) as (c' & Hc' & [_ Hle']). exists c'. auto.
Qed.

Lemma call_keeps_workers call s :
  let s' := run_delivery_call bracketed call s in
  heap_le (dr_cells (sy_runtime s)) (dr_cells (sy_runtime s')) /\
  (forall i w, sy_workers s' !! i = Some w -> sy_workers s !! i = Some w \/
     tp_cells (wk_plan w) = length (dr_cells (sy_runtime s))) /\
  forall k part, k <> length (dr_cells (sy_runtime s)) -> writes_of k part s' = writes_of k part s.
Proof.
  destruct call; cbn [run_delivery_call]; try (split_and!; [|by left|done]).
  2: apply kept_block. 2: apply kept_transition. 2: apply kept_remove.
  2: { destruct (sy_events s); split_and!; auto; [reflexivity|apply kept_apply]. }
  2: apply kept_submission. 2: apply kept_progress. 2: apply kept_queue_progress.
  pose proof (begin_spec answers session_id runtime_epoch provider_sequence_baseline submission
    settlement (sy_runtime s)) as Hb.
  unfold begin_step. set (b := begin _ _ _ _ _ _ _) in *. split_and!.
  - apply Hb.
  - cbn [sy_workers]. intros i w Hi. apply lookup_app_Some in Hi as [Hi|[_ Hi]]; [by left|right].
    destruct (bg_worker b) as [plan|] eqn:Hplan; [|done].
    apply list_lookup_singleton_Some in Hi as [_ <-]. by apply (began_worker _ _ _ _ _ Hb).
  - intros k part Hk. unfold writes_of, counted. simpl. rewrite retain_length_app.
    destruct (bg_pasted b); simpl; [|lia]. rewrite bool_decide_eq_false_2 by congruence. simpl. lia.
Qed.

Lemma cancelled_step k n s s' :
  system_step bracketed s s' -> system_ok s -> cancelled k s -> writes_left k n s ->
  cancelled k s' /\ exists n', writes_left k n' s' /\ total_writes k s' + n' <= total_writes k s + n.
Proof.
  intros Hstep Hok Hcan Hleft. destruct Hcan as (c & Hc & Hset).
  assert (k < length (dr_cells (sy_runtime s))) as Hk by (by eapply lookup_lt_Some).
  destruct Hstep as [call s|i w cw m s Hi Hcw Hm].
  - destruct (call_keeps_workers call s) as (Hle & Hnew & Hcount).
    split; [eapply cancelled_later; [exact Hle|by exists c]|]. exists n. split.
    + intros i w Hi Heq. destruct (Hnew i w Hi) as [Hi'|Hcells]; [by eapply Hleft|lia].
    + unfold total_writes, pastes, submits. rewrite !Hcount by lia. done.
  - assert (heap_le (dr_cells (sy_runtime s))
      (<[tp_cells (wk_plan w) := mv_cells m]> (dr_cells (sy_runtime s)))) as Hle
      by (apply (heap_le_insert _ _ cw); [done|by eapply moves_cells]).
    split; [eapply cancelled_later; [exact Hle|by exists c]|].
    unfold total_writes, pastes, submits. setoid_rewrite writes_of_move.
    destruct (decide (tp_cells (wk_plan w) = k)) as [<-|Hne].
    + assert (c_cancel_submit cw = true) as Hcw' by congruence.
      destruct (moves_cancelled _ _ _ _ Hm Hcw' (Hleft i w Hi eq_refl)) as (n' & Hn' & Hsum).
      exists n'. rewrite !counted_logged. split; [|lia]. intros j v Hj Heq.
      apply list_lookup_insert_Some in Hj as [(<- & <- & _)|[Hij Hj]]; [done|].
      exfalso. by apply Hij; eapply (so_distinct _ Hok).
    + exists n. rewrite !counted_logged_other by congruence. split; [|lia]. intros j v Hj Heq.
      apply list_lookup_insert_Some in Hj as [(<- & <- & _)|[_ Hj]]; [done|by eapply Hleft].
Qed.

Lemma cancelled_run k n s s' :
  rtc (system_step bracketed) s s' -> system_ok s -> cancelled k s -> writes_left k n s ->
  total_writes k s' <= total_writes k s + n.
Proof.
  intros H. revert n. induction H as [s|s s1 s2 Hstep _ IH]; intros n Hok Hcan Hleft; [lia|].
  destruct (cancelled_step k n s s1 Hstep Hok Hcan Hleft) as (Hcan1 & n1 & Hleft1 & Hsum).
  pose proof (IH n1 (system_ok_step _ _ Hstep Hok) Hcan1 Hleft1). lia.
Qed.

Lemma stopped_writes_left s k : system_ok s -> writes_left k 1 s.
Proof. intros Hok i w Hi _. by eapply stops_cancelled, so_workers. Qed.
End steps.
