(* ===== verification/DeliveryConfirmation.v ===== *)
(** * Generated terminal input: confirmations are caused by the provider

    A delivery is shown as confirmed only on an observation of the provider that
    is newer than the one current when the delivery began. *)

From stdpp Require Import gmap relations.
From S2P Require Import Prelude Text DeliveryRuntime DeliveryWorker DeliveryFacts.

(** The states that say the provider took the prompt. *)
Definition says_confirmed (state : GeneratedInputDeliveryState) : bool :=
  match state with GS_Confirmed | GS_ConfirmedUnattributed => true | _ => false end.

(** The runtime was told of an observation of Session [x] newer than the
    delivery's baseline. *)
Definition newer_observed (observed : list (string * N * N)) (x : string)
    (d : GeneratedInputDelivery) (epoch sequence : N) : Prop :=
  (x, epoch, sequence) ∈ observed /\ (gid_provider_sequence_baseline d < sequence)%N.

Record attested (observed : list (string * N * N)) (x : string) (d : GeneratedInputDelivery)
  : Prop := {
  at_confirmation : forall sequence activity,
    gid_provider_confirmation d = Some (sequence, activity) ->
    newer_observed observed x d (gid_runtime_epoch d) sequence;
  at_state : says_confirmed (gid_state d) = true ->
    exists epoch sequence, newer_observed observed x d epoch sequence
}.

Definition all_attested (observed : list (string * N * N)) (r : DeliveryRuntime) : Prop :=
  forall x d, dr_deliveries r !! x = Some d -> attested observed x d.

Section attested.
Context (observed : list (string * N * N)).
Implicit Types (r : DeliveryRuntime) (x : string) (d : GeneratedInputDelivery).

Lemma attested_more more x d : attested observed x d -> attested (observed ++ more) x d.
Proof.
  intros [Hc Hs]. split; unfold newer_observed in *.
  - intros sequence activity H. destruct (Hc _ _ H). split; [apply elem_of_app; by left|done].
  - intros H. destruct (Hs H) as (epoch & sequence & ? & ?). exists epoch, sequence.
    split; [apply elem_of_app; by left|done].
Qed.

(** A change that keeps the confirmation and does not make the state say
    confirmed. *)
Lemma attested_same x d d' :
  attested observed x d -> gid_provider_confirmation d' = gid_provider_confirmation d ->
  gid_runtime_epoch d' = gid_runtime_epoch d ->
  gid_provider_sequence_baseline d' = gid_provider_sequence_baseline d ->
  (says_confirmed (gid_state d') = true -> says_confirmed (gid_state d) = true) ->
  attested observed x d'.
Proof.
  intros [Hc Hs] E1 E2 E3 Hst. split; unfold newer_observed in *.
  - rewrite E1, E2, E3. apply Hc.
  - intros H. rewrite E3. auto.
Qed.

(** A change that confirms on the remembered observation. *)
Lemma attested_confirmed x d d' sequence activity :
  attested observed x d -> gid_provider_confirmation d = Some (sequence, activity) ->
  gid_provider_confirmation d' = gid_provider_confirmation d ->
  gid_runtime_epoch d' = gid_runtime_epoch d ->
  gid_provider_sequence_baseline d' = gid_provider_sequence_baseline d ->
  attested observed x d'.
Proof.
  intros [Hc Hs] Hconf E1 E2 E3. split; unfold newer_observed in *.
  - rewrite E1, E2, E3. apply Hc.
  - intros _. rewrite E3. eauto.
Qed.

(** A change that records an observation. *)
Lemma attested_observed x d sequence activity :
  gid_provider_confirmation d = Some (sequence, activity) ->
  newer_observed observed x d (gid_runtime_epoch d) sequence -> attested observed x d.
Proof. intros Hconf Hn. split; [|eauto]. intros s a H. by simplify_eq. Qed.

Lemma attested_none x d :
  gid_provider_confirmation d = None -> says_confirmed (gid_state d) = false ->
  attested observed x d.
Proof. intros Hc Hs. split; congruence. Qed.

Lemma all_attested_write r x slot :
  all_attested observed r -> attested observed x slot.1 ->
  all_attested observed (write_back x slot r).
Proof.
  intros Hall Hat y d. simpl. rewrite lookup_insert_Some. intros [[<- <-]|[_ Hy]]; [done|].
  by apply Hall.
Qed.

Lemma all_attested_sub r r' :
  all_attested observed r -> dr_deliveries r' ⊆ dr_deliveries r -> all_attested observed r'.
Proof. intros Hall Hsub x d Hx. apply Hall. by eapply lookup_weaken. Qed.

Lemma evict_sub r : dr_deliveries (evict_oldest_terminal_delivery r) ⊆ dr_deliveries r.
Proof.
  unfold evict_oldest_terminal_delivery. destruct (position _ _) as [[i x]|]; [|done].
  destruct (dr_deliveries r !! x); apply delete_subseteq.
Qed.

Lemma remove_sub r x : dr_deliveries (remove_session x r) ⊆ dr_deliveries r.
Proof.
  unfold remove_session. destruct (dr_deliveries r !! x); simpl; [apply delete_subseteq|done].
Qed.

Lemma all_attested_insert r x d cells :
  all_attested observed r -> gid_provider_confirmation d = None ->
  says_confirmed (gid_state d) = false -> all_attested observed (insert_delivery x d cells r).
Proof.
  intros Hall Hc Hs y e. unfold insert_delivery. simpl. rewrite lookup_insert_Some.
  intros [[<- <-]|[_ Hy]]; [by apply attested_none|].
  apply Hall. destruct (dr_deliveries r !! x); done.
Qed.

Lemma all_attested_fail r x failure :
  all_attested observed r -> all_attested observed (fail_immediately x failure r).
Proof.
  intros Hall. unfold fail_immediately. destruct (dr_deliveries r !! x) as [d|] eqn:Hx; [|done].
  apply all_attested_write; [done|]. by eapply attested_same; [by apply Hall|..].
Qed.

Lemma all_attested_launch answers x epoch id cells submission settlement r :
  all_attested observed r ->
  all_attested observed
    (bg_runtime (launch_worker answers x epoch id cells submission settlement r)).
Proof.
  intros Hall. unfold launch_worker.
  repeat case_match; simpl; first [done | by apply all_attested_fail].
Qed.

Lemma all_attested_begin answers x epoch baseline submission settlement r :
  all_attested observed r ->
  all_attested observed (bg_runtime (begin answers x epoch baseline submission settlement r)).
Proof.
  intros Hall. unfold begin. destruct (negb _); [done|].
  set (r0 := if _ && _ then evict_oldest_terminal_delivery r else r).
  assert (all_attested observed r0)
    by (unfold r0; case_match; [by eapply all_attested_sub, evict_sub|done]).
  case_match; [done|]. by apply all_attested_launch, all_attested_insert.
Qed.

Lemma all_attested_block x epoch baseline submission cause notification r :
  all_attested observed r ->
  all_attested observed
    (block_for_unavailable_composer x epoch baseline submission cause notification r).2.
Proof.
  intros Hall. unfold block_for_unavailable_composer.
  destruct (dr_deliveries r !! x) as [d|] eqn:Hx.
  - destruct (_ != _); [done|]. destruct (_ == _).
    { apply all_attested_write; [done|]. by eapply attested_same; [by apply Hall|..]. }
    destruct (negb _); [done|]. apply all_attested_insert; [|done..].
    apply all_attested_write; [done|]. by eapply attested_same; [by apply Hall|..].
  - set (r0 := if (_ <=? _)%nat then evict_oldest_terminal_delivery r else r).
    assert (all_attested observed r0)
      by (unfold r0; case_match; [by eapply all_attested_sub, evict_sub|done]).
    case_match; [done|]. by apply all_attested_insert.
Qed.

Lemma all_attested_transition x epoch r :
  all_attested observed r -> all_attested observed (transition_runtime_epoch x epoch r).2.
Proof.
  intros Hall. unfold transition_runtime_epoch.
  destruct (dr_deliveries r !! x) as [d|] eqn:Hx; [|done].
  destruct (_ == _); [done|]. simpl. apply all_attested_write; [done|].
  destruct (Hall x d Hx) as [_ Hs]. case_bool_decide as Hst; simpl in *.
  - split; [done|]. intros H. destruct (Hs ltac:(by rewrite Hst)) as (e & sq & ? & ?).
    by exists e, sq.
  - by apply attested_none.
Qed.

Lemma attested_merge x slot diagnostics :
  attested observed x slot.1 ->
  attested observed x (merge_transport_diagnostics slot diagnostics).1.1.
Proof. destruct slot as [d c]. intros H. by eapply attested_same. Qed.

Lemma attested_failure x failure st slot :
  says_confirmed st = false -> attested observed x slot.1 ->
  attested observed x (apply_transport_failure failure st slot).1.
Proof.
  intros Hst H. destruct slot as [d c]. unfold apply_transport_failure. simpl.
  case_match; simpl; [by apply attested_none|].
  destruct (gid_provider_confirmation d) as [[sequence activity]|] eqn:Hc; simpl.
  - by eapply (attested_confirmed x d).
  - apply attested_none; [by simpl|done].
Qed.

Lemma attested_outcome x outcome slot slot' :
  attested observed x slot.1 -> apply_outcome outcome slot = Some slot' ->
  attested observed x slot'.1.
Proof.
  intros H. unfold apply_outcome. destruct outcome; case_match; try done.
  - intros [= <-]. simpl.
    destruct (gid_provider_confirmation slot.1) as [[sequence activity]|] eqn:Hc.
    + case_match; [by eapply (attested_confirmed x slot.1)|by eapply attested_same].
    + by eapply attested_same.
  - by intros [= <-].
  - destruct slot as [d c]. intros [= <-]. by eapply attested_same.
  - destruct slot as [d c]. intros [= <-]. by eapply attested_same.
  - intros [= <-]. by apply attested_failure.
  - intros [= <-]. by apply attested_failure.
Qed.

Lemma all_attested_apply event r :
  all_attested observed r -> all_attested observed (apply_transport_event event r).2.
Proof.
  intros Hall. unfold apply_transport_event.
  destruct (dr_deliveries r !! _) as [d|] eqn:Hx; [|done]. destruct (_ || _); [done|].
  pose proof (attested_merge (ev_session_id event) (d, cells_of r d) (ev_diagnostics event)
    (Hall _ d Hx)) as Hm.
  destruct (merge_transport_diagnostics _ _) as [slot changed]. simpl in Hm.
  destruct (apply_outcome _ _) as [slot'|] eqn:Happ; apply all_attested_write; try done.
  by eapply attested_outcome.
Qed.

Lemma attested_signal x slot :
  attested observed x slot.1 -> attested observed x (signal_provider_ack slot).1.
Proof. destruct slot as [d c]. intros H. by eapply attested_same. Qed.

(** A remembered observation is an old one or the new one. *)
Lemma attested_remembered x d epoch sequence activity :
  attested observed x d -> gid_state d = GS_WritingPaste -> gid_runtime_epoch d = epoch ->
  newer_observed observed x d epoch sequence ->
  attested observed x
    (d <| gid_provider_confirmation := remember_confirmation d sequence activity |>).
Proof.
  intros [Hc Hs] Hst He Hn. split; simpl; [|by rewrite Hst].
  unfold newer_observed in *. simpl. unfold remember_confirmation. intros s a.
  destruct (gid_provider_confirmation d) as [[current old]|]; [case_match|].
  - intros [= <- <-]. by eapply Hc.
  - intros [= <- <-]. by rewrite He.
  - intros [= <- <-]. by rewrite He.
Qed.

Lemma all_attested_submission x epoch sequence activity r :
  (x, epoch, sequence) ∈ observed -> all_attested observed r ->
  all_attested observed (confirm_provider_submission x epoch sequence activity r).2.
Proof.
  intros Hin Hall. unfold confirm_provider_submission.
  destruct (dr_deliveries r !! x) as [d|] eqn:Hx; [|done].
  destruct (_ || _) eqn:Hg; [done|]. guards. subst epoch.
  assert (newer_observed observed x d (gid_runtime_epoch d) sequence) as Hn
    by (split; [done|by apply N.leb_gt]).
  destruct (is_some_and _ _); [done|]. case_bool_decide as Hst.
  { apply all_attested_write; [done|]. apply attested_signal. by eapply attested_remembered; [by apply Hall|..]. }
  destruct (gid_state d); try done;
    (apply all_attested_write; [done|]; by eapply attested_observed).
Qed.

Lemma all_attested_progress x epoch sequence r :
  all_attested observed r ->
  all_attested observed (confirm_provider_progress x epoch sequence r).2.
Proof.
  intros Hall. unfold confirm_provider_progress.
  destruct (dr_deliveries r !! x) as [d|] eqn:Hx; [|done]. destruct (_ != _); [done|].
  destruct (_ && _).
  { apply all_attested_write; [done|]. by apply Hall. }
  case_bool_decide as Hst; simpl; [|done].
  destruct (gid_provider_confirmation d) as [[confirmed ?]|]; [|done].
  destruct (_ <=? _)%N; [done|]. apply all_attested_write; [done|].
  eapply attested_same; [by apply Hall|done..|]. by rewrite Hst.
Qed.

Lemma all_attested_queue_progress x epoch sequence r :
  (x, epoch, sequence) ∈ observed -> all_attested observed r ->
  all_attested observed (confirm_provider_queue_progress x epoch sequence r).2.
Proof.
  intros Hin Hall. unfold confirm_provider_queue_progress.
  destruct (dr_deliveries r !! x) as [d|] eqn:Hx; [|done].
  destruct (_ || _) eqn:Hg; [done|]. guards. subst epoch.
  assert (newer_observed observed x d (gid_runtime_epoch d) sequence) as Hn
    by (split; [done|by apply N.leb_gt]).
  case_bool_decide as Hst.
  { apply all_attested_write; [done|]. by eapply attested_remembered; [by apply Hall|..]. }
  destruct (_ != _); [done|]. apply all_attested_write; [done|]. by eapply attested_observed.
Qed.
End attested.

(** ** Every reachable state *)

Definition system_attested (s : System) : Prop := all_attested (sy_observed s) (sy_runtime s).

Lemma system_attested_step bracketed s s' :
  system_step bracketed s s' -> system_attested s -> system_attested s'.
Proof.
  unfold system_attested. intros [call s0|i w c m s0 Hi Hc Hm] Hall; [|exact Hall].
  assert (forall x e n, all_attested (sy_observed s0 ++ [(x, e, n)]) (sy_runtime s0) /\
    (x, e, n) ∈ sy_observed s0 ++ [(x, e, n)]) as Hmore.
  { intros x e n. split; [intros y d Hy; by apply attested_more, Hall|].
    apply elem_of_app. right. by apply list_elem_of_singleton. }
  destruct call; cbn [run_delivery_call].
  - by apply all_attested_begin.
  - by apply all_attested_block.
  - by apply all_attested_transition.
  - eapply all_attested_sub; [exact Hall|apply remove_sub].
  - destruct (sy_events s0); [done|]. by apply all_attested_apply.
  - by apply all_attested_submission; apply Hmore.
  - by apply all_attested_progress; apply Hmore.
  - by apply all_attested_queue_progress; apply Hmore.
Qed.

Lemma reachable_attested bracketed s : reachable_system bracketed s -> system_attested s.
Proof.
  unfold reachable_system. assert (system_attested initial_system) as Hok.
  { intros x d. simpl. by rewrite lookup_empty. }
  revert Hok. generalize initial_system. intros s0 Hok H. revert Hok.
  induction H as [|s0 s1 s2 Hstep _ IH]; [done|]. intros Hok. by eapply IH, system_attested_step.
Qed.
