(* ===== verification/DeliveryClaims.v ===== *)
(** * What the delivery of generated input guarantees

    Claims about every state that the runtime and its workers reach, for every
    interleaving and every answer of the terminal, the clock and the
    provider. *)

From stdpp Require Import gmap relations.
From S2P Require Import Prelude Text DeliveryRuntime DeliveryWorker DeliveryFacts DeliverySafety.
From S2P Require Import DeliveryConfirmation.

Local Open Scope string_scope.
Local Open Scope list_scope.

(** ** Running a schedule

    One terminal that answers every question favourably, to run concrete
    schedules. *)

Definition ready_facts : InputReadinessFacts := MkInputReadinessFacts 1 true true true 1 true 1.

Definition favourable {B} (query : Query B) : B :=
  match query in Query B return B with
  | QDeadline _ => true
  | QRemaining => Some 10000%N
  | QWaitForChange _ => Ok ready_facts
  | QCurrentFacts => Ok ready_facts
  | QInputReadiness => Ok ready_facts
  | QOutputSnapshot => Ok 1%N
  | QUserInputActivity => Ok (MkUserInputActivitySnapshot 0 0)
  | QWriteReceipt _ => Ok 2%N
  | QSettlement _ _ _ _ => Ok OSE_Quiescence
  | QProtocolReplySettlement _ => Ok true
  | QDiagnosticsSince _ => Ok output_activity_default
  end.

Definition favourable_move (p : Prog unit) (cells : Cells) : option Move :=
  match p with
  | Return _ => None
  | LoadCancel k => Some (MkMove (k (c_cancel_submit cells)) cells None None)
  | StorePasteStarted k => Some (MkMove k (cells <| c_paste_started := true |>) None None)
  | StoreSubmitReceipted k => Some (MkMove k (cells <| c_submit_receipted := true |>) None None)
  | RecvAck _ k => Some (MkMove (k (ack_waiting (c_ack cells))) cells None None)
  | Ask query k => Some (MkMove (k (favourable query)) cells None None)
  | Write part input k => Some (MkMove (k (Ok tt)) cells (Some (part, input)) None)
  | Send outcome diagnostics k => Some (MkMove k cells None (Some (outcome, diagnostics)))
  end.

Lemma favourable_moves p c m : favourable_move p c = Some m -> moves p c m.
Proof. destruct p; simpl; intros [= <-]; eauto. Qed.

(** A call of the runtime, or a step of the [i]-th worker. *)
Inductive Turn : Type := Do (call : DeliveryCall) | Work (i : nat).

Definition take_turn (turn : Turn) (s : System) : option System :=
  match turn with
  | Do call => Some (run_delivery_call true call s)
  | Work i =>
      match sy_workers s !! i with
      | None => None
      | Some worker =>
          match dr_cells (sy_runtime s) !! tp_cells (wk_plan worker) with
          | None => None
          | Some cells =>
              (fun m => apply_move i (wk_plan worker) m s)
                <$> favourable_move (wk_prog worker) cells
          end
      end
  end.
Fixpoint execute (schedule : list Turn) (s : System) : option System :=
  match schedule with
  | [] => Some s
  | turn :: rest => take_turn turn s ≫= execute rest
  end.

Lemma execute_reaches schedule s s' :
  execute schedule s = Some s' -> rtc (system_step true) s s'.
Proof.
  revert s. induction schedule as [|turn rest IH]; intros s; simpl; [by intros [= ->]|].
  destruct (take_turn turn s) as [s1|] eqn:Hturn; simpl; [|done]. intros Hrest.
  eapply rtc_l; [|by apply IH]. destruct turn as [call|i]; simpl in Hturn.
  - injection Hturn as <-. constructor.
  - destruct (sy_workers s !! i) as [w|] eqn:Hi; [|done].
    destruct (dr_cells (sy_runtime s) !! _) as [c|] eqn:Hc; [|done].
    destruct (favourable_move _ _) as [m|] eqn:Hm; [|done]. injection Hturn as <-.
    by eapply step_worker, favourable_moves.
Qed.

(** ** A sample run *)

Definition sample_prompt : GeneratedTerminalSubmission :=
  MkGeneratedTerminalSubmission (MkProvenance "builtin.agent.task-workflow" 1) [104; 105]%N [13]%N.
Definition sample_answers : BeginAnswers :=
  MkBeginAnswers (Ok (MkUserInputActivitySnapshot 0 0)) (Ok ready_facts) (Ok 0%N) (Ok tt) true.
Definition begin_sample (baseline : N) : Turn :=
  Do (CallBegin sample_answers 3 "session" 1 baseline sample_prompt ST_ComposerRender).
Definition sample_schedule : list Turn :=
  begin_sample 4 :: replicate 15 (Work 0)
  ++ [Do CallApplyEvent; Do (CallSubmission "session" 1 5 None); Work 0].
Definition sample_plan : GeneratedInputTransportPlan :=
  MkTransportPlan "session" 1 1 sample_prompt ready_facts None ST_ComposerRender
    (MkUserInputActivitySnapshot 0 0) 0.
Definition after (schedule : list Turn) : System :=
  default initial_system (execute schedule initial_system).

Lemma after_reachable schedule :
  is_some (execute schedule initial_system) = true -> reachable_system true (after schedule).
Proof.
  unfold after. destruct (execute schedule initial_system) eqn:H; [|done].
  intros _. by apply execute_reaches in H.
Qed.

(** ** Facts about [begin] *)

Lemma active_refused r x epoch d :
  dr_deliveries r !! x = Some d -> is_active (gid_state d) = true ->
  can_begin_pending_submission r x epoch = false.
Proof.
  intros Hx Ha. unfold can_begin_pending_submission, unwritten_block. rewrite Hx. simpl.
  destruct (gid_state d); try done; simpl; by rewrite andb_false_r.
Qed.

Lemma evict_keeps_active r y d :
  dr_deliveries r !! y = Some d -> is_active (gid_state d) = true ->
  dr_deliveries (evict_oldest_terminal_delivery r) !! y = Some d.
Proof.
  intros Hy Ha. unfold evict_oldest_terminal_delivery.
  destruct (position _ _) as [[i x]|] eqn:Hpos; [|done]. apply position_Some in Hpos as [_ Hx].
  assert (x <> y) as Hne by (intros ->; rewrite Hy in Hx; simpl in Hx; by rewrite Ha in Hx).
  destruct (dr_deliveries r !! x); simpl; by rewrite lookup_delete_ne.
Qed.

Lemma fail_other r x y failure :
  x <> y -> dr_deliveries (fail_immediately x failure r) !! y = dr_deliveries r !! y.
Proof.
  intros Hne. unfold fail_immediately. destruct (dr_deliveries r !! x); simpl; [|done].
  by rewrite lookup_insert_ne.
Qed.

Lemma launch_other answers x y epoch id cells submission settlement r :
  x <> y ->
  dr_deliveries (bg_runtime (launch_worker answers x epoch id cells submission settlement r)) !! y
  = dr_deliveries r !! y.
Proof.
  intros Hne. unfold launch_worker. repeat case_match; simpl; rewrite ?fail_other; done.
Qed.

Lemma insert_delivery_other r x y d cells :
  x <> y -> dr_deliveries (insert_delivery x d cells r) !! y = dr_deliveries r !! y.
Proof.
  intros Hne. unfold insert_delivery. simpl. rewrite lookup_insert_ne by done.
  by destruct (dr_deliveries r !! x).
Qed.

Lemma begin_keeps_active answers x epoch baseline submission settlement r y d :
  dr_deliveries r !! y = Some d -> is_active (gid_state d) = true ->
  dr_deliveries (bg_runtime (begin answers x epoch baseline submission settlement r)) !! y = Some d.
Proof.
  intros Hy Ha. unfold begin. destruct (can_begin_pending_submission r x epoch) eqn:Hcan; [|done].
  cbn [negb]. assert (x <> y) as Hne
    by (intros ->; by rewrite (active_refused r y epoch d) in Hcan).
  set (r0 := if _ && _ then evict_oldest_terminal_delivery r else r).
  assert (dr_deliveries r0 !! y = Some d) as Hy0
    by (unfold r0; case_match; [by apply evict_keeps_active|done]).
  case_match; [done|]. by rewrite launch_other, insert_delivery_other.
Qed.

(** ** Claims *)

(** C18: every delivery pastes its prompt at most once and presses Enter only
    after its paste was accepted, and at most twice unless it is a persistent
    assistant wake; and while the delivery of a Session has pasted, no new one
    starts there unless the old one ended confirmed or was handed back to the
    user. *)
Theorem generated_input_is_pasted_once (bracketed : bool) (s : System) :
  reachable_system bracketed s ->
  (forall cells, pastes cells s <= 1 /\ (0 < submits cells s -> pastes cells s = 1)) /\
  (forall worker, worker ∈ sy_workers s ->
     submission_is_persistent_wake (tp_submission (wk_plan worker)) = false ->
     submits (tp_cells (wk_plan worker)) s <= 2) /\
  (forall answers x epoch baseline submission settlement d,
     dr_deliveries (sy_runtime s) !! x = Some d -> pastes (gid_cells d) s = 1 ->
     bg_accepted (begin answers x epoch baseline submission settlement (sy_runtime s)) = true ->
     accepts_replacement (gid_state d) = true).
Proof.
  intros Hok%reachable_system_ok. split_and!.
  - intros cells. pose proof (so_once _ Hok cells). pose proof (so_first _ Hok cells). lia.
  - intros worker [i Hi]%list_elem_of_lookup_1 Hwake.
    destruct (wo_within _ _ (so_workers _ Hok i worker Hi)) as (np & ns & _ & _ & Hs).
    specialize (Hs Hwake). lia.
  - intros answers x epoch baseline submission settlement d Hx Hp Hacc.
    destruct (began_allowed _ _ _ _ _ (begin_spec answers x epoch baseline submission settlement
      (sy_runtime s)) Hacc) as [Hcan _].
    unfold can_begin_pending_submission in Hcan. rewrite Hx in Hcan. simpl in Hcan. guards.
    apply orb_true_iff in H0 as [|Hun]; [done|]. exfalso. unfold unwritten_block, cells_of in Hun.
    destruct (lookup_lt_is_Some_2 _ _ (ok_cells _ (so_runtime _ Hok) x d Hx)) as [c Hc].
    rewrite Hc in Hun. simpl in Hun. rewrite (so_flag _ Hok (gid_cells d) c) in Hun; [|lia|done].
    by rewrite andb_false_r in Hun.
Qed.

Lemma generated_input_is_pasted_once_witness :
  pastes 0 (after sample_schedule) = 1 /\ submits 0 (after sample_schedule) <= 2.
Proof.
  assert (reachable_system true (after sample_schedule)) as Hr
    by (apply after_reachable; vm_compute; reflexivity).
  destruct (generated_input_is_pasted_once true (after sample_schedule) Hr) as (Hone & Htwice & _).
  split.
  - apply (Hone 0). vm_compute. lia.
  - assert (wk_plan <$> sy_workers (after sample_schedule) = [sample_plan]) as Hplans
      by (vm_compute; reflexivity).
    destruct (sy_workers (after sample_schedule)) as [|w l]; [discriminate Hplans|].
    injection Hplans as Hplan _.
    pose proof (Htwice w ltac:(left) ltac:(rewrite Hplan; reflexivity)) as Hle.
    rewrite Hplan in Hle. exact Hle.
Defined.

(** C19: once the cancel flag of a delivery is set, its worker writes at most
    one more part to the terminal, the one it had already decided on, whatever
    happens next. *)
Theorem cancelled_worker_stops (bracketed : bool) (s s' : System) (cells : nat) :
  reachable_system bracketed s -> cancelled cells s -> rtc (system_step bracketed) s s' ->
  pastes cells s' + submits cells s' <= pastes cells s + submits cells s + 1.
Proof.
  intros Hok%reachable_system_ok Hcan Hrun.
  exact (cancelled_run _ _ _ _ _ Hrun Hok Hcan (stopped_writes_left s cells Hok)).
Qed.

(** A delivery cancelled by the epoch's end before it wrote. *)
Definition cancelled_schedule : list Turn :=
  [begin_sample 4; Work 0; Work 0; Do (CallTransition "session" 2)].

Lemma cancelled_worker_stops_witness :
  pastes 0 (after (cancelled_schedule ++ replicate 3 (Work 0)))
  + submits 0 (after (cancelled_schedule ++ replicate 3 (Work 0))) <= 1.
Proof.
  apply (cancelled_worker_stops true (after cancelled_schedule)).
  - apply after_reachable. vm_compute. reflexivity.
  - eexists. split; vm_compute; reflexivity.
  - apply (execute_reaches (replicate 3 (Work 0))). vm_compute. reflexivity.
Defined.

(** At most 256 deliveries are kept, the insertion order lists exactly the
    Sessions that have one, once each, and starting a delivery neither evicts
    nor changes a delivery still in flight. *)
Theorem deliveries_stay_bounded (bracketed : bool) (s : System) :
  reachable_system bracketed s ->
  size (dr_deliveries (sy_runtime s)) <= max_runtime_deliveries /\
  NoDup (dr_order (sy_runtime s)) /\
  (forall x, x ∈ dr_order (sy_runtime s) <-> is_Some (dr_deliveries (sy_runtime s) !! x)) /\
  (forall answers x epoch baseline submission settlement y d,
     dr_deliveries (sy_runtime s) !! y = Some d -> is_active (gid_state d) = true ->
     dr_deliveries (bg_runtime (begin answers x epoch baseline submission settlement
                                  (sy_runtime s))) !! y = Some d).
Proof.
  intros Hok%reachable_system_ok. destruct (so_runtime _ Hok) as [Hsize Horder Htracked _ _].
  split_and!; [done..|]. intros. by apply begin_keeps_active.
Qed.

Lemma deliveries_stay_bounded_witness :
  size (dr_deliveries (sy_runtime (after sample_schedule))) <= 256.
Proof.
  apply (deliveries_stay_bounded true). apply after_reachable. vm_compute. reflexivity.
Defined.

(** A delivery is reported confirmed only after the runtime was told of a
    provider observation of the same Session newer than the sequence the
    delivery started from; the terminal's output alone never confirms. *)
Theorem confirmation_is_caused (bracketed : bool) (s : System) (x : string)
    (d : GeneratedInputDelivery) :
  reachable_system bracketed s -> dr_deliveries (sy_runtime s) !! x = Some d ->
  says_confirmed (gid_state d) = true ->
  exists epoch sequence, (x, epoch, sequence) ∈ sy_observed s /\
    (gid_provider_sequence_baseline d < sequence)%N.
Proof. intros Hs Hx. exact (at_state _ _ _ (reachable_attested _ _ Hs x d Hx)). Qed.

Lemma confirmation_is_caused_witness :
  exists epoch sequence, ("session", epoch, sequence) ∈ sy_observed (after sample_schedule) /\
    (4 < sequence)%N.
Proof.
  assert (exists d, dr_deliveries (sy_runtime (after sample_schedule)) !! "session" = Some d /\
    says_confirmed (gid_state d) = true /\ gid_provider_sequence_baseline d = 4%N)
    as (d & Hx & Hd & Hbase) by (eexists; split_and!; vm_compute; reflexivity).
  rewrite <- Hbase. apply (confirmation_is_caused true (after sample_schedule) "session" d);
    [|exact Hx|exact Hd]. apply after_reachable. vm_compute. reflexivity.
Defined.

(** ** A blocked delivery and its retry

    The first worker passes its cancellation check, the composer becomes
    unavailable and the delivery is blocked before the worker sets
    [paste_started], the retry starts, and only then does the first worker
    paste. *)
Definition retry_schedule : list Turn :=
  [begin_sample 4; Work 0; Work 0;
   Do (CallBlock "session" 1 5 sample_prompt GC_PermissionRequested None); begin_sample 6]
  ++ replicate 3 (Work 0) ++ replicate 12 (Work 1).

(** C38: [paste_started] does not exclude a second paste of the same prompt: a
    reachable schedule blocks a delivery whose worker has passed its last
    cancellation check, accepts the retry because nothing was pasted yet, and
    then both workers paste the prompt into the same Session and epoch. *)
Theorem blocked_retry_can_paste_twice :
  exists s, reachable_system true s /\ sy_observed s = [] /\
    sy_writes s =
      [MkTerminalWrite 0 "session" 1 Paste (gts_paste_input sample_prompt);
       MkTerminalWrite 1 "session" 1 Paste (gts_paste_input sample_prompt);
       MkTerminalWrite 1 "session" 1 Submit (gts_submit_input sample_prompt)].
Proof.
  exists (after retry_schedule).
  split; [apply after_reachable; vm_compute; reflexivity|split; vm_compute; reflexivity].
Qed.
