(* ===== verification/TerminalWire.v ===== *)
(** * Terminal wire frames

    [src/modules/terminal-wire/src/lib.rs] and [bound.rs]: the frames between a
    terminal client and the daemon. A byte is an [N] below 256. [Uuid] is a type
    of the [uuid] crate; what the frames use of it is the class [UuidCrate]. *)

From stdpp Require Import list.
From S2P Require Import Prelude.

Local Open Scope N_scope.
Local Open Scope list_scope.
Local Open Scope rust_scope.

(** ** Big-endian integers *)

(** [to_be_bytes] of an integer of [n] bytes. *)
Fixpoint to_be_bytes (n : nat) (v : N) : list N :=
  match n with
  | O => []
  | S n => to_be_bytes n (N.shiftr v 8) ++ [N.land v 255]
  end.

(** [from_be_bytes]. *)
Definition from_be_bytes (bytes : list N) : N :=
  fold_left (fun v b => N.lor (N.shiftl v 8) b) bytes 0.

Definition is_byte (b : N) : Prop := b < 256.
Definition bytes_ok (bytes : list N) : Prop := Forall is_byte bytes.

Create HintDb bytes discriminated.
#[export] Hint Constants Transparent : bytes.

Lemma length_to_be_bytes n v : length (to_be_bytes n v) = n.
Proof. revert v. induction n as [|n IH]; intros v; simpl; [done|]. rewrite length_app, IH. simpl. lia. Qed.

Lemma land_255 v : N.land v 255 = v mod 256.
Proof. exact (N.land_ones v 8). Qed.

Lemma shiftr_8 v : N.shiftr v 8 = v / 256.
Proof. exact (N.shiftr_div_pow2 v 8). Qed.

Lemma to_be_bytes_ok n v : bytes_ok (to_be_bytes n v).
Proof.
  revert v. induction n as [|n IH]; intros v; simpl; [constructor|].
  apply Forall_app. split; [apply IH|]. constructor; [|constructor].
  unfold is_byte. rewrite land_255. apply N.mod_lt. lia.
Qed.

Lemma push_byte v b : is_byte b -> N.lor (N.shiftl v 8) b = 256 * v + b.
Proof.
  unfold is_byte. intros Hb. rewrite N.shiftl_mul_pow2. change (2 ^ 8) with 256.
  rewrite <- N.lxor_lor, <- N.add_nocarry_lxor; try lia.
  all: apply N.bits_inj; intros i; rewrite N.land_spec, N.bits_0;
    change 256 with (2 ^ 8); destruct (N.lt_ge_cases i 8).
  1,3: by rewrite N.mul_pow2_bits_low.
  all: rewrite andb_false_iff; right; apply N.bits_above_log2;
    destruct (N.eq_dec b 0) as [->|]; [simpl; lia|]; apply N.log2_lt_pow2; [lia|];
    eapply N.lt_le_trans; [exact Hb|]; change 256 with (2 ^ 8); apply N.pow_le_mono_r; lia.
Qed.

Lemma from_be_bytes_snoc bytes b :
  is_byte b -> from_be_bytes (bytes ++ [b]) = 256 * from_be_bytes bytes + b.
Proof. intros Hb. unfold from_be_bytes. rewrite fold_left_app. simpl. by apply push_byte. Qed.

(** Decoding an encoded integer gives it back modulo the width. *)
Lemma from_to_be_bytes n v : from_be_bytes (to_be_bytes n v) = v mod 256 ^ N.of_nat n.
Proof.
  revert v. induction n as [|n IH]; intros v; [by rewrite N.mod_1_r|].
  cbn [to_be_bytes]. rewrite from_be_bytes_snoc
    by (unfold is_byte; rewrite land_255; apply N.mod_lt; lia).
  rewrite IH, land_255, shiftr_8, Nat2N.inj_succ, N.pow_succ_r'.
  rewrite N.Div0.mod_mul_r by lia. lia.
Qed.

Lemma to_from_be_bytes bytes :
  bytes_ok bytes -> to_be_bytes (length bytes) (from_be_bytes bytes) = bytes.
Proof.
  induction bytes as [|b bytes IH] using rev_ind; [done|]. intros [Hs Hb]%Forall_app. apply Forall_inv in Hb.
  rewrite from_be_bytes_snoc by exact Hb. rewrite length_app, Nat.add_comm. simpl.
  rewrite land_255, shiftr_8. unfold is_byte in Hb.
  replace (256 * from_be_bytes bytes + b) with (b + from_be_bytes bytes * 256) by lia.
  rewrite N.div_add, N.div_small, N.Div0.mod_add, N.mod_small, N.add_0_l by lia. by rewrite IH.
Qed.

Lemma from_be_bytes_bound bytes :
  bytes_ok bytes -> from_be_bytes bytes < 256 ^ N.of_nat (length bytes).
Proof.
  induction bytes as [|b bytes IH] using rev_ind; [done|].
  intros [Hs Hb]%Forall_app. apply Forall_inv in Hb. specialize (IH Hs). unfold is_byte in Hb.
  rewrite from_be_bytes_snoc by exact Hb. rewrite length_app. simpl length.
  rewrite Nat.add_comm. cbn [Nat.add]. rewrite Nat2N.inj_succ, N.pow_succ_r'. lia.
Qed.

(** ** What the frames use of the [uuid] crate

    A [Uuid] is sixteen bytes; [from_slice] accepts exactly the slices of that
    length. *)
Class UuidCrate (Uuid : Type) := {
  uuid_as_bytes : Uuid -> list N;
  uuid_from_slice : list N -> option Uuid;
  uuid_length : forall u, length (uuid_as_bytes u) = 16%nat;
  uuid_bytes : forall u, bytes_ok (uuid_as_bytes u);
  uuid_round_trip : forall u, uuid_from_slice (uuid_as_bytes u) = Some u;
  uuid_from_slice_bytes : forall bytes u,
    uuid_from_slice bytes = Some u -> uuid_as_bytes u = bytes;
  uuid_from_slice_total : forall bytes,
    length bytes = 16%nat -> bytes_ok bytes -> is_Some (uuid_from_slice bytes)
}.

(** ** Session frames *)

Definition terminal_frame_magic : list N := [84; 76; 48; 49].
Definition terminal_header_len : nat := 41.
Definition max_terminal_payload : N := 16384.

Inductive FrameKind : Type :=
| FK_Input | FK_Output | FK_Resize | FK_Gap | FK_Eof | FK_ReplayOutput | FK_Attach | FK_Ack
| FK_Error | FK_Focus | FK_ResizeOwnership | FK_Detach | FK_InputAck | FK_EnableInputAck.

Definition frame_kind_as_u8 (kind : FrameKind) : N :=
  match kind with
  | FK_Input => 1 | FK_Output => 2 | FK_Resize => 3 | FK_Gap => 4 | FK_Eof => 5
  | FK_ReplayOutput => 6 | FK_Attach => 10 | FK_Ack => 11 | FK_Error => 12 | FK_Focus => 13
  | FK_ResizeOwnership => 14 | FK_Detach => 15 | FK_InputAck => 16 | FK_EnableInputAck => 17
  end.

Section frames.
Context {Uuid : Type} `{!UuidCrate Uuid}.

Record TerminalFrame : Type := MkTerminalFrame {
  tf_session_id : Uuid;
  tf_epoch : N;
  tf_sequence : N;
  tf_kind : N;
  tf_payload : list N
}.

Definition encode_terminal_frame (frame : TerminalFrame) : list N :=
  terminal_frame_magic
  ++ uuid_as_bytes (tf_session_id frame)
  ++ to_be_bytes 8 (tf_epoch frame)
  ++ to_be_bytes 8 (tf_sequence frame)
  ++ [tf_kind frame]
  ++ to_be_bytes 4 (N.of_nat (length (tf_payload frame)))
  ++ tf_payload frame.

Inductive InvalidTerminalFrame : Type := MkInvalidTerminalFrame.

(** The slice lengths are fixed, so the [try_into] conversions succeed. *)
Definition decode_terminal_frame (bytes : list N) : result InvalidTerminalFrame TerminalFrame :=
  if Nat.ltb (length bytes) terminal_header_len || (take 4 bytes != terminal_frame_magic)
  then Err MkInvalidTerminalFrame
  else
    match uuid_from_slice (slice bytes 4 20) with
    | None => Err MkInvalidTerminalFrame
    | Some session_id =>
        let epoch := from_be_bytes (slice bytes 20 28) in
        let sequence := from_be_bytes (slice bytes 28 36) in
        let kind := default 0 (bytes !! 36%nat) in
        let len := from_be_bytes (slice bytes 37 41) in
        if (max_terminal_payload <? len)
           || negb (N.of_nat (length bytes) =? N.of_nat terminal_header_len + len)
        then Err MkInvalidTerminalFrame
        else Ok (MkTerminalFrame session_id epoch sequence kind (drop 41 bytes))
    end.

(** The fields fit their machine types and the payload the frame. *)
Definition frame_ok (frame : TerminalFrame) : Prop :=
  tf_epoch frame <= u64_max /\ tf_sequence frame <= u64_max /\ is_byte (tf_kind frame) /\
  bytes_ok (tf_payload frame) /\ N.of_nat (length (tf_payload frame)) <= max_terminal_payload.

End frames.
Arguments TerminalFrame : clear implicits.

(** ** Connection-bound frames *)

Record BoundFrameFormat : Type := MkBoundFrameFormat {
  bf_magic : list N;
  bf_max_payload : N;
  bf_kinds : list N
}.

Definition u32_max : N := 4294967295.

Definition bound_encode (self : BoundFrameFormat) (kind sequence : N) (payload : list N)
  : option (list N) :=
  if negb (bool_decide (kind ∈ bf_kinds self)) || (sequence =? 0)
     || (bf_max_payload self <? N.of_nat (length payload))
  then None
  else if u32_max <? N.of_nat (length payload) then None
  else Some (bf_magic self ++ [kind] ++ to_be_bytes 4 sequence
             ++ to_be_bytes 4 (N.of_nat (length payload)) ++ payload).

Definition bound_decode (self : BoundFrameFormat) (bytes : list N) : option (N * N * list N) :=
  if Nat.ltb (length bytes) 13 || (take 4 bytes != bf_magic self) then None
  else
    let kind := default 0 (bytes !! 4%nat) in
    let sequence := from_be_bytes (slice bytes 5 9) in
    let len := from_be_bytes (slice bytes 9 13) in
    if negb (bool_decide (kind ∈ bf_kinds self)) || (sequence =? 0)
       || (bf_max_payload self <? len) || negb (N.of_nat (length bytes) =? 13 + len)
    then None
    else Some (kind, sequence, drop 13 bytes).

(** [u32::try_from(n).unwrap_or(u32::MAX)] *)
Definition u32_saturated (n : N) : N := N.min n u32_max.
Definition replay_ack_payload (event_count output_bytes : N) : list N :=
  [84; 76; 82; 65] ++ to_be_bytes 4 (u32_saturated event_count)
  ++ to_be_bytes 4 (u32_saturated output_bytes).

(** ** Laying out a frame *)

Lemma slice_app_here {A} (before part after : list A) a b :
  length before = a -> (a + length part)%nat = b -> slice (before ++ part ++ after) a b = part.
Proof.
  intros <- <-. unfold slice. rewrite app_assoc, take_app_le by (rewrite length_app; lia).
  rewrite take_ge by (rewrite length_app; lia). by rewrite drop_app_length.
Qed.

Lemma slice_length {A} (l : list A) a b :
  (a <= b)%nat -> (b <= length l)%nat -> length (slice l a b) = (b - a)%nat.
Proof. intros. unfold slice. rewrite length_drop, length_take. lia. Qed.

Lemma slice_glue {A} (l : list A) a b : (a <= b)%nat -> drop a l = slice l a b ++ drop b l.
Proof.
  intros. unfold slice. rewrite <- (take_drop b l) at 1.
  destruct (decide (b <= length l)%nat) as [Hb|Hb].
  - rewrite drop_app_le; [done|]. rewrite length_take. lia.
  - rewrite (drop_ge l b) by lia. by rewrite !app_nil_r.
Qed.

Lemma slice_bytes l a b : bytes_ok l -> bytes_ok (slice l a b).
Proof. intros. unfold slice. by apply Forall_drop, Forall_take. Qed.

Lemma lookup_glue (l : list N) i x : l !! i = Some x -> drop i l = x :: drop (S i) l.
Proof. intros. by apply drop_S. Qed.

#[export] Hint Resolve to_be_bytes_ok slice_bytes : bytes.

(** ** Session frames round trip *)
Section session_frames.
Context {Uuid : Type} `{!UuidCrate Uuid}.
Implicit Types (f : TerminalFrame Uuid) (bytes : list N).

Lemma encoded_length f :
  length (encode_terminal_frame f) = (terminal_header_len + length (tf_payload f))%nat.
Proof.
  unfold encode_terminal_frame. rewrite !length_app, uuid_length, !length_to_be_bytes. reflexivity.
Qed.

(** Where each field of an encoded frame lies. *)
Lemma encoded_fields f (e := encode_terminal_frame f) :
  take 4 e = terminal_frame_magic /\ slice e 4 20 = uuid_as_bytes (tf_session_id f) /\
  slice e 20 28 = to_be_bytes 8 (tf_epoch f) /\ slice e 28 36 = to_be_bytes 8 (tf_sequence f) /\
  e !! 36%nat = Some (tf_kind f) /\
  slice e 37 41 = to_be_bytes 4 (N.of_nat (length (tf_payload f))) /\ drop 41 e = tf_payload f.
Proof.
  unfold e, encode_terminal_frame.
  pose proof (uuid_length (tf_session_id f)) as Hu.
  pose proof (length_to_be_bytes 8 (tf_epoch f)) as He.
  pose proof (length_to_be_bytes 8 (tf_sequence f)) as Hs.
  pose proof (length_to_be_bytes 4 (N.of_nat (length (tf_payload f)))) as Hl.
  set (u := uuid_as_bytes _) in *. set (be := to_be_bytes 8 (tf_epoch f)) in *.
  set (bs := to_be_bytes 8 (tf_sequence f)) in *. set (bl := to_be_bytes 4 _) in *.
  split_and!.
  - reflexivity.
  - apply slice_app_here; simpl; lia.
  - rewrite app_assoc. apply slice_app_here; rewrite ?length_app; simpl; lia.
  - rewrite app_assoc, (app_assoc _ be). apply slice_app_here; rewrite ?length_app; simpl; lia.
  - rewrite app_assoc, (app_assoc _ be), (app_assoc _ bs).
    rewrite lookup_app_r by (rewrite !length_app; simpl; lia).
    replace (36 - _)%nat with 0%nat by (rewrite !length_app; simpl; lia). reflexivity.
  - rewrite app_assoc, (app_assoc _ be), (app_assoc _ bs), (app_assoc _ [_]).
    apply slice_app_here; rewrite ?length_app; simpl; lia.
  - rewrite app_assoc, (app_assoc _ be), (app_assoc _ bs), (app_assoc _ [_]), (app_assoc _ bl).
    rewrite drop_app_length' by (rewrite !length_app; simpl; lia). done.
Qed.

(** What the decoder makes of an encoded frame, whatever its payload. *)
Lemma decode_encoded f :
  tf_epoch f <= u64_max -> tf_sequence f <= u64_max ->
  decode_terminal_frame (encode_terminal_frame f)
  = if max_terminal_payload <? N.of_nat (length (tf_payload f))
    then Err MkInvalidTerminalFrame else Ok f.
Proof.
  intros Hepoch Hseq. destruct (encoded_fields f) as (Hm & Hu & He & Hs & Hk & Hl & Hp).
  unfold decode_terminal_frame. rewrite Hm, Hu, He, Hs, Hk, Hl, Hp, uuid_round_trip, encoded_length.
  rewrite !from_to_be_bytes. change (256 ^ N.of_nat 8) with 18446744073709551616.
  change (256 ^ N.of_nat 4) with 4294967296. unfold u64_max, max_terminal_payload in *.
  rewrite (N.mod_small (tf_epoch f)), (N.mod_small (tf_sequence f)) by lia.
  rewrite (proj2 (Nat.ltb_ge _ _)) by lia. rewrite bool_decide_eq_true_2 by done.
  rewrite Nat2N.inj_add. cbn [orb negb]. set (len := N.of_nat (length (tf_payload f))).
  destruct (N.ltb_spec 16384 len) as [Hbig|Hsmall].
  - destruct (N.ltb_spec 16384 (len mod 4294967296)) as [|Hmod]; [done|]. simpl.
    rewrite (proj2 (N.eqb_neq _ _)) by lia. done.
  - rewrite N.mod_small by lia. rewrite (proj2 (N.ltb_ge _ _)) by lia. simpl.
    rewrite N.eqb_refl. by destruct f.
Qed.

(** An accepted frame encodes to the bytes it was read from. *)
Lemma encode_decoded bytes f :
  bytes_ok bytes -> decode_terminal_frame bytes = Ok f ->
  encode_terminal_frame f = bytes /\ frame_ok f.
Proof.
  unfold decode_terminal_frame. intros Hb.
  destruct (_ || _) eqn:Hhead; [done|]. apply orb_false_iff in Hhead as [Hlen Hmagic].
  apply Nat.ltb_ge in Hlen. apply negb_false_iff, bool_decide_eq_true in Hmagic.
  destruct (uuid_from_slice _) as [u|] eqn:Hu; [|done].
  destruct (_ || _) eqn:Htail; [done|]. intros [= <-].
  apply orb_false_iff in Htail as [Hmax Heq]. apply N.ltb_ge in Hmax.
  apply negb_false_iff, N.eqb_eq in Heq. apply uuid_from_slice_bytes in Hu.
  unfold terminal_header_len in *. destruct (lookup_lt_is_Some_2 bytes 36) as [k Hk]; [lia|].
  assert (forall a b, (a <= b)%nat -> (b <= length bytes)%nat ->
    to_be_bytes (b - a) (from_be_bytes (slice bytes a b)) = slice bytes a b /\
    from_be_bytes (slice bytes a b) < 256 ^ N.of_nat (b - a)) as Hslice.
  { intros a b Hab Hbl. rewrite <- (slice_length bytes a b) by done.
    split; [apply to_from_be_bytes|apply from_be_bytes_bound]; by apply slice_bytes. }
  destruct (Hslice 20 28 ltac:(lia) ltac:(lia))%nat as [He Hebound].
  destruct (Hslice 28 36 ltac:(lia) ltac:(lia))%nat as [Hs Hsbound].
  destruct (Hslice 37 41 ltac:(lia) ltac:(lia))%nat as [Hl _].
  simpl Nat.sub in *. change (256 ^ N.of_nat 8) with 18446744073709551616 in *.
  assert (N.of_nat (length (drop 41 bytes)) = from_be_bytes (slice bytes 37 41)) as Hpay
    by (rewrite length_drop; lia).
  rewrite Hk. split.
  - unfold encode_terminal_frame. cbn [tf_session_id tf_epoch tf_sequence tf_kind tf_payload default].
    rewrite Hu, He, Hs, Hpay, Hl, <- Hmagic.
    transitivity (take 4 bytes ++ drop 4 bytes); [f_equal|apply take_drop].
    rewrite (slice_glue bytes 4 20), (slice_glue bytes 20 28), (slice_glue bytes 28 36) by lia.
    rewrite (lookup_glue bytes 36 k Hk), (slice_glue bytes 37 41) by lia. done.
  - unfold frame_ok. cbn [tf_session_id tf_epoch tf_sequence tf_kind tf_payload default].
    unfold u64_max. split_and!; [lia|lia| |by apply Forall_drop|lia].
    by eapply Forall_lookup_1.
Qed.
End session_frames.

(** ** Bound frames round trip *)

Lemma bound_accepts (format : BoundFrameFormat) kind sequence payload bytes :
  bound_encode format kind sequence payload = Some bytes <->
  kind ∈ bf_kinds format /\ sequence <> 0 /\ N.of_nat (length payload) <= bf_max_payload format /\
  N.of_nat (length payload) <= u32_max /\
  bytes = bf_magic format ++ [kind] ++ to_be_bytes 4 sequence
          ++ to_be_bytes 4 (N.of_nat (length payload)) ++ payload.
Proof.
  unfold bound_encode. destruct (_ || _) eqn:Hg.
  - split; [done|]. intros (Hk & Hs & Hm & _). exfalso. apply orb_true_iff in Hg as [Hg|Hg].
    + apply orb_true_iff in Hg as [Hg|Hg]; [by rewrite bool_decide_eq_true_2 in Hg|].
      by apply N.eqb_eq in Hg.
    + apply N.ltb_lt in Hg. lia.
  - apply orb_false_iff in Hg as [[Hk Hs]%orb_false_iff Hm].
    apply negb_false_iff, bool_decide_eq_true in Hk. apply N.eqb_neq in Hs. apply N.ltb_ge in Hm.
    destruct (N.ltb_spec u32_max (N.of_nat (length payload))).
    + split; [done|]. intros (_ & _ & _ & Hu & _). lia.
    + split; [intros [= <-]; by split_and!|]. by intros (_ & _ & _ & _ & ->).
Qed.

Lemma bound_decode_encode (format : BoundFrameFormat) kind sequence payload bytes :
  length (bf_magic format) = 4%nat -> sequence <= u32_max ->
  bound_encode format kind sequence payload = Some bytes ->
  bound_decode format bytes = Some (kind, sequence, payload).
Proof.
  intros Hmagic Hseq (Hk & Hs & Hm & Hu & ->)%bound_accepts.
  pose proof (length_to_be_bytes 4 sequence) as Hl1.
  pose proof (length_to_be_bytes 4 (N.of_nat (length payload))) as Hl2.
  unfold bound_decode. rewrite !length_app, Hmagic, Hl1, Hl2.
  rewrite (proj2 (Nat.ltb_ge _ _)) by (simpl; lia).
  rewrite take_app_length' by done. rewrite bool_decide_eq_true_2 by done. cbn [orb negb].
  rewrite lookup_app_r, Hmagic by lia. cbn [Nat.sub].
  rewrite (lookup_app_l [kind]) by (simpl; lia). cbn [default].
  rewrite (app_assoc _ [kind]).
  rewrite (slice_app_here (bf_magic format ++ [kind]) (to_be_bytes 4 sequence))
    by (rewrite ?length_app; simpl; lia).
  rewrite (app_assoc _ (to_be_bytes 4 sequence)).
  rewrite (slice_app_here _ (to_be_bytes 4 (N.of_nat (length payload))))
    by (rewrite ?length_app; simpl; lia).
  rewrite !from_to_be_bytes. change (256 ^ N.of_nat 4) with 4294967296. unfold u32_max in *.
  rewrite !N.mod_small by lia. rewrite bool_decide_eq_true_2 by done.
  rewrite (proj2 (N.eqb_neq _ _)) by done. rewrite (proj2 (N.ltb_ge _ _)) by done.
  rewrite (proj2 (N.eqb_eq _ _)) by (simpl; lia). cbn [orb negb].
  rewrite (app_assoc _ (to_be_bytes 4 (N.of_nat (length payload)))).
  by rewrite drop_app_length' by (rewrite !length_app; simpl; lia).
Qed.

Lemma bound_encode_decode (format : BoundFrameFormat) kind sequence payload bytes :
  bytes_ok bytes -> bound_decode format bytes = Some (kind, sequence, payload) ->
  bound_encode format kind sequence payload = Some bytes.
Proof.
  unfold bound_decode. intros Hb. destruct (_ || _) eqn:Hhead; [done|].
  apply orb_false_iff in Hhead as [Hlen Hmagic]. apply Nat.ltb_ge in Hlen.
  apply negb_false_iff, bool_decide_eq_true in Hmagic.
  destruct (_ || _) eqn:Hg; [done|]. intros [= <- <- <-].
  apply orb_false_iff in Hg as [[[Hk Hs]%orb_false_iff Hm]%orb_false_iff Heq].
  apply negb_false_iff, bool_decide_eq_true in Hk. apply N.eqb_neq in Hs. apply N.ltb_ge in Hm.
  apply negb_false_iff, N.eqb_eq in Heq.
  destruct (lookup_lt_is_Some_2 bytes 4) as [k Hk4]; [lia|]. rewrite Hk4 in *. cbn [default] in *.
  assert (N.of_nat (length (drop 13 bytes)) = from_be_bytes (slice bytes 9 13)) as Hpay
    by (rewrite length_drop; lia).
  assert (forall a, (a + 4 <= length bytes)%nat ->
    to_be_bytes 4 (from_be_bytes (slice bytes a (a + 4))) = slice bytes a (a + 4) /\
    from_be_bytes (slice bytes a (a + 4)) < 256 ^ 4) as Hslice.
  { intros a Ha. assert (length (slice bytes a (a + 4)) = 4%nat) as Hl
      by (rewrite slice_length by lia; lia).
    pose proof (to_from_be_bytes _ (slice_bytes bytes a (a + 4) Hb)) as Hto.
    pose proof (from_be_bytes_bound _ (slice_bytes bytes a (a + 4) Hb)) as Hlt.
    rewrite Hl in Hto, Hlt. done. }
  destruct (Hslice 5%nat ltac:(lia)) as [H5 _]. destruct (Hslice 9%nat ltac:(lia)) as [H9 Hlt].
  simpl Nat.add in *. change (256 ^ 4) with 4294967296 in Hlt.
  apply bound_accepts. rewrite Hpay. split_and!; [done..|unfold u32_max; lia|].
  rewrite H5, H9, <- Hmagic.
  transitivity (take 4 bytes ++ drop 4 bytes); [by rewrite take_drop|f_equal].
  by rewrite (lookup_glue bytes 4 k Hk4), (slice_glue bytes 5 9), (slice_glue bytes 9 13) by lia.
Qed.

(** ** Claims *)

(** C25: decoding an encoded Session frame gives it back exactly when its payload
    fits in 16 KiB, and is refused otherwise; and every byte string the decoder
    accepts is the encoding of the well-formed frame it answers, so an accepted
    frame is never a prefix of another. Connection-bound frames decode to what
    was encoded and encode to what was decoded, for every format with a
    four-byte magic. *)
Theorem terminal_frames_round_trip (Uuid : Type) `{!UuidCrate Uuid} :
  (forall f : TerminalFrame Uuid, tf_epoch f <= u64_max -> tf_sequence f <= u64_max ->
     decode_terminal_frame (encode_terminal_frame f)
     = if max_terminal_payload <? N.of_nat (length (tf_payload f))
       then Err MkInvalidTerminalFrame else Ok f) /\
  (forall bytes f, bytes_ok bytes -> decode_terminal_frame bytes = Ok f ->
     encode_terminal_frame f = bytes /\ frame_ok f) /\
  (forall bytes more f g, bytes_ok (bytes ++ more) -> decode_terminal_frame bytes = Ok f ->
     decode_terminal_frame (bytes ++ more) = Ok g -> more = []) /\
  (forall format kind sequence payload bytes,
     length (bf_magic format) = 4%nat -> sequence <= u32_max -> bytes_ok bytes ->
     bound_encode format kind sequence payload = Some bytes <->
     bound_decode format bytes = Some (kind, sequence, payload)).
Proof.
  split_and!; [intros; by apply decode_encoded|intros; by apply encode_decoded| |
    split; [by apply bound_decode_encode|by apply bound_encode_decode]].
  intros bytes more f g Hb Hf Hg.
  apply encode_decoded in Hf as [Hf (_ & _ & _ & _ & Hfl)]; [|by apply Forall_app in Hb as []].
  apply encode_decoded in Hg as [Hg (_ & _ & _ & _ & Hgl)]; [|done].
  assert (slice (encode_terminal_frame f) 37 41 = slice (encode_terminal_frame g) 37 41) as Hlen.
  { rewrite Hg, Hf. unfold slice. rewrite take_app_le; [done|].
    rewrite <- Hf, encoded_length. unfold terminal_header_len. lia. }
  apply (f_equal from_be_bytes) in Hlen.
  destruct (encoded_fields f) as (_ & _ & _ & _ & _ & Hlf & _).
  destruct (encoded_fields g) as (_ & _ & _ & _ & _ & Hlg & _).
  pose proof (encoded_length f). pose proof (encoded_length g).
  rewrite Hlf, Hlg, !from_to_be_bytes in Hlen. change (256 ^ N.of_nat 4) with 4294967296 in Hlen.
  unfold max_terminal_payload in *. rewrite !N.mod_small in Hlen by lia.
  apply (f_equal length) in Hf, Hg. rewrite length_app in Hg. apply length_zero_iff_nil. lia.
Qed.

(** Sixteen checked bytes, as an instance of the crate's interface. *)
Definition sixteen (bytes : list N) : bool :=
  Nat.eqb (length bytes) 16 && forallb (fun b => b <? 256) bytes.
Definition SixteenBytes : Type := { bytes : list N | Is_true (sixteen bytes) }.

Lemma sixteen_spec bytes : Is_true (sixteen bytes) <-> length bytes = 16%nat /\ bytes_ok bytes.
Proof.
  unfold sixteen, bytes_ok, is_byte. rewrite Is_true_true, andb_true_iff, Nat.eqb_eq, forallb_forall.
  rewrite List.Forall_forall. setoid_rewrite N.ltb_lt. done.
Qed.

Definition sixteen_from_slice (bytes : list N) : option SixteenBytes :=
  match decide (Is_true (sixteen bytes)) with
  | left H => Some (bytes ↾ H)
  | right _ => None
  end.

#[export] Program Instance sixteen_bytes_uuid : UuidCrate SixteenBytes :=
  {| uuid_as_bytes u := proj1_sig u; uuid_from_slice := sixteen_from_slice |}.
Next Obligation. intros [bytes H]. destruct (proj1 (sixteen_spec bytes) H). done. Qed.
Next Obligation. intros [bytes H]. destruct (proj1 (sixteen_spec bytes) H). done. Qed.
Next Obligation.
  intros [bytes H]. unfold sixteen_from_slice. simpl. case_decide as H'; [|done].
  do 2 f_equal. apply proof_irrel.
Qed.
Next Obligation.
  intros bytes u. unfold sixteen_from_slice. case_decide; [|done]. by intros [= <-].
Qed.
Next Obligation.
  intros bytes Hl Hb. unfold sixteen_from_slice. rewrite decide_True_pi
    with (HP := proj2 (sixteen_spec bytes) (conj Hl Hb)). by eexists.
Qed.

Definition sample_uuid : SixteenBytes := [0; 1; 2; 3; 4; 5; 6; 7; 8; 9; 10; 11; 12; 13; 14; 15] ↾ I.

Lemma terminal_frames_round_trip_witness :
  decode_terminal_frame
    (encode_terminal_frame (MkTerminalFrame sample_uuid 42 9 (frame_kind_as_u8 FK_Input) [104; 105]))
  = Ok (MkTerminalFrame sample_uuid 42 9 1 [104; 105]).
Proof.
  apply (terminal_frames_round_trip SixteenBytes); unfold u64_max; simpl; lia.
Defined.
