(* ===== verification/TerminalStructure.v ===== *)
(** * Structure of terminal output

    The byte-level machines of [src/modules/terminal/src/output_settlement.rs]:
    the cursor model [TerminalStructureParser], the set of erased rows and the
    marker matcher [record_marker], which [input_readiness.rs] declares too. A
    byte is an [N] below 256, a [u16] an [N] up to 65535. *)

From stdpp Require Import list gmap.
From S2P Require Import Prelude.

Local Open Scope N_scope.
Local Open Scope list_scope.

(** ** [u16] *)

Definition u16_max : N := 65535.
Definition u16_saturating_add (a b : N) : N := N.min (a + b) u16_max.
Definition u16_saturating_mul (a b : N) : N := N.min (a * b) u16_max.

(** ** The cursor model *)

Record CursorPosition : Type := MkCursorPosition { cp_row : N; cp_column : N }.
#[export] Instance CursorPosition_eq_dec : EqDecision CursorPosition.
Proof. solve_decision. Defined.

Inductive TerminalStructure : Type :=
| TS_CursorPosition (position : CursorPosition)
| TS_EraseLine.

Record TerminalStructureParser : Type := MkTerminalStructureParser {
  sp_stage : N;
  sp_private : bool;
  sp_parameter_index : N;
  sp_parameters : option N * option N;
  sp_cursor_position : CursorPosition
}.
#[export] Instance TerminalStructureParser_eta : Eta TerminalStructureParser := fun p =>
  MkTerminalStructureParser (sp_stage p) (sp_private p) (sp_parameter_index p) (sp_parameters p)
    (sp_cursor_position p).
#[export] Instance CursorPosition_eta : Eta CursorPosition := fun p =>
  MkCursorPosition (cp_row p) (cp_column p).

Definition structure_parser_default : TerminalStructureParser :=
  MkTerminalStructureParser 0 false 0 (None, None) (MkCursorPosition 1 1).

Definition parser_reset (self : TerminalStructureParser) : TerminalStructureParser :=
  self <| sp_stage := 0 |> <| sp_private := false |> <| sp_parameter_index := 0 |>
    <| sp_parameters := (None, None) |>.

Definition is_ascii_graphic (byte : N) : bool := (33 <=? byte) && (byte <=? 126).
Definition is_ascii_digit (byte : N) : bool := (48 <=? byte) && (byte <=? 57).
Definition is_final_byte (byte : N) : bool := (64 <=? byte) && (byte <=? 126).

(** [self.cursor_position = position; return Some(CursorPosition(position))] *)
Definition move_to (position : CursorPosition) (self : TerminalStructureParser)
  : TerminalStructureParser * option TerminalStructure :=
  (self <| sp_cursor_position := position |>, Some (TS_CursorPosition position)).

Definition tab_stop (column : N) : N :=
  u16_saturating_add (u16_saturating_mul (u16_saturating_add ((column - 1) / 8) 1) 8) 1.

(** Bytes outside an escape sequence. *)
Definition record_ground (byte : N) (self : TerminalStructureParser)
  : TerminalStructureParser * option TerminalStructure :=
  let cursor := sp_cursor_position self in
  if byte =? 27 then (self <| sp_stage := 1 |>, None)
  else if byte =? 13 then move_to (cursor <| cp_column := 1 |>) self
  else if byte =? 10 then move_to (cursor <| cp_row := u16_saturating_add (cp_row cursor) 1 |>) self
  else if byte =? 8
       then move_to (cursor <| cp_column := N.max (cp_column cursor - 1) 1 |>) self
  else if byte =? 9 then move_to (cursor <| cp_column := tab_stop (cp_column cursor) |>) self
  else if is_ascii_graphic byte || (byte =? 32) || (192 <=? byte)
       then (self <| sp_cursor_position :=
                       cursor <| cp_column := u16_saturating_add (cp_column cursor) 1 |> |>, None)
  else (self, None).

(** The byte after an escape. *)
Definition record_escape (byte : N) (self : TerminalStructureParser)
  : TerminalStructureParser * option TerminalStructure :=
  if byte =? 91
  then (self <| sp_stage := 2 |> <| sp_private := false |> <| sp_parameter_index := 0 |>
             <| sp_parameters := (None, None) |>, None)
  else if byte =? 27 then (self, None)
  else (parser_reset self, None).

(** A digit of the current parameter; a third parameter makes the sequence
    private. *)
Definition record_digit (byte : N) (self : TerminalStructureParser) : TerminalStructureParser :=
  let push parameter :=
    Some (u16_saturating_add (u16_saturating_mul (default 0 parameter) 10) (byte - 48)) in
  let '(first, second) := sp_parameters self in
  match sp_parameter_index self with
  | 0 => self <| sp_parameters := (push first, second) |>
  | 1 => self <| sp_parameters := (first, push second) |>
  | _ => self <| sp_private := true |>
  end.

(** A complete sequence with final byte [byte]. *)
Definition complete_csi (byte : N) (self : TerminalStructureParser)
  : TerminalStructureParser * option TerminalStructure :=
  let first := N.max (default 1 (sp_parameters self).1) 1 in
  let second := N.max (default 1 (sp_parameters self).2) 1 in
  let cursor := sp_cursor_position self in
  match byte with
  | 72 | 102 => move_to (MkCursorPosition first second) self
  | 65 => move_to (cursor <| cp_row := N.max (cp_row cursor - first) 1 |>) self
  | 66 => move_to (cursor <| cp_row := u16_saturating_add (cp_row cursor) first |>) self
  | 67 => move_to (cursor <| cp_column := u16_saturating_add (cp_column cursor) first |>) self
  | 68 => move_to (cursor <| cp_column := N.max (cp_column cursor - first) 1 |>) self
  | 69 => move_to (MkCursorPosition (u16_saturating_add (cp_row cursor) first) 1) self
  | 70 => move_to (MkCursorPosition (N.max (cp_row cursor - first) 1) 1) self
  | 71 => move_to (cursor <| cp_column := first |>) self
  | 100 => move_to (cursor <| cp_row := first |>) self
  | 75 => (self, Some TS_EraseLine)
  | _ => (self, None)
  end.

(** The bytes of a control sequence. *)
Definition record_csi (byte : N) (self : TerminalStructureParser)
  : TerminalStructureParser * option TerminalStructure :=
  if byte =? 27 then ((parser_reset self) <| sp_stage := 1 |>, None)
  else if (byte =? 63) || (byte =? 62) || (byte =? 33) then (self <| sp_private := true |>, None)
  else if is_ascii_digit byte then (record_digit byte self, None)
  else if byte =? 59
       then let index := u64_saturating_add (sp_parameter_index self) 1 in
            let self := self <| sp_parameter_index := index |> in
            ((if 2 <=? index then self <| sp_private := true |> else self), None)
  else if is_final_byte byte
       then let '(self, structure) :=
              if sp_private self then (self, None) else complete_csi byte self in
            (parser_reset self, structure)
  else if negb ((32 <=? byte) && (byte <=? 63)) then (parser_reset self, None)
  else (self, None).

Definition structure_record (byte : N) (self : TerminalStructureParser)
  : TerminalStructureParser * option TerminalStructure :=
  match sp_stage self with
  | 0 => record_ground byte self
  | 1 => record_escape byte self
  | 2 => record_csi byte self
  | _ => (self, None)
  end.

(** ** Erased rows *)

Definition tracked_terminal_rows : N := 1024.
Definition tracked_terminal_row_words : nat := 16.

(** [words: [u64; 16]] *)
Notation ErasedTerminalRows := (list N) (only parsing).
Definition erased_rows_default : ErasedTerminalRows := replicate tracked_terminal_row_words 0.

Definition erased_record (row : N) (self : ErasedTerminalRows) : ErasedTerminalRows :=
  let index := row - 1 in
  if tracked_terminal_rows <=? index then self
  else alter (fun word => N.lor word (N.shiftl 1 (index mod 64))) (N.to_nat (index / 64)) self.

Definition erased_contains (self : ErasedTerminalRows) (row : N) : bool :=
  let index := row - 1 in
  (index <? tracked_terminal_rows)
  && match self !! N.to_nat (index / 64) with
     | Some word => negb (N.land word (N.shiftl 1 (index mod 64)) =? 0)
     | None => false
     end.

(** ** Markers *)

(** [record_marker]: the new count of matched bytes, and whether the marker is
    complete. [marker[*matched]] is in range in every reachable state. *)
Definition record_marker (byte : N) (marker : list N) (matched : nat) : nat * bool :=
  if bool_decide (marker !! matched = Some byte)
  then if Nat.eqb (S matched) (length marker) then (0%nat, true) else (S matched, false)
  else (if bool_decide (marker !! 0%nat = Some byte) then 1%nat else 0%nat, false).

Definition synchronized_output_begin : list N := [27; 91; 63; 50; 48; 50; 54; 104].
Definition synchronized_output_end : list N := [27; 91; 63; 50; 48; 50; 54; 108].
Definition show_cursor : list N := [27; 91; 63; 50; 53; 104].
Definition hide_cursor : list N := [27; 91; 63; 50; 53; 108].
Definition bracketed_paste_enable : list N := [27; 91; 63; 50; 48; 48; 52; 104].
Definition bracketed_paste_disable : list N := [27; 91; 63; 50; 48; 48; 52; 108].
Definition alternate_screen_enable : list N := [27; 91; 63; 49; 48; 52; 57; 104].
Definition alternate_screen_disable : list N := [27; 91; 63; 49; 48; 52; 57; 108].
Definition right_angle_prompt : list N := [226; 128; 186].

(** * Facts about the structure of terminal output

    The cursor stays on the screen of 16-bit coordinates; the bitmap of erased
    rows is a finite set; [record_marker] completes exactly at the occurrences of
    its marker. *)

(** ** The cursor model *)

Definition cursor_ok (position : CursorPosition) : Prop :=
  1 <= cp_row position <= u16_max /\ 1 <= cp_column position <= u16_max.

Record parser_ok (p : TerminalStructureParser) : Prop := {
  po_stage : sp_stage p <= 2;
  po_first : forall v, (sp_parameters p).1 = Some v -> v <= u16_max;
  po_second : forall v, (sp_parameters p).2 = Some v -> v <= u16_max;
  po_cursor : cursor_ok (sp_cursor_position p)
}.

Lemma u16_saturating_add_bounds a b :
  1 <= a -> 1 <= u16_saturating_add a b <= u16_max.
Proof. unfold u16_saturating_add, u16_max. lia. Qed.

Lemma tab_stop_bounds column : 1 <= tab_stop column <= u16_max.
Proof.
  unfold tab_stop, u16_saturating_add, u16_saturating_mul, u16_max.
  generalize ((column - 1) / 8). lia.
Qed.

Lemma parser_reset_ok p : parser_ok p -> parser_ok (parser_reset p).
Proof. intros []. split; simpl; [lia|done..]. Qed.

(** A sequence of a well-formed parser leaves it well-formed and reports the
    position it moves to. *)
Definition record_ok (r : TerminalStructureParser * option TerminalStructure) : Prop :=
  parser_ok r.1 /\
  forall position, r.2 = Some (TS_CursorPosition position) -> cursor_ok position.

Lemma silent_ok p : parser_ok p -> record_ok (p, None).
Proof. by split. Qed.

Lemma move_to_ok position p : parser_ok p -> cursor_ok position -> record_ok (move_to position p).
Proof.
  intros [] Hpos. split; [split; simpl; done|]. simpl. by intros ? [= <-].
Qed.

Ltac solve_position :=
  apply move_to_ok; [done|];
  match goal with H : cursor_ok _ |- _ => destruct H as [Hr Hc] end;
  split; cbn -[u16_max]; try assumption; try apply tab_stop_bounds;
  unfold u16_saturating_add, u16_max in *; lia.

Lemma record_ground_ok byte p : parser_ok p -> record_ok (record_ground byte p).
Proof.
  intros Hok. pose proof (po_cursor p Hok) as Hcur. unfold record_ground.
  repeat case_match; try apply silent_ok; try solve_position; try done.
  all: destruct Hok, Hcur as [Hr Hc]; done.
Qed.

Lemma record_escape_ok byte p : parser_ok p -> record_ok (record_escape byte p).
Proof.
  intros Hok. unfold record_escape. repeat case_match; apply silent_ok; [|done|by apply parser_reset_ok].
  destruct Hok. split; simpl; [lia|done..].
Qed.

Lemma record_digit_ok byte p : parser_ok p -> parser_ok (record_digit byte p).
Proof.
  intros [Hs H1 H2 Hc]. unfold record_digit. destruct (sp_parameters p) as [first second] eqn:Hp.
  repeat case_match; split; simpl; rewrite ?Hp; try done; intros v [= <-];
    unfold u16_saturating_add; lia.
Qed.

Lemma first_bounds (o : option N) :
  (forall v, o = Some v -> v <= u16_max) -> 1 <= N.max (default 1 o) 1 <= u16_max.
Proof. unfold u16_max. intros H. destruct o as [v|]; simpl; [specialize (H v eq_refl)|]; lia. Qed.

Lemma complete_csi_ok byte p : parser_ok p -> record_ok (complete_csi byte p).
Proof.
  intros Hok. pose proof (po_cursor p Hok) as Hcur.
  pose proof (first_bounds _ (po_first p Hok)) as H1.
  pose proof (first_bounds _ (po_second p Hok)) as H2. unfold complete_csi.
  revert H1 H2. generalize (N.max (default 1 (sp_parameters p).1) 1).
  generalize (N.max (default 1 (sp_parameters p).2) 1). intros second first H1 H2.
  repeat case_match; try by apply silent_ok.
  all: try solve_position. all: by split.
Qed.

Lemma record_csi_ok byte p : parser_ok p -> record_ok (record_csi byte p).
Proof.
  intros Hok. unfold record_csi. repeat case_match; simplify_eq;
    try (apply silent_ok; first [done|by apply parser_reset_ok|by apply record_digit_ok]).
  all: try (apply silent_ok; destruct Hok; split; simpl; [lia|done..]).
  destruct (complete_csi_ok byte p Hok) as [Hp Hs].
  match goal with H : complete_csi _ _ = _ |- _ => rewrite H in Hp, Hs end.
  split; [by apply parser_reset_ok|exact Hs].
Qed.

Lemma structure_record_ok byte p : parser_ok p -> record_ok (structure_record byte p).
Proof.
  intros Hok. unfold structure_record. repeat case_match; try by apply silent_ok.
  - by apply record_ground_ok.
  - by apply record_csi_ok.
  - by apply record_escape_ok.
Qed.

Lemma structure_parser_default_ok : parser_ok structure_parser_default.
Proof. split; simpl; [lia|done..|]. split; simpl; unfold u16_max; lia. Qed.

(** ** Erased rows as a set *)

(** The bitmap holds exactly the bits of the row indexes in [rows]. *)
Definition represents (self : ErasedTerminalRows) (rows : gset N) : Prop :=
  length self = tracked_terminal_row_words /\
  forall i word, self !! i = Some word ->
    forall bit, bit < 64 -> N.testbit word bit = bool_decide (64 * N.of_nat i + bit ∈ rows).

Definition tracked (row : N) : bool := row - 1 <? tracked_terminal_rows.

Lemma erased_default_represents : represents erased_rows_default ∅.
Proof.
  split; [done|]. intros i word [-> _]%lookup_replicate bit _. by rewrite N.bits_0.
Qed.

Lemma land_bit word bit : negb (N.land word (N.shiftl 1 bit) =? 0) = N.testbit word bit.
Proof.
  rewrite N.shiftl_1_l. destruct (N.testbit word bit) eqn:Hbit.
  - apply negb_true_iff, N.eqb_neq. intros H0. apply (f_equal (fun x => N.testbit x bit)) in H0.
    by rewrite N.land_spec, Hbit, N.pow2_bits_true, N.bits_0 in H0.
  - apply negb_false_iff, N.eqb_eq, N.bits_inj. intros j. rewrite N.land_spec, N.bits_0.
    destruct (N.eq_dec bit j) as [<-|Hne]; [by rewrite Hbit|].
    by rewrite N.pow2_bits_false, andb_false_r.
Qed.

Lemma row_index_bounds row :
  tracked row = true -> (row - 1) mod 64 < 64 /\ (N.to_nat ((row - 1) / 64) < 16)%nat /\
  64 * N.of_nat (N.to_nat ((row - 1) / 64)) + (row - 1) mod 64 = row - 1.
Proof.
  unfold tracked, tracked_terminal_rows. intros H%N.ltb_lt.
  pose proof (N.mod_lt (row - 1) 64 ltac:(lia)).
  assert ((row - 1) / 64 < 16) by (apply N.Div0.div_lt_upper_bound; lia).
  pose proof (N.div_mod (row - 1) 64 ltac:(lia)). lia.
Qed.

Lemma erased_contains_spec self rows row :
  represents self rows -> erased_contains self row = tracked row && bool_decide (row - 1 ∈ rows).
Proof.
  intros [Hlen Hbits]. unfold erased_contains. cbv zeta. fold (tracked row).
  destruct (tracked row) eqn:Ht; [|done]. cbn [andb].
  destruct (row_index_bounds row Ht) as (Hmod & Hidx & Heq).
  destruct (self !! N.to_nat ((row - 1) / 64)) as [word|] eqn:Hw.
  - by rewrite land_bit, (Hbits _ _ Hw), Heq.
  - apply lookup_ge_None in Hw. rewrite Hlen in Hw. unfold tracked_terminal_row_words in Hw. lia.
Qed.

Lemma erased_record_represents self rows row :
  represents self rows ->
  represents (erased_record row self) (if tracked row then {[row - 1]} ∪ rows else rows).
Proof.
  intros [Hlen Hbits]. unfold erased_record.
  destruct (tracked row) eqn:Ht.
  - assert ((tracked_terminal_rows <=? row - 1) = false) as ->
      by (unfold tracked in Ht; apply N.ltb_lt in Ht; apply N.leb_gt; lia).
    destruct (row_index_bounds row Ht) as (Hmod & Hidx & Heq).
    split; [by rewrite length_alter|]. intros i word Hi bit Hbit.
    destruct (decide (i = N.to_nat ((row - 1) / 64))) as [->|Hne].
    + rewrite list_lookup_alter_eq in Hi. apply fmap_Some in Hi as (old & Hold & ->).
      rewrite N.lor_spec, N.shiftl_1_l, (Hbits _ _ Hold) by done.
      destruct (N.eq_dec bit ((row - 1) mod 64)) as [->|Hne].
      * rewrite N.pow2_bits_true, orb_true_r, Heq. symmetry. apply bool_decide_eq_true. set_solver.
      * rewrite N.pow2_bits_false, orb_false_r by done. apply bool_decide_ext.
        assert (64 * N.of_nat (N.to_nat ((row - 1) / 64)) + bit <> row - 1)
          by (rewrite <- Heq at 2; intros E%N.add_cancel_l; done).
        set_solver.
    + rewrite list_lookup_alter_ne in Hi by done. rewrite (Hbits _ _ Hi) by done.
      apply bool_decide_ext. assert (64 * N.of_nat i + bit <> row - 1).
      { rewrite <- Heq. revert Hne Hmod Hbit. generalize ((row - 1) / 64), ((row - 1) mod 64). lia. }
      set_solver.
  - assert ((tracked_terminal_rows <=? row - 1) = true) as ->
      by (unfold tracked in Ht; apply N.ltb_ge in Ht; apply N.leb_le; lia).
    by split.
Qed.

(** ** Markers *)

(** The first byte of the marker does not occur in the rest of it: two
    occurrences never overlap. *)
Definition borderless (marker : list N) : Prop :=
  exists first rest, marker = first :: rest /\ first ∉ rest.

(** After the bytes [before], [matched] is the length of the longest proper
    prefix of the marker that the bytes end with. *)
Record matches (marker before : list N) (matched : nat) : Prop := {
  mt_proper : (matched < length marker)%nat;
  mt_suffix : take matched marker `suffix_of` before;
  mt_longest : forall k, (k < length marker)%nat -> take k marker `suffix_of` before ->
    (k <= matched)%nat
}.

Section markers.
Context (marker : list N) (Hborder : borderless marker).
Implicit Types (before : list N) (byte : N) (k : nat).

Lemma marker_nonempty : (0 < length marker)%nat.
Proof. destruct Hborder as (first & rest & -> & _). simpl. lia. Qed.

Lemma matches_nil : matches marker [] 0.
Proof.
  pose proof marker_nonempty. split; [done|by apply suffix_nil|].
  intros k Hk Hs%suffix_length. rewrite length_take in Hs. simpl in Hs. lia.
Qed.

(** Prefixes of the marker that end the same bytes do not differ, unless one is
    empty. *)
Lemma prefixes_agree before j k :
  take j marker `suffix_of` before -> take k marker `suffix_of` before ->
  (0 < j <= length marker)%nat -> (j <= k <= length marker)%nat -> j = k.
Proof.
  intros [a Ha] [b Hb] Hj Hk. destruct (decide (j = k)) as [|Hne]; [done|exfalso].
  assert (length a = length b + (k - j))%nat as Hl.
  { apply (f_equal length) in Ha. rewrite Hb in Ha. rewrite !length_app, !length_take in Ha. lia. }
  assert (before !! length a = marker !! 0%nat) as H1.
  { rewrite Ha, lookup_app_r, Nat.sub_diag by lia. by rewrite lookup_take_lt by lia. }
  assert (before !! length a = marker !! (k - j)%nat) as H2.
  { rewrite Hb, lookup_app_r by lia. rewrite lookup_take_lt by lia. f_equal. lia. }
  destruct Hborder as (first & rest & Hm & Hnot). rewrite H1 in H2. clear - Hm Hnot H2 Hne Hk.
  subst marker. destruct (k - j)%nat as [|i] eqn:Hi; [simpl in *; lia|]. simpl in H2.
  symmetry in H2. by apply list_elem_of_lookup_2 in H2.
Qed.

Lemma suffix_snoc_take before byte k :
  (k < length marker)%nat ->
  take (S k) marker `suffix_of` before ++ [byte] <->
  take k marker `suffix_of` before /\ marker !! k = Some byte.
Proof.
  intros Hk. destruct (lookup_lt_is_Some_2 marker k Hk) as [x Hx]. rewrite (take_S_r _ _ _ Hx), Hx.
  split.
  - intros Hs. split; [by eapply suffix_snoc_inv_2|]. f_equal. by apply suffix_snoc_inv_1 in Hs.
  - intros [Hs [= ->]]. by apply suffix_snoc.
Qed.

Lemma matches_step before byte matched :
  matches marker before matched ->
  let '(matched', complete) := record_marker byte marker matched in
  matches marker (before ++ [byte]) matched' /\
  (complete = true <-> marker `suffix_of` before ++ [byte]).
Proof.
  intros [Hp Hs Hl]. pose proof marker_nonempty as Hne. unfold record_marker.
  assert (forall k, (0 < k <= length marker)%nat -> take k marker `suffix_of` before ++ [byte] ->
    take (pred k) marker `suffix_of` before /\ marker !! pred k = Some byte) as Hback.
  { intros [|k] Hk; [lia|]. intros H. apply suffix_snoc_take in H; [done|lia]. }
  assert (forall k, (0 < k < length marker)%nat -> take k marker `suffix_of` before -> k = matched)
    as Honly.
  { intros k Hk Hsk. apply (prefixes_agree before); try done; [lia|]. split; [|lia].
    apply Hl; [lia|done]. }
  case_bool_decide as Hbyte.
  - assert (take (S matched) marker `suffix_of` before ++ [byte]) as Hlonger
      by (apply suffix_snoc_take; done).
    destruct (Nat.eqb_spec (S matched) (length marker)) as [Heq|Hneq].
    + rewrite Heq, firstn_all in Hlonger. split; [|done]. split; [done|by apply suffix_nil|].
      intros k Hk Hsk. destruct (decide (k = 0)%nat); [lia|].
      pose proof (prefixes_agree (before ++ [byte]) k (length marker) Hsk) as Hag.
      rewrite firstn_all in Hag. specialize (Hag Hlonger). lia.
    + split; [split|].
      * lia.
      * done.
      * intros k Hk Hsk. destruct (decide (k = 0)%nat); [lia|].
        apply Hback in Hsk as [Hsk _]; [|lia]. apply Hl in Hsk; lia.
      * split; [done|]. intros H. rewrite <- (firstn_all marker) in H.
        apply Hback in H as [H _]; [|lia]. apply Hl in H; lia.
  - assert (forall k, (0 < k <= length marker)%nat -> take k marker `suffix_of` before ++ [byte] ->
      k = 1%nat) as Hone.
    { intros k Hk Hsk. apply Hback in Hsk as [Hsk Hlast]; [|done].
      destruct (decide (pred k = 0)%nat); [lia|]. exfalso. apply Hbyte.
      rewrite <- (Honly (pred k)); [done|lia|done]. }
    split; [split|split; [done|]].
    + case_bool_decide as H0; [|done]. destruct (decide (length marker = 1)%nat) as [H1|]; [|lia].
      exfalso. apply Hbyte. replace matched with 0%nat by lia. done.
    + case_bool_decide as H0; [|by apply suffix_nil]. apply suffix_snoc_take; [done|].
      split; [by apply suffix_nil|done].
    + intros k Hk Hsk. destruct (decide (k = 0)%nat); [lia|].
      assert (k = 1%nat) as -> by (apply Hone; [lia|done]). apply Hback in Hsk as [_ H0]; [|lia].
      simpl in H0. by rewrite bool_decide_eq_true_2.
    + intros H. rewrite <- (firstn_all marker) in H. pose proof (Hone (length marker) ltac:(lia) H) as H1.
      apply Hback in H as [_ H0]; [|lia]. rewrite H1 in H0. exfalso. apply Hbyte.
      by replace matched with 0%nat by lia.
Qed.
End markers.
