(* ===== verification/InputReadiness.v ===== *)
(** * Input readiness of a terminal

    [src/modules/terminal/src/input_readiness.rs]: the tracker that reads the
    output of a terminal byte by byte and keeps the facts from which the delivery
    of generated input decides whether the composer can take it.
    [accepts_normalized_screen_diff] is the tracker's own flag, set from the host
    platform. A poisoned lock, which would make [record] do nothing, is not
    modelled. *)

From stdpp Require Import list.
From S2P Require Import Prelude DeliveryRuntime TerminalStructure.

Local Open Scope N_scope.
Local Open Scope list_scope.

Record InputReadinessState : Type := MkInputReadinessState {
  ir_sequence : N;
  ir_structural_sequence : N;
  ir_bracketed_paste_enabled : bool;
  ir_alternate_screen_active : bool;
  ir_composer_prompt_seen_in_current_alternate_screen : bool;
  ir_composer_prompt_render_count : N;
  ir_composer_prompt_seen_after_bracketed_paste : bool;
  ir_composer_prompt_ready_count : N;
  ir_bracketed_paste_enable_match : nat;
  ir_bracketed_paste_disable_match : nat;
  ir_alternate_screen_enable_match : nat;
  ir_alternate_screen_disable_match : nat;
  ir_synchronized_output_begin_match : nat;
  ir_synchronized_output_end_match : nat;
  ir_show_cursor_match : nat;
  ir_right_angle_prompt_match : nat;
  ir_show_cursor_count : N;
  ir_right_angle_prompt_count : N;
  ir_synchronized_frame_open : bool;
  ir_synchronized_frame_had_show_cursor : bool;
  ir_synchronized_frame_cursor_position : option CursorPosition;
  ir_synchronized_frame_cursor_position_observed : bool;
  ir_synchronized_frame_visible_cursor_position : option CursorPosition;
  ir_synchronized_frame_last_right_angle_prompt_position : option CursorPosition;
  ir_visible_right_angle_prompt_position : option CursorPosition;
  ir_completed_frame_cursor_position : option CursorPosition;
  ir_terminal_structure_parser : TerminalStructureParser;
  ir_closed : bool
}.
#[export] Instance InputReadinessState_eta : Eta InputReadinessState := fun s =>
  MkInputReadinessState (ir_sequence s) (ir_structural_sequence s) (ir_bracketed_paste_enabled
    s) (ir_alternate_screen_active s) (ir_composer_prompt_seen_in_current_alternate_screen s)
    (ir_composer_prompt_render_count s) (ir_composer_prompt_seen_after_bracketed_paste s)
    (ir_composer_prompt_ready_count s) (ir_bracketed_paste_enable_match s)
    (ir_bracketed_paste_disable_match s) (ir_alternate_screen_enable_match s)
    (ir_alternate_screen_disable_match s) (ir_synchronized_output_begin_match s)
    (ir_synchronized_output_end_match s) (ir_show_cursor_match s) (ir_right_angle_prompt_match
    s) (ir_show_cursor_count s) (ir_right_angle_prompt_count s) (ir_synchronized_frame_open s)
    (ir_synchronized_frame_had_show_cursor s) (ir_synchronized_frame_cursor_position s)
    (ir_synchronized_frame_cursor_position_observed s)
    (ir_synchronized_frame_visible_cursor_position s)
    (ir_synchronized_frame_last_right_angle_prompt_position s)
    (ir_visible_right_angle_prompt_position s) (ir_completed_frame_cursor_position s)
    (ir_terminal_structure_parser s) (ir_closed s).

Definition input_readiness_default : InputReadinessState :=
  MkInputReadinessState 0 0 false false false 0 false 0 0 0 0 0 0 0 0 0 0 0 false false None
    false None None None None structure_parser_default false.

Definition facts_from_state (state : InputReadinessState) : InputReadinessFacts :=
  MkInputReadinessFacts (ir_sequence state) (ir_bracketed_paste_enabled state)
    (ir_alternate_screen_active state) (ir_composer_prompt_seen_in_current_alternate_screen state)
    (ir_composer_prompt_render_count state) (ir_composer_prompt_seen_after_bracketed_paste state)
    (ir_composer_prompt_ready_count state).

(** The prompt and the cursor are on the same row, the cursor to the right. *)
Definition cursor_after_prompt (prompt cursor : CursorPosition) : bool :=
  (cp_row prompt =? cp_row cursor) && (cp_column prompt <? cp_column cursor).

Definition completed_frame_has_composer_prompt (state : InputReadinessState) : bool :=
  ir_synchronized_frame_open state && ir_synchronized_frame_had_show_cursor state
  && match ir_synchronized_frame_last_right_angle_prompt_position state,
           ir_synchronized_frame_visible_cursor_position state with
     | Some prompt, Some cursor => cursor_after_prompt prompt cursor
     | _, _ => false
     end.

Definition bump_structure (state : InputReadinessState) : InputReadinessState :=
  state <| ir_structural_sequence := u64_saturating_add (ir_structural_sequence state) 1 |>.

Definition count_ready (state : InputReadinessState) : InputReadinessState :=
  state <| ir_composer_prompt_seen_after_bracketed_paste := true |>
        <| ir_composer_prompt_ready_count :=
             u64_saturating_add (ir_composer_prompt_ready_count state) 1 |>.

Definition record_completed_composer_prompt (state : InputReadinessState) : InputReadinessState :=
  let state := state <| ir_composer_prompt_render_count :=
                          u64_saturating_add (ir_composer_prompt_render_count state) 1 |> in
  let state := if ir_alternate_screen_active state
               then state <| ir_composer_prompt_seen_in_current_alternate_screen := true |>
               else state in
  let state := if ir_bracketed_paste_enabled state then count_ready state else state in
  bump_structure state.

Section tracker.
Context (accepts_normalized_screen_diff : bool).

(** One [if record_marker(..)] of the loop body: the match count, then [run] when
    the marker is complete. *)
Definition on_marker (byte : N) (marker : list N) (matched : InputReadinessState -> nat)
    (store : nat -> InputReadinessState -> InputReadinessState)
    (run : InputReadinessState -> InputReadinessState) (state : InputReadinessState)
  : InputReadinessState :=
  let '(matched', complete) := record_marker byte marker (matched state) in
  let state := store matched' state in
  if complete then run state else state.

Definition record_position (byte : N) (state : InputReadinessState) : InputReadinessState :=
  let '(parser, structure) := structure_record byte (ir_terminal_structure_parser state) in
  let state := state <| ir_terminal_structure_parser := parser |> in
  match structure with
  | Some (TS_CursorPosition position) =>
      if ir_synchronized_frame_open state
      then
        let state := state <| ir_synchronized_frame_cursor_position := Some position |>
                           <| ir_synchronized_frame_cursor_position_observed := true |> in
        if ir_synchronized_frame_had_show_cursor state
        then state <| ir_synchronized_frame_visible_cursor_position := Some position |>
        else state
      else state
  | _ => state
  end.

Definition switch_screen (active : bool) (state : InputReadinessState) : InputReadinessState :=
  bump_structure
    (state <| ir_alternate_screen_active := active |>
           <| ir_composer_prompt_seen_in_current_alternate_screen := false |>
           <| ir_composer_prompt_seen_after_bracketed_paste := false |>).

Definition enable_bracketed_paste (state : InputReadinessState) : InputReadinessState :=
  let newly_enabled := negb (ir_bracketed_paste_enabled state) in
  let state := state <| ir_bracketed_paste_enabled := true |> in
  bump_structure
    (if newly_enabled && ir_composer_prompt_seen_in_current_alternate_screen state
     then count_ready state else state).

Definition disable_bracketed_paste (state : InputReadinessState) : InputReadinessState :=
  bump_structure
    (state <| ir_bracketed_paste_enabled := false |>
           <| ir_composer_prompt_seen_after_bracketed_paste := false |>).

Definition begin_frame (state : InputReadinessState) : InputReadinessState :=
  state <| ir_synchronized_frame_open := true |>
        <| ir_synchronized_frame_had_show_cursor := false |>
        <| ir_synchronized_frame_cursor_position := ir_completed_frame_cursor_position state |>
        <| ir_synchronized_frame_cursor_position_observed := false |>
        <| ir_synchronized_frame_visible_cursor_position := None |>
        <| ir_synchronized_frame_last_right_angle_prompt_position := None |>.

Definition show_cursor_seen (state : InputReadinessState) : InputReadinessState :=
  let state := state <| ir_show_cursor_count := u64_saturating_add (ir_show_cursor_count state) 1 |> in
  if ir_synchronized_frame_open state
  then state <| ir_synchronized_frame_had_show_cursor := true |>
             <| ir_synchronized_frame_visible_cursor_position :=
                  if ir_synchronized_frame_cursor_position_observed state
                  then ir_synchronized_frame_cursor_position state else None |>
  else state.

Definition prompt_seen (state : InputReadinessState) : InputReadinessState :=
  let position := sp_cursor_position (ir_terminal_structure_parser state) in
  let state := state <| ir_right_angle_prompt_count :=
                          u64_saturating_add (ir_right_angle_prompt_count state) 1 |>
                     <| ir_visible_right_angle_prompt_position := Some position |> in
  if ir_synchronized_frame_open state
  then state <| ir_synchronized_frame_last_right_angle_prompt_position := Some position |>
  else state.

(** The prompt is in front of the visible cursor of a normalized repaint. *)
Definition normalized_prompt (showed_cursor : bool) (state : InputReadinessState) : bool :=
  showed_cursor && accepts_normalized_screen_diff && negb (ir_synchronized_frame_open state)
  && ir_alternate_screen_active state
  && match ir_visible_right_angle_prompt_position state with
     | Some prompt =>
         cursor_after_prompt prompt (sp_cursor_position (ir_terminal_structure_parser state))
     | None => false
     end.

Definition end_frame (state : InputReadinessState) : InputReadinessState :=
  let state := if completed_frame_has_composer_prompt state
               then record_completed_composer_prompt state else state in
  state <| ir_completed_frame_cursor_position :=
             match ir_synchronized_frame_visible_cursor_position state with
             | Some position => Some position
             | None => ir_synchronized_frame_cursor_position state
             end |>
        <| ir_synchronized_frame_open := false |>
        <| ir_synchronized_frame_had_show_cursor := false |>
        <| ir_synchronized_frame_cursor_position := None |>
        <| ir_synchronized_frame_cursor_position_observed := false |>
        <| ir_synchronized_frame_visible_cursor_position := None |>
        <| ir_synchronized_frame_last_right_angle_prompt_position := None |>.

(** The body of the loop over the bytes, in the order of the source. *)
Definition record_modes (byte : N) (state : InputReadinessState) : InputReadinessState :=
  let state := on_marker byte alternate_screen_enable ir_alternate_screen_enable_match
    (fun n s => s <| ir_alternate_screen_enable_match := n |>) (switch_screen true) state in
  let state := on_marker byte alternate_screen_disable ir_alternate_screen_disable_match
    (fun n s => s <| ir_alternate_screen_disable_match := n |>) (switch_screen false) state in
  let state := on_marker byte bracketed_paste_enable ir_bracketed_paste_enable_match
    (fun n s => s <| ir_bracketed_paste_enable_match := n |>) enable_bracketed_paste state in
  on_marker byte bracketed_paste_disable ir_bracketed_paste_disable_match
    (fun n s => s <| ir_bracketed_paste_disable_match := n |>) disable_bracketed_paste state.

(** The synchronized frame, up to the checks that complete a prompt; the flag says
    that the byte completed [SHOW_CURSOR]. *)
Definition frame_content (byte : N) (state : InputReadinessState) : InputReadinessState * bool :=
  let state := on_marker byte synchronized_output_begin ir_synchronized_output_begin_match
    (fun n s => s <| ir_synchronized_output_begin_match := n |>) begin_frame state in
  let '(matched, showed_cursor) := record_marker byte show_cursor (ir_show_cursor_match state) in
  let state := state <| ir_show_cursor_match := matched |> in
  let state := if showed_cursor then show_cursor_seen state else state in
  (on_marker byte right_angle_prompt ir_right_angle_prompt_match
     (fun n s => s <| ir_right_angle_prompt_match := n |>) prompt_seen state, showed_cursor).

Definition record_frame (byte : N) (state : InputReadinessState) : InputReadinessState :=
  let '(state, showed_cursor) := frame_content byte state in
  let state := if normalized_prompt showed_cursor state
               then record_completed_composer_prompt state else state in
  on_marker byte synchronized_output_end ir_synchronized_output_end_match
    (fun n s => s <| ir_synchronized_output_end_match := n |>) end_frame state.

Definition record_byte (state : InputReadinessState) (byte : N) : InputReadinessState :=
  record_frame byte (record_modes byte (record_position byte state)).

Definition readiness_record (bytes : list N) (state : InputReadinessState) : InputReadinessState :=
  fold_left record_byte bytes
    (state <| ir_sequence := u64_saturating_add (ir_sequence state) 1 |>).
End tracker.

Definition readiness_close (state : InputReadinessState) : InputReadinessState :=
  state <| ir_closed := true |>.

(** [InputReadinessSnapshot], without the tracker it shares. *)
Record InputReadinessSnapshot : Type := MkInputReadinessSnapshot {
  is_structural_sequence : N;
  is_facts : InputReadinessFacts
}.

Definition readiness_snapshot (state : InputReadinessState) : InputReadinessSnapshot :=
  MkInputReadinessSnapshot (ir_structural_sequence state) (facts_from_state state).

Definition current_facts (state : InputReadinessState)
  : result OutputSettlementFailure InputReadinessFacts :=
  if ir_closed state then Err OSF_TerminalClosed else Ok (facts_from_state state).

(** A round of [wait_for_change]: what the deadline has left, and the state and
    timeout flag the condition variable wakes up with. *)
Record ReadinessRound : Type := MkReadinessRound {
  rr_remaining : option N;
  rr_next : InputReadinessState;
  rr_timed_out : bool
}.

(** The loop of [wait_for_change] over the rounds it gets; [None] when it is
    still waiting after them. *)
Fixpoint wait_for_change (self : InputReadinessSnapshot) (state : InputReadinessState)
    (rounds : list ReadinessRound)
  : option (result OutputSettlementFailure InputReadinessSnapshot) :=
  if ir_closed state then Some (Err OSF_TerminalClosed)
  else if is_structural_sequence self <? ir_structural_sequence state
       then Some (Ok (readiness_snapshot state))
  else
    match rounds with
    | [] => None
    | round :: rounds =>
        match rr_remaining round with
        | None => Some (Err OSF_TimedOut)
        | Some _ =>
            let state := rr_next round in
            if rr_timed_out round
               && (ir_structural_sequence state <=? is_structural_sequence self)
            then Some (Err OSF_TimedOut)
            else wait_for_change self state rounds
        end
    end.

(** * What the readiness facts say about the output

    The two modes the tracker keeps are the ones the last marker in the output
    selected; a composer it calls ready was drawn since the last change of
    screen. *)

(** ** Occurrences *)

(** The last of the markers [on] and [off] in the output is [on]. *)
Definition switched_on (on off output : list N) : Prop :=
  exists before after, output = before ++ after /\ on `suffix_of` before /\
    forall q rest, after = q ++ rest -> q <> [] -> ~ off `suffix_of` before ++ q.

Definition occurs (marker output : list N) : Prop :=
  exists before after, output = before ++ after /\ marker `suffix_of` before.

Lemma occurs_snoc marker output byte :
  occurs marker (output ++ [byte]) <->
  occurs marker output \/ marker `suffix_of` output ++ [byte].
Proof.
  split.
  - intros (before & after & Heq & Hs). destruct after as [|x after _] using rev_ind.
    + rewrite app_nil_r in Heq. subst before. by right.
    + rewrite app_assoc in Heq. apply app_inj_tail in Heq as [-> _]. left. by exists before, after.
  - intros [(before & after & -> & Hs)|Hs].
    + exists before, (after ++ [byte]). by rewrite app_assoc.
    + exists (output ++ [byte]), []. by rewrite app_nil_r.
Qed.

Lemma same_length_suffix (a b l : list N) :
  a `suffix_of` l -> b `suffix_of` l -> length a = length b -> a = b.
Proof. intros [x ->] [y Hy] Hl. by apply app_inj_2 in Hy as []. Qed.

Lemma switched_on_snoc on off output byte :
  on <> off -> length on = length off ->
  switched_on on off (output ++ [byte]) <->
  on `suffix_of` output ++ [byte] \/
  (switched_on on off output /\ ~ off `suffix_of` output ++ [byte]).
Proof.
  intros Hne Hlen. split.
  - intros (before & after & Heq & Hs & Hoff). destruct after as [|x after _] using rev_ind.
    + rewrite app_nil_r in Heq. subst before. by left.
    + pose proof Heq as Heq'. rewrite app_assoc in Heq. apply app_inj_tail in Heq as [-> ->]. right.
      split.
      * exists before, after. split_and!; [done..|]. intros q rest -> Hq.
        apply (Hoff q (rest ++ [x])); [by rewrite app_assoc|done].
      * rewrite <- app_assoc. apply (Hoff (after ++ [x]) []); [by rewrite app_nil_r|].
        by destruct after.
  - intros [Hon|[(before & after & -> & Hs & Hoff) Hnot]].
    + exists (output ++ [byte]), []. split_and!; [by rewrite app_nil_r|done|].
      intros q rest Hq%eq_sym%app_eq_nil Hne'. by destruct Hq.
    + exists before, (after ++ [byte]). split_and!; [by rewrite app_assoc|done|].
      intros q rest Hq Hne'. destruct rest as [|x rest _] using rev_ind.
      * rewrite app_nil_r in Hq. subst q. by rewrite app_assoc.
      * rewrite app_assoc in Hq. apply app_inj_tail in Hq as [-> _]. by apply (Hoff q rest).
Qed.

Lemma switched_on_nil on off : on <> [] -> ~ switched_on on off [].
Proof.
  intros Hne (before & after & Heq & Hs & _). symmetry in Heq. apply app_eq_nil in Heq as [-> ->].
  by apply suffix_nil_inv in Hs.
Qed.

(** ** Running the tracker *)

Definition fresh_tracker : InputReadinessState := input_readiness_default.

Section facts.
Context (normalized : bool).
Implicit Types (s : InputReadinessState) (byte : N) (output : list N).

(** The tracker after some output, chunk boundaries aside. *)
Definition after_output (output : list N) : InputReadinessState :=
  fold_left (record_byte normalized) output fresh_tracker.

(** The tracker after some chunks. *)
Definition after_chunks (chunks : list (list N)) : InputReadinessState :=
  fold_left (fun s chunk => readiness_record normalized chunk s) chunks fresh_tracker.

Lemma after_output_snoc output byte :
  after_output (output ++ [byte]) = record_byte normalized (after_output output) byte.
Proof. unfold after_output. by rewrite fold_left_app. Qed.

(** *** The sequence number takes no part in the bytes *)

Definition with_sequence (n : N) s : InputReadinessState := s <| ir_sequence := n |>.

(** Pieces of the loop body that ignore the sequence number. *)
Definition ignores_sequence (f : InputReadinessState -> InputReadinessState) : Prop :=
  forall n s, f (with_sequence n s) = with_sequence n (f s).

Lemma on_marker_ignores byte marker matched store run :
  (forall n s, matched (with_sequence n s) = matched s) ->
  (forall k, ignores_sequence (store k)) -> ignores_sequence run ->
  ignores_sequence (on_marker byte marker matched store run).
Proof.
  intros Hm Hs Hr n s. unfold on_marker. rewrite Hm.
  destruct (record_marker _ _ _) as [k []]; by rewrite Hs, ?Hr.
Qed.

Ltac piece :=
  intros n s; unfold with_sequence; destruct s; repeat (simpl; case_match); simplify_eq; reflexivity.

Lemma completed_ignores : ignores_sequence record_completed_composer_prompt.
Proof. unfold record_completed_composer_prompt. piece. Qed.
Lemma position_ignores byte : ignores_sequence (record_position byte).
Proof. unfold record_position. piece. Qed.
Lemma switch_ignores active : ignores_sequence (switch_screen active).
Proof. piece. Qed.
Lemma enable_ignores : ignores_sequence enable_bracketed_paste.
Proof. unfold enable_bracketed_paste. piece. Qed.
Lemma disable_ignores : ignores_sequence disable_bracketed_paste.
Proof. piece. Qed.
Lemma begin_ignores : ignores_sequence begin_frame.
Proof. piece. Qed.
Lemma show_ignores : ignores_sequence show_cursor_seen.
Proof. unfold show_cursor_seen. piece. Qed.
Lemma prompt_ignores : ignores_sequence prompt_seen.
Proof. unfold prompt_seen. piece. Qed.
Lemma end_ignores : ignores_sequence end_frame.
Proof.
  intros n s. unfold end_frame.
  change (completed_frame_has_composer_prompt (with_sequence n s))
    with (completed_frame_has_composer_prompt s).
  destruct (completed_frame_has_composer_prompt s); [rewrite completed_ignores|]; reflexivity.
Qed.

Lemma modes_ignore byte : ignores_sequence (record_modes byte).
Proof.
  intros n s. unfold record_modes.
  rewrite !on_marker_ignores; auto using switch_ignores, enable_ignores, disable_ignores; done.
Qed.

Lemma content_ignores byte n s :
  frame_content byte (with_sequence n s)
  = ((with_sequence n (frame_content byte s).1), (frame_content byte s).2).
Proof.
  unfold frame_content. cbv zeta.
  set (start := on_marker byte synchronized_output_begin _ _ _).
  assert (start (with_sequence n s) = with_sequence n (start s)) as ->
    by (apply on_marker_ignores; [done|done|exact begin_ignores]).
  set (s1 := start s). clearbody s1. clear start.
  change (ir_show_cursor_match (with_sequence n s1)) with (ir_show_cursor_match s1).
  destruct (record_marker _ _ _) as [k showed]. cbn [fst snd]. f_equal.
  assert ((with_sequence n s1) <| ir_show_cursor_match := k |>
          = with_sequence n (s1 <| ir_show_cursor_match := k |>)) as -> by done.
  destruct showed; [rewrite show_ignores|];
    rewrite on_marker_ignores; auto using prompt_ignores; done.
Qed.

Lemma record_byte_sequence byte : ignores_sequence (fun s => record_byte normalized s byte).
Proof.
  intros n s. unfold record_byte. rewrite position_ignores, modes_ignore.
  unfold record_frame. rewrite content_ignores. destruct (frame_content _ _) as [s1 showed]. simpl.
  change (normalized_prompt normalized showed (with_sequence n s1))
    with (normalized_prompt normalized showed s1).
  destruct (normalized_prompt _ _ _); [rewrite completed_ignores|];
    by apply on_marker_ignores; [|done|exact end_ignores].
Qed.

Lemma record_bytes_sequence output n s :
  fold_left (record_byte normalized) output (with_sequence n s)
  = with_sequence n (fold_left (record_byte normalized) output s).
Proof.
  revert s. induction output as [|byte output IH]; intros s; [done|]. simpl.
  by rewrite record_byte_sequence, IH.
Qed.

Lemma readiness_record_chunk chunk n s :
  readiness_record normalized chunk (with_sequence n s)
  = with_sequence (u64_saturating_add n 1) (fold_left (record_byte normalized) chunk s).
Proof. rewrite <- record_bytes_sequence. reflexivity. Qed.

(** Splitting the output into chunks changes only the chunk counter. *)
Lemma after_chunks_output chunks :
  exists n, after_chunks chunks = with_sequence n (after_output (concat chunks)).
Proof.
  induction chunks as [|chunk chunks [n IH]] using rev_ind; [by exists 0|].
  exists (u64_saturating_add n 1). unfold after_chunks in *. rewrite fold_left_app, IH. simpl.
  rewrite readiness_record_chunk, concat_app. simpl. rewrite app_nil_r.
  unfold after_output. by rewrite fold_left_app.
Qed.

(** *** What each piece of the loop body leaves alone *)

Definition keeps {A} (view : InputReadinessState -> A)
    (f : InputReadinessState -> InputReadinessState) : Prop :=
  forall s, view (f s) = view s.

Lemma on_marker_keeps {A} (view : InputReadinessState -> A) byte marker matched store run :
  (forall k, keeps view (store k)) -> keeps view run ->
  keeps view (on_marker byte marker matched store run).
Proof.
  intros Hs Hr s. unfold on_marker. destruct (record_marker _ _ _) as [k []]; by rewrite ?Hr, Hs.
Qed.

Ltac keep :=
  let s := fresh "s" in intros s; destruct s; repeat (simpl; case_match); simplify_eq; reflexivity.

(** The modes and the matchers that set them. *)
Definition modes_of s : (bool * bool) * (nat * nat * nat * nat) :=
  ((ir_alternate_screen_active s, ir_bracketed_paste_enabled s),
   (ir_alternate_screen_enable_match s, ir_alternate_screen_disable_match s,
    ir_bracketed_paste_enable_match s, ir_bracketed_paste_disable_match s)).

Lemma position_keeps_modes byte : keeps modes_of (record_position byte).
Proof. unfold modes_of, record_position. keep. Qed.
Lemma completed_keeps_modes : keeps modes_of record_completed_composer_prompt.
Proof. unfold modes_of, record_completed_composer_prompt. keep. Qed.
Lemma end_keeps_modes : keeps modes_of end_frame.
Proof.
  intros s. unfold end_frame. destruct (completed_frame_has_composer_prompt s); [|done].
  exact (completed_keeps_modes s).
Qed.
Lemma content_keeps_modes byte s : modes_of (frame_content byte s).1 = modes_of s.
Proof.
  unfold frame_content. destruct (record_marker _ _ _) as [k showed]. cbn [fst].
  rewrite on_marker_keeps; [|by intros|unfold modes_of, prompt_seen; keep].
  assert (forall s, modes_of (if showed then show_cursor_seen s else s) = modes_of s) as ->
    by (destruct showed; [unfold modes_of, show_cursor_seen; keep|done]).
  set (start := on_marker _ _ _ _ _). change (modes_of (start s) = modes_of s).
  by apply on_marker_keeps.
Qed.
Lemma frame_keeps_modes byte : keeps modes_of (record_frame normalized byte).
Proof.
  intros s. unfold record_frame. rewrite <- (content_keeps_modes byte s).
  destruct (frame_content byte s) as [s1 showed]. cbn [fst].
  rewrite on_marker_keeps; [|by intros|exact end_keeps_modes].
  destruct (normalized_prompt _ _ _); [apply completed_keeps_modes|done].
Qed.

(** A mode after one more byte. *)
Definition next_mode (on off : bool) (mode : bool) : bool :=
  if off then false else if on then true else mode.

Definition modes_step byte (m : (bool * bool) * (nat * nat * nat * nat))
  : (bool * bool) * (nat * nat * nat * nat) :=
  let '((screen, paste), (ae, ad, be, bd)) := m in
  let '(ae, screen_on) := record_marker byte alternate_screen_enable ae in
  let '(ad, screen_off) := record_marker byte alternate_screen_disable ad in
  let '(be, paste_on) := record_marker byte bracketed_paste_enable be in
  let '(bd, paste_off) := record_marker byte bracketed_paste_disable bd in
  ((next_mode screen_on screen_off screen, next_mode paste_on paste_off paste), (ae, ad, be, bd)).

Lemma record_modes_step byte s : modes_of (record_modes byte s) = modes_step byte (modes_of s).
Proof.
  unfold record_modes. cbv zeta. unfold modes_step, modes_of at 2.
  set (s1 := on_marker byte alternate_screen_enable _ _ _ s).
  set (s2 := on_marker byte alternate_screen_disable _ _ _ s1).
  set (s3 := on_marker byte bracketed_paste_enable _ _ _ s2).
  destruct (record_marker byte alternate_screen_enable _) as [ae on1] eqn:E1.
  destruct (record_marker byte alternate_screen_disable _) as [ad off1] eqn:E2.
  destruct (record_marker byte bracketed_paste_enable _) as [be on2] eqn:E3.
  destruct (record_marker byte bracketed_paste_disable _) as [bd off2] eqn:E4.
  assert (modes_of s1 = ((next_mode on1 false (ir_alternate_screen_active s),
    ir_bracketed_paste_enabled s), (ae, ir_alternate_screen_disable_match s,
    ir_bracketed_paste_enable_match s, ir_bracketed_paste_disable_match s))) as M1
    by (unfold s1, on_marker; rewrite E1; by destruct on1).
  clearbody s1. unfold modes_of in M1 at 1. injection M1 as A1 A2 A3 A4 A5 A6.
  assert (modes_of s2 = ((next_mode on1 off1 (ir_alternate_screen_active s),
    ir_bracketed_paste_enabled s), (ae, ad,
    ir_bracketed_paste_enable_match s, ir_bracketed_paste_disable_match s))) as M2.
  { unfold s2, on_marker. rewrite A4, E2. unfold modes_of.
    destruct off1; simpl; by rewrite ?A1, ?A2, ?A3, ?A5, ?A6. }
  clearbody s2. unfold modes_of in M2 at 1. injection M2 as B1 B2 B3 B4 B5 B6.
  assert (modes_of s3 = ((next_mode on1 off1 (ir_alternate_screen_active s),
    next_mode on2 false (ir_bracketed_paste_enabled s)), (ae, ad, be,
    ir_bracketed_paste_disable_match s))) as M3.
  { unfold s3, on_marker, enable_bracketed_paste. rewrite B5, E3. unfold modes_of.
    destruct on2; simpl; [destruct (_ && _); simpl|]; by rewrite ?B1, ?B2, ?B3, ?B4, ?B6. }
  clearbody s3. unfold modes_of in M3 at 1. injection M3 as C1 C2 C3 C4 C5 C6.
  unfold on_marker. rewrite C6, E4. unfold modes_of.
  destruct off2; simpl; by rewrite ?C1, ?C2, ?C3, ?C4, ?C5.
Qed.

Lemma record_byte_modes byte s :
  modes_of (record_byte normalized s byte) = modes_step byte (modes_of s).
Proof.
  unfold record_byte. by rewrite frame_keeps_modes, record_modes_step, position_keeps_modes.
Qed.

(** *** The modes are those of the last marker *)

Record modes_ok (output : list N) (m : (bool * bool) * (nat * nat * nat * nat)) : Prop := {
  mo_screen : m.1.1 = true <-> switched_on alternate_screen_enable alternate_screen_disable output;
  mo_paste : m.1.2 = true <-> switched_on bracketed_paste_enable bracketed_paste_disable output;
  mo_screen_on : matches alternate_screen_enable output m.2.1.1.1;
  mo_screen_off : matches alternate_screen_disable output m.2.1.1.2;
  mo_paste_on : matches bracketed_paste_enable output m.2.1.2;
  mo_paste_off : matches bracketed_paste_disable output m.2.2
}.

Lemma ansi_borderless rest : bool_decide (27 ∈ rest) = false -> borderless (27 :: rest).
Proof. intros H%bool_decide_eq_false. by exists 27, rest. Qed.

Lemma next_mode_spec on off output byte on_complete off_complete mode :
  on <> off -> length on = length off ->
  (on_complete = true <-> on `suffix_of` output ++ [byte]) ->
  (off_complete = true <-> off `suffix_of` output ++ [byte]) ->
  (mode = true <-> switched_on on off output) ->
  next_mode on_complete off_complete mode = true <-> switched_on on off (output ++ [byte]).
Proof.
  intros Hne Hlen Hon Hoff Hmode. rewrite switched_on_snoc by done. unfold next_mode.
  destruct off_complete, on_complete.
  - exfalso. apply Hne. eapply same_length_suffix; [by apply Hon|by apply Hoff|done].
  - split; [done|]. intros [H%Hon|[_ H]]; [done|]. exfalso. by apply H, Hoff.
  - split; [intros _; left; by apply Hon|done].
  - rewrite Hmode. split.
    + intros H. right. split; [done|]. by intros H'%Hoff.
    + by intros [H%Hon|[]].
Qed.

Lemma modes_ok_step output byte m : modes_ok output m -> modes_ok (output ++ [byte]) (modes_step byte m).
Proof.
  destruct m as [[screen paste] [[[ae ad] be] bd]]. intros [Hs Hp Hae Had Hbe Hbd].
  cbn [fst snd] in *. unfold modes_step.
  assert (forall rest k, matches (27 :: rest) output k -> bool_decide (27 ∈ rest) = false ->
    let '(k', c) := record_marker byte (27 :: rest) k in
    matches (27 :: rest) (output ++ [byte]) k' /\
    (c = true <-> (27 :: rest) `suffix_of` output ++ [byte])) as Hstep
    by (intros rest k Hk Hb; apply matches_step; [by apply ansi_borderless|done]).
  pose proof (Hstep _ _ Hae eq_refl) as H1.
  pose proof (Hstep _ _ Had eq_refl) as H2.
  pose proof (Hstep _ _ Hbe eq_refl) as H3.
  pose proof (Hstep _ _ Hbd eq_refl) as H4.
  fold alternate_screen_enable in H1. fold alternate_screen_disable in H2.
  fold bracketed_paste_enable in H3. fold bracketed_paste_disable in H4.
  destruct (record_marker byte alternate_screen_enable ae) as [ae' on1], H1.
  destruct (record_marker byte alternate_screen_disable ad) as [ad' off1], H2.
  destruct (record_marker byte bracketed_paste_enable be) as [be' on2], H3.
  destruct (record_marker byte bracketed_paste_disable bd) as [bd' off2], H4.
  split; cbn [fst snd]; try done; by eapply next_mode_spec.
Qed.

Lemma modes_ok_fresh : modes_ok [] (modes_of fresh_tracker).
Proof.
  split; cbn; try (split; [done|by intros ?%switched_on_nil]);
    apply matches_nil, ansi_borderless; reflexivity.
Qed.

Lemma after_output_modes output : modes_ok output (modes_of (after_output output)).
Proof.
  induction output as [|byte output IH] using rev_ind; [exact modes_ok_fresh|].
  rewrite after_output_snoc, record_byte_modes. by apply modes_ok_step.
Qed.

(** *** A completed prompt *)

(** The byte completes a frame, or a normalized repaint, that shows the prompt in
    front of the visible cursor. *)
Definition completes_frame byte s : bool :=
  let '(s, showed_cursor) := frame_content byte s in
  normalized_prompt normalized showed_cursor s
  || ((record_marker byte synchronized_output_end (ir_synchronized_output_end_match s)).2
      && completed_frame_has_composer_prompt s).
Definition completes_prompt byte s : bool :=
  completes_frame byte (record_modes byte (record_position byte s)).

(** What the frame remembers of the prompt and the cursor, with their
    matchers. *)
Definition drawing_of s : (nat * nat) * (bool * bool * bool) :=
  ((ir_show_cursor_match s, ir_right_angle_prompt_match s),
   (ir_synchronized_frame_had_show_cursor s,
    is_some (ir_visible_right_angle_prompt_position s),
    is_some (ir_synchronized_frame_last_right_angle_prompt_position s))).

Record drawing_ok (output : list N) (d : (nat * nat) * (bool * bool * bool)) : Prop := {
  do_show : matches show_cursor output d.1.1;
  do_prompt : matches right_angle_prompt output d.1.2;
  do_shown : d.2.1.1 = true -> occurs show_cursor output;
  do_visible : d.2.1.2 = true -> occurs right_angle_prompt output;
  do_last : d.2.2 = true -> occurs right_angle_prompt output
}.

Lemma position_keeps_drawing byte : keeps drawing_of (record_position byte).
Proof. unfold drawing_of, record_position. keep. Qed.
Lemma completed_keeps_drawing : keeps drawing_of record_completed_composer_prompt.
Proof. unfold drawing_of, record_completed_composer_prompt. keep. Qed.
Lemma modes_keep_drawing byte : keeps drawing_of (record_modes byte).
Proof.
  intros s. unfold record_modes. rewrite !on_marker_keeps; try done.
  unfold drawing_of, enable_bracketed_paste. keep.
Qed.

Lemma begin_frame_ok output s : drawing_ok output (drawing_of s) -> drawing_ok output (drawing_of (begin_frame s)).
Proof. intros []. by split. Qed.

Lemma show_cursor_borderless : borderless show_cursor.
Proof. by apply ansi_borderless. Qed.
Lemma prompt_borderless : borderless right_angle_prompt.
Proof. exists 226, [128; 186]. split; [done|]. by eapply bool_decide_eq_false_1. Qed.

Lemma content_drawing output byte s :
  drawing_ok output (drawing_of s) ->
  drawing_ok (output ++ [byte]) (drawing_of (frame_content byte s).1) /\
  ((frame_content byte s).2 = true -> occurs show_cursor (output ++ [byte])).
Proof.
  intros Hok. unfold frame_content. cbv zeta.
  set (s1 := on_marker byte synchronized_output_begin _ _ _ s).
  assert (drawing_ok output (drawing_of s1)) as [Hs Hp Hshown Hvis Hlast].
  { unfold s1, on_marker. destruct (record_marker _ _ _) as [k []]; [apply begin_frame_ok|]; done. }
  clearbody s1. clear Hok. cbn [drawing_of fst snd] in *.
  pose proof (matches_step show_cursor show_cursor_borderless _ byte _ Hs) as Hstep.
  destruct (record_marker byte show_cursor _) as [k showed]. destruct Hstep as [Hs' Hshow].
  assert (occurs show_cursor output -> occurs show_cursor (output ++ [byte])) as Hso
    by (intros; apply occurs_snoc; by left).
  assert (occurs right_angle_prompt output -> occurs right_angle_prompt (output ++ [byte])) as Hpo
    by (intros; apply occurs_snoc; by left).
  assert (showed = true -> occurs show_cursor (output ++ [byte])) as Hsh
    by (intros ?%Hshow; apply occurs_snoc; by right).
  split; [|exact Hsh]. cbn [fst].
  set (s2 := s1 <| ir_show_cursor_match := k |>).
  set (s3 := if showed then show_cursor_seen s2 else s2).
  assert (ir_show_cursor_match s3 = k /\ ir_right_angle_prompt_match s3 = ir_right_angle_prompt_match s1
    /\ (ir_synchronized_frame_had_show_cursor s3 = true -> occurs show_cursor (output ++ [byte]))
    /\ ir_visible_right_angle_prompt_position s3 = ir_visible_right_angle_prompt_position s1
    /\ ir_synchronized_frame_last_right_angle_prompt_position s3
       = ir_synchronized_frame_last_right_angle_prompt_position s1) as (E1 & E2 & E3 & E4 & E5).
  { unfold s3, show_cursor_seen. destruct showed; [|split_and!; auto].
    case_match; split_and!; simpl; auto. }
  clearbody s3. clear s2. unfold on_marker. rewrite E2.
  pose proof (matches_step right_angle_prompt prompt_borderless _ byte _ Hp) as Hstep.
  destruct (record_marker byte right_angle_prompt _) as [k' prompted]. destruct Hstep as [Hp' Hprompt].
  assert (prompted = true -> occurs right_angle_prompt (output ++ [byte])) as Hpr
    by (intros ?%Hprompt; apply occurs_snoc; by right).
  destruct prompted.
  - unfold prompt_seen. simpl. case_match; (split; cbn [drawing_of fst snd]; simpl;
      rewrite ?E1, ?E4, ?E5; auto).
  - split; cbn [drawing_of fst snd]; simpl; rewrite ?E1, ?E4, ?E5; auto.
Qed.

Lemma end_frame_ok output s : drawing_ok output (drawing_of s) -> drawing_ok output (drawing_of (end_frame s)).
Proof.
  intros Hok. unfold end_frame.
  set (s1 := if completed_frame_has_composer_prompt s then _ else s).
  assert (drawing_of s1 = drawing_of s) as Hs1
    by (unfold s1; case_match; [apply completed_keeps_drawing|done]).
  rewrite <- Hs1 in Hok. destruct Hok. by split.
Qed.

Lemma record_frame_drawing output byte s :
  drawing_ok output (drawing_of s) ->
  drawing_ok (output ++ [byte]) (drawing_of (record_frame normalized byte s)).
Proof.
  intros [Hok _]%(content_drawing _ byte). unfold record_frame.
  destruct (frame_content byte s) as [s1 showed]. cbn [fst] in Hok.
  set (s2 := if normalized_prompt _ _ _ then _ else s1).
  assert (drawing_ok (output ++ [byte]) (drawing_of s2)) as Hok2
    by (unfold s2; case_match; rewrite ?completed_keeps_drawing; done).
  unfold on_marker. destruct (record_marker _ _ _) as [k []]; [by apply end_frame_ok|done].
Qed.

Lemma after_output_drawing output : drawing_ok output (drawing_of (after_output output)).
Proof.
  induction output as [|byte output IH] using rev_ind.
  - split; cbn; try done; apply matches_nil; [exact show_cursor_borderless|exact prompt_borderless].
  - rewrite after_output_snoc. unfold record_byte. apply record_frame_drawing.
    by rewrite modes_keep_drawing, position_keeps_drawing.
Qed.

(** A completed prompt was drawn and the cursor shown. *)
Lemma completes_prompt_drawn output byte :
  completes_prompt byte (after_output output) = true ->
  occurs right_angle_prompt (output ++ [byte]) /\ occurs show_cursor (output ++ [byte]).
Proof.
  unfold completes_prompt, completes_frame. pose proof (after_output_drawing output) as Hok.
  rewrite <- (position_keeps_drawing byte), <- (modes_keep_drawing byte) in Hok.
  apply (content_drawing _ byte) in Hok as [[_ _ Hshown Hvis Hlast] Hsh].
  destruct (frame_content _ _) as [s showed]. cbn [drawing_of fst snd] in *.
  intros [Hn|Hf]%orb_true_iff.
  - unfold normalized_prompt in Hn. destruct (ir_visible_right_angle_prompt_position s) eqn:Hv;
      [|by rewrite andb_false_r in Hn]. guards. auto.
  - apply andb_true_iff in Hf as [_ Hf]. unfold completed_frame_has_composer_prompt in Hf.
    destruct (ir_synchronized_frame_last_right_angle_prompt_position s) eqn:Hv;
      [|by rewrite andb_false_r in Hf]. guards. auto.
Qed.

(** *** The prompt flags *)

Definition seen_of s : bool * bool :=
  (ir_composer_prompt_seen_in_current_alternate_screen s,
   ir_composer_prompt_seen_after_bracketed_paste s).

Lemma position_keeps_seen byte : keeps seen_of (record_position byte).
Proof. unfold seen_of, record_position. keep. Qed.
Lemma content_keeps_seen byte s : seen_of (frame_content byte s).1 = seen_of s.
Proof.
  unfold frame_content. destruct (record_marker _ _ _) as [k showed]. cbn [fst].
  rewrite on_marker_keeps; [|by intros|unfold seen_of, prompt_seen; keep].
  assert (forall s, seen_of (if showed then show_cursor_seen s else s) = seen_of s) as ->
    by (destruct showed; [unfold seen_of, show_cursor_seen; keep|done]).
  set (start := on_marker _ _ _ _ _). change (seen_of (start s) = seen_of s).
  by apply on_marker_keeps.
Qed.

Lemma completed_seen s :
  seen_of (record_completed_composer_prompt s)
  = ((seen_of s).1 || ir_alternate_screen_active s, (seen_of s).2 || ir_bracketed_paste_enabled s).
Proof.
  unfold record_completed_composer_prompt. destruct s as [? ? [] [] ? ? ?]; simpl;
    by rewrite ?orb_true_r, ?orb_false_r.
Qed.

(** Whether a screen marker completes at this byte. *)
Definition switches_screen byte s : bool :=
  (record_marker byte alternate_screen_enable (ir_alternate_screen_enable_match s)).2
  || (record_marker byte alternate_screen_disable (ir_alternate_screen_disable_match s)).2.

(** The screen markers clear the flags. *)
Lemma screen_markers_seen byte s s' :
  s' = on_marker byte alternate_screen_disable ir_alternate_screen_disable_match
         (fun n s => s <| ir_alternate_screen_disable_match := n |>) (switch_screen false)
         (on_marker byte alternate_screen_enable ir_alternate_screen_enable_match
            (fun n s => s <| ir_alternate_screen_enable_match := n |>) (switch_screen true) s) ->
  seen_of s' = (if switches_screen byte s then (false, false) else seen_of s) /\
  ir_bracketed_paste_enabled s' = ir_bracketed_paste_enabled s.
Proof.
  intros ->. unfold switches_screen, on_marker.
  destruct (record_marker byte alternate_screen_enable _) as [k []]; simpl;
  destruct (record_marker byte alternate_screen_disable _) as [k' []]; by destruct s.
Qed.

(** The mode markers only clear the flags, except that enabling bracketed paste
    lets an earlier prompt of the same screen count. *)
Lemma modes_seen byte s (s' := record_modes byte s) :
  ((seen_of s').1 = true -> switches_screen byte s = false /\ (seen_of s).1 = true) /\
  ((seen_of s').2 = true -> switches_screen byte s = false /\
     (((seen_of s).1 = true /\ ir_bracketed_paste_enabled s' = true) \/
      ((seen_of s).2 = true /\
       (ir_bracketed_paste_enabled s = true -> ir_bracketed_paste_enabled s' = true)))).
Proof.
  unfold s', record_modes. cbv zeta.
  set (s2 := on_marker byte alternate_screen_disable _ _ _ _).
  destruct (screen_markers_seen byte s s2 eq_refl) as [Hseen Hpaste]. rewrite <- Hpaste.
  assert (forall b, (seen_of s2).1 = b -> b = true -> switches_screen byte s = false /\
    (seen_of s).1 = true) as H1 by (intros b <-; rewrite Hseen; by destruct (switches_screen _ _)).
  assert (forall b, (seen_of s2).2 = b -> b = true -> switches_screen byte s = false /\
    (seen_of s).2 = true) as H2 by (intros b <-; rewrite Hseen; by destruct (switches_screen _ _)).
  clear Hseen Hpaste. clearbody s2. unfold on_marker, seen_of in *.
  destruct (record_marker byte bracketed_paste_enable _) as [k1 on];
  destruct (record_marker byte bracketed_paste_disable _) as [k2 off].
  destruct s2 as [? ? [] ? [] ? []]; cbn in H1, H2; destruct on, off; cbn;
    split; intros Hx; try discriminate Hx;
    first [ by destruct (H1 true eq_refl eq_refl); auto
          | by destruct (H2 true eq_refl eq_refl); auto ].
Qed.

Lemma end_frame_seen s :
  seen_of (end_frame s)
  = seen_of (if completed_frame_has_composer_prompt s then record_completed_composer_prompt s else s).
Proof. unfold end_frame. by destruct (completed_frame_has_composer_prompt s). Qed.

Lemma completed_adds_seen s :
  ((seen_of (record_completed_composer_prompt s)).1 = true ->
     (seen_of s).1 = true \/ ir_alternate_screen_active s = true) /\
  ((seen_of (record_completed_composer_prompt s)).2 = true ->
     (seen_of s).2 = true \/ ir_bracketed_paste_enabled s = true).
Proof. rewrite completed_seen. cbn [fst snd]. split; by intros H%orb_true_iff. Qed.

(** Only a completed prompt sets the flags, under the mode it belongs to. *)
Lemma frame_seen byte s (s' := record_frame normalized byte s) :
  ((seen_of s').1 = true ->
     (seen_of s).1 = true \/ (completes_frame byte s = true /\ ir_alternate_screen_active s = true)) /\
  ((seen_of s').2 = true ->
     (seen_of s).2 = true \/ (completes_frame byte s = true /\ ir_bracketed_paste_enabled s = true)).
Proof.
  unfold s', completes_frame, record_frame. rewrite <- (content_keeps_seen byte s).
  pose proof (content_keeps_modes byte s) as Hm. destruct (frame_content byte s) as [s1 showed].
  cbn [fst] in *. unfold modes_of in Hm. injection Hm as <- <- _ _ _ _. unfold on_marker.
  destruct (normalized_prompt normalized showed s1) eqn:Hn.
  - (* a normalized repaint: no frame is open *)
    assert (completed_frame_has_composer_prompt (record_completed_composer_prompt s1) = false) as Hno.
    { unfold normalized_prompt in Hn. guards. unfold completed_frame_has_composer_prompt.
      destruct s1 as [? ? [] []]; simpl in *; by simplify_eq. }
    destruct (record_marker _ _ _) as [k []]; rewrite ?end_frame_seen.
    + change (completed_frame_has_composer_prompt (set_field _ _ ?x))
        with (completed_frame_has_composer_prompt x). rewrite Hno.
      destruct (completed_adds_seen s1) as [H1 H2]. split; [intros [|]%H1|intros [|]%H2]; auto.
    + destruct (completed_adds_seen s1) as [H1 H2]. split; [intros [|]%H1|intros [|]%H2]; auto.
  - destruct (record_marker _ _ _) as [k []]; [rewrite end_frame_seen|split; intros; by left].
    set (s2 := s1 <| ir_synchronized_output_end_match := k |>). cbn [orb andb snd].
    change (completed_frame_has_composer_prompt s1) with (completed_frame_has_composer_prompt s2).
    destruct (completed_frame_has_composer_prompt s2); [|split; intros; by left].
    destruct (completed_adds_seen s2) as [H1 H2].
    split; [intros [|]%H1|intros [|]%H2]; auto.
Qed.

(** *** Evidence of a prompt *)

(** A prompt was completed and the screen has not been switched since. *)
Definition prompt_on_screen (output : list N) : Prop :=
  exists before byte after, output = before ++ byte :: after /\
    completes_prompt byte (after_output before) = true /\
    forall q rest, after = q ++ rest -> q <> [] ->
      ~ alternate_screen_enable `suffix_of` before ++ byte :: q /\
      ~ alternate_screen_disable `suffix_of` before ++ byte :: q.

Lemma prompt_here output byte :
  completes_prompt byte (after_output output) = true -> prompt_on_screen (output ++ [byte]).
Proof.
  intros H. exists output, byte, []. split_and!; [done..|].
  intros q rest Hq%eq_sym%app_eq_nil Hne. by destruct Hq.
Qed.

Lemma switches_screen_spec output byte :
  switches_screen byte (after_output output) = false ->
  ~ alternate_screen_enable `suffix_of` output ++ [byte] /\
  ~ alternate_screen_disable `suffix_of` output ++ [byte].
Proof.
  pose proof (after_output_modes output) as [_ _ Hon Hoff _ _].
  unfold switches_screen. cbn [modes_of fst snd] in *.
  apply (matches_step alternate_screen_enable (ansi_borderless [91; 63; 49; 48; 52; 57; 104] eq_refl)
           _ byte) in Hon.
  apply (matches_step alternate_screen_disable (ansi_borderless [91; 63; 49; 48; 52; 57; 108] eq_refl)
           _ byte) in Hoff.
  destruct (record_marker byte alternate_screen_enable _) as [k on], Hon as [_ Hon].
  destruct (record_marker byte alternate_screen_disable _) as [k' off], Hoff as [_ Hoff].
  cbn [snd]. intros [-> ->]%orb_false_iff. split; intros H; [by apply Hon in H|by apply Hoff in H].
Qed.

Lemma prompt_stays output byte :
  prompt_on_screen output -> switches_screen byte (after_output output) = false ->
  prompt_on_screen (output ++ [byte]).
Proof.
  intros (before & b & after & Heq & Hc & Hno) Hsw%switches_screen_spec.
  exists before, b, (after ++ [byte]). split_and!; [by rewrite Heq, <- app_assoc|done|].
  intros q rest Hq Hne. destruct rest as [|x rest _] using rev_ind.
  - rewrite app_nil_r in Hq. subst q. rewrite Heq in Hsw. by rewrite <- app_assoc in Hsw.
  - rewrite app_assoc in Hq. apply app_inj_tail in Hq as [-> _]. by apply (Hno q rest).
Qed.

Lemma no_switch_keeps_screen byte s :
  switches_screen byte s = false ->
  ir_alternate_screen_active (record_modes byte s) = ir_alternate_screen_active s.
Proof.
  intros Hsw. pose proof (record_modes_step byte s) as Hm.
  apply (f_equal (fun m => m.1.1)) in Hm. cbn [modes_of fst] in Hm. rewrite Hm.
  unfold modes_step, switches_screen in *. cbn [modes_of] in *.
  destruct (record_marker byte alternate_screen_enable _) as [k on].
  destruct (record_marker byte alternate_screen_disable _) as [k' off].
  destruct (record_marker byte bracketed_paste_enable _), (record_marker byte bracketed_paste_disable _).
  cbn [fst snd] in *. apply orb_false_iff in Hsw as [-> ->]. done.
Qed.

Lemma after_output_seen output (s := after_output output) :
  ((seen_of s).1 = true -> ir_alternate_screen_active s = true /\ prompt_on_screen output) /\
  ((seen_of s).2 = true -> ir_bracketed_paste_enabled s = true /\ prompt_on_screen output).
Proof.
  unfold s. clear s. induction output as [|byte output [IH1 IH2]] using rev_ind; [done|].
  rewrite after_output_snoc. unfold record_byte.
  pose proof (position_keeps_seen byte (after_output output)) as Hp.
  pose proof (position_keeps_modes byte (after_output output)) as Hpm.
  assert (switches_screen byte (record_position byte (after_output output))
          = switches_screen byte (after_output output)) as Hsw.
  { unfold switches_screen. unfold modes_of in Hpm. injection Hpm as _ _ -> -> _ _. done. }
  set (s1 := record_position byte (after_output output)) in *.
  pose proof (modes_seen byte s1) as [Hm1 Hm2]. rewrite Hp, Hsw in Hm1, Hm2.
  set (s2 := record_modes byte s1) in *.
  pose proof (frame_seen byte s2) as [Hf1 Hf2].
  pose proof (frame_keeps_modes byte s2) as Hfm. unfold modes_of in Hfm. injection Hfm as -> -> _ _ _ _.
  pose proof (fun H => prompt_here output byte H) as Hhere. unfold completes_prompt in Hhere.
  fold s1 s2 in Hhere. unfold modes_of in Hpm. injection Hpm as Ha Hb _ _ _ _.
  split.
  - intros [H|[Hc Hact]]%Hf1; [|auto]. apply Hm1 in H as [Hno H]. apply IH1 in H as [Hact H].
    split; [|by apply prompt_stays]. rewrite <- Hsw in Hno.
    pose proof (no_switch_keeps_screen byte s1 Hno) as Hkeep. fold s2 in Hkeep.
    by rewrite Hkeep, Ha.
  - intros [H|[Hc Hact]]%Hf2; [|auto]. apply Hm2 in H as [Hno [[H Hon]|[H Hkeep]]].
    + apply IH1 in H as [_ H]. split; [done|by apply prompt_stays].
    + apply IH2 in H as [Hon H]. split; [apply Hkeep; by rewrite Hb|by apply prompt_stays].
Qed.
End facts.
