(* ===== verification/OutputActivity.v ===== *)
(** * Output activity of a terminal

    [src/modules/terminal/src/output_settlement.rs]: the tracker that counts the
    frames, cursor shows and composer renders of the output, and the waits that
    decide when the output has settled. A poisoned lock is not modelled. *)

From stdpp Require Import list relations.
From S2P Require Import Prelude DeliveryRuntime TerminalStructure.

Local Open Scope N_scope.
Local Open Scope list_scope.

Record OutputActivityState : Type := MkOutputActivityState {
  os_sequence : N;
  os_synchronized_frame_sequence : N;
  os_synchronized_frame_count : N;
  os_synchronized_output_begin_match : nat;
  os_synchronized_output_match : nat;
  os_synchronized_frame_open : bool;
  os_synchronized_frame_had_show_cursor : bool;
  os_synchronized_frame_cursor_position : option CursorPosition;
  os_synchronized_frame_cursor_position_observed : bool;
  os_synchronized_frame_visible_cursor_position : option CursorPosition;
  os_synchronized_frame_erased_rows : ErasedTerminalRows;
  os_composer_render_sequence : N;
  os_composer_render_count : N;
  os_completed_composer_frame_sequence : N;
  os_completed_composer_frame_count : N;
  os_completed_composer_frame_cursor_position : option CursorPosition;
  os_composer_surface_render_sequence : N;
  os_composer_surface_render_count : N;
  os_composer_surface_render_cursor_position : option CursorPosition;
  os_show_cursor_match : nat;
  os_hide_cursor_match : nat;
  os_normalized_repaint_open : bool;
  os_normalized_repaint_cursor_position : option CursorPosition;
  os_normalized_repaint_erased_rows : ErasedTerminalRows;
  os_terminal_structure_parser : TerminalStructureParser;
  os_closed : bool
}.
#[export] Instance OutputActivityState_eta : Eta OutputActivityState := fun s =>
  MkOutputActivityState (os_sequence s) (os_synchronized_frame_sequence s)
    (os_synchronized_frame_count s) (os_synchronized_output_begin_match s)
    (os_synchronized_output_match s) (os_synchronized_frame_open s)
    (os_synchronized_frame_had_show_cursor s) (os_synchronized_frame_cursor_position s)
    (os_synchronized_frame_cursor_position_observed s)
    (os_synchronized_frame_visible_cursor_position s) (os_synchronized_frame_erased_rows s)
    (os_composer_render_sequence s) (os_composer_render_count s)
    (os_completed_composer_frame_sequence s) (os_completed_composer_frame_count s)
    (os_completed_composer_frame_cursor_position s) (os_composer_surface_render_sequence s)
    (os_composer_surface_render_count s) (os_composer_surface_render_cursor_position s)
    (os_show_cursor_match s) (os_hide_cursor_match s) (os_normalized_repaint_open s)
    (os_normalized_repaint_cursor_position s) (os_normalized_repaint_erased_rows s)
    (os_terminal_structure_parser s) (os_closed s).

Definition output_state_default : OutputActivityState :=
  MkOutputActivityState 0 0 0 0 0 false false None false None erased_rows_default 0 0 0 0 None 0
    0 None 0 0 false None erased_rows_default structure_parser_default false.

Section tracker.
Context (accepts_normalized_screen_diff : bool).

(** A position or an erased line reported by the parser. *)
Definition record_structure (byte : N) (state : OutputActivityState) : OutputActivityState :=
  let '(parser, structure) := structure_record byte (os_terminal_structure_parser state) in
  let state := state <| os_terminal_structure_parser := parser |> in
  match structure with
  | Some (TS_CursorPosition position) =>
      if os_synchronized_frame_open state
      then
        let state := state <| os_synchronized_frame_cursor_position := Some position |>
                           <| os_synchronized_frame_cursor_position_observed := true |> in
        if os_synchronized_frame_had_show_cursor state
        then state <| os_synchronized_frame_visible_cursor_position := Some position |>
        else state
      else if accepts_normalized_screen_diff && os_normalized_repaint_open state
           then state <| os_normalized_repaint_cursor_position := Some position |>
      else state
  | Some TS_EraseLine =>
      if os_synchronized_frame_open state
      then match os_synchronized_frame_cursor_position state with
           | Some position =>
               state <| os_synchronized_frame_erased_rows :=
                          erased_record (cp_row position) (os_synchronized_frame_erased_rows state) |>
           | None => state
           end
      else if accepts_normalized_screen_diff && os_normalized_repaint_open state
           then match os_normalized_repaint_cursor_position state with
                | Some position =>
                    state <| os_normalized_repaint_erased_rows :=
                               erased_record (cp_row position)
                                 (os_normalized_repaint_erased_rows state) |>
                | None => state
                end
      else state
  | None => state
  end.

(** One [record_marker] of the loop body: the stored count, and whether the
    marker is complete. *)
Definition step_marker (byte : N) (marker : list N) (matched : OutputActivityState -> nat)
    (store : nat -> OutputActivityState -> OutputActivityState) (state : OutputActivityState)
  : OutputActivityState * bool :=
  let '(matched', complete) := record_marker byte marker (matched state) in
  (store matched' state, complete).

Definition begin_output_frame (state : OutputActivityState) : OutputActivityState :=
  state <| os_synchronized_frame_open := true |>
        <| os_synchronized_frame_had_show_cursor := false |>
        <| os_synchronized_frame_cursor_position :=
             os_completed_composer_frame_cursor_position state |>
        <| os_synchronized_frame_cursor_position_observed := false |>
        <| os_synchronized_frame_visible_cursor_position := None |>
        <| os_synchronized_frame_erased_rows := erased_rows_default |>.

Definition begin_repaint (state : OutputActivityState) : OutputActivityState :=
  state <| os_normalized_repaint_open := true |>
        <| os_normalized_repaint_cursor_position :=
             Some (sp_cursor_position (os_terminal_structure_parser state)) |>
        <| os_normalized_repaint_erased_rows := erased_rows_default |>.

(** A completed composer frame whose visible cursor is at [position]; it renders
    the composer surface when it erased that row. *)
Definition complete_composer_frame (position : CursorPosition) (erased : list N)
    (state : OutputActivityState) : OutputActivityState :=
  let state :=
    state <| os_completed_composer_frame_sequence := os_sequence state |>
          <| os_completed_composer_frame_count :=
               u64_saturating_add (os_completed_composer_frame_count state) 1 |>
          <| os_completed_composer_frame_cursor_position := Some position |> in
  if erased_contains erased (cp_row position)
  then state <| os_composer_surface_render_sequence := os_sequence state |>
             <| os_composer_surface_render_count :=
                  u64_saturating_add (os_composer_surface_render_count state) 1 |>
             <| os_composer_surface_render_cursor_position := Some position |>
  else state.

Definition finish_repaint (state : OutputActivityState) : OutputActivityState :=
  let position := sp_cursor_position (os_terminal_structure_parser state) in
  (complete_composer_frame position (os_normalized_repaint_erased_rows state) state)
    <| os_normalized_repaint_open := false |>
    <| os_normalized_repaint_cursor_position := None |>
    <| os_normalized_repaint_erased_rows := erased_rows_default |>.

Definition cursor_shown (state : OutputActivityState) : OutputActivityState :=
  let state :=
    state <| os_composer_render_sequence := os_sequence state |>
          <| os_composer_render_count := u64_saturating_add (os_composer_render_count state) 1 |> in
  let state :=
    if os_synchronized_frame_open state
    then state <| os_synchronized_frame_had_show_cursor := true |>
               <| os_synchronized_frame_visible_cursor_position :=
                    if os_synchronized_frame_cursor_position_observed state
                    then os_synchronized_frame_cursor_position state else None |>
    else state in
  if accepts_normalized_screen_diff && os_normalized_repaint_open state
  then finish_repaint state else state.

Definition end_output_frame (state : OutputActivityState) : OutputActivityState :=
  let state :=
    state <| os_synchronized_frame_sequence := os_sequence state |>
          <| os_synchronized_frame_count :=
               u64_saturating_add (os_synchronized_frame_count state) 1 |> in
  let state :=
    match os_synchronized_frame_visible_cursor_position state with
    | Some position =>
        if os_synchronized_frame_open state && os_synchronized_frame_had_show_cursor state
        then complete_composer_frame position (os_synchronized_frame_erased_rows state) state
        else state
    | None => state
    end in
  state <| os_synchronized_frame_open := false |>
        <| os_synchronized_frame_had_show_cursor := false |>
        <| os_synchronized_frame_cursor_position := None |>
        <| os_synchronized_frame_cursor_position_observed := false |>
        <| os_synchronized_frame_visible_cursor_position := None |>
        <| os_synchronized_frame_erased_rows := erased_rows_default |>.

(** The body of the loop over the bytes. *)
Definition output_record_byte (state : OutputActivityState) (byte : N) : OutputActivityState :=
  let state := record_structure byte state in
  let '(state, began) := step_marker byte synchronized_output_begin
    os_synchronized_output_begin_match
    (fun n s => s <| os_synchronized_output_begin_match := n |>) state in
  let state := if began then begin_output_frame state else state in
  let '(state, hidden) := step_marker byte hide_cursor os_hide_cursor_match
    (fun n s => s <| os_hide_cursor_match := n |>) state in
  let state := if hidden && accepts_normalized_screen_diff then begin_repaint state else state in
  let '(state, shown) := step_marker byte show_cursor os_show_cursor_match
    (fun n s => s <| os_show_cursor_match := n |>) state in
  let state := if shown then cursor_shown state else state in
  let '(state, ended) := step_marker byte synchronized_output_end os_synchronized_output_match
    (fun n s => s <| os_synchronized_output_match := n |>) state in
  if ended then end_output_frame state else state.

Definition output_record (bytes : list N) (state : OutputActivityState) : OutputActivityState :=
  fold_left output_record_byte bytes
    (state <| os_sequence := u64_saturating_add (os_sequence state) 1 |>).
End tracker.

Definition output_close (state : OutputActivityState) : OutputActivityState :=
  state <| os_closed := true |>.

(** ** Snapshots *)

Record OutputActivitySnapshot : Type := MkOutputActivitySnapshot {
  sn_runtime_epoch : N;
  sn_sequence : N;
  sn_synchronized_frame_sequence : N;
  sn_synchronized_frame_count : N;
  sn_composer_render_sequence : N;
  sn_composer_render_count : N;
  sn_completed_composer_frame_sequence : N;
  sn_completed_composer_frame_count : N;
  sn_completed_composer_frame_cursor_position : option CursorPosition;
  sn_composer_surface_render_sequence : N;
  sn_composer_surface_render_count : N
}.

Definition output_snapshot (runtime_epoch : N) (state : OutputActivityState)
  : OutputActivitySnapshot :=
  MkOutputActivitySnapshot runtime_epoch (os_sequence state) (os_synchronized_frame_sequence state)
    (os_synchronized_frame_count state) (os_composer_render_sequence state)
    (os_composer_render_count state) (os_completed_composer_frame_sequence state)
    (os_completed_composer_frame_count state) (os_completed_composer_frame_cursor_position state)
    (os_composer_surface_render_sequence state) (os_composer_surface_render_count state).

(** [before.zip(after).is_some_and(|(before, after)| before != after)] *)
Definition cursor_moved (before after : option CursorPosition) : bool :=
  match before, after with
  | Some before, Some after => bool_decide (before <> after)
  | _, _ => false
  end.

Definition diagnostics_since (self : OutputActivitySnapshot) (state : OutputActivityState)
  : OutputActivityDiagnostics :=
  MkOutputActivityDiagnostics
    (os_sequence state - sn_sequence self)
    (os_synchronized_frame_count state - sn_synchronized_frame_count self)
    (os_composer_render_count state - sn_composer_render_count self)
    (os_completed_composer_frame_count state - sn_completed_composer_frame_count self)
    (os_composer_surface_render_count state - sn_composer_surface_render_count self)
    (cursor_moved (sn_completed_composer_frame_cursor_position self)
       (os_completed_composer_frame_cursor_position state)).

(** ** Waiting for the output to settle *)

Record OutputSettlementReceipt : Type := MkOutputSettlementReceipt {
  rc_runtime_epoch : N;
  rc_baseline_sequence : N;
  rc_settled_sequence : N;
  rc_evidence : OutputSettlementEvidence
}.

(** One iteration of a wait: what the stability deadline and the overall deadline
    have left when it asks, and the state and timeout flag the condition
    variable wakes up with. *)
Record WaitRound : Type := MkWaitRound {
  wr_candidate_remaining : option N;
  wr_remaining : option N;
  wr_next : OutputActivityState;
  wr_timed_out : bool
}.

(** How a wait ends; [Panicked] is the [expect] on the surface cursor. *)
Inductive Waited : Type :=
| Answered (answer : result OutputSettlementFailure OutputSettlementReceipt)
| Panicked.

Definition settled (self : OutputActivitySnapshot) (sequence : N)
    (evidence : OutputSettlementEvidence) : Waited :=
  Answered (Ok (MkOutputSettlementReceipt (sn_runtime_epoch self) (sn_sequence self) sequence
                  evidence)).
Definition gave_up (failure : OutputSettlementFailure) : Waited := Answered (Err failure).

Section waits.
(** [MonotonicDeadline::after] succeeds for this duration. *)
Context (representable : N -> bool).

(** The part of both loops that waits [quiet_window] without output: [inl] ends
    the wait, [inr] goes on with the state woken up with. *)
Definition quiet_round (self : OutputActivitySnapshot) (quiet_window : N)
    (evidence : OutputSettlementEvidence) (state : OutputActivityState) (round : WaitRound)
  : Waited + OutputActivityState :=
  let settled_sequence := os_sequence state in
  match wr_remaining round with
  | None => inl (gave_up OSF_TimedOut)
  | Some remaining =>
      let wait_for := N.min quiet_window remaining in
      let state := wr_next round in
      if os_closed state then inl (gave_up OSF_TerminalClosed)
      else if (os_sequence state =? settled_sequence) && wr_timed_out round
           then if wait_for <? quiet_window then inl (gave_up OSF_TimedOut)
                else inl (settled self settled_sequence evidence)
      else inr state
  end.

(** The loop of [wait_for_settlement_inner]; [None] when it still waits after the
    rounds. *)
Fixpoint settlement_loop (self : OutputActivitySnapshot) (quiet_window : N)
    (activity_observed : bool) (state : OutputActivityState) (rounds : list WaitRound)
  : option Waited :=
  if os_closed state then Some (gave_up OSF_TerminalClosed)
  else if sn_synchronized_frame_sequence self <? os_synchronized_frame_sequence state
       then Some (settled self (os_sequence state) OSE_SynchronizedFrame)
  else
    match rounds with
    | [] => None
    | round :: rounds =>
        if (os_sequence state <=? sn_sequence self) && negb activity_observed
        then
          match wr_remaining round with
          | None => Some (gave_up OSF_TimedOut)
          | Some _ =>
              let state := wr_next round in
              if wr_timed_out round && (os_sequence state <=? sn_sequence self)
              then Some (gave_up OSF_TimedOut)
              else settlement_loop self quiet_window activity_observed state rounds
          end
        else
          match quiet_round self quiet_window OSE_Quiescence state round with
          | inl waited => Some waited
          | inr state => settlement_loop self quiet_window true state rounds
          end
    end.

Definition wait_for_settlement_inner (self : OutputActivitySnapshot) (quiet_window timeout : N)
    (activity_observed : bool) (state : OutputActivityState) (rounds : list WaitRound)
  : option Waited :=
  if (quiet_window =? 0) || (timeout <? quiet_window) then Some (gave_up OSF_InvalidWindow)
  else if negb (representable timeout) then Some (gave_up OSF_InvalidWindow)
  else settlement_loop self quiet_window activity_observed state rounds.

(** The surface cursor and sequence that started the stability window. *)
Definition Stability : Type := option (CursorPosition * N).

(** The stability window after a render of the surface at [cursor]: whether it
    starts anew, and the candidate it keeps. *)
Definition observe_surface (stability : Stability) (cursor : CursorPosition) (sequence : N)
  : bool * (CursorPosition * N) :=
  match stability with
  | Some (candidate_cursor, observed_sequence) =>
      if negb (observed_sequence =? sequence) && bool_decide (candidate_cursor <> cursor)
      then (true, (cursor, sequence))
      else (false, (candidate_cursor, sequence))
  | None => (true, (cursor, sequence))
  end.

(** The loop of [wait_for_composer_render_settlement_inner]. *)
Fixpoint composer_loop (self : OutputActivitySnapshot) (quiet_window : N)
    (normalized_screen_diff : bool) (stability : Stability) (state : OutputActivityState)
    (rounds : list WaitRound) : option Waited :=
  if os_closed state then Some (gave_up OSF_TerminalClosed)
  else if negb normalized_screen_diff
          && (sn_completed_composer_frame_sequence self <? os_completed_composer_frame_sequence state)
          && cursor_moved (sn_completed_composer_frame_cursor_position self)
               (os_completed_composer_frame_cursor_position state)
       then Some (settled self (os_sequence state) OSE_ComposerCursorMovement)
  else if sn_composer_surface_render_sequence self <? os_composer_surface_render_sequence state
       then
         match os_composer_surface_render_cursor_position state with
         | None => Some Panicked
         | Some cursor =>
             let '(restarts, candidate) :=
               observe_surface stability cursor (os_composer_surface_render_sequence state) in
             if restarts && negb (representable quiet_window)
             then Some (gave_up OSF_InvalidWindow)
             else
               match rounds with
               | [] => None
               | round :: rounds =>
                   match wr_candidate_remaining round with
                   | None => Some (settled self (os_sequence state) OSE_ComposerSurfaceStability)
                   | Some _ =>
                       match wr_remaining round with
                       | None => Some (gave_up OSF_TimedOut)
                       | Some _ =>
                           composer_loop self quiet_window normalized_screen_diff (Some candidate)
                             (wr_next round) rounds
                       end
                   end
               end
         end
  else
    match rounds with
    | [] => None
    | round :: rounds =>
        let rendered := sn_composer_render_sequence self <? os_composer_render_sequence state in
        if negb rendered
           && (negb normalized_screen_diff || (os_sequence state <=? sn_sequence self))
        then
          match wr_remaining round with
          | None => Some (gave_up OSF_TimedOut)
          | Some _ =>
              let state := wr_next round in
              if wr_timed_out round
                 && (os_composer_render_sequence state <=? sn_composer_render_sequence self)
              then Some (gave_up OSF_TimedOut)
              else composer_loop self quiet_window normalized_screen_diff stability state rounds
          end
        else
          let evidence := if normalized_screen_diff && negb rendered then OSE_Quiescence
                          else OSE_ComposerRenderQuiescence in
          match quiet_round self quiet_window evidence state round with
          | inl waited => Some waited
          | inr state =>
              composer_loop self quiet_window normalized_screen_diff stability state rounds
          end
    end.

Definition wait_for_composer_render_settlement_inner (self : OutputActivitySnapshot)
    (quiet_window timeout : N) (normalized_screen_diff : bool) (state : OutputActivityState)
    (rounds : list WaitRound) : option Waited :=
  if (quiet_window =? 0) || (timeout <? quiet_window) then Some (gave_up OSF_InvalidWindow)
  else if negb (representable timeout) then Some (gave_up OSF_InvalidWindow)
  else composer_loop self quiet_window normalized_screen_diff None state rounds.
End waits.

(** * What the output tracker and its waits guarantee

    Well-formedness of every state the tracker reaches, what changes between a
    snapshot and a later state, and what an answered wait has seen. *)

(** ** Well-formed states *)

Definition positions_ok (o : option CursorPosition) : Prop :=
  forall position, o = Some position -> cursor_ok position.

Record output_ok (s : OutputActivityState) : Prop := {
  oo_parser : parser_ok (os_terminal_structure_parser s);
  oo_begin_match : (os_synchronized_output_begin_match s < length synchronized_output_begin)%nat;
  oo_end_match : (os_synchronized_output_match s < length synchronized_output_end)%nat;
  oo_show_match : (os_show_cursor_match s < length show_cursor)%nat;
  oo_hide_match : (os_hide_cursor_match s < length hide_cursor)%nat;
  oo_frame_rows : length (os_synchronized_frame_erased_rows s) = tracked_terminal_row_words;
  oo_repaint_rows : length (os_normalized_repaint_erased_rows s) = tracked_terminal_row_words;
  oo_frame_cursor : positions_ok (os_synchronized_frame_cursor_position s);
  oo_visible_cursor : positions_ok (os_synchronized_frame_visible_cursor_position s);
  oo_repaint_cursor : positions_ok (os_normalized_repaint_cursor_position s);
  oo_completed_cursor : positions_ok (os_completed_composer_frame_cursor_position s);
  oo_surface_cursor : positions_ok (os_composer_surface_render_cursor_position s);
  oo_shown : os_synchronized_frame_had_show_cursor s = true -> os_synchronized_frame_open s = true;
  oo_visible : is_Some (os_synchronized_frame_visible_cursor_position s) ->
    os_synchronized_frame_had_show_cursor s = true;
  oo_sequence_bound : os_sequence s <= u64_max;
  oo_frame_sequence : os_synchronized_frame_sequence s <= os_sequence s;
  oo_render_sequence : os_composer_render_sequence s <= os_sequence s;
  oo_completed_sequence : os_completed_composer_frame_sequence s <= os_sequence s;
  oo_surface_sequence :
    os_composer_surface_render_sequence s <= os_completed_composer_frame_sequence s;
  oo_surface_count : os_composer_surface_render_count s <= os_completed_composer_frame_count s;
  oo_count_bound : os_completed_composer_frame_count s <= u64_max;
  oo_completed : 0 < os_completed_composer_frame_sequence s ->
    is_Some (os_completed_composer_frame_cursor_position s);
  oo_surface : 0 < os_composer_surface_render_sequence s ->
    is_Some (os_composer_surface_render_cursor_position s)
}.

Lemma output_ok_default : output_ok output_state_default.
Proof.
  split; simpl; try done; try lia; try exact structure_parser_default_ok; try (by intros []).
Qed.

Section preservation.
Context (normalized : bool).
Implicit Types (s : OutputActivityState) (byte : N).

Lemma erased_record_length row rows : length (erased_record row rows) = length rows.
Proof. unfold erased_record. case_match; [done|]. by rewrite length_alter. Qed.

Lemma record_marker_bound byte marker k :
  (1 < length marker)%nat -> (k < length marker)%nat ->
  ((record_marker byte marker k).1 < length marker)%nat.
Proof.
  intros Hlen Hk. unfold record_marker. repeat case_match; simpl; try lia.
  match goal with H : (_ =? _)%nat = false |- _ => apply Nat.eqb_neq in H end. lia.
Qed.

(** Closes the clauses a piece of the loop body leaves alone. *)
Ltac clauses :=
  split; simpl; try assumption; try done; try lia; try (by intros []);
  try (intros ?; simplify_eq; assumption).

Lemma record_structure_ok byte s : output_ok s -> output_ok (record_structure normalized byte s).
Proof.
  intros Hok. unfold record_structure.
  pose proof (structure_record_ok byte _ (oo_parser s Hok)) as [Hp Hpos].
  destruct (structure_record byte _) as [parser structure]. cbn [fst snd] in *.
  destruct structure as [[position|]|]; [| |by destruct Hok; clauses].
  - specialize (Hpos position eq_refl).
    assert (positions_ok (Some position)) by (by intros ? [= <-]).
    repeat (simpl; case_match); destruct Hok; clauses.
  - repeat (simpl; case_match); destruct Hok; clauses; by rewrite erased_record_length.
Qed.

Lemma begin_output_frame_ok s : output_ok s -> output_ok (begin_output_frame s).
Proof. intros []. clauses. Qed.

Lemma begin_repaint_ok s : output_ok s -> output_ok (begin_repaint s).
Proof.
  intros []. clauses. intros ? [= <-]. by apply po_cursor.
Qed.

Lemma complete_composer_frame_ok position rows s :
  cursor_ok position -> output_ok s -> output_ok (complete_composer_frame position rows s).
Proof.
  intros Hpos [].
  assert (positions_ok (Some position)) by (by intros ? [= <-]).
  unfold complete_composer_frame. case_match; clauses; unfold u64_saturating_add; lia.
Qed.

Lemma finish_repaint_ok s : output_ok s -> output_ok (finish_repaint s).
Proof.
  intros Hok. pose proof (po_cursor _ (oo_parser s Hok)) as Hpos. unfold finish_repaint.
  pose proof (complete_composer_frame_ok _ (os_normalized_repaint_erased_rows s) s Hpos Hok) as [].
  clauses.
Qed.

Lemma cursor_shown_ok s : output_ok s -> output_ok (cursor_shown normalized s).
Proof.
  intros Hok. unfold cursor_shown.
  set (s1 := s <| os_composer_render_sequence := os_sequence s |>
               <| os_composer_render_count := u64_saturating_add (os_composer_render_count s) 1 |>).
  assert (output_ok s1) as H1 by (destruct Hok; clauses). clearbody s1. clear s Hok.
  set (s2 := if os_synchronized_frame_open s1 then _ else s1).
  assert (output_ok s2) as H2.
  { unfold s2. destruct (os_synchronized_frame_open s1) eqn:Ho; [|done]. destruct H1.
    case_match; clauses. }
  case_match; [by apply finish_repaint_ok|done].
Qed.

Lemma end_output_frame_ok s : output_ok s -> output_ok (end_output_frame s).
Proof.
  intros Hok. unfold end_output_frame.
  set (s1 := s <| os_synchronized_frame_sequence := os_sequence s |>
               <| os_synchronized_frame_count :=
                    u64_saturating_add (os_synchronized_frame_count s) 1 |>).
  assert (output_ok s1) as H1 by (destruct Hok; clauses). clearbody s1. clear s Hok.
  match goal with |- context [match ?o with Some _ => _ | None => _ end] =>
    set (s2 := match o with Some _ => _ | None => _ end) end.
  assert (output_ok s2) as [].
  { unfold s2. destruct (os_synchronized_frame_visible_cursor_position s1) eqn:Hv; [|done].
    case_match; [|done]. apply complete_composer_frame_ok; [|done].
    by apply (oo_visible_cursor s1 H1). }
  clauses.
Qed.

(** A piece of the loop body: it keeps states well-formed, keeps the chunk
    sequence and the closed flag, and the sequence numbers it writes are the
    chunk's. *)
Definition sequences s : list N :=
  [os_synchronized_frame_sequence s; os_composer_render_sequence s;
   os_completed_composer_frame_sequence s; os_composer_surface_render_sequence s].

Record ticks s s' : Prop := {
  tk_sequence : os_sequence s' = os_sequence s;
  tk_closed : os_closed s' = os_closed s;
  tk_stamps : Forall2 (fun old new => new = old \/ new = os_sequence s) (sequences s) (sequences s')
}.

Lemma ticks_refl s : ticks s s.
Proof. split; [done..|]. do 4 (constructor; [by left|]). constructor. Qed.

Lemma ticks_trans s1 s2 s3 : ticks s1 s2 -> ticks s2 s3 -> ticks s1 s3.
Proof.
  intros [H1 C1 F1] [H2 C2 F2]. split; [congruence..|]. rewrite H1 in F2. clear - F1 F2.
  revert F2. generalize (sequences s3). induction F1 as [|a b l k Hab F1 IH]; intros l3 F2;
    inversion F2 as [|? c ? m Hbc F2']; subst; constructor; [|by apply IH].
  destruct Hbc as [->| ->]; auto.
Qed.

Ltac stamps :=
  unfold sequences; constructor; [|constructor; [|constructor; [|constructor; [|constructor]]]].
Ltac stamp := split; simpl; [done..|]; stamps; simpl; auto.

Lemma record_structure_ticks byte s : ticks s (record_structure normalized byte s).
Proof. unfold record_structure. repeat (simpl; case_match); stamp. Qed.
Lemma complete_ticks position rows s : ticks s (complete_composer_frame position rows s).
Proof. unfold complete_composer_frame. case_match; stamp. Qed.
Lemma finish_ticks s : ticks s (finish_repaint s).
Proof.
  unfold finish_repaint.
  destruct (complete_ticks (sp_cursor_position (os_terminal_structure_parser s))
              (os_normalized_repaint_erased_rows s) s). by split.
Qed.
Lemma shown_ticks s : ticks s (cursor_shown normalized s).
Proof.
  unfold cursor_shown.
  set (s1 := s <| os_composer_render_sequence := _ |> <| os_composer_render_count := _ |>).
  assert (ticks s s1) as H1 by stamp. clearbody s1.
  set (s2 := if os_synchronized_frame_open s1 then _ else s1).
  assert (ticks s1 s2) as H2 by (unfold s2; case_match; stamp). clearbody s2.
  case_match; eauto using ticks_trans, finish_ticks.
Qed.
Lemma end_ticks s : ticks s (end_output_frame s).
Proof.
  unfold end_output_frame.
  set (s1 := s <| os_synchronized_frame_sequence := _ |> <| os_synchronized_frame_count := _ |>).
  assert (ticks s s1) as H1 by stamp. clearbody s1.
  set (s2 := match os_synchronized_frame_visible_cursor_position s1 with Some _ => _ | _ => _ end).
  assert (ticks s1 s2) as H2
    by (unfold s2; repeat case_match; eauto using ticks_refl, complete_ticks). clearbody s2.
  eapply ticks_trans; [exact H1|]. eapply ticks_trans; [exact H2|]. stamp.
Qed.

Lemma step_marker_ok byte marker matched store s :
  output_ok s ->
  (forall k, (k < length marker)%nat -> output_ok (store k s)) -> (forall k, ticks s (store k s)) ->
  (1 < length marker)%nat -> (matched s < length marker)%nat ->
  output_ok (step_marker byte marker matched store s).1 /\
  ticks s (step_marker byte marker matched store s).1.
Proof.
  intros Hok Hs Ht Hlen Hk. unfold step_marker.
  pose proof (record_marker_bound byte marker (matched s) Hlen Hk) as Hb.
  destruct (record_marker _ _ _) as [k c]. simpl in *. auto.
Qed.

Lemma conditional_step (b : bool) (f : OutputActivityState -> OutputActivityState) s0 s :
  (output_ok s -> output_ok (f s)) -> ticks s (f s) -> output_ok s /\ ticks s0 s ->
  output_ok (if b then f s else s) /\ ticks s0 (if b then f s else s).
Proof. intros Hf Ht [Hok H]. destruct b; eauto using ticks_trans. Qed.

(** One marker of the byte: its matcher and what follows keep the state well-formed. *)
Ltac marker_step H s1 b :=
  let e := fresh in
  match goal with |- context [step_marker ?byte ?m ?f ?g ?s0] =>
    pose proof (step_marker_ok byte m f g s0 (proj1 H)) as e;
    destruct (step_marker byte m f g s0) as [s1 b]; cbn [fst] in e;
    destruct e as [e1 e2];
    [intros; destruct (proj1 H); clauses|intros; stamp|simpl; lia|destruct (proj1 H); assumption|];
    match type of H with _ /\ ticks ?s _ =>
      assert (output_ok s1 /\ ticks s s1) as H' by (split; [done|eapply ticks_trans; [apply H|done]])
    end; clear H e1 e2; rename H' into H
  end.

Lemma output_record_byte_ok byte s :
  output_ok s ->
  output_ok (output_record_byte normalized s byte) /\ ticks s (output_record_byte normalized s byte).
Proof.
  intros Hok. unfold output_record_byte.
  pose proof (record_structure_ok byte s Hok) as H0. pose proof (record_structure_ticks byte s) as T0.
  set (s0 := record_structure normalized byte s) in *. clearbody s0.
  assert (output_ok s0 /\ ticks s s0) as H by done. clear H0 T0.
  marker_step H s1 began.
  apply (conditional_step began begin_output_frame) in H; [|apply begin_output_frame_ok|stamp].
  set (s2 := if began then _ else s1) in *. clearbody s2.
  marker_step H s3 hidden.
  apply (conditional_step (hidden && normalized) begin_repaint) in H; [|apply begin_repaint_ok|stamp].
  set (s4 := if hidden && normalized then _ else s3) in *. clearbody s4.
  marker_step H s5 shown.
  apply (conditional_step shown (cursor_shown normalized)) in H;
    [|apply cursor_shown_ok|apply shown_ticks].
  set (s6 := if shown then _ else s5) in *. clearbody s6.
  marker_step H s7 ended.
  by apply (conditional_step ended end_output_frame) in H; [|apply end_output_frame_ok|apply end_ticks].
Qed.
End preservation.

(** ** Runs of the tracker *)

Inductive output_step (normalized : bool) : OutputActivityState -> OutputActivityState -> Prop :=
| step_record bytes s : output_step normalized s (output_record normalized bytes s)
| step_close s : output_step normalized s (output_close s).

Definition reachable_output (normalized : bool) (s : OutputActivityState) : Prop :=
  rtc (output_step normalized) output_state_default s.

(** What a state has in common with an earlier one: the sequence grows, and each
    stamp is the earlier one or that of a later chunk. *)
Record since (s0 s : OutputActivityState) : Prop := {
  sc_sequence : os_sequence s0 <= os_sequence s;
  sc_stamps : Forall2 (fun old new => new = old \/ N.min (os_sequence s0 + 1) u64_max <= new)
    (sequences s0) (sequences s)
}.

Section runs.
Context (normalized : bool).
Implicit Types (s : OutputActivityState).

Lemma record_bytes_ok bytes s :
  output_ok s -> output_ok (fold_left (output_record_byte normalized) bytes s) /\
    ticks s (fold_left (output_record_byte normalized) bytes s).
Proof.
  revert s. induction bytes as [|byte bytes IH]; intros s Hok; [by split; [|apply ticks_refl]|].
  simpl. destruct (output_record_byte_ok normalized byte s Hok) as [Hok1 T1].
  destruct (IH _ Hok1) as [Hok2 T2]. eauto using ticks_trans.
Qed.

Lemma output_record_ok bytes s :
  output_ok s ->
  output_ok (output_record normalized bytes s) /\ since s (output_record normalized bytes s).
Proof.
  intros Hok. unfold output_record.
  set (s1 := s <| os_sequence := u64_saturating_add (os_sequence s) 1 |>).
  assert (output_ok s1) as H1
    by (destruct Hok; split; simpl; try done; unfold u64_saturating_add; lia).
  destruct (record_bytes_ok bytes s1 H1) as [H2 [Hseq _ Hst]]. split; [done|].
  split; rewrite ?Hseq.
  - simpl. unfold u64_saturating_add. pose proof (oo_sequence_bound s Hok). lia.
  - change (sequences s1) with (sequences s) in Hst. eapply Forall2_impl; [|exact Hst].
    intros old new [->| ->]; [by left|]. right. simpl. unfold u64_saturating_add. lia.
Qed.

Lemma output_close_ok s : output_ok s -> output_ok (output_close s) /\ since s (output_close s).
Proof.
  intros Hok. split; [destruct Hok; by split|].
  split; [done|]. unfold sequences. do 4 (constructor; [by left|]). constructor.
Qed.

Lemma output_step_ok s s' : output_step normalized s s' -> output_ok s -> output_ok s' /\ since s s'.
Proof. intros []; [apply output_record_ok|apply output_close_ok]. Qed.

Lemma since_refl s : since s s.
Proof. split; [done|]. unfold sequences. do 4 (constructor; [by left|]). constructor. Qed.

Lemma since_trans s1 s2 s3 : since s1 s2 -> since s2 s3 -> since s1 s3.
Proof.
  intros [H1 F1] [H2 F2]. split; [lia|].
  assert (N.min (os_sequence s1 + 1) u64_max <= N.min (os_sequence s2 + 1) u64_max) as Hmin by lia.
  clear - F1 F2 Hmin. revert F2. generalize (sequences s3).
  induction F1 as [|a b l k Hab F1 IH]; intros l3 F2;
    inversion F2 as [|? c ? m Hbc F2']; subst; constructor; [|by apply IH].
  destruct Hbc as [->|Hbc]; [done|]. right. lia.
Qed.

Lemma output_run_ok s s' :
  rtc (output_step normalized) s s' -> output_ok s -> output_ok s' /\ since s s'.
Proof.
  induction 1 as [s|s1 s2 s3 Hstep _ IH]; intros Hok; [by split; [|apply since_refl]|].
  destruct (output_step_ok _ _ Hstep Hok) as [Hok2 S12].
  destruct (IH Hok2) as [Hok3 S23]. eauto using since_trans.
Qed.

Lemma reachable_output_ok s : reachable_output normalized s -> output_ok s.
Proof. intros H. by apply (output_run_ok _ _ H), output_ok_default. Qed.
End runs.

(** ** Waits *)

(** The states a wait wakes up with are later states of the tracker. *)
Fixpoint woken (normalized : bool) (s : OutputActivityState) (rounds : list WaitRound) : Prop :=
  match rounds with
  | [] => True
  | round :: rounds =>
      rtc (output_step normalized) s (wr_next round) /\ woken normalized (wr_next round) rounds
  end.

(** The states a wait looks at. *)
Definition looked_at (s : OutputActivityState) (rounds : list WaitRound)
    (seen : OutputActivityState) : Prop :=
  seen = s \/ exists round, round ∈ rounds /\ seen = wr_next round.

(** No output came after [seen] for a full quiet window. *)
Definition quiet_after (quiet_window : N) (seen : OutputActivityState) (rounds : list WaitRound)
  : Prop :=
  exists round remaining, round ∈ rounds /\ wr_timed_out round = true /\
    wr_remaining round = Some remaining /\ quiet_window <= remaining /\
    os_sequence (wr_next round) = os_sequence seen /\ os_closed (wr_next round) = false.

(** What the evidence of a receipt says of the last state the wait looked at. *)
Definition evidence_holds (self : OutputActivitySnapshot) (quiet_window : N) (observed : bool)
    (evidence : OutputSettlementEvidence) (seen : OutputActivityState) (rounds : list WaitRound)
  : Prop :=
  match evidence with
  | OSE_SynchronizedFrame =>
      sn_synchronized_frame_sequence self < os_synchronized_frame_sequence seen
  | OSE_ComposerCursorMovement =>
      sn_completed_composer_frame_sequence self < os_completed_composer_frame_sequence seen /\
      cursor_moved (sn_completed_composer_frame_cursor_position self)
        (os_completed_composer_frame_cursor_position seen) = true
  | OSE_ComposerSurfaceStability =>
      sn_composer_surface_render_sequence self < os_composer_surface_render_sequence seen
  | OSE_ComposerRenderQuiescence =>
      sn_composer_render_sequence self < os_composer_render_sequence seen /\
      quiet_after quiet_window seen rounds
  | OSE_Quiescence =>
      (observed = true \/ sn_sequence self < os_sequence seen) /\
      quiet_after quiet_window seen rounds
  end.

(** A wait that ended: it never panicked, and a receipt names the snapshot it
    started from and holds of a state of the open terminal. *)
Definition waited_ok (self : OutputActivitySnapshot) (quiet_window : N) (observed : bool)
    (s : OutputActivityState) (rounds : list WaitRound) (waited : Waited) : Prop :=
  match waited with
  | Panicked => False
  | Answered (Err _) => True
  | Answered (Ok receipt) =>
      rc_runtime_epoch receipt = sn_runtime_epoch self /\
      rc_baseline_sequence receipt = sn_sequence self /\
      exists seen, looked_at s rounds seen /\ os_closed seen = false /\
        rc_settled_sequence receipt = os_sequence seen /\
        evidence_holds self quiet_window observed (rc_evidence receipt) seen rounds
  end.

Section waits.
Context (normalized : bool) (representable : N -> bool).
Context (self : OutputActivitySnapshot) (quiet_window : N) (observed : bool).
Implicit Types (s : OutputActivityState) (rounds : list WaitRound).

Lemma waited_ok_cons s round rounds waited :
  waited_ok self quiet_window observed (wr_next round) rounds waited ->
  waited_ok self quiet_window observed s (round :: rounds) waited.
Proof.
  destruct waited as [[receipt|e]|]; [|done..].
  intros (He & Hb & seen & Hseen & Hopen & Hseq & Hev). split_and!; [done..|].
  assert (forall x, quiet_after quiet_window x rounds -> quiet_after quiet_window x (round :: rounds))
    as Hq.
  { intros x (r & rem & Hr & H). exists r, rem. split; [by right|done]. }
  exists seen. split_and!; [|done..|].
  - right. destruct Hseen as [->|(r & Hr & ->)]; [by exists round; split; [left|]|].
    exists r. split; [by right|done].
  - destruct (rc_evidence receipt); simpl in *; naive_solver.
Qed.

Lemma settled_ok s rounds evidence :
  os_closed s = false -> evidence_holds self quiet_window observed evidence s rounds ->
  waited_ok self quiet_window observed s rounds (settled self (os_sequence s) evidence).
Proof. intros Hopen Hev. simpl. split_and!; [done..|]. exists s. split_and!; [by left|done..]. Qed.

(** A quiet round that ends the wait. *)
Lemma quiet_round_ok s round rounds evidence waited :
  os_closed s = false ->
  (evidence = OSE_Quiescence /\ (observed = true \/ sn_sequence self < os_sequence s)) \/
  (evidence = OSE_ComposerRenderQuiescence /\
   sn_composer_render_sequence self < os_composer_render_sequence s) ->
  quiet_round self quiet_window evidence s round = inl waited ->
  waited_ok self quiet_window observed s (round :: rounds) waited.
Proof.
  unfold quiet_round. intros Hopen Hev. destruct (wr_remaining round) as [remaining|] eqn:Hrem;
    [|by intros [= <-]].
  destruct (os_closed (wr_next round)) eqn:Hc; [by intros [= <-]|].
  destruct (_ && _) eqn:Hquiet; [|done]. apply andb_true_iff in Hquiet as [Hseq%N.eqb_eq Ht].
  destruct (N.ltb_spec (N.min quiet_window remaining) quiet_window); [by intros [= <-]|].
  intros [= <-]. apply settled_ok; [done|].
  assert (quiet_after quiet_window s (round :: rounds)) as Hq.
  { exists round, remaining. split_and!; [left|done..| | |done]; lia || done. }
  destruct Hev as [[-> Ho]|[-> Hr]]; simpl; done.
Qed.

Lemma settlement_loop_ok active s rounds waited :
  output_ok s -> woken normalized s rounds ->
  (active = true -> observed = true \/ sn_sequence self < os_sequence s) ->
  settlement_loop self quiet_window active s rounds = Some waited ->
  waited_ok self quiet_window observed s rounds waited.
Proof.
  revert active s. induction rounds as [|round rounds IH]; intros active s Hok Hwoken Hact; simpl;
    destruct (os_closed s) eqn:Hc; try by intros [= <-].
  all: destruct (N.ltb_spec (sn_synchronized_frame_sequence self)
         (os_synchronized_frame_sequence s)); [intros [= <-]; by apply settled_ok|]; try done.
  destruct Hwoken as [Hrun Hwoken]. destruct (output_run_ok _ _ _ Hrun Hok) as [Hok' [Hle _]].
  assert (forall active', (active' = true -> observed = true \/ sn_sequence self < os_sequence s) ->
    settlement_loop self quiet_window active' (wr_next round) rounds = Some waited ->
    waited_ok self quiet_window observed s (round :: rounds) waited) as Hnext.
  { intros active' Hact' Hloop. apply waited_ok_cons. eapply IH; [done|done| |exact Hloop].
    intros [?|?]%Hact'; [by left|right; lia]. }
  destruct (_ && _) eqn:Hidle.
  - destruct (wr_remaining round); [|intros Hw; by simplify_eq].
    destruct (wr_timed_out round && _); [intros Hw; by simplify_eq|]. by apply Hnext.
  - assert (observed = true \/ sn_sequence self < os_sequence s) as Hnew.
    { apply andb_false_iff in Hidle as [Hlt%N.leb_gt|Ha%negb_false_iff]; [by right|auto]. }
    destruct (quiet_round _ _ _ _ _) as [w|s'] eqn:Hq.
    + intros Hw. simplify_eq. eapply quiet_round_ok; [done| |exact Hq]. by left.
    + unfold quiet_round in Hq. repeat case_match; simplify_eq. by apply Hnext.
Qed.

Lemma composer_loop_ok screen_diff stability s rounds waited :
  output_ok s -> woken normalized s rounds ->
  composer_loop representable self quiet_window screen_diff stability s rounds = Some waited ->
  waited_ok self quiet_window observed s rounds waited.
Proof.
  revert stability s. induction rounds as [|round rounds IH]; intros stability s Hok Hwoken; simpl;
    destruct (os_closed s) eqn:Hc; try by intros [= <-].
  all: destruct (negb screen_diff && _ && _) eqn:Hmove;
    [intros [= <-]; apply settled_ok; [done|];
     apply andb_true_iff in Hmove as [[_ Hseq%N.ltb_lt]%andb_true_iff Hm]; by split|].
  all: destruct (N.ltb_spec (sn_composer_surface_render_sequence self)
         (os_composer_surface_render_sequence s)) as [Hsurf|].
  all: try (destruct (oo_surface s Hok) as [cursor ->]; [lia|]; destruct (observe_surface _ _ _) as [restarts ?];
            destruct (restarts && _); [by intros [= <-]|]); try done.
  all: destruct Hwoken as [Hrun Hwoken]; destruct (output_run_ok _ _ _ Hrun Hok) as [Hok' _].
  - destruct (wr_candidate_remaining round); [|intros [= <-]; by apply settled_ok].
    destruct (wr_remaining round); [|by intros [= <-]].
    intros Hl. apply waited_ok_cons. by eapply IH.
  - clear Hmove. destruct (negb _ && _) eqn:Hidle.
    + destruct (wr_remaining round); [|by intros [= <-]].
      destruct (wr_timed_out round && _); [by intros [= <-]|]. intros Hl. apply waited_ok_cons. by eapply IH.
    + destruct (quiet_round _ _ _ _ _) as [w|s'] eqn:Hq.
      * intros [= <-]. eapply quiet_round_ok; [done| |exact Hq].
        apply andb_false_iff in Hidle as [Hr%negb_false_iff|Hn%orb_false_iff].
        -- rewrite Hr, andb_false_r. right. split; [done|]. by apply N.ltb_lt.
        -- destruct Hn as [Hs%negb_false_iff Hlt%N.leb_gt]. rewrite Hs. simpl.
           destruct (N.ltb_spec (sn_composer_render_sequence self) (os_composer_render_sequence s));
             simpl; [by right|]. left. split; [done|by right].
      * unfold quiet_round in Hq. repeat case_match; simplify_eq.
        intros Hl. apply waited_ok_cons. by eapply IH.
Qed.

(** An expired deadline ends both waits. *)
Lemma quiet_round_expired evidence s round :
  wr_remaining round = None -> quiet_round self quiet_window evidence s round = inl (gave_up OSF_TimedOut).
Proof. unfold quiet_round. by intros ->. Qed.

Lemma settlement_loop_ends active s rounds :
  (exists round, round ∈ rounds /\ wr_remaining round = None) ->
  is_Some (settlement_loop self quiet_window active s rounds).
Proof.
  revert active s. induction rounds as [|round rounds IH]; intros active s (r & Hr & Hnone); [by inversion Hr|].
  simpl. repeat case_match; try by eexists.
  all: apply elem_of_cons in Hr as [->|Hr]; [|by apply IH; exists r].
  all: try congruence.
  all: match goal with H : quiet_round _ _ _ _ _ = inr _ |- _ =>
         rewrite quiet_round_expired in H by done; discriminate end.
Qed.

Lemma composer_loop_ends screen_diff stability s rounds :
  (exists round, round ∈ rounds /\ wr_remaining round = None) ->
  is_Some (composer_loop representable self quiet_window screen_diff stability s rounds).
Proof.
  revert stability s.
  induction rounds as [|round rounds IH]; intros stability s (r & Hr & Hnone); [by inversion Hr|].
  simpl. repeat case_match; try by eexists.
  all: apply elem_of_cons in Hr as [->|Hr]; [|by apply IH; exists r].
  all: try congruence.
  all: match goal with H : quiet_round _ _ _ _ _ = inr _ |- _ =>
         rewrite quiet_round_expired in H by done; discriminate end.
Qed.
End waits.

(** ** Receipts are newer than their snapshot *)

Lemma woken_run normalized s rounds seen :
  woken normalized s rounds -> looked_at s rounds seen -> rtc (output_step normalized) s seen.
Proof.
  revert s. induction rounds as [|round rounds IH]; intros s Hw [->|(r & Hr & ->)]; try done.
  - by inversion Hr.
  - destruct Hw as [Hrun Hw]. etrans; [exact Hrun|]. apply IH; [done|].
    apply elem_of_cons in Hr as [->|Hr]; [by left|]. right. by exists r.
Qed.

(** Evidence of newer output was stamped by a later chunk. *)
Lemma evidence_newer normalized epoch quiet_window evidence s0 seen rounds :
  output_ok s0 -> rtc (output_step normalized) s0 seen -> os_sequence s0 < u64_max ->
  evidence_holds (output_snapshot epoch s0) quiet_window false evidence seen rounds ->
  os_sequence s0 < os_sequence seen.
Proof.
  intros Hok0 Hrun Hmax Hev. destruct (output_run_ok _ _ _ Hrun Hok0) as [Hok [Hle Hst]].
  unfold sequences in Hst.
  inversion Hst as [|? ? ? ? Hframe Hst1]; subst. inversion Hst1 as [|? ? ? ? Hrender Hst2]; subst.
  inversion Hst2 as [|? ? ? ? Hcomp Hst3]; subst. inversion Hst3 as [|? ? ? ? Hsurf _]; subst.
  destruct Hok. destruct evidence; simpl in Hev; lia.
Qed.
