(* ===== verification/TerminalClaims.v ===== *)
(** * What the terminal trackers guarantee

    Claims about the readiness and output trackers of a terminal, for every
    output and every division of it into chunks. *)

From stdpp Require Import list relations.
From S2P Require Import Prelude DeliveryRuntime DeliveryWorker TerminalStructure InputReadiness.
From S2P Require Import OutputActivity.

Local Open Scope N_scope.
Local Open Scope list_scope.

(** C21: the two modes the readiness tracker reports are those the last mode
    marker in the whole output selected: bracketed paste is reported enabled
    exactly when the last of its enable and disable sequences is an enable, the
    alternate screen active exactly when the last switch entered it; how the
    output is cut into chunks changes nothing but the chunk counter. *)
Theorem terminal_modes_are_exact (normalized : bool) (chunks : list (list N)) :
  let facts := facts_from_state (after_chunks normalized chunks) in
  let output := concat chunks in
  (rf_bracketed_paste_enabled facts = true <->
   switched_on bracketed_paste_enable bracketed_paste_disable output) /\
  (rf_alternate_screen_active facts = true <->
   switched_on alternate_screen_enable alternate_screen_disable output) /\
  facts_from_state (after_chunks normalized chunks)
  = facts_from_state (with_sequence (rf_sequence facts) (after_output normalized output)).
Proof.
  destruct (after_chunks_output normalized chunks) as [n ->]. cbv zeta.
  pose proof (after_output_modes normalized (concat chunks)) as [Hs Hp _ _ _ _].
  split_and!; [exact Hp|exact Hs|reflexivity].
Qed.

(** C20: a Codex composer that the delivery takes to be ready was drawn: some byte
    of the output completed a frame that shows the prompt in front of the
    visible cursor, the prompt and the show-cursor sequence had been written by
    then, and the screen was not switched since; and the mode the paste relies
    on is still selected by the last marker. *)
Theorem readiness_is_evidenced (bracketed : bool) (chunks : list (list N)) :
  codex_composer_is_ready bracketed
    (facts_from_state (after_chunks (negb bracketed) chunks)) = true ->
  prompt_on_screen (negb bracketed) (concat chunks) /\
  occurs right_angle_prompt (concat chunks) /\ occurs show_cursor (concat chunks) /\
  (if bracketed then switched_on bracketed_paste_enable bracketed_paste_disable (concat chunks)
   else switched_on alternate_screen_enable alternate_screen_disable (concat chunks)).
Proof.
  destruct (after_chunks_output (negb bracketed) chunks) as [n ->]. set (output := concat chunks).
  pose proof (after_output_modes (negb bracketed) output) as [Hs Hp _ _ _ _].
  pose proof (after_output_seen (negb bracketed) output) as [Hscreen Hpaste].
  assert (prompt_on_screen (negb bracketed) output ->
    occurs right_angle_prompt output /\ occurs show_cursor output) as Hdrawn.
  { intros (before & byte & after & -> & Hc & _).
    apply completes_prompt_drawn in Hc as [H1 H2].
    rewrite cons_middle, app_assoc. split; [destruct H1 as (b & a & -> & H)|destruct H2 as (b & a & -> & H)];
      exists b, (a ++ after); by rewrite app_assoc. }
  unfold codex_composer_is_ready. destruct bracketed; intros [Hm Hseen]%andb_true_iff.
  - destruct (Hpaste Hseen) as [_ Hon]. destruct (Hdrawn Hon). split_and!; [done..|]. by apply Hp.
  - destruct (Hscreen Hseen) as [_ Hon]. destruct (Hdrawn Hon). split_and!; [done..|]. by apply Hs.
Qed.

(** Paste mode, a frame with the prompt, the cursor after it, shown. *)
Definition ready_output : list (list N) :=
  [bracketed_paste_enable; synchronized_output_begin ++ right_angle_prompt ++ [32];
   [27; 91; 49; 59; 52; 72] ++ show_cursor; synchronized_output_end].

Lemma readiness_is_evidenced_witness :
  prompt_on_screen false (concat ready_output) /\ occurs show_cursor (concat ready_output).
Proof.
  destruct (readiness_is_evidenced true ready_output) as (H1 & _ & H2 & _);
    [vm_compute; reflexivity|]. exact (conj H1 H2).
Defined.

(** C23: every state the output tracker reaches is well-formed: the marker
    matchers index inside their markers, the cursor and every remembered
    position have 16-bit coordinates from 1 on, the bitmaps of erased rows have
    their 16 words, no sequence stamp is in the future, the surface renders are
    among the completed frames, and a rendered surface has its cursor
    position. *)
Theorem output_tracker_is_well_formed (normalized : bool) (s : OutputActivityState) :
  reachable_output normalized s -> output_ok s.
Proof. apply reachable_output_ok. Qed.

Definition sample_output : list (list N) :=
  [synchronized_output_begin ++ [27; 91; 51; 59; 49; 72; 27; 91; 75; 104; 105];
   [27; 91; 51; 59; 52; 72] ++ show_cursor ++ synchronized_output_end].
Definition after_sample : OutputActivityState :=
  fold_left (fun s chunk => output_record false chunk s) sample_output output_state_default.

Lemma chunks_run normalized chunks s :
  rtc (output_step normalized) s
    (fold_left (fun s chunk => output_record normalized chunk s) chunks s).
Proof.
  revert s. induction chunks as [|chunk chunks IH]; intros s; [apply rtc_refl|].
  eapply rtc_l; [apply step_record|]. apply IH.
Qed.

Lemma output_tracker_is_well_formed_witness :
  is_Some (os_composer_surface_render_cursor_position after_sample).
Proof.
  apply (oo_surface _ (output_tracker_is_well_formed false after_sample (chunks_run false sample_output _))).
  vm_compute. reflexivity.
Defined.

(** C22: waiting for the output to settle after a snapshot never panics, ends at
    the latest in the round in which the deadline has expired, and answers a
    receipt only with its evidence: it names the snapshot and a state of the
    open terminal after it that shows the newer frame, render or moved cursor,
    or that was followed by a full quiet window without output; unless the
    caller had already observed output or the chunk counter is exhausted, that
    state is strictly newer than the snapshot. *)
Theorem settlement_is_evidenced (normalized : bool) (representable : N -> bool)
    (epoch quiet_window timeout : N) (flag : bool) (s0 s : OutputActivityState)
    (rounds : list WaitRound) (composer : bool) :
  let self := output_snapshot epoch s0 in
  let wait :=
    if composer
    then wait_for_composer_render_settlement_inner representable self quiet_window timeout flag s rounds
    else wait_for_settlement_inner representable self quiet_window timeout flag s rounds in
  reachable_output normalized s0 -> rtc (output_step normalized) s0 s -> woken normalized s rounds ->
  ((exists round, round ∈ rounds /\ wr_remaining round = None) -> is_Some wait) /\
  (forall waited, wait = Some waited ->
     waited_ok self quiet_window (flag && negb composer) s rounds waited) /\
  (forall receipt, wait = Some (Answered (Ok receipt)) -> flag && negb composer = false ->
     os_sequence s0 < u64_max -> rc_baseline_sequence receipt < rc_settled_sequence receipt).
Proof.
  intros self wait Hs0%reachable_output_ok Hrun Hwoken.
  destruct (output_run_ok _ _ _ Hrun Hs0) as [Hok _].
  assert (forall waited, wait = Some waited ->
     waited_ok self quiet_window (flag && negb composer) s rounds waited) as Hwaited.
  { unfold wait, wait_for_composer_render_settlement_inner, wait_for_settlement_inner.
    intros waited. destruct composer; repeat case_match; try by intros [= <-].
    - by apply composer_loop_ok with normalized.
    - apply settlement_loop_ok with normalized; [done..|]. intros ->. by left. }
  split_and!; [|exact Hwaited|].
  - intros Hexp. unfold wait, wait_for_composer_render_settlement_inner, wait_for_settlement_inner.
    destruct composer; repeat case_match; try by eexists.
    + by apply composer_loop_ends.
    + by apply settlement_loop_ends.
  - intros receipt (_ & Hb & seen & Hseen & _ & -> & Hev)%Hwaited Hflag Hmax. rewrite Hflag in Hev.
    rewrite Hb. eapply evidence_newer; [done| |done|exact Hev].
    etrans; [exact Hrun|]. by eapply woken_run.
Qed.

Lemma woken_still normalized s candidate remaining timed_out :
  woken normalized s [MkWaitRound candidate remaining s timed_out].
Proof. split; [apply rtc_refl|exact I]. Qed.

Definition quiet_rounds : list WaitRound := [MkWaitRound None (Some 3000) after_sample true].

Lemma settlement_is_evidenced_witness :
  wait_for_settlement_inner (fun _ => true) (output_snapshot 7 output_state_default) 160 3000 false
    after_sample quiet_rounds
  = Some (Answered (Ok (MkOutputSettlementReceipt 7 0 2 OSE_SynchronizedFrame))) /\
  waited_ok (output_snapshot 7 output_state_default) 160 false after_sample quiet_rounds
    (Answered (Ok (MkOutputSettlementReceipt 7 0 2 OSE_SynchronizedFrame))).
Proof.
  split; [vm_compute; reflexivity|].
  apply (settlement_is_evidenced false (fun _ => true) 7 160 3000 false output_state_default
           after_sample quiet_rounds false).
  - exact (rtc_refl _ output_state_default).
  - exact (chunks_run false sample_output output_state_default).
  - apply woken_still.
  - vm_compute. reflexivity.
Defined.
