(* ===== verification/InputClassify.v ===== *)
(** * Client input activity: what the program asked for

    [src/modules/terminal/src/input_activity.rs], first half: the parser of the
    program's output that records which terminal modes are enabled and which
    queries were made. Only replies to these may share the client's byte stream
    without counting as user input (second half). *)

From stdpp Require Import list.
From S2P Require Import Prelude TerminalStructure.

Local Open Scope N_scope.
Local Open Scope list_scope.
Local Open Scope rust_scope.

Definition esc : N := 27.
Definition focus_in : list N := [27; 91; 73].
Definition focus_out : list N := [27; 91; 79].
Definition max_negotiated_mode_requests : nat := 16.
Definition max_input_protocol_fragment_bytes : nat := 512.
Definition max_xtversion_body_bytes : nat := 256.
Definition max_kitty_keyboard_stack : nat := 8.

(** ** State *)

Record ModeRequest : Type := MkModeRequest { mr_private : bool; mr_mode : N }.
#[export] Instance ModeRequest_eq_dec : EqDecision ModeRequest.
Proof. solve_decision. Defined.

(** [device_attributes: [bool; 3]] and its siblings, as lists of that length. *)
Record NegotiatedReplies : Type := MkNegotiatedReplies {
  nr_device_attributes : list bool;
  nr_cursor_positions : list bool;
  nr_color_scheme_query : bool;
  nr_dynamic_colors : list bool;
  nr_keyboard_enhancement : bool;
  nr_mode_requests : list ModeRequest;
  nr_xtversion : bool
}.
#[export] Instance NegotiatedReplies_eta : Eta NegotiatedReplies := fun r =>
  MkNegotiatedReplies (nr_device_attributes r) (nr_cursor_positions r) (nr_color_scheme_query r)
    (nr_dynamic_colors r) (nr_keyboard_enhancement r) (nr_mode_requests r) (nr_xtversion r).
Definition negotiated_default : NegotiatedReplies :=
  MkNegotiatedReplies (replicate 3 false) (replicate 2 false) false (replicate 3 false) false []
    false.

Record ClientInputModes : Type := MkClientInputModes {
  cm_focus_reporting : bool;
  cm_mouse_button_reporting : bool;
  cm_mouse_drag_reporting : bool;
  cm_mouse_any_motion : bool;
  cm_mouse_sgr_encoding : bool;
  cm_color_scheme_reporting : bool;
  cm_kitty_keyboard_event_types : bool;
  cm_kitty_keyboard_stack : list bool;
  cm_kitty_keyboard_stack_len : nat
}.
#[export] Instance ClientInputModes_eta : Eta ClientInputModes := fun m =>
  MkClientInputModes (cm_focus_reporting m) (cm_mouse_button_reporting m)
    (cm_mouse_drag_reporting m) (cm_mouse_any_motion m) (cm_mouse_sgr_encoding m)
    (cm_color_scheme_reporting m) (cm_kitty_keyboard_event_types m) (cm_kitty_keyboard_stack m)
    (cm_kitty_keyboard_stack_len m).
Definition client_modes_default : ClientInputModes :=
  MkClientInputModes false false false false false false false
    (replicate max_kitty_keyboard_stack false) 0.

Definition mouse_reporting (self : ClientInputModes) : bool :=
  cm_mouse_button_reporting self || cm_mouse_drag_reporting self || cm_mouse_any_motion self.

Record CsiRequest : Type := MkCsiRequest {
  cr_prefix : option N;
  cr_value : N;
  cr_has_digits : bool;
  cr_dollar : bool;
  cr_invalid : bool
}.
#[export] Instance CsiRequest_eta : Eta CsiRequest := fun r =>
  MkCsiRequest (cr_prefix r) (cr_value r) (cr_has_digits r) (cr_dollar r) (cr_invalid r).
Definition csi_request_default : CsiRequest := MkCsiRequest None 0 false false false.

Inductive OscPhase : Type := OP_Code | OP_Query | OP_Complete.

Record OscRequest : Type := MkOscRequest { or_code : N; or_phase : OscPhase; or_invalid : bool }.
#[export] Instance OscRequest_eta : Eta OscRequest := fun r =>
  MkOscRequest (or_code r) (or_phase r) (or_invalid r).
Definition osc_request_default : OscRequest := MkOscRequest 0 OP_Code false.

Inductive OutputParser : Type :=
| OP_Ground
| OP_Escape
| OP_Csi (request : CsiRequest)
| OP_Osc (request : OscRequest)
| OP_OscEscape (request : OscRequest).

Inductive OutputEvent : Type :=
| OE_Csi (request : CsiRequest) (final_byte : N)
| OE_DynamicColorQuery (index : nat).

Record ProtocolState : Type := MkProtocolState {
  ps_output_parser : OutputParser;
  ps_modes : ClientInputModes;
  ps_negotiated : NegotiatedReplies;
  ps_input_fragment : list N
}.
#[export] Instance ProtocolState_eta : Eta ProtocolState := fun s =>
  MkProtocolState (ps_output_parser s) (ps_modes s) (ps_negotiated s) (ps_input_fragment s).
Definition protocol_default : ProtocolState :=
  MkProtocolState OP_Ground client_modes_default negotiated_default [].

(** ** The keyboard protocol stack *)

Definition asks_event_types (value : N) : bool := negb (N.land value 2 =? 0).

(** The pops of [CSI < n u]. *)
Fixpoint pop_kitty_keyboard (pops : nat) (self : ClientInputModes) : ClientInputModes :=
  match pops with
  | O => self
  | S pops =>
      match cm_kitty_keyboard_stack_len self with
      | O => self <| cm_kitty_keyboard_event_types := false |>
      | S len =>
          pop_kitty_keyboard pops
            (self <| cm_kitty_keyboard_stack_len := len |>
                  <| cm_kitty_keyboard_event_types :=
                       default false (cm_kitty_keyboard_stack self !! len) |>)
      end
  end.

Definition record_kitty_keyboard_mode (request : CsiRequest) (self : ClientInputModes)
  : ClientInputModes :=
  match cr_prefix request with
  | Some 62 =>
      if cr_has_digits request
      then
        let index := cm_kitty_keyboard_stack_len self in
        if Nat.leb max_kitty_keyboard_stack index
        then self <| cm_kitty_keyboard_event_types := false |>
        else self <| cm_kitty_keyboard_stack :=
                       <[index := cm_kitty_keyboard_event_types self]>
                         (cm_kitty_keyboard_stack self) |>
                  <| cm_kitty_keyboard_stack_len := S index |>
                  <| cm_kitty_keyboard_event_types := asks_event_types (cr_value request) |>
      else self
  | Some 61 =>
      if cr_has_digits request
      then self <| cm_kitty_keyboard_event_types := asks_event_types (cr_value request) |>
      else self
  | Some 60 =>
      pop_kitty_keyboard
        (if cr_has_digits request then N.to_nat (cr_value request) else 1%nat) self
  | _ => self
  end.

(** ** Parsing the output *)

Definition u16_checked_digit (value byte : N) : option N :=
  if 10 * value + (byte - 48) <=? u16_max then Some (10 * value + (byte - 48)) else None.

Definition osc_push (byte : N) (self : OscRequest) : OscRequest :=
  if or_invalid self then self
  else
    match or_phase self with
    | OP_Code =>
        if is_ascii_digit byte
        then match u16_checked_digit (or_code self) byte with
             | Some code => self <| or_code := code |>
             | None => self <| or_invalid := true |>
             end
        else if byte =? 59 then self <| or_phase := OP_Query |>
        else self <| or_invalid := true |>
    | OP_Query =>
        if byte =? 63 then self <| or_phase := OP_Complete |> else self <| or_invalid := true |>
    | OP_Complete => self <| or_invalid := true |>
    end.

Definition dynamic_color_index (self : OscRequest) : option nat :=
  match or_phase self with
  | OP_Complete =>
      if negb (or_invalid self) && (10 <=? or_code self) && (or_code self <=? 12)
      then Some (N.to_nat (or_code self - 10)) else None
  | _ => None
  end.

Definition is_csi_prefix (byte : N) : bool :=
  (byte =? 63) || (byte =? 62) || (byte =? 61) || (byte =? 60).

Definition csi_push (byte : N) (self : CsiRequest) : CsiRequest :=
  if cr_invalid self then self
  else if is_csi_prefix byte && is_none (cr_prefix self) && negb (cr_has_digits self)
          && negb (cr_dollar self)
       then self <| cr_prefix := Some byte |>
  else if is_ascii_digit byte && negb (cr_dollar self)
       then let self := self <| cr_has_digits := true |> in
            match u16_checked_digit (cr_value self) byte with
            | Some value => self <| cr_value := value |>
            | None => self <| cr_invalid := true |>
            end
  else if (byte =? 36) && cr_has_digits self && negb (cr_dollar self)
       then self <| cr_dollar := true |>
  else self <| cr_invalid := true |>.

Definition parser_advance (byte : N) (self : OutputParser) : OutputParser * option OutputEvent :=
  match self with
  | OP_Ground => (if byte =? esc then OP_Escape else OP_Ground, None)
  | OP_Escape =>
      (if byte =? 91 then OP_Csi csi_request_default
       else if byte =? 93 then OP_Osc osc_request_default
       else if byte =? esc then OP_Escape
       else OP_Ground, None)
  | OP_Csi request =>
      if byte =? esc then (OP_Escape, None)
      else if is_final_byte byte then (OP_Ground, Some (OE_Csi request byte))
      else (OP_Csi (csi_push byte request), None)
  | OP_Osc request =>
      if (byte =? 7) || (byte =? 156)
      then (OP_Ground, OE_DynamicColorQuery <$> dynamic_color_index request)
      else if byte =? esc then (OP_OscEscape request, None)
      else (OP_Osc (osc_push byte request), None)
  | OP_OscEscape request =>
      if byte =? 92 then (OP_Ground, OE_DynamicColorQuery <$> dynamic_color_index request)
      else (if byte =? esc then OP_OscEscape request else OP_Ground, None)
  end.

(** ** Recording requests *)

Definition set_mode (value : N) (enabled : bool) (modes : ClientInputModes) : ClientInputModes :=
  match value with
  | 1000 => modes <| cm_mouse_button_reporting := enabled |>
  | 1002 => modes <| cm_mouse_drag_reporting := enabled |>
  | 1003 => modes <| cm_mouse_any_motion := enabled |>
  | 1004 => modes <| cm_focus_reporting := enabled |>
  | 1006 => modes <| cm_mouse_sgr_encoding := enabled |>
  | 2031 => modes <| cm_color_scheme_reporting := enabled |>
  | _ => modes
  end.

Definition add_mode_request (request : ModeRequest) (negotiated : NegotiatedReplies)
  : NegotiatedReplies :=
  if Nat.ltb (length (nr_mode_requests negotiated)) max_negotiated_mode_requests
     && negb (bool_decide (request ∈ nr_mode_requests negotiated))
  then negotiated <| nr_mode_requests := nr_mode_requests negotiated ++ [request] |>
  else negotiated.

(** The prefix is absent or [?]. *)
Definition plain_or_private (request : CsiRequest) : bool :=
  (cr_prefix request == None) || (cr_prefix request == Some 63).

(** [record_request]; the arms are tried in the order of the source. *)
Definition record_request (protocol : ProtocolState) (request : CsiRequest) (final_byte : N)
  : ProtocolState :=
  let negotiated := ps_negotiated protocol in
  let prefix := cr_prefix request in
  let digits := cr_has_digits request in
  let dollar := cr_dollar request in
  let value := cr_value request in
  if cr_invalid request then protocol
  else if ((final_byte =? 104) || (final_byte =? 108)) && (prefix == Some 63) && digits
          && negb dollar
       then protocol <| ps_modes := set_mode value (final_byte =? 104) (ps_modes protocol) |>
  else if (final_byte =? 99) && negb dollar && (negb digits || (value =? 0))
       then
         let index := match prefix with
                      | None => Some 0%nat
                      | Some 62 => Some 1%nat
                      | Some 61 => Some 2%nat
                      | Some _ => None
                      end in
         match index with
         | Some index =>
             protocol <| ps_negotiated := negotiated <| nr_device_attributes :=
               <[index := true]> (nr_device_attributes negotiated) |> |>
         | None => protocol
         end
  else if (final_byte =? 112) && dollar && digits && plain_or_private request
       then protocol <| ps_negotiated :=
              add_mode_request (MkModeRequest (prefix == Some 63) value) negotiated |>
  else if (final_byte =? 113) && (prefix == Some 62) && digits && (value =? 0) && negb dollar
       then protocol <| ps_negotiated := negotiated <| nr_xtversion := true |> |>
  else if (final_byte =? 110) && negb dollar && digits && (value =? 6) && plain_or_private request
       then protocol <| ps_negotiated := negotiated <| nr_cursor_positions :=
              <[(if prefix == Some 63 then 1%nat else 0%nat) := true]>
                (nr_cursor_positions negotiated) |> |>
  else if (final_byte =? 110) && negb dollar && digits && (value =? 996) && (prefix == Some 63)
       then protocol <| ps_negotiated := negotiated <| nr_color_scheme_query := true |> |>
  else if (final_byte =? 117) && (prefix == Some 63) && negb digits && negb dollar
       then protocol <| ps_negotiated := negotiated <| nr_keyboard_enhancement := true |> |>
  else if (final_byte =? 117) && negb dollar
       then protocol <| ps_modes := record_kitty_keyboard_mode request (ps_modes protocol) |>
  else protocol.

Definition record_output_byte (protocol : ProtocolState) (byte : N) : ProtocolState :=
  let '(parser, event) := parser_advance byte (ps_output_parser protocol) in
  let protocol := protocol <| ps_output_parser := parser |> in
  match event with
  | None => protocol
  | Some (OE_Csi request final_byte) => record_request protocol request final_byte
  | Some (OE_DynamicColorQuery index) =>
      protocol <| ps_negotiated := (ps_negotiated protocol) <| nr_dynamic_colors :=
        <[index := true]> (nr_dynamic_colors (ps_negotiated protocol)) |> |>
  end.

Definition record_output (bytes : list N) (protocol : ProtocolState) : ProtocolState :=
  fold_left record_output_byte bytes protocol.

(** * Client input activity: classifying the input

    [src/modules/terminal/src/input_activity.rs], second half: the parsers of
    terminal replies and the classification of a chunk of client input as
    protocol traffic, a bare submit, or input that changes the program's
    state. *)

(** ** Slices *)

(** [bytes.starts_with(prefix)] *)
Fixpoint starts_with (prefix bytes : list N) : bool :=
  match prefix, bytes with
  | [], _ => true
  | p :: prefix, b :: bytes => (p =? b) && starts_with prefix bytes
  | _ :: _, [] => false
  end.

(** [bytes.split(|byte| byte == separator)]: at least one piece. *)
Fixpoint split_on (separator : N) (bytes : list N) : list (list N) :=
  match bytes with
  | [] => [[]]
  | byte :: bytes =>
      if byte =? separator then [] :: split_on separator bytes
      else match split_on separator bytes with
           | piece :: pieces => (byte :: piece) :: pieces
           | [] => [[byte]]
           end
  end.

(** [parse_number]: decimal digits that fit a [u16]. *)
Definition parse_number (bytes : list N) : option N :=
  if bool_decide (bytes = []) || negb (forallb is_ascii_digit bytes) then None
  else fold_left (fun value byte => value ≫= fun value => u16_checked_digit value byte)
         bytes (Some 0).

Definition numeric (bytes : list N) : bool := is_some (parse_number bytes).

(** ** Control sequences *)

Record ParsedCsi : Type := MkParsedCsi {
  pc_prefix : option N;
  pc_parameters : list N;
  pc_intermediates : list N;
  pc_final_byte : N
}.

Definition is_parameter_byte (byte : N) : bool :=
  is_ascii_digit byte || (byte =? 59) || (byte =? 58).
Definition is_intermediate_byte (byte : N) : bool := (32 <=? byte) && (byte <=? 47).

Definition parse_csi (bytes : list N) : option (ParsedCsi * nat) :=
  if negb (starts_with [27; 91] bytes) then None
  else
    let prefix := match bytes !! 2%nat with
                  | Some byte => if is_csi_prefix byte then Some byte else None
                  | None => None
                  end in
    let index := if is_some prefix then 3%nat else 2%nat in
    let parameters := take_while is_parameter_byte (drop index bytes) in
    let index := (index + length parameters)%nat in
    let intermediates := take_while is_intermediate_byte (drop index bytes) in
    let index := (index + length intermediates)%nat in
    match bytes !! index with
    | None => None
    | Some final_byte =>
        if is_final_byte final_byte
        then Some (MkParsedCsi prefix parameters intermediates final_byte, S index)
        else None
    end.

Definition valid_parameter_list (bytes : list N) : bool :=
  negb (bool_decide (bytes = []))
  && forallb (fun part => negb (bool_decide (part = [])) && forallb is_ascii_digit part)
       (split_on 59 bytes).

(** Two, or three, numbers separated by semicolons: the pieces of [split_on] are
    the slices the source cuts at the separators. *)
Definition parse_two_parameters (bytes : list N) : option (N * N) :=
  match split_on 59 bytes with
  | [first; second] =>
      first ← parse_number first; second ← parse_number second; Some (first, second)
  | _ => None
  end.
Definition parse_three_parameters (bytes : list N) : option (N * N * N) :=
  match split_on 59 bytes with
  | [first; second; third] =>
      first ← parse_number first; second ← parse_number second; third ← parse_number third;
      Some (first, second, third)
  | _ => None
  end.

Definition kitty_keyboard_event_type (bytes : list N) : option N :=
  match split_on 59 bytes with
  | key :: modifiers_and_event :: parameters =>
      _ ← parse_number key;
      match split_on 58 modifiers_and_event with
      | [modifiers; event] =>
          _ ← parse_number modifiers;
          event_type ← parse_number event;
          if existsb (fun parameter => bool_decide (parameter = [])
                        || existsb (fun field => negb (numeric field)) (split_on 58 parameter))
               parameters
          then None else Some event_type
      | _ => None
      end
  | _ => None
  end.

(** [consume_csi_response]; the arms are tried in the order of the source. *)
Definition consume_csi_response (response : ParsedCsi) (modes : ClientInputModes)
    (negotiated : NegotiatedReplies) : bool :=
  let prefix := pc_prefix response in
  let parameters := pc_parameters response in
  let final_byte := pc_final_byte response in
  let no_intermediates := bool_decide (pc_intermediates response = []) in
  if (final_byte =? 99) && no_intermediates && valid_parameter_list parameters
  then
    let index := match prefix with
                 | Some 63 => Some 0%nat
                 | Some 62 => Some 1%nat
                 | Some 61 => Some 2%nat
                 | _ => None
                 end in
    is_some_and index (fun index => default false (nr_device_attributes negotiated !! index))
  else if (final_byte =? 121) && bool_decide (pc_intermediates response = [36])
  then
    match parse_two_parameters parameters with
    | None => false
    | Some (mode, status) =>
        if 4 <? status then false
        else bool_decide (MkModeRequest (prefix == Some 63) mode ∈ nr_mode_requests negotiated)
    end
  else if (final_byte =? 82) && no_intermediates
  then
    match parse_two_parameters parameters with
    | None => false
    | Some (row, column) =>
        if (row =? 0) || (column =? 0) then false
        else match prefix with
             | None => default false (nr_cursor_positions negotiated !! 0%nat)
             | Some 63 => default false (nr_cursor_positions negotiated !! 1%nat)
             | Some _ => false
             end
    end
  else if (final_byte =? 117) && (prefix == Some 63) && no_intermediates && numeric parameters
  then nr_keyboard_enhancement negotiated
  else if (final_byte =? 117) && (prefix == None) && no_intermediates
          && cm_kitty_keyboard_event_types modes
  then kitty_keyboard_event_type parameters == Some 3
  else if (final_byte =? 110) && (prefix == Some 63) && no_intermediates
  then
    match parse_two_parameters parameters with
    | Some (997, 1) | Some (997, 2) =>
        nr_color_scheme_query negotiated || cm_color_scheme_reporting modes
    | _ => false
    end
  else if ((final_byte =? 77) || (final_byte =? 109)) && (prefix == Some 60) && no_intermediates
  then
    match parse_three_parameters parameters with
    | None => false
    | Some (button, column, row) =>
        if negb (mouse_reporting modes) || negb (cm_mouse_sgr_encoding modes) || (column =? 0)
           || (row =? 0)
        then false
        else (final_byte =? 109) || negb (N.land button 64 =? 0)
             || (cm_mouse_any_motion modes && negb (N.land button 32 =? 0)
                 && (N.land button 3 =? 3))
    end
  else false.

Definition kitty_enter_input (response : ParsedCsi) (modes : ClientInputModes) : bool :=
  if negb (cm_kitty_keyboard_event_types modes) || is_some (pc_prefix response)
     || negb (bool_decide (pc_intermediates response = [])) || negb (pc_final_byte response =? 117)
  then false
  else
    match split_on 59 (pc_parameters response) with
    | [] => false
    | key :: parameters =>
        match split_on 58 key with
        | [] => false
        | code :: key_fields =>
            if negb (parse_number code == Some 13) || existsb (fun f => negb (numeric f)) key_fields
            then false
            else
              let finish (event_type : N) (parameters : list (list N)) :=
                forallb (fun parameter => negb (bool_decide (parameter = []))
                           && forallb numeric (split_on 58 parameter)) parameters
                && ((event_type =? 1) || (event_type =? 2)) in
              match parameters with
              | [] => finish 1 []
              | modifiers_and_event :: parameters =>
                  match split_on 58 modifiers_and_event with
                  | [] => false
                  | modifiers :: fields =>
                      if negb (numeric modifiers) then false
                      else match fields with
                           | [] => finish 1 parameters
                           | event :: _ =>
                               match parse_number event with
                               | Some event_type => finish event_type parameters
                               | None => false
                               end
                           end
                  end
              end
        end
    end.

Definition has_possible_csi_input (modes : ClientInputModes) (negotiated : NegotiatedReplies)
  : bool :=
  cm_focus_reporting modes
  || (mouse_reporting modes && cm_mouse_sgr_encoding modes)
  || cm_color_scheme_reporting modes
  || cm_kitty_keyboard_event_types modes
  || existsb (fun seen => seen) (nr_device_attributes negotiated)
  || existsb (fun seen => seen) (nr_cursor_positions negotiated)
  || nr_color_scheme_query negotiated
  || nr_keyboard_enhancement negotiated
  || negb (bool_decide (nr_mode_requests negotiated = [])).

Definition is_csi_body_byte (byte : N) : bool := (32 <=? byte) && (byte <=? 63).
Definition possible_csi_prefix (bytes : list N) : bool :=
  if Nat.ltb 64 (length bytes) || negb (starts_with (take 2 bytes) [27; 91]) then false
  else if Nat.ltb (length bytes) 2 then true
  else forallb is_csi_body_byte (drop 2 bytes).

(** ** Terminal version replies *)

Definition xtversion_prefix : list N := [27; 80; 62; 124].
Definition is_printable (byte : N) : bool := (32 <=? byte) && (byte <=? 126).

(** The loop of [parse_xtversion] from [index] on. *)
Fixpoint xtversion_body (index : nat) (body : list N) : option nat :=
  match body with
  | [] => None
  | byte :: rest =>
      if byte =? esc
      then if bool_decide (head rest = Some 92) && Nat.ltb 0 index then Some (index + 6)%nat
           else None
      else if Nat.leb max_xtversion_body_bytes index || negb (is_printable byte) then None
      else xtversion_body (S index) rest
  end.

Definition parse_xtversion (bytes : list N) : option nat :=
  if starts_with xtversion_prefix bytes then xtversion_body 0 (drop 4 bytes) else None.

(** The loop of [possible_xtversion_prefix]. *)
Fixpoint possible_xtversion_body (body : list N) : bool :=
  match body with
  | [] => true
  | byte :: rest =>
      if byte =? esc then bool_decide (rest = [])
      else is_printable byte && possible_xtversion_body rest
  end.

Definition possible_xtversion_prefix (bytes : list N) : bool :=
  if Nat.leb (length bytes) 4 then starts_with bytes xtversion_prefix
  else if negb (starts_with xtversion_prefix bytes) then false
  else
    let body := drop 4 bytes in
    if Nat.ltb (max_xtversion_body_bytes + 1) (length body) then false
    else possible_xtversion_body body.

(** ** Dynamic color replies *)

Definition is_ascii_hexdigit (byte : N) : bool :=
  is_ascii_digit byte || ((65 <=? byte) && (byte <=? 70)) || ((97 <=? byte) && (byte <=? 102)).
Definition rgb_marker : list N := [114; 103; 98; 58].

(** The loop over the color components: the cursor after the last one. *)
Fixpoint rgb_components (components : nat) (body : list N) (cursor : nat) : option nat :=
  match components with
  | O => Some cursor
  | S components =>
      let digits := length (take 4 (take_while is_ascii_hexdigit (drop cursor body))) in
      let cursor' := (cursor + digits)%nat in
      if Nat.eqb digits 0 || is_some_and (body !! cursor') is_ascii_hexdigit then None
      else match components with
           | O => Some cursor'
           | S _ => if bool_decide (body !! cursor' = Some 47)
                    then rgb_components components body (S cursor') else None
           end
  end.

Definition parse_dynamic_color (bytes : list N) : option (nat * nat) :=
  if negb (starts_with [27; 93] bytes) then None
  else
    let body := drop 2 bytes in
    '(separator, _) ← position (fun byte => byte =? 59) body;
    code ← parse_number (take separator body);
    if (code <? 10) || (3 <=? code - 10) then None
    else
      let cursor := S separator in
      if negb (bool_decide (slice body cursor (cursor + 4) = rgb_marker)) then None
      else
        cursor ← rgb_components 3 body (cursor + 4);
        terminator ← match drop cursor body with
                     | 7 :: _ | 156 :: _ => Some 1%nat
                     | 27 :: 92 :: _ => Some 2%nat
                     | _ => None
                     end;
        Some (N.to_nat (code - 10), (cursor + terminator + 2)%nat).

(** The loop of [possible_rgb_prefix]; [components] are left to read. *)
Fixpoint possible_rgb (components : nat) (bytes : list N) : bool :=
  match components with
  | O => bool_decide (bytes = []) || bool_decide (bytes = [27])
  | S components =>
      let digits := length (take 5 (take_while is_ascii_hexdigit bytes)) in
      if Nat.ltb 4 digits then false
      else
        let bytes := drop digits bytes in
        if bool_decide (bytes = []) then true
        else if Nat.eqb digits 0 then false
        else match components with
             | O => possible_rgb components bytes
             | S _ =>
                 if negb (bool_decide (head bytes = Some 47)) then false
                 else
                   let bytes := drop 1 bytes in
                   if bool_decide (bytes = []) then true else possible_rgb components bytes
             end
  end.
Definition possible_rgb_prefix (bytes : list N) : bool := possible_rgb 3 bytes.

Definition color_prefixes : list (list N) :=
  [[27; 93; 49; 48; 59] ++ rgb_marker; [27; 93; 49; 49; 59] ++ rgb_marker;
   [27; 93; 49; 50; 59] ++ rgb_marker].

Definition possible_dynamic_color_prefix (bytes : list N) (negotiated : NegotiatedReplies) : bool :=
  existsb (fun '(seen, prefix) =>
    if negb seen then false
    else if Nat.leb (length bytes) (length prefix) then starts_with bytes prefix
    else starts_with prefix bytes && possible_rgb_prefix (drop (length prefix) bytes))
    (zip (nr_dynamic_colors negotiated) color_prefixes).

(** ** Classification *)

Inductive ProtocolReplyClassification : Type :=
| PR_Complete
| PR_Incomplete (offset : nat)
| PR_User.

Definition starts_with_focus (modes : ClientInputModes) (bytes : list N) : bool :=
  cm_focus_reporting modes && (starts_with focus_in bytes || starts_with focus_out bytes).

(** A complete dynamic color reply that was asked for: its length. *)
Definition color_reply (negotiated : NegotiatedReplies) (bytes : list N) : option nat :=
  match parse_dynamic_color bytes with
  | Some (index, consumed) =>
      if default false (nr_dynamic_colors negotiated !! index) then Some consumed else None
  | None => None
  end.
Definition xtversion_reply (negotiated : NegotiatedReplies) (bytes : list N) : option nat :=
  if nr_xtversion negotiated then parse_xtversion bytes else None.

(** The loop of [classify_protocol_replies], with the length of all the bytes;
    [None] when the fuel is spent. *)
Fixpoint classify_loop (fuel : nat) (modes : ClientInputModes) (negotiated : NegotiatedReplies)
    (total_len : nat) (bytes : list N) : option ProtocolReplyClassification :=
  match bytes, fuel with
  | [], _ => Some PR_Complete
  | _ :: _, O => None
  | _ :: _, S fuel =>
      let offset := (total_len - length bytes)%nat in
      let continue consumed := classify_loop fuel modes negotiated total_len (drop consumed bytes) in
      if starts_with_focus modes bytes then continue 3%nat
      else if cm_focus_reporting modes && (starts_with bytes focus_in || starts_with bytes focus_out)
      then Some (PR_Incomplete offset)
      else
        match parse_csi bytes with
        | Some (response, consumed) =>
            if negb (consume_csi_response response modes negotiated) then Some PR_User
            else continue consumed
        | None =>
            if has_possible_csi_input modes negotiated && possible_csi_prefix bytes
            then Some (PR_Incomplete offset)
            else
              match xtversion_reply negotiated bytes with
              | Some consumed => continue consumed
              | None =>
                  if nr_xtversion negotiated && possible_xtversion_prefix bytes
                  then Some (PR_Incomplete offset)
                  else
                    match color_reply negotiated bytes with
                    | Some consumed => continue consumed
                    | None =>
                        if possible_dynamic_color_prefix bytes negotiated
                        then Some (PR_Incomplete offset)
                        else Some PR_User
                    end
              end
        end
  end.

(** The fuel is the number of bytes: every turn of the loop consumes one. *)
Definition classify_protocol_replies (bytes : list N) (modes : ClientInputModes)
    (negotiated : NegotiatedReplies) : option ProtocolReplyClassification :=
  if bool_decide (bytes = []) then Some PR_User
  else classify_loop (length bytes) modes negotiated (length bytes) bytes.

(** The loop of [is_submit_only_input]. *)
Fixpoint submit_loop (fuel : nat) (modes : ClientInputModes) (negotiated : NegotiatedReplies)
    (saw_submit : bool) (bytes : list N) : option bool :=
  match bytes, fuel with
  | [], _ => Some saw_submit
  | _ :: _, O => None
  | byte :: _, S fuel =>
      let continue saw consumed := submit_loop fuel modes negotiated saw (drop consumed bytes) in
      if (byte =? 13) || (byte =? 10) then continue true 1%nat
      else if starts_with_focus modes bytes then continue saw_submit 3%nat
      else
        match parse_csi bytes with
        | Some (response, consumed) =>
            if consume_csi_response response modes negotiated then continue saw_submit consumed
            else if kitty_enter_input response modes then continue true consumed
            else Some false
        | None =>
            match xtversion_reply negotiated bytes with
            | Some consumed => continue saw_submit consumed
            | None =>
                match color_reply negotiated bytes with
                | Some consumed => continue saw_submit consumed
                | None => Some false
                end
            end
        end
  end.

Definition is_submit_only_input (bytes : list N) (modes : ClientInputModes)
    (negotiated : NegotiatedReplies) : option bool :=
  submit_loop (length bytes) modes negotiated false bytes.

Inductive ClientInputActivityKind : Type := CA_None | CA_SubmitOnly | CA_Mutating.

(** [ClientInputActivity::classify]; [None] if a loop ran out of fuel, which it
    does not. *)
Definition classify (bytes : list N) (protocol : ProtocolState)
  : option (ClientInputActivityKind * ProtocolState) :=
  let settle := protocol <| ps_input_fragment := [] |> in
  if Nat.ltb max_input_protocol_fragment_bytes
       (length (ps_input_fragment protocol) + length bytes)
  then Some (CA_Mutating, settle)
  else
    let input := ps_input_fragment protocol ++ bytes in
    reply ← classify_protocol_replies input (ps_modes protocol) (ps_negotiated protocol);
    match reply with
    | PR_Complete => Some (CA_None, settle)
    | PR_Incomplete offset => Some (CA_None, protocol <| ps_input_fragment := drop offset input |>)
    | PR_User =>
        submit ← is_submit_only_input input (ps_modes protocol) (ps_negotiated protocol);
        Some (if (submit : bool) then CA_SubmitOnly else CA_Mutating, settle)
    end.

Definition has_incomplete_protocol_reply (protocol : ProtocolState) : bool :=
  negb (bool_decide (ps_input_fragment protocol = [])).
