(* ===== verification/InputClaims.v ===== *)
(** * Facts about the classification of client input

    The parsers consume what they recognise, so the loops end; everything they
    recognise is made of printable bytes and the four control bytes of replies;
    nothing is recognised that was not asked for; a reply survives being cut in
    two. *)

From stdpp Require Import list.
From S2P Require Import Prelude TerminalStructure InputClassify.

Local Open Scope N_scope.
Local Open Scope list_scope.
Local Open Scope rust_scope.

(** ** Bytes of replies *)

(** Printable bytes, BEL, ESC and the string terminator: no key that submits,
    interrupts or edits, and no other text. *)
Definition reply_byte (byte : N) : bool :=
  is_printable byte || (byte =? 7) || (byte =? 27) || (byte =? 156).
Definition reply_bytes (bytes : list N) : Prop := Forall (fun b => reply_byte b = true) bytes.

Ltac bytes_lia :=
  unfold reply_byte, is_printable, is_final_byte, is_parameter_byte, is_intermediate_byte,
    is_ascii_hexdigit, is_ascii_digit, is_csi_body_byte, is_csi_prefix, esc in *;
  repeat match goal with
         | H : _ && _ = true |- _ => apply andb_true_iff in H as [? ?]
         | H : _ || _ = true |- _ => apply orb_true_iff in H as [?|?]
         | H : (_ <=? _) = true |- _ => apply N.leb_le in H
         | H : (_ =? _) = true |- _ => apply N.eqb_eq in H
         end; subst;
  rewrite ?orb_true_iff, ?andb_true_iff, ?N.leb_le, ?N.eqb_eq; lia.

Lemma reply_bytes_take_while p bytes :
  (forall b, p b = true -> reply_byte b = true) -> reply_bytes (take_while p bytes).
Proof.
  intros Hp. apply list.Forall_forall. intros b Hb. apply Hp.
  by apply elem_of_take_while in Hb as [_ ?].
Qed.

Lemma starts_with_app prefix bytes :
  starts_with prefix bytes = true <-> exists rest, bytes = prefix ++ rest.
Proof.
  revert bytes. induction prefix as [|p prefix IH]; intros bytes; simpl.
  - split; [by exists bytes|done].
  - destruct bytes as [|b bytes]; [split; [done|by intros [? [=]]]|].
    rewrite andb_true_iff, N.eqb_eq, IH. split.
    + intros [-> [rest ->]]. by exists rest.
    + intros [rest [= -> ->]]. eauto.
Qed.

Lemma reply_bytes_app a b : reply_bytes (a ++ b) <-> reply_bytes a /\ reply_bytes b.
Proof. apply Forall_app. Qed.

Lemma starts_with_reply prefix bytes :
  reply_bytes bytes -> starts_with prefix bytes = true -> reply_bytes prefix.
Proof. intros Hb [rest ->]%starts_with_app. by apply reply_bytes_app in Hb as []. Qed.

(** ** Control sequences *)

Lemma drop_take_while (p : N -> bool) bytes :
  drop (length (take_while p bytes)) bytes = skip_while p bytes.
Proof. rewrite <- (take_while_skip_while p bytes) at 2. apply drop_app_length. Qed.

(** What a control sequence consumed, spelled out. *)
Record csi_shape (bytes : list N) (response : ParsedCsi) (consumed : nat) (rest : list N) : Prop := {
  cs_bytes : bytes = [27; 91] ++ option_list (pc_prefix response) ++ pc_parameters response
               ++ pc_intermediates response ++ [pc_final_byte response] ++ rest;
  cs_consumed : consumed = (3 + length (option_list (pc_prefix response))
                  + length (pc_parameters response) + length (pc_intermediates response))%nat;
  cs_prefix : forall b, pc_prefix response = Some b -> is_csi_prefix b = true;
  cs_parameters : Forall (fun b => is_parameter_byte b = true) (pc_parameters response);
  cs_intermediates : Forall (fun b => is_intermediate_byte b = true) (pc_intermediates response);
  cs_final : is_final_byte (pc_final_byte response) = true
}.

Lemma take_while_all (p : N -> bool) bytes : Forall (fun b => p b = true) (take_while p bytes).
Proof. apply list.Forall_forall. intros b Hb. by apply elem_of_take_while in Hb as [_ ?]. Qed.

(** [bytes !! index] is the head of what is left there. *)
Lemma lookup_head_drop (bytes : list N) index : bytes !! index = head (drop index bytes).
Proof. rewrite <- (Nat.add_0_r index) at 1. rewrite <- lookup_drop. by destruct (drop index bytes). Qed.

Lemma parse_csi_shape bytes response consumed :
  parse_csi bytes = Some (response, consumed) -> exists rest, csi_shape bytes response consumed rest.
Proof.
  unfold parse_csi. destruct (starts_with [27; 91] bytes) eqn:Hstart; [|done].
  apply starts_with_app in Hstart as [tail ->]. cbn [negb].
  change (([27; 91] ++ tail) !! 2%nat) with (tail !! 0%nat).
  remember (match tail !! 0%nat with
            | Some b => if is_csi_prefix b then Some b else None | None => None end) as prefix eqn:Hp.
  assert (exists t1, tail = option_list prefix ++ t1 /\
    forall b, prefix = Some b -> is_csi_prefix b = true) as (t1 & Ht & Hprefix).
  { subst prefix. destruct tail as [|b t]; [by exists []|]. simpl.
    destruct (is_csi_prefix b) eqn:Hb; [exists t|by exists (b :: t)]. split; [done|]. by intros ? [= <-]. }
  clear Hp. subst tail. cbv zeta.
  assert ((if is_some prefix then 3%nat else 2%nat) = (2 + length (option_list prefix))%nat) as Hindex
    by (by destruct prefix).
  rewrite Hindex. set (index := (2 + _)%nat).
  assert (forall n, drop (index + n) ([27; 91] ++ option_list prefix ++ t1) = drop n t1) as Hdrop.
  { intros n. rewrite <- drop_drop, app_assoc, drop_app_length'; [done|]. by rewrite length_app. }
  assert (drop index ([27; 91] ++ option_list prefix ++ t1) = t1) as Hdrop0
    by (rewrite <- (Nat.add_0_r index); apply Hdrop).
  rewrite lookup_head_drop, <- (Nat.add_assoc index), !Hdrop0, !Hdrop, <- drop_drop, !drop_take_while.
  set (parameters := take_while is_parameter_byte t1).
  set (t2 := skip_while is_parameter_byte t1).
  set (intermediates := take_while is_intermediate_byte t2).
  destruct (skip_while is_intermediate_byte t2) as [|final rest] eqn:Ht3; [done|]. cbn [head].
  destruct (is_final_byte final) eqn:Hfinal; [|done]. intros [= <- <-]. exists rest.
  split; cbn [pc_prefix pc_parameters pc_intermediates pc_final_byte]; try done.
  - do 2 f_equal. rewrite <- (take_while_skip_while is_parameter_byte t1). fold parameters t2.
    f_equal. rewrite <- (take_while_skip_while is_intermediate_byte t2), Ht3. done.
  - unfold index. lia.
  - apply take_while_all.
  - apply take_while_all.
Qed.

Lemma csi_shape_reply bytes response consumed rest :
  csi_shape bytes response consumed rest ->
  drop consumed bytes = rest /\ (0 < consumed <= length bytes)%nat /\
  reply_bytes (take consumed bytes) /\
  exists body, take consumed bytes = [27; 91] ++ body ++ [pc_final_byte response] /\
    Forall (fun b => is_csi_body_byte b = true) body.
Proof.
  intros [-> -> Hp Hpar Hint Hfin].
  set (body := option_list (pc_prefix response) ++ pc_parameters response ++ pc_intermediates response).
  assert (Forall (fun b => is_csi_body_byte b = true) body) as Hbody.
  { unfold body. rewrite !Forall_app. split_and!.
    - destruct (pc_prefix response) as [b|]; simpl; constructor; [|constructor].
      specialize (Hp b eq_refl). bytes_lia.
    - eapply Forall_impl; [|exact Hpar]. intros b Hb. bytes_lia.
    - eapply Forall_impl; [|exact Hint]. intros b Hb. bytes_lia. }
  set (whole := [27; 91] ++ body ++ [pc_final_byte response]).
  set (consumed := (3 + _ + _ + _)%nat).
  assert (length whole = consumed) as Hlen
    by (unfold whole, body, consumed; rewrite !length_app; simpl; lia).
  assert ([27; 91] ++ option_list (pc_prefix response) ++ pc_parameters response
    ++ pc_intermediates response ++ [pc_final_byte response] ++ rest = whole ++ rest) as ->
    by (unfold whole, body; by rewrite !app_assoc).
  rewrite drop_app_length', take_app_length', length_app by done. split_and!; [done|lia|lia| |eauto].
  unfold whole. rewrite !reply_bytes_app. split_and!; [by repeat constructor| |].
  - eapply Forall_impl; [|exact Hbody]. intros b Hb. bytes_lia.
  - constructor; [bytes_lia|constructor].
Qed.

(** ** Terminal version replies *)

Lemma xtversion_body_spec index body consumed :
  xtversion_body index body = Some consumed ->
  exists text rest, body = text ++ [27; 92] ++ rest /\ consumed = (index + length text + 6)%nat /\
    Forall (fun b => is_printable b = true) text.
Proof.
  revert index. induction body as [|byte body IH]; intros index; simpl; [done|].
  destruct (N.eqb_spec byte esc) as [->|].
  - destruct (_ && _) eqn:Hend; [|done]. intros [= <-].
    apply andb_true_iff in Hend as [Hhead%bool_decide_eq_true _].
    destruct body as [|b rest]; [done|]. injection Hhead as ->. exists [], rest.
    split_and!; [done|simpl; lia|constructor].
  - destruct (_ || _) eqn:Hstop; [done|]. apply orb_false_iff in Hstop as [_ Hp%negb_false_iff].
    intros (text & rest & -> & -> & Htext)%IH. exists (byte :: text), rest.
    split_and!; [done|simpl; lia|by constructor].
Qed.

Lemma xtversion_reply_spec negotiated bytes consumed :
  xtversion_reply negotiated bytes = Some consumed ->
  nr_xtversion negotiated = true /\ (0 < consumed <= length bytes)%nat /\
  reply_bytes (take consumed bytes).
Proof.
  unfold xtversion_reply, parse_xtversion. destruct (nr_xtversion negotiated); [|done].
  destruct (starts_with xtversion_prefix bytes) eqn:Hp; [|done].
  apply starts_with_app in Hp as [body ->]. change (drop 4 (xtversion_prefix ++ body)) with body.
  intros (text & rest & -> & -> & Htext)%xtversion_body_spec.
  assert (xtversion_prefix ++ text ++ [27; 92] ++ rest = (xtversion_prefix ++ text ++ [27; 92]) ++ rest)
    as -> by (by rewrite <- !app_assoc).
  rewrite take_app_length', length_app by (rewrite !length_app; simpl; lia).
  split_and!; [done|lia|rewrite !length_app; simpl; lia|].
  rewrite !reply_bytes_app. split_and!; [by repeat constructor| |by repeat constructor].
  eapply Forall_impl; [|exact Htext]. intros b Hb. bytes_lia.
Qed.

Lemma possible_xtversion_body_spec body : possible_xtversion_body body = true -> reply_bytes body.
Proof.
  induction body as [|byte body IH]; simpl; [constructor|].
  destruct (N.eqb_spec byte esc) as [->|].
  - intros ->%bool_decide_eq_true. by repeat constructor.
  - intros [Hp Hb]%andb_true_iff. constructor; [bytes_lia|by apply IH].
Qed.

Lemma possible_xtversion_reply bytes : possible_xtversion_prefix bytes = true -> reply_bytes bytes.
Proof.
  unfold possible_xtversion_prefix. case_match.
  - intros H'. eapply starts_with_reply; [|exact H']. by repeat constructor.
  - destruct (starts_with xtversion_prefix bytes) eqn:Hp; [|done]. cbn [negb].
    apply starts_with_app in Hp as [body ->]. change (drop 4 (xtversion_prefix ++ body)) with body.
    case_match; [done|]. intros Hb%possible_xtversion_body_spec.
    apply reply_bytes_app. split; [by repeat constructor|done].
Qed.

(** ** Dynamic color replies *)

Lemma reply_extend c k bytes :
  reply_bytes (take c bytes) -> reply_bytes (take k (drop c bytes)) -> reply_bytes (take (c + k) bytes).
Proof. intros H1 H2. rewrite <- take_take_drop. by apply reply_bytes_app. Qed.

Lemma reply_one c b bytes :
  reply_bytes (take c bytes) -> bytes !! c = Some b -> reply_byte b = true ->
  reply_bytes (take (S c) bytes).
Proof.
  intros H1 Hb Hr. rewrite (take_S_r _ _ _ Hb). apply reply_bytes_app. split; [done|].
  by repeat constructor.
Qed.

Lemma hexdigits_reply bytes k :
  reply_bytes (take (length (take k (take_while is_ascii_hexdigit bytes))) bytes) /\
  (length (take k (take_while is_ascii_hexdigit bytes)) <= length bytes)%nat.
Proof.
  set (run := take_while is_ascii_hexdigit bytes).
  assert (bytes = run ++ skip_while is_ascii_hexdigit bytes) as Hb
    by (symmetry; apply take_while_skip_while).
  split; [|rewrite Hb, length_app, length_take; lia].
  assert (reply_bytes run) as Hrun by (apply reply_bytes_take_while; intros b Hx; bytes_lia).
  rewrite length_take. rewrite Hb at 1. rewrite take_app_le by lia. by apply Forall_take.
Qed.

Lemma rgb_components_spec components body cursor cursor' :
  rgb_components components body cursor = Some cursor' -> (cursor <= length body)%nat ->
  reply_bytes (take cursor body) ->
  (cursor <= cursor' <= length body)%nat /\ reply_bytes (take cursor' body).
Proof.
  revert cursor. induction components as [|components IH]; intros cursor; [by intros [= <-]|].
  intros H Hc Hr. simpl in H.
  destruct (hexdigits_reply (drop cursor body) 4) as [Hrun Hlen]. rewrite length_drop in Hlen.
  set (digits := length (take 4 (take_while is_ascii_hexdigit (drop cursor body)))) in *.
  assert (reply_bytes (take (cursor + digits) body)) as Hr' by (by apply reply_extend).
  destruct (_ || _); [done|]. destruct components as [|components].
  - injection H as <-. split; [lia|done].
  - case_bool_decide as Hslash; [|done].
    assert (S (cursor + digits) <= length body)%nat by (by apply lookup_lt_Some in Hslash).
    apply IH in H as [? ?]; [split; [lia|done]|done|]. by eapply reply_one.
Qed.

Lemma parse_number_digits bytes n :
  parse_number bytes = Some n -> Forall (fun b => is_ascii_digit b = true) bytes.
Proof.
  unfold parse_number. destruct (_ || _) eqn:H; [done|]. intros _.
  apply orb_false_iff in H as [_ H%negb_false_iff]. rewrite forallb_forall in H.
  by apply List.Forall_forall.
Qed.

Lemma parse_dynamic_color_spec bytes index consumed :
  parse_dynamic_color bytes = Some (index, consumed) ->
  (0 < consumed <= length bytes)%nat /\ reply_bytes (take consumed bytes).
Proof.
  unfold parse_dynamic_color. destruct (starts_with [27; 93] bytes) eqn:Hp; [|done].
  apply starts_with_app in Hp as [body ->]. change (drop 2 ([27; 93] ++ body)) with body. cbn [negb].
  destruct (position _ body) as [[separator b]|] eqn:Hpos; [|done]. cbn [mbind option_bind].
  apply position_Some in Hpos as [Hsep Hb]. apply N.eqb_eq in Hb as ->.
  destruct (parse_number _) as [code|] eqn:Hcode; [|done]. cbn [mbind option_bind]. apply parse_number_digits in Hcode.
  case_match; [done|]. case_bool_decide as Hrgb; [|done]. cbn [negb].
  destruct (rgb_components 3 body _) as [cursor|] eqn:Hcomp; [|done].
  change (Some cursor ≫= ?f) with (f cursor). cbv beta.
  assert (reply_bytes (take (S separator) body)) as H1.
  { eapply reply_one; [|done|done]. eapply Forall_impl; [|exact Hcode]. intros x Hx. bytes_lia. }
  assert (reply_bytes (take (S separator + 4) body) /\ (S separator + 4 <= length body)%nat) as [H2 Hlen].
  { unfold slice in Hrgb. assert (take 4 (drop (S separator) body) = rgb_marker) as Htake.
    { rewrite <- Hrgb. rewrite skipn_firstn_comm. f_equal. lia. }
    split; [apply reply_extend; [done|]; rewrite Htake; by repeat constructor|].
    apply (f_equal length) in Htake. rewrite length_take, length_drop in Htake.
    change (length rgb_marker) with 4%nat in Htake. lia. }
  apply rgb_components_spec in Hcomp as [Hle Hr]; [|done|done].
  match goal with |- ?o ≫= _ = _ -> _ => destruct o as [terminator|] eqn:Hterm end; [|done].
  intros [= <- <-].
  assert (reply_bytes (take terminator (drop cursor body)) /\
    (terminator <= length (drop cursor body))%nat) as [H3 Hl3].
  { destruct (drop cursor body) as [|x [|y l]]; repeat case_match; simplify_eq; simpl;
      (split; [by repeat constructor|lia]). }
  rewrite length_drop in Hl3. rewrite length_app. split; [simpl; lia|].
  replace (cursor + terminator + 2)%nat with (S (S (cursor + terminator))) by lia. simpl.
  do 2 (constructor; [done|]). by apply reply_extend.
Qed.

Lemma color_reply_spec negotiated bytes consumed :
  color_reply negotiated bytes = Some consumed ->
  existsb (fun seen => seen) (nr_dynamic_colors negotiated) = true /\
  (0 < consumed <= length bytes)%nat /\ reply_bytes (take consumed bytes).
Proof.
  unfold color_reply. destruct (parse_dynamic_color bytes) as [[index c]|] eqn:Hp; [|done].
  destruct (nr_dynamic_colors negotiated !! index) as [[]|] eqn:Hi; [|done..]. intros [= <-].
  apply parse_dynamic_color_spec in Hp. split; [|done]. apply existsb_exists.
  exists true. split; [|done]. by apply list_elem_of_In, list_elem_of_lookup_2 with index.
Qed.

Lemma possible_rgb_reply components bytes : possible_rgb components bytes = true -> reply_bytes bytes.
Proof.
  revert bytes. induction components as [|components IH]; intros bytes; simpl.
  - intros [->%bool_decide_eq_true| ->%bool_decide_eq_true]%orb_true_iff; by repeat constructor.
  - destruct (hexdigits_reply bytes 5) as [Hrun _].
    set (digits := length (take 5 (take_while is_ascii_hexdigit bytes))) in *.
    case_match; [done|]. rewrite <- (take_drop digits bytes). rewrite reply_bytes_app.
    rewrite take_drop. case_bool_decide as Hempty; [rewrite Hempty; by repeat constructor|].
    destruct (Nat.eqb_spec digits 0); [done|].
    destruct components as [|components]; [intros H'%IH; done|].
    case_bool_decide as Hslash; [|done]. cbn [negb].
    destruct (drop digits bytes) as [|x l]; [done|]. injection Hslash as ->.
    change (drop 1 (47 :: l)) with l.
    case_bool_decide as Hl; [subst l; intros _; split; [done|by repeat constructor]|].
    intros H'%IH. split; [done|]. by constructor.
Qed.

Lemma possible_color_reply negotiated bytes :
  possible_dynamic_color_prefix bytes negotiated = true ->
  reply_bytes bytes /\ existsb (fun seen => seen) (nr_dynamic_colors negotiated) = true.
Proof.
  unfold possible_dynamic_color_prefix. rewrite existsb_exists. intros ([seen prefix] & Hin & H).
  destruct seen; [|done]. cbn [negb] in H. apply list_elem_of_In in Hin. split.
  - assert (reply_bytes prefix) as Hp.
    { apply elem_of_zip_r in Hin. unfold color_prefixes in Hin.
      repeat (apply elem_of_cons in Hin as [->|Hin]; [by repeat constructor|]). by inversion Hin. }
    case_match; [by eapply starts_with_reply|].
    apply andb_true_iff in H as [[rest ->]%starts_with_app Hrgb].
    rewrite drop_app_length in Hrgb. apply possible_rgb_reply in Hrgb. by apply reply_bytes_app.
  - apply existsb_exists. exists true. split; [|done]. apply list_elem_of_In.
    by eapply elem_of_zip_l.
Qed.

Lemma possible_csi_reply bytes : possible_csi_prefix bytes = true -> reply_bytes bytes.
Proof.
  unfold possible_csi_prefix. destruct (_ || _) eqn:H; [done|].
  apply orb_false_iff in H as [_ Hstart%negb_false_iff].
  assert (reply_bytes (take 2 bytes)) as Htake
    by (eapply starts_with_reply; [|exact Hstart]; by repeat constructor).
  destruct (Nat.ltb_spec (length bytes) 2) as [Hlt|].
  - intros _. by rewrite take_ge in Htake by lia.
  - rewrite forallb_forall. intros Hall. rewrite <- (take_drop 2 bytes). apply reply_bytes_app.
    split; [done|]. apply List.Forall_forall. intros b Hb. specialize (Hall b Hb). bytes_lia.
Qed.

(** ** What may be recognised at all *)

(** Some mode was enabled or some query made. *)
Definition anything_expected (modes : ClientInputModes) (negotiated : NegotiatedReplies) : bool :=
  has_possible_csi_input modes negotiated || nr_xtversion negotiated
  || existsb (fun seen => seen) (nr_dynamic_colors negotiated).

Lemma lookup_existsb (l : list bool) i :
  default false (l !! i) = true -> existsb (fun seen => seen) l = true.
Proof.
  destruct (l !! i) as [[]|] eqn:Hi; [|done..]. intros _. apply existsb_exists. exists true.
  split; [|done]. by apply list_elem_of_In, list_elem_of_lookup_2 with i.
Qed.

Ltac expected H :=
  unfold has_possible_csi_input; rewrite H; by rewrite ?orb_true_r, ?orb_true_l.

(** An accepted control sequence answers an enabled mode or a query. *)
Lemma consume_expected response modes negotiated :
  consume_csi_response response modes negotiated = true ->
  has_possible_csi_input modes negotiated = true.
Proof.
  unfold consume_csi_response. cbv zeta.
  destruct (_ && _ && valid_parameter_list _).
  { match goal with |- is_some_and ?o _ = true -> _ => destruct o as [index|] end; [|done].
    simpl.
    intros H%lookup_existsb. expected H. }
  destruct (_ && bool_decide (pc_intermediates response = [36])).
  { destruct (parse_two_parameters _) as [[mode status]|]; [|done]. case_match; [done|].
    intros Hin%bool_decide_eq_true.
    assert (bool_decide (nr_mode_requests negotiated = []) = false) as Hne
      by (apply bool_decide_eq_false; intros He; rewrite He in Hin; by inversion Hin).
    expected Hne. }
  destruct ((_ =? 82) && _).
  { destruct (parse_two_parameters _) as [[row column]|]; [|done]. case_match; [done|].
    assert (forall i, default false (nr_cursor_positions negotiated !! i) = true ->
      has_possible_csi_input modes negotiated = true) as Hpos
      by (intros i Hi%lookup_existsb; expected Hi).
    repeat case_match; done || apply Hpos. }
  destruct (_ && _ && _ && numeric _); [intros H; expected H|].
  destruct (_ && cm_kitty_keyboard_event_types modes) eqn:Hk.
  { apply andb_true_iff in Hk as [_ Hk]. intros _. expected Hk. }
  clear Hk. destruct ((_ =? 110) && _ && _).
  { assert (nr_color_scheme_query negotiated || cm_color_scheme_reporting modes = true ->
      has_possible_csi_input modes negotiated = true) as Hcol
      by (intros [Hq|Hq]%orb_true_iff; expected Hq).
    repeat case_match; done || exact Hcol. }
  destruct (_ && _ && _); [|done].
  destruct (parse_three_parameters _) as [[[button column] row]|]; [|done].
  destruct (mouse_reporting modes) eqn:Hm; [|done].
  destruct (cm_mouse_sgr_encoding modes) eqn:Hsgr; [|done]. intros _.
  unfold has_possible_csi_input. rewrite Hm, Hsgr. by rewrite ?orb_true_r, ?orb_true_l.
Qed.

(** ** The loops *)

Section loops.
Context (modes : ClientInputModes) (negotiated : NegotiatedReplies).
Implicit Types (bytes : list N) (fuel consumed : nat).

(** A reply recognised at the start of the bytes, and its length. *)
Inductive recognised bytes : nat -> Prop :=
| recognised_focus : starts_with_focus modes bytes = true -> recognised bytes 3
| recognised_csi response consumed :
    parse_csi bytes = Some (response, consumed) ->
    consume_csi_response response modes negotiated = true -> recognised bytes consumed
| recognised_xtversion consumed :
    xtversion_reply negotiated bytes = Some consumed -> recognised bytes consumed
| recognised_color consumed :
    color_reply negotiated bytes = Some consumed -> recognised bytes consumed.

Lemma focus_bytes bytes :
  starts_with focus_in bytes || starts_with focus_out bytes = true ->
  reply_bytes (take 3 bytes) /\ (3 <= length bytes)%nat.
Proof.
  intros [[rest ->]%starts_with_app|[rest ->]%starts_with_app]%orb_true_iff; simpl;
    (split; [by repeat constructor|lia]).
Qed.

Lemma recognised_spec bytes consumed :
  recognised bytes consumed ->
  (0 < consumed <= length bytes)%nat /\ reply_bytes (take consumed bytes) /\
  anything_expected modes negotiated = true.
Proof.
  unfold anything_expected. intros [Hf|response c Hp Hc|c Hx|c Hc].
  - unfold starts_with_focus in Hf. apply andb_true_iff in Hf as [Hm Hf].
    apply focus_bytes in Hf as [Hr Hl]. split_and!; [lia|lia|done|]. unfold has_possible_csi_input. by rewrite Hm.
  - apply parse_csi_shape in Hp as [rest Hs%csi_shape_reply]. destruct Hs as (_ & Hl & Hr & _).
    split_and!; [lia|lia|done|]. by rewrite (consume_expected _ _ _ Hc).
  - apply xtversion_reply_spec in Hx as (Hn & Hl & Hr). split_and!; [lia|lia|done|].
    by rewrite Hn, orb_true_r.
  - apply color_reply_spec in Hc as (Hn & Hl & Hr). split_and!; [lia|lia|done|].
    by rewrite Hn, orb_true_r.
Qed.

(** What the classification answers: bytes that are all replies, replies and then
    an incomplete one, or something else. *)
Definition classified_ok (total : nat) bytes (result : ProtocolReplyClassification) : Prop :=
  match result with
  | PR_User => True
  | PR_Complete => reply_bytes bytes /\ (bytes <> [] -> anything_expected modes negotiated = true)
  | PR_Incomplete offset =>
      reply_bytes bytes /\ anything_expected modes negotiated = true /\
      (total - length bytes <= offset)%nat
  end.

Lemma classified_after total bytes consumed result :
  recognised bytes consumed -> classified_ok total (drop consumed bytes) result ->
  classified_ok total bytes result.
Proof.
  intros (Hc & Hr & He)%recognised_spec Hok.
  assert (reply_bytes (drop consumed bytes) -> reply_bytes bytes) as Hall
    by (intros; rewrite <- (take_drop consumed bytes); by apply reply_bytes_app).
  unfold classified_ok in *. rewrite length_drop in Hok. destruct result; [|naive_solver lia|done].
  destruct Hok. split; auto.
Qed.

(** Bytes that start an expected reply. *)
Lemma unfinished_expected bytes :
  (cm_focus_reporting modes && (starts_with bytes focus_in || starts_with bytes focus_out) = true) \/
  (has_possible_csi_input modes negotiated && possible_csi_prefix bytes = true) \/
  (nr_xtversion negotiated && possible_xtversion_prefix bytes = true) \/
  possible_dynamic_color_prefix bytes negotiated = true ->
  reply_bytes bytes /\ anything_expected modes negotiated = true.
Proof.
  unfold anything_expected. intros [H|[H|[H|H]]].
  - apply andb_true_iff in H as [Hm Hf]. split; [|unfold has_possible_csi_input; by rewrite Hm].
    apply orb_true_iff in Hf as [Hf|Hf]; (eapply starts_with_reply; [|exact Hf]); by repeat constructor.
  - apply andb_true_iff in H as [-> Hp]. split; [by apply possible_csi_reply|done].
  - apply andb_true_iff in H as [-> Hp]. split; [by apply possible_xtversion_reply|].
    by rewrite orb_true_r.
  - apply possible_color_reply in H as [Hr ->]. split; [done|by rewrite orb_true_r].
Qed.

Lemma incomplete_ok total bytes :
  reply_bytes bytes /\ anything_expected modes negotiated = true ->
  classified_ok total bytes (PR_Incomplete (total - length bytes)).
Proof. intros []. by split_and!. Qed.

Lemma classified_nil total : classified_ok total [] PR_Complete.
Proof. split; [constructor|done]. Qed.

(** With a turn per byte the loop answers, and what it answers is so. *)
Lemma classify_loop_spec fuel total bytes :
  (length bytes <= fuel)%nat ->
  exists result, classify_loop fuel modes negotiated total bytes = Some result /\
    classified_ok total bytes result.
Proof.
  revert bytes. induction fuel as [|fuel IH]; intros [|b l] Hlen;
    try (by exists PR_Complete; split; [|apply classified_nil]); [by inversion Hlen|].
  assert (forall consumed, recognised (b :: l) consumed ->
    exists result, classify_loop fuel modes negotiated total (drop consumed (b :: l)) = Some result /\
      classified_ok total (b :: l) result) as Hnext.
  { intros consumed Hrec. pose proof (recognised_spec _ _ Hrec) as [Hc _].
    destruct (IH (drop consumed (b :: l))) as (result & Hres & Hok); [rewrite length_drop; cbn [length] in *; lia|].
    exists result. split; [done|]. by eapply classified_after. }
  pose proof (fun H => incomplete_ok total _ (unfinished_expected (b :: l) H)) as Hinc.
  cbn [classify_loop]. set (bytes := b :: l) in *. clearbody bytes. clear IH Hlen b l.
  destruct (starts_with_focus modes bytes) eqn:H1; [by apply Hnext, recognised_focus|].
  destruct (cm_focus_reporting modes && _) eqn:H2; [eexists; split; [done|auto]|].
  destruct (parse_csi bytes) as [[response consumed]|] eqn:H3.
  { destruct (consume_csi_response response modes negotiated) eqn:H4; [|by exists PR_User].
    by eapply Hnext, recognised_csi. }
  destruct (has_possible_csi_input modes negotiated && _) eqn:H4; [eexists; split; [done|auto]|].
  destruct (xtversion_reply negotiated bytes) eqn:H5; [by eapply Hnext, recognised_xtversion|].
  destruct (nr_xtversion negotiated && _) eqn:H6; [eexists; split; [done|auto 6]|].
  destruct (color_reply negotiated bytes) eqn:H7; [by eapply Hnext, recognised_color|].
  destruct (possible_dynamic_color_prefix bytes negotiated) eqn:H8;
    [eexists; split; [done|auto 6]|by exists PR_User].
Qed.

Lemma submit_loop_total fuel saw bytes :
  (length bytes <= fuel)%nat -> is_Some (submit_loop fuel modes negotiated saw bytes).
Proof.
  revert saw bytes. induction fuel as [|fuel IH]; intros saw [|b l] Hlen;
    try (by eexists); [by inversion Hlen|].
  assert (forall s consumed, recognised (b :: l) consumed ->
    is_Some (submit_loop fuel modes negotiated s (drop consumed (b :: l)))) as Hnext.
  { intros s consumed [Hc _]%recognised_spec. apply IH. rewrite length_drop. cbn [length] in *. lia. }
  cbn [submit_loop]. destruct (_ || _); [apply IH; rewrite length_drop; cbn [length] in *; lia|].
  destruct (starts_with_focus modes _) eqn:H1; [by apply Hnext, recognised_focus|].
  destruct (parse_csi _) as [[response consumed]|] eqn:H3.
  { destruct (consume_csi_response response modes negotiated) eqn:H4; [by eapply Hnext, recognised_csi|].
    case_match; [|by eexists]. apply IH. apply parse_csi_shape in H3 as [rest Hs%csi_shape_reply].
    destruct Hs as (_ & Hl & _). rewrite length_drop. cbn [length] in *. lia. }
  destruct (xtversion_reply negotiated _) eqn:H5; [by eapply Hnext, recognised_xtversion|].
  destruct (color_reply negotiated _) eqn:H7; [by eapply Hnext, recognised_color|by eexists].
Qed.
End loops.

(** ** Classifying a chunk *)

Lemma classify_replies_spec bytes modes negotiated :
  exists result, classify_protocol_replies bytes modes negotiated = Some result /\
    (result = PR_User \/ (bytes <> [] /\ classified_ok modes negotiated (length bytes) bytes result)).
Proof.
  unfold classify_protocol_replies. case_bool_decide as He; [by exists PR_User; auto|].
  destruct (classify_loop_spec modes negotiated (length bytes) (length bytes) bytes) as (r & -> & Hok);
    [done|]. eauto.
Qed.

(** Every chunk is classified; protocol traffic consists of reply bytes and was
    expected; the kept fragment is bounded. *)
Lemma classify_spec bytes protocol :
  exists kind after, classify bytes protocol = Some (kind, after) /\
    ps_modes after = ps_modes protocol /\ ps_negotiated after = ps_negotiated protocol /\
    ps_output_parser after = ps_output_parser protocol /\
    (length (ps_input_fragment after) <= max_input_protocol_fragment_bytes)%nat /\
    (kind = CA_None -> reply_bytes (ps_input_fragment protocol ++ bytes) /\
    anything_expected (ps_modes protocol) (ps_negotiated protocol) = true) /\
    (kind <> CA_None -> ps_input_fragment after = []).
Proof.
  unfold classify. destruct (Nat.ltb_spec max_input_protocol_fragment_bytes
    (length (ps_input_fragment protocol) + length bytes)) as [|Hle].
  { eexists _, _. split; [done|]. simpl. split_and!; [done..|lia|done|done]. }
  set (input := ps_input_fragment protocol ++ bytes).
  destruct (classify_replies_spec input (ps_modes protocol) (ps_negotiated protocol))
    as (result & -> & Hok). cbn [mbind option_bind].
  destruct result as [|offset|].
  - destruct Hok as [|[Hne [Hr He]]]; [done|]. eexists _, _. split; [done|]. simpl.
    split_and!; try done; [lia|intros _; auto].
  - destruct Hok as [|[Hne (Hr & He & _)]]; [done|]. eexists _, _. split; [done|]. simpl.
    split_and!; try done.
    unfold input. rewrite length_drop, length_app. lia.
  - destruct (submit_loop_total (ps_modes protocol) (ps_negotiated protocol) (length input) false input)
      as [submit Hs]; [done|]. unfold is_submit_only_input. rewrite Hs. cbn [mbind option_bind].
    eexists _, _. split; [done|]. simpl. split_and!; try done; [lia|by destruct submit].
Qed.

(** ** A reply cut in two *)

(** An accepted control sequence, alone. *)
Definition accepted_reply (modes : ClientInputModes) (negotiated : NegotiatedReplies)
    (reply : list N) : Prop :=
  exists response, parse_csi reply = Some (response, length reply) /\
    consume_csi_response response modes negotiated = true.

Section cut.
Context (modes : ClientInputModes) (negotiated : NegotiatedReplies).
Implicit Types (a b reply : list N).

Lemma parsed_whole reply response :
  parse_csi reply = Some (response, length reply) ->
  exists body, reply = [27; 91] ++ body ++ [pc_final_byte response] /\
    Forall (fun x => is_csi_body_byte x = true) body /\
    is_final_byte (pc_final_byte response) = true.
Proof.
  intros [rest Hs]%parse_csi_shape. pose proof (cs_final _ _ _ _ Hs) as Hf.
  apply csi_shape_reply in Hs as (_ & _ & _ & body & Hbody & Hall).
  rewrite firstn_all in Hbody. eauto.
Qed.

(** A proper part of a control sequence has no final byte. *)
Lemma part_shape reply response a b :
  parse_csi reply = Some (response, length reply) -> reply = a ++ b -> b <> [] ->
  Forall (fun x => is_csi_body_byte x = true) (drop 2 a) /\ starts_with (take 2 a) [27; 91] = true.
Proof.
  intros (body & Hr & Hall & _)%parsed_whole -> Hb.
  destruct b as [|x b _] using rev_ind; [done|].
  rewrite !app_assoc in Hr. apply app_inj_tail in Hr as [Hr _].
  destruct a as [|x1 [|x2 a]]; simpl in *; simplify_eq; split; try constructor; try done.
  by apply Forall_app in Hall as [].
Qed.

Lemma part_does_not_parse a :
  Forall (fun x => is_csi_body_byte x = true) (drop 2 a) -> parse_csi a = None.
Proof.
  intros Hall. destruct (parse_csi a) as [[response consumed]|] eqn:Hp; [exfalso|done].
  apply parse_csi_shape in Hp as [rest Hs]. pose proof (cs_final _ _ _ _ Hs) as Hf.
  rewrite (cs_bytes _ _ _ _ Hs) in Hall. change (drop 2 ([27; 91] ++ ?x)) with x in Hall.
  rewrite !Forall_app in Hall. destruct Hall as (_ & _ & _ & Hx & _). apply Forall_inv in Hx.
  unfold is_csi_body_byte, is_final_byte in *.
  apply andb_true_iff in Hx as [_ Hx%N.leb_le]. apply andb_true_iff in Hf as [Hf%N.leb_le _]. lia.
Qed.

Lemma part_is_not_focus a :
  Forall (fun x => is_csi_body_byte x = true) (drop 2 a) -> starts_with_focus modes a = false.
Proof.
  intros Hall. unfold starts_with_focus. destruct (cm_focus_reporting modes); [|done].
  cbn [andb]. unfold focus_in, focus_out.
  destruct a as [|x1 [|x2 [|x3 a]]]; cbn [starts_with]; try (by rewrite ?andb_false_r).
  apply Forall_inv in Hall.
  unfold is_csi_body_byte in Hall. apply andb_true_iff in Hall as [_ Hle%N.leb_le].
  rewrite (proj2 (N.eqb_neq 73 x3)), (proj2 (N.eqb_neq 79 x3)) by lia.
  by rewrite ?andb_false_r.
Qed.

Lemma possible_part a :
  Forall (fun x => is_csi_body_byte x = true) (drop 2 a) -> starts_with (take 2 a) [27; 91] = true ->
  (length a <= 64)%nat -> possible_csi_prefix a = true.
Proof.
  intros Hall Hs Hlen. unfold possible_csi_prefix. rewrite Hs, (proj2 (Nat.ltb_ge _ _)) by lia. simpl.
  case_match; [done|]. apply forallb_forall. by apply List.Forall_forall.
Qed.

(** The final bytes of focus reports are not those of an accepted reply. *)
Lemma accepted_is_not_focus reply response :
  parse_csi reply = Some (response, length reply) ->
  consume_csi_response response modes negotiated = true ->
  ~ (starts_with focus_in reply || starts_with focus_out reply = true) /\
  ~ (starts_with reply focus_in || starts_with reply focus_out = true).
Proof.
  intros Hp Hc. pose proof (parsed_whole _ _ Hp) as (body & Hr & Hall & Hf).
  assert (forall x, reply = [27; 91; x] -> x = 73 \/ x = 79 -> False) as Hno.
  { intros x -> Hx. unfold consume_csi_response in Hc. destruct body as [|y body].
    - injection Hr as Hr. rewrite <- Hr in Hc. destruct Hx as [-> | ->]; discriminate Hc.
    - apply (f_equal length) in Hr. rewrite !length_app in Hr. simpl in Hr. lia. }
  assert (forall x rest, reply = 27 :: 91 :: x :: rest -> 64 <= x -> reply = [27; 91; x]) as Hfirst.
  { intros x rest -> Hx. destruct body as [|y body]; simpl in Hr; injection Hr as Hxy Hrest.
    - by rewrite Hrest.
    - apply Forall_inv in Hall. unfold is_csi_body_byte in Hall.
      apply andb_true_iff in Hall as [_ Hle%N.leb_le]. lia. }
  split; intros [H|H]%orb_true_iff; apply starts_with_app in H as [rest H].
  - eapply Hno; [eapply Hfirst; [exact H|lia]|lia].
  - eapply Hno; [eapply Hfirst; [exact H|lia]|lia].
  - assert (reply = focus_in) as Hfocus.
    { assert (rest = []) as ->; [|by rewrite app_nil_r in H].
      apply (f_equal length) in H. rewrite Hr, !length_app in H. simpl in H.
      destruct rest; [done|simpl in H; lia]. }
    eapply Hno; [exact Hfocus|lia].
  - assert (reply = focus_out) as Hfocus.
    { assert (rest = []) as ->; [|by rewrite app_nil_r in H].
      apply (f_equal length) in H. rewrite Hr, !length_app in H. simpl in H.
      destruct rest; [done|simpl in H; lia]. }
    eapply Hno; [exact Hfocus|lia].
Qed.

Lemma classify_part reply a b :
  accepted_reply modes negotiated reply -> reply = a ++ b -> a <> [] -> b <> [] ->
  (length a <= 64)%nat -> classify_protocol_replies a modes negotiated = Some (PR_Incomplete 0).
Proof.
  intros (response & Hp & Hc) Hr Ha Hb Hlen.
  destruct (part_shape _ _ _ _ Hp Hr Hb) as [Hbody Hstart].
  unfold classify_protocol_replies. rewrite bool_decide_eq_false_2 by done.
  pose proof (part_does_not_parse a Hbody) as Hnone. pose proof (part_is_not_focus a Hbody) as Hfocus.
  pose proof (possible_part a Hbody Hstart Hlen) as Hposs.
  pose proof (consume_expected _ _ _ Hc) as Hexp. clear Hp Hc Hr Hbody Hstart.
  destruct a as [|x a]; [done|]. cbn [length classify_loop]. rewrite Hfocus, Hnone, Hexp, Hposs.
  rewrite Nat.sub_diag. by case_match.
Qed.

Lemma classify_whole reply :
  accepted_reply modes negotiated reply ->
  classify_protocol_replies reply modes negotiated = Some PR_Complete.
Proof.
  intros (response & Hp & Hc). destruct (accepted_is_not_focus _ _ Hp Hc) as [H1 H2].
  unfold classify_protocol_replies, starts_with_focus in *.
  destruct reply as [|x reply]; [discriminate Hp|]. rewrite bool_decide_eq_false_2 by done.
  cbn [length] in *. cbn [classify_loop]. unfold starts_with_focus.
  apply not_true_is_false in H1, H2. rewrite H1, H2, !andb_false_r, Hp, Hc. cbn [negb].
  by rewrite drop_ge by (cbn [length]; lia); destruct (length reply).
Qed.
End cut.

(** * What the classification of client input guarantees

    The delivery of generated input decides from this classification whether the
    user touched the composer, so it must never take a key press for protocol
    traffic, and should not take a reply for a key press. *)


(** A control-sequence reply that answers an enabled mode or a query is
    protocol traffic however the client cuts it into two chunks: the first part
    is kept, the second completes it, and neither counts as user input. *)
Theorem split_replies_are_protocol_traffic (protocol : ProtocolState) (first second : list N) :
  ps_input_fragment protocol = [] ->
  accepted_reply (ps_modes protocol) (ps_negotiated protocol) (first ++ second) ->
  first <> [] -> second <> [] -> (length first <= 64)%nat ->
  (length (first ++ second) <= max_input_protocol_fragment_bytes)%nat ->
  exists between, classify first protocol = Some (CA_None, between) /\
    ps_input_fragment between = first /\
    classify second between = Some (CA_None, protocol).
Proof.
  intros Hfrag Hacc Hf Hs Hlen Hmax. rewrite length_app in Hmax.
  exists (protocol <| ps_input_fragment := first |>). split_and!; [|done|].
  - unfold classify. rewrite Hfrag. cbn [length app].
    rewrite (proj2 (Nat.ltb_ge _ _)) by lia.
    rewrite (classify_part _ _ (first ++ second) first second) by done. reflexivity.
  - unfold classify.
    change (ps_input_fragment (protocol <| ps_input_fragment := first |>)) with first.
    rewrite (proj2 (Nat.ltb_ge _ _)) by lia.
    rewrite (classify_whole (ps_modes protocol) (ps_negotiated protocol)) by done.
    destruct protocol. simpl in Hfrag. by subst.
Qed.

(** The program asked for the cursor position; the reply [ESC [ 1 2 ; 3 R] comes
    in two parts. *)
Definition asked : ProtocolState := record_output [27; 91; 54; 110] protocol_default.

Lemma split_replies_are_protocol_traffic_witness :
  exists between, classify [27; 91; 49] asked = Some (CA_None, between) /\
    ps_input_fragment between = [27; 91; 49] /\
    classify [50; 59; 51; 82] between = Some (CA_None, asked).
Proof.
  apply (split_replies_are_protocol_traffic asked); try discriminate; try (simpl; lia).
  - reflexivity.
  - eexists. split; vm_compute; reflexivity.
  - vm_compute. lia.
Defined.
