(* ===== verification/Agents.v ===== *)
(** * Agents: catalog, signals and the observation reducer

    [src/modules/agents/src]: the catalog of built-in providers
    ([catalog.rs]), the state an Agent is observed in and how signals move it
    ([lib.rs]), the normalization of provider hooks ([provider_observation.rs])
    and of Codex App Server messages, and the scope that decides which thread's
    notifications count.

    JSON is [serde_json]'s: a value is only read through the operations of
    [JsonValue].  The [uuid] crate's parse-and-print is [UuidText]. *)

From S2P Require Import Prelude Text Domain DomainRules.

Local Open Scope string_scope.
Local Open Scope list_scope.

(** ** JSON values *)

(** [Value::get], [pointer], [as_str], [as_bool], [as_array], [is_null], the
    tests for a string or a number, [to_string], and [from_str]. *)
Class JsonValue (Value : Type) := {
  json_get : Value -> string -> option Value;
  json_pointer : Value -> string -> option Value;
  json_as_str : Value -> option string;
  json_as_bool : Value -> option bool;
  json_as_array : Value -> option (list Value);
  json_is_null : Value -> bool;
  json_is_string_or_number : Value -> bool;
  json_to_string : Value -> string;
  json_from_str : string -> option Value
}.

(** [uuid::Uuid::parse_str(value).ok().map(|id| id.to_string())] *)
Class UuidText := uuid_canonical_text : string -> option string.

(** ** The catalog *)

Inductive BuiltinAgentAdapter : Type := AA_Claude | AA_Codex | AA_Gemini | AA_OpenCode.
#[export] Instance BuiltinAgentAdapter_eq_dec : EqDecision BuiltinAgentAdapter.
Proof. solve_decision. Defined.

Inductive ResumeIdentityScope : Type := RI_Global | RI_WorkingDirectory.
#[export] Instance ResumeIdentityScope_eq_dec : EqDecision ResumeIdentityScope.
Proof. solve_decision. Defined.

Record AgentDescriptor : Type := MkAgentDescriptor {
  ad_id : string;
  ad_label : string;
  ad_executable_candidates : list string;
  ad_adapter : BuiltinAgentAdapter;
  ad_models : list string;
  ad_permissions : list string;
  ad_reasoning : list string;
  ad_resume_identity_scope : ResumeIdentityScope;
  ad_generated_input_coordination_supported : bool;
  ad_tracked_helpers_supported : bool
}.

Definition claude_models : list string :=
  ["default"; "opus[1m]"; "fable"; "sonnet"; "haiku"; "opus"].
Definition codex_models : list string :=
  ["default"; "gpt-6-astra"; "gpt-6.1-sol"; "gpt-6-sol"; "gpt-6-luna"; "gpt-5.6-sol";
   "gpt-5.6-terra"; "gpt-5.6-luna"; "gpt-5.5"; "gpt-5.5-pro"].
Definition gemini_models : list string := ["default"; "auto"; "pro"; "flash"; "flash-lite"].
Definition opencode_models : list string :=
  ["default"; "opencode-go/kimi-k2.7-code"; "opencode-go/glm-5.3-flash"; "opencode-go/minimax-m3";
   "opencode-go/qwen3.7-plus"; "opencode-go/deepseek-v4.1-flash"].
Definition standard_permissions : list string :=
  ["default"; "acceptEdits"; "plan"; "bypassPermissions"].
Definition opencode_permissions : list string := ["default"; "plan"; "bypassPermissions"].
Definition standard_reasoning : list string := ["default"; "low"; "medium"; "high"; "xhigh"; "max"].
Definition opencode_reasoning : list string :=
  ["default"; "low"; "high"; "max"; "none"; "thinking"].
Definition default_reasoning : list string := ["default"].

Definition agent_catalog : list AgentDescriptor :=
  [MkAgentDescriptor "claude" "Claude" ["claude"] AA_Claude claude_models standard_permissions
     standard_reasoning RI_Global true true;
   MkAgentDescriptor "codex" "Codex" ["codex"] AA_Codex codex_models standard_permissions
     standard_reasoning RI_Global true true;
   MkAgentDescriptor "gemini" "Gemini CLI" ["gemini"] AA_Gemini gemini_models standard_permissions
     default_reasoning RI_WorkingDirectory true false;
   MkAgentDescriptor "opencode" "OpenCode" ["opencode"] AA_OpenCode opencode_models
     opencode_permissions opencode_reasoning RI_WorkingDirectory false false].

Definition agent_descriptor (agent_id : string) : option AgentDescriptor :=
  find_first (fun descriptor => ad_id descriptor == agent_id) agent_catalog.
Definition is_supported_agent (agent_id : string) : bool := is_some (agent_descriptor agent_id).
Definition supports_generated_input_coordination (agent_id : string) : bool :=
  is_some_and (agent_descriptor agent_id) ad_generated_input_coordination_supported.
Definition supports_tracked_helpers (agent_id : string) : bool :=
  is_some_and (agent_descriptor agent_id) ad_tracked_helpers_supported.
Definition has_global_resume_identity (agent_id : string) : bool :=
  is_some_and (agent_descriptor agent_id)
    (fun descriptor => ad_resume_identity_scope descriptor == RI_Global).

(** [reasoning_for_model] *)
Definition reasoning_for_model (agent_id model : string) : list string :=
  if agent_id != "opencode" then
    match agent_descriptor agent_id with
    | Some agent => ad_reasoning agent
    | None => default_reasoning
    end
  else if model == "opencode-go/kimi-k2.7-code" then ["default"; "max"]
  else if (model == "opencode-go/glm-5.3-flash") || (model == "opencode-go/deepseek-v4.1-flash")
  then ["default"; "low"; "high"; "max"]
  else if model == "opencode-go/minimax-m3" then ["default"; "none"; "thinking"]
  else default_reasoning.

(** ** States and signals *)

Inductive AgentState : Type :=
| AS_Unknown | AS_Working | AS_AwaitingInput | AS_Idle | AS_Compacting | AS_Failed
| AS_Interrupted | AS_Exited.
#[export] Instance AgentState_eq_dec : EqDecision AgentState.
Proof. solve_decision. Defined.

Inductive AgentSignal : Type :=
| SG_SignalUnavailable | SG_SessionStarted | SG_PromptSubmitted | SG_ToolStarted
| SG_ToolFinished | SG_PermissionRequested | SG_Notification | SG_IdleNotified
| SG_AmbientNotification | SG_CompactStarted | SG_CompactResumedTurn | SG_Stopped | SG_Failed
| SG_Interrupted | SG_ClientRestartInterrupted | SG_DaemonRestartInterrupted | SG_SessionEnded.
#[export] Instance AgentSignal_eq_dec : EqDecision AgentSignal.
Proof. solve_decision. Defined.

Inductive AgentSignalSource : Type :=
| SRC_Hook | SRC_DaemonBridge | SRC_Transcript | SRC_Process | SRC_None.
#[export] Instance AgentSignalSource_eq_dec : EqDecision AgentSignalSource.
Proof. solve_decision. Defined.

Record AgentObservation : Type := MkAgentObservation {
  ao_state : AgentState;
  ao_source : AgentSignalSource;
  ao_sequence : N;
  ao_observed_at_epoch_ms : N
}.
#[export] Instance AgentObservation_eq_dec : EqDecision AgentObservation.
Proof. solve_decision. Defined.

(** The state a signal names when nothing keeps the previous one. *)
Definition signal_state (previous : option AgentObservation) (signal : AgentSignal) : AgentState :=
  match signal with
  | SG_SignalUnavailable => AS_Unknown
  | SG_SessionStarted => AS_Idle
  | SG_PromptSubmitted | SG_ToolStarted | SG_ToolFinished | SG_CompactResumedTurn => AS_Working
  | SG_PermissionRequested | SG_Notification => AS_AwaitingInput
  | SG_AmbientNotification =>
      match previous with Some previous => ao_state previous | None => AS_Unknown end
  | SG_CompactStarted => AS_Compacting
  | SG_Stopped | SG_IdleNotified => AS_Idle
  | SG_Failed => AS_Failed
  | SG_Interrupted | SG_ClientRestartInterrupted | SG_DaemonRestartInterrupted => AS_Interrupted
  | SG_SessionEnded => AS_Exited
  end.

(** The guards of [reduce_observation] that answer without the signal's own
    state, in their order. *)
Definition kept_observation (previous : AgentObservation) (signal : AgentSignal)
    (source : AgentSignalSource) (sequence observed_at_epoch_ms : N) : option AgentObservation :=
  if (sequence <=? ao_sequence previous)%N then Some previous
  else if (ao_state previous == AS_Interrupted) && (ao_source previous == SRC_Process)
          && (signal == SG_SessionStarted) && (source == SRC_Hook)
  then Some (MkAgentObservation AS_Interrupted source sequence observed_at_epoch_ms)
  else if (ao_state previous == AS_Interrupted)
          && (match signal with SG_Stopped | SG_IdleNotified => true | _ => false end
              || ((ao_source previous == SRC_Process)
                  && match signal with
                     | SG_SessionStarted | SG_ToolStarted | SG_ToolFinished => true
                     | _ => false
                     end))
  then Some previous
  else if (ao_state previous == AS_Failed)
          && match signal with
             | SG_Stopped | SG_IdleNotified | SG_AmbientNotification => true
             | _ => false
             end
  then Some previous
  else if (ao_state previous == AS_Idle) && (source == SRC_DaemonBridge)
          && (signal == SG_ToolFinished)
  then Some previous
  else None.

(** [reduce_observation] *)
Definition reduce_observation (previous : option AgentObservation) (signal : AgentSignal)
    (source : AgentSignalSource) (sequence observed_at_epoch_ms : N) : AgentObservation :=
  match previous ≫= fun p => kept_observation p signal source sequence observed_at_epoch_ms with
  | Some observation => observation
  | None =>
      MkAgentObservation (signal_state previous signal) source sequence observed_at_epoch_ms
  end.

(** ** Provider hooks *)

(** [notification_signal] *)
Definition notification_signal (notification_type : option string) : AgentSignal :=
  match notification_type with
  | Some kind =>
      if kind == "idle_prompt" then SG_IdleNotified
      else if any (fun ambient => ambient == kind)
                ["agent_completed"; "auth_success"; "computer_use_enter"; "computer_use_exit";
                 "elicitation_complete"; "elicitation_response"; "push_notification"]
      then SG_AmbientNotification
      else SG_Notification
  | None => SG_Notification
  end.

(** [normalize_hook_event] *)
Definition normalize_hook_event (value : string) (notification_type : option string)
  : option AgentSignal :=
  if value == "SessionStart" then Some SG_SessionStarted
  else if value == "UserPromptSubmit" then Some SG_PromptSubmitted
  else if value == "PreToolUse" then Some SG_ToolStarted
  else if (value == "PostToolUse") || (value == "TaskCreated") || (value == "TaskCompleted")
  then Some SG_ToolFinished
  else if (value == "SubagentStart") || (value == "SubagentStop") then Some SG_AmbientNotification
  else if value == "PermissionRequest" then Some SG_PermissionRequested
  else if value == "Notification" then Some (notification_signal notification_type)
  else if value == "PreCompact" then Some SG_CompactStarted
  else if value == "Stop" then Some SG_Stopped
  else if value == "StopFailure" then Some SG_Failed
  else if value == "SessionEnd" then Some SG_SessionEnded
  else None.

(** Plans, as the providers report them. *)
Inductive AgentPlanSource : Type := PS_LaunchScopedHook | PS_DaemonOwnedBridge.
#[export] Instance AgentPlanSource_eq_dec : EqDecision AgentPlanSource.
Proof. solve_decision. Defined.

Inductive AgentPlanStepStatus : Type := PSS_Pending | PSS_InProgress | PSS_Completed.
#[export] Instance AgentPlanStepStatus_eq_dec : EqDecision AgentPlanStepStatus.
Proof. solve_decision. Defined.

Record AgentPlanStep : Type := MkAgentPlanStep {
  aps_text : string;
  aps_status : AgentPlanStepStatus
}.

Record AgentPlan : Type := MkAgentPlan {
  ap_source : AgentPlanSource;
  ap_explanation : option string;
  ap_steps : list AgentPlanStep
}.

Inductive AgentPlanUpdate : Type :=
| PU_Replace (plan : AgentPlan)
| PU_UpsertTask (task_id text : string) (status : AgentPlanStepStatus)
| PU_SetTaskStatus (task_id : string) (status : AgentPlanStepStatus)
| PU_RemoveTask (task_id : string).

(** What a resting turn waits on. *)
Inductive AgentPendingWakeKind : Type :=
| WK_Shell | WK_Subagent | WK_Monitor | WK_Workflow | WK_Task | WK_Scheduled.
#[export] Instance AgentPendingWakeKind_eq_dec : EqDecision AgentPendingWakeKind.
Proof. solve_decision. Defined.

Record AgentPendingWake : Type := MkAgentPendingWake {
  apw_kind : AgentPendingWakeKind;
  apw_label : string
}.

Record AgentPendingWakes : Type := MkAgentPendingWakes {
  pw_background_tasks : N;
  pw_scheduled_wakes : N;
  pw_waiting_on : list AgentPendingWake
}.

(** Children of the provider's session. *)
Record AgentSubagentListing : Type := MkAgentSubagentListing {
  asl_key : string;
  asl_agent_type : option string;
  asl_description : option string
}.

Inductive AgentSubagentUpdate : Type :=
| SU_Launching (agent_type description : option string)
| SU_Started (key : string) (agent_type : option string)
| SU_Active (key : string) (agent_type activity : option string)
| SU_Described (key description : string)
| SU_Stopped (key : string)
| SU_Inventory (listings : list AgentSubagentListing).

(** What a provider's runtime sends to the daemon. *)
Inductive CodexPermissionMode : Type :=
| CPM_Default | CPM_AcceptEdits | CPM_Plan | CPM_BypassPermissions.

Record CodexThreadSettingsObservation : Type := MkThreadSettings {
  cts_native_thread_id : string;
  cts_model : option string;
  cts_permission : CodexPermissionMode;
  cts_reasoning : option string
}.

Record CodexThreadNameObservation : Type := MkThreadName {
  ctn_native_thread_id : string;
  ctn_name : option string
}.

Inductive AgentRuntimeEvent : Type :=
| RE_Observation (signal : AgentSignal)
| RE_ResumeRefObserved (resume_ref : ResumeRef)
| RE_ThreadSettingsObserved (settings : CodexThreadSettingsObservation)
| RE_ThreadNameObserved (name : CodexThreadNameObservation)
| RE_PlanUpdated (plan : AgentPlan).

Record AgentRuntimeSignal : Type := MkRuntimeSignal {
  ars_session_id : string;
  ars_runtime_epoch : N;
  ars_event : AgentRuntimeEvent
}.

Inductive HookIngress : Type := HI_LaunchScopedHook | HI_DaemonOwnedBridge.
#[export] Instance HookIngress_eq_dec : EqDecision HookIngress.
Proof. solve_decision. Defined.

Record ProviderHookObservationInput : Type := MkHookInput {
  hi_event_name : string;
  hi_notification_type : option string;
  hi_native_session_id : option string;
  hi_provider_model_id : option string;
  hi_permission_mode : option string;
  hi_reasoning_level : option string;
  hi_transcript_path : option string;
  hi_prompt_id : option string;
  hi_plan : option AgentPlanUpdate;
  hi_pending_wakes : option AgentPendingWakes;
  hi_subagent : option AgentSubagentUpdate
}.

Record ProviderTurnWatch : Type := MkTurnWatch {
  tw_transcript_path : string;
  tw_prompt_id : string
}.

Record NormalizedProviderObservation : Type := MkNormalizedObservation {
  no_ingress : HookIngress;
  no_signal : AgentSignal;
  no_source : AgentSignalSource;
  no_resume_ref : option ResumeRef;
  no_provider_model_id : option string;
  no_permission_mode : option string;
  no_reasoning_level : option string;
  no_turn_watch : option ProviderTurnWatch;
  no_plan : option AgentPlanUpdate;
  no_pending_wakes : option AgentPendingWakes;
  no_subagent : option AgentSubagentUpdate
}.

Section hooks.
Context `{UuidParser} `{UuidText}.

(** The reference to the provider's own session that a hook carries. *)
Definition hook_resume_ref (provider : ResumeProvider) (native_session_id : option string)
  : option ResumeRef :=
  match native_session_id with
  | Some value =>
      match uuid_canonical_text value with
      | Some canonical => resume_ref_for_provider provider canonical
      | None => None
      end
  | None => None
  end.

(** [provider_hook_native_session_id] *)
Definition provider_hook_native_session_id (agent_id value : string) : option string :=
  match ad_adapter <$> agent_descriptor agent_id with
  | Some (AA_Claude | AA_Gemini) => uuid_canonical_text value
  | Some AA_OpenCode => ref_native_session_id <$> resume_ref_for_provider RP_Opencode value
  | Some AA_Codex | None => None
  end.

(** [normalize_claude_hook] *)
Definition normalize_claude_hook (input : ProviderHookObservationInput)
  : option NormalizedProviderObservation :=
  match normalize_hook_event (hi_event_name input) (hi_notification_type input) with
  | None => None
  | Some signal =>
      let turn_watch :=
        if hi_event_name input == "UserPromptSubmit" then
          match hi_transcript_path input, hi_prompt_id input with
          | Some transcript_path, Some prompt_id => Some (MkTurnWatch transcript_path prompt_id)
          | _, _ => None
          end
        else None in
      Some (MkNormalizedObservation HI_LaunchScopedHook signal SRC_Hook
              (hook_resume_ref RP_Claude (hi_native_session_id input))
              (hi_provider_model_id input) (hi_permission_mode input) (hi_reasoning_level input)
              turn_watch (hi_plan input) (hi_pending_wakes input) (hi_subagent input))
  end.

Definition gemini_signal (event_name : string) (notification_type : option string)
  : option AgentSignal :=
  if event_name == "SessionStart" then Some SG_SessionStarted
  else if event_name == "BeforeAgent" then Some SG_PromptSubmitted
  else if event_name == "BeforeTool" then Some SG_ToolStarted
  else if event_name == "AfterTool" then Some SG_ToolFinished
  else if (event_name == "Notification") && (notification_type == Some "ToolPermission")
  then Some SG_PermissionRequested
  else if event_name == "Notification" then Some SG_Notification
  else if event_name == "PreCompress" then Some SG_CompactStarted
  else if event_name == "AfterAgent" then Some SG_Stopped
  else if event_name == "SessionEnd" then Some SG_SessionEnded
  else None.

(** [normalize_gemini_hook] *)
Definition normalize_gemini_hook (input : ProviderHookObservationInput)
  : option NormalizedProviderObservation :=
  match gemini_signal (hi_event_name input) (hi_notification_type input) with
  | None => None
  | Some signal =>
      Some (MkNormalizedObservation HI_LaunchScopedHook signal SRC_Hook
              (hook_resume_ref RP_Gemini (hi_native_session_id input))
              (hi_provider_model_id input) None None None None None None)
  end.

Definition opencode_signal (event_name : string) : option AgentSignal :=
  if event_name == "OpenCodeSessionStart" then Some SG_SessionStarted
  else if event_name == "OpenCodeWorking" then Some SG_PromptSubmitted
  else if event_name == "OpenCodeIdle" then Some SG_Stopped
  else if event_name == "OpenCodePermission" then Some SG_PermissionRequested
  else if event_name == "OpenCodeError" then Some SG_Failed
  else if event_name == "OpenCodeSessionEnd" then Some SG_SessionEnded
  else None.

(** [normalize_opencode_hook] *)
Definition normalize_opencode_hook (input : ProviderHookObservationInput)
  : option NormalizedProviderObservation :=
  match opencode_signal (hi_event_name input) with
  | None => None
  | Some signal =>
      Some (MkNormalizedObservation HI_LaunchScopedHook signal SRC_Hook
              (hi_native_session_id input ≫= resume_ref_for_provider RP_Opencode)
              None None None None None None None)
  end.

(** [normalize_provider_hook_observation] *)
Definition normalize_provider_hook_observation (agent_id : string)
    (input : ProviderHookObservationInput) : option NormalizedProviderObservation :=
  match ad_adapter <$> agent_descriptor agent_id with
  | Some AA_Claude => normalize_claude_hook input
  | Some AA_Gemini => normalize_gemini_hook input
  | Some AA_OpenCode => normalize_opencode_hook input
  | Some AA_Codex | None => None
  end.
End hooks.

(** ** Codex App Server messages *)

Section codex.
Context {Value : Type} `{JsonValue Value} `{UuidParser}.

(** [normalize_codex_thread_status] *)
Definition normalize_codex_thread_status (status : Value) : option AgentSignal :=
  match json_get status "type" ≫= json_as_str with
  | None => None
  | Some kind =>
      if kind == "idle" then Some SG_Stopped
      else if kind == "active" then
        let waiting :=
          is_some_and (json_get status "activeFlags" ≫= json_as_array)
            (any (fun flag =>
               (json_as_str flag == Some "waitingOnApproval")
               || (json_as_str flag == Some "waitingOnUserInput"))) in
        Some (if waiting then SG_PermissionRequested else SG_ToolStarted)
      else if (kind == "systemError") || (kind == "notLoaded") then Some SG_SignalUnavailable
      else None
  end.

(** [normalize_codex_app_server_message] *)
Definition normalize_codex_app_server_message (raw : string) : option AgentSignal :=
  match json_from_str raw with
  | None => None
  | Some message =>
      match json_get message "method" ≫= json_as_str with
      | None => None
      | Some method =>
          if method == "thread/started"
          then json_pointer message "/params/thread/status" ≫= normalize_codex_thread_status
          else if method == "thread/status/changed"
          then json_pointer message "/params/status" ≫= normalize_codex_thread_status
          else if method == "turn/started" then Some SG_PromptSubmitted
          else if method == "turn/completed" then
            match json_pointer message "/params/turn/status" ≫= json_as_str with
            | None => None
            | Some status =>
                if status == "interrupted" then Some SG_Interrupted
                else if status == "completed" then Some SG_Stopped
                else if status == "failed" then Some SG_Failed
                else None
            end
          else if (method == "turn/plan/updated") || (method == "item/started")
          then Some SG_ToolStarted
          else if method == "item/completed" then Some SG_ToolFinished
          else if (method == "item/commandExecution/requestApproval")
                  || (method == "item/fileChange/requestApproval")
                  || (method == "item/permissions/requestApproval")
                  || (method == "item/tool/requestUserInput")
          then Some SG_PermissionRequested
          else None
      end
  end.

(** [normalize_codex_resume_ref] *)
Definition normalize_codex_resume_ref (raw : string) : option ResumeRef :=
  match json_from_str raw with
  | None => None
  | Some message =>
      match json_get message "method" ≫= json_as_str with
      | None => None
      | Some method =>
          if method != "thread/started" then None
          else (json_pointer message "/params/thread/id" ≫= json_as_str)
                 ≫= resume_ref_for_provider RP_Codex
      end
  end.

(** [json_rpc_id_key] *)
Definition json_rpc_id_key (value : Value) : option string :=
  if json_is_string_or_number value then Some (json_to_string value) else None.

Definition max_pending_codex_thread_resumes : nat := 8.
Definition max_pending_codex_new_threads : nat := 8.

(** A string that is not empty, at a pointer. *)
Definition nonempty_at (message : Value) (pointer : string) : option string :=
  match json_pointer message pointer ≫= json_as_str with
  | Some value => if negb (str_is_empty value) then Some value else None
  | None => None
  end.

Record CodexAppServerThreadScope : Type := MkThreadScope {
  ts_native_thread_id : option string;
  ts_pending_new_thread_requests : list string
}.
#[export] Instance CodexAppServerThreadScope_eta : Eta CodexAppServerThreadScope := fun r =>
  MkThreadScope (ts_native_thread_id r) (ts_pending_new_thread_requests r).
Definition thread_scope_default : CodexAppServerThreadScope := MkThreadScope None [].

(** [pop_front] when full, then [push_back]. *)
Definition push_bounded (bound : nat) (id : string) (pending : list string) : list string :=
  (if (length pending =? bound)%nat then tail pending else pending) ++ [id].

(** [observe_downstream_request] *)
Definition observe_downstream_request (raw : string) (self : CodexAppServerThreadScope)
  : CodexAppServerThreadScope :=
  match json_from_str raw with
  | None => self
  | Some message =>
      match json_get message "method" ≫= json_as_str with
      | None => self
      | Some method =>
          if method == "thread/resume" then
            match nonempty_at message "/params/threadId" with
            | Some native_thread_id => self <| ts_native_thread_id := Some native_thread_id |>
            | None => self
            end
          else if (method == "thread/start") || (method == "thread/fork") then
            if (json_pointer message "/params/ephemeral" ≫= json_as_bool) == Some true then self
            else
              match json_get message "id" ≫= json_rpc_id_key with
              | None => self
              | Some id =>
                  self <| ts_pending_new_thread_requests :=
                    push_bounded max_pending_codex_new_threads id
                      (ts_pending_new_thread_requests self) |>
              end
          else self
      end
  end.

(** [observe_upstream_response] *)
Definition observe_upstream_response (raw : string) (self : CodexAppServerThreadScope)
  : CodexAppServerThreadScope :=
  match json_from_str raw with
  | None => self
  | Some message =>
      match json_get message "id" ≫= json_rpc_id_key with
      | None => self
      | Some id =>
          match position (fun candidate => candidate == id) (ts_pending_new_thread_requests self) with
          | None => self
          | Some (position, _) =>
              let self := self <| ts_pending_new_thread_requests :=
                delete position (ts_pending_new_thread_requests self) |> in
              if (json_pointer message "/result/thread/ephemeral" ≫= json_as_bool) == Some true
              then self
              else
                match nonempty_at message "/result/thread/id" with
                | Some native_thread_id => self <| ts_native_thread_id := Some native_thread_id |>
                | None => self
                end
          end
      end
  end.

(** [observe_resume_ref] *)
Definition observe_resume_ref (resume_ref : ResumeRef) (self : CodexAppServerThreadScope)
  : CodexAppServerThreadScope :=
  self <| ts_native_thread_id := Some (ref_native_session_id resume_ref) |>.

(** [codex_app_server_message_thread_id] *)
Definition codex_app_server_message_thread_id (message : Value) : option string :=
  match nonempty_at message "/params/threadId" with
  | Some id => Some id
  | None => nonempty_at message "/params/thread/id"
  end.

(** [admits_notification] *)
Definition admits_notification (message : Value) (self : CodexAppServerThreadScope)
  : bool * CodexAppServerThreadScope :=
  match json_get message "method" ≫= json_as_str with
  | None => (true, self)
  | Some method =>
      if (method == "thread/started")
         && ((json_pointer message "/params/thread/ephemeral" ≫= json_as_bool) == Some true)
      then (false, self)
      else
        match codex_app_server_message_thread_id message with
        | None => (true, self)
        | Some native_thread_id =>
            if ts_native_thread_id self == Some native_thread_id then (true, self)
            else if (method == "thread/started")
                    && (is_none (ts_native_thread_id self)
                        || negb (ts_pending_new_thread_requests self == []))
            then (true, self <| ts_native_thread_id := Some native_thread_id |>)
            else (is_none (ts_native_thread_id self), self)
        end
  end.

(** [observe_codex_thread_resume_request] *)
Definition observe_codex_thread_resume_request (raw : string) (pending : list string)
  : list string :=
  match json_from_str raw with
  | None => pending
  | Some message =>
      if (json_get message "method" ≫= json_as_str) != Some "thread/resume" then pending
      else
        match json_get message "id" ≫= json_rpc_id_key with
        | None => pending
        | Some id => push_bounded max_pending_codex_thread_resumes id pending
        end
  end.

(** [normalize_codex_thread_resume_response] *)
Definition normalize_codex_thread_resume_response (raw : string) (pending : list string)
  : option ResumeRef * list string :=
  match json_from_str raw with
  | None => (None, pending)
  | Some message =>
      match json_get message "id" ≫= json_rpc_id_key with
      | None => (None, pending)
      | Some id =>
          match position (fun candidate => candidate == id) pending with
          | None => (None, pending)
          | Some (position, _) =>
              ((json_pointer message "/result/thread/id" ≫= json_as_str)
                 ≫= resume_ref_for_provider RP_Codex, delete position pending)
          end
      end
  end.
End codex.
