(* ===== verification/Subagents.v ===== *)
(** * Agents: subagents and pending wakes

    [src/modules/agents/src/subagents.rs] and [pending_wakes.rs]: what one
    Claude hook payload says about the children and the background work of a
    Session, and the roster that the daemon folds the updates into.

    A payload is read through [JsonValue]; the SHA-256 digest behind the
    opaque child key is the parameter [Sha256]. *)

From S2P Require Import Prelude Text Agents.

Local Open Scope string_scope.
Local Open Scope list_scope.

(** [Sha256::digest], which answers 32 bytes. *)
Class Sha256 := {
  sha256_digest : list N -> list N;
  sha256_length : forall input, length (sha256_digest input) = 32%nat
}.

Definition max_agent_subagents : nat := 16.
Definition max_pending_launches : nat := 8.
Definition max_subagent_id_bytes : N := 128.
Definition max_subagent_type_bytes : N := 64.
Definition max_subagent_text_bytes : N := 256.

(** ** The roster *)

Record AgentSubagent : Type := MkAgentSubagent {
  sa_key : string;
  sa_agent_type : option string;
  sa_description : option string;
  sa_activity : option string;
  sa_started_at_epoch_ms : N
}.
#[export] Instance AgentSubagent_eq_dec : EqDecision AgentSubagent.
Proof. solve_decision. Defined.
#[export] Instance AgentSubagent_eta : Eta AgentSubagent := fun r =>
  MkAgentSubagent (sa_key r) (sa_agent_type r) (sa_description r) (sa_activity r)
    (sa_started_at_epoch_ms r).

Record AgentSubagentRoster : Type := MkRoster {
  ro_children : list AgentSubagent;
  ro_pending_launches : list (option string * option string)
}.
#[export] Instance AgentSubagentRoster_eta : Eta AgentSubagentRoster := fun r =>
  MkRoster (ro_children r) (ro_pending_launches r).
Definition roster_default : AgentSubagentRoster := MkRoster [] [].

(** [AgentSubagentRoster::clear] *)
Definition roster_clear (self : AgentSubagentRoster) : bool * AgentSubagentRoster :=
  (negb (ro_children self == []), roster_default).

(** [take_launch_description] *)
Definition take_launch_description (agent_type : option string) (self : AgentSubagentRoster)
  : option string * AgentSubagentRoster :=
  let launches := ro_pending_launches self in
  let index :=
    match position (fun launch => launch.1 == agent_type) launches with
    | Some (index, _) => Some index
    | None => if negb (launches == []) then Some 0%nat else None
    end in
  match index with
  | None => (None, self)
  | Some index =>
      match launches !! index with
      | None => (None, self)
      | Some launch =>
          (launch.2, self <| ro_pending_launches := delete index launches |>)
      end
  end.

(** [insert] *)
Definition roster_insert (key : string) (agent_type description : option string)
    (now_epoch_ms : N) (self : AgentSubagentRoster) : AgentSubagentRoster :=
  if (length (ro_children self) <? max_agent_subagents)%nat then
    self <| ro_children :=
      ro_children self ++ [MkAgentSubagent key agent_type description None now_epoch_ms] |>
  else self.

Definition has_child (key : string) (self : AgentSubagentRoster) : bool :=
  any (fun child => sa_key child == key) (ro_children self).

(** [upsert] and the assignments [f] through the reference it answers. *)
Definition upsert_child (key : string) (now_epoch_ms : N) (f : AgentSubagent -> AgentSubagent)
    (self : AgentSubagentRoster) : AgentSubagentRoster :=
  let self :=
    if negb (has_child key self) then
      let '(description, self) := take_launch_description None self in
      roster_insert key None description now_epoch_ms self
    else self in
  match find_mut (fun child => sa_key child == key) f (ro_children self) with
  | Some (_, children) => self <| ro_children := children |>
  | None => self
  end.

(** [if field.is_none() { field = value }] *)
Definition or_value (field value : option string) : option string :=
  if is_none field then value else field.

(** The loop body of [Inventory]. *)
Definition list_child (now_epoch_ms : N) (self : AgentSubagentRoster)
    (listing : AgentSubagentListing) : AgentSubagentRoster :=
  match find_mut (fun child => sa_key child == asl_key listing)
          (fun child =>
             child <| sa_agent_type := or_value (sa_agent_type child) (asl_agent_type listing) |>
                   <| sa_description := or_value (sa_description child) (asl_description listing) |>)
          (ro_children self) with
  | Some (_, children) => self <| ro_children := children |>
  | None => roster_insert (asl_key listing) (asl_agent_type listing) (asl_description listing)
              now_epoch_ms self
  end.

(** The [match] of [apply]. *)
Definition roster_update (update : AgentSubagentUpdate) (now_epoch_ms : N)
    (self : AgentSubagentRoster) : AgentSubagentRoster :=
  match update with
  | SU_Launching agent_type description =>
      let launches := ro_pending_launches self in
      self <| ro_pending_launches :=
        (if (length launches =? max_pending_launches)%nat then tail launches else launches)
        ++ [(agent_type, description)] |>
  | SU_Started key agent_type =>
      if negb (has_child key self) then
        let '(description, self) := take_launch_description agent_type self in
        roster_insert key agent_type description now_epoch_ms self
      else self
  | SU_Active key agent_type activity =>
      upsert_child key now_epoch_ms (fun child =>
        child <| sa_agent_type := or_value (sa_agent_type child) agent_type |>
              <| sa_activity := if is_some activity then activity else sa_activity child |>) self
  | SU_Described key description =>
      upsert_child key now_epoch_ms (fun child =>
        child <| sa_description := Some description |>) self
  | SU_Stopped key =>
      self <| ro_children := retain (fun child => sa_key child != key) (ro_children self) |>
  | SU_Inventory listings =>
      let self :=
        self <| ro_pending_launches := [] |>
             <| ro_children :=
                  retain (fun child => any (fun listing => asl_key listing == sa_key child) listings)
                    (ro_children self) |> in
      fold_left (list_child now_epoch_ms) listings self
  end.

(** [AgentSubagentRoster::apply] *)
Definition roster_apply (update : AgentSubagentUpdate) (now_epoch_ms : N)
    (self : AgentSubagentRoster) : bool * AgentSubagentRoster :=
  let after := roster_update update now_epoch_ms self in
  (ro_children after != ro_children self, after).

(** ** Reading a payload *)

Section payloads.
Context {Value : Type} `{JsonValue Value} `{Sha256}.

(** The value of the first of [keys] that is present. *)
Fixpoint get_any (value : Value) (keys : list string) : option Value :=
  match keys with
  | [] => None
  | key :: keys =>
      match json_get value key with
      | Some found => Some found
      | None => get_any value keys
      end
  end.

(** [text] *)
Definition text (value : Value) (keys : list string) : option string :=
  match get_any value keys ≫= json_as_str with
  | Some value => if negb (str_is_empty (trim value)) then Some value else None
  | None => None
  end.

(** [str::is_char_boundary], on the bytes: not inside an encoded character. *)
Definition is_char_boundary (bs : list N) (index : nat) : bool :=
  (index =? 0)%nat
  || match bs !! index with
     | Some byte => negb (in_range 128 191 byte)
     | None => (index =? length bs)%nat
     end.

(** [while !value.is_char_boundary(end) { end -= 1 }] *)
Fixpoint char_boundary_before (bs : list N) (index : nat) : nat :=
  if is_char_boundary bs index then index
  else match index with O => O | S index => char_boundary_before bs index end.

(** [bounded] *)
Definition bounded (value : Value) (keys : list string) (max_bytes : N) : option string :=
  match text value keys with
  | None => None
  | Some value =>
      let bs := bytes (trim value) in
      let index := Nat.min (length bs) (N.to_nat max_bytes) in
      Some (string_of_bytes (take (char_boundary_before bs index) bs))
  end.

(** [format!("{byte:02x}")] *)
Definition hex_digit (n : N) : N := if (n <? 10)%N then (48 + n)%N else (87 + n)%N.
Definition hex_byte (byte : N) : list N := [hex_digit (byte / 16); hex_digit (byte mod 16)]%N.

(** [subagent_key] *)
Definition subagent_key (provider_id : string) : string :=
  string_of_bytes (concat (hex_byte <$> take 8 (sha256_digest (bytes provider_id)))).

Definition bounded_id (value : Value) (keys : list string) : option string :=
  match text value keys with
  | Some id => if (len id <=? max_subagent_id_bytes)%N then Some id else None
  | None => None
  end.

(** [is_agent_tool] *)
Definition is_agent_tool (payload : Value) : bool :=
  let tool := text payload ["tool_name"; "toolName"] in
  (tool == Some "Agent") || (tool == Some "Task").

(** [tool_activity] *)
Definition tool_activity (payload : Value) : option string :=
  match get_any payload ["tool_input"; "toolInput"]
          ≫= fun input => bounded input ["description"] max_subagent_text_bytes with
  | Some activity => Some activity
  | None => bounded payload ["tool_name"; "toolName"] max_subagent_type_bytes
  end.

Definition option_list {A} (o : option A) : list A :=
  match o with Some a => [a] | None => [] end.

(** One task of the lead [Stop]'s inventory. *)
Definition subagent_listing (task : Value) : list AgentSubagentListing :=
  if (text task ["type"] == Some "subagent") && (text task ["status"] == Some "running")
  then option_list
         ((fun id => MkAgentSubagentListing (subagent_key id)
                       (bounded task ["agent_type"; "agentType"] max_subagent_type_bytes)
                       (bounded task ["description"] max_subagent_text_bytes))
          <$> bounded_id task ["id"])
  else [].

Definition subagent_inventory (payload : Value) : list AgentSubagentListing :=
  match json_get payload "background_tasks" ≫= json_as_array with
  | Some tasks => take max_agent_subagents (concat (subagent_listing <$> tasks))
  | None => []
  end.

(** An [Agent] tool call of the lead. *)
Definition agent_tool_update (event : string) (payload : Value) : option AgentSubagentUpdate :=
  let input := get_any payload ["tool_input"; "toolInput"] in
  if event == "PreToolUse" then
    Some (SU_Launching
            (input ≫= fun input => bounded input ["subagent_type"] max_subagent_type_bytes)
            (input ≫= fun input => bounded input ["description"] max_subagent_text_bytes))
  else
    match get_any payload ["tool_response"; "toolResponse"] with
    | None => None
    | Some response =>
        if text response ["status"] != Some "async_launched" then None
        else
          match bounded_id response ["agentId"; "agent_id"] with
          | None => None
          | Some id =>
              SU_Described (subagent_key id)
                <$> match bounded response ["description"] max_subagent_text_bytes with
                    | Some description => Some description
                    | None =>
                        input ≫= fun input => bounded input ["description"] max_subagent_text_bytes
                    end
          end
    end.

(** [normalize_claude_subagent_update] *)
Definition normalize_claude_subagent_update (payload : Value) : option AgentSubagentUpdate :=
  match text payload ["hook_event_name"; "hookEventName"] with
  | None => None
  | Some event =>
      let child_key := subagent_key <$> bounded_id payload ["agent_id"; "agentId"] in
      let agent_type := bounded payload ["agent_type"; "agentType"] max_subagent_type_bytes in
      match child_key with
      | Some key =>
          Some (if event == "SubagentStart" then SU_Started key agent_type
                else if (event == "SubagentStop") || (event == "StopFailure") then SU_Stopped key
                else SU_Active key agent_type
                       (if event == "PreToolUse" then tool_activity payload else None))
      | None =>
          if event == "Stop" then Some (SU_Inventory (subagent_inventory payload))
          else if ((event == "PreToolUse") || (event == "PostToolUse")) && is_agent_tool payload
          then agent_tool_update event payload
          else None
      end
  end.

(** ** Pending wakes *)

Definition max_pending_wakes : nat := 1024.
Definition max_pending_wakes_named : nat := 3.
Definition max_pending_wake_label_chars : nat := 120.

(** [split_whitespace], on the characters: maximal runs that are not blank. *)
Fixpoint split_blank (chunks : list (list N)) : list (list (list N)) :=
  match chunks with
  | [] => []
  | chunk :: rest =>
      if blank_chunk chunk then split_blank rest
      else match split_blank rest with
           | word :: words =>
               if is_some_and (head rest) (fun next => negb (blank_chunk next))
               then (chunk :: word) :: words
               else [chunk] :: word :: words
           | [] => [[chunk]]
           end
  end.

(** [join(" ")] *)
Fixpoint join_words (words : list (list (list N))) : list (list N) :=
  match words with
  | [] => []
  | [word] => word
  | word :: words => word ++ [[32%N]] ++ join_words words
  end.

(** [trim_end] *)
Definition trim_end_chunks (chunks : list (list N)) : list (list N) :=
  rev (skip_while blank_chunk (rev chunks)).

(** The bytes of ['\u{2026}'] *)
Definition ellipsis : list N := [226; 128; 166]%N.

(** [pending_wake_label] *)
Definition pending_wake_label (text : string) : option string :=
  let joined := join_words (split_blank (utf8_chunks (bytes text))) in
  if joined == [] then None
  else if (length joined <=? max_pending_wake_label_chars)%nat
  then Some (string_of_bytes (concat joined))
  else
    let clipped := trim_end_chunks (take (max_pending_wake_label_chars - 1) joined) in
    Some (string_of_bytes (concat (clipped ++ [ellipsis]))).

(** [AgentPendingWakeKind::as_str], [parse], [from_claude_task_type] *)
Definition wake_kind_as_str (self : AgentPendingWakeKind) : string :=
  match self with
  | WK_Shell => "shell" | WK_Subagent => "subagent" | WK_Monitor => "monitor"
  | WK_Workflow => "workflow" | WK_Task => "task" | WK_Scheduled => "scheduled"
  end.
Definition wake_kind_parse (value : string) : option AgentPendingWakeKind :=
  if value == "shell" then Some WK_Shell
  else if value == "subagent" then Some WK_Subagent
  else if value == "monitor" then Some WK_Monitor
  else if value == "workflow" then Some WK_Workflow
  else if value == "task" then Some WK_Task
  else if value == "scheduled" then Some WK_Scheduled
  else None.
Definition wake_kind_from_claude_task_type (value : option string) : AgentPendingWakeKind :=
  match value with
  | Some value =>
      if value == "shell" then WK_Shell
      else if value == "subagent" then WK_Subagent
      else if value == "monitor" then WK_Monitor
      else if value == "workflow" then WK_Workflow
      else WK_Task
  | None => WK_Task
  end.

(** [field_text] *)
Definition field_text (value : Value) (key : string) : option string :=
  json_get value key ≫= json_as_str.

(** [is_artifact_comment_watch] *)
Definition is_artifact_comment_watch (task : Value) : bool :=
  (field_text task "type" == Some "monitor")
  && is_some_and (field_text task "description") (starts_with "live updates for artifact ").

Definition running_tasks (payload : Value) : list Value :=
  match json_get payload "background_tasks" ≫= json_as_array with
  | Some tasks =>
      take max_pending_wakes
        (retain (fun task => (field_text task "status" == Some "running")
                             && negb (is_artifact_comment_watch task)) tasks)
  | None => []
  end.

Definition named_task (task : Value) : option AgentPendingWake :=
  MkAgentPendingWake (wake_kind_from_claude_task_type (field_text task "type"))
    <$> match field_text task "description" ≫= pending_wake_label with
        | Some label => Some label
        | None => field_text task "command" ≫= pending_wake_label
        end.
Definition named_cron (cron : Value) : option AgentPendingWake :=
  MkAgentPendingWake WK_Scheduled <$> (field_text cron "prompt" ≫= pending_wake_label).

(** [normalize_claude_pending_wakes] *)
Definition normalize_claude_pending_wakes (payload : Value) : option AgentPendingWakes :=
  match get_any payload ["hook_event_name"; "hookEventName"] ≫= json_as_str with
  | None => None
  | Some event =>
      if event != "Stop" then None
      else
        let running := running_tasks payload in
        let crons := default [] (json_get payload "session_crons" ≫= json_as_array) in
        Some (MkAgentPendingWakes (N.of_nat (length running))
                (N.of_nat (Nat.min (length crons) max_pending_wakes))
                (take max_pending_wakes_named
                   (concat ((fun task => option_list (named_task task)) <$> running)
                    ++ concat ((fun cron => option_list (named_cron cron)) <$> crons))))
  end.
End payloads.

(** * The subagent roster stays within its bounds

    What a hook payload can say ([update_ok]), the invariant of the roster
    ([roster_ok]) that every update keeps, the exactness of an inventory, and
    the bounds of the pending wakes. *)

(** ** Bounded texts *)

Definition within (bound : N) (value : option string) : Prop :=
  forall text, value = Some text -> (len text <= bound)%N.

Lemma within_None bound : within bound None.
Proof. by intros ? [=]. Qed.
Lemma within_Some bound text : (len text <= bound)%N -> within bound (Some text).
Proof. by intros ? ? [= <-]. Qed.
Lemma within_or bound a b : within bound a -> within bound b -> within bound (or_value a b).
Proof. by destruct a. Qed.
Lemma within_option_bind {A} bound (o : option A) f :
  (forall a, within bound (f a)) -> within bound (o ≫= f).
Proof. destruct o; simpl; [auto|intros; apply within_None]. Qed.
#[export] Hint Resolve within_None within_Some within_or : core.

Lemma string_of_bytes_length bs : String.length (string_of_bytes bs) = length bs.
Proof.
  induction bs as [|b bs IH]; [done|].
  change (S (String.length (string_of_bytes bs)) = S (length bs)). by rewrite IH.
Qed.

Lemma char_boundary_before_le bs index : (char_boundary_before bs index <= index)%nat.
Proof.
  induction index as [|index IH]; simpl; [done|].
  destruct (is_char_boundary bs (S index)); lia.
Qed.

(** ** Updates *)

(** A key is eight bytes in hexadecimal. *)
Definition key_ok (key : string) : Prop := len key = 16%N.

Definition listing_ok (listing : AgentSubagentListing) : Prop :=
  key_ok (asl_key listing) /\ within max_subagent_type_bytes (asl_agent_type listing) /\
  within max_subagent_text_bytes (asl_description listing).

Definition update_ok (update : AgentSubagentUpdate) : Prop :=
  match update with
  | SU_Launching agent_type description =>
      within max_subagent_type_bytes agent_type /\ within max_subagent_text_bytes description
  | SU_Started key agent_type => key_ok key /\ within max_subagent_type_bytes agent_type
  | SU_Active key agent_type activity =>
      key_ok key /\ within max_subagent_type_bytes agent_type /\
      within max_subagent_text_bytes activity
  | SU_Described key description => key_ok key /\ (len description <= max_subagent_text_bytes)%N
  | SU_Stopped key => key_ok key
  | SU_Inventory listings =>
      (length listings <= max_agent_subagents)%nat /\ Forall listing_ok listings
  end.

Section payloads.
Context {Value : Type} `{JsonValue Value} `{Sha256}.

Lemma bounded_within (value : Value) keys bound : within bound (bounded value keys bound).
Proof.
  unfold bounded. intros result. destruct (text value keys) as [found|]; [|done].
  intros [= <-]. unfold len. rewrite string_of_bytes_length, length_take.
  set (bs := bytes (trim found)).
  pose proof (char_boundary_before_le bs (Nat.min (length bs) (N.to_nat bound))). lia.
Qed.
#[local] Hint Resolve bounded_within : core.

Lemma subagent_key_ok id : key_ok (subagent_key id).
Proof.
  unfold key_ok, subagent_key, len. rewrite string_of_bytes_length.
  pose proof (sha256_length (bytes id)) as Hlen.
  destruct (sha256_digest (bytes id)) as [|b0 [|b1 [|b2 [|b3 [|b4 [|b5 [|b6 [|b7 bs]]]]]]]];
    try discriminate Hlen. reflexivity.
Qed.
#[local] Hint Resolve subagent_key_ok : core.

Lemma tool_activity_within (payload : Value) :
  within max_subagent_text_bytes (tool_activity payload).
Proof.
  unfold tool_activity. destruct (get_any payload _ ≫= _) as [activity|] eqn:E.
  - pose proof (within_option_bind max_subagent_text_bytes (get_any payload ["tool_input"; "toolInput"])
                  (fun input => bounded input ["description"] max_subagent_text_bytes)) as Hw.
    rewrite E in Hw. auto.
  - intros result Hr. apply bounded_within in Hr. unfold max_subagent_type_bytes in Hr.
    unfold max_subagent_text_bytes. lia.
Qed.
#[local] Hint Resolve tool_activity_within : core.

Lemma subagent_inventory_ok (payload : Value) : update_ok (SU_Inventory (subagent_inventory payload)).
Proof.
  simpl. unfold subagent_inventory.
  destruct (json_get payload "background_tasks" ≫= json_as_array) as [tasks|]; [|split; [simpl; lia|done]].
  rewrite length_take. split; [lia|]. apply Forall_take, list.Forall_forall.
  intros listing Hl. apply list_elem_of_In, in_concat in Hl as (group & Hg & Hl).
  apply list_elem_of_In, list_elem_of_fmap in Hg as (task & -> & _).
  unfold subagent_listing in Hl. destruct (_ && _); [|done].
  destruct (bounded_id task ["id"]); [|done]. destruct Hl as [<-|[]]. repeat split; simpl; auto.
Qed.

Lemma normalized_update_ok (payload : Value) update :
  normalize_claude_subagent_update payload = Some update -> update_ok update.
Proof.
  unfold normalize_claude_subagent_update.
  destruct (text payload _) as [event|]; [|done].
  destruct (bounded_id payload _) as [id|]; simpl.
  { intros [= <-]. repeat case_bool_decide; simpl; auto. }
  case_bool_decide; [intros [= <-]; apply subagent_inventory_ok|].
  destruct (_ && is_agent_tool payload); [|done]. unfold agent_tool_update.
  generalize (get_any payload ["tool_input"; "toolInput"]) as input. intros input.
  case_bool_decide; [intros [= <-]; simpl; auto using within_option_bind|].
  destruct (get_any payload ["tool_response"; "toolResponse"]) as [response|]; [|done]. case_bool_decide; simpl; [|done].
  destruct (bounded_id response _) as [id|]; [|done]. simpl.
  destruct (bounded response _ _) as [description|] eqn:Hd.
  - intros [= <-]. split; [done|]. by eapply bounded_within.
  - destruct input as [input|]; simpl; [|done].
    destruct (bounded input _ _) as [description|] eqn:Hi; [|done].
    intros [= <-]. split; [done|]. by eapply bounded_within.
Qed.
End payloads.

(** ** The roster *)

Definition child_ok (child : AgentSubagent) : Prop :=
  key_ok (sa_key child) /\ within max_subagent_type_bytes (sa_agent_type child) /\
  within max_subagent_text_bytes (sa_description child) /\
  within max_subagent_text_bytes (sa_activity child).

Definition launch_ok (launch : option string * option string) : Prop :=
  within max_subagent_type_bytes launch.1 /\ within max_subagent_text_bytes launch.2.

Definition child_keys (self : AgentSubagentRoster) : list string := sa_key <$> ro_children self.

Record roster_ok (self : AgentSubagentRoster) : Prop := MkRosterOk {
  rk_children : (length (ro_children self) <= max_agent_subagents)%nat;
  rk_keys : NoDup (child_keys self);
  rk_bounds : Forall child_ok (ro_children self);
  rk_launches : (length (ro_pending_launches self) <= max_pending_launches)%nat;
  rk_launch_bounds : Forall launch_ok (ro_pending_launches self)
}.

Lemma roster_default_ok : roster_ok roster_default.
Proof. split; simpl; try lia; constructor. Qed.

Lemma has_child_spec key self : has_child key self = true <-> key ∈ child_keys self.
Proof.
  unfold has_child, child_keys. rewrite any_true, list_elem_of_fmap. split.
  - intros (child & Hin & Hk%bool_decide_eq_true). eauto.
  - intros (child & -> & Hin). exists child. split; [done|]. by apply bool_decide_eq_true.
Qed.

Lemma has_child_false key self : has_child key self = false <-> key ∉ child_keys self.
Proof. rewrite <- has_child_spec. by destruct (has_child key self). Qed.

Lemma take_launch_description_ok agent_type self description after :
  roster_ok self -> take_launch_description agent_type self = (description, after) ->
  roster_ok after /\ within max_subagent_text_bytes description /\
  ro_children after = ro_children self.
Proof.
  intros [Hc Hk Hb Hl Hlb]. unfold take_launch_description.
  set (index := match position _ _ with Some (i, _) => Some i | None => _ end).
  destruct index as [index|]; [|intros [= <- <-]; auto using MkRosterOk].
  destruct (ro_pending_launches self !! index) as [launch|] eqn:Hi;
    [|intros [= <- <-]; auto using MkRosterOk].
  intros [= <- <-]. pose proof Hlb as Hlaunch. rewrite list.Forall_forall in Hlaunch.
  split; [|split; [apply Hlaunch; by eapply list_elem_of_lookup_2|done]].
  split; simpl; try done.
  - rewrite length_delete by eauto. lia.
  - apply list.Forall_forall. intros x Hx. apply Hlaunch.
    apply list_elem_of_lookup in Hx as [j Hj]. rewrite list_lookup_delete in Hj.
    case_decide; eapply list_elem_of_lookup_2; eauto.
Qed.

Lemma roster_insert_ok key agent_type description now self :
  roster_ok self -> key ∉ child_keys self -> key_ok key ->
  within max_subagent_type_bytes agent_type -> within max_subagent_text_bytes description ->
  roster_ok (roster_insert key agent_type description now self).
Proof.
  intros [Hc Hk Hb Hl Hlb] Hnew Hkey Ht Hd. unfold roster_insert.
  destruct (_ <? _)%nat eqn:Hlen; [|done]. apply Nat.ltb_lt in Hlen.
  split; simpl; try done.
  - rewrite length_app. simpl. lia.
  - unfold child_keys in *. simpl. rewrite fmap_app. apply list.NoDup_app. split_and!; [done| |].
    + intros x Hx Hin%list_elem_of_singleton. by subst.
    + apply NoDup_singleton.
  - apply Forall_app. split; [done|]. repeat constructor; simpl; auto.
Qed.

Lemma find_mut_child_keys key f children child children' :
  find_mut (fun c => sa_key c == key) f children = Some (child, children') ->
  (forall c, sa_key (f c) = sa_key c) ->
  sa_key <$> children' = sa_key <$> children.
Proof.
  intros Hf Hsame. revert child children' Hf.
  induction children as [|c children IH]; intros child children'; simpl; [done|].
  case_bool_decide; [intros [= <- <-]; simpl; by rewrite Hsame|].
  destruct (find_mut _ _ children) as [[y rest]|]; [|done].
  intros [= <- <-]. simpl. f_equal. eauto.
Qed.

Lemma find_mut_Forall {A} (P : A -> Prop) p f (l : list A) y l' :
  find_mut p f l = Some (y, l') -> Forall P l -> (forall x, P x -> P (f x)) -> Forall P l'.
Proof.
  intros Hf HP Hstep. revert y l' Hf. induction HP as [|x l Hx Hl IH]; intros y l'; simpl; [done|].
  destruct (p x); [intros [= <- <-]; constructor; auto|].
  destruct (find_mut p f l) as [[z rest]|]; [|done]. intros [= <- <-]. constructor; eauto.
Qed.

(** Assigning to one child. *)
Lemma assign_child_ok key f self child children :
  roster_ok self -> find_mut (fun c => sa_key c == key) f (ro_children self) = Some (child, children) ->
  (forall c, sa_key (f c) = sa_key c) -> (forall c, child_ok c -> child_ok (f c)) ->
  roster_ok (self <| ro_children := children |>).
Proof.
  intros [Hc Hk Hb Hl Hlb] Hf Hsame Hok.
  pose proof (find_mut_child_keys _ _ _ _ _ Hf Hsame) as Hkeys.
  split; simpl; try done.
  - apply (f_equal length) in Hkeys. rewrite !length_fmap in Hkeys. lia.
  - unfold child_keys. simpl. by rewrite Hkeys.
  - by eapply find_mut_Forall.
Qed.

Lemma upsert_child_ok key now f self :
  roster_ok self -> key_ok key ->
  (forall c, sa_key (f c) = sa_key c) -> (forall c, child_ok c -> child_ok (f c)) ->
  roster_ok (upsert_child key now f self).
Proof.
  intros Hok Hkey Hsame Hf. unfold upsert_child.
  set (self' := if negb (has_child key self) then _ else self).
  assert (roster_ok self') as Hok'.
  { subst self'. destruct (has_child key self) eqn:Hh; simpl; [done|].
    apply has_child_false in Hh.
    destruct (take_launch_description None self) as [description after] eqn:Ht.
    destruct (take_launch_description_ok _ _ _ _ Hok Ht) as (Ha & Hd & Hsub).
    apply roster_insert_ok; auto. unfold child_keys. by rewrite Hsub. }
  destruct (find_mut _ f (ro_children self')) as [[child children]|] eqn:Hm; [|done].
  by eapply assign_child_ok.
Qed.

Lemma retain_children_ok p self :
  roster_ok self -> roster_ok (self <| ro_children := retain p (ro_children self) |>).
Proof.
  intros [Hc Hk Hb Hl Hlb]. pose proof (retain_sublist p (ro_children self)) as Hsub.
  split; simpl; try done.
  - apply sublist_length in Hsub. lia.
  - unfold child_keys in *. simpl. eapply sublist_NoDup; [exact Hk|]. by apply fmap_sublist.
  - rewrite list.Forall_forall in *. intros x [Hx _]%elem_of_retain. auto.
Qed.

Lemma list_child_ok now self listing :
  roster_ok self -> listing_ok listing -> roster_ok (list_child now self listing).
Proof.
  intros Hok (Hkey & Ht & Hd). unfold list_child.
  destruct (find_mut _ _ (ro_children self)) as [[child children]|] eqn:Hm.
  - eapply assign_child_ok; [done|exact Hm|done|].
    intros c (? & ? & ? & ?). repeat split; simpl; auto.
  - apply roster_insert_ok; auto. apply has_child_false. unfold has_child.
    apply any_false. intros c Hc. clear -Hm Hc.
    induction (ro_children self) as [|d l IH]; [by apply not_elem_of_nil in Hc|]. simpl in Hm.
    destruct (bool_decide (sa_key d = asl_key listing)) eqn:E; [done|].
    destruct (find_mut _ _ l) as [[? ?]|]; [done|].
    apply elem_of_cons in Hc as [->|Hc]; auto.
Qed.

Lemma roster_update_ok update now self :
  roster_ok self -> update_ok update -> roster_ok (roster_update update now self).
Proof.
  intros Hok. destruct update as [t d|key t|key t a|key d|key|listings]; simpl.
  - intros [Ht Hd]. destruct Hok as [Hc Hk Hb Hl Hlb]. split; simpl; try done.
    + rewrite length_app. simpl. destruct (_ =? _)%nat eqn:E; [|apply Nat.eqb_neq in E; lia].
      destruct (ro_pending_launches self); simpl in *; lia.
    + apply Forall_app. split; [|by repeat constructor].
      destruct (_ =? _)%nat; [|done]. by destruct Hlb.
  - intros [Hkey Ht]. destruct (has_child key self) eqn:Hh; simpl; [done|].
    destruct (take_launch_description t self) as [description after] eqn:He.
    destruct (take_launch_description_ok _ _ _ _ Hok He) as (Ha & Hd & Hsub).
    apply roster_insert_ok; auto. unfold child_keys. rewrite Hsub. by apply has_child_false.
  - intros (Hkey & Ht & Ha). apply upsert_child_ok; auto.
    intros c (? & ? & ? & ?). repeat split; simpl; auto. by destruct a.
  - intros (Hkey & Hd). apply upsert_child_ok; auto.
    intros c (? & ? & ? & ?). repeat split; simpl; auto.
  - intros _. by apply retain_children_ok.
  - intros [_ Hls]. set (self' := _ <| ro_children := _ |>).
    assert (roster_ok self') as Hok'.
    { destruct (retain_children_ok
        (fun child => any (fun listing => asl_key listing == sa_key child) listings) self Hok).
      split; simpl in *; try done; lia. }
    clearbody self'. clear Hok. revert self' Hok'.
    induction Hls as [|listing listings Hl _ IH]; intros self' Hok'; simpl; [done|].
    auto using list_child_ok.
Qed.

(** ** An inventory is exact *)

Lemma list_child_keys now self listing :
  child_keys (list_child now self listing) = child_keys self /\ asl_key listing ∈ child_keys self \/
  asl_key listing ∉ child_keys self /\
  (child_keys (list_child now self listing) = child_keys self ++ [asl_key listing] \/
   (max_agent_subagents <= length (child_keys self))%nat).
Proof.
  unfold list_child. destruct (find_mut _ _ (ro_children self)) as [[child children]|] eqn:Hm.
  - left. split; [by eapply find_mut_child_keys|].
    revert child children Hm. unfold child_keys.
    induction (ro_children self) as [|c l IH]; intros child children; simpl; [done|].
    case_bool_decide as E; [intros _; rewrite E; left|].
    destruct (find_mut _ _ l) as [[y rest]|]; [|done]. intros _. right. by eapply IH.
  - right. split.
    { unfold child_keys. clear -Hm. induction (ro_children self) as [|c l IH]; [by apply not_elem_of_nil|].
      simpl in *. case_bool_decide as E; [done|].
      destruct (find_mut _ _ l) as [[y rest]|]; [done|].
      apply not_elem_of_cons. split; [congruence|auto]. }
    unfold roster_insert, child_keys. rewrite length_fmap.
    destruct (_ <? _)%nat eqn:Hl; [left; simpl; by rewrite fmap_app|right].
    by apply Nat.ltb_ge in Hl.
Qed.

(** Listing the rest: nothing else appears, and there is room for each. *)
Lemma list_children_exact now listings names self :
  NoDup (child_keys self) ->
  (forall key, key ∈ child_keys self -> key ∈ names) ->
  (forall listing, listing ∈ listings -> asl_key listing ∈ names) ->
  (length names <= max_agent_subagents)%nat ->
  let after := fold_left (list_child now) listings self in
  (forall key, key ∈ child_keys after -> key ∈ names) /\
  (forall key, key ∈ child_keys self -> key ∈ child_keys after) /\
  (forall listing, listing ∈ listings -> asl_key listing ∈ child_keys after).
Proof.
  intros Hnd Hin Hls Hlen. revert self Hnd Hin.
  induction listings as [|listing listings IH]; intros self Hnd Hin; simpl.
  { split_and!; [done|done|]. by intros ? ?%not_elem_of_nil. }
  assert (asl_key listing ∈ names) as Hl by (apply Hls; left).
  assert (forall l, l ∈ listings -> asl_key l ∈ names) as Hrest by (intros; apply Hls; by right).
  destruct (list_child_keys now self listing) as [[Hk Hold]|[Hnew [Hk|Hfull]]].
  - destruct (IH Hrest (list_child now self listing)) as (H1 & H2 & H3); rewrite ?Hk; auto.
    rewrite Hk in H2. split_and!; auto.
    intros l [->|Hl']%elem_of_cons; auto.
  - destruct (IH Hrest (list_child now self listing)) as (H1 & H2 & H3); rewrite ?Hk.
    + apply list.NoDup_app. split_and!; [done| |apply NoDup_singleton].
      intros x Hx Hx'%list_elem_of_singleton. by subst.
    + intros key [Hx|Hx%list_elem_of_singleton]%elem_of_app; [auto|by subst].
    + rewrite Hk in H2. split_and!; [done| |].
      * intros key Hx. apply H2, elem_of_app. by left.
      * intros l [->|Hl']%elem_of_cons; [|auto]. apply H2, elem_of_app. right. by left.
  - exfalso.
    assert (NoDup (asl_key listing :: child_keys self)) as Hnd' by by constructor.
    assert (asl_key listing :: child_keys self ⊆+ names) as Hsub.
    { apply NoDup_submseteq; [done|]. intros x [->|Hx]%elem_of_cons; auto. }
    apply submseteq_length in Hsub. simpl in Hsub. lia.
Qed.

Lemma inventory_exact now listings self :
  roster_ok self -> (length listings <= max_agent_subagents)%nat ->
  forall key, key ∈ child_keys (roster_update (SU_Inventory listings) now self) <->
              key ∈ (asl_key <$> listings).
Proof.
  intros Hok Hlen key. cbn [roster_update].
  set (self' := _ <| ro_children := _ |>).
  assert (forall k, k ∈ child_keys self' -> k ∈ (asl_key <$> listings)) as Hin.
  { intros k (child & -> & [_ Hc]%elem_of_retain)%list_elem_of_fmap.
    apply any_true in Hc as (listing & Hl & He%bool_decide_eq_true). rewrite <- He.
    by apply list_elem_of_fmap_2. }
  assert (NoDup (child_keys self')) as Hnd.
  { exact (rk_keys _ (retain_children_ok _ self Hok)). }
  destruct (list_children_exact now listings (asl_key <$> listings) self' Hnd Hin) as (H1 & _ & H3).
  - intros. by apply list_elem_of_fmap_2.
  - by rewrite length_fmap.
  - split; [apply H1|]. intros (listing & -> & Hl)%list_elem_of_fmap. by apply H3.
Qed.

(** ** Valid UTF-8, and the labels of pending wakes *)

(** The width that the first byte of an encoded character announces. *)
Definition announced_width (byte : N) : nat :=
  if (byte <? 192)%N then 1 else if (byte <? 224)%N then 2 else if (byte <? 240)%N then 3 else 4.
Definition complete_chunk (chunk : list N) : bool :=
  match chunk with [] => false | byte :: _ => (length chunk =? announced_width byte)%nat end.

(** A Rust [str]: no character is cut short. *)
Definition utf8_complete (s : string) : bool := all complete_chunk (utf8_chunks (bytes s)).

(** [serde_json] strings are Rust strings. *)
Class JsonStrings (Value : Type) `{JsonValue Value} :=
  json_str_complete : forall (value : Value) s, json_as_str value = Some s -> utf8_complete s = true.

Lemma complete_chunks_decode chunks :
  Forall (fun c => complete_chunk c = true) chunks -> utf8_chunks (concat chunks) = chunks.
Proof.
  induction 1 as [|chunk chunks Hc _ IH]; [done|]. cbn [concat].
  destruct chunk as [|b rest]; [done|]. apply Nat.eqb_eq in Hc.
  cbn [app]. rewrite utf8_chunks_step.
  assert (chunk_width (b :: rest ++ concat chunks) = length (b :: rest)) as Hw.
  { unfold chunk_width. rewrite Hc. fold (announced_width b).
    replace (announced_width b <=? _)%nat with true; [done|]. symmetry. apply Nat.leb_le.
    rewrite <- Hc. simpl. rewrite length_app. lia. }
  rewrite Hw. change (b :: rest ++ concat chunks) with ((b :: rest) ++ concat chunks).
  by rewrite take_app_length, drop_app_length, IH.
Qed.

Lemma complete_chars_count chunks :
  Forall (fun c => complete_chunk c = true) chunks ->
  Forall (fun c => Forall (fun b => (b < 256)%N) c) chunks ->
  chars_count (string_of_bytes (concat chunks)) = N.of_nat (length chunks).
Proof.
  intros Hc Hb. unfold chars_count, chars. rewrite length_fmap, bytes_of_bytes.
  - by rewrite complete_chunks_decode.
  - by apply Forall_concat.
Qed.

(** A character of a text, or one the label adds. *)
Definition label_chunk (chunk : list N) : Prop :=
  complete_chunk chunk = true /\ Forall (fun b => (b < 256)%N) chunk.

Lemma split_blank_chunks (P : list N -> Prop) chunks :
  Forall P chunks -> Forall (Forall P) (split_blank chunks).
Proof.
  induction 1 as [|chunk rest Hc _ IH]; simpl; [done|]. destruct (blank_chunk chunk); [done|].
  destruct (split_blank rest) as [|word words]; [by repeat constructor|].
  apply list.Forall_cons in IH as [Hw Hws]. destruct (is_some_and _ _); repeat constructor; auto.
Qed.

Lemma join_words_chunks (P : list N -> Prop) words :
  P [32%N] -> Forall (Forall P) words -> Forall P (join_words words).
Proof.
  intros Hsp. induction 1 as [|word words Hw Hws IH]; simpl; [done|].
  destruct words as [|w ws]; [done|]. apply Forall_app. split; [done|]. by constructor.
Qed.

Lemma text_chunks s : utf8_complete s = true -> Forall label_chunk (utf8_chunks (bytes s)).
Proof.
  intros Hs. apply list.Forall_forall. intros chunk Hc. split.
  - unfold utf8_complete in Hs. rewrite all_true in Hs. auto.
  - pose proof (bytes_bounded s) as Hb. rewrite <- (utf8_chunks_concat (bytes s)) in Hb.
    rewrite list.Forall_forall in *. intros b Hin. apply Hb.
    apply list_elem_of_In, in_concat. exists chunk. by rewrite <- !list_elem_of_In.
Qed.

Lemma pending_wake_label_bound s label :
  utf8_complete s = true -> pending_wake_label s = Some label ->
  (chars_count label <= N.of_nat max_pending_wake_label_chars)%N.
Proof.
  intros Hs. unfold pending_wake_label.
  set (joined := join_words _).
  assert (Forall label_chunk joined) as Hj.
  { apply join_words_chunks; [split; [done|by repeat constructor]|].
    by apply split_blank_chunks, text_chunks. }
  case_bool_decide; [done|].
  assert (forall chunks, Forall label_chunk chunks ->
            chars_count (string_of_bytes (concat chunks)) = N.of_nat (length chunks)) as Hcount.
  { intros chunks Hc. apply complete_chars_count; (eapply list.Forall_impl; [exact Hc|]);
      by intros ? []. }
  destruct (_ <=? _)%nat eqn:Hlen.
  - intros [= <-]. rewrite Hcount by done. apply Nat.leb_le in Hlen. lia.
  - intros [= <-]. clear Hlen. set (short := take _ joined).
    assert (Forall label_chunk (trim_end_chunks short)) as Ht.
    { apply list.Forall_forall. intros c Hc. unfold trim_end_chunks in Hc. rewrite elem_of_rev in Hc.
      destruct (skip_while_suffix blank_chunk (rev short)) as [k Hk].
      assert (c ∈ short) as Hin
        by (rewrite <- elem_of_rev, Hk, elem_of_app; by right).
      rewrite list.Forall_forall in Hj. apply Hj. by eapply elem_of_take in Hin as (i & ? & ?);
        eapply list_elem_of_lookup_2. }
    rewrite Hcount.
    + rewrite length_app. simpl.
      assert (length (trim_end_chunks short) <= length short)%nat as Hle.
      { unfold trim_end_chunks. rewrite length_rev.
        destruct (skip_while_suffix blank_chunk (rev short)) as [k Hk].
        apply (f_equal length) in Hk. rewrite length_app, length_rev in Hk. lia. }
      assert (length short <= 119)%nat by (unfold short, max_pending_wake_label_chars; rewrite length_take; lia).
      unfold max_pending_wake_label_chars. lia.
    + apply Forall_app. split; [done|]. repeat constructor; done.
Qed.

Definition pending_wakes_ok (wakes : AgentPendingWakes) : Prop :=
  (pw_background_tasks wakes <= 1024)%N /\ (pw_scheduled_wakes wakes <= 1024)%N /\
  (length (pw_waiting_on wakes) <= 3)%nat /\
  (N.of_nat (length (pw_waiting_on wakes)) <= pw_background_tasks wakes + pw_scheduled_wakes wakes)%N /\
  Forall (fun wake => (chars_count (apw_label wake) <= 120)%N) (pw_waiting_on wakes).

Section wakes.
Context {Value : Type} `{JsonStrings Value}.

Lemma field_label (value : Value) key label :
  field_text value key ≫= pending_wake_label = Some label -> (chars_count label <= 120)%N.
Proof.
  unfold field_text. intros (s & (v & _ & Hs)%bind_Some & Hl)%bind_Some.
  apply json_str_complete in Hs. by apply (pending_wake_label_bound s).
Qed.

Lemma named_task_bound (task : Value) wake :
  named_task task = Some wake -> (chars_count (apw_label wake) <= 120)%N.
Proof.
  unfold named_task. destruct (field_text task "description" ≫= _) as [label|] eqn:Hd.
  - intros [= <-]. by apply field_label in Hd.
  - intros (label & Hl & ->)%fmap_Some. by apply field_label in Hl.
Qed.

Lemma named_cron_bound (cron : Value) wake :
  named_cron cron = Some wake -> (chars_count (apw_label wake) <= 120)%N.
Proof. unfold named_cron. intros (label & Hl & ->)%fmap_Some. by apply field_label in Hl. Qed.

Lemma collected_length {A B} (f : A -> option B) (l : list A) :
  (length (concat ((fun a => option_list (f a)) <$> l)) <= length l)%nat.
Proof.
  induction l as [|a l IH]; [simpl; lia|]. rewrite fmap_cons. cbn [concat]. rewrite length_app.
  destruct (f a); cbn [option_list length]; lia.
Qed.

Lemma collected_Forall {A B} (P : B -> Prop) (f : A -> option B) (l : list A) :
  (forall a b, f a = Some b -> P b) -> Forall P (concat ((fun a => option_list (f a)) <$> l)).
Proof.
  intros Hf. induction l as [|a l IH]; [done|]. rewrite fmap_cons. apply Forall_app.
  split; [|done]. destruct (f a) eqn:E; simpl; [|done]. repeat constructor. eauto.
Qed.

Lemma normalized_wakes_ok (payload : Value) wakes :
  normalize_claude_pending_wakes payload = Some wakes -> pending_wakes_ok wakes.
Proof.
  unfold normalize_claude_pending_wakes.
  destruct (get_any payload _ ≫= json_as_str) as [event|]; [|done].
  case_bool_decide; simpl; [|done]. intros [= <-].
  set (crons := default [] _).
  assert (length (running_tasks payload) <= 1024)%nat as Hr.
  { unfold running_tasks. destruct (json_get payload "background_tasks" ≫= json_as_array); [|apply Nat.le_0_l]. rewrite length_take.
    unfold max_pending_wakes. lia. }
  pose proof (collected_length named_task (running_tasks payload)) as Ht.
  pose proof (collected_length named_cron crons) as Hc.
  unfold pending_wakes_ok, max_pending_wakes, max_pending_wakes_named.
  cbn [pw_background_tasks pw_scheduled_wakes pw_waiting_on].
  rewrite length_take, length_app. split_and!; try lia.
  apply Forall_take, Forall_app. split; apply collected_Forall.
  - apply named_task_bound.
  - apply named_cron_bound.
Qed.
End wakes.
