(* ===== verification/AgentPlans.v ===== *)
(** * Agent plans, from the provider to the store

    The plan part of [src/modules/agents/src/lib.rs] (what a hook payload or an
    App Server message says), the folding of an update into the durable plan
    and the handlers that persist it ([src/modules/core/src/lib.rs]), the
    store's methods ([store/src/records/agent_plan.rs]) and the clause of
    [store/src/validation.rs] about plans. *)

From S2P Require Import Prelude Text Domain DomainRules StoreState Transactions Agents Subagents.

Local Open Scope string_scope.
Local Open Scope list_scope.

Definition max_agent_plan_steps : nat := 32.
Definition max_agent_plan_step_bytes : N := 512.
Definition max_agent_plan_explanation_bytes : N := 1024.

(** ** What the provider says *)

Section payloads.
Context {Value : Type} `{JsonValue Value}.

(** [bounded_nonempty_string] *)
Definition bounded_nonempty_string (value : Value) (max_bytes : N) : option string :=
  match json_as_str value with
  | Some value =>
      if negb (trim_is_empty value) && (len value <=? max_bytes)%N then Some value else None
  | None => None
  end.

(** [map(...).collect::<Option<Vec<_>>>()] *)
Fixpoint collect_some {A B} (f : A -> option B) (l : list A) : option (list B) :=
  match l with
  | [] => Some []
  | a :: rest =>
      match f a with
      | None => None
      | Some b =>
          match collect_some f rest with
          | None => None
          | Some bs => Some (b :: bs)
          end
      end
  end.

(** One step of [normalize_plan]. *)
Definition normalize_plan_step (text_key : string) (step : Value) : option AgentPlanStep :=
  match json_get step text_key ≫= json_as_str with
  | None => None
  | Some text =>
      if trim_is_empty text || (max_agent_plan_step_bytes <? len text)%N then None
      else
        match json_get step "status" ≫= json_as_str with
        | None => None
        | Some status =>
            if status == "pending" then Some (MkAgentPlanStep text PSS_Pending)
            else if (status == "inProgress") || (status == "in_progress")
            then Some (MkAgentPlanStep text PSS_InProgress)
            else if status == "completed" then Some (MkAgentPlanStep text PSS_Completed)
            else None
        end
  end.

(** The explanation of [normalize_plan]: [Some None] when there is none. *)
Definition normalize_explanation (explanation : option Value) : option (option string) :=
  match explanation with
  | None => Some None
  | Some value =>
      if json_is_null value then Some None
      else
        match json_as_str value with
        | None => None
        | Some value =>
            if (len value <=? max_agent_plan_explanation_bytes)%N then Some (Some value) else None
        end
  end.

(** [normalize_plan] *)
Definition normalize_plan (source : AgentPlanSource) (explanation : option Value) (steps : Value)
    (text_key : string) : option AgentPlan :=
  match normalize_explanation explanation with
  | None => None
  | Some explanation =>
      match json_as_array steps with
      | None => None
      | Some steps =>
          if (max_agent_plan_steps <? length steps)%nat then None
          else MkAgentPlan source explanation <$> collect_some (normalize_plan_step text_key) steps
      end
  end.

(** [normalize_codex_plan_update] *)
Definition normalize_codex_plan_update (raw : string) : option AgentPlan :=
  match json_from_str raw with
  | None => None
  | Some message =>
      match json_get message "method" ≫= json_as_str with
      | None => None
      | Some method =>
          if method != "turn/plan/updated" then None
          else
            json_pointer message "/params/plan" ≫= fun plan =>
              normalize_plan PS_DaemonOwnedBridge (json_pointer message "/params/explanation") plan
                "step"
      end
  end.

(** The [TaskUpdate] tool of [normalize_claude_plan_update]. *)
Definition normalize_task_update (tool_input : Value) : option AgentPlanUpdate :=
  match get_any tool_input ["taskId"; "task_id"]
          ≫= fun value => bounded_nonempty_string value 128 with
  | None => None
  | Some task_id =>
      match json_get tool_input "status" ≫= json_as_str with
      | None => None
      | Some status =>
          if status == "pending" then Some (PU_SetTaskStatus task_id PSS_Pending)
          else if (status == "in_progress") || (status == "inProgress")
          then Some (PU_SetTaskStatus task_id PSS_InProgress)
          else if status == "completed" then Some (PU_SetTaskStatus task_id PSS_Completed)
          else if status == "deleted" then Some (PU_RemoveTask task_id)
          else None
      end
  end.

(** [normalize_claude_plan_update] *)
Definition normalize_claude_plan_update (payload : Value) : option AgentPlanUpdate :=
  match get_any payload ["hook_event_name"; "hookEventName"] ≫= json_as_str with
  | None => None
  | Some event =>
      if (event == "TaskCreated") || (event == "TaskCompleted") then
        match get_any payload ["task_id"; "taskId"]
                ≫= fun value => bounded_nonempty_string value 128 with
        | None => None
        | Some task_id =>
            match get_any payload ["task_subject"; "taskSubject"]
                    ≫= fun value => bounded_nonempty_string value max_agent_plan_step_bytes with
            | None => None
            | Some text =>
                Some (PU_UpsertTask task_id text
                        (if event == "TaskCompleted" then PSS_Completed else PSS_Pending))
            end
        end
      else
        match get_any payload ["tool_name"; "toolName"] ≫= json_as_str with
        | None => None
        | Some tool_name =>
            match get_any payload ["tool_input"; "toolInput"] with
            | None => None
            | Some tool_input =>
                if (event == "PreToolUse") && (tool_name == "TodoWrite") then
                  PU_Replace
                    <$> (json_get tool_input "todos" ≫= fun todos =>
                           normalize_plan PS_LaunchScopedHook None todos "content")
                else if (event != "PostToolUse") || (tool_name != "TaskUpdate") then None
                else normalize_task_update tool_input
            end
        end
  end.
End payloads.

(** ** Folding an update into the durable plan *)

(** [durable_step_status] *)
Definition durable_step_status (status : AgentPlanStepStatus) : DurableAgentPlanStepStatus :=
  match status with
  | PSS_Pending => DSS_Pending
  | PSS_InProgress => DSS_InProgress
  | PSS_Completed => DSS_Completed
  end.

(** [durable_agent_plan] *)
Definition durable_agent_plan (session_id : string) (plan : AgentPlan) (updated_at_epoch_ms : N)
  : DurableAgentPlan :=
  MkPlan session_id
    (match ap_source plan with
     | PS_LaunchScopedHook => DPS_ClaudeHook
     | PS_DaemonOwnedBridge => DPS_CodexAppServer
     end)
    (ap_explanation plan)
    ((fun step => MkPlanStep (aps_text step) (durable_step_status (aps_status step)) None)
       <$> ap_steps plan)
    updated_at_epoch_ms.

(** [agent_plan_content_equal] *)
Definition agent_plan_content_equal (left right : DurableAgentPlan) : bool :=
  (dap_session_id left == dap_session_id right) && (dap_source left == dap_source right)
  && (dap_explanation left == dap_explanation right) && (dap_steps left == dap_steps right).

(** [steps.iter().position(|candidate| candidate.provider_task_id == task_id)] *)
Definition step_position (task_id : string) (steps : list DurableAgentPlanStep)
  : option (nat * DurableAgentPlanStep) :=
  position (fun candidate => dps_provider_task_id candidate == Some task_id) steps.

(** The [match] of [apply_claude_plan_update] on an incremental update: whether
    the steps change, and the steps. *)
Definition apply_step_update (update : AgentPlanUpdate) (steps : list DurableAgentPlanStep)
  : bool * list DurableAgentPlanStep :=
  match update with
  | PU_Replace _ => (false, steps)
  | PU_UpsertTask task_id text status =>
      match step_position task_id steps with
      | Some (index, step) =>
          let status := durable_step_status status in
          ((dps_text step != text) || (dps_status step != status),
           <[index := step <| dps_text := text |> <| dps_status := status |>]> steps)
      | None =>
          if (length steps <? 32)%nat
          then (true, steps ++ [MkPlanStep text (durable_step_status status) (Some task_id)])
          else (false, steps)
      end
  | PU_SetTaskStatus task_id status =>
      match step_position task_id steps with
      | Some (index, step) =>
          let status := durable_step_status status in
          (dps_status step != status, <[index := step <| dps_status := status |>]> steps)
      | None => (false, steps)
      end
  | PU_RemoveTask task_id =>
      match step_position task_id steps with
      | Some (index, _) => (true, delete index steps)
      | None => (false, steps)
      end
  end.

(** [apply_claude_plan_update] *)
Definition apply_claude_plan_update (current : option DurableAgentPlan) (session_id : string)
    (update : AgentPlanUpdate) (observed_at_epoch_ms : N) : bool * option DurableAgentPlan :=
  match update with
  | PU_Replace plan =>
      if ap_source plan != PS_LaunchScopedHook then (false, current)
      else
        let replacement := durable_agent_plan session_id plan observed_at_epoch_ms in
        if is_some_and current (fun current => agent_plan_content_equal current replacement)
        then (false, current)
        else (true, Some replacement)
  | _ =>
      let current :=
        match update, current with
        | PU_UpsertTask _ _ _, None =>
            Some (MkPlan session_id DPS_ClaudeHook None [] observed_at_epoch_ms)
        | _, _ => current
        end in
      match current with
      | None => (false, None)
      | Some current =>
          if dap_source current != DPS_ClaudeHook then (false, Some current)
          else
            let '(changed, steps) := apply_step_update update (dap_steps current) in
            let current := current <| dap_steps := steps |> in
            (changed,
             Some (if changed
                   then current <| dap_updated_at_epoch_ms := observed_at_epoch_ms |>
                   else current))
      end
  end.

(** ** The store *)

(** [plan_matches_session] *)
Definition session_has_source (session : SessionRecord) (source : DurableAgentPlanSource) : bool :=
  match source with
  | DPS_ClaudeHook => pd_agent_id (s_process session) == Some "claude"
  | DPS_CodexAppServer => pd_agent_id (s_process session) == Some "codex"
  end.
Definition plan_matches_session (st : CurrentState) (plan : DurableAgentPlan) : bool :=
  any (fun session =>
         (s_id session == dap_session_id plan) && (s_kind session == SessionKind_Agent)
         && session_has_source session (dap_source plan)) (sessions st).

(** [replace_agent_plan] *)
Definition replace_agent_plan (plan : DurableAgentPlan) : StoreM N :=
  let! st := get_state in
  refuse_if (negb (plan_is_well_formed plan) || negb (plan_matches_session st plan))
    ConstraintViolation ;;
  match position (fun current => dap_session_id current == dap_session_id plan) (agent_plans st) with
  | Some (index, current) =>
      if current == plan then ret (revision st)
      else install_revision st (st <| agent_plans := <[index := plan]> (agent_plans st) |>)
  | None => install_revision st (st <| agent_plans := agent_plans st ++ [plan] |>)
  end.

(** [clear_agent_plan] *)
Definition clear_agent_plan (session_id : string) : StoreM N :=
  let! st := get_state in
  refuse_if (negb (any (fun session => (s_id session == session_id)
                                       && (s_kind session == SessionKind_Agent)) (sessions st)))
    NotFound ;;
  let plans := retain (fun plan => dap_session_id plan != session_id) (agent_plans st) in
  if (length plans =? length (agent_plans st))%nat then ret (revision st)
  else install_revision st (st <| agent_plans := plans |>).

(** [agent_plans_are_invalid] *)
Definition agent_plans_are_invalid (st : CurrentState) : bool :=
  any_with_rest (fun plan rest =>
    negb (plan_is_well_formed plan)
    || any (fun candidate => dap_session_id candidate == dap_session_id plan) rest
    || is_none_or (find_session st (dap_session_id plan)) (fun session =>
         (s_kind session != SessionKind_Agent)
         || negb (session_has_source session (dap_source plan)))) (agent_plans st).

(** ** The handlers *)

(** [persist_agent_plan] *)
Definition persist_agent_plan (session_id : string) (plan : option DurableAgentPlan) : StoreM unit :=
  match plan with
  | Some plan =>
      if negb (dap_steps plan == []) then (replace_agent_plan plan ;; ret tt)
      else (clear_agent_plan session_id ;; ret tt)
  | None => clear_agent_plan session_id ;; ret tt
  end.

(** The plan update of [record_provider_hook_observation]. *)
Definition record_plan_update (session_id : string) (update : AgentPlanUpdate)
    (observed_at_epoch_ms : N) : StoreM bool :=
  let! st := get_state in
  let current_plan :=
    find_first (fun current => dap_session_id current == session_id) (agent_plans st) in
  let '(changed, current_plan) :=
    apply_claude_plan_update current_plan session_id update observed_at_epoch_ms in
  if changed then (persist_agent_plan session_id current_plan ;; ret true) else ret false.

(** The errors of [record_app_server_plan]; [PE_Store] is [store_error]. *)
Inductive PlanError : Type := PE_InvalidParams | PE_CapabilityDenied | PE_Store (error : StoreError).

Definition in_store {A} (m : StoreM A) : Exec Store PlanError A := fun s =>
  match m s with (Ok a, s') => (Ok a, s') | (Err e, s') => (Err (PE_Store e), s') end.

(** [record_app_server_plan].  [reserved] is
    [resume_reservations.contains(session_id)], and [observation_epoch] the
    epoch of the Session's entry in [agent_observations]. *)
Definition record_app_server_plan (reserved : bool) (observation_epoch : option N)
    (session_id : string) (runtime_epoch : N) (plan : AgentPlan) (observed_at_epoch_ms : N)
  : Exec Store PlanError bool :=
  if ap_source plan != PS_DaemonOwnedBridge then fail PE_InvalidParams
  else
    let! st := in_store get_state in
    if negb (any (fun session =>
              (s_id session == session_id) && (s_kind session == SessionKind_Agent)
              && (pd_agent_id (s_process session) == Some "codex")
              && ((s_lifecycle_state session == "running")
                  || ((s_lifecycle_state session == "resuming") && reserved))) (sessions st))
    then fail PE_CapabilityDenied
    else if is_none_or observation_epoch (fun epoch => epoch != runtime_epoch)
    then fail PE_CapabilityDenied
    else
      let durable := durable_agent_plan session_id plan observed_at_epoch_ms in
      if dap_steps durable == [] then
        let had_plan :=
          any (fun current => dap_session_id current == session_id) (agent_plans st) in
        if had_plan then (in_store (clear_agent_plan session_id) ;; ret had_plan) else ret had_plan
      else if any (fun current => (dap_session_id current == session_id)
                                  && agent_plan_content_equal current durable) (agent_plans st)
      then ret false
      else (in_store (replace_agent_plan durable) ;; ret true).

(** * The plans a provider reports are plans the store accepts

    [plan_update_ok] is what the normalization guarantees of an update,
    [plan_ok] what a well-formed plan is; folding an update keeps the latter.
    [plans_ok] is what the loader demands of the stored plans, and the handlers
    keep it. *)

(** ** Well-formed plans *)

Definition text_ok (text : string) : Prop :=
  trim_is_empty text = false /\ (len text <= 512)%N.
Definition task_id_ok (task_id : string) : Prop :=
  trim_is_empty task_id = false /\ (len task_id <= 128)%N.
Definition session_id_ok (session_id : string) : Prop :=
  session_id <> "" /\ (len session_id <= 128)%N.

Definition step_ok (step : DurableAgentPlanStep) : Prop :=
  text_ok (dps_text step) /\
  forall task_id, dps_provider_task_id step = Some task_id -> task_id_ok task_id.
Definition task_ids (steps : list DurableAgentPlanStep) : list string :=
  omap dps_provider_task_id steps.

Record steps_ok (steps : list DurableAgentPlanStep) : Prop := MkStepsOk {
  sk_count : (length steps <= 32)%nat;
  sk_valid : forall step, step ∈ steps -> step_ok step;
  sk_distinct : NoDup (task_ids steps)
}.

Record plan_ok (plan : DurableAgentPlan) : Prop := MkPlanOk {
  pl_session : session_id_ok (dap_session_id plan);
  pl_explanation : forall text, dap_explanation plan = Some text -> (len text <= 1024)%N;
  pl_steps : steps_ok (dap_steps plan)
}.

Lemma elem_of_task_ids steps task_id :
  task_id ∈ task_ids steps <-> exists step, step ∈ steps /\ dps_provider_task_id step = Some task_id.
Proof. apply list_elem_of_omap. Qed.

Lemma distinct_task_ids steps :
  all_with_rest (fun step rest =>
    is_none_or (dps_provider_task_id step) (fun task_id =>
      negb (any (fun candidate => dps_provider_task_id candidate == Some task_id) rest))) steps = true
  <-> NoDup (task_ids steps).
Proof.
  induction steps as [|step steps IH]; simpl; [split; [intros; constructor|done]|].
  rewrite andb_true_iff, IH. destruct (dps_provider_task_id step) as [task_id|]; simpl; [|tauto].
  rewrite list.NoDup_cons, negb_true_iff, any_false, elem_of_task_ids.
  split; intros [H1 H2]; (split; [|done]).
  - intros (other & Hin & Ho). specialize (H1 other Hin). by apply bool_decide_eq_false in H1.
  - intros other Hin. apply bool_decide_eq_false. eauto.
Qed.

Lemma text_valid text bound :
  negb (trim_is_empty text) && (len text <=? bound)%N = true <->
  trim_is_empty text = false /\ (len text <= bound)%N.
Proof. by rewrite andb_true_iff, negb_true_iff, N.leb_le. Qed.

Lemma step_valid step :
  negb (trim_is_empty (dps_text step)) && (len (dps_text step) <=? 512)%N
  && is_none_or (dps_provider_task_id step)
       (fun task_id => negb (trim_is_empty task_id) && (len task_id <=? 128)%N) = true
  <-> step_ok step.
Proof.
  unfold step_ok. rewrite andb_true_iff, text_valid.
  destruct (dps_provider_task_id step) as [task_id|]; simpl.
  - rewrite text_valid. split; intros [Ht Hi]; (split; [done|]).
    + by intros ? [= <-].
    + by apply Hi.
  - split; intros [Ht Hi]; split; done.
Qed.

Lemma plan_well_formed plan : plan_is_well_formed plan = true <-> plan_ok plan.
Proof.
  unfold plan_is_well_formed. rewrite !andb_true_iff, distinct_task_ids, all_true.
  rewrite negb_true_iff, N.leb_le, Nat.leb_le.
  assert (is_none_or (dap_explanation plan) (fun value => (len value <=? 1024)%N) = true <->
          forall text, dap_explanation plan = Some text -> (len text <= 1024)%N) as ->.
  { destruct (dap_explanation plan); simpl; [rewrite N.leb_le|]; naive_solver. }
  assert (str_is_empty (dap_session_id plan) = false <-> dap_session_id plan <> "") as ->.
  { by destruct (dap_session_id plan). }
  setoid_rewrite step_valid. split.
  - intros (((((? & ?) & ?) & ?) & ?) & ?). split; [by split|done|by apply MkStepsOk].
  - intros [[? ?] ? [? ? ?]]. tauto.
Qed.

(** ** Updates *)

Definition plan_update_ok (update : AgentPlanUpdate) : Prop :=
  match update with
  | PU_Replace plan =>
      ap_source plan = PS_LaunchScopedHook /\ ap_explanation plan = None /\
      (length (ap_steps plan) <= 32)%nat /\
      forall step, step ∈ ap_steps plan -> text_ok (aps_text step)
  | PU_UpsertTask task_id text _ => task_id_ok task_id /\ text_ok text
  | PU_SetTaskStatus _ _ | PU_RemoveTask _ => True
  end.

Section payloads.
Context {Value : Type} `{JsonValue Value}.

Lemma bounded_nonempty_valid (value : Value) bound text :
  bounded_nonempty_string value bound = Some text ->
  trim_is_empty text = false /\ (len text <= bound)%N.
Proof.
  unfold bounded_nonempty_string. destruct (json_as_str value) as [s|]; [|done].
  destruct (_ && _) eqn:E; [|done]. intros [= <-]. by apply text_valid.
Qed.

Lemma collect_some_Forall {A B} (f : A -> option B) l bs :
  collect_some f l = Some bs -> length bs = length l /\ forall b, b ∈ bs -> exists a, f a = Some b.
Proof.
  revert bs. induction l as [|a l IH]; intros bs; simpl.
  { intros [= <-]. split; [done|]. by intros ? ?%not_elem_of_nil. }
  destruct (f a) as [b|] eqn:E; [|done]. destruct (collect_some f l) as [rest|]; [|done].
  intros [= <-]. destruct (IH rest eq_refl) as [Hlen Hall]. split; [simpl; by rewrite Hlen|].
  intros x [->|Hx]%elem_of_cons; eauto.
Qed.

Lemma normalize_plan_step_ok key (value : Value) step :
  normalize_plan_step key value = Some step -> text_ok (aps_text step).
Proof.
  unfold normalize_plan_step. destruct (_ ≫= json_as_str) as [text|]; [|done].
  destruct (_ || _) eqn:E; [done|]. apply orb_false_iff in E as [Ht Hl]. apply N.ltb_ge in Hl.
  destruct (json_get value "status" ≫= json_as_str) as [status|]; [|done].
  repeat (destruct (_ == _); simpl; [by intros [= <-]|]). done.
Qed.

Lemma normalize_plan_ok source steps key plan :
  normalize_plan source None (steps : Value) key = Some plan ->
  ap_source plan = source /\ ap_explanation plan = None /\
  (length (ap_steps plan) <= 32)%nat /\
  forall step, step ∈ ap_steps plan -> text_ok (aps_text step).
Proof.
  unfold normalize_plan. simpl. destruct (json_as_array steps) as [values|]; [|done].
  destruct (_ <? _)%nat eqn:Hlen; [done|]. apply Nat.ltb_ge in Hlen.
  intros (l & Hl & ->)%fmap_Some. apply collect_some_Forall in Hl as [Hsame Hall].
  split_and!; [done..|simpl; unfold max_agent_plan_steps in Hlen; lia|].
  intros step Hs. apply Hall in Hs as [value Hv]. by eapply normalize_plan_step_ok.
Qed.

Lemma normalized_plan_update_ok (payload : Value) update :
  normalize_claude_plan_update payload = Some update -> plan_update_ok update.
Proof.
  unfold normalize_claude_plan_update.
  destruct (get_any payload ["hook_event_name"; _] ≫= json_as_str) as [event|]; [|done].
  destruct ((event == "TaskCreated") || (event == "TaskCompleted")).
  - destruct (get_any payload ["task_id"; "taskId"] ≫= _) as [task_id|] eqn:Hid; [|done].
    destruct (get_any payload ["task_subject"; "taskSubject"] ≫= _) as [text|] eqn:Ht; [|done].
    intros [= <-]. apply bind_Some in Hid as (? & _ & Hid). apply bind_Some in Ht as (? & _ & Ht).
    split; by eapply bounded_nonempty_valid.
  - destruct (get_any payload ["tool_name"; _] ≫= json_as_str) as [tool|]; [|done].
    destruct (get_any payload _) as [input|]; [|done].
    destruct ((event == "PreToolUse") && _).
    + intros (plan & (todos & _ & Hp)%bind_Some & ->)%fmap_Some. by apply normalize_plan_ok in Hp.
    + destruct (_ || _); [done|]. unfold normalize_task_update.
      destruct (get_any input ["taskId"; "task_id"] ≫= _) as [task_id|]; [|done].
      destruct (json_get input "status" ≫= json_as_str) as [status|]; [|done].
      repeat (destruct (_ == _); simpl; [by intros [= <-]|]). done.
Qed.
End payloads.

(** ** Folding an update *)

Lemma task_ids_app l k : task_ids (l ++ k) = task_ids l ++ task_ids k.
Proof. apply omap_app. Qed.

Lemma task_ids_insert steps index step step' :
  steps !! index = Some step -> dps_provider_task_id step' = dps_provider_task_id step ->
  task_ids (<[index := step']> steps) = task_ids steps.
Proof.
  revert index. induction steps as [|s steps IH]; intros [|index]; simpl; [done..| |].
  - intros [= ->] ->. done.
  - intros Hi Ht. by rewrite IH.
Qed.

Lemma steps_ok_assign steps index step step' :
  steps_ok steps -> steps !! index = Some step ->
  dps_provider_task_id step' = dps_provider_task_id step -> text_ok (dps_text step') ->
  steps_ok (<[index := step']> steps).
Proof.
  intros [Hc Hv Hd] Hi Ht Hx. split.
  - by rewrite length_insert.
  - intros x [->|Hin]%elem_of_insert_list; [|auto]. split; [done|]. rewrite Ht. apply Hv.
    by eapply list_elem_of_lookup_2.
  - by rewrite (task_ids_insert _ _ step).
Qed.

Lemma steps_ok_push steps text status task_id :
  steps_ok steps -> (length steps < 32)%nat -> text_ok text -> task_id_ok task_id ->
  step_position task_id steps = None ->
  steps_ok (steps ++ [MkPlanStep text status (Some task_id)]).
Proof.
  intros [Hc Hv Hd] Hlen Ht Hi Hp. split.
  - rewrite length_app. simpl. lia.
  - intros x [Hx|Hx%list_elem_of_singleton]%elem_of_app; [auto|]. subst x.
    split; [done|]. by intros ? [= <-].
  - rewrite task_ids_app. apply list.NoDup_app. split_and!; [done| |apply NoDup_singleton].
    intros x (step & Hin & Hx)%elem_of_task_ids Heq%list_elem_of_singleton. subst x.
    unfold step_position in Hp.
    assert (find_first (fun c => dps_provider_task_id c == Some task_id) steps = None) as Hf
      by by rewrite position_find, Hp.
    rewrite find_first_None in Hf. specialize (Hf step Hin). by apply bool_decide_eq_false in Hf.
Qed.

Lemma steps_ok_delete steps index step :
  steps_ok steps -> steps !! index = Some step -> steps_ok (delete index steps).
Proof.
  intros [Hc Hv Hd] Hi. pose proof (sublist_delete steps index) as Hsub. split.
  - apply sublist_length in Hsub. lia.
  - intros x Hx. apply Hv. apply list_elem_of_lookup in Hx as [j Hj].
    rewrite list_lookup_delete in Hj. case_decide; eapply list_elem_of_lookup_2; eauto.
  - eapply sublist_NoDup; [exact Hd|]. unfold task_ids. clear -Hsub.
    induction Hsub as [|x l k _ IH|x l k _ IH]; simpl; [done| |];
      destruct (dps_provider_task_id x); by try constructor.
Qed.

Lemma apply_step_update_ok update steps changed after :
  steps_ok steps -> plan_update_ok update -> apply_step_update update steps = (changed, after) ->
  steps_ok after.
Proof.
  intros Hok Hu. destruct update as [plan|task_id text status|task_id status|task_id]; simpl.
  - by intros [= _ <-].
  - destruct Hu as [Hid Ht]. destruct (step_position task_id steps) as [[index step]|] eqn:Hp.
    + intros [= _ <-]. apply position_Some in Hp as [Hi _]. by apply (steps_ok_assign _ _ step).
    + destruct (_ <? _)%nat eqn:Hlen; intros [= _ <-]; [|done]. apply Nat.ltb_lt in Hlen.
      by apply steps_ok_push.
  - destruct (step_position task_id steps) as [[index step]|] eqn:Hp; intros [= _ <-]; [|done].
    apply position_Some in Hp as [Hi _]. apply (steps_ok_assign _ _ step); [done..|].
    by destruct (sk_valid _ Hok step) as [Htext _]; [eapply list_elem_of_lookup_2|].
  - destruct (step_position task_id steps) as [[index step]|] eqn:Hp; intros [= _ <-]; [|done].
    apply position_Some in Hp as [Hi _]. by eapply steps_ok_delete.
Qed.

(** The plan of one Claude Session. *)
Definition claude_plan (session_id : string) (plan : DurableAgentPlan) : Prop :=
  plan_ok plan /\ dap_session_id plan = session_id /\ dap_source plan = DPS_ClaudeHook.

Lemma replaced_plan_ok session_id plan now :
  session_id_ok session_id -> plan_update_ok (PU_Replace plan) ->
  claude_plan session_id (durable_agent_plan session_id plan now).
Proof.
  intros Hs (Hsrc & Hex & Hlen & Ht). unfold claude_plan, durable_agent_plan. rewrite Hsrc.
  split; [|done]. split; simpl; [done|by rewrite Hex|]. split.
  - by rewrite length_fmap.
  - intros x (step & -> & Hin)%list_elem_of_fmap. split; [by apply Ht|done].
  - replace (task_ids _) with (@nil string); [constructor|].
    clear. induction (ap_steps plan); simpl; done.
Qed.

(** The part of [apply_claude_plan_update] after the plan was found or created. *)
Lemma apply_to_plan_ok current session_id update now changed after :
  (forall plan, current = Some plan -> claude_plan session_id plan) -> plan_update_ok update ->
  match current with
  | None => (false, None)
  | Some current =>
      if dap_source current != DPS_ClaudeHook then (false, Some current)
      else
        let '(changed, steps) := apply_step_update update (dap_steps current) in
        let current := current <| dap_steps := steps |> in
        (changed,
         Some (if changed
               then current <| dap_updated_at_epoch_ms := now |>
               else current))
  end = (changed, after) ->
  forall plan, after = Some plan -> claude_plan session_id plan.
Proof.
  intros Hcur Hu. destruct current as [plan|]; [|by intros [= _ <-]].
  destruct (Hcur plan eq_refl) as ([Hsid Hex Hst] & Hid & Hsrc).
  rewrite Hsrc, bool_decide_eq_true_2 by done. simpl.
  destruct (apply_step_update update (dap_steps plan)) as [ch steps] eqn:He.
  apply apply_step_update_ok in He; [|done..].
  intros [= _ <-] ? [= <-]. by destruct ch.
Qed.

Lemma apply_plan_update_ok current session_id update now changed after :
  session_id_ok session_id -> (forall plan, current = Some plan -> claude_plan session_id plan) ->
  plan_update_ok update ->
  apply_claude_plan_update current session_id update now = (changed, after) ->
  forall plan, after = Some plan -> claude_plan session_id plan.
Proof.
  intros Hs Hcur Hu. destruct update as [plan|task_id text status|task_id status|task_id].
  - simpl. case_bool_decide; simpl; [|by intros [= _ <-]].
    destruct (is_some_and _ _); intros [= _ <-]; [done|]. intros ? [= <-].
    by apply replaced_plan_ok.
  - apply apply_to_plan_ok; [|done]. destruct current; [done|]. intros ? [= <-].
    split; [|done]. split; simpl; [done..|]. split; simpl; [lia| |constructor].
    by intros ? ?%not_elem_of_nil.
  - apply apply_to_plan_ok; [|done]. by destruct current.
  - apply apply_to_plan_ok; [|done]. by destruct current.
Qed.

(** ** The stored plans *)

Definition plan_owned (st : CurrentState) (plan : DurableAgentPlan) : Prop :=
  exists session, find_session st (dap_session_id plan) = Some session /\
    s_kind session = SessionKind_Agent /\ session_has_source session (dap_source plan) = true.

Record plans_ok (st : CurrentState) : Prop := MkPlansOk {
  ak_valid : forall plan, plan ∈ agent_plans st -> plan_ok plan;
  ak_owned : forall plan, plan ∈ agent_plans st -> plan_owned st plan;
  ak_distinct : NoDup (dap_session_id <$> agent_plans st)
}.

Lemma any_with_rest_around {A} (f h : A -> bool) (g : A -> list A -> bool) l :
  any_with_rest (fun x rest => f x || g x rest || h x) l = false <->
  (forall x, x ∈ l -> f x = false /\ h x = false) /\ any_with_rest g l = false.
Proof.
  induction l as [|x l IH]; simpl.
  { split; [|done]. split; [by intros ? ?%not_elem_of_nil|done]. }
  rewrite !orb_false_iff, IH. setoid_rewrite elem_of_cons. naive_solver.
Qed.

Lemma plans_valid st : agent_plans_are_invalid st = false <-> plans_ok st.
Proof.
  unfold agent_plans_are_invalid.
  rewrite any_with_rest_around, any_with_rest_NoDup.
  assert (forall plan, negb (plan_is_well_formed plan) = false <-> plan_ok plan) as Hwf.
  { intros plan. by rewrite negb_false_iff, plan_well_formed. }
  assert (forall plan,
    is_none_or (find_session st (dap_session_id plan)) (fun session =>
      (s_kind session != SessionKind_Agent)
      || negb (session_has_source session (dap_source plan))) = false <-> plan_owned st plan) as Ho.
  { intros plan. unfold plan_owned. destruct (find_session st _) as [session|]; simpl; [|naive_solver].
    rewrite orb_false_iff, !negb_false_iff, bool_decide_eq_true. naive_solver. }
  setoid_rewrite Hwf. setoid_rewrite Ho. split.
  - intros [H1 H2]. split; [apply H1|apply H1|done].
  - intros []. auto.
Qed.

Lemma plans_ok_committed st : plans_ok st -> plans_ok (committed st).
Proof.
  unfold committed, prune_session_profiles. intros [].
  destruct (session_agent_profiles st); split; assumption.
Qed.

Lemma plans_ok_change st plans :
  plans_ok st -> NoDup (dap_session_id <$> plans) ->
  (forall plan, plan ∈ plans -> plan ∈ agent_plans st \/ plan_ok plan /\ plan_owned st plan) ->
  plans_ok (st <| agent_plans := plans |>).
Proof.
  intros [Hv Ho Hd] Hn Hin. split; simpl; [| |done]; intros plan Hp;
    destruct (Hin plan Hp) as [?|[? ?]]; auto; by apply Ho.
Qed.

(** A store method that refuses only when the write fails, and keeps the plans
    loadable. *)
Definition keeps_plans {A} (s : Store) (r : result StoreError A * Store) : Prop :=
  transaction s r /\ (forall e, r.1 = Err e -> exists message, e = Io message) /\
  plans_ok (state r.2).

Lemma keeps_answered {A} s (a : A) : plans_ok (state s) -> keeps_plans s (Ok a, s).
Proof. intros. split_and!; [constructor|done|done]. Qed.

Lemma keeps_installed s next :
  plans_ok (state s) -> plans_ok next -> revision next = revision (state s) ->
  keeps_plans s (install_revision (state s) next s).
Proof.
  intros Hs Hn Hr. split; [by apply install_revision_transaction_direct|].
  rewrite install_revision_run. destruct (io s) as [|[size|message] rest]; simpl.
  1,2: split; [done|by apply plans_ok_committed].
  split; [intros e [= <-]; eauto|done].
Qed.

Lemma keeps_then {A B} s (m : StoreM A) (b : B) :
  keeps_plans s (m s) -> keeps_plans s ((m ;; ret b) s).
Proof.
  unfold keeps_plans, bind, ret. destruct (m s) as [[a|e] s']; simpl; intros (Ht & He & Hp).
  - split_and!; [|done|done]. inversion Ht; subst; econstructor; done.
  - split_and!; [|naive_solver|done]. inversion Ht; subst; constructor; done.
Qed.

Lemma plan_owned_matches st plan : plan_owned st plan -> plan_matches_session st plan = true.
Proof.
  intros (session & Hf & Hk & Hs). unfold plan_matches_session. apply any_true. exists session.
  unfold find_session in Hf. pose proof (find_first_elem _ _ _ Hf) as Hin.
  apply find_first_key in Hf. split; [done|]. by rewrite Hf, Hk, Hs, !bool_decide_eq_true_2.
Qed.

Lemma replace_agent_plan_keeps plan s :
  plans_ok (state s) -> plan_ok plan -> plan_owned (state s) plan ->
  keeps_plans s (replace_agent_plan plan s).
Proof.
  intros Hs Hp Ho. pose proof (plan_owned_matches _ _ Ho) as Hm.
  apply plan_well_formed in Hp as Hwf. unfold replace_agent_plan, bind, get_state, gets, refuse_if.
  rewrite Hwf, Hm. cbn [negb orb].
  destruct (position _ (agent_plans (state s))) as [[index current]|] eqn:Hpos.
  - case_bool_decide; [by apply keeps_answered|].
    pose proof (position_Some _ _ _ _ Hpos) as [Hi Hk%bool_decide_eq_true].
    apply keeps_installed; [done| |done]. apply plans_ok_change; [done| |].
    + rewrite (fmap_insert_same _ _ _ current) by done. apply Hs.
    + intros x [->|Hx]%elem_of_insert_list; auto.
  - apply keeps_installed; [done| |done]. apply plans_ok_change; [done| |].
    + rewrite fmap_app. apply list.NoDup_app. split_and!; [apply Hs| |apply NoDup_singleton].
      intros x (other & -> & Hin)%list_elem_of_fmap Heq%list_elem_of_singleton.
      assert (find_first (fun c => dap_session_id c == dap_session_id plan)
                (agent_plans (state s)) = None) as Hf by by rewrite position_find, Hpos.
      rewrite find_first_None in Hf. specialize (Hf other Hin).
      by apply bool_decide_eq_false in Hf.
    + intros x [Hx|Hx%list_elem_of_singleton]%elem_of_app; [by left|]. subst x. auto.
Qed.

Lemma clear_agent_plan_keeps session_id session s :
  plans_ok (state s) -> find_session (state s) session_id = Some session ->
  s_kind session = SessionKind_Agent -> keeps_plans s (clear_agent_plan session_id s).
Proof.
  intros Hs Hf Hk. unfold clear_agent_plan, bind, get_state, gets, refuse_if.
  replace (any _ (sessions (state s))) with true.
  2: { symmetry. apply any_true. exists session. unfold find_session in Hf.
       pose proof (find_first_elem _ _ _ Hf). apply find_first_key in Hf. split; [done|].
       by rewrite Hf, Hk, !bool_decide_eq_true_2. }
  cbn [negb]. destruct (_ =? _)%nat; [by apply keeps_answered|].
  apply keeps_installed; [done| |done]. apply plans_ok_change; [done| |].
  - eapply sublist_NoDup; [exact (ak_distinct _ Hs)|]. apply fmap_sublist, retain_sublist.
  - intros plan [Hin _]%elem_of_retain. by left.
Qed.

(** A Claude Session that can own a plan. *)
Definition claude_session (st : CurrentState) (session_id : string) : Prop :=
  session_id_ok session_id /\
  exists session, find_session st session_id = Some session /\
    s_kind session = SessionKind_Agent /\ pd_agent_id (s_process session) = Some "claude".

Lemma record_plan_update_keeps session_id update now s :
  plans_ok (state s) -> claude_session (state s) session_id -> plan_update_ok update ->
  keeps_plans s (record_plan_update session_id update now s).
Proof.
  intros Hs (Hid & session & Hf & Hk & Ha) Hu.
  unfold record_plan_update, bind at 1, get_state, gets.
  set (current := find_first _ (agent_plans (state s))).
  assert (forall plan, current = Some plan -> claude_plan session_id plan) as Hcur.
  { intros plan Hp. pose proof (find_first_elem _ _ _ Hp) as Hin. apply find_first_key in Hp.
    split; [by apply Hs|]. split; [done|].
    destruct (ak_owned _ Hs plan Hin) as (session' & Hf' & _ & Hsrc).
    rewrite Hp, Hf in Hf'. injection Hf' as <-. unfold session_has_source in Hsrc.
    rewrite Ha in Hsrc. by destruct (dap_source plan); [|case_bool_decide]. }
  destruct (apply_claude_plan_update current session_id update now) as [changed after] eqn:He.
  pose proof (apply_plan_update_ok _ _ _ _ _ _ Hid Hcur Hu He) as Hafter.
  destruct changed; [|by apply keeps_answered].
  apply keeps_then. unfold persist_agent_plan.
  destruct after as [plan|]; [|by eapply keeps_then, clear_agent_plan_keeps].
  destruct (Hafter plan eq_refl) as (Hok & Hsid & Hsrc).
  destruct (negb _); [|by eapply keeps_then, clear_agent_plan_keeps].
  apply keeps_then, replace_agent_plan_keeps; [done..|]. exists session. rewrite Hsid.
  split_and!; [done..|]. rewrite Hsrc. simpl. by rewrite Ha, bool_decide_eq_true_2.
Qed.

(** ** The App Server's plans *)

Definition codex_session (st : CurrentState) (session_id : string) : Prop :=
  session_id_ok session_id /\
  exists session, find_session st session_id = Some session /\
    s_kind session = SessionKind_Agent /\ pd_agent_id (s_process session) = Some "codex".

Definition reported_plan_ok (plan : AgentPlan) : Prop :=
  ap_source plan = PS_DaemonOwnedBridge /\
  (forall text, ap_explanation plan = Some text -> (len text <= 1024)%N) /\
  (length (ap_steps plan) <= 32)%nat /\
  forall step, step ∈ ap_steps plan -> text_ok (aps_text step).

Lemma normalized_codex_plan_ok {Value : Type} `{JsonValue Value} raw plan :
  normalize_codex_plan_update (Value := Value) raw = Some plan -> reported_plan_ok plan.
Proof.
  unfold normalize_codex_plan_update. destruct (json_from_str raw) as [message|]; [|done].
  destruct (json_get message "method" ≫= json_as_str) as [method|]; [|done].
  destruct (negb _); [done|]. intros (steps & _ & Hp)%bind_Some. unfold normalize_plan in Hp.
  destruct (normalize_explanation _) as [explanation|] eqn:He; [|done].
  destruct (json_as_array steps) as [values|]; [|done].
  destruct (_ <? _)%nat eqn:Hlen; [done|]. apply Nat.ltb_ge in Hlen.
  apply fmap_Some in Hp as (l & Hl & ->). apply collect_some_Forall in Hl as [Hsame Hall].
  split_and!; simpl; [done| |unfold max_agent_plan_steps in Hlen; lia|].
  - intros text ->. unfold normalize_explanation in He.
    destruct (json_pointer message _) as [value|]; [|done]. destruct (json_is_null value); [done|].
    destruct (json_as_str value) as [s|]; [|done].
    destruct (_ <=? _)%N eqn:Hx; [|done]. injection He as <-. by apply N.leb_le.
  - intros step Hs. apply Hall in Hs as [value Hv]. by eapply normalize_plan_step_ok.
Qed.

Lemma reported_plan_well_formed session_id plan now :
  session_id_ok session_id -> reported_plan_ok plan ->
  plan_ok (durable_agent_plan session_id plan now).
Proof.
  intros Hs (_ & Hex & Hlen & Ht). split; simpl; [done..|]. split.
  - by rewrite length_fmap.
  - intros x (step & -> & Hin)%list_elem_of_fmap. split; [by apply Ht|done].
  - replace (task_ids _) with (@nil string); [constructor|].
    clear. induction (ap_steps plan); simpl; done.
Qed.

(** What a handler over the store leaves. *)
Definition plans_served {A} (r : result PlanError A * Store) : Prop :=
  (forall e, r.1 = Err e ->
     e = PE_CapabilityDenied \/ exists message, e = PE_Store (Io message)) /\ plans_ok (state r.2).

Lemma in_store_served {A B} (m : StoreM A) (b : B) s :
  keeps_plans s (m s) -> plans_served ((in_store m ;; ret b) s).
Proof.
  unfold keeps_plans, plans_served, bind, in_store, ret.
  destruct (m s) as [[a|e] s']; simpl; intros (_ & He & Hp); split; try done.
  intros e' [= <-]. right. destruct (He e eq_refl) as [message ->]. eauto.
Qed.

Lemma record_app_server_plan_served reserved observation_epoch session_id runtime_epoch plan now s :
  plans_ok (state s) -> codex_session (state s) session_id -> reported_plan_ok plan ->
  plans_served (record_app_server_plan reserved observation_epoch session_id runtime_epoch plan now s).
Proof.
  intros Hs (Hid & session & Hf & Hk & Ha) Hp. pose proof Hp as (Hsrc & _ & _ & _).
  assert (plan_owned (state s) (durable_agent_plan session_id plan now)) as Ho.
  { exists session. unfold durable_agent_plan. rewrite Hsrc. split_and!; [done..|]. simpl.
    by rewrite Ha, bool_decide_eq_true_2. }
  pose proof (reported_plan_well_formed session_id plan now Hid Hp) as Hok.
  unfold record_app_server_plan. rewrite Hsrc, bool_decide_eq_true_2 by done. cbn [negb].
  unfold bind at 1, in_store at 1, get_state, gets.
  assert (forall A, plans_served (Err (A := A) PE_CapabilityDenied, s)) as Hdenied.
  { intros A. split; [intros e [= <-]; by left|done]. }
  assert (forall b : bool, plans_served (Ok b, s)) as Hanswer by (split; done).
  destruct (negb _); [apply Hdenied|]. destruct (is_none_or _ _); [apply Hdenied|].
  case_bool_decide.
  - destruct (any _ _); [|apply Hanswer]. by eapply in_store_served, clear_agent_plan_keeps.
  - destruct (any _ _); [apply Hanswer|]. by apply in_store_served, replace_agent_plan_keeps.
Qed.
