(* ===== verification/AgentClaims.v ===== *)
(** * What the provider's reports can do

    Claims about the plans and the subagents that provider hooks and App Server
    messages report, for every payload. *)

From S2P Require Import Prelude Text Domain DomainRules StoreState Transactions Samples Agents.
From S2P Require Import Subagents AgentPlans.

Local Open Scope string_scope.
Local Open Scope list_scope.

(** ** A JSON value, to run the normalization on *)

Inductive Json : Type :=
| J_Null
| J_Bool (value : bool)
| J_String (value : string)
| J_Array (values : list Json)
| J_Object (fields : list (string * Json)).

Definition sample_get (value : Json) (key : string) : option Json :=
  match value with
  | J_Object fields => snd <$> find_first (fun field => field.1 == key) fields
  | _ => None
  end.
Definition sample_pointer (value : Json) (pointer : string) : option Json :=
  fold_left (fun found key => found ≫= fun value => sample_get value (string_of_bytes key))
    (tail (split_bytes 47 (bytes pointer))) (Some value).
Definition sample_message : Json :=
  J_Object [("method", J_String "turn/plan/updated");
            ("params", J_Object [("plan", J_Array [J_Object [("step", J_String "write the parser");
                                                             ("status", J_String "inProgress")]])])].

#[local] Instance sample_json : JsonValue Json := {
  json_get := sample_get;
  json_pointer := sample_pointer;
  json_as_str value :=
    match value with J_String s => if utf8_complete s then Some s else None | _ => None end;
  json_as_bool value := match value with J_Bool b => Some b | _ => None end;
  json_as_array value := match value with J_Array values => Some values | _ => None end;
  json_is_null value := match value with J_Null => true | _ => false end;
  json_is_string_or_number value := match value with J_String _ => true | _ => false end;
  json_to_string value := match value with J_String s => s | _ => "" end;
  json_from_str raw := if raw == "plan" then Some sample_message else None
}.

#[local] Instance sample_json_strings : JsonStrings Json.
Proof.
  intros [| |s| |] t; simpl; try done. destruct (utf8_complete s) eqn:E; [|done]. by intros [= <-].
Qed.

#[local] Instance sample_sha256 : Sha256 := {
  sha256_digest input := replicate 32 (N.of_nat (length input) mod 256)%N;
  sha256_length input := length_replicate 32 _
}.

(** ** Plans *)


Definition agent_session (id agent_id : string) : SessionRecord :=
  sample_session <| s_id := id |> <| s_kind := SessionKind_Agent |>
                 <| s_lifecycle_state := "running" |>
                 <| s_process := (s_process sample_session) <| pd_agent_id := Some agent_id |> |>.
Definition planning_store : Store :=
  MkStore (current_state_default
             <| sessions := [agent_session "lead" "claude"; agent_session "app" "codex"] |>) 0
    current_state_default [].
Definition task_created : Json :=
  J_Object [("hook_event_name", J_String "TaskCreated"); ("task_id", J_String "7");
            ("task_subject", J_String "write the parser")].


(** ** Subagents and pending wakes *)

(** What reaches a roster: a hook payload at some time, or the Session's end. *)
Inductive RosterEvent (Value : Type) : Type :=
| RV_Hook (payload : Value) (now_epoch_ms : N)
| RV_SessionEnded.
Arguments RV_Hook {Value} _ _.
Arguments RV_SessionEnded {Value}.

Definition roster_event {Value} `{JsonValue Value} `{Sha256} (self : AgentSubagentRoster)
    (event : RosterEvent Value) : AgentSubagentRoster :=
  match event with
  | RV_Hook payload now =>
      match normalize_claude_subagent_update payload with
      | Some update => (roster_apply update now self).2
      | None => self
      end
  | RV_SessionEnded => (roster_clear self).2
  end.

(** Whatever hooks a provider sends, the roster of a Session keeps at most 16
    children with distinct keys and at most 8 pending launches, every text
    within its byte bound; after a lead [Stop] the children are exactly those
    it listed as running; and the wakes it reports stay within the bounds of
    the contract, labels included. *)
Theorem hook_reports_are_bounded {Value : Type} `{JsonStrings Value} `{Sha256}
    (events : list (RosterEvent Value)) :
  let roster := fold_left roster_event events roster_default in
  roster_ok roster /\
  (forall payload listings now,
     normalize_claude_subagent_update payload = Some (SU_Inventory listings) ->
     forall key, key ∈ child_keys (roster_event roster (RV_Hook payload now)) <->
                 key ∈ asl_key <$> listings) /\
  (forall (payload : Value) wakes,
     normalize_claude_pending_wakes payload = Some wakes -> pending_wakes_ok wakes).
Proof.
  cbv zeta.
  assert (forall self, roster_ok self -> roster_ok (fold_left roster_event events self)) as Hfold.
  { induction events as [|event events IH]; intros self Hok; simpl; [done|]. apply IH.
    destruct event as [payload now|]; simpl; [|apply roster_default_ok].
    destruct (normalize_claude_subagent_update payload) as [update|] eqn:Hn; [|done].
    apply roster_update_ok; [done|]. by eapply normalized_update_ok. }
  pose proof (Hfold _ roster_default_ok) as Hok. split_and!; [done| |apply normalized_wakes_ok].
  intros payload listings now Hn. simpl. rewrite Hn.
  apply normalized_update_ok in Hn as [Hlen _]. by apply inventory_exact.
Qed.

Definition lead_stop : Json :=
  J_Object [("hook_event_name", J_String "Stop");
            ("background_tasks",
             J_Array [J_Object [("type", J_String "subagent"); ("status", J_String "running");
                                ("id", J_String "child-1"); ("description", J_String "review")]])].
Definition child_started : Json :=
  J_Object [("hook_event_name", J_String "SubagentStart"); ("agent_id", J_String "child-22")].

Lemma hook_reports_are_bounded_witness :
  let roster := fold_left roster_event [RV_Hook child_started 1; RV_Hook lead_stop 2] roster_default in
  roster_ok roster /\ length (ro_children roster) = 1%nat /\
  (exists wakes, normalize_claude_pending_wakes lead_stop = Some wakes /\ pending_wakes_ok wakes).
Proof.
  cbv zeta. split; [apply hook_reports_are_bounded|]. split; [vm_compute; reflexivity|].
  eexists. split; [vm_compute; reflexivity|].
  eapply (proj2 (proj2 (hook_reports_are_bounded (Value := Json) [])) lead_stop).
  vm_compute. reflexivity.
Defined.
