(* ===== verification/ObservedSession.v ===== *)
(** * Agent runtime: readiness, queues and the observed Session

    [src/modules/agent-runtime/src]: when a composer may take generated input
    ([readiness.rs]), the credential of an observation ([observation.rs]), the
    rate limit of observations ([observation_ingress.rs]), the queue of
    generated inputs ([queue.rs]), and [observed_session.rs], which puts them
    together with the delivery runtime for one live Session.

    The delivery runtime, its workers and the channel between them are the
    [System] of [DeliveryWorker].  Workers run while a method of the Session
    runs: [others k] is what they do before the [k]-th access of a method to
    the delivery runtime.  A [HashMap] is a [gmap] together with the order in
    which it iterates ([HashOrder]). *)

From stdpp Require Import gmap relations.
From S2P Require Import Prelude Text Domain DomainRules DeliveryRuntime DeliveryWorker.
From S2P Require Import DeliveryFacts DeliverySafety Agents.

Local Open Scope string_scope.
Local Open Scope list_scope.

(** ** Readiness of the composer *)

(** [generated_input_composer_may_accept] *)
Definition generated_input_composer_may_accept (agent_id : string)
    (provider_state : option AgentState) (provider_source : option AgentSignalSource) : bool :=
  (provider_state == Some AS_Idle)
  || ((agent_id == "claude") && (provider_state == Some AS_Interrupted)
      && (provider_source == Some SRC_Hook))
  || ((agent_id == "codex") && (provider_state == Some AS_Interrupted)).

(** [generated_input_composer_may_accept_after_failed_turn] *)
Definition generated_input_composer_may_accept_after_failed_turn (agent_id : string)
    (provider_state : option AgentState) (provider_source : option AgentSignalSource) : bool :=
  (provider_state == Some AS_Failed)
  && (if agent_id == "claude" then provider_source == Some SRC_Hook
      else agent_id == "codex").

(** [generated_input_settlement] *)
Definition generated_input_settlement (agent_id : string)
    (provider_source : option AgentSignalSource) (provider_queue_ready : bool)
  : GeneratedInputSettlement :=
  if provider_queue_ready then ST_ProviderQueue
  else if (agent_id == "codex") && (provider_source != Some SRC_DaemonBridge)
  then ST_CodexComposerRender
  else if (agent_id == "codex") || (agent_id == "claude") then ST_ComposerRender
  else ST_OutputActivity.

(** [unavailable_composer_cause] *)
Definition unavailable_composer_cause (provider_state : option AgentState)
    (provider_signal : option AgentSignal) : GeneratedInputDeliveryCancelCause :=
  match provider_signal with
  | Some SG_PermissionRequested => GC_PermissionRequested
  | Some SG_Notification => GC_Notification
  | _ =>
      if provider_state == Some AS_AwaitingInput then GC_ProviderAwaitingInput
      else if provider_state == Some AS_Failed then GC_ProviderTurnFailed
      else GC_ProviderBusy
  end.

(** [QueueAdmission::permits] *)
Definition queue_admission_permits (while_working : bool) (state : option AgentState) : bool :=
  while_working && match state with Some (AS_Working | AS_Compacting) => true | _ => false end.

(** ** Credentials *)

(** [capability_equal]: every byte of the longer one is looked at. *)
Definition capability_equal (left right : list N) : bool :=
  let difference :=
    fold_left (fun difference index =>
      N.lor difference
        (N.lxor (default 0%N (left !! index)) (default 0%N (right !! index))))
      (seq 0 (Nat.max (length left) (length right)))
      (N.lxor (N.of_nat (length left)) (N.of_nat (length right))) in
  (difference =? 0)%N.

(** [observation_token_matches] *)
Definition observation_token_matches (expected token : string) : bool :=
  negb (str_is_empty expected) && (len expected <=? 256)%N && (len token <=? 256)%N
  && capability_equal (bytes expected) (bytes token).

(** ** The rate limit *)

Definition window_milliseconds : N := 1000.
Definition max_events_per_window : N := 256.
Definition max_tracked_sessions : nat := 1024.

Record IngressWindow : Type := MkIngressWindow {
  iw_started_at_epoch_ms : N;
  iw_last_seen_at_epoch_ms : N;
  iw_events : N
}.
#[export] Instance IngressWindow_eta : Eta IngressWindow := fun r =>
  MkIngressWindow (iw_started_at_epoch_ms r) (iw_last_seen_at_epoch_ms r) (iw_events r).

(** The order in which a [HashMap] iterates. *)
Class HashOrder := {
  iteration : forall {A}, gmap string A -> list (string * A);
  iteration_entries : forall {A} (m : gmap string A), iteration m ≡ₚ map_to_list m
}.

(** [iter().min_by_key(...)]: the first entry with the least key. *)
Fixpoint min_by_key {A} (key : A -> N) (entries : list (string * A)) : option (string * A) :=
  match entries with
  | [] => None
  | entry :: rest =>
      match min_by_key key rest with
      | Some least => if (key entry.2 <=? key least.2)%N then Some entry else Some least
      | None => Some entry
      end
  end.

Section ingress.
Context `{HashOrder}.

Definition fresh_window (at_ms : N) : IngressWindow := MkIngressWindow at_ms at_ms 1.

(** [ProviderObservationIngress::admit] *)
Definition ingress_admit (session_id : string) (observed_at_epoch_ms : N)
    (windows : gmap string IngressWindow) : bool * gmap string IngressWindow :=
  match windows !! session_id with
  | Some window =>
      if (observed_at_epoch_ms <? iw_started_at_epoch_ms window)%N
         || (window_milliseconds <=? observed_at_epoch_ms - iw_started_at_epoch_ms window)%N
      then (true, <[session_id := fresh_window observed_at_epoch_ms]> windows)
      else
        let window := window <| iw_last_seen_at_epoch_ms := observed_at_epoch_ms |> in
        if (max_events_per_window <=? iw_events window)%N
        then (false, <[session_id := window]> windows)
        else (true, <[session_id := window <| iw_events := (iw_events window + 1)%N |>]> windows)
  | None =>
      let windows :=
        if (max_tracked_sessions <=? size windows)%nat then
          match min_by_key iw_last_seen_at_epoch_ms (iteration windows) with
          | Some (oldest, _) => delete oldest windows
          | None => windows
          end
        else windows in
      (true, <[session_id := fresh_window observed_at_epoch_ms]> windows)
  end.
End ingress.

(** ** The queue of generated inputs *)

Definition max_queued_generated_inputs_per_session : nat := 16.
Definition max_queued_generated_inputs : nat := 256.

Record PendingGeneratedInputQueue : Type := MkPendingQueue {
  pq_runtime_epoch : N;
  pq_submissions : list GeneratedTerminalSubmission
}.
#[export] Instance PendingGeneratedInputQueue_eta : Eta PendingGeneratedInputQueue := fun r =>
  MkPendingQueue (pq_runtime_epoch r) (pq_submissions r).

(** [values().map(|queue| queue.submissions.len()).sum()] *)
Definition total_queued (queues : gmap string PendingGeneratedInputQueue) : nat :=
  map_fold (fun _ queue total => length (pq_submissions queue) + total) 0 queues.

(** [enqueue] *)
Definition enqueue (session_id : string) (runtime_epoch : N)
    (submission : GeneratedTerminalSubmission) (queues : gmap string PendingGeneratedInputQueue)
  : bool * gmap string PendingGeneratedInputQueue :=
  let total := total_queued queues in
  let queue := default (MkPendingQueue runtime_epoch []) (queues !! session_id) in
  let queue :=
    if pq_runtime_epoch queue != runtime_epoch then MkPendingQueue runtime_epoch [] else queue in
  if (max_queued_generated_inputs_per_session <=? length (pq_submissions queue))%nat
     || (max_queued_generated_inputs <=? total)%nat
  then (false, <[session_id := queue]> queues)
  else
    (true, <[session_id :=
               queue <| pq_submissions := pq_submissions queue ++ [submission] |>]> queues).

(** [pop] *)
Definition pop (session_id : string) (runtime_epoch : N)
    (queues : gmap string PendingGeneratedInputQueue)
  : option GeneratedTerminalSubmission * gmap string PendingGeneratedInputQueue :=
  match queues !! session_id with
  | None => (None, queues)
  | Some queue =>
      if pq_runtime_epoch queue != runtime_epoch then (None, delete session_id queues)
      else
        match pq_submissions queue with
        | [] => (None, delete session_id queues)
        | submission :: rest =>
            (Some submission,
             if rest == [] then delete session_id queues
             else <[session_id := queue <| pq_submissions := rest |>]> queues)
        end
  end.

(** ** The observed Session *)

(** [ob_system] holds [deliveries] with its workers and [delivery_events];
    [ob_codex] is whether a Codex runtime is owned, and [ob_signals] what waits
    in its channel. *)
Record ObservedSession : Type := MkObservedSession {
  ob_id : string;
  ob_epoch : N;
  ob_provider : string;
  ob_token : string;
  ob_observation : option AgentObservation;
  ob_last_signal : option AgentSignal;
  ob_native_identity : option string;
  ob_ingress : gmap string IngressWindow;
  ob_system : System;
  ob_pending : list GeneratedTerminalSubmission;
  ob_hook_response_pending : bool;
  ob_codex : bool;
  ob_signals : option (list AgentRuntimeSignal);
  ob_reap_failed : bool
}.
#[export] Instance ObservedSession_eta : Eta ObservedSession := fun r =>
  MkObservedSession (ob_id r) (ob_epoch r) (ob_provider r) (ob_token r) (ob_observation r)
    (ob_last_signal r) (ob_native_identity r) (ob_ingress r) (ob_system r) (ob_pending r)
    (ob_hook_response_pending r) (ob_codex r) (ob_signals r) (ob_reap_failed r).

(** [ObservedSession::new], with the generated token. *)
Definition new_session (id : string) (epoch : N) (provider token : string) : ObservedSession :=
  MkObservedSession id epoch provider token None None None ∅ initial_system [] false false None
    false.

(** What the terminal and the clock answer during a [poll]. *)
Record PollAnswers : Type := MkPollAnswers {
  pa_user_input_activity : nat -> option UserInputActivitySnapshot;
  pa_begin : BeginAnswers;
  pa_rounds : nat
}.

Section session.
Context `{UuidParser} `{UuidText} `{HashOrder}.
Context (bracketed : bool) (others : nat -> System -> System).
Implicit Types self : ObservedSession.

(** [enqueue] *)
Definition session_enqueue (submission : GeneratedTerminalSubmission) self : bool * ObservedSession :=
  if (16 <=? length (ob_pending self))%nat then (false, self)
  else (true, self <| ob_pending := ob_pending self ++ [submission] |>).

(** A call to the delivery runtime, after what the workers did meanwhile. *)
Definition call_delivery (k : nat) (call : DeliveryCall) self : ObservedSession :=
  self <| ob_system := run_delivery_call bracketed call (others k (ob_system self)) |>.

(** The signals that prove progress of the turn. *)
Definition proves_progress (signal : AgentSignal) : bool :=
  match signal with
  | SG_ToolStarted | SG_ToolFinished | SG_Stopped | SG_PermissionRequested => true
  | _ => false
  end.

(** [observe] *)
Definition observe_signal (k : nat) (signal : AgentSignal) (source : AgentSignalSource) (at_ms : N)
    (activity : option UserInputActivitySnapshot) self : ObservedSession :=
  let sequence :=
    match ob_observation self with
    | Some value => u64_saturating_add (ao_sequence value) 1
    | None => 1%N
    end in
  let self :=
    self <| ob_observation :=
              Some (reduce_observation (ob_observation self) signal source sequence at_ms) |>
         <| ob_last_signal := Some signal |> in
  if signal == SG_PromptSubmitted
  then call_delivery k (CallSubmission (ob_id self) (ob_epoch self) sequence activity) self
  else if proves_progress signal
  then call_delivery k (CallProgress (ob_id self) (ob_epoch self) sequence) self
  else self.

(** [hook] *)
Definition session_hook (token : string) (input : ProviderHookObservationInput) (at_ms : N)
    (activity : option UserInputActivitySnapshot) self : bool * ObservedSession :=
  if negb (observation_token_matches (ob_token self) token) then (false, self)
  else
    let '(admitted, ingress) := ingress_admit (ob_id self) at_ms (ob_ingress self) in
    let self := self <| ob_ingress := ingress |> in
    if negb admitted then (false, self)
    else
      match normalize_provider_hook_observation (ob_provider self) input with
      | None => (false, self)
      | Some normalized =>
          if no_source normalized != SRC_Hook then (false, self)
          else
            let self :=
              match no_resume_ref normalized with
              | Some identity =>
                  self <| ob_native_identity := Some (ref_native_session_id identity) |>
              | None => self
              end in
            let self :=
              if no_signal normalized == SG_SessionStarted
              then self <| ob_hook_response_pending := true |> else self in
            (true, observe_signal 0 (no_signal normalized) SRC_Hook at_ms activity self)
      end.

(** [release_hook_response] *)
Definition release_hook_response (token : string) self : ObservedSession :=
  if observation_token_matches (ob_token self) token
  then self <| ob_hook_response_pending := false |> else self.

(** The first loop of [poll]. *)
Fixpoint poll_signals (k : nat) (signals : list AgentRuntimeSignal) (at_ms : N)
    (answers : PollAnswers) self : ObservedSession :=
  match signals with
  | [] => self
  | signal :: rest =>
      let self :=
        if (ars_session_id signal != ob_id self) || (ars_runtime_epoch signal != ob_epoch self)
        then self
        else
          match ars_event signal with
          | RE_Observation signal =>
              observe_signal k signal SRC_DaemonBridge at_ms (pa_user_input_activity answers k) self
          | RE_ResumeRefObserved identity =>
              self <| ob_native_identity := Some (ref_native_session_id identity) |>
          | _ => self
          end in
      poll_signals (S k) rest at_ms answers self
  end.

(** [delivery_events.try_iter().take(n)], each event applied. *)
Fixpoint drain_events (k n : nat) self : ObservedSession :=
  match n with
  | O => self
  | S n =>
      let system := others k (ob_system self) in
      let self := self <| ob_system := system |> in
      match sy_events system with
      | [] => self
      | _ :: _ =>
          drain_events (S k) n
            (self <| ob_system := run_delivery_call bracketed CallApplyEvent system |>)
      end
  end.

(** The states in which [poll] takes a request from the queue. *)
Definition completes_request (state : option GeneratedInputDeliveryState) : bool :=
  match state with
  | Some (GS_Confirmed | GS_ConfirmedUnattributed | GS_RequiresUserResubmit) => true
  | _ => false
  end.

(** The end of [poll] for the request at the front. *)
Definition deliver_front (submission : GeneratedTerminalSubmission) (answers : PollAnswers) self
  : ObservedSession :=
  let state := ao_state <$> ob_observation self in
  let source := ao_source <$> ob_observation self in
  let sequence := match ob_observation self with Some value => ao_sequence value | None => 0%N end in
  let block self :=
    call_delivery 603
      (CallBlock (ob_id self) (ob_epoch self) sequence submission
         (unavailable_composer_cause state (ob_last_signal self)) None) self in
  let system := others 601 (ob_system self) in
  let self := self <| ob_system := system |> in
  if negb (can_begin_pending_submission (sy_runtime system) (ob_id self) (ob_epoch self)) then
    if (state == Some AS_AwaitingInput)
       && (delivery_state (sy_runtime system) (ob_id self) (ob_epoch self) == Some GS_WritingPaste)
    then block self else self
  else if negb (generated_input_composer_may_accept (ob_provider self) state source) then
    if is_some state then block self else self
  else
    let system := others 602 system in
    let self := self <| ob_system := system |> in
    if can_begin_pending_submission (sy_runtime system) (ob_id self) (ob_epoch self)
    then
      call_delivery 603
        (CallBegin (pa_begin answers) (pa_rounds answers) (ob_id self) (ob_epoch self) sequence
           submission (generated_input_settlement (ob_provider self) source false)) self
    else self.

(** The removal of a completed request in [poll]. *)
Definition complete_front self : ObservedSession :=
  let system := others 600 (ob_system self) in
  let self := self <| ob_system := system |> in
  if is_some_and (head (ob_pending self)) (fun submission =>
       contains_submission (sy_runtime system) (ob_id self) (ob_epoch self) submission)
     && completes_request (delivery_state (sy_runtime system) (ob_id self) (ob_epoch self))
  then self <| ob_pending := tail (ob_pending self) |>
            <| ob_system := run_delivery_call bracketed (CallRemove (ob_id self)) system |>
  else self.

(** [poll] *)
Definition poll (at_ms : N) (answers : PollAnswers) self : ObservedSession :=
  let signals := take 256 (default [] (ob_signals self)) in
  let self := self <| ob_signals := drop 256 <$> ob_signals self |> in
  let self := poll_signals 0 signals at_ms answers self in
  let self := drain_events 256 256 self in
  let self := complete_front self in
  if ob_hook_response_pending self then self
  else
    match head (ob_pending self) with
    | None => self
    | Some submission => deliver_front submission answers self
    end.

(** [close]; [reaped] is whether the Codex runtime could be reaped. *)
Definition session_close (reaped : bool) self : bool * ObservedSession :=
  let self := call_delivery 0 (CallRemove (ob_id self)) self <| ob_pending := [] |> in
  if ob_reap_failed self then (false, self)
  else if ob_codex self then
    let self := self <| ob_codex := false |> in
    if reaped then (true, self) else (false, self <| ob_reap_failed := true |>)
  else (true, self).

(** [start_codex], once the runtime was prepared. *)
Definition codex_started self : ObservedSession :=
  self <| ob_codex := true |> <| ob_signals := Some [] |>.
End session.

(** ** Runs *)

(** A step of a worker thread. *)
Inductive worker_step : System -> System -> Prop :=
| worker_moves i worker cells m s :
    sy_workers s !! i = Some worker ->
    dr_cells (sy_runtime s) !! tp_cells (wk_plan worker) = Some cells ->
    moves (wk_prog worker) cells m ->
    worker_step s (apply_move i (wk_plan worker) m s).

Section runs.
Context `{UuidParser} `{UuidText} `{HashOrder} (bracketed : bool).

(** What the workers do while a method runs. *)
Definition workers_run (others : nat -> System -> System) : Prop :=
  forall k s, rtc worker_step s (others k s).

Inductive observed_step : ObservedSession -> ObservedSession -> Prop :=
| os_enqueue submission s : observed_step s (session_enqueue submission s).2
| os_hook others token input at_ms activity s :
    workers_run others ->
    observed_step s (session_hook bracketed others token input at_ms activity s).2
| os_release token s : observed_step s (release_hook_response token s)
| os_poll others at_ms answers s :
    workers_run others -> observed_step s (poll bracketed others at_ms answers s)
| os_close others reaped s :
    workers_run others -> observed_step s (session_close bracketed others reaped s).2
| os_codex s : observed_step s (codex_started s)
| os_signal signal s :
    observed_step s (s <| ob_signals := (fun signals => signals ++ [signal]) <$> ob_signals s |>)
| os_worker system s : worker_step (ob_system s) system -> observed_step s (s <| ob_system := system |>).

Definition reachable_observed (id : string) (epoch : N) (provider token : string)
    (s : ObservedSession) : Prop :=
  rtc observed_step (new_session id epoch provider token) s.
End runs.

(** * The observed Session and its deliveries

    Which request a delivery belongs to, and how the methods of the Session
    move requests: [quiet] steps leave every delivery with its request, and the
    invariant [session_ok] says that the delivery in flight is that of the
    request at the front of the queue. *)

(** ** Credentials *)

Lemma lor_fold_zero (f : nat -> N) l acc :
  fold_left (fun difference index => N.lor difference (f index)) l acc = 0%N <->
  acc = 0%N /\ forall index, index ∈ l -> f index = 0%N.
Proof.
  revert acc. induction l as [|i l IH]; intros acc; simpl.
  { split; [intros ->; split; [done|by intros ? ?%not_elem_of_nil]|tauto]. }
  rewrite IH, N.lor_eq_0_iff. setoid_rewrite elem_of_cons. naive_solver.
Qed.

Lemma capability_equal_spec left right : capability_equal left right = true <-> left = right.
Proof.
  unfold capability_equal. rewrite N.eqb_eq, lor_fold_zero, N.lxor_eq_0_iff, Nat2N.inj_iff.
  split; [|intros ->; split; [done|intros; by rewrite N.lxor_eq_0_iff]].
  intros [Hlen Hall]. apply list_eq_same_length with (n := length left); [done|done|].
  intros i x y Hi Hx Hy. specialize (Hall i).
  rewrite Hx, Hy, N.lxor_eq_0_iff in Hall. apply Hall, elem_of_seq. lia.
Qed.

(** ** The requests of the deliveries *)

Definition request_of (d : GeneratedInputDelivery) : nat * GeneratedTerminalSubmission * N :=
  (gid_cells d, gid_submission d, gid_runtime_epoch d).
Definition request (r : DeliveryRuntime) (x : string)
  : option (nat * GeneratedTerminalSubmission * N) := request_of <$> dr_deliveries r !! x.
Definition same_requests (r r' : DeliveryRuntime) : Prop := forall x, request r' x = request r x.

#[export] Instance same_requests_preorder : PreOrder same_requests.
Proof. split; [done|]. intros a b c Hab Hbc x. by rewrite Hbc, Hab. Qed.

Lemma request_Some r x q :
  request r x = Some q <-> exists d, dr_deliveries r !! x = Some d /\ request_of d = q.
Proof. unfold request. rewrite fmap_Some. naive_solver. Qed.

Lemma same_write_back r x d slot :
  dr_deliveries r !! x = Some d -> request_of slot.1 = request_of d ->
  same_requests r (write_back x slot r).
Proof.
  intros Hx Hs y. unfold request.
  change (dr_deliveries (write_back x slot r)) with (<[x := slot.1]> (dr_deliveries r)).
  destruct (decide (x = y)) as [->|Hne].
  - rewrite lookup_insert_eq, Hx. cbn [fmap option_fmap option_map]. by rewrite Hs.
  - by rewrite lookup_insert_ne.
Qed.

Lemma take_ack_request slot : request_of (take_ack slot).1 = request_of slot.1.
Proof. by destruct slot. Qed.
Lemma signal_ack_request slot : request_of (signal_provider_ack slot).1 = request_of slot.1.
Proof. by destruct slot. Qed.

Lemma merge_request slot diagnostics :
  request_of (merge_transport_diagnostics slot diagnostics).1.1 = request_of slot.1.
Proof. by destruct slot. Qed.

Lemma transport_failure_request failure st slot :
  request_of (apply_transport_failure failure st slot).1 = request_of slot.1.
Proof.
  pose proof (take_ack_request slot) as Ht. unfold apply_transport_failure.
  destruct (take_ack slot) as [d c]. rewrite <- Ht. repeat case_match; done.
Qed.

Lemma apply_outcome_request outcome slot slot' :
  apply_outcome outcome slot = Some slot' -> request_of slot'.1 = request_of slot.1.
Proof.
  unfold apply_outcome. pose proof (take_ack_request slot) as Ht.
  destruct outcome; case_match; try done.
  - intros [= <-]. repeat case_match; done.
  - by intros [= <-].
  - destruct (take_ack slot) as [d c]. intros [= <-]. by rewrite <- Ht.
  - destruct (take_ack slot) as [d c]. intros [= <-]. by rewrite <- Ht.
  - intros [= <-]. apply transport_failure_request.
  - intros [= <-]. apply transport_failure_request.
Qed.

Lemma same_apply r event : same_requests r (apply_transport_event event r).2.
Proof.
  unfold apply_transport_event. destruct (dr_deliveries r !! _) as [d|] eqn:Hx; [|reflexivity].
  destruct (_ || _); [reflexivity|].
  pose proof (merge_request (d, cells_of r d) (ev_diagnostics event)) as Hm.
  destruct (merge_transport_diagnostics _ _) as [slot changed]. simpl in Hm.
  destruct (apply_outcome _ _) as [slot'|] eqn:Happ; simpl.
  - apply apply_outcome_request in Happ. by apply (same_write_back r _ d); [|congruence].
  - by apply (same_write_back r _ d).
Qed.

Lemma same_signal r x d d' :
  dr_deliveries r !! x = Some d -> request_of d' = request_of d ->
  same_requests r (write_back x (signal_provider_ack (d', cells_of r d)) r).
Proof.
  intros Hx Hd. apply (same_write_back r x d); [done|]. by rewrite signal_ack_request.
Qed.

Lemma same_submission r x epoch sequence activity :
  same_requests r (confirm_provider_submission x epoch sequence activity r).2.
Proof.
  unfold confirm_provider_submission.
  destruct (dr_deliveries r !! x) as [d|] eqn:Hx; [|reflexivity].
  destruct (_ || _); [reflexivity|]. destruct (is_some_and _ _); [reflexivity|].
  destruct (_ == _); [by apply same_signal|].
  destruct (gid_state d); try reflexivity; by apply same_signal.
Qed.

Lemma same_progress r x epoch sequence :
  same_requests r (confirm_provider_progress x epoch sequence r).2.
Proof.
  unfold confirm_provider_progress.
  destruct (dr_deliveries r !! x) as [d|] eqn:Hx; [|reflexivity].
  destruct (_ != _); [reflexivity|]. destruct (_ && _); [by apply (same_write_back r x d)|].
  destruct (_ != _); [reflexivity|].
  destruct (gid_provider_confirmation d) as [[sequence' ?]|]; [|reflexivity].
  destruct (_ <=? _)%N; [reflexivity|]. by apply same_signal.
Qed.

(** ** A runtime with one Session *)

Definition only (x : string) (r : DeliveryRuntime) : Prop :=
  forall y, is_Some (dr_deliveries r !! y) -> y = x.

Lemma only_empty x r : only x r -> dr_deliveries r !! x = None -> dr_deliveries r = ∅.
Proof.
  intros Ho Hx. apply map_empty. intros y. destruct (dr_deliveries r !! y) eqn:E; [|done].
  assert (y = x) as -> by (apply Ho; eauto). congruence.
Qed.

Lemma only_same x r r' : same_requests r r' -> only x r -> only x r'.
Proof.
  intros Hs Ho y [d Hd]. apply Ho. specialize (Hs y). unfold request in Hs. rewrite Hd in Hs.
  destruct (dr_deliveries r !! y); [eauto|done].
Qed.

(** Inserting the delivery of [x]. *)
Lemma insert_requests r x d cells :
  only x r ->
  only x (insert_delivery x d cells r) /\
  exists c, request (insert_delivery x d cells r) x = Some (c, gid_submission d, gid_runtime_epoch d).
Proof.
  intros Ho. split.
  - intros y. unfold insert_delivery. destruct (decide (x = y)) as [->|Hne]; [done|].
    simpl. rewrite lookup_insert_ne by done. intros Hy. apply Ho.
    by destruct (dr_deliveries r !! x).
  - unfold request, insert_delivery. simpl. rewrite lookup_insert_eq. simpl. eauto.
Qed.

Lemma fail_requests r x failure : same_requests r (fail_immediately x failure r).
Proof.
  unfold fail_immediately. destruct (dr_deliveries r !! x) as [d|] eqn:Hx; [|reflexivity].
  pose proof (take_ack_request (d, cells_of r d)) as Ht. destruct (take_ack _) as [d' c].
  apply (same_write_back r x d); [done|]. exact Ht.
Qed.

Lemma launch_requests answers x epoch id cells submission settlement r :
  same_requests r
    (bg_runtime (launch_worker answers x epoch id cells submission settlement r)).
Proof.
  assert (forall r', same_requests r (r <| dr_cells := r' |>)) as Hcells by done.
  unfold launch_worker. repeat case_match; simpl; try apply fail_requests; try reflexivity;
    try apply Hcells; (etransitivity; [apply Hcells|apply fail_requests]).
Qed.

(** What a call for the request [submission] does to the requests. *)
Definition requested (x : string) (epoch : N) (submission : GeneratedTerminalSubmission)
    (r r' : DeliveryRuntime) : Prop :=
  only x r' /\
  (same_requests r r' \/ exists c, request r' x = Some (c, submission, epoch)).

Lemma begin_requests answers x epoch baseline submission settlement r :
  only x r ->
  requested x epoch submission r
    (bg_runtime (begin answers x epoch baseline submission settlement r)).
Proof.
  intros Ho. unfold begin. destruct (negb (can_begin_pending_submission r x epoch));
    [split; [done|by left]|].
  assert (negb (is_some (dr_deliveries r !! x))
          && (max_runtime_deliveries <=? size (dr_deliveries r))%nat = false) as Hroom.
  { destruct (dr_deliveries r !! x) eqn:Hx; [done|]. by rewrite (only_empty x r Ho Hx). }
  rewrite !Hroom. set (d := new_delivery _ _ _ _ _ _ _).
  destruct (insert_requests r x d fresh_cells Ho) as [Ho' [c Hc]].
  set (r1 := insert_delivery x d fresh_cells r) in *.
  pose proof (launch_requests answers x epoch (dr_next_id r) (length (dr_cells r)) submission
    settlement r1) as Hl.
  split; [by eapply only_same|]. right. exists c. by rewrite Hl.
Qed.

Lemma block_requests x epoch baseline submission cause notification r :
  only x r ->
  requested x epoch submission r
    (block_for_unavailable_composer x epoch baseline submission cause notification r).2.
Proof.
  intros Ho. unfold block_for_unavailable_composer, requested.
  destruct (dr_deliveries r !! x) as [d|] eqn:Hx.
  - destruct (_ != _); [split; [done|by left]|]. destruct (_ == _).
    { assert (same_requests r (write_back x
        (block_writing cause notification (d, cells_of r d)) r)) as Hs.
      { apply (same_write_back r x d); [done|]. unfold block_writing.
        pose proof (take_ack_request (cancel (d, cells_of r d))) as Ht.
        destruct (take_ack _) as [d' c]. exact Ht. }
      split; [by eapply only_same|by left]. }
    destruct (negb _); [split; [done|by left]|].
    destruct (insert_requests (write_back x (take_ack (cancel (d, cells_of r d))) r) x
      (blocked_delivery epoch baseline submission cause notification)
      (MkCells false false true AckClosed)) as [Ho' [c Hc]].
    { eapply only_same; [by apply (same_write_back r x d)|done]. }
    split; [done|]. right. eauto.
  - assert ((max_runtime_deliveries <=? size (dr_deliveries r))%nat = false) as Hroom
      by by rewrite (only_empty x r Ho Hx).
    rewrite !Hroom. cbn [snd].
    destruct (insert_requests r x (blocked_delivery epoch baseline submission cause notification)
      (MkCells false false true AckClosed) Ho) as [Ho' [c Hc]].
    split; [done|]. right. eauto.
Qed.

Lemma remove_requests x r : only x r -> forall y, dr_deliveries (remove_session x r) !! y = None.
Proof.
  intros Ho y. unfold remove_session. simpl.
  destruct (dr_deliveries r !! x) as [d|] eqn:Hx; simpl.
  - destruct (decide (x = y)) as [->|Hne]; [apply lookup_delete_eq|].
    rewrite lookup_delete_ne by done. destruct (dr_deliveries r !! y) eqn:Hy; [|done].
    exfalso. apply Hne. symmetry. apply Ho. eauto.
  - by rewrite (only_empty x r Ho Hx).
Qed.

(** ** Runs that carry the requests along *)

Section carried.
Context (bracketed : bool).

Record carried (s s' : System) : Prop := MkCarried {
  cr_run : rtc (system_step bracketed) s s';
  cr_requests : same_requests (sy_runtime s) (sy_runtime s');
  cr_heap : heap_le (dr_cells (sy_runtime s)) (dr_cells (sy_runtime s'))
}.

#[export] Instance carried_preorder : PreOrder carried.
Proof.
  split; [intros s; split; reflexivity|]. intros a b c [] []. split; etransitivity; eassumption.
Qed.

Lemma worker_deliveries s s' :
  rtc worker_step s s' -> dr_deliveries (sy_runtime s') = dr_deliveries (sy_runtime s).
Proof. induction 1 as [|a b c Hab _ IH]; [done|]. rewrite IH. by destruct Hab. Qed.

Lemma carried_workers s s' : rtc worker_step s s' -> carried s s'.
Proof.
  induction 1 as [|a b c Hab _ IH]; [reflexivity|]. etransitivity; [|exact IH].
  destruct Hab as [i w cells m s Hw Hc Hm]. split.
  - eapply rtc_once, step_worker; eassumption.
  - done.
  - simpl. eapply heap_le_insert; [done|]. by eapply moves_cells.
Qed.

(** The calls that only assign to the delivery they find. *)
Definition assigns (call : DeliveryCall) : bool :=
  match call with CallApplyEvent | CallSubmission _ _ _ _ | CallProgress _ _ _ => true | _ => false end.

Lemma carried_call call s : assigns call = true -> carried s (run_delivery_call bracketed call s).
Proof.
  intros Ha. split; [apply rtc_once, step_call| |];
    destruct call as [| | | | |x epoch sequence activity|x epoch sequence|]; try discriminate Ha; simpl.
  - destruct (sy_events s) as [|event events]; simpl; [reflexivity|apply same_apply].
  - apply same_submission.
  - apply same_progress.
  - destruct (sy_events s) as [|event events]; simpl; [reflexivity|]. exact (kept_heap _ _ (kept_apply _ _)).
  - exact (kept_heap _ _ (kept_submission _ _ _ _ _)).
  - exact (kept_heap _ _ (kept_progress _ _ _ _)).
Qed.

(** A change of the Session that leaves the queue and the requests alone. *)
Record quiet (s s' : ObservedSession) : Prop := MkQuiet {
  qt_id : ob_id s' = ob_id s;
  qt_epoch : ob_epoch s' = ob_epoch s;
  qt_pending : ob_pending s' = ob_pending s;
  qt_system : carried (ob_system s) (ob_system s')
}.

#[export] Instance quiet_preorder : PreOrder quiet.
Proof.
  split; [intros s; split; reflexivity|]. intros a b c [] []. split; etransitivity; eassumption.
Qed.

Lemma quiet_system s system :
  carried (ob_system s) system -> quiet s (s <| ob_system := system |>).
Proof. by split. Qed.

Context (others : nat -> System -> System) (Hothers : workers_run others).

Lemma carried_others k s : carried s (others k s).
Proof. apply carried_workers, Hothers. Qed.

Lemma quiet_call k call s :
  assigns call = true -> quiet s (call_delivery bracketed others k call s).
Proof.
  intros Ha. apply quiet_system. etransitivity; [apply carried_others|by apply carried_call].
Qed.

Lemma quiet_observe k signal source at_ms activity s :
  quiet s (observe_signal bracketed others k signal source at_ms activity s).
Proof.
  unfold observe_signal. set (s1 := s <| ob_observation := _ |> <| ob_last_signal := _ |>).
  assert (quiet s s1) as H1 by (split; reflexivity).
  case_bool_decide; [etransitivity; [exact H1|by apply quiet_call]|].
  destruct (proves_progress signal); [|done]. etransitivity; [exact H1|by apply quiet_call].
Qed.

Lemma quiet_poll_signals k signals at_ms answers s :
  quiet s (poll_signals bracketed others k signals at_ms answers s).
Proof.
  revert k s. induction signals as [|signal rest IH]; intros k s; simpl; [reflexivity|].
  etransitivity; [|apply IH]. destruct (_ || _); [reflexivity|].
  destruct (ars_event signal); try reflexivity; [apply quiet_observe|by split].
Qed.

Lemma quiet_drain k n s : quiet s (drain_events bracketed others k n s).
Proof.
  revert k s. induction n as [|n IH]; intros k s; [reflexivity|].
  cbn [drain_events]. cbv zeta. destruct (sy_events (others k (ob_system s))) as [|event events] eqn:He.
  - apply quiet_system, carried_others.
  - etransitivity; [|apply IH].
    etransitivity; [apply quiet_system, (carried_others k)|]. apply quiet_system.
    by apply (carried_call CallApplyEvent).
Qed.
End carried.
