(* ===== verification/ObservedClaims.v ===== *)
(** * What an observed Session guarantees

    The invariant of one live Session with its queue of generated inputs, its
    delivery runtime and its workers, for every interleaving; and the claim
    that a request whose paste has started is never delivered again. *)

From stdpp Require Import gmap relations.
From S2P Require Import Prelude Text Domain DomainRules DeliveryRuntime DeliveryWorker.
From S2P Require Import DeliveryFacts DeliverySafety DeliveryClaims Agents ObservedSession.

Local Open Scope string_scope.
Local Open Scope list_scope.

Definition runtime_of (s : ObservedSession) : DeliveryRuntime := sy_runtime (ob_system s).

Section session.
Context (bracketed : bool).

(** The deliveries are those of the Session, in its epoch, for the request at
    the front of the queue. *)
Record session_ok (s : ObservedSession) : Prop := MkSessionOk {
  sn_reachable : reachable_system bracketed (ob_system s);
  sn_bounded : length (ob_pending s) <= 16;
  sn_only : only (ob_id s) (runtime_of s);
  sn_front : forall q, request (runtime_of s) (ob_id s) = Some q ->
    q.2 = ob_epoch s /\ head (ob_pending s) = Some q.1.2
}.

Lemma session_ok_quiet s s' : quiet bracketed s s' -> session_ok s -> session_ok s'.
Proof.
  intros [Hid He Hp [Hrun Hreq _]] [Hr Hb Ho Hf]. split.
  - unfold reachable_system in *. by etransitivity.
  - by rewrite Hp.
  - rewrite Hid. by eapply only_same.
  - intros q. rewrite Hid, He, Hp. unfold runtime_of. rewrite Hreq. apply Hf.
Qed.

(** The queue grew, or the deliveries are gone. *)
Lemma session_ok_push s submission :
  session_ok s -> length (ob_pending s) < 16 ->
  session_ok (s <| ob_pending := ob_pending s ++ [submission] |>).
Proof.
  intros [Hr Hb Ho Hf] Hlen. split; simpl; [done| |done|].
  - rewrite length_app. simpl. lia.
  - intros q Hq. destruct (Hf q Hq) as [He Hh]. split; [done|]. by destruct (ob_pending s).
Qed.

Lemma session_ok_empty s :
  reachable_system bracketed (ob_system s) -> length (ob_pending s) <= 16 ->
  (forall y, dr_deliveries (runtime_of s) !! y = None) -> session_ok s.
Proof.
  intros Hr Hb Hn. split; [done|done| |].
  - intros y [d Hd]. by rewrite Hn in Hd.
  - intros q. unfold request. by rewrite Hn.
Qed.

Lemma new_session_ok id epoch provider token : session_ok (new_session id epoch provider token).
Proof. apply session_ok_empty; [apply rtc_refl|simpl; lia|intros y; apply lookup_empty]. Qed.

(** ** Deliveries whose paste has started *)

Definition started (r : DeliveryRuntime) (d : GeneratedInputDelivery) : Prop :=
  c_paste_started (cells_of r d) = true.

Lemma started_later r r' d d' :
  heap_le (dr_cells r) (dr_cells r') -> gid_cells d' = gid_cells d -> started r d -> started r' d'.
Proof.
  unfold started, cells_of. intros Hle Hc. destruct (dr_cells r !! gid_cells d) as [c|] eqn:Hd; [|done].
  destruct (Hle _ _ Hd) as (c' & Hc' & [Hpaste _]). rewrite Hc, Hc'. simpl. auto.
Qed.

Lemma same_delivery r r' x d :
  same_requests r r' -> dr_deliveries r !! x = Some d ->
  exists d', dr_deliveries r' !! x = Some d' /\ request_of d' = request_of d.
Proof.
  intros Hs Hd. apply request_Some. rewrite Hs. apply request_Some. eauto.
Qed.

Context (others : nat -> System -> System) (Hothers : workers_run others).

(** ** The end of a poll *)

(** The request at the front was completed. *)
Record completed (s s' : ObservedSession) : Prop := MkCompleted {
  cm_id : ob_id s' = ob_id s;
  cm_epoch : ob_epoch s' = ob_epoch s;
  cm_pending : ob_pending s' = tail (ob_pending s);
  cm_state : exists mid state, rtc (system_step bracketed) (ob_system s) mid /\
    delivery_state (sy_runtime mid) (ob_id s) (ob_epoch s) = Some state /\
    accepts_replacement state = true;
  cm_run : rtc (system_step bracketed) (ob_system s) (ob_system s');
  cm_none : forall y, dr_deliveries (runtime_of s') !! y = None
}.

Lemma completes_accepts state :
  completes_request state = true <-> exists st, state = Some st /\ accepts_replacement st = true.
Proof. destruct state as [[]|]; simpl; naive_solver. Qed.

Lemma complete_front_cases s :
  session_ok s ->
  (quiet bracketed s (complete_front bracketed others s) /\
   forall d, dr_deliveries (runtime_of (complete_front bracketed others s)) !! ob_id s = Some d ->
     accepts_replacement (gid_state d) = false) \/
  completed s (complete_front bracketed others s).
Proof.
  intros Hok. unfold complete_front. set (system := others 600 (ob_system s)). cbv zeta.
  set (s1 := s <| ob_system := system |>).
  pose proof (quiet_system bracketed s system (carried_others bracketed others Hothers 600 _)) as Hq.
  fold s1 in Hq. pose proof (session_ok_quiet _ _ Hq Hok) as Hok1.
  destruct (is_some_and (head (ob_pending s1)) _ && completes_request _) eqn:Hdone.
  - right. apply andb_true_iff in Hdone as [_ Hst].
    apply completes_accepts in Hst as (st & Hst & Hacc). split; simpl; try done.
    + exists system, st. split_and!; [|done|done]. apply Hq.
    + etransitivity; [apply Hq|]. apply rtc_once.
      exact (step_call bracketed (CallRemove (ob_id s)) system).
    + intros y. apply (remove_requests (ob_id s) (sy_runtime system)), Hok1.
  - left. split; [done|]. intros d Hd. change (dr_deliveries (runtime_of s1) !! ob_id s = Some d) in Hd.
    destruct (sn_front _ Hok1 (request_of d)) as [He Hh].
    { apply request_Some. eauto. }
    change (ob_pending s1) with (ob_pending s) in Hdone.
    change (ob_id s1) with (ob_id s) in Hdone. change (ob_epoch s1) with (ob_epoch s) in Hdone.
    simpl in He, Hh. rewrite Hh in Hdone. simpl in Hdone.
    unfold contains_submission in Hdone. change (sy_runtime system) with (runtime_of s1) in Hdone.
    rewrite Hd in Hdone. simpl in Hdone. rewrite !bool_decide_eq_true_2 in Hdone by done.
    simpl in Hdone. unfold delivery_state, delivery_in_epoch in Hdone. rewrite Hd in Hdone.
    rewrite bool_decide_eq_true_2 in Hdone by done. simpl in Hdone.
    by destruct (gid_state d).
Qed.

(** Calls for the request at the front. *)
Lemma requested_ok s s' submission :
  session_ok s -> head (ob_pending s) = Some submission ->
  ob_id s' = ob_id s -> ob_epoch s' = ob_epoch s -> ob_pending s' = ob_pending s ->
  rtc (system_step bracketed) (ob_system s) (ob_system s') ->
  requested (ob_id s) (ob_epoch s) submission (runtime_of s) (runtime_of s') ->
  session_ok s'.
Proof.
  intros [Hr Hb Ho Hf] Hh Hid He Hp Hrun [Ho' Hreq]. split.
  - unfold reachable_system in *. by etransitivity.
  - by rewrite Hp.
  - by rewrite Hid.
  - rewrite Hid, He, Hp. intros q Hq. destruct Hreq as [Hs|[c Hc]].
    + rewrite Hs in Hq. by apply Hf.
    + rewrite Hc in Hq. injection Hq as <-. done.
Qed.

Lemma call_block_ok k s sequence submission cause :
  session_ok s -> head (ob_pending s) = Some submission ->
  session_ok (call_delivery bracketed others k
    (CallBlock (ob_id s) (ob_epoch s) sequence submission cause None) s).
Proof.
  intros Hok Hh.
  pose proof (quiet_system bracketed s _ (carried_others bracketed others Hothers k _)) as Hq.
  pose proof (session_ok_quiet _ _ Hq Hok) as Hok1.
  eapply (requested_ok (s <| ob_system := others k (ob_system s) |>)); try done.
  - apply rtc_once, step_call.
  - apply block_requests, Hok1.
Qed.

Lemma call_begin_ok k s answers rounds sequence submission settlement :
  session_ok s -> head (ob_pending s) = Some submission ->
  session_ok (call_delivery bracketed others k
    (CallBegin answers rounds (ob_id s) (ob_epoch s) sequence submission settlement) s).
Proof.
  intros Hok Hh.
  pose proof (quiet_system bracketed s _ (carried_others bracketed others Hothers k _)) as Hq.
  pose proof (session_ok_quiet _ _ Hq Hok) as Hok1.
  eapply (requested_ok (s <| ob_system := others k (ob_system s) |>)); try done.
  - apply rtc_once, step_call.
  - apply begin_requests, Hok1.
Qed.

Lemma deliver_front_pending submission answers s :
  ob_id (deliver_front bracketed others submission answers s) = ob_id s /\
  ob_epoch (deliver_front bracketed others submission answers s) = ob_epoch s /\
  ob_pending (deliver_front bracketed others submission answers s) = ob_pending s.
Proof. unfold deliver_front. cbv zeta. repeat case_match; done. Qed.

Lemma deliver_front_ok submission answers s :
  session_ok s -> head (ob_pending s) = Some submission ->
  session_ok (deliver_front bracketed others submission answers s).
Proof.
  intros Hok Hh. unfold deliver_front. cbv zeta.
  set (s1 := s <| ob_system := others 601 (ob_system s) |>).
  assert (session_ok s1) as Hok1.
  { eapply session_ok_quiet; [|exact Hok]. by apply quiet_system, carried_others. }
  destruct (negb (can_begin_pending_submission _ _ _)).
  { destruct (_ && _); [|done]. by apply call_block_ok. }
  destruct (negb (generated_input_composer_may_accept _ _ _)).
  { destruct (is_some _); [|done]. by apply call_block_ok. }
  set (s2 := s1 <| ob_system := _ |>).
  assert (session_ok s2) as Hok2.
  { eapply session_ok_quiet; [|exact Hok1]. by apply quiet_system, carried_others. }
  destruct (can_begin_pending_submission _ _ _); [|done]. by apply call_begin_ok.
Qed.

(** A request whose paste has started is left to its delivery. *)
Lemma deliver_front_started submission answers s d :
  session_ok s -> head (ob_pending s) = Some submission ->
  dr_deliveries (runtime_of s) !! ob_id s = Some d -> started (runtime_of s) d ->
  accepts_replacement (gid_state d) = false ->
  quiet bracketed s (deliver_front bracketed others submission answers s).
Proof.
  intros Hok Hh Hd Hs Hacc. unfold deliver_front. cbv zeta.
  set (s1 := s <| ob_system := others 601 (ob_system s) |>).
  assert (quiet bracketed s s1) as Hq by by apply quiet_system, carried_others.
  assert (dr_deliveries (runtime_of s1) !! ob_id s = Some d) as Hd1.
  { unfold runtime_of, s1. simpl. by rewrite (worker_deliveries _ _ (Hothers 601 (ob_system s))). }
  assert (started (runtime_of s1) d) as Hs1.
  { eapply started_later; [apply Hq|done|done]. }
  destruct (sn_front _ Hok (request_of d)) as [He _]; [apply request_Some; eauto|]. simpl in He.
  assert (can_begin_pending_submission (runtime_of s1) (ob_id s) (ob_epoch s) = false) as Hcan.
  { unfold can_begin_pending_submission. rewrite Hd1. simpl. rewrite Hacc. unfold unwritten_block.
    unfold started in Hs1. rewrite Hs1. by rewrite !andb_false_r. }
  change (can_begin_pending_submission (sy_runtime (others 601 (ob_system s))) (ob_id s1) (ob_epoch s1))
    with (can_begin_pending_submission (runtime_of s1) (ob_id s) (ob_epoch s)).
  rewrite Hcan. cbn [negb].
  destruct (_ && _) eqn:Hw; [|done]. apply andb_true_iff in Hw as [_ Hw].
  apply bool_decide_eq_true in Hw. etransitivity; [exact Hq|].
  unfold call_delivery. set (system := others 603 (ob_system s1)).
  pose proof (carried_others bracketed others Hothers 603 (ob_system s1)) as Hc3. fold system in Hc3.
  assert (dr_deliveries (sy_runtime system) !! ob_id s = Some d) as Hd3.
  { unfold system. by rewrite (worker_deliveries _ _ (Hothers 603 (ob_system s1))). }
  assert (gid_state d = GS_WritingPaste) as Hst.
  { unfold delivery_state, delivery_in_epoch in Hw. unfold runtime_of, s1 in Hd1. simpl in Hd1, Hw.
    rewrite Hd1 in Hw. rewrite bool_decide_eq_true_2 in Hw by done. simpl in Hw. congruence. }
  apply quiet_system. etransitivity; [exact Hc3|]. split.
  - apply rtc_once, step_call.
  - simpl. unfold block_for_unavailable_composer. rewrite Hd3, He.
    rewrite (bool_decide_eq_true_2 (ob_epoch s = ob_epoch s)) by done. cbn [negb].
    rewrite Hst, bool_decide_eq_true_2 by done. cbn [snd].
    apply (same_write_back _ _ d); [done|]. unfold block_writing.
    pose proof (take_ack_request (cancel (d, cells_of (sy_runtime system) d))) as Ht.
    destruct (take_ack _) as [d' c]. exact Ht.
  - simpl. exact (kept_heap _ _ (kept_block _ _ _ _ _ _ _)).
Qed.

Lemma session_ok_completed s s' : session_ok s -> completed s s' -> session_ok s'.
Proof.
  intros [Hr Hb _ _] [_ _ Hp _ Hrun Hn]. apply session_ok_empty; [|rewrite Hp|done].
  - unfold reachable_system in *. by etransitivity.
  - destruct (ob_pending s); simpl in *; lia.
Qed.

Lemma close_empties reaped s :
  session_ok s ->
  session_ok (session_close bracketed others reaped s).2 /\
  ob_pending (session_close bracketed others reaped s).2 = [] /\
  forall y, dr_deliveries (runtime_of (session_close bracketed others reaped s).2) !! y = None.
Proof.
  intros Hok. unfold session_close.
  set (s1 := call_delivery _ _ _ _ _ <| ob_pending := [] |>). cbv zeta.
  assert (ob_pending s1 = []) as Hp by done.
  assert (forall y, dr_deliveries (runtime_of s1) !! y = None) as Hn.
  { intros y. apply (remove_requests (ob_id s) (sy_runtime (others 0 (ob_system s)))).
    eapply only_same; [|apply Hok]. apply (carried_others bracketed others Hothers). }
  assert (session_ok s1) as Hok1.
  { apply session_ok_empty; [|rewrite Hp; simpl; lia|done].
    assert (rtc (system_step bracketed) (ob_system s) (ob_system s1)) as Hrun.
    { etransitivity; [apply (carried_others bracketed others Hothers 0)|].
      apply rtc_once. exact (step_call bracketed (CallRemove (ob_id s)) _). }
    pose proof (sn_reachable _ Hok) as Hr. unfold reachable_system in *. by etransitivity. }
  clearbody s1.
  assert (forall s2, ob_system s2 = ob_system s1 -> ob_pending s2 = ob_pending s1 ->
    session_ok s2 /\ ob_pending s2 = [] /\
    forall y, dr_deliveries (runtime_of s2) !! y = None) as Hsame.
  { intros s2 Hsys Hpend. unfold runtime_of in *. rewrite Hsys, Hpend. split_and!; [|done|done].
    destruct Hok1 as [Hr Hb _ _]. apply session_ok_empty; unfold runtime_of; rewrite ?Hsys, ?Hpend;
      done. }
  destruct (ob_reap_failed s1); [by apply Hsame|]. destruct (ob_codex s1); [|by apply Hsame].
  destruct reaped; by apply Hsame.
Qed.

(** What one step may do to a delivery whose paste has started. *)
Definition unrepeated (s s' : ObservedSession) (d : GeneratedInputDelivery) : Prop :=
  (exists d', dr_deliveries (runtime_of s') !! ob_id s' = Some d' /\ gid_cells d' = gid_cells d /\
     head (ob_pending s') = head (ob_pending s)) \/
  ((exists mid state, rtc (system_step bracketed) (ob_system s) mid /\
      delivery_state (sy_runtime mid) (ob_id s) (ob_epoch s) = Some state /\
      accepts_replacement state = true) /\
   ob_pending s' = tail (ob_pending s)) \/
  (ob_pending s' = [] /\ forall y, dr_deliveries (runtime_of s') !! y = None).

Lemma quiet_unrepeated s s' d :
  quiet bracketed s s' -> dr_deliveries (runtime_of s) !! ob_id s = Some d -> unrepeated s s' d.
Proof.
  intros [Hid _ Hp [_ Hreq _]] Hd. left. rewrite Hid, Hp.
  destruct (same_delivery _ _ _ _ Hreq Hd) as (d' & Hd' & [= Hc _ _]). eauto.
Qed.

Lemma poll_outcome at_ms answers s :
  session_ok s ->
  session_ok (poll bracketed others at_ms answers s) /\
  forall d, dr_deliveries (runtime_of s) !! ob_id s = Some d -> started (runtime_of s) d ->
    unrepeated s (poll bracketed others at_ms answers s) d.
Proof.
  intros Hok. unfold poll. cbv zeta.
  set (s0 := s <| ob_signals := _ |>).
  set (s1 := poll_signals _ _ _ _ _ _ s0). set (s2 := drain_events _ _ _ _ s1).
  assert (quiet bracketed s s2) as Hq.
  { transitivity s0; [by split|]. transitivity s1.
    - by apply quiet_poll_signals.
    - by apply quiet_drain. }
  pose proof (session_ok_quiet _ _ Hq Hok) as Hok2.
  set (s3 := complete_front bracketed others s2).
  destruct (complete_front_cases s2 Hok2) as [[Hq3 Hlive]|Hdone]; fold s3 in Hq3, Hlive || fold s3 in Hdone.
  - pose proof (session_ok_quiet _ _ Hq3 Hok2) as Hok3.
    assert (quiet bracketed s s3) as Hq' by by transitivity s2.
    destruct (ob_hook_response_pending s3); [split; [done|intros; by apply quiet_unrepeated]|].
    destruct (head (ob_pending s3)) as [submission|] eqn:Hh;
      [|split; [done|intros; by apply quiet_unrepeated]].
    split; [by apply deliver_front_ok|]. intros d Hd Hs.
    destruct (same_delivery _ _ _ _ (cr_requests _ _ _ (qt_system _ _ _ Hq')) Hd)
      as (d' & Hd' & Hreq). injection Hreq as Hc _ _.
    assert (ob_id s3 = ob_id s) as Hid by apply Hq'.
    apply quiet_unrepeated; [|done]. transitivity s3; [done|].
    apply (deliver_front_started _ _ _ d'); try done.
    + by rewrite Hid.
    + eapply started_later; [apply Hq'|done|done].
    + apply Hlive. rewrite (qt_id _ _ _ Hq). done.
  - pose proof (session_ok_completed _ _ Hok2 Hdone) as Hok3.
    assert (forall s4, ob_pending s4 = ob_pending s3 -> forall d, unrepeated s s4 d) as Hleft.
    { intros s4 Hp4 d. right. left. destruct Hdone as [_ _ Hp (mid & st & Hrun & Hst & Hacc) _ _].
      destruct Hq as [Hid2 He2 Hp2 [Hrun2 _ _]]. split; [|congruence].
      exists mid, st. split_and!; [by etransitivity|by rewrite <- Hid2, <- He2|done]. }
    destruct (ob_hook_response_pending s3); [split; [done|intros; by apply Hleft]|].
    destruct (head (ob_pending s3)) as [submission|] eqn:Hh; [|split; [done|intros; by apply Hleft]].
    split; [by apply deliver_front_ok|]. intros d _ _. apply Hleft. apply deliver_front_pending.
Qed.
End session.

Section steps.
Context `{UuidParser} `{UuidText} `{HashOrder} (bracketed : bool).

Lemma quiet_hook others token input at_ms activity s :
  workers_run others ->
  quiet bracketed s (session_hook bracketed others token input at_ms activity s).2.
Proof.
  intros Ho. unfold session_hook. destruct (negb _); [reflexivity|].
  destruct (ingress_admit _ _ _) as [admitted ingress]. set (s1 := s <| ob_ingress := ingress |>).
  assert (quiet bracketed s s1) as Hq by (split; reflexivity).
  destruct (negb admitted); [done|]. destruct (normalize_provider_hook_observation _ _) as [n|]; [|done].
  destruct (negb _); [done|]. cbn [snd]. etransitivity; [exact Hq|].
  etransitivity; [|by apply quiet_observe].
  destruct (no_resume_ref n); destruct (_ == _); split; reflexivity.
Qed.

Lemma observed_step_outcome s s' :
  observed_step bracketed s s' -> session_ok bracketed s ->
  session_ok bracketed s' /\
  forall d, dr_deliveries (runtime_of s) !! ob_id s = Some d -> started (runtime_of s) d ->
    unrepeated bracketed s s' d.
Proof.
  intros Hstep Hok.
  assert (forall s2, quiet bracketed s s2 ->
    session_ok bracketed s2 /\
    forall d, dr_deliveries (runtime_of s) !! ob_id s = Some d -> started (runtime_of s) d ->
      unrepeated bracketed s s2 d) as Hquiet.
  { intros s2 Hq. split; [by eapply session_ok_quiet|]. intros. by apply quiet_unrepeated. }
  destruct Hstep as [submission s|others token input at_ms activity s Ho|token s
    |others at_ms answers s Ho|others reaped s Ho|s|signal s|system s Hw].
  - unfold session_enqueue. destruct (16 <=? length (ob_pending s))%nat eqn:Hlen; [by apply Hquiet|].
    apply Nat.leb_gt in Hlen. split; [by apply session_ok_push|]. intros d Hd _. left.
    exists d. split_and!; [done|done|]. simpl.
    destruct (sn_front _ _ Hok (request_of d)) as [_ Hh]; [apply request_Some; eauto|].
    by destruct (ob_pending s).
  - apply Hquiet. by apply quiet_hook.
  - apply Hquiet. unfold release_hook_response. destruct (observation_token_matches _ _); by split.
  - by apply poll_outcome.
  - destruct (close_empties bracketed others Ho reaped s Hok) as (Hok' & Hp & Hn).
    split; [done|]. intros. right. by right.
  - apply Hquiet. by split.
  - apply Hquiet. by split.
  - apply Hquiet, quiet_system, carried_workers. by apply rtc_once.
Qed.

Lemma reachable_session_ok id epoch provider token s :
  reachable_observed bracketed id epoch provider token s -> session_ok bracketed s.
Proof.
  unfold reachable_observed. intros Hrun.
  pose proof (new_session_ok bracketed id epoch provider token) as Hok.
  induction Hrun as [|a b c Hab _ IH]; [done|]. apply IH. by apply (observed_step_outcome a).
Qed.
End steps.

(** ** The claim *)


#[local] Instance sample_uuid_parser : UuidParser := fun _ => false.
#[local] Instance sample_uuid_text : UuidText := fun _ => None.
#[local] Instance sample_hash_order : HashOrder := {
  iteration A m := map_to_list m;
  iteration_entries A m := reflexivity _
}.

Definition no_workers (k : nat) (s : System) : System := s.
Definition session_start : ProviderHookObservationInput :=
  MkHookInput "SessionStart" None None None None None None None None None None.
Definition sample_poll : PollAnswers := MkPollAnswers (fun _ => None) sample_answers 3.

(** A Gemini Session that was started, and its first request pasted. *)
Definition waiting_session : ObservedSession :=
  release_hook_response "secret"
    (session_hook true no_workers "secret" session_start 1 None
       (session_enqueue sample_prompt (new_session "session" 1 "gemini" "secret")).2).2.
Definition pasting_session : ObservedSession := poll true no_workers 2 sample_poll waiting_session.

