(* ===== verification/ObservationIngress.v ===== *)
(** * The rate limit of provider observations

    Histories of [ProviderObservationIngress::admit]
    ([src/modules/agent-runtime/src/observation_ingress.rs]): how many Sessions
    it tracks, what it takes for an observation to be refused, and how many it
    admits in any second. *)

From Stdlib Require Import Sorting.Sorted.
From stdpp Require Import gmap sorting.
From S2P Require Import Prelude ObservedSession.

Local Open Scope string_scope.
Local Open Scope list_scope.

Section ingress.
Context `{HashOrder}.

(** ** Histories *)

Record Ingress : Type := MkIngress {
  ig_windows : gmap string IngressWindow;
  ig_admitted : list (string * N)
}.

(** One observation; [ig_admitted] records what was let in, with its time. *)
Definition admit_one (s : Ingress) (call : string * N) : Ingress :=
  let '(admitted, windows) := ingress_admit call.1 call.2 (ig_windows s) in
  MkIngress windows (ig_admitted s ++ if admitted : bool then [call] else []).
Definition admit_all (calls : list (string * N)) : Ingress :=
  fold_left admit_one calls (MkIngress ∅ []).

(** The times at which observations of [x] were admitted. *)
Definition times_of (x : string) (log : list (string * N)) : list N :=
  snd <$> retain (fun entry => entry.1 == x) log.

Lemma admit_all_snoc calls call : admit_all (calls ++ [call]) = admit_one (admit_all calls) call.
Proof. unfold admit_all. by rewrite fold_left_app. Qed.

Lemma times_of_app x l k : times_of x (l ++ k) = times_of x l ++ times_of x k.
Proof. unfold times_of. by rewrite retain_app, fmap_app. Qed.

Lemma times_of_one x y at_ms : times_of x [(y, at_ms)] = if decide (y = x) then [at_ms] else [].
Proof. unfold times_of. simpl. case_bool_decide; case_decide; done. Qed.

(** ** The number of tracked Sessions *)

Lemma min_by_key_Some {A} (key : A -> N) entries :
  entries <> [] -> exists entry, min_by_key key entries = Some entry /\ entry ∈ entries.
Proof.
  induction entries as [|entry rest IH]; [done|]. intros _. simpl.
  destruct (min_by_key key rest) as [least|] eqn:Hm.
  - destruct (_ <=? _)%N; eexists; (split; [done|]); [left|right].
    destruct rest as [|r rest]; [done|]. destruct IH as (e & [= ->] & He); done.
  - eexists. split; [done|]. left.
Qed.

Lemma admit_size x at_ms windows :
  size windows <= max_tracked_sessions ->
  size (ingress_admit x at_ms windows).2 <= max_tracked_sessions.
Proof.
  intros Hs. unfold ingress_admit. destruct (windows !! x) as [w|] eqn:Hx.
  - assert (forall w', size (<[x := w']> windows) = size windows) as Hsame.
    { intros w'. by rewrite map_size_insert, Hx. }
    repeat case_match; simpl; by rewrite Hsame.
  - cbn [snd]. destruct (max_tracked_sessions <=? size windows)%nat eqn:Hfull.
    + apply Nat.leb_le in Hfull.
      assert (iteration windows <> []) as Hne.
      { intros He. assert (map_to_list windows ≡ₚ []) as Hp
          by by rewrite <- iteration_entries, He.
        apply Permutation_nil_r, map_to_list_empty_iff in Hp. rewrite Hp, map_size_empty in Hfull.
        unfold max_tracked_sessions in Hfull. lia. }
      destruct (min_by_key_Some iw_last_seen_at_epoch_ms _ Hne) as ([oldest w] & -> & Hin).
      rewrite iteration_entries in Hin. apply elem_of_map_to_list in Hin.
      rewrite map_size_insert_None, map_size_delete, Hin.
      * unfold max_tracked_sessions in *. lia.
      * destruct (decide (oldest = x)) as [->|Hne']; [congruence|]. by rewrite lookup_delete_ne.
    + apply Nat.leb_gt in Hfull. rewrite map_size_insert_None by done. lia.
Qed.

(** ** What a refusal takes *)

(** The last admissions of a tracked Session are those of its window. *)
Definition window_ok (times : list N) (w : IngressWindow) : Prop :=
  exists older recent, times = older ++ recent /\ N.of_nat (length recent) = iw_events w /\
    (1 <= iw_events w <= max_events_per_window)%N /\
    Forall (fun t => iw_started_at_epoch_ms w <= t < iw_started_at_epoch_ms w + window_milliseconds)%N
      recent.

Definition ingress_ok (s : Ingress) : Prop :=
  forall x w, ig_windows s !! x = Some w -> window_ok (times_of x (ig_admitted s)) w.

Lemma fresh_window_ok times at_ms : window_ok (times ++ [at_ms]) (fresh_window at_ms).
Proof.
  exists times, [at_ms]. split_and!; [done|done|simpl; unfold max_events_per_window; lia..|].
  repeat constructor; simpl; unfold window_milliseconds; lia.
Qed.

Lemma window_ok_count times w at_ms seen :
  window_ok times w -> (iw_events w < max_events_per_window)%N ->
  (iw_started_at_epoch_ms w <= at_ms < iw_started_at_epoch_ms w + window_milliseconds)%N ->
  iw_started_at_epoch_ms seen = iw_started_at_epoch_ms w -> iw_events seen = (iw_events w + 1)%N ->
  window_ok (times ++ [at_ms]) seen.
Proof.
  intros (older & recent & -> & Hlen & Hb & Hall) Hlt Hat Hs He.
  exists older, (recent ++ [at_ms]). rewrite Hs, He, length_app. simpl.
  split_and!; [by rewrite app_assoc|lia..|].
  apply Forall_app. split; [done|]. by apply list.Forall_singleton.
Qed.

(** The case analysis of [ingress_admit] for a Session that is tracked. *)
Lemma admit_tracked x at_ms windows w :
  windows !! x = Some w ->
  (ingress_admit x at_ms windows = (true, <[x := fresh_window at_ms]> windows) /\
   (at_ms < iw_started_at_epoch_ms w \/ iw_started_at_epoch_ms w + window_milliseconds <= at_ms)%N) \/
  (iw_started_at_epoch_ms w <= at_ms < iw_started_at_epoch_ms w + window_milliseconds)%N /\
  let seen := w <| iw_last_seen_at_epoch_ms := at_ms |> in
  (ingress_admit x at_ms windows = (false, <[x := seen]> windows) /\ (max_events_per_window <= iw_events w)%N \/
   ingress_admit x at_ms windows = (true, <[x := seen <| iw_events := (iw_events w + 1)%N |>]> windows) /\
   (iw_events w < max_events_per_window)%N).
Proof.
  intros Hx. unfold ingress_admit. rewrite Hx. cbv zeta.
  destruct (_ || _) eqn:Hnew.
  - left. split; [done|]. apply orb_true_iff in Hnew as [Hn%N.ltb_lt|Hn%N.leb_le]; lia.
  - right. apply orb_false_iff in Hnew as [H1%N.ltb_ge H2%N.leb_gt]. split; [lia|]. simpl.
    destruct (max_events_per_window <=? iw_events w)%N eqn:He.
    + left. split; [done|]. by apply N.leb_le.
    + right. split; [done|]. by apply N.leb_gt.
Qed.

Lemma ingress_ok_step s call : ingress_ok s -> ingress_ok (admit_one s call).
Proof.
  destruct call as [x at_ms]. intros Hok y w. unfold admit_one. cbn [fst snd].
  assert (forall admitted : bool,
    x <> y -> times_of y (ig_admitted s ++ if admitted then [(x, at_ms)] else []) =
    times_of y (ig_admitted s)) as Hother.
  { intros admitted Hne. rewrite times_of_app. destruct admitted; [|by rewrite app_nil_r].
    rewrite times_of_one, decide_False by done. by rewrite app_nil_r. }
  assert (times_of x (ig_admitted s ++ [(x, at_ms)]) = times_of x (ig_admitted s) ++ [at_ms]) as Hself.
  { by rewrite times_of_app, times_of_one, decide_True. }
  destruct (ig_windows s !! x) as [w0|] eqn:Hx.
  - pose proof (Hok x w0 Hx) as Hw0.
    destruct (admit_tracked x at_ms _ w0 Hx) as [[-> _]|[Hin [[-> He]|[-> He]]]];
      cbn [ig_windows ig_admitted]; rewrite lookup_insert_Some; intros [[<- <-]|[Hne Hw]];
      try (first [rewrite (Hother true) by done|rewrite (Hother false) by done]; by apply Hok).
    + rewrite Hself. apply fresh_window_ok.
    + rewrite app_nil_r. exact Hw0.
    + rewrite Hself. by apply (window_ok_count _ w0).
  - unfold ingress_admit. rewrite Hx. cbn [fst snd ig_windows ig_admitted].
    rewrite lookup_insert_Some. intros [[<- <-]|[Hne Hw]].
    + rewrite Hself. apply fresh_window_ok.
    + rewrite (Hother true) by done. apply Hok. revert Hw.
      destruct (max_tracked_sessions <=? _)%nat; [|done].
      destruct (min_by_key _ _) as [[oldest v]|]; [|done]. by intros [_ Hw]%lookup_delete_Some.
Qed.

Lemma admit_all_ok calls : ingress_ok (admit_all calls).
Proof.
  induction calls as [|call calls IH] using rev_ind.
  - intros x w. simpl. by rewrite lookup_empty.
  - rewrite admit_all_snoc. by apply ingress_ok_step.
Qed.

Lemma admit_all_size calls : size (ig_windows (admit_all calls)) <= max_tracked_sessions.
Proof.
  induction calls as [|[x at_ms] calls IH] using rev_ind.
  - simpl. rewrite map_size_empty. lia.
  - rewrite admit_all_snoc. unfold admit_one. cbn [fst snd].
    pose proof (admit_size x at_ms _ IH) as Hs.
    by destruct (ingress_admit x at_ms _).
Qed.

(** ** How many observations are admitted in a second *)

Definition within_second (from : N) (times : list N) : nat :=
  length (retain (fun t => (from <=? t)%N && (t <? from + window_milliseconds)%N) times).

Lemma within_app from l k : within_second from (l ++ k) = within_second from l + within_second from k.
Proof. unfold within_second. by rewrite retain_app, length_app. Qed.

Lemma within_length from l : within_second from l <= length l.
Proof. unfold within_second. induction l as [|t l IH]; simpl; [done|]. case_match; simpl; lia. Qed.

Lemma within_earlier from l : Forall (fun t => t < from)%N l -> within_second from l = 0.
Proof.
  unfold within_second. induction 1 as [|t l Ht _ IH]; simpl; [done|].
  by rewrite (proj2 (N.leb_gt from t) Ht).
Qed.

Lemma within_one from at_ms :
  within_second from [at_ms] = 0 \/
  within_second from [at_ms] = 1 /\ (from <= at_ms < from + window_milliseconds)%N.
Proof.
  unfold within_second. simpl. destruct (from <=? at_ms)%N eqn:H1; simpl; [|by left].
  destruct (at_ms <? _)%N eqn:H2; simpl; [|by left].
  right. apply N.leb_le in H1. apply N.ltb_lt in H2. split; [done|lia].
Qed.

(** Beside [window_ok]: nothing older than the window is later than its start,
    one second that reaches the window holds at most one window of what is older,
    and no second holds more than two. *)
Definition rate_ok (times : list N) (w : IngressWindow) : Prop :=
  exists older recent, times = older ++ recent /\ N.of_nat (length recent) = iw_events w /\
    (1 <= iw_events w <= max_events_per_window)%N /\
    Forall (fun t => t <= iw_started_at_epoch_ms w)%N older /\
    Forall (fun t => iw_started_at_epoch_ms w <= t)%N recent /\
    (forall from, iw_started_at_epoch_ms w < from + window_milliseconds ->
       N.of_nat (within_second from older) <= max_events_per_window)%N /\
    (forall from, N.of_nat (within_second from times) <= 2 * max_events_per_window)%N.

Lemma first_rate_ok at_ms : rate_ok [at_ms] (fresh_window at_ms).
Proof.
  exists [], [at_ms]. unfold max_events_per_window. split_and!; simpl; [done|done|lia|lia|done|by apply list.Forall_singleton| |].
  - intros from _. unfold within_second. simpl. lia.
  - intros from. pose proof (within_length from [at_ms]). simpl in *. lia.
Qed.

Lemma next_rate_ok times w at_ms :
  rate_ok times w -> (iw_started_at_epoch_ms w + window_milliseconds <= at_ms)%N ->
  Forall (fun t => t <= at_ms)%N times -> rate_ok (times ++ [at_ms]) (fresh_window at_ms).
Proof.
  intros (older & recent & -> & Hlen & Hb & Hold & Hrec & Hreach & Hall) Hat Hle.
  assert (forall from, at_ms < from + window_milliseconds ->
    N.of_nat (within_second from (older ++ recent)) <= max_events_per_window)%N as Hprev.
  { intros from Hfrom. rewrite within_app, (within_earlier from older).
    - pose proof (within_length from recent). lia.
    - eapply list.Forall_impl; [exact Hold|]. intros t Ht. simpl in Ht. lia. }
  exists (older ++ recent), [at_ms]. split_and!; simpl; [done|done|unfold max_events_per_window; lia..|done|by apply list.Forall_singleton|done|].
  intros from. rewrite within_app.
  destruct (within_one from at_ms) as [->|[-> Hin]]; [specialize (Hall from); lia|].
  specialize (Hprev from ltac:(lia)). unfold max_events_per_window in *. lia.
Qed.

Lemma same_rate_ok times w at_ms seen :
  rate_ok times w -> (iw_events w < max_events_per_window)%N ->
  (iw_started_at_epoch_ms w <= at_ms)%N ->
  iw_started_at_epoch_ms seen = iw_started_at_epoch_ms w -> iw_events seen = (iw_events w + 1)%N ->
  rate_ok (times ++ [at_ms]) seen.
Proof.
  intros (older & recent & -> & Hlen & Hb & Hold & Hrec & Hreach & Hall) Hlt Hat Hs He.
  exists older, (recent ++ [at_ms]). rewrite Hs, He, length_app. simpl.
  split_and!; [by rewrite app_assoc|lia..|done| |done|].
  { apply Forall_app. split; [done|]. by apply list.Forall_singleton. }
  intros from. rewrite !within_app. specialize (Hall from). rewrite within_app in Hall.
  destruct (within_one from at_ms) as [->|[-> Hin]]; [lia|].
  specialize (Hreach from ltac:(lia)). pose proof (within_length from recent). lia.
Qed.

(** The start of a window is the time of one of its admissions or before it. *)
Lemma rate_ok_started times w at_ms :
  rate_ok times w -> Forall (fun t => t <= at_ms)%N times -> (iw_started_at_epoch_ms w <= at_ms)%N.
Proof.
  intros (older & recent & -> & Hlen & Hb & _ & Hrec & _) [_ Hle]%Forall_app.
  destruct recent as [|t recent]; [simpl in Hlen; lia|].
  apply Forall_cons_1 in Hrec as [Ht _]. apply Forall_cons_1 in Hle as [Hle _]. simpl in *. lia.
Qed.

(** The Sessions of a history; no more than are tracked, so none is forgotten. *)
Definition observed_sessions (calls : list (string * N)) : gset string := list_to_set calls.*1.

Record rated (calls : list (string * N)) (s : Ingress) : Prop := {
  rated_known : dom (ig_windows s) ⊆ observed_sessions calls;
  rated_windows x w : ig_windows s !! x = Some w -> rate_ok (times_of x (ig_admitted s)) w;
  rated_fresh x : ig_windows s !! x = None -> times_of x (ig_admitted s) = [];
  rated_past entry : entry ∈ ig_admitted s -> entry ∈ calls
}.

Lemma times_of_elem x t log : t ∈ times_of x log -> (x, t) ∈ log.
Proof.
  unfold times_of. intros ([y u] & -> & Hin)%list_elem_of_fmap.
  induction log as [|[z v] log IH]; simpl in *; [by apply not_elem_of_nil in Hin|].
  case_bool_decide as Hz; [|right; auto].
  apply elem_of_cons in Hin as [[= -> ->]|Hin]; [subst; left|right; auto].
Qed.

Lemma untracked_room calls x at_ms s :
  rated calls s -> size (observed_sessions (calls ++ [(x, at_ms)])) <= max_tracked_sessions ->
  ig_windows s !! x = None -> size (ig_windows s) < max_tracked_sessions.
Proof.
  intros [Hk _ _ _] Hsize Hx. apply not_elem_of_dom in Hx.
  rewrite <- size_dom. eapply Nat.lt_le_trans; [|exact Hsize].
  apply subset_size. split.
  - unfold observed_sessions in *. rewrite fmap_app, list_to_set_app_L. set_solver.
  - intros Hsub. apply Hx, Hsub. unfold observed_sessions. rewrite fmap_app, list_to_set_app_L. set_solver.
Qed.

Lemma observed_sessions_snoc calls x at_ms : observed_sessions (calls ++ [(x, at_ms)]) = observed_sessions calls ∪ {[x]}.
Proof. unfold observed_sessions. rewrite fmap_app, list_to_set_app_L. simpl. set_solver. Qed.

(** The log of one more observation, seen by one Session. *)
Lemma logged_times x y at_ms log (admitted : bool) :
  times_of y (log ++ if admitted then [(x, at_ms)] else []) =
  times_of y log ++ if admitted && (x == y) then [at_ms] else [].
Proof.
  rewrite times_of_app. destruct admitted; [|done]. rewrite times_of_one. simpl.
  case_bool_decide; case_decide; done.
Qed.

(** One step changes only the window of the Session observed. *)
Lemma rated_step_at calls x at_ms s (admitted : bool) w :
  rated calls s ->
  rate_ok (times_of x (ig_admitted s) ++ if admitted then [at_ms] else []) w ->
  rated (calls ++ [(x, at_ms)])
    (MkIngress (<[x := w]> (ig_windows s)) (ig_admitted s ++ if admitted then [(x, at_ms)] else [])).
Proof.
  intros [Hk Hw Hf Hp] Hnew. split; cbn [ig_windows ig_admitted].
  - rewrite observed_sessions_snoc. set_solver.
  - intros y v. rewrite lookup_insert_Some, logged_times. intros [[<- <-]|[Hne Hv]].
    + rewrite bool_decide_true by done. by rewrite andb_true_r.
    + rewrite bool_decide_false, andb_false_r, app_nil_r by done. auto.
  - intros y. rewrite lookup_insert_None, logged_times. intros [Hy Hne].
    rewrite bool_decide_false, andb_false_r, app_nil_r by done. auto.
  - intros entry. rewrite !elem_of_app. destruct admitted; set_solver.
Qed.

Lemma rated_step calls x at_ms s :
  rated calls s -> size (observed_sessions (calls ++ [(x, at_ms)])) <= max_tracked_sessions ->
  Forall (fun call => call.2 <= at_ms)%N calls -> rated (calls ++ [(x, at_ms)]) (admit_one s (x, at_ms)).
Proof.
  intros Hr Hsize Hlate. unfold admit_one. cbn [fst snd].
  assert (Forall (fun t => t <= at_ms)%N (times_of x (ig_admitted s))) as Hle.
  { apply list.Forall_forall. intros t Ht%times_of_elem%(rated_past _ _ Hr).
    by apply (proj1 (list.Forall_forall _ _) Hlate) in Ht. }
  destruct (ig_windows s !! x) as [w|] eqn:Hx.
  - pose proof (rated_windows _ _ Hr x w Hx) as Hw.
    destruct (admit_tracked x at_ms _ w Hx) as [[-> Hnew]|[Hin [[-> He]|[-> He]]]].
    + apply (rated_step_at _ _ _ _ true); [done|]. apply (next_rate_ok _ w); [done| |done].
      destruct Hnew as [Hback|Hnew]; [|done]. exfalso.
      pose proof (rate_ok_started _ _ _ Hw Hle). lia.
    + apply (rated_step_at _ _ _ _ false); [done|]. by rewrite app_nil_r.
    + apply (rated_step_at _ _ _ _ true); [done|]. apply (same_rate_ok _ w); try done. lia.
  - unfold ingress_admit. rewrite Hx.
    pose proof (untracked_room _ _ _ _ Hr Hsize Hx) as Hroom%Nat.leb_gt. rewrite Hroom.
    apply (rated_step_at _ _ _ _ true); [done|].
    rewrite (rated_fresh _ _ Hr x Hx). apply first_rate_ok.
Qed.

End ingress.

Section rate.
Context `{HashOrder}.

Lemma admit_all_rated calls :
  StronglySorted N.le calls.*2 -> size (observed_sessions calls) <= max_tracked_sessions ->
  rated calls (admit_all calls).
Proof.
  induction calls as [|[x at_ms] calls IH] using rev_ind.
  - intros _ _. split; simpl; [set_solver|by intros x w; rewrite lookup_empty|done|set_solver].
  - intros Hsort Hsize. rewrite admit_all_snoc. rewrite fmap_app in Hsort.
    apply StronglySorted_app in Hsort as (Hle & Hsort & _).
    apply rated_step; [apply IH; [done|]|done|].
    + eapply Nat.le_trans; [|exact Hsize]. apply subseteq_size. rewrite observed_sessions_snoc. set_solver.
    + apply list.Forall_forall. intros call Hcall. apply Hle; [|by left].
      by apply list_elem_of_fmap_2.
Qed.

Lemma rated_within calls s x from :
  rated calls s -> (N.of_nat (within_second from (times_of x (ig_admitted s))) <= 2 * max_events_per_window)%N.
Proof.
  intros Hr. destruct (ig_windows s !! x) as [w|] eqn:Hx.
  - destruct (rated_windows _ _ Hr x w Hx) as (older & recent & -> & _ & _ & _ & _ & _ & Hall). apply Hall.
  - rewrite (rated_fresh _ _ Hr x Hx). unfold within_second, max_events_per_window. simpl. lia.
Qed.

Lemma refused_window s x at_ms :
  ingress_ok s -> (ingress_admit x at_ms (ig_windows s)).1 = false ->
  exists older recent start, times_of x (ig_admitted s) = older ++ recent /\
    N.of_nat (length recent) = max_events_per_window /\
    Forall (fun t => start <= t < start + window_milliseconds)%N (recent ++ [at_ms]).
Proof.
  intros Hok. destruct (ig_windows s !! x) as [w|] eqn:Hx.
  - destruct (Hok x w Hx) as (older & recent & Ht & Hlen & Hb & Hall).
    destruct (admit_tracked x at_ms _ w Hx) as [[-> _]|[Hin [[-> He]|[-> _]]]]; [done| |done].
    intros _. exists older, recent, (iw_started_at_epoch_ms w). split_and!; [done|lia|].
    apply Forall_app. split; [done|]. by apply list.Forall_singleton.
  - unfold ingress_admit. by rewrite Hx.
Qed.
End rate.


#[local] Instance sample_iteration : HashOrder := {
  iteration A m := map_to_list m;
  iteration_entries A m := reflexivity _
}.

(** A burst of 257 hooks in one millisecond: the last is refused. *)
Definition hook_burst : list (string * N) := replicate 257 ("session-a", 10%N).

