(* ===== verification/SessionRecords.v ===== *)
(** * Session records

    The store's methods on Sessions: [store/src/records/session.rs],
    [deleted_session.rs], [terminal_restore.rs], the standalone admission of
    [session_admission.rs], and the clauses of [validation.rs] about Sessions,
    deleted Sessions and the readiness of conversations. *)

From S2P Require Import Prelude Text Domain DomainRules StoreState SessionJournals.

Local Open Scope string_scope.
Local Open Scope list_scope.

(** ** Lookups *)

(** [sessions.iter().position(|session| session.id == session_id)] *)
Definition session_position (st : CurrentState) (session_id : string) : option (nat * SessionRecord) :=
  position (fun session => s_id session == session_id) (sessions st).

(** [self.state.sessions[index] = session] *)
Definition set_session (index : nat) (session : SessionRecord) (st : CurrentState) : CurrentState :=
  st <| sessions := <[index := session]> (sessions st) |>.

Definition readiness_position (st : CurrentState) (session_id : string)
  : option (nat * AgentConversationReadinessRecord) :=
  position (fun record => rd_session_id record == session_id) (agent_conversation_readiness st).

Definition is_relocating (st : CurrentState) (session_id : string) : bool :=
  any (fun operation => rlo_session_id operation == session_id) (session_relocation_operations st).

Definition drop_relocations (ids : list string) (st : CurrentState) : CurrentState :=
  st <| session_relocation_operations :=
          retain (fun operation => negb (bool_decide (rlo_session_id operation ∈ ids)))
            (session_relocation_operations st) |>.

Definition drop_relocation_receipts (ids : list string) (st : CurrentState) : CurrentState :=
  st <| session_relocation_receipts :=
          retain (fun receipt => negb (bool_decide (rlr_session_id receipt ∈ ids)))
            (session_relocation_receipts st) |>.

(** ** What goes with a Session *)

(** [remove_agent_plans_for_sessions]; its callers ignore the result. *)
Definition remove_agent_plans_for_sessions (ids : list string) (st : CurrentState) : CurrentState :=
  st <| agent_plans :=
          retain (fun plan => negb (bool_decide (dap_session_id plan ∈ ids))) (agent_plans st) |>.

(** [remove_agent_conversation_readiness] *)
Definition remove_agent_conversation_readiness (ids : list string) (st : CurrentState)
  : CurrentState :=
  st <| agent_conversation_readiness :=
          retain (fun record => negb (bool_decide (rd_session_id record ∈ ids)))
            (agent_conversation_readiness st) |>.

(** [clear_ask_to_continuations_for_session]; its callers ignore the result. *)
Definition without_continuation (session_id : string) (session : SessionRecord) : SessionRecord :=
  if (s_id session == session_id) || (s_ask_to_source_session_id session == Some session_id)
  then session <| s_ask_to_continuation := None |> else session.
Definition clear_ask_to_continuations_for_session (session_id : string)
    (sessions : list SessionRecord) : list SessionRecord :=
  without_continuation session_id <$> sessions.

(** [clear_executor_session_references] *)
Definition points_to (ids : list string) (configuration : StewardConfiguration) : bool :=
  is_some_and (stw_executor_session_id configuration) (fun id => bool_decide (id ∈ ids)).
Definition clear_executor_session_references (ids : list string) (st : CurrentState)
  : bool * CurrentState :=
  (any (points_to ids) (steward_configurations st),
   st <| steward_configurations :=
           (fun configuration =>
              if points_to ids configuration
              then configuration <| stw_executor_session_id := None |> else configuration)
             <$> steward_configurations st |>).

(** [remove_exact_session_descriptors] *)
Definition remove_exact_session_descriptors (ids : list string) (st : CurrentState)
  : bool * CurrentState :=
  if ids == [] then (false, st)
  else
    let kept := retain (fun session => negb (bool_decide (s_id session ∈ ids))) (sessions st) in
    if (length kept =? length (sessions st))%nat then (false, st <| sessions := kept |>)
    else
      let kept :=
        fold_left (fun kept id => clear_ask_to_continuations_for_session id kept) ids kept in
      (true,
       remove_agent_conversation_readiness ids
         (remove_agent_plans_for_sessions ids
            (drop_relocations ids
               (drop_relocation_receipts ids (st <| sessions := kept |>))))).

(** The resume failures that leave the ownership of a process uncertain. *)
Definition is_uncertain (failure : option ResumeFailureReason) : bool :=
  match failure with
  | Some (RFR_RuntimeOwnershipUncertain | RFR_RuntimeConflict) => true
  | _ => false
  end.

(** [configuration.executor_session_id], of every configuration that has one. *)
Definition configured_sessions (st : CurrentState) : list string :=
  omap stw_executor_session_id (steward_configurations st).

(** [remove_obsolete_assistant_sessions] *)
Definition is_obsolete_assistant (st : CurrentState) (session : SessionRecord) : bool :=
  (s_kind session == SessionKind_Agent)
  && (pd_template_ref (s_process session) == Some "builtin.steward.executor")
  && is_none (s_archived_at_epoch_ms session)
  && negb (bool_decide (s_id session ∈ configured_sessions st))
  && negb (any (fun operation => sao_session_id operation == s_id session)
             (session_archive_operations st))
  && (if (s_lifecycle_state session == "exited") || (s_lifecycle_state session == "stale") then true
      else if s_lifecycle_state session == "resumeFailed"
      then negb (is_uncertain (s_resume_failure session))
      else false).
Definition remove_obsolete_assistant_sessions (st : CurrentState) : bool * CurrentState :=
  remove_exact_session_descriptors
    (s_id <$> retain (is_obsolete_assistant st) (sessions st)) st.

(** ** Admission *)

(** [standalone_preference] *)
Definition standalone_preference (st : CurrentState) (session : SessionRecord)
    (remember_launch : bool) : result StoreError (option SavedAgentLaunchSelection) :=
  if any (fun value => s_id value == s_id session) (sessions st) then Err AlreadyExists
  else if negb remember_launch then Ok None
  else
    match pd_agent_id (s_process session) with
    | None => Err ConstraintViolation
    | Some agent_id =>
        let preference := MkSavedAgentLaunchSelection agent_id (s_launch_selection session) in
        if (s_kind session != SessionKind_Agent) || negb (saved_selection_is_valid preference)
        then Err ConstraintViolation
        else Ok (Some preference)
    end.

(** [admit_fresh_session(session, FreshSessionAdmission::Standalone { .. })] *)
Definition admitted (session : SessionRecord) (preference : option SavedAgentLaunchSelection)
    (st : CurrentState) : CurrentState :=
  st <| agent_conversation_readiness :=
          (if s_kind session == SessionKind_Agent
           then agent_conversation_readiness st
                ++ [MkAgentConversationReadinessRecord (s_id session) ACR_Unconfirmed]
           else agent_conversation_readiness st) |>
     <| sessions := sessions st ++ [session] |>
     <| last_agent_launch_selection :=
          (if is_some preference then preference else last_agent_launch_selection st) |>.
Definition admit_standalone (session : SessionRecord) (remember_launch : bool) : StoreM N :=
  let! st := get_state in
  let! preference := lift (standalone_preference st session remember_launch) in
  install_revision st (admitted session preference st).

(** [insert_session], [insert_session_and_remember_agent_launch] *)
Definition insert_session (session : SessionRecord) : StoreM N := admit_standalone session false.
Definition insert_session_and_remember_agent_launch (session : SessionRecord) : StoreM N :=
  admit_standalone session true.

(** [rollback_assistant_launch] *)
Definition rollback_assistant_launch (session_id : string) : StoreM N :=
  let! st := get_state in
  let! '(index, session) := lift (ok_or (session_position st session_id) NotFound) in
  refuse_if (negb (any (fun configuration =>
               stw_executor_session_id configuration == Some session_id)
               (steward_configurations st))) ConstraintViolation ;;
  match find_mut (fun configuration =>
          (stw_project_id configuration == s_project_id session)
          && (stw_executor_session_id configuration == Some session_id))
          (fun configuration => configuration <| stw_executor_session_id := None |>)
          (steward_configurations st) with
  | None => fail ConstraintViolation
  | Some (_, configurations) =>
      let st' :=
        remove_agent_plans_for_sessions [session_id] (st <| steward_configurations := configurations |>)
      in
      install_revision st
        (remove_agent_conversation_readiness [session_id]
           (st' <| sessions := delete index (sessions st') |>))
  end.

(** ** The conversation of a Session *)

Section resume.
Context `{UuidParser}.

(** [mark_agent_conversation_resumable] *)
Definition mark_agent_conversation_resumable (session_id : string) : StoreM N :=
  let! st := get_state in
  let! session := lift (ok_or (find_session st session_id) NotFound) in
  match s_resume_ref session with
  | None => fail InvalidResumeRef
  | Some resume_ref =>
      refuse_if (negb (resume_ref_validate resume_ref)) InvalidResumeRef ;;
      refuse_if ((s_kind session != SessionKind_Agent)
                 || negb (provider_matches_agent (ref_provider resume_ref)
                            (pd_agent_id (s_process session)))) ResumeProviderMismatch ;;
      let! '(index, record) := lift (ok_or (readiness_position st session_id) ConstraintViolation) in
      if rd_readiness record == ACR_Resumable then ret (revision st)
      else
        install_revision st
          (st <| agent_conversation_readiness :=
                   <[index := record <| rd_readiness := ACR_Resumable |>]>
                     (agent_conversation_readiness st) |>)
  end.

(** [mark_session_exited] *)
Definition exited_session (session : SessionRecord) : SessionRecord :=
  session <| s_lifecycle_state := "exited" |> <| s_resume_failure := None |>.
Definition mark_session_exited (session_id : string) : StoreM N :=
  let! st := get_state in
  let! '(index, session) := lift (ok_or (session_position st session_id) NotFound) in
  if (s_lifecycle_state session == "exited") && negb (is_relocating st session_id)
  then ret (revision st)
  else
    let st' := set_session index (exited_session session) st in
    let st' := (clear_executor_session_references [session_id] st').2 in
    let st' := drop_relocations [session_id] st' in
    install_revision st (remove_obsolete_assistant_sessions st').2.

(** [establish_session_resume_ref] *)
Definition establish_session_resume_ref (session_id : string) (resume_ref : ResumeRef) : StoreM N :=
  refuse_if (negb (resume_ref_validate resume_ref)) InvalidResumeRef ;;
  let! st := get_state in
  let! '(index, session) := lift (ok_or (session_position st session_id) NotFound) in
  refuse_if ((s_kind session != SessionKind_Agent)
             || negb (provider_matches_agent (ref_provider resume_ref)
                        (pd_agent_id (s_process session)))) ResumeProviderMismatch ;;
  match s_resume_ref session with
  | Some current =>
      if current == resume_ref then ret (revision st) else fail ResumeRefReplacement
  | None =>
      install_revision st (set_session index (session <| s_resume_ref := Some resume_ref |>) st)
  end.

(** [replace_running_session_resume_ref] *)
Definition replace_running_session_resume_ref (session_id : string)
    (expected_resume_ref replacement : ResumeRef) : StoreM N :=
  refuse_if (negb (resume_ref_validate expected_resume_ref) || negb (resume_ref_validate replacement))
    InvalidResumeRef ;;
  let! st := get_state in
  let! '(index, session) := lift (ok_or (session_position st session_id) NotFound) in
  refuse_if ((s_kind session != SessionKind_Agent)
             || (ref_provider expected_resume_ref != ref_provider replacement)
             || negb (provider_matches_agent (ref_provider replacement)
                        (pd_agent_id (s_process session)))) ResumeProviderMismatch ;;
  refuse_if ((s_lifecycle_state session != "running")
             || (s_resume_ref session != Some expected_resume_ref)) ConstraintViolation ;;
  if expected_resume_ref == replacement then ret (revision st)
  else install_revision st (set_session index (session <| s_resume_ref := Some replacement |>) st).

(** [update_running_agent_session_launch_selection] *)
Definition update_running_agent_session_launch_selection (session_id : string) (runtime_epoch : N)
    (expected_resume_ref : ResumeRef) (launch_selection : AgentLaunchSelection) : StoreM N :=
  refuse_if (negb (resume_ref_validate expected_resume_ref)) InvalidResumeRef ;;
  let! st := get_state in
  let! '(index, session) := lift (ok_or (session_position st session_id) NotFound) in
  refuse_if ((s_kind session != SessionKind_Agent)
             || negb (provider_matches_agent (ref_provider expected_resume_ref)
                        (pd_agent_id (s_process session)))
             || (s_lifecycle_state session != "running")
             || (s_runtime_epoch session != runtime_epoch)
             || (s_resume_ref session != Some expected_resume_ref)) ConstraintViolation ;;
  refuse_if (negb (launch_selection_is_well_formed launch_selection)
             || (als_account_id launch_selection != als_account_id (s_launch_selection session)))
    ConstraintViolation ;;
  if s_launch_selection session == launch_selection then ret (revision st)
  else install_revision st
         (set_session index (session <| s_launch_selection := launch_selection |>) st).

(** [switch_agent_session_account] *)
Definition switch_agent_session_account (session_id : string) (runtime_epoch : N)
    (account_id : string) : StoreM N :=
  let! st := get_state in
  let! '(index, session) := lift (ok_or (session_position st session_id) NotFound) in
  match pd_agent_id (s_process session) ≫= account_provider_parse with
  | None => fail ConstraintViolation
  | Some provider =>
      refuse_if ((s_kind session != SessionKind_Agent)
                 || (s_runtime_epoch session != runtime_epoch)
                 || negb (any (fun account =>
                      (aa_agent_id account == provider) && (aa_account_id account == account_id))
                      (agent_accounts st))) ConstraintViolation ;;
      if als_account_id (s_launch_selection session) == Some account_id then ret (revision st)
      else
        let selection := s_launch_selection session in
        install_revision st
          (set_session index
             (session <| s_launch_selection :=
                           selection <| als_account_id := Some account_id |> |>) st)
  end.

(** [mark_session_resuming] *)
Definition mark_session_resuming (session_id : string) : StoreM N :=
  let! st := get_state in
  let! '(index, session) := lift (ok_or (session_position st session_id) NotFound) in
  if (s_lifecycle_state session == "resuming") && is_none (s_resume_failure session)
  then ret (revision st)
  else
    refuse_if ((s_kind session != SessionKind_Agent)
               || is_none_or (s_resume_ref session) (fun v => negb (resume_ref_validate v)))
      InvalidResumeRef ;;
    install_revision st
      (set_session index
         (session <| s_lifecycle_state := "resuming" |> <| s_resume_failure := None |>) st).

(** [complete_session_resume] *)
Definition complete_session_resume (session_id : string) (expected_resume_ref : ResumeRef)
    (runtime_epoch : N) : StoreM N :=
  let! st := get_state in
  let! '(readiness_index, record) :=
    lift (ok_or (readiness_position st session_id) ConstraintViolation) in
  let! '(index, session) := lift (ok_or (session_position st session_id) NotFound) in
  refuse_if ((s_lifecycle_state session != "resuming")
             || (s_resume_ref session != Some expected_resume_ref)) ConstraintViolation ;;
  let st' :=
    set_session index
      (session <| s_lifecycle_state := "running" |> <| s_runtime_epoch := runtime_epoch |>
               <| s_resume_failure := None |>) st in
  install_revision st
    (drop_relocation_receipts [session_id]
       (st' <| agent_conversation_readiness :=
                 <[readiness_index := record <| rd_readiness := ACR_Resumable |>]>
                   (agent_conversation_readiness st') |>)).

(** [clear_mismatched_resume_launch_guard] *)
Definition clear_mismatched_resume_launch_guard (session_id : string) : StoreM SessionRecord :=
  let! st := get_state in
  let! '(index, session) := lift (ok_or (session_position st session_id) NotFound) in
  if is_none_or (s_resume_launch_guard session) (fun guard =>
       g_path guard == pd_cwd (s_process session))
  then ret session
  else
    let session := session <| s_resume_launch_guard := None |> in
    install st (set_session index session st) session.

(** [mark_session_resume_failed] *)
Definition resume_failed_session (failure : ResumeFailureReason) (session : SessionRecord)
  : SessionRecord :=
  session <| s_lifecycle_state := "resumeFailed" |> <| s_resume_failure := Some failure |>.
Definition has_resume_failed (failure : ResumeFailureReason) (session : SessionRecord) : bool :=
  (s_lifecycle_state session == "resumeFailed") && (s_resume_failure session == Some failure).
Definition mark_session_resume_failed (session_id : string) (failure : ResumeFailureReason)
  : StoreM N :=
  let! st := get_state in
  let! '(index, session) := lift (ok_or (session_position st session_id) NotFound) in
  if has_resume_failed failure session && negb (is_relocating st session_id)
  then ret (revision st)
  else
    refuse_if (s_kind session != SessionKind_Agent) ConstraintViolation ;;
    install_revision st
      (drop_relocations [session_id]
         (set_session index (resume_failed_session failure session) st)).

(** One round of the loop of [mark_sessions_resume_failed]. *)
Definition fail_one (entry : string * ResumeFailureReason) (acc : bool * CurrentState)
  : bool * CurrentState :=
  let '(changed, st) := acc in
  match session_position st entry.1 with
  | None => (changed, st)
  | Some (index, session) =>
      if s_kind session != SessionKind_Agent then (changed, st)
      else if has_resume_failed entry.2 session then (changed, st)
      else (true, set_session index (resume_failed_session entry.2 session) st)
  end.
(** [mark_sessions_resume_failed] *)
Definition mark_sessions_resume_failed (failures : list (string * ResumeFailureReason)) : StoreM N :=
  let! st := get_state in
  let '(changed, st') := fold_left (fun acc entry => fail_one entry acc) failures (false, st) in
  let st'' := drop_relocations failures.*1 st' in
  if changed || negb (length (session_relocation_operations st')
                      =? length (session_relocation_operations st''))%nat
  then install_revision st st'' else (put_state st'' ;; ret (revision st'')).

(** [mark_startup_resume_overflow] *)
Definition overflows (admitted_session_ids : list string) (session : SessionRecord) : bool :=
  (s_kind session == SessionKind_Agent) && (s_lifecycle_state session == "resuming")
  && negb (bool_decide (s_id session ∈ admitted_session_ids)).
Definition mark_startup_resume_overflow (admitted_session_ids : list string) : StoreM N :=
  let! st := get_state in
  let overflow := retain (overflows admitted_session_ids) (sessions st) in
  let st' :=
    st <| sessions :=
            (fun session =>
               if overflows admitted_session_ids session
               then resume_failed_session RFR_ResumeQueueFull session else session)
              <$> sessions st |> in
  let st'' := drop_relocations (s_id <$> overflow) st' in
  if negb (overflow == [])
     || negb (length (session_relocation_operations st')
              =? length (session_relocation_operations st''))%nat
  then install_revision st st'' else (put_state st'' ;; ret (revision st'')).
End resume.

(** ** Removal, archive and names *)

(** The lifecycle states of a Session without a process. *)
Definition is_closed_state (state : string) : bool :=
  (state == "exited") || (state == "stale") || (state == "resumeFailed").

(** [delete_session_descriptor] *)
Definition delete_session_descriptor (session_id : string) : StoreM SessionRecord :=
  let! st := get_state in
  let! '(index, session) := lift (ok_or (session_position st session_id) NotFound) in
  refuse_if (negb (is_closed_state (s_lifecycle_state session))
             || is_uncertain (s_resume_failure session)) SessionNotClosable ;;
  refuse_held (archive_journal_holding_session st session_id) JournalConflict ;;
  let st' := (clear_executor_session_references [session_id] st).2 in
  let cleared := clear_ask_to_continuations_for_session session_id (sessions st') in
  let st' := drop_relocation_receipts [session_id] st' in
  let st' := remove_agent_plans_for_sessions [session_id] st' in
  let! removed := lift (ok_or (cleared !! index) NotFound) in
  install st
    (remove_agent_conversation_readiness [session_id] (st' <| sessions := delete index cleared |>))
    removed.

(** [restore_archived_session_descriptor] *)
Definition restore_archived_session_descriptor (session_id : string) (relocated_cwd : option string)
  : StoreM SessionRecord :=
  let! st := get_state in
  refuse_held (holder sao_session_id sao_operation_id (session_archive_operations st) session_id)
    JournalConflict ;;
  let! '(index, session) := lift (ok_or (session_position st session_id) NotFound) in
  if is_none (s_archived_at_epoch_ms session) then ret session
  else
    let session := exited_session (session <| s_archived_at_epoch_ms := None |>) in
    let session :=
      match relocated_cwd with
      | Some cwd =>
          let process := s_process session in
          session <| s_process := process <| pd_cwd := cwd |> |>
      | None => session
      end in
    install st (set_session index session st) session.

(** [delete_archived_session_descriptor] *)
Definition delete_archived_session_descriptor (session_id : string) : StoreM SessionRecord :=
  let! st := get_state in
  refuse_held (holder sao_session_id sao_operation_id (session_archive_operations st) session_id)
    JournalConflict ;;
  let! '(index, session) := lift (ok_or (session_position st session_id) NotFound) in
  refuse_if (is_none (s_archived_at_epoch_ms session)) SessionNotClosable ;;
  let st' := (clear_executor_session_references [session_id] st).2 in
  let cleared := clear_ask_to_continuations_for_session session_id (sessions st') in
  let st' := remove_agent_plans_for_sessions [session_id] st' in
  let! removed := lift (ok_or (cleared !! index) NotFound) in
  install st
    (remove_agent_conversation_readiness [session_id] (st' <| sessions := delete index cleared |>))
    removed.

(** [rename_session] *)
Definition rename_session (session_id : string) (name : option string) : StoreM SessionRecord :=
  let! st := get_state in
  let! '(index, session) := lift (ok_or (session_position st session_id) NotFound) in
  let session := session <| s_name := name |> in
  install st (set_session index session st) session.

(** [set_ask_to_current_request] *)
Definition set_ask_to_current_request (helper_session_id conversation_id : string)
    (request_id : option string) : StoreM N :=
  let! st := get_state in
  let! '(index, helper) := lift (ok_or (session_position st helper_session_id) NotFound) in
  let! source_session_id :=
    lift (ok_or (if (s_lifecycle_state helper != "exited")
                    && (pd_template_ref (s_process helper) == Some "builtin.agent.ask-to-helper")
                 then s_ask_to_source_session_id helper else None) ConstraintViolation) in
  refuse_if (negb (any (fun source =>
               (s_id source == source_session_id) && (s_kind source == SessionKind_Agent)
               && (s_project_id source == s_project_id helper)
               && (s_lifecycle_state source != "exited")) (sessions st))) ConstraintViolation ;;
  match s_ask_to_continuation helper with
  | None => fail ConstraintViolation
  | Some continuation =>
      refuse_if (atc_conversation_id continuation != conversation_id) ConstraintViolation ;;
      let proposed := MkAskToContinuation (atc_conversation_id continuation) request_id in
      refuse_if (negb (continuation_is_well_formed proposed)) ConstraintViolation ;;
      if continuation == proposed then ret (revision st)
      else
        install_revision st
          (set_session index (helper <| s_ask_to_continuation := Some proposed |>) st)
  end.

(** ** Restart *)

Section restart.
Context `{UuidParser}.

(** What the loop of [reconcile_restart] decides about one Session. *)
Inductive RestartMark : Type := RM_Kept | RM_Obsolete | RM_Retired.
#[export] Instance RestartMark_eq_dec : EqDecision RestartMark.
Proof. solve_decision. Defined.

(** The [match session.resume_ref] of the loop. *)
Definition restart_conversation (session : SessionRecord) : SessionRecord :=
  match s_resume_ref session with
  | None => resume_failed_session RFR_ResumeRefMissing session
  | Some value =>
      if negb (resume_ref_validate value)
      then resume_failed_session RFR_InvalidResumeRef (session <| s_resume_ref := None |>)
      else if negb (provider_matches_agent (ref_provider value) (pd_agent_id (s_process session)))
      then resume_failed_session RFR_ProviderMismatch session
      else session <| s_lifecycle_state := "resuming" |> <| s_resume_failure := None |>
  end.

(** [restart_candidate] *)
Definition restart_candidate (configured_assistant : bool) (session : SessionRecord) : bool :=
  (s_lifecycle_state session == "running") || (s_lifecycle_state session == "resuming")
  || (configured_assistant && (s_lifecycle_state session == "exited"))
  || ((s_kind session == SessionKind_Agent) && (s_lifecycle_state session == "resumeFailed")
      && (s_resume_failure session == Some RFR_ResumeCapabilityUnavailable)).

(** One round of the loop: [None] when it continues without an effect. *)
Definition restart_session (configured_assistant : bool)
    (readiness : option AgentConversationReadiness) (session : SessionRecord)
  : option (RestartMark * SessionRecord) :=
  if negb (restart_candidate configured_assistant session) then None
  else if (pd_template_ref (s_process session) == Some "builtin.steward.executor")
          && negb configured_assistant
  then Some (RM_Obsolete, exited_session session)
  else if s_kind session == SessionKind_Terminal then
    if is_some (s_run_configuration_id session) then Some (RM_Retired, session)
    else Some (RM_Kept,
               session <| s_lifecycle_state := "stale" |> <| s_resume_failure := None |>)
  else if (readiness == Some ACR_Unconfirmed) && negb configured_assistant
  then Some (RM_Kept, exited_session session)
  else Some (RM_Kept, restart_conversation session).

(** [conversation_readiness.get(&session.id)]: of the records collected into
    the map, the last one of the Session. *)
Definition conversation_readiness (st : CurrentState) (session_id : string)
  : option AgentConversationReadiness :=
  rd_readiness <$> find_first (fun record => rd_session_id record == session_id)
                     (rev (agent_conversation_readiness st)).

Definition restarted (st : CurrentState) (session : SessionRecord)
  : option (RestartMark * SessionRecord) :=
  restart_session (bool_decide (s_id session ∈ configured_sessions st))
    (conversation_readiness st (s_id session)) session.

Definition marked (st : CurrentState) (mark : RestartMark) : list string :=
  omap (fun session =>
          match restarted st session with
          | Some (mark', _) => if mark == mark' then Some (s_id session) else None
          | None => None
          end) (sessions st).

(** The Sessions a configuration may keep pointing to. *)
Definition is_current_session (configured : list string) (session : SessionRecord) : bool :=
  (s_lifecycle_state session == "running") || (s_lifecycle_state session == "resuming")
  || (bool_decide (s_id session ∈ configured) && (s_kind session == SessionKind_Agent)
      && ((pd_template_ref (s_process session) == Some "builtin.assistant.activation")
          || (pd_template_ref (s_process session) == Some "builtin.steward.executor"))).

(** [reconcile_restart]: the state it computes and whether it differs. *)
Definition restart_state (st : CurrentState) : bool * CurrentState :=
  let configured := configured_sessions st in
  let changed := any (fun session => is_some (restarted st session)) (sessions st) in
  let st1 :=
    st <| sessions :=
            (fun session =>
               match restarted st session with Some (_, session') => session' | None => session end)
              <$> sessions st |> in
  let '(changed1, st2) := remove_exact_session_descriptors (marked st RM_Obsolete) st1 in
  let '(changed2, st3) := remove_exact_session_descriptors (marked st RM_Retired) st2 in
  let current := s_id <$> retain (is_current_session configured) (sessions st3) in
  let stale := retain (fun id => negb (bool_decide (id ∈ current))) (configured_sessions st3) in
  let '(changed3, st4) := clear_executor_session_references stale st3 in
  let '(changed4, st5) := remove_obsolete_assistant_sessions st4 in
  (changed || changed1 || changed2 || changed3 || changed4, st5).

(** [reconcile_restart] *)
Definition reconcile_restart : StoreM unit :=
  let! st := get_state in
  let '(changed, st') := restart_state st in
  if changed then install st st' tt else put_state st'.
End restart.

(** ** Deleted Sessions *)

(** [move_agent_session_to_deleted] *)
Definition move_agent_session_to_deleted (session_id : string) (deleted_at_epoch_ms : N)
  : StoreM DeletedSessionRecord :=
  let! st := get_state in
  refuse_if ((deleted_at_epoch_ms == 0%N)
             || any (fun deleted => s_id (ds_session deleted) == session_id) (deleted_sessions st))
    ConstraintViolation ;;
  let! '(index, session) := lift (ok_or (session_position st session_id) NotFound) in
  refuse_if ((s_kind session != SessionKind_Agent) || is_some (s_archived_at_epoch_ms session)
             || negb (is_closed_state (s_lifecycle_state session))
             || is_uncertain (s_resume_failure session)) SessionNotClosable ;;
  refuse_held (archive_journal_holding_session st session_id) JournalConflict ;;
  let! '(readiness_index, record) :=
    lift (ok_or (readiness_position st session_id) ConstraintViolation) in
  let st' := (clear_executor_session_references [session_id] st).2 in
  let cleared := clear_ask_to_continuations_for_session session_id (sessions st') in
  let st' := drop_relocations [session_id] (drop_relocation_receipts [session_id] st') in
  let st' := remove_agent_plans_for_sessions [session_id] st' in
  let! removed := lift (ok_or (cleared !! index) NotFound) in
  let deleted :=
    MkDeletedSessionRecord (removed <| s_ask_to_continuation := None |>) deleted_at_epoch_ms
      (rd_readiness record) in
  install st
    (st' <| sessions := delete index cleared |>
         <| agent_conversation_readiness :=
              delete readiness_index (agent_conversation_readiness st') |>
         <| deleted_sessions := deleted_sessions st' ++ [deleted] |>)
    deleted.

(** [restore_deleted_session_descriptor] *)
Definition restored_deleted_session (guard : option ResumeLaunchGuard) (cwd : string)
    (session : SessionRecord) : SessionRecord :=
  let process := s_process session in
  exited_session (session <| s_resume_launch_guard := guard |>)
    <| s_ask_to_continuation := None |>
    <| s_process := process <| pd_cwd := cwd |> |>.
Definition restore_deleted_session_descriptor (session_id : string) (relocated_cwd : option string)
  : StoreM SessionRecord :=
  let! st := get_state in
  refuse_if (any (fun session => s_id session == session_id) (sessions st)) AlreadyExists ;;
  let! '(index, deleted) :=
    lift (ok_or (position (fun deleted => s_id (ds_session deleted) == session_id)
                   (deleted_sessions st)) NotFound) in
  let cwd := default (pd_cwd (s_process (ds_session deleted))) relocated_cwd in
  let session := restored_deleted_session (current_worktree_guard st cwd) cwd (ds_session deleted) in
  install st
    (st <| deleted_sessions := delete index (deleted_sessions st) |>
        <| agent_conversation_readiness :=
             agent_conversation_readiness st
             ++ [MkAgentConversationReadinessRecord (s_id session) (ds_conversation_readiness deleted)] |>
        <| sessions := sessions st ++ [session] |>)
    session.

(** [purge_expired_deleted_sessions] *)
Definition purge_expired_deleted_sessions (now_epoch_ms : N) : StoreM nat :=
  let! st := get_state in
  let st' :=
    st <| deleted_sessions :=
            retain (fun deleted => (now_epoch_ms <? purge_at_epoch_ms deleted)%N)
              (deleted_sessions st) |> in
  let purged := length (deleted_sessions st) - length (deleted_sessions st') in
  if (0 <? purged)%nat then install st st' purged else (put_state st' ;; ret purged).

(** ** Terminals *)

(** [restore_terminal_session] *)
Definition restore_terminal_session (expected : SessionRecord) (process : ProcessDescriptor)
    (runtime_epoch : N) : StoreM N :=
  let! st := get_state in
  let! '(index, current) := lift (ok_or (session_position st (s_id expected)) NotFound) in
  refuse_if ((current != expected) || (s_kind current != SessionKind_Terminal)
             || (s_lifecycle_state current != "stale")
             || is_some (s_run_configuration_id current)
             || is_some (s_archived_at_epoch_ms current)
             || is_some (pd_agent_id process) || is_some (pd_template_ref process)
             || str_is_empty (pd_cwd process)) ConstraintViolation ;;
  install_revision st
    (set_session index
       (current <| s_process := process |> <| s_runtime_epoch := runtime_epoch |>
                <| s_lifecycle_state := "running" |> <| s_resume_failure := None |>) st).

(** [observe_terminal_directory] *)
Definition observe_terminal_directory (session_id : string) (runtime_epoch : N)
    (expected_cwd observed_cwd : string) : StoreM N :=
  refuse_if (str_is_empty observed_cwd) ConstraintViolation ;;
  let! st := get_state in
  match position (fun session =>
          (s_id session == session_id) && (s_runtime_epoch session == runtime_epoch)
          && (s_kind session == SessionKind_Terminal) && is_none (s_run_configuration_id session)
          && (s_lifecycle_state session == "running")
          && (pd_cwd (s_process session) == expected_cwd)) (sessions st) with
  | None => ret (revision st)
  | Some (index, session) =>
      if expected_cwd == observed_cwd then ret (revision st)
      else
        let process := s_process session in
        install_revision st
          (set_session index
             (session <| s_process := process <| pd_cwd := observed_cwd |> |>) st)
  end.

(** ** Load-time validation *)

(** The template of the Session that edits a target. *)
Definition expected_template (kind : ImproverSessionTargetKind) : string :=
  match kind with
  | ITK_AgentCreator => "builtin.builder.agent"
  | ITK_WorkflowDraft => "builtin.builder.workflow"
  | ITK_StewardInstructions => "builtin.improver.steward-instructions"
  | ITK_RoutineInstructions => "builtin.improver.routine-instructions"
  | ITK_RoutineBuilder => "builtin.builder.routine"
  | ITK_Playbook => "builtin.builder.playbook"
  | ITK_RunConfiguration => "builtin.improver.run-configuration"
  | ITK_NewRunConfiguration => "builtin.improver.run-configuration-new"
  | ITK_SettingsSkill => "builtin.improver.skill-definition"
  | ITK_SettingsPrompt => "builtin.improver.prompt-asset"
  | ITK_SettingsMcpTool => "builtin.improver.mcp-tool-description"
  end.

(** [invalid_kind] *)
Definition invalid_kind (session : SessionRecord) : bool :=
  match s_kind session with
  | SessionKind_Agent =>
      is_none (pd_agent_id (s_process session))
      || negb (launch_selection_is_well_formed (s_launch_selection session))
  | SessionKind_Terminal => negb (launch_selection_is_default (s_launch_selection session))
  end.

(** [invalid_ask_to_source] *)
Definition invalid_ask_to_source (st : CurrentState) (session : SessionRecord) : bool :=
  is_some_and (s_ask_to_source_session_id session) (fun source_id =>
    str_is_empty source_id || (s_kind session != SessionKind_Agent) || (source_id == s_id session)
    || (pd_template_ref (s_process session) != Some "builtin.agent.ask-to-helper")
    || is_some_and (find_session st source_id) (fun source =>
         (s_kind source != SessionKind_Agent) || (s_project_id source != s_project_id session))).

(** The clauses of [invalid_ask_to_continuation] about the Sessions that
    follow. *)
Definition same_conversation (continuation : AskToContinuation) (candidate : SessionRecord) : bool :=
  is_some_and (s_ask_to_continuation candidate) (fun candidate =>
    atc_conversation_id candidate == atc_conversation_id continuation).
Definition has_current_request (session : SessionRecord) : bool :=
  is_some_and (s_ask_to_continuation session) (fun continuation =>
    is_some (atc_current_request_id continuation)).

(** [invalid_ask_to_continuation] *)
Definition invalid_ask_to_continuation (st : CurrentState) (session : SessionRecord)
    (rest : list SessionRecord) : bool :=
  is_some_and (s_ask_to_continuation session) (fun continuation =>
    negb (continuation_is_well_formed continuation)
    || is_none (s_ask_to_source_session_id session)
    || negb (any (fun source =>
         (s_ask_to_source_session_id session == Some (s_id source))
         && (s_kind source == SessionKind_Agent)
         && (s_project_id source == s_project_id session)) (sessions st))
    || any (same_conversation continuation) rest
    || (is_some (atc_current_request_id continuation)
        && any (fun candidate =>
             (s_ask_to_source_session_id candidate == s_ask_to_source_session_id session)
             && has_current_request candidate) rest)).

(** [invalid_fork_source] *)
Definition invalid_fork_source (session : SessionRecord) : bool :=
  is_some_and (s_fork_source_session_id session) (fun source_id =>
    str_is_empty source_id || (s_kind session != SessionKind_Agent) || (source_id == s_id session)).

(** [invalid_run_configuration] *)
Definition invalid_run_configuration (st : CurrentState) (session : SessionRecord) : bool :=
  is_some_and (s_run_configuration_id session) (fun id =>
    (s_kind session != SessionKind_Terminal)
    || negb (any (fun configuration =>
         (rcf_id configuration == id) && (rcf_project_id configuration == s_project_id session))
         (run_configurations st))).

(** [invalid_improver_target] *)
Definition invalid_improver_target (session : SessionRecord) : bool :=
  is_some_and (s_improver_target session) (fun target =>
    (s_kind session != SessionKind_Agent) || negb (improver_target_is_well_formed target)
    || (pd_template_ref (s_process session) != Some (expected_template (ist_target_kind target)))).

(** [sessions_are_invalid] *)
Definition sessions_are_invalid (st : CurrentState) : bool :=
  any_with_rest (fun session rest =>
    invalid_kind session || invalid_ask_to_source st session
    || invalid_ask_to_continuation st session rest || invalid_fork_source session
    || invalid_run_configuration st session || invalid_improver_target session) (sessions st).

(** [deleted_sessions_are_invalid] *)
Definition deleted_session_is_invalid (st : CurrentState) (deleted : DeletedSessionRecord)
    (rest : list DeletedSessionRecord) : bool :=
  let session := ds_session deleted in
  (ds_deleted_at_epoch_ms deleted == 0%N) || (s_kind session != SessionKind_Agent)
  || is_none (pd_agent_id (s_process session))
  || negb (launch_selection_is_well_formed (s_launch_selection session))
  || is_some (s_archived_at_epoch_ms session)
  || negb (is_closed_state (s_lifecycle_state session))
  || is_uncertain (s_resume_failure session)
  || is_some (s_ask_to_continuation session)
  || any (fun active => s_id active == s_id session) (sessions st)
  || any (fun candidate => s_id (ds_session candidate) == s_id session) rest.
Definition deleted_sessions_are_invalid (st : CurrentState) : bool :=
  any_with_rest (deleted_session_is_invalid st) (deleted_sessions st).

(** [agent_conversation_readiness_is_invalid] *)
Definition is_agent (session : SessionRecord) : bool := s_kind session == SessionKind_Agent.
Definition agent_conversation_readiness_is_invalid (st : CurrentState) : bool :=
  negb (length (agent_conversation_readiness st) =? length (retain is_agent (sessions st)))%nat
  || any_with_rest (fun record rest =>
       str_is_empty (rd_session_id record)
       || negb (any (fun session => (s_id session == rd_session_id record) && is_agent session)
                  (sessions st))
       || any (fun candidate => rd_session_id candidate == rd_session_id record) rest)
       (agent_conversation_readiness st).

(** [steward_configurations_are_invalid] *)
Definition steward_configurations_are_invalid (st : CurrentState) : bool :=
  any_with_rest (fun configuration rest =>
    negb (steward_configuration_is_valid configuration)
    || negb (any (fun project => p_id project == stw_project_id configuration) (projects st))
    || any (fun candidate => stw_project_id candidate == stw_project_id configuration) rest
    || is_some_and (stw_executor_session_id configuration) (fun session_id =>
         negb (any (fun session =>
           (s_id session == session_id)
           && (s_project_id session == stw_project_id configuration)) (sessions st))))
    (steward_configurations st).
