(* ===== verification/RunRecords.v ===== *)
(** * Configuration versions

    [domain/src/configuration_version.rs], [store/src/records/configuration_version.rs]
    and [configuration_versions_are_invalid] of [validation.rs]: every save of a
    Steward, Routine, Playbook or run configuration records the complete value
    as an immutable version, the newest twenty-four per target are kept, and a
    selection names the one in use.  The second half holds run configurations
    ([store/src/records/run_configuration.rs]). *)

From S2P Require Import Prelude Keyed Text Domain DomainRules DomainConfig StoreState.

Local Open Scope string_scope.
Local Open Scope list_scope.

(** ** Well-formed versions *)

Definition configuration_version_content_max_bytes : N := 512 * 1024.
Definition configuration_version_summary_max_bytes : N := 2 * 1024.
Definition configuration_versions_per_target_max : nat := 24.

Definition bounded_version_id (value : string) : bool :=
  negb (str_is_empty value) && (len value <=? 128)%N && negb (any is_control (chars value)).

(** [ConfigurationVersionSelection::is_well_formed] *)
Definition selection_is_well_formed (self : ConfigurationVersionSelection) : bool :=
  negb (trim_is_empty (cvs_project_id self)) && improver_target_is_well_formed (cvs_target self)
  && bounded_version_id (cvs_version_id self).

(** [ConfigurationVersion::is_well_formed] *)
Definition version_is_well_formed (self : ConfigurationVersion) : bool :=
  bounded_version_id (cv_id self)
  && negb (trim_is_empty (cv_project_id self))
  && improver_target_is_well_formed (cv_target self)
  && (0 <? cv_sequence self)%N
  && negb (str_is_empty (cv_content self))
  && (len (cv_content self) <=? configuration_version_content_max_bytes)%N
  && (len (cv_summary self) <=? configuration_version_summary_max_bytes)%N
  && is_none_or (cv_source_session_id self) bounded_version_id
  && (0 <? cv_created_at_epoch_ms self)%N.

(** ** Snapshots

    The documents that [json!] builds, and [serde_json::to_string], a parameter.
    [json!] collects the members of an object in a map, so their order here is
    the order of the source. *)

#[local] Set Warnings "-register-all".
Inductive JsonDoc : Type :=
| JNull
| JBool (b : bool)
| JNumber (n : N)
| JString (s : string)
| JArray (items : list JsonDoc)
| JObject (members : list (string * JsonDoc)).

Class JsonText := json_to_string : JsonDoc -> string.

Definition json_option {A} (f : A -> JsonDoc) (value : option A) : JsonDoc :=
  match value with Some v => f v | None => JNull end.

Definition steward_agent_json (agent : StewardAgentId) : JsonDoc :=
  JString match agent with SAI_Claude => "claude" | SAI_Codex => "codex" end.
Definition trigger_mode_json (mode : RoutineTriggerMode) : JsonDoc :=
  JString match mode with RTM_Schedule => "schedule" | RTM_OnDemand => "onDemand" end.
Definition action_handling_json (handling : RoutineActionHandling) : JsonDoc :=
  JString match handling with RAH_Off => "off" | RAH_Ask => "ask" | RAH_Auto => "auto" end.
Definition gate_json (gate : PlaybookGateKind) : JsonDoc :=
  JString match gate with PGK_Automatic => "automatic" | PGK_Human => "human" end.
Definition agent_report_json (policy : PlaybookAgentReportPolicy) : JsonDoc :=
  JString match policy with
          | PAR_Off => "off" | PAR_Signal => "signal" | PAR_Trusted => "trusted"
          end.
Definition check_kind_json (kind : PlaybookDeterministicCheckKind) : JsonDoc :=
  JString match kind with
          | PCK_PullRequestOpen => "pullRequestOpen"
          | PCK_PullRequestChecksPassing => "pullRequestChecksPassing"
          | PCK_PullRequestMerged => "pullRequestMerged"
          | PCK_BranchCommitted => "branchCommitted"
          end.
Definition deterministic_check_json (check : PlaybookDeterministicCheck) : JsonDoc :=
  JObject [("kind", check_kind_json (pdc_kind check));
           ("baseBranch", json_option JString (pdc_base_branch check))].
Definition run_kind_json (kind : RunConfigurationKind) : JsonDoc :=
  JString match kind with
          | RCK_DevServer => "devServer" | RCK_Build => "build" | RCK_TestRunner => "testRunner"
          | RCK_Typecheck => "typecheck" | RCK_Storybook => "storybook" | RCK_Custom => "custom"
          end.
Definition setup_policy_json (policy : RunSetupPolicy) : JsonDoc :=
  JString match policy with
          | RSP_OncePerWorktree => "oncePerWorktree" | RSP_Always => "always" | RSP_Never => "never"
          end.
Definition env_var_json (entry : RunConfigurationEnvVar) : JsonDoc :=
  JObject [("name", JString (rce_name entry)); ("value", JString (rce_value entry))].

(** The document of [record_steward_version] *)
Definition steward_snapshot (configuration : StewardConfiguration) : JsonDoc :=
  JObject
    [("agentId", steward_agent_json (stw_agent_id configuration));
     ("model", JString (stw_model configuration));
     ("permission", JString (stw_permission configuration));
     ("reasoning", JString (stw_reasoning configuration));
     ("enabled", JBool (stw_enabled configuration));
     ("systemPrompt", JString (stw_system_prompt configuration))].

Definition while_waiting (routine : TrackerConfiguration) : JsonDoc :=
  JObject [("mode", action_handling_json (tc_action_handling routine));
           ("instructions", JString (tc_steward_instructions routine))].

(** The document of [record_routine_version] *)
Definition routine_snapshot (configuration : TrackerConfiguration) : JsonDoc :=
  JObject
    [("triggerMode", trigger_mode_json (tc_trigger_mode configuration));
     ("name", JString (tc_name configuration));
     ("instructions", JString (tc_prompt configuration));
     ("whileWaiting", while_waiting configuration);
     ("enabled", JBool (tc_enabled configuration));
     ("scheduleIntervalSeconds", JNumber (tc_schedule_interval_seconds configuration))].

(** The document of [record_run_configuration_version] *)
Definition run_snapshot (configuration : RunConfiguration) : JsonDoc :=
  JObject
    [("name", JString (rcf_name configuration));
     ("kind", run_kind_json (rcf_kind configuration));
     ("command", JString (rcf_command configuration));
     ("workingDirectory", JString (rcf_working_directory configuration));
     ("env", JArray (env_var_json <$> rcf_env configuration));
     ("setupCommand", json_option JString (rcf_setup_command configuration));
     ("setupPolicy", setup_policy_json (rcf_setup_policy configuration));
     ("urlAutoDetect", JBool (rcf_url_auto_detect configuration));
     ("fallbackUrls", JArray (JString <$> rcf_fallback_urls configuration));
     ("autoOpenFirstUrl", JBool (rcf_auto_open_first_url configuration))].

(** [tracker_for_milestone] *)
Definition tracker_for_milestone (st : CurrentState) (configuration : PlaybookConfiguration)
    (milestone : PlaybookMilestone) : option TrackerConfiguration :=
  find_first (fun routine =>
    (tc_id routine == pm_routine_id milestone)
    && (tc_project_id routine == pb_project_id configuration)) (tracker_configurations st).

(** [playbook_milestone_snapshot]; [None] is the panic of its [expect]. *)
Definition playbook_milestone_snapshot (st : CurrentState) (configuration : PlaybookConfiguration)
    (milestone : PlaybookMilestone) : option JsonDoc :=
  (fun routine =>
     JObject
       [("id", JString (pm_id milestone));
        ("title", JString (pm_title milestone));
        ("gate", gate_json (pm_gate milestone));
        ("completeWhen", JString (tc_prompt routine));
        ("whileWaiting", while_waiting routine);
        ("retryDelaySeconds", JNumber (pm_retry_delay_seconds milestone));
        ("approver", json_option JString (pm_approver milestone));
        ("deterministicCheck",
         json_option deterministic_check_json (pm_deterministic_check milestone));
        ("agentReport", agent_report_json (pm_agent_report milestone))])
    <$> tracker_for_milestone st configuration milestone.

(** [playbook_pipeline_snapshot] *)
Definition playbook_pipeline_snapshot (st : CurrentState) (configuration : PlaybookConfiguration)
    (pipeline : PlaybookPipeline) : option JsonDoc :=
  (fun milestones => JObject [("name", JString (pp_name pipeline)); ("milestones", JArray milestones)])
    <$> mapM (playbook_milestone_snapshot st configuration) (pp_milestones pipeline).

(** The document of [record_playbook_version] *)
Definition playbook_snapshot (st : CurrentState) (configuration : PlaybookConfiguration)
  : option JsonDoc :=
  milestones ← mapM (playbook_milestone_snapshot st configuration) (pb_milestones configuration);
  pipelines ← mapM (playbook_pipeline_snapshot st configuration) (pb_saved_pipelines configuration);
  Some (JObject
    [("activePipelineName", JString (pb_active_pipeline_name configuration));
     ("milestones", JArray milestones);
     ("savedPipelines", JArray pipelines)]).

(** ** The versions of a target *)

Definition of_target (project_id : string) (target : ImproverSessionTarget)
    (version : ConfigurationVersion) : bool :=
  (cv_project_id version == project_id) && (cv_target version == target).
Definition selects (project_id : string) (target : ImproverSessionTarget)
    (selection : ConfigurationVersionSelection) : bool :=
  (cvs_project_id selection == project_id) && (cvs_target selection == target).

(** [Option::filter] *)
Definition option_filter {A} (p : A -> bool) (value : option A) : option A :=
  x ← value; if p x then Some x else None.

(** [active_version] *)
Definition active_version (st : CurrentState) (project_id : string) (target : ImproverSessionTarget)
  : option ConfigurationVersion :=
  selection ← find_first (selects project_id target) (configuration_version_selections st);
  find_first (fun version => cv_id version == cvs_version_id selection) (configuration_versions st).

(** [newest_version] *)
Definition newest_version (st : CurrentState) (project_id : string) (target : ImproverSessionTarget)
  : option ConfigurationVersion :=
  max_by (le_key cv_sequence) (retain (of_target project_id target) (configuration_versions st)).

(** [set_active_version] *)
Definition select_in (project_id : string) (target : ImproverSessionTarget) (version_id : string)
    (selections : list ConfigurationVersionSelection) : list ConfigurationVersionSelection :=
  match find_mut (selects project_id target)
          (fun selection => selection <| cvs_version_id := version_id |>) selections with
  | Some (_, selections') => selections'
  | None => selections ++ [MkConfigurationVersionSelection project_id target version_id]
  end.
Definition set_active_version (project_id : string) (target : ImproverSessionTarget)
    (version_id : string) (st : CurrentState) : CurrentState :=
  st <| configuration_version_selections :=
          select_in project_id target version_id (configuration_version_selections st) |>.

(** The versions that [record_version] keeps of a target: it sorts the indices
    by sequence and removes the first ones in reverse. *)
Definition indexed_of_target (project_id : string) (target : ImproverSessionTarget)
    (versions : list ConfigurationVersion) : list (nat * ConfigurationVersion) :=
  retain (fun entry => of_target project_id target entry.2) (imap pair versions).
Definition evict (project_id : string) (target : ImproverSessionTarget)
    (versions : list ConfigurationVersion) : list ConfigurationVersion :=
  let indices :=
    sort_by (le_key (fun entry => cv_sequence entry.2)) (indexed_of_target project_id target versions)
  in
  let total := length (retain (of_target project_id target) versions) in
  let excess := (total - configuration_versions_per_target_max)%nat in
  fold_left (fun versions entry => delete entry.1 versions) (rev (take excess indices)) versions.

Record VersionRecord : Type := MkVersionRecord {
  vr_summary : string;
  vr_source_session_id : option string;
  vr_created_at_epoch_ms : N
}.

(** [record_version]; [id] is what [generate_opaque_id] answers. *)
Definition record_version (id : string) (project_id : string) (target : ImproverSessionTarget)
    (content : string) (record : VersionRecord) (st : CurrentState)
  : option ConfigurationVersion * CurrentState :=
  if is_some_and (active_version st project_id target) (fun version => cv_content version == content)
  then (None, st)
  else
    let sequence :=
      match newest_version st project_id target with
      | None => 1%N
      | Some version => u64_saturating_add (cv_sequence version) 1
      end in
    let version :=
      MkConfigurationVersion id project_id target sequence content (vr_summary record)
        (vr_source_session_id record) (vr_created_at_epoch_ms record) in
    let st' := st <| configuration_versions := configuration_versions st ++ [version] |> in
    let st' := set_active_version project_id target id st' in
    (Some version,
     st' <| configuration_versions := evict project_id target (configuration_versions st') |>).

(** [remove_configuration_target_state] *)
Definition remove_configuration_target_state (project_id : string) (target : ImproverSessionTarget)
    (st : CurrentState) : CurrentState :=
  st <| configuration_versions :=
          retain (fun version => negb (of_target project_id target version))
            (configuration_versions st) |>
     <| configuration_version_selections :=
          retain (fun selection => negb (selects project_id target selection))
            (configuration_version_selections st) |>.

(** ** Targets *)

Definition steward_target : ImproverSessionTarget := MkImproverSessionTarget ITK_StewardInstructions None.
Definition routine_target (id : string) : ImproverSessionTarget :=
  MkImproverSessionTarget ITK_RoutineInstructions (Some id).
Definition playbook_target : ImproverSessionTarget := MkImproverSessionTarget ITK_Playbook None.
Definition run_target (id : string) : ImproverSessionTarget :=
  MkImproverSessionTarget ITK_RunConfiguration (Some id).

Section snapshots.
Context `{JsonText}.

(** [record_steward_version], [record_routine_version],
    [record_playbook_version], [record_run_configuration_version] *)
Definition record_steward_version (id : string) (configuration : StewardConfiguration)
    (source_session_id : option string) (summary : string) (st : CurrentState) : CurrentState :=
  (record_version id (stw_project_id configuration) steward_target
     (json_to_string (steward_snapshot configuration))
     (MkVersionRecord summary source_session_id (N.max (stw_updated_at_epoch_ms configuration) 1)) st).2.

Definition record_routine_version (id : string) (configuration : TrackerConfiguration)
    (source_session_id : option string) (summary : string) (st : CurrentState) : CurrentState :=
  (record_version id (tc_project_id configuration) (routine_target (tc_id configuration))
     (json_to_string (routine_snapshot configuration))
     (MkVersionRecord summary source_session_id (N.max (tc_updated_at_epoch_ms configuration) 1)) st).2.

Definition record_playbook_version (id : string) (configuration : PlaybookConfiguration)
    (source_session_id : option string) (summary : string) (st : CurrentState)
  : option CurrentState :=
  (fun snapshot =>
     (record_version id (pb_project_id configuration) playbook_target (json_to_string snapshot)
        (MkVersionRecord summary source_session_id (N.max (pb_updated_at_epoch_ms configuration) 1))
        st).2)
    <$> playbook_snapshot st configuration.

Definition record_run_configuration_version (id : string) (configuration : RunConfiguration)
    (source_session_id : option string) (summary : string) (st : CurrentState) : CurrentState :=
  (record_version id (rcf_project_id configuration) (run_target (rcf_id configuration))
     (json_to_string (run_snapshot configuration))
     (MkVersionRecord summary source_session_id (N.max (rcf_updated_at_epoch_ms configuration) 1)) st).2.
End snapshots.

(** ** The store's methods *)

(** [select_configuration_version] *)
Definition select_configuration_version (project_id : string) (target : ImproverSessionTarget)
    (expected_previous_version_id : option string) (selected_version_id applied_content : string)
  : StoreM ConfigurationVersion :=
  let! st := get_state in
  let! selected :=
    lift (ok_or (find_first (fun version =>
             (cv_id version == selected_version_id) && of_target project_id target version
             && (cv_content version == applied_content)) (configuration_versions st)) NotFound) in
  let current := active_version st project_id target in
  let current_is_transient_save :=
    is_some_and current (fun version =>
      (Some (cv_id version) != expected_previous_version_id)
      && (cv_id version != selected_version_id)
      && (cv_content version == applied_content)
      && is_none (cv_source_session_id version)) in
  refuse_if (((cv_id <$> current) != expected_previous_version_id) && negb current_is_transient_save)
    RevisionConflict ;;
  let st' :=
    match current with
    | Some current =>
        if current_is_transient_save
        then st <| configuration_versions :=
                     retain (fun version => cv_id version != cv_id current)
                       (configuration_versions st) |>
        else st
    | None => st
    end in
  install st (set_active_version project_id target selected_version_id st') selected.

(** [sync_external_configuration_version] *)
Definition sync_external_configuration_version (id : string) (project_id : string)
    (target : ImproverSessionTarget) (content : string) (observed_at_epoch_ms : N)
  : StoreM ConfigurationVersion :=
  let! st := get_state in
  refuse_if (negb (any (fun project => p_id project == project_id) (projects st))
             || negb (improver_target_is_well_formed target) || str_is_empty content
             || (configuration_version_content_max_bytes <? len content)%N) ConstraintViolation ;;
  match option_filter (fun active => cv_content active == content)
          (active_version st project_id target) with
  | Some active => ret active
  | None =>
      let '(version, st') :=
        record_version id project_id target content
          (MkVersionRecord "Current configuration" None (N.max observed_at_epoch_ms 1)) st in
      let! version := expect version "different external content creates a version" in
      install st st' version
  end.

(** [finalize_configuration_activation] *)
Definition attributed (summary : string) (source_session_id : option string) (created_at_epoch_ms : N)
    (version : ConfigurationVersion) : ConfigurationVersion :=
  version <| cv_summary := summary |> <| cv_source_session_id := source_session_id |>
          <| cv_created_at_epoch_ms := N.max created_at_epoch_ms 1 |>.
Definition finalize_configuration_activation (id : string) (project_id : string)
    (target : ImproverSessionTarget) (expected_previous_version_id : option string)
    (content summary : string) (source_session_id : option string) (created_at_epoch_ms : N)
  : StoreM ConfigurationVersion :=
  let! st := get_state in
  let active := active_version st project_id target in
  refuse_if ((is_none active && is_some expected_previous_version_id)
             || is_some_and active (fun active =>
                  (cv_id active != default "" expected_previous_version_id)
                  && (cv_content active != content))) RevisionConflict ;;
  let active_matches_expected := (cv_id <$> active) == expected_previous_version_id in
  if active_matches_expected && is_some_and active (fun version => cv_content version == content)
  then lift (ok_or active NotFound)
  else
    let st' :=
      if active_matches_expected
      then (record_version id project_id target content
              (MkVersionRecord summary source_session_id (N.max created_at_epoch_ms 1)) st).2
      else st in
    put_state st' ;;
    let! active_id := lift (ok_or (cv_id <$> active_version st' project_id target) NotFound) in
    match find_mut (fun version => cv_id version == active_id)
            (attributed summary source_session_id created_at_epoch_ms) (configuration_versions st') with
    | None => fail NotFound
    | Some (active, versions) =>
        install st (st' <| configuration_versions := versions |>) active
    end.

(** ** Validation *)

(** The closure [target_exists] *)
Definition target_exists (st : CurrentState) (project_id : string) (target : ImproverSessionTarget)
  : bool :=
  any (fun project => p_id project == project_id) (projects st)
  && match ist_target_kind target with
     | ITK_AgentCreator => false
     | ITK_StewardInstructions =>
         any (fun configuration => stw_project_id configuration == project_id)
           (steward_configurations st)
     | ITK_RoutineInstructions =>
         is_some_and (ist_target_id target) (fun id =>
           any (fun configuration =>
                  (tc_project_id configuration == project_id) && (tc_id configuration == id))
             (tracker_configurations st))
     | ITK_RunConfiguration =>
         is_some_and (ist_target_id target) (fun id =>
           any (fun configuration =>
                  (rcf_project_id configuration == project_id) && (rcf_id configuration == id))
             (run_configurations st))
     | ITK_WorkflowDraft | ITK_RoutineBuilder | ITK_Playbook | ITK_NewRunConfiguration
     | ITK_SettingsSkill | ITK_SettingsPrompt | ITK_SettingsMcpTool => true
     end.

(** [configuration_versions_are_invalid] *)
Definition version_is_invalid (st : CurrentState) (version : ConfigurationVersion)
    (rest : list ConfigurationVersion) : bool :=
  negb (version_is_well_formed version)
  || negb (target_exists st (cv_project_id version) (cv_target version))
  || any (fun candidate =>
       (cv_id candidate == cv_id version)
       || (of_target (cv_project_id version) (cv_target version) candidate
           && (cv_sequence candidate == cv_sequence version))) rest
  || (configuration_versions_per_target_max
      <? length (retain (of_target (cv_project_id version) (cv_target version))
                   (configuration_versions st)))%nat.
Definition selection_is_invalid (st : CurrentState) (selection : ConfigurationVersionSelection)
    (rest : list ConfigurationVersionSelection) : bool :=
  negb (selection_is_well_formed selection)
  || any (selects (cvs_project_id selection) (cvs_target selection)) rest
  || negb (any (fun version =>
              (cv_id version == cvs_version_id selection)
              && of_target (cvs_project_id selection) (cvs_target selection) version)
            (configuration_versions st)).
Definition configuration_versions_are_invalid (st : CurrentState) : bool :=
  any_with_rest (version_is_invalid st) (configuration_versions st)
  || any_with_rest (selection_is_invalid st) (configuration_version_selections st)
  || any (fun version =>
       negb (any (selects (cv_project_id version) (cv_target version))
               (configuration_version_selections st))) (configuration_versions st).

(** * Run configurations

    [domain/src/run_configuration.rs], [store/src/records/run_configuration.rs]
    and the clauses of [validation.rs] about run configurations and setup marks. *)

(** ** When a configuration is valid *)

Definition run_configurations_per_project_max : nat := 16.
Definition run_configuration_id_max_bytes : N := 64.
Definition run_configuration_name_max_bytes : N := 80.
Definition run_configuration_command_max_bytes : N := 4 * 1024.
Definition run_configuration_working_directory_max_bytes : N := 1024.
Definition run_configuration_env_max_entries : nat := 32.
Definition run_configuration_env_name_max_bytes : N := 128.
Definition run_configuration_env_value_max_bytes : N := 4 * 1024.
Definition run_configuration_fallback_urls_max : nat := 8.
Definition run_configuration_fallback_url_max_bytes : N := 512.
Definition run_setup_marks_per_project_max : nat := 128.

Definition is_ascii_alphabetic (b : N) : bool := is_ascii_lowercase b || is_ascii_uppercase b.

(** [RunConfigurationEnvVar::is_valid] *)
Definition env_var_is_valid (self : RunConfigurationEnvVar) : bool :=
  negb (str_is_empty (rce_name self))
  && (len (rce_name self) <=? run_configuration_env_name_max_bytes)%N
  && all (fun entry =>
       (entry.2 =? 95)%N || is_ascii_alphabetic entry.2
       || ((0 <? entry.1)%nat && is_ascii_digit entry.2)) (imap pair (bytes (rce_name self)))
  && (len (rce_value self) <=? run_configuration_env_value_max_bytes)%N
  && negb (contains_byte 0 (rce_value self)).

(** [bounded_command] *)
Definition bounded_command (command : string) : bool :=
  negb (trim_is_empty command) && (len command <=? run_configuration_command_max_bytes)%N
  && negb (contains_byte 0 command).

(** [RunConfiguration::is_valid] *)
Definition fallback_url_is_valid (url : string) : bool :=
  negb (str_is_empty url) && (len url <=? run_configuration_fallback_url_max_bytes)%N
  && (starts_with "http://" url || starts_with "https://" url)
  && negb (any is_whitespace (chars url)).
Definition run_configuration_is_valid (self : RunConfiguration) : bool :=
  negb (trim_is_empty (rcf_id self))
  && (len (rcf_id self) <=? run_configuration_id_max_bytes)%N
  && negb (trim_is_empty (rcf_project_id self))
  && negb (trim_is_empty (rcf_name self))
  && (len (rcf_name self) <=? run_configuration_name_max_bytes)%N
  && bounded_command (rcf_command self)
  && negb (trim_is_empty (rcf_working_directory self))
  && (len (rcf_working_directory self) <=? run_configuration_working_directory_max_bytes)%N
  && negb (contains_byte 0 (rcf_working_directory self))
  && (length (rcf_env self) <=? run_configuration_env_max_entries)%nat
  && all env_var_is_valid (rcf_env self)
  && all_with_rest (fun entry rest =>
       negb (any (fun candidate => rce_name candidate == rce_name entry) rest)) (rcf_env self)
  && is_none_or (rcf_setup_command self) bounded_command
  && (length (rcf_fallback_urls self) <=? run_configuration_fallback_urls_max)%nat
  && all fallback_url_is_valid (rcf_fallback_urls self)
  && (1 <=? rcf_generation self)%N.

(** [RunSetupMark::is_valid] *)
Definition setup_mark_is_valid (self : RunSetupMark) : bool :=
  negb (trim_is_empty (rsm_project_id self))
  && negb (trim_is_empty (rsm_configuration_id self))
  && (len (rsm_configuration_id self) <=? run_configuration_id_max_bytes)%N
  && negb (trim_is_empty (rsm_worktree_path self))
  && (1 <=? rsm_configuration_generation self)%N
  && (0 <? rsm_completed_at_epoch_ms self)%N.

(** ** Setup marks *)

(** [replace_bounded_setup_mark]: the loop removes the oldest mark of the
    Project until there is room; a round removes one, so the number of marks
    bounds the rounds. *)
Definition of_project (project_id : string) (mark : RunSetupMark) : bool :=
  rsm_project_id mark == project_id.
Definition oldest_mark (project_id : string) (marks : list RunSetupMark) : option nat :=
  fst <$> min_by (le_key (fun entry => rsm_completed_at_epoch_ms entry.2))
            (retain (fun entry => of_project project_id entry.2) (imap pair marks)).
Fixpoint make_room (rounds : nat) (project_id : string) (marks : list RunSetupMark)
  : list RunSetupMark :=
  match rounds with
  | O => marks
  | S rounds =>
      if (run_setup_marks_per_project_max <=? length (retain (of_project project_id) marks))%nat
      then
        match oldest_mark project_id marks with
        | None => marks
        | Some oldest => make_room rounds project_id (delete oldest marks)
        end
      else marks
  end.
Definition same_slot (mark current : RunSetupMark) : bool :=
  (rsm_configuration_id current == rsm_configuration_id mark)
  && (rsm_worktree_path current == rsm_worktree_path mark).
Definition replace_bounded_setup_mark (mark : RunSetupMark) (marks : list RunSetupMark)
  : list RunSetupMark :=
  let marks := retain (fun current => negb (same_slot mark current)) marks in
  make_room (length marks) (rsm_project_id mark) marks ++ [mark].

(** ** The store's methods *)

Definition run_configuration_of (st : CurrentState) (configuration_id project_id : string) : bool :=
  any (fun configuration =>
    (rcf_id configuration == configuration_id) && (rcf_project_id configuration == project_id))
    (run_configurations st).

Section methods.
Context `{JsonText}.

(** [set_run_configuration]; [id] is the identifier of the version it records. *)
Definition set_run_configuration (id : string) (configuration : RunConfiguration)
    (expected_revision : N) : StoreM RunConfiguration :=
  let! st := get_state in
  refuse_if (negb (expected_revision =? revision st)%N) RevisionConflict ;;
  let current := position (fun current => rcf_id current == rcf_id configuration)
                   (run_configurations st) in
  let project_count :=
    length (retain (fun current => rcf_project_id current == rcf_project_id configuration)
              (run_configurations st)) in
  refuse_if (negb (run_configuration_is_valid configuration)
             || negb (any (fun project => p_id project == rcf_project_id configuration) (projects st))
             || (is_none current && (run_configurations_per_project_max <=? project_count)%nat)
             || is_some_and current (fun entry =>
                  rcf_project_id entry.2 != rcf_project_id configuration)) ConstraintViolation ;;
  if (snd <$> current) == Some configuration then ret configuration
  else
    let st' :=
      st <| run_configurations :=
              match current with
              | Some (index, _) => <[index := configuration]> (run_configurations st)
              | None => run_configurations st ++ [configuration]
              end |> in
    install st
      (record_run_configuration_version id configuration None "Configuration saved" st')
      configuration.
End methods.

(** [delete_run_configuration] *)
Definition without_run_configuration (configuration_id : string) (session : SessionRecord)
  : SessionRecord :=
  if s_run_configuration_id session == Some configuration_id
  then session <| s_run_configuration_id := None |> else session.
Definition delete_run_configuration (configuration_id : string) (expected_revision : N)
  : StoreM RunConfiguration :=
  let! st := get_state in
  refuse_if (negb (expected_revision =? revision st)%N) RevisionConflict ;;
  let! '(index, deleted) :=
    lift (ok_or (position (fun configuration => rcf_id configuration == configuration_id)
                   (run_configurations st)) NotFound) in
  let st' := st <| run_configurations := delete index (run_configurations st) |> in
  let st' :=
    remove_configuration_target_state (rcf_project_id deleted) (run_target configuration_id) st' in
  install st
    (st' <| run_setup_marks :=
              retain (fun mark => rsm_configuration_id mark != configuration_id)
                (run_setup_marks st') |>
         <| sessions := without_run_configuration configuration_id <$> sessions st' |>)
    deleted.

(** [record_run_setup_mark] *)
Definition record_run_setup_mark (mark : RunSetupMark) : StoreM unit :=
  let! st := get_state in
  refuse_if (negb (setup_mark_is_valid mark)
             || negb (run_configuration_of st (rsm_configuration_id mark) (rsm_project_id mark)))
    ConstraintViolation ;;
  install st
    (st <| run_setup_marks := replace_bounded_setup_mark mark (run_setup_marks st) |>) tt.

(** [insert_run_session] *)
Definition insert_run_session (session : SessionRecord) (setup_mark : option RunSetupMark)
  : StoreM N :=
  let! configuration_id := lift (ok_or (s_run_configuration_id session) ConstraintViolation) in
  let! st := get_state in
  refuse_if ((s_kind session != SessionKind_Terminal)
             || any (fun value => s_id value == s_id session) (sessions st)
             || negb (run_configuration_of st configuration_id (s_project_id session))
             || is_some_and setup_mark (fun mark =>
                  negb (setup_mark_is_valid mark)
                  || (rsm_project_id mark != s_project_id session)
                  || (rsm_configuration_id mark != configuration_id))) ConstraintViolation ;;
  let st' := st <| sessions := sessions st ++ [session] |> in
  install_revision st
    match setup_mark with
    | Some mark =>
        st' <| run_setup_marks := replace_bounded_setup_mark mark (run_setup_marks st') |>
    | None => st'
    end.

(** ** Validation *)

(** [run_configurations_are_invalid] *)
Definition run_configurations_are_invalid (st : CurrentState) : bool :=
  any (fun project =>
    (run_configurations_per_project_max
     <? length (retain (fun configuration => rcf_project_id configuration == p_id project)
                  (run_configurations st)))%nat) (projects st)
  || any_with_rest (fun configuration rest =>
       negb (run_configuration_is_valid configuration)
       || negb (any (fun project => p_id project == rcf_project_id configuration) (projects st))
       || any (fun candidate => rcf_id candidate == rcf_id configuration) rest)
       (run_configurations st).

(** [run_setup_marks_are_invalid] *)
Definition run_setup_marks_are_invalid (st : CurrentState) : bool :=
  any (fun project =>
    (run_setup_marks_per_project_max
     <? length (retain (of_project (p_id project)) (run_setup_marks st)))%nat) (projects st)
  || any_with_rest (fun mark rest =>
       negb (setup_mark_is_valid mark)
       || negb (run_configuration_of st (rsm_configuration_id mark) (rsm_project_id mark))
       || any (same_slot mark) rest) (run_setup_marks st).

(** * What recording a version does *)

(** ** The newest comes last *)

Section sorted.
Context {A : Type} (le : A -> A -> bool).

(** Elements that are at most [y] are inserted before it. *)
Lemma insert_sorted_snoc x y l :
  le x y = true -> insert_sorted le x (l ++ [y]) = insert_sorted le x l ++ [y].
Proof.
  intros Hle. induction l as [|z l IH]; simpl; [by rewrite Hle|].
  destruct (le x z); [done|]. by rewrite IH.
Qed.

Lemma sort_by_snoc y l :
  (forall x, x ∈ l -> le x y = true) -> sort_by le (l ++ [y]) = sort_by le l ++ [y].
Proof.
  induction l as [|x l IH]; simpl; [done|]. intros Hl.
  rewrite IH by (intros; apply Hl; by right). apply insert_sorted_snoc, Hl. by left.
Qed.
End sorted.

Section eviction.
Context (project_id : string) (target : ImproverSessionTarget).
Implicit Types (versions : list ConfigurationVersion).

Lemma retain_imap_app {A} (p : A -> bool) (l k : list A) :
  retain (fun entry => p entry.2) (imap pair (l ++ k)) =
  retain (fun entry => p entry.2) (imap pair l)
  ++ retain (fun entry => p entry.2) (imap (fun i x => (length l + i, x)%nat) k).
Proof. by rewrite imap_app, retain_app. Qed.

(** The indexed entries of the versions of a target. *)
Lemma indexed_entries {A} (p : A -> bool) (l : list A) entry :
  entry ∈ retain (fun entry => p entry.2) (imap pair l) ->
  l !! entry.1 = Some entry.2 /\ p entry.2 = true.
Proof.
  rewrite elem_of_retain. intros [Hin Hp]. split; [|done].
  apply elem_of_lookup_imap in Hin as (i & x & -> & Hi). done.
Qed.

Lemma delete_app_left {A} (l k : list A) i x :
  l !! i = Some x -> delete i (l ++ k) = delete i l ++ k.
Proof.
  revert i. induction l as [|y l IH]; intros [|i] Hi; [done..|]. simpl. f_equal. by apply IH.
Qed.

Lemma indexed_length {A} (p : A -> bool) (l : list A) :
  snd <$> retain (fun entry => p entry.2) (imap pair l) = retain p l.
Proof.
  induction l as [|x l IH] using rev_ind; [done|].
  rewrite retain_imap_app, fmap_app, IH, retain_app. f_equal. simpl. by destruct (p x).
Qed.

Lemma evict_none versions :
  (length (retain (of_target project_id target) versions) <= configuration_versions_per_target_max)%nat ->
  evict project_id target versions = versions.
Proof. intros Hl. unfold evict. replace (_ - _)%nat with 0 by lia. done. Qed.

(** With one version too many the oldest leaves, which is not the one appended. *)
Lemma evict_one versions version :
  (forall x, x ∈ versions -> of_target project_id target x = true ->
     (cv_sequence x <= cv_sequence version)%N) ->
  of_target project_id target version = true ->
  length (retain (of_target project_id target) versions) = configuration_versions_per_target_max ->
  exists i oldest, versions !! i = Some oldest /\ of_target project_id target oldest = true
  /\ (forall x, x ∈ versions -> of_target project_id target x = true ->
        (cv_sequence oldest <= cv_sequence x)%N)
  /\ evict project_id target (versions ++ [version]) = delete i versions ++ [version].
Proof.
  intros Hmax Hv Hl. unfold evict, indexed_of_target.
  rewrite retain_imap_app, retain_app, length_app, Hl. cbn [imap retain snd]. rewrite Hv.
  cbn [length]. replace (_ + 1 - _)%nat with 1 by lia.
  set (entries := retain _ (imap pair versions)).
  assert (forall entry, entry ∈ entries ->
    versions !! entry.1 = Some entry.2 /\ of_target project_id target entry.2 = true) as He.
  { intros entry. apply indexed_entries. }
  rewrite sort_by_snoc.
  2:{ intros entry [Hi Ho]%He. apply N.leb_le, Hmax; [by eapply list_elem_of_lookup_2|done]. }
  destruct (sort_by _ entries) as [|[i oldest] rest] eqn:Es.
  { exfalso. pose proof (sort_by_perm (le_key (fun entry => cv_sequence entry.2)) entries) as Hp.
    rewrite Es in Hp. apply Permutation_length in Hp. simpl in Hp.
    pose proof (indexed_length (of_target project_id target) versions) as Hi. fold entries in Hi.
    apply (f_equal length) in Hi. rewrite length_fmap, <- Hp in Hi. rewrite <- Hi in Hl. discriminate. }
  assert ((i, oldest) ∈ entries) as Hin.
  { apply (elem_of_sort_by (le_key (fun entry => cv_sequence entry.2))). rewrite Es. left. }
  destruct (He _ Hin) as [Hi Ho]. simpl in *. exists i, oldest. split_and!; [done..| |].
  - intros x [j Hj]%list_elem_of_lookup_1 Hx.
    assert ((j, x) ∈ entries) as Hje.
    { apply elem_of_retain. split; [|done]. apply elem_of_lookup_imap. eauto. }
    apply N.leb_le. eapply (sort_by_head (le_key (fun entry : nat * ConfigurationVersion => cv_sequence entry.2))
      (le_key_total _) (le_key_trans _)) in Hje; [|by rewrite Es]. exact Hje.
  - simpl. by eapply delete_app_left.
Qed.
End eviction.

(** ** Recording *)

(** The room a valid state leaves: at most twenty-four versions of the target. *)
Definition has_room (project_id : string) (target : ImproverSessionTarget) (st : CurrentState) : Prop :=
  (length (retain (of_target project_id target) (configuration_versions st))
   <= configuration_versions_per_target_max)%nat.

(** The sequence number of the next version. *)
Definition next_sequence (st : CurrentState) (project_id : string) (target : ImproverSessionTarget) : N :=
  match newest_version st project_id target with
  | None => 1%N
  | Some version => u64_saturating_add (cv_sequence version) 1
  end.

Lemma next_sequence_least st project_id target x :
  x ∈ configuration_versions st -> of_target project_id target x = true ->
  (cv_sequence x <= u64_max)%N -> (cv_sequence x <= next_sequence st project_id target)%N.
Proof.
  intros Hx Ho Hm. unfold next_sequence, newest_version.
  assert (x ∈ retain (of_target project_id target) (configuration_versions st)) as Hin
    by (by apply elem_of_retain).
  destruct (max_by _ _) as [newest|] eqn:E.
  - eapply max_by_greatest in E; [|apply le_key_total|apply le_key_trans|exact Hin].
    apply N.leb_le in E. unfold u64_saturating_add. lia.
  - apply max_by_None in E. rewrite E in Hin. by apply not_elem_of_nil in Hin.
Qed.

(** Below the largest number the next one is new. *)
Lemma next_sequence_new st project_id target x :
  x ∈ configuration_versions st -> of_target project_id target x = true ->
  is_none_or (newest_version st project_id target) (fun newest => cv_sequence newest <? u64_max)%N
    = true ->
  (cv_sequence x < next_sequence st project_id target)%N.
Proof.
  intros Hx Ho Hm. unfold next_sequence, newest_version in *.
  assert (x ∈ retain (of_target project_id target) (configuration_versions st)) as Hin
    by (by apply elem_of_retain).
  destruct (max_by _ _) as [newest|] eqn:E; simpl in Hm.
  - eapply max_by_greatest in E; [|apply le_key_total|apply le_key_trans|exact Hin].
    apply N.leb_le in E. apply N.ltb_lt in Hm. unfold u64_saturating_add. lia.
  - apply max_by_None in E. rewrite E in Hin. by apply not_elem_of_nil in Hin.
Qed.

(** What the code relies on: at most twenty-four versions of the target, and a
    sequence number left for the next. *)
Definition may_record (st : CurrentState) (project_id : string) (target : ImproverSessionTarget) : bool :=
  (length (retain (of_target project_id target) (configuration_versions st))
   <=? configuration_versions_per_target_max)%nat
  && is_none_or (newest_version st project_id target) (fun newest => cv_sequence newest <? u64_max)%N.

(** The versions that stay when one of the target is appended. *)
Record makes_room (project_id : string) (target : ImproverSessionTarget)
    (versions kept : list ConfigurationVersion) : Prop := MkMakesRoom {
  mr_sublist : kept `sublist_of` versions;
  mr_others : forall x, x ∈ versions -> of_target project_id target x = false -> x ∈ kept;
  mr_count :
    (length (retain (of_target project_id target) kept) < configuration_versions_per_target_max)%nat
}.

Lemma retain_delete {A} (p : A -> bool) l i x :
  l !! i = Some x -> p x = true -> length (retain p l) = S (length (retain p (delete i l))).
Proof.
  revert i. induction l as [|y l IH]; intros [|i] Hi Hp; simplify_eq/=; [by rewrite Hp|].
  specialize (IH i Hi Hp). destruct (p y); simpl; lia.
Qed.

Lemma evict_appended project_id target versions version :
  of_target project_id target version = true ->
  (forall x, x ∈ versions -> of_target project_id target x = true ->
     (cv_sequence x <= cv_sequence version)%N) ->
  (length (retain (of_target project_id target) versions) <= configuration_versions_per_target_max)%nat ->
  exists kept, evict project_id target (versions ++ [version]) = kept ++ [version]
  /\ makes_room project_id target versions kept.
Proof.
  intros Hv Hmax Hl. apply Nat.lt_eq_cases in Hl as [Hl|Hl].
  - exists versions. split; [|by split]. apply evict_none.
    rewrite retain_app, length_app. simpl. rewrite Hv. simpl. lia.
  - destruct (evict_one project_id target versions version Hmax Hv Hl) as (i & oldest & Hi & Ho & _ & ->).
    exists (delete i versions). split; [done|]. split.
    + apply sublist_delete.
    + intros x [j Hj]%list_elem_of_lookup_1 Hx. assert (i <> j) by congruence.
      apply list_elem_of_lookup. destruct (decide (j < i)).
      * exists j. by rewrite list_lookup_delete_lt.
      * exists (Nat.pred j). rewrite list_lookup_delete_ge by lia. by replace (S (Nat.pred j)) with j by lia.
    + rewrite (retain_delete _ _ _ _ Hi Ho) in Hl. lia.
Qed.

(** A new content is appended as the newest version and selected. *)
Lemma record_version_appends id project_id target content record st :
  may_record st project_id target = true ->
  is_some_and (active_version st project_id target) (fun version => cv_content version == content) = false ->
  let version :=
    MkConfigurationVersion id project_id target (next_sequence st project_id target) content
      (vr_summary record) (vr_source_session_id record) (vr_created_at_epoch_ms record) in
  exists kept, makes_room project_id target (configuration_versions st) kept
  /\ record_version id project_id target content record st =
     (Some version,
      set_active_version project_id target id (st <| configuration_versions := kept ++ [version] |>)).
Proof.
  intros Hr Hc version. unfold may_record in Hr. apply andb_true_iff in Hr as [Hl Hn].
  apply Nat.leb_le in Hl.
  assert (of_target project_id target version = true) as Hv.
  { unfold of_target. simpl. by rewrite !bool_decide_eq_true_2. }
  destruct (evict_appended project_id target (configuration_versions st) version Hv) as (kept & He & Hk);
    [|done|].
  { intros x Hx Ho. apply N.lt_le_incl. by apply next_sequence_new. }
  exists kept. split; [done|]. unfold record_version. rewrite Hc.
  change (match newest_version st project_id target with
          | Some version0 => u64_saturating_add (cv_sequence version0) 1 | None => 1%N end)
    with (next_sequence st project_id target).
  fold version. cbv zeta. unfold set_active_version. cbn -[evict select_in].
  by rewrite He.
Qed.

Lemma record_version_kept id project_id target content record st :
  is_some_and (active_version st project_id target) (fun version => cv_content version == content) = true ->
  record_version id project_id target content record st = (None, st).
Proof. intros Hc. unfold record_version. by rewrite Hc. Qed.

(** ** The selected version *)

Lemma select_in_finds project_id target id selections :
  exists selection,
    find_first (selects project_id target) (select_in project_id target id selections) = Some selection
    /\ cvs_version_id selection = id.
Proof.
  unfold select_in. pose proof (find_mut_position (selects project_id target)
    (fun selection => selection <| cvs_version_id := id |>) selections) as Hm.
  destruct (find_mut _ _ _) as [[x k]|].
  - destruct (position _ _) as [[i y]|] eqn:E; [|done]. injection Hm as -> ->.
    assert (selects project_id target (y <| cvs_version_id := id |>) = true) as Hs.
    { by apply position_Some in E as [_ Hs]. }
    exists (y <| cvs_version_id := id |>). by rewrite position_find, (position_insert _ _ _ _ _ E Hs).
  - destruct (position _ _) as [[i y]|] eqn:E; [done|].
    assert (find_first (selects project_id target) selections = None) as Hn.
    { rewrite position_find. by rewrite E. }
    rewrite find_first_app, Hn. simpl. unfold selects at 1. simpl.
    rewrite !bool_decide_eq_true_2 by done. simpl. eauto.
Qed.

Lemma active_version_elem st project_id target active :
  active_version st project_id target = Some active -> active ∈ configuration_versions st.
Proof.
  unfold active_version. destruct (find_first (selects _ _) _); simpl; [|done]. apply find_first_elem.
Qed.

Lemma active_version_selected project_id target id st version :
  version ∈ configuration_versions st -> cv_id version = id ->
  exists active, active_version (set_active_version project_id target id st) project_id target = Some active
  /\ cv_id active = id.
Proof.
  intros Hv <-. unfold active_version, set_active_version. simpl.
  destruct (select_in_finds project_id target (cv_id version) (configuration_version_selections st))
    as (selection & -> & Hs). simpl. rewrite Hs.
  destruct (find_first _ (configuration_versions st)) as [active|] eqn:E.
  - exists active. split; [done|]. by apply find_first_key in E.
  - eapply find_first_None in E; [|exact Hv]. by apply bool_decide_eq_false in E.
Qed.
