(* ===== verification/AccountRecords.v ===== *)
(** * Accounts, the Agent library and preferences

    [store/src/records/agent_accounts.rs], [agent_library.rs], [agent_fork.rs],
    [agent_restart.rs], [keep_awake.rs] and [mcp_settings.rs], the admission of a
    Session with a personal Agent, and the clauses of [validation.rs] about
    these records; then issue links and branch sets. *)

From S2P Require Import Prelude Keyed Text Domain DomainRules DomainConfig StoreState.
From S2P Require Import SessionRecords.

Local Open Scope string_scope.
Local Open Scope list_scope.

(** [if self.state.revision != expected_revision { return Err(RevisionConflict) }] *)
Definition expect_revision (st : CurrentState) (expected_revision : N) : StoreM unit :=
  refuse_if (negb (revision st =? expected_revision)%N) RevisionConflict.

(** ** Accounts *)

Definition is_account (provider : AgentAccountProvider) (id : string) (account : AgentAccount) : bool :=
  (aa_agent_id account == provider) && (aa_account_id account == id).

(** [account.is_default = account.account_id == id], of the provider's accounts *)
Definition with_default (provider : AgentAccountProvider) (id : string) (account : AgentAccount)
  : AgentAccount :=
  if aa_agent_id account == provider
  then account <| aa_is_default := (aa_account_id account == id) |> else account.

(** [create_agent_account] *)
Definition create_agent_account (account : AgentAccount) (expected_revision : N) : StoreM N :=
  let! st := get_state in
  expect_revision st expected_revision ;;
  let accounts := agent_accounts st ++ [account] in
  refuse_if (negb (valid_agent_accounts accounts)) ConstraintViolation ;;
  install_revision st (st <| agent_accounts := accounts |>).

(** [rename_agent_account] *)
Definition rename_agent_account (provider : AgentAccountProvider) (id name : string)
    (expected_revision : N) : StoreM N :=
  let! st := get_state in
  expect_revision st expected_revision ;;
  let! '(index, account) :=
    lift (ok_or (position (is_account provider id) (agent_accounts st)) ConstraintViolation) in
  if aa_name account == name then ret (revision st)
  else
    let accounts := <[index := account <| aa_name := name |>]> (agent_accounts st) in
    refuse_if (negb (valid_agent_accounts accounts)) ConstraintViolation ;;
    install_revision st (st <| agent_accounts := accounts |>).

(** [set_default_agent_account] *)
Definition set_default_agent_account (provider : AgentAccountProvider) (id : string)
    (expected_revision : N) : StoreM N :=
  let! st := get_state in
  expect_revision st expected_revision ;;
  let! account :=
    lift (ok_or (find_first (is_account provider id) (agent_accounts st)) ConstraintViolation) in
  if aa_is_default account then ret (revision st)
  else
    install_revision st (st <| agent_accounts := with_default provider id <$> agent_accounts st |>).

(** [delete_agent_account] *)
Definition forget_account (provider : AgentAccountProvider) (id : string)
    (saved : SavedAgentLaunchSelection) : SavedAgentLaunchSelection :=
  if (sal_agent_id saved == account_provider_command provider)
     && (als_account_id (sal_selection saved) == Some id)
  then
    let selection := sal_selection saved in
    saved <| sal_selection := selection <| als_account_id := None |> |>
  else saved.
Definition delete_agent_account (provider : AgentAccountProvider) (id : string)
    (expected_revision : N) : StoreM N :=
  let! st := get_state in
  expect_revision st expected_revision ;;
  refuse_if (id == system_agent_account_id) ConstraintViolation ;;
  let! '(index, removed) :=
    lift (ok_or (position (is_account provider id) (agent_accounts st)) ConstraintViolation) in
  let accounts := delete index (agent_accounts st) in
  let accounts :=
    if aa_is_default removed then with_default provider system_agent_account_id <$> accounts
    else accounts in
  refuse_if (negb (valid_agent_accounts accounts)) ConstraintViolation ;;
  install_revision st
    (st <| agent_accounts := accounts |>
        <| last_agent_launch_selection :=
             forget_account provider id <$> last_agent_launch_selection st |>).

(** ** The library of personal Agents *)

(** [change_agent_library] *)
Definition change_agent_library (expected_revision : N)
    (change : AgentLibrary -> result StoreError AgentLibrary) : StoreM N :=
  let! st := get_state in
  refuse_if (negb (al_revision (agent_library st) =? expected_revision)%N) RevisionConflict ;;
  let! library := lift (change (agent_library st)) in
  refuse_if (negb (agent_library_is_valid library)) ConstraintViolation ;;
  let! next := lift (ok_or (u64_checked_add (al_revision library) 1) ConstraintViolation) in
  install_revision st (st <| agent_library := library <| al_revision := next |> |>).

(** [update_personal_agent] *)
Definition upsert_agent (agent : PersonalAgent) (library : AgentLibrary)
  : result StoreError AgentLibrary :=
  match position (fun entry => pa_id entry == pa_id agent) (al_agents library) with
  | Some (index, current) =>
      match u64_checked_add (pa_version current) 1 with
      | None => Err ConstraintViolation
      | Some next =>
          if negb (pa_version agent =? next)%N then Err RevisionConflict
          else Ok (library <| al_agents := <[index := agent]> (al_agents library) |>)
      end
  | None =>
      if valid_personal_agent_id (pa_id agent) && negb (pa_version agent =? 1)%N then Err NotFound
      else Ok (library <| al_agents := al_agents library ++ [agent] |>)
  end.
Definition update_personal_agent (agent : PersonalAgent) (expected_revision : N) : StoreM N :=
  change_agent_library expected_revision (upsert_agent agent).

(** [delete_personal_agent] *)
Definition remove_agent (id : string) (library : AgentLibrary) : result StoreError AgentLibrary :=
  match position (fun entry => pa_id entry == id) (al_agents library) with
  | None => Err NotFound
  | Some (index, _) =>
      Ok (library <| al_agents := delete index (al_agents library) |>
                  <| al_favorites := retain (fun favorite => favorite != id) (al_favorites library) |>)
  end.
Definition delete_personal_agent (id : string) (expected_revision : N) : StoreM N :=
  change_agent_library expected_revision (remove_agent id).

(** [favorite_agent_profile] *)
Definition set_favorite (id : string) (favorite : bool) (library : AgentLibrary)
  : result StoreError AgentLibrary :=
  let favorites := retain (fun value => value != id) (al_favorites library) in
  Ok (library <| al_favorites := if favorite then favorites ++ [id] else favorites |>).
Definition favorite_agent_profile (id : string) (favorite : bool) (expected_revision : N) : StoreM N :=
  change_agent_library expected_revision (set_favorite id favorite).

(** ** Sessions with a personal Agent *)

(** [session_matches_agent_profile] *)
Definition session_matches_agent_profile (session : SessionRecord) (agent : PersonalAgent) : bool :=
  (s_kind session == SessionKind_Agent)
  && (pd_agent_id (s_process session) == Some (pa_agent_id agent))
  && ((pd_template_ref (s_process session) == Some "builtin.agent.personal")
      || (pd_template_ref (s_process session) == Some "builtin.agent.ask-to-helper")).

(** [validate_personal_agent_session] *)
Definition validate_personal_agent_session (st : CurrentState) (session : SessionRecord)
    (agent : PersonalAgent) : result StoreError unit :=
  let launched := s_launch_selection session in
  let pinned := pa_selection agent in
  if negb (personal_agent_is_valid agent)
     || any (fun entry => sap_session_id entry == s_id session) (session_agent_profiles st)
     || negb (session_matches_agent_profile session agent)
     || (als_model launched != als_model pinned)
     || (als_permission launched != als_permission pinned)
     || (als_reasoning launched != als_reasoning pinned)
     || is_some_and (als_account_id pinned) (fun account_id =>
          als_account_id launched != Some account_id)
     || ((pd_template_ref (s_process session) == Some "builtin.agent.ask-to-helper")
         && (is_none (s_ask_to_source_session_id session) || is_none (s_ask_to_continuation session)))
  then Err ConstraintViolation else Ok tt.

(** [insert_personal_agent_session], through
    [admit_fresh_session(session, FreshSessionAdmission::PersonalAgent { .. })] *)
Definition insert_personal_agent_session (session : SessionRecord) (agent : PersonalAgent)
    (remember : bool) : StoreM N :=
  let! st := get_state in
  let! _ := lift (validate_personal_agent_session st session agent) in
  let! preference := lift (standalone_preference st session remember) in
  let st' := admitted session preference st in
  install_revision st
    (st' <| session_agent_profiles :=
              session_agent_profiles st' ++ [MkSessionAgentProfile (s_id session) agent] |>).

(** [session_profiles_are_invalid] *)
Definition known_sessions (st : CurrentState) : list SessionRecord :=
  sessions st ++ (ds_session <$> deleted_sessions st).
Definition session_profiles_are_invalid (st : CurrentState) : bool :=
  any_with_rest (fun entry rest =>
    negb (personal_agent_is_valid (sap_agent entry))
    || any (fun other => sap_session_id other == sap_session_id entry) rest
    || negb (any (fun session =>
                (s_id session == sap_session_id entry)
                && session_matches_agent_profile session (sap_agent entry)) (known_sessions st)))
    (session_agent_profiles st)
  || any (fun session =>
       (pd_template_ref (s_process session) == Some "builtin.agent.personal")
       && negb (any (fun entry => sap_session_id entry == s_id session) (session_agent_profiles st)))
       (known_sessions st).

(** ** Preferences *)

(** [set_agent_fork_preference], [set_agent_restart_preference],
    [set_keep_awake_preference] *)
Definition set_agent_fork_preference (preference : AgentForkPreference) : StoreM N :=
  let! st := get_state in
  if agent_fork_preference st == preference then ret (revision st)
  else install_revision st (st <| agent_fork_preference := preference |>).
Definition set_agent_restart_preference (preference : AgentRestartPreference) : StoreM N :=
  let! st := get_state in
  if agent_restart_preference st == preference then ret (revision st)
  else install_revision st (st <| agent_restart_preference := preference |>).
Definition set_keep_awake_preference (preference : KeepAwakePreference) : StoreM N :=
  let! st := get_state in
  if keep_awake_preference st == preference then ret (revision st)
  else install_revision st (st <| keep_awake_preference := preference |>).

(** [update_mcp_tool_description] *)
Definition mcp_tool_le (a b : McpToolDescriptionOverride) : bool :=
  string_le (mcp_as_str (mto_tool a)) (mcp_as_str (mto_tool b)).
Definition update_mcp_tool_description (tool : McpToolName) (description : string)
    (expected_revision : N) : StoreM N :=
  let! st := get_state in
  expect_revision st expected_revision ;;
  let overrides := mcp_tool_description_overrides st in
  if is_some_and (find_first (fun value => mto_tool value == tool) overrides)
       (fun value => mto_description value == description)
  then ret (revision st)
  else
    let overrides :=
      match find_mut (fun value => mto_tool value == tool)
              (fun value => value <| mto_description := description |>) overrides with
      | Some (_, overrides') => overrides'
      | None => overrides ++ [MkMcpToolDescriptionOverride tool description]
      end in
    install_revision st (st <| mcp_tool_description_overrides := sort_by mcp_tool_le overrides |>).

(** [reset_mcp_tool_description] *)
Definition reset_mcp_tool_description (tool : McpToolName) (expected_revision : N) : StoreM N :=
  let! st := get_state in
  expect_revision st expected_revision ;;
  match position (fun value => mto_tool value == tool) (mcp_tool_description_overrides st) with
  | None => ret (revision st)
  | Some (index, _) =>
      install_revision st
        (st <| mcp_tool_description_overrides := delete index (mcp_tool_description_overrides st) |>)
  end.

(** The clause of [validate_current_state] about the overrides, with
    [McpToolDescription::validate]. *)
Definition mcp_overrides_are_invalid (st : CurrentState) : bool :=
  any_with_rest (fun value rest =>
    is_none (mcp_description_new (mto_description value))
    || any (fun candidate => mto_tool candidate == mto_tool value) rest)
    (mcp_tool_description_overrides st).

(** * Issue links and branch sets

    [store/src/records/issue_link.rs] and [task_branch.rs]: the external issue a
    Task is linked to, and the branches seen in its worktree, with the clauses
    of [validation.rs] about them. *)

(** ** Issue links *)

(** [https_authority] *)
Definition https_authority (value : string) : option string :=
  rest ← strip_prefix "https://" value;
  string_of_bytes <$> head (split_bytes 47 (bytes rest)).

(** [same_https_authority] *)
Definition same_https_authority (a b : option string) : bool :=
  match a ≫= https_authority, b ≫= https_authority with
  | Some a, Some b => eq_ignore_ascii_case a b
  | _, _ => false
  end.

(** [same_source_issue], [same_site_issue], [same_site_key] *)
Definition same_source_issue (existing incoming : IssueLink) : bool :=
  (il_provider existing == il_provider incoming)
  && is_some (il_source_id existing)
  && (il_source_id existing == il_source_id incoming)
  && (il_external_id existing == il_external_id incoming).
Definition same_site_issue (existing incoming : IssueLink) : bool :=
  (il_provider existing == il_provider incoming)
  && is_some (il_external_id existing)
  && (il_external_id existing == il_external_id incoming)
  && same_https_authority (il_url existing) (il_url incoming).
Definition same_site_key (existing incoming : IssueLink) : bool :=
  (il_provider existing == il_provider incoming)
  && eq_ignore_ascii_case (il_external_ref existing) (il_external_ref incoming)
  && same_https_authority (il_url existing) (il_url incoming).

(** The conditions on the fields of a link that a write and a load share. *)
Definition external_id_is_invalid (link : IssueLink) : bool :=
  is_some_and (il_external_id link) (fun value =>
    str_is_empty value || (task_source_external_id_max_bytes <? len value)%N
    || negb (all is_ascii_digit (bytes value)) || is_none (il_source_id link)).
Definition external_updated_at_is_invalid (link : IssueLink) : bool :=
  is_some_and (il_external_updated_at link) (fun value =>
    str_is_empty value || (128 <? len value)%N || has_ascii_control value
    || is_none (il_source_id link) || is_none (il_external_id link)).
Definition link_url_is_invalid (url : string) : bool :=
  str_is_empty url || (2048 <? len url)%N || has_ascii_control url
  || contains_any [63; 35; 64]%N url.
Definition source_id_is_invalid (link : IssueLink) (source_id : string) : bool :=
  str_is_empty source_id || (64 <? len source_id)%N
  || is_none (il_external_id link) || is_none (il_external_updated_at link).

(** [insert_jira_issue_link_record] *)
Definition insert_jira_issue_link_record (tasks : list TaskRecord)
    (sources : list TaskSourceConfiguration) (link : IssueLink) (links : list IssueLink)
  : result StoreError (list IssueLink) :=
  if (il_provider link != ILP_Jira)
     || (il_sync_authority link != ILA_None)
     || str_is_empty (il_external_ref link)
     || (85 <? len (il_external_ref link))%N
     || is_some_and (il_source_id link) (fun source_id =>
          source_id_is_invalid link source_id
          || negb (any (fun source => tsc_id source == source_id) sources))
     || external_id_is_invalid link
     || external_updated_at_is_invalid link
     || is_none_or (il_url link) link_url_is_invalid
     || negb (any (fun task => t_id task == il_task_id link) tasks)
     || any (fun candidate =>
          ((il_task_id candidate == il_task_id link) && (il_provider candidate == ILP_Jira))
          || same_source_issue candidate link || same_site_issue candidate link
          || same_site_key candidate link) links
  then Err ConstraintViolation
  else Ok (links ++ [link]).

(** [insert_task_jira_issue_link] *)
Definition insert_task_jira_issue_link (link : IssueLink) : StoreM N :=
  let! st := get_state in
  let! links :=
    lift (insert_jira_issue_link_record (tasks st) (task_source_configurations st) link
            (issue_links st)) in
  install_revision st (st <| issue_links := links |>).

(** [issue_links_are_invalid] *)
Definition issue_link_is_invalid (st : CurrentState) (link : IssueLink) (rest : list IssueLink)
  : bool :=
  negb (any (fun task => t_id task == il_task_id link) (tasks st))
  || str_is_empty (il_external_ref link)
  || (85 <? len (il_external_ref link))%N
  || is_some_and (il_source_id link) (source_id_is_invalid link)
  || external_id_is_invalid link
  || external_updated_at_is_invalid link
  || is_some_and (il_url link) link_url_is_invalid
  || any (fun candidate =>
       ((il_task_id candidate == il_task_id link) && (il_provider candidate == ILP_Jira)
        && (il_provider link == ILP_Jira))
       || same_source_issue candidate link || same_site_issue candidate link) rest.
Definition issue_links_are_invalid (st : CurrentState) : bool :=
  any_with_rest (issue_link_is_invalid st) (issue_links st).

(** ** Branch sets *)

Definition task_branch_memberships_max : nat := 64.

(** [valid_ref], [valid_local_ref], [valid_oid] *)
Definition valid_ref (reference : string) : bool :=
  negb (str_is_empty reference) && (len reference <=? 1024)%N && starts_with "refs/" reference
  && negb (has_ascii_control reference)
  && negb (contains_any [32; 126; 94; 58; 63; 42; 91; 92]%N reference)
  && negb (contains_text ".." reference)
  && negb (ends_with "." reference || ends_with "/" reference).
Definition valid_local_ref (reference : string) : bool :=
  starts_with "refs/heads/" reference && valid_ref reference.
Definition valid_oid (oid : string) : bool :=
  ((len oid =? 40)%N || (len oid =? 64)%N) && all is_ascii_hexdigit (bytes oid).

Definition primary_ref (binding : TaskBranchBinding) : string :=
  String.append "refs/heads/" (tb_name binding).

(** One round of the loop of [reconcile_task_branch_set] over [incoming];
    [before] are the memberships of the rounds before. *)
Definition incoming_is_refused (binding : TaskBranchBinding) (expected_worktree_generation : N)
    (expected_repository_common_dir : string) (before : list TaskBranchMembership)
    (membership : TaskBranchMembership) : bool :=
  str_is_empty (tbm_id membership)
  || (64 <? len (tbm_id membership))%N
  || (tbm_repository_root membership != tb_repository_root binding)
  || (tbm_repository_common_dir membership != expected_repository_common_dir)
  || negb (tbm_first_observed_worktree_generation membership =? expected_worktree_generation)%N
  || (tbm_ref_name membership == primary_ref binding)
  || negb (valid_local_ref (tbm_ref_name membership))
  || is_some_and (tbm_parent_ref_name membership) (fun reference => negb (valid_ref reference))
  || negb (valid_oid (tbm_first_observed_oid membership))
  || any (fun earlier => tbm_ref_name earlier == tbm_ref_name membership) before.

Definition same_branch (membership candidate : TaskBranchMembership) : bool :=
  (tbm_repository_common_dir candidate == tbm_repository_common_dir membership)
  && (tbm_ref_name candidate == tbm_ref_name membership).

(** [reconcile_task_branch_set] *)
Definition reconcile_task_branch_set (task_id : string) (expected_worktree_generation : N)
    (expected_repository_common_dir : string) (incoming : list TaskBranchMembership)
    (evidence_truncated : bool) : StoreM TaskBranchSet :=
  let! st := get_state in
  let! task := lift (ok_or (find_task st task_id) NotFound) in
  let! binding := lift (ok_or (t_branch task) ConstraintViolation) in
  let! proof := lift (ok_or (find_proof st task_id) ConstraintViolation) in
  refuse_if (negb (t_worktree_generation task =? expected_worktree_generation)%N
             || negb (mw_worktree_generation proof =? expected_worktree_generation)%N
             || (mw_repository_common_dir proof != expected_repository_common_dir)
             || (ws_repository_root (mw_normalized_spec proof) != tb_repository_root binding))
    ConstraintViolation ;;
  refuse_if (negb (all_with_before (fun before membership =>
               negb (incoming_is_refused binding expected_worktree_generation
                       expected_repository_common_dir before membership)) [] incoming))
    ConstraintViolation ;;
  let existing := position (fun set => tbs_task_id set == task_id) (task_branch_sets st) in
  let existing_memberships :=
    match existing with Some (_, set) => tbs_memberships set | None => [] end in
  let additions :=
    retain (fun candidate => negb (any (fun existing => same_branch candidate existing)
                                     existing_memberships)) incoming in
  refuse_if ((task_branch_memberships_max <? length existing_memberships + length additions)%nat
             || any (fun candidate =>
                  any (fun set =>
                    any (fun membership => tbm_id membership == tbm_id candidate)
                      (tbs_memberships set)) (task_branch_sets st)) additions)
    ConstraintViolation ;;
  if (additions == [])
     && is_none_or existing (fun entry => negb evidence_truncated || tbs_evidence_truncated entry.2)
  then ret match existing with
           | Some (_, set) => set
           | None => MkTaskBranchSet task_id false []
           end
  else
    match existing with
    | Some (index, set) =>
        let set :=
          set <| tbs_evidence_truncated := tbs_evidence_truncated set || evidence_truncated |>
              <| tbs_memberships := tbs_memberships set ++ additions |> in
        install st (st <| task_branch_sets := <[index := set]> (task_branch_sets st) |>) set
    | None =>
        let set := MkTaskBranchSet task_id evidence_truncated additions in
        install st (st <| task_branch_sets := task_branch_sets st ++ [set] |>) set
    end.

(** [task_branch_sets_are_invalid]: the identifiers are collected in one set
    over all rounds, and the first failure ends the search, so the order of the
    tests does not matter. *)
Definition membership_is_valid (task : TaskRecord) (binding : TaskBranchBinding)
    (membership : TaskBranchMembership) : bool :=
  negb (str_is_empty (tbm_id membership)) && (len (tbm_id membership) <=? 64)%N
  && (tbm_repository_root membership == tb_repository_root binding)
  && negb (str_is_empty (tbm_repository_common_dir membership))
  && (tbm_ref_name membership != primary_ref binding)
  && valid_local_ref (tbm_ref_name membership)
  && is_none_or (tbm_parent_ref_name membership) valid_ref
  && valid_oid (tbm_first_observed_oid membership)
  && (0 <? tbm_first_observed_worktree_generation membership)%N
  && (tbm_first_observed_worktree_generation membership <=? t_worktree_generation task)%N.
Definition branch_set_is_valid (st : CurrentState) (set : TaskBranchSet) : bool :=
  match find_task st (tbs_task_id set) with
  | None => false
  | Some task =>
      match t_branch task with
      | None => false
      | Some binding =>
          (length (tbs_memberships set) <=? task_branch_memberships_max)%nat
          && (length (retain (fun candidate => tbs_task_id candidate == tbs_task_id set)
                        (task_branch_sets st)) =? 1)%nat
          && all (membership_is_valid task binding) (tbs_memberships set)
          && all_with_rest (fun membership rest => negb (any (same_branch membership) rest))
               (tbs_memberships set)
      end
  end.
Definition membership_ids (sets : list TaskBranchSet) : list string :=
  sets ≫= (fun set => tbm_id <$> tbs_memberships set).
Definition task_branch_sets_are_invalid (st : CurrentState) : bool :=
  negb (all (branch_set_is_valid st) (task_branch_sets st)
        && unique_ids (membership_ids (task_branch_sets st))).
