(* ===== verification/RoutineRecords.v ===== *)
(** * Stewards and Routines

    [store/src/records/steward.rs] without the reset of an assistant, and
    [tracker.rs]: the Project's Steward with its executor Session, and the
    Routines, each save of which records a configuration version. *)

From S2P Require Import Prelude Text Domain DomainRules DomainConfig StoreState SessionRecords.
From S2P Require Import RunRecords AccountRecords.

Local Open Scope string_scope.
Local Open Scope list_scope.

Definition has_project (st : CurrentState) (project_id : string) : bool :=
  any (fun project => p_id project == project_id) (projects st).

(** ** Stewards *)

(** [clear_steward_conversation_ref] *)
Definition clear_conversation (project_id : string) (st : CurrentState) : CurrentState :=
  st <| steward_conversation_refs :=
          retain (fun conversation => scr_project_id conversation != project_id)
            (steward_conversation_refs st) |>.
Definition clear_steward_conversation_ref (project_id : string) : StoreM N :=
  let! st := get_state in
  let st' := clear_conversation project_id st in
  if (length (steward_conversation_refs st') =? length (steward_conversation_refs st))%nat
  then put_state st' ;; ret (revision st')
  else install_revision st st'.

Definition steward_position (st : CurrentState) (project_id : string)
  : option (nat * StewardConfiguration) :=
  position (fun current => stw_project_id current == project_id) (steward_configurations st).

Section versioned.
Context `{JsonText}.

(** [set_steward_configuration] *)
Definition set_steward_configuration (id : string) (configuration : StewardConfiguration)
    (expected_revision : N) : StoreM StewardConfiguration :=
  let! st := get_state in
  expect_revision st expected_revision ;;
  refuse_if (negb (steward_configuration_is_valid configuration)
             || negb (has_project st (stw_project_id configuration))
             || is_some_and (stw_executor_session_id configuration) (fun session_id =>
                  negb (any (fun session =>
                          (s_id session == session_id)
                          && (s_project_id session == stw_project_id configuration))
                        (sessions st)))) ConstraintViolation ;;
  let current := steward_position st (stw_project_id configuration) in
  if (snd <$> current) == Some configuration then ret configuration
  else
    let conversation_context_changed :=
      is_some_and current (fun entry =>
        (stw_agent_id entry.2 != stw_agent_id configuration)
        || (stw_system_prompt entry.2 != stw_system_prompt configuration)) in
    let st' :=
      st <| steward_configurations :=
              match current with
              | Some (index, _) => <[index := configuration]> (steward_configurations st)
              | None => steward_configurations st ++ [configuration]
              end |> in
    let st' := record_steward_version id configuration None "Configuration saved" st' in
    let st' :=
      if conversation_context_changed then clear_conversation (stw_project_id configuration) st'
      else st' in
    install st (remove_obsolete_assistant_sessions st').2 configuration.
End versioned.

Definition steward_command (agent : StewardAgentId) : string :=
  match agent with SAI_Claude => "claude" | SAI_Codex => "codex" end.

(** [validate_steward_executor_session] *)
Definition validate_steward_executor_session `{UuidParser} (st : CurrentState)
    (session : SessionRecord) (project_id : string) (generation : N) : result StoreError unit :=
  if (s_project_id session != project_id) || (s_kind session != SessionKind_Agent)
     || (s_lifecycle_state session != "running")
     || any (fun candidate => s_id candidate == s_id session) (sessions st)
  then Err ConstraintViolation
  else
    match snd <$> steward_position st project_id with
    | None => Err NotFound
    | Some configuration =>
        if negb (stw_enabled configuration)
           || negb (stw_generation configuration =? generation)%N
           || is_some (stw_executor_session_id configuration)
           || (pd_agent_id (s_process session) != Some (steward_command (stw_agent_id configuration)))
           || is_some_and (s_resume_ref session) (fun conversation_ref =>
                negb (resume_ref_validate conversation_ref)
                || negb (provider_matches_agent (ref_provider conversation_ref)
                           (pd_agent_id (s_process session))))
        then Err RevisionConflict else Ok tt
    end.

(** [apply_steward_executor_session]; [None] is the panic of its [expect]. *)
Definition apply_steward_executor_session (session_id project_id : string)
    (updated_at_epoch_ms : N) (st : CurrentState) : option CurrentState :=
  let st' := clear_conversation project_id st in
  (fun found =>
     (remove_obsolete_assistant_sessions (st' <| steward_configurations := found.2 |>)).2)
    <$> find_mut (fun configuration => stw_project_id configuration == project_id)
          (fun configuration =>
             configuration <| stw_executor_session_id := Some session_id |>
                           <| stw_updated_at_epoch_ms := updated_at_epoch_ms |>)
          (steward_configurations st').

(** [attach_steward_executor_session], through
    [admit_fresh_session(session, FreshSessionAdmission::Steward { .. })] *)
Definition attach_steward_executor_session `{UuidParser} (session : SessionRecord)
    (project_id : string) (generation updated_at_epoch_ms : N) : StoreM StewardConfiguration :=
  let! st := get_state in
  let! _ := lift (validate_steward_executor_session st session project_id generation) in
  let! st' :=
    expect (apply_steward_executor_session (s_id session) project_id updated_at_epoch_ms
              (admitted session None st)) "configuration was proven during admission" in
  install st st' tt ;;
  let! st'' := get_state in
  expect (snd <$> steward_position st'' project_id) "configuration was proven during admission".

(** [steward_conversation_refs_are_invalid] *)
Definition steward_conversation_refs_are_invalid `{UuidParser} (st : CurrentState) : bool :=
  any_with_rest (fun conversation rest =>
    negb (conversation_ref_is_valid conversation)
    || is_none_or (snd <$> steward_position st (scr_project_id conversation)) (fun configuration =>
         negb (provider_matches_agent (ref_provider (scr_resume_ref conversation))
                 (Some (steward_command (stw_agent_id configuration)))))
    || any (fun candidate => scr_project_id candidate == scr_project_id conversation) rest)
    (steward_conversation_refs st).

(** ** Routines *)

Definition is_task_of (st : CurrentState) (project_id task_id : string) : bool :=
  any (fun task => (t_id task == task_id) && (t_project_id task == project_id)) (tasks st).

Section routines.
Context `{JsonText}.

(** [save_tracker_configuration] *)
Definition asks_routine (project_id routine_id : string) (playbook : PlaybookConfiguration) : bool :=
  (pb_project_id playbook == project_id)
  && any (fun milestone => pm_routine_id milestone == routine_id) (all_milestones playbook).
Definition advanced_playbook (st : CurrentState) (configuration : TrackerConfiguration)
    (advance_playbook : bool)
  : result StoreError (option (nat * PlaybookConfiguration)) :=
  if negb advance_playbook then Ok None
  else
    match position (asks_routine (tc_project_id configuration) (tc_id configuration))
            (playbook_configurations st) with
    | None => Err ConstraintViolation
    | Some (index, playbook) =>
        match u64_checked_add (pb_revision playbook) 1 with
        | None => Err ConstraintViolation
        | Some revision => Ok (Some (index, playbook <| pb_revision := revision |>
            <| pb_updated_at_epoch_ms := tc_updated_at_epoch_ms configuration |>))
        end
    end.
Definition save_tracker_configuration (id : string) (configuration : TrackerConfiguration)
    (expected_revision : N) (advance_playbook : bool) : StoreM TrackerConfiguration :=
  let! st := get_state in
  expect_revision st expected_revision ;;
  let current := position (fun current => tc_id current == tc_id configuration)
                   (tracker_configurations st) in
  let related_tasks_match :=
    all (is_task_of st (tc_project_id configuration)) (tc_related_task_ids configuration) in
  refuse_if (negb (tracker_configuration_is_valid configuration)
             || negb (has_project st (tc_project_id configuration))
             || negb related_tasks_match
             || is_some_and current (fun entry =>
                  tc_project_id entry.2 != tc_project_id configuration)) ConstraintViolation ;;
  if (snd <$> current) == Some configuration then ret configuration
  else
    let! advanced := lift (advanced_playbook st configuration advance_playbook) in
    let st' :=
      st <| tracker_configurations :=
              match current with
              | Some (index, _) => <[index := configuration]> (tracker_configurations st)
              | None => tracker_configurations st ++ [configuration]
              end |> in
    let st' :=
      match advanced with
      | Some (index, playbook) =>
          st' <| playbook_configurations := <[index := playbook]> (playbook_configurations st') |>
      | None => st'
      end in
    install st (record_routine_version id configuration None "Configuration saved" st')
      configuration.

(** [set_tracker_configuration], [set_step_routine_configuration] *)
Definition set_tracker_configuration (id : string) (configuration : TrackerConfiguration)
    (expected_revision : N) : StoreM TrackerConfiguration :=
  save_tracker_configuration id configuration expected_revision false.
Definition set_step_routine_configuration (id : string) (configuration : TrackerConfiguration)
    (expected_revision : N) : StoreM TrackerConfiguration :=
  save_tracker_configuration id configuration expected_revision true.
End routines.

(** [delete_tracker_configuration] *)
Definition delete_tracker_configuration (tracker_id : string) (expected_revision : N)
  : StoreM TrackerConfiguration :=
  let! st := get_state in
  expect_revision st expected_revision ;;
  let! '(index, deleted) :=
    lift (ok_or (position (fun configuration => tc_id configuration == tracker_id)
                   (tracker_configurations st)) NotFound) in
  refuse_if (any (fun milestone => pm_routine_id milestone == tracker_id)
               (playbook_configurations st ≫= all_milestones)) ConstraintViolation ;;
  let st' := st <| tracker_configurations := delete index (tracker_configurations st) |> in
  install st
    (remove_configuration_target_state (tc_project_id deleted) (routine_target tracker_id) st')
    deleted.

(** [tracker_configurations_are_invalid] *)
Definition tracker_configurations_are_invalid (st : CurrentState) : bool :=
  any_with_rest (fun configuration rest =>
    negb (tracker_configuration_is_valid configuration)
    || negb (has_project st (tc_project_id configuration))
    || any (fun candidate => tc_id candidate == tc_id configuration) rest
    || any (fun task_id => negb (is_task_of st (tc_project_id configuration) task_id))
         (tc_related_task_ids configuration)
    || any (fun task_id => negb (is_task_of st (tc_project_id configuration) task_id))
         (tc_pending_routine_findings configuration ≫= prf_related_task_ids))
    (tracker_configurations st).
