(* ===== verification/TaskRecords.v ===== *)
(** * Tasks, their sources and their automation

    [store/src/records/task.rs], [task_source.rs] and
    [project_task_automation.rs], and the clauses of [validation.rs] about task
    sources and task automation; then Projects. *)

From S2P Require Import Prelude Text Domain DomainRules DomainConfig StoreState SessionJournals.
From S2P Require Import JournalInvariant SessionRecords AccountRecords RoutineRecords.

Local Open Scope string_scope.
Local Open Scope list_scope.

(** ** One Task's own fields *)

Definition task_position (st : CurrentState) (task_id : string) : option (nat * TaskRecord) :=
  position (fun task => t_id task == task_id) (tasks st).
Definition set_task (index : nat) (task : TaskRecord) (st : CurrentState) : CurrentState :=
  st <| tasks := <[index := task]> (tasks st) |>.
(** [task.updated_at_epoch_ms = now.max(task.updated_at_epoch_ms + 1)] *)
Definition touched (now : N) (task : TaskRecord) : TaskRecord :=
  task <| t_updated_at_epoch_ms := N.max now (u64_add (t_updated_at_epoch_ms task) 1) |>.

(** [insert_task_record] *)
Definition insert_task_record (task : TaskRecord) (tasks : list TaskRecord)
  : result StoreError (list TaskRecord) :=
  if is_some (t_branch task) || is_some (t_worktree task) || negb (t_worktree_generation task =? 0)%N
  then Err ConstraintViolation
  else if any (fun value => t_id value == t_id task) tasks then Err AlreadyExists
  else Ok (tasks ++ [task]).

(** [insert_task] *)
Definition insert_task (task : TaskRecord) : StoreM N :=
  let! st := get_state in
  let! tasks' := lift (insert_task_record task (tasks st)) in
  install_revision st (st <| tasks := tasks' |>).

(** [rename_task] *)
Definition rename_task (task_id title : string) (updated_at_epoch_ms : N) : StoreM TaskRecord :=
  let! st := get_state in
  let! '(index, task) := lift (ok_or (task_position st task_id) NotFound) in
  if t_title task == title then ret task
  else
    let task := touched updated_at_epoch_ms (task <| t_title := title |>) in
    install st (set_task index task st) task.

(** [update_task_brief], with [update_task_brief_record] *)
Definition update_task_brief (task_id : string) (brief : option string) (updated_at_epoch_ms : N)
  : StoreM TaskRecord :=
  let! st := get_state in
  let! '(index, task) := lift (ok_or (task_position st task_id) NotFound) in
  if t_brief task == brief then ret task
  else
    let task := touched updated_at_epoch_ms (task <| t_brief := brief |>) in
    install st (set_task index task st) task.

(** [update_task_developer_notes] *)
Definition update_task_developer_notes (task_id : string)
    (expected_notes developer_notes : list TaskDeveloperNote) (updated_at_epoch_ms : N)
  : StoreM TaskRecord :=
  refuse_if ((task_developer_notes_max <? N.of_nat (length developer_notes))%N
             || any (fun note => negb (developer_note_is_valid note)) developer_notes
             || any_with_rest (fun note rest => any (fun candidate => dn_id candidate == dn_id note) rest)
                  developer_notes) ConstraintViolation ;;
  let! st := get_state in
  let! '(index, task) := lift (ok_or (task_position st task_id) NotFound) in
  refuse_if (t_developer_notes task != expected_notes) RevisionConflict ;;
  if t_developer_notes task == developer_notes then ret task
  else
    let task := touched updated_at_epoch_ms (task <| t_developer_notes := developer_notes |>) in
    install st (set_task index task st) task.

(** [update_task_steward_brief] *)
Definition update_task_steward_brief (task_id brief_markdown : string)
    (expected_brief_revision updated_at_epoch_ms : N) : StoreM TaskRecord :=
  refuse_if ((task_steward_brief_max_bytes <? len brief_markdown)%N
             || (negb (str_is_empty brief_markdown) && trim_is_empty brief_markdown))
    ConstraintViolation ;;
  let! st := get_state in
  let! '(index, task) := lift (ok_or (task_position st task_id) NotFound) in
  refuse_if (negb (t_steward_brief_revision task =? expected_brief_revision)%N) RevisionConflict ;;
  if t_steward_brief_markdown task == brief_markdown then ret task
  else
    let task :=
      touched updated_at_epoch_ms
        (task <| t_steward_brief_markdown := brief_markdown |>
              <| t_steward_brief_revision := u64_add (t_steward_brief_revision task) 1 |>) in
    install st (set_task index task st) task.

(** ** The branch of a Task *)

(** [bind_task_branch] *)
Definition bind_task_branch (task_id : string) (binding : TaskBranchBinding)
    (updated_at_epoch_ms : N) : StoreM TaskRecord :=
  let! st := get_state in
  let! '(index, task) := lift (ok_or (task_position st task_id) NotFound) in
  if t_branch task == Some binding then ret task
  else
    refuse_if (is_some (t_branch task)) ConstraintViolation ;;
    refuse_held (holder po_task_id po_operation_id (provisioning_operations st) task_id)
      JournalConflict ;;
    refuse_held (holder co_task_id co_operation_id (cleanup_operations st) task_id)
      JournalConflict ;;
    refuse_held (t_id <$> find_first (fun candidate =>
                   (t_id candidate != task_id) && (t_project_id candidate == t_project_id task)
                   && (t_branch candidate == Some binding)) (tasks st)) BranchHeld ;;
    refuse_held (po_task_id <$> find_first (fun operation =>
                   (po_task_id operation != task_id)
                   && (po_project_id operation == t_project_id task)
                   && (ws_repository_root (po_spec operation) == tb_repository_root binding)
                   && (ws_branch_name (po_spec operation) == tb_name binding))
                   (provisioning_operations st)) BranchHeld ;;
    let task := touched updated_at_epoch_ms (task <| t_branch := Some binding |>) in
    install st (set_task index task st) task.

(** [release_closed_task_branch]: the journals are searched in this order. *)
Definition worktree_journal_of (st : CurrentState) (task_id : string) : option string :=
  match holder po_task_id po_operation_id (provisioning_operations st) task_id with
  | Some id => Some id
  | None =>
      match holder co_task_id co_operation_id (cleanup_operations st) task_id with
      | Some id => Some id
      | None =>
          match holder ro_task_id ro_operation_id (repair_operations st) task_id with
          | Some id => Some id
          | None => holder so_task_id so_operation_id (stale_resolution_operations st) task_id
          end
      end
  end.
Definition release_closed_task_branch (task_id : string) (expected : TaskBranchBinding)
    (updated_at_epoch_ms : N) : StoreM TaskRecord :=
  let! st := get_state in
  let! '(index, task) := lift (ok_or (task_position st task_id) NotFound) in
  refuse_if ((t_status task != TaskStatus_Closed) || is_some (t_archived_at_epoch_ms task)
             || is_some (t_worktree task) || (t_branch task != Some expected)) ConstraintViolation ;;
  refuse_held (worktree_journal_of st task_id) JournalConflict ;;
  let task := touched updated_at_epoch_ms (task <| t_branch := None |>) in
  install st
    (set_task index task
       (st <| task_branch_sets :=
                retain (fun set => tbs_task_id set != task_id) (task_branch_sets st) |>)) task.

(** ** The status of a Task *)

(** [drop_closed_task_routine_findings] *)
Definition drop_closed_task_routine_findings (task_id : string) (st : CurrentState) : CurrentState :=
  st <| tracker_configurations := drop_task_findings task_id <$> tracker_configurations st |>.

Definition relocation_into (st : CurrentState) (task_id : string) : option string :=
  holder rlo_target_task_id rlo_operation_id (session_relocation_operations st) task_id.

(** [set_task_status], with [set_task_status_record] *)
Definition set_task_status (task_id : string) (status : TaskStatus) (updated_at_epoch_ms : N)
  : StoreM TaskRecord :=
  let! st := get_state in
  let! '(index, task) := lift (ok_or (task_position st task_id) NotFound) in
  if t_status task == status then ret task
  else
    refuse_held (relocation_into st task_id) JournalConflict ;;
    let task := touched updated_at_epoch_ms (task <| t_status := status |>) in
    let st' := set_task index task st in
    install st
      (if status == TaskStatus_Closed then drop_closed_task_routine_findings task_id st' else st')
      task.

(** One round of the loop of [close_task_with_suspended_sessions] *)
Definition park_target (task_id : string) (closed_at_epoch_ms : N) (target : TaskArchiveTarget)
  : StoreM unit :=
  let! st := get_state in
  match find_mut (fun session => s_id session == tat_session_id target) exited_session
          (sessions st) with
  | None => fail NotFound
  | Some (_, sessions') =>
      put_state
        (st <| sessions := sessions' |>
            <| task_archive_suspensions :=
                 task_archive_suspensions st
                 ++ [{| sus_task_id := Some task_id;
                        sus_session_id := tat_session_id target;
                        sus_archived_at_epoch_ms := closed_at_epoch_ms;
                        sus_prior_lifecycle_state := tat_prior_lifecycle_state target;
                        sus_prior_resume_failure := tat_prior_resume_failure target;
                        sus_reason := TSR_Closed |}] |>)
  end.

(** [close_task_with_suspended_sessions] *)
Definition target_is_refused (st : CurrentState) (task : TaskRecord) (target : TaskArchiveTarget)
    (rest : list TaskArchiveTarget) : bool :=
  any (fun candidate => tat_session_id candidate == tat_session_id target) rest
  || any (fun suspension => sus_session_id suspension == tat_session_id target)
       (task_archive_suspensions st)
  || negb (any (fun session =>
              (s_id session == tat_session_id target)
              && (s_project_id session == t_project_id task)
              && (s_runtime_epoch session =? tat_runtime_epoch target)%N) (sessions st)).
Definition close_task_with_suspended_sessions (task_id : string) (targets : list TaskArchiveTarget)
    (closed_at_epoch_ms : N) : StoreM TaskRecord :=
  let! st := get_state in
  let! '(index, task) := lift (ok_or (task_position st task_id) NotFound) in
  refuse_held (relocation_into st task_id) JournalConflict ;;
  refuse_if ((t_status task != TaskStatus_Open) || is_some (t_archived_at_epoch_ms task)
             || any_with_rest (target_is_refused st task) targets) ConstraintViolation ;;
  for_each targets (park_target task_id closed_at_epoch_ms) ;;
  let! st' := get_state in
  let task := touched closed_at_epoch_ms (task <| t_status := TaskStatus_Closed |>) in
  install st (drop_closed_task_routine_findings task_id (set_task index task st')) task.

(** ** Deleting a Task *)

(** What leaves with a Task: its branch set, proof, receipts, links, answers,
    workflow runs, and the mentions of it in Routines. *)
Definition without_task (task_id : string) (routine : TrackerConfiguration) : TrackerConfiguration :=
  routine
    <| tc_related_task_ids := retain (fun id => id != task_id) (tc_related_task_ids routine) |>
    <| tc_pending_routine_findings :=
         retain (fun finding => negb (any (fun id => id == task_id) (prf_related_task_ids finding)))
           (tc_pending_routine_findings routine) |>.
Definition drop_task_records (task_id : string) (st : CurrentState) : CurrentState :=
  st <| task_branch_sets := retain (fun set => tbs_task_id set != task_id) (task_branch_sets st) |>
     <| managed_worktrees := retain (fun proof => mw_task_id proof != task_id) (managed_worktrees st) |>
     <| cleanup_receipts := retain (fun receipt => cr_task_id receipt != task_id) (cleanup_receipts st) |>
     <| repair_receipts := retain (fun receipt => rr_task_id receipt != task_id) (repair_receipts st) |>
     <| stale_resolution_receipts :=
          retain (fun receipt => sr_task_id receipt != task_id) (stale_resolution_receipts st) |>
     <| issue_links := retain (fun link => il_task_id link != task_id) (issue_links st) |>
     <| playbook_step_progress :=
          retain (fun progress => psp_task_id progress != task_id) (playbook_step_progress st) |>
     <| workflow_executions :=
          retain (fun execution => we_task_id execution != Some task_id) (workflow_executions st) |>
     <| tracker_configurations := without_task task_id <$> tracker_configurations st |>.

(** [delete_task] *)
Definition delete_task (task_id : string) : StoreM TaskRecord :=
  let! st := get_state in
  let! '(index, deleted) := lift (ok_or (task_position st task_id) NotFound) in
  refuse_held (worktree_journal_of st task_id) JournalConflict ;;
  refuse_held (relocation_into st task_id) JournalConflict ;;
  let parked := sus_session_id <$> retain (parked_for task_id) (task_archive_suspensions st) in
  let st' := st <| tasks := delete index (tasks st) |> in
  let st' := (remove_exact_session_descriptors parked st').2 in
  let st' :=
    st' <| task_archive_suspensions :=
             retain (fun suspension => negb (bool_decide (sus_session_id suspension ∈ parked)))
               (task_archive_suspensions st') |>
        <| session_relocation_receipts :=
             retain (fun receipt => rlr_target_task_id receipt != task_id)
               (session_relocation_receipts st') |> in
  install st (drop_task_records task_id st') deleted.

(** [delete_archived_task_with_sessions] *)
Definition in_cohort (task_id : string) (archived_at_epoch_ms : N) (suspension : TaskArchiveSuspension)
  : bool :=
  (sus_task_id suspension == Some task_id)
  && ((sus_archived_at_epoch_ms suspension =? archived_at_epoch_ms)%N
      || (sus_reason suspension == TSR_Closed)).
Definition same_elements (l k : list string) : bool :=
  all (fun x => bool_decide (x ∈ k)) l && all (fun x => bool_decide (x ∈ l)) k.
Definition delete_archived_task_with_sessions (task_id : string) (archived_at_epoch_ms : N)
    (session_ids : list string) : StoreM TaskRecord :=
  let! st := get_state in
  let! '(index, task) := lift (ok_or (task_position st task_id) NotFound) in
  refuse_if ((t_archived_at_epoch_ms task != Some archived_at_epoch_ms)
             || is_some (t_worktree task)
             || holds_task tao_task_id (task_archive_operations st) task_id
             || holds_task po_task_id (provisioning_operations st) task_id
             || holds_task co_task_id (cleanup_operations st) task_id
             || holds_task ro_task_id (repair_operations st) task_id
             || holds_task so_task_id (stale_resolution_operations st) task_id
             || holds_task rlo_target_task_id (session_relocation_operations st) task_id)
    ConstraintViolation ;;
  let cohort :=
    sus_session_id <$> retain (in_cohort task_id archived_at_epoch_ms) (task_archive_suspensions st) in
  refuse_if (negb (unique_ids session_ids) || negb (same_elements session_ids cohort)
             || any (fun session_id =>
                  negb (any (fun session =>
                         (s_id session == session_id) && (s_project_id session == t_project_id task))
                         (sessions st))
                  || negb (any (fun suspension =>
                         (sus_session_id suspension == session_id)
                         && in_cohort task_id archived_at_epoch_ms suspension)
                         (task_archive_suspensions st))) session_ids) ConstraintViolation ;;
  let st' := (remove_exact_session_descriptors session_ids st).2 in
  let st' :=
    st' <| task_archive_suspensions :=
             retain (fun suspension => negb (bool_decide (sus_session_id suspension ∈ session_ids)))
               (task_archive_suspensions st') |>
        <| tasks := delete index (tasks st') |>
        <| session_relocation_receipts :=
             retain (fun receipt =>
                       (rlr_target_task_id receipt != task_id)
                       && negb (bool_decide (rlr_session_id receipt ∈ session_ids)))
               (session_relocation_receipts st') |> in
  install st (drop_task_records task_id st') task.

(** ** Task sources *)

Definition source_position (st : CurrentState) (source_id : string)
  : option (nat * TaskSourceConfiguration) :=
  position (fun source => tsc_id source == source_id) (task_source_configurations st).
Definition sources_of (st : CurrentState) (project_id : string) : nat :=
  length (retain (fun candidate => tsc_project_id candidate == project_id)
            (task_source_configurations st)).

(** [insert_task_source_configuration] *)
Definition insert_task_source_configuration (source : TaskSourceConfiguration) : StoreM N :=
  let! st := get_state in
  refuse_if (negb (task_source_is_valid source)
             || negb (has_project st (tsc_project_id source))
             || any (fun candidate => tsc_id candidate == tsc_id source)
                  (task_source_configurations st)
             || (task_sources_per_project_max <=? sources_of st (tsc_project_id source))%nat)
    ConstraintViolation ;;
  install_revision st
    (st <| task_source_configurations := task_source_configurations st ++ [source] |>).

(** [replace_task_source_configuration] *)
Definition replace_task_source_configuration (source : TaskSourceConfiguration) : StoreM N :=
  refuse_if (negb (task_source_is_valid source)) ConstraintViolation ;;
  let! st := get_state in
  let! '(index, current) := lift (ok_or (source_position st (tsc_id source)) NotFound) in
  refuse_if ((tsc_project_id current != tsc_project_id source)
             || (tsc_provider current != tsc_provider source)) ConstraintViolation ;;
  if current == source then ret (revision st)
  else
    install_revision st
      (st <| task_source_configurations := <[index := source]> (task_source_configurations st) |>).

(** [delete_task_source_configuration] *)
Definition delete_task_source_configuration (source_id : string) : StoreM TaskSourceConfiguration :=
  let! st := get_state in
  let! '(index, deleted) := lift (ok_or (source_position st source_id) NotFound) in
  install st
    (st <| task_source_configurations := delete index (task_source_configurations st) |>) deleted.

(** [insert_task_from_source] *)
Definition insert_task_from_source (task : TaskRecord) (link : IssueLink) : StoreM N :=
  refuse_if (il_task_id link != t_id task) ConstraintViolation ;;
  let! st := get_state in
  let! tasks' := lift (insert_task_record task (tasks st)) in
  let! links :=
    lift (insert_jira_issue_link_record tasks' (task_source_configurations st) link
            (issue_links st)) in
  install_revision st (st <| tasks := tasks' |> <| issue_links := links |>).

Record TaskSourceRemoteUpdate : Type := MkTaskSourceRemoteUpdate {
  tru_task_id : string;
  tru_title : string;
  tru_brief : option string;
  tru_external_updated_at : string
}.

(** One round of the loop of [apply_task_source_remote_updates], which puts the
    previous state back before it returns an error. *)
Definition apply_remote_update (now : N) (update : TaskSourceRemoteUpdate) (st : CurrentState)
  : result StoreError CurrentState :=
  let observed := tru_external_updated_at update in
  if str_is_empty (tru_title update) || str_is_empty observed || (128 <? len observed)%N
     || has_ascii_control observed
  then Err ConstraintViolation
  else
    match find_mut (fun link =>
            (il_task_id link == tru_task_id update) && is_some (il_source_id link))
            (fun link => link <| il_external_updated_at := Some observed |>) (issue_links st) with
    | None => Err NotFound
    | Some (_, links) =>
        match task_position st (tru_task_id update) with
        | None => Err NotFound
        | Some (index, task) =>
            let st' := st <| issue_links := links |> in
            Ok (if (t_title task != tru_title update) || (t_brief task != tru_brief update)
                then set_task index
                       (touched now (task <| t_title := tru_title update |>
                                          <| t_brief := tru_brief update |>)) st'
                else st')
        end
    end.
Fixpoint apply_remote_updates (now : N) (updates : list TaskSourceRemoteUpdate) (st : CurrentState)
  : result StoreError CurrentState :=
  match updates with
  | [] => Ok st
  | update :: rest =>
      match apply_remote_update now update st with
      | Err e => Err e
      | Ok st' => apply_remote_updates now rest st'
      end
  end.

(** [apply_task_source_remote_updates] *)
Definition apply_task_source_remote_updates (updates : list TaskSourceRemoteUpdate)
    (updated_at_epoch_ms : N) : StoreM N :=
  let! st := get_state in
  match updates with
  | [] => ret (revision st)
  | _ =>
      let! st' := lift (apply_remote_updates updated_at_epoch_ms updates st) in
      install_revision st st'
  end.

(** [task_source_configurations_are_invalid] *)
Definition task_source_configurations_are_invalid (st : CurrentState) : bool :=
  any_with_rest (fun source rest =>
    negb (task_source_is_valid source)
    || negb (has_project st (tsc_project_id source))
    || any (fun candidate => tsc_id candidate == tsc_id source) rest
    || (task_sources_per_project_max <? sources_of st (tsc_project_id source))%nat)
    (task_source_configurations st).

(** ** Task automation *)

(** [set_project_task_automation_configuration] *)
Definition set_project_task_automation_configuration
    (configuration : ProjectTaskAutomationConfiguration) (expected_revision : N) : StoreM N :=
  let! st := get_state in
  expect_revision st expected_revision ;;
  refuse_if (negb (task_automation_is_valid configuration)
             || negb (has_project st (pta_project_id configuration))) ConstraintViolation ;;
  match position (fun candidate => pta_project_id candidate == pta_project_id configuration)
          (project_task_automation_configurations st) with
  | Some (index, existing) =>
      if existing == configuration then ret (revision st)
      else
        install_revision st
          (st <| project_task_automation_configurations :=
                   <[index := configuration]> (project_task_automation_configurations st) |>)
  | None =>
      install_revision st
        (st <| project_task_automation_configurations :=
                 project_task_automation_configurations st ++ [configuration] |>)
  end.

(** [project_task_automation_configurations_are_invalid] *)
Definition project_task_automation_configurations_are_invalid (st : CurrentState) : bool :=
  any_with_rest (fun configuration rest =>
    negb (task_automation_is_valid configuration)
    || negb (has_project st (pta_project_id configuration))
    || any (fun candidate => pta_project_id candidate == pta_project_id configuration) rest)
    (project_task_automation_configurations st).

(** * Projects

    [store/src/records/project.rs]: Projects and the removal of everything that
    belongs to one. *)

(** [insert_project] *)
Definition insert_project (project : ProjectRecord) : StoreM N :=
  let! st := get_state in
  refuse_if (any (fun value => p_id value == p_id project) (projects st)) AlreadyExists ;;
  install_revision st (st <| projects := projects st ++ [project] |>).

(** [update_project_details] *)
Definition update_project_details (project_id name folder_path : string) : StoreM ProjectRecord :=
  let! st := get_state in
  refuse_held (rlo_operation_id <$> find_first (fun operation =>
                 (rlo_project_id operation == project_id)
                 && (rlo_target operation == RLT_ProjectRoot)
                 && (rlo_target_cwd operation != folder_path))
                 (session_relocation_operations st)) JournalConflict ;;
  let! '(index, project) :=
    lift (ok_or (position (fun value => p_id value == project_id) (projects st)) NotFound) in
  if (p_name project == name) && (p_folder_path project == folder_path) then ret project
  else
    let project := project <| p_name := name |> <| p_folder_path := folder_path |> in
    install st
      (st <| projects := <[index := project]> (projects st) |>
          <| session_relocation_receipts :=
               retain (fun receipt =>
                         (rlr_project_id receipt != project_id)
                         || (rlr_target receipt != RLT_ProjectRoot))
                 (session_relocation_receipts st) |>) project.

(** The Tasks and Sessions of a Project. *)
Definition task_ids_of (st : CurrentState) (project_id : string) : list string :=
  t_id <$> retain (fun task => t_project_id task == project_id) (tasks st).
Definition session_ids_of (st : CurrentState) (project_id : string) : list string :=
  s_id <$> retain (fun session => s_project_id session == project_id) (sessions st).

(** [has_worktree] of [delete_project_and_related_records] *)
Definition project_has_worktrees (st : CurrentState) (project_id : string) : bool :=
  let task_ids := task_ids_of st project_id in
  any (fun task => (t_project_id task == project_id) && is_some (t_worktree task)) (tasks st)
  || any (fun operation => bool_decide (po_task_id operation ∈ task_ids)) (provisioning_operations st)
  || any (fun proof => bool_decide (mw_task_id proof ∈ task_ids)) (managed_worktrees st)
  || any (fun operation => bool_decide (co_task_id operation ∈ task_ids)) (cleanup_operations st)
  || any (fun operation => bool_decide (ro_task_id operation ∈ task_ids)) (repair_operations st)
  || any (fun operation => bool_decide (so_task_id operation ∈ task_ids))
       (stale_resolution_operations st).

(** [l.retain(|x| !ids.contains(key(x)))], [l.retain(|x| key(x) != id)] *)
Definition drop_keys {A} (key : A -> string) (ids : list string) (l : list A) : list A :=
  retain (fun x => negb (bool_decide (key x ∈ ids))) l.
Definition drop_key {A} (key : A -> string) (id : string) (l : list A) : list A :=
  retain (fun x => key x != id) l.

Definition without_project (project_index : nat) (project_id : string) (st : CurrentState)
  : CurrentState :=
  let task_ids := task_ids_of st project_id in
  let session_ids := session_ids_of st project_id in
  st <| projects := delete project_index (projects st) |>
     <| tasks := drop_key t_project_id project_id (tasks st) |>
     <| task_branch_sets := drop_keys tbs_task_id task_ids (task_branch_sets st) |>
     <| task_archive_operations := drop_keys tao_task_id task_ids (task_archive_operations st) |>
     <| task_archive_suspensions :=
          retain (fun suspension =>
                    negb (bool_decide (sus_session_id suspension ∈ session_ids))
                    && is_none_or (sus_task_id suspension) (fun task_id =>
                         negb (bool_decide (task_id ∈ task_ids))))
            (task_archive_suspensions st) |>
     <| session_archive_operations :=
          drop_keys sao_session_id session_ids (session_archive_operations st) |>
     <| session_relocation_operations :=
          drop_key rlo_project_id project_id (session_relocation_operations st) |>
     <| session_relocation_receipts :=
          drop_key rlr_project_id project_id (session_relocation_receipts st) |>
     <| issue_links := drop_keys il_task_id task_ids (issue_links st) |>
     <| task_source_configurations :=
          drop_key tsc_project_id project_id (task_source_configurations st) |>
     <| project_task_automation_configurations :=
          drop_key pta_project_id project_id (project_task_automation_configurations st) |>
     <| provisioning_operations := drop_keys po_task_id task_ids (provisioning_operations st) |>
     <| managed_worktrees := drop_keys mw_task_id task_ids (managed_worktrees st) |>
     <| cleanup_operations := drop_keys co_task_id task_ids (cleanup_operations st) |>
     <| cleanup_receipts := drop_keys cr_task_id task_ids (cleanup_receipts st) |>
     <| repair_operations := drop_keys ro_task_id task_ids (repair_operations st) |>
     <| repair_receipts := drop_keys rr_task_id task_ids (repair_receipts st) |>
     <| stale_resolution_operations := drop_keys so_task_id task_ids (stale_resolution_operations st) |>
     <| stale_resolution_receipts := drop_keys sr_task_id task_ids (stale_resolution_receipts st) |>
     <| sessions := drop_key s_project_id project_id (sessions st) |>
     <| deleted_sessions :=
          drop_key (fun deleted => s_project_id (ds_session deleted)) project_id
            (deleted_sessions st) |>
     <| agent_plans := drop_keys dap_session_id session_ids (agent_plans st) |>
     <| agent_conversation_readiness :=
          drop_keys rd_session_id session_ids (agent_conversation_readiness st) |>
     <| companion_messages := drop_key msg_project_id project_id (companion_messages st) |>
     <| steward_configurations := drop_key stw_project_id project_id (steward_configurations st) |>
     <| steward_conversation_refs :=
          drop_key scr_project_id project_id (steward_conversation_refs st) |>
     <| tracker_configurations := drop_key tc_project_id project_id (tracker_configurations st) |>
     <| playbook_configurations := drop_key pb_project_id project_id (playbook_configurations st) |>
     <| playbook_evaluations := drop_key per_project_id project_id (playbook_evaluations st) |>
     <| playbook_step_progress := drop_keys psp_task_id task_ids (playbook_step_progress st) |>
     <| run_configurations := drop_key rcf_project_id project_id (run_configurations st) |>
     <| workflow_configurations := drop_key wc_project_id project_id (workflow_configurations st) |>
     <| workflow_executions := drop_key we_project_id project_id (workflow_executions st) |>
     <| run_setup_marks := drop_key rsm_project_id project_id (run_setup_marks st) |>
     <| configuration_versions := drop_key cv_project_id project_id (configuration_versions st) |>
     <| configuration_version_selections :=
          drop_key cvs_project_id project_id (configuration_version_selections st) |>.

(** [delete_project_and_related_records] *)
Definition delete_project_and_related_records (project_id : string) : StoreM ProjectRecord :=
  let! st := get_state in
  let! '(project_index, deleted) :=
    lift (ok_or (position (fun value => p_id value == project_id) (projects st)) NotFound) in
  refuse_if (project_has_worktrees st project_id) ProjectHasWorktrees ;;
  install st (without_project project_index project_id st) deleted.
