(* ===== verification/CurrentValidation.v ===== *)
(** * Load-time validation of the whole state

    [validate_current_state] of [store/src/validation.rs], with the clauses
    about Playbooks, evaluation receipts and companion transcripts that no other
    file holds.  [Store::open] refuses a file whose state it rejects, and a few
    methods call it on the state they are about to commit. *)

From stdpp Require Import gmap.
From S2P Require Import Prelude Text Domain DomainRules DomainConfig StoreState JournalInvariant.
From S2P Require Import Workflow AgentPlans SessionRecords RunRecords AccountRecords RoutineRecords.
From S2P Require Import TaskRecords.

Local Open Scope string_scope.
Local Open Scope list_scope.

(** ** Playbooks *)

(** [step_progress_conflicts] of [records/playbook.rs] *)
Definition same_step (progress candidate : PlaybookStepProgress) : bool :=
  (psp_task_id candidate == psp_task_id progress)
  && (psp_milestone_id candidate == psp_milestone_id progress).
Definition step_progress_conflicts (st : CurrentState) (progress : PlaybookStepProgress)
    (others : list PlaybookStepProgress) : bool :=
  match find_task st (psp_task_id progress) with
  | None => true
  | Some task =>
      negb (step_progress_is_valid progress)
      || negb (any (fun configuration =>
                  (pb_project_id configuration == t_project_id task)
                  && progress_matches_current_step configuration progress)
                (playbook_configurations st))
      || any (same_step progress) others
  end.

(** [playbook_step_progress_is_invalid] *)
Definition playbook_step_progress_is_invalid (st : CurrentState) : bool :=
  any_with_rest (step_progress_conflicts st) (playbook_step_progress st).

(** Every step of a Playbook names a Routine of its Project. *)
Definition has_routine (st : CurrentState) (project_id routine_id : string) : bool :=
  any (fun routine => (tc_id routine == routine_id) && (tc_project_id routine == project_id))
    (tracker_configurations st).
Definition names_no_routine (st : CurrentState) (configuration : PlaybookConfiguration) : bool :=
  any (fun milestone => negb (has_routine st (pb_project_id configuration) (pm_routine_id milestone)))
    (all_milestones configuration).

(** [playbook_configurations_are_invalid] *)
Definition playbook_configurations_are_invalid (st : CurrentState) : bool :=
  any_with_rest (fun configuration rest =>
    negb (playbook_configuration_is_valid configuration)
    || negb (has_project st (pb_project_id configuration))
    || names_no_routine st configuration
    || any (fun candidate => pb_project_id candidate == pb_project_id configuration) rest)
    (playbook_configurations st).

(** [playbook_evaluation::records_are_invalid]: a record is compared with the
    ones before it, through the set of identifiers and the counts. *)
Definition evaluation_is_accepted (st : CurrentState) (before : list PlaybookEvaluationRecord)
    (record : PlaybookEvaluationRecord) : bool :=
  evaluation_is_valid record
  && negb (any (fun earlier => per_id earlier == per_id record) before)
  && (S (length (retain (fun earlier => per_project_id earlier == per_project_id record) before))
      <=? playbook_evaluations_per_project_max)%nat
  && has_project st (per_project_id record).
Definition playbook_evaluations_are_invalid (st : CurrentState) : bool :=
  negb (all_with_before (evaluation_is_accepted st) [] (playbook_evaluations st)).

(** ** Companion transcripts *)

(** What the derived [Serialize] writes of a message. *)
Definition author_json (author : CompanionMessageAuthor) : JsonDoc :=
  JString match author with CMA_User => "user" | CMA_Steward => "steward" end.
Definition message_kind_json (kind : CompanionMessageKind) : JsonDoc :=
  JString match kind with
          | CMK_Reply => "reply" | CMK_Update => "update" | CMK_Attention => "attention"
          | CMK_Problem => "problem" | CMK_Suggestion => "suggestion"
          | CMK_Acceptance => "acceptance" | CMK_Action => "action" | CMK_Proposal => "proposal"
          | CMK_Approval => "approval" | CMK_Decline => "decline"
          end.
Definition member {A} (name : string) (f : A -> JsonDoc) (value : option A) : list (string * JsonDoc) :=
  match value with Some v => [(name, f v)] | None => [] end.
Definition message_refs_json (refs : CompanionMessageRefs) : JsonDoc :=
  JObject
    (member "taskId" JString (cmr_task_id refs) ++ member "sessionId" JString (cmr_session_id refs)
     ++ member "routineFindingId" JString (cmr_routine_finding_id refs)
     ++ match cmr_routine_finding_ids refs with
        | [] => []
        | ids => [("routineFindingIds", JArray (JString <$> ids))]
        end).
Definition message_json (message : CompanionMessage) : JsonDoc :=
  JObject
    ([("id", JString (msg_id message)); ("projectId", JString (msg_project_id message));
      ("sequence", JNumber (msg_sequence message)); ("author", author_json (msg_author message))]
     ++ (if msg_kind message == CMK_Reply then []
         else [("kind", message_kind_json (msg_kind message))])
     ++ (if msg_input_mode message == CMI_Text then [] else [("inputMode", JString "voice")])
     ++ member "refs" message_refs_json (msg_refs message)
     ++ [("content", JString (msg_content message));
         ("createdAtEpochMs", JNumber (msg_created_at_epoch_ms message))]).

Definition transcript_of (project_id : string) (messages : list CompanionMessage)
  : list CompanionMessage :=
  retain (fun message => msg_project_id message == project_id) messages.

Section transcripts.
Context `{JsonText}.

(** [encoded_transcript_bytes] of [records/companion.rs] *)
Definition encoded_transcript_bytes (messages : list CompanionMessage) : N :=
  len (json_to_string (JArray (message_json <$> messages))).

Definition transcript_exceeds_quota (messages : list CompanionMessage) : bool :=
  (companion_transcript_hard_messages <? N.of_nat (length messages))%N
  || (companion_transcript_hard_bytes <? encoded_transcript_bytes messages)%N.

(** The loop of [companion_records_are_invalid]: the identifiers seen, and the
    sequence number each Project expects next. *)
Fixpoint messages_are_invalid (st : CurrentState) (ids : list string) (expected : gmap string N)
    (messages : list CompanionMessage) : bool :=
  match messages with
  | [] => false
  | message :: rest =>
      let next := default 1%N (expected !! msg_project_id message) in
      if negb (companion_message_is_valid message)
         || negb (has_project st (msg_project_id message))
         || bool_decide (msg_id message ∈ ids)
         || negb (msg_sequence message =? next)%N
      then true
      else
        match u64_checked_add next 1 with
        | None => true
        | Some following =>
            messages_are_invalid st (msg_id message :: ids)
              (<[msg_project_id message := following]> expected) rest
        end
  end.

(** [companion_records_are_invalid]; the transcripts of [by_project] are those
    of the messages' Projects. *)
Definition companion_records_are_invalid (st : CurrentState) : bool :=
  messages_are_invalid st [] ∅ (companion_messages st)
  || any (fun message =>
       transcript_exceeds_quota (transcript_of (msg_project_id message) (companion_messages st)))
       (companion_messages st).
End transcripts.

(** ** The whole state *)

Section validation.
Context `{UuidParser} `{JsonText}.

(** [validate_current_state].  The clause about [worker_configurations] has no
    counterpart: the field is the input of a migration and empty ever after. *)
Definition current_state_is_invalid (st : CurrentState) : bool :=
  negb (schema_version st =? current_schema_version)%N
  || negb (valid_agent_accounts (agent_accounts st))
  || negb (agent_library_is_valid (agent_library st))
  || session_profiles_are_invalid st
  || companion_records_are_invalid st
  || steward_configurations_are_invalid st
  || steward_conversation_refs_are_invalid st
  || run_configurations_are_invalid st
  || workflow_configurations_are_invalid st
  || workflow_executions_are_invalid st
  || run_setup_marks_are_invalid st
  || configuration_versions_are_invalid st
  || tracker_configurations_are_invalid st
  || playbook_configurations_are_invalid st
  || playbook_step_progress_is_invalid st
  || playbook_evaluations_are_invalid st
  || sessions_are_invalid st
  || deleted_sessions_are_invalid st
  || agent_conversation_readiness_is_invalid st
  || agent_plans_are_invalid st
  || issue_links_are_invalid st
  || task_branch_sets_are_invalid st
  || task_source_configurations_are_invalid st
  || project_task_automation_configurations_are_invalid st
  || archive_records_are_invalid st
  || relocation_records_are_invalid st
  || is_some_and (last_agent_launch_selection st) (fun selection =>
       negb (saved_selection_is_valid selection))
  || mcp_overrides_are_invalid st
  || worktree_records_are_invalid st.

Definition validate_current_state (st : CurrentState) : result StoreError unit :=
  if current_state_is_invalid st then Err CorruptRecord else Ok tt.
End validation.
