(* ===== verification/PlaybookRecords.v ===== *)
(** * Playbooks and evaluation receipts

    [store/src/records/playbook.rs] and [playbook_evaluation.rs]: the Project's
    delivery document with its checks, the answers of Tasks to its steps, and
    the bounded receipts of evaluators; then companion transcripts and the reset
    of an assistant. *)

From S2P Require Import Prelude Keyed Text Domain DomainRules DomainConfig StoreState.
From S2P Require Import SessionJournals SessionRecords RunRecords AccountRecords RoutineRecords.
From S2P Require Import TaskRecords CurrentValidation.

Local Open Scope string_scope.
Local Open Scope list_scope.

Record PlaybookApply : Type := MkPlaybookApply {
  pap_configuration : PlaybookConfiguration;
  pap_steward_configuration : option StewardConfiguration;
  pap_upsert_routines : list TrackerConfiguration;
  pap_delete_routine_ids : list string;
  pap_progress_updates : list PlaybookStepProgress;
  pap_progress_inserts : list PlaybookStepProgress
}.

(** [self.project_task_ids(project_id)] *)
Definition project_task_ids (st : CurrentState) (project_id : string) : list string :=
  t_id <$> retain (fun task => t_project_id task == project_id) (tasks st).

(** [playbook_for_project] *)
Definition playbook_for_project (st : CurrentState) (project_id : string)
  : option PlaybookConfiguration :=
  find_first (fun configuration => pb_project_id configuration == project_id)
    (playbook_configurations st).

Definition upsert_by {A} (p : A -> bool) (x : A) (l : list A) : list A :=
  match position p l with
  | Some (index, _) => <[index := x]> l
  | None => l ++ [x]
  end.

(** [retained]: the answers that the next document still asks for. *)
Definition is_retained (st : CurrentState) (configuration : PlaybookConfiguration)
    (progress : PlaybookStepProgress) : bool :=
  negb (bool_decide (psp_task_id progress ∈ project_task_ids st (pb_project_id configuration)))
  || progress_matches_current_step configuration progress.
Definition retire_answers (configuration : PlaybookConfiguration) (st : CurrentState)
  : CurrentState :=
  st <| playbook_step_progress :=
          retain (is_retained st configuration) (playbook_step_progress st) |>.

(** The loops of [apply_playbook] over the answers it adds and replaces. *)
Fixpoint insert_answers (task_ids : list string) (configuration : PlaybookConfiguration)
    (inserts progress : list PlaybookStepProgress) : result StoreError (list PlaybookStepProgress) :=
  match inserts with
  | [] => Ok progress
  | insert :: rest =>
      if negb (bool_decide (psp_task_id insert ∈ task_ids))
         || (psp_verdict insert != PSV_Passed)
         || negb (progress_matches_current_step configuration insert)
         || any (same_step insert) progress
      then Err ConstraintViolation
      else insert_answers task_ids configuration rest (progress ++ [insert])
  end.
Fixpoint replace_answers (task_ids : list string) (updates progress : list PlaybookStepProgress)
  : result StoreError (list PlaybookStepProgress) :=
  match updates with
  | [] => Ok progress
  | update :: rest =>
      if negb (bool_decide (psp_task_id update ∈ task_ids)) then Err ConstraintViolation
      else
        match find_mut (fun current =>
                same_step update current && (psp_routine_id current == psp_routine_id update))
                (fun _ => update) progress with
        | None => Err ConstraintViolation
        | Some (_, progress') => replace_answers task_ids rest progress'
        end
  end.

Section methods.
Context `{UuidParser} `{JsonText}.

(** The steps of [apply_playbook].  [fresh] answers the identifiers of the
    versions it records: 0 for the Steward's, 1 for the Playbook's and 2 + [i]
    for the [i]-th Routine's. *)
Definition activate_steward (fresh : nat -> string) (apply : PlaybookApply) (st : CurrentState)
  : result StoreError CurrentState :=
  match pap_steward_configuration apply with
  | None => Ok st
  | Some steward =>
      if (stw_project_id steward != pb_project_id (pap_configuration apply))
         || negb (stw_enabled steward)
      then Err ConstraintViolation
      else
        match find_mut (fun current => stw_project_id current == stw_project_id steward)
                (fun _ => steward) (steward_configurations st) with
        | None => Err ConstraintViolation
        | Some (_, configurations) =>
            Ok (record_steward_version (fresh 0) steward None "Playbook activated Steward"
                  (st <| steward_configurations := configurations |>))
        end
  end.

Fixpoint upsert_routines (fresh : nat -> string) (index : nat) (routines : list TrackerConfiguration)
    (st : CurrentState) : CurrentState :=
  match routines with
  | [] => st
  | routine :: rest =>
      let st' :=
        st <| tracker_configurations :=
                upsert_by (fun current => tc_id current == tc_id routine) routine
                  (tracker_configurations st) |> in
      upsert_routines fresh (S index) rest
        (record_routine_version (fresh (2 + index)) routine None "Playbook saved Routine" st')
  end.

Definition replace_routines (fresh : nat -> string) (apply : PlaybookApply) (st : CurrentState)
  : result StoreError CurrentState :=
  let is_deleted routine := bool_decide (tc_id routine ∈ pap_delete_routine_ids apply) in
  if any (fun id => bool_decide (id ∈ tc_id <$> pap_upsert_routines apply))
       (pap_delete_routine_ids apply)
  then Err ConstraintViolation
  else
    let deleted := retain is_deleted (tracker_configurations st) in
    let st' :=
      st <| tracker_configurations :=
              retain (fun routine => negb (is_deleted routine)) (tracker_configurations st) |> in
    let st' := upsert_routines fresh 0 (pap_upsert_routines apply) st' in
    Ok (fold_left (fun st routine =>
          remove_configuration_target_state (tc_project_id routine) (routine_target (tc_id routine)) st)
          deleted st').

Definition replace_document (apply : PlaybookApply) (st : CurrentState)
  : result StoreError CurrentState :=
  let configuration := pap_configuration apply in
  let st' :=
    st <| playbook_configurations :=
            upsert_by (fun current => pb_project_id current == pb_project_id configuration) configuration
              (playbook_configurations st) |> in
  let st' := retire_answers configuration st' in
  let task_ids := project_task_ids st' (pb_project_id configuration) in
  let? progress :=
    insert_answers task_ids configuration (pap_progress_inserts apply) (playbook_step_progress st') in
  let? progress := replace_answers task_ids (pap_progress_updates apply) progress in
  Ok (st' <| playbook_step_progress := progress |>).

(** [apply_playbook] *)
Definition apply_playbook (fresh : nat -> string) (apply : PlaybookApply) (expected_revision : N)
  : StoreM PlaybookConfiguration :=
  let! st := get_state in
  expect_revision st expected_revision ;;
  let! next := lift (activate_steward fresh apply st) in
  let! next := lift (replace_routines fresh apply next) in
  let! next := lift (replace_document apply next) in
  refuse_if (is_err (validate_current_state next)) ConstraintViolation ;;
  let! next :=
    expect (record_playbook_version (fresh 1) (pap_configuration apply) None "Playbook saved" next)
      "validated Playbook milestone has one same-Project Routine" in
  refuse_if (is_err (validate_current_state next)) ConstraintViolation ;;
  install st next (pap_configuration apply).

(** [set_playbook_configuration] *)
Definition set_playbook_configuration (id : string) (configuration : PlaybookConfiguration)
    (expected_revision : N) : StoreM PlaybookConfiguration :=
  let! st := get_state in
  expect_revision st expected_revision ;;
  refuse_if (negb (playbook_configuration_is_valid configuration)
             || negb (has_project st (pb_project_id configuration))
             || names_no_routine st configuration) ConstraintViolation ;;
  let current :=
    position (fun current => pb_project_id current == pb_project_id configuration)
      (playbook_configurations st) in
  if ((snd <$> current) == Some configuration)
     && all (is_retained st configuration) (playbook_step_progress st)
  then ret configuration
  else
    let st' :=
      st <| playbook_configurations :=
              match current with
              | Some (index, _) => <[index := configuration]> (playbook_configurations st)
              | None => playbook_configurations st ++ [configuration]
              end |> in
    let! st' :=
      expect (record_playbook_version id configuration None "Playbook saved" st')
        "validated Playbook milestone has one same-Project Routine" in
    install st (retire_answers configuration st') configuration.

(** ** Answers *)

(** [step_progress_batch_is_invalid] *)
Definition step_progress_batch_is_invalid (st : CurrentState) (project_id : string)
    (answers : list PlaybookStepProgress) : bool :=
  any_with_rest (fun answer rest =>
    negb (is_task_of st project_id (psp_task_id answer)) || step_progress_conflicts st answer rest)
    answers.

(** [apply_step_progress] *)
Definition apply_step_progress (answers : list PlaybookStepProgress) (st : CurrentState)
  : CurrentState :=
  st <| playbook_step_progress :=
          fold_left (fun progress answer => upsert_by (same_step answer) answer progress) answers
            (playbook_step_progress st) |>.

(** [record_playbook_step_progress] *)
Definition record_playbook_step_progress (project_id : string) (answers : list PlaybookStepProgress)
    (expected_revision : N) : StoreM (list PlaybookStepProgress) :=
  let! st := get_state in
  expect_revision st expected_revision ;;
  refuse_if (is_none (playbook_for_project st project_id)) NotFound ;;
  refuse_if (step_progress_batch_is_invalid st project_id answers) ConstraintViolation ;;
  let st' := apply_step_progress answers st in
  if playbook_step_progress st' == playbook_step_progress st
  then put_state st' ;; ret answers
  else install st st' answers.

(** [apply_finished] of [playbook_evaluation.rs] *)
Definition apply_finished (record : PlaybookEvaluationRecord)
    (evaluations : list PlaybookEvaluationRecord)
  : result StoreError (list PlaybookEvaluationRecord) :=
  if negb (evaluation_is_valid record) || (per_outcome record == PEO_InProgress)
  then Err ConstraintViolation
  else
    match position (fun entry => per_id entry == per_id record) evaluations with
    | None => Err NotFound
    | Some (index, current) =>
        if current == record then Ok evaluations
        else if per_outcome current != PEO_InProgress then Err ConstraintViolation
        else
          let expected :=
            current <| per_outcome := per_outcome record |>
                    <| per_evidence := per_evidence record |>
                    <| per_finished_at_epoch_ms := per_finished_at_epoch_ms record |> in
          if expected != record then Err ConstraintViolation
          else Ok (<[index := record]> evaluations)
    end.

(** The receipt of an evaluation that [record_playbook_step_progress_with_routine]
    finishes with its answer. *)
Definition receipt_of (record : PlaybookEvaluationRecord) (answer : PlaybookStepProgress) : bool :=
  (psp_task_id answer == per_task_id record)
  && (psp_milestone_id answer == per_milestone_id record)
  && (psp_evidence answer == per_evidence record)
  && (per_finished_at_epoch_ms record == Some (psp_decided_at_epoch_ms answer))
  && match psp_verdict answer, per_outcome record with
     | PSV_Passed, PEO_Passed | PSV_Waiting, PEO_Waiting | PSV_Blocked, PEO_Blocked => true
     | _, _ => false
     end.
Definition finish_with_answer (project_id : string) (answers : list PlaybookStepProgress)
    (evaluation : option PlaybookEvaluationRecord) (st : CurrentState)
  : result StoreError CurrentState :=
  match evaluation with
  | None => Ok st
  | Some record =>
      if (per_project_id record != project_id) || negb (any (receipt_of record) answers)
      then Err ConstraintViolation
      else
        let? evaluations := apply_finished record (playbook_evaluations st) in
        Ok (st <| playbook_evaluations := evaluations |>)
  end.

(** [record_playbook_step_progress_with_routine] *)
Definition record_playbook_step_progress_with_routine (project_id : string)
    (answers : list PlaybookStepProgress) (routine : TrackerConfiguration)
    (evaluation : option PlaybookEvaluationRecord) (expected_revision : N)
  : StoreM (list PlaybookStepProgress) :=
  let! st := get_state in
  expect_revision st expected_revision ;;
  refuse_if (is_none (playbook_for_project st project_id)
             || (tc_project_id routine != project_id)
             || is_scheduled (tc_trigger_mode routine)
             || step_progress_batch_is_invalid st project_id answers) ConstraintViolation ;;
  let! '(routine_index, _) :=
    lift (ok_or (position (fun current =>
                   (tc_id current == tc_id routine) && (tc_project_id current == project_id))
                   (tracker_configurations st)) NotFound) in
  refuse_if (any (fun answer => psp_routine_id answer != tc_id routine) answers)
    ConstraintViolation ;;
  let next := apply_step_progress answers st in
  let next :=
    next <| tracker_configurations := <[routine_index := routine]> (tracker_configurations next) |> in
  let! next := lift (finish_with_answer project_id answers evaluation next) in
  refuse_if (is_err (validate_current_state next)) ConstraintViolation ;;
  install st next answers.

(** [replace_task_playbook_progress] *)
Definition replace_task_playbook_progress (project_id task_id : string)
    (answers : list PlaybookStepProgress) (expected_revision : N)
  : StoreM (list PlaybookStepProgress) :=
  let! st := get_state in
  expect_revision st expected_revision ;;
  refuse_if (negb (is_task_of st project_id task_id)
             || is_none (playbook_for_project st project_id)
             || any (fun answer => psp_task_id answer != task_id) answers) ConstraintViolation ;;
  let next :=
    st <| playbook_step_progress :=
            retain (fun progress => psp_task_id progress != task_id) (playbook_step_progress st)
            ++ answers |>
       <| tracker_configurations := drop_task_findings task_id <$> tracker_configurations st |> in
  refuse_if (is_err (validate_current_state next)) ConstraintViolation ;;
  if (playbook_step_progress next == playbook_step_progress st)
     && (tracker_configurations next == tracker_configurations st)
  then ret answers
  else install st next answers.
End methods.

(** ** Evaluation receipts *)

Definition evaluation_le (a b : nat * PlaybookEvaluationRecord) : bool :=
  le_pair (per_started_at_epoch_ms a.2, per_id a.2) (per_started_at_epoch_ms b.2, per_id b.2).

(** The finished receipt that [start_playbook_evaluation] removes. *)
Definition oldest_finished (project_id : string) (evaluations : list PlaybookEvaluationRecord)
  : option nat :=
  fst <$> min_by evaluation_le
            (retain (fun entry =>
                       (per_project_id entry.2 == project_id)
                       && (per_outcome entry.2 != PEO_InProgress)) (imap pair evaluations)).

(** [start_playbook_evaluation] *)
Definition start_playbook_evaluation (record : PlaybookEvaluationRecord) : StoreM unit :=
  let! st := get_state in
  refuse_if (negb (evaluation_is_valid record) || (per_outcome record != PEO_InProgress)
             || negb (has_project st (per_project_id record))) ConstraintViolation ;;
  match find_first (fun entry => per_id entry == per_id record) (playbook_evaluations st) with
  | Some existing => if existing == record then ret tt else fail ConstraintViolation
  | None =>
      let! kept :=
        if (playbook_evaluations_per_project_max
            <=? length (retain (fun entry => per_project_id entry == per_project_id record)
                          (playbook_evaluations st)))%nat
        then
          let! oldest :=
            lift (ok_or (oldest_finished (per_project_id record) (playbook_evaluations st))
                    ConstraintViolation) in
          ret (delete oldest (playbook_evaluations st))
        else ret (playbook_evaluations st) in
      install st (st <| playbook_evaluations := kept ++ [record] |>) tt
  end.

(** [finish_playbook_evaluation] *)
Definition finish_playbook_evaluation (record : PlaybookEvaluationRecord) : StoreM unit :=
  let! st := get_state in
  let! evaluations := lift (apply_finished record (playbook_evaluations st)) in
  if evaluations == playbook_evaluations st then ret tt
  else install st (st <| playbook_evaluations := evaluations |>) tt.

(** [interrupt_playbook_evaluations_on_restart] *)
Definition interrupted (now : N) (record : PlaybookEvaluationRecord) : PlaybookEvaluationRecord :=
  if per_outcome record == PEO_InProgress
  then record <| per_outcome := PEO_Interrupted |>
              <| per_finished_at_epoch_ms := Some (N.max now (per_started_at_epoch_ms record)) |>
              <| per_evidence :=
                   "The application restarted before this check recorded a result." |>
  else record.
Definition interrupt_playbook_evaluations_on_restart (now : N) : StoreM unit :=
  let! st := get_state in
  let evaluations := interrupted now <$> playbook_evaluations st in
  if evaluations == playbook_evaluations st then ret tt
  else install st (st <| playbook_evaluations := evaluations |>) tt.

(** * Companion transcripts and the reset of an assistant

    [store/src/records/companion.rs], and [reset_project_assistant] of
    [steward.rs], which takes the whole assistant of a Project away in one
    commit. *)

(** ** Messages *)

Section messages.
Context `{UuidParser} `{JsonText}.

(** The largest sequence number of the Project's messages. *)
Definition last_sequence (messages : list CompanionMessage) : N :=
  fold_right N.max 0%N (msg_sequence <$> messages).

(** What a message takes from a Routine it answers. *)
Definition dismiss_findings (message : CompanionMessage) (ids : list string)
    (configuration : TrackerConfiguration) : TrackerConfiguration :=
  if tc_project_id configuration != msg_project_id message then configuration
  else
    let kept :=
      retain (fun finding => negb (bool_decide (prf_id finding ∈ ids)))
        (tc_pending_routine_findings configuration) in
    let configuration' := configuration <| tc_pending_routine_findings := kept |> in
    if (length kept =? length (tc_pending_routine_findings configuration))%nat then configuration'
    else configuration' <| tc_updated_at_epoch_ms := msg_created_at_epoch_ms message |>.

(** The pending findings of the Project that the message names. *)
Definition matching_findings (st : CurrentState) (project_id : string) (ids : list string)
  : list PendingRoutineFinding :=
  retain (fun finding => bool_decide (prf_id finding ∈ ids))
    (retain (fun configuration => tc_project_id configuration == project_id)
       (tracker_configurations st) ≫= tc_pending_routine_findings).

(** [append_companion_message_and_dismiss_routine_findings] *)
Definition append_companion_message_and_dismiss_routine_findings (message : CompanionMessage)
    (routine_finding_ids : list string) : StoreM CompanionMessage :=
  let! st := get_state in
  refuse_if (negb (companion_message_is_valid message)
             || negb (has_project st (msg_project_id message))
             || any (fun current => msg_id current == msg_id message) (companion_messages st))
    ConstraintViolation ;;
  let transcript := transcript_of (msg_project_id message) (companion_messages st) in
  let! expected_sequence :=
    lift (ok_or (u64_checked_add (last_sequence transcript) 1) ConstraintViolation) in
  refuse_if (negb (msg_sequence message =? expected_sequence)%N) RevisionConflict ;;
  refuse_if (transcript_exceeds_quota (transcript ++ [message])) CompanionTranscriptQuotaExceeded ;;
  refuse_if (negb (unique_ids routine_finding_ids)) ConstraintViolation ;;
  refuse_if (negb (routine_finding_ids == [])
             && negb (same_elements
                        (match msg_refs message with
                         | Some refs => all_routine_finding_ids refs
                         | None => []
                         end) routine_finding_ids)) ConstraintViolation ;;
  refuse_if (negb (length (matching_findings st (msg_project_id message) routine_finding_ids)
                   =? length routine_finding_ids)%nat) ConstraintViolation ;;
  let next :=
    st <| companion_messages := companion_messages st ++ [message] |>
       <| tracker_configurations :=
            dismiss_findings message routine_finding_ids <$> tracker_configurations st |> in
  refuse_if (is_err (validate_current_state next)) ConstraintViolation ;;
  install st next message.

(** [append_companion_message] *)
Definition append_companion_message (message : CompanionMessage) : StoreM CompanionMessage :=
  append_companion_message_and_dismiss_routine_findings message [].

(** [clear_companion_transcript] *)
Definition clear_companion_transcript (project_id : string) (expected_revision : N) : StoreM nat :=
  let! st := get_state in
  expect_revision st expected_revision ;;
  refuse_if (negb (has_project st project_id)) NotFound ;;
  let kept := drop_key msg_project_id project_id (companion_messages st) in
  let deleted := (length (companion_messages st) - length kept)%nat in
  let st' := st <| companion_messages := kept |> in
  if (0 <? deleted)%nat then install st st' deleted else put_state st' ;; ret deleted.

(** ** The reset of an assistant *)

Record ProjectAssistantReset : Type := MkProjectAssistantReset {
  par_session_ids : list string;
  par_deleted_routines : nat;
  par_deleted_messages : nat;
  par_playbook_deleted : bool
}.

(** [session_is_project_assistant] *)
Definition session_is_project_assistant (session : SessionRecord) : bool :=
  is_some_and (pd_template_ref (s_process session)) (fun template =>
    bool_decide (template ∈
      ["builtin.assistant.activation"; "builtin.steward.executor";
       "builtin.improver.steward-instructions"; "builtin.improver.routine-instructions";
       "builtin.builder.routine"; "builtin.builder.playbook"]))
  || is_some_and (s_improver_target session) (fun target =>
       match ist_target_kind target with
       | ITK_StewardInstructions | ITK_RoutineInstructions | ITK_RoutineBuilder | ITK_Playbook => true
       | _ => false
       end).

(** The versions that outlive the assistant. *)
Definition outlives_assistant (project_id : string) (version : ConfigurationVersion) : bool :=
  (cv_project_id version != project_id)
  || match ist_target_kind (cv_target version) with
     | ITK_RunConfiguration | ITK_NewRunConfiguration | ITK_SettingsSkill | ITK_SettingsPrompt
     | ITK_SettingsMcpTool => true
     | _ => false
     end.

(** The loop over the Tasks with a Steward brief. *)
Definition without_brief (project_id : string) (now : N) (task : TaskRecord)
  : result StoreError TaskRecord :=
  if negb (t_project_id task == project_id) || str_is_empty (t_steward_brief_markdown task)
  then Ok task
  else
    let? revision := ok_or (u64_checked_add (t_steward_brief_revision task) 1) ConstraintViolation in
    let? updated := ok_or (u64_checked_add (t_updated_at_epoch_ms task) 1) ConstraintViolation in
    Ok (task <| t_steward_brief_revision := revision |> <| t_steward_brief_markdown := "" |>
             <| t_updated_at_epoch_ms := N.max now updated |>).
Fixpoint without_briefs (project_id : string) (now : N) (tasks : list TaskRecord)
  : result StoreError (list TaskRecord) :=
  match tasks with
  | [] => Ok []
  | task :: rest =>
      let? task := without_brief project_id now task in
      let? rest := without_briefs project_id now rest in
      Ok (task :: rest)
  end.

(** The Sessions of the assistant: the configured executor and the Sessions
    that were started for it. *)
Definition assistant_session_ids (st : CurrentState) (project_id : string) : list string :=
  let configured :=
    omap stw_executor_session_id
      (retain (fun configuration => stw_project_id configuration == project_id)
         (steward_configurations st)) in
  s_id <$> retain (fun session =>
             (s_project_id session == project_id)
             && (bool_decide (s_id session ∈ configured) || session_is_project_assistant session))
             (sessions st).

Definition without_assistant (project_id : string) (tasks' : list TaskRecord) (st : CurrentState)
  : CurrentState :=
  let session_ids := assistant_session_ids st project_id in
  let task_ids := task_ids_of st project_id in
  let versions := retain (outlives_assistant project_id) (configuration_versions st) in
  let next :=
    st <| steward_configurations := drop_key stw_project_id project_id (steward_configurations st) |>
       <| steward_conversation_refs :=
            drop_key scr_project_id project_id (steward_conversation_refs st) |>
       <| tracker_configurations := drop_key tc_project_id project_id (tracker_configurations st) |>
       <| playbook_configurations := drop_key pb_project_id project_id (playbook_configurations st) |>
       <| playbook_evaluations := drop_key per_project_id project_id (playbook_evaluations st) |>
       <| playbook_step_progress := drop_keys psp_task_id task_ids (playbook_step_progress st) |>
       <| companion_messages := drop_key msg_project_id project_id (companion_messages st) |>
       <| tasks := tasks' |>
       <| configuration_versions := versions |>
       <| configuration_version_selections :=
            retain (fun selection =>
                      any (fun version =>
                             (cv_id version == cvs_version_id selection)
                             && of_target (cvs_project_id selection) (cvs_target selection) version)
                        versions) (configuration_version_selections st) |>
       <| task_archive_suspensions :=
            drop_keys sus_session_id session_ids (task_archive_suspensions st) |>
       <| session_archive_operations :=
            drop_keys sao_session_id session_ids (session_archive_operations st) |> in
  (remove_exact_session_descriptors session_ids next).2.

(** [reset_project_assistant] *)
Definition reset_project_assistant (project_id : string) (expected_revision updated_at_epoch_ms : N)
  : StoreM ProjectAssistantReset :=
  let! st := get_state in
  expect_revision st expected_revision ;;
  refuse_if (negb (has_project st project_id)) NotFound ;;
  refuse_if (is_none (steward_position st project_id)) NotFound ;;
  let reset :=
    {| par_session_ids := assistant_session_ids st project_id;
       par_deleted_routines :=
         length (retain (fun configuration => tc_project_id configuration == project_id)
                   (tracker_configurations st));
       par_deleted_messages := length (transcript_of project_id (companion_messages st));
       par_playbook_deleted :=
         any (fun configuration => pb_project_id configuration == project_id)
           (playbook_configurations st) |} in
  let! tasks' := lift (without_briefs project_id updated_at_epoch_ms (tasks st)) in
  let next := without_assistant project_id tasks' st in
  refuse_if (is_err (validate_current_state next)) ConstraintViolation ;;
  install st next reset.
End messages.
