(* ===== verification/RecordApi.v ===== *)
(** * The record methods as one interface

    One constructor per store method of [store/src/records/], the Session and
    workflow methods aside, so that a history of the store is a list of calls.
    [append_companion_message] is the call without findings. *)

From S2P Require Import Prelude Text Domain DomainRules DomainConfig StoreState SessionJournals.
From S2P Require Import Transactions SessionRecords RunRecords AccountRecords RoutineRecords.
From S2P Require Import TaskRecords CurrentValidation PlaybookRecords.

Inductive RecordCall : Type :=
| Do_select_configuration_version (project_id : string) (target : ImproverSessionTarget)
    (expected : option string) (selected content : string)
| Do_sync_external_configuration_version (id project_id : string)
    (target : ImproverSessionTarget) (content : string) (now : N)
| Do_finalize_configuration_activation (id project_id : string) (target : ImproverSessionTarget)
    (expected : option string) (content summary : string) (source_session_id : option string)
    (now : N)
| Do_set_run_configuration (id : string) (configuration : RunConfiguration) (expected : N)
| Do_delete_run_configuration (configuration_id : string) (expected : N)
| Do_record_run_setup_mark (mark : RunSetupMark)
| Do_insert_run_session (session : SessionRecord) (setup_mark : option RunSetupMark)
| Do_create_agent_account (account : AgentAccount) (expected : N)
| Do_rename_agent_account (provider : AgentAccountProvider) (id name : string) (expected : N)
| Do_set_default_agent_account (provider : AgentAccountProvider) (id : string) (expected : N)
| Do_delete_agent_account (provider : AgentAccountProvider) (id : string) (expected : N)
| Do_update_personal_agent (agent : PersonalAgent) (expected : N)
| Do_delete_personal_agent (id : string) (expected : N)
| Do_favorite_agent_profile (id : string) (favorite : bool) (expected : N)
| Do_insert_personal_agent_session (session : SessionRecord) (agent : PersonalAgent)
    (remember : bool)
| Do_set_agent_fork_preference (preference : AgentForkPreference)
| Do_set_agent_restart_preference (preference : AgentRestartPreference)
| Do_set_keep_awake_preference (preference : KeepAwakePreference)
| Do_update_mcp_tool_description (tool : McpToolName) (description : string) (expected : N)
| Do_reset_mcp_tool_description (tool : McpToolName) (expected : N)
| Do_insert_task_jira_issue_link (link : IssueLink)
| Do_reconcile_task_branch_set (task_id : string) (generation : N) (common_dir : string)
    (incoming : list TaskBranchMembership) (truncated : bool)
| Do_clear_steward_conversation_ref (project_id : string)
| Do_set_steward_configuration (id : string) (configuration : StewardConfiguration)
    (expected : N)
| Do_attach_steward_executor_session (session : SessionRecord) (project_id : string)
    (generation now : N)
| Do_set_tracker_configuration (id : string) (configuration : TrackerConfiguration)
    (expected : N)
| Do_set_step_routine_configuration (id : string) (configuration : TrackerConfiguration)
    (expected : N)
| Do_delete_tracker_configuration (tracker_id : string) (expected : N)
| Do_insert_task (task : TaskRecord)
| Do_rename_task (task_id title : string) (now : N)
| Do_update_task_brief (task_id : string) (brief : option string) (now : N)
| Do_update_task_developer_notes (task_id : string) (expected notes : list TaskDeveloperNote)
    (now : N)
| Do_update_task_steward_brief (task_id brief : string) (expected now : N)
| Do_bind_task_branch (task_id : string) (binding : TaskBranchBinding) (now : N)
| Do_release_closed_task_branch (task_id : string) (binding : TaskBranchBinding) (now : N)
| Do_set_task_status (task_id : string) (status : TaskStatus) (now : N)
| Do_close_task_with_suspended_sessions (task_id : string) (targets : list TaskArchiveTarget)
    (now : N)
| Do_delete_task (task_id : string)
| Do_delete_archived_task_with_sessions (task_id : string) (archived_at : N)
    (session_ids : list string)
| Do_insert_task_source_configuration (source : TaskSourceConfiguration)
| Do_replace_task_source_configuration (source : TaskSourceConfiguration)
| Do_delete_task_source_configuration (source_id : string)
| Do_insert_task_from_source (task : TaskRecord) (link : IssueLink)
| Do_apply_task_source_remote_updates (updates : list TaskSourceRemoteUpdate) (now : N)
| Do_set_project_task_automation_configuration
    (configuration : ProjectTaskAutomationConfiguration) (expected : N)
| Do_insert_project (project : ProjectRecord)
| Do_update_project_details (project_id name folder_path : string)
| Do_delete_project_and_related_records (project_id : string)
| Do_apply_playbook (fresh : nat -> string) (apply : PlaybookApply) (expected : N)
| Do_set_playbook_configuration (id : string) (configuration : PlaybookConfiguration)
    (expected : N)
| Do_record_playbook_step_progress (project_id : string) (answers : list PlaybookStepProgress)
    (expected : N)
| Do_record_playbook_step_progress_with_routine (project_id : string)
    (answers : list PlaybookStepProgress) (routine : TrackerConfiguration)
    (evaluation : option PlaybookEvaluationRecord) (expected : N)
| Do_replace_task_playbook_progress (project_id task_id : string)
    (answers : list PlaybookStepProgress) (expected : N)
| Do_start_playbook_evaluation (record : PlaybookEvaluationRecord)
| Do_finish_playbook_evaluation (record : PlaybookEvaluationRecord)
| Do_interrupt_playbook_evaluations_on_restart (now : N)
| Do_append_companion_message_and_dismiss_routine_findings (message : CompanionMessage)
    (finding_ids : list string)
| Do_clear_companion_transcript (project_id : string) (expected : N)
| Do_reset_project_assistant (project_id : string) (expected now : N).

Section calls.
Context `{UuidParser} `{JsonText}.

Definition exec_record_call (call : RecordCall) : StoreM unit :=
  match call with
  | Do_select_configuration_version project_id target expected selected content =>
      erase (select_configuration_version project_id target expected selected content)
  | Do_sync_external_configuration_version id project_id target content now =>
      erase (sync_external_configuration_version id project_id target content now)
  | Do_finalize_configuration_activation id project_id target expected content summary
      source_session_id now =>
      erase (finalize_configuration_activation id project_id target expected content summary
        source_session_id now)
  | Do_set_run_configuration id configuration expected =>
      erase (set_run_configuration id configuration expected)
  | Do_delete_run_configuration configuration_id expected =>
      erase (delete_run_configuration configuration_id expected)
  | Do_record_run_setup_mark mark => erase (record_run_setup_mark mark)
  | Do_insert_run_session session setup_mark => erase (insert_run_session session setup_mark)
  | Do_create_agent_account account expected => erase (create_agent_account account expected)
  | Do_rename_agent_account provider id name expected =>
      erase (rename_agent_account provider id name expected)
  | Do_set_default_agent_account provider id expected =>
      erase (set_default_agent_account provider id expected)
  | Do_delete_agent_account provider id expected =>
      erase (delete_agent_account provider id expected)
  | Do_update_personal_agent agent expected => erase (update_personal_agent agent expected)
  | Do_delete_personal_agent id expected => erase (delete_personal_agent id expected)
  | Do_favorite_agent_profile id favorite expected =>
      erase (favorite_agent_profile id favorite expected)
  | Do_insert_personal_agent_session session agent remember =>
      erase (insert_personal_agent_session session agent remember)
  | Do_set_agent_fork_preference preference => erase (set_agent_fork_preference preference)
  | Do_set_agent_restart_preference preference => erase (set_agent_restart_preference preference)
  | Do_set_keep_awake_preference preference => erase (set_keep_awake_preference preference)
  | Do_update_mcp_tool_description tool description expected =>
      erase (update_mcp_tool_description tool description expected)
  | Do_reset_mcp_tool_description tool expected =>
      erase (reset_mcp_tool_description tool expected)
  | Do_insert_task_jira_issue_link link => erase (insert_task_jira_issue_link link)
  | Do_reconcile_task_branch_set task_id generation common_dir incoming truncated =>
      erase (reconcile_task_branch_set task_id generation common_dir incoming truncated)
  | Do_clear_steward_conversation_ref project_id =>
      erase (clear_steward_conversation_ref project_id)
  | Do_set_steward_configuration id configuration expected =>
      erase (set_steward_configuration id configuration expected)
  | Do_attach_steward_executor_session session project_id generation now =>
      erase (attach_steward_executor_session session project_id generation now)
  | Do_set_tracker_configuration id configuration expected =>
      erase (set_tracker_configuration id configuration expected)
  | Do_set_step_routine_configuration id configuration expected =>
      erase (set_step_routine_configuration id configuration expected)
  | Do_delete_tracker_configuration tracker_id expected =>
      erase (delete_tracker_configuration tracker_id expected)
  | Do_insert_task task => erase (insert_task task)
  | Do_rename_task task_id title now => erase (rename_task task_id title now)
  | Do_update_task_brief task_id brief now => erase (update_task_brief task_id brief now)
  | Do_update_task_developer_notes task_id expected notes now =>
      erase (update_task_developer_notes task_id expected notes now)
  | Do_update_task_steward_brief task_id brief expected now =>
      erase (update_task_steward_brief task_id brief expected now)
  | Do_bind_task_branch task_id binding now => erase (bind_task_branch task_id binding now)
  | Do_release_closed_task_branch task_id binding now =>
      erase (release_closed_task_branch task_id binding now)
  | Do_set_task_status task_id status now => erase (set_task_status task_id status now)
  | Do_close_task_with_suspended_sessions task_id targets now =>
      erase (close_task_with_suspended_sessions task_id targets now)
  | Do_delete_task task_id => erase (delete_task task_id)
  | Do_delete_archived_task_with_sessions task_id archived_at session_ids =>
      erase (delete_archived_task_with_sessions task_id archived_at session_ids)
  | Do_insert_task_source_configuration source => erase (insert_task_source_configuration source)
  | Do_replace_task_source_configuration source =>
      erase (replace_task_source_configuration source)
  | Do_delete_task_source_configuration source_id =>
      erase (delete_task_source_configuration source_id)
  | Do_insert_task_from_source task link => erase (insert_task_from_source task link)
  | Do_apply_task_source_remote_updates updates now =>
      erase (apply_task_source_remote_updates updates now)
  | Do_set_project_task_automation_configuration configuration expected =>
      erase (set_project_task_automation_configuration configuration expected)
  | Do_insert_project project => erase (insert_project project)
  | Do_update_project_details project_id name folder_path =>
      erase (update_project_details project_id name folder_path)
  | Do_delete_project_and_related_records project_id =>
      erase (delete_project_and_related_records project_id)
  | Do_apply_playbook fresh apply expected => erase (apply_playbook fresh apply expected)
  | Do_set_playbook_configuration id configuration expected =>
      erase (set_playbook_configuration id configuration expected)
  | Do_record_playbook_step_progress project_id answers expected =>
      erase (record_playbook_step_progress project_id answers expected)
  | Do_record_playbook_step_progress_with_routine project_id answers routine evaluation
      expected =>
      erase (record_playbook_step_progress_with_routine project_id answers routine evaluation
        expected)
  | Do_replace_task_playbook_progress project_id task_id answers expected =>
      erase (replace_task_playbook_progress project_id task_id answers expected)
  | Do_start_playbook_evaluation record => erase (start_playbook_evaluation record)
  | Do_finish_playbook_evaluation record => erase (finish_playbook_evaluation record)
  | Do_interrupt_playbook_evaluations_on_restart now =>
      erase (interrupt_playbook_evaluations_on_restart now)
  | Do_append_companion_message_and_dismiss_routine_findings message finding_ids =>
      erase (append_companion_message_and_dismiss_routine_findings message finding_ids)
  | Do_clear_companion_transcript project_id expected =>
      erase (clear_companion_transcript project_id expected)
  | Do_reset_project_assistant project_id expected now =>
      erase (reset_project_assistant project_id expected now)
  end.
End calls.
