(* ===== verification/SessionInvariant.v ===== *)
(** * What the loader demands of Sessions, as propositions

    [live_ok] is what holds of live and deleted Sessions together, [ready_ok]
    that every Agent has one record of its conversation, [pointers_ok] that
    Stewards point to Sessions of their Project.  [survives] says how a method
    may change the list of Sessions: some leave, the others keep their identity
    and may lose their continuation. *)

From S2P Require Import Prelude Text Domain DomainRules StoreState Transactions AgentPlans.
From S2P Require Import SessionRecords.

Local Open Scope string_scope.
Local Open Scope list_scope.

(** ** Surviving Sessions *)

(** What no method changes in a Session that stays. *)
Definition identity (s : SessionRecord) :=
  (s_id s, s_project_id s, s_kind s, s_ask_to_source_session_id s, s_fork_source_session_id s,
   s_run_configuration_id s, s_improver_target s,
   if is_agent s then (pd_template_ref (s_process s), pd_agent_id (s_process s)) else (None, None)).

Record evolved (s s' : SessionRecord) : Prop := MkEvolved {
  ev_identity : identity s' = identity s;
  ev_kind : invalid_kind s = false -> invalid_kind s' = false;
  ev_continuation :
    s_ask_to_continuation s' = s_ask_to_continuation s \/ s_ask_to_continuation s' = None
}.

Inductive survives : list SessionRecord -> list SessionRecord -> Prop :=
| survives_nil : survives [] []
| survives_leave s l l' : survives l l' -> survives (s :: l) l'
| survives_stay s s' l l' : evolved s s' -> survives l l' -> survives (s :: l) (s' :: l').

Lemma evolved_refl s : evolved s s.
Proof. split; auto. Qed.

Lemma evolved_trans s s' s'' : evolved s s' -> evolved s' s'' -> evolved s s''.
Proof.
  intros [Hi Hk Hc] [Hi' Hk' Hc']. split; [congruence|auto|].
  destruct Hc' as [->|]; auto.
Qed.

(** The common case: the fields of [identity], the launch selection and the
    continuation are untouched. *)
Lemma evolved_same s s' :
  identity s' = identity s -> s_launch_selection s' = s_launch_selection s ->
  s_ask_to_continuation s' = s_ask_to_continuation s -> evolved s s'.
Proof.
  intros Hi Hl Hc. split; [done| |by left]. unfold invalid_kind.
  unfold identity, is_agent in Hi. rewrite Hl. injection Hi as _ _ Hk _ _ _ _ Hp. rewrite Hk in *.
  destruct (s_kind s); [auto|]. rewrite bool_decide_eq_true_2 in Hp by done.
  injection Hp as _ ->. auto.
Qed.

Lemma survives_refl l : survives l l.
Proof. induction l; [constructor|apply survives_stay]; auto using evolved_refl. Qed.

Lemma survives_trans l l' l'' : survives l l' -> survives l' l'' -> survives l l''.
Proof.
  intros H. revert l''. induction H as [|s l l' _ IH|s s' l l' Hs _ IH]; intros l'' H'; [done| |].
  - apply survives_leave. auto.
  - inversion H' as [|x l0 l0' Hl|x x' l0 l0' Hx Hl]; subst.
    + apply survives_leave. auto.
    + apply survives_stay; eauto using evolved_trans.
Qed.

Lemma survives_fmap f l :
  (forall s, s ∈ l -> evolved s (f s)) -> survives l (f <$> l).
Proof.
  induction l as [|s l IH]; intros Hf; simpl; [constructor|apply survives_stay].
  - apply Hf. left.
  - apply IH. intros s' Hs'. apply Hf. by right.
Qed.

Lemma survives_retain p l : survives l (retain p l).
Proof.
  induction l as [|s l IH]; simpl; [constructor|].
  destruct (p s); [apply survives_stay|apply survives_leave]; auto using evolved_refl.
Qed.

Lemma survives_insert i s s' l :
  l !! i = Some s -> evolved s s' -> survives l (<[i := s']> l).
Proof.
  revert i. induction l as [|x l IH]; intros i Hi Hs; [done|].
  destruct i as [|i]; simpl in *; [simplify_eq|]; apply survives_stay;
    eauto using evolved_refl, survives_refl.
Qed.

Lemma survives_delete i l : survives l (delete i l).
Proof.
  revert i. induction l as [|x l IH]; intros [|i]; simpl; [constructor..| |].
  - apply survives_leave, survives_refl.
  - apply survives_stay; auto using evolved_refl.
Qed.

Lemma survives_elem l l' s' : survives l l' -> s' ∈ l' -> exists s, s ∈ l /\ evolved s s'.
Proof.
  induction 1 as [|s l l' _ IH|s x l l' Hs _ IH]; intros Hin; [by apply not_elem_of_nil in Hin| |].
  - destruct (IH Hin) as (y & Hy & He). exists y. split; [by right|done].
  - apply elem_of_cons in Hin as [->|Hin]; [exists s; split; [left|done]|].
    destruct (IH Hin) as (y & Hy & He). exists y. split; [by right|done].
Qed.

(** Keys read off the identity leave with their Sessions. *)
Lemma survives_keys {A} (key : SessionRecord -> A) l l' :
  (forall s s', evolved s s' -> key s' = key s) -> survives l l' -> key <$> l' `sublist_of` key <$> l.
Proof.
  intros Hkey. induction 1 as [|s l l' _ IH|s s' l l' Hs _ IH]; simpl; [done|by constructor|].
  rewrite (Hkey _ _ Hs). by constructor.
Qed.

(** So do keys that a Session may lose. *)
Lemma survives_some_keys {A} (key : SessionRecord -> option A) l l' :
  (forall s s', evolved s s' -> key s' = key s \/ key s' = None) -> survives l l' ->
  omap key l' `sublist_of` omap key l.
Proof.
  intros Hkey. induction 1 as [|s l l' _ IH|s s' l l' Hs _ IH]; cbn [omap list_omap]; [done| |].
  - change (omap key l' `sublist_of` match key s with Some y => y :: omap key l | None => omap key l end).
    destruct (key s); [by constructor|done].
  - change (match key s' with Some y => y :: omap key l' | None => omap key l' end `sublist_of`
            match key s with Some y => y :: omap key l | None => omap key l end).
    destruct (Hkey _ _ Hs) as [->| ->]; destruct (key s); try constructor; done.
Qed.

Lemma evolved_id s s' : evolved s s' -> s_id s' = s_id s.
Proof. intros [Hi _ _]. by injection Hi. Qed.
Lemma evolved_project s s' : evolved s s' -> s_project_id s' = s_project_id s.
Proof. intros [Hi _ _]. by injection Hi. Qed.
Lemma evolved_agent s s' : evolved s s' -> is_agent s' = is_agent s.
Proof.
  intros [Hi _ _]. apply (f_equal (fun i => i.1.1.1.1.1.2)) in Hi. unfold is_agent.
  change (s_kind s' = s_kind s) in Hi. by rewrite Hi.
Qed.
Lemma evolved_source s s' :
  evolved s s' -> s_ask_to_source_session_id s' = s_ask_to_source_session_id s.
Proof. intros [Hi _ _]. by injection Hi. Qed.

(** ** Live and deleted Sessions *)

Definition deleted (st : CurrentState) : list SessionRecord := ds_session <$> deleted_sessions st.
Definition known (st : CurrentState) : list SessionRecord := sessions st ++ deleted st.

(** The clauses of [sessions_are_invalid] about one record alone. *)
Record static_ok (st : CurrentState) (s : SessionRecord) : Prop := MkStaticOk {
  sc_kind : invalid_kind s = false;
  sc_source : forall id, s_ask_to_source_session_id s = Some id ->
    id <> "" /\ is_agent s = true /\ id <> s_id s /\
    pd_template_ref (s_process s) = Some "builtin.agent.ask-to-helper";
  sc_fork : invalid_fork_source s = false;
  sc_run : invalid_run_configuration st s = false;
  sc_improver : invalid_improver_target s = false;
  sc_id : is_agent s = true -> s_id s <> ""
}.

Definition conversations (l : list SessionRecord) : list string :=
  omap (fun s => atc_conversation_id <$> s_ask_to_continuation s) l.
(** The sources of the requests in flight. *)
Definition requesting (s : SessionRecord) : option (option string) :=
  if has_current_request s then Some (s_ask_to_source_session_id s) else None.
Definition requests_in_flight (l : list SessionRecord) : list (option string) := omap requesting l.

#[export] Instance conversations_perm : Proper ((≡ₚ) ==> (≡ₚ)) conversations.
Proof. apply omap_Permutation. Qed.
#[export] Instance requests_perm : Proper ((≡ₚ) ==> (≡ₚ)) requests_in_flight.
Proof. apply omap_Permutation. Qed.

Record live_ok (st : CurrentState) : Prop := MkLiveOk {
  lv_ids : NoDup (s_id <$> known st);
  lv_static : forall s, s ∈ known st -> static_ok st s;
  lv_sources : forall h s, h ∈ known st -> s ∈ known st ->
    s_ask_to_source_session_id h = Some (s_id s) ->
    is_agent s = true /\ s_project_id s = s_project_id h;
  lv_continuations : forall s c, s ∈ sessions st -> s_ask_to_continuation s = Some c ->
    continuation_is_well_formed c = true /\
    exists source, source ∈ sessions st /\ s_ask_to_source_session_id s = Some (s_id source);
  lv_conversations : NoDup (conversations (sessions st));
  lv_requests : NoDup (requests_in_flight (sessions st))
}.

Lemma static_ok_evolved st st' s s' :
  run_configurations st' = run_configurations st -> evolved s s' -> static_ok st s -> static_ok st' s'.
Proof.
  intros Hr [Hi Hk Hc] [Kk Ks Kf Kr Ki Kn]. unfold identity in Hi.
  injection Hi as E1 E2 E3 E4 E5 E6 E7 E8.
  assert (is_agent s' = is_agent s) as Ea by (unfold is_agent; by rewrite E3).
  rewrite Ea in E8.
  assert (is_agent s = true -> pd_template_ref (s_process s') = pd_template_ref (s_process s)) as Et.
  { intros Ha. rewrite Ha in E8. by injection E8. }
  split; [auto| | | | |by rewrite Ea, E1].
  - intros id. rewrite E4, E1, Ea. intros Hid. destruct (Ks id Hid) as (H1 & H2 & H3 & H4).
    rewrite (Et H2). done.
  - unfold invalid_fork_source. rewrite E5, E3, E1. exact Kf.
  - unfold invalid_run_configuration. rewrite E6, E3, E2, Hr. exact Kr.
  - unfold invalid_improver_target in *. rewrite E7, E3. destruct (s_improver_target s) as [t|]; [|done].
    simpl in *. destruct (decide (s_kind s = SessionKind_Agent)) as [Ha|Ha].
    + rewrite Et; [done|]. unfold is_agent. by rewrite Ha.
    + rewrite (bool_decide_false _ Ha) in *. done.
Qed.

(** What may become of all Sessions and of the live ones: some leave, some
    evolve, Sessions without a continuation come back; a helper whose source
    leaves loses its continuation. *)
Lemma live_ok_change st st' k l back :
  live_ok st -> run_configurations st' = run_configurations st ->
  survives (known st) k -> known st' ≡ₚ k ->
  survives (sessions st) l -> sessions st' = l ++ back ->
  (forall s, s ∈ back -> s_ask_to_continuation s = None) ->
  (forall s' id, s' ∈ l -> s_ask_to_continuation s' <> None ->
     s_ask_to_source_session_id s' = Some id -> id ∈ s_id <$> sessions st -> id ∈ s_id <$> l) ->
  live_ok st'.
Proof.
  intros [Kid Kst Kso Kco Kcv Krq] Hr Hall Hp Hs Hl Hback Hkeep.
  assert (forall s', s' ∈ known st' -> exists s, s ∈ known st /\ evolved s s') as Helem.
  { intros s' Hin. apply (survives_elem _ _ _ Hall). by rewrite <- Hp. }
  assert (forall {A} (key : SessionRecord -> option A),
    (forall s, s ∈ back -> key s = None) -> omap key (sessions st') = omap key l) as Homap.
  { intros A key Hk. rewrite Hl, omap_app. replace (omap key back) with (@nil A); [by rewrite app_nil_r|].
    clear -Hk. induction back as [|x back IH]; simpl; [done|].
    rewrite (Hk x) by left. apply IH. intros y Hy. apply Hk. by right. }
  split.
  - rewrite Hp. eapply sublist_NoDup; [exact Kid|]. apply survives_keys; [apply evolved_id|done].
  - intros s' (s & Hin & He)%Helem. eapply static_ok_evolved; eauto.
  - intros h' s' (h & Hh & Eh)%Helem (s & Hin & Es)%Helem.
    rewrite (evolved_source _ _ Eh), (evolved_id _ _ Es), (evolved_agent _ _ Es),
      (evolved_project _ _ Es), (evolved_project _ _ Eh). by apply Kso.
  - intros s' c Hin' Hc. rewrite Hl in Hin'. apply elem_of_app in Hin' as [Hin'|Hb];
      [|by rewrite (Hback _ Hb) in Hc].
    destruct (survives_elem _ _ _ Hs Hin') as (s & Hin & Es).
    destruct (ev_continuation _ _ Es) as [E|E]; [|congruence].
    destruct (Kco s c Hin) as (Hwf & source & Hsrc & Hid); [congruence|]. split; [done|].
    destruct (proj1 (list_elem_of_fmap s_id l (s_id source))) as (src' & Hi & Hsrc').
    + apply (Hkeep s'); [done|by rewrite Hc|by rewrite (evolved_source _ _ Es)|].
      by apply list_elem_of_fmap_2.
    + exists src'. rewrite Hl, elem_of_app. split; [by left|].
      by rewrite (evolved_source _ _ Es), Hid, Hi.
  - unfold conversations. rewrite Homap by (intros s ->%Hback; done).
    eapply sublist_NoDup; [exact Kcv|]. apply survives_some_keys; [|done].
    intros s s' [_ _ [->| ->]]; [by left|by right].
  - unfold requests_in_flight. rewrite Homap.
    2: { intros s Hb. unfold requesting, has_current_request. by rewrite (Hback s Hb). }
    eapply sublist_NoDup; [exact Krq|]. apply survives_some_keys; [|done].
    intros s s' He. unfold requesting, has_current_request. rewrite (evolved_source _ _ He).
    destruct (ev_continuation _ _ He) as [->| ->]; [by left|by right].
Qed.

Lemma survives_app l l' k k' : survives l l' -> survives k k' -> survives (l ++ k) (l' ++ k').
Proof.
  intros H1 H2. induction H1; simpl; auto using survives_leave, survives_stay.
Qed.

(** * The invariant of Session records

    [sessions_ok]: live and deleted Sessions fit together ([live_ok]), deleted
    ones are closed, every live Agent has one record of its conversation, plans
    belong to live Agents of the right provider, and Stewards point to live
    Sessions of their Project.  [leaves gone] is the shape of almost every
    method: the Sessions [gone] leave with what belongs to them and the others
    evolve. *)

(** ** Searching by a key without duplicates *)

Lemma unique_elem {A B} (key : A -> B) (l : list A) x y :
  NoDup (key <$> l) -> x ∈ l -> y ∈ l -> key x = key y -> x = y.
Proof.
  induction l as [|z l IH]; simpl; [by intros _ ?%not_elem_of_nil|].
  rewrite list.NoDup_cons. intros [Hz Hn] Hx Hy Hk.
  apply elem_of_cons in Hx as [->|Hx]; apply elem_of_cons in Hy as [->|Hy]; auto.
  - destruct Hz. rewrite Hk. by apply list_elem_of_fmap_2.
  - destruct Hz. rewrite <- Hk. by apply list_elem_of_fmap_2.
Qed.

Lemma find_first_unique {A} (key : A -> string) (l : list A) a x :
  NoDup (key <$> l) -> find_first (fun r => key r == a) l = Some x <-> x ∈ l /\ key x = a.
Proof.
  intros Hn. split; [intros H; eauto using find_first_key with slices|].
  intros [Hx <-]. destruct (find_first _ l) as [y|] eqn:E.
  - pose proof (find_first_key _ _ _ _ E). f_equal. apply (unique_elem key l); eauto with slices.
  - apply find_first_None with (x := x) in E; [|done]. by apply bool_decide_eq_false in E.
Qed.

Lemma delete_retain {A} (key : A -> string) (l : list A) i x :
  NoDup (key <$> l) -> l !! i = Some x ->
  delete i l = retain (fun y => negb (bool_decide (key y ∈ [key x]))) l.
Proof.
  revert i. induction l as [|z l IH]; intros i Hn Hi; [done|].
  simpl in Hn. apply list.NoDup_cons in Hn as [Hz Hn]. destruct i as [|i]; simpl in *.
  - simplify_eq. rewrite bool_decide_eq_true_2 by left. simpl. symmetry. apply retain_all.
    intros y Hy. apply negb_true_iff, bool_decide_eq_false. intros E%list_elem_of_singleton.
    apply Hz. rewrite <- E. by apply list_elem_of_fmap_2.
  - rewrite (bool_decide_eq_false_2 (key z ∈ [key x])); [simpl; f_equal; by apply IH|].
    intros E%list_elem_of_singleton. apply Hz. rewrite E.
    by apply list_elem_of_fmap_2, list_elem_of_lookup_2 with i.
Qed.

(** Keys outside [gone]. *)
Definition stay (gone keys : list string) : list string := filter (fun k => k ∉ gone) keys.

Lemma retain_keys {A} (key : A -> string) gone (l : list A) :
  key <$> retain (fun x => negb (bool_decide (key x ∈ gone))) l = stay gone (key <$> l).
Proof.
  unfold stay. induction l as [|x l IH]; simpl; [done|]. rewrite filter_cons.
  destruct (decide (key x ∈ gone)) as [H|H].
  - rewrite bool_decide_eq_true_2, decide_False by tauto. exact IH.
  - rewrite bool_decide_eq_false_2, decide_True by done. simpl. f_equal. exact IH.
Qed.

Lemma stay_nil keys : stay [] keys = keys.
Proof.
  unfold stay. induction keys as [|k keys IH]; [done|]. rewrite filter_cons, decide_True, IH; [done|].
  apply not_elem_of_nil.
Qed.

(** ** The invariant *)

Definition agent_ids (l : list SessionRecord) : list string := s_id <$> retain is_agent l.
Definition ready_ids (st : CurrentState) : list string :=
  rd_session_id <$> agent_conversation_readiness st.

Record closed_ok (deleted : DeletedSessionRecord) : Prop := MkClosedOk {
  cl_time : ds_deleted_at_epoch_ms deleted <> 0%N;
  cl_agent : is_agent (ds_session deleted) = true;
  cl_archived : s_archived_at_epoch_ms (ds_session deleted) = None;
  cl_closed : is_closed_state (s_lifecycle_state (ds_session deleted)) = true;
  cl_certain : is_uncertain (s_resume_failure (ds_session deleted)) = false;
  cl_continuation : s_ask_to_continuation (ds_session deleted) = None
}.

Definition pointer_ok (st : CurrentState) (configuration : StewardConfiguration) : Prop :=
  forall id, stw_executor_session_id configuration = Some id ->
  exists session, session ∈ sessions st /\ s_id session = id /\
    s_project_id session = stw_project_id configuration.

(** What Session methods read and never change. *)
Definition settings (st : CurrentState) := (run_configurations st, agent_accounts st, projects st).

Record sessions_ok (st : CurrentState) : Prop := MkSessionsOk {
  so_live : live_ok st;
  so_deleted : forall deleted, deleted ∈ deleted_sessions st -> closed_ok deleted;
  so_ready : ready_ids st ≡ₚ agent_ids (sessions st);
  so_plans : plans_ok st;
  so_pointers : forall configuration,
    configuration ∈ steward_configurations st -> pointer_ok st configuration;
  so_stewards : NoDup (stw_project_id <$> steward_configurations st);
  so_valid : forall configuration, configuration ∈ steward_configurations st ->
    steward_configuration_is_valid configuration = true /\
    exists project, project ∈ projects st /\ p_id project = stw_project_id configuration;
  so_accounts : valid_agent_accounts (agent_accounts st) = true
}.

Lemma live_ids st : live_ok st -> NoDup (s_id <$> sessions st).
Proof.
  intros [Hid _ _ _ _ _]. unfold known in Hid. rewrite fmap_app in Hid.
  by apply list.NoDup_app in Hid as [? _].
Qed.

(** ** Sessions that leave *)

Record leaves (gone : list string) (st st' : CurrentState) : Prop := MkLeaves {
  lf_settings : settings st' = settings st;
  lf_survives : survives (sessions st) (sessions st');
  lf_ids : s_id <$> sessions st' = stay gone (s_id <$> sessions st);
  lf_ready : ready_ids st' = stay gone (ready_ids st);
  lf_plans : agent_plans st' =
    retain (fun plan => negb (bool_decide (dap_session_id plan ∈ gone))) (agent_plans st);
  lf_continuations : forall s id, s ∈ sessions st' -> s_ask_to_continuation s <> None ->
    s_ask_to_source_session_id s = Some id -> id ∉ gone
}.

(** Stewards keep their Project; those that still point do not point to a
    Session that left. *)
Record points_kept (gone : list string) (st st' : CurrentState) : Prop := MkPointsKept {
  pk_projects : stw_project_id <$> steward_configurations st' =
    stw_project_id <$> steward_configurations st;
  pk_pointers : forall c', c' ∈ steward_configurations st' ->
    exists c, c ∈ steward_configurations st /\ stw_project_id c' = stw_project_id c /\
      steward_configuration_is_valid c' = steward_configuration_is_valid c /\
      forall id, stw_executor_session_id c' = Some id ->
        stw_executor_session_id c = Some id /\ id ∉ gone
}.

Lemma elem_of_stay gone keys k : k ∈ stay gone keys <-> k ∉ gone /\ k ∈ keys.
Proof. unfold stay. by rewrite list_elem_of_filter. Qed.

(** A Session outside [gone] stays. *)
Lemma leaves_stays gone st st' s :
  leaves gone st st' -> NoDup (s_id <$> sessions st) -> s ∈ sessions st -> s_id s ∉ gone ->
  exists s', s' ∈ sessions st' /\ evolved s s'.
Proof.
  intros [_ Hs Hi _ _ _] Hn Hin Hg.
  assert (s_id s ∈ s_id <$> sessions st') as (s' & Hid & Hin')%list_elem_of_fmap.
  { rewrite Hi, elem_of_stay. split; [done|]. by apply list_elem_of_fmap_2. }
  exists s'. split; [done|]. destruct (survives_elem _ _ _ Hs Hin') as (x & Hx & He).
  replace s with x; [done|]. apply (unique_elem s_id (sessions st)); [done..|].
  by rewrite <- (evolved_id _ _ He).
Qed.

Lemma leaves_live gone st st' :
  leaves gone st st' -> deleted_sessions st' = deleted_sessions st -> live_ok st -> live_ok st'.
Proof.
  intros [[= Hr _ _] Hs Hi _ _ Hc] Hd Hst.
  apply (live_ok_change st st' (known st') (sessions st') []); try done.
  - unfold known, deleted. rewrite Hd. apply survives_app; [done|apply survives_refl].
  - by rewrite app_nil_r.
  - by intros ? ?%not_elem_of_nil.
  - intros s' id Hin Hsome Hsrc Hid. rewrite Hi, elem_of_stay. eauto.
Qed.

Lemma elem_of_agent_ids l id : id ∈ agent_ids l <-> exists s, s ∈ l /\ is_agent s = true /\ s_id s = id.
Proof. unfold agent_ids. rewrite list_elem_of_fmap. setoid_rewrite elem_of_retain. naive_solver. Qed.

Lemma agent_ids_NoDup l : NoDup (s_id <$> l) -> NoDup (agent_ids l).
Proof. intros H. eapply sublist_NoDup; [exact H|]. apply fmap_sublist, retain_sublist. Qed.

(** The Agents that stay are the Agents among those that stay. *)
Lemma leaves_agents gone st st' :
  leaves gone st st' -> NoDup (s_id <$> sessions st) ->
  agent_ids (sessions st') ≡ₚ stay gone (agent_ids (sessions st)).
Proof.
  intros Hl Hn. pose proof Hl as [_ Hs Hi _ _ _].
  apply NoDup_Permutation.
  - apply agent_ids_NoDup. rewrite Hi. by apply list.NoDup_filter.
  - by apply list.NoDup_filter, agent_ids_NoDup.
  - intros id. rewrite elem_of_stay, !elem_of_agent_ids. split.
    + intros (s' & Hin & Ha & <-). assert (s_id s' ∈ s_id <$> sessions st') as Hg.
      { by apply list_elem_of_fmap_2. }
      rewrite Hi, elem_of_stay in Hg. destruct Hg as [Hg _]. split; [done|].
      destruct (survives_elem _ _ _ Hs Hin) as (s & Hs' & He). exists s.
      by rewrite <- (evolved_agent _ _ He), <- (evolved_id _ _ He).
    + intros (Hg & s & Hin & Ha & <-). destruct (leaves_stays _ _ _ s Hl) as (s' & Hin' & He); [done..|].
      exists s'. by rewrite (evolved_agent _ _ He), (evolved_id _ _ He).
Qed.

Lemma evolved_source_matches s s' source :
  evolved s s' -> s_kind s = SessionKind_Agent -> session_has_source s source = true ->
  s_kind s' = SessionKind_Agent /\ session_has_source s' source = true.
Proof.
  intros [Hi _ _] Hk. unfold identity, is_agent in Hi. injection Hi as _ _ Ek _ _ _ _ Hp.
  rewrite Ek, Hk, bool_decide_eq_true_2 in Hp by done. injection Hp as _ Ha.
  unfold session_has_source. rewrite Ha. split; [congruence|done].
Qed.

Lemma leaves_plans gone st st' :
  leaves gone st st' -> live_ok st -> NoDup (s_id <$> sessions st') -> plans_ok st -> plans_ok st'.
Proof.
  intros Hl Hlive Hn' [Hv Ho Hd]. pose proof (live_ids _ Hlive) as Hn.
  split; rewrite (lf_plans _ _ _ Hl).
  - intros plan [Hin _]%elem_of_retain. auto.
  - intros plan [Hin Hg]%elem_of_retain. apply negb_true_iff, bool_decide_eq_false in Hg.
    destruct (Ho plan Hin) as (s & Hf & Hk & Hsrc).
    apply find_first_unique in Hf as [Hs Hid]; [|done].
    destruct (leaves_stays _ _ _ s Hl) as (s' & Hs' & He); [done..|by rewrite Hid|].
    exists s'. destruct (evolved_source_matches _ _ _ He Hk Hsrc). split_and!; [|done..].
    apply find_first_unique; [done|]. by rewrite (evolved_id _ _ He).
  - eapply sublist_NoDup; [exact Hd|]. apply fmap_sublist, retain_sublist.
Qed.

Lemma leaves_pointers gone st st' :
  leaves gone st st' -> points_kept gone st st' -> NoDup (s_id <$> sessions st) ->
  (forall c, c ∈ steward_configurations st -> pointer_ok st c) ->
  forall c, c ∈ steward_configurations st' -> pointer_ok st' c.
Proof.
  intros Hl [_ Hp] Hn Hst c' Hc' id Hid. destruct (Hp c' Hc') as (c & Hc & Hproj & _ & Hkeep).
  destruct (Hkeep id Hid) as [Hid' Hg]. destruct (Hst c Hc id Hid') as (s & Hs & <- & Hps).
  destruct (leaves_stays _ _ _ s Hl) as (s' & Hs' & He); [done..|]. exists s'.
  by rewrite (evolved_id _ _ He), (evolved_project _ _ He), Hproj.
Qed.

(** What is left of the invariant once Sessions left. *)
Lemma leaves_ok gone st st' :
  leaves gone st st' -> deleted_sessions st' = deleted_sessions st -> points_kept gone st st' ->
  sessions_ok st -> sessions_ok st'.
Proof.
  intros Hl Hd Hp [Hlive Hdel Hready Hplans Hpt Hst Hv Ha].
  pose proof (live_ids _ Hlive) as Hn. pose proof (leaves_live _ _ _ Hl Hd Hlive) as Hlive'.
  pose proof (lf_settings _ _ _ Hl) as [= _ Ha' Hpr].
  split; [done|by rewrite Hd| | | |by rewrite (pk_projects _ _ _ Hp)| |by rewrite Ha'].
  - rewrite (lf_ready _ _ _ Hl), (leaves_agents _ _ _ Hl Hn). unfold stay. by rewrite Hready.
  - eauto using leaves_plans, live_ids.
  - eauto using leaves_pointers.
  - intros c' (c & Hc & Hproj & -> & _)%(pk_pointers _ _ _ Hp). rewrite Hpr, Hproj. auto.
Qed.

Lemma points_kept_same gone st st' :
  steward_configurations st' = steward_configurations st ->
  (forall id, id ∈ configured_sessions st -> id ∉ gone) -> points_kept gone st st'.
Proof.
  intros Hs Hg. split; [by rewrite Hs|]. intros c Hc. rewrite Hs in Hc. exists c.
  split_and!; [done..|].
  intros id Hid. split; [done|]. apply Hg. apply list_elem_of_omap. eauto.
Qed.

(** Nothing leaves. *)
Lemma leaves_none st st' :
  settings st' = settings st -> survives (sessions st) (sessions st') ->
  s_id <$> sessions st' = s_id <$> sessions st -> ready_ids st' = ready_ids st ->
  agent_plans st' = agent_plans st -> leaves [] st st'.
Proof.
  intros Hr Hs Hi Hrd Hp. split; rewrite ?stay_nil; try done.
  - rewrite Hp. symmetry. by apply retain_all.
  - intros. apply not_elem_of_nil.
Qed.

Lemma stays_ok st st' :
  leaves [] st st' -> deleted_sessions st' = deleted_sessions st ->
  steward_configurations st' = steward_configurations st -> sessions_ok st -> sessions_ok st'.
Proof.
  intros Hl Hd Hs. apply (leaves_ok []); [done..|].
  apply points_kept_same; [done|]. intros. apply not_elem_of_nil.
Qed.

(** A commit changes nothing the invariant reads. *)
Lemma sessions_ok_committed st : sessions_ok st -> sessions_ok (committed st).
Proof.
  intros Hst. apply (stays_ok st); [apply leaves_none|..];
    unfold settings, ready_ids, committed, prune_session_profiles;
    try (by destruct (session_agent_profiles st)); [].
  destruct (session_agent_profiles st); apply survives_refl.
Qed.
