(* ===== verification/SessionPreservation.v ===== *)
(** * Session methods keep the invariant

    The effects the methods share (an edit in place, cleared pointers, dropped
    relocations, removed Sessions), then each method. *)

From S2P Require Import Prelude Text Domain DomainRules StoreState SessionJournals Transactions.
From S2P Require Import AgentPlans SessionRecords SessionInvariant.

Local Open Scope string_scope.
Local Open Scope list_scope.

(** ** Edits in place *)

Lemma session_position_Some st id i s :
  session_position st id = Some (i, s) -> sessions st !! i = Some s /\ s ∈ sessions st /\ s_id s = id.
Proof.
  intros [Hi He]%position_Some. apply bool_decide_eq_true in He.
  eauto using list_elem_of_lookup_2.
Qed.

(** States that agree on what the invariant reads. *)
Lemma unread_ok st st' :
  settings st' = settings st -> sessions st' = sessions st ->
  agent_conversation_readiness st' = agent_conversation_readiness st ->
  agent_plans st' = agent_plans st -> deleted_sessions st' = deleted_sessions st ->
  steward_configurations st' = steward_configurations st -> sessions_ok st -> sessions_ok st'.
Proof.
  intros Hr Hs Hrd Hp Hd Hc. apply stays_ok; [|done..]. unfold ready_ids.
  apply leaves_none; unfold ready_ids; rewrite ?Hs, ?Hrd; auto using survives_refl.
Qed.

Lemma set_session_ok st i s s' :
  sessions st !! i = Some s -> evolved s s' -> sessions_ok st -> sessions_ok (set_session i s' st).
Proof.
  intros Hi He. apply stays_ok; [|done..]. apply leaves_none; try done.
  - simpl. by apply survives_insert with s.
  - simpl. apply fmap_insert_same with s; [done|]. by apply evolved_id.
Qed.

Lemma map_sessions_ok st f :
  (forall s, s ∈ sessions st -> evolved s (f s)) -> sessions_ok st ->
  sessions_ok (st <| sessions := f <$> sessions st |>).
Proof.
  intros Hf. apply stays_ok; [|done..]. apply leaves_none; try done; simpl.
  - by apply survives_fmap.
  - rewrite <- list_fmap_compose. apply list_fmap_ext. intros i s Hs. simpl.
    apply evolved_id, Hf. by eapply list_elem_of_lookup_2.
Qed.

Lemma set_readiness_ok st i record readiness :
  agent_conversation_readiness st !! i = Some record -> sessions_ok st ->
  sessions_ok (st <| agent_conversation_readiness :=
    <[i := record <| rd_readiness := readiness |>]> (agent_conversation_readiness st) |>).
Proof.
  intros Hi. apply stays_ok; [|done..]. apply leaves_none; try done; simpl.
  - apply survives_refl.
  - unfold ready_ids. simpl. by apply fmap_insert_same with record.
Qed.

(** ** Pointers *)

Lemma clear_pointers_ok ids st :
  sessions_ok st -> sessions_ok (clear_executor_session_references ids st).2.
Proof.
  apply (leaves_ok []); [apply leaves_none; try done; apply survives_refl|done|].
  split; simpl.
  - rewrite <- list_fmap_compose. apply list_fmap_ext. intros i c _. simpl. by destruct (points_to ids c).
  - intros c' (c & -> & Hc)%list_elem_of_fmap. exists c. split; [done|].
    destruct (points_to ids c); (do 2 (split; [done|])); simpl; intros id Hid; [done|].
    split; [done|apply not_elem_of_nil].
Qed.

Lemma clear_pointers_configured ids st id :
  id ∈ configured_sessions (clear_executor_session_references ids st).2 ->
  id ∈ configured_sessions st /\ id ∉ ids.
Proof.
  unfold configured_sessions. simpl. rewrite !list_elem_of_omap.
  intros (c' & (c & -> & Hc)%list_elem_of_fmap & Hid). unfold points_to in Hid.
  destruct (stw_executor_session_id c) as [x|] eqn:E; simpl in Hid; [|congruence].
  destruct (bool_decide (x ∈ ids)) eqn:Hx; simpl in Hid; [done|].
  apply bool_decide_eq_false in Hx. assert (x = id) as <- by congruence. eauto.
Qed.

Lemma drop_relocations_ok ids st : sessions_ok st -> sessions_ok (drop_relocations ids st).
Proof. by apply unread_ok. Qed.
Lemma drop_receipts_ok ids st : sessions_ok st -> sessions_ok (drop_relocation_receipts ids st).
Proof. by apply unread_ok. Qed.

(** ** Removed Sessions *)

Definition cleared (ids : list string) (s : SessionRecord) : SessionRecord :=
  if bool_decide (s_id s ∈ ids) || is_some_and (s_ask_to_source_session_id s) (fun id => bool_decide (id ∈ ids))
  then s <| s_ask_to_continuation := None |> else s.

Lemma evolved_cleared ids s : evolved s (cleared ids s).
Proof.
  unfold cleared. destruct (_ || _); [|apply evolved_refl]. split; [done| |by right].
  by unfold invalid_kind.
Qed.

Lemma cleared_source ids s id :
  s_ask_to_continuation (cleared ids s) <> None ->
  s_ask_to_source_session_id (cleared ids s) = Some id -> id ∉ ids.
Proof.
  unfold cleared. destruct (_ || _) eqn:E; [done|]. intros _ Hs. rewrite Hs in E.
  apply orb_false_iff in E as [_ E]. by apply bool_decide_eq_false in E.
Qed.

Lemma clear_cleared id ids s :
  cleared ids (without_continuation id s) = cleared (id :: ids) s.
Proof.
  unfold without_continuation, cleared.
  assert (forall x, bool_decide (x ∈ id :: ids) = bool_decide (x = id) || bool_decide (x ∈ ids)) as Hcons.
  { intros x. rewrite <- bool_decide_or. apply bool_decide_ext. apply elem_of_cons. }
  destruct (s_ask_to_source_session_id s) as [x|] eqn:Hs; simpl; rewrite !Hcons.
  - rewrite (bool_decide_ext (Some x = Some id) (x = id)) by naive_solver.
    destruct (bool_decide (s_id s = id)), (bool_decide (x = id)); simpl; rewrite ?Hs; simpl;
      destruct (bool_decide (s_id s ∈ ids)), (bool_decide (x ∈ ids)); simpl; done.
  - destruct (bool_decide (s_id s = id)); simpl; rewrite ?Hs; simpl;
      destruct (bool_decide (s_id s ∈ ids)); simpl; done.
Qed.

Lemma fold_clear ids l :
  fold_left (fun kept id => clear_ask_to_continuations_for_session id kept) ids l = cleared ids <$> l.
Proof.
  revert l. induction ids as [|id ids IH]; intros l; simpl.
  - symmetry. rewrite <- (list_fmap_id l) at 2. apply list_fmap_ext. intros i s _.
    unfold cleared. by destruct (s_ask_to_source_session_id s).
  - rewrite IH. unfold clear_ask_to_continuations_for_session. rewrite <- list_fmap_compose.
    apply list_fmap_ext. intros i s _. apply clear_cleared.
Qed.

Lemma clear_one id l : clear_ask_to_continuations_for_session id l = cleared [id] <$> l.
Proof. apply (fold_clear [id] l). Qed.

Definition outside {A} (key : A -> string) (ids : list string) (x : A) : bool :=
  negb (bool_decide (key x ∈ ids)).

(** The shape of a removal. *)
Lemma removal_leaves ids st st' :
  settings st' = settings st ->
  sessions st' = cleared ids <$> retain (outside s_id ids) (sessions st) ->
  agent_conversation_readiness st' =
    retain (outside rd_session_id ids) (agent_conversation_readiness st) ->
  agent_plans st' = retain (outside dap_session_id ids) (agent_plans st) -> leaves ids st st'.
Proof.
  intros Hr Hs Hrd Hp. split; [done| | | |done|].
  - rewrite Hs. eapply survives_trans; [apply survives_retain|].
    apply survives_fmap. intros. apply evolved_cleared.
  - rewrite Hs, <- list_fmap_compose, <- retain_keys. apply list_fmap_ext.
    intros i s _. simpl. apply evolved_id, evolved_cleared.
  - unfold ready_ids. rewrite Hrd. apply (retain_keys rd_session_id).
  - intros s id. rewrite Hs. intros (x & -> & _)%list_elem_of_fmap. apply cleared_source.
Qed.

Lemma retain_same_length {A} (p : A -> bool) l : length (retain p l) = length l -> retain p l = l.
Proof.
  induction l as [|x l IH]; simpl; [done|]. destruct (p x); simpl; intros H; [f_equal; auto|].
  pose proof (sublist_length _ _ (retain_sublist p l)). lia.
Qed.

Lemma remove_exact_kept ids st :
  (remove_exact_session_descriptors ids st).1 = false ->
  (remove_exact_session_descriptors ids st).2 = st.
Proof.
  unfold remove_exact_session_descriptors. destruct (ids == []); [done|].
  destruct (_ =? _)%nat eqn:E; [|done]. intros _. apply Nat.eqb_eq, retain_same_length in E.
  simpl. rewrite E. by destruct st.
Qed.

Lemma remove_exact_leaves ids st :
  (remove_exact_session_descriptors ids st).1 = true ->
  leaves ids st (remove_exact_session_descriptors ids st).2.
Proof.
  unfold remove_exact_session_descriptors. destruct (ids == []); [done|].
  destruct (_ =? _)%nat; [done|]. intros _. apply removal_leaves; try done. apply fold_clear.
Qed.

Lemma remove_exact_stewards ids st :
  steward_configurations (remove_exact_session_descriptors ids st).2 = steward_configurations st /\
  deleted_sessions (remove_exact_session_descriptors ids st).2 = deleted_sessions st.
Proof.
  unfold remove_exact_session_descriptors. destruct (ids == []); [done|]. by destruct (_ =? _)%nat.
Qed.

Lemma remove_exact_ok ids st :
  (forall id, id ∈ configured_sessions st -> id ∉ ids) ->
  sessions_ok st -> sessions_ok (remove_exact_session_descriptors ids st).2.
Proof.
  intros Hc Hst. pose proof (remove_exact_stewards ids st) as [Hs Hd].
  destruct (remove_exact_session_descriptors ids st).1 eqn:E.
  - apply (leaves_ok ids st); auto using remove_exact_leaves, points_kept_same.
  - by rewrite remove_exact_kept.
Qed.

Lemma remove_obsolete_ok st : sessions_ok st -> sessions_ok (remove_obsolete_assistant_sessions st).2.
Proof.
  apply remove_exact_ok. intros id Hid (s & -> & [_ Ho]%elem_of_retain)%list_elem_of_fmap.
  unfold is_obsolete_assistant in Ho. by rewrite (bool_decide_eq_true_2 _ Hid) in Ho; rewrite !andb_false_r in Ho.
Qed.

(** One Session, removed by its place. *)
Lemma delete_cleared st i s :
  live_ok st -> sessions st !! i = Some s ->
  delete i (clear_ask_to_continuations_for_session (s_id s) (sessions st)) =
  cleared [s_id s] <$> retain (outside s_id [s_id s]) (sessions st).
Proof.
  intros Hl Hi. rewrite clear_one, <- list_fmap_delete. f_equal.
  apply delete_retain; [by apply live_ids|done].
Qed.

(** ** Methods *)

(** What a method that succeeds leaves. *)
Definition ok_after {A} (r : result StoreError A * Store) : Prop :=
  post (fun _ s' => sessions_ok (state s')) r.

Lemma ok_answered {A} (a : A) s : sessions_ok (state s) -> ok_after (Ok a, s).
Proof. done. Qed.
Lemma ok_refused {A} e s : ok_after (Err (A := A) e, s).
Proof. done. Qed.
Lemma ok_install {A} previous next (a : A) s :
  sessions_ok next -> ok_after (install previous next a s).
Proof. intros H. apply post_install. intros. by apply sessions_ok_committed. Qed.
Lemma ok_install_revision previous next s :
  sessions_ok next -> ok_after (install_revision previous next s).
Proof. intros H. apply post_install_revision. intros. by apply sessions_ok_committed. Qed.

(** Runs a method up to its exits; what is left is the state it installs. *)
Ltac ok_exit :=
  lazymatch goal with
  | |- ok_after (Ok _, _) => apply ok_answered; first [assumption|idtac]
  | |- ok_after (Err _, _) => apply ok_refused
  | |- ok_after (install _ _ _ _) => apply ok_install
  | |- ok_after (install_revision _ _ _) => apply ok_install_revision
  end.
Ltac positions :=
  repeat match goal with
  | H : _ = (_, _) |- _ => subst
  | p : _ * _ |- _ => destruct p
  | H : session_position _ _ = Some _ |- _ => apply session_position_Some in H as (? & ? & ?)
  | H : readiness_position _ _ = Some _ |- _ => apply position_Some in H as [? ?]
  end.
Ltac ok_code := repeat first [ok_exit | run_step]; positions.

(** An edit that touches neither identity, selection nor continuation. *)
Ltac edits := eapply set_session_ok; [eassumption|by apply evolved_same|assumption].

Section methods.
Context `{UuidParser} (s : Store) (Hst : sessions_ok (state s)).

Lemma mark_agent_conversation_resumable_ok id : ok_after (mark_agent_conversation_resumable id s).
Proof. unfold mark_agent_conversation_resumable. ok_code. by apply set_readiness_ok. Qed.

Lemma mark_session_exited_ok id : ok_after (mark_session_exited id s).
Proof.
  unfold mark_session_exited. ok_code.
  apply remove_obsolete_ok, drop_relocations_ok, clear_pointers_ok. edits.
Qed.

Lemma establish_session_resume_ref_ok id ref : ok_after (establish_session_resume_ref id ref s).
Proof. unfold establish_session_resume_ref. ok_code. edits. Qed.

Lemma replace_running_session_resume_ref_ok id expected ref :
  ok_after (replace_running_session_resume_ref id expected ref s).
Proof. unfold replace_running_session_resume_ref. ok_code. edits. Qed.

Lemma mark_session_resuming_ok id : ok_after (mark_session_resuming id s).
Proof. unfold mark_session_resuming. ok_code. edits. Qed.

Lemma complete_session_resume_ok id ref epoch : ok_after (complete_session_resume id ref epoch s).
Proof.
  unfold complete_session_resume. ok_code. apply drop_receipts_ok.
  apply (set_readiness_ok (set_session _ _ _)); [assumption|]. edits.
Qed.

Lemma clear_mismatched_resume_launch_guard_ok id :
  ok_after (clear_mismatched_resume_launch_guard id s).
Proof. unfold clear_mismatched_resume_launch_guard. ok_code. edits. Qed.

Lemma mark_session_resume_failed_ok id failure : ok_after (mark_session_resume_failed id failure s).
Proof. unfold mark_session_resume_failed. ok_code. apply drop_relocations_ok. edits. Qed.

Lemma rename_session_ok id name : ok_after (rename_session id name s).
Proof. unfold rename_session. ok_code. edits. Qed.

(** Edits of the launch selection keep it well formed. *)
Lemma evolved_selection x selection :
  s_kind x = SessionKind_Agent ->
  (launch_selection_is_well_formed (s_launch_selection x) = true ->
   launch_selection_is_well_formed selection = true) ->
  evolved x (x <| s_launch_selection := selection |>).
Proof.
  intros Hk Hw. split; [done| |by left]. unfold invalid_kind. simpl. rewrite Hk.
  rewrite !orb_false_iff, !negb_false_iff. naive_solver.
Qed.

Lemma update_running_agent_session_launch_selection_ok id epoch ref selection :
  ok_after (update_running_agent_session_launch_selection id epoch ref selection s).
Proof.
  unfold update_running_agent_session_launch_selection. ok_code.
  guards. eapply set_session_ok; [eassumption| |assumption]. apply evolved_selection; tauto.
Qed.

Lemma account_id_valid account :
  account ∈ agent_accounts (state s) -> valid_agent_account_id (aa_account_id account) = true.
Proof.
  intros Hin. pose proof (so_accounts _ Hst) as Hv. unfold valid_agent_accounts in Hv.
  rewrite all_true in Hv. assert (aa_agent_id account ∈ [AAP_Codex; AAP_Claude]) as Hp.
  { destruct (aa_agent_id account); set_solver. }
  specialize (Hv _ Hp). unfold valid_account_rows in Hv. rewrite all_with_rest_and in Hv.
  apply andb_true_iff in Hv as [_ Hv]. apply andb_true_iff in Hv as [Hv _].
  rewrite all_true in Hv. specialize (Hv account). unfold agent_account_is_valid in Hv.
  rewrite !andb_true_iff in Hv. apply Hv, elem_of_retain. by rewrite bool_decide_eq_true.
Qed.

Lemma switch_agent_session_account_ok id epoch account :
  ok_after (switch_agent_session_account id epoch account s).
Proof.
  unfold switch_agent_session_account. ok_code. guards.
  eapply set_session_ok; [eassumption| |assumption]. apply evolved_selection; [tauto|].
  match goal with E : any _ _ = true |- _ => apply any_true in E as (row & Hrow & E) end.
  guards. subst.
  unfold launch_selection_is_well_formed. cbn [als_account_id is_none_or set_field].
  intros [_ Hw]%andb_true_iff. apply andb_true_iff. split; [by apply account_id_valid|exact Hw].
Qed.

(** Failures of several Sessions at once. *)
Lemma fail_one_ok entry acc : sessions_ok acc.2 -> sessions_ok (fail_one entry acc).2.
Proof.
  destruct acc as [changed st]. unfold fail_one. simpl. intros Hok.
  destruct (session_position st entry.1) as [[i x]|] eqn:E; [|done].
  apply session_position_Some in E as (Hi & _). destruct (negb _); [done|].
  destruct (has_resume_failed _ _); [done|]. 
  eapply set_session_ok; [exact Hi|by apply evolved_same|done].
Qed.

Lemma fail_all_ok failures acc :
  sessions_ok acc.2 -> sessions_ok (fold_left (fun acc entry => fail_one entry acc) failures acc).2.
Proof.
  revert acc. induction failures as [|entry failures IH]; intros acc Hok; simpl; [done|].
  by apply IH, fail_one_ok.
Qed.

Lemma mark_sessions_resume_failed_ok failures : ok_after (mark_sessions_resume_failed failures s).
Proof.
  unfold mark_sessions_resume_failed. run_step.
  pose proof (fail_all_ok failures (false, state s) Hst) as Hok.
  destruct (fold_left _ _ _) as [changed st']. simpl in Hok. apply (drop_relocations_ok failures.*1) in Hok.
  ok_code; done.
Qed.

Lemma mark_startup_resume_overflow_ok admitted_ids :
  ok_after (mark_startup_resume_overflow admitted_ids s).
Proof.
  unfold mark_startup_resume_overflow. ok_code; simpl; apply drop_relocations_ok, map_sessions_ok; try done;
    intros x _; destruct (overflows _ _); auto using evolved_refl; by apply evolved_same.
Qed.

(** ** Removal of one Session *)

Lemma removal_ok st' x :
  live_ok (state s) -> settings st' = settings (state s) ->
  sessions st' = cleared [s_id x] <$> retain (outside s_id [s_id x]) (sessions (state s)) ->
  agent_conversation_readiness st' =
    retain (outside rd_session_id [s_id x]) (agent_conversation_readiness (state s)) ->
  agent_plans st' = retain (outside dap_session_id [s_id x]) (agent_plans (state s)) ->
  deleted_sessions st' = deleted_sessions (state s) ->
  steward_configurations st' =
    steward_configurations (clear_executor_session_references [s_id x] (state s)).2 ->
  sessions_ok st'.
Proof.
  intros Hl Hr Hs Hrd Hp Hd Hc.
  apply (leaves_ok [s_id x] (clear_executor_session_references [s_id x] (state s)).2).
  - by apply removal_leaves.
  - done.
  - apply points_kept_same; [done|]. intros id Hid. by apply clear_pointers_configured in Hid as [_ ?].
  - by apply clear_pointers_ok.
Qed.

Lemma delete_session_descriptor_ok id : ok_after (delete_session_descriptor id s).
Proof.
  pose proof (so_live _ Hst) as Hl. unfold delete_session_descriptor. ok_code. subst.
  apply (removal_ok _ s0); try done. by apply (delete_cleared (state s)).
Qed.

Lemma delete_archived_session_descriptor_ok id : ok_after (delete_archived_session_descriptor id s).
Proof.
  pose proof (so_live _ Hst) as Hl. unfold delete_archived_session_descriptor. ok_code. subst.
  apply (removal_ok _ s0); try done. by apply (delete_cleared (state s)).
Qed.

Lemma restore_archived_session_descriptor_ok id cwd :
  ok_after (restore_archived_session_descriptor id cwd s).
Proof. unfold restore_archived_session_descriptor. ok_code. destruct cwd; edits. Qed.
End methods.
