(* ===== verification/SessionLifecycle.v ===== *)
(** * Sessions that arrive, are buried and come back

    The methods that change the list of Sessions by more than an edit or a
    removal: admission, rollback, deletion with the retained record, its
    restoration and its purge, requests of a continuation, Terminals, and the
    reconciliation after a restart. *)

From S2P Require Import Prelude Text Domain DomainRules StoreState SessionJournals Transactions.
From S2P Require Import AgentPlans SessionRecords SessionInvariant SessionPreservation.

Local Open Scope string_scope.
Local Open Scope list_scope.

(** ** Transfer between states that agree *)

Lemma plans_ok_same st st' :
  sessions st' = sessions st -> agent_plans st' = agent_plans st -> plans_ok st -> plans_ok st'.
Proof.
  intros Hs Hp [Hv Ho Hd]. split; rewrite Hp; [done| |done].
  intros plan Hin. destruct (Ho plan Hin) as (x & Hf & ?). exists x. unfold find_session in *.
  by rewrite Hs.
Qed.

Lemma pointer_ok_more st st' c :
  (forall s, s ∈ sessions st -> s ∈ sessions st') -> pointer_ok st c -> pointer_ok st' c.
Proof. intros Hs Hp id Hid. destruct (Hp id Hid) as (s & ? & ?). eauto. Qed.

Lemma ready_NoDup st : sessions_ok st -> NoDup (ready_ids st).
Proof.
  intros [Hl _ Hr _ _ _ _ _]. rewrite Hr. by apply agent_ids_NoDup, live_ids.
Qed.

(** ** Arrivals *)

(** [st'] is [st] with one more live Session and, for an Agent, its record. *)
Record arrives (x : SessionRecord) (st st' : CurrentState) : Prop := MkArrives {
  ar_settings : settings st' = settings st;
  ar_sessions : sessions st' = sessions st ++ [x];
  ar_ready : ready_ids st' = ready_ids st ++ (if is_agent x then [s_id x] else []);
  ar_plans : agent_plans st' = agent_plans st;
  ar_stewards : steward_configurations st' = steward_configurations st
}.

Lemma arrives_ok x st st' :
  arrives x st st' -> live_ok st' ->
  (forall deleted, deleted ∈ deleted_sessions st' -> closed_ok deleted) ->
  sessions_ok st -> sessions_ok st'.
Proof.
  intros [[= Hr Ha Hpr] Hs Hrd Hp Hc] Hl Hd [_ _ Hready Hplans Hpt Hst Hv Hacc].
  split; [done..| | | |by rewrite Hc|by rewrite Hc, Hpr|by rewrite Ha].
  - rewrite Hrd, Hs. unfold agent_ids. rewrite retain_app, fmap_app. simpl.
    rewrite Hready. by destruct (is_agent x).
  - destruct Hplans as [Hpv Ho Hn]. split; rewrite Hp; [done| |done].
    intros plan Hin. destruct (Ho plan Hin) as (y & Hf & Hy). exists y. split; [|done].
    unfold find_session in *. by rewrite Hs, find_first_app, Hf.
  - intros c. rewrite Hc. intros Hin. eapply pointer_ok_more; [|by apply Hpt].
    intros y Hy. rewrite Hs. apply elem_of_app. by left.
Qed.

(** What admission asks of a new Session.  The store checks only that no live
    Session has its id. *)
Definition fits (st : CurrentState) (x : SessionRecord) : bool :=
  let others := known st in
  negb (invalid_kind x) && negb (invalid_fork_source x) && negb (invalid_run_configuration st x)
  && negb (invalid_improver_target x) && (negb (is_agent x) || negb (str_is_empty (s_id x)))
  && negb (any (fun y => s_id y == s_id x) others)
  && negb (any (fun y => s_ask_to_source_session_id y == Some (s_id x)) others)
  && is_none_or (s_ask_to_source_session_id x) (fun id =>
       negb (str_is_empty id) && is_agent x && (id != s_id x)
       && (pd_template_ref (s_process x) == Some "builtin.agent.ask-to-helper")
       && all (fun y => (s_id y != id) || (is_agent y && (s_project_id y == s_project_id x))) others)
  && is_none_or (s_ask_to_continuation x) (fun c =>
       continuation_is_well_formed c
       && any (fun y => s_ask_to_source_session_id x == Some (s_id y)) (sessions st)
       && negb (any (same_conversation c) (sessions st))
       && (is_none (atc_current_request_id c)
           || negb (any (fun y =>
                (s_ask_to_source_session_id y == s_ask_to_source_session_id x)
                && has_current_request y) (sessions st)))).

Lemma fits_static st x : fits st x = true -> static_ok st x.
Proof.
  unfold fits. rewrite !andb_true_iff, !negb_true_iff, orb_true_iff, !negb_true_iff.
  intros [[[[[[[[Hk Hf] Hr] Hi] Hn] _] _] Hs] _]. split; [done| |done..|].
  - intros id E. rewrite E in Hs. simpl in Hs.
    rewrite !andb_true_iff, !negb_true_iff, bool_decide_eq_true, bool_decide_eq_false in Hs.
    destruct Hs as [[[[He Ha] Hd] Ht] _]. split_and!; try done. by intros ->.
  - intros Ha. destruct Hn as [Hn|Hn]; [congruence|]. by intros E; rewrite E in Hn.
Qed.

Lemma conversations_elem c l :
  any (same_conversation c) l = false -> atc_conversation_id c ∉ conversations l.
Proof.
  rewrite any_false. intros Hn (y & Hy & Hc)%list_elem_of_omap. specialize (Hn y Hy).
  unfold same_conversation in Hn. destruct (s_ask_to_continuation y); simpl in *; [|done].
  apply bool_decide_eq_false in Hn. congruence.
Qed.

Lemma requests_elem source l :
  any (fun y => (s_ask_to_source_session_id y == source) && has_current_request y) l = false ->
  source ∉ requests_in_flight l.
Proof.
  rewrite any_false. intros Hn (y & Hy & Hc)%list_elem_of_omap. specialize (Hn y Hy).
  unfold requesting in Hc. destruct (has_current_request y); [|done].
  rewrite andb_true_r in Hn. apply bool_decide_eq_false in Hn. congruence.
Qed.

(** A Session that fits can join the live ones. *)
Lemma fits_live st st' x :
  live_ok st -> fits st x = true -> settings st' = settings st ->
  sessions st' = sessions st ++ [x] -> deleted_sessions st' = deleted_sessions st -> live_ok st'.
Proof.
  intros [Kid Kst Kso Kco Kcv Krq] Hfit [= Hr _ _] Hs Hd.
  pose proof (fits_static _ _ Hfit) as Hx. unfold fits in Hfit.
  rewrite !andb_true_iff, !negb_true_iff in Hfit.
  destruct Hfit as [[[[_ Hnew] Hnamed] Hsrc] Hcont]. rewrite any_false in Hnew, Hnamed.
  assert (known st' ≡ₚ x :: known st) as Hk.
  { unfold known, deleted. rewrite Hs, Hd. rewrite <- app_assoc. symmetry. apply Permutation_middle. }
  assert (forall s, static_ok st s -> static_ok st' s) as Hstatic.
  { intros s. apply static_ok_evolved; [done|apply evolved_refl]. }
  assert (forall y, s_ask_to_source_session_id x = Some (s_id y) -> y ∈ known st ->
          is_agent y = true /\ s_project_id y = s_project_id x) as Hmine.
  { intros y E Hy. rewrite E in Hsrc. simpl in Hsrc. rewrite !andb_true_iff, all_true in Hsrc.
    destruct Hsrc as [_ Hsrc]. specialize (Hsrc y Hy).
    rewrite bool_decide_eq_true_2 in Hsrc by done. simpl in Hsrc.
    by rewrite andb_true_iff, bool_decide_eq_true in Hsrc. }
  split.
  - rewrite Hk. simpl. apply list.NoDup_cons. split; [|done].
    intros (y & E & Hy)%list_elem_of_fmap. specialize (Hnew y Hy). by apply bool_decide_eq_false in Hnew.
  - intros s. rewrite Hk, elem_of_cons. intros [->|Hin]; auto.
  - intros h s. rewrite Hk, !elem_of_cons. intros [->|Hh] [->|Hin] E; auto.
    + by destruct (sc_source _ _ Hx _ E) as (_ & ? & _).
    + specialize (Hnamed h Hh). by apply bool_decide_eq_false in Hnamed.
  - intros s c. rewrite Hs, elem_of_app, list_elem_of_singleton. intros [Hin| ->] E.
    + destruct (Kco s c Hin E) as (Hw & src & Hsin & Hid). split; [done|]. exists src.
      rewrite elem_of_app. auto.
    + rewrite E in Hcont. simpl in Hcont. rewrite !andb_true_iff, any_true in Hcont.
      destruct Hcont as [[[Hw (src & Hsin & Hid)] _] _]. split; [done|]. exists src.
      rewrite elem_of_app. split; [by left|]. by apply bool_decide_eq_true in Hid.
  - unfold conversations. rewrite Hs, omap_app. fold (conversations (sessions st)). simpl.
    destruct (s_ask_to_continuation x) as [c|]; simpl; [|by rewrite app_nil_r].
    simpl in Hcont. rewrite !andb_true_iff, negb_true_iff in Hcont. destruct Hcont as [[_ Hc] _].
    rewrite (Permutation_app_comm _ [_]). simpl. apply list.NoDup_cons.
    split; [by apply conversations_elem|done].
  - unfold requests_in_flight. rewrite Hs, omap_app. fold (requests_in_flight (sessions st)). simpl.
    unfold requesting, has_current_request at 1.
    destruct (s_ask_to_continuation x) as [c|]; simpl; [|by rewrite app_nil_r].
    simpl in Hcont. rewrite !andb_true_iff, orb_true_iff, negb_true_iff in Hcont.
    destruct Hcont as [_ Hc]. destruct (atc_current_request_id c); simpl in *; [|by rewrite app_nil_r].
    rewrite (Permutation_app_comm _ [_]). simpl. apply list.NoDup_cons.
    split; [|done]. apply requests_elem. destruct Hc as [Hc|Hc]; [done|].
    by apply negb_true_iff.
Qed.

Lemma delete_insert_same {A} (l : list A) i x : delete i (<[i := x]> l) = delete i l.
Proof. revert i. induction l as [|y l IH]; intros [|i]; simpl; [done..|]. by rewrite IH. Qed.

(** States that differ in the deleted Sessions only. *)
Lemma deleted_ok st st' :
  settings st' = settings st -> sessions st' = sessions st ->
  agent_conversation_readiness st' = agent_conversation_readiness st ->
  agent_plans st' = agent_plans st -> steward_configurations st' = steward_configurations st ->
  live_ok st' -> (forall deleted, deleted ∈ deleted_sessions st' -> closed_ok deleted) ->
  sessions_ok st -> sessions_ok st'.
Proof.
  intros [= _ Ha Hpr] Hs Hrd Hp Hc Hl Hd [_ _ Hready Hplans Hpt Hst Hv Hacc].
  split; [done..| | | |by rewrite Hc|by rewrite Hc, Hpr|by rewrite Ha].
  - unfold ready_ids. by rewrite Hrd, Hs.
  - by apply (plans_ok_same st).
  - intros c. rewrite Hc. intros Hin. apply (pointer_ok_more st); [by rewrite Hs|auto].
Qed.

(** States whose Sessions differ neither in id, Project, kind nor provider. *)
Definition person (x : SessionRecord) :=
  (s_id x, s_project_id x, s_kind x, pd_agent_id (s_process x)).

Lemma find_first_fmap {A B} (f : A -> B) (p : B -> bool) l :
  find_first p (f <$> l) = f <$> find_first (fun x => p (f x)) l.
Proof. induction l as [|x l IH]; simpl; [done|]. destruct (p (f x)); [done|exact IH]. Qed.

Lemma retain_fmap {A B} (f : A -> B) (p : B -> bool) l :
  retain p (f <$> l) = f <$> retain (fun x => p (f x)) l.
Proof. induction l as [|x l IH]; simpl; [done|]. destruct (p (f x)); simpl; [f_equal|]; exact IH. Qed.

Lemma persons_ok st st' :
  person <$> sessions st' = person <$> sessions st -> settings st' = settings st ->
  agent_conversation_readiness st' = agent_conversation_readiness st ->
  agent_plans st' = agent_plans st -> steward_configurations st' = steward_configurations st ->
  deleted_sessions st' = deleted_sessions st -> live_ok st' -> sessions_ok st -> sessions_ok st'.
Proof.
  intros Hs [= _ Ha Hpr] Hrd Hp Hc Hd Hl [_ Hdel Hready [Hv Ho Hn] Hpt Hst Hsv Hacc].
  split; [done|by rewrite Hd| | | |by rewrite Hc|by rewrite Hc, Hpr|by rewrite Ha].
  - unfold ready_ids. rewrite Hrd. fold (ready_ids st). rewrite Hready.
    apply (f_equal (retain (fun p => p.1.2 == SessionKind_Agent))) in Hs. rewrite !retain_fmap in Hs.
    apply (f_equal (fmap (fun p => p.1.1.1))) in Hs. rewrite <- !list_fmap_compose in Hs.
    by change (agent_ids (sessions st') = agent_ids (sessions st)) in Hs; rewrite <- Hs.
  - split; rewrite Hp; [done| |done]. intros plan Hin. destruct (Ho plan Hin) as (x & Hf & Hk & Hsrc).
    apply (f_equal (find_first (fun p => p.1.1.1 == dap_session_id plan))) in Hs.
    rewrite !find_first_fmap in Hs. unfold find_session in *. simpl in Hs. rewrite Hf in Hs. simpl in Hs.
    apply fmap_Some in Hs as (x' & Hf' & [= E1 E2 E3 E4]). exists x'. split; [done|].
    unfold session_has_source in *. rewrite <- E3, <- E4. done.
  - intros c. rewrite Hc. intros Hin id Hid. destruct (Hpt c Hin id Hid) as (x & Hx & Hxid & Hxp).
    apply (list_elem_of_fmap_2 person) in Hx. rewrite <- Hs in Hx.
    apply list_elem_of_fmap in Hx as (x' & [= E1 E2 _ _] & Hx'). exists x'. split_and!; congruence.
Qed.

Section methods.
Context (s : Store) (Hst : sessions_ok (state s)).

Lemma admit_standalone_ok x remember :
  fits (state s) x = true -> ok_after (admit_standalone x remember s).
Proof.
  intros Hf. pose proof (fits_static _ _ Hf) as Hx. unfold admit_standalone. ok_code.
  apply (arrives_ok x (state s)); [| |exact (so_deleted _ Hst)|done].
  - split; try done. unfold ready_ids, is_agent. simpl. case_bool_decide; rewrite ?app_nil_r; [|done].
    by rewrite fmap_app.
  - by apply (fits_live (state s) _ x (so_live _ Hst)).
Qed.

(** ** Rollback *)

(** The rollback of an assistant's launch keeps the continuations of helpers,
    so it must have none. *)
Definition has_no_helpers (st : CurrentState) (id : string) : bool :=
  negb (any (fun y => is_some (s_ask_to_continuation y)
                      && (s_ask_to_source_session_id y == Some id)) (sessions st)).

Lemma find_mut_insert {A} (p : A -> bool) f l y l' :
  find_mut p f l = Some (y, l') ->
  exists i x, l !! i = Some x /\ p x = true /\ l' = <[i := f x]> l.
Proof.
  rewrite find_mut_position. destruct (position p l) as [[i x]|] eqn:E; [|done].
  intros [= <- <-]. apply position_Some in E as [? ?]. eauto.
Qed.

Lemma rollback_points id x c cs :
  x ∈ sessions (state s) -> s_id x = id ->
  find_mut (fun c => (stw_project_id c == s_project_id x) && (stw_executor_session_id c == Some id))
    (fun c => c <| stw_executor_session_id := None |>) (steward_configurations (state s)) =
    Some (c, cs) ->
  points_kept [id] (state s) ((state s) <| steward_configurations := cs |>).
Proof.
  intros Hx Hid (j & x0 & Hj & Hc & ->)%find_mut_insert. clear c. rename x0 into c. guards.
  set (cs := <[j:=c <| stw_executor_session_id := None |>]> (steward_configurations (state s))).
  assert (stw_project_id <$> cs = stw_project_id <$> steward_configurations (state s)) as Hkeys.
  { by apply fmap_insert_same with c. }
  split; [done|]. intros c' Hc'. change (c' ∈ cs) in Hc'.
  pose proof (elem_of_insert_list _ _ _ _ Hc') as [->|Hin].
  - exists c. split_and!; [by eapply list_elem_of_lookup_2|done..].
  - exists c'. split_and!; [done..|]. intros id' Hid'. split; [done|].
    intros ->%list_elem_of_singleton.
    destruct (so_pointers _ Hst c' Hin id Hid') as (y & Hy & Hyid & Hyp).
    assert (y = x) as -> by (apply (unique_elem s_id (sessions (state s)));
      [apply live_ids, Hst|done..|congruence]).
    assert (c' = c <| stw_executor_session_id := None |>) as ->; [|done].
    apply (unique_elem stw_project_id cs); [|done| |simpl; congruence].
    + rewrite Hkeys. apply Hst.
    + eapply list_elem_of_lookup_2, list_lookup_insert_eq. by eapply lookup_lt_Some.
Qed.

Lemma rollback_assistant_launch_ok id :
  has_no_helpers (state s) id = true -> ok_after (rollback_assistant_launch id s).
Proof.
  intros Hh. pose proof (live_ids _ (so_live _ Hst)) as Hn.
  unfold rollback_assistant_launch. ok_code. subst.
  match goal with E : find_mut _ _ _ = Some _ |- _ =>
    apply rollback_points in E as [Hp1 Hp2]; [|done..] end.
  match goal with |- sessions_ok ?st' => assert (leaves [s_id s0] (state s) st') as Hl end.
  { split; try done; simpl.
    - apply survives_delete.
    - rewrite (delete_retain s_id _ _ s0) by done. apply (retain_keys s_id).
    - apply (retain_keys rd_session_id).
    - intros y y_source Hy Hc Hs ->%list_elem_of_singleton. unfold has_no_helpers in Hh.
      rewrite negb_true_iff, any_false in Hh. specialize (Hh y). rewrite Hs, bool_decide_eq_true_2 in Hh by done.
      destruct (s_ask_to_continuation y); [|done].
      eapply elem_of_sublist in Hy; [|apply sublist_delete]. by discriminate (Hh Hy). }
  by apply (leaves_ok [s_id s0] (state s)).
Qed.

(** ** Deleted Sessions *)

Lemma burial_live i x st' :
  sessions (state s) !! i = Some x ->
  settings st' = settings (state s) ->
  sessions st' = delete i (cleared [s_id x] <$> sessions (state s)) ->
  deleted st' = deleted (state s) ++ [cleared [s_id x] x] -> live_ok st'.
Proof.
  intros Hi [= Hr _ _] Hs Hd. pose proof (live_ids _ (so_live _ Hst)) as Hn.
  set (l := cleared [s_id x] <$> sessions (state s)) in *.
  assert (survives (sessions (state s)) l) as Hl.
  { apply survives_fmap. intros. apply evolved_cleared. }
  apply (live_ok_change (state s) st' (l ++ deleted (state s)) (delete i l) []).
  - apply Hst.
  - done.
  - apply survives_app; [done|apply survives_refl].
  - unfold known. rewrite Hs, Hd, app_assoc, Permutation_app_comm. simpl.
    rewrite app_comm_cons. apply Permutation_app_tail. symmetry. apply delete_Permutation.
    unfold l. by rewrite list_lookup_fmap, Hi.
  - eapply survives_trans; [exact Hl|apply survives_delete].
  - by rewrite app_nil_r.
  - by intros ? ?%not_elem_of_nil.
  - intros y id Hy Hc Hsrc (z & -> & Hz)%list_elem_of_fmap.
    assert (s_id z <> s_id x) as Hne.
    { eapply elem_of_sublist in Hy; [|apply sublist_delete].
      apply list_elem_of_fmap in Hy as (w & -> & _). apply cleared_source in Hsrc; [|done].
      by rewrite list_elem_of_singleton in Hsrc. }
    unfold l. rewrite <- list_fmap_delete, (delete_retain s_id _ _ x) by done.
    apply list_elem_of_fmap. exists (cleared [s_id x] z).
    split; [symmetry; apply evolved_id, evolved_cleared|].
    apply list_elem_of_fmap_2, elem_of_retain. split; [done|].
    by apply negb_true_iff, bool_decide_eq_false; rewrite list_elem_of_singleton.
Qed.

Lemma cleared_self x : (cleared [s_id x] x) <| s_ask_to_continuation := None |> = cleared [s_id x] x.
Proof. unfold cleared. by rewrite (bool_decide_eq_true_2 (s_id x ∈ [s_id x])) by left. Qed.

Lemma closed_cleared x now readiness :
  now <> 0%N -> s_kind x = SessionKind_Agent -> s_archived_at_epoch_ms x = None ->
  is_closed_state (s_lifecycle_state x) = true -> is_uncertain (s_resume_failure x) = false ->
  closed_ok (MkDeletedSessionRecord (cleared [s_id x] x) now readiness).
Proof.
  intros Hnow Hk Ha Hc Hu. unfold cleared. rewrite (bool_decide_eq_true_2 (s_id x ∈ [s_id x])) by left.
  split; try done. unfold is_agent. simpl. by rewrite Hk, bool_decide_eq_true_2.
Qed.

Lemma move_agent_session_to_deleted_ok id now : ok_after (move_agent_session_to_deleted id now s).
Proof.
  pose proof (so_live _ Hst) as Hl. pose proof (ready_NoDup _ Hst) as Hrn.
  unfold move_agent_session_to_deleted. ok_code. subst.
  match goal with E : clear_ask_to_continuations_for_session _ _ !! _ = Some ?y |- _ =>
    rewrite clear_one, list_lookup_fmap in E; simpl in E; rewrite H in E; injection E as <- end.
  guards. rewrite cleared_self.
  match goal with |- sessions_ok ?st' => set (st1 := st' <| deleted_sessions := deleted_sessions (state s) |>) end.
  apply (deleted_ok st1); try done.
  - apply (burial_live n s0); try done.
    + by rewrite <- clear_one.
    + unfold deleted. simpl. by rewrite fmap_app.
  - intros d Hd. simpl in Hd. apply elem_of_app in Hd as [Hd| ->%list_elem_of_singleton].
    + by apply Hst.
    + by apply closed_cleared.
  - apply (removal_ok s Hst st1 s0); try done.
    + by apply (delete_cleared (state s)).
    + unfold st1. simpl. rewrite (delete_retain rd_session_id _ _ a) by done. by rewrite H3.
Qed.

Lemma restored_evolved guard cwd x : evolved x (restored_deleted_session guard cwd x).
Proof. split; [done|by unfold invalid_kind|by right]. Qed.

Lemma restore_deleted_session_descriptor_ok id cwd :
  ok_after (restore_deleted_session_descriptor id cwd s).
Proof.
  unfold restore_deleted_session_descriptor. ok_code.
  match goal with E : position _ _ = Some _ |- _ => apply position_Some in E as [Hi Hid] end. guards.
  match goal with |- sessions_ok ?st' => set (st1 := st') end.
  set (x := restored_deleted_session _ _ _) in *.
  assert (evolved (ds_session d) x) as Hx by apply restored_evolved.
  pose proof (so_deleted _ Hst d (list_elem_of_lookup_2 _ _ _ Hi)) as Hd.
  apply (arrives_ok x (state s)); [| | |done].
  - split; try done. unfold ready_ids. simpl. rewrite fmap_app, (evolved_agent _ _ Hx).
    by rewrite (cl_agent _ Hd).
  - apply (live_ok_change (state s) st1
      (sessions (state s) ++ <[n := x]> (deleted (state s))) (sessions (state s)) [x]); try done.
    + apply Hst.
    + apply survives_app; [apply survives_refl|]. apply survives_insert with (ds_session d); [|done].
      unfold deleted. by rewrite list_lookup_fmap, Hi.
    + unfold known, deleted, st1. simpl. rewrite <- app_assoc. apply Permutation_app_head.
      rewrite list_fmap_delete. simpl.
      rewrite <- (delete_insert_same (ds_session <$> deleted_sessions (state s)) n x).
      symmetry. apply delete_Permutation, list_lookup_insert_eq.
      rewrite length_fmap. by eapply lookup_lt_Some.
    + apply survives_refl.
    + by intros y ->%list_elem_of_singleton.
  - intros y Hy. apply Hst. eapply elem_of_sublist; [exact Hy|]. apply sublist_delete.
Qed.

Lemma purge_expired_deleted_sessions_ok now : ok_after (purge_expired_deleted_sessions now s).
Proof.
  unfold purge_expired_deleted_sessions. run_step.
  set (st1 := (state s) <| deleted_sessions := retain _ (deleted_sessions (state s)) |>).
  assert (sessions_ok st1) as Hok; [|ok_code; done].
  apply (deleted_ok (state s)); try done.
  - apply (live_ok_change (state s) st1 (known st1) (sessions (state s)) []); try done.
    + apply Hst.
    + apply survives_app; [apply survives_refl|]. unfold deleted, st1. simpl.
      clear. induction (deleted_sessions (state s)) as [|d l IH]; simpl; [constructor|].
      destruct (_ <? _)%N; [apply survives_stay|apply survives_leave]; auto using evolved_refl.
    + apply survives_refl.
    + by rewrite app_nil_r.
    + by intros ? ?%not_elem_of_nil.
  - intros d [Hd _]%elem_of_retain. by apply Hst.
Qed.

(** ** Requests of a continuation *)

(** No other helper of the same source has a request in flight. *)
Definition may_request (st : CurrentState) (helper_id : string) (request_id : option string) : bool :=
  is_none request_id
  || is_none_or (find_session st helper_id) (fun helper =>
       negb (any (fun y =>
         (s_id y != helper_id)
         && ((s_ask_to_source_session_id y == s_ask_to_source_session_id helper)
             && has_current_request y)) (sessions st))).

Lemma request_free st i x x' request_id :
  live_ok st -> sessions st !! i = Some x ->
  s_ask_to_source_session_id x' = s_ask_to_source_session_id x ->
  has_current_request x' = is_some request_id -> may_request st (s_id x) request_id = true ->
  NoDup (requests_in_flight (x :: delete i (sessions st))) ->
  NoDup (requests_in_flight (x' :: delete i (sessions st))).
Proof.
  intros Hl Hi Hs Hx' Hr Krq. pose proof (live_ids _ Hl) as Hn.
  assert (NoDup (requests_in_flight (delete i (sessions st)))) as Hrest.
  { unfold requests_in_flight in *. simpl in Krq.
    by destruct (requesting x); [apply list.NoDup_cons in Krq as [_ ?]|]. }
  unfold requests_in_flight in *. simpl in *. unfold requesting at 1. rewrite Hx', Hs.
  destruct request_id as [r|]; simpl; [|done]. apply list.NoDup_cons. split; [|done].
  apply requests_elem. unfold may_request in Hr. simpl in Hr.
  assert (find_session st (s_id x) = Some x) as Hf.
  { apply find_first_unique; eauto using list_elem_of_lookup_2. }
  rewrite Hf in Hr. simpl in Hr. rewrite negb_true_iff, any_false in Hr.
  rewrite any_false. intros y Hy. rewrite (delete_retain s_id _ _ x) in Hy by done.
  apply elem_of_retain in Hy as [Hy Hne]. specialize (Hr y Hy).
  apply negb_true_iff, bool_decide_eq_false in Hne. rewrite list_elem_of_singleton in Hne.
  by rewrite (bool_decide_eq_false_2 _ Hne) in Hr.
Qed.

(** Only the request of a continuation changes. *)
Lemma request_live st i x c request_id :
  live_ok st -> sessions st !! i = Some x -> s_ask_to_continuation x = Some c ->
  continuation_is_well_formed (MkAskToContinuation (atc_conversation_id c) request_id) = true ->
  may_request st (s_id x) request_id = true ->
  live_ok (set_session i
    (x <| s_ask_to_continuation := Some (MkAskToContinuation (atc_conversation_id c) request_id) |>) st).
Proof.
  intros Hl Hi Hc Hw Hr. pose proof (live_ids _ Hl) as Hn. pose proof Hl as [Kid Kst Kso Kco Kcv Krq].
  set (x' := x <| s_ask_to_continuation := _ |>). set (st' := set_session i x' st).
  assert (forall y', y' ∈ known st' -> exists y, y ∈ known st /\
    (y' = y \/ (y = x /\ y' = x'))) as Helem.
  { intros y'. unfold known. rewrite !elem_of_app. intros [Hy|Hy]; [|exists y'; rewrite elem_of_app; auto].
    apply elem_of_insert_list in Hy as [->|Hy]; [exists x|exists y']; rewrite elem_of_app; [|auto].
    split; [left; by eapply list_elem_of_lookup_2|auto]. }
  assert (delete i (sessions st') = delete i (sessions st)) as Hdel by apply delete_insert_same.
  assert (sessions st ≡ₚ x :: delete i (sessions st)) as Hp by by apply delete_Permutation.
  assert (sessions st' ≡ₚ x' :: delete i (sessions st)) as Hp'.
  { rewrite <- Hdel. apply delete_Permutation. simpl. apply list_lookup_insert_eq.
    by eapply lookup_lt_Some. }
  split.
  - unfold known, st'. simpl. rewrite fmap_app, (fmap_insert_same s_id _ _ x), <- fmap_app by done. exact Kid.
  - intros y' (y & Hy & [->|[-> ->]])%Helem.
    { apply (static_ok_evolved st st' y y); auto using evolved_refl. }
    destruct (Kst x Hy) as [Hk Hs Hf Hru Him Hid]. by split.
  - intros h' y' (h & Hh & Eh)%Helem (y & Hy & Ey)%Helem.
    assert (s_ask_to_source_session_id h' = s_ask_to_source_session_id h /\
            s_project_id h' = s_project_id h) as [-> ->] by by destruct Eh as [->|[-> ->]].
    assert (s_id y' = s_id y /\ is_agent y' = is_agent y /\ s_project_id y' = s_project_id y)
      as (-> & -> & ->) by by destruct Ey as [->|[-> ->]].
    by apply Kso.
  - assert (forall src, src ∈ sessions st -> exists src', src' ∈ sessions st' /\ s_id src' = s_id src) as Hsrc.
    { intros src. rewrite Hp, elem_of_cons. intros [->|Hin].
      - exists x'. rewrite Hp', elem_of_cons. auto.
      - exists src. rewrite Hp', elem_of_cons. auto. }
    intros y' d Hy' Hd. apply elem_of_insert_list in Hy' as [->|Hy].
    + injection Hd as <-. split; [done|].
      destruct (Kco x c) as (_ & src & Hin & Hid); [by eapply list_elem_of_lookup_2|done|].
      destruct (Hsrc src Hin) as (src' & ? & Hs'). exists src'. by rewrite Hs'.
    + destruct (Kco y' d Hy Hd) as (Hwd & src & Hin & Hid). split; [done|].
      destruct (Hsrc src Hin) as (src' & ? & Hs'). exists src'. by rewrite Hs'.
  - unfold conversations in *. rewrite Hp in Kcv. rewrite Hp'. simpl in *. by rewrite Hc in Kcv.
  - rewrite Hp'. rewrite Hp in Krq. by apply (request_free st i x x' request_id).
Qed.

Lemma set_ask_to_current_request_ok helper conversation request_id :
  may_request (state s) helper request_id = true ->
  ok_after (set_ask_to_current_request helper conversation request_id s).
Proof.
  intros Hr. unfold set_ask_to_current_request. ok_code. subst.
  match goal with E : negb (continuation_is_well_formed _) = false |- _ => apply negb_false_iff in E end.
  apply (persons_ok (state s)); try done.
  - by apply fmap_insert_same with s0.
  - eapply request_live; [apply Hst|eassumption..].
Qed.

(** ** Terminals *)

Lemma terminal_process x process :
  s_kind x = SessionKind_Terminal -> evolved x (x <| s_process := process |>).
Proof.
  intros Hk. apply evolved_same; [|done..]. unfold identity, is_agent. simpl. by rewrite Hk.
Qed.

Lemma restore_terminal_session_ok expected process epoch :
  ok_after (restore_terminal_session expected process epoch s).
Proof.
  unfold restore_terminal_session. ok_code. guards. subst.
  eapply set_session_ok; [eassumption| |done].
  eapply evolved_trans; [by apply (terminal_process _ process)|by apply evolved_same].
Qed.

Lemma observe_terminal_directory_ok id epoch expected observed :
  ok_after (observe_terminal_directory id epoch expected observed s).
Proof.
  unfold observe_terminal_directory. ok_code.
  match goal with E : position _ _ = Some _ |- _ => apply position_Some in E as [Hi Hp] end. guards.
  eapply set_session_ok; [exact Hi|by apply terminal_process|done].
Qed.
End methods.
