(* ===== verification/SessionRestart.v ===== *)
(** * The reconciliation after a restart

    [reconcile_restart] runs once, before any Session is started: what it makes
    of each Session, which Sessions it removes, and which pointers it keeps. *)

From S2P Require Import Prelude Text Domain DomainRules StoreState SessionJournals Transactions.
From S2P Require Import AgentPlans SessionRecords SessionInvariant SessionPreservation.
From S2P Require Import SessionLifecycle.

Local Open Scope string_scope.
Local Open Scope list_scope.

(** [y] is [x], perhaps without its continuation. *)
Definition same_but_continuation (x y : SessionRecord) : Prop :=
  y = x <| s_ask_to_continuation := s_ask_to_continuation y |>.

#[export] Instance same_but_continuation_preorder : PreOrder same_but_continuation.
Proof.
  split; [by intros []|]. unfold same_but_continuation. intros x y z H1 H2. rewrite H1 in H2. exact H2.
Qed.

Lemma same_cleared ids x : same_but_continuation x (cleared ids x).
Proof. unfold cleared. destruct (_ || _); [done|]. by destruct x. Qed.

Lemma same_id x y : same_but_continuation x y -> s_id y = s_id x.
Proof. by intros ->. Qed.

(** ** Removals, element by element *)

Lemma remove_exact_elem ids st y :
  y ∈ sessions (remove_exact_session_descriptors ids st).2 ->
  exists x, x ∈ sessions st /\ s_id x ∉ ids /\ same_but_continuation x y.
Proof.
  unfold remove_exact_session_descriptors. case_bool_decide as Hids; subst.
  { intros Hy. exists y. split_and!; [done|apply not_elem_of_nil|done]. }
  destruct (_ =? _)%nat; simpl; intros Hy.
  - apply elem_of_retain in Hy as [Hy Hout]. exists y.
    apply negb_true_iff, bool_decide_eq_false in Hout. done.
  - rewrite fold_clear in Hy. apply list_elem_of_fmap in Hy as (x & -> & [Hx Hout]%elem_of_retain).
    exists x. apply negb_true_iff, bool_decide_eq_false in Hout. auto using same_cleared.
Qed.

Lemma remove_exact_stays ids st x :
  x ∈ sessions st -> s_id x ∉ ids ->
  exists y, y ∈ sessions (remove_exact_session_descriptors ids st).2 /\ same_but_continuation x y.
Proof.
  intros Hx Hout. assert (x ∈ retain (outside s_id ids) (sessions st)) as Hk.
  { apply elem_of_retain. split; [done|]. by apply negb_true_iff, bool_decide_eq_false. }
  unfold remove_exact_session_descriptors. case_bool_decide; [by exists x|].
  destruct (_ =? _)%nat; simpl; [by exists x|]. rewrite fold_clear.
  exists (cleared ids x). split; [by apply list_elem_of_fmap_2|apply same_cleared].
Qed.

Section restart.
Context `{UuidParser} (st : CurrentState).

(** ** One Session *)

(** What the loop leaves of a Session. *)
Definition after_restart (x : SessionRecord) : SessionRecord :=
  match restarted st x with Some (_, x') => x' | None => x end.

Lemma after_restart_evolved x : evolved x (after_restart x).
Proof.
  unfold after_restart, restarted, restart_session, restart_conversation.
  destruct (negb _); [apply evolved_refl|]. destruct (_ && _); [by apply evolved_same|].
  case_bool_decide; [destruct (is_some _); [apply evolved_refl|by apply evolved_same]|].
  destruct (_ && _); [by apply evolved_same|].
  destruct (s_resume_ref x); [destruct (negb _); [|destruct (negb _)]|]; by apply evolved_same.
Qed.

(** A Session that may be started again: an Agent with a reference that its
    provider understands. *)
Definition resumable (x : SessionRecord) : Prop :=
  s_kind x = SessionKind_Agent /\ exists ref, s_resume_ref x = Some ref /\
  resume_ref_validate ref = true /\
  provider_matches_agent (ref_provider ref) (pd_agent_id (s_process x)) = true.

Definition at_rest (x : SessionRecord) : Prop :=
  s_lifecycle_state x <> "running" /\ (s_lifecycle_state x = "resuming" -> resumable x).

Lemma not_live x :
  restart_candidate (bool_decide (s_id x ∈ configured_sessions st)) x = false ->
  s_lifecycle_state x <> "running" /\ s_lifecycle_state x <> "resuming".
Proof.
  unfold restart_candidate. rewrite !orb_false_iff. intros [[[Hr Hs] _] _].
  by apply bool_decide_eq_false in Hr, Hs.
Qed.

Lemma restart_conversation_at_rest x :
  s_kind x = SessionKind_Agent -> at_rest (restart_conversation x).
Proof.
  intros Hk. unfold restart_conversation, at_rest.
  destruct (s_resume_ref x) as [ref|] eqn:E; [|done].
  destruct (resume_ref_validate ref) eqn:Hv; simpl; [|done].
  destruct (provider_matches_agent _ _) eqn:Hp; simpl; [|done].
  split; [done|]. intros _. split; [done|]. eauto.
Qed.

(** What each mark means. *)
Lemma restarted_spec x :
  match restarted st x with
  | None => at_rest x
  | Some (RM_Kept, x') => at_rest x'
  | Some (RM_Obsolete, _) =>
      pd_template_ref (s_process x) = Some "builtin.steward.executor" /\
      s_id x ∉ configured_sessions st
  | Some (RM_Retired, _) => s_kind x = SessionKind_Terminal /\ s_run_configuration_id x <> None
  end.
Proof.
  unfold restarted, restart_session.
  destruct (restart_candidate _ x) eqn:Hc; cbn [negb].
  2: { apply not_live in Hc as [? ?]. by split. }
  destruct ((pd_template_ref _ == _) && _) eqn:E; [guards; by split|].
  destruct (s_kind x == SessionKind_Terminal) eqn:Ht.
  { apply bool_decide_eq_true in Ht. by destruct (s_run_configuration_id x). }
  assert (s_kind x = SessionKind_Agent) as Ha.
  { apply bool_decide_eq_false in Ht. by destruct (s_kind x). }
  destruct ((conversation_readiness st _ == _) && _); [done|by apply restart_conversation_at_rest].
Qed.

Lemma kept_at_rest x :
  (forall mark x', restarted st x = Some (mark, x') -> mark = RM_Kept) -> at_rest (after_restart x).
Proof.
  intros Hk. pose proof (restarted_spec x) as Hs. unfold after_restart.
  destruct (restarted st x) as [[mark x']|] eqn:R; [|done]. by rewrite (Hk _ _ eq_refl) in Hs.
Qed.

(** Who is marked. *)
Lemma elem_of_marked mark x :
  NoDup (s_id <$> sessions st) -> x ∈ sessions st ->
  s_id x ∈ marked st mark <-> exists x', restarted st x = Some (mark, x').
Proof.
  intros Hn Hx. unfold marked. rewrite list_elem_of_omap. split.
  - intros (y & Hy & E). destruct (restarted st y) as [[mark' y']|] eqn:R; [|done].
    case_bool_decide; [|done]. injection E as E. assert (y = x) as -> by by apply (unique_elem s_id _ y x Hn).
    subst. eauto.
  - intros [x' R]. exists x. split; [done|]. rewrite R. by rewrite bool_decide_eq_true_2.
Qed.

(** ** All Sessions *)

Context (Hst : sessions_ok st).

Let st1 := st <| sessions := after_restart <$> sessions st |>.
Let st2 := (remove_exact_session_descriptors (marked st RM_Obsolete) st1).2.
Let st3 := (remove_exact_session_descriptors (marked st RM_Retired) st2).2.
Let stale :=
  retain (fun id => negb (bool_decide
            (id ∈ s_id <$> retain (is_current_session (configured_sessions st)) (sessions st3))))
    (configured_sessions st3).
Let st4 := (clear_executor_session_references stale st3).2.

Lemma restart_state_last : (restart_state st).2 = (remove_obsolete_assistant_sessions st4).2.
Proof.
  unfold restart_state.
  change (fun session => match restarted st session with Some (_, session') => session' | None => session end)
    with after_restart. fold st1. unfold st4, stale, st3, st2.
  destruct (remove_exact_session_descriptors (marked st RM_Obsolete) st1) as [c1 t2].
  cbn [snd]. destruct (remove_exact_session_descriptors (marked st RM_Retired) t2) as [c2 t3].
  cbn [snd]. destruct (clear_executor_session_references _ t3) as [c3 t4]. cbn [snd].
  by destruct (remove_obsolete_assistant_sessions t4).
Qed.

Lemma after_restart_id x : s_id (after_restart x) = s_id x.
Proof. apply evolved_id, after_restart_evolved. Qed.

Lemma obsolete_unconfigured id : id ∈ configured_sessions st -> id ∉ marked st RM_Obsolete.
Proof.
  intros Hc (x & Hx & E)%list_elem_of_omap. pose proof (restarted_spec x) as Hs.
  destruct (restarted st x) as [[mark x']|]; [|done]. case_bool_decide; [|done]. subst mark.
  injection E as <-. by destruct Hs.
Qed.

Lemma st2_ok : sessions_ok st2.
Proof.
  apply remove_exact_ok; [exact obsolete_unconfigured|].
  apply map_sessions_ok; [|done]. intros. apply after_restart_evolved.
Qed.

Lemma st4_ok : sessions_ok st4.
Proof.
  destruct (remove_exact_session_descriptors (marked st RM_Retired) st2).1 eqn:E.
  2: { apply clear_pointers_ok. unfold st3. rewrite (remove_exact_kept _ _ E). apply st2_ok. }
  pose proof (remove_exact_leaves _ _ E) as Hl.
  pose proof (remove_exact_stewards (marked st RM_Retired) st2) as [Hs Hd].
  change (remove_exact_session_descriptors (marked st RM_Retired) st2).2 with st3 in Hl, Hs, Hd.
  apply (leaves_ok (marked st RM_Retired) st2); [by destruct Hl|exact Hd| |exact st2_ok].
  split.
  - simpl. rewrite <- list_fmap_compose. rewrite <- Hs. apply list_fmap_ext. intros i c _. simpl.
    by destruct (points_to stale c).
  - intros c' Hc'. simpl in Hc'. apply list_elem_of_fmap in Hc' as (c & -> & Hc). exists c.
    rewrite <- Hs. split; [done|]. split; [by destruct (points_to stale c)|].
    split; [by destruct (points_to stale c)|]. intros id Hid. destruct (points_to stale c) eqn:Hpt; [done|]. split; [done|]. intros Hgone.
    unfold points_to in Hpt. rewrite Hid in Hpt. simpl in Hpt. apply bool_decide_eq_false in Hpt.
    apply Hpt, elem_of_retain. split; [apply list_elem_of_omap; eauto|].
    apply negb_true_iff, bool_decide_eq_false. intros (y & -> & [Hy _]%elem_of_retain)%list_elem_of_fmap.
    pose proof (list_elem_of_fmap_2 s_id _ _ Hy) as Hy'. rewrite (lf_ids _ _ _ Hl), elem_of_stay in Hy'.
    by destruct Hy'.
Qed.

(** The state the reconciliation computes fits the invariant. *)
Lemma restart_state_ok : sessions_ok (restart_state st).2.
Proof. rewrite restart_state_last. apply remove_obsolete_ok, st4_ok. Qed.

(** Where the Sessions it leaves come from. *)
Lemma restart_state_elem y :
  y ∈ sessions (restart_state st).2 ->
  exists x, x ∈ sessions st /\ same_but_continuation (after_restart x) y /\
    s_id x ∉ marked st RM_Obsolete /\ s_id x ∉ marked st RM_Retired.
Proof.
  rewrite restart_state_last. intros (y4 & Hy4 & _ & E4)%remove_exact_elem.
  change (sessions st4) with (sessions st3) in Hy4.
  apply remove_exact_elem in Hy4 as (y2 & Hy2 & Hr & E3).
  apply remove_exact_elem in Hy2 as (y1 & Hy1 & Ho & E2). simpl in Hy1.
  apply list_elem_of_fmap in Hy1 as (x & -> & Hx). exists x.
  rewrite (same_id _ _ E2) in Hr. rewrite after_restart_id in Hr, Ho.
  split_and!; [done| |done..]. by do 2 (etrans; [done|]).
Qed.

Lemma restart_state_at_rest y : y ∈ sessions (restart_state st).2 -> at_rest y.
Proof.
  pose proof (live_ids _ (so_live _ Hst)) as Hn.
  intros (x & Hx & E & Ho & Hr)%restart_state_elem.
  assert (at_rest (after_restart x)) as Hrest.
  { apply kept_at_rest. intros [] x' R; [done|..].
    - destruct Ho. apply elem_of_marked; eauto.
    - destruct Hr. apply elem_of_marked; eauto. }
  rewrite E. exact Hrest.
Qed.

(** The configured assistants: Agents a Steward points to. *)
Definition is_assistant (x : SessionRecord) : Prop :=
  s_id x ∈ configured_sessions st /\ s_kind x = SessionKind_Agent /\
  (pd_template_ref (s_process x) = Some "builtin.assistant.activation" \/
   pd_template_ref (s_process x) = Some "builtin.steward.executor").

Lemma st3_stewards : steward_configurations st3 = steward_configurations st.
Proof.
  unfold st3, st2. rewrite (proj1 (remove_exact_stewards _ _)).
  by rewrite (proj1 (remove_exact_stewards _ _)).
Qed.

(** A Session without a mark is still there before pointers are cleared. *)
Lemma unmarked_stays x :
  x ∈ sessions st -> s_id x ∉ marked st RM_Obsolete -> s_id x ∉ marked st RM_Retired ->
  exists y, y ∈ sessions st3 /\ same_but_continuation (after_restart x) y.
Proof.
  intros Hx Ho Hr. rewrite <- after_restart_id in Ho, Hr.
  destruct (remove_exact_stays (marked st RM_Obsolete) st1 (after_restart x)) as (y2 & Hy2 & E2);
    [by apply list_elem_of_fmap_2|done|].
  destruct (remove_exact_stays (marked st RM_Retired) st2 y2) as (y3 & Hy3 & E3); [done| |].
  { by rewrite (same_id _ _ E2). }
  exists y3. split; [done|]. by etrans.
Qed.

(** What a restart keeps of an Agent. *)
Lemma after_restart_agent x y :
  same_but_continuation (after_restart x) y ->
  s_id y = s_id x /\ s_kind y = s_kind x /\
  (s_kind x = SessionKind_Agent -> pd_template_ref (s_process y) = pd_template_ref (s_process x)).
Proof.
  intros E. pose proof (after_restart_evolved x) as [Hi _ _]. rewrite E. simpl. clear E.
  unfold identity, is_agent in Hi. injection Hi as E1 _ E3 _ _ _ _ Ep. split_and!; [done..|].
  intros Hk. rewrite E3, Hk, bool_decide_eq_true_2 in Ep by done. by injection Ep.
Qed.

Lemma assistant_current x :
  x ∈ sessions st -> is_assistant x ->
  exists y, y ∈ sessions st3 /\ s_id y = s_id x /\
    is_current_session (configured_sessions st) y = true.
Proof.
  pose proof (live_ids _ (so_live _ Hst)) as Hn.
  intros Hx (Hc & Hk & Ht). destruct (unmarked_stays x) as (y & Hy & E); [done| | |].
  - by apply obsolete_unconfigured.
  - intros (x' & R)%elem_of_marked; [|done..]. pose proof (restarted_spec x) as Hs.
    rewrite R in Hs. destruct Hs. congruence.
  - destruct (after_restart_agent x y E) as (Hid & Hkind & Htpl). exists y. split_and!; [done..|].
    unfold is_current_session. rewrite Hid, Hkind, (Htpl Hk), Hk. apply orb_true_iff. right.
    rewrite !(bool_decide_eq_true_2 _ Hc), (bool_decide_eq_true_2 (_ = _)) by done.
    simpl. apply orb_true_iff. destruct Ht as [->| ->]; [left|right]; by apply bool_decide_eq_true.
Qed.

(** Stewards keep pointing to their assistants. *)
Lemma assistant_pointer x c :
  x ∈ sessions st -> is_assistant x -> c ∈ steward_configurations st ->
  stw_executor_session_id c = Some (s_id x) -> c ∈ steward_configurations st4.
Proof.
  intros Hx Ha Hc Hp. simpl. apply list_elem_of_fmap. exists c. rewrite st3_stewards.
  assert (points_to stale c = false) as ->; [|done].
  unfold points_to. rewrite Hp. simpl. apply bool_decide_eq_false. intros [_ Hs]%elem_of_retain.
  apply negb_true_iff, bool_decide_eq_false in Hs. apply Hs.
  destruct (assistant_current x Hx Ha) as (y & Hy & <- & Hcur).
  apply list_elem_of_fmap_2, elem_of_retain. done.
Qed.

Lemma restart_state_pointer x c :
  x ∈ sessions st -> is_assistant x -> c ∈ steward_configurations st ->
  stw_executor_session_id c = Some (s_id x) -> c ∈ steward_configurations (restart_state st).2.
Proof.
  intros Hx Ha Hc Hp. rewrite restart_state_last. unfold remove_obsolete_assistant_sessions.
  rewrite (proj1 (remove_exact_stewards _ _)). by apply (assistant_pointer x).
Qed.

(** Who leaves: executors no Steward points to, and the Terminals of run
    configurations. *)
Lemma restart_state_left x :
  x ∈ sessions st -> s_id x ∉ s_id <$> sessions (restart_state st).2 ->
  (pd_template_ref (s_process x) = Some "builtin.steward.executor" /\
   s_id x ∉ configured_sessions st) \/
  (s_kind x = SessionKind_Terminal /\ s_run_configuration_id x <> None).
Proof.
  pose proof (live_ids _ (so_live _ Hst)) as Hn. pose proof (restarted_spec x) as Hs. intros Hx Hleft.
  destruct (decide (s_id x ∈ marked st RM_Obsolete)) as [(x' & R)%elem_of_marked|Ho]; [|done..|].
  { rewrite R in Hs. by left. }
  destruct (decide (s_id x ∈ marked st RM_Retired)) as [(x' & R)%elem_of_marked|Hr]; [|done..|].
  { rewrite R in Hs. by right. }
  left. destruct (unmarked_stays x Hx Ho Hr) as (y & Hy & E).
  destruct (after_restart_agent x y E) as (Hid & Hkind & Htpl).
  destruct (decide (s_id y ∈ s_id <$> retain (is_obsolete_assistant st4) (sessions st4))) as [Hob|Hob].
  2: { exfalso. destruct (remove_exact_stays _ st4 y Hy Hob) as (z & Hz & Ez). apply Hleft.
       rewrite restart_state_last, <- Hid, <- (same_id _ _ Ez). by apply list_elem_of_fmap_2. }
  apply list_elem_of_fmap in Hob as (z & Ez & [Hz Hobs]%elem_of_retain).
  assert (y = z) as <- by by apply (unique_elem s_id (sessions st4)); [apply live_ids, st4_ok|..].
  unfold is_obsolete_assistant in Hobs. guards. rewrite Hid in *.
  assert (s_kind x = SessionKind_Agent) as Hk by congruence. rewrite (Htpl Hk) in *. split; [done|].
  intros (c & Hc & Hp)%list_elem_of_omap.
  match goal with Hno : s_id x ∉ configured_sessions st4 |- _ => apply Hno end.
  apply list_elem_of_omap. exists c. split; [|done]. apply (assistant_pointer x); try done.
  split_and!; [apply list_elem_of_omap; eauto|done|by right].
Qed.

(** When nothing changed, nothing did. *)
Lemma after_restart_unchanged :
  any (fun session => is_some (restarted st session)) (sessions st) = false ->
  after_restart <$> sessions st = sessions st.
Proof.
  rewrite any_false. intros Hn. rewrite <- (list_fmap_id (sessions st)) at 2.
  apply list_fmap_ext. intros i x Hi. specialize (Hn x (list_elem_of_lookup_2 _ _ _ Hi)).
  unfold after_restart. by destruct (restarted st x).
Qed.
End restart.

Lemma clear_pointers_kept ids st :
  (clear_executor_session_references ids st).1 = false ->
  (clear_executor_session_references ids st).2 = st.
Proof.
  simpl. rewrite any_false. intros Hn.
  assert ((fun c => if points_to ids c then c <| stw_executor_session_id := None |> else c)
            <$> steward_configurations st = steward_configurations st) as ->; [|by destruct st].
  rewrite <- (list_fmap_id (steward_configurations st)) at 2. apply list_fmap_ext.
  intros i c Hi. by rewrite (Hn c (list_elem_of_lookup_2 _ _ _ Hi)).
Qed.

Section run.
Context `{UuidParser}.

Lemma restart_state_kept st : (restart_state st).1 = false -> (restart_state st).2 = st.
Proof.
  unfold restart_state.
  change (fun session => match restarted st session with Some (_, session') => session' | None => session end)
    with (after_restart st).
  set (st1 := st <| sessions := _ |>).
  pose proof (remove_exact_kept (marked st RM_Obsolete) st1) as H1.
  destruct (remove_exact_session_descriptors (marked st RM_Obsolete) st1) as [c1 st2].
  pose proof (remove_exact_kept (marked st RM_Retired) st2) as H2.
  destruct (remove_exact_session_descriptors (marked st RM_Retired) st2) as [c2 st3].
  match goal with |- context [clear_executor_session_references ?ids st3] =>
    pose proof (clear_pointers_kept ids st3) as H3;
    destruct (clear_executor_session_references ids st3) as [c3 st4] end.
  pose proof (remove_exact_kept (s_id <$> retain (is_obsolete_assistant st4) (sessions st4)) st4) as H4.
  unfold remove_obsolete_assistant_sessions.
  destruct (remove_exact_session_descriptors _ st4) as [c4 st5]. cbn [fst snd] in *.
  rewrite !orb_false_iff. intros [[[[Hc ?] ?] ?] ?].
  rewrite H4, H3, H2, H1 by done. unfold st1. rewrite after_restart_unchanged by done. by destruct st.
Qed.

(** The reconciliation is a transaction too. *)
Lemma reconcile_restart_transaction s : transaction s (reconcile_restart s).
Proof.
  assert (revision (restart_state (state s)).2 = revision (state s)) as Hrev.
  { rewrite restart_state_last. unfold remove_obsolete_assistant_sessions, remove_exact_session_descriptors.
    repeat (destruct (_ == []) || destruct (_ =? _)%nat); reflexivity. }
  pose proof (restart_state_kept (state s)) as Hkept.
  unfold reconcile_restart. run_step. destruct (restart_state (state s)) as [[] st'].
  - by apply install_transaction_direct.
  - simpl in Hkept. rewrite Hkept by done. unfold put_state, modify. rewrite store_eta. apply tx_answered.
Qed.

(** With a file system that works, the reconciliation succeeds. *)
Lemma reconcile_restart_runs s :
  io_healthy s ->
  exists s', reconcile_restart s = (Ok tt, s') /\
    (state s' = (restart_state (state s)).2 \/ state s' = committed (restart_state (state s)).2).
Proof.
  intros Hio. unfold reconcile_restart, bind, get_state, gets.
  destruct (restart_state (state s)) as [[] st'] eqn:E; simpl.
  - destruct (install_healthy (state s) st' tt s Hio) as (s' & Hrun & Hst & _). eauto.
  - eexists. split; [reflexivity|]. by left.
Qed.
End run.
