(* ===== verification/SessionValidity.v ===== *)
(** * The invariant of Sessions as an executable check

    [sessions_fit] is what the loader checks of Sessions, deleted Sessions,
    conversation records, plans, accounts and Stewards, together with the three
    facts it leaves to the writers: ids are unique over live and deleted
    Sessions, a deleted Session would be acceptable as a live one, and no id is
    empty.  It is equivalent to [sessions_ok]. *)

From S2P Require Import Prelude Text Domain DomainRules StoreState Transactions AgentPlans.
From S2P Require Import SessionRecords SessionInvariant.

Local Open Scope string_scope.
Local Open Scope list_scope.

(** The clauses of [validate_current_state] about these records. *)
Definition session_records_are_invalid (st : CurrentState) : bool :=
  negb (valid_agent_accounts (agent_accounts st)) || steward_configurations_are_invalid st
  || sessions_are_invalid st || deleted_sessions_are_invalid st
  || agent_conversation_readiness_is_invalid st || agent_plans_are_invalid st.

(** Every deleted Session is live again. *)
Definition undeleted (st : CurrentState) : CurrentState := st <| sessions := known st |> <| deleted_sessions := [] |>.

Definition sessions_fit (st : CurrentState) : bool :=
  negb (session_records_are_invalid st) && negb (sessions_are_invalid (undeleted st))
  && negb (any_with_rest (fun x rest => any (fun y => s_id y == s_id x) rest) (known st))
  && all (fun x => negb (str_is_empty (s_id x))) (deleted st).

(** ** Pairwise checks *)

(** Pairs of elements that carry the same optional key. *)
Lemma any_with_rest_keys {A B} `{EqDecision B} (key : A -> option B) l :
  any_with_rest (fun x rest =>
    is_some_and (key x) (fun k => any (fun y => key y == Some k) rest)) l = false <->
  NoDup (omap key l).
Proof.
  induction l as [|x l IH]; simpl; [split; [intros; constructor|done]|].
  rewrite orb_false_iff, IH. destruct (key x) as [k|]; simpl; [|naive_solver].
  rewrite list.NoDup_cons, any_false, list_elem_of_omap.
  split; intros [H1 H2]; (split; [|done]).
  - intros (y & Hy & E). specialize (H1 y Hy). by apply bool_decide_eq_false in H1.
  - intros y Hy. apply bool_decide_eq_false. eauto.
Qed.

(** ** Sessions *)

Definition source_fits (st : CurrentState) (x : SessionRecord) : Prop :=
  forall id, s_ask_to_source_session_id x = Some id ->
  (id <> "" /\ is_agent x = true /\ id <> s_id x /\
   pd_template_ref (s_process x) = Some "builtin.agent.ask-to-helper") /\
  (forall y, find_session st id = Some y -> is_agent y = true /\ s_project_id y = s_project_id x).

Lemma source_valid st x : invalid_ask_to_source st x = false <-> source_fits st x.
Proof.
  unfold invalid_ask_to_source, source_fits. destruct (s_ask_to_source_session_id x) as [id|]; simpl.
  2: { split; [intros _ ? E; discriminate E|done]. }
  rewrite !orb_false_iff, !negb_false_iff, !bool_decide_eq_true, bool_decide_eq_false.
  assert (str_is_empty id = false <-> id <> "") as -> by by destruct id.
  assert (is_some_and (find_session st id) (fun source =>
            (s_kind source != SessionKind_Agent) || (s_project_id source != s_project_id x)) = false
          <-> forall y, find_session st id = Some y ->
                is_agent y = true /\ s_project_id y = s_project_id x) as ->.
  { unfold is_agent. destruct (find_session st id) as [y|]; simpl.
    2: { split; [intros _ ? E; discriminate E|done]. }
    rewrite orb_false_iff, !negb_false_iff, !bool_decide_eq_true.
    split; [|intros Hy; by destruct (Hy y eq_refl) as [?%bool_decide_eq_true ?]].
    intros [? ?] ? [= <-]. by rewrite bool_decide_eq_true. }
  unfold is_agent. split.
  - intros [[[[? ?] ?] ?] ?] ? [= <-]. rewrite bool_decide_eq_true. done.
  - intros H. destruct (H id eq_refl) as [(? & Ha & ? & ?) ?]. by apply bool_decide_eq_true in Ha.
Qed.

Definition continuation_fits (st : CurrentState) (x : SessionRecord) : Prop :=
  forall c, s_ask_to_continuation x = Some c ->
  continuation_is_well_formed c = true /\
  exists y, y ∈ sessions st /\ s_ask_to_source_session_id x = Some (s_id y) /\
    is_agent y = true /\ s_project_id y = s_project_id x.

Definition alone_continuation (st : CurrentState) (x : SessionRecord) : bool :=
  is_some_and (s_ask_to_continuation x) (fun c =>
    negb (continuation_is_well_formed c) || is_none (s_ask_to_source_session_id x)
    || negb (any (fun source =>
         (s_ask_to_source_session_id x == Some (s_id source))
         && (s_kind source == SessionKind_Agent)
         && (s_project_id source == s_project_id x)) (sessions st))).

Lemma alone_valid st x : alone_continuation st x = false <-> continuation_fits st x.
Proof.
  unfold alone_continuation, continuation_fits.
  destruct (s_ask_to_continuation x) as [c|]; simpl; [|split; [intros _ ? E; discriminate E|done]].
  rewrite !orb_false_iff, !negb_false_iff, any_true. split.
  - intros [[Hw _] (y & Hy & E)] ? [= <-]. rewrite !andb_true_iff, !bool_decide_eq_true in E.
    split; [done|]. exists y. unfold is_agent. rewrite bool_decide_eq_true. naive_solver.
  - intros H. destruct (H c eq_refl) as (Hw & y & Hy & Hs & Ha & Hp). split; [split; [done|by rewrite Hs]|].
    exists y. unfold is_agent in Ha. rewrite !andb_true_iff, Hs, Hp, Ha. split_and!; try done;
      by apply bool_decide_eq_true.
Qed.

Definition conversation_key (x : SessionRecord) : option string :=
  atc_conversation_id <$> s_ask_to_continuation x.

Lemma continuation_split st x rest :
  invalid_ask_to_continuation st x rest =
  alone_continuation st x
  || (is_some_and (conversation_key x) (fun k => any (fun y => conversation_key y == Some k) rest)
      || is_some_and (requesting x) (fun k => any (fun y => requesting y == Some k) rest)).
Proof.
  unfold invalid_ask_to_continuation, alone_continuation, requesting, has_current_request, conversation_key.
  destruct (s_ask_to_continuation x) as [c|]; simpl; [|done]. rewrite <- !orb_assoc. do 3 f_equal. f_equal.
  - apply any_ext. intros y. unfold same_conversation. destruct (s_ask_to_continuation y) as [d|]; simpl.
    + apply bool_decide_ext. split; congruence.
    + done.
  - destruct (atc_current_request_id c); simpl; [|done]. apply any_ext. intros y.
    destruct (s_ask_to_continuation y) as [d|]; simpl; [|by rewrite andb_false_r].
    destruct (atc_current_request_id d); simpl.
    + rewrite andb_true_r. apply bool_decide_ext. split; congruence.
    + by rewrite andb_false_r.
Qed.

Lemma sessions_valid st :
  sessions_are_invalid st = false <->
  (forall x, x ∈ sessions st ->
     invalid_kind x = false /\ source_fits st x /\ continuation_fits st x /\
     invalid_fork_source x = false /\ invalid_run_configuration st x = false /\
     invalid_improver_target x = false) /\
  NoDup (conversations (sessions st)) /\ NoDup (requests_in_flight (sessions st)).
Proof.
  unfold sessions_are_invalid.
  rewrite (any_with_rest_ext _ (fun x rest =>
    (invalid_kind x || invalid_ask_to_source st x || alone_continuation st x
     || invalid_fork_source x || invalid_run_configuration st x || invalid_improver_target x)
    || (is_some_and (conversation_key x) (fun k => any (fun y => conversation_key y == Some k) rest)
        || is_some_and (requesting x) (fun k => any (fun y => requesting y == Some k) rest)))).
  2: { intros x rest. rewrite continuation_split.
       destruct (invalid_kind x), (invalid_ask_to_source st x), (alone_continuation st x),
         (invalid_fork_source x), (invalid_run_configuration st x), (invalid_improver_target x),
         (is_some_and (conversation_key x) _), (is_some_and (requesting x) _); reflexivity. }
  rewrite any_with_rest_or_false.
  assert (forall l, any_with_rest (fun x rest =>
    is_some_and (conversation_key x) (fun k => any (fun y => conversation_key y == Some k) rest)
    || is_some_and (requesting x) (fun k => any (fun y => requesting y == Some k) rest)) l = false <->
    NoDup (conversations l) /\ NoDup (requests_in_flight l)) as Hpairs.
  { intros l. unfold conversations, requests_in_flight. fold conversation_key.
    rewrite <- (any_with_rest_keys conversation_key), <- (any_with_rest_keys requesting).
    induction l as [|x l IH]; simpl; [done|]. rewrite !orb_false_iff, IH. tauto. }
  rewrite Hpairs. setoid_rewrite orb_false_iff. setoid_rewrite orb_false_iff.
  setoid_rewrite orb_false_iff. setoid_rewrite orb_false_iff. setoid_rewrite orb_false_iff.
  setoid_rewrite source_valid. setoid_rewrite alone_valid.
  split; intros [H1 H2]; (split; [|done]); intros x Hx; specialize (H1 x Hx); tauto.
Qed.

(** ** The other records *)

Lemma deleted_valid st :
  deleted_sessions_are_invalid st = false <->
  (forall d, d ∈ deleted_sessions st ->
     closed_ok d /\ invalid_kind (ds_session d) = false /\ s_id (ds_session d) ∉ s_id <$> sessions st) /\
  NoDup (s_id <$> deleted st).
Proof.
  unfold deleted_sessions_are_invalid, deleted_session_is_invalid.
  rewrite any_with_rest_or_false, (any_with_rest_NoDup (fun d => s_id (ds_session d))).
  unfold deleted. rewrite <- list_fmap_compose.
  assert (forall d : DeletedSessionRecord,
    (ds_deleted_at_epoch_ms d == 0%N) || (s_kind (ds_session d) != SessionKind_Agent)
    || is_none (pd_agent_id (s_process (ds_session d)))
    || negb (launch_selection_is_well_formed (s_launch_selection (ds_session d)))
    || is_some (s_archived_at_epoch_ms (ds_session d))
    || negb (is_closed_state (s_lifecycle_state (ds_session d)))
    || is_uncertain (s_resume_failure (ds_session d))
    || is_some (s_ask_to_continuation (ds_session d))
    || any (fun active => s_id active == s_id (ds_session d)) (sessions st) = false <->
    closed_ok d /\ invalid_kind (ds_session d) = false /\
      s_id (ds_session d) ∉ s_id <$> sessions st) as Hone.
  { intros d. rewrite !orb_false_iff, !negb_false_iff, any_false, bool_decide_eq_false, bool_decide_eq_true.
    unfold invalid_kind. split.
    - intros [[[[[[[[Ht Hk] Ha] Hl] Har] Hc] Hu] Hn] Hi]. rewrite Hk, Ha, Hl. split_and!; [|done|].
      + split; try done; [unfold is_agent; by rewrite Hk, bool_decide_eq_true|..].
        * by destruct (s_archived_at_epoch_ms _).
        * by destruct (s_ask_to_continuation _).
      + intros (y & E & Hy)%list_elem_of_fmap. specialize (Hi y Hy). by apply bool_decide_eq_false in Hi.
    - intros ([Ht Hk Har Hc Hu Hn] & Hkind & Hi). unfold is_agent in Hk. apply bool_decide_eq_true in Hk.
      rewrite Hk in Hkind. rewrite orb_false_iff, negb_false_iff in Hkind. destruct Hkind as [Ha Hl].
      rewrite Har, Hn. split_and!; try done. intros y Hy. apply bool_decide_eq_false. intros E. apply Hi.
      rewrite <- E. by apply list_elem_of_fmap_2. }
  setoid_rewrite Hone. done.
Qed.

Lemma ready_valid st :
  NoDup (s_id <$> sessions st) ->
  agent_conversation_readiness_is_invalid st = false <->
  ready_ids st ≡ₚ agent_ids (sessions st) /\ forall x, x ∈ sessions st -> is_agent x = true -> s_id x <> "".
Proof.
  intros Hn. unfold agent_conversation_readiness_is_invalid.
  rewrite orb_false_iff, negb_false_iff, Nat.eqb_eq, any_with_rest_or_false, any_with_rest_NoDup.
  fold (ready_ids st). setoid_rewrite orb_false_iff. setoid_rewrite negb_false_iff.
  setoid_rewrite any_true. pose proof (agent_ids_NoDup _ Hn) as Ha.
  assert (forall id, id ∈ agent_ids (sessions st) <->
    exists x, x ∈ sessions st /\ (s_id x == id) && is_agent x = true) as Hid.
  { intros id. rewrite elem_of_agent_ids. setoid_rewrite andb_true_iff. setoid_rewrite bool_decide_eq_true.
    naive_solver. }
  assert (length (retain is_agent (sessions st)) = length (agent_ids (sessions st))) as ->.
  { unfold agent_ids. by rewrite length_fmap. }
  assert (length (agent_conversation_readiness st) = length (ready_ids st)) as ->.
  { unfold ready_ids. by rewrite length_fmap. }
  split.
  - intros (Hlen & Hrec & Hnd).
    assert (ready_ids st ≡ₚ agent_ids (sessions st)) as Hp.
    { apply submseteq_length_Permutation; [|lia]. apply NoDup_submseteq; [done|].
      intros id (r & -> & Hr)%list_elem_of_fmap. apply Hid. by apply Hrec. }
    split; [done|]. intros x Hx Hag. assert (s_id x ∈ ready_ids st) as (r & E & Hr)%list_elem_of_fmap.
    { rewrite Hp, elem_of_agent_ids. eauto. }
    destruct (Hrec r Hr) as [He _]. rewrite E. by destruct (rd_session_id r).
  - intros (Hp & Hne). split_and!; [by rewrite Hp| |by rewrite Hp].
    intros r Hr. assert (rd_session_id r ∈ agent_ids (sessions st)) as Hin.
    { rewrite <- Hp. by apply list_elem_of_fmap_2. }
    split; [|by apply Hid]. apply elem_of_agent_ids in Hin as (x & Hx & Hag & E).
    specialize (Hne x Hx Hag). rewrite E in Hne. by destruct (rd_session_id r).
Qed.

Lemma stewards_valid st :
  steward_configurations_are_invalid st = false <->
  (forall c, c ∈ steward_configurations st ->
     steward_configuration_is_valid c = true /\
     exists project, project ∈ projects st /\ p_id project = stw_project_id c) /\
  NoDup (stw_project_id <$> steward_configurations st) /\
  (forall c, c ∈ steward_configurations st -> pointer_ok st c).
Proof.
  unfold steward_configurations_are_invalid. rewrite any_with_rest_around, any_with_rest_NoDup.
  assert (forall c, negb (steward_configuration_is_valid c)
    || negb (any (fun project => p_id project == stw_project_id c) (projects st)) = false <->
    steward_configuration_is_valid c = true /\
    exists project, project ∈ projects st /\ p_id project = stw_project_id c) as H1.
  { intros c. rewrite orb_false_iff, !negb_false_iff, any_true. by setoid_rewrite bool_decide_eq_true. }
  assert (forall c, is_some_and (stw_executor_session_id c) (fun session_id =>
    negb (any (fun session => (s_id session == session_id)
                && (s_project_id session == stw_project_id c)) (sessions st))) = false <->
    pointer_ok st c) as H2.
  { intros c. unfold pointer_ok. destruct (stw_executor_session_id c) as [id|]; simpl.
    2: { split; [intros _ ? E; discriminate E|done]. }
    rewrite negb_false_iff, any_true. setoid_rewrite andb_true_iff. setoid_rewrite bool_decide_eq_true.
    split; [by intros Hx ? [= <-]|auto]. }
  setoid_rewrite H1. setoid_rewrite H2. split.
  - intros [Hc Hn]. split_and!; [|done|]; intros c Hin; by apply Hc.
  - intros (Hv & Hn & Hp). auto.
Qed.

(** ** Both readings agree *)

Lemma undeleted_static st x :
  x ∈ known st -> NoDup (s_id <$> known st) -> sessions_are_invalid (undeleted st) = false ->
  (is_agent x = true -> s_id x <> "") -> static_ok st x.
Proof.
  intros Hx Hn Hu Hid. apply sessions_valid in Hu as [Hu _].
  destruct (Hu x Hx) as (Hk & Hs & _ & Hf & Hr & Hi). split; try done.
  intros id E. by destruct (Hs id E) as [? _].
Qed.

Lemma fit_live st :
  NoDup (s_id <$> known st) -> sessions_are_invalid st = false ->
  sessions_are_invalid (undeleted st) = false ->
  (forall x, x ∈ known st -> is_agent x = true -> s_id x <> "") -> live_ok st.
Proof.
  intros Hn Hs Hu Hid. pose proof (proj1 (sessions_valid _) Hu) as [Hk _].
  apply sessions_valid in Hs as (Hs & Hcv & Hrq). split; [done| | | |done|done].
  - intros x Hx. apply undeleted_static; auto.
  - intros h x Hh Hx E. destruct (Hk h Hh) as (_ & Hsrc & _). destruct (Hsrc _ E) as [_ Hf].
    apply Hf. by apply find_first_unique.
  - intros x c Hx Hc. destruct (Hs x Hx) as (_ & _ & Hcont & _).
    destruct (Hcont c Hc) as (Hw & y & Hy & E & _). eauto.
Qed.

Lemma live_fit st :
  live_ok st -> sessions_are_invalid st = false.
Proof.
  intros Hl. pose proof (live_ids _ Hl) as Hn. destruct Hl as [Kid Kst Kso Kco Kcv Krq].
  assert (forall x, x ∈ sessions st -> x ∈ known st) as Hin.
  { intros x Hx. apply elem_of_app. by left. }
  apply sessions_valid. split; [|done]. intros x Hx. destruct (Kst x (Hin x Hx)) as [Hk Hs Hf Hr Hi Hne].
  split_and!; try done.
  - intros id E. split; [by apply Hs|]. intros y [Hy Hid]%find_first_unique; [|done].
    apply (Kso x y); auto. by rewrite Hid.
  - intros c Hc. destruct (Kco x c Hx Hc) as (Hw & y & Hy & E). split; [done|].
    exists y. destruct (Kso x y) as [? ?]; auto.
Qed.

Lemma undeleted_fit st :
  live_ok st -> (forall d, d ∈ deleted_sessions st -> closed_ok d) ->
  sessions_are_invalid (undeleted st) = false.
Proof.
  intros Hl Hd. apply live_fit. destruct Hl as [Kid Kst Kso Kco Kcv Krq].
  assert (forall x, x ∈ deleted st -> s_ask_to_continuation x = None) as Hnone.
  { intros x (d & -> & Hin)%list_elem_of_fmap. by apply Hd. }
  assert (forall A (key : SessionRecord -> option A),
    (forall x, x ∈ deleted st -> key x = None) -> omap key (known st) = omap key (sessions st)) as Homap.
  { intros A key Hk. unfold known. rewrite omap_app.
    replace (omap key (deleted st)) with (@nil A); [by rewrite app_nil_r|].
    clear -Hk. induction (deleted st) as [|x l IH]; simpl; [done|].
    rewrite (Hk x) by left. apply IH. intros y Hy. apply Hk. by right. }
  assert (known (undeleted st) = known st) as Hkk.
  { unfold known at 1, deleted. simpl. by rewrite app_nil_r. }
  split; try rewrite Hkk; try done.
  - intros x Hx. destruct (Kst x Hx). by split.
  - simpl. intros x c Hx Hc. apply elem_of_app in Hx as [Hx|Hx]; [|by rewrite Hnone in Hc].
    destruct (Kco x c Hx Hc) as (Hw & y & Hy & E). split; [done|]. exists y.
    split; [apply elem_of_app; by left|done].
  - simpl. unfold conversations. rewrite Homap; [done|]. by intros x ->%Hnone.
  - simpl. unfold requests_in_flight. rewrite Homap; [done|].
    intros x Hx. unfold requesting, has_current_request. by rewrite (Hnone x Hx).
Qed.

Lemma known_nonempty st :
  sessions_ok st -> forall x, x ∈ deleted st -> s_id x <> "".
Proof.
  intros Hst x Hx. pose proof Hx as (d & -> & Hd)%list_elem_of_fmap.
  apply (sc_id st); [|by apply (so_deleted _ Hst)].
  apply (lv_static _ (so_live _ Hst)), elem_of_app. by right.
Qed.

(** The executable check is the invariant. *)
Lemma sessions_fit_ok st : sessions_fit st = true <-> sessions_ok st.
Proof.
  unfold sessions_fit, session_records_are_invalid.
  rewrite !andb_true_iff, !negb_true_iff, !orb_false_iff, negb_false_iff, any_with_rest_NoDup, all_true,
    stewards_valid, plans_valid, deleted_valid. split.
  - intros [[[[[[[[Ha (Hv & Hsn & Hp)] Hs] (Hd & _)] Hr] Hpl] Hu] Hn] He].
    assert (NoDup (s_id <$> sessions st)) as Hns.
    { unfold known in Hn. rewrite fmap_app in Hn. by apply list.NoDup_app in Hn as [? _]. }
    apply ready_valid in Hr as [Hr Hne]; [|done].
    split; try done; [|by intros d Hin; apply Hd].
    apply fit_live; try done. intros x [Hx|Hx]%elem_of_app; [by apply Hne|]. intros _.
    specialize (He x Hx). apply negb_true_iff in He. by destruct (s_id x).
  - intros Hst. pose proof (known_nonempty st Hst) as Hne. destruct Hst as [Hl Hd Hr Hp Hpt Hsn Hv Ha].
    pose proof (live_ids _ Hl) as Hns. pose proof (lv_ids _ Hl) as Hn. unfold known in Hn.
    rewrite fmap_app in Hn. apply list.NoDup_app in Hn as (_ & Hdis & Hdn).
    split_and!; try done.
    + by apply live_fit.
    + intros d Hin. assert (ds_session d ∈ deleted st) as Hin' by by apply list_elem_of_fmap_2.
      split_and!; [by apply Hd| |].
      * apply (sc_kind st). apply (lv_static _ Hl), elem_of_app. by right.
      * intros Hx. apply (Hdis _ Hx). by apply list_elem_of_fmap_2.
    + apply ready_valid; [done|]. split; [done|]. intros x Hx. apply (sc_id st).
      apply (lv_static _ Hl), elem_of_app. by left.
    + by apply undeleted_fit.
    + apply Hl.
    + intros x Hx. apply negb_true_iff. specialize (Hne x Hx). by destruct (s_id x).
Qed.
