(* ===== verification/SessionClaims.v ===== *)
(** * Sessions over whole histories

    The Session methods as one type of calls, what a call is allowed to assume
    of its caller ([admissible]), and the theorems about every history. *)

From S2P Require Import Prelude Text Domain DomainRules StoreState SessionJournals Transactions.
From S2P Require Import JournalInvariant Samples AgentPlans SessionRecords SessionInvariant.
From S2P Require Import SessionPreservation SessionLifecycle SessionRestart SessionValidity.

Local Open Scope string_scope.
Local Open Scope list_scope.

Inductive SessionCall : Type :=
| Call_insert_session (session : SessionRecord)
| Call_insert_session_and_remember_agent_launch (session : SessionRecord)
| Call_rollback_assistant_launch (session_id : string)
| Call_mark_agent_conversation_resumable (session_id : string)
| Call_mark_session_exited (session_id : string)
| Call_establish_session_resume_ref (session_id : string) (resume_ref : ResumeRef)
| Call_replace_running_session_resume_ref (session_id : string) (expected replacement : ResumeRef)
| Call_update_running_agent_session_launch_selection (session_id : string) (runtime_epoch : N)
    (expected : ResumeRef) (selection : AgentLaunchSelection)
| Call_switch_agent_session_account (session_id : string) (runtime_epoch : N) (account_id : string)
| Call_mark_session_resuming (session_id : string)
| Call_complete_session_resume (session_id : string) (expected : ResumeRef) (runtime_epoch : N)
| Call_clear_mismatched_resume_launch_guard (session_id : string)
| Call_mark_session_resume_failed (session_id : string) (failure : ResumeFailureReason)
| Call_mark_sessions_resume_failed (failures : list (string * ResumeFailureReason))
| Call_mark_startup_resume_overflow (admitted_session_ids : list string)
| Call_delete_session_descriptor (session_id : string)
| Call_restore_archived_session_descriptor (session_id : string) (cwd : option string)
| Call_delete_archived_session_descriptor (session_id : string)
| Call_rename_session (session_id : string) (name : option string)
| Call_set_ask_to_current_request (helper conversation : string) (request_id : option string)
| Call_reconcile_restart
| Call_move_agent_session_to_deleted (session_id : string) (now : N)
| Call_restore_deleted_session_descriptor (session_id : string) (cwd : option string)
| Call_purge_expired_deleted_sessions (now : N)
| Call_restore_terminal_session (expected : SessionRecord) (process : ProcessDescriptor) (epoch : N)
| Call_observe_terminal_directory (session_id : string) (epoch : N) (expected observed : string).

Section calls.
Context `{UuidParser}.

Definition exec_session_call (call : SessionCall) : StoreM unit :=
  match call with
  | Call_insert_session session => erase (insert_session session)
  | Call_insert_session_and_remember_agent_launch session =>
      erase (insert_session_and_remember_agent_launch session)
  | Call_rollback_assistant_launch id => erase (rollback_assistant_launch id)
  | Call_mark_agent_conversation_resumable id => erase (mark_agent_conversation_resumable id)
  | Call_mark_session_exited id => erase (mark_session_exited id)
  | Call_establish_session_resume_ref id ref => erase (establish_session_resume_ref id ref)
  | Call_replace_running_session_resume_ref id expected replacement =>
      erase (replace_running_session_resume_ref id expected replacement)
  | Call_update_running_agent_session_launch_selection id epoch expected selection =>
      erase (update_running_agent_session_launch_selection id epoch expected selection)
  | Call_switch_agent_session_account id epoch account =>
      erase (switch_agent_session_account id epoch account)
  | Call_mark_session_resuming id => erase (mark_session_resuming id)
  | Call_complete_session_resume id expected epoch =>
      erase (complete_session_resume id expected epoch)
  | Call_clear_mismatched_resume_launch_guard id => erase (clear_mismatched_resume_launch_guard id)
  | Call_mark_session_resume_failed id failure => erase (mark_session_resume_failed id failure)
  | Call_mark_sessions_resume_failed failures => erase (mark_sessions_resume_failed failures)
  | Call_mark_startup_resume_overflow ids => erase (mark_startup_resume_overflow ids)
  | Call_delete_session_descriptor id => erase (delete_session_descriptor id)
  | Call_restore_archived_session_descriptor id cwd =>
      erase (restore_archived_session_descriptor id cwd)
  | Call_delete_archived_session_descriptor id => erase (delete_archived_session_descriptor id)
  | Call_rename_session id name => erase (rename_session id name)
  | Call_set_ask_to_current_request helper conversation request_id =>
      erase (set_ask_to_current_request helper conversation request_id)
  | Call_reconcile_restart => reconcile_restart
  | Call_move_agent_session_to_deleted id now => erase (move_agent_session_to_deleted id now)
  | Call_restore_deleted_session_descriptor id cwd =>
      erase (restore_deleted_session_descriptor id cwd)
  | Call_purge_expired_deleted_sessions now => erase (purge_expired_deleted_sessions now)
  | Call_restore_terminal_session expected process epoch =>
      erase (restore_terminal_session expected process epoch)
  | Call_observe_terminal_directory id epoch expected observed =>
      erase (observe_terminal_directory id epoch expected observed)
  end.

(** What the methods leave to their callers: an inserted Session fits the
    others, an assistant whose launch is rolled back has no helpers, and a
    source has one request in flight at most. *)
Definition admissible (call : SessionCall) (st : CurrentState) : bool :=
  match call with
  | Call_insert_session session | Call_insert_session_and_remember_agent_launch session =>
      fits st session
  | Call_rollback_assistant_launch id => has_no_helpers st id
  | Call_set_ask_to_current_request helper _ request_id => may_request st helper request_id
  | _ => true
  end.

Fixpoint exec_session_calls (calls : list SessionCall) (s : Store) : Store :=
  match calls with
  | [] => s
  | call :: rest => exec_session_calls rest (exec_session_call call s).2
  end.

Fixpoint admissible_history (calls : list SessionCall) (s : Store) : bool :=
  match calls with
  | [] => true
  | call :: rest => admissible call (state s) && admissible_history rest (exec_session_call call s).2
  end.

(** ** Transactions *)

Lemma fail_all_kept failures acc :
  (fold_left (fun acc entry => fail_one entry acc) failures acc).1 = false ->
  acc.1 = false /\ fold_left (fun acc entry => fail_one entry acc) failures acc = acc.
Proof.
  revert acc. induction failures as [|entry failures IH]; intros [changed st]; simpl; [done|].
  intros Hf. destruct (IH _ Hf) as [Hc Hfold]. rewrite Hfold. revert Hc. unfold fail_one.
  destruct (session_position st entry.1) as [[i x]|]; [|done].
  destruct (negb _); [done|]. by destruct (has_resume_failed _ _).
Qed.

Lemma fail_all_revision failures acc :
  revision (fold_left (fun acc entry => fail_one entry acc) failures acc).2 = revision acc.2.
Proof.
  revert acc. induction failures as [|entry failures IH]; intros [changed st]; simpl; [done|].
  rewrite IH. unfold fail_one. destruct (session_position st entry.1) as [[i x]|]; [|done].
  destruct (negb _); [done|]. by destruct (has_resume_failed _ _).
Qed.

Lemma drop_relocations_kept ids st :
  length (session_relocation_operations st)
    = length (session_relocation_operations (drop_relocations ids st)) ->
  drop_relocations ids st = st.
Proof.
  intros Hl. symmetry in Hl. apply retain_same_length in Hl. unfold drop_relocations.
  rewrite Hl. by destruct st.
Qed.

Lemma answered_same {A} (a : A) s st : st = state s -> transaction s ((put_state st ;; ret a) s).
Proof.
  intros ->. unfold bind, put_state, modify, ret. rewrite store_eta. apply tx_answered.
Qed.

Lemma mark_sessions_resume_failed_transaction failures s :
  transaction s (mark_sessions_resume_failed failures s).
Proof.
  unfold mark_sessions_resume_failed. run_step.
  pose proof (fail_all_kept failures (false, state s)) as Hkept.
  pose proof (fail_all_revision failures (false, state s)) as Hrev.
  destruct (fold_left _ _ _) as [changed st']. simpl in Hrev.
  destruct (changed || _) eqn:E; [by apply install_revision_transaction_direct|].
  apply orb_false_iff in E as [-> E]. apply negb_false_iff, Nat.eqb_eq in E.
  destruct (Hkept eq_refl) as [_ [= ->]]. rewrite (drop_relocations_kept _ _ E). by apply answered_same.
Qed.

Lemma mark_startup_resume_overflow_transaction ids s :
  transaction s (mark_startup_resume_overflow ids s).
Proof.
  unfold mark_startup_resume_overflow. run_step.
  destruct (_ || _) eqn:E; [by apply install_revision_transaction_direct|].
  apply orb_false_iff in E as [Ho E]. apply negb_false_iff, Nat.eqb_eq in E.
  rewrite (drop_relocations_kept _ _ E). apply negb_false_iff, bool_decide_eq_true in Ho.
  assert ((fun x => if overflows ids x then resume_failed_session RFR_ResumeQueueFull x else x)
            <$> sessions (state s) = sessions (state s)) as ->.
  { rewrite <- (list_fmap_id (sessions (state s))) at 2. apply list_fmap_ext. intros i x Hi.
    destruct (overflows ids x) eqn:Hx; [|done]. exfalso.
    assert (x ∈ retain (overflows ids) (sessions (state s))) as Hin.
    { apply elem_of_retain. eauto using list_elem_of_lookup_2. }
    rewrite Ho in Hin. by apply not_elem_of_nil in Hin. }
  apply answered_same. by destruct (state s).
Qed.

Lemma purge_transaction now s : transaction s (purge_expired_deleted_sessions now s).
Proof.
  unfold purge_expired_deleted_sessions. run_step. destruct (_ <? _)%nat eqn:E.
  { by apply install_transaction_direct. }
  apply Nat.ltb_ge in E. apply answered_same. simpl in E.
  assert (retain (fun d => now <? purge_at_epoch_ms d)%N (deleted_sessions (state s))
          = deleted_sessions (state s)) as ->; [|by destruct (state s)].
  apply retain_same_length. pose proof (sublist_length _ _ (retain_sublist
    (fun d => now <? purge_at_epoch_ms d)%N (deleted_sessions (state s)))). lia.
Qed.

Lemma remove_exact_revision ids st :
  revision (remove_exact_session_descriptors ids st).2 = revision st.
Proof.
  unfold remove_exact_session_descriptors. destruct (ids == []); [done|]. by destruct (_ =? _)%nat.
Qed.

Lemma mark_session_exited_transaction id s : transaction s (mark_session_exited id s).
Proof.
  unfold mark_session_exited. tx. apply install_revision_transaction_direct.
  unfold remove_obsolete_assistant_sessions. by rewrite remove_exact_revision.
Qed.

(** Every Session method is a transaction. *)
Lemma session_call_transaction call s : transaction s (exec_session_call call s).
Proof.
  destruct call; cbn [exec_session_call]; try apply reconcile_restart_transaction;
    apply transaction_erase;
    try first [apply mark_session_exited_transaction | apply mark_sessions_resume_failed_transaction
              |apply mark_startup_resume_overflow_transaction | apply purge_transaction];
    unfold insert_session, insert_session_and_remember_agent_launch, admit_standalone,
      rollback_assistant_launch, mark_agent_conversation_resumable, establish_session_resume_ref,
      replace_running_session_resume_ref, update_running_agent_session_launch_selection,
      switch_agent_session_account, mark_session_resuming, complete_session_resume,
      clear_mismatched_resume_launch_guard, mark_session_resume_failed, delete_session_descriptor,
      restore_archived_session_descriptor, delete_archived_session_descriptor, rename_session,
      set_ask_to_current_request, move_agent_session_to_deleted, restore_deleted_session_descriptor,
      restore_terminal_session, observe_terminal_directory; tx.
Qed.

(** ** The invariant *)

Lemma erase_ok {A} (m : StoreM A) s : ok_after (m s) -> ok_after (erase m s).
Proof.
  unfold ok_after, post, erase, bind, ret. destruct (m s) as [[a|e] s']; done.
Qed.

Lemma session_call_ok call s :
  sessions_ok (state s) -> admissible call (state s) = true -> ok_after (exec_session_call call s).
Proof.
  intros Hst Ha. destruct call; cbn [exec_session_call admissible] in *;
    try (apply erase_ok; unfold insert_session, insert_session_and_remember_agent_launch;
      solve [auto using admit_standalone_ok, rollback_assistant_launch_ok, mark_agent_conversation_resumable_ok,
        mark_session_exited_ok, establish_session_resume_ref_ok, replace_running_session_resume_ref_ok,
        update_running_agent_session_launch_selection_ok, switch_agent_session_account_ok,
        mark_session_resuming_ok, complete_session_resume_ok, clear_mismatched_resume_launch_guard_ok,
        mark_session_resume_failed_ok, mark_sessions_resume_failed_ok, mark_startup_resume_overflow_ok,
        delete_session_descriptor_ok, restore_archived_session_descriptor_ok,
        delete_archived_session_descriptor_ok, rename_session_ok, set_ask_to_current_request_ok,
        move_agent_session_to_deleted_ok, restore_deleted_session_descriptor_ok,
        purge_expired_deleted_sessions_ok, restore_terminal_session_ok, observe_terminal_directory_ok]).
  pose proof (restart_state_ok (state s) Hst) as Hok. unfold reconcile_restart. run_step.
  destruct (restart_state (state s)) as [[] st']; simpl in Hok; [by apply ok_install|done].
Qed.

Lemma session_call_keeps call s :
  sessions_ok (state s) -> admissible call (state s) = true ->
  sessions_ok (state (exec_session_call call s).2).
Proof.
  intros Hst Ha. pose proof (session_call_ok call s Hst Ha) as Hok. unfold ok_after, post in Hok.
  pose proof (session_call_transaction call s) as Ht. inversion Ht as [e E|a E|m r _ E|a n z r _ E];
    rewrite <- E in *; simpl in *; done.
Qed.

Lemma session_calls_keep calls s :
  sessions_ok (state s) -> admissible_history calls s = true ->
  sessions_ok (state (exec_session_calls calls s)).
Proof.
  revert s. induction calls as [|call calls IH]; intros s Hst; simpl; [done|].
  intros [Ha Hr]%andb_true_iff. auto using session_call_keeps.
Qed.
End calls.

(** ** A Project with an assistant, an Agent, a helper and a run Terminal *)

#[local] Existing Instance canonical_uuid.

Definition sample_ref : ResumeRef := MkResumeRef RP_Codex "11111111-2222-3333-4444-555555555555".
Definition sample_selection : AgentLaunchSelection :=
  MkAgentLaunchSelection "default" "default" "default" None.

Definition agent_session : SessionRecord :=
  sample_session <| s_resume_ref := Some sample_ref |> <| s_launch_selection := sample_selection |>.

Definition templated (id template : string) : SessionRecord :=
  let process := s_process agent_session in
  agent_session <| s_id := id |> <| s_process := process <| pd_template_ref := Some template |> |>.
Definition assistant_session : SessionRecord := templated "assistant" "builtin.steward.executor".
Definition helper_session (id conversation : string) (request : option string) : SessionRecord :=
  (templated id "builtin.agent.ask-to-helper")
    <| s_ask_to_source_session_id := Some "s" |>
    <| s_ask_to_continuation := Some (MkAskToContinuation conversation request) |>.
Definition run_terminal : SessionRecord :=
  agent_session <| s_id := "terminal" |> <| s_kind := SessionKind_Terminal |>
    <| s_run_configuration_id := Some "run" |>.

Definition sample_steward : StewardConfiguration :=
  {| stw_project_id := "p"; stw_agent_id := SAI_Codex; stw_model := "default";
     stw_permission := "default"; stw_reasoning := "default";
     stw_playbook_evaluator := MkPlaybookEvaluatorSettings None None "plan"; stw_enabled := true;
     stw_system_prompt := ""; stw_executor_session_id := Some "assistant"; stw_generation := 1;
     stw_updated_at_epoch_ms := 1 |}.

Definition sample_run : RunConfiguration :=
  {| rcf_id := "run"; rcf_project_id := "p"; rcf_name := "Serve"; rcf_kind := RCK_DevServer;
     rcf_command := "make serve"; rcf_working_directory := ""; rcf_env := [];
     rcf_setup_command := None; rcf_setup_policy := RSP_OncePerWorktree;
     rcf_url_auto_detect := true; rcf_fallback_urls := []; rcf_auto_open_first_url := false;
     rcf_generation := 1; rcf_updated_at_epoch_ms := 1 |}.

Definition session_state : CurrentState :=
  sample_state <| sessions := [assistant_session; agent_session] |>
    <| agent_conversation_readiness :=
         [MkAgentConversationReadinessRecord "assistant" ACR_Resumable;
          MkAgentConversationReadinessRecord "s" ACR_Resumable] |>
    <| steward_configurations := [sample_steward] |>
    <| run_configurations := [sample_run] |>.

Definition session_history : list SessionCall :=
  [ Call_insert_session (helper_session "helper" "conversation" None);
    Call_insert_session run_terminal;
    Call_set_ask_to_current_request "helper" "conversation" (Some "request");
    Call_mark_session_exited "s";
    Call_move_agent_session_to_deleted "s" 50;
    Call_restore_deleted_session_descriptor "s" (Some "/elsewhere");
    Call_reconcile_restart;
    Call_complete_session_resume "assistant" sample_ref 9;
    Call_purge_expired_deleted_sessions 60 ].

(** ** What every history keeps *)



(** C30: the reconciliation that runs before anything is started again succeeds
    when the file can be written, and afterwards no Session claims to be
    running; one that is marked for resuming is an Agent with a reference its
    provider understands; the only Sessions it removes are executors no Steward
    points to and the Terminals of run configurations; a Steward keeps pointing
    to its assistant; and the records stay loadable. *)
Theorem restart_recovers_sessions `{UuidParser} (s : Store) :
  sessions_fit (state s) = true -> io_healthy s ->
  exists s', reconcile_restart s = (Ok tt, s') /\ sessions_fit (state s') = true
  /\ (forall x, x ∈ sessions (state s') -> at_rest x)
  /\ (forall x, x ∈ sessions (state s) -> s_id x ∉ s_id <$> sessions (state s') ->
        (pd_template_ref (s_process x) = Some "builtin.steward.executor" /\
         s_id x ∉ configured_sessions (state s)) \/
        (s_kind x = SessionKind_Terminal /\ s_run_configuration_id x <> None))
  /\ (forall x c, x ∈ sessions (state s) -> is_assistant (state s) x ->
        c ∈ steward_configurations (state s) -> stw_executor_session_id c = Some (s_id x) ->
        c ∈ steward_configurations (state s')).
Proof.
  rewrite sessions_fit_ok. intros Hst Hio.
  destruct (reconcile_restart_runs s Hio) as (s' & Hrun & Hs').
  pose proof (session_call_keeps Call_reconcile_restart s Hst eq_refl) as Hok.
  cbn [exec_session_call] in Hok. rewrite Hrun in Hok.
  assert (sessions (state s') = sessions (restart_state (state s)).2 /\
    steward_configurations (state s') = steward_configurations (restart_state (state s)).2) as [Es Ec].
  { destruct Hs' as [->| ->]; [done|]. unfold committed, prune_session_profiles.
    by destruct (session_agent_profiles _). }
  exists s'. rewrite Es, Ec. split_and!; [done|by apply sessions_fit_ok| | |].
  - intros x. by apply restart_state_at_rest.
  - intros x. by apply restart_state_left.
  - intros x c. by apply restart_state_pointer.
Qed.

(** The Terminal of a run configuration and a helper join the Project before
    the restart. *)
Definition before_restart : Store :=
  exec_session_calls (take 3 session_history) (store_of session_state).

Lemma restart_recovers_sessions_witness :
  exists s', reconcile_restart before_restart = (Ok tt, s') /\
  (forall x, x ∈ sessions (state s') -> at_rest x).
Proof.
  destruct (restart_recovers_sessions before_restart) as (s' & Hrun & _ & Hrest & _).
  - vm_compute. reflexivity.
  - intros o Ho. by apply elem_of_nil in Ho.
  - exists s'. exact (conj Hrun Hrest).
Defined.

Lemma restart_sample :
  (fun x => (s_id x, s_lifecycle_state x)) <$> sessions (state (reconcile_restart before_restart).2)
  = [("assistant", "resuming"); ("s", "resuming"); ("helper", "exited")].
Proof. vm_compute. reflexivity. Qed.

(** ** Two states the loader refuses *)

Definition moved_session : Store :=
  (commit_session_relocation "s" "op-move" 8 sample_ref
    (mark_session_relocation_target_starting "s" "op-move" 5
      (begin_session_relocation sample_relocation (store_of session_state)).2).2).2.

Definition archived_session_store : Store :=
  (commit_session_archive "s" "op-archive" 20
    (begin_session_archive (MkSessionArchiveOperation "op-archive" "s" "p" 8 SA_Prepared 10)
       moved_session).2).2.

