(* ===== verification/RecordTransactions.v ===== *)
(** * Every record method is a transaction and never panics

    The commit discipline of [Transactions], for the methods of
    [store/src/records/]; an [expect] of theirs never fails. *)

From S2P Require Import Prelude Text Domain DomainRules DomainConfig StoreState SessionJournals.
From S2P Require Import Transactions SessionRecords RunRecords AccountRecords RoutineRecords.
From S2P Require Import TaskRecords CurrentValidation PlaybookRecords RecordApi.
From S2P Require Import SessionPreservation SessionClaims.

Local Open Scope list_scope.

(** ** Errors that are not panics *)

Definition tame {A} (r : result StoreError A) : Prop := forall message, r <> Err (Panicked message).

(** A transaction that does not panic. *)
Definition sound {A} (s : Store) (r : result StoreError A * Store) : Prop :=
  transaction s r /\ tame r.1.

Ltac tame_code := intros message; repeat case_match; congruence.

Lemma tame_bind {A B} (r : result StoreError A) (k : A -> result StoreError B) :
  tame r -> (forall a, tame (k a)) -> tame (let? a := r in k a).
Proof. intros Hr Hk message. destruct r as [a|e]; [apply Hk|]. intros [= ->]. by apply (Hr message). Qed.

Lemma validate_personal_tame st session agent : tame (validate_personal_agent_session st session agent).
Proof. unfold validate_personal_agent_session. tame_code. Qed.
Lemma standalone_tame st session remember : tame (standalone_preference st session remember).
Proof. unfold standalone_preference. tame_code. Qed.
Lemma validate_executor_tame `{UuidParser} st session project_id generation :
  tame (validate_steward_executor_session st session project_id generation).
Proof. unfold validate_steward_executor_session. tame_code. Qed.
Lemma insert_task_record_tame task tasks : tame (insert_task_record task tasks).
Proof. unfold insert_task_record. tame_code. Qed.
Lemma insert_link_tame tasks sources link links :
  tame (insert_jira_issue_link_record tasks sources link links).
Proof. unfold insert_jira_issue_link_record. tame_code. Qed.
Lemma advanced_playbook_tame st configuration advance : tame (advanced_playbook st configuration advance).
Proof. unfold advanced_playbook. tame_code. Qed.
Lemma upsert_agent_tame agent library : tame (upsert_agent agent library).
Proof. unfold upsert_agent. tame_code. Qed.
Lemma remove_agent_tame id library : tame (remove_agent id library).
Proof. unfold remove_agent. tame_code. Qed.
Lemma apply_finished_tame record evaluations : tame (apply_finished record evaluations).
Proof. unfold apply_finished. tame_code. Qed.

Lemma apply_remote_updates_tame now updates st : tame (apply_remote_updates now updates st).
Proof.
  revert st. induction updates as [|update updates IH]; intros st; simpl; [done|].
  apply tame_bind; [|done]. unfold apply_remote_update. tame_code.
Qed.

Lemma insert_answers_tame task_ids configuration inserts progress :
  tame (insert_answers task_ids configuration inserts progress).
Proof.
  revert progress. induction inserts as [|answer inserts IH]; intros progress; simpl; [done|].
  destruct (_ || _); [done|]. apply IH.
Qed.

Lemma replace_answers_tame task_ids updates progress : tame (replace_answers task_ids updates progress).
Proof.
  revert progress. induction updates as [|update updates IH]; intros progress; simpl; [done|].
  destruct (negb _); [done|]. destruct (find_mut _ _ _) as [[]|]; [apply IH|done].
Qed.

Lemma replace_document_tame apply st : tame (replace_document apply st).
Proof.
  unfold replace_document. cbv zeta. apply tame_bind; [apply insert_answers_tame|]. intros progress.
  apply tame_bind; [apply replace_answers_tame|done].
Qed.

Lemma finish_with_answer_tame project_id answers evaluation st :
  tame (finish_with_answer project_id answers evaluation st).
Proof.
  unfold finish_with_answer. destruct evaluation as [record|]; [|done]. destruct (_ || _); [done|].
  apply tame_bind; [apply apply_finished_tame|done].
Qed.

Lemma without_briefs_tame project_id now tasks : tame (without_briefs project_id now tasks).
Proof.
  induction tasks as [|task tasks IH]; simpl; [done|]. apply tame_bind; [|intros; by apply tame_bind].
  unfold without_brief. destruct (_ || _); [done|]. by repeat (apply tame_bind; [by destruct (u64_checked_add _ _)|intros]).
Qed.

Lemma activate_steward_tame `{JsonText} fresh apply st : tame (activate_steward fresh apply st).
Proof. unfold activate_steward. tame_code. Qed.
Lemma replace_routines_tame `{JsonText} fresh apply st : tame (replace_routines fresh apply st).
Proof. unfold replace_routines. tame_code. Qed.

(** ** The revision of what a method computes *)

Lemma record_version_revision id project_id target content record st :
  revision (record_version id project_id target content record st).2 = revision st.
Proof. unfold record_version. by destruct (is_some_and _ _). Qed.

Lemma remove_obsolete_revision st : revision (remove_obsolete_assistant_sessions st).2 = revision st.
Proof. apply remove_exact_revision. Qed.

Section revisions.
Context `{JsonText}.

Lemma record_steward_revision id configuration source summary st :
  revision (record_steward_version id configuration source summary st) = revision st.
Proof. apply record_version_revision. Qed.
Lemma record_routine_revision id configuration source summary st :
  revision (record_routine_version id configuration source summary st) = revision st.
Proof. apply record_version_revision. Qed.
Lemma record_run_revision id configuration source summary st :
  revision (record_run_configuration_version id configuration source summary st) = revision st.
Proof. apply record_version_revision. Qed.
Lemma record_playbook_revision id configuration source summary st st' :
  record_playbook_version id configuration source summary st = Some st' -> revision st' = revision st.
Proof.
  unfold record_playbook_version. destruct (playbook_snapshot st configuration); [|done].
  intros [= <-]. apply record_version_revision.
Qed.

Lemma activate_steward_revision fresh apply st st' :
  activate_steward fresh apply st = Ok st' -> revision st' = revision st.
Proof.
  unfold activate_steward. intros E. repeat case_match; simplify_eq; [|done].
  by rewrite record_steward_revision.
Qed.

Lemma upsert_routines_revision fresh index routines st :
  revision (upsert_routines fresh index routines st) = revision st.
Proof.
  revert index st. induction routines as [|routine routines IH]; intros index st; simpl; [done|].
  by rewrite IH, record_routine_revision.
Qed.

Lemma fold_targets_revision (routines : list TrackerConfiguration) st :
  revision (fold_left (fun st routine =>
    remove_configuration_target_state (tc_project_id routine) (routine_target (tc_id routine)) st)
    routines st) = revision st.
Proof. revert st. induction routines as [|routine routines IH]; intros st; simpl; [done|]. by rewrite IH. Qed.

Lemma replace_routines_revision fresh apply st st' :
  replace_routines fresh apply st = Ok st' -> revision st' = revision st.
Proof.
  unfold replace_routines. cbv zeta. destruct (any _ _); [done|]. intros [= <-].
  by rewrite fold_targets_revision, upsert_routines_revision.
Qed.

Lemma replace_document_revision apply st st' :
  replace_document apply st = Ok st' -> revision st' = revision st.
Proof. unfold replace_document. cbv zeta. intros E. repeat case_match; by simplify_eq. Qed.

Lemma finish_with_answer_revision project_id answers evaluation st st' :
  finish_with_answer project_id answers evaluation st = Ok st' -> revision st' = revision st.
Proof. unfold finish_with_answer. intros E. repeat case_match; by simplify_eq. Qed.

Lemma apply_remote_updates_revision now updates st st' :
  apply_remote_updates now updates st = Ok st' -> revision st' = revision st.
Proof.
  revert st. induction updates as [|update updates IH]; intros st; simpl; [by intros [= ->]|].
  destruct (apply_remote_update now update st) as [st1|] eqn:E; [|done]. intros ->%IH.
  revert E. unfold apply_remote_update. intros E. repeat case_match; by simplify_eq.
Qed.
End revisions.

(** ** Exits *)

Lemma sound_answered {A} (a : A) s : sound s (Ok a, s).
Proof. split; [apply tx_answered|done]. Qed.

Lemma sound_refused {A} e s : tame (A := A) (Err e) -> sound (A := A) s (Err e, s).
Proof. split; [apply tx_refused|done]. Qed.

Lemma tame_error {A B} (r : result StoreError A) e : tame r -> r = Err e -> tame (A := B) (Err e).
Proof. intros Hr -> message [= ->]. by apply (Hr message). Qed.

Lemma sound_install {A} s mid next (a : A) :
  revision next = revision (state s) -> sound s (install (state s) next a (s <| state := mid |>)).
Proof.
  intros Hrev. split; [by apply install_transaction|]. rewrite install_run.
  by destruct s as [st b d [|[] ios]].
Qed.

Lemma sound_install_direct {A} s next (a : A) :
  revision next = revision (state s) -> sound s (install (state s) next a s).
Proof. intros. rewrite <- (store_eta s) at 3. by apply sound_install. Qed.

Lemma sound_install_revision s next :
  revision next = revision (state s) -> sound s (install_revision (state s) next s).
Proof.
  intros Hrev. split; [by apply install_revision_transaction_direct|]. rewrite install_revision_run.
  by destruct s as [st b d [|[] ios]].
Qed.

(** A method that puts an equal state back answers. *)
Lemma sound_same {A} (a : A) s st : st = state s -> sound s (Ok a, s <| state := st |>).
Proof. intros ->. rewrite store_eta. apply sound_answered. Qed.

Lemma sound_erase {A} (m : StoreM A) s : sound s (m s) -> sound s (erase m s).
Proof.
  intros [Ht Hr]. split; [by apply transaction_erase|]. revert Hr. unfold erase, bind, ret.
  destruct (m s) as [[a|e] s']; [done|]. intros Hr message [= ->]. by apply (Hr message).
Qed.

Create HintDb records.
#[export] Hint Resolve validate_personal_tame standalone_tame validate_executor_tame
  insert_task_record_tame insert_link_tame advanced_playbook_tame upsert_agent_tame remove_agent_tame
  apply_finished_tame apply_remote_updates_tame replace_document_tame finish_with_answer_tame
  without_briefs_tame activate_steward_tame replace_routines_tame : records.
Create Rewrite HintDb revisions.
#[export] Hint Rewrite @record_steward_revision @record_routine_revision @record_run_revision
  record_version_revision remove_obsolete_revision remove_exact_revision : revisions.

Ltac sound_exit :=
  lazymatch goal with
  | |- sound ?s (Ok _, ?s) => apply sound_answered
  | |- sound ?s (Err _, ?s) =>
      apply sound_refused; first [done | eapply tame_error; [|eassumption]; solve [auto with records]]
  | |- sound ?s (install (state ?s) _ _ ?s) => apply sound_install_direct
  | |- sound ?s (install_revision (state ?s) _ ?s) => apply sound_install_revision
  end; try (autorewrite with revisions; reflexivity).
Ltac sound_code := repeat first [sound_exit | run_step].

(** ** Methods that need an argument *)

Lemma clear_conversation_sound project_id s : sound s (clear_steward_conversation_ref project_id s).
Proof.
  unfold clear_steward_conversation_ref. sound_code.
  apply Nat.eqb_eq, retain_same_length in Hcode. apply sound_same. unfold clear_conversation.
  rewrite Hcode. by destruct (state s).
Qed.

Lemma clear_transcript_sound project_id expected s :
  sound s (clear_companion_transcript project_id expected s).
Proof.
  unfold clear_companion_transcript, expect_revision. sound_code.
  apply Nat.ltb_ge in Hcode1. apply sound_same.
  pose proof (sublist_length _ _ (retain_sublist (fun x => msg_project_id x != project_id)
    (companion_messages (state s)))).
  unfold drop_key in *. rewrite retain_same_length by lia. by destruct (state s).
Qed.

Lemma record_progress_sound project_id answers expected s :
  sound s (record_playbook_step_progress project_id answers expected s).
Proof.
  unfold record_playbook_step_progress, expect_revision. sound_code.
  apply bool_decide_eq_true in Hcode2. apply sound_same. revert Hcode2. unfold apply_step_progress. simpl. intros ->. by destruct (state s).
Qed.

(** ** Closing a Task parks its Sessions *)

Definition name_and_project (session : SessionRecord) : string * string :=
  (s_id session, s_project_id session).

Lemma exited_named session : name_and_project (exited_session session) = name_and_project session.
Proof. done. Qed.

(** The loop runs to its end and touches Sessions and suspensions only. *)
Lemma park_all task_id now targets s :
  (forall target, target ∈ targets -> tat_session_id target ∈ s_id <$> sessions (state s)) ->
  exists sessions' suspensions,
    for_each targets (park_target task_id now) s =
      (Ok tt, s <| state := (state s) <| sessions := sessions' |>
                                      <| task_archive_suspensions := suspensions |> |>)
    /\ name_and_project <$> sessions' = name_and_project <$> sessions (state s).
Proof.
  revert s. induction targets as [|target targets IH]; intros s Ht; simpl.
  { exists (sessions (state s)), (task_archive_suspensions (state s)). split; [|done].
    unfold ret. by destruct s as [[]]. }
  rewrite bind_run. unfold park_target at 1. rewrite bind_run. simpl.
  rewrite find_mut_position.
  destruct (position _ (sessions (state s))) as [[i x]|] eqn:E.
  - unfold put_state, modify. apply position_Some in E as [Hi Hx].
    assert (name_and_project <$> <[i:=exited_session x]> (sessions (state s))
            = name_and_project <$> sessions (state s)) as Hn.
    { by eapply fmap_insert_same. }
    match goal with |- context [for_each targets _ ?s'] => specialize (IH s') end.
    destruct IH as (sessions' & suspensions & Hrun & Hk).
    { intros t Hin. simpl. rewrite (fmap_insert_same s_id _ i x) by done. apply Ht. by right. }
    rewrite Hrun. exists sessions', suspensions. simpl in *. split; [by destruct s|congruence].
  - exfalso. specialize (Ht target ltac:(left)). apply list_elem_of_fmap in Ht as (x & Hx & Hin).
    pose proof (position_find (fun x => s_id x == tat_session_id target) (sessions (state s))) as Hf.
    rewrite E in Hf. eapply find_first_None in Hf; [|exact Hin]. apply bool_decide_eq_false in Hf. congruence.
Qed.

Lemma targets_known st task targets :
  any_with_rest (target_is_refused st task) targets = false ->
  forall target, target ∈ targets -> tat_session_id target ∈ s_id <$> sessions st.
Proof.
  induction targets as [|t targets IH]; simpl; [by intros _ ? ?%not_elem_of_nil|].
  rewrite orb_false_iff. intros [Ht Hr] target [->|Hin]%elem_of_cons; [|by apply IH].
  unfold target_is_refused in Ht. guards. apply any_true in H0 as (x & Hx & Hk). guards.
  apply list_elem_of_fmap. eauto.
Qed.

Lemma close_task_sound task_id targets now s :
  sound s (close_task_with_suspended_sessions task_id targets now s).
Proof.
  unfold close_task_with_suspended_sessions. run_step. run_step; [|sound_code]. run_step.
  destruct p as [index task]. run_step; [sound_code|]. run_step. run_step; [sound_exit|].
  destruct (park_all task_id now targets s) as (sessions' & suspensions & Hrun & _).
  { guards. by eapply targets_known. }
  rewrite bind_run, Hrun. run_step. cbn [state]. by apply sound_install.
Qed.

Section versioned.
Context `{UuidParser} `{JsonText}.

Lemma sync_sound id project_id target content now s :
  sound s (sync_external_configuration_version id project_id target content now s).
Proof.
  unfold sync_external_configuration_version. run_step. run_step; [sound_exit|].
  run_step; [sound_code|].
  pose proof (record_version_revision id project_id target content
    (MkVersionRecord "Current configuration" None (N.max now 1)) (state s)) as Hrev.
  destruct (is_some_and (active_version (state s) project_id target)
    (fun version => cv_content version == content)) eqn:Hc.
  { exfalso. revert Hc Hcode0. unfold option_filter. destruct (active_version _ _ _); [|done].
    simpl. by intros ->. }
  unfold record_version in *. rewrite Hc in *. by apply sound_install_direct.
Qed.

Lemma finalize_sound id project_id target expected content summary source now s :
  may_record (state s) project_id target = true ->
  sound s (finalize_configuration_activation id project_id target expected content summary source now s).
Proof.
  intros Hroom. unfold finalize_configuration_activation. run_step. run_step; [sound_exit|].
  destruct ((cv_id <$> active_version (state s) project_id target) == expected) eqn:Hm; simpl.
  - destruct (is_some_and (active_version (state s) project_id target)
      (fun version => cv_content version == content)) eqn:Hc.
    { destruct (active_version _ _ _); [|done]. apply sound_answered. }
    destruct (record_version_appends id project_id target content
      (MkVersionRecord summary source (N.max now 1)) (state s) Hroom Hc) as (kept & _ & ->).
    cbn [snd]. run_step. set (version := MkConfigurationVersion _ _ _ _ _ _ _ _).
    destruct (active_version_selected project_id target id
      ((state s) <| configuration_versions := kept ++ [version] |>) version) as (active & Ea & Ha);
      [apply elem_of_app; right; by left|reflexivity|].
    rewrite Ea. cbn [fmap option_fmap option_map ok_or]. run_step.
    destruct (find_mut _ _ _) as [[]|] eqn:Ef; [by apply sound_install|]. exfalso.
    apply find_mut_find in Ef. apply (find_first_None _ _) with (x := active) in Ef.
    { by apply bool_decide_eq_false in Ef. }
    revert Ea. apply active_version_elem.
  - run_step. destruct (active_version (state s) project_id target) as [active|] eqn:Ea.
    2:{ exfalso. simpl in Hm. destruct expected; [done|]. by rewrite bool_decide_eq_true_2 in Hm. }
    cbn [fmap option_fmap option_map ok_or]. run_step.
    destruct (find_mut _ _ _) as [[]|] eqn:Ef; [by apply sound_install|]. exfalso.
    apply find_mut_find in Ef. apply (find_first_None _ _) with (x := active) in Ef.
    { by apply bool_decide_eq_false in Ef. }
    revert Ea. apply active_version_elem.
Qed.

(** The executor's configuration survives its admission. *)
Lemma steward_position_None st project_id :
  steward_position st project_id = None <-> project_id ∉ stw_project_id <$> steward_configurations st.
Proof.
  unfold steward_position.
  pose proof (position_find (fun current => stw_project_id current == project_id)
    (steward_configurations st)) as Hf.
  destruct (position _ _) as [[i c]|].
  - split; [done|]. intros []. apply find_first_Some in Hf as [Hc Hp].
    apply bool_decide_eq_true in Hp. apply list_elem_of_fmap. eauto.
  - split; [|done]. intros _ (c & -> & Hc)%list_elem_of_fmap.
    eapply find_first_None in Hf; [|exact Hc]. by apply bool_decide_eq_false in Hf.
Qed.

Lemma apply_executor_runs session_id project_id now st :
  steward_position st project_id <> None ->
  exists st', apply_steward_executor_session session_id project_id now st = Some st'
  /\ revision st' = revision st
  /\ stw_project_id <$> steward_configurations st' = stw_project_id <$> steward_configurations st.
Proof.
  intros Hp. unfold apply_steward_executor_session, steward_position in *. rewrite find_mut_position.
  cbn [clear_conversation steward_configurations set_field].
  change (steward_configurations (clear_conversation project_id st)) with (steward_configurations st).
  destruct (position _ _) as [[i c]|] eqn:E; [|done]. simpl. eexists. split; [done|].
  rewrite remove_obsolete_revision. split; [done|].
  unfold remove_obsolete_assistant_sessions. rewrite (proj1 (remove_exact_stewards _ _)). simpl.
  apply position_Some in E as [Hi _]. by eapply fmap_insert_same.
Qed.

Lemma prune_stewards st : steward_configurations (committed st) = steward_configurations st.
Proof. unfold committed, prune_session_profiles. by destruct (session_agent_profiles st). Qed.

Lemma validate_executor_position st session project_id generation :
  validate_steward_executor_session st session project_id generation = Ok tt ->
  steward_position st project_id <> None.
Proof.
  unfold validate_steward_executor_session. destruct (_ || _); [done|].
  by destruct (steward_position st project_id).
Qed.

Lemma attach_sound session project_id generation now s :
  sound s (attach_steward_executor_session session project_id generation now s).
Proof.
  unfold attach_steward_executor_session. run_step.
  destruct (validate_steward_executor_session (state s) session project_id generation) as [[]|e] eqn:Hcode;
    [run_step|sound_code].
  apply validate_executor_position in Hcode.
  destruct (apply_executor_runs (s_id session) project_id now (admitted session None (state s)))
    as (st' & Ha & Hrev & Hp); [done|].
  unfold expect at 1. rewrite Ha. run_step.
  assert (project_id ∈ stw_project_id <$> steward_configurations (committed st')) as Hin.
  { rewrite prune_stewards, Hp. destruct (decide (project_id ∈ stw_project_id <$>
      steward_configurations (admitted session None (state s)))); [done|].
    by apply steward_position_None in n. }
  rewrite bind_run, install_run.
  assert (forall size rest, (let s' := MkStore (committed st') size (committed st') rest in
    exists c, (let! st'' := get_state in
      expect (snd <$> steward_position st'' project_id) "configuration was proven during admission") s'
      = (Ok c, s'))) as Hend.
  { intros size rest. cbv zeta. unfold get_state, gets, bind, expect, lift. simpl.
    destruct (steward_position (committed st') project_id) as [[i c]|] eqn:E; [simpl; eauto|].
    by apply steward_position_None in E. }
  destruct (io s) as [|[size|message] rest] eqn:Eio.
  - destruct (Hend 0%N []) as [c ->]. split; [|done]. by apply tx_committed.
  - destruct (Hend size rest) as [c ->]. split; [|done]. by apply tx_committed.
  - split; [|done]. rewrite store_eta. by apply tx_io_failed.
Qed.

(** A Playbook whose steps name Routines of its Project has a snapshot. *)
Lemma mapM_runs {A B} (f : A -> option B) l :
  (forall x, x ∈ l -> is_Some (f x)) -> is_Some (mapM f l).
Proof.
  induction l as [|x l IH]; intros Hl; simpl; [by eexists|].
  destruct (Hl x) as [y Hy]; [left|]. destruct IH as [k Hk]; [intros; apply Hl; by right|].
  rewrite Hy. simpl. rewrite Hk. simpl. by eexists.
Qed.

Lemma milestone_snapshot_runs st configuration milestone :
  has_routine st (pb_project_id configuration) (pm_routine_id milestone) = true ->
  is_Some (playbook_milestone_snapshot st configuration milestone).
Proof.
  unfold has_routine, playbook_milestone_snapshot, tracker_for_milestone.
  intros (routine & Hr & Hk)%any_true. apply fmap_is_Some.
  destruct (find_first _ _) as [found|] eqn:E; [by eexists|].
  eapply find_first_None in E; [|exact Hr]. by rewrite E in Hk.
Qed.

Lemma playbook_snapshot_runs st configuration :
  names_no_routine st configuration = false -> is_Some (playbook_snapshot st configuration).
Proof.
  unfold names_no_routine, all_milestones. rewrite any_false. intros Hm.
  assert (forall milestone, milestone ∈ pb_milestones configuration
    \/ (exists pipeline, pipeline ∈ pb_saved_pipelines configuration /\ milestone ∈ pp_milestones pipeline) ->
    is_Some (playbook_milestone_snapshot st configuration milestone)) as Hs.
  { intros milestone Hin. apply milestone_snapshot_runs, negb_false_iff, Hm.
    apply elem_of_app. destruct Hin as [?|(pipeline & ? & ?)]; [by left|right].
    apply list_elem_of_bind. eauto. }
  unfold playbook_snapshot.
  destruct (mapM_runs (playbook_milestone_snapshot st configuration) (pb_milestones configuration))
    as [milestones ->]; [auto|]. simpl.
  destruct (mapM_runs (playbook_pipeline_snapshot st configuration) (pb_saved_pipelines configuration))
    as [pipelines ->]; [|by eexists].
  intros pipeline Hp. unfold playbook_pipeline_snapshot. apply fmap_is_Some, mapM_runs. eauto.
Qed.

Lemma record_playbook_runs id configuration source summary st :
  names_no_routine st configuration = false ->
  is_Some (record_playbook_version id configuration source summary st).
Proof. intros H1. unfold record_playbook_version. by apply fmap_is_Some, playbook_snapshot_runs. Qed.

Lemma upsert_by_elem {A} (p : A -> bool) x l : x ∈ upsert_by p x l.
Proof.
  unfold upsert_by. destruct (position p l) as [[i y]|] eqn:E.
  - apply position_Some in E as [Hi _]. apply list_elem_of_lookup. exists i.
    apply list_lookup_insert_eq. by eapply lookup_lt_Some.
  - apply elem_of_app. right. by left.
Qed.

Lemma replace_document_elem apply st st' :
  replace_document apply st = Ok st' -> pap_configuration apply ∈ playbook_configurations st'.
Proof.
  unfold replace_document. cbv zeta. intros E. repeat case_match; simplify_eq. simpl. apply upsert_by_elem.
Qed.

Lemma valid_playbook_names_routines st configuration :
  is_err (validate_current_state st) = false -> configuration ∈ playbook_configurations st ->
  names_no_routine st configuration = false.
Proof.
  unfold validate_current_state. destruct (current_state_is_invalid st) eqn:E; [done|]. intros _ Hc.
  unfold current_state_is_invalid in E. guards. unfold playbook_configurations_are_invalid in *.
  match goal with H : any_with_rest _ (playbook_configurations st) = false |- _ =>
    apply any_with_rest_or_false in H as [H _]; specialize (H _ Hc) end.
  guards. done.
Qed.

Lemma apply_playbook_sound fresh apply expected s : sound s (apply_playbook fresh apply expected s).
Proof.
  unfold apply_playbook, expect_revision. run_step. run_step; [sound_exit|].
  destruct (activate_steward fresh apply (state s)) as [st1|] eqn:E1; [|sound_code]. run_step.
  destruct (replace_routines fresh apply st1) as [st2|] eqn:E2; [|sound_code]. run_step.
  destruct (replace_document apply st2) as [st3|] eqn:E3; [|sound_code]. run_step.
  run_step; [sound_exit|].
  destruct (record_playbook_runs (fresh 1) (pap_configuration apply) None "Playbook saved" st3)
    as [st4 E4].
  { eapply valid_playbook_names_routines; [done|]. by eapply replace_document_elem. }
  unfold expect. rewrite E4. run_step. run_step; [sound_exit|]. apply sound_install_direct.
  apply record_playbook_revision in E4. apply replace_document_revision in E3.
  apply replace_routines_revision in E2. apply activate_steward_revision in E1. congruence.
Qed.

Lemma set_playbook_sound id configuration expected s :
  sound s (set_playbook_configuration id configuration expected s).
Proof.
  unfold set_playbook_configuration, expect_revision. run_step. run_step; [sound_exit|].
  run_step; [sound_exit|]. run_step; [sound_code|].
  match goal with |- context [record_playbook_version id configuration None _ ?st] =>
    destruct (record_playbook_runs id configuration None "Playbook saved" st) as [st' E] end.
  { guards. done. }
  unfold expect. rewrite E. run_step. apply sound_install_direct. apply record_playbook_revision in E.
  exact E.
Qed.

Lemma change_library_sound change expected s :
  (forall library, tame (change library)) -> sound s (change_agent_library expected change s).
Proof. intros Hc. unfold change_agent_library. sound_code. Qed.

(** What [finalize_configuration_activation] relies on. *)
Definition record_call_ok (call : RecordCall) (st : CurrentState) : bool :=
  match call with
  | Do_finalize_configuration_activation _ project_id target _ _ _ _ _ =>
      may_record st project_id target
  | _ => true
  end.

Lemma record_call_sound call s :
  record_call_ok call (state s) = true -> sound s (exec_record_call call s).
Proof.
  intros Hok. destruct call; cbn [exec_record_call record_call_ok] in *; apply sound_erase;
    try solve [auto using clear_conversation_sound, clear_transcript_sound, record_progress_sound,
      close_task_sound, sync_sound, finalize_sound, attach_sound, apply_playbook_sound,
      set_playbook_sound];
    try (apply change_library_sound; auto with records; done).
  all: unfold select_configuration_version, set_run_configuration, delete_run_configuration,
      record_run_setup_mark, insert_run_session, create_agent_account, rename_agent_account,
      set_default_agent_account, delete_agent_account, insert_personal_agent_session,
      set_agent_fork_preference, set_agent_restart_preference, set_keep_awake_preference,
      update_mcp_tool_description, reset_mcp_tool_description, insert_task_jira_issue_link,
      reconcile_task_branch_set, set_steward_configuration, set_tracker_configuration,
      set_step_routine_configuration, save_tracker_configuration, delete_tracker_configuration,
      insert_task, rename_task, update_task_brief, update_task_developer_notes,
      update_task_steward_brief, bind_task_branch, release_closed_task_branch, set_task_status,
      delete_task, delete_archived_task_with_sessions, insert_task_source_configuration,
      replace_task_source_configuration, delete_task_source_configuration, insert_task_from_source,
      apply_task_source_remote_updates, set_project_task_automation_configuration, insert_project,
      update_project_details, delete_project_and_related_records,
      record_playbook_step_progress_with_routine, replace_task_playbook_progress,
      start_playbook_evaluation, finish_playbook_evaluation, interrupt_playbook_evaluations_on_restart,
      append_companion_message_and_dismiss_routine_findings, reset_project_assistant,
      expect_revision; sound_code.
  all: unfold set_active_version, clear_conversation, without_assistant;
    repeat first
      [ reflexivity | progress autorewrite with revisions
      | match goal with
        | H : finish_with_answer _ _ _ _ = Ok _ |- _ => rewrite (finish_with_answer_revision _ _ _ _ _ H)
        | H : apply_remote_updates _ _ _ = Ok _ |- _ => rewrite (apply_remote_updates_revision _ _ _ _ H)
        | |- context [remove_exact_session_descriptors ?ids ?st] => exact (remove_exact_revision ids st)
        | |- context [record_steward_version ?id ?c ?source ?summary ?st] =>
            exact (record_steward_revision id c source summary st)
        end
      | case_match ].
Qed.
End versioned.
