(* ===== verification/RecordInvariant.v ===== *)
(** * The invariant of the configuration records

    What load-time validation asks of accounts, the library, Stewards, run
    configurations, setup marks, configuration versions, Routines, Playbooks
    with their answers and receipts, transcripts, issue links, branch sets, task
    sources, task automation and preferences ([records_ok]), stated over the
    keys that one vector of records asks of another. *)

From Stdlib Require Import Btauto.
From S2P Require Import Prelude Keyed Text Domain DomainRules DomainConfig StoreState Transactions.
From S2P Require Import SessionRecords RunRecords AccountRecords RoutineRecords TaskRecords.
From S2P Require Import CurrentValidation SessionInvariant RecordTransactions.

Local Open Scope string_scope.
Local Open Scope list_scope.

(** ** What one vector of records asks of another *)

Definition project_ids (st : CurrentState) : list string := p_id <$> projects st.
Definition task_keys (st : CurrentState) : list (string * string) :=
  (fun task => (t_id task, t_project_id task)) <$> tasks st.
Definition session_keys (st : CurrentState) : list (string * string) :=
  (fun session => (s_id session, s_project_id session)) <$> sessions st.
Definition run_keys (st : CurrentState) : list (string * string) :=
  (fun run => (rcf_id run, rcf_project_id run)) <$> run_configurations st.
Definition routine_keys (st : CurrentState) : list (string * string) :=
  (fun routine => (tc_id routine, tc_project_id routine)) <$> tracker_configurations st.
Definition steward_agents (st : CurrentState) : list (string * StewardAgentId) :=
  (fun steward => (stw_project_id steward, stw_agent_id steward)) <$> steward_configurations st.
Definition steward_projects (st : CurrentState) : list string :=
  stw_project_id <$> steward_configurations st.

(** ** The condition on each record *)

Definition steward_fits (st : CurrentState) (configuration : StewardConfiguration) : Prop :=
  steward_configuration_is_valid configuration = true
  /\ stw_project_id configuration ∈ project_ids st
  /\ forall id, stw_executor_session_id configuration = Some id ->
       (id, stw_project_id configuration) ∈ session_keys st.

Definition conversation_fits `{UuidParser} (st : CurrentState) (conversation : StewardConversationRef)
  : Prop :=
  conversation_ref_is_valid conversation = true
  /\ exists agent, (scr_project_id conversation, agent) ∈ steward_agents st
     /\ provider_matches_agent (ref_provider (scr_resume_ref conversation)) (Some (steward_command agent))
        = true.

Definition run_fits (st : CurrentState) (configuration : RunConfiguration) : Prop :=
  run_configuration_is_valid configuration = true /\ rcf_project_id configuration ∈ project_ids st.

Definition mark_fits (st : CurrentState) (mark : RunSetupMark) : Prop :=
  setup_mark_is_valid mark = true
  /\ (rsm_configuration_id mark, rsm_project_id mark) ∈ run_keys st.
Definition slot (mark : RunSetupMark) : string * string :=
  (rsm_configuration_id mark, rsm_worktree_path mark).

(** What a version or an improver edits exists. *)
Definition target_fits (st : CurrentState) (project_id : string) (target : ImproverSessionTarget) : Prop :=
  project_id ∈ project_ids st /\
  match ist_target_kind target with
  | ITK_AgentCreator => False
  | ITK_StewardInstructions => project_id ∈ steward_projects st
  | ITK_RoutineInstructions =>
      exists id, ist_target_id target = Some id /\ (id, project_id) ∈ routine_keys st
  | ITK_RunConfiguration =>
      exists id, ist_target_id target = Some id /\ (id, project_id) ∈ run_keys st
  | _ => True
  end.

Definition version_target (version : ConfigurationVersion) : string * ImproverSessionTarget :=
  (cv_project_id version, cv_target version).
Definition version_place (version : ConfigurationVersion) : (string * ImproverSessionTarget) * N :=
  (version_target version, cv_sequence version).
Definition selection_target (selection : ConfigurationVersionSelection)
  : string * ImproverSessionTarget := (cvs_project_id selection, cvs_target selection).
Definition version_fits (st : CurrentState) (version : ConfigurationVersion) : Prop :=
  version_is_well_formed version = true /\ target_fits st (cv_project_id version) (cv_target version).
Definition selection_fits (versions : list ConfigurationVersion)
    (selection : ConfigurationVersionSelection) : Prop :=
  selection_is_well_formed selection = true /\
  exists version, version ∈ versions /\ cv_id version = cvs_version_id selection
    /\ version_target version = selection_target selection.

Definition routine_fits (st : CurrentState) (routine : TrackerConfiguration) : Prop :=
  tracker_configuration_is_valid routine = true
  /\ tc_project_id routine ∈ project_ids st
  /\ (forall id, id ∈ tc_related_task_ids routine -> (id, tc_project_id routine) ∈ task_keys st)
  /\ (forall finding id, finding ∈ tc_pending_routine_findings routine ->
        id ∈ prf_related_task_ids finding -> (id, tc_project_id routine) ∈ task_keys st).

Definition playbook_fits (st : CurrentState) (playbook : PlaybookConfiguration) : Prop :=
  playbook_configuration_is_valid playbook = true
  /\ pb_project_id playbook ∈ project_ids st
  /\ forall milestone, milestone ∈ all_milestones playbook ->
       (pm_routine_id milestone, pb_project_id playbook) ∈ routine_keys st.

Definition step (progress : PlaybookStepProgress) : string * string :=
  (psp_task_id progress, psp_milestone_id progress).
(** The steps a Project's Playbook asks: Project, step and Routine. *)
Definition asks (st : CurrentState) (project_id : string) (progress : PlaybookStepProgress) : Prop :=
  exists playbook, playbook ∈ playbook_configurations st /\ pb_project_id playbook = project_id
    /\ progress_matches_current_step playbook progress = true.
Definition progress_fits (st : CurrentState) (progress : PlaybookStepProgress) : Prop :=
  step_progress_is_valid progress = true
  /\ exists project_id, (psp_task_id progress, project_id) ∈ task_keys st /\ asks st project_id progress.

Definition evaluation_fits (st : CurrentState) (record : PlaybookEvaluationRecord) : Prop :=
  evaluation_is_valid record = true /\ per_project_id record ∈ project_ids st.

Definition branch_set_fits (st : CurrentState) (set : TaskBranchSet) : Prop :=
  exists task binding, task ∈ tasks st /\ t_id task = tbs_task_id set /\ t_branch task = Some binding
  /\ (length (tbs_memberships set) <= task_branch_memberships_max)%nat
  /\ (forall membership, membership ∈ tbs_memberships set ->
        membership_is_valid task binding membership = true)
  /\ NoDup ((fun membership => (tbm_repository_common_dir membership, tbm_ref_name membership))
              <$> tbs_memberships set).

Definition source_fits_project (st : CurrentState) (source : TaskSourceConfiguration) : Prop :=
  task_source_is_valid source = true /\ tsc_project_id source ∈ project_ids st.
Definition automation_fits (st : CurrentState) (configuration : ProjectTaskAutomationConfiguration)
  : Prop :=
  task_automation_is_valid configuration = true /\ pta_project_id configuration ∈ project_ids st.
Definition override_fits (value : McpToolDescriptionOverride) : Prop :=
  is_some (mcp_description_new (mto_description value)) = true.

(** ** The invariant *)

Record versions_ok (st : CurrentState) : Prop := MkVersionsOk {
  vo_versions : keyed (version_fits st) cv_id (configuration_versions st);
  vo_places : NoDup (version_place <$> configuration_versions st);
  vo_count : counted version_target configuration_versions_per_target_max (configuration_versions st);
  vo_selections :
    keyed (selection_fits (configuration_versions st)) selection_target
      (configuration_version_selections st);
  vo_selected : forall version, version ∈ configuration_versions st ->
    version_target version ∈ selection_target <$> configuration_version_selections st
}.

Record runs_ok (st : CurrentState) : Prop := MkRunsOk {
  ro_runs : keyed (run_fits st) rcf_id (run_configurations st);
  ro_run_count : counted rcf_project_id run_configurations_per_project_max (run_configurations st);
  ro_marks : keyed (mark_fits st) slot (run_setup_marks st);
  ro_mark_count : counted rsm_project_id run_setup_marks_per_project_max (run_setup_marks st)
}.

Record stewards_ok `{UuidParser} (st : CurrentState) : Prop := MkStewardsOk {
  sk_stewards : keyed (steward_fits st) stw_project_id (steward_configurations st);
  sk_conversations : keyed (conversation_fits st) scr_project_id (steward_conversation_refs st)
}.

Record playbooks_ok (st : CurrentState) : Prop := MkPlaybooksOk {
  pk_routines : keyed (routine_fits st) tc_id (tracker_configurations st);
  pk_playbooks : keyed (playbook_fits st) pb_project_id (playbook_configurations st);
  pk_progress : keyed (progress_fits st) step (playbook_step_progress st);
  pk_evaluations : keyed (evaluation_fits st) per_id (playbook_evaluations st);
  pk_evaluation_count :
    counted per_project_id playbook_evaluations_per_project_max (playbook_evaluations st)
}.

Record tasks_ok (st : CurrentState) : Prop := MkTasksOk {
  tk_ids : NoDup (t_id <$> tasks st);
  tk_links : issue_links_are_invalid st = false;
  tk_branches : keyed (branch_set_fits st) tbs_task_id (task_branch_sets st);
  tk_memberships : NoDup (membership_ids (task_branch_sets st));
  tk_sources : keyed (source_fits_project st) tsc_id (task_source_configurations st);
  tk_source_count : counted tsc_project_id task_sources_per_project_max (task_source_configurations st);
  tk_automation : keyed (automation_fits st) pta_project_id (project_task_automation_configurations st)
}.

Record settings_ok (st : CurrentState) : Prop := MkSettingsOk {
  se_accounts : valid_agent_accounts (agent_accounts st) = true;
  se_library : agent_library_is_valid (agent_library st) = true;
  se_selection :
    is_some_and (last_agent_launch_selection st) (fun selection => negb (saved_selection_is_valid selection))
    = false;
  se_overrides : keyed override_fits mto_tool (mcp_tool_description_overrides st)
}.

Record records_ok `{UuidParser} `{JsonText} (st : CurrentState) : Prop := MkRecordsOk {
  rk_settings : settings_ok st;
  rk_stewards : stewards_ok st;
  rk_runs : runs_ok st;
  rk_versions : versions_ok st;
  rk_playbooks : playbooks_ok st;
  rk_tasks : tasks_ok st;
  rk_companion : companion_records_are_invalid st = false
}.

(** The clauses of [validate_current_state] that the invariant is about. *)
Definition records_are_invalid `{UuidParser} `{JsonText} (st : CurrentState) : bool :=
  negb (valid_agent_accounts (agent_accounts st))
  || negb (agent_library_is_valid (agent_library st))
  || companion_records_are_invalid st
  || steward_configurations_are_invalid st
  || steward_conversation_refs_are_invalid st
  || run_configurations_are_invalid st
  || run_setup_marks_are_invalid st
  || configuration_versions_are_invalid st
  || tracker_configurations_are_invalid st
  || playbook_configurations_are_invalid st
  || playbook_step_progress_is_invalid st
  || playbook_evaluations_are_invalid st
  || issue_links_are_invalid st
  || task_branch_sets_are_invalid st
  || task_source_configurations_are_invalid st
  || project_task_automation_configurations_are_invalid st
  || is_some_and (last_agent_launch_selection st) (fun selection =>
       negb (saved_selection_is_valid selection))
  || mcp_overrides_are_invalid st.

(** * The invariant is what the loader checks

    [records_ok] is equivalent to the clauses of [validate_current_state] about
    configuration records, on states in which no Task identifier occurs twice. *)

Lemma has_project_true st id : has_project st id = true <-> id ∈ project_ids st.
Proof. apply any_key. Qed.
Lemma is_task_of_true st project_id id : is_task_of st project_id id = true <-> (id, project_id) ∈ task_keys st.
Proof. apply any_key2. Qed.
Lemma run_of_true st id project_id : run_configuration_of st id project_id = true <-> (id, project_id) ∈ run_keys st.
Proof. apply any_key2. Qed.
Lemma has_routine_true st project_id id : has_routine st project_id id = true <-> (id, project_id) ∈ routine_keys st.
Proof. apply any_key2. Qed.

Lemma same_key {A K} `{EqDecision K} (key : A -> K) x y : (key y == key x) = true <-> key y = key x.
Proof. apply bool_decide_eq_true. Qed.

(** ** Each clause *)

Lemma stewards_reflect st :
  steward_configurations_are_invalid st = false <->
  keyed (steward_fits st) stw_project_id (steward_configurations st).
Proof.
  unfold steward_configurations_are_invalid.
  eapply keyed_reflect with (same := fun x y => stw_project_id y == stw_project_id x)
    (f := fun configuration =>
      negb (steward_configuration_is_valid configuration)
      || negb (has_project st (stw_project_id configuration))
      || is_some_and (stw_executor_session_id configuration) (fun session_id =>
           negb (any (fun session =>
             (s_id session == session_id)
             && (s_project_id session == stw_project_id configuration)) (sessions st)))).
  - intros x rest. unfold has_project. btauto.
  - intros x y. apply same_key.
  - intros x. unfold steward_fits. rewrite !orb_false_iff, !negb_false_iff, has_project_true.
    destruct (stw_executor_session_id x) as [id|]; simpl; [|naive_solver].
    rewrite negb_false_iff, any_key2. unfold session_keys. naive_solver.
Qed.

Lemma steward_position_unique st project_id (P : StewardConfiguration -> bool) :
  NoDup (stw_project_id <$> steward_configurations st) ->
  is_none_or (snd <$> steward_position st project_id) (fun c => negb (P c)) = false <->
  exists c, c ∈ steward_configurations st /\ stw_project_id c = project_id /\ P c = true.
Proof.
  intros Hn. unfold steward_position. rewrite <- position_find. destruct (find_first _ _) as [c|] eqn:E.
  - simpl. rewrite negb_false_iff. pose proof (find_first_key stw_project_id _ _ _ E) as Hc.
    apply find_first_elem in E. split; [eauto|]. intros (d & Hd & Hp & HP).
    by rewrite (unique_elem _ _ c d Hn E Hd) by congruence.
  - split; [done|]. intros (d & Hd & Hp & _). eapply find_first_None in E; [|exact Hd].
    by apply bool_decide_eq_false in E.
Qed.

Lemma conversations_reflect `{UuidParser} st :
  NoDup (stw_project_id <$> steward_configurations st) ->
  steward_conversation_refs_are_invalid st = false <->
  keyed (conversation_fits st) scr_project_id (steward_conversation_refs st).
Proof.
  intros Hn. unfold steward_conversation_refs_are_invalid.
  eapply keyed_reflect with (same := fun x y => scr_project_id y == scr_project_id x).
  - intros x rest. reflexivity.
  - intros x y. apply same_key.
  - intros x. unfold conversation_fits. rewrite orb_false_iff, negb_false_iff.
    rewrite (steward_position_unique st _ (fun configuration =>
      provider_matches_agent (ref_provider (scr_resume_ref x))
        (Some (steward_command (stw_agent_id configuration)))) Hn).
    split; intros [Hv Hc]; (split; [done|]).
    + destruct Hc as (c & Hin & <- & Hm). exists (stw_agent_id c). split; [|done].
      apply list_elem_of_fmap. eauto.
    + destruct Hc as (agent & Hin & Hm). apply list_elem_of_fmap in Hin as (c & [= -> ->] & Hc). eauto.
Qed.

Lemma count_reflect {A B} (key : A -> string) max (id : B -> string) (owners : list B) l :
  (forall x, x ∈ l -> key x ∈ id <$> owners) ->
  any (fun owner => (max <? length (retain (of_key key (id owner)) l))%nat) owners = false <->
  counted key max l.
Proof.
  intros Hl. rewrite any_false. split.
  - intros Hids k. destruct (retain (of_key key k) l) as [|x rest] eqn:E; [simpl; lia|].
    assert (x ∈ retain (of_key key k) l) as [Hx Hp]%elem_of_retain by (rewrite E; left).
    apply of_key_true in Hp as <-. apply Hl, list_elem_of_fmap in Hx as (owner & Ho & Hin).
    specialize (Hids owner Hin). apply Nat.ltb_ge in Hids. rewrite <- E, Ho. exact Hids.
  - intros Hc owner _. apply Nat.ltb_ge, Hc.
Qed.

Lemma runs_reflect st :
  run_configurations_are_invalid st = false <->
  keyed (run_fits st) rcf_id (run_configurations st)
  /\ counted rcf_project_id run_configurations_per_project_max (run_configurations st).
Proof.
  unfold run_configurations_are_invalid. rewrite orb_false_iff.
  rewrite (keyed_reflect _ (fun configuration =>
      negb (run_configuration_is_valid configuration)
      || negb (has_project st (rcf_project_id configuration)))
    (fun x y => rcf_id y == rcf_id x) (run_fits st) rcf_id); [|reflexivity|intros; apply same_key|].
  2:{ intros x. unfold run_fits. by rewrite orb_false_iff, !negb_false_iff, has_project_true. }
  split; intros [H1 H2].
  - split; [done|]. eapply (count_reflect _ _ p_id); [|exact H1].
    intros x Hx. by apply (kd_each _ _ _ H2).
  - split; [|done]. eapply (count_reflect _ _ p_id (projects st)); [|exact H2].
    intros x Hx. by apply (kd_each _ _ _ H1).
Qed.

Lemma same_slot_true x y : same_slot x y = true <-> slot y = slot x.
Proof. unfold same_slot, slot. rewrite andb_true_iff, !bool_decide_eq_true. split; [by intros [-> ->]|by intros [= -> ->]]. Qed.

Lemma marks_reflect st :
  (forall mark, mark_fits st mark -> rsm_project_id mark ∈ project_ids st) ->
  run_setup_marks_are_invalid st = false <->
  keyed (mark_fits st) slot (run_setup_marks st)
  /\ counted rsm_project_id run_setup_marks_per_project_max (run_setup_marks st).
Proof.
  intros Hproject. unfold run_setup_marks_are_invalid. rewrite orb_false_iff.
  rewrite (keyed_reflect _ (fun mark =>
      negb (setup_mark_is_valid mark)
      || negb (run_configuration_of st (rsm_configuration_id mark) (rsm_project_id mark)))
    same_slot (mark_fits st) slot); [|reflexivity|apply same_slot_true|].
  2:{ intros x. unfold mark_fits. by rewrite orb_false_iff, !negb_false_iff, run_of_true. }
  split; intros [H1 H2].
  - split; [done|]. eapply (count_reflect _ _ p_id); [|exact H1].
    intros x Hx. by apply Hproject, (kd_each _ _ _ H2).
  - split; [|done]. eapply (count_reflect _ _ p_id (projects st)); [|exact H2].
    intros x Hx. by apply Hproject, (kd_each _ _ _ H1).
Qed.

Lemma run_key_project st id project_id :
  keyed (run_fits st) rcf_id (run_configurations st) -> (id, project_id) ∈ run_keys st ->
  project_id ∈ project_ids st.
Proof. intros Hk (run & [= -> ->] & Hr)%list_elem_of_fmap. by apply (kd_each _ _ _ Hk). Qed.

(** ** Versions *)

Lemma target_exists_true st project_id target :
  target_exists st project_id target = true <-> target_fits st project_id target.
Proof.
  unfold target_exists, target_fits. rewrite andb_true_iff.
  change (any (fun project => p_id project == project_id) (projects st)) with (has_project st project_id).
  rewrite has_project_true. destruct (ist_target_kind target); try tauto.
  - by rewrite any_key.
  - apply and_iff_compat_l. destruct (ist_target_id target) as [id|]; simpl.
    + rewrite any_key2_swap. split; [eauto|by intros (? & [= <-] & ?)].
    + split; [done|by intros (? & ? & _)].
  - apply and_iff_compat_l. destruct (ist_target_id target) as [id|]; simpl.
    + rewrite any_key2_swap. split; [eauto|by intros (? & [= <-] & ?)].
    + split; [done|by intros (? & ? & _)].
  - split; [by intros [_ ?]|by intros [_ []]].
Qed.

Lemma of_target_true project_id target version :
  of_target project_id target version = true <-> version_target version = (project_id, target).
Proof. unfold of_target, version_target. rewrite andb_true_iff, !bool_decide_eq_true. split; [by intros [-> ->]|by intros [= -> ->]]. Qed.
Lemma selects_true project_id target selection :
  selects project_id target selection = true <-> selection_target selection = (project_id, target).
Proof. unfold selects, selection_target. rewrite andb_true_iff, !bool_decide_eq_true. split; [by intros [-> ->]|by intros [= -> ->]]. Qed.

(** A place is a target and a sequence number; a place that occurs again and an
    identifier that occurs again are what the loader looks for. *)
Lemma any_or {A} (p q : A -> bool) l : any (fun x => p x || q x) l = any p l || any q l.
Proof. induction l as [|x l IH]; simpl; [done|]. rewrite IH. btauto. Qed.

Lemma same_place_true x y :
  of_target (cv_project_id x) (cv_target x) y && (cv_sequence y == cv_sequence x) = true
  <-> version_place y = version_place x.
Proof.
  rewrite andb_true_iff, of_target_true, bool_decide_eq_true. unfold version_place.
  change (cv_project_id x, cv_target x) with (version_target x).
  split; [intros [H1 H2]; by rewrite H1, H2|]. intros E. injection E as Hp Ht Hs.
  unfold version_target. by rewrite Hp, Ht, Hs.
Qed.

Lemma version_list_reflect st :
  any_with_rest (version_is_invalid st) (configuration_versions st) = false <->
  keyed (version_fits st) cv_id (configuration_versions st)
  /\ NoDup (version_place <$> configuration_versions st)
  /\ counted version_target configuration_versions_per_target_max (configuration_versions st).
Proof.
  set (full := fun version => (configuration_versions_per_target_max
      <? length (retain (of_target (cv_project_id version) (cv_target version))
                   (configuration_versions st)))%nat).
  set (bad := fun version => negb (version_is_well_formed version)
      || negb (target_exists st (cv_project_id version) (cv_target version))).
  rewrite (any_with_rest_ext _ (fun x rest => full x || (any (fun y =>
    of_target (cv_project_id x) (cv_target x) y && (cv_sequence y == cv_sequence x)) rest
    || (bad x || any (fun y => cv_id y == cv_id x) rest)))).
  2:{ intros x rest. unfold version_is_invalid, full, bad. rewrite any_or. btauto. }
  rewrite any_with_rest_or_false.
  assert (forall l, any_with_rest (fun x rest => any (fun y =>
      of_target (cv_project_id x) (cv_target x) y && (cv_sequence y == cv_sequence x)) rest
      || (bad x || any (fun y => cv_id y == cv_id x) rest)) l = false <->
    NoDup (version_place <$> l) /\ keyed (version_fits st) cv_id l) as ->.
  { intros l. rewrite <- (keyed_reflect (fun x rest => bad x || any (fun y => cv_id y == cv_id x) rest) bad
      (fun x y => cv_id y == cv_id x) (version_fits st) cv_id); [|done|intros; apply same_key|].
    2:{ intros x. unfold version_fits, bad. by rewrite orb_false_iff, !negb_false_iff, target_exists_true. }
    rewrite <- (keyed_NoDup version_place (fun x y =>
      of_target (cv_project_id x) (cv_target x) y && (cv_sequence y == cv_sequence x)) l same_place_true).
    apply any_with_rest_or_both. }
  rewrite <- (count_each version_target (fun x => of_target (cv_project_id x) (cv_target x))
    configuration_versions_per_target_max (configuration_versions st)).
  2:{ intros x y. apply of_target_true. }
  unfold full. setoid_rewrite Nat.ltb_ge. tauto.
Qed.

Lemma selection_list_reflect st :
  any_with_rest (selection_is_invalid st) (configuration_version_selections st) = false <->
  keyed (selection_fits (configuration_versions st)) selection_target
    (configuration_version_selections st).
Proof.
  eapply keyed_reflect with
    (same := fun selection => selects (cvs_project_id selection) (cvs_target selection))
    (f := fun selection => negb (selection_is_well_formed selection)
      || negb (any (fun version =>
              (cv_id version == cvs_version_id selection)
              && of_target (cvs_project_id selection) (cvs_target selection) version)
            (configuration_versions st))).
  - intros x rest. unfold selection_is_invalid. btauto.
  - intros x y. apply selects_true.
  - intros x. unfold selection_fits. rewrite orb_false_iff, !negb_false_iff, any_true.
    apply and_iff_compat_l. split; intros (version & Hv & H1); exists version.
    + apply andb_true_iff in H1 as [H1 H2]. apply bool_decide_eq_true in H1. by apply of_target_true in H2.
    + destruct H1 as [H1 H2]. split; [done|]. apply andb_true_iff. split; [by apply bool_decide_eq_true|].
      by apply of_target_true.
Qed.

Lemma versions_reflect st : configuration_versions_are_invalid st = false <-> versions_ok st.
Proof.
  unfold configuration_versions_are_invalid.
  rewrite !orb_false_iff, version_list_reflect, selection_list_reflect, any_false.
  assert ((forall x, x ∈ configuration_versions st ->
     negb (any (selects (cv_project_id x) (cv_target x)) (configuration_version_selections st)) = false)
    <-> (forall version, version ∈ configuration_versions st ->
      version_target version ∈ selection_target <$> configuration_version_selections st)) as ->.
  { split; intros Hs version Hv; specialize (Hs version Hv).
    - apply negb_false_iff, any_true in Hs as (selection & Hin & Hs). apply selects_true in Hs.
      apply list_elem_of_fmap. eauto.
    - apply negb_false_iff, any_true. apply list_elem_of_fmap in Hs as (selection & Hs & Hin).
      exists selection. split; [done|]. by apply selects_true. }
  split; [intros [[(?&?&?) ?] ?]; by split|intros []; tauto].
Qed.

Lemma routines_reflect st :
  tracker_configurations_are_invalid st = false <->
  keyed (routine_fits st) tc_id (tracker_configurations st).
Proof.
  unfold tracker_configurations_are_invalid.
  eapply keyed_reflect with (same := fun x y => tc_id y == tc_id x)
    (f := fun configuration => negb (tracker_configuration_is_valid configuration)
      || negb (has_project st (tc_project_id configuration))
      || any (fun task_id => negb (is_task_of st (tc_project_id configuration) task_id))
           (tc_related_task_ids configuration)
      || any (fun task_id => negb (is_task_of st (tc_project_id configuration) task_id))
           (tc_pending_routine_findings configuration ≫= prf_related_task_ids)).
  - intros x rest. btauto.
  - intros x y. apply same_key.
  - intros x. unfold routine_fits.
    rewrite !orb_false_iff, !negb_false_iff, has_project_true, !any_false.
    setoid_rewrite negb_false_iff. setoid_rewrite is_task_of_true. setoid_rewrite list_elem_of_bind.
    split; intros H; decompose [and] H; split_and!; eauto. intros id (finding & ? & ?). eauto.
Qed.

Lemma playbooks_reflect st :
  playbook_configurations_are_invalid st = false <->
  keyed (playbook_fits st) pb_project_id (playbook_configurations st).
Proof.
  unfold playbook_configurations_are_invalid.
  eapply keyed_reflect with (same := fun x y => pb_project_id y == pb_project_id x).
  - reflexivity.
  - intros x y. apply same_key.
  - intros x. unfold playbook_fits, names_no_routine.
    rewrite !orb_false_iff, !negb_false_iff, has_project_true, any_false.
    setoid_rewrite negb_false_iff. setoid_rewrite has_routine_true. tauto.
Qed.

Lemma same_step_true x y : same_step x y = true <-> step y = step x.
Proof. unfold same_step, step. rewrite andb_true_iff, !bool_decide_eq_true. split; [by intros [-> ->]|by intros [= -> ->]]. Qed.

Lemma find_task_unique st id :
  NoDup (t_id <$> tasks st) ->
  forall project_id, (id, project_id) ∈ task_keys st <->
  exists task, find_task st id = Some task /\ t_project_id task = project_id.
Proof.
  intros Hn project_id. unfold find_task. split.
  - intros (task & [= -> ->] & Ht)%list_elem_of_fmap. exists task. split; [|done].
    by apply find_first_unique.
  - intros (task & [Ht Hid]%find_first_unique & <-); [|done]. apply list_elem_of_fmap.
    exists task. by rewrite <- Hid.
Qed.

Lemma progress_reflect st :
  NoDup (t_id <$> tasks st) ->
  playbook_step_progress_is_invalid st = false <->
  keyed (progress_fits st) step (playbook_step_progress st).
Proof.
  intros Hn. unfold playbook_step_progress_is_invalid.
  eapply keyed_reflect with (same := same_step)
    (f := fun progress =>
      match find_task st (psp_task_id progress) with
      | None => true
      | Some task =>
          negb (step_progress_is_valid progress)
          || negb (any (fun configuration =>
                  (pb_project_id configuration == t_project_id task)
                  && progress_matches_current_step configuration progress)
                (playbook_configurations st))
      end).
  - intros x rest. unfold step_progress_conflicts. by destruct (find_task _ _).
  - apply same_step_true.
  - intros x. unfold progress_fits. setoid_rewrite find_task_unique; [|done].
    destruct (find_task st (psp_task_id x)) as [task|] eqn:E.
    + rewrite orb_false_iff, !negb_false_iff, any_true. apply and_iff_compat_l. unfold asks. split.
      * intros (playbook & Hp & Hm). guards. exists (t_project_id task). split; eauto.
      * intros (project_id & (? & [= <-] & <-) & playbook & Hp & Hproject & Hm). exists playbook.
        split; [done|]. by rewrite Hproject, bool_decide_eq_true_2.
    + split; [done|]. by intros (_ & project_id & (? & ? & _) & _).
Qed.

Lemma all_with_before_snoc {A} (f : list A -> A -> bool) before l x :
  all_with_before f before (l ++ [x]) = all_with_before f before l && f (before ++ l) x.
Proof.
  revert before. induction l as [|y l IH]; intros before; simpl.
  - rewrite app_nil_r. btauto.
  - rewrite IH, <- app_assoc. simpl. btauto.
Qed.

Lemma evaluations_reflect st :
  playbook_evaluations_are_invalid st = false <->
  keyed (evaluation_fits st) per_id (playbook_evaluations st)
  /\ counted per_project_id playbook_evaluations_per_project_max (playbook_evaluations st).
Proof.
  unfold playbook_evaluations_are_invalid. rewrite negb_false_iff.
  generalize (playbook_evaluations st) as l. intros l. induction l as [|x l IH] using rev_ind.
  { split; [|done]. intros _. split; [|intros k; simpl; lia].
    split; [by intros ? ?%not_elem_of_nil|apply NoDup_nil_2]. }
  rewrite all_with_before_snoc, andb_true_iff, IH, keyed_app_iff, counted_app_iff.
  unfold evaluation_is_accepted, evaluation_fits. cbn [app].
  rewrite !andb_true_iff, negb_true_iff, any_key_fresh, Nat.leb_le, has_project_true.
  unfold of_key, lt. tauto.
Qed.

(** ** Tasks *)

Lemma unique_ids_true ids : unique_ids ids = true <-> NoDup ids.
Proof.
  unfold unique_ids. rewrite (all_with_rest_NoDup (fun id => id) ids). by rewrite list_fmap_id.
Qed.

Lemma same_branch_true x y :
  same_branch x y = true <->
  (fun membership => (tbm_repository_common_dir membership, tbm_ref_name membership)) y =
  (fun membership => (tbm_repository_common_dir membership, tbm_ref_name membership)) x.
Proof. unfold same_branch. rewrite andb_true_iff, !bool_decide_eq_true. split; [by intros [-> ->]|by intros [= -> ->]]. Qed.

Lemma branches_reflect st :
  NoDup (t_id <$> tasks st) ->
  task_branch_sets_are_invalid st = false <->
  keyed (branch_set_fits st) tbs_task_id (task_branch_sets st)
  /\ NoDup (membership_ids (task_branch_sets st)).
Proof.
  intros Hn. unfold task_branch_sets_are_invalid. rewrite negb_false_iff, andb_true_iff, unique_ids_true.
  assert (all (branch_set_is_valid st) (task_branch_sets st) = true <->
    keyed (branch_set_fits st) tbs_task_id (task_branch_sets st)) as ->; [|done].
  assert (forall set, branch_set_is_valid st set = true <->
    branch_set_fits st set
    /\ length (retain (of_key tbs_task_id (tbs_task_id set)) (task_branch_sets st)) = 1) as Hset.
  { intros set. unfold branch_set_is_valid, branch_set_fits, find_task.
    destruct (find_first _ (tasks st)) as [task|] eqn:E.
    - apply find_first_unique in E as [Ht Hid]; [|done].
      assert (forall t, t ∈ tasks st -> t_id t = tbs_task_id set -> t = task) as Hu.
      { intros t ? ?. apply (unique_elem t_id (tasks st)); congruence. }
      destruct (t_branch task) as [binding|] eqn:Eb.
      + rewrite !andb_true_iff, Nat.leb_le, Nat.eqb_eq, all_true, all_with_rest_negb, negb_true_iff.
        rewrite (keyed_NoDup _ same_branch _ same_branch_true). split.
        * intros [[[Hl Hc] Hm] Hb]. split; [|done]. exists task, binding. done.
        * intros [(t & b & Hin & Hk & Hb & Hl & Hm & Hd) Hc]. apply Hu in Hk as ->; [|done].
          rewrite Eb in Hb. injection Hb as <-. done.
      + split; [done|]. intros [(t & b & Hin & Hk & Hb & _) _]. apply Hu in Hk as ->; [|done]. congruence.
    - split; [done|]. intros [(t & b & Hin & Hk & _) _]. eapply find_first_None in E; [|exact Hin].
      by apply bool_decide_eq_false in E. }
  rewrite all_true. setoid_rewrite Hset. split.
  - intros H. split; [intros set Hs; by apply H|]. apply counts_one. intros set Hs. by apply H.
  - intros [He Hu] set Hs. split; [by apply He|]. by apply counts_one.
Qed.

Lemma sources_reflect st :
  task_source_configurations_are_invalid st = false <->
  keyed (source_fits_project st) tsc_id (task_source_configurations st)
  /\ counted tsc_project_id task_sources_per_project_max (task_source_configurations st).
Proof.
  unfold task_source_configurations_are_invalid.
  rewrite (any_with_rest_ext _ (fun source rest =>
    (task_sources_per_project_max <? sources_of st (tsc_project_id source))%nat
    || (negb (task_source_is_valid source) || negb (has_project st (tsc_project_id source))
        || any (fun candidate => tsc_id candidate == tsc_id source) rest))) by (intros; btauto).
  rewrite any_with_rest_or_false.
  rewrite (keyed_reflect _ (fun source => negb (task_source_is_valid source)
      || negb (has_project st (tsc_project_id source)))
    (fun x y => tsc_id y == tsc_id x) (source_fits_project st) tsc_id); [|reflexivity|intros; apply same_key|].
  2:{ intros x. unfold source_fits_project. by rewrite orb_false_iff, !negb_false_iff, has_project_true. }
  rewrite <- (count_each tsc_project_id (fun x y => tsc_project_id y == tsc_project_id x)).
  2:{ intros x y. apply same_key. }
  unfold sources_of. setoid_rewrite Nat.ltb_ge. tauto.
Qed.

Lemma automation_reflect st :
  project_task_automation_configurations_are_invalid st = false <->
  keyed (automation_fits st) pta_project_id (project_task_automation_configurations st).
Proof.
  unfold project_task_automation_configurations_are_invalid.
  eapply keyed_reflect with (same := fun x y => pta_project_id y == pta_project_id x).
  - reflexivity.
  - intros x y. apply same_key.
  - intros x. unfold automation_fits. by rewrite !orb_false_iff, !negb_false_iff, has_project_true.
Qed.

Lemma overrides_reflect st :
  mcp_overrides_are_invalid st = false <->
  keyed override_fits mto_tool (mcp_tool_description_overrides st).
Proof.
  unfold mcp_overrides_are_invalid.
  eapply keyed_reflect with (same := fun x y => mto_tool y == mto_tool x).
  - reflexivity.
  - intros x y. apply same_key.
  - intros x. unfold override_fits. by destruct (mcp_description_new _).
Qed.

(** ** The whole invariant *)

Lemma records_valid `{UuidParser} `{JsonText} st :
  records_ok st <-> NoDup (t_id <$> tasks st) /\ records_are_invalid st = false.
Proof.
  unfold records_are_invalid. rewrite !orb_false_iff, !negb_false_iff. split.
  - intros [[] [Hs ?] [Hr ? ? ?] Hv [] [] Hc]. split; [done|]. split_and!; try done.
    + by apply stewards_reflect.
    + apply conversations_reflect; [|done]. by apply Hs.
    + by apply runs_reflect.
    + apply marks_reflect; [|done]. intros mark [_ Hm]. by eapply run_key_project.
    + by apply versions_reflect.
    + by apply routines_reflect.
    + by apply playbooks_reflect.
    + by apply progress_reflect.
    + by apply evaluations_reflect.
    + by apply branches_reflect.
    + by apply sources_reflect.
    + by apply automation_reflect.
    + by apply overrides_reflect.
  - intros [Hn Hall]. decompose [and] Hall.
    assert (keyed (steward_fits st) stw_project_id (steward_configurations st)) as Hs
      by by apply stewards_reflect.
    assert (keyed (run_fits st) rcf_id (run_configurations st)) by by apply runs_reflect.
    assert (forall mark, mark_fits st mark -> rsm_project_id mark ∈ project_ids st).
    { intros mark [_ Hm]. by eapply run_key_project. }
    constructor; [constructor|constructor|constructor| |constructor|constructor|]; try done.
    + by apply overrides_reflect.
    + apply conversations_reflect; [|done]. by apply Hs.
    + by apply runs_reflect.
    + by apply marks_reflect.
    + by apply marks_reflect.
    + by apply versions_reflect.
    + by apply routines_reflect.
    + by apply playbooks_reflect.
    + by apply progress_reflect.
    + by apply evaluations_reflect.
    + by apply evaluations_reflect.
    + by apply branches_reflect.
    + by apply branches_reflect.
    + by apply sources_reflect.
    + by apply sources_reflect.
    + by apply automation_reflect.
Qed.
