(* ===== verification/VersionInvariant.v ===== *)
(** * Configuration versions stay acceptable

    How [versions_ok] survives a recorded version, a selection, the removal of a
    target and a change of what targets exist. *)

From S2P Require Import Prelude Keyed Text Domain DomainRules DomainConfig StoreState RunRecords.
From S2P Require Import SessionInvariant RecordInvariant.

Local Open Scope string_scope.
Local Open Scope list_scope.

(** ** Other records change *)

Lemma versions_ok_change st st' :
  versions_ok st ->
  configuration_versions st' = configuration_versions st ->
  configuration_version_selections st' = configuration_version_selections st ->
  (forall version, version ∈ configuration_versions st ->
     target_fits st (cv_project_id version) (cv_target version) ->
     target_fits st' (cv_project_id version) (cv_target version)) ->
  versions_ok st'.
Proof.
  intros [Hv Hp Hc Hs Hsel] Ev Es Ht. split; rewrite ?Ev, ?Es; try done.
  eapply keyed_impl; [exact Hv|]. intros version Hin [Hw Hf]. split; auto.
Qed.

(** The Project, Steward, Routine or run configuration of the target stays. *)
Lemma target_fits_kept st st' project_id target :
  target_fits st project_id target ->
  (project_id ∈ project_ids st -> project_id ∈ project_ids st') ->
  (ist_target_kind target = ITK_StewardInstructions ->
     project_id ∈ steward_projects st -> project_id ∈ steward_projects st') ->
  (forall id, target = routine_target id ->
     (id, project_id) ∈ routine_keys st -> (id, project_id) ∈ routine_keys st') ->
  (forall id, target = run_target id -> (id, project_id) ∈ run_keys st -> (id, project_id) ∈ run_keys st') ->
  target_fits st' project_id target.
Proof.
  intros [Hp Ht] H1 H2 H3 H4. split; [auto|]. destruct target as [kind tid]. simpl in *.
  destruct kind; auto; destruct Ht as (id & -> & ?); exists id; (split; [done|]); auto.
Qed.

Lemma target_fits_more st st' project_id target :
  target_fits st project_id target ->
  (project_id ∈ project_ids st -> project_id ∈ project_ids st') ->
  (project_id ∈ steward_projects st -> project_id ∈ steward_projects st') ->
  (forall id, (id, project_id) ∈ routine_keys st -> (id, project_id) ∈ routine_keys st') ->
  (forall id, (id, project_id) ∈ run_keys st -> (id, project_id) ∈ run_keys st') ->
  target_fits st' project_id target.
Proof. intros. eapply target_fits_kept; eauto. Qed.

(** ** Selections *)

Lemma select_in_targets project_id target id selections :
  (forall place, place ∈ selection_target <$> selections ->
     place ∈ selection_target <$> select_in project_id target id selections)
  /\ (project_id, target) ∈ selection_target <$> select_in project_id target id selections.
Proof.
  unfold select_in. rewrite find_mut_position. destruct (position _ _) as [[i x]|] eqn:E.
  - apply position_Some in E as [Hi Hx]. apply selects_true in Hx.
    rewrite (fmap_insert_same selection_target _ i x) by done. split; [done|].
    rewrite <- Hx. apply list_elem_of_fmap. eauto using list_elem_of_lookup_2.
  - rewrite fmap_app. split; [intros place ?; apply elem_of_app; by left|].
    apply elem_of_app. right. by left.
Qed.

Lemma select_in_keyed (P Q : ConfigurationVersionSelection -> Prop) project_id target id selections :
  keyed P selection_target selections ->
  (forall x, x ∈ selections -> selection_target x <> (project_id, target) -> P x -> Q x) ->
  Q (MkConfigurationVersionSelection project_id target id) ->
  keyed Q selection_target (select_in project_id target id selections).
Proof.
  intros [He Hu] Hpq Hq. unfold select_in. rewrite find_mut_position.
  destruct (position _ _) as [[i x]|] eqn:E.
  - apply position_Some in E as [Hi Hx]. apply selects_true in Hx.
    assert (x <| cvs_version_id := id |> = MkConfigurationVersionSelection project_id target id) as Ex.
    { destruct x as [p t v]. cbn in *. by injection Hx as -> ->. }
    split; [|by rewrite (fmap_insert_same selection_target _ i x)].
    intros y [j Hj]%list_elem_of_lookup_1. destruct (decide (i = j)) as [<-|Hne].
    + rewrite list_lookup_insert_eq in Hj by (by eapply lookup_lt_Some). injection Hj as <-. by rewrite Ex.
    + rewrite list_lookup_insert_ne in Hj by done. apply Hpq; eauto using list_elem_of_lookup_2.
      intros Hy. apply Hne. eapply NoDup_lookup; [exact Hu|..]; rewrite list_lookup_fmap.
      * by rewrite Hi.
      * rewrite Hj. simpl. congruence.
  - rewrite position_None in E.
    assert (forall x, x ∈ selections -> selection_target x <> (project_id, target)) as Hne.
    { intros x Hx Ht. specialize (E x Hx). apply selects_true in Ht. congruence. }
    apply keyed_app; [|done|].
    + split; [|done]. intros x Hx. apply Hpq; auto.
    + intros (x & Hx & Hin)%list_elem_of_fmap. by apply (Hne x).
Qed.

(** The versions of one target change, and one of them is selected. *)
Lemma reselect_ok st project_id target id versions :
  versions_ok st ->
  keyed (version_fits st) cv_id versions -> NoDup (version_place <$> versions) ->
  counted version_target configuration_versions_per_target_max versions ->
  (forall x, x ∈ configuration_versions st -> version_target x <> (project_id, target) -> x ∈ versions) ->
  (forall x, x ∈ versions -> x ∈ configuration_versions st \/ version_target x = (project_id, target)) ->
  (exists version, version ∈ versions /\ cv_id version = id /\ version_target version = (project_id, target)) ->
  versions_ok (set_active_version project_id target id (st <| configuration_versions := versions |>)).
Proof.
  intros [_ _ _ Hs Hsel] Hv Hp Hc Hothers Hback (version & Hin & Hid & Ht).
  pose proof (select_in_targets project_id target id (configuration_version_selections st)) as [Hmore Hnew].
  split; cbn [set_active_version configuration_versions configuration_version_selections set_field];
    try done.
  - eapply select_in_keyed; [exact Hs|..].
    + intros x _ Hne (Hw & v & Hvin & Hvid & Hvt). split; [done|]. exists v. split; [|done].
      apply Hothers; [done|congruence].
    + split; [|by exists version]. destruct (kd_each _ _ _ Hv version Hin) as [Hw _].
      unfold version_is_well_formed in Hw. unfold version_target in Ht. injection Ht as Ep Et.
      guards. unfold selection_is_well_formed. simpl. rewrite <- Ep, <- Et, <- Hid.
      apply andb_true_iff; split; [apply andb_true_iff; split|]; [by apply negb_true_iff|done|done].
  - intros x [Hx| ->]%Hback; [|done]. by apply Hmore, Hsel.
Qed.

(** A version of the target is selected, after versions of the target left. *)
Lemma select_ok st project_id target id kept :
  versions_ok st -> kept `sublist_of` configuration_versions st ->
  (forall x, x ∈ configuration_versions st -> version_target x <> (project_id, target) -> x ∈ kept) ->
  (exists version, version ∈ kept /\ cv_id version = id /\ version_target version = (project_id, target)) ->
  versions_ok (set_active_version project_id target id (st <| configuration_versions := kept |>)).
Proof.
  intros Hok Hsub Hothers Hversion. destruct Hok as [Hv Hp Hc Hs Hsel] eqn:E.
  apply reselect_ok; [done|..]; try done.
  - exact (keyed_sublist _ _ _ _ Hv Hsub).
  - eapply sublist_NoDup; [exact Hp|]. by apply fmap_sublist.
  - exact (counted_sublist _ _ _ _ Hc Hsub).
  - intros x Hx. left. eapply elem_of_submseteq; [exact Hx|]. by apply sublist_submseteq.
Qed.

(** ** Recording *)

(** What a caller owes a version it records. *)
Definition version_is_new (st : CurrentState) (id project_id : string) (target : ImproverSessionTarget)
    (content : string) : bool :=
  improver_target_is_well_formed target && bounded_version_id id
  && negb (any (fun version => cv_id version == id) (configuration_versions st))
  && is_none_or (newest_version st project_id target) (fun newest => cv_sequence newest <? u64_max)%N
  && negb (str_is_empty content) && (len content <=? configuration_version_content_max_bytes)%N.
Definition record_is_bounded (record : VersionRecord) : bool :=
  (len (vr_summary record) <=? configuration_version_summary_max_bytes)%N
  && is_none_or (vr_source_session_id record) bounded_version_id
  && (0 <? vr_created_at_epoch_ms record)%N.

Lemma next_sequence_positive st project_id target :
  (0 < next_sequence st project_id target)%N.
Proof.
  unfold next_sequence. destruct (newest_version _ _ _); [|done]. unfold u64_saturating_add, u64_max. lia.
Qed.

Lemma of_target_key project_id target versions :
  retain (of_target project_id target) versions
  = retain (of_key version_target (project_id, target)) versions.
Proof.
  induction versions as [|x l IH]; simpl; [done|]. rewrite IH.
  assert (of_target project_id target x = of_key version_target (project_id, target) x) as ->; [|done].
  apply eq_true_iff_eq. by rewrite of_target_true, of_key_true.
Qed.

Lemma versions_may_record st project_id target :
  versions_ok st ->
  is_none_or (newest_version st project_id target) (fun newest => cv_sequence newest <? u64_max)%N = true ->
  may_record st project_id target = true.
Proof.
  intros [_ _ Hc _ _] Hn. unfold may_record. rewrite Hn, andb_true_r, of_target_key. apply Nat.leb_le, Hc.
Qed.

Lemma record_version_ok id project_id target content record st :
  versions_ok st -> target_fits st project_id target -> negb (trim_is_empty project_id) = true ->
  version_is_new st id project_id target content = true -> record_is_bounded record = true ->
  versions_ok (record_version id project_id target content record st).2.
Proof.
  intros Hok Ht Hproject Hnew Hrecord.
  destruct (is_some_and (active_version st project_id target) (fun version => cv_content version == content))
    eqn:Hc; [by rewrite record_version_kept|].
  unfold version_is_new, record_is_bounded in *.
  apply andb_true_iff in Hnew as [[[[[Hw Hid]%andb_true_iff Hfresh]%andb_true_iff Hmax]%andb_true_iff Hne]%andb_true_iff Hlen].
  apply andb_true_iff in Hrecord as [[Hsum Hsource]%andb_true_iff Htime].
  destruct (record_version_appends id project_id target content record st
    (versions_may_record _ _ _ Hok Hmax) Hc) as (kept & [Hsub Hothers Hcount] & ->).
  set (version := MkConfigurationVersion _ _ _ _ _ _ _ _).
  assert (forall x, x ∈ kept -> x ∈ configuration_versions st) as Hk.
  { intros x Hx. eapply elem_of_submseteq; [exact Hx|]. by apply sublist_submseteq. }
  cbn [snd]. apply reselect_ok; [done|..].
  - apply keyed_app; [exact (keyed_sublist _ _ _ _ (vo_versions _ Hok) Hsub)|..].
    + split; [|done]. unfold version_is_well_formed. simpl.
      rewrite Hid, Hproject, Hw, Hne, Hlen, Hsum, Hsource, Htime, !andb_true_r. simpl.
      apply N.ltb_lt, next_sequence_positive.
    + apply negb_true_iff, any_key_fresh in Hfresh. intros (x & Hx & Hin)%list_elem_of_fmap.
      apply Hfresh. simpl in Hx. rewrite Hx. by apply list_elem_of_fmap_2, Hk.
  - rewrite fmap_app. apply list.NoDup_app. split_and!.
    + eapply sublist_NoDup; [exact (vo_places _ Hok)|]. by apply fmap_sublist.
    + intros place (x & -> & Hx)%list_elem_of_fmap Hp%list_elem_of_singleton.
      unfold version_place in Hp. injection Hp as Ep Et Es.
      assert (cv_sequence x < next_sequence st project_id target)%N; [|simpl in Es; lia].
      apply next_sequence_new; [by apply Hk| |done]. apply of_target_true. unfold version_target. congruence.
    + apply NoDup_singleton.
  - apply counted_app; [exact (counted_sublist _ _ _ _ (vo_count _ Hok) Hsub)|].
    change (version_target version) with (project_id, target). by rewrite <- of_target_key.
  - intros x Hx Hne'. apply elem_of_app. left. apply Hothers; [done|].
    apply not_true_iff_false. rewrite of_target_true. done.
  - intros x [Hx| ->%list_elem_of_singleton]%elem_of_app; [left; auto|by right].
  - exists version. split; [|done]. apply elem_of_app. right. by left.
Qed.

(** ** The rest of the state *)

Lemma record_version_frame id project_id target content record st :
  exists versions selections,
    (record_version id project_id target content record st).2 =
    st <| configuration_versions := versions |> <| configuration_version_selections := selections |>.
Proof.
  unfold record_version. destruct (is_some_and _ _).
  - exists (configuration_versions st), (configuration_version_selections st). by destruct st.
  - eexists _, _. reflexivity.
Qed.

(** ** A target leaves *)

Lemma remove_target_ok st project_id target :
  versions_ok st -> versions_ok (remove_configuration_target_state project_id target st).
Proof.
  intros [Hv Hp Hc Hs Hsel]. split; cbn [remove_configuration_target_state configuration_versions
    configuration_version_selections set_field].
  - by apply keyed_retain.
  - eapply sublist_NoDup; [exact Hp|]. apply fmap_sublist, retain_sublist.
  - by apply counted_retain.
  - eapply keyed_impl; [by apply keyed_retain|]. intros x [_ Hx]%elem_of_retain (Hw & v & Hin & Hid & Ht).
    split; [done|]. exists v. split; [|done]. apply elem_of_retain. split; [done|].
    apply negb_true_iff, not_true_iff_false. rewrite of_target_true, Ht, <- selects_true.
    by apply not_true_iff_false, negb_true_iff.
  - intros x [Hx Hne]%elem_of_retain. apply Hsel, list_elem_of_fmap in Hx as (sel & Hsx & Hin).
    apply list_elem_of_fmap. exists sel. split; [done|]. apply elem_of_retain. split; [done|].
    apply negb_true_iff, not_true_iff_false. rewrite selects_true, <- Hsx, <- of_target_true.
    by apply not_true_iff_false, negb_true_iff.
Qed.

(** ** The version in use *)

Lemma active_version_target st project_id target active :
  versions_ok st -> active_version st project_id target = Some active ->
  version_target active = (project_id, target).
Proof.
  intros [[_ Hu] _ _ Hs _]. unfold active_version.
  destruct (find_first (selects project_id target) _) as [selection|] eqn:E; simpl; [|done].
  intros Ha. apply find_first_Some in E as [Hin Hsel]. apply selects_true in Hsel.
  destruct (kd_each _ _ _ Hs _ Hin) as (_ & version & Hv & Hid & Ht).
  pose proof (find_first_key cv_id _ _ _ Ha) as Hk. apply find_first_elem in Ha.
  rewrite <- Hsel, <- Ht. f_equal. apply (unique_elem cv_id (configuration_versions st)); congruence.
Qed.

(** The summary, the source and the time of one version change. *)
Lemma attributed_ok st id summary source now version versions :
  versions_ok st ->
  (len summary <=? configuration_version_summary_max_bytes)%N = true ->
  is_none_or source bounded_version_id = true ->
  find_mut (fun version => cv_id version == id) (attributed summary source now) (configuration_versions st)
    = Some (version, versions) ->
  versions_ok (st <| configuration_versions := versions |>).
Proof.
  intros [Hv Hp Hc Hs Hsel] Hsum Hsource (i & old & Hi & -> & ->)%find_mut_Some.
  apply position_Some in Hi as [Hi _]. set (new := attributed summary source now old).
  assert (old ∈ configuration_versions st) as Hold by (by eapply list_elem_of_lookup_2).
  split; cbn [configuration_versions configuration_version_selections set_field].
  - eapply (keyed_insert cv_id); [exact Hv|exact Hi|done|].
    destruct (kd_each _ _ _ Hv old Hold) as [Hw Ht]. split; [|exact Ht].
    unfold version_is_well_formed in *. simpl. rewrite Hsum, Hsource, !andb_true_iff in *.
    split_and!; try tauto. apply N.ltb_lt. lia.
  - rewrite (fmap_insert_same version_place _ i old); done.
  - by eapply counted_insert.
  - eapply keyed_impl; [exact Hs|]. intros sel _ (Hw & v & Hin & Hid & Ht). split; [done|].
    destruct (decide (v = old)) as [->|Hne].
    + exists new. split; [|done]. apply list_elem_of_lookup. exists i.
      apply list_lookup_insert_eq. by eapply lookup_lt_Some.
    + exists v. split; [|done]. apply list_elem_of_lookup_1 in Hin as [j Hj].
      apply list_elem_of_lookup. exists j. rewrite list_lookup_insert_ne; [done|congruence].
  - intros v [->|Hin]%elem_of_insert_list; [exact (Hsel old Hold)|auto].
Qed.
