(* ===== verification/RecordPreservation.v ===== *)
(** * Settings, runs and versions stay acceptable

    The frame of the invariant - what a method does not touch stays as it is -
    and the methods of accounts, the library, preferences, run configurations
    and configuration versions. *)

From S2P Require Import Prelude Keyed Text Domain DomainRules DomainConfig StoreState Transactions.
From S2P Require Import SessionRecords RunRecords AccountRecords RoutineRecords TaskRecords.
From S2P Require Import CurrentValidation SessionInvariant SessionPreservation.
From S2P Require Import RecordTransactions RecordInvariant VersionInvariant.

Local Open Scope string_scope.
Local Open Scope list_scope.

(** ** The frame *)

Section frame.
Context `{JsonText}.

Lemma messages_ext st st' ids expected messages :
  projects st' = projects st ->
  messages_are_invalid st' ids expected messages = messages_are_invalid st ids expected messages.
Proof.
  intros Hp. revert ids expected. induction messages as [|message messages IH]; intros ids expected; simpl; [done|].
  unfold has_project. rewrite Hp. destruct (_ || _); [done|]. by destruct (u64_checked_add _ _).
Qed.

Lemma companion_same st st' :
  projects st' = projects st -> companion_messages st' = companion_messages st ->
  companion_records_are_invalid st = false -> companion_records_are_invalid st' = false.
Proof.
  intros Hp Hm. unfold companion_records_are_invalid. by rewrite Hm, (messages_ext st st' _ _ _ Hp).
Qed.
End frame.

(** [frame H] leaves the parts of the invariant that a state whose other fields
    are those of [H]'s does not have by conversion. *)
Ltac keep H :=
  lazymatch goal with
  | |- valid_agent_accounts _ = true => exact (se_accounts _ (rk_settings _ H))
  | |- agent_library_is_valid _ = true => exact (se_library _ (rk_settings _ H))
  | |- is_some_and _ _ = false => exact (se_selection _ (rk_settings _ H))
  | |- keyed _ mto_tool _ => exact (se_overrides _ (rk_settings _ H))
  | |- keyed _ stw_project_id _ => exact (sk_stewards _ (rk_stewards _ H))
  | |- keyed _ scr_project_id _ => exact (sk_conversations _ (rk_stewards _ H))
  | |- keyed _ rcf_id _ => exact (ro_runs _ (rk_runs _ H))
  | |- counted rcf_project_id _ _ => exact (ro_run_count _ (rk_runs _ H))
  | |- keyed _ slot _ => exact (ro_marks _ (rk_runs _ H))
  | |- counted rsm_project_id _ _ => exact (ro_mark_count _ (rk_runs _ H))
  | |- versions_ok _ => destruct (rk_versions _ H) as [? ? ? ? ?]; constructor; assumption
  | |- keyed _ tc_id _ => exact (pk_routines _ (rk_playbooks _ H))
  | |- keyed _ pb_project_id _ => exact (pk_playbooks _ (rk_playbooks _ H))
  | |- keyed _ step _ => exact (pk_progress _ (rk_playbooks _ H))
  | |- keyed _ per_id _ => exact (pk_evaluations _ (rk_playbooks _ H))
  | |- counted per_project_id _ _ => exact (pk_evaluation_count _ (rk_playbooks _ H))
  | |- NoDup (t_id <$> _) => exact (tk_ids _ (rk_tasks _ H))
  | |- issue_links_are_invalid _ = false => exact (tk_links _ (rk_tasks _ H))
  | |- keyed _ tbs_task_id _ => exact (tk_branches _ (rk_tasks _ H))
  | |- NoDup (membership_ids _) => exact (tk_memberships _ (rk_tasks _ H))
  | |- keyed _ tsc_id _ => exact (tk_sources _ (rk_tasks _ H))
  | |- counted tsc_project_id _ _ => exact (tk_source_count _ (rk_tasks _ H))
  | |- keyed _ pta_project_id _ => exact (tk_automation _ (rk_tasks _ H))
  | |- companion_records_are_invalid _ = false =>
      apply (companion_same _ _) with (3 := rk_companion _ H); reflexivity
  end.
Ltac split_records := constructor; [constructor|constructor|constructor| |constructor|constructor|].
Ltac frame H := split_records; try (keep H).

Section preservation.
Context `{UuidParser} `{JsonText}.

Lemma records_ok_committed st : records_ok st -> records_ok (committed st).
Proof.
  intros Hok. unfold committed, prune_session_profiles. destruct (session_agent_profiles st); frame Hok.
Qed.

(** What a method that succeeds leaves. *)
Definition fine_after {A} (r : result StoreError A * Store) : Prop :=
  post (fun _ s => records_ok (state s)) r.

Lemma fine_answered {A} (a : A) s : records_ok (state s) -> fine_after (Ok a, s).
Proof. done. Qed.
Lemma fine_refused {A} e s : fine_after (Err (A := A) e, s).
Proof. done. Qed.
Lemma fine_install {A} previous next (a : A) s : records_ok next -> fine_after (install previous next a s).
Proof. intros Hn. apply post_install. intros. by apply records_ok_committed. Qed.
Lemma fine_install_revision previous next s :
  records_ok next -> fine_after (install_revision previous next s).
Proof. intros Hn. apply post_install_revision. intros. by apply records_ok_committed. Qed.
End preservation.

Ltac fine_exit :=
  lazymatch goal with
  | |- fine_after (Err _, _) => apply fine_refused
  | |- fine_after (Ok _, _) => apply fine_answered; try assumption
  | |- fine_after (install _ _ _ _) => apply fine_install
  | |- fine_after (install_revision _ _ _) => apply fine_install_revision
  end.
Ltac fine_code := repeat first [fine_exit | run_step].

(** ** Accounts, library, preferences *)

Lemma account_rows_unique rows :
  valid_account_rows rows = true -> NoDup (aa_account_id <$> rows).
Proof.
  unfold valid_account_rows. intros Hv. apply andb_true_iff in Hv as [_ Hv].
  rewrite all_with_rest_and in Hv. apply andb_true_iff in Hv as [_ Hv].
  rewrite all_with_rest_negb in Hv. apply negb_true_iff in Hv.
  rewrite (any_with_rest_ext _ (fun x rest => any (fun y => aa_account_id y == aa_account_id x) rest
    || any (fun y => eq_ignore_ascii_case (aa_name y) (aa_name x)) rest)) in Hv
    by (intros; apply any_or).
  apply any_with_rest_or_both in Hv as [Hv _]. by apply any_with_rest_NoDup in Hv.
Qed.

(** Making an account the default keeps the rows of its provider valid. *)
Definition defaulted (id : string) (account : AgentAccount) : AgentAccount :=
  account <| aa_is_default := (aa_account_id account == id) |>.

Lemma defaulted_rows rows id :
  valid_account_rows rows = true -> id ∈ aa_account_id <$> rows ->
  valid_account_rows (defaulted id <$> rows) = true.
Proof.
  intros Hv Hid. pose proof (account_rows_unique rows Hv) as Hn. unfold valid_account_rows in *.
  apply andb_true_iff in Hv as [[[[Hne Hlen]%andb_true_iff _]%andb_true_iff Hsys]%andb_true_iff Hrest].
  rewrite length_fmap, Hlen, all_with_rest_fmap.
  assert (any (fun account => aa_account_id account == system_agent_account_id) (defaulted id <$> rows)
    = true) as -> by (rewrite any_fmap; exact Hsys).
  rewrite (all_with_rest_ext _ (fun account rest =>
       agent_account_is_valid account
       && negb (any (fun other =>
                  (aa_account_id other == aa_account_id account)
                  || eq_ignore_ascii_case (aa_name other) (aa_name account)) rest))), Hrest.
  2:{ intros x rest. by rewrite any_fmap. }
  rewrite !andb_true_r. apply andb_true_iff. split.
  - apply negb_true_iff in Hne. apply negb_true_iff.
    apply bool_decide_eq_false in Hne. apply bool_decide_eq_false. by destruct rows.
  - apply Nat.eqb_eq. apply list_elem_of_fmap in Hid as (account & -> & Hin).
    rewrite <- (proj2 (counts_one aa_account_id rows) Hn account Hin).
    clear. induction rows as [|x l IH]; simpl; [done|]. unfold of_key.
    destruct (aa_account_id x == aa_account_id account); simpl; [f_equal|]; exact IH.
Qed.

Lemma with_default_case provider id account :
  with_default provider id account
  = (if decide (aa_agent_id account = provider) then defaulted id account else account)
  /\ aa_agent_id (with_default provider id account) = aa_agent_id account.
Proof. unfold with_default. case_bool_decide; case_decide; done. Qed.

Lemma accounts_of_default provider p id accounts :
  accounts_of p (with_default provider id <$> accounts) =
  if decide (p = provider) then defaulted id <$> accounts_of p accounts else accounts_of p accounts.
Proof.
  unfold accounts_of. induction accounts as [|x l IH]; [by destruct (decide (p = provider))|].
  rewrite fmap_cons. cbn [retain]. rewrite IH.
  destruct (with_default_case provider id x) as [Ex ->]. case_bool_decide as Ep; [|done].
  rewrite Ex. repeat case_decide; first [done | congruence].
Qed.

Lemma default_accounts_valid provider id accounts :
  valid_agent_accounts accounts = true ->
  (exists account, account ∈ accounts /\ is_account provider id account = true) ->
  valid_agent_accounts (with_default provider id <$> accounts) = true.
Proof.
  unfold valid_agent_accounts. rewrite !all_true. intros Hv (account & Hin & Ha) p Hp.
  rewrite accounts_of_default. specialize (Hv p Hp). case_decide as E; [|done]. subst p.
  apply defaulted_rows; [done|]. unfold is_account in Ha. guards. apply list_elem_of_fmap.
  exists account. split; [done|]. apply elem_of_retain. by rewrite bool_decide_eq_true.
Qed.

Lemma forgotten_valid provider id saved :
  saved_selection_is_valid saved = true -> saved_selection_is_valid (forget_account provider id saved) = true.
Proof.
  unfold forget_account. destruct (_ && _); [|done]. unfold saved_selection_is_valid, launch_selection_is_well_formed.
  cbn. intros [? [_ ?]%andb_true_iff]%andb_true_iff. by apply andb_true_iff.
Qed.

Section settings.
Context `{UuidParser} `{JsonText} (s : Store) (Hok : records_ok (state s)).

Lemma create_agent_account_fine account expected : fine_after (create_agent_account account expected s).
Proof. unfold create_agent_account, expect_revision. fine_code. guards. frame Hok. done. Qed.

Lemma rename_agent_account_fine provider id name expected :
  fine_after (rename_agent_account provider id name expected s).
Proof. unfold rename_agent_account, expect_revision. fine_code. guards. frame Hok. done. Qed.

Lemma set_default_agent_account_fine provider id expected :
  fine_after (set_default_agent_account provider id expected s).
Proof.
  unfold set_default_agent_account, expect_revision. fine_code. frame Hok.
  apply default_accounts_valid; [apply (rk_settings _ Hok)|]. apply find_first_Some in Hcode0. eauto.
Qed.

Lemma delete_agent_account_fine provider id expected :
  fine_after (delete_agent_account provider id expected s).
Proof.
  unfold delete_agent_account, expect_revision. fine_code. guards. frame Hok; [done|].
  pose proof (se_selection _ (rk_settings _ Hok)) as Hs. cbn [last_agent_launch_selection set_field].
  destruct (last_agent_launch_selection (state s)) as [saved|]; [|done]. simpl in *.
  apply negb_false_iff. by apply forgotten_valid, negb_false_iff.
Qed.

Lemma change_agent_library_fine expected change : fine_after (change_agent_library expected change s).
Proof. unfold change_agent_library. fine_code. guards. frame Hok. done. Qed.

Lemma set_agent_fork_preference_fine preference : fine_after (set_agent_fork_preference preference s).
Proof. unfold set_agent_fork_preference. fine_code. frame Hok. Qed.
Lemma set_agent_restart_preference_fine preference : fine_after (set_agent_restart_preference preference s).
Proof. unfold set_agent_restart_preference. fine_code. frame Hok. Qed.
Lemma set_keep_awake_preference_fine preference : fine_after (set_keep_awake_preference preference s).
Proof. unfold set_keep_awake_preference. fine_code. frame Hok. Qed.
End settings.

(** ** Records of Sessions and Projects that join *)

Lemma steward_fits_more st st' configuration :
  steward_fits st configuration ->
  (stw_project_id configuration ∈ project_ids st -> stw_project_id configuration ∈ project_ids st') ->
  (forall id, (id, stw_project_id configuration) ∈ session_keys st ->
     (id, stw_project_id configuration) ∈ session_keys st') ->
  steward_fits st' configuration.
Proof. intros (Hv & Hp & Hs) H1 H2. split_and!; auto. Qed.

Lemma sessions_changed `{UuidParser} `{JsonText} st sessions' :
  records_ok st ->
  (forall configuration id, configuration ∈ steward_configurations st ->
     stw_executor_session_id configuration = Some id ->
     (id, stw_project_id configuration) ∈ session_keys st ->
     (id, stw_project_id configuration) ∈ session_keys (st <| sessions := sessions' |>)) ->
  records_ok (st <| sessions := sessions' |>).
Proof.
  intros Hok Hs. frame Hok. eapply keyed_impl; [exact (sk_stewards _ (rk_stewards _ Hok))|].
  intros configuration Hc (Hv & Hp & He). split_and!; [done..|]. intros id Hid. eauto.
Qed.

Lemma sessions_joined `{UuidParser} `{JsonText} st session :
  records_ok st -> records_ok (st <| sessions := sessions st ++ [session] |>).
Proof.
  intros Hok. apply sessions_changed; [done|]. intros c id _ _ Hin. unfold session_keys.
  cbn [sessions set_field]. rewrite fmap_app. apply elem_of_app. by left.
Qed.

(** ** Setup marks *)

Lemma make_room_sublist rounds project_id marks : make_room rounds project_id marks `sublist_of` marks.
Proof.
  revert marks. induction rounds as [|rounds IH]; intros marks; cbn [make_room]; [done|].
  destruct (run_setup_marks_per_project_max <=? _)%nat; [|done]. destruct (oldest_mark project_id marks) as [i|]; [|done].
  etrans; [apply IH|apply sublist_delete].
Qed.

Lemma oldest_mark_Some project_id marks i :
  oldest_mark project_id marks = Some i ->
  exists mark, marks !! i = Some mark /\ of_project project_id mark = true.
Proof.
  unfold oldest_mark. destruct (min_by _ _) as [entry|] eqn:E; [|done]. intros [= <-].
  apply min_by_elem, (indexed_entries (of_project project_id)) in E. eauto.
Qed.

Lemma oldest_mark_None project_id marks :
  oldest_mark project_id marks = None -> retain (of_project project_id) marks = [].
Proof.
  unfold oldest_mark. destruct (min_by _ _) as [entry|] eqn:E; [done|]. intros _.
  apply min_by_None in E. rewrite <- (indexed_length (of_project project_id)), E. done.
Qed.

(** The loop ends with room for one more. *)
Lemma make_room_count rounds project_id marks :
  (length (retain (of_project project_id) marks) <= rounds + 127)%nat ->
  (length (retain (of_project project_id) (make_room rounds project_id marks))
   < run_setup_marks_per_project_max)%nat.
Proof.
  revert marks. induction rounds as [|rounds IH]; intros marks Hl; cbn [make_room].
  { unfold run_setup_marks_per_project_max. lia. }
  destruct (run_setup_marks_per_project_max <=? _)%nat eqn:E.
  2:{ apply Nat.leb_gt in E. exact E. }
  apply Nat.leb_le in E. destruct (oldest_mark project_id marks) as [i|] eqn:Eo.
  - apply oldest_mark_Some in Eo as (mark & Hi & Hp). apply IH.
    rewrite (retain_delete _ _ _ _ Hi Hp) in Hl. lia.
  - apply oldest_mark_None in Eo. rewrite Eo in *. unfold run_setup_marks_per_project_max in *. simpl in E. lia.
Qed.

Lemma replace_mark_ok (P : RunSetupMark -> Prop) mark marks :
  P mark -> keyed P slot marks -> counted rsm_project_id run_setup_marks_per_project_max marks ->
  keyed P slot (replace_bounded_setup_mark mark marks)
  /\ counted rsm_project_id run_setup_marks_per_project_max (replace_bounded_setup_mark mark marks).
Proof.
  intros Hm Hk Hc. unfold replace_bounded_setup_mark.
  set (others := retain _ marks).
  pose proof (make_room_sublist (length others) (rsm_project_id mark) others) as Hsub.
  assert (keyed P slot others) as Hko by by apply keyed_retain.
  assert (counted rsm_project_id run_setup_marks_per_project_max others) as Hco by by apply counted_retain.
  split.
  - apply keyed_app; [exact (keyed_sublist _ _ _ _ Hko Hsub)|done|].
    intros (x & Hx & Hin)%list_elem_of_fmap.
    assert (x ∈ others) as [_ Hn]%elem_of_retain.
    { eapply elem_of_submseteq; [exact Hin|]. by apply sublist_submseteq. }
    apply negb_true_iff, not_true_iff_false in Hn. apply Hn, same_slot_true. congruence.
  - apply counted_app; [exact (counted_sublist _ _ _ _ Hco Hsub)|].
    apply make_room_count. pose proof (sublist_length _ _ (retain_sublist (of_project (rsm_project_id mark)) others)). lia.
Qed.

(** ** Runs *)

Lemma mark_recorded `{UuidParser} `{JsonText} st mark :
  records_ok st -> setup_mark_is_valid mark = true ->
  run_configuration_of st (rsm_configuration_id mark) (rsm_project_id mark) = true ->
  records_ok (st <| run_setup_marks := replace_bounded_setup_mark mark (run_setup_marks st) |>).
Proof.
  intros Hok Hv Hr. assert (mark_fits st mark) as Hm by (split; [done|by apply run_of_true]).
  destruct (replace_mark_ok _ _ _ Hm (ro_marks _ (rk_runs _ Hok)) (ro_mark_count _ (rk_runs _ Hok))).
  frame Hok; done.
Qed.

Section runs.
Context `{UuidParser} `{JsonText} (s : Store) (Hok : records_ok (state s)).

Lemma record_run_setup_mark_fine mark : fine_after (record_run_setup_mark mark s).
Proof. unfold record_run_setup_mark. fine_code. guards. by apply mark_recorded. Qed.

Lemma insert_run_session_fine session mark : fine_after (insert_run_session session mark s).
Proof.
  unfold insert_run_session. fine_code; [|by apply sessions_joined].
  simpl in Hcode0. guards. subst. apply mark_recorded; [by apply sessions_joined|done|].
  change (run_configuration_of (state s) (rsm_configuration_id r) (rsm_project_id r) = true). congruence.
Qed.

Lemma insert_personal_agent_session_fine session agent remember :
  fine_after (insert_personal_agent_session session agent remember s).
Proof.
  unfold insert_personal_agent_session. fine_code.
  pose proof (sessions_joined _ session Hok) as Hs. frame Hs.
  pose proof (se_selection _ (rk_settings _ Hok)) as Hsel. cbn [admitted last_agent_launch_selection set_field].
  destruct value0 as [preference|]; [|exact Hsel]. simpl. revert Hcode0. unfold standalone_preference.
  intros E. repeat case_match; simplify_eq. apply negb_false_iff. by guards.
Qed.

(** The version of a saved configuration, whose target exists. *)
Lemma recorded_fine id project_id target content record st :
  records_ok st -> target_fits st project_id target -> negb (trim_is_empty project_id) = true ->
  version_is_new st id project_id target content = true -> record_is_bounded record = true ->
  records_ok (record_version id project_id target content record st).2.
Proof.
  intros Hst Ht Hp Hn Hr.
  pose proof (record_version_ok id project_id target content record st (rk_versions _ Hst) Ht Hp Hn Hr) as Hv.
  destruct (record_version_frame id project_id target content record st) as (versions & selections & E).
  rewrite E in *. frame Hst. exact Hv.
Qed.
End runs.

(** * Saved configurations and their versions stay acceptable

    Run configurations, Stewards, Routines, descriptions of tools, and the
    methods on versions themselves.  What the methods leave to their callers is
    a hypothesis of each lemma. *)

(** ** Targets of saved configurations *)

Lemma saved_record_bounded summary now :
  (len summary <=? configuration_version_summary_max_bytes)%N = true ->
  record_is_bounded (MkVersionRecord summary None (N.max now 1)) = true.
Proof.
  intros Hs. unfold record_is_bounded. simpl. rewrite Hs. apply N.ltb_lt. lia.
Qed.

Section saves.
Context `{UuidParser} `{JsonText} (s : Store) (Hok : records_ok (state s)).

(** ** Run configurations *)

Definition with_run (configuration : RunConfiguration) (st : CurrentState) : CurrentState :=
  st <| run_configurations :=
          match position (fun current => rcf_id current == rcf_id configuration) (run_configurations st) with
          | Some (index, _) => <[index := configuration]> (run_configurations st)
          | None => run_configurations st ++ [configuration]
          end |>.

Lemma run_saved st configuration :
  records_ok st -> run_configuration_is_valid configuration = true ->
  has_project st (rcf_project_id configuration) = true ->
  (forall i y, position (fun current => rcf_id current == rcf_id configuration) (run_configurations st)
     = Some (i, y) -> rcf_project_id configuration = rcf_project_id y) ->
  (position (fun current => rcf_id current == rcf_id configuration) (run_configurations st) = None ->
   (length (retain (of_key rcf_project_id (rcf_project_id configuration)) (run_configurations st))
    < run_configurations_per_project_max)%nat) ->
  records_ok (with_run configuration st)
  /\ (rcf_id configuration, rcf_project_id configuration) ∈ run_keys (with_run configuration st).
Proof.
  intros Hst Hv Hp Hsame Hroom.
  destruct (upsert_keys (fun run => (rcf_id run, rcf_project_id run))
    (fun current => rcf_id current == rcf_id configuration) (run_configurations st) configuration)
    as [Hkeys Hnew].
  { intros i y E. rewrite (Hsame i y E). apply position_Some in E as [_ E]. apply bool_decide_eq_true in E.
    by rewrite E. }
  split; [|exact Hnew]. frame Hst.
  - eapply (keyed_upsert rcf_id); [exact (ro_runs _ (rk_runs _ Hst))| |intros; apply same_key].
    split; [done|]. by apply has_project_true.
  - apply counted_upsert; [exact (ro_run_count _ (rk_runs _ Hst))|done|done].
  - eapply keyed_impl; [exact (ro_marks _ (rk_runs _ Hst))|]. intros mark _ [Hm Hr]. split; [done|].
    by apply Hkeys.
  - eapply versions_ok_change; [exact (rk_versions _ Hst)|done|done|]. intros version _ Ht.
    eapply target_fits_more; [exact Ht|done|done|done|]. intros id. apply Hkeys.
Qed.

Lemma set_run_configuration_fine id configuration expected :
  version_is_new (state s) id (rcf_project_id configuration) (run_target (rcf_id configuration))
    (json_to_string (run_snapshot configuration)) = true ->
  fine_after (set_run_configuration id configuration expected s).
Proof.
  intros Hnew. unfold set_run_configuration. fine_code. guards.
  match goal with H : run_configuration_is_valid configuration = true |- _ => pose proof H as Hv end.
  destruct (run_saved (state s) configuration Hok Hv) as [Hsaved Hin].
  - done.
  - intros i y E. rewrite E in *. simpl in *. guards. done.
  - intros E. rewrite E in *. simpl in *. guards. by apply Nat.leb_gt.
  - unfold run_configuration_is_valid in Hv. guards. apply recorded_fine; try done.
    + split; [|simpl; eauto]. by apply has_project_true.
    + by apply negb_true_iff.
    + by apply saved_record_bounded.
Qed.

(** A run configuration leaves with its versions and marks; its Sessions forget
    it. *)
Lemma delete_run_configuration_fine configuration_id expected :
  fine_after (delete_run_configuration configuration_id expected s).
Proof.
  unfold delete_run_configuration. fine_code. apply position_Some in Hcode0 as [Hi Hid].
  apply bool_decide_eq_true in Hid. pose proof (ro_runs _ (rk_runs _ Hok)) as Hruns.
  assert (forall id project_id, (id, project_id) ∈ run_keys (state s) -> id <> configuration_id ->
    (id, project_id) ∈ (fun run => (rcf_id run, rcf_project_id run)) <$> delete n (run_configurations (state s))) as Hkeys.
  { intros id project_id (run & [= -> ->] & Hr)%list_elem_of_fmap Hne. apply list_elem_of_fmap.
    exists run. split; [done|]. eapply elem_of_delete_ne; [exact Hi|done|congruence]. }
  frame Hok.
  - eapply keyed_impl; [exact (sk_stewards _ (rk_stewards _ Hok))|]. intros c Hc Hf.
    eapply steward_fits_more; [exact Hf|done|]. intros id. unfold session_keys.
    cbn [sessions set_field]. rewrite <- list_fmap_compose.
    intros (x & -> & Hx)%list_elem_of_fmap. apply list_elem_of_fmap. exists x. split; [|done].
    unfold without_run_configuration. cbn. by destruct (_ == _).
  - by apply keyed_delete.
  - apply counted_delete, (rk_runs _ Hok).
  - eapply keyed_impl; [apply keyed_retain, (ro_marks _ (rk_runs _ Hok))|].
    intros mark [_ Hm]%elem_of_retain [Hv Hr]. split; [done|]. apply Hkeys; [done|]. by guards.
  - apply counted_retain, (rk_runs _ Hok).
  - eapply (versions_ok_change
      (remove_configuration_target_state (rcf_project_id r) (run_target configuration_id) (state s)));
      [apply remove_target_ok, (rk_versions _ Hok)|done|done|].
    intros version [_ Hv]%elem_of_retain Ht. eapply target_fits_kept; [exact Ht|done|done|done|].
    intros id Htarget Hin. apply Hkeys; [done|]. intros ->. apply negb_true_iff in Hv.
    apply not_true_iff_false in Hv. apply Hv, of_target_true. unfold version_target. rewrite Htarget.
    f_equal. apply list_elem_of_fmap in Hin as (run & [= Hrid ->] & Hr).
    by rewrite (unique_elem rcf_id (run_configurations (state s)) run r (kd_unique _ _ _ Hruns)
      Hr ltac:(by eapply list_elem_of_lookup_2)) by congruence.
Qed.

(** ** Versions *)

Lemma select_configuration_version_fine project_id target expected selected content :
  fine_after (select_configuration_version project_id target expected selected content s).
Proof.
  unfold select_configuration_version. run_step. run_step; [run_step|fine_code].
  run_step; [fine_code|]. apply fine_install. apply find_first_Some in Hcode as [Hin Hsel].
  guards. apply of_target_true in H3. pose proof (rk_versions _ Hok) as Hv.
  set (transient := fun current : ConfigurationVersion => _) in *.
  assert (exists kept, kept `sublist_of` configuration_versions (state s)
    /\ (forall x, x ∈ configuration_versions (state s) -> version_target x <> (project_id, target) -> x ∈ kept)
    /\ c ∈ kept
    /\ match active_version (state s) project_id target with
       | Some current =>
           if is_some_and (active_version (state s) project_id target) transient
           then (state s) <| configuration_versions :=
                  retain (fun version => cv_id version != cv_id current) (configuration_versions (state s)) |>
           else state s
       | None => state s
       end = (state s) <| configuration_versions := kept |>) as (kept & Hsub & Hothers & Hkept & ->).
  { assert (state s = (state s) <| configuration_versions := configuration_versions (state s) |>) as Heta
      by by destruct (state s).
    destruct (active_version (state s) project_id target) as [current|] eqn:Ea;
      [|by exists (configuration_versions (state s))].
    destruct (is_some_and _ _) eqn:Et; [|by exists (configuration_versions (state s))].
    eexists. split_and!; [apply retain_sublist| | |reflexivity].
    - intros x Hx Hne. apply elem_of_retain. split; [done|]. apply negb_true_iff, bool_decide_eq_false.
      intros Hid. apply Hne. rewrite <- (active_version_target _ _ _ _ Hv Ea). f_equal.
      apply (unique_elem cv_id (configuration_versions (state s))); [apply Hv|done| |done].
      by eapply active_version_elem.
    - apply elem_of_retain. split; [done|]. simpl in Et. unfold transient in Et. guards.
      apply negb_true_iff, bool_decide_eq_false. congruence. }
  pose proof (select_ok (state s) project_id target selected kept Hv Hsub Hothers) as Hselected.
  frame Hok. apply Hselected. exists c. done.
Qed.

Lemma sync_external_configuration_version_fine id project_id target content now :
  target_exists (state s) project_id target = true -> negb (trim_is_empty project_id) = true ->
  version_is_new (state s) id project_id target content = true ->
  fine_after (sync_external_configuration_version id project_id target content now s).
Proof.
  intros Ht Hp Hn. unfold sync_external_configuration_version. run_step. run_step; [fine_code|].
  run_step; [fine_code|].
  pose proof (recorded_fine id project_id target content
    (MkVersionRecord "Current configuration" None (N.max now 1)) (state s) Hok
    (proj1 (target_exists_true _ _ _) Ht) Hp Hn (saved_record_bounded "Current configuration" now eq_refl)) as Hr.
  destruct (record_version _ _ _ _ _ _) as [version st']. simpl in Hr.
  destruct version as [version|]; [|exact I]. by apply fine_install.
Qed.

Lemma finalize_configuration_activation_fine id project_id target expected content summary source now :
  target_exists (state s) project_id target = true -> negb (trim_is_empty project_id) = true ->
  version_is_new (state s) id project_id target content = true ->
  (len summary <=? configuration_version_summary_max_bytes)%N = true ->
  is_none_or source bounded_version_id = true ->
  fine_after (finalize_configuration_activation id project_id target expected content summary source now s).
Proof.
  intros Ht Hp Hn Hsum Hsource. unfold finalize_configuration_activation. run_step. run_step; [fine_code|].
  destruct (_ && is_some_and _ _); [by destruct (active_version _ _ _)|].
  assert (records_ok (if (cv_id <$> active_version (state s) project_id target) == expected
     then (record_version id project_id target content (MkVersionRecord summary source (N.max now 1))
             (state s)).2 else state s)) as Hr.
  { destruct (_ == expected); [|done]. apply recorded_fine; try done; [by apply target_exists_true|].
    unfold record_is_bounded. simpl. rewrite Hsum, Hsource. apply N.ltb_lt. lia. }
  revert Hr. generalize (if (cv_id <$> active_version (state s) project_id target) == expected
     then (record_version id project_id target content (MkVersionRecord summary source (N.max now 1))
             (state s)).2 else state s) as st'. intros st' Hr.
  run_step. run_step; [run_step|fine_code]. destruct (find_mut _ _ _) as [[version versions]|] eqn:E; [|exact I].
  apply fine_install. pose proof (attributed_ok st' _ _ _ _ _ _ (rk_versions _ Hr) Hsum Hsource E) as Ha.
  frame Hr. exact Ha.
Qed.

(** ** Descriptions of tools *)

Lemma update_mcp_tool_description_fine tool description expected :
  is_some (mcp_description_new description) = true ->
  fine_after (update_mcp_tool_description tool description expected s).
Proof.
  intros Hd. unfold update_mcp_tool_description, expect_revision. fine_code. frame Hok.
  eapply keyed_perm; [symmetry; apply sort_by_perm|].
  pose proof (se_overrides _ (rk_settings _ Hok)) as Ho. rewrite find_mut_position.
  destruct (position _ _) as [[i old]|] eqn:E.
  - apply position_Some in E as [Hi _]. eapply (keyed_insert mto_tool); [exact Ho|exact Hi|done|done].
  - apply keyed_app; [done..|]. rewrite position_None in E. intros (x & Hx & Hin)%list_elem_of_fmap.
    specialize (E x Hin). apply bool_decide_eq_false in E. by simpl in Hx.
Qed.

Lemma reset_mcp_tool_description_fine tool expected : fine_after (reset_mcp_tool_description tool expected s).
Proof.
  unfold reset_mcp_tool_description, expect_revision. fine_code. frame Hok.
  apply keyed_delete, (rk_settings _ Hok).
Qed.
End saves.
