(* ===== verification/RecordRoutines.v ===== *)
(** * Stewards and Routines stay acceptable

    The methods on Stewards, their executors and Routines, and the removal of
    Sessions that no Steward points to. *)

From S2P Require Import Prelude Keyed Text Domain DomainRules DomainConfig StoreState Transactions.
From S2P Require Import SessionRecords RunRecords AccountRecords RoutineRecords TaskRecords.
From S2P Require Import CurrentValidation SessionInvariant SessionPreservation.
From S2P Require Import RecordTransactions RecordInvariant VersionInvariant RecordPreservation.

Local Open Scope string_scope.
Local Open Scope list_scope.

Section removal.
Context `{UuidParser} `{JsonText}.

(** ** Sessions leave *)

(** Sessions outside [ids] keep their names; Sessions, readiness, plans and
    relocations are all that changes. *)
Lemma remove_exact_frame ids st :
  exists sessions' receipts operations plans readiness,
    (remove_exact_session_descriptors ids st).2 =
      st <| sessions := sessions' |> <| session_relocation_receipts := receipts |>
         <| session_relocation_operations := operations |> <| agent_plans := plans |>
         <| agent_conversation_readiness := readiness |>
    /\ forall id project_id, (id, project_id) ∈ session_keys st -> id ∉ ids ->
         (id, project_id) ∈ (fun session => (s_id session, s_project_id session)) <$> sessions'.
Proof.
  unfold remove_exact_session_descriptors. destruct (ids == []).
  { exists (sessions st), (session_relocation_receipts st), (session_relocation_operations st),
      (agent_plans st), (agent_conversation_readiness st). split; [by destruct st|done]. }
  assert (forall id project_id, (id, project_id) ∈ session_keys st -> id ∉ ids ->
    (id, project_id) ∈ (fun session => (s_id session, s_project_id session)) <$>
       retain (fun session => negb (bool_decide (s_id session ∈ ids))) (sessions st)) as Hstay.
  { intros id project_id (x & [= -> ->] & Hx)%list_elem_of_fmap Hn. apply list_elem_of_fmap.
    exists x. split; [done|]. apply elem_of_retain. split; [done|].
    by apply negb_true_iff, bool_decide_eq_false. }
  cbv zeta. destruct (_ =? _)%nat; cbn [snd].
  { exists (retain (fun session => negb (bool_decide (s_id session ∈ ids))) (sessions st)),
      (session_relocation_receipts st), (session_relocation_operations st),
      (agent_plans st), (agent_conversation_readiness st). split; [by destruct st|exact Hstay]. }
  eexists _, _, _, _, _. split; [reflexivity|]. rewrite fold_clear, <- list_fmap_compose.
  intros id project_id Hin Hn. pose proof (Hstay id project_id Hin Hn) as (x & Hx & Hr)%list_elem_of_fmap.
  apply list_elem_of_fmap. exists x. split; [|done]. rewrite Hx. simpl.
  by rewrite (evolved_id _ _ (evolved_cleared ids x)), (evolved_project _ _ (evolved_cleared ids x)).
Qed.

(** Stewards that do not point to Sessions that leave. *)
Definition spares_executors (st : CurrentState) (ids : list string) : bool :=
  negb (any (fun id => bool_decide (id ∈ ids)) (configured_sessions st)).

Lemma spared_steward st ids configuration id :
  spares_executors st ids = true -> configuration ∈ steward_configurations st ->
  stw_executor_session_id configuration = Some id -> id ∉ ids.
Proof.
  unfold spares_executors. intros Hs Hc Hid. guards. apply (bool_decide_eq_false (id ∈ ids)), Hs.
  apply list_elem_of_omap. eauto.
Qed.

Lemma remove_exact_fine ids st :
  records_ok st -> spares_executors st ids = true ->
  records_ok (remove_exact_session_descriptors ids st).2.
Proof.
  intros Hok Hids. destruct (remove_exact_frame ids st) as (sessions' & a & b & c & d & -> & Hstay).
  assert (records_ok (st <| sessions := sessions' |>)) as Hs.
  { apply sessions_changed; [done|]. intros configuration id Hc Hid Hin. apply Hstay; [done|].
    by eapply spared_steward. }
  frame Hs.
Qed.

Lemma remove_obsolete_fine st : records_ok st -> records_ok (remove_obsolete_assistant_sessions st).2.
Proof.
  intros Hok. apply remove_exact_fine; [done|]. apply negb_true_iff, any_false. intros id Hid.
  apply bool_decide_eq_false. intros (s & -> & [_ Ho]%elem_of_retain)%list_elem_of_fmap.
  unfold is_obsolete_assistant in Ho. guards. done.
Qed.

Lemma cleared_conversation_fine project_id st : records_ok st -> records_ok (clear_conversation project_id st).
Proof. intros Hok. frame Hok. apply keyed_retain, (rk_stewards _ Hok). Qed.
End removal.

Section stewards.
Context `{UuidParser} `{JsonText} (s : Store) (Hok : records_ok (state s)).

Lemma clear_steward_conversation_ref_fine project_id :
  fine_after (clear_steward_conversation_ref project_id s).
Proof.
  unfold clear_steward_conversation_ref. fine_code; by apply (cleared_conversation_fine project_id).
Qed.

(** ** Saving a Steward *)

Definition with_steward (configuration : StewardConfiguration) (st : CurrentState) : CurrentState :=
  st <| steward_configurations :=
          match steward_position st (stw_project_id configuration) with
          | Some (index, _) => <[index := configuration]> (steward_configurations st)
          | None => steward_configurations st ++ [configuration]
          end |>.

Lemma steward_saved_projects st configuration :
  (forall project_id, project_id ∈ steward_projects st ->
     project_id ∈ steward_projects (with_steward configuration st))
  /\ stw_project_id configuration ∈ steward_projects (with_steward configuration st).
Proof.
  apply (upsert_keys stw_project_id). intros i y E. apply position_Some in E as [_ E].
  by apply bool_decide_eq_true in E.
Qed.

(** A conversation stays with its Steward unless it is of the saved one, with
    another agent. *)
Lemma conversation_kept st configuration conversation :
  conversation_fits st conversation ->
  (scr_project_id conversation = stw_project_id configuration ->
   forall i y, steward_position st (stw_project_id configuration) = Some (i, y) ->
     stw_agent_id y = stw_agent_id configuration) ->
  conversation_fits (with_steward configuration st) conversation.
Proof.
  intros (Hv & agent & Hin & Hm) Hsame. split; [done|]. exists agent. split; [|done].
  apply list_elem_of_fmap in Hin as (c & [= Hp ->] & Hc). unfold steward_agents, with_steward.
  cbn [steward_configurations set_field]. apply list_elem_of_fmap.
  destruct (steward_position st (stw_project_id configuration)) as [[i y]|] eqn:E.
  2:{ exists c. split; [by rewrite Hp|]. apply elem_of_app. by left. }
  apply position_Some in E as [Hi Hy]. apply bool_decide_eq_true in Hy.
  destruct (decide (c = y)) as [->|Hne].
  - exists configuration. split; [|by eapply elem_of_insert_eq].
    rewrite Hp, Hy. f_equal. eapply Hsame; [congruence|reflexivity].
  - exists c. split; [by rewrite Hp|]. by eapply elem_of_insert_ne.
Qed.

Lemma set_steward_configuration_fine id configuration expected :
  version_is_new (state s) id (stw_project_id configuration) steward_target
    (json_to_string (steward_snapshot configuration)) = true ->
  fine_after (set_steward_configuration id configuration expected s).
Proof.
  intros Hnew. unfold set_steward_configuration, expect_revision. fine_code. guards.
  match goal with H : steward_configuration_is_valid configuration = true |- _ => rename H into Hv end.
  match goal with H : has_project _ _ = true |- _ => rename H into Hproject end.
  apply remove_obsolete_fine.
  change (records_ok (if is_some_and (steward_position (state s) (stw_project_id configuration))
        (fun entry => (stw_agent_id entry.2 != stw_agent_id configuration)
                      || (stw_system_prompt entry.2 != stw_system_prompt configuration))
     then clear_conversation (stw_project_id configuration)
            (record_steward_version id configuration None "Configuration saved" (with_steward configuration (state s)))
     else record_steward_version id configuration None "Configuration saved" (with_steward configuration (state s)))).
  destruct (steward_saved_projects (state s) configuration) as [Hprojects Hsaved].
  assert (versions_ok (with_steward configuration (state s))) as Hversions.
  { eapply versions_ok_change; [exact (rk_versions _ Hok)|done|done|]. intros version _ Ht.
    eapply target_fits_more; [exact Ht|done|apply Hprojects|done|done]. }
  assert (versions_ok (record_steward_version id configuration None "Configuration saved"
    (with_steward configuration (state s)))) as Hrecorded.
  { apply record_version_ok; try done.
    - split; [by apply has_project_true|exact Hsaved].
    - unfold steward_configuration_is_valid in Hv. guards. by apply negb_true_iff.
    - by apply saved_record_bounded. }
  assert (keyed (steward_fits (with_steward configuration (state s))) stw_project_id
    (steward_configurations (with_steward configuration (state s)))) as Hstewards.
  { eapply (keyed_upsert stw_project_id); [exact (sk_stewards _ (rk_stewards _ Hok))| |intros; apply same_key].
    split_and!; [done|by apply has_project_true|]. intros session_id E. rewrite E in *. simpl in *.
    apply any_key2. by guards. }
  unfold record_steward_version in *.
  destruct (record_version_frame id (stw_project_id configuration) steward_target
    (json_to_string (steward_snapshot configuration))
    (MkVersionRecord "Configuration saved" None (N.max (stw_updated_at_epoch_ms configuration) 1))
    (with_steward configuration (state s))) as (versions & selections & E). rewrite E in *.
  destruct (is_some_and (steward_position _ _) _) eqn:Hchanged.
  - frame Hok; [exact Hstewards| |by destruct Hrecorded].
    eapply keyed_impl; [apply keyed_retain, (rk_stewards _ Hok)|].
    intros conversation [_ Hne]%elem_of_retain Hf. guards. by apply conversation_kept.
  - frame Hok; [exact Hstewards| |by destruct Hrecorded].
    eapply keyed_impl; [apply (rk_stewards _ Hok)|]. intros conversation _ Hf.
    apply conversation_kept; [done|]. intros _ i y Ey. rewrite Ey in Hchanged. simpl in Hchanged.
    by guards.
Qed.

(** ** The executor *)

Lemma fine_after_install {A B} previous next (a : A) (k : A -> StoreM B) :
  records_ok next -> (forall s', records_ok (state s') -> fine_after (k a s')) ->
  fine_after (bind (install previous next a) k s).
Proof.
  intros Hn Hk. rewrite bind_run, install_run. pose proof (records_ok_committed _ Hn) as Hc.
  destruct (io s) as [|[] rest]; [by apply Hk|by apply Hk|done].
Qed.

Lemma attach_steward_executor_session_fine session project_id generation now :
  fine_after (attach_steward_executor_session session project_id generation now s).
Proof.
  unfold attach_steward_executor_session. run_step.
  destruct (validate_steward_executor_session (state s) session project_id generation) as [[]|e] eqn:Hvalid;
    [run_step|fine_code].
  unfold expect at 1. destruct (apply_steward_executor_session _ _ _ _) as [st'|] eqn:E; [run_step|fine_code].
  apply fine_after_install.
  2:{ intros s' Hs'. unfold get_state, gets, bind, expect, lift. simpl. by destruct (steward_position _ _). }
  unfold apply_steward_executor_session in E. apply fmap_Some in E as ([found stewards] & Ef & ->).
  apply find_mut_Some in Ef as (i & c & Ei & _ & ->). apply remove_obsolete_fine. cbn [snd].
  apply position_Some in Ei as [Hi Hp]. apply bool_decide_eq_true in Hp.
  assert (records_ok (clear_conversation project_id (admitted session None (state s)))) as Hcleared.
  { apply cleared_conversation_fine. pose proof (sessions_joined _ session Hok) as Hj. frame Hj. }
  frame Hcleared.
  - eapply (keyed_insert stw_project_id); [exact (sk_stewards _ (rk_stewards _ Hcleared))|exact Hi|done|].
    destruct (kd_each _ _ _ (sk_stewards _ (rk_stewards _ Hcleared)) c) as (Hv & Hpr & _);
      [by eapply list_elem_of_lookup_2|].
    split_and!; [exact Hv|exact Hpr|]. cbn. intros id [= <-]. apply list_elem_of_fmap. exists session.
    split; [|apply elem_of_app; right; by left]. f_equal. rewrite Hp. symmetry.
    revert Hvalid. unfold validate_steward_executor_session.
    destruct (bool_decide_reflect (s_project_id session = project_id)); [done|by simpl].
  - eapply keyed_impl; [exact (sk_conversations _ (rk_stewards _ Hcleared))|].
    intros conversation _ (Hv & agent & Hin & Hm). split; [done|]. exists agent. split; [|done].
    revert Hin. unfold steward_agents. cbn [steward_configurations set_field].
    by rewrite (fmap_insert_same (fun c => (stw_project_id c, stw_agent_id c)) _ i c).
  - eapply versions_ok_change; [exact (rk_versions _ Hcleared)|done|done|]. intros version _ Ht.
    eapply target_fits_more; [exact Ht|done| |done|done]. unfold steward_projects.
    cbn [steward_configurations set_field]. by rewrite (fmap_insert_same stw_project_id _ i c).
Qed.
End stewards.

(** ** Routines *)

Section routines.
Context `{UuidParser} `{JsonText} (s : Store) (Hok : records_ok (state s)).

Definition with_routine (routine : TrackerConfiguration) (st : CurrentState) : CurrentState :=
  st <| tracker_configurations :=
          match position (fun current => tc_id current == tc_id routine) (tracker_configurations st) with
          | Some (index, _) => <[index := routine]> (tracker_configurations st)
          | None => tracker_configurations st ++ [routine]
          end |>.

Lemma routine_saved st routine :
  records_ok st -> routine_fits st routine ->
  (forall i y, position (fun current => tc_id current == tc_id routine) (tracker_configurations st)
     = Some (i, y) -> tc_project_id routine = tc_project_id y) ->
  records_ok (with_routine routine st)
  /\ (tc_id routine, tc_project_id routine) ∈ routine_keys (with_routine routine st).
Proof.
  intros Hst Hfits Hsame.
  destruct (upsert_keys (fun routine => (tc_id routine, tc_project_id routine))
    (fun current => tc_id current == tc_id routine) (tracker_configurations st) routine) as [Hkeys Hnew].
  { intros i y E. rewrite (Hsame i y E). apply position_Some in E as [_ E]. apply bool_decide_eq_true in E.
    by rewrite E. }
  split; [|exact Hnew]. frame Hst.
  - eapply versions_ok_change; [exact (rk_versions _ Hst)|done|done|]. intros version _ Ht.
    eapply target_fits_more; [exact Ht|done|done| |done]. intros id. apply Hkeys.
  - eapply (keyed_upsert tc_id); [exact (pk_routines _ (rk_playbooks _ Hst))|exact Hfits|intros; apply same_key].
  - eapply keyed_impl; [exact (pk_playbooks _ (rk_playbooks _ Hst))|]. intros playbook _ (Hv & Hp & Hm).
    split_and!; [done..|]. intros milestone Hin. apply Hkeys, Hm, Hin.
Qed.

(** A Playbook counts a saved step as a new revision. *)
Lemma playbook_advanced st index playbook updated next :
  records_ok st -> playbook_configurations st !! index = Some playbook ->
  u64_checked_add (pb_revision playbook) 1 = Some next ->
  records_ok (st <| playbook_configurations :=
    <[index := playbook <| pb_revision := next |> <| pb_updated_at_epoch_ms := updated |>]>
      (playbook_configurations st) |>).
Proof.
  intros Hst Hi Hn. frame Hst.
  - eapply (keyed_insert pb_project_id); [exact (pk_playbooks _ (rk_playbooks _ Hst))|exact Hi|done|].
    destruct (kd_each _ _ _ (pk_playbooks _ (rk_playbooks _ Hst)) playbook) as (Hv & Hp & Hm);
      [by eapply list_elem_of_lookup_2|].
    split_and!; [|exact Hp|exact Hm]. revert Hv. unfold playbook_configuration_is_valid. simpl.
    rewrite !andb_true_iff, !N.ltb_lt. apply u64_checked_add_Some in Hn. intuition lia.
  - eapply keyed_impl; [exact (pk_progress _ (rk_playbooks _ Hst))|].
    intros progress _ (Hv & project_id & Ht & playbook' & Hin & Hp & Hm). split; [done|].
    exists project_id. split; [done|]. destruct (decide (playbook' = playbook)) as [->|Hne].
    + eexists. split; [by eapply elem_of_insert_eq|]. done.
    + exists playbook'. split; [|done]. by eapply elem_of_insert_ne.
Qed.

(** The findings of a Routine name Tasks of its Project: the store checks the
    Tasks it is related to, not those. *)
Definition findings_fit (st : CurrentState) (routine : TrackerConfiguration) : bool :=
  all (fun finding => all (is_task_of st (tc_project_id routine)) (prf_related_task_ids finding))
    (tc_pending_routine_findings routine).

Lemma findings_fit_true st routine :
  findings_fit st routine = true ->
  forall finding id, finding ∈ tc_pending_routine_findings routine ->
    id ∈ prf_related_task_ids finding -> (id, tc_project_id routine) ∈ task_keys st.
Proof.
  unfold findings_fit. rewrite all_true. intros Hf finding id Hin Hid. specialize (Hf finding Hin).
  rewrite all_true in Hf. by apply is_task_of_true, Hf.
Qed.

Lemma advanced_playbook_ok st routine advance advanced :
  advanced_playbook st routine advance = Ok advanced ->
  match advanced with
  | None => True
  | Some (index, playbook') => exists playbook next,
      playbook_configurations st !! index = Some playbook
      /\ u64_checked_add (pb_revision playbook) 1 = Some next
      /\ playbook' = playbook <| pb_revision := next |>
                              <| pb_updated_at_epoch_ms := tc_updated_at_epoch_ms routine |>
  end.
Proof.
  unfold advanced_playbook. destruct (negb advance); [by intros [= <-]|].
  destruct (position _ _) as [[i playbook]|] eqn:E; [|done].
  destruct (u64_checked_add _ _) as [next|] eqn:En; [|done]. intros [= <-].
  apply position_Some in E as [Hi _]. eauto.
Qed.

Lemma save_tracker_configuration_fine id routine expected advance :
  version_is_new (state s) id (tc_project_id routine) (routine_target (tc_id routine))
    (json_to_string (routine_snapshot routine)) = true ->
  findings_fit (state s) routine = true ->
  fine_after (save_tracker_configuration id routine expected advance s).
Proof.
  intros Hnew Hfindings. unfold save_tracker_configuration, expect_revision. run_step. run_step; [fine_code|].
  run_step; [fine_code|]. run_step; [fine_code|].
  destruct (advanced_playbook (state s) routine advance) as [advanced|] eqn:Ha; [run_step|fine_code].
  apply fine_install. guards.
  match goal with H : tracker_configuration_is_valid routine = true |- _ => pose proof H as Hv end.
  match goal with H : has_project _ _ = true |- _ => pose proof H as Hproject end.
  destruct (routine_saved (state s) routine Hok) as [Hsaved Hin].
  { split_and!; [done|by apply has_project_true| |by apply findings_fit_true].
    intros task_id Hid. apply is_task_of_true. auto. }
  { intros i y E. rewrite E in *. simpl in *. guards. done. }
  change (records_ok (record_routine_version id routine None "Configuration saved"
    match advanced with
    | Some (index, playbook) =>
        (with_routine routine (state s)) <| playbook_configurations :=
          <[index := playbook]> (playbook_configurations (with_routine routine (state s))) |>
    | None => with_routine routine (state s)
    end)).
  apply advanced_playbook_ok in Ha. unfold tracker_configuration_is_valid in Hv. guards.
  assert (negb (trim_is_empty (tc_project_id routine)) = true) by by apply negb_true_iff.
  destruct advanced as [[index playbook']|].
  - destruct Ha as (playbook & next & Hi & Hn & ->). apply recorded_fine; try done.
    + exact (playbook_advanced _ index playbook _ next Hsaved Hi Hn).
    + split; [by apply has_project_true|]. exists (tc_id routine). by split.
    + by apply saved_record_bounded.
  - apply recorded_fine; try done.
    + split; [by apply has_project_true|]. exists (tc_id routine). by split.
    + by apply saved_record_bounded.
Qed.

(** A Routine that no Playbook asks leaves with its versions. *)
Lemma delete_tracker_configuration_fine tracker_id expected :
  fine_after (delete_tracker_configuration tracker_id expected s).
Proof.
  unfold delete_tracker_configuration, expect_revision. fine_code.
  apply position_Some in Hcode0 as [Hi Hid]. apply bool_decide_eq_true in Hid.
  pose proof (pk_routines _ (rk_playbooks _ Hok)) as Hroutines.
  assert (forall id project_id, (id, project_id) ∈ routine_keys (state s) -> id <> tracker_id ->
    (id, project_id) ∈ (fun routine => (tc_id routine, tc_project_id routine))
      <$> delete n (tracker_configurations (state s))) as Hkeys.
  { intros id project_id (routine & [= -> ->] & Hr)%list_elem_of_fmap Hne. apply list_elem_of_fmap.
    exists routine. split; [done|]. eapply elem_of_delete_ne; [exact Hi|done|congruence]. }
  frame Hok.
  - eapply (versions_ok_change
      (remove_configuration_target_state (tc_project_id t) (routine_target tracker_id) (state s)));
      [apply remove_target_ok, (rk_versions _ Hok)|done|done|].
    intros version [_ Hv]%elem_of_retain Ht. eapply target_fits_kept; [exact Ht|done|done| |done].
    intros id Htarget Hin. apply Hkeys; [done|]. intros ->. apply negb_true_iff in Hv.
    apply not_true_iff_false in Hv. apply Hv, of_target_true. unfold version_target. rewrite Htarget.
    f_equal. apply list_elem_of_fmap in Hin as (routine & [= Hrid ->] & Hr).
    by rewrite (unique_elem tc_id (tracker_configurations (state s)) routine t (kd_unique _ _ _ Hroutines)
      Hr ltac:(by eapply list_elem_of_lookup_2)) by congruence.
  - by apply keyed_delete.
  - eapply keyed_impl; [exact (pk_playbooks _ (rk_playbooks _ Hok))|]. intros playbook Hp (Hv & Hpr & Hm).
    split_and!; [done..|]. intros milestone Hin. apply Hkeys; [by apply Hm|].
    rewrite any_false in Hcode2. apply (bool_decide_eq_false (pm_routine_id milestone = tracker_id)), Hcode2.
    apply list_elem_of_bind. eauto.
Qed.
End routines.
