(* ===== verification/RecordTasks.v ===== *)
(** * Tasks and what belongs to them stay acceptable

    The methods on Tasks, issue links, branch sets, task sources and task
    automation. *)

From Stdlib Require Import Btauto.
From S2P Require Import Prelude Keyed Text Domain DomainRules DomainConfig StoreState.
From S2P Require Import SessionJournals Transactions SessionRecords RunRecords AccountRecords.
From S2P Require Import RoutineRecords TaskRecords CurrentValidation SessionInvariant.
From S2P Require Import SessionPreservation RecordTransactions RecordInvariant VersionInvariant.
From S2P Require Import RecordPreservation RecordRoutines.

Local Open Scope string_scope.
Local Open Scope list_scope.

(** ** Issue links as records and pairs *)

Definition link_fits (ids : list string) (link : IssueLink) : Prop :=
  il_task_id link ∈ ids
  /\ str_is_empty (il_external_ref link) = false
  /\ (85 <? len (il_external_ref link))%N = false
  /\ is_some_and (il_source_id link) (source_id_is_invalid link) = false
  /\ external_id_is_invalid link = false
  /\ external_updated_at_is_invalid link = false
  /\ is_some_and (il_url link) link_url_is_invalid = false.
Definition links_clash (link candidate : IssueLink) : bool :=
  ((il_task_id candidate == il_task_id link) && (il_provider candidate == ILP_Jira)
   && (il_provider link == ILP_Jira))
  || same_source_issue candidate link || same_site_issue candidate link.

Lemma links_valid st :
  issue_links_are_invalid st = false <->
  (forall link, link ∈ issue_links st -> link_fits (t_id <$> tasks st) link)
  /\ apart links_clash (issue_links st).
Proof.
  unfold issue_links_are_invalid, apart.
  rewrite (any_with_rest_ext _ (fun link rest =>
    (negb (any (fun task => t_id task == il_task_id link) (tasks st))
     || str_is_empty (il_external_ref link)
     || (85 <? len (il_external_ref link))%N
     || is_some_and (il_source_id link) (source_id_is_invalid link)
     || external_id_is_invalid link
     || external_updated_at_is_invalid link
     || is_some_and (il_url link) link_url_is_invalid)
    || any (links_clash link) rest)) by (intros; reflexivity).
  rewrite any_with_rest_or_false. apply and_iff_compat_r. unfold link_fits.
  split; intros Hl link Hin; specialize (Hl link Hin); rewrite <- any_key in *.
  - rewrite !orb_false_iff, negb_false_iff in Hl. tauto.
  - rewrite !orb_false_iff, negb_false_iff. tauto.
Qed.

(** ** Routines with fewer Tasks and findings *)

Lemma apart_check {A} (f : A -> bool) (r : A -> A -> bool) l :
  all_with_rest (fun x rest => f x && negb (any (r x) rest)) l = true <-> all f l = true /\ apart r l.
Proof. rewrite all_with_rest_and, andb_true_iff, all_with_rest_negb, negb_true_iff. done. Qed.

Lemma apart_check_retain {A} (f : A -> bool) (r : A -> A -> bool) p l :
  all_with_rest (fun x rest => f x && negb (any (r x) rest)) l = true ->
  all_with_rest (fun x rest => f x && negb (any (r x) rest)) (retain p l) = true.
Proof.
  rewrite !apart_check, !all_true. intros [Hf Hr]. split; [|by apply apart_retain].
  intros x [Hx _]%elem_of_retain. auto.
Qed.

Lemma retain_shorter {A} (p : A -> bool) l max :
  (length l <=? max)%nat = true -> (length (retain p l) <=? max)%nat = true.
Proof. rewrite !Nat.leb_le. pose proof (sublist_length _ _ (retain_sublist p l)). lia. Qed.

Lemma bounded_unique_retain values p max bytes :
  bounded_unique_values values max bytes = true -> bounded_unique_values (retain p values) max bytes = true.
Proof.
  unfold bounded_unique_values. rewrite !andb_true_iff. intros [Hl Hv].
  split; [by apply retain_shorter|].
  by apply (apart_check_retain (fun value => negb (trim_is_empty value) && (len value <=? bytes)%N)
    (fun value other => other == value)).
Qed.

Definition pruned (p : string -> bool) (q : PendingRoutineFinding -> bool) (routine : TrackerConfiguration)
  : TrackerConfiguration :=
  routine <| tc_related_task_ids := retain p (tc_related_task_ids routine) |>
          <| tc_pending_routine_findings := retain q (tc_pending_routine_findings routine) |>.

Lemma pruned_valid p q routine :
  tracker_configuration_is_valid routine = true -> tracker_configuration_is_valid (pruned p q routine) = true.
Proof.
  unfold tracker_configuration_is_valid. rewrite !andb_true_iff. cbn -[bounded_unique_values].
  intros Hv. decompose [and] Hv. split_and!; try done.
  - by apply bounded_unique_retain.
  - by apply retain_shorter.
  - by apply (apart_check_retain (fun finding => finding_is_valid finding
      && (prf_routine_generation finding =? tc_generation routine)%N)
      (fun finding other => (prf_id other == prf_id finding) || (prf_source_key other == prf_source_key finding))).
  - destruct (tc_action_handling routine != RAH_Off); [done|]. simpl in *.
    match goal with H : bool_decide (tc_pending_routine_findings routine = []) = true |- _ =>
      apply bool_decide_eq_true in H as -> end. done.
Qed.

Lemma drop_findings_pruned task_id routine :
  exists q, drop_task_findings task_id routine = pruned (fun _ => true) q routine.
Proof.
  unfold drop_task_findings, pruned. destruct (is_scheduled _).
  - exists (fun _ => true). rewrite !retain_all by done. by destruct routine.
  - eexists. rewrite (retain_all (fun _ => true) (tc_related_task_ids routine)) by done. by destruct routine.
Qed.

Lemma membership_ids_retain p sets :
  NoDup (membership_ids sets) -> NoDup (membership_ids (retain p sets)).
Proof.
  unfold membership_ids. intros Hn. eapply sublist_NoDup; [exact Hn|]. clear.
  induction sets as [|set sets IH]; simpl; [done|].
  destruct (p set); simpl; [by apply sublist_app|by apply sublist_inserts_l].
Qed.

Section tasks.
Context `{UuidParser} `{JsonText}.

(** Routines are pruned; their identities stay. *)
Lemma routines_pruned st f :
  records_ok st -> (forall routine, exists p q, f routine = pruned p q routine) ->
  records_ok (st <| tracker_configurations := f <$> tracker_configurations st |>).
Proof.
  intros Hok Hf.
  assert (forall routine, tc_id (f routine) = tc_id routine) as Hid.
  { intros routine. by destruct (Hf routine) as (p & q & ->). }
  assert (routine_keys (st <| tracker_configurations := f <$> tracker_configurations st |>)
    = routine_keys st) as Hkeys.
  { unfold routine_keys. cbn [tracker_configurations set_field]. rewrite <- list_fmap_compose.
    apply list_fmap_ext. intros i routine _. simpl. by destruct (Hf routine) as (p & q & ->). }
  frame Hok.
  - eapply versions_ok_change; [exact (rk_versions _ Hok)|done|done|]. intros version _ Ht.
    eapply target_fits_more; [exact Ht|done|done|by rewrite Hkeys|done].
  - eapply keyed_fmap; [exact (pk_routines _ (rk_playbooks _ Hok))| |done].
    intros routine _ (Hv & Hp & Hr & Hfd). destruct (Hf routine) as (p & q & ->).
    split_and!; [by apply pruned_valid|exact Hp| |].
    + intros id [Hin _]%elem_of_retain. by apply Hr.
    + intros finding id [Hin _]%elem_of_retain. by apply Hfd.
  - eapply keyed_impl; [exact (pk_playbooks _ (rk_playbooks _ Hok))|]. unfold playbook_fits. by rewrite Hkeys.
Qed.

(** ** A Task changes *)

Lemma branches_edited st i task task' sets :
  NoDup (t_id <$> tasks st) -> tasks st !! i = Some task -> t_id task' = t_id task ->
  keyed (branch_set_fits st) tbs_task_id sets ->
  (forall set binding, set ∈ sets -> tbs_task_id set = t_id task -> t_branch task = Some binding ->
     t_branch task' = Some binding /\ t_worktree_generation task' = t_worktree_generation task) ->
  keyed (branch_set_fits (set_task i task' st)) tbs_task_id sets.
Proof.
  intros Hn Hi Hk Hsets Hsame. eapply keyed_impl; [exact Hsets|].
  intros set Hin (t & binding & Ht & Hid & Hb & Hl & Hm & Hd).
  destruct (decide (t_id t = t_id task)) as [He|He].
  - assert (t = task) as ->.
    { apply (unique_elem t_id (tasks st)); [done..| |done]. by eapply list_elem_of_lookup_2. }
    destruct (Hsame set binding Hin) as [Hb' Hg]; [congruence|done|].
    exists task', binding. split_and!; try done; [by eapply elem_of_insert_eq|congruence|].
    intros membership Hmem. specialize (Hm membership Hmem). revert Hm. unfold membership_is_valid.
    by rewrite Hg.
  - exists t, binding. split_and!; try done. by eapply elem_of_insert_ne; [exact Hi|done|congruence].
Qed.

Lemma links_same_ids st st' :
  issue_links_are_invalid st = false -> issue_links st' = issue_links st ->
  t_id <$> tasks st' = t_id <$> tasks st -> issue_links_are_invalid st' = false.
Proof. rewrite !links_valid. by intros [? ?] -> ->. Qed.

Lemma task_edited st i task task' :
  records_ok st -> tasks st !! i = Some task -> t_id task' = t_id task ->
  t_project_id task' = t_project_id task ->
  (forall set binding, set ∈ task_branch_sets st -> tbs_task_id set = t_id task ->
     t_branch task = Some binding ->
     t_branch task' = Some binding /\ t_worktree_generation task' = t_worktree_generation task) ->
  records_ok (set_task i task' st).
Proof.
  intros Hok Hi Hk Hp Hb.
  assert (task_keys (set_task i task' st) = task_keys st) as Hkeys.
  { apply (fmap_insert_same (fun t => (t_id t, t_project_id t)) _ i task); [done|]. by rewrite Hk, Hp. }
  assert (t_id <$> tasks (set_task i task' st) = t_id <$> tasks st) as Hids.
  { by apply (fmap_insert_same t_id _ i task). }
  frame Hok.
  - eapply keyed_impl; [exact (pk_routines _ (rk_playbooks _ Hok))|]. unfold routine_fits. by rewrite Hkeys.
  - eapply keyed_impl; [exact (pk_progress _ (rk_playbooks _ Hok))|]. unfold progress_fits. by rewrite Hkeys.
  - rewrite Hids. apply (rk_tasks _ Hok).
  - eapply links_same_ids; [exact (tk_links _ (rk_tasks _ Hok))|done|done].
  - eapply branches_edited; [apply (rk_tasks _ Hok)|exact Hi|done|apply (rk_tasks _ Hok)|]. eauto.
Qed.

(** ** A Task joins *)

Lemma task_joined st task :
  records_ok st -> t_id task ∉ t_id <$> tasks st -> records_ok (st <| tasks := tasks st ++ [task] |>).
Proof.
  intros Hok Hn.
  assert (forall k, k ∈ task_keys st -> k ∈ task_keys (st <| tasks := tasks st ++ [task] |>)) as Hkeys.
  { intros k Hk. unfold task_keys. cbn [tasks set_field]. rewrite fmap_app. apply elem_of_app. by left. }
  frame Hok.
  - eapply keyed_impl; [exact (pk_routines _ (rk_playbooks _ Hok))|]. intros routine _ (Hv & Hp & Hr & Hf).
    split_and!; eauto.
  - eapply keyed_impl; [exact (pk_progress _ (rk_playbooks _ Hok))|].
    intros progress _ (Hv & project_id & Ht & Ha). split; [done|]. exists project_id. auto.
  - cbn [tasks set_field]. rewrite fmap_app. apply list.NoDup_app.
    split_and!; [apply (rk_tasks _ Hok)| |apply NoDup_singleton]. by intros id Hid ->%list_elem_of_singleton.
  - apply links_valid. destruct (proj1 (links_valid st) (tk_links _ (rk_tasks _ Hok))) as [Hl Ha].
    split; [|exact Ha]. intros link Hin. destruct (Hl link Hin) as [Ht Hrest]. split; [|done].
    cbn [tasks set_field]. rewrite fmap_app. apply elem_of_app. by left.
  - eapply keyed_impl; [exact (tk_branches _ (rk_tasks _ Hok))|].
    intros set _ (t & binding & Ht & Hrest). exists t, binding. split; [|done]. apply elem_of_app. by left.
Qed.

(** ** A Task leaves with what belongs to it *)

Lemma without_task_pruned task_id routine :
  exists p q, without_task task_id routine = pruned p q routine
  /\ (forall id, p id = true -> id <> task_id)
  /\ (forall finding, q finding = true -> task_id ∉ prf_related_task_ids finding).
Proof.
  eexists _, _. split; [reflexivity|]. split.
  - intros id Hid. by guards.
  - intros finding Hf Hin. guards. specialize (Hf _ Hin). by rewrite bool_decide_eq_true_2 in Hf.
Qed.

Lemma task_left st i task sessions' :
  records_ok st -> tasks st !! i = Some task ->
  keyed (steward_fits (st <| sessions := sessions' |>)) stw_project_id (steward_configurations st) ->
  records_ok (drop_task_records (t_id task) (st <| sessions := sessions' |> <| tasks := delete i (tasks st) |>)).
Proof.
  intros Hok Hi Hstewards.
  assert (forall id project_id, (id, project_id) ∈ task_keys st -> id <> t_id task ->
    (id, project_id) ∈ (fun t => (t_id t, t_project_id t)) <$> delete i (tasks st)) as Hkeys.
  { intros id project_id (t & [= -> ->] & Ht)%list_elem_of_fmap Hne. apply list_elem_of_fmap.
    exists t. split; [done|]. eapply elem_of_delete_ne; [exact Hi|done|congruence]. }
  assert (forall k, k ∈ routine_keys st <-> k ∈ (fun r => (tc_id r, tc_project_id r)) <$>
    (without_task (t_id task) <$> tracker_configurations st)) as Hroutines.
  { intros k. unfold routine_keys. by rewrite <- list_fmap_compose. }
  frame Hok.
  - exact Hstewards.
  - eapply versions_ok_change; [exact (rk_versions _ Hok)|done|done|]. intros version _ Ht.
    eapply target_fits_more; [exact Ht|done|done| |done]. intros id. apply Hroutines.
  - eapply keyed_fmap; [exact (pk_routines _ (rk_playbooks _ Hok))| |done].
    intros routine _ (Hv & Hp & Hr & Hf).
    destruct (without_task_pruned (t_id task) routine) as (p & q & -> & Hpn & Hqn).
    split_and!; [by apply pruned_valid|exact Hp| |].
    + intros id [Hin Hk]%elem_of_retain. apply Hkeys; [by apply Hr|by apply Hpn].
    + intros finding id [Hin Hk]%elem_of_retain Hid. apply Hkeys; [by eapply Hf|].
      intros ->. by apply (Hqn finding Hk).
  - eapply keyed_impl; [exact (pk_playbooks _ (rk_playbooks _ Hok))|]. intros playbook _ (Hv & Hp & Hm).
    split_and!; [done..|]. intros milestone Hin. apply Hroutines, Hm, Hin.
  - eapply keyed_impl; [apply keyed_retain, (rk_playbooks _ Hok)|].
    intros progress [_ Hne]%elem_of_retain (Hv & project_id & Ht & Ha). guards. split; [done|].
    exists project_id. split; [by apply Hkeys|done].
  - eapply sublist_NoDup; [exact (tk_ids _ (rk_tasks _ Hok))|]. apply fmap_sublist, sublist_delete.
  - apply links_valid. destruct (proj1 (links_valid st) (tk_links _ (rk_tasks _ Hok))) as [Hl Ha].
    split; [|by apply apart_retain]. intros link [Hin Hne]%elem_of_retain. guards.
    destruct (Hl link Hin) as [Ht Hrest]. split; [|done].
    apply list_elem_of_fmap in Ht as (t & Eid & Ht). apply list_elem_of_fmap. exists t. split; [done|].
    eapply elem_of_delete_ne; [exact Hi|done|congruence].
  - eapply keyed_impl; [apply keyed_retain, (rk_tasks _ Hok)|].
    intros set [_ Hne]%elem_of_retain (t & binding & Ht & Hid & Hrest). guards. exists t, binding.
    split_and!; [|done|apply Hrest|apply Hrest|apply Hrest|apply Hrest].
    eapply elem_of_delete_ne; [exact Hi|done|congruence].
  - apply membership_ids_retain, (rk_tasks _ Hok).
Qed.

(** ** The methods on one Task *)

Section methods.
Context (s : Store) (Hok : records_ok (state s)).

Ltac positions :=
  repeat match goal with
  | E : task_position _ _ = Some _ |- _ => apply position_Some in E as [? ?]
  | E : (_ == _) = true |- _ => apply bool_decide_eq_true in E
  end.
Ltac edits_task := fine_code; positions; (eapply task_edited; [exact Hok|eassumption|done|done|auto]).

Lemma rename_task_fine task_id title now : fine_after (rename_task task_id title now s).
Proof. unfold rename_task. edits_task. Qed.
Lemma update_task_brief_fine task_id brief now : fine_after (update_task_brief task_id brief now s).
Proof. unfold update_task_brief. edits_task. Qed.
Lemma update_task_developer_notes_fine task_id expected notes now :
  fine_after (update_task_developer_notes task_id expected notes now s).
Proof. unfold update_task_developer_notes. edits_task. Qed.
Lemma update_task_steward_brief_fine task_id brief expected now :
  fine_after (update_task_steward_brief task_id brief expected now s).
Proof. unfold update_task_steward_brief. edits_task. Qed.

Lemma bind_task_branch_fine task_id binding now : fine_after (bind_task_branch task_id binding now s).
Proof.
  unfold bind_task_branch. fine_code. positions. guards.
  eapply task_edited; [exact Hok|eassumption|done|done|]. intros set b _ _ Hb. congruence.
Qed.

Lemma findings_dropped task_id st : records_ok st -> records_ok (drop_closed_task_routine_findings task_id st).
Proof.
  intros Hst. apply routines_pruned; [done|]. intros routine.
  destruct (drop_findings_pruned task_id routine) as [q ->]. eauto.
Qed.

Lemma set_task_status_fine task_id status now : fine_after (set_task_status task_id status now s).
Proof.
  unfold set_task_status. fine_code; positions; try apply findings_dropped;
    (eapply task_edited; [exact Hok|eassumption|done|done|auto]).
Qed.

Lemma release_closed_task_branch_fine task_id expected now :
  fine_after (release_closed_task_branch task_id expected now s).
Proof.
  unfold release_closed_task_branch. fine_code. positions.
  set (sets := retain _ (task_branch_sets (state s))).
  assert (records_ok ((state s) <| task_branch_sets := sets |>)) as Hsets.
  { frame Hok; [apply keyed_retain|apply membership_ids_retain]; apply (rk_tasks _ Hok). }
  eapply task_edited; [exact Hsets|eassumption|done|done|].
  intros set binding [_ Hne]%elem_of_retain Hid. guards. congruence.
Qed.

(** Closing a Task parks its Sessions, which keep their names. *)
Lemma close_task_fine task_id targets now :
  fine_after (close_task_with_suspended_sessions task_id targets now s).
Proof.
  unfold close_task_with_suspended_sessions. run_step. run_step; [run_step|fine_code].
  destruct p as [index task]. run_step; [fine_code|]. run_step. run_step; [fine_code|].
  destruct (park_all task_id now targets s) as (sessions' & suspensions & Hrun & Hnames).
  { guards. by eapply targets_known. }
  rewrite bind_run, Hrun. run_step. apply fine_install, findings_dropped. cbn [state set_field].
  positions.
  assert (records_ok ((state s) <| sessions := sessions' |> <| task_archive_suspensions := suspensions |>)) as Hs.
  { assert (records_ok ((state s) <| sessions := sessions' |>)) as Hs.
    { apply sessions_changed; [done|]. intros c id _ _. unfold session_keys. cbn [sessions set_field].
      change (fun session => (s_id session, s_project_id session)) with name_and_project.
      by rewrite Hnames. }
    frame Hs. }
  eapply task_edited; [exact Hs|eassumption|done|done|auto].
Qed.

(** ** Tasks that come and go *)

Lemma insert_task_record_ok task l l' :
  insert_task_record task l = Ok l' -> l' = l ++ [task] /\ t_id task ∉ t_id <$> l.
Proof.
  unfold insert_task_record. destruct (_ || _); [done|].
  destruct (any _ l) eqn:E; [done|]. intros [= <-]. by apply any_key_fresh in E.
Qed.

Lemma insert_task_fine task : fine_after (insert_task task s).
Proof.
  unfold insert_task. fine_code. apply insert_task_record_ok in Hcode as [-> Hn]. by apply task_joined.
Qed.

Lemma stewards_spared ids st sessions' :
  records_ok st -> spares_executors st ids = true ->
  (forall id project_id, (id, project_id) ∈ session_keys st -> id ∉ ids ->
     (id, project_id) ∈ (fun session => (s_id session, s_project_id session)) <$> sessions') ->
  keyed (steward_fits (st <| sessions := sessions' |>)) stw_project_id (steward_configurations st).
Proof.
  intros Hst Hs Hk. eapply keyed_impl; [exact (sk_stewards _ (rk_stewards _ Hst))|].
  intros c Hc (Hv & Hp & He). split_and!; [done..|]. intros id Hid. apply Hk; [auto|].
  by eapply spared_steward.
Qed.

Lemma delete_task_fine task_id :
  spares_executors (state s)
    (sus_session_id <$> retain (parked_for task_id) (task_archive_suspensions (state s))) = true ->
  fine_after (delete_task task_id s).
Proof.
  intros Hs. unfold delete_task. fine_code. positions. subst.
  match goal with |- context [remove_exact_session_descriptors ?ids ?st] =>
    destruct (remove_exact_frame ids st) as (sessions' & a & b & c & d & E & Hstay) end.
  rewrite E.
  pose proof (task_left (state s) n t sessions' Hok H1 (stewards_spared _ _ _ Hok Hs Hstay)) as Hl.
  frame Hl.
Qed.

Lemma delete_archived_task_fine task_id archived_at session_ids :
  spares_executors (state s) session_ids = true ->
  fine_after (delete_archived_task_with_sessions task_id archived_at session_ids s).
Proof.
  intros Hs. unfold delete_archived_task_with_sessions. fine_code. positions. subst.
  match goal with |- context [remove_exact_session_descriptors ?ids ?st] =>
    destruct (remove_exact_frame ids st) as (sessions' & a & b & c & d & E & Hstay) end.
  rewrite E.
  pose proof (task_left (state s) n t sessions' Hok H1 (stewards_spared _ _ _ Hok Hs Hstay)) as Hl.
  frame Hl.
Qed.

(** ** Issue links *)

Lemma same_authority_sym a b : same_https_authority a b = same_https_authority b a.
Proof.
  unfold same_https_authority. destruct (a ≫= https_authority), (b ≫= https_authority); try done.
  unfold eq_ignore_ascii_case. apply eq_true_iff_eq. rewrite !bool_decide_eq_true. by split.
Qed.

Lemma same_source_sym a b : same_source_issue a b = same_source_issue b a.
Proof.
  unfold same_source_issue. apply eq_true_iff_eq. rewrite !andb_true_iff, !bool_decide_eq_true.
  split; intros [[[H1 H2] H3] H4]; rewrite <- H3 in *; rewrite H3 in *; split_and!; congruence.
Qed.

Lemma same_site_sym a b : same_site_issue a b = same_site_issue b a.
Proof.
  unfold same_site_issue. rewrite (same_authority_sym (il_url a)).
  apply eq_true_iff_eq. rewrite !andb_true_iff, !bool_decide_eq_true.
  split; intros [[[H1 H2] H3] H4]; split_and!; congruence.
Qed.

Lemma link_inserted st link links :
  records_ok st ->
  insert_jira_issue_link_record (tasks st) (task_source_configurations st) link (issue_links st) = Ok links ->
  records_ok (st <| issue_links := links |>).
Proof.
  intros Hst E. unfold insert_jira_issue_link_record in E.
  destruct (_ || _) eqn:Hc in E; [done|]. injection E as <-. guards.
  frame Hst. apply links_valid. destruct (proj1 (links_valid st) (tk_links _ (rk_tasks _ Hst))) as [Hl Ha].
  split.
  - intros x [Hx| ->%list_elem_of_singleton]%elem_of_app; [by apply Hl|].
    unfold link_fits. split_and!; try done.
    + by apply any_key.
    + destruct (il_source_id link); [|done]. simpl in *. by guards.
    + destruct (il_url link); done.
  - apply apart_app; [done|]. intros y Hy.
    match goal with H : forall x, x ∈ issue_links st -> _ = false |- _ => specialize (H y Hy) end. guards.
    unfold links_clash. rewrite (same_source_sym link y), (same_site_sym link y).
    apply orb_false_iff; split; [apply orb_false_iff; split; [|done]|done].
    destruct (bool_decide_reflect (il_task_id link = il_task_id y)) as [Eid|]; [|done].
    destruct (bool_decide_reflect (il_provider y = ILP_Jira)) as [Ep|]; [|by rewrite !andb_false_r].
    exfalso. match goal with H : _ && true = false |- _ => revert H end.
    by rewrite bool_decide_eq_true_2.
Qed.

Lemma insert_task_jira_issue_link_fine link : fine_after (insert_task_jira_issue_link link s).
Proof. unfold insert_task_jira_issue_link. fine_code. by eapply link_inserted. Qed.

Lemma insert_task_from_source_fine task link : fine_after (insert_task_from_source task link s).
Proof.
  unfold insert_task_from_source. fine_code. apply insert_task_record_ok in Hcode0 as [-> Hn].
  exact (link_inserted _ link _ (task_joined _ _ Hok Hn) Hcode1).
Qed.

(** ** Updates from a source *)

Lemma remote_update_fine now update st st' :
  records_ok st -> apply_remote_update now update st = Ok st' -> records_ok st'.
Proof.
  intros Hst. unfold apply_remote_update. destruct (_ || _) eqn:Hc; [done|]. guards.
  destruct (find_mut _ _ _) as [[found links]|] eqn:Ef; [|done].
  apply find_mut_Some in Ef as (i & link & Ei & _ & ->). apply position_Some in Ei as [Hi Hl].
  apply andb_true_iff in Hl as [_ Hsource].
  assert (records_ok (st <| issue_links :=
    <[i := link <| il_external_updated_at := Some (tru_external_updated_at update) |>]> (issue_links st) |>)) as Hlinks.
  { frame Hst. apply links_valid.
    destruct (proj1 (links_valid st) (tk_links _ (rk_tasks _ Hst))) as [Hfit Ha]. split.
    - intros x [->|Hx]%elem_of_insert_list; [|by apply Hfit].
      destruct (Hfit link) as (Ht & Hr & Hr' & Hs & He & Hu & Hurl); [by eapply list_elem_of_lookup_2|].
      destruct (il_source_id link) as [source|] eqn:Es; [|done]. simpl in Hs.
      unfold source_id_is_invalid in Hs. guards.
      unfold link_fits. cbn. rewrite Es. unfold source_id_is_invalid, external_id_is_invalid,
        external_updated_at_is_invalid in *. cbn in *. rewrite Es in *.
      destruct (il_external_id link) as [external|] eqn:Ee; [|done]. cbn in *.
      simplify_eq. by split_and!; try done; repeat (apply orb_false_iff; split).
    - eapply apart_insert; [exact Ha|exact Hi|done|done]. }
  destruct (task_position st (tru_task_id update)) as [[index task]|] eqn:Et; [|done].
  intros [= <-]. destruct (_ || _); [|exact Hlinks].
  apply position_Some in Et as [Hti _]. eapply task_edited; [exact Hlinks|exact Hti|done|done|auto].
Qed.

Lemma apply_task_source_remote_updates_fine updates now :
  fine_after (apply_task_source_remote_updates updates now s).
Proof.
  unfold apply_task_source_remote_updates. run_step. destruct updates as [|update updates]; [done|].
  destruct (apply_remote_updates now (update :: updates) (state s)) as [st'|] eqn:E; [run_step|fine_code].
  apply fine_install_revision. revert E. generalize (update :: updates) as l. generalize Hok.
  generalize (state s) as st. intros st Hst l. revert st Hst. induction l as [|u l IH]; intros st Hst; simpl.
  - by intros [= <-].
  - destruct (apply_remote_update now u st) as [st1|] eqn:E1; [|done]. apply IH. by eapply remote_update_fine.
Qed.

(** ** Task sources and automation *)

Lemma insert_task_source_configuration_fine source : fine_after (insert_task_source_configuration source s).
Proof.
  unfold insert_task_source_configuration. fine_code. guards. frame Hok.
  - apply keyed_app; [apply (rk_tasks _ Hok)|split; [done|by apply has_project_true]|].
    apply any_key_fresh. by apply any_false.
  - apply counted_app; [apply (rk_tasks _ Hok)|]. by apply Nat.leb_gt.
Qed.

Lemma replace_task_source_configuration_fine source : fine_after (replace_task_source_configuration source s).
Proof.
  unfold replace_task_source_configuration. fine_code. guards. apply position_Some in Hcode0 as [Hi Hid].
  apply bool_decide_eq_true in Hid. frame Hok.
  - eapply (keyed_insert tsc_id); [apply (rk_tasks _ Hok)|exact Hi|done|]. split; [done|].
    destruct (kd_each _ _ _ (tk_sources _ (rk_tasks _ Hok)) t) as [_ Hp]; [by eapply list_elem_of_lookup_2|].
    match goal with E : tsc_project_id t = _ |- _ => rewrite <- E end. exact Hp.
  - eapply counted_insert; [apply (rk_tasks _ Hok)|exact Hi|congruence].
Qed.

Lemma delete_task_source_configuration_fine source_id :
  fine_after (delete_task_source_configuration source_id s).
Proof.
  unfold delete_task_source_configuration. fine_code. frame Hok.
  - apply keyed_delete, (rk_tasks _ Hok).
  - apply counted_delete, (rk_tasks _ Hok).
Qed.

Lemma set_project_task_automation_configuration_fine configuration expected :
  fine_after (set_project_task_automation_configuration configuration expected s).
Proof.
  unfold set_project_task_automation_configuration, expect_revision. fine_code; guards;
    (assert (automation_fits (state s) configuration) as Hf by (split; [done|by apply has_project_true]));
    frame Hok.
  - apply position_Some in Hcode1 as [Hi Hp]. apply bool_decide_eq_true in Hp.
    eapply (keyed_insert pta_project_id); [apply (rk_tasks _ Hok)|exact Hi|done|done].
  - apply keyed_app; [apply (rk_tasks _ Hok)|done|]. rewrite position_None in Hcode1.
    apply any_key_fresh. by apply any_false.
Qed.
End methods.
End tasks.

(** * Branch sets stay acceptable

    [reconcile_task_branch_set]: the branches seen in a worktree are added to
    the Task's set. *)

Definition branch_key (membership : TaskBranchMembership) : string * string :=
  (tbm_repository_common_dir membership, tbm_ref_name membership).

(** No reference is reported twice in one round. *)
Lemma before_NoDup {A} (f : list A -> A -> bool) (key : A -> string) l :
  (forall before x, f before x = true -> key x ∉ key <$> before) ->
  all_with_before f [] l = true -> NoDup (key <$> l) /\ (forall x, x ∈ l -> exists before, f before x = true).
Proof.
  intros Hf. induction l as [|x l IH] using rev_ind.
  { intros _. split; [apply NoDup_nil_2|]. by intros ? ?%not_elem_of_nil. }
  rewrite all_with_before_snoc, andb_true_iff. intros [Hl Hx]. simpl in Hx.
  destruct (IH Hl) as [Hn Heach]. split.
  - rewrite fmap_app. apply list.NoDup_app. split_and!; [done| |apply NoDup_singleton].
    intros k Hk ->%list_elem_of_singleton. by apply (Hf l x Hx).
  - intros y [Hy| ->%list_elem_of_singleton]%elem_of_app; eauto.
Qed.

Lemma membership_ids_extended sets i set set' additions :
  sets !! i = Some set -> tbs_memberships set' = tbs_memberships set ++ additions ->
  membership_ids (<[i := set']> sets) ≡ₚ membership_ids sets ++ (tbm_id <$> additions).
Proof.
  intros Hi He. revert i Hi. unfold membership_ids. induction sets as [|x sets IH]; intros [|i] Hi; simplify_eq/=.
  - rewrite He, fmap_app, <- !app_assoc. apply Permutation_app_head, Permutation_app_comm.
  - rewrite (IH i Hi). by rewrite app_assoc.
Qed.

(** A membership that the store accepts is one the loader accepts. *)
Lemma accepted_valid task binding generation common_dir before membership :
  incoming_is_refused binding generation common_dir before membership = false ->
  t_worktree_generation task = generation -> (0 < generation)%N -> str_is_empty common_dir = false ->
  membership_is_valid task binding membership = true.
Proof.
  unfold incoming_is_refused. intros Hr Hg Hpos Hdir. guards.
  unfold membership_is_valid. subst. rewrite !andb_true_iff, !negb_true_iff, !bool_decide_eq_true.
  split_and!; try done.
  - apply N.leb_le. by apply N.ltb_ge.
  - by apply bool_decide_eq_false.
  - destruct (tbm_parent_ref_name membership); [|done]. simpl in *. by apply negb_false_iff.
  - apply N.ltb_lt. match goal with H : (_ =? _)%N = true |- _ => apply N.eqb_eq in H; lia end.
  - apply N.leb_le. match goal with H : (_ =? _)%N = true |- _ => apply N.eqb_eq in H; lia end.
Qed.

(** What the store adds to a set. *)
Definition additions_to (existing incoming : list TaskBranchMembership) : list TaskBranchMembership :=
  retain (fun candidate => negb (any (fun existing => same_branch candidate existing) existing)) incoming.

Lemma additions_fit task binding generation common_dir existing incoming :
  all_with_before (fun before membership =>
    negb (incoming_is_refused binding generation common_dir before membership)) [] incoming = true ->
  t_worktree_generation task = generation -> (0 < generation)%N -> str_is_empty common_dir = false ->
  (forall membership, membership ∈ existing -> membership_is_valid task binding membership = true) ->
  NoDup (branch_key <$> existing) ->
  (forall membership, membership ∈ existing ++ additions_to existing incoming ->
     membership_is_valid task binding membership = true)
  /\ NoDup (branch_key <$> existing ++ additions_to existing incoming).
Proof.
  intros Hin Hg Hpos Hdir He Hn.
  assert (forall before x,
    negb (incoming_is_refused binding generation common_dir before x) = true ->
    tbm_ref_name x ∉ tbm_ref_name <$> before) as Hbefore.
  { intros before x Hx. unfold incoming_is_refused in Hx. guards. apply any_key_fresh. by apply any_false. }
  destruct (before_NoDup _ tbm_ref_name incoming Hbefore Hin) as [Hrefs Heach].
  assert (forall x, x ∈ additions_to existing incoming ->
    membership_is_valid task binding x = true /\ branch_key x ∉ branch_key <$> existing) as Hadd.
  { intros x [Hx Hnew]%elem_of_retain. split.
    - destruct (Heach x Hx) as [before Hb]. apply negb_true_iff in Hb. by eapply accepted_valid.
    - apply negb_true_iff in Hnew. rewrite any_false in Hnew.
      intros (y & Hy & Hyin)%list_elem_of_fmap. specialize (Hnew y Hyin). apply not_true_iff_false in Hnew.
      apply Hnew, same_branch_true. unfold branch_key in Hy. simpl. congruence. }
  split.
  - intros x [Hx|Hx]%elem_of_app; [auto|by apply Hadd].
  - rewrite fmap_app. apply list.NoDup_app. split_and!; [done| |].
    + intros k Hk (x & -> & Hx)%list_elem_of_fmap. by apply (Hadd x Hx).
    + apply (NoDup_fmap_1 snd). rewrite <- list_fmap_compose.
      eapply sublist_NoDup; [exact Hrefs|]. apply fmap_sublist, retain_sublist.
Qed.

Section reconcile.
Context `{UuidParser} `{JsonText} (s : Store) (Hok : records_ok (state s)).

Lemma reconcile_task_branch_set_fine task_id generation common_dir incoming truncated :
  unique_ids (tbm_id <$> incoming) = true -> (0 < generation)%N -> str_is_empty common_dir = false ->
  fine_after (reconcile_task_branch_set task_id generation common_dir incoming truncated s).
Proof.
  intros Hunique Hpos Hdir. unfold reconcile_task_branch_set. run_step.
  run_step; [run_step|fine_code]. run_step; [run_step|fine_code]. run_step; [run_step|fine_code].
  run_step; [fine_code|]. run_step; [fine_code|]. rename t into task, t0 into binding.
  pose proof (rk_tasks _ Hok) as Htasks. apply find_first_unique in Hcode as [Ht Hid]; [|apply Htasks].
  set (sets := task_branch_sets (state s)) in *.
  assert (Hgeneration : t_worktree_generation task = generation).
  { guards. by apply N.eqb_eq. }
  apply negb_false_iff in Hcode3. apply unique_ids_true in Hunique.
  assert (forall existing,
    any (fun candidate => any (fun set => any (fun membership => tbm_id membership == tbm_id candidate)
        (tbs_memberships set)) sets) (additions_to existing incoming) = false ->
    NoDup (membership_ids sets ++ (tbm_id <$> additions_to existing incoming))) as Hids.
  { intros existing Hfresh. rewrite any_false in Hfresh. apply list.NoDup_app.
    split_and!; [apply Htasks| |].
    - intros id Hin (x & -> & Hx)%list_elem_of_fmap. specialize (Hfresh x Hx). rewrite any_false in Hfresh.
      apply list_elem_of_bind in Hin as (set & Hin & Hset). specialize (Hfresh set Hset).
      apply any_key_fresh in Hfresh. done.
    - eapply sublist_NoDup; [exact Hunique|]. apply fmap_sublist, retain_sublist. }
  destruct (position (fun set => tbs_task_id set == task_id) sets) as [[index set]|] eqn:Ei; cbv beta iota zeta;
    (run_step; [fine_code|]); (run_step; [fine_code|]); apply fine_install;
    match goal with H : (task_branch_memberships_max <? _)%nat || _ = false |- _ =>
      apply orb_false_iff in H as [Hl Hf] end.
  - apply position_Some in Ei as [Hi Hset]. apply bool_decide_eq_true in Hset.
    destruct (kd_each _ _ _ (tk_branches _ Htasks) set) as (t & b & Hin & Htid & Hb & _ & Hm & Hd);
      [by eapply list_elem_of_lookup_2|].
    assert (t = task) as -> by (apply (unique_elem t_id (tasks (state s))); [apply Htasks|done..|congruence]).
    assert (b = binding) as -> by congruence.
    destruct (additions_fit task binding generation common_dir (tbs_memberships set) incoming
      Hcode3 Hgeneration Hpos Hdir Hm Hd) as [Hmem Hkeys].
    frame Hok.
    + eapply (keyed_insert tbs_task_id); [exact (tk_branches _ Htasks)|exact Hi|done|].
      exists task, binding. split_and!; [done|cbn; congruence|done| |exact Hmem|exact Hkeys].
      cbn. rewrite length_app. by apply Nat.ltb_ge.
    + cbn [task_branch_sets set_field]. rewrite (membership_ids_extended sets index set _
        (additions_to (tbs_memberships set) incoming)) by done. by apply Hids.
  - destruct (additions_fit task binding generation common_dir [] incoming
      Hcode3 Hgeneration Hpos Hdir) as [Hmem Hkeys];
      [by intros ? ?%not_elem_of_nil|apply NoDup_nil_2|].
    frame Hok.
    + apply keyed_app; [exact (tk_branches _ Htasks)| |].
      * exists task, binding. split_and!; [done|done|done| |exact Hmem|exact Hkeys].
        cbn. by apply Nat.ltb_ge.
      * rewrite position_None in Ei. apply any_key_fresh. by apply any_false.
    + cbn [task_branch_sets set_field]. unfold membership_ids. rewrite bind_app. simpl. rewrite app_nil_r.
      exact (Hids [] Hf).
Qed.
End reconcile.
