(* ===== verification/RecordProjects.v ===== *)
(** * Projects stay acceptable

    A Project joins, is renamed, or leaves with everything that belongs to it;
    and the transcript of a Project is cleared. *)

From stdpp Require Import gmap.
From Stdlib Require Import Btauto.
From S2P Require Import Prelude Keyed Text Domain DomainRules DomainConfig StoreState.
From S2P Require Import SessionJournals Transactions SessionRecords RunRecords AccountRecords.
From S2P Require Import RoutineRecords TaskRecords CurrentValidation PlaybookRecords.
From S2P Require Import SessionInvariant RecordTransactions RecordInvariant VersionInvariant.
From S2P Require Import RecordPreservation RecordRoutines RecordTasks.

Local Open Scope string_scope.
Local Open Scope list_scope.

(** ** Transcripts *)

Section transcripts.
Context `{JsonText}.

Lemma messages_mono st st' ids expected messages :
  (forall id, has_project st id = true -> has_project st' id = true) ->
  messages_are_invalid st ids expected messages = false ->
  messages_are_invalid st' ids expected messages = false.
Proof.
  intros Hp. revert ids expected. induction messages as [|message messages IH]; intros ids expected; simpl; [done|].
  destruct (_ || _) eqn:E; [done|]. intros Hrest.
  apply orb_false_iff in E as [[[E1 E2]%orb_false_iff E3]%orb_false_iff E4].
  apply negb_false_iff, Hp in E2. rewrite E1, E2, E3, E4. simpl.
  destruct (u64_checked_add _ _); [auto|done].
Qed.

(** Without the messages of one Project the others are still in sequence. *)
Lemma messages_dropped st st' project_id ids ids' expected expected' messages :
  (forall id, id <> project_id -> has_project st id = true -> has_project st' id = true) ->
  (forall id, id ∈ ids' -> id ∈ ids) ->
  (forall id, id <> project_id -> expected' !! id = expected !! id) ->
  messages_are_invalid st ids expected messages = false ->
  messages_are_invalid st' ids' expected' (drop_key msg_project_id project_id messages) = false.
Proof.
  intros Hp. revert ids ids' expected expected'.
  induction messages as [|message messages IH]; intros ids ids' expected expected' Hids Hexp; simpl; [done|].
  destruct (_ || _) eqn:E; [done|]. destruct (u64_checked_add _ _) as [following|] eqn:En; [|done].
  intros Hrest. apply orb_false_iff in E as [[[E1 E2]%orb_false_iff E3]%orb_false_iff E4].
  unfold drop_key in *. simpl. destruct (bool_decide_reflect (msg_project_id message = project_id)) as [Eq|Hne]; simpl.
  - eapply IH; [| |exact Hrest].
    + intros id Hid. right. auto.
    + intros id Hid. rewrite lookup_insert_ne by congruence. auto.
  - apply negb_false_iff, (Hp _ Hne) in E2. rewrite E1, E2, (Hexp _ Hne), E4. simpl.
    rewrite bool_decide_eq_false_2 by (apply bool_decide_eq_false in E3; auto). simpl. rewrite En.
    eapply IH; [| |exact Hrest].
    + intros id [->|Hid]%elem_of_cons; [by left|right; auto].
    + intros id Hid. destruct (decide (id = msg_project_id message)) as [->|].
      * by rewrite !lookup_insert_eq.
      * rewrite !lookup_insert_ne by done. auto.
Qed.

Lemma transcript_kept project_id other messages :
  other <> project_id -> transcript_of other (drop_key msg_project_id project_id messages) = transcript_of other messages.
Proof.
  intros Hne. unfold transcript_of, drop_key. induction messages as [|message l IH]; simpl; [done|].
  destruct (bool_decide_reflect (msg_project_id message = project_id)) as [->|Hm]; simpl.
  - rewrite bool_decide_eq_false_2 by congruence. exact IH.
  - destruct (msg_project_id message == other); [f_equal|]; exact IH.
Qed.

Lemma companion_dropped st st' project_id :
  companion_records_are_invalid st = false ->
  (forall id, id <> project_id -> has_project st id = true -> has_project st' id = true) ->
  companion_messages st' = drop_key msg_project_id project_id (companion_messages st) ->
  companion_records_are_invalid st' = false.
Proof.
  intros [Hm Hq]%orb_false_iff Hp Hmsg. unfold companion_records_are_invalid. rewrite Hmsg.
  apply orb_false_iff. split.
  - eapply (messages_dropped st st' project_id [] [] ∅ ∅); auto.
  - rewrite any_false in *. intros message [Hin Hne]%elem_of_retain. guards.
    rewrite transcript_kept by done. auto.
Qed.
End transcripts.

(** ** Projects that join or change *)

Section projects.
Context `{UuidParser} `{JsonText}.

Lemma projects_more st projects' :
  records_ok st -> (forall id, id ∈ project_ids st -> id ∈ p_id <$> projects') ->
  records_ok (st <| projects := projects' |>).
Proof.
  intros Hok Hp. frame Hok.
  - eapply keyed_impl; [exact (sk_stewards _ (rk_stewards _ Hok))|]. intros x _ (Hv & Hin & Hs).
    split_and!; [done|by apply Hp|done].
  - eapply keyed_impl; [exact (ro_runs _ (rk_runs _ Hok))|]. intros x _ [Hv Hin]. split; [done|by apply Hp].
  - eapply versions_ok_change; [exact (rk_versions _ Hok)|done|done|]. intros version _ Ht.
    eapply target_fits_more; [exact Ht|apply Hp|done..].
  - eapply keyed_impl; [exact (pk_routines _ (rk_playbooks _ Hok))|]. intros x _ (Hv & Hin & Hr & Hf).
    split_and!; [done|by apply Hp|done..].
  - eapply keyed_impl; [exact (pk_playbooks _ (rk_playbooks _ Hok))|]. intros x _ (Hv & Hin & Hm).
    split_and!; [done|by apply Hp|done].
  - eapply keyed_impl; [exact (pk_evaluations _ (rk_playbooks _ Hok))|]. intros x _ [Hv Hin]. split; [done|by apply Hp].
  - eapply keyed_impl; [exact (tk_sources _ (rk_tasks _ Hok))|]. intros x _ [Hv Hin]. split; [done|by apply Hp].
  - eapply keyed_impl; [exact (tk_automation _ (rk_tasks _ Hok))|]. intros x _ [Hv Hin]. split; [done|by apply Hp].
  - pose proof (rk_companion _ Hok) as Hc. unfold companion_records_are_invalid in *.
    apply orb_false_iff in Hc as [Hm Hq]. apply orb_false_iff. split; [|exact Hq].
    eapply messages_mono; [|exact Hm]. intros id. rewrite !has_project_true. apply Hp.
Qed.

Section methods.
Context (s : Store) (Hok : records_ok (state s)).

Lemma insert_project_fine project : fine_after (insert_project project s).
Proof.
  unfold insert_project. fine_code. apply projects_more; [done|]. intros id Hid. rewrite fmap_app.
  apply elem_of_app. by left.
Qed.

Lemma update_project_details_fine project_id name folder_path :
  fine_after (update_project_details project_id name folder_path s).
Proof.
  unfold update_project_details. fine_code. apply position_Some in Hcode0 as [Hi _].
  match goal with |- records_ok (_ <| session_relocation_receipts := _ |>) => idtac end.
  match goal with |- context [<[n := ?new]> (projects (state s))] =>
    assert (records_ok ((state s) <| projects := <[n := new]> (projects (state s)) |>)) as Hp end.
  { apply projects_more; [done|]. by rewrite (fmap_insert_same p_id _ n p0). }
  frame Hp.
Qed.

Lemma clear_companion_transcript_fine project_id expected :
  fine_after (clear_companion_transcript project_id expected s).
Proof.
  unfold clear_companion_transcript, expect_revision.
  assert (records_ok ((state s) <| companion_messages :=
    drop_key msg_project_id project_id (companion_messages (state s)) |>)) as Hc.
  { frame Hok. eapply companion_dropped; [exact (rk_companion _ Hok)| |reflexivity]. done. }
  fine_code; exact Hc.
Qed.
End methods.

(** ** A Project leaves *)

Lemma elem_of_drop_key {A} (key : A -> string) id (l : list A) x :
  x ∈ drop_key key id l <-> x ∈ l /\ key x <> id.
Proof. unfold drop_key. by rewrite elem_of_retain, negb_true_iff, bool_decide_eq_false. Qed.
Lemma elem_of_drop_keys {A} (key : A -> string) ids (l : list A) x :
  x ∈ drop_keys key ids l <-> x ∈ l /\ key x ∉ ids.
Proof. unfold drop_keys. by rewrite elem_of_retain, negb_true_iff, bool_decide_eq_false. Qed.

(** Keys of records of other Projects stay. *)
Lemma drop_key_pairs {A} (key : A -> string) (other : A -> string) project_id (l : list A) id p :
  (id, p) ∈ (fun x => (other x, key x)) <$> l -> p <> project_id ->
  (id, p) ∈ (fun x => (other x, key x)) <$> drop_key key project_id l.
Proof.
  intros (x & [= -> ->] & Hx)%list_elem_of_fmap Hne. apply list_elem_of_fmap. exists x.
  split; [done|]. by apply elem_of_drop_key.
Qed.

Section leaving.
Context (st : CurrentState) (Hok : records_ok st) (i : nat) (project : ProjectRecord) (project_id : string).
Context (Hi : projects st !! i = Some project) (Hid : p_id project = project_id).

Lemma left_projects id : id ∈ project_ids st -> id <> project_id -> id ∈ project_ids (without_project i project_id st).
Proof.
  intros (x & -> & Hx)%list_elem_of_fmap Hne. apply list_elem_of_fmap. exists x. split; [done|].
  eapply elem_of_delete_ne; [exact Hi|done|congruence].
Qed.
Lemma left_tasks id p : (id, p) ∈ task_keys st -> p <> project_id -> (id, p) ∈ task_keys (without_project i project_id st).
Proof. apply drop_key_pairs. Qed.
Lemma left_sessions id p : (id, p) ∈ session_keys st -> p <> project_id -> (id, p) ∈ session_keys (without_project i project_id st).
Proof. apply drop_key_pairs. Qed.
Lemma left_runs id p : (id, p) ∈ run_keys st -> p <> project_id -> (id, p) ∈ run_keys (without_project i project_id st).
Proof. apply drop_key_pairs. Qed.
Lemma left_routines id p : (id, p) ∈ routine_keys st -> p <> project_id -> (id, p) ∈ routine_keys (without_project i project_id st).
Proof. apply drop_key_pairs. Qed.
Lemma left_stewards p : p ∈ steward_projects st -> p <> project_id -> p ∈ steward_projects (without_project i project_id st).
Proof.
  intros (x & -> & Hx)%list_elem_of_fmap Hne. apply list_elem_of_fmap. exists x. split; [done|].
  by apply elem_of_drop_key.
Qed.

Lemma other_project id p : (id, p) ∈ task_keys st -> id ∉ task_ids_of st project_id -> p <> project_id.
Proof.
  intros (t & [= -> ->] & Ht)%list_elem_of_fmap Hn Hp. apply Hn, list_elem_of_fmap. exists t.
  split; [done|]. apply elem_of_retain. split; [done|]. by apply bool_decide_eq_true.
Qed.

Lemma task_stays id : id ∈ t_id <$> tasks st -> id ∉ task_ids_of st project_id ->
  exists task, task ∈ drop_key t_project_id project_id (tasks st) /\ t_id task = id.
Proof.
  intros (t & -> & Ht)%list_elem_of_fmap Hn. exists t. split; [|done]. apply elem_of_drop_key.
  split; [done|]. apply (other_project (t_id t)); [|done]. apply list_elem_of_fmap. eauto.
Qed.

Lemma left_versions : versions_ok (without_project i project_id st).
Proof.
  destruct (rk_versions _ Hok) as [Hv Hp Hc Hs Hsel].
  assert (forall version, version ∈ configuration_versions (without_project i project_id st) ->
    version ∈ configuration_versions st /\ cv_project_id version <> project_id) as Hback.
  { intros version. apply elem_of_drop_key. }
  split.
  - eapply keyed_impl; [apply keyed_retain, Hv|]. intros version Hin [Hw Ht]. split; [done|].
    apply Hback in Hin as [_ Hne]. eapply target_fits_kept; [exact Ht|..]; intros;
      eauto using left_projects, left_stewards, left_routines, left_runs.
  - eapply sublist_NoDup; [exact Hp|]. apply fmap_sublist, retain_sublist.
  - by apply counted_retain.
  - eapply keyed_impl; [apply keyed_retain, Hs|]. intros sel Hin (Hw & version & Hver & Hvid & Ht).
    apply elem_of_drop_key in Hin as [_ Hne]. split; [done|]. exists version. split; [|done].
    apply elem_of_drop_key. split; [done|]. unfold version_target, selection_target in Ht. congruence.
  - intros version [Hin Hne]%Hback. pose proof (Hsel version Hin) as (sel & Ht & Hs')%list_elem_of_fmap.
    apply list_elem_of_fmap. exists sel. split; [done|]. apply elem_of_drop_key. split; [done|].
    unfold version_target, selection_target in Ht. congruence.
Qed.

Lemma left_tasks_ok : tasks_ok (without_project i project_id st).
Proof.
  destruct (rk_tasks _ Hok) as [Hn Hl Hb Hm Hs Hsc Ha]. split.
  - eapply sublist_NoDup; [exact Hn|]. apply fmap_sublist, retain_sublist.
  - apply links_valid. destruct (proj1 (links_valid st) Hl) as [Hfit Hapart].
    split; [|by apply apart_retain]. intros link Hin. apply elem_of_drop_keys in Hin as [Hin Hne].
    destruct (Hfit link Hin) as [Ht Hrest]. split; [|done].
    destruct (task_stays _ Ht Hne) as (task & Htask & Hk). apply list_elem_of_fmap. eauto.
  - eapply keyed_impl; [apply keyed_retain, Hb|]. intros set Hin (t & binding & Ht & Hk & Hrest).
    apply elem_of_drop_keys in Hin as [_ Hne]. exists t, binding. split; [|done].
    apply elem_of_drop_key. split; [done|]. apply (other_project (t_id t)); [|congruence].
    apply list_elem_of_fmap. eauto.
  - by apply membership_ids_retain.
  - eapply keyed_impl; [apply keyed_retain, Hs|]. intros x [_ Hne]%elem_of_drop_key [Hv Hp].
    split; [done|by apply left_projects].
  - by apply counted_retain.
  - eapply keyed_impl; [apply keyed_retain, Ha|]. intros x [_ Hne]%elem_of_drop_key [Hv Hp].
    split; [done|by apply left_projects].
Qed.

Lemma left_playbooks_ok : playbooks_ok (without_project i project_id st).
Proof.
  destruct (rk_playbooks _ Hok) as [Hr Hp Hg He Hec]. split.
  - eapply keyed_impl; [apply keyed_retain, Hr|]. intros x [_ Hne]%elem_of_drop_key (Hv & Hpr & Ht & Hf).
    split_and!; [done|by apply left_projects| |]; intros; apply left_tasks; eauto.
  - eapply keyed_impl; [apply keyed_retain, Hp|]. intros x [_ Hne]%elem_of_drop_key (Hv & Hpr & Hm).
    split_and!; [done|by apply left_projects|]. intros; apply left_routines; eauto.
  - eapply keyed_impl; [apply keyed_retain, Hg|].
    intros x [_ Hne]%elem_of_drop_keys (Hv & p & Ht & playbook & Hin & Hpr & Hm). split; [done|].
    pose proof (other_project _ _ Ht Hne) as Hother. exists p. split; [by apply left_tasks|].
    exists playbook. split; [|done]. apply elem_of_drop_key. split; [done|congruence].
  - eapply keyed_impl; [apply keyed_retain, He|]. intros x [_ Hne]%elem_of_drop_key [Hv Hpr].
    split; [done|by apply left_projects].
  - by apply counted_retain.
Qed.

Lemma project_left : records_ok (without_project i project_id st).
Proof.
  split; [destruct (rk_settings _ Hok); by split| | |exact left_versions|exact left_playbooks_ok|exact left_tasks_ok|].
  - destruct (rk_stewards _ Hok) as [Hs Hc]. split.
    + eapply keyed_impl; [apply keyed_retain, Hs|]. intros x [_ Hne]%elem_of_drop_key (Hv & Hp & He).
      split_and!; [done|by apply left_projects|]. intros; apply left_sessions; eauto.
    + eapply keyed_impl; [apply keyed_retain, Hc|].
      intros x [_ Hne]%elem_of_drop_key (Hv & agent & Hin & Hm). split; [done|]. exists agent.
      split; [|done]. apply list_elem_of_fmap in Hin as (c & [= Hp ->] & Hin). apply list_elem_of_fmap.
      exists c. split; [congruence|]. apply elem_of_drop_key. split; [done|congruence].
  - destruct (rk_runs _ Hok) as [Hr Hrc Hm Hmc]. split.
    + eapply keyed_impl; [apply keyed_retain, Hr|]. intros x [_ Hne]%elem_of_drop_key [Hv Hp].
      split; [done|by apply left_projects].
    + by apply counted_retain.
    + eapply keyed_impl; [apply keyed_retain, Hm|]. intros x [_ Hne]%elem_of_drop_key [Hv Hp].
      split; [done|by apply left_runs].
    + by apply counted_retain.
  - eapply (companion_dropped st _ project_id); [exact (rk_companion _ Hok)| |reflexivity].
    intros id Hne. rewrite !has_project_true. intros Hin. by apply left_projects.
Qed.
End leaving.

Lemma delete_project_fine project_id s :
  records_ok (state s) -> fine_after (delete_project_and_related_records project_id s).
Proof.
  intros Hok. unfold delete_project_and_related_records. fine_code.
  apply position_Some in Hcode as [Hi Hid]. apply bool_decide_eq_true in Hid. by eapply project_left.
Qed.
End projects.
