(* ===== verification/RecordPlaybooks.v ===== *)
(** * Playbooks, answers and receipts stay acceptable

    The methods on Playbooks, on the answers of Tasks and on evaluation
    receipts, and the methods that validate what they are about to commit. *)

From Stdlib Require Import Btauto.
From S2P Require Import Prelude Keyed Text Domain DomainRules DomainConfig StoreState.
From S2P Require Import SessionJournals Transactions SessionRecords RunRecords AccountRecords.
From S2P Require Import RoutineRecords TaskRecords CurrentValidation PlaybookRecords.
From S2P Require Import SessionInvariant RecordTransactions RecordInvariant VersionInvariant.
From S2P Require Import RecordPreservation RecordRoutines RecordTasks.

Local Open Scope string_scope.
Local Open Scope list_scope.

(** ** Receipts *)

Lemma interrupted_fits st now record : evaluation_fits st record -> evaluation_fits st (interrupted now record).
Proof.
  intros [Hv Hp]. unfold interrupted. destruct (per_outcome record == PEO_InProgress) eqn:E; [|done].
  apply bool_decide_eq_true in E. split; [|exact Hp]. revert Hv. unfold evaluation_is_valid.
  rewrite E, !andb_true_iff. cbn -[bounded_chars len trim_is_empty]. intros Hv. decompose [and] Hv.
  split_and!; try done. apply andb_true_iff. split; [apply N.leb_le; lia|vm_compute; reflexivity].
Qed.

Lemma oldest_finished_Some project_id evaluations i :
  oldest_finished project_id evaluations = Some i ->
  exists record, evaluations !! i = Some record /\ per_project_id record = project_id.
Proof.
  unfold oldest_finished. destruct (min_by _ _) as [entry|] eqn:E; [|done]. intros [= <-].
  apply min_by_elem in E.
  destruct (indexed_entries (fun record =>
    (per_project_id record == project_id) && (per_outcome record != PEO_InProgress)) _ _ E) as [Hi Hp].
  guards. eauto.
Qed.

Lemma apply_finished_ok record evaluations evaluations' :
  apply_finished record evaluations = Ok evaluations' ->
  evaluation_is_valid record = true
  /\ (evaluations' = evaluations \/ exists i current, evaluations !! i = Some current
      /\ per_id record = per_id current /\ per_project_id record = per_project_id current
      /\ evaluations' = <[i := record]> evaluations).
Proof.
  unfold apply_finished. destruct (_ || _) eqn:Hc; [done|]. guards.
  destruct (position _ _) as [[i current]|] eqn:E; [|done].
  destruct (current == record); [intros [= <-]; split; [done|by left]|].
  destruct (_ != PEO_InProgress); [done|].
  destruct (_ != record) eqn:Ee; [done|]. intros [= <-]. split; [done|]. right.
  apply position_Some in E as [Hi _]. apply negb_false_iff, bool_decide_eq_true in Ee.
  exists i, current. split_and!; [done|by rewrite <- Ee|by rewrite <- Ee|done].
Qed.

Section playbooks.
Context `{UuidParser} `{JsonText}.

Lemma finished_fine st record evaluations :
  records_ok st -> apply_finished record (playbook_evaluations st) = Ok evaluations ->
  records_ok (st <| playbook_evaluations := evaluations |>).
Proof.
  intros Hok [Hv [->|(i & current & Hi & Hid & Hp & ->)]]%apply_finished_ok; [frame Hok|].
  frame Hok.
  - eapply (keyed_insert per_id); [apply (rk_playbooks _ Hok)|exact Hi|done|]. split; [done|].
    rewrite Hp. apply (kd_each _ _ _ (pk_evaluations _ (rk_playbooks _ Hok)) current).
    by eapply list_elem_of_lookup_2.
  - eapply counted_insert; [apply (rk_playbooks _ Hok)|exact Hi|done].
Qed.

Section methods.
Context (s : Store) (Hok : records_ok (state s)).

Lemma start_playbook_evaluation_fine record : fine_after (start_playbook_evaluation record s).
Proof.
  unfold start_playbook_evaluation. run_step. run_step; [fine_code|]. guards.
  assert (evaluation_fits (state s) record) as Hf by (split; [done|by apply has_project_true]).
  pose proof (rk_playbooks _ Hok) as Hp.
  destruct (find_first _ _) as [existing|] eqn:E; [fine_code|].
  assert (per_id record ∉ per_id <$> playbook_evaluations (state s)) as Hfresh.
  { apply any_key_fresh, any_false. by apply find_first_None. }
  run_step; [run_step|].
  - run_step; [|fine_code]. run_step. run_step. apply fine_install.
    match goal with H : oldest_finished _ _ = Some _ |- _ =>
      apply oldest_finished_Some in H as (oldest & Hi & Hop) end. frame Hok.
    + apply keyed_app; [apply keyed_delete, Hp|done|]. intros Hin. apply Hfresh.
      apply list_elem_of_fmap in Hin as (x & -> & Hx%elem_of_delete). apply list_elem_of_fmap. eauto.
    + apply counted_app; [apply counted_delete, Hp|].
      pose proof (pk_evaluation_count _ Hp (per_project_id record)) as Hc.
      rewrite (retain_delete _ _ n oldest) in Hc; [exact Hc|done|]. by apply of_key_true.
  - run_step. apply fine_install.
    match goal with H : (_ <=? _)%nat = false |- _ => apply Nat.leb_gt in H end. frame Hok.
    + by apply keyed_app; [apply Hp|..].
    + by apply counted_app; [apply Hp|].
Qed.

Lemma finish_playbook_evaluation_fine record : fine_after (finish_playbook_evaluation record s).
Proof. unfold finish_playbook_evaluation. fine_code. by eapply finished_fine. Qed.

Lemma interrupt_evaluations_fine now : fine_after (interrupt_playbook_evaluations_on_restart now s).
Proof.
  unfold interrupt_playbook_evaluations_on_restart. fine_code.
  assert (forall record, per_id (interrupted now record) = per_id record
    /\ per_project_id (interrupted now record) = per_project_id record) as Hsame.
  { intros record. unfold interrupted. by destruct (per_outcome record == PEO_InProgress). }
  frame Hok.
  - eapply keyed_fmap; [apply (rk_playbooks _ Hok)| |apply Hsame]. intros record _ Hf.
    exact (interrupted_fits (state s) now record Hf).
  - apply counted_fmap; [apply (rk_playbooks _ Hok)|apply Hsame].
Qed.

(** ** Answers *)

Lemma any_with_rest_each {A} (f : A -> list A -> bool) l :
  any_with_rest f l = false -> forall x, x ∈ l -> exists rest, f x rest = false.
Proof.
  induction l as [|y l IH]; simpl; [by intros _ ? ?%not_elem_of_nil|].
  intros [Hy Hl]%orb_false_iff x [->|Hx]%elem_of_cons; eauto.
Qed.

Lemma answer_fits st answer rest :
  NoDup (t_id <$> tasks st) -> step_progress_conflicts st answer rest = false -> progress_fits st answer.
Proof.
  intros Hn. unfold step_progress_conflicts, progress_fits.
  destruct (find_task st (psp_task_id answer)) as [task|] eqn:E; [|done]. intros Hc. guards.
  match goal with H : any _ _ = true |- _ => apply any_true in H as (playbook & Hp & Hm) end. guards.
  split; [done|]. exists (t_project_id task). split; [|by exists playbook].
  apply find_task_unique; eauto.
Qed.

Lemma answers_applied (P : PlaybookStepProgress -> Prop) answers progress :
  keyed P step progress -> (forall answer, answer ∈ answers -> P answer) ->
  keyed P step (fold_left (fun progress answer => upsert_by (same_step answer) answer progress) answers progress).
Proof.
  revert progress. induction answers as [|answer answers IH]; intros progress Hk Ha; simpl; [done|].
  apply IH; [|intros; apply Ha; by right]. apply (keyed_upsert step); [done|apply Ha; left|].
  intros y. apply same_step_true.
Qed.

Lemma record_playbook_step_progress_fine project_id answers expected :
  fine_after (record_playbook_step_progress project_id answers expected s).
Proof.
  unfold record_playbook_step_progress, expect_revision.
  assert (step_progress_batch_is_invalid (state s) project_id answers = false ->
    records_ok (apply_step_progress answers (state s))) as Ha.
  { intros Hb. frame Hok. apply answers_applied; [apply (rk_playbooks _ Hok)|]. intros answer Hin.
    destruct (any_with_rest_each _ _ Hb answer Hin) as (rest & [_ Hc]%orb_false_iff).
    eapply answer_fits; [apply (rk_tasks _ Hok)|exact Hc]. }
  fine_code; by apply Ha.
Qed.

(** ** Saving a Playbook *)

Lemma project_task_ids_elem st project_id id :
  id ∈ project_task_ids st project_id <-> (id, project_id) ∈ task_keys st.
Proof.
  unfold project_task_ids, task_keys. rewrite !list_elem_of_fmap. split.
  - intros (t & -> & [Ht Hp]%elem_of_retain). guards. exists t. by subst.
  - intros (t & [= -> ->] & Ht). exists t. split; [done|]. apply elem_of_retain.
    split; [done|]. by apply bool_decide_eq_true.
Qed.

Lemma task_key_unique st id p q :
  NoDup (t_id <$> tasks st) -> (id, p) ∈ task_keys st -> (id, q) ∈ task_keys st -> p = q.
Proof.
  intros Hn (t & [= -> ->] & Ht)%list_elem_of_fmap (u & [= Hk ->] & Hu)%list_elem_of_fmap.
  by rewrite (unique_elem t_id (tasks st) t u Hn Ht Hu Hk).
Qed.

Definition with_playbook (playbook : PlaybookConfiguration) (st : CurrentState) : CurrentState :=
  st <| playbook_configurations :=
          match position (fun current => pb_project_id current == pb_project_id playbook)
                  (playbook_configurations st) with
          | Some (index, _) => <[index := playbook]> (playbook_configurations st)
          | None => playbook_configurations st ++ [playbook]
          end |>.

(** The Playbooks of other Projects stay. *)
Lemma with_playbook_elem playbook st :
  playbook ∈ playbook_configurations (with_playbook playbook st)
  /\ (forall other, other ∈ playbook_configurations st -> pb_project_id other <> pb_project_id playbook ->
       other ∈ playbook_configurations (with_playbook playbook st)).
Proof.
  unfold with_playbook. cbn [playbook_configurations set_field].
  destruct (position _ _) as [[i old]|] eqn:E.
  - apply position_Some in E as [Hi Hp]. apply bool_decide_eq_true in Hp.
    split; [by eapply elem_of_insert_eq|]. intros other Hin Hne.
    eapply elem_of_insert_ne; [exact Hi|done|congruence].
  - split; [apply elem_of_app; right; by left|]. intros other Hin _. apply elem_of_app. by left.
Qed.

(** Answers that stay are asked by the saved Playbook or by one of another
    Project. *)
Lemma retained_fits playbook st progress :
  NoDup (t_id <$> tasks st) -> is_retained st playbook progress = true -> progress_fits st progress ->
  progress_fits (with_playbook playbook st) progress.
Proof.
  intros Hn Hr (Hv & project_id & Ht & other & Hin & Hp & Hm). split; [done|].
  exists project_id. split; [exact Ht|]. destruct (with_playbook_elem playbook st) as [Hnew Hstay].
  destruct (decide (project_id = pb_project_id playbook)) as [->|Hne].
  - exists playbook. split_and!; [done..|]. unfold is_retained in Hr.
    rewrite bool_decide_eq_true_2 in Hr; [done|]. by apply project_task_ids_elem.
  - exists other. split_and!; [apply Hstay; congruence|done..].
Qed.

Lemma set_playbook_configuration_fine id playbook expected :
  is_none_or (playbook_snapshot (with_playbook playbook (state s)) playbook) (fun snapshot =>
    version_is_new (state s) id (pb_project_id playbook) playbook_target (json_to_string snapshot)) = true ->
  fine_after (set_playbook_configuration id playbook expected s).
Proof.
  intros Hnew. unfold set_playbook_configuration, expect_revision. run_step. run_step; [fine_code|].
  run_step; [fine_code|]. run_step; [fine_code|]. guards.
  match goal with H : playbook_configuration_is_valid playbook = true |- _ => pose proof H as Hv end.
  match goal with H : has_project _ _ = true |- _ => pose proof H as Hproject end.
  match goal with |- context [record_playbook_version id playbook None ?summary ?st] =>
    change (record_playbook_version id playbook None summary st) with
      (record_playbook_version id playbook None summary (with_playbook playbook (state s))) end.
  unfold expect, record_playbook_version.
  destruct (playbook_snapshot (with_playbook playbook (state s)) playbook) as [snapshot|]; [|exact I].
  simpl in Hnew. cbn [fmap option_fmap option_map ok_or]. run_step. apply fine_install.
  pose proof (rk_playbooks _ Hok) as Hp.
  assert (negb (trim_is_empty (pb_project_id playbook)) = true) as Hblank.
  { unfold playbook_configuration_is_valid in Hv. guards. by apply negb_true_iff. }
  assert (versions_ok (with_playbook playbook (state s))) as Hversions.
  { eapply versions_ok_change; [exact (rk_versions _ Hok)|done|done|]. done. }
  pose proof (record_version_ok id (pb_project_id playbook) playbook_target (json_to_string snapshot)
    (MkVersionRecord "Playbook saved" None (N.max (pb_updated_at_epoch_ms playbook) 1))
    (with_playbook playbook (state s)) Hversions) as Hrecorded.
  destruct (record_version_frame id (pb_project_id playbook) playbook_target (json_to_string snapshot)
    (MkVersionRecord "Playbook saved" None (N.max (pb_updated_at_epoch_ms playbook) 1))
    (with_playbook playbook (state s))) as (versions & selections & E).
  rewrite E in *. frame Hok.
  - destruct Hrecorded; [split; [by apply has_project_true|done]|done|exact Hnew|by apply saved_record_bounded|].
    by split.
  - eapply (keyed_upsert pb_project_id); [exact (pk_playbooks _ Hp)| |intros; apply same_key].
    split_and!; [done|by apply has_project_true|]. intros milestone Hin. apply has_routine_true.
    unfold names_no_routine in *. guards.
    match goal with H : forall x, x ∈ all_milestones playbook -> _ |- _ => specialize (H _ Hin) end. by guards.
  - eapply keyed_impl; [apply keyed_retain, Hp|]. intros progress [_ Hr]%elem_of_retain Hf.
    exact (retained_fits playbook (state s) progress (tk_ids _ (rk_tasks _ Hok)) Hr Hf).
Qed.

(** ** Methods that validate *)

Lemma validated_ok st :
  NoDup (t_id <$> tasks st) -> is_err (validate_current_state st) = false -> records_ok st.
Proof.
  intros Hn. unfold validate_current_state. destruct (current_state_is_invalid st) eqn:E; [done|].
  intros _. apply records_valid. split; [done|]. unfold current_state_is_invalid in E.
  rewrite !orb_false_iff in E. unfold records_are_invalid. rewrite !orb_false_iff. tauto.
Qed.

Lemma record_version_tasks id project_id target content record st :
  tasks (record_version id project_id target content record st).2 = tasks st.
Proof. by destruct (record_version_frame id project_id target content record st) as (? & ? & ->). Qed.

Lemma upsert_routines_tasks fresh index routines st : tasks (upsert_routines fresh index routines st) = tasks st.
Proof.
  revert index st. induction routines as [|routine routines IH]; intros index st; simpl; [done|].
  rewrite IH. unfold record_routine_version. by rewrite record_version_tasks.
Qed.

Lemma removed_targets_tasks (routines : list TrackerConfiguration) st :
  tasks (fold_left (fun st routine =>
    remove_configuration_target_state (tc_project_id routine) (routine_target (tc_id routine)) st)
    routines st) = tasks st.
Proof. revert st. induction routines as [|routine routines IH]; intros st; simpl; [done|]. by rewrite IH. Qed.

Lemma apply_playbook_fine fresh apply expected : fine_after (apply_playbook fresh apply expected s).
Proof.
  unfold apply_playbook, expect_revision. run_step. run_step; [fine_code|].
  destruct (activate_steward fresh apply (state s)) as [st1|] eqn:E1; [run_step|fine_code].
  destruct (replace_routines fresh apply st1) as [st2|] eqn:E2; [run_step|fine_code].
  destruct (replace_document apply st2) as [st3|] eqn:E3; [run_step|fine_code].
  run_step; [fine_code|]. unfold expect, record_playbook_version.
  destruct (playbook_snapshot st3 (pap_configuration apply)) as [snapshot|]; [|exact I].
  cbn [fmap option_fmap option_map ok_or]. run_step. run_step; [fine_code|]. apply fine_install.
  apply validated_ok; [|done]. rewrite record_version_tasks.
  assert (tasks st3 = tasks (state s)) as ->; [|apply (rk_tasks _ Hok)].
  assert (tasks st3 = tasks st2) as ->.
  { revert E3. unfold replace_document. cbv zeta. intros E. repeat case_match; by simplify_eq. }
  assert (tasks st2 = tasks st1) as ->.
  { revert E2. unfold replace_routines. cbv zeta. destruct (any _ _); [done|]. intros E. simplify_eq.
    by rewrite removed_targets_tasks, upsert_routines_tasks. }
  revert E1. unfold activate_steward. intros E. repeat case_match; simplify_eq; [|done].
  unfold record_steward_version. by rewrite record_version_tasks.
Qed.

Lemma record_progress_with_routine_fine project_id answers routine evaluation expected :
  fine_after (record_playbook_step_progress_with_routine project_id answers routine evaluation expected s).
Proof.
  unfold record_playbook_step_progress_with_routine, expect_revision. run_step. run_step; [fine_code|].
  run_step; [fine_code|]. run_step; [run_step|fine_code]. destruct p as [index current].
  run_step; [fine_code|]. run_step; [run_step|fine_code]. run_step; [fine_code|]. apply fine_install.
  apply validated_ok; [|done].
  match goal with H : finish_with_answer _ _ _ _ = Ok value |- _ => revert H end.
  unfold finish_with_answer. intros E. repeat case_match; simplify_eq; apply (rk_tasks _ Hok).
Qed.

Lemma replace_task_playbook_progress_fine project_id task_id answers expected :
  fine_after (replace_task_playbook_progress project_id task_id answers expected s).
Proof.
  unfold replace_task_playbook_progress, expect_revision. fine_code.
  apply validated_ok; [apply (rk_tasks _ Hok)|done].
Qed.

Lemma append_companion_message_fine message ids :
  fine_after (append_companion_message_and_dismiss_routine_findings message ids s).
Proof.
  unfold append_companion_message_and_dismiss_routine_findings. fine_code.
  apply validated_ok; [apply (rk_tasks _ Hok)|done].
Qed.

Lemma without_briefs_ids project_id now l l' :
  without_briefs project_id now l = Ok l' -> t_id <$> l' = t_id <$> l.
Proof.
  revert l'. induction l as [|task l IH]; intros l'; simpl; [by intros [= <-]|].
  destruct (without_brief project_id now task) as [task'|] eqn:E; [|done].
  destruct (without_briefs project_id now l) as [rest|]; [|done]. intros [= <-].
  rewrite !fmap_cons, (IH rest) by done. f_equal. revert E. unfold without_brief. intros E. repeat case_match; by simplify_eq.
Qed.

Lemma reset_project_assistant_fine project_id expected now :
  fine_after (reset_project_assistant project_id expected now s).
Proof.
  unfold reset_project_assistant, expect_revision. run_step. run_step; [fine_code|]. run_step; [fine_code|].
  run_step; [fine_code|].
  destruct (without_briefs project_id now (tasks (state s))) as [tasks'|] eqn:E; [run_step|fine_code].
  run_step; [fine_code|]. apply fine_install. apply validated_ok; [|done].
  unfold without_assistant. match goal with |- context [remove_exact_session_descriptors ?ids ?st] =>
    destruct (remove_exact_frame ids st) as (sessions' & a & b & c & d & -> & _) end.
  cbn [tasks set_field]. rewrite (without_briefs_ids _ _ _ _ E). apply (rk_tasks _ Hok).
Qed.
End methods.
End playbooks.
