(* ===== verification/RecordClaims.v ===== *)
(** * Records over whole histories

    What the record methods leave to their callers ([record_admissible]), and
    that every history of such calls keeps the records acceptable. *)

From stdpp Require Import pretty.
From Stdlib Require Import Ascii.
From S2P Require Import Prelude Keyed Text Domain DomainRules DomainConfig StoreState SessionJournals.
From S2P Require Import Transactions JournalPreservation Samples SessionRecords RunRecords.
From S2P Require Import AccountRecords RoutineRecords TaskRecords CurrentValidation PlaybookRecords.
From S2P Require Import RecordApi RecordTransactions RecordInvariant VersionInvariant.
From S2P Require Import RecordPreservation RecordRoutines RecordTasks RecordProjects.
From S2P Require Import RecordPlaybooks.

Local Open Scope string_scope.
Local Open Scope list_scope.

Section calls.
Context `{UuidParser} `{JsonText}.

(** The caller's part: a version that is recorded has a fresh, bounded id and a
    snapshot the loader accepts; a scan of branches has distinct members; a
    Routine's findings are about Tasks of its Project; a Task whose Sessions are
    removed holds no assistant. *)
Definition record_admissible (call : RecordCall) (st : CurrentState) : bool :=
  match call with
  | Do_sync_external_configuration_version id project_id target content _ =>
      target_exists st project_id target && negb (trim_is_empty project_id)
      && version_is_new st id project_id target content
  | Do_finalize_configuration_activation id project_id target _ content summary source _ =>
      target_exists st project_id target && negb (trim_is_empty project_id)
      && version_is_new st id project_id target content
      && (len summary <=? configuration_version_summary_max_bytes)%N
      && is_none_or source bounded_version_id
  | Do_set_run_configuration id run _ =>
      version_is_new st id (rcf_project_id run) (run_target (rcf_id run))
        (json_to_string (run_snapshot run))
  | Do_set_steward_configuration id steward _ =>
      version_is_new st id (stw_project_id steward) steward_target
        (json_to_string (steward_snapshot steward))
  | Do_set_tracker_configuration id routine _ | Do_set_step_routine_configuration id routine _ =>
      version_is_new st id (tc_project_id routine) (routine_target (tc_id routine))
        (json_to_string (routine_snapshot routine))
      && findings_fit st routine
  | Do_set_playbook_configuration id playbook _ =>
      is_none_or (playbook_snapshot (with_playbook playbook st) playbook) (fun snapshot =>
        version_is_new st id (pb_project_id playbook) playbook_target (json_to_string snapshot))
  | Do_update_mcp_tool_description _ description _ => is_some (mcp_description_new description)
  | Do_reconcile_task_branch_set _ generation common_dir incoming _ =>
      unique_ids (tbm_id <$> incoming) && (0 <? generation)%N && negb (str_is_empty common_dir)
  | Do_delete_task task_id =>
      spares_executors st
        (sus_session_id <$> retain (parked_for task_id) (task_archive_suspensions st))
  | Do_delete_archived_task_with_sessions _ _ session_ids => spares_executors st session_ids
  | _ => true
  end.

Fixpoint exec_record_calls (calls : list RecordCall) (s : Store) : Store :=
  match calls with
  | [] => s
  | call :: rest => exec_record_calls rest (exec_record_call call s).2
  end.

Fixpoint record_history_admissible (calls : list RecordCall) (s : Store) : bool :=
  match calls with
  | [] => true
  | call :: rest =>
      record_admissible call (state s) && record_history_admissible rest (exec_record_call call s).2
  end.

Lemma erase_fine {A} (m : StoreM A) s : fine_after (m s) -> fine_after (erase m s).
Proof. unfold fine_after, post, erase, bind, ret. by destruct (m s) as [[]]. Qed.

Lemma record_call_fine call s :
  records_ok (state s) -> record_admissible call (state s) = true ->
  fine_after (exec_record_call call s).
Proof.
  intros Hok Ha. destruct call; cbn [exec_record_call record_admissible] in *; apply erase_fine; rewrite ?andb_true_iff in Ha;
    destruct_and?;
    unfold update_personal_agent, delete_personal_agent, favorite_agent_profile,
      set_tracker_configuration, set_step_routine_configuration;
    eauto using create_agent_account_fine, rename_agent_account_fine, set_default_agent_account_fine,
      delete_agent_account_fine, change_agent_library_fine, set_agent_fork_preference_fine,
      set_agent_restart_preference_fine, set_keep_awake_preference_fine, record_run_setup_mark_fine,
      insert_run_session_fine, insert_personal_agent_session_fine.
  all: eauto using set_run_configuration_fine, delete_run_configuration_fine,
      select_configuration_version_fine, sync_external_configuration_version_fine,
      finalize_configuration_activation_fine, update_mcp_tool_description_fine,
      reset_mcp_tool_description_fine, clear_steward_conversation_ref_fine,
      set_steward_configuration_fine, attach_steward_executor_session_fine,
      save_tracker_configuration_fine, delete_tracker_configuration_fine, rename_task_fine,
      update_task_brief_fine, update_task_developer_notes_fine, update_task_steward_brief_fine,
      bind_task_branch_fine, set_task_status_fine, release_closed_task_branch_fine.
  all: eauto using close_task_fine, insert_task_fine, delete_task_fine, delete_archived_task_fine,
      insert_task_jira_issue_link_fine, insert_task_from_source_fine,
      apply_task_source_remote_updates_fine, insert_task_source_configuration_fine,
      replace_task_source_configuration_fine, delete_task_source_configuration_fine,
      set_project_task_automation_configuration_fine, insert_project_fine,
      update_project_details_fine, clear_companion_transcript_fine, delete_project_fine.
  all: eauto using start_playbook_evaluation_fine, finish_playbook_evaluation_fine,
      interrupt_evaluations_fine, record_playbook_step_progress_fine,
      set_playbook_configuration_fine, apply_playbook_fine, record_progress_with_routine_fine,
      replace_task_playbook_progress_fine, append_companion_message_fine,
      reset_project_assistant_fine.
  apply reconcile_task_branch_set_fine; [auto|auto|by apply N.ltb_lt|by apply negb_true_iff].
Qed.

Lemma admissible_sound call s :
  records_ok (state s) -> record_admissible call (state s) = true ->
  sound s (exec_record_call call s).
Proof.
  intros Hok Ha. apply record_call_sound. destruct call; try done. cbn [record_admissible record_call_ok] in *.
  guards. apply versions_may_record; [apply Hok|]. unfold version_is_new in *. guards. done.
Qed.

Lemma record_call_keeps call s :
  records_ok (state s) -> record_admissible call (state s) = true ->
  records_ok (state (exec_record_call call s).2).
Proof.
  intros Hok Ha. pose proof (record_call_fine call s Hok Ha) as Hf. unfold fine_after, post in Hf.
  destruct (admissible_sound call s Hok Ha) as [Ht _].
  inversion Ht as [e E|a E|m r _ E|a n z r _ E]; rewrite <- E in *; simpl in *; done.
Qed.

Lemma record_calls_keep calls s :
  records_ok (state s) -> record_history_admissible calls s = true ->
  records_ok (state (exec_record_calls calls s)).
Proof.
  revert s. induction calls as [|call calls IH]; intros s Hok; simpl; [done|].
  intros [Ha Hr]%andb_true_iff. auto using record_call_keeps.
Qed.
End calls.

(** * What the record methods guarantee

    Every admissible history of record calls leaves records that load; the
    deletion of a Project leaves nothing of it; and two saves that fail late. *)

(** ** The deletion of a Project *)

(** The Projects, Tasks and Sessions that the records of a state name as their
    owners, the Project's, Task's or Session's own record aside for the last two. *)
Definition owning_projects (st : CurrentState) : list string :=
  (p_id <$> projects st) ++ (t_project_id <$> tasks st) ++ (s_project_id <$> sessions st)
  ++ ((fun deleted => s_project_id (ds_session deleted)) <$> deleted_sessions st)
  ++ (rlo_project_id <$> session_relocation_operations st)
  ++ (rlr_project_id <$> session_relocation_receipts st)
  ++ (tsc_project_id <$> task_source_configurations st)
  ++ (pta_project_id <$> project_task_automation_configurations st)
  ++ (msg_project_id <$> companion_messages st) ++ (stw_project_id <$> steward_configurations st)
  ++ (scr_project_id <$> steward_conversation_refs st)
  ++ (tc_project_id <$> tracker_configurations st) ++ (pb_project_id <$> playbook_configurations st)
  ++ (per_project_id <$> playbook_evaluations st) ++ (rcf_project_id <$> run_configurations st)
  ++ (rsm_project_id <$> run_setup_marks st) ++ (wc_project_id <$> workflow_configurations st)
  ++ (we_project_id <$> workflow_executions st) ++ (cv_project_id <$> configuration_versions st)
  ++ (cvs_project_id <$> configuration_version_selections st).

Definition owning_tasks (st : CurrentState) : list string :=
  (tbs_task_id <$> task_branch_sets st) ++ (tao_task_id <$> task_archive_operations st)
  ++ omap sus_task_id (task_archive_suspensions st) ++ (il_task_id <$> issue_links st)
  ++ (po_task_id <$> provisioning_operations st) ++ (mw_task_id <$> managed_worktrees st)
  ++ (co_task_id <$> cleanup_operations st) ++ (cr_task_id <$> cleanup_receipts st)
  ++ (ro_task_id <$> repair_operations st) ++ (rr_task_id <$> repair_receipts st)
  ++ (so_task_id <$> stale_resolution_operations st) ++ (sr_task_id <$> stale_resolution_receipts st)
  ++ (psp_task_id <$> playbook_step_progress st).

Definition owning_sessions (st : CurrentState) : list string :=
  (sus_session_id <$> task_archive_suspensions st)
  ++ (sao_session_id <$> session_archive_operations st) ++ (dap_session_id <$> agent_plans st)
  ++ (rd_session_id <$> agent_conversation_readiness st).

Lemma dropped_key {A} (key : A -> string) id (l : list A) : id ∉ key <$> drop_key key id l.
Proof. intros (x & -> & [_ Hne]%elem_of_drop_key)%list_elem_of_fmap. done. Qed.

Lemma dropped_keys {A} (key : A -> string) ids id (l : list A) :
  id ∈ ids -> id ∉ key <$> drop_keys key ids l.
Proof. intros Hin (x & -> & [_ Hne]%elem_of_drop_keys)%list_elem_of_fmap. done. Qed.

Lemma left_unowned st i project :
  NoDup (p_id <$> projects st) -> projects st !! i = Some project ->
  p_id project ∉ owning_projects (without_project i (p_id project) st).
Proof.
  intros Hn Hi. unfold owning_projects. rewrite !elem_of_app. intros Hin.
  destruct_or! Hin; revert Hin; try apply dropped_key.
  by apply deleted_key_gone.
Qed.

Lemma left_task_unowned st i project_id id :
  id ∈ task_ids_of st project_id -> id ∉ owning_tasks (without_project i project_id st).
Proof.
  intros Hid. unfold owning_tasks. rewrite !elem_of_app. intros Hin.
  destruct_or! Hin; revert Hin; try by apply dropped_keys.
  intros (suspension & [_ Hs]%elem_of_retain & Htask)%list_elem_of_omap. rewrite Htask in Hs. simpl in Hs.
  apply andb_true_iff in Hs as [_ Hs%negb_true_iff%bool_decide_eq_false]. done.
Qed.

Lemma left_session_unowned st i project_id id :
  id ∈ session_ids_of st project_id -> id ∉ owning_sessions (without_project i project_id st).
Proof.
  intros Hid. unfold owning_sessions. rewrite !elem_of_app. intros Hin.
  destruct_or! Hin; revert Hin; try by apply dropped_keys.
  intros (suspension & -> & [_ Hs]%elem_of_retain)%list_elem_of_fmap.
  apply andb_true_iff in Hs as [Hs%negb_true_iff%bool_decide_eq_false _]. done.
Qed.

(** ** A history *)

#[local] Existing Instance canonical_uuid.

(** A concrete [serde_json::to_string]: no spaces, and quotes, backslashes and
    control characters escaped. *)
Definition hex_digit (n : N) : ascii := ascii_of_N (if n <? 10 then 48 + n else 87 + n)%N.
Fixpoint json_escaped (s : string) : string :=
  match s with
  | EmptyString => EmptyString
  | String c rest =>
      let n := N_of_ascii c in
      let quoted := json_escaped rest in
      if (n =? 34)%N || (n =? 92)%N then String "\" (String c quoted)
      else if (n =? 8)%N then String "\" (String "b" quoted)
      else if (n =? 9)%N then String "\" (String "t" quoted)
      else if (n =? 10)%N then String "\" (String "n" quoted)
      else if (n =? 12)%N then String "\" (String "f" quoted)
      else if (n =? 13)%N then String "\" (String "r" quoted)
      else if (n <? 32)%N then
        String "\" (String "u" (String "0" (String "0"
          (String (hex_digit (n / 16)) (String (hex_digit (n mod 16)) quoted)))))
      else String c quoted
  end.
Definition json_quoted (s : string) : string :=
  String (ascii_of_N 34) (json_escaped s) +:+ String (ascii_of_N 34) "".
Definition comma_separated : list string -> string := String.concat ",".

#[local] Instance compact_json : JsonText := fix text document :=
  match document with
  | JNull => "null"
  | JBool b => if b then "true" else "false"
  | JNumber n => pretty n
  | JString s => json_quoted s
  | JArray items => "[" +:+ comma_separated (map text items) +:+ "]"
  | JObject members =>
      "{" +:+ comma_separated (map (fun '(key, value) => json_quoted key +:+ ":" +:+ text value) members)
      +:+ "}"
  end.

Definition serve : RunConfiguration :=
  {| rcf_id := "run"; rcf_project_id := "p"; rcf_name := "Serve"; rcf_kind := RCK_DevServer;
     rcf_command := "make serve"; rcf_working_directory := "."; rcf_env := [];
     rcf_setup_command := None; rcf_setup_policy := RSP_OncePerWorktree;
     rcf_url_auto_detect := true; rcf_fallback_urls := []; rcf_auto_open_first_url := false;
     rcf_generation := 1; rcf_updated_at_epoch_ms := 1 |}.
Definition serving (command : string) : RunConfiguration := serve <| rcf_command := command |>.

Definition empty_project : CurrentState :=
  current_state_default <| projects := [sample_project; MkProjectRecord "q" "Other" "/other"] |>.

Definition record_history : list RecordCall :=
  [ Do_insert_task sample_task_unbound;
    Do_rename_task "a" "Renamed" 5;
    Do_set_run_configuration "v1" (serving "make serve") 2;
    Do_record_run_setup_mark sample_mark;
    Do_set_run_configuration "v2" (serving "make test") 4;
    Do_select_configuration_version "p" (run_target "run") (Some "v2") "v1"
      (json_to_string (run_snapshot (serving "make serve")));
    Do_set_agent_fork_preference (MkAgentForkPreference false);
    Do_delete_project_and_related_records "q" ].

Lemma record_history_runs :
  let s := exec_record_calls record_history (store_of empty_project) in
  (revision (state s), t_title <$> tasks (state s), p_id <$> projects (state s),
   cv_id <$> configuration_versions (state s))
  = (8%N, ["Renamed"], ["p"], ["v1"; "v2"]).
Proof. vm_compute. reflexivity. Qed.

Lemma committed_owners st :
  owning_projects (committed st) = owning_projects st /\ owning_tasks (committed st) = owning_tasks st
  /\ owning_sessions (committed st) = owning_sessions st /\ tasks (committed st) = tasks st
  /\ projects (committed st) = projects st /\ sessions (committed st) = sessions st.
Proof. unfold committed, prune_session_profiles. by destruct (session_agent_profiles st). Qed.

Lemma worktree_blocks st project_id task :
  project_has_worktrees st project_id = false -> task ∈ tasks st -> t_project_id task = project_id ->
  t_worktree task = None.
Proof.
  unfold project_has_worktrees. rewrite !orb_false_iff. intros [[[[[Hn _] _] _] _] _] Hin Hp.
  rewrite any_false in Hn. specialize (Hn task Hin). rewrite (bool_decide_eq_true_2 (t_project_id task = project_id)) in Hn by done.
  simpl in Hn. by destruct (t_worktree task).
Qed.

Lemma delete_project_post (Q : ProjectRecord -> Store -> Prop) project_id s :
  (forall i project size rest (next := committed (without_project i project_id (state s))),
     projects (state s) !! i = Some project -> p_id project = project_id ->
     project_has_worktrees (state s) project_id = false -> Q project (MkStore next size next rest)) ->
  post Q (delete_project_and_related_records project_id s).
Proof.
  intros HQ. unfold delete_project_and_related_records. run_post; try exact I.
  apply position_Some in Hcode as [Hi Hid]. apply bool_decide_eq_true in Hid. eauto.
Qed.

(** ** What holds of every record call *)




Definition served : Store := exec_record_calls record_history (store_of empty_project).


(** ** Two saves that fail late *)

(** 22 variables of 4096 control characters, each escaped to six bytes. *)
Fixpoint repeated (n : nat) (c : ascii) : string :=
  match n with O => EmptyString | S n => String c (repeated n c) end.
Definition control_characters : string := repeated 4096 (ascii_of_N 1).
Definition crowded : RunConfiguration :=
  serve <| rcf_env := (fun i => MkRunConfigurationEnvVar ("V" +:+ pretty i) control_characters)
                      <$> seq 0 22 |>.

(** [n] saves of alternating commands: versions 0, 1, ... *)
Definition saves (n : nat) : list RecordCall :=
  (fun i => Do_set_run_configuration ("v" +:+ pretty i) (serving ("make " +:+ pretty i)) (N.of_nat i))
    <$> seq 0 n.
Definition full_history : Store := exec_record_calls (saves 24) (store_of empty_project).

