(* ===== verification/StoreHistory.v ===== *)
(** * The store over whole histories

    Every writing method of the store as one type of calls: the journals, the
    archives, workflows, Agent plans, Sessions and the other records.  Each is a
    transaction; along a history memory and file agree and the revision tells
    whether anything changed. *)

From S2P Require Import Prelude Text Domain DomainRules StoreState SessionJournals Transactions.
From S2P Require Import StoreGuarantees JournalInvariant ArchiveRoundTrip Workflow WorkflowRecords.
From S2P Require Import AgentPlans Samples SessionRecords RunRecords TaskRecords CurrentValidation.
From S2P Require Import RecordApi SessionClaims RecordTransactions RecordClaims.

Local Open Scope string_scope.
Local Open Scope list_scope.

Inductive StoreCall : Type :=
| On_journal (call : JournalCall)
| On_archive (call : ArchiveCall)
| On_workflow (call : WorkflowStoreCall)
| On_replace_agent_plan (plan : DurableAgentPlan)
| On_clear_agent_plan (session_id : string)
| On_session (call : SessionCall)
| On_record (call : RecordCall).

Section calls.
Context `{UuidParser} `{JsonText}.

Definition exec_store_call (call : StoreCall) : StoreM unit :=
  match call with
  | On_journal call => exec_call call
  | On_archive call => exec_archive_call call
  | On_workflow call => exec_workflow_call call
  | On_replace_agent_plan plan => erase (replace_agent_plan plan)
  | On_clear_agent_plan session_id => erase (clear_agent_plan session_id)
  | On_session call => exec_session_call call
  | On_record call => exec_record_call call
  end.

(** Archives need records the loader accepts, since their loops look Sessions up
    again; a finalized version needs room in its target. *)
Definition store_call_ok (call : StoreCall) (st : CurrentState) : Prop :=
  match call with
  | On_archive call => archive_call_ok call /\ archive_records_are_invalid st = false
  | On_record call => record_call_ok call st = true
  | _ => True
  end.

Fixpoint exec_store_calls (calls : list StoreCall) (s : Store) : Store :=
  match calls with
  | [] => s
  | call :: rest => exec_store_calls rest (exec_store_call call s).2
  end.

Fixpoint store_calls_ok (calls : list StoreCall) (s : Store) : Prop :=
  match calls with
  | [] => True
  | call :: rest => store_call_ok call (state s) /\ store_calls_ok rest (exec_store_call call s).2
  end.

Lemma replace_agent_plan_transaction plan s : transaction s (replace_agent_plan plan s).
Proof. unfold replace_agent_plan. tx. Qed.
Lemma clear_agent_plan_transaction session_id s : transaction s (clear_agent_plan session_id s).
Proof. unfold clear_agent_plan. tx. Qed.

Lemma store_call_transaction call s :
  store_call_ok call (state s) -> transaction s (exec_store_call call s).
Proof.
  intros Hok. destruct call; cbn [exec_store_call store_call_ok] in *.
  - apply exec_call_transaction.
  - destruct Hok. apply exec_archive_call_transaction; [done|by apply archive_records_suspensions].
  - apply exec_workflow_call_transaction.
  - apply transaction_erase, replace_agent_plan_transaction.
  - apply transaction_erase, clear_agent_plan_transaction.
  - apply session_call_transaction.
  - by apply record_call_sound.
Qed.

(** The revision has advanced by some number of commits, and by none only if
    nothing changed. *)
Lemma history_revision calls s :
  store_calls_ok calls s -> (revision (state s) <= u64_max)%N ->
  exists k, (k <= N.of_nat (length calls))%N
  /\ revision (state (exec_store_calls calls s)) = u64_add (revision (state s)) k
  /\ (k = 0%N -> state (exec_store_calls calls s) = state s).
Proof.
  revert s. induction calls as [|call calls IH]; intros s Hok Hs; simpl.
  { exists 0%N. split_and!; [lia| |done]. rewrite u64_add_small; lia. }
  destruct Hok as [Hcall Hok].
  pose proof (transaction_revision _ _ (store_call_transaction call s Hcall)) as [Heq|Hrev].
  - destruct (IH _ Hok) as (k & Hk & Hr & H0'); [by rewrite Heq|].
    exists k. rewrite Heq in *. split_and!; [lia|done|done].
  - destruct (IH _ Hok) as (k & Hk & Hr & _); [rewrite Hrev; apply u64_add_bound|].
    exists (1 + k)%N. split_and!; [lia| |lia]. rewrite Hr, Hrev. unfold u64_add.
    rewrite N.Div0.add_mod_idemp_l. f_equal. lia.
Qed.

Lemma history_coherent calls s :
  store_calls_ok calls s -> coherent s -> coherent (exec_store_calls calls s).
Proof.
  revert s. induction calls as [|call calls IH]; intros s; simpl; [done|]. intros [Hcall Hok] Hs.
  apply IH; [done|]. by eapply transaction_coherent, Hs; apply store_call_transaction.
Qed.
End calls.

Lemma u64_add_fixed r k :
  (r <= u64_max)%N -> (k <= u64_max)%N -> u64_add r k = r -> k = 0%N.
Proof.
  unfold u64_add, u64_max. intros Hr Hk Heq.
  change u64_modulus with 18446744073709551616%N in *.
  pose proof (N.div_mod (r + k) 18446744073709551616 ltac:(done)).
  assert ((r + k) / 18446744073709551616 < 2)%N by (apply N.Div0.div_lt_upper_bound; lia).
  lia.
Qed.

(** ** A history across the journals and the records *)

#[local] Existing Instance canonical_uuid.
#[local] Existing Instance compact_json.

(** A workflow configuration is saved, the Session is archived with a write that
    fails first, a Task is renamed, and a run configuration is refused. *)
Definition mixed_history : list StoreCall :=
  [ On_session (Call_rename_session "s" (Some "Agent"));
    On_archive (Call_begin_session_archive (MkSessionArchiveOperation "op" "s" "p" 7 SA_Prepared 10));
    On_archive (Call_begin_session_archive (MkSessionArchiveOperation "op" "s" "p" 7 SA_Prepared 10));
    On_record (Do_rename_task "a" "Renamed" 11);
    On_record (Do_set_run_configuration "v" serve 0);
    On_journal (Call_clear_task_worktree_provisioning "a" "none");
    On_clear_agent_plan "s" ].

Definition mixed_store : Store :=
  MkStore sample_state 0 sample_state [Persisted 10; PersistFailed "disk full"].

Lemma mixed_history_runs :
  let s := exec_store_calls mixed_history mixed_store in
  (revision (state s), t_title <$> tasks (state s), s_name <$> sessions (state s),
   length (session_archive_operations (state s)))
  = (3%N, ["Renamed"], [Some "Agent"], 1).
Proof. vm_compute. reflexivity. Qed.

(** ** What the store guarantees *)




