(* ===== verification/LaunchTypes.v ===== *)
(** * What a launch is made of

    The environment of a child process ([platform/src/env.rs]), generated
    terminal input ([platform/src/terminal_input.rs]), the spawn target
    ([platform/src/launch_target.rs]) and the types of the launch crate.

    The operating system is the class [Host]: whether it is Windows, the
    filtered baseline environment, and what probing the file system answers.
    An [OsStr] and a [Path] are their bytes. *)

From stdpp Require Import pretty.
From Stdlib Require Import Ascii.
From S2P Require Import Prelude Keyed Text Domain DomainRules DomainConfig DeliveryRuntime Agents.
From S2P Require Import Subagents RunRecords.

Local Open Scope string_scope.
Local Open Scope list_scope.

(** ** Text *)

Definition double_quote : ascii := ascii_of_N 34.
(** A text between double quotes, as a literal of the source has it. *)
Definition in_quotes (s : string) : string := String double_quote (s +:+ String double_quote EmptyString).

(** [str::to_ascii_uppercase] *)
Definition to_ascii_uppercase (s : string) : string :=
  string_of_bytes ((fun b => if is_ascii_lowercase b then (b - 32)%N else b) <$> bytes s).

(** [slice::join] of texts *)
Definition joined (separator : string) (parts : list string) : string := String.concat separator parts.

(** [OsStr::to_str]: valid UTF-8 *)
Definition utf8_tail (b : N) : bool := in_range 128 191 b.
Fixpoint utf8_valid (bs : list N) : bool :=
  match bs with
  | [] => true
  | b :: rest =>
      if (b <? 128)%N then utf8_valid rest
      else match rest with
      | b1 :: rest1 =>
          if in_range 194 223 b then utf8_tail b1 && utf8_valid rest1
          else match rest1 with
          | b2 :: rest2 =>
              if in_range 224 239 b then
                utf8_tail b1 && utf8_tail b2 && ((b != 224%N) || (160 <=? b1)%N)
                && ((b != 237%N) || (b1 <=? 159)%N) && utf8_valid rest2
              else match rest2 with
              | b3 :: rest3 =>
                  in_range 240 244 b && utf8_tail b1 && utf8_tail b2 && utf8_tail b3
                  && ((b != 240%N) || (144 <=? b1)%N) && ((b != 244%N) || (b1 <=? 143)%N)
                  && utf8_valid rest3
              | [] => false
              end
          | [] => false
          end
      | [] => false
      end
  end.

(** ** The environment of a child process *)

Record LaunchEnvironment : Type := MkLaunchEnvironment { env_entries : list (string * string) }.
#[export] Instance LaunchEnvironment_eq_dec : EqDecision LaunchEnvironment.
Proof. solve_decision. Defined.

Inductive LaunchTargetKind : Type := LTK_NativeExecutable | LTK_ShebangScript | LTK_WindowsCmdScript.
#[export] Instance LaunchTargetKind_eq_dec : EqDecision LaunchTargetKind.
Proof. solve_decision. Defined.

Record ResolvedLaunchTarget : Type := MkResolvedLaunchTarget {
  rlt_target : string;
  rlt_kind : LaunchTargetKind;
  rlt_cmd_interpreter : option string
}.
#[export] Instance ResolvedLaunchTarget_eq_dec : EqDecision ResolvedLaunchTarget.
Proof. solve_decision. Defined.

(** [PlatformError], as far as [resolve_agent_cli] tells errors apart. *)
Inductive LaunchTargetError : Type := LT_NotFound | LT_Other.
#[export] Instance LaunchTargetError_eq_dec : EqDecision LaunchTargetError.
Proof. solve_decision. Defined.

Class Host := {
  host_is_windows : bool;
  (** [LaunchEnvironment::os_baseline] *)
  os_baseline : LaunchEnvironment;
  (** [resolve_launch_target], which searches the [PATH] of the environment *)
  resolve_launch_target : string -> LaunchEnvironment -> result LaunchTargetError ResolvedLaunchTarget;
  (** the probe of the installed OpenCode *)
  opencode_uses_server_configuration : ResolvedLaunchTarget -> LaunchEnvironment -> bool;
  (** the file next to a Gemini settings path, and the native one *)
  derived_gemini_defaults_present : string -> bool;
  native_gemini_defaults_present : bool
}.

Section environment.
Context `{Host}.

(** [environment_keys_equal] *)
Definition environment_keys_equal (left right : string) : bool :=
  if host_is_windows then eq_ignore_ascii_case left right else left == right.

(** [LaunchEnvironment::insert], [with_explicit] *)
Definition env_insert (key value : string) (entries : list (string * string)) : list (string * string) :=
  match position (fun entry => environment_keys_equal entry.1 key) entries with
  | Some (index, _) => <[index := (key, value)]> entries
  | None => entries ++ [(key, value)]
  end.
Definition with_explicit (key value : string) (self : LaunchEnvironment) : LaunchEnvironment :=
  MkLaunchEnvironment (env_insert key value (env_entries self)).

Definition env_contains_key (key : string) (self : LaunchEnvironment) : bool :=
  any (fun entry => environment_keys_equal entry.1 key) (env_entries self).
Definition env_value (key : string) (self : LaunchEnvironment) : option string :=
  snd <$> find_first (fun entry => environment_keys_equal entry.1 key) (env_entries self).

(** [gemini_cli_system_defaults_source_present] *)
Definition gemini_cli_system_defaults_source_present (environment : LaunchEnvironment) : bool :=
  env_contains_key "GEMINI_CLI_SYSTEM_DEFAULTS_PATH" environment
  || is_some_and (env_value "GEMINI_CLI_SYSTEM_SETTINGS_PATH" environment)
       derived_gemini_defaults_present
  || native_gemini_defaults_present.

(** [ResolvedLaunchTarget::command_line] *)
Definition command_line (self : ResolvedLaunchTarget) (args : list string) : string * list string :=
  match rlt_cmd_interpreter self with
  | Some interpreter => (interpreter, ["/d"; "/s"; "/c"; rlt_target self] ++ args)
  | None => (rlt_target self, args)
  end.

(** ** Paths *)

(** [Path::join] with a relative component.  A bare drive takes no separator. *)
Definition is_separator (b : N) : bool := (b =? 47)%N || (host_is_windows && (b =? 92)%N).
Definition is_drive (path : string) : bool :=
  match bytes path with
  | [letter; 58%N] =>
      host_is_windows && (is_ascii_lowercase letter || is_ascii_uppercase letter)
  | _ => false
  end.
Definition path_join (path component : string) : string :=
  if is_none_or (list.last (bytes path)) is_separator || is_drive path then path +:+ component
  else path +:+ (if host_is_windows then "\" else "/") +:+ component.

(** [Path::parent], for a path without a Windows prefix: the last component and
    the separators and [.] components before it go; a root stays. *)
Fixpoint drop_trailing (reversed : list N) : list N :=
  match reversed with
  | b :: rest =>
      if is_separator b then match rest with [] => reversed | _ => drop_trailing rest end
      else match b, rest with
      | 46%N, c :: _ => if is_separator c then drop_trailing rest else reversed
      | _, _ => reversed
      end
  | [] => []
  end.
Definition path_parent (path : string) : option string :=
  let reversed := drop_trailing (rev (bytes path)) in
  let before := skip_while (fun b => negb (is_separator b)) reversed in
  if bool_decide (reversed = []) || (any is_separator (take 1 reversed) && (length reversed =? 1)%nat)
  then None
  else Some (string_of_bytes (rev (drop_trailing before))).

(** ** Generated terminal input *)

Inductive GeneratedTerminalInputError : Type := GTE_PasteTerminator | GTE_InvalidUtf8 | GTE_ControlCharacter.

Definition paste_begin : list N := [27; 91; 50; 48; 48; 126]%N.
Definition paste_end : list N := [27; 91; 50; 48; 49; 126]%N.
Definition submit_key : list N := [13]%N.

Definition host_uses_bracketed_paste_framing : bool := negb host_is_windows.

(** [terminal_paste_input] *)
Definition terminal_paste_input (content : list N) : list N :=
  if host_uses_bracketed_paste_framing then paste_begin ++ content ++ paste_end else content.

(** [content.windows(needle.len()).any(|window| window == needle)] *)
Definition has_window (needle content : list N) : bool :=
  any (fun index => bool_decide (needle `prefix_of` drop index content)) (seq 0 (S (length content))).

(** [generated_terminal_paste_submission_sequence], with
    [terminal_paste_submission_sequence].  The caller's content is a [str], so
    that it is UTF-8. *)
Definition generated_terminal_paste_submission_sequence (content : string)
  : result GeneratedTerminalInputError (list (list N)) :=
  if has_window paste_end (bytes content) then Err GTE_PasteTerminator
  else if any (fun c => is_control c && negb ((c =? 10)%N || (c =? 9)%N)) (chars content)
  then Err GTE_ControlCharacter
  else Ok [terminal_paste_input (bytes content); submit_key].
End environment.

(** ** Requests *)

Record PromptTemplate : Type := MkPromptTemplate {
  pt_id : string;
  pt_version : N;
  pt_authored_body : string
}.
#[export] Instance PromptTemplate_eq_dec : EqDecision PromptTemplate.
Proof. solve_decision. Defined.

Record ImageAttachment : Type := MkImageAttachment {
  ia_attachment_id : string;
  ia_file_path : string;
  ia_media_type : string;
  ia_byte_length : N;
  ia_sha256 : string;
  ia_width : N;
  ia_height : N
}.

(** [InvocationError], and the panic of an [expect] or [unreachable!]. *)
Inductive InvocationError : Type :=
| IE_UnprovenancedPrompt
| IE_TemplateMissing
| IE_UnsupportedAgent (agent_id : string)
| IE_AgentCliNotFound (agent_id : string)
| IE_AgentCliUnusable (agent_id : string)
| IE_InvalidResumeReference
| IE_InvalidRuntimeBinding
| IE_InvalidPrompt
| IE_InvalidImageAttachment
| IE_UnsupportedModel (agent_id model : string)
| IE_UnsupportedPermission (agent_id permission : string)
| IE_UnsupportedReasoning (agent_id reasoning : string)
| IE_InvalidMcpEndpoint
| IE_InvalidObservationTransport
| IE_ObservationConfigurationConflict
| IE_InvalidDeveloperInstructions
| IE_InvalidPromptBinding
| IE_InvalidAssistantConfiguration
| IE_Panicked (message : string).
#[export] Instance InvocationError_eq_dec : EqDecision InvocationError.
Proof. solve_decision. Defined.

Record AgentAccountContext : Type := MkAgentAccountContext {
  aac_agent_id : string;
  aac_account_id : string;
  aac_name : string;
  aac_config_directory : option string
}.

Inductive AgentConversationLaunch : Type :=
| ACL_WithAccount (account : AgentAccountContext) (conversation : AgentConversationLaunch)
| ACL_Fresh (resume_ref : option ResumeRef)
| ACL_Resume (resume_ref : ResumeRef)
| ACL_Fork (source_ref : ResumeRef).

Inductive AgentObservationLaunchTransport : Type :=
| OT_InlineSettings (content inspectable_content : string)
| OT_EnvironmentSettingsPath (variable path content inspectable_content : string)
| OT_DaemonOwnedBridge (endpoint : string).

Record AgentObservationLaunch : Type := MkAgentObservationLaunch {
  aol_session_id : string;
  aol_endpoint : string;
  aol_token : string;
  aol_transport : AgentObservationLaunchTransport
}.

Record McpConnection : Type := MkMcpConnection {
  mcp_endpoint : string;
  mcp_token : string;
  mcp_claude_config_path : string;
  mcp_server_name : string;
  mcp_instructions : option PromptTemplate
}.

Inductive CodexSandbox : Type := CS_ReadOnly | CS_WorkspaceWrite.
#[export] Instance CodexSandbox_eq_dec : EqDecision CodexSandbox.
Proof. solve_decision. Defined.

Record CodexExecutionPolicy : Type := MkCodexExecutionPolicy {
  cep_sandbox : CodexSandbox;
  cep_network : bool;
  cep_web_search : bool
}.

Inductive CodexProjectTrust : Type := CPT_Inherit | CPT_ManagedWorkspace.
#[export] Instance CodexProjectTrust_eq_dec : EqDecision CodexProjectTrust.
Proof. solve_decision. Defined.

Record CodexRuntimePolicy : Type := MkCodexRuntimePolicy {
  crp_approved_tools : list string;
  crp_approved_external_tools : list string;
  crp_workspace_network : option bool
}.

Record LaunchRequest : Type := MkLaunchRequest {
  lr_agent_id : string;
  lr_cwd : string;
  lr_template : PromptTemplate;
  lr_model : string;
  lr_permission : string;
  lr_reasoning : string;
  lr_prompt : option string;
  lr_conversation : AgentConversationLaunch;
  lr_observation : option AgentObservationLaunch;
  lr_mcp : option McpConnection;
  lr_provider_instructions_source : option PromptTemplate;
  lr_provider_instructions : option string;
  lr_attachments : list ImageAttachment;
  lr_codex_project_trust : CodexProjectTrust;
  lr_executable_directory : option string;
  lr_explicit_configuration : bool;
  lr_execution : option CodexExecutionPolicy;
  lr_workspace_network : option bool;
  lr_approved_tools : list string;
  lr_approved_external_tools : list string;
  lr_read_only_workspace : bool
}.
#[export] Instance LaunchRequest_eta : Eta LaunchRequest := fun r =>
  MkLaunchRequest (lr_agent_id r) (lr_cwd r) (lr_template r) (lr_model r) (lr_permission r)
    (lr_reasoning r) (lr_prompt r) (lr_conversation r) (lr_observation r) (lr_mcp r)
    (lr_provider_instructions_source r) (lr_provider_instructions r) (lr_attachments r)
    (lr_codex_project_trust r) (lr_executable_directory r) (lr_explicit_configuration r)
    (lr_execution r) (lr_workspace_network r) (lr_approved_tools r) (lr_approved_external_tools r)
    (lr_read_only_workspace r).

(** [LaunchRequest::interactive] *)
Definition interactive_request (agent_id cwd : string) (template : PromptTemplate) : LaunchRequest :=
  MkLaunchRequest agent_id cwd template "default" "default" "default" None (ACL_Fresh None) None None
    None None [] CPT_Inherit None false None None [] [] false.

(** ** Inspectable manifests *)

Inductive ArgumentVisibility : Type := AV_Exact | AV_PrivateProviderIdentity | AV_RuntimeAuthority | AV_SensitivePath.
#[export] Instance ArgumentVisibility_eq_dec : EqDecision ArgumentVisibility.
Proof. solve_decision. Defined.

Record ResolvedArgument : Type := MkResolvedArgument {
  ra_value : string;
  ra_visibility : ArgumentVisibility;
  ra_purpose : string
}.
#[export] Instance ResolvedArgument_eq_dec : EqDecision ResolvedArgument.
Proof. solve_decision. Defined.

(** [ResolvedArgument::exact], [private], [runtime_authority], [sensitive_path] *)
Definition exact_arg (purpose value : string) : ResolvedArgument :=
  MkResolvedArgument value AV_Exact purpose.
Definition private_arg (purpose value : string) : ResolvedArgument :=
  MkResolvedArgument value AV_PrivateProviderIdentity purpose.
Definition runtime_authority_arg (purpose value : string) : ResolvedArgument :=
  MkResolvedArgument value AV_RuntimeAuthority purpose.
Definition sensitive_path_arg (purpose value : string) : ResolvedArgument :=
  MkResolvedArgument value AV_SensitivePath purpose.

Record InspectableLaunchTarget : Type := MkInspectableLaunchTarget {
  ilt_account_id : option string;
  ilt_account_name : option string;
  ilt_agent_id : string;
  ilt_executable : string;
  ilt_model : string;
  ilt_permission : string;
  ilt_reasoning : string;
  ilt_cwd : string;
  ilt_conversation : string
}.

Record InspectableProvenance : Type := MkInspectableProvenance {
  ip_template_ref : string;
  ip_template_version : N;
  ip_authored_digest : string;
  ip_delivered_digest : string
}.
#[export] Instance InspectableProvenance_eta : Eta InspectableProvenance := fun r =>
  MkInspectableProvenance (ip_template_ref r) (ip_template_version r) (ip_authored_digest r)
    (ip_delivered_digest r).

Record InspectableContentPart : Type := MkInspectableContentPart {
  icp_id : string;
  icp_kind : string;
  icp_source : string;
  icp_scope : string;
  icp_delivery : string;
  icp_content : string;
  icp_byte_length : N;
  icp_digest : string
}.
#[export] Instance InspectableContentPart_eta : Eta InspectableContentPart := fun r =>
  MkInspectableContentPart (icp_id r) (icp_kind r) (icp_source r) (icp_scope r) (icp_delivery r)
    (icp_content r) (icp_byte_length r) (icp_digest r).

Record InspectableTransport : Type := MkInspectableTransport {
  itr_kind : string;
  itr_delivered_content : string;
  itr_byte_length : N;
  itr_digest : string
}.

Record InspectableArgument : Type := MkInspectableArgument {
  iarg_position : nat;
  iarg_display : string;
  iarg_visibility : string;
  iarg_classification : string;
  iarg_purpose : string
}.

Record InspectableEnvironmentEntry : Type := MkInspectableEnvironmentEntry {
  iee_key : string;
  iee_display_value : string;
  iee_visibility : string;
  iee_classification : string;
  iee_source : string;
  iee_purpose : string
}.

Record InspectableGeneratedFile : Type := MkInspectableGeneratedFile {
  igf_purpose : string;
  igf_delivery : string;
  igf_lifecycle : string;
  igf_content_visibility : string;
  igf_content_classification : string;
  igf_content : string;
  igf_byte_length : N;
  igf_digest : string
}.

Record InspectableLimitation : Type := MkInspectableLimitation {
  ilm_kind : string;
  ilm_description : string
}.

Record InspectableLaunchManifest : Type := MkInspectableLaunchManifest {
  ilm_digest : string;
  ilm_target : InspectableLaunchTarget;
  ilm_provenance : InspectableProvenance;
  ilm_content_parts : list InspectableContentPart;
  ilm_transport : InspectableTransport;
  ilm_arguments : list InspectableArgument;
  ilm_environment : list InspectableEnvironmentEntry;
  ilm_generated_files : list InspectableGeneratedFile;
  ilm_limitations : list InspectableLimitation
}.
#[export] Instance InspectableLaunchManifest_eta : Eta InspectableLaunchManifest := fun r =>
  MkInspectableLaunchManifest (ilm_digest r) (ilm_target r) (ilm_provenance r)
    (ilm_content_parts r) (ilm_transport r) (ilm_arguments r) (ilm_environment r)
    (ilm_generated_files r) (ilm_limitations r).

(** [serde_json::to_vec] of a manifest *)
Class ManifestText := manifest_text : InspectableLaunchManifest -> list N.

(** [CodexResumePermissions] of the agents crate *)
Record CodexResumePermissions : Type := MkCodexResumePermissions {
  crs_native_thread_id : string;
  crs_fork : bool;
  crs_cwd : string;
  crs_permission : CodexPermissionMode;
  crs_model : option string;
  crs_reasoning : option string;
  crs_workspace_network : option bool
}.
#[export] Instance CodexResumePermissions_eta : Eta CodexResumePermissions := fun r =>
  MkCodexResumePermissions (crs_native_thread_id r) (crs_fork r) (crs_cwd r) (crs_permission r)
    (crs_model r) (crs_reasoning r) (crs_workspace_network r).

Record InitialInputDelivery : Type := MkInitialInputDelivery {
  iid_delivered : string;
  iid_sequence : list (list N)
}.

Record ResolvedLaunchManifest : Type := MkResolvedLaunchManifest {
  rlm_target : ResolvedLaunchTarget;
  rlm_arguments : list ResolvedArgument;
  rlm_environment : LaunchEnvironment;
  rlm_provenance : Provenance;
  rlm_codex_app_server_developer_instructions : option string;
  rlm_codex_runtime_policy : CodexRuntimePolicy;
  rlm_codex_resume_permissions : option CodexResumePermissions;
  rlm_initial_input : option InitialInputDelivery;
  rlm_inspectable : InspectableLaunchManifest;
  rlm_bindings : list (string * string);
  rlm_delivered_prompt : option string
}.
#[export] Instance ResolvedLaunchManifest_eta : Eta ResolvedLaunchManifest := fun r =>
  MkResolvedLaunchManifest (rlm_target r) (rlm_arguments r) (rlm_environment r) (rlm_provenance r)
    (rlm_codex_app_server_developer_instructions r) (rlm_codex_runtime_policy r)
    (rlm_codex_resume_permissions r) (rlm_initial_input r) (rlm_inspectable r) (rlm_bindings r)
    (rlm_delivered_prompt r).

Record LaunchPayload : Type := MkLaunchPayload {
  lp_program : string;
  lp_args : list string;
  lp_environment : LaunchEnvironment;
  lp_provenance : Provenance;
  lp_codex_app_server_developer_instructions : option string;
  lp_codex_runtime_policy : CodexRuntimePolicy;
  lp_codex_resume_permissions : option CodexResumePermissions;
  lp_initial_input : option InitialInputDelivery;
  lp_inspectable : InspectableLaunchManifest;
  lp_bindings : list (string * string);
  lp_delivered_prompt : option string
}.
#[export] Instance LaunchPayload_eta : Eta LaunchPayload := fun r =>
  MkLaunchPayload (lp_program r) (lp_args r) (lp_environment r) (lp_provenance r)
    (lp_codex_app_server_developer_instructions r) (lp_codex_runtime_policy r)
    (lp_codex_resume_permissions r) (lp_initial_input r) (lp_inspectable r) (lp_bindings r)
    (lp_delivered_prompt r).

Record TerminalPrompt : Type := MkTerminalPrompt {
  tpr_provenance : Provenance;
  tpr_bindings : list (string * string);
  tpr_delivered_prompt : string;
  tpr_terminal_input_sequence : list (list N)
}.
