(* ===== verification/Launch.v ===== *)
(** * Launching an Agent

    The launch crate: which selections an Agent supports, the arguments and the
    environment of its process, the manifest that shows them without secrets,
    and the prompts ([launch/src]).  serde_json is the parameter [JsonText] and
    [ManifestText], SHA-256 the parameter [Sha256]. *)

From stdpp Require Import pretty.
From Stdlib Require Import Ascii.
From S2P Require Import Prelude Keyed Text Domain DomainRules DomainConfig DeliveryRuntime Agents.
From S2P Require Import Subagents RunRecords LaunchTypes.

Local Open Scope string_scope.
Local Open Scope list_scope.

(** A text is one of those of a pattern. *)
Definition one_of (texts : list string) (s : string) : bool := any (fun text => s == text) texts.

Definition launch_agents : list string := ["claude"; "codex"; "gemini"; "opencode"].

(** ** Selections ([selection.rs]) *)

Definition model_args (agent_id model : string) : result InvocationError (list string) :=
  if one_of launch_agents agent_id && (model == "default") then Ok []
  else if (agent_id == "claude") && one_of ["opus[1m]"; "fable"; "sonnet"; "haiku"; "opus"] model
          || (agent_id == "codex")
             && one_of ["gpt-6-astra"; "gpt-6.1-sol"; "gpt-6-sol"; "gpt-6-luna"; "gpt-5.6-sol";
                        "gpt-5.6-terra"; "gpt-5.6-luna"; "gpt-5.5"; "gpt-5.5-pro"] model
  then Ok ["--model"; model]
  else if (agent_id == "gemini") && one_of ["auto"; "pro"; "flash"; "flash-lite"] model
  then Ok ["-m"; model]
  else if (agent_id == "opencode")
          && one_of ["opencode-go/kimi-k2.7-code"; "opencode-go/glm-5.3-flash";
                     "opencode-go/minimax-m3"; "opencode-go/qwen3.7-plus";
                     "opencode-go/deepseek-v4.1-flash"] model
  then Ok ["--model"; model]
  else if one_of launch_agents agent_id then Err (IE_UnsupportedModel agent_id model)
  else Err (IE_UnsupportedAgent agent_id).

Definition reasoning_args (agent_id reasoning : string) : result InvocationError (list string) :=
  if one_of launch_agents agent_id && (reasoning == "default") then Ok []
  else if (agent_id == "opencode") && one_of ["low"; "high"; "max"; "none"; "thinking"] reasoning
  then Ok []
  else if (agent_id == "claude") && one_of ["low"; "medium"; "high"; "xhigh"; "max"] reasoning
  then Ok ["--effort"; reasoning]
  else if (agent_id == "codex") && one_of ["low"; "medium"; "high"; "xhigh"; "max"] reasoning
  then Ok ["-c"; "model_reasoning_effort=" +:+ in_quotes reasoning]
  else if one_of launch_agents agent_id then Err (IE_UnsupportedReasoning agent_id reasoning)
  else Err (IE_UnsupportedAgent agent_id).

Definition permission_args (agent_id permission : string) : result InvocationError (list string) :=
  let both agent selection := (agent_id == agent) && (permission == selection) in
  if both "claude" "default" then Ok ["--permission-mode"; "default"]
  else if both "claude" "acceptEdits" then Ok ["--permission-mode"; "auto"]
  else if both "claude" "plan" then Ok ["--permission-mode"; permission]
  else if both "claude" "bypassPermissions" then Ok ["--dangerously-skip-permissions"]
  else if both "codex" "default" then Ok []
  else if both "codex" "acceptEdits" then Ok ["--approve-for-me"]
  else if both "codex" "plan" then Ok ["--sandbox"; "read-only"; "--ask-for-approval"; "on-request"]
  else if both "codex" "bypassPermissions" then Ok ["--dangerously-bypass-approvals-and-sandbox"]
  else if both "gemini" "default" then Ok []
  else if both "gemini" "acceptEdits" then Ok ["--approval-mode"; "auto_edit"]
  else if both "gemini" "plan" then Ok ["--approval-mode"; "plan"]
  else if both "gemini" "bypassPermissions" then Ok ["--approval-mode"; "yolo"]
  else if both "opencode" "default" then Ok []
  else if both "opencode" "plan" then Ok ["--agent"; "plan"]
  else if both "opencode" "bypassPermissions" then Ok ["--auto"]
  else if one_of launch_agents agent_id then Err (IE_UnsupportedPermission agent_id permission)
  else Err (IE_UnsupportedAgent agent_id).

Definition read_only_disallowed_claude_tools : list string :=
  ["--disallowedTools"; "Edit,Write,NotebookEdit"].

Definition workspace_permission_args (agent_id permission : string) (read_only_workspace : bool)
  : result InvocationError (list string) :=
  let? selected := permission_args agent_id permission in
  if negb read_only_workspace then Ok selected
  else if agent_id == "claude" then Ok selected
  else if (agent_id == "codex") && one_of ["acceptEdits"; "bypassPermissions"] permission
  then Ok ["--sandbox"; "read-only"; "--ask-for-approval"; "never"]
  else if agent_id == "codex" then permission_args agent_id "plan"
  else Err (IE_UnsupportedAgent agent_id).

Definition validate_agent_configuration (agent_id model permission reasoning : string)
  : result InvocationError unit :=
  if negb (bool_decide (reasoning ∈ reasoning_for_model agent_id model))
  then Err (IE_UnsupportedReasoning agent_id reasoning)
  else
    let? _ := model_args agent_id model in
    let? _ := permission_args agent_id permission in
    let? _ := reasoning_args agent_id reasoning in
    Ok tt.

(** [default_permission] of the invocation crate *)
Definition default_permission (agent_id : string) : string :=
  if agent_id == "claude" then "acceptEdits" else "default".

(** [validate_quick_action] of the invocation crate *)
Definition validate_quick_action (agent_id model permission reasoning prompt : string)
  : result InvocationError unit :=
  if str_is_empty prompt || (32768 <? chars_count prompt)%N
     || any (fun c => is_control c && negb ((c =? 10)%N || (c =? 9)%N)) (chars prompt)
  then Err IE_InvalidPrompt
  else validate_agent_configuration agent_id model permission reasoning.

(** ** Tool and execution policies ([policy.rs]) *)

Definition validate_config_name (name : string) : result InvocationError unit :=
  if str_is_empty name || (128 <? len name)%N
     || negb (all (fun byte => is_ascii_alphanumeric byte || (byte =? 95)%N || (byte =? 45)%N) (bytes name))
  then Err IE_InvalidMcpEndpoint
  else Ok tt.

(** [str::split] at two underscores *)
Fixpoint split_underscores (bs : list N) : list (list N) :=
  match bs with
  | [] => [[]]
  | b :: rest =>
      match b, rest with
      | 95%N, 95%N :: rest' => [] :: split_underscores rest'
      | _, _ =>
          match split_underscores rest with
          | part :: parts => (b :: part) :: parts
          | [] => [[b]]
          end
      end
  end.

Definition external_tool (name own_server : string) : result InvocationError (string * string) :=
  let? rest := ok_or (strip_prefix "mcp__" name) IE_InvalidMcpEndpoint in
  match string_of_bytes <$> split_underscores (bytes rest) with
  | [server; tool] =>
      let? _ := validate_config_name server in
      let? _ := validate_config_name tool in
      if server == own_server then Err IE_InvalidMcpEndpoint else Ok (server, tool)
  | _ => Err IE_InvalidMcpEndpoint
  end.

Fixpoint validate_config_names (names : list string) : result InvocationError unit :=
  match names with
  | [] => Ok tt
  | name :: rest => let? _ := validate_config_name name in validate_config_names rest
  end.
Fixpoint external_tools (server : string) (names : list string)
  : result InvocationError (list (string * string)) :=
  match names with
  | [] => Ok []
  | name :: rest =>
      let? approval := external_tool name server in
      let? approvals := external_tools server rest in
      Ok (approval :: approvals)
  end.

(** The arguments that [apply_tool_approvals] appends. *)
Definition apply_tool_approvals (agent_id server : string) (tools external : list string)
  (arguments : list ResolvedArgument) : result InvocationError (list ResolvedArgument) :=
  let? _ := validate_config_name server in
  let? _ := validate_config_names tools in
  let? external_approvals := external_tools server external in
  let approvals := ((fun tool => (server, tool)) <$> tools) ++ external_approvals in
  if bool_decide (approvals = []) then Ok arguments
  else if agent_id == "claude" then
    Ok (arguments ++
      [exact_arg "authorized local application tools" "--allowedTools";
       exact_arg "authorized local application tools"
         (joined "," ((fun '(server, tool) => "mcp__" +:+ server +:+ "__" +:+ tool) <$> approvals))])
  else if agent_id != "codex" then Err (IE_UnsupportedAgent agent_id)
  else
    Ok (arguments ++ concat
      ((fun '(server, tool) =>
          [exact_arg "authorized local automation tool" "-c";
           exact_arg "authorized local automation tool"
             ("mcp_servers." +:+ server +:+ ".tools." +:+ tool +:+ ".approval_mode="
              +:+ in_quotes "approve")]) <$> approvals)).

Definition apply_execution_policy (agent_id : string) (policy : CodexExecutionPolicy)
  (arguments : list ResolvedArgument) : result InvocationError (list ResolvedArgument) :=
  let add := exact_arg "automation execution policy" in
  if agent_id != "codex" then Err (IE_UnsupportedAgent agent_id)
  else
    let arguments := exact_arg "bounded automation execution" "exec" :: arguments in
    let sandbox :=
      match cep_sandbox policy with CS_ReadOnly => "read-only" | CS_WorkspaceWrite => "workspace-write" end in
    let arguments :=
      arguments ++ (add <$>
        ["--skip-git-repo-check"; "--ignore-user-config"; "--ignore-rules"; "--sandbox"; sandbox;
         "-c"; "approval_policy=" +:+ in_quotes "never"]) in
    if cep_network policy && (cep_sandbox policy != CS_WorkspaceWrite) then Err IE_InvalidPromptBinding
    else
      let arguments :=
        if cep_network policy
        then arguments ++ (add <$> ["-c"; "sandbox_workspace_write.network_access=true"])
        else arguments in
      let arguments :=
        if cep_web_search policy then arguments ++ (add <$> ["-c"; "web_search=" +:+ in_quotes "live"])
        else arguments in
      Ok (arguments ++ concat
        ((fun feature => add <$> ["--disable"; feature]) <$> ["multi_agent"; "plugins"; "hooks"; "apps"])).

(** ** Arguments ([arguments.rs]) *)

(** [codex_config::project_trust_override] *)
Definition project_trust_override `{JsonText} (cwd : string) (trust : CodexProjectTrust) : option string :=
  if trust == CPT_Inherit then None
  else Some ("projects={" +:+ json_to_string (JString cwd) +:+ "={trust_level="
             +:+ in_quotes "trusted" +:+ "}}").

Section arguments.
Context `{UuidParser} `{JsonText}.

(** The Agent of a reference's provider *)
Definition resume_provider_agent (provider : ResumeProvider) : option string :=
  match provider with
  | RP_Claude => Some "claude"
  | RP_Codex => Some "codex"
  | RP_Gemini => Some "gemini"
  | RP_Opencode => Some "opencode"
  | RP_Unknown => None
  end.

Definition conversation_args (agent_id : string) (launch : AgentConversationLaunch)
  : result InvocationError (list string) :=
  let? (resume_ref, mode) :=
    match launch with
    | ACL_Fresh resume_ref => Ok (resume_ref, "fresh")
    | ACL_Resume resume_ref => Ok (Some resume_ref, "resume")
    | ACL_Fork source_ref => Ok (Some source_ref, "fork")
    | ACL_WithAccount _ _ => Err IE_InvalidResumeReference
    end in
  match resume_ref with
  | None => Ok []
  | Some resume_ref =>
      let id := ref_native_session_id resume_ref in
      let both agent m := (agent_id == agent) && (mode == m) in
      if negb (resume_ref_validate resume_ref)
         || (resume_provider_agent (ref_provider resume_ref) != Some agent_id)
      then Err IE_InvalidResumeReference
      else if both "claude" "fresh" then Ok ["--session-id"; id]
      else if both "claude" "resume" then Ok ["--resume"; id]
      else if both "claude" "fork" then Ok ["--resume"; id; "--fork-session"]
      else if both "codex" "fresh" then Err IE_InvalidResumeReference
      else if both "codex" "resume" then Ok ["resume"; id]
      else if both "codex" "fork" then Ok ["fork"; id]
      else if both "gemini" "resume" then Ok ["--resume"; id]
      else if both "opencode" "resume" then Ok ["--session"; id]
      else if both "opencode" "fork" then Ok ["--session"; id; "--fork"]
      else Err (IE_UnsupportedAgent agent_id)
  end.

Definition observation_args (agent_id : string) (observation : AgentObservationLaunch) : list string :=
  match aol_transport observation with
  | OT_InlineSettings content _ => if agent_id == "claude" then ["--settings"; content] else []
  | OT_DaemonOwnedBridge endpoint => if agent_id == "codex" then ["--remote"; endpoint] else []
  | OT_EnvironmentSettingsPath _ _ _ _ => []
  end.

Definition observation_transport_matches_agent (agent_id : string)
    (transport : AgentObservationLaunchTransport) : bool :=
  match transport with
  | OT_InlineSettings _ _ => agent_id == "claude"
  | OT_DaemonOwnedBridge _ => agent_id == "codex"
  | OT_EnvironmentSettingsPath variable _ _ _ =>
      ((agent_id == "gemini") && (variable == "GEMINI_CLI_SYSTEM_DEFAULTS_PATH"))
      || ((agent_id == "opencode") && (variable == "OPENCODE_TUI_CONFIG"))
  end.

Definition observation_environment_conflicts `{Host} (agent_id : string)
    (transport : AgentObservationLaunchTransport) (environment : LaunchEnvironment) : bool :=
  match transport with
  | OT_EnvironmentSettingsPath variable _ _ _ =>
      (agent_id == "gemini") && (variable == "GEMINI_CLI_SYSTEM_DEFAULTS_PATH")
  | _ => false
  end && gemini_cli_system_defaults_source_present environment.

Definition instructions_are_invalid (instructions : string) : bool :=
  trim_is_empty instructions || (64 * 1024 <? len instructions)%N.

Definition codex_developer_instructions_args (instructions : string)
  : result InvocationError (list string) :=
  if instructions_are_invalid instructions then Err IE_InvalidDeveloperInstructions
  else Ok ["-c"; "developer_instructions=" +:+ json_to_string (JString instructions)].

Definition mcp_args (agent_id : string) (mcp : McpConnection) (include_interactive_instructions : bool)
  : result InvocationError (list string) :=
  let? _ := validate_config_name (mcp_server_name mcp) in
  let instructions := if include_interactive_instructions then mcp_instructions mcp else None in
  if agent_id == "claude" then
    Ok (["--mcp-config"; mcp_claude_config_path mcp] ++
        match instructions with
        | Some template => ["--append-system-prompt"; pt_authored_body template]
        | None => []
        end)
  else if agent_id == "codex" then
    let server := mcp_server_name mcp in
    let args :=
      ["-c"; "mcp_servers." +:+ server +:+ ".url=" +:+ json_to_string (JString (mcp_endpoint mcp));
       "-c"; "mcp_servers." +:+ server +:+ ".bearer_token_env_var=" +:+ in_quotes "TERMLOOP_MCP_TOKEN"] in
    match instructions with
    | Some template =>
        let? more := codex_developer_instructions_args (pt_authored_body template) in
        Ok (args ++ more)
    | None => Ok args
    end
  else Err (IE_UnsupportedAgent agent_id).

(** ** Arguments of the manifest ([environment.rs]) *)

Definition conversation_manifest_args (agent_id : string) (launch : AgentConversationLaunch)
  : result InvocationError (list ResolvedArgument) :=
  let? raw := conversation_args agent_id launch in
  Ok (imap (fun position value =>
              if (0 <? position)%nat then private_arg "provider conversation identity" value
              else exact_arg "conversation mode" value) raw).

Definition observation_manifest_args (agent_id : string) (observation : AgentObservationLaunch)
  : list ResolvedArgument :=
  imap (fun position value =>
          if Nat.even position then exact_arg "agent observation transport" value
          else runtime_authority_arg "agent observation transport" value)
    (observation_args agent_id observation).

Definition mcp_manifest_args (agent_id : string) (mcp : McpConnection)
    (include_interactive_instructions : bool) : result InvocationError (list ResolvedArgument) :=
  let? args := mcp_args agent_id mcp include_interactive_instructions in
  Ok (imap (fun position value =>
              if (agent_id == "claude") && (position =? 1)%nat
              then runtime_authority_arg "launch-local MCP configuration" value
              else exact_arg "launch-local MCP configuration" value) args).
End arguments.

(** ** The visible environment ([environment.rs]) *)

Definition baseline_environment_classification (key : string) : string * string :=
  let upper := to_ascii_uppercase key in
  if one_of ["SSH_AUTH_SOCK"; "SSH_AGENT_PID"] upper then ("credentialAuthority", "SSH agent capability")
  else if one_of ["HTTP_PROXY"; "HTTPS_PROXY"; "NO_PROXY"; "ALL_PROXY"] upper
  then ("proxyAuthority", "network proxy configuration")
  else if one_of ["DBUS_SESSION_BUS_ADDRESS"; "DISPLAY"; "WAYLAND_DISPLAY"] upper
  then ("runtimeAuthority", "desktop session capability")
  else if one_of ["HOME"; "USERPROFILE"; "HOMEDRIVE"; "HOMEPATH"; "TMPDIR"; "TEMP"; "TMP";
                  "XDG_RUNTIME_DIR"; "XDG_CONFIG_HOME"; "XDG_DATA_HOME"; "SSL_CERT_FILE";
                  "SSL_CERT_DIR"; "NODE_EXTRA_CA_CERTS"; "REQUESTS_CA_BUNDLE"] upper
  then ("sensitivePath", "approved child-process filesystem context")
  else ("platformValue", "approved child-process bootstrap").

Definition claude_session_start_context_variable : string := "TERMLOOP_SESSION_START_CONTEXT".

Definition inspect_environment_entry (key : string) : InspectableEnvironmentEntry :=
  let redacted display classification purpose :=
    MkInspectableEnvironmentEntry key display "redacted" classification "invocation" purpose in
  if one_of ["CODEX_HOME"; "CLAUDE_CONFIG_DIR"] key then
    redacted "<redacted account directory>" "sensitivePath" "selected provider account"
  else if key == "CARGO_TARGET_DIR" then
    redacted "<redacted agent build path>" "sensitivePath" "Agent-shared Cargo build output"
  else if key == "TERMLOOP_SESSION_ID" then
    redacted "<redacted runtime correlation>" "runtimeCorrelation" "agent observation correlation"
  else if key == "TERMLOOP_AGENT_ID" then
    redacted "<redacted runtime correlation>" "runtimeCorrelation" "agent observation provider identity"
  else if key == "TERMLOOP_HOOK_ENDPOINT" then
    redacted "<redacted runtime authority>" "runtimeAuthority" "agent observation endpoint"
  else if key == "TERMLOOP_HOOK_TOKEN" then
    redacted "<redacted secret>" "secret" "agent observation capability"
  else if key == "GEMINI_CLI_SYSTEM_DEFAULTS_PATH" then
    redacted "<redacted runtime settings path>" "sensitivePath" "launch-scoped Gemini observation settings"
  else if key == "OPENCODE_CONFIG_CONTENT" then
    redacted "<redacted launch configuration>" "public" "launch-scoped OpenCode model and agent selection"
  else if key == "OPENCODE_TUI_CONFIG" then
    redacted "<redacted runtime settings path>" "sensitivePath" "launch-scoped OpenCode observation settings"
  else if key == claude_session_start_context_variable then
    redacted "<provider instructions shown in content>" "public"
      "provider instructions added at Claude SessionStart"
  else if key == "TERMLOOP_MCP_TOKEN" then
    redacted "<redacted secret>" "secret" "Ask-To MCP capability"
  else
    let '(classification, purpose) := baseline_environment_classification key in
    MkInspectableEnvironmentEntry key "<redacted platform value>" "redacted" classification
      "platformBaseline" purpose.

Definition entry_le (left right : InspectableEnvironmentEntry) : bool :=
  string_le (iee_key left) (iee_key right).
Definition inspect_environment (environment : LaunchEnvironment) : list InspectableEnvironmentEntry :=
  sort_by entry_le ((fun entry => inspect_environment_entry entry.1) <$> env_entries environment).

(** ** Manifests ([manifest.rs]) *)

Section manifests.
Context `{Sha256}.

Definition sha256_text (content : list N) : string :=
  "sha256:" +:+ string_of_bytes (concat (hex_byte <$> sha256_digest content)).
Definition content_digest (content : string) : string := sha256_text (bytes content).

(** [ResolvedArgument::inspect] *)
Definition inspect_argument (position : nat) (self : ResolvedArgument) : InspectableArgument :=
  let '(display, visibility, classification) :=
    match ra_visibility self with
    | AV_Exact => (ra_value self, "exact", "public")
    | AV_PrivateProviderIdentity =>
        ("<redacted private provider identity>", "redacted", "privateProviderIdentity")
    | AV_RuntimeAuthority => ("<redacted runtime authority>", "redacted", "runtimeAuthority")
    | AV_SensitivePath => ("<redacted Quick Action image path>", "redacted", "sensitivePath")
    end in
  MkInspectableArgument position display visibility classification (ra_purpose self).
Definition inspect_arguments (arguments : list ResolvedArgument) : list InspectableArgument :=
  imap inspect_argument arguments.

Definition content_part (id kind source delivery content : string) : InspectableContentPart :=
  MkInspectableContentPart id kind source "launch" delivery content (len content) (content_digest content).

Definition launch_transport (kind content : string) : InspectableTransport :=
  MkInspectableTransport kind content (len content) (content_digest content).

Definition redacted_generated_file (purpose delivery lifecycle inspectable_content private_content : string)
  : InspectableGeneratedFile :=
  MkInspectableGeneratedFile purpose delivery lifecycle "redacted" "sensitivePath" inspectable_content
    (len private_content) (content_digest private_content).

Definition finalize_digest `{ManifestText} (manifest : InspectableLaunchManifest)
  : InspectableLaunchManifest :=
  let manifest := manifest <| ilm_digest := "" |> in
  manifest <| ilm_digest := sha256_text (manifest_text manifest) |>.

Definition provider_limitations (agent_id : string) (inherits_codex_permissions : bool)
  : list InspectableLimitation :=
  [MkInspectableLimitation "providerManaged"
     (agent_id +:+ " may apply a provider-managed system prompt that TermLoop cannot observe."
      +:+ (if agent_id == "opencode"
           then " Reasoning configures the selected model's default options. OpenCode's own selected variant, including a remembered variant, takes precedence."
           else "")
      +:+ (if inherits_codex_permissions
           then " TermLoop reapplies and verifies the Session's saved permission selection through Codex App Server before the resume TUI attaches; unsupported CLI permission overrides are not sent."
           else ""));
   MkInspectableLimitation "providerDiscovered"
     (agent_id +:+ " may independently discover repository instructions after launch; those are not TermLoop-delivered content.")].
End manifests.

(** ** The target of a launch *)

(** [executable_for] of the agents crate *)
Definition executable_for (agent_id : string) : option string :=
  agent_descriptor agent_id ≫= (fun descriptor => head (ad_executable_candidates descriptor)).

Inductive AgentCliResolutionError : Type := CLI_UnsupportedAgent | CLI_NotFound | CLI_Unusable.

Section target.
Context `{Host}.

(** [resolve_agent_cli] *)
Fixpoint first_target (unusable : bool) (candidates : list string) (environment : LaunchEnvironment)
  : result AgentCliResolutionError ResolvedLaunchTarget :=
  match candidates with
  | [] => Err (if unusable then CLI_Unusable else CLI_NotFound)
  | program :: rest =>
      match resolve_launch_target program environment with
      | Ok target => Ok target
      | Err LT_NotFound => first_target unusable rest environment
      | Err LT_Other => first_target true rest environment
      end
  end.
Definition resolve_agent_cli (agent_id : string) (environment : LaunchEnvironment)
  : result AgentCliResolutionError ResolvedLaunchTarget :=
  let? descriptor := ok_or (agent_descriptor agent_id) CLI_UnsupportedAgent in
  first_target false (ad_executable_candidates descriptor) environment.

Definition agent_cli_error (agent_id : string) (error : AgentCliResolutionError) : InvocationError :=
  match error with
  | CLI_UnsupportedAgent => IE_UnsupportedAgent agent_id
  | CLI_NotFound => IE_AgentCliNotFound agent_id
  | CLI_Unusable => IE_AgentCliUnusable agent_id
  end.

Definition agent_cli (agent_id : string) (environment : LaunchEnvironment)
  : result InvocationError ResolvedLaunchTarget :=
  match resolve_agent_cli agent_id environment with
  | Ok target => Ok target
  | Err error => Err (agent_cli_error agent_id error)
  end.

Definition launch_target_utf8 (agent_id : string) (target : ResolvedLaunchTarget)
  : result InvocationError string :=
  let '(program, prefix) := command_line target [] in
  if negb (utf8_valid (bytes program)) || any (fun part => negb (utf8_valid (bytes part))) prefix
  then Err (IE_AgentCliUnusable agent_id)
  else if utf8_valid (bytes (rlt_target target)) then Ok (rlt_target target)
  else Err (IE_AgentCliUnusable agent_id).

(** ** The environment of a launch ([provider.rs]) *)

Definition agent_cargo_target_shard_count : N := 2.

(** FNV-1a in 64 bits *)
Definition agent_cargo_target_shard (shard_key : option string) : N :=
  match shard_key with
  | None => 0
  | Some key =>
      let hash := fold_left (fun hash byte => N.lxor hash byte * 0x100000001b3 mod 2 ^ 64)%N
                    (bytes key) 0xcbf29ce484222325%N in
      (hash mod agent_cargo_target_shard_count)%N
  end.

Definition agent_launch_environment (cwd : string) (shard_key : option string) : LaunchEnvironment :=
  let shard := pretty (agent_cargo_target_shard shard_key) in
  with_explicit "CARGO_TARGET_DIR" (path_join (path_join (path_join cwd "target") "agents") shard)
    os_baseline.

(** [AgentAccountContext::apply_environment], [credential_args] *)
Definition apply_environment (self : AgentAccountContext) (environment : LaunchEnvironment)
  : LaunchEnvironment :=
  match aac_config_directory self with
  | Some directory =>
      if aac_agent_id self == "codex" then with_explicit "CODEX_HOME" directory environment
      else if aac_agent_id self == "claude" then with_explicit "CLAUDE_CONFIG_DIR" directory environment
      else environment
  | None => environment
  end.
Definition credential_args (self : AgentAccountContext) : list string :=
  if (aac_agent_id self == "codex") && is_some (aac_config_directory self)
  then ["-c"; "cli_auth_credentials_store=" +:+ in_quotes "file"]
  else [].

(** ** OpenCode ([opencode.rs]) *)

(** The selection as an OpenCode configuration, whose keys are sorted as in a
    [serde_json::Map]: [Err] is the panic of the [expect] on the model's name. *)
Definition opencode_configuration (server : bool) (model permission reasoning : string)
  : result InvocationError (list (string * JsonDoc)) :=
  let config := if server && (permission == "plan") then [("default_agent", JString "plan")] else [] in
  let config := if server && (model != "default") then config ++ [("model", JString model)] else config in
  if reasoning == "default" then Ok config
  else
    let? (provider, model_id) :=
      ok_or (split_once 47 model) (IE_Panicked "validated explicit OpenCode model") in
    let settings :=
      if reasoning == "none" then JObject [("thinking", JObject [("type", JString "disabled")])]
      else if reasoning == "thinking" then JObject [("thinking", JObject [("type", JString "adaptive")])]
      else JObject [("reasoningEffort", JString reasoning)] in
    let nested key name :=
      (key, JObject [(provider, JObject [("models", JObject [(model_id, JObject [(name, settings)])])])]) in
    Ok (config ++ [if server then nested "providers" "settings" else nested "provider" "options"]).

Definition configure_opencode_launch `{JsonText} (target : ResolvedLaunchTarget)
    (model permission reasoning : string) (arguments : list ResolvedArgument)
    (environment : LaunchEnvironment)
  : result InvocationError (list ResolvedArgument * LaunchEnvironment) :=
  let server := opencode_uses_server_configuration target environment in
  let arguments :=
    if server && (model != "default")
    then retain (fun argument => ra_purpose argument != "model selection") arguments
    else arguments in
  let arguments :=
    if server && (permission == "plan")
    then retain (fun argument => ra_purpose argument != "permission selection") arguments
    else arguments in
  let? config := opencode_configuration server model permission reasoning in
  if match config with [] => true | _ => false end then Ok (arguments, environment)
  else
    let arguments :=
      if server then arguments ++ [exact_arg "launch-scoped OpenCode configuration" "--standalone"]
      else arguments in
    Ok (arguments,
        with_explicit "OPENCODE_CONFIG_CONTENT" (json_to_string (JObject config)) environment).
End target.

(** ** Initial input ([payload.rs], [types.rs]) *)

Section input.
Context `{Host} `{JsonText}.

(** [ImageAttachment::terminal_reference_paste] *)
Definition terminal_reference_paste (self : ImageAttachment) : list N :=
  terminal_paste_input (bytes (json_to_string (JString (ia_file_path self)) +:+ " ")).

Definition pastes_image_attachments_natively (agent_id : string) (attachments : list ImageAttachment)
  : bool :=
  (agent_id == "claude") && negb (match attachments with [] => true | _ => false end)
  && host_uses_bracketed_paste_framing.

Definition carriage_return : string := String (ascii_of_N 13) EmptyString.

(** [InitialInputDelivery::submitted] *)
Definition submitted (content : string) : result InvocationError InitialInputDelivery :=
  match generated_terminal_paste_submission_sequence content with
  | Ok sequence => Ok (MkInitialInputDelivery (content +:+ carriage_return) sequence)
  | Err _ => Err IE_InvalidPromptBinding
  end.

(** [submitted_after_image_references] *)
Definition submitted_after_image_references (attachments : list ImageAttachment) (content : string)
  : result InvocationError InitialInputDelivery :=
  let? delivery := submitted content in
  let paste := concat (terminal_reference_paste <$> attachments) in
  match iid_sequence delivery with
  | first :: rest => Ok (MkInitialInputDelivery (iid_delivered delivery) ((paste ++ first) :: rest))
  | [] => Err (IE_Panicked "index out of bounds")
  end.
End input.

(** ** Codex resume preparation ([agents/codex_resume.rs]) *)

Section codex_resume.
Context `{UuidParser}.

(** [CodexResumePermissions::new] *)
Definition codex_resume_new (native_thread_id cwd : string) (permission : CodexPermissionMode)
  : option CodexResumePermissions :=
  _ ← resume_ref_for_provider RP_Codex native_thread_id;
  if str_is_empty cwd || (32768 <? len cwd)%N || contains_byte 0 cwd then None
  else Some (MkCodexResumePermissions native_thread_id false cwd permission None None None).

Definition not_default (value : string) : option string :=
  if value != "default" then Some value else None.

(** [with_configuration], [with_workspace_network], [for_fork] *)
Definition with_configuration (model reasoning : string) (self : CodexResumePermissions)
  : CodexResumePermissions :=
  self <| crs_model := not_default model |> <| crs_reasoning := not_default reasoning |>.
Definition with_workspace_network (enabled : option bool) (self : CodexResumePermissions)
  : CodexResumePermissions := self <| crs_workspace_network := enabled |>.
Definition for_fork (self : CodexResumePermissions) : CodexResumePermissions :=
  self <| crs_fork := true |>.

(** [settings]: approval policy, reviewer, sandbox and its type *)
Definition codex_resume_settings (self : CodexResumePermissions) : string * string * string * string :=
  match crs_permission self with
  | CPM_Default => ("on-request", "user", "workspace-write", "workspaceWrite")
  | CPM_AcceptEdits => ("on-request", "auto_review", "workspace-write", "workspaceWrite")
  | CPM_Plan => ("on-request", "user", "read-only", "readOnly")
  | CPM_BypassPermissions => ("never", "user", "danger-full-access", "dangerFullAccess")
  end.
End codex_resume.

(** ** Resolving a request ([resolve.rs]) *)

Definition codex_disable_startup_update_check : string := "check_for_update_on_startup=false".

Section resolve.
Context `{Host} `{UuidParser} `{JsonText} `{Sha256} `{ManifestText}.

(** The account of a conversation, which must be the Agent's. *)
Definition split_account (agent_id : string) (conversation : AgentConversationLaunch)
  : result InvocationError (option AgentAccountContext * AgentConversationLaunch) :=
  match conversation with
  | ACL_WithAccount account conversation =>
      if aac_agent_id account == agent_id then Ok (Some account, conversation)
      else Err IE_InvalidResumeReference
  | conversation => Ok (None, conversation)
  end.

Definition is_fresh_without_ref (conversation : AgentConversationLaunch) : bool :=
  match conversation with ACL_Fresh None => true | _ => false end.
Definition conversation_kind (conversation : AgentConversationLaunch) : result InvocationError string :=
  match conversation with
  | ACL_Fresh _ | ACL_Fork _ => Ok "fresh"
  | ACL_Resume _ => Ok "resume"
  | ACL_WithAccount _ _ => Err IE_InvalidResumeReference
  end.
Definition is_resume_or_fork (conversation : AgentConversationLaunch) : bool :=
  match conversation with ACL_Resume _ | ACL_Fork _ => true | _ => false end.
Definition is_fork (conversation : AgentConversationLaunch) : bool :=
  match conversation with ACL_Fork _ => true | _ => false end.
Definition is_bridge (observation : AgentObservationLaunch) : bool :=
  match aol_transport observation with OT_DaemonOwnedBridge _ => true | _ => false end.
Definition is_inline (observation : AgentObservationLaunch) : bool :=
  match aol_transport observation with OT_InlineSettings _ _ => true | _ => false end.

(** [inherits_codex_permissions] *)
Definition inherits_permissions (r : LaunchRequest) (conversation : AgentConversationLaunch) : bool :=
  (lr_agent_id r == "codex") && is_resume_or_fork conversation && is_some_and (lr_observation r) is_bridge.

(** The checks before anything is composed. *)
Definition request_is_refused (r : LaunchRequest) : result InvocationError unit :=
  if is_some_and (lr_provider_instructions r) instructions_are_invalid
  then Err IE_InvalidDeveloperInstructions
  else if is_some (lr_execution r)
          && ((lr_permission r != "default") || negb (is_fresh_without_ref (lr_conversation r))
              || is_some (lr_observation r))
  then Err IE_InvalidPromptBinding
  else Ok tt.
Definition transport_is_refused (r : LaunchRequest) : result InvocationError unit :=
  if trim_is_empty (pt_id (lr_template r)) then Err IE_UnprovenancedPrompt
  else if is_none (executable_for (lr_agent_id r)) then Err (IE_UnsupportedAgent (lr_agent_id r))
  else if is_some_and (lr_observation r) (fun observation =>
            negb (observation_transport_matches_agent (lr_agent_id r) (aol_transport observation)))
  then Err IE_InvalidObservationTransport
  else Ok tt.

(** Working directory and trust of a Codex launch *)
Definition directory_arguments (r : LaunchRequest) : list ResolvedArgument :=
  if lr_agent_id r == "codex" then
    [exact_arg "working directory" "-C"; exact_arg "working directory" (lr_cwd r)] ++
    match project_trust_override (lr_cwd r) (lr_codex_project_trust r) with
    | Some trust =>
        [exact_arg "TermLoop-managed worktree trust" "-c"; exact_arg "TermLoop-managed worktree trust" trust]
    | None => []
    end
  else [].

(** Model, reasoning and permission *)
Definition selection_arguments (r : LaunchRequest) (inherits : bool)
  : result InvocationError (list ResolvedArgument) :=
  let agent_id := lr_agent_id r in
  if lr_explicit_configuration r || (lr_model r != "default") || (lr_permission r != "default")
     || (lr_reasoning r != "default") || lr_read_only_workspace r
  then
    let? model := model_args agent_id (lr_model r) in
    let? reasoning := reasoning_args agent_id (lr_reasoning r) in
    let? permission := workspace_permission_args agent_id (lr_permission r) (lr_read_only_workspace r) in
    Ok ((exact_arg "model selection" <$> model) ++ (exact_arg "reasoning selection" <$> reasoning)
        ++ (if inherits then [] else exact_arg "permission selection" <$> permission))
  else Ok [].

(** [session_start_context] *)
Definition session_start_context (r : LaunchRequest) (conversation : AgentConversationLaunch)
  : option string :=
  option_filter (fun _ =>
      (lr_agent_id r == "claude") && is_fork conversation && is_some_and (lr_observation r) is_inline)
    (lr_provider_instructions r).

Definition instruction_arguments (r : LaunchRequest) (context : option string)
  : result InvocationError (list ResolvedArgument) :=
  let add := exact_arg "persistent assistant instructions" in
  match option_filter (fun _ => is_none context) (lr_provider_instructions r) with
  | None => Ok []
  | Some instructions =>
      if lr_agent_id r == "codex" then
        Ok [add "-c"; add ("developer_instructions=" +:+ json_to_string (JString instructions))]
      else if lr_agent_id r == "claude" then Ok [add "--append-system-prompt"; add instructions]
      else Err (IE_UnsupportedAgent (lr_agent_id r))
  end.

Fixpoint parent_arguments (attachments : list ImageAttachment)
  : result InvocationError (list ResolvedArgument) :=
  match attachments with
  | [] => Ok []
  | attachment :: rest =>
      let? directory := ok_or (path_parent (ia_file_path attachment))
        (IE_Panicked "validated Quick Action attachment parent") in
      let? more := parent_arguments rest in
      Ok (exact_arg "Quick Action image attachment access" "--add-dir"
          :: sensitive_path_arg "Quick Action image attachment directory" directory :: more)
  end.
Definition attachment_arguments (r : LaunchRequest) : result InvocationError (list ResolvedArgument) :=
  if lr_agent_id r == "codex" then
    Ok (concat ((fun attachment =>
          [exact_arg "Quick Action image attachment" "--image";
           sensitive_path_arg "Quick Action image attachment path" (ia_file_path attachment)])
        <$> lr_attachments r))
  else if (lr_agent_id r == "claude")
          && negb (pastes_image_attachments_natively (lr_agent_id r) (lr_attachments r))
  then parent_arguments (lr_attachments r)
  else Ok [].

Definition update_check_arguments (r : LaunchRequest) : list ResolvedArgument :=
  if lr_agent_id r == "codex" then
    [exact_arg "non-interactive provider startup" "-c";
     exact_arg "non-interactive provider startup" codex_disable_startup_update_check]
  else [].

Definition bool_text (b : bool) : string := if b then "true" else "false".
Definition network_arguments (r : LaunchRequest) (inherits : bool)
  : result InvocationError (list ResolvedArgument) :=
  match lr_workspace_network r with
  | None => Ok []
  | Some enabled =>
      let add := exact_arg "workspace sandbox network policy" in
      if lr_agent_id r != "codex" then Err (IE_UnsupportedAgent (lr_agent_id r))
      else if inherits then Ok []
      else Ok [add "-c"; add ("sandbox_workspace_write.network_access=" +:+ bool_text enabled)]
  end.

(** Everything between the conversation and the prompt *)
Definition launch_arguments (r : LaunchRequest) (account : option AgentAccountContext)
    (conversation : AgentConversationLaunch) : result InvocationError (list ResolvedArgument) :=
  let agent_id := lr_agent_id r in
  let inherits := inherits_permissions r conversation in
  let context := session_start_context r conversation in
  let? arguments := conversation_manifest_args agent_id conversation in
  let arguments :=
    arguments ++ match account with
                 | Some account => exact_arg "isolated account credentials" <$> credential_args account
                 | None => []
                 end ++ directory_arguments r in
  let? selection := selection_arguments r inherits in
  let arguments :=
    arguments ++ selection ++ match lr_observation r with
                              | Some observation => observation_manifest_args agent_id observation
                              | None => []
                              end in
  let? mcp :=
    match lr_mcp r with
    | Some mcp => mcp_manifest_args agent_id mcp (is_none (lr_provider_instructions r))
    | None => Ok []
    end in
  let? instructions := instruction_arguments r context in
  let? attachments := attachment_arguments r in
  let arguments := arguments ++ mcp ++ instructions ++ attachments ++ update_check_arguments r in
  let? network := network_arguments r inherits in
  let? arguments :=
    match lr_execution r with
    | Some policy => apply_execution_policy agent_id policy (arguments ++ network)
    | None => Ok (arguments ++ network)
    end in
  let arguments :=
    if lr_read_only_workspace r && (agent_id == "claude")
    then arguments ++ (exact_arg "read-only workspace" <$> read_only_disallowed_claude_tools)
    else arguments in
  match lr_mcp r with
  | Some mcp =>
      apply_tool_approvals agent_id (mcp_server_name mcp) (lr_approved_tools r)
        (lr_approved_external_tools r) arguments
  | None =>
      if bool_decide (lr_approved_tools r = []) && bool_decide (lr_approved_external_tools r = [])
      then Ok arguments
      else Err IE_InvalidMcpEndpoint
  end.

(** The environment before anything of the observation is added *)
Definition account_environment (r : LaunchRequest) (account : option AgentAccountContext)
  : LaunchEnvironment :=
  let environment :=
    agent_launch_environment (lr_cwd r) (aol_session_id <$> lr_observation r) in
  let environment :=
    match lr_executable_directory r with
    | Some directory => with_explicit "PATH" directory environment
    | None => environment
    end in
  match account with
  | Some account => apply_environment account environment
  | None => environment
  end.

Definition observed_environment (agent_id : string) (observation : AgentObservationLaunch)
    (environment : LaunchEnvironment) : LaunchEnvironment :=
  let environment :=
    if is_bridge observation then environment
    else
      with_explicit "TERMLOOP_HOOK_TOKEN" (aol_token observation)
        (with_explicit "TERMLOOP_HOOK_ENDPOINT" (aol_endpoint observation)
          (with_explicit "TERMLOOP_AGENT_ID" agent_id
            (with_explicit "TERMLOOP_SESSION_ID" (aol_session_id observation) environment))) in
  match aol_transport observation with
  | OT_EnvironmentSettingsPath variable path _ _ => with_explicit variable path environment
  | _ => environment
  end.

Definition launch_environment (r : LaunchRequest) (account : option AgentAccountContext)
    (context : option string) : result InvocationError LaunchEnvironment :=
  let environment := account_environment r account in
  if is_some_and (lr_observation r) (fun observation =>
       observation_environment_conflicts (lr_agent_id r) (aol_transport observation) environment)
  then Err IE_ObservationConfigurationConflict
  else
    let environment :=
      match lr_observation r with
      | Some observation => observed_environment (lr_agent_id r) observation environment
      | None => environment
      end in
    let environment :=
      match lr_mcp r with
      | Some mcp => with_explicit "TERMLOOP_MCP_TOKEN" (mcp_token mcp) environment
      | None => environment
      end in
    Ok match context with
       | Some context => with_explicit claude_session_start_context_variable context environment
       | None => environment
       end.

(** The prompt as an argument *)
Definition is_prompt_argument (r : LaunchRequest) : bool :=
  (lr_agent_id r == "opencode")
  || ((lr_agent_id r == "codex") && negb (match lr_attachments r with [] => true | _ => false end)).
Definition prompt_arguments (r : LaunchRequest) : list ResolvedArgument :=
  match lr_prompt r with
  | None => []
  | Some prompt =>
      if lr_agent_id r == "opencode" then [exact_arg "initial prompt" ("--prompt=" +:+ prompt)]
      else if is_prompt_argument r then
        [exact_arg "initial prompt separator" "--";
         exact_arg "initial prompt accompanying image attachments" prompt]
      else []
  end.

(** ** The manifest of a request *)

Definition delivered_instructions (r : LaunchRequest) : option string :=
  match lr_provider_instructions r with
  | Some instructions => Some instructions
  | None => pt_authored_body <$> (lr_mcp r ≫= mcp_instructions)
  end.

Definition instruction_delivery (agent_id : string) : result InvocationError string :=
  if agent_id == "codex" then Ok "codexDeveloperInstructions"
  else if agent_id == "claude" then Ok "claudeAppendedSystemPrompt"
  else Err (IE_Panicked "agent id was validated").

Definition first_message_parts (r : LaunchRequest) : list InspectableContentPart :=
  match lr_prompt r with
  | Some prompt =>
      [content_part "first-message" "firstMessage" ("resources/prompts/" +:+ pt_id (lr_template r))
         (if is_prompt_argument r then "providerPromptArgument" else "terminalInput") prompt]
  | None => []
  end.

Definition instruction_parts (r : LaunchRequest) : result InvocationError (list InspectableContentPart) :=
  match delivered_instructions r with
  | None => Ok []
  | Some instructions =>
      let own := is_some (lr_provider_instructions r) in
      let? source :=
        ok_or (match lr_provider_instructions_source r with
               | Some source => Some source
               | None => lr_mcp r ≫= mcp_instructions
               end) IE_UnprovenancedPrompt in
      let? delivery := instruction_delivery (lr_agent_id r) in
      Ok [content_part
            (if own then "persistent-assistant-instructions" else "interactive-session-protocol")
            (if own then "providerInstructions" else "developerInstructions")
            ("resources/prompts/" +:+ pt_id source +:+ "@" +:+ pretty (pt_version source))
            delivery instructions]
  end.

Definition attachment_part (r : LaunchRequest) (index : nat) (attachment : ImageAttachment)
  : InspectableContentPart :=
  {| icp_id := "image-attachment-" +:+ pretty (S index);
     icp_kind := "imageAttachment";
     icp_source := "quickAction.attachment:" +:+ ia_attachment_id attachment;
     icp_scope := "launch";
     icp_delivery :=
       if lr_agent_id r == "codex" then "providerImageArgument"
       else if pastes_image_attachments_natively (lr_agent_id r) (lr_attachments r)
       then "terminalImagePaste" else "terminalPathReference";
     icp_content :=
       ia_media_type attachment +:+ " · " +:+ pretty (ia_width attachment) +:+ "×"
       +:+ pretty (ia_height attachment) +:+ " · " +:+ pretty (ia_byte_length attachment) +:+ " bytes";
     icp_byte_length := ia_byte_length attachment;
     icp_digest := ia_sha256 attachment |}.

Definition delivery_transport (r : LaunchRequest) : InspectableTransport :=
  match lr_prompt r, delivered_instructions r with
  | Some prompt, _ =>
      if is_prompt_argument r then launch_transport "providerPromptArgument" prompt
      else launch_transport "terminalInput" (prompt +:+ carriage_return)
  | None, Some instructions =>
      launch_transport
        (if lr_agent_id r == "codex" then "codexDeveloperInstructions" else "claudeAppendedSystemPrompt")
        instructions
  | None, None => launch_transport "none" ""
  end.

Definition generated_files (observation : AgentObservationLaunch) : list InspectableGeneratedFile :=
  match aol_transport observation with
  | OT_InlineSettings content inspectable_content =>
      [redacted_generated_file "launch-scoped observation settings" "inline settings argument"
         "inline; no filesystem artifact" inspectable_content content]
  | OT_EnvironmentSettingsPath _ _ content inspectable_content =>
      [redacted_generated_file "launch-scoped observation settings" "<redacted runtime settings path>"
         "private runtime settings overlay" inspectable_content content]
  | OT_DaemonOwnedBridge _ => []
  end.

Definition launch_manifest (r : LaunchRequest) (account : option AgentAccountContext)
    (kind executable : string) (inherits : bool) (instructions : list InspectableContentPart)
    (arguments : list ResolvedArgument) (environment : LaunchEnvironment) : InspectableLaunchManifest :=
  finalize_digest
    {| ilm_digest := "";
       ilm_target :=
         {| ilt_account_id := aac_account_id <$> account; ilt_account_name := aac_name <$> account;
            ilt_agent_id := lr_agent_id r; ilt_executable := executable; ilt_model := lr_model r;
            ilt_permission := lr_permission r; ilt_reasoning := lr_reasoning r; ilt_cwd := lr_cwd r;
            ilt_conversation := kind |};
       ilm_provenance :=
         {| ip_template_ref := pt_id (lr_template r);
            ip_template_version := pt_version (lr_template r);
            ip_authored_digest := content_digest (pt_authored_body (lr_template r));
            ip_delivered_digest :=
              content_digest
                match lr_prompt r with
                | Some prompt => prompt
                | None => default "" (delivered_instructions r)
                end |};
       ilm_content_parts :=
         first_message_parts r ++ instructions ++ imap (attachment_part r) (lr_attachments r);
       ilm_transport := delivery_transport r;
       ilm_arguments := inspect_arguments arguments;
       ilm_environment := inspect_environment environment;
       ilm_generated_files :=
         match lr_observation r with Some observation => generated_files observation | None => [] end;
       ilm_limitations := provider_limitations (lr_agent_id r) inherits |}.

(** [codex_resume_permissions] *)
Definition resume_mode (r : LaunchRequest) : result InvocationError CodexPermissionMode :=
  if lr_read_only_workspace r then Ok CPM_Plan
  else if lr_permission r == "default" then Ok CPM_Default
  else if lr_permission r == "acceptEdits" then Ok CPM_AcceptEdits
  else if lr_permission r == "plan" then Ok CPM_Plan
  else if lr_permission r == "bypassPermissions" then Ok CPM_BypassPermissions
  else Err (IE_UnsupportedPermission (lr_agent_id r) (lr_permission r)).

Definition resume_permissions (r : LaunchRequest) (conversation : AgentConversationLaunch)
  : result InvocationError (option CodexResumePermissions) :=
  if inherits_permissions r conversation then
    let? (resume_ref, fork) :=
      match conversation with
      | ACL_Resume resume_ref => Ok (resume_ref, false)
      | ACL_Fork source_ref => Ok (source_ref, true)
      | _ => Err (IE_Panicked "remote resume or fork was checked")
      end in
    let? mode := resume_mode r in
    let? request :=
      ok_or (codex_resume_new (ref_native_session_id resume_ref) (lr_cwd r) mode)
        IE_InvalidResumeReference in
    let request :=
      with_workspace_network (lr_workspace_network r)
        (with_configuration (lr_model r) (lr_reasoning r) request) in
    Ok (Some (if fork then for_fork request else request))
  else Ok None.

Definition initial_input (r : LaunchRequest) : result InvocationError (option InitialInputDelivery) :=
  match option_filter (fun _ => negb (is_prompt_argument r)) (lr_prompt r) with
  | None => Ok None
  | Some prompt =>
      let? delivery :=
        if pastes_image_attachments_natively (lr_agent_id r) (lr_attachments r)
        then submitted_after_image_references (lr_attachments r) prompt
        else submitted prompt in
      Ok (Some delivery)
  end.

(** [resolve] *)
Definition resolve (r : LaunchRequest) : result InvocationError ResolvedLaunchManifest :=
  let agent_id := lr_agent_id r in
  let? _ := request_is_refused r in
  let? (account, conversation) := split_account agent_id (lr_conversation r) in
  let? _ := transport_is_refused r in
  let? kind := conversation_kind conversation in
  let inherits := inherits_permissions r conversation in
  let context := session_start_context r conversation in
  let? _ := validate_agent_configuration agent_id (lr_model r) (lr_permission r) (lr_reasoning r) in
  let? arguments := launch_arguments r account conversation in
  let? environment := launch_environment r account context in
  let? target := agent_cli agent_id environment in
  let? executable := launch_target_utf8 agent_id target in
  let? (arguments, environment) :=
    if agent_id == "opencode"
    then configure_opencode_launch target (lr_model r) (lr_permission r) (lr_reasoning r)
           arguments environment
    else Ok (arguments, environment) in
  let arguments := arguments ++ prompt_arguments r in
  let? instructions := instruction_parts r in
  let inspectable :=
    launch_manifest r account kind executable inherits instructions arguments environment in
  let? permissions := resume_permissions r conversation in
  let? input := initial_input r in
  Ok {| rlm_target := target;
        rlm_arguments := arguments;
        rlm_environment := environment;
        rlm_provenance := MkProvenance (pt_id (lr_template r)) (pt_version (lr_template r));
        rlm_codex_app_server_developer_instructions :=
          if agent_id == "codex" then delivered_instructions r else None;
        rlm_codex_runtime_policy :=
          MkCodexRuntimePolicy (lr_approved_tools r) (lr_approved_external_tools r)
            (lr_workspace_network r);
        rlm_codex_resume_permissions := permissions;
        rlm_initial_input := input;
        rlm_inspectable := inspectable;
        rlm_bindings := [];
        rlm_delivered_prompt := lr_prompt r |}.

(** [into_payload] *)
Definition into_payload (self : ResolvedLaunchManifest) : LaunchPayload :=
  let '(program, args) := command_line (rlm_target self) (ra_value <$> rlm_arguments self) in
  {| lp_program := program; lp_args := args; lp_environment := rlm_environment self;
     lp_provenance := rlm_provenance self;
     lp_codex_app_server_developer_instructions := rlm_codex_app_server_developer_instructions self;
     lp_codex_runtime_policy := rlm_codex_runtime_policy self;
     lp_codex_resume_permissions := rlm_codex_resume_permissions self;
     lp_initial_input := rlm_initial_input self; lp_inspectable := rlm_inspectable self;
     lp_bindings := rlm_bindings self; lp_delivered_prompt := rlm_delivered_prompt self |}.

(** [set_provenance_content], [set_first_message_source], [positional_message] *)
Definition set_provenance_content (content : string) (self : ResolvedLaunchManifest)
  : ResolvedLaunchManifest :=
  let manifest := rlm_inspectable self in
  let provenance := ilm_provenance manifest in
  self <| rlm_inspectable := finalize_digest (manifest
    <| ilm_provenance := provenance <| ip_delivered_digest := content_digest content |> |>) |>.

Definition set_first_message_source (source : string) (self : ResolvedLaunchManifest)
  : ResolvedLaunchManifest :=
  let manifest := rlm_inspectable self in
  self <| rlm_inspectable := finalize_digest (manifest
    <| ilm_content_parts :=
         (fun part => if icp_kind part == "firstMessage" then part <| icp_source := source |> else part)
           <$> ilm_content_parts manifest |>) |>.

Definition positional_message (content source purpose : string) (self : ResolvedLaunchManifest)
  : result InvocationError ResolvedLaunchManifest :=
  if is_some (rlm_delivered_prompt self) || is_some (rlm_initial_input self) || str_is_empty content
     || contains_byte 0 content
  then Err IE_InvalidPromptBinding
  else
    let arguments :=
      rlm_arguments self ++ [exact_arg "first-message delimiter" "--"; private_arg purpose content] in
    let manifest := rlm_inspectable self in
    let provenance := ilm_provenance manifest in
    Ok (self <| rlm_arguments := arguments |> <| rlm_delivered_prompt := Some content |>
          <| rlm_inspectable := finalize_digest (manifest
               <| ilm_content_parts := ilm_content_parts manifest
                    ++ [content_part "first-message" "firstMessage" source "argv" content] |>
               <| ilm_transport := launch_transport "argv" content |>
               <| ilm_arguments := inspect_arguments arguments |>
               <| ilm_provenance := provenance <| ip_delivered_digest := content_digest content |> |>) |>).
End resolve.

(** ** Binding a payload ([provider.rs]) *)

Definition codex_app_server_runtime_placeholder : string := "termloop-runtime-authority".

(** The positions of [windows(2)] that hold a pair. *)
Definition pair_positions (pair : string * string) (args : list string) : list nat :=
  fst <$> retain (fun entry => entry.2 == pair) (imap (fun index window => (index, window)) (windows2 args)).

Definition sole_position (pair : string * string) (args : list string) : result InvocationError nat :=
  match pair_positions pair args with
  | [index] => Ok index
  | _ => Err IE_InvalidRuntimeBinding
  end.

(** [bind_codex_fork_thread] *)
Definition bind_codex_fork_thread `{UuidParser} (source_id child_id : string) (self : LaunchPayload)
  : result InvocationError LaunchPayload :=
  let? request :=
    ok_or (option_filter (fun request => crs_fork request && (crs_native_thread_id request == source_id))
             (lp_codex_resume_permissions self)) IE_InvalidRuntimeBinding in
  if (child_id == crs_native_thread_id request)
     || is_none (resume_ref_for_provider RP_Codex child_id)
  then Err IE_InvalidRuntimeBinding
  else
    let? index := sole_position ("fork", source_id) (lp_args self) in
    Ok (self <| lp_args := <[S index := child_id]> (<[index := "resume"]> (lp_args self)) |>).

(** [value.parse::<u16>()]: an optional plus sign and decimal digits. *)
Definition parse_digits (bs : list N) : option N :=
  if bool_decide (bs = []) || negb (all is_ascii_digit bs) then None
  else Some (fold_left (fun acc b => acc * 10 + (b - 48))%N bs 0%N).
Definition parse_u16 (s : string) : option N :=
  let bs := match bytes s with 43%N :: rest => rest | bs => bs end in
  option_filter (fun n => n <? 65536)%N (parse_digits bs).

(** [bind_codex_app_server_endpoint] *)
Definition bind_codex_app_server_endpoint (endpoint : string) (self : LaunchPayload)
  : result InvocationError LaunchPayload :=
  let? port :=
    ok_or (option_filter (fun port => negb (port =? 0)%N)
             (strip_prefix "ws://127.0.0.1:" endpoint ≫= parse_u16)) IE_InvalidRuntimeBinding in
  let canonical := "ws://127.0.0.1:" +:+ pretty port in
  let? index := sole_position ("--remote", codex_app_server_runtime_placeholder) (lp_args self) in
  Ok (self <| lp_args := <[S index := canonical]> (lp_args self) |>).

(** [ConversationHandle::from_native] *)
Definition conversation_handle `{UuidParser} (provider identity : string)
  : result InvocationError ResumeRef :=
  let? provider :=
    if provider == "claude" then Ok RP_Claude
    else if provider == "codex" then Ok RP_Codex
    else if provider == "gemini" then Ok RP_Gemini
    else if provider == "opencode" then Ok RP_Opencode
    else Err (IE_UnsupportedAgent provider) in
  ok_or (resume_ref_for_provider provider identity) IE_InvalidResumeReference.

(** ** The Codex App Server ([provider.rs]) *)

Record CodexAppServerLaunch : Type := MkCodexAppServerLaunch {
  cas_program : string;
  cas_args : list string;
  cas_environment : LaunchEnvironment
}.

Section app_server.
Context `{Host} `{JsonText}.

Definition is_absolute (path : string) : bool :=
  if host_is_windows then
    match bytes path with
    | letter :: 58%N :: separator :: _ =>
        (is_ascii_lowercase letter || is_ascii_uppercase letter) && is_separator separator
    | 92%N :: 92%N :: _ => true
    | _ => false
    end
  else starts_with "/" path.

(** [codex_app_server_with_project_trust] *)
Definition codex_app_server (listen_endpoint cwd session_id : string) (mcp : option McpConnection)
    (developer_instructions : option string) (account : option AgentAccountContext)
    (codex_project_trust : CodexProjectTrust) (executable_directory : option string)
    (policy : CodexRuntimePolicy) : result InvocationError CodexAppServerLaunch :=
  let args :=
    ["app-server"; "--listen"; listen_endpoint] ++
    match project_trust_override cwd codex_project_trust with
    | Some trust => ["-c"; trust]
    | None => []
    end in
  let environment := agent_launch_environment cwd (Some session_id) in
  let? environment :=
    match executable_directory with
    | Some directory =>
        if negb (is_absolute directory) then Err IE_InvalidPromptBinding
        else Ok (with_explicit "PATH" directory environment)
    | None => Ok environment
    end in
  let? (environment, credentials) :=
    match account with
    | Some account =>
        if aac_agent_id account != "codex" then Err IE_InvalidResumeReference
        else Ok (apply_environment account environment, credential_args account)
    | None => Ok (environment, [])
    end in
  let? (environment, tools) :=
    match mcp with
    | Some mcp =>
        let? connection := mcp_args "codex" mcp (is_none developer_instructions) in
        let? tools :=
          apply_tool_approvals "codex" (mcp_server_name mcp) (crp_approved_tools policy)
            (crp_approved_external_tools policy) [] in
        Ok (with_explicit "TERMLOOP_MCP_TOKEN" (mcp_token mcp) environment,
            connection ++ (ra_value <$> tools))
    | None => Ok (environment, [])
    end in
  let network :=
    match crp_workspace_network policy with
    | Some enabled => ["-c"; "sandbox_workspace_write.network_access=" +:+ bool_text enabled]
    | None => []
    end in
  let? instructions :=
    match developer_instructions with
    | Some instructions => codex_developer_instructions_args instructions
    | None => Ok []
    end in
  let args :=
    args ++ credentials ++ tools ++ network ++ instructions
    ++ ["-c"; codex_disable_startup_update_check] in
  let? target := agent_cli "codex" environment in
  let? _ := launch_target_utf8 "codex" target in
  let '(program, args) := command_line target args in
  Ok (MkCodexAppServerLaunch program args environment).
End app_server.

(** ** Prompts ([prompt.rs], [submission.rs]) *)

(** [GeneratedTerminalSubmission::from_sequence]; its two parts are the paste
    and the submit key. *)
Definition from_sequence (provenance : Provenance) (sequence : list (list N))
  : result InvocationError GeneratedTerminalSubmission :=
  match sequence with
  | [paste_input; submit_input] => Ok (MkGeneratedTerminalSubmission provenance paste_input submit_input)
  | _ => Err (IE_Panicked "invocation terminal submissions always have paste and submit parts")
  end.

(** [str::trim_end] *)
Definition trim_end (s : string) : string :=
  string_of_bytes (concat (trim_end_chunks (utf8_chunks (bytes s)))).

Section prompts.
Context `{Host}.

Definition template_is_unprovenanced (template : PromptTemplate) : bool :=
  trim_is_empty (pt_id template) || (pt_version template =? 0)%N.
Definition template_provenance (template : PromptTemplate) : Provenance :=
  MkProvenance (pt_id template) (pt_version template).

Definition paste_sequence (content : string) : result InvocationError (list (list N)) :=
  match generated_terminal_paste_submission_sequence content with
  | Ok sequence => Ok sequence
  | Err _ => Err IE_InvalidPromptBinding
  end.

Definition terminal_prompt (template : PromptTemplate) (bindings : list (string * string))
    (delivered_prompt : string) : result InvocationError TerminalPrompt :=
  if template_is_unprovenanced template then Err IE_UnprovenancedPrompt
  else
    let delivered_prompt := trim_end delivered_prompt in
    let? sequence := paste_sequence delivered_prompt in
    Ok (MkTerminalPrompt (template_provenance template) bindings delivered_prompt sequence).

(** [TerminalPrompt::terminal_submission] *)
Definition terminal_submission (self : TerminalPrompt)
  : result InvocationError GeneratedTerminalSubmission :=
  from_sequence (tpr_provenance self) (tpr_terminal_input_sequence self).

Definition generated_submission (template : PromptTemplate) (content : string)
  : result InvocationError GeneratedTerminalSubmission :=
  if template_is_unprovenanced template then Err IE_UnprovenancedPrompt
  else
    let? sequence := paste_sequence content in
    from_sequence (template_provenance template) sequence.
End prompts.

(** [str::split_once] at a text, on the bytes: the first occurrence *)
Fixpoint split_at (marker : list N) (bs : list N) : option (list N * list N) :=
  if bool_decide (marker `prefix_of` bs) then Some ([], drop (length marker) bs)
  else match bs with
       | [] => None
       | b :: rest => (fun '(before, after) => (b :: before, after)) <$> split_at marker rest
       end.

Definition open_braces : list N := [123; 123]%N.
Definition close_braces : list N := [125; 125]%N.
Definition has_braces (bs : list N) : bool := has_window open_braces bs || has_window close_braces bs.
Definition marker_of (name : string) : list N := open_braces ++ bytes name ++ close_braces.

(** [bind_ordered], with the loop over the bindings as a recursion *)
Fixpoint bind_from (remaining : list N) (bindings : list (string * string))
  : result InvocationError (list N) :=
  match bindings with
  | [] => if has_braces remaining then Err IE_InvalidPromptBinding else Ok remaining
  | (name, value) :: rest =>
      let? (before, after) := ok_or (split_at (marker_of name) remaining) IE_InvalidPromptBinding in
      if has_braces before || has_window (marker_of name) after then Err IE_InvalidPromptBinding
      else
        let? delivered := bind_from after rest in
        Ok (before ++ bytes value ++ delivered)
  end.
Definition bind_ordered (authored : string) (bindings : list (string * string))
  : result InvocationError string :=
  let? delivered := bind_from (bytes authored) bindings in
  Ok (string_of_bytes delivered).

(** ** Image attachments ([invocation/engine/selection.rs]) *)

(** [Path::file_name], for a path without a Windows prefix: the last component,
    unless it is a root, [.] or [..]. *)
Definition path_file_name `{Host} (path : string) : option string :=
  let component := rev (take_while (fun b => negb (is_separator b)) (drop_trailing (rev (bytes path)))) in
  if bool_decide (component ∈ [[]; [46]; [46; 46]]%N) then None
  else Some (string_of_bytes component).

Definition lower_hex (byte : N) : bool := is_ascii_digit byte || in_range 97 102 byte.

Definition attachment_id_is_valid (attachment_id : string) : bool :=
  let id := bytes attachment_id in
  let at_ index p := is_some_and (id !! index) p in
  (length id =? 36)%nat
  && all (fun index => at_ index (N.eqb 45)) [8; 13; 18; 23]
  && at_ 14 (N.eqb 52) && at_ 19 (fun byte => any (N.eqb byte) [56; 57; 97; 98]%N)
  && all (fun '(index, byte) => bool_decide (index ∈ [8; 13; 18; 23]) || lower_hex byte)
       (imap (fun index byte => (index, byte)) id).

Definition attachment_digest_is_valid (sha256 : string) : bool :=
  (len sha256 =? 71)%N
  && match strip_prefix "sha256:" sha256 with
     | Some digits => all lower_hex (bytes digits)
     | None => false
     end.

Section attachments.
Context `{Host}.

Definition image_attachment_is_refused (attachment : ImageAttachment) : bool :=
  let path := ia_file_path attachment in
  let named path name := (path ≫= path_file_name) == Some name in
  negb (attachment_id_is_valid (ia_attachment_id attachment))
  || (ia_media_type attachment != "image/png")
  || (ia_byte_length attachment =? 0)%N || (10 * 1024 * 1024 <? ia_byte_length attachment)%N
  || (ia_width attachment =? 0)%N || (16384 <? ia_width attachment)%N
  || (ia_height attachment =? 0)%N || (16384 <? ia_height attachment)%N
  || negb (attachment_digest_is_valid (ia_sha256 attachment))
  || negb (is_absolute path)
  || negb (named (Some path) "image.png")
  || negb (named (path_parent path) (ia_attachment_id attachment))
  || negb (named (path_parent path ≫= path_parent) "termloop-quick-action-images").

(** [validate_image_attachments], [validate_quick_action_with_attachments] *)
Definition validate_image_attachments (attachments : list ImageAttachment)
  : result InvocationError unit :=
  if (8 <? length attachments)%nat
     || negb (all_with_before (fun before attachment =>
          negb (any (fun prior => ia_attachment_id prior == ia_attachment_id attachment) before)
          && negb (image_attachment_is_refused attachment)) [] attachments)
  then Err IE_InvalidImageAttachment
  else Ok tt.

Definition validate_quick_action_with_attachments
    (agent_id model permission reasoning prompt : string) (attachments : list ImageAttachment)
  : result InvocationError unit :=
  let? _ := validate_quick_action agent_id model permission reasoning prompt in
  validate_image_attachments attachments.

Definition image_attachment_terminal_paste `{JsonText} (attachment : ImageAttachment)
  : result InvocationError (list N) :=
  let? _ := validate_image_attachments [attachment] in
  Ok (terminal_reference_paste attachment).
End attachments.
