(* ===== verification/LaunchFacts.v ===== *)
(** * Facts about launches

    What the tables of a launch accept, what a resolved launch is made of, and
    which purposes its arguments have. *)

From stdpp Require Import pretty.
From Stdlib Require Import Ascii.
From S2P Require Import Prelude Keyed Text Domain DomainRules DomainConfig DeliveryRuntime Agents.
From S2P Require Import Subagents RunRecords LaunchTypes Launch.

Local Open Scope string_scope.
Local Open Scope list_scope.

(** [unwrap] reads [let? x := r in k = Ok y] as [r = Ok x] and [k = Ok y]. *)
Ltac unwrap :=
  repeat match goal with
  | H : match ?r with Ok _ => _ | Err _ => Err _ end = Ok _ |- _ =>
      let E := fresh "E" in destruct r eqn:E; [|discriminate H]
  | H : (let (_, _) := ?p in _) = Ok _ |- _ => destruct p
  | H : (if ?b then Err _ else _) = Ok _ |- _ =>
      let E := fresh "E" in destruct b eqn:E; [discriminate H|]
  | H : Ok _ = Ok _ |- _ => injection H as H; try subst
  end.

Lemma one_of_elem texts s : one_of texts s = bool_decide (s ∈ texts).
Proof.
  apply eq_bool_prop_intro. rewrite bool_decide_spec. unfold one_of.
  split.
  - intros H. apply Is_true_true in H. apply any_true in H as (x & Hx & He).
    apply bool_decide_eq_true in He. congruence.
  - intros H. apply Is_true_true, any_true. exists s. split; [done|]. by apply bool_decide_eq_true.
Qed.

(** ** The tables *)

(** The four Agents, and any other text. *)
Ltac by_agent a :=
  destruct (decide (a = "claude")) as [->|?];
  [|destruct (decide (a = "codex")) as [->|?];
    [|destruct (decide (a = "gemini")) as [->|?];
      [|destruct (decide (a = "opencode")) as [->|?]]]].

Lemma descriptor_none a :
  a <> "claude" -> a <> "codex" -> a <> "gemini" -> a <> "opencode" -> agent_descriptor a = None.
Proof. intros. unfold agent_descriptor; simpl. by rewrite !bool_decide_eq_false_2 by congruence. Qed.

Lemma not_an_agent a :
  a <> "claude" -> a <> "codex" -> a <> "gemini" -> a <> "opencode" -> one_of launch_agents a = false.
Proof.
  intros. rewrite one_of_elem. apply bool_decide_eq_false_2. unfold launch_agents.
  rewrite !elem_of_cons, elem_of_nil. tauto.
Qed.

(** Comparisons of the literals of the tables compute. *)
Ltac compute_literals :=
  repeat match goal with
  | |- context [bool_decide (String ?a ?s = String ?b ?t)] =>
      let v := eval vm_compute in (bool_decide (String a s = String b t)) in
      lazymatch v with
      | true => change (bool_decide (String a s = String b t)) with true
      | false => change (bool_decide (String a s = String b t)) with false
      end
  end; simpl.

Definition supports (agent_id : string) (column : AgentDescriptor -> list string) (selection : string)
  : Prop := exists descriptor, agent_descriptor agent_id = Some descriptor /\ selection ∈ column descriptor.

Lemma supports_none a column x :
  a <> "claude" -> a <> "codex" -> a <> "gemini" -> a <> "opencode" -> ~ supports a column x.
Proof. intros ???? (d & Hd & _). rewrite descriptor_none in Hd by done. done. Qed.

Lemma supports_row a d column x :
  agent_descriptor a = Some d -> supports a column x <-> x ∈ column d.
Proof.
  intros Hd. split; [|intros; by exists d]. intros (d' & Hd' & Hx). congruence.
Qed.

(** One comparison of a selection with a literal after the other *)
Ltac by_selection x :=
  repeat match goal with
  | |- context [bool_decide (x = ?y)] =>
      destruct (decide (x = y)) as [->|?];
      [rewrite ?(bool_decide_eq_true_2 _ eq_refl); compute_literals
      |rewrite (bool_decide_eq_false_2 (x = y)) by done; simpl]
  end.

Lemma model_args_ok a m : is_ok (model_args a m) = true <-> supports a ad_models m.
Proof.
  by_agent a; [..|].
  1-4: rewrite supports_row by reflexivity; unfold model_args; compute_literals;
    unfold one_of; simpl; rewrite ?andb_true_r, ?orb_false_r;
    set_unfold; by_selection m; naive_solver.
  unfold model_args. rewrite not_an_agent by done.
  rewrite !(bool_decide_eq_false_2 (a = _)) by done. simpl.
  split; [done|]. intros H. by apply supports_none in H.
Qed.

Lemma permission_args_ok a p : is_ok (permission_args a p) = true <-> supports a ad_permissions p.
Proof.
  by_agent a; [..|].
  1-4: rewrite supports_row by reflexivity; unfold permission_args; compute_literals;
    set_unfold; by_selection p; naive_solver.
  unfold permission_args. rewrite not_an_agent by done.
  rewrite !(bool_decide_eq_false_2 (a = _)) by done. simpl.
  split; [done|]. intros H. by apply supports_none in H.
Qed.

Lemma reasoning_args_ok a x : is_ok (reasoning_args a x) = true <-> supports a ad_reasoning x.
Proof.
  by_agent a; [..|].
  1-4: rewrite supports_row by reflexivity; unfold reasoning_args; compute_literals;
    unfold one_of; simpl; rewrite ?andb_true_r, ?orb_false_r;
    set_unfold; by_selection x; naive_solver.
  unfold reasoning_args. rewrite not_an_agent by done.
  rewrite !(bool_decide_eq_false_2 (a = _)) by done. simpl.
  split; [done|]. intros H. by apply supports_none in H.
Qed.

(** A model offers no reasoning that its Agent does not list. *)
Lemma reasoning_for_model_supported a m d x :
  agent_descriptor a = Some d -> x ∈ reasoning_for_model a m -> supports a ad_reasoning x.
Proof.
  intros Hd. by_agent a; [..|by rewrite descriptor_none in Hd by done];
    rewrite supports_row by reflexivity; unfold reasoning_for_model; compute_literals; [done..|].
  by_selection m; set_unfold; naive_solver.
Qed.

Lemma is_ok_true {E A} (r : result E A) : is_ok r = true <-> exists a, r = Ok a.
Proof. destruct r; simpl; naive_solver. Qed.

Lemma configuration_ok a m p x :
  validate_agent_configuration a m p x = Ok tt <->
  supports a ad_models m /\ supports a ad_permissions p /\ x ∈ reasoning_for_model a m.
Proof.
  unfold validate_agent_configuration.
  rewrite <- model_args_ok, <- permission_args_ok.
  case_bool_decide as Hx; simpl; [|naive_solver].
  destruct (model_args a m) eqn:Em; simpl; [|naive_solver].
  destruct (permission_args a p); simpl; [|naive_solver].
  assert (is_ok (reasoning_args a x) = true) as Hr.
  { apply reasoning_args_ok. assert (is_ok (model_args a m) = true) as Hm by by rewrite Em.
    apply model_args_ok in Hm as (d & Hd & _). by eapply reasoning_for_model_supported. }
  destruct (reasoning_args a x); naive_solver.
Qed.

(** An OpenCode model that offers a reasoning names its provider. *)
Lemma opencode_reasoning_splits m x :
  x ∈ reasoning_for_model "opencode" m -> x <> "default" -> exists parts, split_once 47 m = Some parts.
Proof.
  unfold reasoning_for_model. compute_literals.
  by_selection m; set_unfold; [intros _ _; eexists; vm_compute; reflexivity ..|].
  intros [->|[]]; done.
Qed.

(** ** Panics *)

Definition calm {A} (r : result InvocationError A) : Prop :=
  forall message, r <> Err (IE_Panicked message).

Lemma calm_bind {A B} (r : result InvocationError A) (k : A -> result InvocationError B) :
  calm r -> (forall a, r = Ok a -> calm (k a)) ->
  calm (match r with Ok a => k a | Err e => Err e end).
Proof. intros Hr Hk. destruct r as [a|e]; [by apply Hk|]. intros message [= ->]. by eapply Hr. Qed.

Lemma calm_ok {A} (a : A) : calm (Ok a).
Proof. by intros message. Qed.

Lemma ok_or_calm {A} (o : option A) e :
  (forall message, e <> IE_Panicked message) -> calm (ok_or o e).
Proof. intros He. destruct o; simpl; [apply calm_ok|]. intros message [= ->]. by eapply He. Qed.

(** Branches that answer a value or an error of the caller's making *)
Ltac calm :=
  repeat match goal with
  | |- forall _, _ => intro
  | |- calm (Ok _) => apply calm_ok
  | |- calm (Err _) => intros ?; discriminate
  | |- calm (match ?r with Ok _ => _ | Err _ => Err _ end) => apply calm_bind
  | |- calm (match ?x with _ => _ end) => destruct x eqn:?
  | |- calm (ok_or _ _) => apply ok_or_calm; intros; discriminate
  end.

(** ** What a resolved launch is made of *)

(** No argument has a purpose. *)
Definition without_purpose (purpose : string) (arguments : list ResolvedArgument) : Prop :=
  Forall (fun argument => ra_purpose argument <> purpose) arguments.

(** The values of the arguments with a purpose *)
Definition values_for (purpose : string) (arguments : list ResolvedArgument) : list string :=
  ra_value <$> retain (fun argument => ra_purpose argument == purpose) arguments.

Lemma values_for_app purpose l k :
  values_for purpose (l ++ k) = values_for purpose l ++ values_for purpose k.
Proof. unfold values_for. by rewrite retain_app, fmap_app. Qed.

Lemma values_for_without purpose l : without_purpose purpose l -> values_for purpose l = [].
Proof.
  unfold values_for. induction 1 as [|x l Hx _ IH]; [done|]. simpl.
  by rewrite (bool_decide_eq_false_2 _ Hx).
Qed.

Lemma values_for_exact purpose values : values_for purpose (exact_arg purpose <$> values) = values.
Proof.
  unfold values_for. induction values as [|v l IH]; [done|]. simpl.
  rewrite (bool_decide_eq_true_2 _ eq_refl). simpl. f_equal. exact IH.
Qed.

Lemma without_purpose_fmap {A} purpose (f : A -> ResolvedArgument) l :
  (forall x, ra_purpose (f x) <> purpose) -> without_purpose purpose (f <$> l).
Proof. intros H. apply Forall_fmap, Forall_true. done. Qed.

Lemma without_purpose_imap {A} purpose (f : nat -> A -> ResolvedArgument) l :
  (forall i x, ra_purpose (f i x) <> purpose) -> without_purpose purpose (imap f l).
Proof.
  intros H. revert f H. induction l as [|x l IH]; intros f H; [constructor|].
  rewrite imap_cons. constructor; [apply H|]. apply IH. intros. apply H.
Qed.

Lemma without_purpose_concat {A} purpose (f : A -> list ResolvedArgument) l :
  (forall x, without_purpose purpose (f x)) -> without_purpose purpose (concat (f <$> l)).
Proof. intros H. induction l as [|x l IH]; simpl; [constructor|]. apply Forall_app_2; [apply H|apply IH]. Qed.


(** Lists whose purposes are literals *)
Ltac purposes :=
  unfold without_purpose;
  repeat first
    [ apply Forall_app_2 | apply Forall_nil_2 | apply Forall_cons_2
    | apply without_purpose_fmap; intros | apply without_purpose_imap; intros
    | apply without_purpose_concat; intros; unfold without_purpose
    | progress (repeat case_match); simpl
    | discriminate ].

Section blocks.
Context {HO : Host} {UU : UuidParser} {JT : JsonText} {SH : Sha256} {MT : ManifestText}.

Definition selects : string := "permission selection".

Lemma conversation_purposes agent launch l :
  conversation_manifest_args agent launch = Ok l -> without_purpose selects l.
Proof. unfold conversation_manifest_args. intros ?. unwrap. purposes. Qed.

Lemma credential_purposes account :
  without_purpose selects
    match account with
    | Some account => exact_arg "isolated account credentials" <$> credential_args account
    | None => []
    end.
Proof. destruct account; purposes. Qed.

Lemma directory_purposes r : without_purpose selects (directory_arguments r).
Proof. unfold directory_arguments. case_match; purposes. Qed.

Lemma observation_purposes agent observation :
  without_purpose selects
    match observation with
    | Some observation => observation_manifest_args agent observation
    | None => []
    end.
Proof. destruct observation; [|purposes]. unfold observation_manifest_args. purposes. Qed.

Lemma mcp_purposes agent mcp own l :
  match mcp with Some mcp => mcp_manifest_args agent mcp own | None => Ok [] end = Ok l ->
  without_purpose selects l.
Proof. destruct mcp; unfold mcp_manifest_args; intros; unwrap; purposes. Qed.

Lemma instruction_purposes r context l :
  instruction_arguments r context = Ok l -> without_purpose selects l.
Proof. unfold instruction_arguments. intros. repeat case_match; simplify_eq; purposes. Qed.

Lemma parent_purposes attachments l :
  parent_arguments attachments = Ok l -> without_purpose selects l.
Proof.
  revert l. induction attachments as [|x rest IH]; simpl; intros l H; unwrap; [purposes|].
  specialize (IH _ eq_refl). purposes. done.
Qed.

Lemma attachment_purposes r l : attachment_arguments r = Ok l -> without_purpose selects l.
Proof.
  unfold attachment_arguments. intros.
  repeat case_match; simplify_eq; [purposes| |purposes]. by eapply parent_purposes.
Qed.

Lemma update_check_purposes r : without_purpose selects (update_check_arguments r).
Proof. unfold update_check_arguments. case_match; purposes. Qed.

Lemma network_purposes r inherits l :
  network_arguments r inherits = Ok l -> without_purpose selects l.
Proof. unfold network_arguments. intros. repeat case_match; simplify_eq; purposes. Qed.

Lemma prompt_purposes r : without_purpose selects (prompt_arguments r).
Proof. unfold prompt_arguments. repeat case_match; purposes. Qed.

(** Tool approvals only append. *)
Lemma approvals_appended agent server tools external l l' :
  apply_tool_approvals agent server tools external l = Ok l' ->
  exists more, l' = l ++ more /\ without_purpose selects more.
Proof.
  unfold apply_tool_approvals. intros. unwrap.
  repeat case_match; simplify_eq; [exists []; rewrite app_nil_r|eexists..]; (split; [done|]); purposes.
Qed.

Lemma read_only_purposes (b : bool) :
  without_purpose selects
    (if b then exact_arg "read-only workspace" <$> read_only_disallowed_claude_tools else []).
Proof. destruct b; purposes. Qed.

(** The permissions of the arguments are those of the selection. *)
Lemma launch_arguments_selection r account conversation l :
  launch_arguments r account conversation = Ok l -> lr_execution r = None ->
  exists selection before after,
    selection_arguments r (inherits_permissions r conversation) = Ok selection
    /\ values_for selects l = values_for selects selection
    /\ l = before
        ++ (if lr_read_only_workspace r && (lr_agent_id r == "claude")
            then exact_arg "read-only workspace" <$> read_only_disallowed_claude_tools else [])
        ++ after.
Proof.
  unfold launch_arguments. intros Hl Hx. rewrite Hx in Hl. unwrap.
  match goal with H : selection_arguments _ _ = Ok ?s |- _ => exists s; rename H into Hs end.
  match type of Hl with
  | match _ with Some _ => apply_tool_approvals _ _ _ _ (if ?b then ?pre ++ _ else _)
            | None => _ end = _ => set (before := pre) in *
  end.
  assert (exists after, l = before
            ++ (if lr_read_only_workspace r && (lr_agent_id r == "claude")
                then exact_arg "read-only workspace" <$> read_only_disallowed_claude_tools else [])
            ++ after /\ without_purpose selects after) as (after & -> & Hafter).
  { destruct (lr_mcp r) as [mcp|].
    - apply approvals_appended in Hl as (more & -> & ?). exists more.
      rewrite app_assoc. split; [|done]. f_equal. by case_match; rewrite ?app_nil_r.
    - case_match; simplify_eq. exists []. rewrite app_nil_r. split; [|constructor].
      by case_match; rewrite ?app_nil_r. }
  exists before, after. split; [done|]. split; [|done].
  rewrite !values_for_app. rewrite (values_for_without _ after) by done.
  rewrite (values_for_without _ _ (read_only_purposes _)).
  rewrite !app_nil_r. unfold before. rewrite !values_for_app.
  rewrite (values_for_without _ _ (conversation_purposes _ _ _ ltac:(eassumption))).
  rewrite (values_for_without _ _ (credential_purposes _)).
  rewrite (values_for_without _ _ (directory_purposes _)).
  rewrite (values_for_without _ _ (observation_purposes _ _)).
  rewrite (values_for_without _ _ (mcp_purposes _ _ _ _ ltac:(eassumption))).
  rewrite (values_for_without _ _ (instruction_purposes _ _ _ ltac:(eassumption))).
  rewrite (values_for_without _ _ (attachment_purposes _ _ ltac:(eassumption))).
  rewrite (values_for_without _ _ (update_check_purposes _)).
  rewrite (values_for_without _ _ (network_purposes _ _ _ ltac:(eassumption))).
  by rewrite !app_nil_r.
Qed.

(** What a read-only Codex launch selects *)
Lemma read_only_codex_selection r inherits selection :
  lr_read_only_workspace r = true -> lr_agent_id r = "codex" ->
  selection_arguments r inherits = Ok selection ->
  values_for selects selection =
  if inherits then []
  else ["--sandbox"; "read-only"; "--ask-for-approval";
        if one_of ["acceptEdits"; "bypassPermissions"] (lr_permission r) then "never" else "on-request"].
Proof.
  unfold selection_arguments, workspace_permission_args. intros -> -> Hs.
  rewrite !orb_true_r in Hs. simpl negb in Hs. cbv iota in Hs. unwrap.
  rewrite !values_for_app.
  rewrite (values_for_without _ (exact_arg "model selection" <$> _)) by purposes.
  rewrite (values_for_without _ (exact_arg "reasoning selection" <$> _)) by purposes.
  destruct inherits; [done|]. rewrite values_for_exact. simpl.
  repeat case_match; simplify_eq; try congruence.
  revert select (permission_args "codex" "plan" = Ok _). unfold permission_args. compute_literals. congruence.
Qed.

(** A read-only workspace is only for Agents that can be held to it. *)
Lemma read_only_agents r inherits selection :
  lr_read_only_workspace r = true -> selection_arguments r inherits = Ok selection ->
  lr_agent_id r = "claude" \/ lr_agent_id r = "codex".
Proof.
  unfold selection_arguments, workspace_permission_args. intros -> Hs.
  rewrite !orb_true_r in Hs. simpl negb in Hs. cbv iota in Hs. unwrap.
  repeat case_match; simplify_eq;
    repeat match goal with H : (_ && _)%bool = true |- _ => apply andb_true_iff in H as [? ?] end;
    repeat match goal with H : (_ == _) = true |- _ => apply bool_decide_eq_true in H end; auto.
Qed.

(** The parts of a resolved launch *)
Lemma resolve_parts r m :
  resolve r = Ok m ->
  exists account conversation arguments environment executable instructions final_arguments,
    split_account (lr_agent_id r) (lr_conversation r) = Ok (account, conversation)
    /\ launch_arguments r account conversation = Ok arguments
    /\ launch_environment r account (session_start_context r conversation) = Ok environment
    /\ launch_target_utf8 (lr_agent_id r) (rlm_target m) = Ok executable
    /\ (if lr_agent_id r == "opencode"
        then configure_opencode_launch (rlm_target m) (lr_model r) (lr_permission r)
               (lr_reasoning r) arguments environment
        else Ok (arguments, environment)) = Ok (final_arguments, rlm_environment m)
    /\ rlm_arguments m = final_arguments ++ prompt_arguments r
    /\ instruction_parts r = Ok instructions
    /\ resume_permissions r conversation = Ok (rlm_codex_resume_permissions m)
    /\ initial_input r = Ok (rlm_initial_input m)
    /\ exists kind, conversation_kind conversation = Ok kind
        /\ rlm_inspectable m =
           launch_manifest r account kind executable (inherits_permissions r conversation)
             instructions (rlm_arguments m) (rlm_environment m).
Proof.
  unfold resolve. intros Hm. unwrap. simpl.
  repeat eexists; eauto.
Qed.

(** ** What never panics *)

Lemma config_name_calm name : calm (validate_config_name name).
Proof. unfold validate_config_name. calm. Qed.
Lemma config_names_calm names : calm (validate_config_names names).
Proof. induction names; simpl; calm; [apply config_name_calm|done]. Qed.
Lemma external_tool_calm name server : calm (external_tool name server).
Proof.
  unfold external_tool. apply calm_bind; [by apply ok_or_calm|]. intros.
  calm; apply config_name_calm.
Qed.
Lemma external_tools_calm server names : calm (external_tools server names).
Proof. induction names; simpl; calm; [apply external_tool_calm|done]. Qed.
Lemma model_args_calm a m : calm (model_args a m).
Proof. unfold model_args. calm. Qed.
Lemma reasoning_args_calm a x : calm (reasoning_args a x).
Proof. unfold reasoning_args. calm. Qed.
Lemma permission_args_calm a p : calm (permission_args a p).
Proof. unfold permission_args. calm. Qed.
Lemma workspace_permission_calm a p b : calm (workspace_permission_args a p b).
Proof. unfold workspace_permission_args. calm; apply permission_args_calm. Qed.

Create HintDb calm.
#[local] Hint Resolve config_name_calm config_names_calm external_tool_calm external_tools_calm
  model_args_calm reasoning_args_calm permission_args_calm workspace_permission_calm : calm.

Lemma configuration_calm a m p x : calm (validate_agent_configuration a m p x).
Proof. unfold validate_agent_configuration. calm; auto with calm. Qed.
Lemma conversation_calm a c : calm (conversation_manifest_args a c).
Proof. unfold conversation_manifest_args, conversation_args. calm. Qed.
Lemma selection_calm r b : calm (selection_arguments r b).
Proof. unfold selection_arguments. calm; auto with calm. Qed.
Lemma mcp_calm a mcp own : calm (mcp_manifest_args a mcp own).
Proof.
  unfold mcp_manifest_args, mcp_args, codex_developer_instructions_args. calm; auto with calm.
Qed.
Lemma instruction_calm r context : calm (instruction_arguments r context).
Proof. unfold instruction_arguments. calm. Qed.
Lemma network_calm r b : calm (network_arguments r b).
Proof. unfold network_arguments. calm. Qed.
Lemma execution_calm a policy l : calm (apply_execution_policy a policy l).
Proof. unfold apply_execution_policy. calm. Qed.
Lemma approvals_calm a server tools external l : calm (apply_tool_approvals a server tools external l).
Proof. unfold apply_tool_approvals. calm; auto with calm. Qed.

(** Every attached image lies in a directory. *)
Definition attachments_have_parents (attachments : list ImageAttachment) : Prop :=
  Forall (fun attachment => is_some (path_parent (ia_file_path attachment)) = true) attachments.

Lemma parents_calm attachments :
  attachments_have_parents attachments -> calm (parent_arguments attachments).
Proof.
  induction 1 as [|a rest Ha _ IH]; simpl; [calm|].
  destruct (path_parent (ia_file_path a)); [|done]. simpl. calm. done.
Qed.
Lemma attachment_calm r :
  attachments_have_parents (lr_attachments r) -> calm (attachment_arguments r).
Proof. intros. unfold attachment_arguments. calm. by apply parents_calm. Qed.

Lemma launch_arguments_calm r account c :
  attachments_have_parents (lr_attachments r) -> calm (launch_arguments r account c).
Proof.
  intros. unfold launch_arguments.
  apply calm_bind; [apply conversation_calm|intros]. apply calm_bind; [apply selection_calm|intros].
  apply calm_bind; [destruct (lr_mcp r); [apply mcp_calm|calm]|intros].
  apply calm_bind; [apply instruction_calm|intros].
  apply calm_bind; [by apply attachment_calm|intros].
  apply calm_bind; [apply network_calm|intros].
  apply calm_bind; [destruct (lr_execution r); [apply execution_calm|calm]|intros].
  destruct (lr_mcp r); [apply approvals_calm|calm].
Qed.

(** An accepted launch that delivers instructions is one of Codex or Claude. *)
Lemma instructed_agents r account c l instructions :
  launch_arguments r account c = Ok l -> delivered_instructions r = Some instructions ->
  lr_agent_id r = "codex" \/ lr_agent_id r = "claude".
Proof.
  unfold launch_arguments, delivered_instructions. intros Hl Hd. unwrap.
  revert select (instruction_arguments r _ = Ok _).
  revert select (match lr_mcp r with Some m => mcp_manifest_args _ m _ | None => _ end = Ok _). clear - Hd.
  unfold instruction_arguments, session_start_context, mcp_manifest_args, mcp_args.
  destruct (decide (lr_agent_id r = "codex")) as [|Hc]; [by left|].
  destruct (decide (lr_agent_id r = "claude")) as [|Hl]; [by right|].
  rewrite !(bool_decide_eq_false_2 _ Hc), !(bool_decide_eq_false_2 _ Hl).
  destruct (lr_provider_instructions r); simpl; [done|].
  destruct (lr_mcp r) as [m|]; [|done]. destruct (validate_config_name (mcp_server_name m)); done.
Qed.

Lemma instruction_parts_calm r account c l :
  launch_arguments r account c = Ok l -> calm (instruction_parts r).
Proof.
  intros Hl. unfold instruction_parts. destruct (delivered_instructions r) as [i|] eqn:Hd; [|calm].
  apply calm_bind; [by apply ok_or_calm|]. intros. apply calm_bind; [|calm].
  unfold instruction_delivery. destruct (instructed_agents _ _ _ _ _ Hl Hd) as [-> | ->]; calm.
Qed.

Lemma configure_calm target m p x l e :
  x ∈ reasoning_for_model "opencode" m -> calm (configure_opencode_launch target m p x l e).
Proof.
  intros Hx. unfold configure_opencode_launch, opencode_configuration.
  apply calm_bind; [|calm]. case_bool_decide as Hd; [calm|].
  destruct (opencode_reasoning_splits _ _ Hx Hd) as [parts ->]. simpl. destruct parts. calm.
Qed.

Lemma resume_permissions_calm r c : calm (resume_permissions r c).
Proof.
  unfold resume_permissions, inherits_permissions. destruct c; simpl;
    rewrite ?andb_false_r; simpl; try calm; unfold resume_mode; calm; by apply ok_or_calm.
Qed.

Lemma initial_input_calm r : calm (initial_input r).
Proof.
  unfold initial_input, submitted_after_image_references, submitted,
    generated_terminal_paste_submission_sequence. calm.
  repeat (case_match; simplify_eq); done.
Qed.
End blocks.

(** * Facts about prompts *)

(** ** Windows *)

(** [needle] stands in [content] at an index. *)
Definition stands_at (needle content : list N) (index : nat) : Prop :=
  needle `prefix_of` drop index content.

Lemma has_window_spec needle content :
  has_window needle content = true <->
  exists index, index <= length content /\ stands_at needle content index.
Proof.
  unfold has_window, stands_at. rewrite any_true. split.
  - intros (index & Hi & Hp%bool_decide_eq_true). exists index. split; [|done].
    apply elem_of_seq in Hi. lia.
  - intros (index & Hi & Hp). exists index. split; [apply elem_of_seq; lia|].
    by apply bool_decide_eq_true.
Qed.

Lemma stands_at_bound needle content index :
  needle <> [] -> stands_at needle content index -> index < length content.
Proof.
  intros Hn [rest Hr]. destruct (decide (index < length content)); [done|].
  rewrite drop_ge in Hr by lia. by destruct needle.
Qed.

Lemma no_window needle content index :
  has_window needle content = false -> needle <> [] -> ~ stands_at needle content index.
Proof.
  intros Hw Hn Hs. apply not_true_iff_false in Hw. apply Hw, has_window_spec.
  exists index. split; [|done]. apply stands_at_bound in Hs; [lia|done].
Qed.

Lemma stands_at_lookup needle content index i x :
  stands_at needle content index -> needle !! i = Some x -> content !! (index + i) = Some x.
Proof.
  intros [rest Hr] Hx. rewrite <- lookup_drop, Hr. by apply lookup_app_l_Some.
Qed.

(** ** Cutting at a marker *)

Lemma prefix_split (marker bs : list N) :
  marker `prefix_of` bs -> bs = marker ++ drop (length marker) bs.
Proof. intros [rest ->]. by rewrite drop_app_length. Qed.

Lemma split_at_sound marker bs before after :
  split_at marker bs = Some (before, after) -> bs = before ++ marker ++ after.
Proof.
  revert before. induction bs as [|b bs IH]; intros before; simpl; case_bool_decide as Hp.
  - intros [= <- <-]. by apply prefix_split.
  - done.
  - intros [= <- <-]. by apply prefix_split.
  - destruct (split_at marker bs) as [[x y]|]; [|done]. intros [= <- <-]. simpl.
    by rewrite (IH x eq_refl) at 1.
Qed.

Lemma split_at_first marker before after :
  (forall index, index < length before -> ~ stands_at marker (before ++ marker ++ after) index) ->
  split_at marker (before ++ marker ++ after) = Some (before, after).
Proof.
  induction before as [|b before IH]; simpl; intros Hno.
  - destruct (marker ++ after) as [|b rest] eqn:E; simpl.
    + destruct marker, after; try done. 
    + rewrite <- E. rewrite bool_decide_eq_true_2 by by eexists.
      by rewrite drop_app_length.
  - rewrite bool_decide_eq_false_2 by (apply (Hno 0); lia).
    rewrite IH; [done|]. intros index Hi. apply (Hno (S index)). lia.
Qed.

(** ** Templates *)

(** Texts with something put between each two *)
Fixpoint interleave (blocks inserts : list (list N)) : list N :=
  match blocks, inserts with
  | block :: blocks, insert :: inserts => block ++ insert ++ interleave blocks inserts
  | block :: _, [] => block
  | [], _ => []
  end.

Definition brace_free (name : string) : Prop := Forall (fun b => b <> 123%N /\ b <> 125%N) (bytes name).

(** The third byte of a marker is no opening brace. *)
Lemma marker_lookup name :
  brace_free name ->
  marker_of name !! 0 = Some 123%N /\ marker_of name !! 1 = Some 123%N
  /\ exists third, marker_of name !! 2 = Some third /\ third <> 123%N.
Proof.
  intros Hn. do 2 (split; [done|]). unfold marker_of. simpl.
  destruct (bytes name) as [|b bs] eqn:E; simpl; [by exists 125%N|].
  exists b. split; [done|]. unfold brace_free in Hn. rewrite E in Hn. by inversion Hn as [|?? []].
Qed.

(** Two opening braces stand at an index. *)
Definition opens (content : list N) (index : nat) : Prop :=
  content !! index = Some 123%N /\ content !! S index = Some 123%N.

Lemma opens_window content index : opens content index -> has_window open_braces content = true.
Proof.
  intros [H0 H1]. apply has_window_spec. exists index.
  split; [by apply Nat.lt_le_incl, lookup_lt_Some in H0 || (apply lookup_lt_Some in H0; lia)|].
  unfold stands_at, open_braces. 
  rewrite (drop_S _ _ _ H0), (drop_S _ _ _ H1). by eexists.
Qed.

(** A marker does not start inside a text without braces, also where another
    marker follows. *)
Lemma no_marker_inside name block rest index :
  brace_free name -> has_braces block = false -> index < length block ->
  rest = [] \/ (exists more, rest = open_braces ++ more) ->
  ~ stands_at (marker_of name) (block ++ rest) index.
Proof.
  intros Hn [Hb _]%orb_false_iff Hi Hr Hs.
  destruct (marker_lookup name Hn) as (L0 & L1 & third & L2 & Ht).
  pose proof (stands_at_lookup _ _ _ _ _ Hs L0) as A0.
  pose proof (stands_at_lookup _ _ _ _ _ Hs L1) as A1.
  pose proof (stands_at_lookup _ _ _ _ _ Hs L2) as A2.
  rewrite Nat.add_0_r in A0. rewrite lookup_app_l in A0 by done.
  destruct (decide (S index < length block)) as [Hlt|Hge].
  - rewrite lookup_app_l in A1 by lia. rewrite Nat.add_1_r in A1.
    assert (has_window open_braces block = true) by by apply (opens_window block index). congruence.
  - destruct Hr as [->|[more ->]].
    + rewrite app_nil_r in A1. apply lookup_lt_Some in A1. lia.
    + rewrite lookup_app_r in A2 by lia.
      replace (index + 2 - length block) with 1 in A2 by lia. simpl in A2. congruence.
Qed.

Lemma brace_free_ends (l k r1 r2 : list N) :
  Forall (fun b => b <> 123%N /\ b <> 125%N) l -> Forall (fun b => b <> 123%N /\ b <> 125%N) k ->
  l ++ 125%N :: r1 = k ++ 125%N :: r2 -> l = k.
Proof.
  intros Hl. revert k. induction Hl as [|x l [_ Hx] _ IH]; intros k Hk H.
  - destruct Hk as [|y k [_ Hy] _]; [done|]. simplify_eq/=.
  - destruct Hk as [|y k [_ Hy] Hk]; simplify_eq/=. f_equal. by eapply IH.
Qed.

Lemma marker_tail name i x :
  brace_free name -> marker_of name !! S (S i) = Some x -> x <> 123%N.
Proof.
  unfold marker_of. simpl. intros Hn [Hx|[_ Hx]]%lookup_app_Some.
  - apply (Forall_lookup_1 _ _ _ _ Hn) in Hx. tauto.
  - apply list_elem_of_lookup_2 in Hx. unfold close_braces in Hx. set_unfold. naive_solver congruence.
Qed.

Lemma bytes_inj (s t : string) : bytes s = bytes t -> s = t.
Proof.
  revert t. induction s as [|a s IH]; intros [|b t] H; try done.
  unfold bytes in H. simpl in H. injection H as Ha Hs. f_equal; [|by apply IH].
  apply (f_equal ascii_of_N) in Ha. by rewrite !ascii_N_embedding in Ha.
Qed.

(** The markers of a template are where its names are. *)
Lemma marker_in_template name names blocks index :
  brace_free name -> Forall brace_free names -> Forall (fun b => has_braces b = false) blocks ->
  length blocks = S (length names) ->
  stands_at (marker_of name) (interleave blocks (marker_of <$> names)) index -> name ∈ names.
Proof.
  intros Hn Hns. revert blocks index.
  induction Hns as [|m names Hm _ IH]; intros [|b blocks] index Hb Hl Hs; try discriminate Hl;
    injection Hl as Hl.
  - destruct blocks; [|done]. inversion_clear Hb as [|?? Hb' _].
    exfalso. apply (no_marker_inside name b [] index); [done..| |by left|by rewrite app_nil_r].
    by apply stands_at_bound in Hs.
  - inversion_clear Hb as [|?? Hb' Hbs].
    change (stands_at (marker_of name) (b ++ marker_of m ++ interleave blocks (marker_of <$> names)) index)
      in Hs.
    destruct (decide (index < length b)) as [Hi|Hi].
    { exfalso. refine (no_marker_inside name b _ index Hn Hb' Hi _ Hs). right.
      by exists ((bytes m ++ close_braces) ++ interleave blocks (marker_of <$> names)). }
    set (rest := interleave blocks (marker_of <$> names)) in *.
    unfold stands_at in Hs. rewrite drop_app_ge in Hs by lia.
    set (j := index - length b) in *.
    destruct (decide (j < length (marker_of m))) as [Hj|Hj].
    2: { rewrite drop_app_ge in Hs by lia. right. by eapply IH. }
    destruct (marker_lookup name Hn) as (L0 & L1 & _). change (stands_at (marker_of name) (marker_of m ++ rest) j) in Hs.
    pose proof (stands_at_lookup _ _ _ _ _ Hs L0) as A0.
    pose proof (stands_at_lookup _ _ _ _ _ Hs L1) as A1. rewrite Nat.add_0_r in A0.
    rewrite lookup_app_l in A0 by done.
    destruct j as [|[|j]].
    + apply elem_of_cons. left. unfold stands_at in Hs. rewrite drop_0 in Hs. destruct Hs as [more Hmore].
      unfold marker_of, open_braces, close_braces in Hmore. simpl in Hmore.
      injection Hmore as Hmore. rewrite <- !app_assoc in Hmore. symmetry in Hmore.
      by apply bytes_inj, (brace_free_ends _ _ _ _ Hn Hm Hmore).
    + destruct (marker_lookup m Hm) as (_ & _ & third & L2 & Ht).
      change (1 + 1) with 2 in A1. rewrite (lookup_app_l_Some _ _ _ _ L2) in A1. congruence.
    + exfalso. by apply (marker_tail m j 123%N Hm).
Qed.

(** ** Binding *)

(** A template's text and what it becomes, block by block *)
Definition template_of (blocks : list (list N)) (bindings : list (string * string)) : list N :=
  interleave blocks (marker_of <$> (fst <$> bindings)).
Definition prompt_of (blocks : list (list N)) (bindings : list (string * string)) : list N :=
  interleave blocks (bytes <$> (snd <$> bindings)).

(** One block before, between and after the markers, none with braces *)
Definition blocks_for (blocks : list (list N)) (bindings : list (string * string)) : Prop :=
  length blocks = S (length bindings) /\ Forall (fun b => has_braces b = false) blocks.

#[local] Arguments has_braces : simpl never.
#[local] Arguments has_window : simpl never.
#[local] Arguments marker_of : simpl never.

Lemma bind_from_sound bindings remaining delivered :
  bind_from remaining bindings = Ok delivered ->
  exists blocks, blocks_for blocks bindings /\ remaining = template_of blocks bindings
    /\ delivered = prompt_of blocks bindings.
Proof.
  revert remaining delivered. induction bindings as [|[name value] rest IH]; simpl; intros rem del H.
  - destruct (has_braces rem) eqn:Hb; [done|]. injection H as <-. exists [rem].
    split; [|done]. split; [done|]. by constructor.
  - destruct (split_at (marker_of name) rem) as [[before after]|] eqn:Hs; simpl in H; [|done].
    destruct (has_braces before) eqn:Hb; simpl in H; [done|].
    destruct (has_window (marker_of name) after); [done|].
    destruct (bind_from after rest) as [d|] eqn:Hd; [|done]. injection H as <-.
    destruct (IH _ _ Hd) as (blocks & [Hl Hf] & -> & ->). exists (before :: blocks).
    split; [|by rewrite (split_at_sound _ _ _ _ Hs)].
    split; [simpl; lia|]. by constructor.
Qed.

Lemma bind_from_cons remaining name value rest :
  bind_from remaining ((name, value) :: rest) =
  match split_at (marker_of name) remaining with
  | Some (before, after) =>
      if has_braces before || has_window (marker_of name) after then Err IE_InvalidPromptBinding
      else let? delivered := bind_from after rest in Ok (before ++ bytes value ++ delivered)
  | None => Err IE_InvalidPromptBinding
  end.
Proof. cbn [bind_from]. by destruct (split_at (marker_of name) remaining) as [[]|]. Qed.

Lemma bind_from_complete bindings blocks :
  Forall brace_free (fst <$> bindings) -> NoDup (fst <$> bindings) -> blocks_for blocks bindings ->
  bind_from (template_of blocks bindings) bindings = Ok (prompt_of blocks bindings).
Proof.
  revert blocks. induction bindings as [|[name value] rest IH]; intros [|before blocks] Hn Hd [Hl Hb];
    try discriminate Hl; injection Hl as Hl; inversion_clear Hb as [|?? Hb' Hbs].
  - destruct blocks; [|discriminate Hl]. unfold template_of, prompt_of. simpl. by rewrite Hb'.
  - rewrite fmap_cons in Hn, Hd. cbn [fst] in Hn, Hd.
    inversion_clear Hn as [|?? Hname Hrest]. apply list.NoDup_cons in Hd as [Hnew Hd].
    change (template_of (before :: blocks) ((name, value) :: rest))
      with (before ++ marker_of name ++ template_of blocks rest).
    rewrite bind_from_cons, split_at_first.
    + rewrite Hb'. cbn [orb].
      destruct (has_window (marker_of name) (template_of blocks rest)) eqn:Hw.
      { exfalso. apply has_window_spec in Hw as (index & _ & Hs). apply Hnew.
        apply (marker_in_template name (fst <$> rest) blocks index); try done.
        by rewrite length_fmap. }
      by rewrite IH.
    + intros index Hi. apply no_marker_inside; [done..|]. right. unfold marker_of.
      eexists. rewrite <- app_assoc. reflexivity.
Qed.

(** ** Bytes of a paste *)

(** A valid text is empty, or a character whose scalar follows, and whose other
    bytes are not ASCII, before a valid text. *)
Inductive utf8_step : list N -> Prop :=
| utf8_end : utf8_step []
| utf8_char x others rest :
    (x < 128 -> others = [])%N -> Forall (fun b => (128 <= b)%N) others ->
    utf8_chunks (x :: others ++ rest) = (x :: others) :: utf8_chunks rest ->
    utf8_valid rest = true -> utf8_step (x :: others ++ rest).

Ltac bounds :=
  repeat match goal with
  | H : (_ && _)%bool = true |- _ => apply andb_true_iff in H as [? ?]
  | H : (_ <=? _)%N = true |- _ => apply N.leb_le in H
  end.

Lemma utf8_valid_step bs : utf8_valid bs = true -> utf8_step bs.
Proof.
  assert (forall x y, (y <= x)%N -> (x <? y)%N = false) as Hge by (intros; by apply N.ltb_ge).
  assert (forall x y, (x < y)%N -> (x <? y)%N = true) as Hlt by (intros; by apply N.ltb_lt).
  destruct bs as [|x rest]; [constructor|]. simpl. unfold utf8_tail, in_range.
  destruct (N.ltb_spec x 128).
  { intros Hv. apply (utf8_char x [] rest); try done. simpl. by rewrite Hlt by lia. }
  destruct rest as [|x1 rest]; [done|].
  destruct ((194 <=? x) && (x <=? 223))%N eqn:H2.
  { intros Hv. bounds. apply (utf8_char x [x1] rest); try done; [lia|by repeat constructor|].
    simpl. by rewrite Hge, Hlt by lia. }
  destruct rest as [|x2 rest]; [done|].
  destruct ((224 <=? x) && (x <=? 239))%N eqn:H3.
  { intros Hv. bounds. apply (utf8_char x [x1; x2] rest); try done; [lia|by repeat constructor|].
    simpl. by rewrite Hge, Hge, Hlt by lia. }
  destruct rest as [|x3 rest]; [done|].
  intros Hv. bounds. apply (utf8_char x [x1; x2; x3] rest); try done; [lia|by repeat constructor|].
  simpl. by rewrite !Hge by lia.
Qed.

(** In valid UTF-8 a byte below 128 is a character. *)
Lemma ascii_is_char bs b :
  utf8_valid bs = true -> b ∈ bs -> (b < 128)%N -> b ∈ utf8_scalar <$> utf8_chunks bs.
Proof.
  remember (length bs) as n eqn:Hn. revert bs Hn.
  induction n as [n IH] using lt_wf_ind. intros bs -> Hv Hb Hlt.
  destruct (utf8_valid_step bs Hv) as [|x others rest Hx Ho Hc Hr]; [by apply not_elem_of_nil in Hb|].
  rewrite Hc, fmap_cons. apply elem_of_cons.
  apply elem_of_cons in Hb as [->|Hb]; [left; by rewrite Hx by done|right].
  apply elem_of_app in Hb as [Hb|Hb].
  - rewrite list.Forall_forall in Ho. apply Ho in Hb. lia.
  - eapply IH; [|reflexivity|done..]. simpl. rewrite length_app. lia.
Qed.
