(* ===== verification/LaunchManifest.v ===== *)
(** * What a manifest depends on

    The secrets of a launch request, and the facts that what the manifest shows
    is the same whatever they are: arguments up to redacted values, the
    environment up to its values. *)

From stdpp Require Import pretty.
From Stdlib Require Import Ascii.
From S2P Require Import Prelude Keyed Text Domain DomainRules DomainConfig DeliveryRuntime Agents.
From S2P Require Import Subagents RunRecords LaunchTypes Launch LaunchFacts.

Local Open Scope string_scope.
Local Open Scope list_scope.

(** ** Requests with other secrets *)

(** Tokens and endpoints of the runtime, the identity of the provider's
    conversation, and private paths *)
Record LaunchSecrets : Type := MkLaunchSecrets {
  sec_native_session_id : string;
  sec_config_directory : string;
  sec_session_id : string;
  sec_hook_endpoint : string;
  sec_hook_token : string;
  sec_settings_path : string;
  sec_bridge_endpoint : string;
  sec_mcp_token : string;
  sec_claude_config_path : string;
  sec_image_path : string -> string
}.

Definition ref_with (s : LaunchSecrets) (self : ResumeRef) : ResumeRef :=
  MkResumeRef (ref_provider self) (sec_native_session_id s).

Definition account_with (s : LaunchSecrets) (self : AgentAccountContext) : AgentAccountContext :=
  MkAgentAccountContext (aac_agent_id self) (aac_account_id self) (aac_name self)
    ((fun _ => sec_config_directory s) <$> aac_config_directory self).

Fixpoint conversation_with (s : LaunchSecrets) (self : AgentConversationLaunch)
  : AgentConversationLaunch :=
  match self with
  | ACL_WithAccount account conversation =>
      ACL_WithAccount (account_with s account) (conversation_with s conversation)
  | ACL_Fresh resume_ref => ACL_Fresh (ref_with s <$> resume_ref)
  | ACL_Resume resume_ref => ACL_Resume (ref_with s resume_ref)
  | ACL_Fork source_ref => ACL_Fork (ref_with s source_ref)
  end.

Definition transport_with (s : LaunchSecrets) (self : AgentObservationLaunchTransport)
  : AgentObservationLaunchTransport :=
  match self with
  | OT_InlineSettings content shown => OT_InlineSettings content shown
  | OT_EnvironmentSettingsPath variable _ content shown =>
      OT_EnvironmentSettingsPath variable (sec_settings_path s) content shown
  | OT_DaemonOwnedBridge _ => OT_DaemonOwnedBridge (sec_bridge_endpoint s)
  end.

Definition observation_with (s : LaunchSecrets) (self : AgentObservationLaunch)
  : AgentObservationLaunch :=
  MkAgentObservationLaunch (sec_session_id s) (sec_hook_endpoint s) (sec_hook_token s)
    (transport_with s (aol_transport self)).

Definition mcp_with (s : LaunchSecrets) (self : McpConnection) : McpConnection :=
  MkMcpConnection (mcp_endpoint self) (sec_mcp_token s) (sec_claude_config_path s)
    (mcp_server_name self) (mcp_instructions self).

Definition attachment_with (s : LaunchSecrets) (self : ImageAttachment) : ImageAttachment :=
  MkImageAttachment (ia_attachment_id self) (sec_image_path s (ia_file_path self))
    (ia_media_type self) (ia_byte_length self) (ia_sha256 self) (ia_width self) (ia_height self).

Definition with_secrets (s : LaunchSecrets) (r : LaunchRequest) : LaunchRequest :=
  r <| lr_conversation := conversation_with s (lr_conversation r) |>
    <| lr_observation := observation_with s <$> lr_observation r |>
    <| lr_mcp := mcp_with s <$> lr_mcp r |>
    <| lr_attachments := attachment_with s <$> lr_attachments r |>.

(** ** Related results *)

(** Two computations that both succeed have related values. *)
Definition both_ok {E A B} (R : A -> B -> Prop) (r1 : result E A) (r2 : result E B) : Prop :=
  forall a b, r1 = Ok a -> r2 = Ok b -> R a b.

Lemma both_ok_bind {E A B C D} (R : A -> B -> Prop) (Q : C -> D -> Prop)
    (r1 : result E A) (r2 : result E B) (k1 : A -> result E C) (k2 : B -> result E D) :
  both_ok R r1 r2 -> (forall a b, R a b -> both_ok Q (k1 a) (k2 b)) ->
  both_ok Q (match r1 with Ok a => k1 a | Err e => Err e end)
            (match r2 with Ok b => k2 b | Err e => Err e end).
Proof. intros HR HQ. destruct r1, r2; try (by intros ????). by apply HQ, HR. Qed.

Lemma both_ok_ret {E A B} (R : A -> B -> Prop) a b : R a b -> both_ok (E:=E) R (Ok a) (Ok b).
Proof. intros HR ?? [= <-] [= <-]. done. Qed.

Lemma both_ok_same {E A} (r : result E A) : both_ok eq r r.
Proof. intros a b -> [= ->]. done. Qed.

Lemma both_ok_err_l {E A B} (R : A -> B -> Prop) (e : E) r2 : both_ok R (Err e) r2.
Proof. by intros ????. Qed.
Lemma both_ok_err_r {E A B} (R : A -> B -> Prop) r1 (e : E) : both_ok R r1 (Err e).
Proof. by intros ????. Qed.

(** Two arguments that the manifest shows alike *)
Definition alike (a b : ResolvedArgument) : Prop :=
  ra_purpose a = ra_purpose b /\ ra_visibility a = ra_visibility b
  /\ (ra_visibility a = AV_Exact -> ra_value a = ra_value b).

#[export] Instance alike_refl : Reflexive alike.
Proof. by intros a. Qed.

Lemma alike_all l : Forall2 alike l l.
Proof. induction l; by constructor. Qed.

Lemma imap_related {A B C} (R : A -> B -> Prop) (f : nat -> A -> C) (g : nat -> B -> C) l k :
  (forall i a b, R a b -> f i a = g i b) -> Forall2 R l k -> imap f l = imap g k.
Proof.
  intros Hfg H. revert f g Hfg. induction H as [|a b l k Hab _ IH]; intros f g Hfg; [done|].
  rewrite !imap_cons. f_equal; [by apply Hfg|]. apply IH. intros. by apply Hfg.
Qed.

Lemma inspect_alike `{Sha256} l k : Forall2 alike l k -> inspect_arguments l = inspect_arguments k.
Proof.
  apply imap_related. intros i a b (Hp & Hv & He). unfold inspect_argument.
  rewrite Hp, <- Hv. destruct (ra_visibility a); try done. by rewrite He.
Qed.

Lemma retain_alike purpose l k :
  Forall2 alike l k ->
  Forall2 alike (retain (fun argument => ra_purpose argument != purpose) l)
    (retain (fun argument => ra_purpose argument != purpose) k).
Proof.
  induction 1 as [|a b l k (Hp & Hv & He) _ IH]; simpl; [constructor|].
  rewrite <- Hp. destruct (negb _); [|done]. by constructor.
Qed.

Lemma imap_alike {A B} (R : A -> B -> Prop) (f : nat -> A -> ResolvedArgument)
    (g : nat -> B -> ResolvedArgument) l k :
  (forall i a b, R a b -> alike (f i a) (g i b)) -> Forall2 R l k ->
  Forall2 alike (imap f l) (imap g k).
Proof.
  intros Hfg H. revert f g Hfg. induction H as [|a b l k Hab _ IH]; intros f g Hfg; [constructor|].
  rewrite !imap_cons. constructor; [by apply Hfg|]. apply IH. intros. by apply Hfg.
Qed.

(** [each_branch] compares two computations that branch on the same conditions. *)
Ltac each_branch :=
  repeat match goal with
  | |- both_ok _ (if ?b then _ else _) (if ?b then _ else _) => destruct b
  | |- both_ok _ (Err _) _ => apply both_ok_err_l
  | |- both_ok _ _ (Err _) => apply both_ok_err_r
  | |- both_ok _ (if ?b then Err _ else _) _ => destruct b
  | |- both_ok _ _ (if ?b then Err _ else _) => destruct b
  end.

(** ** Arguments *)

Section alike.
Context {HO : Host} {UU : UuidParser} {JT : JsonText} {SH : Sha256} {MT : ManifestText}.
Variables (s1 s2 : LaunchSecrets).

(** The mode, and as many identities *)
Definition same_mode (l k : list string) : Prop := head l = head k /\ length l = length k.

Lemma conversation_alike agent c :
  both_ok (Forall2 alike) (conversation_manifest_args agent (conversation_with s1 c))
    (conversation_manifest_args agent (conversation_with s2 c)).
Proof.
  unfold conversation_manifest_args. apply (both_ok_bind same_mode).
  - unfold conversation_args.
    destruct c as [a c|[resume_ref|]|resume_ref|resume_ref]; simpl; [by intros ????|..];
      each_branch; by apply both_ok_ret.
  - intros l k [Hh Hl]. apply both_ok_ret.
    destruct l as [|x l], k as [|y k]; simpl in Hh, Hl; simplify_eq; [constructor|].
    rewrite !imap_cons. constructor; [done|].
    apply (imap_alike (fun _ _ => True)); [done|]. by apply Forall2_same_length.
Qed.

Lemma observation_alike agent observation :
  Forall2 alike (observation_manifest_args agent (observation_with s1 observation))
    (observation_manifest_args agent (observation_with s2 observation)).
Proof.
  unfold observation_manifest_args, observation_args. simpl.
  destruct (aol_transport observation); simpl; repeat case_match; repeat constructor; done.
Qed.

Lemma mcp_alike agent mcp own :
  both_ok (Forall2 alike) (mcp_manifest_args agent (mcp_with s1 mcp) own)
    (mcp_manifest_args agent (mcp_with s2 mcp) own).
Proof.
  unfold mcp_manifest_args, mcp_args. simpl.
  destruct (validate_config_name _); [|by intros ????].
  destruct (agent == "claude").
  - apply both_ok_ret. simpl. constructor; [done|]. constructor; [done|].
    apply alike_all.
  - apply (both_ok_bind eq); [apply both_ok_same|]. intros l ? <-.
    apply both_ok_ret, alike_all.
Qed.

Lemma parents_alike attachments :
  both_ok (Forall2 alike) (parent_arguments (attachment_with s1 <$> attachments))
    (parent_arguments (attachment_with s2 <$> attachments)).
Proof.
  induction attachments as [|a rest IH]; simpl; [by apply both_ok_ret|].
  apply (both_ok_bind (fun _ _ => True)); [done|]. intros ?? _.
  eapply both_ok_bind; [exact IH|]. intros. apply both_ok_ret. by repeat constructor.
Qed.

(** ** The pieces of a launch *)

Lemma attachments_kept s r :
  match lr_attachments (with_secrets s r) with [] => true | _ => false end =
  match lr_attachments r with [] => true | _ => false end.
Proof. simpl. by destruct (lr_attachments r). Qed.

Lemma native_paste_kept s r agent :
  pastes_image_attachments_natively agent (lr_attachments (with_secrets s r)) =
  pastes_image_attachments_natively agent (lr_attachments r).
Proof. unfold pastes_image_attachments_natively. by rewrite attachments_kept. Qed.

Lemma attachments_alike r :
  both_ok (Forall2 alike) (attachment_arguments (with_secrets s1 r))
    (attachment_arguments (with_secrets s2 r)).
Proof.
  unfold attachment_arguments. rewrite !native_paste_kept. simpl. each_branch.
  - apply both_ok_ret. induction (lr_attachments r); simpl; [constructor|]. by repeat constructor.
  - apply parents_alike.
  - by apply both_ok_ret.
Qed.

Lemma inherits_kept s r c :
  inherits_permissions (with_secrets s r) (conversation_with s c) = inherits_permissions r c.
Proof.
  unfold inherits_permissions. f_equal; [f_equal; by destruct c|].
  simpl. destruct (lr_observation r) as [o|]; [|done]. unfold is_bridge. simpl.
  by destruct (aol_transport o).
Qed.

Lemma context_kept s r c :
  session_start_context (with_secrets s r) (conversation_with s c) = session_start_context r c.
Proof.
  unfold session_start_context. simpl.
  replace (is_fork (conversation_with s c)) with (is_fork c) by by destruct c.
  replace (is_some_and (observation_with s <$> lr_observation r) is_inline)
    with (is_some_and (lr_observation r) is_inline); [done|].
  destruct (lr_observation r) as [o|]; [|done]. unfold is_inline. simpl. by destruct (aol_transport o).
Qed.

Lemma delivered_instructions_kept s r :
  delivered_instructions (with_secrets s r) = delivered_instructions r.
Proof. unfold delivered_instructions. simpl. by destruct (lr_mcp r). Qed.

Lemma instruction_parts_kept s r : instruction_parts (with_secrets s r) = instruction_parts r.
Proof.
  unfold instruction_parts. rewrite delivered_instructions_kept. simpl. by destruct (lr_mcp r).
Qed.

Lemma is_prompt_argument_kept s r : is_prompt_argument (with_secrets s r) = is_prompt_argument r.
Proof. unfold is_prompt_argument. by rewrite attachments_kept. Qed.

Lemma prompt_arguments_kept s r : prompt_arguments (with_secrets s r) = prompt_arguments r.
Proof. unfold prompt_arguments. by rewrite is_prompt_argument_kept. Qed.

Lemma split_account_with agent c s :
  split_account agent (conversation_with s c) =
  match split_account agent c with
  | Ok (account, conversation) => Ok (account_with s <$> account, conversation_with s conversation)
  | Err e => Err e
  end.
Proof. destruct c; simpl; [|done..]. by case_bool_decide. Qed.

(** ** The whole argument list *)

Lemma execution_alike agent policy l k :
  Forall2 alike l k ->
  both_ok (Forall2 alike) (apply_execution_policy agent policy l) (apply_execution_policy agent policy k).
Proof.
  intros Hl. unfold apply_execution_policy. each_branch; apply both_ok_ret;
    destruct (cep_web_search policy), (cep_network policy);
    repeat (apply Forall2_app || apply alike_all || (constructor; [done|]) || done).
Qed.

Lemma approvals_alike agent server tools external l k :
  Forall2 alike l k ->
  both_ok (Forall2 alike) (apply_tool_approvals agent server tools external l)
    (apply_tool_approvals agent server tools external k).
Proof.
  intros Hl. unfold apply_tool_approvals.
  repeat (apply (both_ok_bind eq); [apply both_ok_same|intros ? ? <-]).
  each_branch; apply both_ok_ret; try apply Forall2_app; try apply alike_all; done.
Qed.

Lemma credentials_kept s account :
  match account_with s <$> account with
  | Some account => exact_arg "isolated account credentials" <$> credential_args account
  | None => []
  end =
  match account with
  | Some account => exact_arg "isolated account credentials" <$> credential_args account
  | None => []
  end.
Proof.
  destruct account as [a|]; [|done]. simpl. unfold credential_args. simpl.
  by destruct (aac_config_directory a).
Qed.

Lemma launch_arguments_alike r account c :
  both_ok (Forall2 alike)
    (launch_arguments (with_secrets s1 r) (account_with s1 <$> account) (conversation_with s1 c))
    (launch_arguments (with_secrets s2 r) (account_with s2 <$> account) (conversation_with s2 c)).
Proof.
  unfold launch_arguments. rewrite !inherits_kept, !context_kept, !credentials_kept.
  change (directory_arguments (with_secrets ?s r)) with (directory_arguments r).
  change (update_check_arguments (with_secrets ?s r)) with (update_check_arguments r).
  eapply both_ok_bind; [apply conversation_alike|]. intros l1 k1 H1.
  apply (both_ok_bind eq); [apply (both_ok_same (selection_arguments r _))|]. intros l2 ? <-.
  apply (both_ok_bind (Forall2 alike)).
  { simpl. destruct (lr_mcp r); [apply mcp_alike|]. apply both_ok_ret, alike_all. }
  intros l3 k3 H3.
  apply (both_ok_bind eq); [apply (both_ok_same (instruction_arguments r _))|]. intros l4 ? <-.
  eapply both_ok_bind; [apply attachments_alike|]. intros l5 k5 H5.
  apply (both_ok_bind eq); [apply (both_ok_same (network_arguments r _))|]. intros l6 ? <-.
  match goal with
  | |- both_ok _ (match match _ with Some _ => _ | None => Ok (?x ++ _) end with Ok _ => _ | _ => _ end)
                 (match match _ with Some _ => _ | None => Ok (?y ++ _) end with Ok _ => _ | _ => _ end) =>
      assert (Forall2 alike (x ++ l6) (y ++ l6)) as Hall
  end.
  { repeat (apply Forall2_app || apply alike_all); try done. simpl.
    destruct (lr_observation r); [apply observation_alike|apply alike_all]. }
  apply (both_ok_bind (Forall2 alike)).
  { simpl. destruct (lr_execution r); [by apply execution_alike|by apply both_ok_ret]. }
  intros l7 k7 H7.
  match goal with
  | |- both_ok _ (match _ with Some _ => apply_tool_approvals _ _ _ _ ?x | None => _ end)
         (match _ with Some _ => apply_tool_approvals _ _ _ _ ?y | None => _ end) =>
      assert (Forall2 alike x y) as H8
  end.
  { simpl. destruct (lr_read_only_workspace r), (lr_agent_id r == "claude");
      first [exact H7 | apply Forall2_app; [exact H7|apply alike_all]]. }
  simpl lr_mcp. destruct (lr_mcp r); [by apply approvals_alike|].
  simpl. each_branch. by apply both_ok_ret.
Qed.

(** ** The environment *)

Definition keys (environment : LaunchEnvironment) : list string := fst <$> env_entries environment.

Lemma env_insert_keys key value1 value2 l k :
  fst <$> l = fst <$> k ->
  fst <$> env_insert key value1 l = fst <$> env_insert key value2 k.
Proof.
  unfold env_insert. intros Hlk.
  assert (fst <$> position (fun entry => environment_keys_equal entry.1 key) l =
          fst <$> position (fun entry => environment_keys_equal entry.1 key) k) as Hp.
  { revert k Hlk. induction l as [|[x v] l IH]; intros [|[y w] k] Hlk; simplify_eq/=; [done|].
    case_match; [done|]. specialize (IH k ltac:(done)).
    destruct (position _ l) as [[]|], (position _ k) as [[]|]; simplify_eq/=; congruence. }
  destruct (position _ l) as [[]|], (position _ k) as [[]|]; simplify_eq/=.
  - by rewrite !list_fmap_insert, Hlk.
  - by rewrite !fmap_app, Hlk.
Qed.

Lemma with_explicit_keys key value1 value2 e1 e2 :
  keys e1 = keys e2 -> keys (with_explicit key value1 e1) = keys (with_explicit key value2 e2).
Proof. apply env_insert_keys. Qed.

Lemma inspect_environment_keys e1 e2 :
  keys e1 = keys e2 -> inspect_environment e1 = inspect_environment e2.
Proof.
  unfold keys, inspect_environment. intros Hk. f_equal.
  change (fun entry : string * string => inspect_environment_entry entry.1)
    with (inspect_environment_entry ∘ (fst : string * string -> string)).
  by rewrite !list_fmap_compose, Hk.
Qed.

Lemma account_environment_keys r account :
  keys (account_environment (with_secrets s1 r) (account_with s1 <$> account)) =
  keys (account_environment (with_secrets s2 r) (account_with s2 <$> account)).
Proof.
  unfold account_environment, agent_launch_environment. simpl.
  destruct account as [a|]; simpl; destruct (lr_executable_directory r);
    unfold apply_environment; simpl; try destruct (aac_config_directory a); simpl;
    repeat case_match; repeat apply with_explicit_keys; done.
Qed.

Lemma observed_environment_keys agent o e1 e2 :
  keys e1 = keys e2 ->
  keys (observed_environment agent (observation_with s1 o) e1) =
  keys (observed_environment agent (observation_with s2 o) e2).
Proof.
  intros He. unfold observed_environment, is_bridge. simpl.
  destruct (aol_transport o); simpl; repeat apply with_explicit_keys; done.
Qed.

Lemma launch_environment_keys r account context :
  both_ok (fun e1 e2 => keys e1 = keys e2)
    (launch_environment (with_secrets s1 r) (account_with s1 <$> account) context)
    (launch_environment (with_secrets s2 r) (account_with s2 <$> account) context).
Proof.
  unfold launch_environment. each_branch. apply both_ok_ret.
  assert (forall e1 e2, keys e1 = keys e2 ->
    keys match observation_with s1 <$> lr_observation r with
         | Some o => observed_environment (lr_agent_id r) o e1 | None => e1 end =
    keys match observation_with s2 <$> lr_observation r with
         | Some o => observed_environment (lr_agent_id r) o e2 | None => e2 end) as Ho.
  { intros. destruct (lr_observation r); [by apply observed_environment_keys|done]. }
  specialize (Ho _ _ (account_environment_keys r account)). simpl.
  destruct context, (lr_mcp r); simpl; repeat apply with_explicit_keys; apply Ho.
Qed.

(** OpenCode's configuration follows the selection. *)
Lemma configure_alike target m p x l k e1 e2 :
  (forall target e1 e2, opencode_uses_server_configuration target e1 =
                   opencode_uses_server_configuration target e2) ->
  Forall2 alike l k -> keys e1 = keys e2 ->
  both_ok (fun a b => Forall2 alike a.1 b.1 /\ keys a.2 = keys b.2)
    (configure_opencode_launch target m p x l e1) (configure_opencode_launch target m p x k e2).
Proof.
  intros Hprobe Hl He. unfold configure_opencode_launch. rewrite (Hprobe target e1 e2).
  apply (both_ok_bind eq); [apply both_ok_same|]. intros config ? <-.
  set (server := opencode_uses_server_configuration target e2).
  set (drop1 := server && (m != "default")). set (drop2 := server && (p == "plan")).
  assert (forall b purpose l k, Forall2 alike l k ->
    Forall2 alike (if b : bool then retain (fun argument => ra_purpose argument != purpose) l else l)
      (if b then retain (fun argument => ra_purpose argument != purpose) k else k)) as Hr.
  { intros [] ????; [by apply retain_alike|done]. }
  pose proof (Hr drop2 "permission selection" _ _ (Hr drop1 "model selection" _ _ Hl)) as Hk.
  each_branch; apply both_ok_ret; simpl; [by split|]. split; [|by apply with_explicit_keys].
  destruct server; [|done]. by apply Forall2_app; [|apply alike_all].
Qed.

(** ** The manifest *)

Lemma conversation_kind_kept s c : conversation_kind (conversation_with s c) = conversation_kind c.
Proof. by destruct c. Qed.

Lemma generated_files_kept s o : generated_files (observation_with s o) = generated_files o.
Proof. unfold generated_files. simpl. by destruct (aol_transport o). Qed.

Lemma delivery_transport_kept s r : delivery_transport (with_secrets s r) = delivery_transport r.
Proof.
  unfold delivery_transport. by rewrite delivered_instructions_kept, is_prompt_argument_kept.
Qed.

Lemma first_message_parts_kept s r : first_message_parts (with_secrets s r) = first_message_parts r.
Proof. unfold first_message_parts. by rewrite is_prompt_argument_kept. Qed.

Lemma attachment_parts_kept s r :
  imap (attachment_part (with_secrets s r)) (lr_attachments (with_secrets s r)) =
  imap (attachment_part r) (lr_attachments r).
Proof.
  simpl. rewrite imap_fmap. apply imap_ext. intros i a _. unfold attachment_part; simpl.
  by rewrite <- (native_paste_kept s r).
Qed.

(** The manifest of a request with secrets is the manifest without them. *)
Lemma launch_manifest_kept s r account kind executable inherits instructions l k e1 e2 :
  Forall2 alike l k -> keys e1 = keys e2 ->
  launch_manifest (with_secrets s r) (account_with s <$> account) kind executable inherits
    instructions l e1 =
  launch_manifest r account kind executable inherits instructions k e2.
Proof.
  intros Hl He. unfold launch_manifest. f_equal.
  rewrite first_message_parts_kept, attachment_parts_kept, delivery_transport_kept,
    delivered_instructions_kept, (inspect_alike _ _ Hl), (inspect_environment_keys _ _ He). simpl.
  f_equal.
  - by destruct account.
  - destruct (lr_observation r); [apply generated_files_kept|done].
Qed.
End alike.
