(* ===== verification/LaunchClaims.v ===== *)
(** * What launches guarantee

    The claims about the launch crate: a read-only workspace, what a manifest
    shows, the catalog and the tables, prompts bound and pasted. *)

From stdpp Require Import pretty.
From Stdlib Require Import Ascii.
From S2P Require Import Prelude Keyed Text Domain DomainRules DomainConfig DeliveryRuntime Agents.
From S2P Require Import Samples Subagents RunRecords AgentClaims RecordClaims.
From S2P Require Import LaunchTypes Launch LaunchFacts LaunchManifest.

Local Open Scope string_scope.
Local Open Scope list_scope.

(** A launch that is held to a read-only workspace.  A Claude process has no
    editing tools.  A Codex process has the read-only sandbox as its one
    permission selection, or none on its command line and the read-only
    settings for the App Server. *)
Definition held_read_only (r : LaunchRequest) (m : ResolvedLaunchManifest) : Prop :=
  (lr_agent_id r = "claude"
   /\ exists before after,
        ra_value <$> rlm_arguments m
        = before ++ ["--disallowedTools"; "Edit,Write,NotebookEdit"] ++ after)
  \/ (lr_agent_id r = "codex"
      /\ match rlm_codex_resume_permissions m with
         | None =>
             exists ask, values_for "permission selection" (rlm_arguments m)
                         = ["--sandbox"; "read-only"; "--ask-for-approval"; ask]
         | Some permissions =>
             values_for "permission selection" (rlm_arguments m) = []
             /\ codex_resume_settings permissions = ("on-request", "user", "read-only", "readOnly")
         end).

(** ** A concrete host *)

#[local] Existing Instance compact_json.
#[local] Existing Instance canonical_uuid.
#[local] Existing Instance sample_sha256.

#[local] Instance sample_host : Host := {
  host_is_windows := false;
  os_baseline := MkLaunchEnvironment [("HOME", "/home/u"); ("PATH", "/usr/bin")];
  resolve_launch_target program _ :=
    Ok (MkResolvedLaunchTarget ("/usr/bin/" +:+ program) LTK_NativeExecutable None);
  opencode_uses_server_configuration _ _ := false;
  derived_gemini_defaults_present _ := false;
  native_gemini_defaults_present := false
}.
#[local] Instance sample_manifest_text : ManifestText := fun manifest =>
  bytes (ilm_digest manifest) ++ concat (bytes ∘ iarg_display <$> ilm_arguments manifest).

Definition sample_template : PromptTemplate := MkPromptTemplate "quick-action" 1 "Do {{task}}.".
Definition sample_native_id : string := "0f8fad5b-d9cb-469f-a165-70867728950e".

Definition sample_secrets (token : string) : LaunchSecrets :=
  {| sec_native_session_id := sample_native_id; sec_config_directory := "/accounts/" +:+ token;
     sec_session_id := token; sec_hook_endpoint := "http://" +:+ token; sec_hook_token := token;
     sec_settings_path := "/run/" +:+ token; sec_bridge_endpoint := "ws://" +:+ token;
     sec_mcp_token := token; sec_claude_config_path := "/run/mcp/" +:+ token;
     sec_image_path := fun path => path +:+ token |}.

Definition sample_bridge : AgentObservationLaunch :=
  MkAgentObservationLaunch "s" "" "" (OT_DaemonOwnedBridge "termloop-runtime-authority").
Definition sample_mcp : McpConnection :=
  MkMcpConnection "http://127.0.0.1:1/mcp" "secret" "/run/mcp.json" "termloop" None.

(** A resumed Codex conversation, and a Claude launch with an image *)
Definition resumed_codex : LaunchRequest :=
  (interactive_request "codex" "/wt/a" sample_template)
    <| lr_conversation := ACL_Resume (MkResumeRef RP_Codex sample_native_id) |>
    <| lr_observation := Some sample_bridge |> <| lr_mcp := Some sample_mcp |>
    <| lr_permission := "bypassPermissions" |> <| lr_read_only_workspace := true |>.

Definition sample_image : ImageAttachment :=
  {| ia_attachment_id := "0f8fad5b-d9cb-469f-a165-70867728950e";
     ia_file_path := "/c/termloop-quick-action-images/0f8fad5b-d9cb-469f-a165-70867728950e/image.png";
     ia_media_type := "image/png"; ia_byte_length := 9;
     ia_sha256 := "sha256:0123456789abcdef0123456789abcdef0123456789abcdef0123456789abcdef";
     ia_width := 3; ia_height := 3 |}.
Definition claude_with_image : LaunchRequest :=
  (interactive_request "claude" "/wt/a" sample_template)
    <| lr_attachments := [sample_image] |> <| lr_prompt := Some "Look at it." |>.

Section read_only.
Context {HO : Host} {UU : UuidParser} {JT : JsonText} {SH : Sha256} {MT : ManifestText}.

Lemma read_only_codex_resume r conversation permissions :
  lr_read_only_workspace r = true -> resume_permissions r conversation = Ok (Some permissions) ->
  codex_resume_settings permissions = ("on-request", "user", "read-only", "readOnly").
Proof.
  unfold resume_permissions, resume_mode, codex_resume_new. intros -> Hp.
  case_match; [|done].
  destruct (str_is_empty (lr_cwd r) || (32768 <? len (lr_cwd r))%N || contains_byte 0 (lr_cwd r));
    unwrap; repeat case_match; simplify_option_eq;
    destruct (resume_ref_for_provider RP_Codex _); simplify_option_eq; reflexivity.
Qed.

Lemma resume_permissions_exist r conversation permissions :
  resume_permissions r conversation = Ok permissions ->
  is_some permissions = inherits_permissions r conversation.
Proof. unfold resume_permissions. intros Hp. case_match; unwrap; done. Qed.

End read_only.


(** ** What a manifest shows *)

Section manifest.
Context {HO : Host} {UU : UuidParser} {JT : JsonText} {SH : Sha256} {MT : ManifestText}.

(** The final arguments and environment of two requests that differ in secrets *)
Lemma final_alike s1 s2 (r : LaunchRequest) account c target l1 l2 e1 e2 f1 f2 d1 d2 :
  (forall target e1 e2, opencode_uses_server_configuration target e1 =
                   opencode_uses_server_configuration target e2) ->
  launch_arguments (with_secrets s1 r) (account_with s1 <$> account) (conversation_with s1 c) = Ok l1 ->
  launch_arguments (with_secrets s2 r) (account_with s2 <$> account) (conversation_with s2 c) = Ok l2 ->
  launch_environment (with_secrets s1 r) (account_with s1 <$> account)
    (session_start_context r c) = Ok e1 ->
  launch_environment (with_secrets s2 r) (account_with s2 <$> account)
    (session_start_context r c) = Ok e2 ->
  (if lr_agent_id r == "opencode"
   then configure_opencode_launch target (lr_model r) (lr_permission r) (lr_reasoning r) l1 e1
   else Ok (l1, e1)) = Ok (f1, d1) ->
  (if lr_agent_id r == "opencode"
   then configure_opencode_launch target (lr_model r) (lr_permission r) (lr_reasoning r) l2 e2
   else Ok (l2, e2)) = Ok (f2, d2) ->
  Forall2 alike f1 f2 /\ keys d1 = keys d2.
Proof.
  intros Hprobe Hl1 Hl2 He1 He2 Hf1 Hf2.
  pose proof (launch_arguments_alike s1 s2 r account c _ _ Hl1 Hl2) as Hl.
  pose proof (launch_environment_keys s1 s2 r account _ _ _ He1 He2) as He.
  destruct (lr_agent_id r == "opencode"); [|naive_solver].
  apply (configure_alike target _ _ _ _ _ _ _ Hprobe Hl He (f1, d1) (f2, d2) Hf1 Hf2).
Qed.

End manifest.


(** ** Panics and the catalog *)

Section panics.
Context {HO : Host} {UU : UuidParser} {JT : JsonText} {SH : Sha256} {MT : ManifestText}.

Lemma validated_attachments_have_parents attachments :
  validate_image_attachments attachments = Ok tt -> attachments_have_parents attachments.
Proof.
  unfold validate_image_attachments, attachments_have_parents. intros Hv. unwrap.
  apply orb_false_iff in E as [_ Hall%negb_false_iff].
  rewrite all_with_before_true in Hall. apply list.Forall_forall. intros a [i Hi]%list_elem_of_lookup_1.
  apply Hall in Hi. apply andb_true_iff in Hi as [_ Hi%negb_true_iff].
  unfold image_attachment_is_refused in Hi.
  repeat match goal with H : (_ || _)%bool = false |- _ => apply orb_false_iff in H as [? ?] end.
  destruct (path_parent (ia_file_path a)); [done|].
  revert select (negb ((None ≫= path_file_name) == Some (ia_attachment_id a)) = false).
  by rewrite bool_decide_eq_false_2.
Qed.

(** C35: resolving a launch request never panics.  Its [expect]s and
    [unreachable!]s (the model of an OpenCode launch with a reasoning has a
    provider part, an Agent with instructions is Codex or Claude, a remote
    conversation that is resumed has a reference, generated input has two
    parts, an attached image lies in a directory) are out of reach, for any
    request whose attachments [validate_image_attachments] accepts. *)
Theorem resolve_never_panics (r : LaunchRequest) (message : string) :
  validate_image_attachments (lr_attachments r) = Ok tt -> resolve r <> Err (IE_Panicked message).
Proof.
  intros Hparents%validated_attachments_have_parents. revert message. change (calm (resolve r)). unfold resolve.
  apply calm_bind; [unfold request_is_refused; calm|intros _ _].
  apply calm_bind; [unfold split_account; calm|intros [account c] _].
  apply calm_bind; [unfold transport_is_refused; calm|intros _ _].
  apply calm_bind; [unfold conversation_kind; calm|intros kind _].
  apply calm_bind; [apply configuration_calm|intros [] Hvalid].
  apply configuration_ok in Hvalid as (_ & _ & Hx).
  apply calm_bind; [by apply launch_arguments_calm|intros l Hl].
  apply calm_bind; [unfold launch_environment; calm|intros e _].
  apply calm_bind; [unfold agent_cli, agent_cli_error; calm; intros ?; case_match; discriminate|intros target _].
  apply calm_bind; [unfold launch_target_utf8; calm|intros executable _].
  apply calm_bind.
  { case_bool_decide as Ha; [|calm]. rewrite Ha in Hx. by apply configure_calm. }
  intros [l' e'] _. apply calm_bind; [by eapply instruction_parts_calm|intros].
  apply calm_bind; [apply resume_permissions_calm|intros].
  apply calm_bind; [apply initial_input_calm|calm].
Qed.

(** The tables that turn a selection into command-line arguments and the
    catalog that the user chooses from agree.  A selection is accepted exactly
    when the Agent is in the catalog, lists the model and the permission, and
    offers the reasoning for that model; an accepted selection has arguments
    for each of the three. *)
Theorem selections_are_the_catalog (agent_id model permission reasoning : string) :
  (validate_agent_configuration agent_id model permission reasoning = Ok tt <->
   exists descriptor,
     agent_descriptor agent_id = Some descriptor
     /\ model ∈ ad_models descriptor /\ permission ∈ ad_permissions descriptor
     /\ reasoning ∈ reasoning_for_model agent_id model)
  /\ (validate_agent_configuration agent_id model permission reasoning = Ok tt ->
      is_ok (model_args agent_id model) = true
      /\ is_ok (permission_args agent_id permission) = true
      /\ is_ok (reasoning_args agent_id reasoning) = true).
Proof.
  rewrite configuration_ok, model_args_ok, permission_args_ok, reasoning_args_ok. split.
  - unfold supports. naive_solver congruence.
  - intros ((d & Hd & Hm) & Hp & Hx). split; [by exists d|]. split; [done|].
    by eapply reasoning_for_model_supported.
Qed.
End panics.

Lemma resolve_never_panics_witness :
  validate_image_attachments (lr_attachments claude_with_image) = Ok tt
  /\ resolve claude_with_image <> Err (IE_Panicked "validated Quick Action attachment parent").
Proof.
  split; [vm_compute; reflexivity|]. apply resolve_never_panics. vm_compute. reflexivity.
Defined.

(** ** Prompts *)

(** Binding a template is substitution, in order, and nothing else.  For
    distinct names without braces, [bind_ordered] succeeds exactly when the
    authored text is a sequence of blocks without double braces with the
    markers of the bindings between them, each once and in the order of the
    bindings; the delivered prompt has the values in their places.  A value is
    never read again: braces in it are delivered as they are. *)
Theorem bind_ordered_substitutes (authored : string) (bindings : list (string * string))
    (delivered : string) :
  Forall brace_free (fst <$> bindings) -> NoDup (fst <$> bindings) ->
  bind_ordered authored bindings = Ok delivered <->
  exists blocks,
    blocks_for blocks bindings
    /\ bytes authored = template_of blocks bindings
    /\ delivered = string_of_bytes (prompt_of blocks bindings).
Proof.
  intros Hn Hd. unfold bind_ordered. split.
  - intros H. destruct (bind_from (bytes authored) bindings) as [d|] eqn:Hb; [|done].
    injection H as <-. destruct (bind_from_sound _ _ _ Hb) as (blocks & Hf & He & ->). by exists blocks.
  - intros (blocks & Hf & -> & ->). by rewrite bind_from_complete.
Qed.

(** The value of the first binding looks like the marker of the second. *)
Lemma bind_ordered_substitutes_witness :
  exists blocks,
    blocks_for blocks [("task", "{{agent}}"); ("agent", "codex")]
    /\ bytes "Do {{task}} as {{agent}}." = template_of blocks [("task", "{{agent}}"); ("agent", "codex")]
    /\ "Do {{agent}} as codex."
       = string_of_bytes (prompt_of blocks [("task", "{{agent}}"); ("agent", "codex")]).
Proof.
  apply (bind_ordered_substitutes "Do {{task}} as {{agent}}." _ "Do {{agent}} as codex.").
  - repeat constructor; vm_compute; intros; discriminate.
  - vm_compute. repeat constructor; set_solver.
  - vm_compute. reflexivity.
Defined.


