(* ===== verification/TaskWorktrees.v ===== *)
(** * Worktrees of Tasks: what git reports, and what the runtime remembers

    The observations of [src/modules/gitio/src] as types ([health.rs],
    [repository.rs], [worktree.rs], [error.rs]); the bounded projections of
    health and Session presence ([core/src/task_worktree/health.rs]); the guard
    of archived Tasks ([task_worktree/archive.rs]) and the mapping of git's
    errors ([git_mapping.rs]).

    Git and the file system answer through [Git] and [Directories]: the model
    takes their answers, whatever they are. *)

From stdpp Require Import gmap.
From S2P Require Import Prelude Keyed Text Domain DomainRules StoreState LaunchTypes WorkflowEngine.

Local Open Scope string_scope.
Local Open Scope list_scope.

(** ** Observations *)

Inductive ChangeState : Type := CH_Clean | CH_Changed | CH_Unknown.
#[export] Instance ChangeState_eq_dec : EqDecision ChangeState.
Proof. solve_decision. Defined.

Inductive ContentState : Type := CT_Absent | CT_Present | CT_Unknown.
#[export] Instance ContentState_eq_dec : EqDecision ContentState.
Proof. solve_decision. Defined.

Inductive SubmoduleState : Type :=
| SB_Absent | SB_Uninitialized | SB_InitializedClean | SB_InitializedDirty | SB_Unknown.
#[export] Instance SubmoduleState_eq_dec : EqDecision SubmoduleState.
Proof. solve_decision. Defined.

Inductive LockState : Type := LK_Absent | LK_Present | LK_Unknown.
#[export] Instance LockState_eq_dec : EqDecision LockState.
Proof. solve_decision. Defined.

Inductive UpstreamState : Type :=
| US_InSync | US_Behind (commits : N) | US_Ahead (commits : N) | US_Diverged (ahead behind : N)
| US_NotConfigured | US_Missing | US_Unknown.
#[export] Instance UpstreamState_eq_dec : EqDecision UpstreamState.
Proof. solve_decision. Defined.

Record SubmoduleFacts : Type := MkSubmoduleFacts {
  sf_state : SubmoduleState;
  sf_tracked_gitlinks : N;
  sf_initialized_gitlinks : N
}.
#[export] Instance SubmoduleFacts_eq_dec : EqDecision SubmoduleFacts.
Proof. solve_decision. Defined.

Record WorktreeStatusFacts : Type := MkWorktreeStatusFacts {
  ws_change_count : option N;
  ws_tracked : ChangeState;
  ws_staged : ChangeState;
  ws_untracked : ContentState;
  ws_ignored : ContentState;
  ws_submodules : SubmoduleFacts;
  ws_worktree_lock : LockState;
  ws_index_lock : LockState;
  ws_upstream : UpstreamState
}.
#[export] Instance WorktreeStatusFacts_eq_dec : EqDecision WorktreeStatusFacts.
Proof. solve_decision. Defined.

(** [ObjectId] and [GitRefName] hold bytes, as a [Path] does. *)
Definition ObjectId : Type := string.
Definition GitRefName : Type := string.

Inductive HeadState : Type :=
| HS_Unborn (branch : GitRefName)
| HS_Attached (branch : GitRefName) (oid : ObjectId)
| HS_Detached (oid : ObjectId).
#[export] Instance HeadState_eq_dec : EqDecision HeadState.
Proof. solve_decision. Defined.

Record RepositoryFacts : Type := MkRepositoryFacts {
  rf_requested_path : string;
  rf_resolved_path : string;
  rf_git_dir : string;
  rf_common_dir : string;
  rf_worktree_root : option string;
  rf_bare : bool;
  rf_head : HeadState
}.

Inductive WorktreeMarker : Type := WM_Absent | WM_Present (reason : option string).
#[export] Instance WorktreeMarker_eq_dec : EqDecision WorktreeMarker.
Proof. solve_decision. Defined.

Inductive WorktreeCheckout : Type :=
| WC_Bare
| WC_Branch (reference : GitRefName) (oid : option ObjectId)
| WC_Detached (oid : ObjectId).
#[export] Instance WorktreeCheckout_eq_dec : EqDecision WorktreeCheckout.
Proof. solve_decision. Defined.

Inductive RegisteredPathState : Type :=
| RP_Present (canonical_path : string) | RP_Missing | RP_NotDirectory.

Record WorktreeFacts : Type := MkWorktreeFacts {
  wf_registered_path : string;
  wf_path_state : RegisteredPathState;
  wf_checkout : WorktreeCheckout;
  wf_locked : WorktreeMarker;
  wf_prunable : WorktreeMarker;
  wf_is_main : bool
}.

Record WorktreeHealthObservation : Type := MkWorktreeHealthObservation {
  who_repository : RepositoryFacts;
  who_registration : option WorktreeFacts;
  who_status : WorktreeStatusFacts;
  who_git_process_count : N
}.

(** [GitFailureKind], [GitError].  The [operation] an error names, the exit of
    the process and the texts are of no use to the runtime and left out. *)
Inductive GitFailureKind : Type :=
| GF_Exit | GF_Signal | GF_Io | GF_MalformedOutput | GF_LockContention | GF_InvalidConfiguration
| GF_UnsupportedRepository | GF_CorruptRepository | GF_DubiousOwnership.

Inductive GitError : Type :=
| GE_NotRepository | GE_GitUnavailable | GE_CommandFailed (kind : GitFailureKind)
| GE_BranchConflict | GE_CheckoutContentChanged | GE_PathConflict | GE_WorktreeLocked
| GE_MissingRegistration | GE_RemoteRefMissing | GE_RemoteUnavailable | GE_PermissionDenied
| GE_Timeout | GE_OutputLimitExceeded | GE_UnsupportedVersion | GE_ParseFailed
| GE_SourceControlRejected.

(** [git_mapping::map_git_observation_error] *)
Definition map_git_observation_error (error : GitError) : CoreError :=
  match error with
  | GE_GitUnavailable => CoreGitUnavailable
  | GE_UnsupportedVersion => CoreGitUnsupportedVersion
  | GE_PermissionDenied => CoreRepositoryPermissionDenied
  | GE_Timeout => CoreGitObservationTimedOut
  | GE_OutputLimitExceeded => CoreGitObservationOutputBound
  | GE_CommandFailed (GF_CorruptRepository | GF_InvalidConfiguration) => CoreCorruptRepository
  | GE_CommandFailed GF_UnsupportedRepository => CoreUnsupportedRepository
  | GE_CommandFailed GF_DubiousOwnership => CoreRepositoryPermissionDenied
  | _ => CoreRepositoryUnavailable
  end.

(** [repository::valid_full_ref_name]: [refs/] at the front, no [..], [@{],
    [//], control byte, space or one of [~^:?*\[\\], and no component that is
    empty, starts with a dot or ends with [.lock]. *)
Definition ref_byte_is_refused (b : N) : bool :=
  is_ascii_control b || bool_decide (b ∈ [32; 126; 94; 58; 63; 42; 91; 92]%N).
Definition ends_with (suffix s : list N) : bool := slice_starts_with (rev s) (rev suffix).
Definition ref_component_is_valid (component : list N) : bool :=
  (component != []) && negb (slice_starts_with component (bytes "."))
  && negb (ends_with (bytes ".lock") component).
Definition valid_full_ref_name (reference : GitRefName) : bool :=
  let bs := bytes reference in
  starts_with "refs/" reference && (5 <? len reference)%N
  && negb (ends_with (bytes "/") bs) && negb (ends_with (bytes ".") bs)
  && negb (any (fun pair => bool_decide (pair ∈ [(46, 46); (64, 123); (47, 47)]%N)) (windows2 bs))
  && negb (any ref_byte_is_refused bs)
  && all ref_component_is_valid (split_bytes 47 bs).

(** [String::from_utf8_lossy]: each maximal invalid prefix becomes U+FFFD.
    [lossy_item]: the length of the next item, and whether it is a character. *)
Definition lossy_second (lead second : N) : bool :=
  match lead with
  | 224%N => in_range 160 191 second
  | 237%N => in_range 128 159 second
  | 240%N => in_range 144 191 second
  | 244%N => in_range 128 143 second
  | _ => utf8_tail second
  end.
Definition lossy_item (bs : list N) : nat * bool :=
  match bs with
  | [] => (0, true)
  | b :: rest =>
      if (b <? 128)%N then (1, true)
      else if negb (in_range 194 244 b) then (1, false)
      else match rest with
      | b1 :: rest1 =>
          if negb (lossy_second b b1) then (1, false)
          else if (b <? 224)%N then (2, true)
          else match rest1 with
          | b2 :: rest2 =>
              if negb (utf8_tail b2) then (2, false)
              else if (b <? 240)%N then (3, true)
              else match rest2 with
              | b3 :: _ => if utf8_tail b3 then (4, true) else (3, false)
              | [] => (3, false)
              end
          | [] => (2, false)
          end
      | [] => (1, false)
      end
  end.
Fixpoint lossy_bytes (fuel : nat) (bs : list N) : list N :=
  match fuel, bs with
  | S fuel, _ :: _ =>
      let '(width, valid) := lossy_item bs in
      (if valid then take width bs else [239; 191; 189]%N) ++ lossy_bytes fuel (drop width bs)
  | _, _ => []
  end.
Definition from_utf8_lossy (s : string) : string :=
  string_of_bytes (lossy_bytes (String.length s) (bytes s)).

(** ** The runtime *)

Inductive WorktreeHealthSummary : Type := WH_Healthy | WH_Attention | WH_Unknown.
#[export] Instance WorktreeHealthSummary_eq_dec : EqDecision WorktreeHealthSummary.
Proof. solve_decision. Defined.
Inductive WorktreePathProjectionState : Type := WP_Present | WP_Absent | WP_Replaced | WP_Unknown.
#[export] Instance WorktreePathProjectionState_eq_dec : EqDecision WorktreePathProjectionState.
Proof. solve_decision. Defined.
Inductive WorktreeRegistrationProjectionState : Type :=
| WR_Matching | WR_Absent | WR_Mismatch | WR_Unknown.
#[export] Instance WorktreeRegistrationProjectionState_eq_dec :
  EqDecision WorktreeRegistrationProjectionState.
Proof. solve_decision. Defined.
Inductive WorktreeHeadProjectionState : Type :=
| WHD_Matching | WHD_Mismatch | WHD_Missing | WHD_Unknown.
#[export] Instance WorktreeHeadProjectionState_eq_dec : EqDecision WorktreeHeadProjectionState.
Proof. solve_decision. Defined.

Record TaskWorktreeHealthFacts : Type := MkTaskWorktreeHealthFacts {
  thf_path_state : WorktreePathProjectionState;
  thf_registration_state : WorktreeRegistrationProjectionState;
  thf_head_state : WorktreeHeadProjectionState;
  thf_launch_ready : bool;
  thf_checked_out_branch : option string;
  thf_status : WorktreeStatusFacts
}.
#[export] Instance TaskWorktreeHealthFacts_eq_dec : EqDecision TaskWorktreeHealthFacts.
Proof. solve_decision. Defined.

(** [TaskWorktreeHealthFacts::unknown] *)
Definition unknown_status : WorktreeStatusFacts :=
  MkWorktreeStatusFacts None CH_Unknown CH_Unknown CT_Unknown CT_Unknown
    (MkSubmoduleFacts SB_Unknown 0 0) LK_Unknown LK_Unknown US_Unknown.
Definition unknown_health_facts (path_state : WorktreePathProjectionState)
    (registration_state : WorktreeRegistrationProjectionState)
    (head_state : WorktreeHeadProjectionState) : TaskWorktreeHealthFacts :=
  MkTaskWorktreeHealthFacts path_state registration_state head_state false None unknown_status.

(** [health_summary] *)
Definition health_summary (facts : TaskWorktreeHealthFacts) : WorktreeHealthSummary :=
  let status := thf_status facts in
  let submodules := sf_state (ws_submodules status) in
  if (ws_tracked status == CH_Unknown) || (ws_staged status == CH_Unknown)
     || (ws_untracked status == CT_Unknown) || (ws_ignored status == CT_Unknown)
     || (submodules == SB_Unknown) || (ws_worktree_lock status == LK_Unknown)
     || (ws_index_lock status == LK_Unknown) || (ws_upstream status == US_Unknown)
     || (thf_path_state facts == WP_Unknown) || (thf_registration_state facts == WR_Unknown)
     || (thf_head_state facts == WHD_Unknown)
  then WH_Unknown
  else if (ws_tracked status == CH_Changed) || (ws_staged status == CH_Changed)
     || (ws_untracked status == CT_Present) || (ws_ignored status == CT_Present)
     || (submodules == SB_InitializedClean) || (submodules == SB_InitializedDirty)
     || (ws_worktree_lock status == LK_Present) || (ws_index_lock status == LK_Present)
     || (thf_path_state facts != WP_Present) || (thf_registration_state facts != WR_Matching)
     || (thf_head_state facts != WHD_Matching)
  then WH_Attention
  else WH_Healthy.

(** [local_branch_display_name] *)
Definition local_branch_display_name (reference : GitRefName) : option string :=
  match strip_prefix "refs/heads/" reference with
  | Some short => if negb (str_is_empty short) && utf8_valid (bytes short) then Some short else None
  | None => None
  end.

Record WorktreeHealthCacheKey : Type := MkWorktreeHealthCacheKey {
  hck_repository_common_dir : string;
  hck_worktree_root : string
}.

Record CachedTaskWorktreeHealth : Type := MkCachedTaskWorktreeHealth {
  cth_task_id : string;
  cth_project_id : string;
  cth_worktree_generation : N;
  cth_managed_worktree_operation_id : string;
  cth_observation_sequence : N;
  cth_observed_at_epoch_ms : N;
  cth_facts : TaskWorktreeHealthFacts;
  cth_summary : WorktreeHealthSummary
}.
#[export] Instance CachedTaskWorktreeHealth_eta : Eta CachedTaskWorktreeHealth := fun r =>
  MkCachedTaskWorktreeHealth (cth_task_id r) (cth_project_id r) (cth_worktree_generation r)
    (cth_managed_worktree_operation_id r) (cth_observation_sequence r)
    (cth_observed_at_epoch_ms r) (cth_facts r) (cth_summary r).

Record AttachedTaskSession : Type := MkAttachedTaskSession {
  ats_session_id : string;
  ats_kind : SessionKind
}.
#[export] Instance AttachedTaskSession_eq_dec : EqDecision AttachedTaskSession.
Proof. solve_decision. Defined.

Record TaskWorktreePresence : Type := MkTaskWorktreePresence {
  twp_observation_sequence : N;
  twp_observed_at_epoch_ms : N;
  twp_attached_sessions : list AttachedTaskSession;
  twp_total_count : N;
  twp_terminal_count : N;
  twp_agent_count : N;
  twp_truncated : bool
}.
#[export] Instance TaskWorktreePresence_eta : Eta TaskWorktreePresence := fun r =>
  MkTaskWorktreePresence (twp_observation_sequence r) (twp_observed_at_epoch_ms r)
    (twp_attached_sessions r) (twp_total_count r) (twp_terminal_count r) (twp_agent_count r)
    (twp_truncated r).

(** [WorktreeProjectionCache] *)
Record WorktreeProjectionCache : Type := MkWorktreeProjectionCache {
  pc_entries : gmap string CachedTaskWorktreeHealth;
  pc_task_keys : gmap string WorktreeHealthCacheKey;
  pc_health_lru : list string;
  pc_presence : gmap string TaskWorktreePresence;
  pc_presence_projects : gmap string string;
  pc_presence_lru : list string;
  pc_next_sequence : N
}.
#[export] Instance WorktreeProjectionCache_eta : Eta WorktreeProjectionCache := fun r =>
  MkWorktreeProjectionCache (pc_entries r) (pc_task_keys r) (pc_health_lru r) (pc_presence r)
    (pc_presence_projects r) (pc_presence_lru r) (pc_next_sequence r).
Definition projection_cache_default : WorktreeProjectionCache :=
  MkWorktreeProjectionCache ∅ ∅ [] ∅ ∅ [] 0.

(** The part of [CoreRuntime] that the methods on worktrees touch.  [wr_clock]
    holds the coming answers of [current_epoch_ms]. *)
Record WorktreeRuntime : Type := MkWorktreeRuntime {
  wr_store : Store;
  wr_projections : WorktreeProjectionCache;
  wr_resume_reservations : gset string;
  wr_provider_history_repair_reservations : gset string;
  wr_clock : nat -> N
}.
#[export] Instance WorktreeRuntime_eta : Eta WorktreeRuntime := fun r =>
  MkWorktreeRuntime (wr_store r) (wr_projections r) (wr_resume_reservations r)
    (wr_provider_history_repair_reservations r) (wr_clock r).

Definition wr_state (rt : WorktreeRuntime) : CurrentState := state (wr_store rt).

Definition WorktreeM (A : Type) : Type := Exec WorktreeRuntime CoreError A.

(** [self.store.method(..).map_err(map)?] *)
Definition on_worktree_store_as {A} (map : StoreError -> CoreError) (m : StoreM A) : WorktreeM A :=
  fun rt =>
    let '(r, store) := m (wr_store rt) in
    (match r with Ok a => Ok a | Err e => Err (map e) end, rt <| wr_store := store |>).
Definition on_worktree_store {A} (m : StoreM A) : WorktreeM A := on_worktree_store_as store_error m.

Definition current_epoch_ms : WorktreeM N := fun rt =>
  (Ok (wr_clock rt 0), rt <| wr_clock := fun k => wr_clock rt (S k) |>).

(** [option.ok_or(error)?], [if condition { return Err(error); }] *)
Definition need {A} (o : option A) (error : CoreError) : WorktreeM A := lift (ok_or o error).
Definition deny_if (condition : bool) (error : CoreError) : WorktreeM unit :=
  if condition then fail error else ret tt.

(** ** The projection cache *)

Definition global_health_cap : nat := 256.
Definition project_health_cap : nat := 64.
Definition attached_session_cap : nat := 64.

(** [WorktreeProjectionCache::next_sequence] *)
Definition next_sequence : WorktreeM N := fun rt =>
  match u64_checked_add (pc_next_sequence (wr_projections rt)) 1 with
  | None => (Err (CoreStoreMessage "observation sequence overflow"), rt)
  | Some sequence =>
      (Ok sequence,
       rt <| wr_projections := (wr_projections rt) <| pc_next_sequence := sequence |> |>)
  end.

(** [touch], [remove_task], [touch_presence], [remove_presence] *)
Definition lru_touch (task_id : string) (lru : list string) : list string :=
  retain (fun candidate => candidate != task_id) lru ++ [task_id].
Definition touch (task_id : string) (c : WorktreeProjectionCache) : WorktreeProjectionCache :=
  c <| pc_health_lru := lru_touch task_id (pc_health_lru c) |>.
Definition remove_task (task_id : string) (c : WorktreeProjectionCache) : WorktreeProjectionCache :=
  c <| pc_entries := delete task_id (pc_entries c) |>
    <| pc_task_keys := delete task_id (pc_task_keys c) |>
    <| pc_health_lru := retain (fun candidate => candidate != task_id) (pc_health_lru c) |>.
Definition touch_presence (task_id : string) (c : WorktreeProjectionCache)
  : WorktreeProjectionCache :=
  c <| pc_presence_lru := lru_touch task_id (pc_presence_lru c) |>.
Definition remove_presence (task_id : string) (c : WorktreeProjectionCache)
  : WorktreeProjectionCache :=
  c <| pc_presence := delete task_id (pc_presence c) |>
    <| pc_presence_projects := delete task_id (pc_presence_projects c) |>
    <| pc_presence_lru := retain (fun candidate => candidate != task_id) (pc_presence_lru c) |>.

(** A [while] loop that evicts one victim per round, or stops without one.  Each
    victim stands in the queue and leaves it, so the queue's length is enough. *)
Fixpoint evict_while {C} (fuel : nat) (over : C -> bool) (victim : C -> option string)
    (remove : string -> C -> C) (c : C) : C :=
  match fuel with
  | 0 => c
  | S fuel =>
      if over c then
        match victim c with
        | Some task_id => evict_while fuel over victim remove (remove task_id c)
        | None => c
        end
      else c
  end.

Definition entries_of_project (project_id : string) (c : WorktreeProjectionCache) : nat :=
  size (filter (fun entry => cth_project_id entry.2 = project_id) (pc_entries c)).
Definition presence_of_project (project_id : string) (c : WorktreeProjectionCache) : nat :=
  size (filter (fun entry => entry.2 = project_id) (pc_presence_projects c)).

(** [enforce_bounds] *)
Definition enforce_bounds (project_id : string) (c : WorktreeProjectionCache)
  : WorktreeProjectionCache :=
  let c :=
    evict_while (S (length (pc_health_lru c)))
      (fun c => (project_health_cap <? entries_of_project project_id c)%nat)
      (fun c => find_first (fun task_id =>
         is_some_and (pc_entries c !! task_id) (fun entry => cth_project_id entry == project_id))
         (pc_health_lru c))
      remove_task c in
  evict_while (S (length (pc_health_lru c)))
    (fun c => (global_health_cap <? size (pc_entries c))%nat)
    (fun c => head (pc_health_lru c)) remove_task c.

(** [enforce_presence_bounds] *)
Definition enforce_presence_bounds (project_id : string) (c : WorktreeProjectionCache)
  : WorktreeProjectionCache :=
  let c :=
    evict_while (S (length (pc_presence_lru c)))
      (fun c => (project_health_cap <? presence_of_project project_id c)%nat)
      (fun c => find_first (fun task_id =>
         is_some_and (pc_presence_projects c !! task_id) (fun project => project == project_id))
         (pc_presence_lru c))
      remove_presence c in
  evict_while (S (length (pc_presence_lru c)))
    (fun c => (global_health_cap <? size (pc_presence c))%nat)
    (fun c => head (pc_presence_lru c)) remove_presence c.

Definition edit_projections (edit : WorktreeProjectionCache -> WorktreeProjectionCache)
  : WorktreeM unit :=
  modify (fun rt => rt <| wr_projections := edit (wr_projections rt) |>).

(** [clear_task_worktree_projections] *)
Definition clear_task_worktree_projections (task_id : string) : WorktreeM unit :=
  edit_projections (fun c => remove_presence task_id (remove_task task_id c)).

Record ProjectionApply : Type := MkProjectionApply {
  pa_changed : bool;
  pa_observation_sequence : N
}.

(** ** Health *)

(** The tuple that a projection must match. *)
Definition changed_proof (task_id : string) (proof : option ManagedWorktreeProof) (generation : N)
  : CoreError :=
  CoreManagedWorktreeProofChanged task_id (mw_operation_id <$> proof) generation.

(** The entry that an equal observation only refreshes. *)
Definition same_health (task : TaskRecord) (proof : ManagedWorktreeProof)
    (facts : TaskWorktreeHealthFacts) (existing : CachedTaskWorktreeHealth) : bool :=
  (cth_worktree_generation existing == t_worktree_generation task)
  && (cth_managed_worktree_operation_id existing == mw_operation_id proof)
  && (cth_facts existing == facts) && (cth_summary existing == health_summary facts).

Definition current_entry {V} (same : V -> bool) (task_id : string) (entries : gmap string V)
  : option V :=
  match entries !! task_id with
  | Some existing => if same existing then Some existing else None
  | None => None
  end.

Definition insert_health (task_id : string) (key : WorktreeHealthCacheKey)
    (entry : CachedTaskWorktreeHealth) (c : WorktreeProjectionCache) : WorktreeProjectionCache :=
  enforce_bounds (cth_project_id entry)
    (touch task_id
       (c <| pc_entries := <[task_id := entry]> (pc_entries c) |>
          <| pc_task_keys := <[task_id := key]> (pc_task_keys c) |>)).

(** [apply_task_worktree_health_facts] *)
Definition apply_task_worktree_health_facts (task_id : string) (facts : TaskWorktreeHealthFacts)
    (observed_at_epoch_ms : N) : WorktreeM ProjectionApply :=
  let! st := gets wr_state in
  let! task := need (find_task st task_id) CoreNotFound in
  let! proof := need (find_proof st task_id)
                  (changed_proof task_id None (t_worktree_generation task)) in
  deny_if (((tw_path <$> t_worktree task) != Some (mw_registered_worktree_path proof))
           || (mw_worktree_generation proof != t_worktree_generation task))
    (changed_proof task_id (Some proof) (t_worktree_generation task)) ;;
  let! c := gets wr_projections in
  match current_entry (same_health task proof facts) task_id (pc_entries c) with
  | Some existing =>
      edit_projections (fun c =>
        touch task_id
          (c <| pc_entries :=
                  <[task_id := existing <| cth_observed_at_epoch_ms := observed_at_epoch_ms |>]>
                    (pc_entries c) |>)) ;;
      ret (MkProjectionApply false (cth_observation_sequence existing))
  | None =>
      edit_projections (remove_task task_id) ;;
      let! sequence := next_sequence in
      edit_projections
        (insert_health task_id
           (MkWorktreeHealthCacheKey (mw_repository_common_dir proof)
              (mw_registered_worktree_path proof))
           (MkCachedTaskWorktreeHealth task_id (t_project_id task) (t_worktree_generation task)
              (mw_operation_id proof) sequence observed_at_epoch_ms facts
              (health_summary facts))) ;;
      ret (MkProjectionApply true sequence)
  end.

Section paths.
Context `{Host}.

(** [Path]'s [==] compares components, for paths without a Windows prefix:
    repeated separators and [.] components do not count, a root does. *)
Fixpoint path_parts (current : list N) (bs : list N) : list (list N) :=
  match bs with
  | [] => [rev current]
  | b :: rest =>
      if is_separator b then rev current :: path_parts [] rest else path_parts (b :: current) rest
  end.
Definition path_components (path : string) : bool * list (list N) :=
  let bs := bytes path in
  let rooted := any is_separator (take 1 bs) in
  let parts := path_parts [] bs in
  (rooted,
   (if negb rooted && bool_decide (head parts = Some [46%N]) then [[46%N]] else [])
   ++ retain (fun part => (part != []) && (part != [46%N])) parts).
Definition path_eq (left right : string) : bool := path_components left == path_components right.

(** [worktree_registered_at] *)
Definition worktree_registered_at (worktree : WorktreeFacts) (destination : string) : bool :=
  match wf_path_state worktree with
  | RP_Present canonical_path => path_eq canonical_path destination
  | RP_Missing | RP_NotDirectory => path_eq (wf_registered_path worktree) destination
  end.

(** [matches!(state, Present { canonical_path } if canonical_path == path)] *)
Definition present_at (path_state : RegisteredPathState) (path : string) : bool :=
  match path_state with
  | RP_Present canonical_path => path_eq canonical_path path
  | RP_Missing | RP_NotDirectory => false
  end.

(** The projection of a health observation. *)
Definition observed_registration (proof : ManagedWorktreeProof) (root : string)
    (registration : option WorktreeFacts) : WorktreeRegistrationProjectionState :=
  match registration with
  | None => WR_Absent
  | Some registration =>
      if path_eq (wf_registered_path registration) (mw_registered_worktree_path proof)
         && present_at (wf_path_state registration) root
      then WR_Matching else WR_Mismatch
  end.
Definition observed_head (proof : ManagedWorktreeProof) (head : HeadState)
  : WorktreeHeadProjectionState :=
  match head with
  | HS_Attached branch _ => if branch == mw_branch_ref proof then WHD_Matching else WHD_Mismatch
  | HS_Detached _ => WHD_Mismatch
  | HS_Unborn _ => WHD_Missing
  end.
Definition observed_health_facts (proof : ManagedWorktreeProof) (root : string)
    (observation : WorktreeHealthObservation) : TaskWorktreeHealthFacts :=
  let registration_state :=
    observed_registration proof root (who_registration observation) in
  let head := rf_head (who_repository observation) in
  MkTaskWorktreeHealthFacts WP_Present registration_state (observed_head proof head)
    (registration_state == WR_Matching)
    (match head with HS_Attached branch _ => local_branch_display_name branch | _ => None end)
    (who_status observation).

(** [Path::to_str] *)
Definition path_to_str (path : string) : option string :=
  if utf8_valid (bytes path) then Some path else None.

(** [apply_task_worktree_health] *)
Definition apply_task_worktree_health (task_id : string) (observation : WorktreeHealthObservation)
    (observed_at_epoch_ms : N) : WorktreeM ProjectionApply :=
  let! st := gets wr_state in
  let! task := need (find_task st task_id) CoreNotFound in
  let! proof := need (find_proof st task_id)
                  (changed_proof task_id None (t_worktree_generation task)) in
  let repository := who_repository observation in
  let! root := need (rf_worktree_root repository ≫= path_to_str) CoreRepositoryUnavailable in
  let! common_dir := need (path_to_str (rf_common_dir repository)) CoreRepositoryUnavailable in
  deny_if (((tw_path <$> t_worktree task) != Some root)
           || (mw_registered_worktree_path proof != root)
           || (mw_repository_common_dir proof != common_dir)
           || (mw_worktree_generation proof != t_worktree_generation task))
    (changed_proof task_id (Some proof) (t_worktree_generation task)) ;;
  apply_task_worktree_health_facts task_id (observed_health_facts proof root observation)
    observed_at_epoch_ms.
End paths.

(** ** Presence *)

(** [existing_directory_comparison_input], at one moment: the identities of the
    directories on the canonical path, unless there is no such directory. *)
Class Directories := comparison_input : string -> option (list N * list (list N)).

Section presence.
Context `{Directories}.

(** [comparison_key] *)
Definition comparison_key (path : string) : result CoreError PathComparisonKey :=
  match comparison_input path with
  | None => Err CoreRepositoryUnavailable
  | Some (root, segments) =>
      match from_normalized_parts root segments with
      | Ok key => Ok key
      | Err _ => Err CoreRepositoryUnavailable
      end
  end.

(** A directory that exists and lies in the target. *)
Definition lies_in (target : PathComparisonKey) (path : string) : bool :=
  match comparison_key path with
  | Ok key => contains_or_equals target key
  | Err _ => false
  end.

(** The Sessions that count: running, or about to run again. *)
Definition session_counts (rt : WorktreeRuntime) (session : SessionRecord) : bool :=
  (s_lifecycle_state session == "running")
  || ((s_lifecycle_state session == "resuming")
      && bool_decide (s_id session ∈ wr_resume_reservations rt))
  || bool_decide (s_id session ∈ wr_provider_history_repair_reservations rt).

Definition u32_max : N := 4294967295.
Definition u32_saturating_add (a b : N) : N := N.min (a + b) u32_max.
Definition saturating_count {A} (p : A -> bool) (l : list A) : N :=
  fold_left (fun n x => if p x then u32_saturating_add n 1 else n) l 0%N.

Record TaskWorktreePresenceFacts : Type := MkTaskWorktreePresenceFacts {
  tpf_attached_sessions : list AttachedTaskSession;
  tpf_total_count : N;
  tpf_terminal_count : N;
  tpf_agent_count : N;
  tpf_truncated : bool
}.

Definition sessions_in (rt : WorktreeRuntime) (target : PathComparisonKey) : list SessionRecord :=
  retain (fun session => session_counts rt session && lies_in target (pd_cwd (s_process session)))
    (sessions (wr_state rt)).

(** [task_worktree_presence_facts] *)
Definition task_worktree_presence_facts (rt : WorktreeRuntime) (target : string)
  : result CoreError TaskWorktreePresenceFacts :=
  let? target_key := comparison_key target in
  let contained := sessions_in rt target_key in
  let terminal_count := saturating_count (fun session => s_kind session == SessionKind_Terminal) contained in
  let agent_count := saturating_count (fun session => s_kind session == SessionKind_Agent) contained in
  let attached :=
    sort_by (fun left right => string_le (ats_session_id left) (ats_session_id right))
      ((fun session => MkAttachedTaskSession (s_id session) (s_kind session)) <$> contained) in
  Ok (MkTaskWorktreePresenceFacts (take attached_session_cap attached)
        (u32_saturating_add terminal_count agent_count) terminal_count agent_count
        (attached_session_cap <? length attached)%nat).

Definition same_presence (facts : TaskWorktreePresenceFacts) (existing : TaskWorktreePresence)
  : bool :=
  (twp_attached_sessions existing == tpf_attached_sessions facts)
  && (twp_total_count existing == tpf_total_count facts)
  && (twp_terminal_count existing == tpf_terminal_count facts)
  && (twp_agent_count existing == tpf_agent_count facts)
  && (twp_truncated existing == tpf_truncated facts).

Definition insert_presence (task_id project_id : string) (entry : TaskWorktreePresence)
    (c : WorktreeProjectionCache) : WorktreeProjectionCache :=
  enforce_presence_bounds project_id
    (touch_presence task_id
       (c <| pc_presence := <[task_id := entry]> (pc_presence c) |>
          <| pc_presence_projects := <[task_id := project_id]> (pc_presence_projects c) |>)).

(** [observe_task_worktree_presence] *)
Definition observe_task_worktree_presence (task_id : string) (observed_at_epoch_ms : N)
  : WorktreeM ProjectionApply :=
  let! st := gets wr_state in
  let! task := need (find_task st task_id) CoreNotFound in
  let! binding := need (t_worktree task) CoreWorktreeRequired in
  let! rt := gets id in
  let! facts := lift (task_worktree_presence_facts rt (tw_path binding)) in
  match current_entry (same_presence facts) task_id (pc_presence (wr_projections rt)) with
  | Some existing =>
      edit_projections (fun c =>
        touch_presence task_id
          (c <| pc_presence :=
                  <[task_id := existing <| twp_observed_at_epoch_ms := observed_at_epoch_ms |>]>
                    (pc_presence c) |>)) ;;
      ret (MkProjectionApply false (twp_observation_sequence existing))
  | None =>
      let! sequence := next_sequence in
      edit_projections
        (insert_presence task_id (t_project_id task)
           (MkTaskWorktreePresence sequence observed_at_epoch_ms (tpf_attached_sessions facts)
              (tpf_total_count facts) (tpf_terminal_count facts) (tpf_agent_count facts)
              (tpf_truncated facts))) ;;
      ret (MkProjectionApply true sequence)
  end.

(** ** Archived Tasks *)

(** [sort(); dedup()] *)
Fixpoint dedup (l : list string) : list string :=
  match l with
  | x :: (y :: _) as rest => if x == y then dedup rest else x :: dedup rest
  | _ => l
  end.
Definition sorted_ids (l : list string) : list string := dedup (sort_by string_le l).

(** A [for] loop that keeps what a fallible test accepts. *)
Fixpoint keep_ok {A E} (test : A -> result E bool) (l : list A) : result E (list A) :=
  match l with
  | [] => Ok []
  | x :: rest =>
      let? kept := test x in
      let? others := keep_ok test rest in
      Ok (if kept then x :: others else others)
  end.

Definition suspensions_of (st : CurrentState) (task_id : string) : list TaskArchiveSuspension :=
  retain (fun suspension => sus_task_id suspension == Some task_id) (task_archive_suspensions st).

(** Whether the cleanup of the Task has got past its reservation. *)
Definition removal_has_begun (st : CurrentState) (task_id : string) : bool :=
  any (fun operation => (co_task_id operation == task_id) && (co_stage operation != CS_Reserved))
    (cleanup_operations st).

Definition session_lies_in (target : PathComparisonKey) (session : SessionRecord)
  : result CoreError bool :=
  let? key := comparison_key (pd_cwd (s_process session)) in
  Ok (contains_or_equals target key).

(** The suspended Sessions of the Project that live in the checkout; the loop
    over Sessions that are not among them refuses. *)
Definition suspended_sessions (st : CurrentState) (task : TaskRecord) : list SessionRecord :=
  omap (fun suspension =>
    find_first (fun session => (s_id session == sus_session_id suspension)
                               && (s_project_id session == t_project_id task)) (sessions st))
    (suspensions_of st (t_id task)).
Fixpoint no_stranger (target : PathComparisonKey) (cohort : list string) (l : list SessionRecord)
  : result CoreError unit :=
  match l with
  | [] => Ok tt
  | session :: rest =>
      let? contained := session_lies_in target session in
      if contained && negb (bool_decide (s_id session ∈ cohort))
      then Err (CoreInvalidParams "archivedTaskDeleteRefused")
      else no_stranger target cohort rest
  end.

(** [archived_task_cleanup_guard] *)
Definition archived_task_cleanup_guard (st : CurrentState) (task_id : string)
  : result CoreError (option (N * list string)) :=
  let? task := ok_or (find_task st task_id) CoreNotFound in
  match t_archived_at_epoch_ms task with
  | None => Ok None
  | Some archived_at =>
      if any (fun operation => tao_task_id operation == task_id) (task_archive_operations st)
      then Err (CoreInvalidParams "archivedTaskDeleteInProgress")
      else
        let declared_cohort := sorted_ids (sus_session_id <$> suspensions_of st task_id) in
        match t_worktree task with
        | None => Ok (Some (archived_at, declared_cohort))
        | Some binding =>
            match comparison_key (tw_path binding) with
            | Err error =>
                if removal_has_begun st task_id then Ok (Some (archived_at, declared_cohort))
                else Err error
            | Ok target_key =>
                let? contained :=
                  keep_ok (session_lies_in target_key) (suspended_sessions st task) in
                let cohort := sorted_ids (s_id <$> contained) in
                let? _ :=
                  no_stranger target_key cohort
                    (retain (fun session => s_project_id session == t_project_id task)
                       (sessions st)) in
                Ok (Some (archived_at, cohort))
            end
        end
  end.

(** [ensure_task_cleanup_allowed] *)
Definition ensure_task_cleanup_allowed (st : CurrentState) (task_id : string)
  : result CoreError (option N) :=
  let? guard := archived_task_cleanup_guard st task_id in
  Ok (fst <$> guard).
End presence.
