(* ===== verification/CleanupSaga.v ===== *)
(** * Cleaning up the worktree of a Task

    [core/src/task_worktree/cleanup]: what is observed of a checkout
    ([mod.rs]), when it may be removed ([policy.rs]), the saga that removes it
    over the store's cleanup journal ([saga.rs]) and its recovery after a
    restart ([reconcile.rs]).

    A request is planned under the core's lock, git is asked outside of it, and
    what was observed is applied under the lock again: reserve the cleanup,
    observe once more, announce the removal, remove, verify, forget the
    binding.  Every step checks again that the Task is the one that was
    planned for. *)

From stdpp Require Import gmap.
From S2P Require Import Prelude Keyed Text Domain DomainRules StoreState WorktreeJournals.
From S2P Require Import LaunchTypes Agents WorkflowEngine TaskWorktrees.

Local Open Scope string_scope.
Local Open Scope list_scope.

(** ** Facts about a checkout *)

Inductive CleanupPathState : Type := CPS_Present | CPS_Absent | CPS_Replaced | CPS_Unknown.
#[export] Instance CleanupPathState_eq_dec : EqDecision CleanupPathState.
Proof. solve_decision. Defined.

Inductive CleanupRegistrationState : Type :=
| CRS_Matching | CRS_Absent | CRS_Mismatch | CRS_Unknown.
#[export] Instance CleanupRegistrationState_eq_dec : EqDecision CleanupRegistrationState.
Proof. solve_decision. Defined.

Inductive CleanupWarning : Type :=
| CW_UpstreamBehind | CW_UpstreamAhead | CW_UpstreamDiverged | CW_UpstreamNotConfigured
| CW_UpstreamMissing | CW_UpstreamUnknown.

Record TaskWorktreeCleanupFacts : Type := MkTaskWorktreeCleanupFacts {
  tcf_path_state : CleanupPathState;
  tcf_registration_state : CleanupRegistrationState;
  tcf_branch_matches : option bool;
  tcf_head_matches : option bool;
  tcf_alternate_checkout_matches : bool;
  tcf_head_oid : option string;
  tcf_health : option WorktreeHealthObservation
}.

(** The answers of git and of the file system during one observation;
    [git_runner] is the search for git and the arming of its deadline. *)
Record Git : Type := MkGit {
  git_runner : result GitError unit;
  inspect_repository : string -> result GitError RepositoryFacts;
  canonical_directory_if_exists : string -> result unit (option string);
  list_worktrees : string -> result GitError (list WorktreeFacts);
  resolve_ref : string -> GitRefName -> result GitError (option ObjectId);
  inspect_worktree_health : string -> result GitError WorktreeHealthObservation
}.

(** [result.map_err(map_git_observation_error)] *)
Definition observing {A} (r : result GitError A) : result CoreError A :=
  match r with Ok a => Ok a | Err e => Err (map_git_observation_error e) end.

Section observation.
Context `{Host}.

(** [WorktreeFacts]' derived [==] *)
Definition path_state_eq (left right : RegisteredPathState) : bool :=
  match left, right with
  | RP_Present l, RP_Present r => path_eq l r
  | RP_Missing, RP_Missing | RP_NotDirectory, RP_NotDirectory => true
  | _, _ => false
  end.
Definition worktree_facts_eq (left right : WorktreeFacts) : bool :=
  path_eq (wf_registered_path left) (wf_registered_path right)
  && path_state_eq (wf_path_state left) (wf_path_state right)
  && (wf_checkout left == wf_checkout right) && (wf_locked left == wf_locked right)
  && (wf_prunable left == wf_prunable right) && Bool.eqb (wf_is_main left) (wf_is_main right).

(** [exact_alternate_attached_checkout] *)
Definition exact_alternate_attached_checkout (proof : ManagedWorktreeProof) (destination : string)
    (listed_registration : option WorktreeFacts) (health : WorktreeHealthObservation) : bool :=
  match listed_registration, who_registration health with
  | Some listed, Some observed =>
      let repository := who_repository health in
      worktree_facts_eq listed observed
      && path_eq (wf_registered_path listed) destination
      && present_at (wf_path_state listed) destination
      && path_eq (rf_common_dir repository) (mw_repository_common_dir proof)
      && is_some_and (rf_worktree_root repository) (fun root => path_eq root destination)
      && match wf_checkout listed, rf_head repository with
         | WC_Branch registered_branch (Some registered_oid),
           HS_Attached checked_out_branch checked_out_oid =>
             (registered_branch == checked_out_branch) && (registered_oid == checked_out_oid)
             && (checked_out_branch != mw_branch_ref proof)
         | _, _ => false
         end
  | _, _ => false
  end.

Definition head_on_branch (branch_ref : string) (head : HeadState) : bool :=
  match head with HS_Attached branch _ => branch == branch_ref | _ => false end.
Definition head_at (branch_oid : option ObjectId) (head : HeadState) : bool :=
  match head with HS_Attached _ oid => Some oid == branch_oid | _ => false end.
Definition registered_on_branch (branch_ref : string) (registration : WorktreeFacts) : bool :=
  match wf_checkout registration with
  | WC_Branch reference _ => reference == branch_ref
  | _ => false
  end.
Definition registered_at_oid (branch_oid : option ObjectId) (registration : WorktreeFacts) : bool :=
  match wf_checkout registration with
  | WC_Branch _ oid => oid == branch_oid
  | WC_Bare | WC_Detached _ => false
  end.

(** [observe_cleanup_facts] *)
Definition observe_cleanup_facts (git : Git) (proof : ManagedWorktreeProof)
    (baseline_branch_ref : option string) : result CoreError TaskWorktreeCleanupFacts :=
  let repository_root := ws_repository_root (mw_normalized_spec proof) in
  let destination := mw_registered_worktree_path proof in
  let? repository := observing (inspect_repository git repository_root) in
  if negb (path_eq (rf_common_dir repository) (mw_repository_common_dir proof))
  then Ok (MkTaskWorktreeCleanupFacts CPS_Unknown CRS_Mismatch None None false None None)
  else
  let? path_state :=
    match canonical_directory_if_exists git destination with
    | Err _ => Err CoreRepositoryUnavailable
    | Ok None => Ok CPS_Absent
    | Ok (Some path) => Ok (if path_eq path destination then CPS_Present else CPS_Replaced)
    end in
  let? worktrees := observing (list_worktrees git repository_root) in
  let registration :=
    find_first (fun worktree => worktree_registered_at worktree destination) worktrees in
  let registration_state := if is_some registration then CRS_Matching else CRS_Absent in
  let observed_branch_ref := default (mw_branch_ref proof) baseline_branch_ref in
  let? _ :=
    observing (if valid_full_ref_name observed_branch_ref then Ok tt else Err GE_ParseFailed) in
  let? branch_oid := observing (resolve_ref git repository_root observed_branch_ref) in
  let head_oid := from_utf8_lossy <$> branch_oid in
  if (path_state == CPS_Present) && (registration_state == CRS_Matching) then
    let? health := observing (inspect_worktree_health git destination) in
    let head := rf_head (who_repository health) in
    Ok (MkTaskWorktreeCleanupFacts path_state registration_state
          (Some (head_on_branch observed_branch_ref head)) (Some (head_at branch_oid head))
          (exact_alternate_attached_checkout proof destination registration health)
          head_oid (Some health))
  else
    Ok (MkTaskWorktreeCleanupFacts path_state registration_state
          (registered_on_branch observed_branch_ref <$> registration)
          (registered_at_oid branch_oid <$> registration) false head_oid None).
End observation.

(** ** What travels between the steps

    The structs of [saga.rs] and [reconcile.rs]; the handle on git that they
    carry is [Git], which each observation gets anew. *)

Record TaskWorktreeCleanupPlan : Type := MkTaskWorktreeCleanupPlan {
  cp_project_id : string;
  cp_expected_task_archived_at_epoch_ms : option N;
  cp_operation_id : string;
  cp_task_id : string;
  cp_expected_managed_worktree_operation_id : string;
  cp_expected_worktree_generation : N;
  cp_cleanup_mode : WorktreeCleanupMode;
  cp_acknowledged_content_blockers : list WorktreeCleanupBlocker;
  cp_supersedes_operation_id : option string;
  cp_proof : ManagedWorktreeProof
}.

Record TaskWorktreeCleanupFinalization : Type := MkTaskWorktreeCleanupFinalization {
  fin_task_id : string;
  fin_operation_id : string;
  fin_receipt : WorktreeCleanupReceipt
}.

Record ObservedTaskWorktreeCleanup : Type := MkObservedTaskWorktreeCleanup {
  oc_expected_task_archived_at_epoch_ms : option N;
  oc_operation_id : string;
  oc_task_id : string;
  oc_expected_managed_worktree_operation_id : string;
  oc_expected_worktree_generation : N;
  oc_cleanup_mode : WorktreeCleanupMode;
  oc_acknowledged_content_blockers : list WorktreeCleanupBlocker;
  oc_supersedes_operation_id : option string;
  oc_proof : ManagedWorktreeProof;
  oc_facts : TaskWorktreeCleanupFacts
}.

(** [TaskWorktreeCleanupObservationStep], [TaskWorktreeCleanupRemovalStep] and
    [TaskWorktreeCleanupRecoveryPlan] have the same fields. *)
Record TaskWorktreeCleanupStep : Type := MkTaskWorktreeCleanupStep {
  cst_expected_task_archived_at_epoch_ms : option N;
  cst_operation : WorktreeCleanupOperation;
  cst_proof : ManagedWorktreeProof
}.

Record ExecutedTaskWorktreeCleanupRemoval : Type := MkExecutedTaskWorktreeCleanupRemoval {
  er_step : TaskWorktreeCleanupStep;
  er_result : result GitError unit
}.

(** A cleanup's reply: [cleanup_running_result] and [cleanup_result]. *)
Record CleanupAnswer (Projection : Type) : Type := MkCleanupAnswer {
  ca_task : Projection;
  ca_managed_worktree_operation_id : string;
  ca_worktree_generation : N;
  ca_outcome : string;
  ca_cleanup : option WorktreeCleanupOperation
}.
Arguments MkCleanupAnswer {Projection}.
Arguments ca_task {Projection}.
Arguments ca_managed_worktree_operation_id {Projection}.
Arguments ca_worktree_generation {Projection}.
Arguments ca_outcome {Projection}.
Arguments ca_cleanup {Projection}.

Inductive TaskWorktreeCleanupPlanning (Projection : Type) : Type :=
| Planning_Return (answer : CleanupAnswer Projection)
| Planning_Observe (plan : TaskWorktreeCleanupPlan)
| Planning_Finalize (finalization : TaskWorktreeCleanupFinalization).
Arguments Planning_Return {Projection}.
Arguments Planning_Observe {Projection}.
Arguments Planning_Finalize {Projection}.

Inductive TaskWorktreeCleanupProgress (Projection : Type) : Type :=
| Progress_Return (answer : CleanupAnswer Projection)
| Progress_Revalidate (step : TaskWorktreeCleanupStep)
| Progress_Remove (step : TaskWorktreeCleanupStep)
| Progress_Verify (step : TaskWorktreeCleanupStep).
Arguments Progress_Return {Projection}.
Arguments Progress_Revalidate {Projection}.
Arguments Progress_Remove {Projection}.
Arguments Progress_Verify {Projection}.

(** [TaskWorktreeCleanupPlan::observe]; [TaskWorktreeCleanupObservationStep::observe]
    and [TaskWorktreeCleanupRecoveryPlan::observe]. *)
Definition plan_observe `{Host} (git : Git) (plan : TaskWorktreeCleanupPlan)
  : result CoreError ObservedTaskWorktreeCleanup :=
  let? _ := observing (git_runner git) in
  let? facts := observe_cleanup_facts git (cp_proof plan) None in
  Ok (MkObservedTaskWorktreeCleanup (cp_expected_task_archived_at_epoch_ms plan)
        (cp_operation_id plan) (cp_task_id plan) (cp_expected_managed_worktree_operation_id plan)
        (cp_expected_worktree_generation plan) (cp_cleanup_mode plan)
        (cp_acknowledged_content_blockers plan) (cp_supersedes_operation_id plan) (cp_proof plan)
        facts).

(** The branch that the checkout was on when the cleanup was reserved. *)
Definition baseline_checkout_ref (baseline : WorktreeCleanupBaseline) : string :=
  default (cb_branch_ref baseline) (cb_checkout_branch_ref baseline).
Definition observed_step (step : TaskWorktreeCleanupStep) (facts : TaskWorktreeCleanupFacts)
  : ObservedTaskWorktreeCleanup :=
  let operation := cst_operation step in
  MkObservedTaskWorktreeCleanup (cst_expected_task_archived_at_epoch_ms step)
    (co_operation_id operation) (co_task_id operation)
    (co_managed_worktree_operation_id operation) (co_worktree_generation operation)
    (co_cleanup_mode operation) (co_acknowledged_content_blockers operation) None
    (cst_proof step) facts.
Definition step_observe `{Host} (git : Git) (step : TaskWorktreeCleanupStep)
  : result CoreError ObservedTaskWorktreeCleanup :=
  let? _ := observing (git_runner git) in
  let? facts := observe_cleanup_facts git (cst_proof step)
                  (Some (baseline_checkout_ref (co_baseline (cst_operation step)))) in
  Ok (observed_step step facts).

(** ** Policy *)

Definition push_unique (value : WorktreeCleanupBlocker) (values : list WorktreeCleanupBlocker)
  : list WorktreeCleanupBlocker :=
  if bool_decide (value ∈ values) then values else values ++ [value].
Definition push_unique_if (condition : bool) (value : WorktreeCleanupBlocker)
    (values : list WorktreeCleanupBlocker) : list WorktreeCleanupBlocker :=
  if condition then push_unique value values else values.

Definition both_absent (facts : TaskWorktreeCleanupFacts) : bool :=
  (tcf_path_state facts == CPS_Absent) && (tcf_registration_state facts == CRS_Absent).

Definition orphaned_managed_directory (facts : TaskWorktreeCleanupFacts) : bool :=
  (tcf_path_state facts == CPS_Present) && (tcf_registration_state facts == CRS_Absent)
  && is_none (tcf_branch_matches facts) && is_none (tcf_head_matches facts)
  && is_some (tcf_head_oid facts) && is_none (tcf_health facts).

(** [cleanup_status_policy] *)
Definition change_blocker (change : ChangeState) (changed : WorktreeCleanupBlocker)
    (blockers : list WorktreeCleanupBlocker) : list WorktreeCleanupBlocker :=
  match change with
  | CH_Clean => blockers
  | CH_Changed => blockers ++ [changed]
  | CH_Unknown => push_unique CB_ObservationFailed blockers
  end.
Definition content_blocker (content : ContentState) (present : WorktreeCleanupBlocker)
    (blockers : list WorktreeCleanupBlocker) : list WorktreeCleanupBlocker :=
  match content with
  | CT_Absent => blockers
  | CT_Present => blockers ++ [present]
  | CT_Unknown => push_unique CB_ObservationFailed blockers
  end.
Definition submodule_blocker (submodules : SubmoduleState)
    (blockers : list WorktreeCleanupBlocker) : list WorktreeCleanupBlocker :=
  match submodules with
  | SB_Absent | SB_Uninitialized => blockers
  | SB_InitializedClean | SB_InitializedDirty => blockers ++ [CB_SubmodulePresent]
  | SB_Unknown => push_unique CB_ObservationFailed blockers
  end.
Definition lock_blocker (lock : LockState) (present : WorktreeCleanupBlocker)
    (blockers : list WorktreeCleanupBlocker) : list WorktreeCleanupBlocker :=
  match lock with
  | LK_Absent => blockers
  | LK_Present => blockers ++ [present]
  | LK_Unknown => push_unique CB_ObservationFailed blockers
  end.
Definition upstream_warnings (upstream : UpstreamState) : list CleanupWarning :=
  match upstream with
  | US_InSync => []
  | US_Behind _ => [CW_UpstreamBehind]
  | US_Ahead _ => [CW_UpstreamAhead]
  | US_Diverged _ _ => [CW_UpstreamDiverged]
  | US_NotConfigured => [CW_UpstreamNotConfigured]
  | US_Missing => [CW_UpstreamMissing]
  | US_Unknown => [CW_UpstreamUnknown]
  end.
Definition cleanup_status_policy (status : WorktreeStatusFacts)
  : list WorktreeCleanupBlocker * list CleanupWarning :=
  let blockers := change_blocker (ws_tracked status) CB_TrackedChanges [] in
  let blockers := change_blocker (ws_staged status) CB_StagedChanges blockers in
  let blockers := content_blocker (ws_untracked status) CB_UntrackedContent blockers in
  let blockers := content_blocker (ws_ignored status) CB_IgnoredContent blockers in
  let blockers := submodule_blocker (sf_state (ws_submodules status)) blockers in
  let blockers := lock_blocker (ws_worktree_lock status) CB_WorktreeLock blockers in
  let blockers := lock_blocker (ws_index_lock status) CB_IndexLock blockers in
  (blockers, upstream_warnings (ws_upstream status)).

(** The two [match]es on what git says of the branch and of HEAD. *)
Definition match_blocker (matches : option bool) (excused alternate : bool)
    (mismatch : WorktreeCleanupBlocker) (blockers : list WorktreeCleanupBlocker)
  : list WorktreeCleanupBlocker :=
  match matches with
  | Some true => blockers
  | Some false => push_unique_if (negb alternate) mismatch blockers
  | None => push_unique_if (negb excused) CB_ObservationFailed blockers
  end.

(** [cleanup_policy], on the state of the store and the number of Sessions in
    the checkout: what goes on at the Task, ... *)
Definition busy_blockers (st : CurrentState) (task_id : string) (total_count : N)
    (own_operation_id : option string) : list WorktreeCleanupBlocker :=
  let blockers :=
    push_unique_if (any (fun operation => po_task_id operation == task_id)
                      (provisioning_operations st)) CB_ProvisioningInProgress [] in
  let blockers :=
    push_unique_if (any (fun operation =>
        (co_task_id operation == task_id) && is_none (co_failure operation)
        && (Some (co_operation_id operation) != own_operation_id))
      (cleanup_operations st)) CB_CleanupInProgress blockers in
  let blockers :=
    push_unique_if (any (fun operation => so_task_id operation == task_id)
                      (stale_resolution_operations st)) CB_CleanupInProgress blockers in
  push_unique_if ((0 <? total_count)%N
                  || any (fun operation => rlo_target_task_id operation == task_id)
                       (session_relocation_operations st)) CB_SessionAttached blockers.

(** ... where the checkout stands, ... *)
Definition place_blockers (facts : TaskWorktreeCleanupFacts)
    (blockers : list WorktreeCleanupBlocker) : list WorktreeCleanupBlocker :=
  let blockers :=
    match tcf_path_state facts with
    | CPS_Present | CPS_Absent => blockers
    | CPS_Replaced => push_unique CB_PathReplaced blockers
    | CPS_Unknown => push_unique CB_ObservationFailed blockers
    end in
  let blockers :=
    match tcf_registration_state facts with
    | CRS_Matching | CRS_Absent => blockers
    | CRS_Mismatch => push_unique CB_RegistrationMismatch blockers
    | CRS_Unknown => push_unique CB_ObservationFailed blockers
    end in
  let blockers :=
    match tcf_path_state facts, tcf_registration_state facts with
    | CPS_Absent, CRS_Matching | CPS_Present, CRS_Absent =>
        push_unique CB_PathRegistrationInconsistent blockers
    | _, _ => blockers
    end in
  push_unique_if (orphaned_managed_directory facts) CB_OrphanedManagedDirectory blockers.

(** ... what it is on, and what it holds. *)
Definition cleanup_policy (st : CurrentState) (observed : ObservedTaskWorktreeCleanup)
    (total_count : N) (own_operation_id : option string)
  : list WorktreeCleanupBlocker * list CleanupWarning :=
  let facts := oc_facts observed in
  let excused := both_absent facts || orphaned_managed_directory facts in
  let blockers :=
    place_blockers facts
      (busy_blockers st (oc_task_id observed) total_count own_operation_id) in
  let blockers :=
    match_blocker (tcf_branch_matches facts) excused (tcf_alternate_checkout_matches facts)
      CB_BranchMismatch blockers in
  let blockers :=
    match_blocker (tcf_head_matches facts) excused (tcf_alternate_checkout_matches facts)
      CB_HeadMismatch blockers in
  match tcf_health facts with
  | Some health =>
      let '(status_blockers, warnings) := cleanup_status_policy (who_status health) in
      (fold_left (fun blockers blocker => push_unique blocker blockers) status_blockers blockers,
       warnings)
  | None => (push_unique_if (negb excused) CB_ObservationFailed blockers, [])
  end.

(** [unauthorized_cleanup_blockers]; [is_destructive_eligible] is
    [is_content_blocker]. *)
Definition unauthorized_cleanup_blockers (mode : WorktreeCleanupMode)
    (acknowledged blockers : list WorktreeCleanupBlocker) : list WorktreeCleanupBlocker :=
  match mode with
  | CM_Safe => blockers
  | CM_DiscardCheckoutContent =>
      retain (fun blocker =>
        negb (is_content_blocker blocker) || negb (bool_decide (blocker ∈ acknowledged))) blockers
  end.

(** [requires_recovery_attention] *)
Definition requires_recovery_attention (blockers : list WorktreeCleanupBlocker) : bool :=
  any (fun blocker => match blocker with
    | CB_PathReplaced | CB_PathRegistrationInconsistent | CB_RegistrationMismatch
    | CB_BranchMismatch | CB_HeadMismatch | CB_RecoveryAttention => true
    | _ => false
    end) blockers.

(** [post_removal_matches] *)
Definition post_removal_matches (facts : TaskWorktreeCleanupFacts)
    (operation : WorktreeCleanupOperation) : bool :=
  both_absent facts && (tcf_head_oid facts == Some (cb_head_oid (co_baseline operation))).

(** [cleanup_failure_kind] *)
Definition cleanup_failure_kind (error : CoreError) : WorktreeCleanupFailureKind :=
  match error with
  | CoreGitUnavailable => CF_RepositoryUnavailable
  | CoreRepositoryUnavailable => CF_RecoveryAttention
  | CoreGitUnsupportedVersion | CoreUnsupportedRepository => CF_UnsupportedGit
  | CoreRepositoryPermissionDenied => CF_PermissionDenied
  | CoreGitObservationTimedOut => CF_Timeout
  | CoreGitObservationOutputBound => CF_OutputLimit
  | CoreWorktreeLocked | CoreWorktreePathConflict => CF_RemovalFailed
  | _ => CF_OperationFailed
  end.

(** [health_facts_from_cleanup] *)
Definition health_facts_from_cleanup (facts : TaskWorktreeCleanupFacts) : TaskWorktreeHealthFacts :=
  unknown_health_facts
    (match tcf_path_state facts with
     | CPS_Present => WP_Present | CPS_Absent => WP_Absent
     | CPS_Replaced => WP_Replaced | CPS_Unknown => WP_Unknown
     end)
    (match tcf_registration_state facts with
     | CRS_Matching => WR_Matching | CRS_Absent => WR_Absent
     | CRS_Mismatch => WR_Mismatch | CRS_Unknown => WR_Unknown
     end)
    (match tcf_head_matches facts, tcf_head_oid facts with
     | Some true, _ => WHD_Matching
     | Some false, _ => WHD_Mismatch
     | None, None => if both_absent facts then WHD_Missing else WHD_Unknown
     | None, Some _ => WHD_Unknown
     end).

(** ** The saga *)

(** [policy::proof_changed] *)
Definition runtime_proof_changed (st : CurrentState) (task_id : string) : CoreError :=
  CoreManagedWorktreeProofChanged task_id (mw_operation_id <$> find_proof st task_id)
    (match find_task st task_id with Some task => t_worktree_generation task | None => 0%N end).

(** [cleanup_refused] *)
Definition cleanup_refused (observed : ObservedTaskWorktreeCleanup)
    (blockers : list WorktreeCleanupBlocker) : CoreError :=
  CoreWorktreeCleanupRefused (oc_task_id observed)
    (oc_expected_managed_worktree_operation_id observed)
    (oc_expected_worktree_generation observed) blockers.

(** [cleanup_operation_id_is_owned] *)
Definition cleanup_operation_id_is_owned (st : CurrentState) (operation_id : string)
    (allowed_cleanup : option (string * string)) : bool :=
  any (fun operation => po_operation_id operation == operation_id) (provisioning_operations st)
  || any (fun proof => mw_operation_id proof == operation_id) (managed_worktrees st)
  || any (fun operation =>
       ((co_operation_id operation == operation_id)
        && (allowed_cleanup != Some (co_task_id operation, co_operation_id operation)))
       || (co_managed_worktree_operation_id operation == operation_id)) (cleanup_operations st)
  || any (fun receipt =>
       (cr_operation_id receipt == operation_id)
       || (cr_managed_worktree_operation_id receipt == operation_id)) (cleanup_receipts st).

(** [cleanup_baseline] *)
Definition cleanup_baseline (observed : ObservedTaskWorktreeCleanup)
  : result CoreError WorktreeCleanupBaseline :=
  let facts := oc_facts observed in
  let proof := oc_proof observed in
  let refused := Err (cleanup_refused observed [CB_HeadMismatch]) in
  let? head :=
    if tcf_alternate_checkout_matches facts then
      match rf_head ∘ who_repository <$> tcf_health facts with
      | Some (HS_Attached branch oid) => Ok (Some (from_utf8_lossy branch), from_utf8_lossy oid)
      | _ => refused
      end
    else
      match tcf_head_oid facts with
      | Some head_oid => Ok (None, head_oid)
      | None => refused
      end in
  Ok (MkWorktreeCleanupBaseline (ws_repository_root (mw_normalized_spec proof))
        (mw_repository_common_dir proof) (mw_registered_worktree_path proof)
        (mw_registered_worktree_path proof) (mw_branch_ref proof) head.1 head.2).

(** [requested_cleanup_operation] *)
Definition requested_cleanup_operation (observed : ObservedTaskWorktreeCleanup)
    (baseline : WorktreeCleanupBaseline) (now : N) : WorktreeCleanupOperation :=
  MkWorktreeCleanupOperation (oc_operation_id observed) (oc_task_id observed)
    (oc_expected_worktree_generation observed) (oc_expected_managed_worktree_operation_id observed)
    (oc_cleanup_mode observed) (oc_acknowledged_content_blockers observed) baseline CS_Reserved
    None now now.

(** [map_cleanup_store_error], with the state at the time of the error *)
Definition map_cleanup_store_error (st : CurrentState) (task_id : string) (error : StoreError)
  : CoreError :=
  match error with
  | ManagedWorktreeProofChanged _ => runtime_proof_changed st task_id
  | JournalConflict operation_id => CoreCleanupInProgress task_id operation_id
  | other => store_error other
  end.
Definition on_cleanup_store {A} (task_id : string) (m : StoreM A) : WorktreeM A := fun rt =>
  on_worktree_store_as (map_cleanup_store_error (state (m (wr_store rt)).2) task_id) m rt.

(** [mark_cleanup_attention] *)
Definition mark_cleanup_attention (operation : WorktreeCleanupOperation) : WorktreeM unit :=
  let! now := current_epoch_ms in
  on_worktree_store (fail_task_worktree_cleanup (co_task_id operation) (co_operation_id operation)
    (MkWorktreeCleanupFailure CF_RecoveryAttention [CB_RecoveryAttention]) now) ;;
  ret tt.
Definition attention (operation_id : string) : CoreError :=
  CoreWorktreeCleanupRecoveryAttention operation_id.

(** [outcome_name] *)
Definition outcome_name (outcome : WorktreeCleanupOutcome) : string :=
  match outcome with CO_Removed => "removed" | CO_BindingCleared => "bindingCleared" end.

(** [Value::as_u64] *)
Class JsonNumbers (Value : Type) := json_as_u64 : Value -> option N.

Section saga.
Context `{Host} `{Directories}.

(** [task_current_projection]: the Task as clients see it. *)
Context {Projection : Type}.
Context (task_current_projection : WorktreeRuntime -> string -> result CoreError Projection).

Notation Progress := (TaskWorktreeCleanupProgress Projection).

(** [cleanup_running_result] *)
Definition cleanup_running_result (rt : WorktreeRuntime) (operation : WorktreeCleanupOperation)
  : result CoreError (CleanupAnswer Projection) :=
  let? task := task_current_projection rt (co_task_id operation) in
  Ok (MkCleanupAnswer task (co_managed_worktree_operation_id operation)
        (co_worktree_generation operation) "running" (Some operation)).

(** [cleanup_result] *)
Definition cleanup_result (rt : WorktreeRuntime) (task_id : string)
    (receipt : WorktreeCleanupReceipt) (outcome : string)
  : result CoreError (CleanupAnswer Projection) :=
  let? task := task_current_projection rt task_id in
  Ok (MkCleanupAnswer task (cr_managed_worktree_operation_id receipt)
        (cr_worktree_generation receipt) outcome None).

Definition answer_running (operation : WorktreeCleanupOperation)
  : WorktreeM (CleanupAnswer Projection) :=
  let! rt := gets id in lift (cleanup_running_result rt operation).
Definition answer_result (task_id : string) (receipt : WorktreeCleanupReceipt) (outcome : string)
  : WorktreeM (CleanupAnswer Projection) :=
  let! rt := gets id in lift (cleanup_result rt task_id receipt outcome).
(** [result.map(TaskWorktreeCleanupProgress::Return)] *)
Definition returning (m : WorktreeM (CleanupAnswer Projection)) : WorktreeM Progress :=
  let! answer := m in ret (Progress_Return answer).

(** [refresh_cleanup_presence] *)
Definition refresh_cleanup_presence (task_id : string) (path_is_proven_absent : bool)
  : WorktreeM TaskWorktreePresence :=
  let! now := current_epoch_ms in
  if path_is_proven_absent then ret (MkTaskWorktreePresence 0 now [] 0 0 0 false)
  else
    observe_task_worktree_presence task_id now ;;
    let! c := gets wr_projections in
    need (pc_presence c !! task_id) (CoreStoreMessage "presence projection was not captured").

(** [cache_cleanup_health] *)
Definition cache_cleanup_health (observed : ObservedTaskWorktreeCleanup) : WorktreeM unit :=
  let! now := current_epoch_ms in
  (match tcf_health (oc_facts observed) with
   | Some health => apply_task_worktree_health (oc_task_id observed) health now
   | None =>
       apply_task_worktree_health_facts (oc_task_id observed)
         (health_facts_from_cleanup (oc_facts observed)) now
   end) ;;
  ret tt.

(** [ensure_observed_cleanup_tuple] *)
Definition ensure_observed_cleanup_tuple (st : CurrentState)
    (observed : ObservedTaskWorktreeCleanup) : result CoreError unit :=
  let task_id := oc_task_id observed in
  let? task := ok_or (find_task st task_id) CoreNotFound in
  if t_archived_at_epoch_ms task != oc_expected_task_archived_at_epoch_ms observed
  then Err (CoreInvalidParams "taskArchiveStateChanged")
  else
    let? _ := ensure_task_cleanup_allowed st task_id in
    if (t_worktree_generation task == oc_expected_worktree_generation observed)
       && is_some_and (find_proof st task_id) (fun proof =>
            (mw_worktree_generation proof == oc_expected_worktree_generation observed)
            && (mw_operation_id proof == oc_expected_managed_worktree_operation_id observed)
            && (proof == oc_proof observed))
    then Ok tt
    else Err (runtime_proof_changed st task_id).

(** [complete_cleanup_binding_clear] *)
Definition complete_cleanup_binding_clear (operation : WorktreeCleanupOperation) (outcome : string)
  : WorktreeM (CleanupAnswer Projection) :=
  let task_id := co_task_id operation in
  let! now := current_epoch_ms in
  let! completed := on_worktree_store
    (complete_task_worktree_cleanup task_id (co_operation_id operation) now) in
  on_worktree_store (clear_task_worktree_cleanup task_id (co_operation_id operation)) ;;
  clear_task_worktree_projections task_id ;;
  answer_result task_id (cc_receipt completed) outcome.

(** The step after a reservation: observe once more. *)
Definition revalidate (observed : ObservedTaskWorktreeCleanup)
    (operation : WorktreeCleanupOperation) : Progress :=
  Progress_Revalidate (MkTaskWorktreeCleanupStep (oc_expected_task_archived_at_epoch_ms observed)
    operation (oc_proof observed)).

(** What [begin_task_worktree_cleanup] does with blockers that are not
    authorised. *)
Definition refuse_cleanup (observed : ObservedTaskWorktreeCleanup)
    (blockers : list WorktreeCleanupBlocker) : WorktreeM Progress :=
  if requires_recovery_attention blockers then
    match oc_supersedes_operation_id observed with
    | Some previous_operation_id =>
        let! st := gets wr_state in
        let! previous := need
          (find_first (fun operation => co_operation_id operation == previous_operation_id)
             (cleanup_operations st)) CoreNotFound in
        mark_cleanup_attention previous ;;
        fail (attention (co_operation_id previous))
    | None =>
        let! now := current_epoch_ms in
        let! baseline := lift (cleanup_baseline observed) in
        let! begun := on_cleanup_store (oc_task_id observed)
          (begin_task_worktree_cleanup (requested_cleanup_operation observed baseline now)) in
        match begun with
        | CleanupStarted operation | CleanupCurrent operation =>
            mark_cleanup_attention operation ;;
            fail (attention (co_operation_id operation))
        | CleanupCompleted receipt =>
            returning (answer_result (cr_task_id receipt) receipt "alreadyCompleted")
        end
    end
  else fail (cleanup_refused observed blockers).

(** [CoreRuntime::begin_task_worktree_cleanup] *)
Definition begin_cleanup (observed : ObservedTaskWorktreeCleanup) : WorktreeM Progress :=
  let task_id := oc_task_id observed in
  let facts := oc_facts observed in
  let! st := gets wr_state in
  lift (ensure_observed_cleanup_tuple st observed) ;;
  cache_cleanup_health observed ;;
  let! presence := refresh_cleanup_presence task_id (tcf_path_state facts == CPS_Absent) in
  let blockers :=
    unauthorized_cleanup_blockers (oc_cleanup_mode observed)
      (oc_acknowledged_content_blockers observed)
      (cleanup_policy st observed (twp_total_count presence)
         (Some (oc_operation_id observed))).1 in
  if blockers != [] then refuse_cleanup observed blockers
  else
  let! baseline := lift (cleanup_baseline observed) in
  let! now := current_epoch_ms in
  let requested := requested_cleanup_operation observed baseline now in
  let! begun := on_cleanup_store task_id
    (match oc_supersedes_operation_id observed with
     | Some previous_operation_id =>
         let! operation :=
           supersede_failed_task_worktree_cleanup previous_operation_id requested in
         ret (CleanupStarted operation)
     | None => begin_task_worktree_cleanup requested
     end) in
  match begun with
  | CleanupCompleted receipt =>
      returning (answer_result (cr_task_id receipt) receipt "alreadyCompleted")
  | CleanupCurrent operation =>
      if is_none (co_failure operation) then returning (answer_running operation)
      else
        let! operation := on_worktree_store
          (retry_task_worktree_cleanup (co_task_id operation) (co_operation_id operation) now) in
        ret (revalidate observed operation)
  | CleanupStarted operation =>
      if both_absent facts
      then returning (complete_cleanup_binding_clear operation "bindingCleared")
      else ret (revalidate observed operation)
  end.

(** The end of a removal that both absences confirm. *)
Definition finish_removal (operation : WorktreeCleanupOperation) : WorktreeM Progress :=
  returning (complete_cleanup_binding_clear operation "removed").
Definition fail_with_attention (operation : WorktreeCleanupOperation) : WorktreeM Progress :=
  mark_cleanup_attention operation ;;
  fail (attention (co_operation_id operation)).

(** [apply_task_worktree_cleanup_observation], stage by stage *)
Definition apply_to_reserved (observed : ObservedTaskWorktreeCleanup)
    (operation : WorktreeCleanupOperation) (total_count : N) : WorktreeM Progress :=
  let facts := oc_facts observed in
  let! st := gets wr_state in
  let blockers := (cleanup_policy st observed total_count (Some (co_operation_id operation))).1 in
  let blockers :=
    push_unique_if (tcf_head_oid facts != Some (cb_head_oid (co_baseline operation)))
      CB_HeadMismatch blockers in
  let blockers :=
    unauthorized_cleanup_blockers (co_cleanup_mode operation)
      (co_acknowledged_content_blockers operation) blockers in
  if blockers != [] then
    if requires_recovery_attention blockers then fail_with_attention operation
    else
      on_worktree_store
        (clear_task_worktree_cleanup (co_task_id operation) (co_operation_id operation)) ;;
      fail (cleanup_refused observed blockers)
  else if both_absent facts then
    returning (complete_cleanup_binding_clear operation "bindingCleared")
  else
    let! now := current_epoch_ms in
    let! operation := on_worktree_store
      (advance_task_worktree_cleanup (co_task_id operation) (co_operation_id operation)
         CS_RemovePrepared now) in
    ret (Progress_Remove (MkTaskWorktreeCleanupStep
           (oc_expected_task_archived_at_epoch_ms observed) operation (oc_proof observed))).

Definition apply_to_remove_prepared (observed : ObservedTaskWorktreeCleanup)
    (operation : WorktreeCleanupOperation) : WorktreeM Progress :=
  if post_removal_matches (oc_facts observed) operation then
    let! now := current_epoch_ms in
    let! operation := on_worktree_store
      (advance_task_worktree_cleanup (co_task_id operation) (co_operation_id operation)
         CS_RemovalVerified now) in
    finish_removal operation
  else fail_with_attention operation.

Definition apply_to_removal_verified (observed : ObservedTaskWorktreeCleanup)
    (operation : WorktreeCleanupOperation) : WorktreeM Progress :=
  if post_removal_matches (oc_facts observed) operation then finish_removal operation
  else fail_with_attention operation.

Definition apply_to_binding_cleared (operation : WorktreeCleanupOperation) : WorktreeM Progress :=
  let task_id := co_task_id operation in
  let! st := gets wr_state in
  let! receipt := need (find_first (fun receipt => cr_task_id receipt == task_id)
                          (cleanup_receipts st)) (attention (co_operation_id operation)) in
  on_worktree_store (clear_task_worktree_cleanup task_id (co_operation_id operation)) ;;
  returning (answer_result task_id receipt (outcome_name (cr_outcome receipt))).

(** [apply_task_worktree_cleanup_observation] *)
Definition apply_task_worktree_cleanup_observation (observed : ObservedTaskWorktreeCleanup)
  : WorktreeM Progress :=
  let task_id := oc_task_id observed in
  let! st := gets wr_state in
  lift (ensure_observed_cleanup_tuple st observed) ;;
  cache_cleanup_health observed ;;
  let! operation := need (find_first (is_cleanup task_id (oc_operation_id observed))
                            (cleanup_operations st)) CoreNotFound in
  let! presence := refresh_cleanup_presence task_id
    (tcf_path_state (oc_facts observed) == CPS_Absent) in
  match co_stage operation with
  | CS_Reserved => apply_to_reserved observed operation (twp_total_count presence)
  | CS_RemovePrepared => apply_to_remove_prepared observed operation
  | CS_RemovalVerified => apply_to_removal_verified observed operation
  | CS_BindingCleared => apply_to_binding_cleared operation
  end.

(** The failure that a removal's error is recorded as. *)
Definition removal_failure (error : GitError) : CoreError * WorktreeCleanupFailureKind :=
  match error with
  | GE_CheckoutContentChanged => (CoreWorktreePathConflict, CF_CheckoutContentAppeared)
  | GE_PathConflict => (CoreWorktreePathConflict, CF_RemovalFailed)
  | GE_WorktreeLocked => (CoreWorktreeLocked, CF_RemovalFailed)
  | other =>
      let error := map_git_observation_error other in (error, cleanup_failure_kind error)
  end.

(** [apply_task_worktree_cleanup_removal] *)
Definition apply_task_worktree_cleanup_removal (executed : ExecutedTaskWorktreeCleanupRemoval)
  : WorktreeM Progress :=
  let step := er_step executed in
  let task_id := co_task_id (cst_operation step) in
  let! st := gets wr_state in
  let! current := need (find_first (is_cleanup task_id (co_operation_id (cst_operation step)))
                          (cleanup_operations st)) CoreNotFound in
  deny_if ((co_stage current != CS_RemovePrepared) || is_some (co_failure current))
    (CoreCleanupInProgress (co_task_id current) (co_operation_id current)) ;;
  match er_result executed with
  | Ok _ =>
      ret (Progress_Verify (MkTaskWorktreeCleanupStep
             (cst_expected_task_archived_at_epoch_ms step) current (cst_proof step)))
  | Err error =>
      let '(core_error, kind) := removal_failure error in
      let! now := current_epoch_ms in
      on_worktree_store (fail_task_worktree_cleanup (co_task_id current)
        (co_operation_id current) (MkWorktreeCleanupFailure kind []) now) ;;
      fail core_error
  end.

(** [finalize_task_worktree_cleanup] *)
Definition finalize_task_worktree_cleanup (finalization : TaskWorktreeCleanupFinalization)
  : WorktreeM (CleanupAnswer Projection) :=
  let task_id := fin_task_id finalization in
  let receipt := fin_receipt finalization in
  let! st := gets wr_state in
  let! operation := need
    (find_first (fun operation => is_cleanup task_id (fin_operation_id finalization) operation
                                  && (co_stage operation == CS_BindingCleared))
       (cleanup_operations st)) CoreNotFound in
  deny_if ((co_worktree_generation operation != cr_worktree_generation receipt)
           || (co_managed_worktree_operation_id operation
                 != cr_managed_worktree_operation_id receipt))
    (runtime_proof_changed st task_id) ;;
  on_worktree_store (clear_task_worktree_cleanup task_id (fin_operation_id finalization)) ;;
  clear_task_worktree_projections task_id ;;
  answer_result task_id receipt "alreadyCompleted".

(** ** Planning *)

Context {Value : Type} `{JsonValue Value} `{JsonNumbers Value} `{UuidText}.

(** [required_string] *)
Definition required_string (params : Value) (key : string) : result CoreError string :=
  match json_get params key ≫= json_as_str with
  | Some value => if trim_is_empty value then Err (CoreInvalidParams key) else Ok value
  | None => Err (CoreInvalidParams key)
  end.

(** [cleanup_intent] *)
Definition content_blocker_of_name (name : option string) : option WorktreeCleanupBlocker :=
  match name with
  | Some "trackedChanges" => Some CB_TrackedChanges
  | Some "stagedChanges" => Some CB_StagedChanges
  | Some "untrackedContent" => Some CB_UntrackedContent
  | Some "ignoredContent" => Some CB_IgnoredContent
  | Some "submodulePresent" => Some CB_SubmodulePresent
  | _ => None
  end.
Fixpoint acknowledged_blockers (values : list Value) (blockers : list WorktreeCleanupBlocker)
  : option (list WorktreeCleanupBlocker) :=
  match values with
  | [] => Some blockers
  | value :: rest =>
      match content_blocker_of_name (json_as_str value) with
      | Some blocker =>
          if bool_decide (blocker ∈ blockers) then None
          else acknowledged_blockers rest (blockers ++ [blocker])
      | None => None
      end
  end.
Definition blocker_le (left right : WorktreeCleanupBlocker) : bool :=
  (cleanup_blocker_rank left <=? cleanup_blocker_rank right)%N.
Definition cleanup_intent (params : Value)
  : result CoreError (WorktreeCleanupMode * list WorktreeCleanupBlocker) :=
  let? mode :=
    match json_get params "cleanupMode" ≫= json_as_str with
    | Some "safe" => Ok CM_Safe
    | Some "discardCheckoutContent" => Ok CM_DiscardCheckoutContent
    | _ => Err (CoreInvalidParams "cleanupMode")
    end in
  let refused := Err (CoreInvalidParams "acknowledgedContentBlockers") in
  match json_get params "acknowledgedContentBlockers" ≫= json_as_array with
  | None => refused
  | Some values =>
      match acknowledged_blockers values [] with
      | None => refused
      | Some blockers =>
          let blockers := sort_by blocker_le blockers in
          if ((mode == CM_Safe) && (blockers != []))
             || ((mode == CM_DiscardCheckoutContent) && (blockers == []))
          then refused
          else Ok (mode, blockers)
      end
  end.

(** The request that is being planned. *)
Record CleanupRequest : Type := MkCleanupRequest {
  rq_operation_id : string;
  rq_task_id : string;
  rq_archived_at : option N;
  rq_managed_worktree_operation_id : string;
  rq_worktree_generation : N;
  rq_mode : WorktreeCleanupMode;
  rq_acknowledged : list WorktreeCleanupBlocker
}.

(** The first half of [plan_task_worktree_cleanup]: the parameters. *)
Definition cleanup_request (st : CurrentState) (params : Value) : result CoreError CleanupRequest :=
  let? operation_id := required_string params "operationId" in
  let? _ := ok_or (uuid_canonical_text operation_id) (CoreInvalidParams "operationId") in
  let? task_id := required_string params "taskId" in
  let? archived_at := ensure_task_cleanup_allowed st task_id in
  let? managed_worktree_operation_id :=
    required_string params "expectedManagedWorktreeOperationId" in
  let? generation := ok_or (json_get params "expectedWorktreeGeneration" ≫= json_as_u64)
                       (CoreInvalidParams "expectedWorktreeGeneration") in
  let? intent := cleanup_intent params in
  Ok (MkCleanupRequest operation_id task_id archived_at managed_worktree_operation_id generation
        intent.1 intent.2).

Definition same_intent (request : CleanupRequest) (mode : WorktreeCleanupMode)
    (acknowledged : list WorktreeCleanupBlocker) : bool :=
  (mode == rq_mode request) && (acknowledged == rq_acknowledged request).

(** A Task without a proof: the request was answered before, or cannot be. *)
Definition plan_without_proof (rt : WorktreeRuntime) (task : TaskRecord)
    (request : CleanupRequest) : result CoreError (TaskWorktreeCleanupPlanning Projection) :=
  let st := wr_state rt in
  let task_id := rq_task_id request in
  let operation_id := rq_operation_id request in
  let unbound :=
    is_none (t_worktree task) && (t_worktree_generation task == rq_worktree_generation request) in
  let receipt := find_first (fun receipt => cr_operation_id receipt == operation_id)
                   (cleanup_receipts st) in
  let of_request receipt :=
    (cr_task_id receipt == task_id)
    && (cr_worktree_generation receipt == rq_worktree_generation request)
    && (cr_managed_worktree_operation_id receipt == rq_managed_worktree_operation_id request) in
  let of_intent receipt :=
    same_intent request (cr_cleanup_mode receipt) (cr_acknowledged_content_blockers receipt) in
  match receipt with
  | Some receipt =>
      if unbound && of_request receipt && negb (of_intent receipt)
      then Err (CoreOperationIdReused operation_id)
      else if unbound && of_request receipt && of_intent receipt then
        if any (fun operation => is_cleanup task_id operation_id operation
                                 && (co_stage operation == CS_BindingCleared))
             (cleanup_operations st)
        then Ok (Planning_Finalize (MkTaskWorktreeCleanupFinalization task_id operation_id receipt))
        else
          let? answer := cleanup_result rt task_id receipt "alreadyCompleted" in
          Ok (Planning_Return answer)
      else if unbound
      then Err (CoreWorktreeCleanupRefused task_id (rq_managed_worktree_operation_id request)
                  (rq_worktree_generation request) [CB_NoBinding])
      else Err (runtime_proof_changed st task_id)
  | None =>
      if unbound
      then Err (CoreWorktreeCleanupRefused task_id (rq_managed_worktree_operation_id request)
                  (rq_worktree_generation request) [CB_NoBinding])
      else Err (runtime_proof_changed st task_id)
  end.

(** What a request makes of the Task's current cleanup: it may run already
    ([inl]), or be superseded. *)
Definition plan_current (request : CleanupRequest) (current : option WorktreeCleanupOperation)
  : result CoreError (WorktreeCleanupOperation + option string) :=
  match current with
  | None => Ok (inr None)
  | Some current =>
      let same_intent :=
        same_intent request (co_cleanup_mode current) (co_acknowledged_content_blockers current) in
      if co_operation_id current == rq_operation_id request then
        if negb same_intent then Err (CoreOperationIdReused (rq_operation_id request))
        else if is_none (co_failure current) then Ok (inl current)
        else Ok (inr None)
      else if is_none (co_failure current) && same_intent then Ok (inl current)
      else if is_some (co_failure current) && (rq_mode request == CM_DiscardCheckoutContent)
      then Ok (inr (Some (co_operation_id current)))
      else Err (CoreCleanupInProgress (rq_task_id request) (co_operation_id current))
  end.

Definition plan_with_proof (rt : WorktreeRuntime) (task : TaskRecord)
    (proof : ManagedWorktreeProof) (request : CleanupRequest)
  : result CoreError (TaskWorktreeCleanupPlanning Projection) :=
  let st := wr_state rt in
  let task_id := rq_task_id request in
  let operation_id := rq_operation_id request in
  if (t_worktree_generation task != rq_worktree_generation request)
     || (mw_worktree_generation proof != rq_worktree_generation request)
     || (mw_operation_id proof != rq_managed_worktree_operation_id request)
  then Err (runtime_proof_changed st task_id)
  else if cleanup_operation_id_is_owned st operation_id (Some (task_id, operation_id))
  then Err (CoreOperationIdReused operation_id)
  else
    let? current := plan_current request
      (find_first (fun current => co_task_id current == task_id) (cleanup_operations st)) in
    match current with
    | inl operation =>
        let? answer := cleanup_running_result rt operation in
        Ok (Planning_Return answer)
    | inr supersedes =>
        Ok (Planning_Observe (MkTaskWorktreeCleanupPlan (t_project_id task)
              (rq_archived_at request) operation_id task_id
              (rq_managed_worktree_operation_id request) (rq_worktree_generation request)
              (rq_mode request) (rq_acknowledged request) supersedes proof))
    end.

(** [plan_task_worktree_cleanup] *)
Definition plan_task_worktree_cleanup (rt : WorktreeRuntime) (params : Value)
  : result CoreError (TaskWorktreeCleanupPlanning Projection) :=
  let st := wr_state rt in
  let? request := cleanup_request st params in
  let task_id := rq_task_id request in
  let? task := ok_or (find_task st task_id) CoreNotFound in
  match find_first (fun repair => ro_task_id repair == task_id) (repair_operations st) with
  | Some repair => Err (CoreRepairInProgress task_id (ro_operation_id repair))
  | None =>
      match find_proof st task_id with
      | None => plan_without_proof rt task request
      | Some proof => plan_with_proof rt task proof request
      end
  end.
End saga.

(** ** Recovery *)

(** [let _ = result;] *)
Definition ignoring {A} (m : WorktreeM A) : WorktreeM unit := fun rt => (Ok tt, (m rt).2).

(** [reconcile_task_worktree_cleanup_operations], for one operation *)
Definition reconcile_cleanup (operation : WorktreeCleanupOperation) : WorktreeM unit :=
  let task_id := co_task_id operation in
  let operation_id := co_operation_id operation in
  match co_stage operation with
  | CS_Reserved =>
      let! now := current_epoch_ms in
      ignoring (on_worktree_store (fail_task_worktree_cleanup task_id operation_id
        (MkWorktreeCleanupFailure CF_OperationFailed []) now))
  | CS_RemovePrepared | CS_RemovalVerified => ret tt
  | CS_BindingCleared =>
      let! st := gets wr_state in
      if any (fun receipt => (cr_task_id receipt == task_id)
                             && (cr_operation_id receipt == operation_id)) (cleanup_receipts st)
      then ignoring (on_worktree_store (clear_task_worktree_cleanup task_id operation_id))
      else ignoring (mark_cleanup_attention operation)
  end.
Definition reconcile_task_worktree_cleanup_operations : WorktreeM unit :=
  let! st := gets wr_state in
  for_each (cleanup_operations st) reconcile_cleanup.

(** [plan_task_worktree_cleanup_recovery] *)
Definition plan_cleanup_recovery (plans : list TaskWorktreeCleanupStep)
    (operation : WorktreeCleanupOperation) : WorktreeM (list TaskWorktreeCleanupStep) :=
  if (co_stage operation == CS_RemovePrepared) || (co_stage operation == CS_RemovalVerified) then
    let! st := gets wr_state in
    match find_proof st (co_task_id operation) with
    | Some proof =>
        let archived_at := find_task st (co_task_id operation) ≫= t_archived_at_epoch_ms in
        ret (plans ++ [MkTaskWorktreeCleanupStep archived_at operation proof])
    | None =>
        ignoring (mark_cleanup_attention operation) ;;
        ret plans
    end
  else ret plans.
Definition plan_task_worktree_cleanup_recovery : WorktreeM (list TaskWorktreeCleanupStep) :=
  let! st := gets wr_state in
  for_fold (cleanup_operations st) [] plan_cleanup_recovery.

(** [cleanup_reservation_for_cwd]: the cleanup or disposal that new launches in
    a directory have to wait for. *)
Definition reserves `{Directories} (target cwd : string) : bool :=
  match comparison_key target, comparison_key cwd with
  | Ok target, Ok cwd => contains_or_equals target cwd
  | _, _ => false
  end.
Definition cleanup_reservation_for_cwd `{Directories} (st : CurrentState) (cwd : string)
  : option (string * string) :=
  match find_first (fun operation =>
          is_none (co_failure operation) && reserves (cb_worktree_path (co_baseline operation)) cwd)
          (cleanup_operations st) with
  | Some operation => Some (co_task_id operation, co_operation_id operation)
  | None =>
      match find_first (fun operation =>
              (so_mode operation == SM_DiscardDirectory) && reserves (so_target_path operation) cwd)
              (stale_resolution_operations st) with
      | Some operation => Some (so_task_id operation, so_operation_id operation)
      | None => None
      end
  end.

(** ** One request from end to end

    [control/handlers/worktree.rs], [cleanup_task_worktree]: the lock is
    released whenever git is asked.  At the [k]-th time, [cw_gate k] is what
    becomes of the permit to observe and of the blocking worker, git and the file
    system answer as [cw_git k] and [cw_directories k] say, a removal ends as
    [cw_remove k] says, and [cw_others k] is what the rest of the daemon does to
    the runtime before the lock is taken again.  The invalidations that the
    handler publishes are left out. *)
Record CleanupWorld : Type := MkCleanupWorld {
  cw_gate : nat -> result CoreError unit;
  cw_git : nat -> Git;
  cw_directories : nat -> Directories;
  cw_remove : nat -> WorktreeCleanupMode -> string -> string -> result GitError unit;
  cw_others : nat -> WorktreeRuntime -> WorktreeRuntime
}.

(** [TaskWorktreeCleanupRemovalStep::execute] *)
Definition step_execute (remove : WorktreeCleanupMode -> string -> string -> result GitError unit)
    (step : TaskWorktreeCleanupStep) : ExecutedTaskWorktreeCleanupRemoval :=
  let operation := cst_operation step in
  let baseline := co_baseline operation in
  MkExecutedTaskWorktreeCleanupRemoval step
    (remove (co_cleanup_mode operation) (cb_repository_root baseline) (cb_worktree_path baseline)).

Section request.
Context `{Host} {Projection : Type}.
Context (task_current_projection : WorktreeRuntime -> string -> result CoreError Projection).
Context (w : CleanupWorld).

Definition Ended : Type := option (result CoreError (CleanupAnswer Projection) * WorktreeRuntime).

(** One round of the loop: the answer, or the next step. *)
Definition drive_round (k : nat) (progress : TaskWorktreeCleanupProgress Projection)
    (rt : WorktreeRuntime)
  : result CoreError (TaskWorktreeCleanupProgress Projection) * WorktreeRuntime :=
  match progress with
  | Progress_Return answer => (Ok (Progress_Return answer), rt)
  | Progress_Revalidate step | Progress_Verify step =>
      match (let? _ := cw_gate w k in step_observe (cw_git w k) step) with
      | Err e => (Err e, rt)
      | Ok observed =>
          @apply_task_worktree_cleanup_observation _ (cw_directories w k) _
            task_current_projection observed (cw_others w k rt)
      end
  | Progress_Remove step =>
      match cw_gate w k with
      | Err e => (Err e, rt)
      | Ok _ =>
          apply_task_worktree_cleanup_removal (step_execute (cw_remove w k) step)
            (cw_others w k rt)
      end
  end.

(** The loop, for at most [fuel] rounds; [None]: it goes on. *)
Fixpoint drive_cleanup (fuel k : nat) (progress : TaskWorktreeCleanupProgress Projection)
    (rt : WorktreeRuntime) : Ended :=
  match progress with
  | Progress_Return answer => Some (Ok answer, rt)
  | _ =>
      match fuel with
      | 0 => None
      | S fuel =>
          match drive_round k progress rt with
          | (Err e, rt) => Some (Err e, rt)
          | (Ok progress, rt) => drive_cleanup fuel (S k) progress rt
          end
      end
  end.

Context {Value : Type} `{JsonValue Value} `{JsonNumbers Value} `{UuidText}.

Definition cleanup_task_worktree (fuel : nat) (params : Value) (rt : WorktreeRuntime) : Ended :=
  match @plan_task_worktree_cleanup (cw_directories w 0) _ task_current_projection _ _ _ _ rt params
  with
  | Err e => Some (Err e, rt)
  | Ok (Planning_Return answer) => Some (Ok answer, rt)
  | Ok (Planning_Finalize finalization) =>
      Some (finalize_task_worktree_cleanup task_current_projection finalization (cw_others w 0 rt))
  | Ok (Planning_Observe plan) =>
      match (let? _ := cw_gate w 0 in plan_observe (cw_git w 0) plan) with
      | Err e => Some (Err e, rt)
      | Ok observed =>
          match @begin_cleanup _ (cw_directories w 0) _ task_current_projection observed
                  (cw_others w 0 rt) with
          | (Err e, rt) => Some (Err e, rt)
          | (Ok progress, rt) => drive_cleanup fuel 1 progress rt
          end
      end
  end.
End request.
