(* ===== verification/CleanupClaims.v ===== *)
(** * What a cleanup of a worktree guarantees

    When the policy lets a checkout go; what holds when git is told to remove
    one, and when a Task forgets it; that a removal whose outcome is unknown is
    not repeated, and that a request ends. *)

From stdpp Require Import gmap.
From S2P Require Import Prelude Keyed Text Domain DomainRules StoreState WorktreeJournals.
From S2P Require Import Transactions JournalPreservation WriteAhead Samples LaunchTypes Agents.
From S2P Require Import AgentClaims.
From S2P Require Import WorkflowEngine TaskWorktrees CleanupSaga.

Local Open Scope string_scope.
Local Open Scope list_scope.

(** ** The policy *)

(** What the request may lose. *)
Definition acknowledged (mode : WorktreeCleanupMode) (acks : list WorktreeCleanupBlocker)
    (blocker : WorktreeCleanupBlocker) : Prop :=
  mode = CM_DiscardCheckoutContent /\ blocker ∈ acks.

(** Every kind of local content is known, and absent or acknowledged; nothing is
    locked. *)
Record status_permits (mode : WorktreeCleanupMode) (acks : list WorktreeCleanupBlocker)
    (status : WorktreeStatusFacts) : Prop := {
  sp_tracked : ws_tracked status = CH_Clean
               \/ ws_tracked status = CH_Changed /\ acknowledged mode acks CB_TrackedChanges;
  sp_staged : ws_staged status = CH_Clean
              \/ ws_staged status = CH_Changed /\ acknowledged mode acks CB_StagedChanges;
  sp_untracked : ws_untracked status = CT_Absent
                 \/ ws_untracked status = CT_Present /\ acknowledged mode acks CB_UntrackedContent;
  sp_ignored : ws_ignored status = CT_Absent
               \/ ws_ignored status = CT_Present /\ acknowledged mode acks CB_IgnoredContent;
  sp_submodules :
    let state := sf_state (ws_submodules status) in
    state = SB_Absent \/ state = SB_Uninitialized
    \/ (state = SB_InitializedClean \/ state = SB_InitializedDirty)
       /\ acknowledged mode acks CB_SubmodulePresent;
  sp_worktree_lock : ws_worktree_lock status = LK_Absent;
  sp_index_lock : ws_index_lock status = LK_Absent
}.

(** Nothing else is going on at the Task, and no Session is in the checkout. *)
Record task_is_idle (st : CurrentState) (task_id : string) (own_operation_id : option string)
    (total_count : N) : Prop := {
  ti_provisioning : forall o, o ∈ provisioning_operations st -> po_task_id o <> task_id;
  ti_cleanup : forall o, o ∈ cleanup_operations st -> co_task_id o = task_id ->
    co_failure o = None -> Some (co_operation_id o) = own_operation_id;
  ti_stale : forall o, o ∈ stale_resolution_operations st -> so_task_id o <> task_id;
  ti_relocation : forall o, o ∈ session_relocation_operations st -> rlo_target_task_id o <> task_id;
  ti_sessions : total_count = 0%N
}.

(** Git vouches for the branch or HEAD: it is the expected one, or the checkout
    is registered on exactly the other branch it is on. *)
Definition vouched (facts : TaskWorktreeCleanupFacts) (matches : option bool) : Prop :=
  matches = Some true \/ (matches = Some false /\ tcf_alternate_checkout_matches facts = true).

Definition checkout_is_gone (mode : WorktreeCleanupMode) (acks : list WorktreeCleanupBlocker)
    (facts : TaskWorktreeCleanupFacts) : Prop :=
  tcf_path_state facts = CPS_Absent /\ tcf_registration_state facts = CRS_Absent
  /\ (tcf_branch_matches facts = None \/ vouched facts (tcf_branch_matches facts))
  /\ (tcf_head_matches facts = None \/ vouched facts (tcf_head_matches facts))
  /\ forall health, tcf_health facts = Some health -> status_permits mode acks (who_status health).

Definition checkout_may_go (mode : WorktreeCleanupMode) (acks : list WorktreeCleanupBlocker)
    (facts : TaskWorktreeCleanupFacts) : Prop :=
  tcf_path_state facts = CPS_Present /\ tcf_registration_state facts = CRS_Matching
  /\ vouched facts (tcf_branch_matches facts) /\ vouched facts (tcf_head_matches facts)
  /\ exists health, tcf_health facts = Some health /\ status_permits mode acks (who_status health).

(** Whether a blocker of this kind stands in the way. *)
Definition blocks (mode : WorktreeCleanupMode) (acks : list WorktreeCleanupBlocker)
    (blocker : WorktreeCleanupBlocker) : bool :=
  match mode with
  | CM_Safe => true
  | CM_DiscardCheckoutContent =>
      negb (is_content_blocker blocker) || negb (bool_decide (blocker ∈ acks))
  end.

Section policy.
Context (mode : WorktreeCleanupMode) (acks : list WorktreeCleanupBlocker).
Notation unauthorized := (unauthorized_cleanup_blockers mode acks).
Implicit Types (blockers : list WorktreeCleanupBlocker) (b : WorktreeCleanupBlocker).

Lemma unauthorized_nil blockers :
  unauthorized blockers = [] <-> forall b, b ∈ blockers -> blocks mode acks b = false.
Proof.
  assert (Hr : unauthorized blockers = retain (blocks mode acks) blockers).
  { unfold unauthorized_cleanup_blockers, blocks. destruct mode; [|done].
    symmetry. by apply retain_all. }
  rewrite Hr. split.
  - intros Hnil b Hb. destruct (blocks mode acks b) eqn:E; [|done].
    assert (b ∈ retain (blocks mode acks) blockers) as Hin by by apply elem_of_retain.
    rewrite Hnil in Hin. by apply elem_of_nil in Hin.
  - intros Hall. destruct (retain _ _) as [|b rest] eqn:E; [done|].
    assert (b ∈ retain (blocks mode acks) blockers) as [Hb Hx]%elem_of_retain by (rewrite E; left).
    by rewrite Hall in Hx.
Qed.

Lemma unauthorized_snoc b blockers :
  unauthorized (blockers ++ [b]) = [] <-> unauthorized blockers = [] /\ blocks mode acks b = false.
Proof. rewrite !unauthorized_nil. set_solver. Qed.

Lemma unauthorized_push b blockers :
  unauthorized (push_unique b blockers) = []
  <-> unauthorized blockers = [] /\ blocks mode acks b = false.
Proof.
  unfold push_unique. case_bool_decide; [|apply unauthorized_snoc].
  rewrite unauthorized_nil. naive_solver.
Qed.

Lemma unauthorized_push_if c b blockers :
  unauthorized (push_unique_if c b blockers) = []
  <-> unauthorized blockers = [] /\ (c = true -> blocks mode acks b = false).
Proof. unfold push_unique_if. destruct c; rewrite ?unauthorized_push; naive_solver. Qed.

Lemma unauthorized_fold status blockers :
  unauthorized (fold_left (fun blockers b => push_unique b blockers) status blockers) = []
  <-> unauthorized blockers = [] /\ unauthorized status = [].
Proof.
  revert blockers. induction status as [|b status IH]; intros blockers; simpl.
  { rewrite (unauthorized_nil []). set_solver. }
  rewrite IH, unauthorized_push, !unauthorized_nil. set_solver.
Qed.

Lemma blocks_content b :
  is_content_blocker b = true -> blocks mode acks b = false <-> acknowledged mode acks b.
Proof.
  intros Hb. unfold blocks, acknowledged. rewrite Hb. destruct mode; simpl.
  - split; [done|]. by intros [? _].
  - rewrite negb_false_iff, bool_decide_eq_true. naive_solver.
Qed.
Lemma blocks_other b : is_content_blocker b = false -> blocks mode acks b = false <-> False.
Proof. intros Hb. unfold blocks. rewrite Hb. by destruct mode. Qed.

(** One observation of the status adds one blocker, or none. *)
Ltac observed_kind :=
  first [rewrite unauthorized_push | rewrite unauthorized_snoc | idtac];
  rewrite ?(blocks_content CB_TrackedChanges), ?(blocks_content CB_StagedChanges),
    ?(blocks_content CB_UntrackedContent), ?(blocks_content CB_IgnoredContent),
    ?(blocks_content CB_SubmodulePresent), ?(blocks_other CB_ObservationFailed),
    ?(blocks_other CB_WorktreeLock), ?(blocks_other CB_IndexLock) by reflexivity;
  naive_solver.

Lemma status_policy_spec status :
  unauthorized (cleanup_status_policy status).1 = [] <-> status_permits mode acks status.
Proof.
  assert (Hchange : forall change b blockers, is_content_blocker b = true ->
    unauthorized (change_blocker change b blockers) = []
    <-> unauthorized blockers = []
        /\ (change = CH_Clean \/ change = CH_Changed /\ acknowledged mode acks b)).
  { intros [] b blockers Hb; simpl; rewrite ?unauthorized_push, ?unauthorized_snoc,
      ?(blocks_content b Hb), ?(blocks_other CB_ObservationFailed) by done; naive_solver. }
  assert (Hcontent : forall content b blockers, is_content_blocker b = true ->
    unauthorized (content_blocker content b blockers) = []
    <-> unauthorized blockers = []
        /\ (content = CT_Absent \/ content = CT_Present /\ acknowledged mode acks b)).
  { intros [] b blockers Hb; simpl; rewrite ?unauthorized_push, ?unauthorized_snoc,
      ?(blocks_content b Hb), ?(blocks_other CB_ObservationFailed) by done; naive_solver. }
  assert (Hlock : forall lock b blockers, is_content_blocker b = false ->
    unauthorized (lock_blocker lock b blockers) = [] <-> unauthorized blockers = [] /\ lock = LK_Absent).
  { intros [] b blockers Hb; simpl; rewrite ?unauthorized_push, ?unauthorized_snoc,
      ?(blocks_other b Hb), ?(blocks_other CB_ObservationFailed) by done; naive_solver. }
  unfold cleanup_status_policy; cbn [fst].
  rewrite !Hlock by done.
  assert (Hsub : forall submodules blockers,
    unauthorized (submodule_blocker submodules blockers) = []
    <-> unauthorized blockers = []
        /\ (submodules = SB_Absent \/ submodules = SB_Uninitialized
            \/ (submodules = SB_InitializedClean \/ submodules = SB_InitializedDirty)
               /\ acknowledged mode acks CB_SubmodulePresent)).
  { intros [] blockers; simpl; observed_kind. }
  rewrite Hsub, !Hcontent, !Hchange, unauthorized_nil by done. split.
  - intros (((((((_&?)&?)&?)&?)&?)&?)&?). by split.
  - intros []. split_and!; try done. set_solver.
Qed.

Lemma match_blocker_spec matches excused alternate b blockers :
  is_content_blocker b = false ->
  unauthorized (match_blocker matches excused alternate b blockers) = []
  <-> unauthorized blockers = []
      /\ (matches = Some true \/ matches = Some false /\ alternate = true
          \/ matches = None /\ excused = true).
Proof.
  intros Hb. destruct matches as [[]|]; simpl;
    rewrite ?unauthorized_push_if, ?(blocks_other b Hb), ?(blocks_other CB_ObservationFailed) by done;
    destruct alternate, excused; naive_solver.
Qed.
End policy.

Lemma none_of_task {A} (key : A -> string) (l : list A) task_id :
  any (fun o => key o == task_id) l = false <-> forall o, o ∈ l -> key o <> task_id.
Proof. rewrite any_false. by setoid_rewrite bool_decide_eq_false. Qed.

Lemma busy_spec mode acks st task_id total_count own :
  unauthorized_cleanup_blockers mode acks (busy_blockers st task_id total_count own) = []
  <-> task_is_idle st task_id own total_count.
Proof.
  unfold busy_blockers. cbv zeta. rewrite !unauthorized_push_if, !blocks_other, unauthorized_nil by done.
  change (?b = true -> False) with (~ b = true). rewrite !not_true_iff_false.
  rewrite orb_false_iff, !none_of_task, any_false, N.ltb_ge. split.
  - intros ((((_ & Hp) & Hc) & Hs) & Hn & Hr). split; try done; [|lia].
    intros o Ho Ht Hf. specialize (Hc o Ho). cbn in Hc. rewrite Hf in Hc.
    rewrite bool_decide_true in Hc by done. simpl in Hc. by guards.
  - intros [Hp Hc Hs Hr ->]. split_and!; try done; [by intros b ?%elem_of_nil|].
    intros o Ho. destruct (bool_decide (co_task_id o = task_id)) eqn:E1; [|done].
    destruct (co_failure o) eqn:E2; [done|]. guards. simpl. by rewrite bool_decide_true by auto.
Qed.

(** Path and registration agree: both there, or both gone. *)
Definition placed (facts : TaskWorktreeCleanupFacts) : Prop :=
  (tcf_path_state facts = CPS_Present /\ tcf_registration_state facts = CRS_Matching)
  \/ (tcf_path_state facts = CPS_Absent /\ tcf_registration_state facts = CRS_Absent).

Lemma place_spec mode acks facts blockers :
  unauthorized_cleanup_blockers mode acks (place_blockers facts blockers) = []
  <-> unauthorized_cleanup_blockers mode acks blockers = [] /\ placed facts.
Proof.
  unfold place_blockers, placed. cbv zeta. rewrite unauthorized_push_if. unfold orphaned_managed_directory.
  destruct (tcf_path_state facts), (tcf_registration_state facts); simpl;
    rewrite ?unauthorized_push, ?(blocks_other _ _ CB_PathReplaced),
      ?(blocks_other _ _ CB_ObservationFailed), ?(blocks_other _ _ CB_RegistrationMismatch),
      ?(blocks_other _ _ CB_PathRegistrationInconsistent) by done;
    naive_solver.
Qed.

(** Nothing is excused but an absence. *)
Lemma placed_excused facts :
  placed facts -> both_absent facts || orphaned_managed_directory facts = both_absent facts.
Proof.
  unfold placed, both_absent, orphaned_managed_directory. intros [[-> ->]|[-> ->]]; done.
Qed.

Lemma policy_spec mode acks st observed total_count own :
  unauthorized_cleanup_blockers mode acks (cleanup_policy st observed total_count own).1 = []
  <-> task_is_idle st (oc_task_id observed) own total_count
      /\ (checkout_is_gone mode acks (oc_facts observed)
          \/ checkout_may_go mode acks (oc_facts observed)).
Proof.
  unfold cleanup_policy, checkout_is_gone, checkout_may_go, vouched.
  set (facts := oc_facts observed). cbv zeta.
  destruct (tcf_health facts) as [health|] eqn:Eh.
  - destruct (cleanup_status_policy (who_status health)) as [status_blockers warnings] eqn:Es.
    cbn [fst]. rewrite unauthorized_fold.
    replace status_blockers with (cleanup_status_policy (who_status health)).1 by by rewrite Es.
    rewrite status_policy_spec, !match_blocker_spec, place_spec, busy_spec by done.
    split.
    + intros ((((Hi & Hp) & Hb) & Hh) & Hs). split; [done|].
      pose proof (placed_excused _ Hp) as Hx. rewrite Hx in *.
      unfold placed, both_absent in *. destruct Hp as [[Ep Er]|[Ep Er]]; rewrite Ep, Er in *; naive_solver.
    + unfold placed. intros [Hi [(Ep & Er & Hb & Hh & Hs)|(Ep & Er & Hb & Hh & h & [= <-] & Hs)]];
        unfold both_absent, orphaned_managed_directory; rewrite Ep, Er; simpl; naive_solver.
  - cbn [fst]. rewrite unauthorized_push_if, blocks_other, !match_blocker_spec, place_spec, busy_spec by done.
    split.
    + intros ((((Hi & Hp) & Hb) & Hh) & Hs). split; [done|].
      pose proof (placed_excused _ Hp) as Hx. rewrite Hx in *.
      unfold placed, both_absent in *. destruct Hp as [[Ep Er]|[Ep Er]]; rewrite Ep, Er in *; naive_solver.
    + unfold placed. intros [Hi [(Ep & Er & Hb & Hh & Hs)|(Ep & Er & Hb & Hh & h & [=] & Hs)]];
        unfold both_absent, orphaned_managed_directory; rewrite Ep, Er; simpl; naive_solver.
Qed.

(** ** Runs of the runtime's methods *)

Lemma bind_ok {S E A B} (m : Exec S E A) (k : A -> Exec S E B) s b s' :
  bind m k s = (Ok b, s') -> exists a s1, m s = (Ok a, s1) /\ k a s1 = (Ok b, s').
Proof. unfold bind. destruct (m s) as [[a|e] s1] eqn:Em; [eauto|discriminate]. Qed.

Lemma lift_ok {S E A} (r : result E A) (s : S) a s' :
  lift r s = (Ok a, s') -> r = Ok a /\ s' = s.
Proof. unfold lift. by intros [= -> ->]. Qed.
Lemma gets_ok {S E A} (f : S -> A) (s : S) a s' :
  gets (E := E) f s = (Ok a, s') -> a = f s /\ s' = s.
Proof. unfold gets. by intros [= <- ->]. Qed.
Lemma ret_ok {S E A} (x : A) (s : S) a s' : ret (E := E) x s = (Ok a, s') -> a = x /\ s' = s.
Proof. unfold ret. by intros [= <- ->]. Qed.
Lemma need_ok {A} (o : option A) e rt a rt' : need o e rt = (Ok a, rt') -> o = Some a /\ rt' = rt.
Proof. unfold need. intros [Ho ->]%lift_ok. by destruct o; simplify_eq/=. Qed.
Lemma deny_ok (c : bool) e rt u rt' : deny_if c e rt = (Ok u, rt') -> c = false /\ rt' = rt.
Proof. unfold deny_if. destruct c; [discriminate|]. by intros [_ ->]%ret_ok. Qed.
Lemma on_store_ok {A} map (m : StoreM A) rt a rt' :
  on_worktree_store_as map m rt = (Ok a, rt') ->
  exists s', m (wr_store rt) = (Ok a, s') /\ rt' = rt <| wr_store := s' |>.
Proof.
  unfold on_worktree_store_as. destruct (m (wr_store rt)) as [[x|e] s']; [|discriminate].
  intros [= <- <-]. eauto.
Qed.
Lemma epoch_ok rt now rt' :
  current_epoch_ms rt = (Ok now, rt') -> wr_store rt' = wr_store rt.
Proof. unfold current_epoch_ms. by intros [= _ <-]. Qed.
Lemma returning_ok {Projection} (m : WorktreeM (CleanupAnswer Projection)) rt progress rt' :
  returning m rt = (Ok progress, rt') -> exists answer, progress = Progress_Return answer.
Proof. unfold returning. intros (a & ? & _ & [-> _]%ret_ok)%bind_ok. eauto. Qed.

(** Takes a successful run apart into the successful runs of its parts. *)
Ltac run_hyp H :=
  lazymatch type of H with
  | bind _ _ _ = (Ok _, _) =>
      let a := fresh "a" in let rt := fresh "rt" in let H1 := fresh "Hrun" in
      apply bind_ok in H as (a & rt & H1 & H); run_hyp H1; run_hyp H
  | gets _ _ = (Ok _, _) => apply gets_ok in H as [? ?]; subst
  | lift _ _ = (Ok _, _) => apply lift_ok in H as [H ?]; subst
  | need _ _ _ = (Ok _, _) => apply need_ok in H as [H ?]; subst
  | deny_if _ _ _ = (Ok _, _) => apply deny_ok in H as [H ?]; subst
  | ret _ _ = (Ok _, _) => apply ret_ok in H as [? ?]; subst
  | fail _ _ = (Ok _, _) => discriminate H
  | (if ?b then _ else _) _ = (Ok _, _) =>
      let E := fresh "Hif" in destruct b eqn:E; run_hyp H
  | _ => idtac
  end.

(** A method that changes nothing but the projections and the clock. *)
Definition lasting (rt : WorktreeRuntime) :=
  (wr_store rt, wr_resume_reservations rt, wr_provider_history_repair_reservations rt).
Definition quiet {A} (m : WorktreeM A) : Prop := forall rt, lasting (m rt).2 = lasting rt.

Lemma quiet_bind {A B} (m : WorktreeM A) (k : A -> WorktreeM B) :
  quiet m -> (forall a, quiet (k a)) -> quiet (bind m k).
Proof.
  intros Hm Hk rt. unfold bind. specialize (Hm rt). destruct (m rt) as [[a|e] rt1]; simpl in *; [|done].
  by rewrite Hk.
Qed.
Lemma quiet_store {A} (m : WorktreeM A) rt : quiet m -> wr_store (m rt).2 = wr_store rt.
Proof. intros Hm. by injection (Hm rt). Qed.
Lemma quiet_ok {A} (m : WorktreeM A) rt a rt' :
  quiet m -> m rt = (Ok a, rt') -> lasting rt' = lasting rt.
Proof. intros Hm E. specialize (Hm rt). by rewrite E in Hm. Qed.

Lemma quiet_gets {A} (f : WorktreeRuntime -> A) : quiet (gets f). Proof. done. Qed.
Lemma quiet_lift {A} (r : result CoreError A) : quiet (lift r). Proof. done. Qed.
Lemma quiet_ret {A} (a : A) : quiet (ret a). Proof. done. Qed.
Lemma quiet_fail {A} e : quiet (A := A) (fail e). Proof. done. Qed.
Lemma quiet_need {A} (o : option A) e : quiet (need o e). Proof. done. Qed.
Lemma quiet_deny c e : quiet (deny_if c e). Proof. by destruct c. Qed.
Lemma quiet_epoch : quiet current_epoch_ms. Proof. done. Qed.
Lemma quiet_edit edit : quiet (edit_projections edit). Proof. done. Qed.
Lemma quiet_sequence : quiet next_sequence.
Proof. intros rt. unfold next_sequence. by destruct (u64_checked_add _ _). Qed.

Create HintDb quiet.
#[export] Hint Resolve quiet_gets quiet_lift quiet_ret quiet_fail quiet_need quiet_deny quiet_epoch
  quiet_edit quiet_sequence : quiet.
Ltac quiet := repeat first [apply quiet_bind; [|intros ?] | case_match | solve [auto with quiet]].

Lemma quiet_health_facts task_id facts now : quiet (apply_task_worktree_health_facts task_id facts now).
Proof. unfold apply_task_worktree_health_facts. quiet. Qed.
#[export] Hint Resolve quiet_health_facts : quiet.

Section quiet.
Context `{Host} `{Directories}.

Lemma quiet_health task_id observation now : quiet (apply_task_worktree_health task_id observation now).
Proof. unfold apply_task_worktree_health. quiet. Qed.
#[local] Hint Resolve quiet_health : quiet.
Lemma quiet_cache observed : quiet (cache_cleanup_health observed).
Proof. unfold cache_cleanup_health. quiet. Qed.
Lemma quiet_observe_presence task_id now : quiet (observe_task_worktree_presence task_id now).
Proof. unfold observe_task_worktree_presence. quiet. Qed.
#[local] Hint Resolve quiet_observe_presence : quiet.
Lemma quiet_refresh task_id absent : quiet (refresh_cleanup_presence task_id absent).
Proof. unfold refresh_cleanup_presence. quiet. Qed.
End quiet.
#[export] Hint Resolve quiet_cache quiet_refresh : quiet.

(** ** Presence *)

Lemma saturating_from {A} (p : A -> bool) l n :
  (n <= u32_max)%N ->
  let total := fold_left (fun n x => if p x then u32_saturating_add n 1 else n) l n in
  (n <= total)%N /\ (total = 0%N -> forall x, x ∈ l -> p x = false).
Proof.
  revert n. induction l as [|x l IH]; intros n Hn; simpl.
  { split; [lia|]. by intros _ x ?%elem_of_nil. }
  destruct (p x) eqn:Ep.
  - destruct (IH (u32_saturating_add n 1)) as [Hle _]; [unfold u32_saturating_add; lia|].
    unfold u32_saturating_add in *. assert (0 < u32_max)%N by (unfold u32_max; lia).
    split; lia.
  - destruct (IH n Hn) as [Hle Hz]. split; [done|].
    intros H0 y [->|Hy]%elem_of_cons; [done|]. by apply Hz.
Qed.
Lemma saturating_count_zero {A} (p : A -> bool) l :
  saturating_count p l = 0%N -> forall x, x ∈ l -> p x = false.
Proof. apply (saturating_from p l 0). unfold u32_max. lia. Qed.

(** Evicting only removes. *)
Lemma evict_while_keeps {C} (P : C -> Prop) fuel over victim remove (c : C) :
  (forall task_id c, P c -> P (remove task_id c)) -> P c -> P (evict_while fuel over victim remove c).
Proof.
  intros Hr. revert c. induction fuel as [|fuel IH]; intros c Hc; simpl; [done|].
  destruct (over c), (victim c); auto.
Qed.

Lemma insert_presence_entry task_id project_id entry c p :
  pc_presence (insert_presence task_id project_id entry c) !! task_id = Some p -> p = entry.
Proof.
  set (P := fun c => forall p, pc_presence c !! task_id = Some p -> p = entry).
  assert (Hr : forall id c, P c -> P (remove_presence id c)).
  { intros id c' HP q. cbn. destruct (decide (id = task_id)) as [->|].
    - by rewrite lookup_delete_eq.
    - rewrite lookup_delete_ne by done. apply HP. }
  revert p. change (P (insert_presence task_id project_id entry c)).
  unfold insert_presence, enforce_presence_bounds. cbv zeta.
  apply evict_while_keeps; [exact Hr|]. apply evict_while_keeps; [exact Hr|].
  intros q. cbn. rewrite lookup_insert_eq. by intros [= <-].
Qed.

Section presence.
Context `{Host} `{Directories}.
Implicit Types rt : WorktreeRuntime.

(** The presence that a cleanup consults, unless the path is gone. *)
Lemma refresh_presence_facts task_id rt presence rt' :
  refresh_cleanup_presence task_id false rt = (Ok presence, rt') ->
  exists task binding facts,
    find_task (wr_state rt) task_id = Some task /\ t_worktree task = Some binding
    /\ task_worktree_presence_facts rt (tw_path binding) = Ok facts
    /\ twp_total_count presence = tpf_total_count facts.
Proof.
  unfold refresh_cleanup_presence, observe_task_worktree_presence. cbv iota. intros Hr. run_hyp Hr.
  unfold current_epoch_ms in Hrun. injection Hrun as <- <-. cbn in *.
  lazymatch goal with
  | Ht : find_task _ _ = Some ?task, Hb : t_worktree ?task = Some ?binding,
    Hf : task_worktree_presence_facts _ _ = Ok ?facts,
    Hp : pc_presence (wr_projections ?rt1) !! _ = Some _, Hm : (match ?o with _ => _ end) _ = _ |- _ =>
      exists task, binding, facts; split_and!; try done; destruct o as [existing|] eqn:Ec; run_hyp Hm
  end.
  - unfold edit_projections, modify in *. simplify_eq/=.
    rewrite lookup_insert_eq in Hr. simplify_eq/=.
    unfold current_entry in Ec. repeat case_match; simplify_eq.
    unfold same_presence in *. guards. congruence.
  - unfold edit_projections, modify in *. simplify_eq/=.
    apply insert_presence_entry in Hr as ->. done.
Qed.

(** No counted Session lives in the target when the presence counts none. *)
Lemma nobody_there rt target facts :
  task_worktree_presence_facts rt target = Ok facts -> tpf_total_count facts = 0%N ->
  exists key, comparison_key target = Ok key
  /\ forall session, session ∈ sessions (wr_state rt) -> session_counts rt session = true ->
       lies_in key (pd_cwd (s_process session)) = false.
Proof.
  unfold task_worktree_presence_facts. destruct (comparison_key target) as [key|]; [|discriminate].
  intros [= <-]. cbn. unfold u32_saturating_add at 1.
  assert (0 < u32_max)%N by (unfold u32_max; lia). intros Hz.
  match type of Hz with N.min (?a + ?b) _ = _ => assert (a = 0 /\ b = 0)%N as [Ht Ha] by lia end.
  exists key. split; [done|]. intros session Hs Hc.
  destruct (lies_in key _) eqn:El; [|done]. exfalso.
  assert (session ∈ sessions_in rt key) as Hin.
  { apply elem_of_retain. split; [done|]. by rewrite Hc. }
  destruct (s_kind session) eqn:Ek.
  - assert (Hk : (s_kind session == SessionKind_Terminal) = false)
      by exact (saturating_count_zero _ _ Ht _ Hin).
    by rewrite Ek in Hk.
  - assert (Hk : (s_kind session == SessionKind_Agent) = false)
      by exact (saturating_count_zero _ _ Ha _ Hin).
    by rewrite Ek in Hk.
Qed.
End presence.

(** ** What the store methods do *)

(** The operation that announces a removal: the reservation, one stage further
    and durable. *)
Record announces (s : Store) (o operation : WorktreeCleanupOperation) (s' : Store) : Prop := {
  an_durable : disk s' = state s';
  an_tuple : ensure_cleanup_tuple (state s) o = Ok tt;
  an_recorded : find_first (is_cleanup (co_task_id o) (co_operation_id o))
                  (cleanup_operations (state s')) = Some operation;
  an_operation : exists now, operation =
    o <| co_stage := CS_RemovePrepared |> <| co_failure := None |> <| co_updated_at_epoch_ms := now |>
}.

Lemma find_first_edit {A} (p : A -> bool) (f : A -> A) (l l' : list A) x y :
  (forall z, p (f z) = p z) ->
  find_first p l = Some x -> find_mut p f l = Some (y, l') -> y = f x /\ find_first p l' = Some y.
Proof.
  intros Hp Hf. rewrite find_mut_position. rewrite position_find in Hf.
  destruct (position p l) as [[i z]|] eqn:E; simplify_eq/=. intros [= <- <-]. split; [done|].
  assert (Hx : p x = true) by exact (proj2 (position_Some p l i x E)).
  by rewrite position_find, (position_insert p l i x (f x)) by (by rewrite ?Hp).
Qed.

Lemma announced task_id operation_id now o s operation s' :
  find_first (is_cleanup task_id operation_id) (cleanup_operations (state s)) = Some o ->
  co_stage o = CS_Reserved ->
  advance_task_worktree_cleanup task_id operation_id CS_RemovePrepared now s = (Ok operation, s') ->
  announces s o operation s'.
Proof.
  intros Ho Hstage.
  pose proof (find_first_holds _ _ _ Ho) as Hkey. unfold is_cleanup in Hkey. guards. subst.
  apply post_ok.
  unfold advance_task_worktree_cleanup, checked_current_cleanup, current_cleanup, edit_cleanup.
  run_post; simplify_eq.
  - guards. congruence.
  - match goal with H : find_mut _ _ _ = Some _ |- _ =>
      apply (find_first_edit _ _ _ _ o) in H as [-> Hrec]; [|done..] end.
    split; cbn [state disk]; try done; [by repeat match goal with u : () |- _ => destruct u end|..|eauto].
    by rewrite (proj1 (committed_fields _)).
Qed.

(** A cleanup past the point where it could announce a removal again. *)
Definition settled (o : WorktreeCleanupOperation) : Prop := cleanup_retry_stage o <> CS_Reserved.
Definition all_settled (task_id operation_id : string) (st : CurrentState) : Prop :=
  forall o, o ∈ cleanup_operations st -> is_cleanup task_id operation_id o = true -> settled o.
Definition cleanup_tasks (st : CurrentState) : list string := co_task_id <$> cleanup_operations st.

(** One cleanup per Task stays one, and what is settled stays so; under [known],
    only for operations that are in the journal. *)
Definition settles_in (known : bool) (only : string -> string -> Prop) (st st' : CurrentState) : Prop :=
  (NoDup (cleanup_tasks st) -> NoDup (cleanup_tasks st'))
  /\ forall task_id operation_id, only task_id operation_id -> all_settled task_id operation_id st ->
     (known = true -> exists o, o ∈ cleanup_operations st /\ is_cleanup task_id operation_id o = true) ->
     all_settled task_id operation_id st'.

Lemma settles_in_ops known only st st' :
  cleanup_operations st' = cleanup_operations st -> settles_in known only st st'.
Proof. unfold settles_in, all_settled, cleanup_tasks. by intros ->. Qed.
#[export] Instance settles_in_stable known only : CommitStable (settles_in known only).
Proof.
  split; [intros; by apply settles_in_ops|]. intros st st'.
  unfold settles_in, all_settled, cleanup_tasks. by rewrite (proj1 (committed_fields st')).
Qed.

(** An edit of one entry that keeps its Task, and keeps it settled. *)
Lemma settles_in_edit known only st st' i o o' :
  cleanup_operations st' = <[i := o']> (cleanup_operations st) ->
  cleanup_operations st !! i = Some o -> co_task_id o' = co_task_id o ->
  (forall task_id operation_id, only task_id operation_id -> is_cleanup task_id operation_id o' = true ->
     (known = true -> exists x, x ∈ cleanup_operations st /\ is_cleanup task_id operation_id x = true) ->
     (is_cleanup task_id operation_id o = true -> settled o) -> settled o') ->
  settles_in known only st st'.
Proof.
  intros Hops Hi Ht Hs. split; unfold cleanup_tasks, all_settled; rewrite Hops.
  - by rewrite (fmap_insert_same co_task_id _ _ o).
  - intros t id Honly Hall Hknown x [->|Hx]%elem_of_insert_list Hk; [|by apply Hall].
    apply (Hs t id); [done..|]. intros Hko. apply Hall; [|done]. by eapply list_elem_of_lookup_2.
Qed.

(** The methods that neither start a cleanup nor record a removal's refusal. *)
Definition settles (st st' : CurrentState) : Prop := settles_in false (fun _ _ => True) st st'.
#[export] Instance settles_stable : CommitStable settles.
Proof. unfold settles. apply _. Qed.

Ltac settled_edit :=
  same_entry;
  match goal with Hp : position _ _ = Some (?i, ?o) |- _ =>
    eapply (settles_in_edit _ _ _ _ i o); [reflexivity|by eapply position_Some|reflexivity|] end;
  intros ? ? _ Hk _ Hset; cbn in Hset; specialize (Hset Hk); unfold settled, cleanup_retry_stage in *; cbn.

Lemma advance_settles task_id operation_id stage now s :
  stage <> CS_Reserved -> stepped settles s (advance_task_worktree_cleanup task_id operation_id stage now s).
Proof.
  intros Hstage. unfold advance_task_worktree_cleanup, checked_current_cleanup, current_cleanup, edit_cleanup.
  step_all. settled_edit. by rewrite andb_false_r.
Qed.

Lemma fail_settles task_id operation_id failure now s :
  cf_kind failure <> CF_CheckoutContentAppeared ->
  stepped settles s (fail_task_worktree_cleanup task_id operation_id failure now s).
Proof.
  intros Hkind. unfold fail_task_worktree_cleanup, checked_current_cleanup, current_cleanup, edit_cleanup.
  step_all. settled_edit. rewrite (bool_decide_eq_false_2 (cf_kind failure = _)), andb_false_r by done.
  intros Hr. apply Hset. by case_match.
Qed.

Lemma retry_settles task_id operation_id now s :
  stepped settles s (retry_task_worktree_cleanup task_id operation_id now s).
Proof.
  unfold retry_task_worktree_cleanup, checked_current_cleanup, current_cleanup, edit_cleanup.
  step_all. settled_edit. by rewrite andb_false_r.
Qed.

Lemma clear_settles task_id operation_id s :
  stepped settles s (clear_task_worktree_cleanup task_id operation_id s).
Proof.
  unfold clear_task_worktree_cleanup. step_all.
  split; unfold cleanup_tasks, all_settled; cbn.
  - intros Hnd. eapply sublist_NoDup; [exact Hnd|]. apply fmap_sublist, sublist_delete.
  - intros t id _ Hall _ o Ho%list_elem_of_delete_inv Hk. by apply Hall.
Qed.

Lemma complete_settles task_id operation_id now s :
  stepped settles s (complete_task_worktree_cleanup task_id operation_id now s).
Proof.
  unfold complete_task_worktree_cleanup, checked_current_cleanup, current_cleanup.
  step_all. settled_edit. by rewrite andb_false_r.
Qed.

(** The methods that start a cleanup. *)
Definition starts (st st' : CurrentState) : Prop := settles_in true (fun _ _ => True) st st'.
#[export] Instance starts_stable : CommitStable starts.
Proof. unfold starts. apply _. Qed.

Lemma begin_starts operation s : stepped starts s (begin_task_worktree_cleanup operation s).
Proof.
  unfold begin_task_worktree_cleanup. step_all. split; unfold cleanup_tasks, all_settled; cbn.
  - intros Hnd. rewrite fmap_app. apply list.NoDup_app. split_and!; [done| |by apply NoDup_singleton].
    intros x (o & -> & Ho)%list_elem_of_fmap Heq%list_elem_of_singleton.
    match goal with Hn : find_first (fun current => co_task_id current == _) _ = None |- _ =>
      rewrite find_first_None in Hn; specialize (Hn o Ho); cbn in Hn, Heq; by guards end.
  - intros t id _ Hall Hknown o [Ho | ->%list_elem_of_singleton]%elem_of_app Hk; [by apply Hall|].
    destruct (Hknown eq_refl) as (x & Hx & Hkx). unfold is_cleanup in *. guards. exfalso.
    match goal with Hn : find_first (fun current => co_operation_id current == _) _ = None |- _ =>
      rewrite find_first_None in Hn; specialize (Hn x Hx); cbn in Hn; guards; congruence end.
Qed.

Lemma owned_by_cleanup st o operation_id :
  o ∈ cleanup_operations st -> co_operation_id o = operation_id ->
  operation_id_owned_anywhere st operation_id = true.
Proof.
  intros Ho <-. unfold operation_id_owned_anywhere, operation_id_owned_by_cleanup.
  assert (any (fun operation => (co_operation_id operation == co_operation_id o)
    || (co_managed_worktree_operation_id operation == co_operation_id o)) (cleanup_operations st) = true) as ->.
  { apply any_true. exists o. split; [done|]. by rewrite bool_decide_true. }
  by rewrite !orb_true_r.
Qed.

Lemma supersede_starts previous_operation_id replacement s :
  stepped starts s (supersede_failed_task_worktree_cleanup previous_operation_id replacement s).
Proof.
  unfold supersede_failed_task_worktree_cleanup. step_all.
  match goal with Hp : position _ _ = Some (?i, ?o) |- _ =>
    destruct (position_Some _ _ _ _ Hp) as [Hi Hk];
    eapply (settles_in_edit _ _ _ _ i o); [reflexivity|done| |] end.
  - unfold is_cleanup in Hk. by guards.
  - intros t id _ Hkr Hknown _. destruct (Hknown eq_refl) as (x & Hx & Hkx).
    unfold is_cleanup in *. guards. exfalso.
    match goal with Ho : operation_id_owned_anywhere _ _ = false |- _ =>
      rewrite (owned_by_cleanup _ x) in Ho; congruence end.
Qed.

(** Only completing a cleanup touches the Tasks: it unbinds the one Task. *)
Definition same_tasks (st st' : CurrentState) : Prop := tasks st' = tasks st.
#[export] Instance same_tasks_stable : CommitStable same_tasks.
Proof.
  split; [done|]. unfold same_tasks. intros st st' <-.
  by destruct (committed_fields st') as (_&_&_&_&_&_&?).
Qed.
#[export] Instance same_tasks_preorder : PreOrder same_tasks.
Proof. split; [done|]. unfold same_tasks. intros a b c. congruence. Qed.

Ltac same_tasks_of_journal :=
  unfold begin_task_worktree_cleanup, advance_task_worktree_cleanup, fail_task_worktree_cleanup,
    retry_task_worktree_cleanup, supersede_failed_task_worktree_cleanup, clear_task_worktree_cleanup,
    checked_current_cleanup, current_cleanup, edit_cleanup;
  step_all; reflexivity.

Lemma begin_same_tasks operation s : stepped same_tasks s (begin_task_worktree_cleanup operation s).
Proof. same_tasks_of_journal. Qed.
Lemma advance_same_tasks t id stage now s :
  stepped same_tasks s (advance_task_worktree_cleanup t id stage now s).
Proof. same_tasks_of_journal. Qed.
Lemma fail_same_tasks t id failure now s :
  stepped same_tasks s (fail_task_worktree_cleanup t id failure now s).
Proof. same_tasks_of_journal. Qed.
Lemma retry_same_tasks t id now s : stepped same_tasks s (retry_task_worktree_cleanup t id now s).
Proof. same_tasks_of_journal. Qed.
Lemma supersede_same_tasks previous replacement s :
  stepped same_tasks s (supersede_failed_task_worktree_cleanup previous replacement s).
Proof. same_tasks_of_journal. Qed.
Lemma clear_same_tasks t id s : stepped same_tasks s (clear_task_worktree_cleanup t id s).
Proof. same_tasks_of_journal. Qed.

(** The Tasks before and after a call differ at most in one lost binding. *)
Definition unbinds (task_id : string) (st st' : CurrentState) : Prop :=
  tasks st' = tasks st
  \/ exists i task now, tasks st !! i = Some task /\ t_id task = task_id
     /\ tasks st' = <[i := unbound_task task now]> (tasks st).
#[export] Instance unbinds_stable task_id : CommitStable (unbinds task_id).
Proof.
  split; [by left|]. unfold unbinds. intros st st'.
  by rewrite (proj2 (proj2 (proj2 (proj2 (proj2 (proj2 (committed_fields st'))))))).
Qed.
Lemma complete_unbinds task_id operation_id now s :
  stepped (unbinds task_id) s (complete_task_worktree_cleanup task_id operation_id now s).
Proof.
  unfold complete_task_worktree_cleanup, checked_current_cleanup, current_cleanup. step_all.
  right. match goal with Hp : position _ (tasks _) = Some (?i, ?t) |- _ =>
    destruct (position_Some _ _ _ _ Hp) as [Hi Hk]; exists i, t, now end.
  by guards.
Qed.

(** ** What the runtime's methods do *)

Definition runs {A} (R : CurrentState -> CurrentState -> Prop) (m : WorktreeM A) : Prop :=
  forall rt, R (wr_state rt) (wr_state (m rt).2).

Lemma runs_bind {A B} (R1 R2 R : CurrentState -> CurrentState -> Prop)
    (m : WorktreeM A) (k : A -> WorktreeM B) :
  (forall a b, R1 a b -> R a b) -> (forall a b c, R1 a b -> R2 b c -> R a c) ->
  runs R1 m -> (forall a, runs R2 (k a)) -> runs R (bind m k).
Proof.
  intros Hsub Htrans Hm Hk rt. unfold bind. specialize (Hm rt).
  destruct (m rt) as [[a|e] rt1]; simpl in *; [|by apply Hsub].
  eapply Htrans; [exact Hm|apply Hk].
Qed.
Lemma runs_then {A B} R `{!PreOrder R} (m : WorktreeM A) (k : A -> WorktreeM B) :
  runs R m -> (forall a, runs R (k a)) -> runs R (bind m k).
Proof. apply runs_bind; [done|]. intros a b c. apply transitivity. Qed.
Lemma runs_quiet {A} (R : CurrentState -> CurrentState -> Prop) `{!Reflexive R} (m : WorktreeM A) :
  quiet m -> runs R m.
Proof. intros Hm rt. unfold wr_state. by rewrite quiet_store. Qed.
Lemma runs_quietly {A B} (R : CurrentState -> CurrentState -> Prop) (m : WorktreeM A)
    (k : A -> WorktreeM B) :
  (forall st, R st st) -> quiet m -> (forall a, runs R (k a)) -> runs R (bind m k).
Proof.
  intros Hr Hm Hk rt. unfold bind. apply (quiet_store m rt) in Hm.
  destruct (m rt) as [[a|e] rt1]; simpl in *; unfold wr_state in *; rewrite <- Hm; [apply Hk|apply Hr].
Qed.
Lemma runs_store {A} R map (m : StoreM A) :
  (forall s, stepped R s (m s)) -> runs R (on_worktree_store_as map m).
Proof.
  intros Hm rt. specialize (Hm (wr_store rt)). unfold stepped, on_worktree_store_as, wr_state in *.
  by destruct (m (wr_store rt)) as [r s'].
Qed.
Lemma runs_cleanup_store {A} R task_id (m : StoreM A) :
  (forall s, stepped R s (m s)) -> runs R (on_cleanup_store task_id m).
Proof. intros Hm rt. apply (runs_store R _ m Hm). Qed.
Lemma runs_mono {A} (R R' : CurrentState -> CurrentState -> Prop) (m : WorktreeM A) :
  (forall a b, R a b -> R' a b) -> runs R m -> runs R' m.
Proof. intros HR Hm rt. by apply HR. Qed.

#[export] Instance settles_preorder : PreOrder settles.
Proof.
  split; [intros st; by apply settles_in_ops|]. intros a b c [Hn1 Hs1] [Hn2 Hs2].
  split; [by auto|]. intros t id _ Hall _. apply Hs2; [done| |discriminate]. by apply Hs1.
Qed.
Lemma starts_settles a b c : starts a b -> settles b c -> starts a c.
Proof.
  intros [Hn1 Hs1] [Hn2 Hs2]. split; [by auto|]. intros t id _ Hall Hk.
  apply Hs2; [done| |discriminate]. by apply Hs1.
Qed.
Lemma settles_starts a b : settles a b -> starts a b.
Proof. intros [Hn Hs]. split; [done|]. intros t id _ Hall _. by apply Hs. Qed.

Lemma attention_is_no_refusal :
  cf_kind (MkWorktreeCleanupFailure CF_RecoveryAttention [CB_RecoveryAttention])
    <> CF_CheckoutContentAppeared.
Proof. done. Qed.

Create HintDb cleanup_runs.
#[export] Hint Resolve clear_settles complete_settles retry_settles begin_starts supersede_starts
  begin_same_tasks advance_same_tasks fail_same_tasks retry_same_tasks supersede_same_tasks
  clear_same_tasks complete_unbinds : cleanup_runs.
#[export] Hint Extern 2 (stepped settles _ (advance_task_worktree_cleanup _ _ _ _ _)) =>
  apply advance_settles; discriminate : cleanup_runs.
#[export] Hint Extern 2 (stepped settles _ (fail_task_worktree_cleanup _ _ _ _ _)) =>
  apply fail_settles; discriminate : cleanup_runs.

(** Follows the code of a method through its branches, for a preorder. *)
Ltac runs :=
  repeat first
    [ apply runs_quiet; [exact _|solve [auto with quiet]]
    | apply runs_store; intros ?; solve [auto with cleanup_runs]
    | apply runs_cleanup_store; intros ?; solve [auto with cleanup_runs]
    | solve [auto with cleanup_runs]
    | apply runs_then; [exact _| |intros ?]
    | case_match ].

Lemma quiet_clear_projections task_id : quiet (clear_task_worktree_projections task_id).
Proof. apply quiet_edit. Qed.
Lemma quiet_answer_result {Projection} (view : WorktreeRuntime -> string -> result CoreError Projection)
    task_id receipt outcome : quiet (answer_result view task_id receipt outcome).
Proof. unfold answer_result. quiet. Qed.
Lemma quiet_answer_running {Projection} (view : WorktreeRuntime -> string -> result CoreError Projection)
    operation : quiet (answer_running view operation).
Proof. unfold answer_running. quiet. Qed.
#[export] Hint Resolve quiet_clear_projections quiet_answer_result quiet_answer_running : quiet.

Lemma attention_settles operation : runs settles (mark_cleanup_attention operation).
Proof. unfold mark_cleanup_attention, on_worktree_store. runs. Qed.
Lemma attention_same_tasks operation : runs same_tasks (mark_cleanup_attention operation).
Proof. unfold mark_cleanup_attention, on_worktree_store. runs. Qed.
#[export] Hint Resolve attention_settles attention_same_tasks : cleanup_runs.

Section saga.
Context `{Host} `{Directories} {Projection : Type}.
Context (view : WorktreeRuntime -> string -> result CoreError Projection).

#[local] Hint Unfold on_worktree_store : core.

Lemma complete_runs_settles operation outcome :
  runs settles (complete_cleanup_binding_clear view operation outcome).
Proof. unfold complete_cleanup_binding_clear, on_worktree_store. runs. Qed.
#[local] Hint Resolve complete_runs_settles : cleanup_runs.

Lemma complete_runs_unbinds operation outcome :
  runs (unbinds (co_task_id operation)) (complete_cleanup_binding_clear view operation outcome).
Proof.
  unfold complete_cleanup_binding_clear, on_worktree_store.
  apply runs_quietly; [by left|auto with quiet|intros now].
  apply (runs_bind (unbinds (co_task_id operation)) same_tasks);
    [done|unfold unbinds, same_tasks; intros ???? ->; done|apply runs_store; auto with cleanup_runs|].
  intros completed. runs.
Qed.

(** What starting a cleanup may do, then what follows it. *)
Ltac runs_start :=
  first
    [ apply runs_quietly; [apply cs_refl|solve [auto with quiet]|intros ?]
    | apply (runs_bind starts settles starts);
        [done|exact starts_settles
        |apply runs_cleanup_store; intros ?; solve [auto with cleanup_runs]|intros ?] ].

Lemma refuse_starts observed blockers : runs starts (refuse_cleanup view observed blockers).
Proof.
  unfold refuse_cleanup, returning. case_match; [case_match|].
  - apply (runs_mono settles); [exact settles_starts|]. runs.
  - repeat runs_start. runs.
  - apply (runs_mono settles); [exact settles_starts|]. runs.
Qed.
Lemma refuse_same_tasks observed blockers : runs same_tasks (refuse_cleanup view observed blockers).
Proof. unfold refuse_cleanup, returning. runs. Qed.

Lemma start_store observed now baseline s :
  stepped starts s
    ((match oc_supersedes_operation_id observed with
      | Some previous_operation_id =>
          let! operation := supersede_failed_task_worktree_cleanup previous_operation_id
            (requested_cleanup_operation observed baseline now) in
          ret (CleanupStarted operation)
      | None => begin_task_worktree_cleanup (requested_cleanup_operation observed baseline now)
      end) s).
Proof.
  case_match; [|apply begin_starts].
  pose proof (supersede_starts s0 (requested_cleanup_operation observed baseline now) s) as Hs.
  unfold stepped, bind in *. by destruct (supersede_failed_task_worktree_cleanup _ _ s) as [[] ?].
Qed.
#[local] Hint Resolve start_store : cleanup_runs.

Lemma begin_runs_starts observed : runs starts (begin_cleanup view observed).
Proof.
  unfold begin_cleanup, returning, on_worktree_store. repeat runs_start.
  case_match; [apply refuse_starts|]. repeat runs_start. runs.
Qed.

Lemma apply_runs_settles observed : runs settles (apply_task_worktree_cleanup_observation view observed).
Proof.
  unfold apply_task_worktree_cleanup_observation, apply_to_reserved, apply_to_remove_prepared,
    apply_to_removal_verified, apply_to_binding_cleared, fail_with_attention, finish_removal, returning,
    on_worktree_store.
  runs.
Qed.

Lemma finalize_runs_settles finalization :
  runs settles (finalize_task_worktree_cleanup view finalization).
Proof. unfold finalize_task_worktree_cleanup, on_worktree_store. runs. Qed.
End saga.

Lemma runs_for_each {A} R `{!PreOrder R} (xs : list A) (body : A -> WorktreeM unit) :
  (forall x, runs R (body x)) -> runs R (for_each xs body).
Proof.
  intros Hb. induction xs as [|x xs IH]; simpl; [apply runs_quiet; [exact _|done]|].
  apply runs_then; [exact _|apply Hb|]. by intros _.
Qed.
Lemma runs_for_fold {A L} R `{!PreOrder R} (xs : list A) (acc : L) (body : L -> A -> WorktreeM L) :
  (forall acc x, runs R (body acc x)) -> runs R (for_fold xs acc body).
Proof.
  intros Hb. revert acc. induction xs as [|x xs IH]; intros acc; simpl; [apply runs_quiet; [exact _|done]|].
  apply runs_then; [exact _|apply Hb|]. by intros acc'.
Qed.
Lemma reconcile_settles : runs settles reconcile_task_worktree_cleanup_operations.
Proof.
  unfold reconcile_task_worktree_cleanup_operations. apply runs_then; [exact _|apply runs_quiet; [exact _|done]|].
  intros st. apply runs_for_each; [exact _|]. intros operation.
  unfold reconcile_cleanup, on_worktree_store. runs.
Qed.
Lemma plan_recovery_settles : runs settles plan_task_worktree_cleanup_recovery.
Proof.
  unfold plan_task_worktree_cleanup_recovery. apply runs_then; [exact _|apply runs_quiet; [exact _|done]|].
  intros st. apply runs_for_fold; [exact _|]. intros plans operation.
  unfold plan_cleanup_recovery. runs.
Qed.

(** A refusal by git moves no other cleanup. *)
Definition settles_but (task_id operation_id : string) : CurrentState -> CurrentState -> Prop :=
  settles_in false (fun t id => ~ (t = task_id /\ id = operation_id)).
#[export] Instance settles_but_stable t id : CommitStable (settles_but t id).
Proof. unfold settles_but. apply _. Qed.

Lemma fail_settles_but task_id operation_id failure now s :
  stepped (settles_but task_id operation_id) s (fail_task_worktree_cleanup task_id operation_id failure now s).
Proof.
  unfold fail_task_worktree_cleanup, checked_current_cleanup, current_cleanup, edit_cleanup.
  step_all. same_entry.
  match goal with Hp : position _ _ = Some (?i, ?o) |- _ =>
    destruct (position_Some _ _ _ _ Hp) as [Hi Hk];
    eapply (settles_in_edit _ _ _ _ i o); [reflexivity|done|reflexivity|] end.
  intros t id Hne Hk' _ _. exfalso. apply Hne. unfold is_cleanup in *. cbn in *. guards. by subst.
Qed.

Lemma settles_settles_but t id a b : settles a b -> settles_but t id a b.
Proof. intros [Hn Hs]. split; [done|]. intros t' id' _. by apply Hs. Qed.

Lemma removal_kind error :
  error <> GE_CheckoutContentChanged -> (removal_failure error).2 <> CF_CheckoutContentAppeared.
Proof. intros He. by destruct error as [| |[] | | | | | | | | | | | | |]. Qed.

Section removal.
Context {Projection : Type}.
Implicit Types executed : ExecutedTaskWorktreeCleanupRemoval.

Lemma removal_settles executed :
  er_result executed <> Err GE_CheckoutContentChanged ->
  runs settles (apply_task_worktree_cleanup_removal (Projection := Projection) executed).
Proof.
  intros Hr. unfold apply_task_worktree_cleanup_removal, on_worktree_store.
  destruct (er_result executed) as [u|error]; [runs|].
  destruct (removal_failure error) as [core_error kind] eqn:Ef.
  assert (Hkind : kind <> CF_CheckoutContentAppeared).
  { intros ->. apply (removal_kind error); [congruence|]. by rewrite Ef. }
  repeat first [progress runs | apply runs_store; intros s; by apply fail_settles].
Qed.

Lemma settles_but_preorder t id : PreOrder (settles_but t id).
Proof.
  split; [intros st; by apply settles_in_ops|]. intros a b c [Hn1 Hs1] [Hn2 Hs2].
  split; [by auto|]. intros t' id' Hne Hall _. apply Hs2; [done| |discriminate]. by apply Hs1.
Qed.

Lemma removal_settles_but executed :
  runs (settles_but (co_task_id (cst_operation (er_step executed)))
          (co_operation_id (cst_operation (er_step executed))))
    (apply_task_worktree_cleanup_removal (Projection := Projection) executed).
Proof.
  pose proof (settles_but_preorder (co_task_id (cst_operation (er_step executed)))
                (co_operation_id (cst_operation (er_step executed)))) as Hpre.
  intros rt. unfold apply_task_worktree_cleanup_removal.
  set (operation := cst_operation (er_step executed)) in *. rewrite bind_run. cbn [gets]. 
  rewrite bind_run. unfold need at 1, lift.
  destruct (find_first _ _) as [current|] eqn:Ec; [|apply Hpre]. cbn [ok_or].
  assert (Hkey : co_task_id current = co_task_id operation /\ co_operation_id current = co_operation_id operation).
  { apply find_first_holds in Ec. unfold is_cleanup in Ec. by guards. }
  destruct Hkey as [Ht Hi]. revert rt Ec. rewrite <- Ht, <- Hi. intros rt _.
  rewrite <- Ht, <- Hi in Hpre. revert rt.
  lazymatch goal with |- forall rt, ?R _ (wr_state (?m _).2) => change (runs R m) end.
  unfold on_worktree_store.
  repeat first [progress runs | apply runs_store; intros s; apply fail_settles_but].
Qed.
End removal.

(** ** Histories of cleanups *)

Section history.
Context `{Host} {Projection : Type}.
Context (view : WorktreeRuntime -> string -> result CoreError Projection).

(** What the daemon does for cleanups while it holds the core's lock. *)
Inductive CleanupCall : Type :=
| Call_begin (directories : Directories) (observed : ObservedTaskWorktreeCleanup)
| Call_observation (directories : Directories) (observed : ObservedTaskWorktreeCleanup)
| Call_removal (executed : ExecutedTaskWorktreeCleanupRemoval)
| Call_finalize (finalization : TaskWorktreeCleanupFinalization)
| Call_reconcile
| Call_plan_recovery.

Inductive CleanupReply : Type :=
| Reply_progress (progress : result CoreError (TaskWorktreeCleanupProgress Projection))
| Reply_answer (answer : result CoreError (CleanupAnswer Projection))
| Reply_reconciled (done : result CoreError unit)
| Reply_plans (plans : result CoreError (list TaskWorktreeCleanupStep)).

Definition run_cleanup_call (call : CleanupCall) (rt : WorktreeRuntime)
  : CleanupReply * WorktreeRuntime :=
  match call with
  | Call_begin directories observed =>
      let '(r, rt) := begin_cleanup view observed rt in (Reply_progress r, rt)
  | Call_observation directories observed =>
      let '(r, rt) := apply_task_worktree_cleanup_observation view observed rt in
      (Reply_progress r, rt)
  | Call_removal executed =>
      let '(r, rt) := apply_task_worktree_cleanup_removal executed rt in (Reply_progress r, rt)
  | Call_finalize finalization =>
      let '(r, rt) := finalize_task_worktree_cleanup view finalization rt in (Reply_answer r, rt)
  | Call_reconcile =>
      let '(r, rt) := reconcile_task_worktree_cleanup_operations rt in (Reply_reconciled r, rt)
  | Call_plan_recovery =>
      let '(r, rt) := plan_task_worktree_cleanup_recovery rt in (Reply_plans r, rt)
  end.

(** Whatever else happens to the runtime: cleanups stay as they are, or go. *)
Definition leaves_cleanups (rt rt' : WorktreeRuntime) : Prop :=
  cleanup_operations (wr_state rt') `sublist_of` cleanup_operations (wr_state rt).

Inductive CleanupEvent : Type :=
| Event_call (call : CleanupCall) (reply : CleanupReply)
| Event_elsewhere.

(** The events after [rt], each with the runtime it leaves. *)
Inductive cleanup_run : WorktreeRuntime -> list (CleanupEvent * WorktreeRuntime) -> Prop :=
| run_end rt : cleanup_run rt []
| run_a_call rt call reply rt' rest :
    run_cleanup_call call rt = (reply, rt') -> cleanup_run rt' rest ->
    cleanup_run rt ((Event_call call reply, rt') :: rest)
| run_elsewhere rt rt' rest :
    leaves_cleanups rt rt' -> cleanup_run rt' rest ->
    cleanup_run rt ((Event_elsewhere, rt') :: rest).

(** Git is told to remove the checkout of this operation. *)
Definition issues_removal (task_id operation_id : string) (event : CleanupEvent) : Prop :=
  exists call step, event = Event_call call (Reply_progress (Ok (Progress_Remove step)))
  /\ co_task_id (cst_operation step) = task_id
  /\ co_operation_id (cst_operation step) = operation_id.

(** Git refused to remove it, because its content had changed. *)
Definition refuses_removal (task_id operation_id : string) (event : CleanupEvent) : Prop :=
  exists executed reply, event = Event_call (Call_removal executed) reply
  /\ er_result executed = Err GE_CheckoutContentChanged
  /\ co_task_id (cst_operation (er_step executed)) = task_id
  /\ co_operation_id (cst_operation (er_step executed)) = operation_id.

Definition in_journal (task_id operation_id : string) (rt : WorktreeRuntime) : Prop :=
  exists o, o ∈ cleanup_operations (wr_state rt) /\ is_cleanup task_id operation_id o = true.

(** A method that does not tell git to remove anything. *)
Definition never_removes (m : WorktreeM (TaskWorktreeCleanupProgress Projection)) : Prop :=
  forall rt step rt', m rt <> (Ok (Progress_Remove step), rt').
Lemma never_bind {A} (m : WorktreeM A) k : (forall a, never_removes (k a)) -> never_removes (bind m k).
Proof. intros Hk rt step rt' (a & rt1 & _ & Hr)%bind_ok. by apply Hk in Hr. Qed.
Lemma never_returning (m : WorktreeM (CleanupAnswer Projection)) : never_removes (returning m).
Proof. intros rt step rt' [answer [=]]%returning_ok. Qed.
Lemma never_fail e : never_removes (fail e). Proof. by intros ???. Qed.
Lemma never_ret progress :
  (forall step, progress <> Progress_Remove step) -> never_removes (ret progress).
Proof. intros Hp rt step rt' [= Heq _]. by apply (Hp step). Qed.
Ltac never :=
  repeat first [ apply never_returning | apply never_fail | apply never_ret; discriminate
               | apply never_bind; intros ? | case_match ].

Lemma begin_never_removes `{Directories} observed : never_removes (begin_cleanup view observed).
Proof. unfold begin_cleanup, refuse_cleanup, revalidate. never. Qed.
Lemma removal_never_removes executed : never_removes (apply_task_worktree_cleanup_removal executed).
Proof. unfold apply_task_worktree_cleanup_removal. never. Qed.
Lemma later_stage_never_removes observed operation :
  never_removes (apply_to_remove_prepared view observed operation)
  /\ never_removes (apply_to_removal_verified view observed operation)
  /\ never_removes (apply_to_binding_cleared view operation).
Proof.
  unfold apply_to_remove_prepared, apply_to_removal_verified, apply_to_binding_cleared,
    finish_removal, fail_with_attention. split_and!; never.
Qed.

(** What is known when a removal is issued. *)
Record issued `{Directories} (observed : ObservedTaskWorktreeCleanup) (rt rt1 rt' : WorktreeRuntime)
    (o : WorktreeCleanupOperation) (presence : TaskWorktreePresence)
    (step : TaskWorktreeCleanupStep) : Prop := {
  is_reservation : find_first (is_cleanup (oc_task_id observed) (oc_operation_id observed))
                     (cleanup_operations (wr_state rt)) = Some o;
  is_reserved : co_stage o = CS_Reserved;
  is_tuple : ensure_observed_cleanup_tuple (wr_state rt) observed = Ok tt;
  is_lasting : lasting rt1 = lasting rt;
  is_presence : exists rt2, refresh_cleanup_presence (oc_task_id observed)
    (tcf_path_state (oc_facts observed) == CPS_Absent) rt1 = (Ok presence, rt2);
  is_same_head : tcf_head_oid (oc_facts observed) = Some (cb_head_oid (co_baseline o));
  is_authorized : unauthorized_cleanup_blockers (co_cleanup_mode o)
    (co_acknowledged_content_blockers o)
    (cleanup_policy (wr_state rt) observed (twp_total_count presence)
       (Some (co_operation_id o))).1 = [];
  is_there : both_absent (oc_facts observed) = false;
  is_announced : announces (wr_store rt) o (cst_operation step) (wr_store rt');
  is_proof : cst_proof step = oc_proof observed
}.

(** The one place where a removal is issued. *)
Lemma removal_issued `{Directories} observed rt step rt' :
  apply_task_worktree_cleanup_observation view observed rt = (Ok (Progress_Remove step), rt') ->
  exists rt1 o presence, issued observed rt rt1 rt' o presence step.
Proof.
  unfold apply_task_worktree_cleanup_observation. intros Hr. run_hyp Hr.
  lazymatch goal with
  | Hc : cache_cleanup_health _ _ = (Ok _, ?rt1), Hp : refresh_cleanup_presence _ _ _ = (Ok ?p, ?rt2),
    Ho : find_first _ _ = Some ?o |- _ =>
      exists rt1, o, p; pose proof (quiet_ok _ _ _ _ (quiet_cache observed) Hc) as Hs1;
      pose proof (quiet_ok _ _ _ _ (quiet_refresh _ _) Hp) as Hs2; rename o into op
  end.
  destruct (co_stage op) eqn:Estage.
  2: { exfalso. by apply (proj1 (later_stage_never_removes _ _)) in Hr. }
  2: { exfalso. by apply (proj1 (proj2 (later_stage_never_removes _ _))) in Hr. }
  2: { exfalso. by apply (proj2 (proj2 (later_stage_never_removes observed _))) in Hr. }
  unfold apply_to_reserved in Hr. run_hyp Hr.
  { by apply (never_bind (mark_cleanup_attention op) (fun _ => fail _)) in Hr; [|intros ?; apply never_fail]. }
  { by apply never_returning in Hr. }
  apply not_true_iff_false in Hif. rewrite negb_true_iff, bool_decide_eq_false in Hif.
  apply dec_stable in Hif. rewrite unauthorized_push_if, blocks_other in Hif by done.
  destruct Hif as [Hpolicy Hhead]. change (~ (tcf_head_oid (oc_facts observed)
    != Some (cb_head_oid (co_baseline op))) = true) in Hhead.
  rewrite negb_true_iff, bool_decide_eq_false in Hhead. apply dec_stable in Hhead.
  pose proof Hs1 as Hlasting. injection Hs1 as Hs1 _ _. injection Hs2 as Hs2 _ _.
  assert (Hst : wr_state rt1 = wr_state rt) by (unfold wr_state; congruence).
  rewrite Hst in Hpolicy. apply epoch_ok in Hrun3.
  match goal with Ha : on_worktree_store _ _ = (Ok _, _) |- _ =>
    apply on_store_ok in Ha as (s' & ? & ->) end.
  assert (Hstore : wr_store rt2 = wr_store rt) by congruence. rewrite Hstore in *.
  match goal with Hp : Progress_Remove _ = Progress_Remove _ |- _ => injection Hp as -> end.
  pose proof (find_first_holds _ _ _ Hrun1) as Hkey. unfold is_cleanup in Hkey.
  split; try done; [by destruct a|by eexists|].
  cbn. eapply announced; [|done|eassumption].
  guards. unfold wr_state in *. congruence.
Qed.
End history.

(** ** When a removal is issued *)

Section authorized.
Context `{Host}.

(** What git and the file system said of the checkout that is to be removed. *)
Record checkout_is_vouched_for (git : Git) (proof : ManagedWorktreeProof) (branch_ref : string)
    (mode : WorktreeCleanupMode) (acks : list WorktreeCleanupBlocker) (head_oid : string) : Prop := {
  vf_repository : exists repository,
    inspect_repository git (ws_repository_root (mw_normalized_spec proof)) = Ok repository
    /\ path_eq (rf_common_dir repository) (mw_repository_common_dir proof) = true;
  vf_directory : exists path,
    canonical_directory_if_exists git (mw_registered_worktree_path proof) = Ok (Some path)
    /\ path_eq path (mw_registered_worktree_path proof) = true;
  vf_checkout : exists worktrees registration health oid,
    list_worktrees git (ws_repository_root (mw_normalized_spec proof)) = Ok worktrees
    /\ registration ∈ worktrees
    /\ worktree_registered_at registration (mw_registered_worktree_path proof) = true
    /\ inspect_worktree_health git (mw_registered_worktree_path proof) = Ok health
    /\ status_permits mode acks (who_status health)
    /\ resolve_ref git (ws_repository_root (mw_normalized_spec proof)) branch_ref = Ok (Some oid)
    /\ from_utf8_lossy oid = head_oid
    /\ (rf_head (who_repository health) = HS_Attached branch_ref oid
        \/ exact_alternate_attached_checkout proof (mw_registered_worktree_path proof)
             (Some registration) health = true)
}.

Lemma find_first_in {A} (p : A -> bool) l x : find_first p l = Some x -> x ∈ l /\ p x = true.
Proof.
  intros Hf. split; [|by eapply find_first_holds].
  rewrite position_find in Hf. destruct (position p l) as [[i y]|] eqn:E; simplify_eq/=.
  apply position_Some in E as [Hi _]. by eapply list_elem_of_lookup_2.
Qed.

Lemma vouched_head facts branch_ref oid head alternate :
  tcf_branch_matches facts = Some (head_on_branch branch_ref head) ->
  tcf_head_matches facts = Some (head_at (Some oid) head) ->
  tcf_alternate_checkout_matches facts = alternate ->
  vouched facts (tcf_branch_matches facts) -> vouched facts (tcf_head_matches facts) ->
  head = HS_Attached branch_ref oid \/ alternate = true.
Proof.
  unfold vouched. intros -> -> <- [Hb|[_ Ha]] [Hh|[_ Ha']]; try by right.
  injection Hb as Hb. injection Hh as Hh.
  left. destruct head; simpl in *; try discriminate. guards. by simplify_eq.
Qed.

Lemma observed_checkout git proof branch_ref mode acks facts head_oid :
  observe_cleanup_facts git proof (Some branch_ref) = Ok facts ->
  checkout_may_go mode acks facts -> tcf_head_oid facts = Some head_oid ->
  checkout_is_vouched_for git proof branch_ref mode acks head_oid.
Proof.
  unfold observe_cleanup_facts. cbv zeta. cbn [default]. intros Ho (Hp & Hr & Hb & Hh & health & He & Hs) Hoid.
  destruct (inspect_repository git _) as [repository|] eqn:Erepo; [|discriminate]. cbn in Ho.
  destruct (path_eq (rf_common_dir repository) _) eqn:Ecommon; cbn in Ho; [|by simplify_eq/=].
  destruct (canonical_directory_if_exists git _) as [[path|]|] eqn:Ecanon; [| |discriminate].
  2: { cbn in Ho. destruct (list_worktrees git _); [|discriminate]. cbn in Ho.
       destruct (valid_full_ref_name _); [|discriminate]. cbn in Ho.
       destruct (resolve_ref git _ _); [|discriminate]. cbn in Ho.
       by simplify_eq/=. }
  cbn in Ho.
  destruct (list_worktrees git _) as [worktrees|] eqn:Elist; [|discriminate]. cbn in Ho.
  destruct (valid_full_ref_name _); [|discriminate]. cbn in Ho.
  destruct (resolve_ref git _ _) as [branch_oid|] eqn:Eref; [|discriminate]. cbn in Ho.
  destruct (path_eq path _) eqn:Epath; cbn in Ho; [|by simplify_eq/=].
  destruct (find_first _ worktrees) as [registration|] eqn:Ereg; cbn in Ho; [|by simplify_eq/=].
  destruct (inspect_worktree_health git _) as [health'|] eqn:Ehealth; [|discriminate]. cbn in Ho.
  injection Ho as <-. cbn in *. simplify_eq.
  destruct branch_oid as [oid|]; [|discriminate]. simplify_eq/=.
  apply find_first_in in Ereg as [Hin Hat].
  split; eauto. exists worktrees, registration, health, oid. split_and!; try done.
  by eapply vouched_head; cycle 3; [exact Hb|exact Hh|..].
Qed.

(** Why the removal of the checkout of [o] may be issued. *)
Record removal_is_authorized `{Directories} (git : Git) (rt : WorktreeRuntime)
    (o : WorktreeCleanupOperation) (proof : ManagedWorktreeProof) (branch_ref : string) : Prop := {
  ra_tuple : ensure_cleanup_tuple (wr_state rt) o = Ok tt;
  ra_proof : find_proof (wr_state rt) (co_task_id o) = Some proof;
  ra_idle : task_is_idle (wr_state rt) (co_task_id o) (Some (co_operation_id o)) 0;
  ra_nobody : exists key, comparison_key (cb_worktree_path (co_baseline o)) = Ok key
    /\ forall session, session ∈ sessions (wr_state rt) -> session_counts rt session = true ->
         lies_in key (pd_cwd (s_process session)) = false;
  ra_checkout : checkout_is_vouched_for git proof branch_ref (co_cleanup_mode o)
    (co_acknowledged_content_blockers o) (cb_head_oid (co_baseline o))
}.

Lemma observed_proof `{Directories} st observed :
  ensure_observed_cleanup_tuple st observed = Ok tt ->
  find_proof st (oc_task_id observed) = Some (oc_proof observed).
Proof.
  unfold ensure_observed_cleanup_tuple. destruct (find_task _ _); [cbn|discriminate].
  case_match; [discriminate|]. destruct (ensure_task_cleanup_allowed _ _); [cbn|discriminate].
  destruct (find_proof _ _) as [proof|]; cbn; [|by rewrite andb_false_r].
  case_match; [|discriminate]. guards. by subst.
Qed.

Lemma cleanup_tuple_path st o task binding :
  ensure_cleanup_tuple st o = Ok tt -> find_task st (co_task_id o) = Some task ->
  t_worktree task = Some binding -> tw_path binding = cb_worktree_path (co_baseline o).
Proof.
  unfold ensure_cleanup_tuple, proof_changed. intros Ht Htask Hb. rewrite Htask in Ht. cbn in Ht.
  destruct (find_proof _ _); [|discriminate]. rewrite Hb in Ht. cbn in Ht. case_match; [|discriminate]. guards. done.
Qed.

Lemma session_counts_lasting rt rt' session :
  lasting rt' = lasting rt -> session_counts rt' session = session_counts rt session.
Proof. unfold session_counts. by intros [= _ -> ->]. Qed.
End authorized.

Section authorization.
Context `{Host} `{Directories} {Projection : Type}.
Context (view : WorktreeRuntime -> string -> result CoreError Projection).

Lemma issued_authorized git step0 observed rt rt1 rt' o presence step :
  step_observe git step0 = Ok observed -> issued observed rt rt1 rt' o presence step ->
  removal_is_authorized git rt o (cst_proof step0)
    (baseline_checkout_ref (co_baseline (cst_operation step0))).
Proof.
  unfold step_observe. destruct (observing (git_runner git)); [cbn|discriminate].
  destruct (observe_cleanup_facts _ _ _) as [facts|] eqn:Ef; [cbn|discriminate]. intros [= <-] [].
  pose proof (find_first_holds _ _ _ is_reservation0) as Hkey. unfold is_cleanup in Hkey. guards.
  rewrite policy_spec in is_authorized0. destruct is_authorized0 as [Hidle [Hgone|Hgo]].
  { unfold both_absent in is_there0. destruct Hgone as (Ep & Er & _). cbn in *.
    by rewrite Ep, Er in is_there0. }
  apply observed_proof in is_tuple0. destruct is_announced0 as [_ Htuple _ _]. cbn in *.
  assert (Hzero : twp_total_count presence = 0%N) by apply Hidle.
  destruct Hgo as (Ep & Hrest). rewrite Ep in is_presence0. destruct is_presence0 as [rt2 Hp].
  rewrite bool_decide_eq_false_2 in Hp by done.
  apply refresh_presence_facts in Hp as (task & binding & tfacts & Ht & Hb & Hpf & Hc).
  assert (Hst : wr_state rt1 = wr_state rt) by (injection is_lasting0 as Hst _ _; unfold wr_state; by rewrite Hst).
  rewrite Hst in Ht. rewrite Hc in Hzero.
  apply nobody_there in Hpf as (key & Hcmp & Hnobody); [|done].
  assert (Htask : co_task_id (cst_operation step0) = co_task_id o) by done. rewrite Htask in *.
  split; try done.
  - replace 0%N with (twp_total_count presence) by congruence. done.
  - exists key. rewrite <- (cleanup_tuple_path _ _ _ _ Htuple Ht Hb). split; [done|].
    intros session. rewrite <- (session_counts_lasting rt rt1), <- Hst by done. apply Hnobody.
  - eapply observed_checkout; [done|by split; [|apply Hrest]|done].
Qed.

(** C6: git is told to remove a checkout only from a reservation, and only when
    a fresh observation authorises it: the Task, its proof and its binding are
    the ones the cleanup was reserved for; nothing else goes on at the Task and
    no running or resuming Session lives in the checkout; git reports the
    repository, the directory and its registration, a branch at the reserved
    head, and no local content but what the request acknowledged, no lock and
    nothing unknown.  Before that, the removal is announced in memory and on
    disk, by exactly one further stage of the journal. *)
Theorem cleanup_removal_is_authorized git step0 observed rt step rt' :
  step_observe git step0 = Ok observed ->
  apply_task_worktree_cleanup_observation view observed rt = (Ok (Progress_Remove step), rt') ->
  exists o,
    find_first (is_cleanup (co_task_id (cst_operation step0)) (co_operation_id (cst_operation step0)))
      (cleanup_operations (wr_state rt)) = Some o
    /\ co_stage o = CS_Reserved
    /\ removal_is_authorized git rt o (cst_proof step0)
         (baseline_checkout_ref (co_baseline (cst_operation step0)))
    /\ announces (wr_store rt) o (cst_operation step) (wr_store rt')
    /\ cst_proof step = cst_proof step0.
Proof.
  intros Hobs (rt1 & o & presence & Hi)%removal_issued.
  pose proof (issued_authorized _ _ _ _ _ _ _ _ _ Hobs Hi) as Ha. exists o.
  unfold step_observe in Hobs. destruct (observing _); [cbn in Hobs|discriminate].
  destruct (observe_cleanup_facts _ _ _); [|discriminate]. injection Hobs as <-.
  destruct Hi. split_and!; done.
Qed.
End authorization.

(** ** When a Task forgets its checkout *)

Lemma runs_bind_post {A B} (P : A -> Prop) (R1 R2 R : CurrentState -> CurrentState -> Prop)
    (m : WorktreeM A) (k : A -> WorktreeM B) :
  (forall a b, R1 a b -> R a b) -> (forall a b c, R1 a b -> R2 b c -> R a c) ->
  runs R1 m -> (forall rt a rt1, m rt = (Ok a, rt1) -> P a) -> (forall a, P a -> runs R2 (k a)) ->
  runs R (bind m k).
Proof.
  intros Hsub Htrans Hm HP Hk rt. unfold bind. specialize (Hm rt). specialize (HP rt).
  destruct (m rt) as [[a|e] rt1]; simpl in *; [|by apply Hsub].
  eapply Htrans; [exact Hm|]. by eapply Hk, HP.
Qed.

Lemma same_tasks_unbinds task_id a b : same_tasks a b -> unbinds task_id a b.
Proof. by left. Qed.
Lemma same_then_unbinds task_id a b c : same_tasks a b -> unbinds task_id b c -> unbinds task_id a c.
Proof. unfold unbinds, same_tasks. by intros ->. Qed.

(** The operation that a store method hands back belongs to the same Task. *)
Lemma advance_task rt task_id operation_id stage now o rt' :
  on_worktree_store (advance_task_worktree_cleanup task_id operation_id stage now) rt = (Ok o, rt') ->
  co_task_id o = task_id.
Proof.
  intros (s' & Hrun & _)%on_store_ok. revert Hrun.
  apply (post_ok (fun o _ => co_task_id o = task_id)).
  unfold advance_task_worktree_cleanup, checked_current_cleanup, current_cleanup, edit_cleanup.
  run_post; simplify_eq;
    repeat match goal with
    | Hf : find_mut _ _ _ = Some _ |- _ =>
        apply find_mut_Some in Hf as (? & ? & [_ ?]%position_Some & -> & _)
    | Hf : find_first _ _ = Some _ |- _ => apply find_first_holds in Hf
    end; unfold is_cleanup in *; guards; done.
Qed.

Lemma started_task observed baseline now rt o rt' :
  on_cleanup_store (oc_task_id observed)
    (match oc_supersedes_operation_id observed with
     | Some previous_operation_id =>
         let! operation := supersede_failed_task_worktree_cleanup previous_operation_id
           (requested_cleanup_operation observed baseline now) in
         ret (CleanupStarted operation)
     | None => begin_task_worktree_cleanup (requested_cleanup_operation observed baseline now)
     end) rt = (Ok (CleanupStarted o), rt') ->
  co_task_id o = oc_task_id observed.
Proof.
  unfold on_cleanup_store. intros (s' & Hrun & _)%on_store_ok.
  destruct (oc_supersedes_operation_id observed) as [previous|].
  - apply bind_ok in Hrun as (o' & s1 & Hrun & [[= ->] _]%ret_ok).
    revert Hrun. apply (post_ok (fun o _ => co_task_id o = oc_task_id observed)).
    unfold supersede_failed_task_worktree_cleanup. run_post; done.
  - set (Q := fun (b : BeginCleanupOutcome) (_ : Store) =>
      forall x, b = CleanupStarted x -> co_task_id x = oc_task_id observed).
    enough (HQ : Q (CleanupStarted o) s') by by apply HQ. revert Hrun. apply (post_ok Q).
    unfold begin_task_worktree_cleanup. run_post; intros x [=]; by subst.
Qed.

Section clearing.
Context `{Host} `{Directories} {Projection : Type}.
Context (view : WorktreeRuntime -> string -> result CoreError Projection).

#[local] Hint Resolve complete_runs_unbinds : cleanup_runs.

Lemma returning_unbinds task_id (m : WorktreeM (CleanupAnswer Projection)) :
  runs (unbinds task_id) m -> runs (unbinds task_id) (returning m).
Proof.
  intros Hm. apply (runs_bind (unbinds task_id) same_tasks); [done| |done|intros ?; by apply runs_quiet].
  unfold unbinds, same_tasks. by intros a b c ? ->.
Qed.
Lemma runs_same_then {A B} task_id (m : WorktreeM A) (k : A -> WorktreeM B) (P : A -> Prop) :
  runs same_tasks m -> (forall rt a rt1, m rt = (Ok a, rt1) -> P a) ->
  (forall a, P a -> runs (unbinds task_id) (k a)) -> runs (unbinds task_id) (bind m k).
Proof.
  apply (runs_bind_post P); [by left|exact (same_then_unbinds task_id)].
Qed.

(** The code after a reservation has been found, stage by stage. *)
Definition apply_stage (observed : ObservedTaskWorktreeCleanup)
    (operation : WorktreeCleanupOperation) (total_count : N) :=
  match co_stage operation with
  | CS_Reserved => apply_to_reserved view observed operation total_count
  | CS_RemovePrepared => apply_to_remove_prepared view observed operation
  | CS_RemovalVerified => apply_to_removal_verified view observed operation
  | CS_BindingCleared => apply_to_binding_cleared view operation
  end.

Lemma stage_unbinds observed operation n :
  runs (unbinds (co_task_id operation)) (apply_stage observed operation n).
Proof.
  assert (Hsame : forall A (m : WorktreeM A), runs same_tasks m -> runs (unbinds (co_task_id operation)) m).
  { intros A m. by apply runs_mono, same_tasks_unbinds. }
  assert (Hgive : runs (unbinds (co_task_id operation)) (fail_with_attention (Projection := Projection) operation)).
  { apply Hsame. unfold fail_with_attention. runs. }
  unfold apply_stage. destruct (co_stage operation).
  - unfold apply_to_reserved. apply runs_quietly; [by left|auto with quiet|intros st]. cbv zeta.
    case_match; [case_match; [done|]|case_match].
    + apply Hsame. unfold on_worktree_store. runs.
    + apply returning_unbinds. auto with cleanup_runs.
    + apply Hsame. unfold on_worktree_store. runs.
  - unfold apply_to_remove_prepared. case_match; [|done].
    apply runs_quietly; [by left|auto with quiet|intros now].
    apply (runs_same_then _ _ _ (fun o => co_task_id o = co_task_id operation)).
    + unfold on_worktree_store. runs.
    + intros rt o rt1. apply advance_task.
    + intros o Ho. apply returning_unbinds. rewrite <- Ho. auto with cleanup_runs.
  - unfold apply_to_removal_verified. case_match; [|done]. apply returning_unbinds. auto with cleanup_runs.
  - apply Hsame. unfold apply_to_binding_cleared, returning, on_worktree_store. runs.
Qed.

(** The Task stays as it is unless both absences and the head are confirmed. *)
Lemma stage_same observed operation n :
  post_removal_matches (oc_facts observed) operation = false ->
  runs same_tasks (apply_stage observed operation n).
Proof.
  intros Hpost. unfold apply_stage, apply_to_remove_prepared, apply_to_removal_verified. rewrite Hpost.
  destruct (co_stage operation).
  - unfold apply_to_reserved, fail_with_attention, on_worktree_store.
    apply runs_then; [exact _|by apply runs_quiet; [exact _|]|intros st]. cbv zeta.
    case_match; [runs|]. case_match; [exfalso|runs].
    match goal with Hb : (_ != []) = false |- _ =>
      rewrite negb_false_iff, bool_decide_eq_true, unauthorized_push_if, blocks_other in Hb by done;
      destruct Hb as [_ Hb] end.
    unfold post_removal_matches in Hpost.
    repeat match goal with Hb : both_absent _ = true |- _ => rewrite Hb in Hpost end.
    destruct (_ == _) eqn:E in Hpost; [done|]. rewrite E in *. by auto.
  - unfold fail_with_attention. runs.
  - unfold fail_with_attention. runs.
  - unfold apply_to_binding_cleared, returning, on_worktree_store. runs.
Qed.
End clearing.

Lemma reconcile_same_tasks : runs same_tasks reconcile_task_worktree_cleanup_operations.
Proof.
  unfold reconcile_task_worktree_cleanup_operations. apply runs_then; [exact _|apply runs_quiet; [exact _|done]|].
  intros st. apply runs_for_each; [exact _|]. intros operation.
  unfold reconcile_cleanup, on_worktree_store. runs.
Qed.
Lemma plan_recovery_same_tasks : runs same_tasks plan_task_worktree_cleanup_recovery.
Proof.
  unfold plan_task_worktree_cleanup_recovery. apply runs_then; [exact _|apply runs_quiet; [exact _|done]|].
  intros st. apply runs_for_fold; [exact _|]. intros plans operation.
  unfold plan_cleanup_recovery. runs.
Qed.

Section clearing_calls.
Context `{Host} {Projection : Type}.
Context (view : WorktreeRuntime -> string -> result CoreError Projection).

Ltac quietly := apply runs_quietly; [by left|solve [auto with quiet]|intros ?].

Lemma begin_unbinds `{Directories} observed :
  runs (unbinds (oc_task_id observed)) (begin_cleanup view observed).
Proof.
  assert (Hsame : forall A (m : WorktreeM A), runs same_tasks m -> runs (unbinds (oc_task_id observed)) m).
  { intros A m. by apply runs_mono, same_tasks_unbinds. }
  unfold begin_cleanup. do 4 quietly. case_match; [by apply Hsame, refuse_same_tasks|].
  do 2 quietly.
  eapply (runs_same_then _ _ _ (fun begun => forall o, begun = CleanupStarted o ->
    co_task_id o = oc_task_id observed)).
  - apply runs_cleanup_store. intros s. case_match; [|apply begin_same_tasks].
    match goal with |- stepped _ _ (bind (supersede_failed_task_worktree_cleanup ?p ?r) _ _) =>
      pose proof (supersede_same_tasks p r s) as Hs end.
    unfold stepped, bind in *. by destruct (supersede_failed_task_worktree_cleanup _ _ s) as [[] ?].
  - intros rt begun rt1 Hrun o ->. by eapply started_task.
  - intros [o|o|receipt] Ho.
    + case_match; [|apply Hsame; runs]. apply returning_unbinds. rewrite <- (Ho o) by done.
      apply complete_runs_unbinds.
    + apply Hsame. unfold returning, on_worktree_store. runs.
    + apply Hsame. unfold returning. runs.
Qed.

Lemma begin_same_tasks_there `{Directories} observed :
  both_absent (oc_facts observed) = false -> runs same_tasks (begin_cleanup view observed).
Proof.
  intros Habsent. unfold begin_cleanup. rewrite Habsent.
  do 4 (apply runs_quietly; [done|solve [auto with quiet]|intros ?]).
  case_match; [by apply refuse_same_tasks|].
  do 2 (apply runs_quietly; [done|solve [auto with quiet]|intros ?]).
  apply runs_then; [exact _| |].
  - apply runs_cleanup_store. intros s. case_match; [|apply begin_same_tasks].
    match goal with |- stepped _ _ (bind (supersede_failed_task_worktree_cleanup ?p ?r) _ _) =>
      pose proof (supersede_same_tasks p r s) as Hs end.
    unfold stepped, bind in *. by destruct (supersede_failed_task_worktree_cleanup _ _ s) as [[] ?].
  - intros begun. unfold returning, on_worktree_store. runs.
Qed.

(** An observation fails and changes nothing, or goes on with the operation it
    found. *)
Lemma observation_stage `{Directories} observed rt r rt' :
  apply_task_worktree_cleanup_observation view observed rt = (r, rt') ->
  ((exists e, r = Err e) /\ wr_state rt' = wr_state rt)
  \/ exists o n rt1,
       find_first (is_cleanup (oc_task_id observed) (oc_operation_id observed))
         (cleanup_operations (wr_state rt)) = Some o
       /\ wr_state rt1 = wr_state rt /\ apply_stage view observed o n rt1 = (r, rt').
Proof.
  unfold apply_task_worktree_cleanup_observation. rewrite bind_run. cbn [gets].
  rewrite bind_run. unfold lift.
  destruct (ensure_observed_cleanup_tuple _ _); [|intros [= <- <-]; left; eauto].
  rewrite bind_run.
  pose proof (quiet_store (cache_cleanup_health observed) rt (quiet_cache observed)) as Hs1.
  destruct (cache_cleanup_health observed rt) as [[u1|e] rt1]; cbn in Hs1;
    [|intros [= <- <-]; left; unfold wr_state; rewrite Hs1; eauto].
  rewrite bind_run. unfold need, lift.
  destruct (find_first _ _) as [o|]; cbn;
    [|intros [= <- <-]; left; unfold wr_state; rewrite Hs1; eauto].
  rewrite bind_run.
  pose proof (quiet_store (refresh_cleanup_presence (oc_task_id observed)
    (tcf_path_state (oc_facts observed) == CPS_Absent)) rt1 (quiet_refresh _ _)) as Hs2.
  destruct (refresh_cleanup_presence _ _ rt1) as [[presence|e] rt2]; cbn in Hs2;
    [|intros [= <- <-]; left; unfold wr_state; rewrite Hs2, Hs1; eauto].
  intros Hrun. right. exists o, (twp_total_count presence), rt2. split_and!; [done| |exact Hrun].
  unfold wr_state. congruence.
Qed.

(** No directory and no registration. *)
Definition checkout_is_absent (git : Git) (proof : ManagedWorktreeProof) : Prop :=
  canonical_directory_if_exists git (mw_registered_worktree_path proof) = Ok None
  /\ exists worktrees,
       list_worktrees git (ws_repository_root (mw_normalized_spec proof)) = Ok worktrees
       /\ forall worktree, worktree ∈ worktrees ->
            worktree_registered_at worktree (mw_registered_worktree_path proof) = false.

Lemma observed_absence git proof branch_ref facts :
  observe_cleanup_facts git proof branch_ref = Ok facts -> both_absent facts = true ->
  checkout_is_absent git proof.
Proof.
  unfold observe_cleanup_facts, both_absent. cbv zeta. intros Ho Ha. guards.
  destruct (inspect_repository git _) as [repository|] eqn:Erepo; [|discriminate]. cbn in Ho.
  destruct (path_eq (rf_common_dir repository) _) eqn:Ecommon; cbn in Ho; [|by simplify_eq/=].
  destruct (canonical_directory_if_exists git _) as [[path|]|] eqn:Ecanon; [| |discriminate]; cbn in Ho;
    (destruct (list_worktrees git _) as [worktrees|] eqn:Elist; [|discriminate]); cbn in Ho;
    (destruct (valid_full_ref_name _); [|discriminate]); cbn in Ho;
    (destruct (resolve_ref git _ _) as [branch_oid|] eqn:Eref; [|discriminate]); cbn in Ho.
  { destruct (path_eq path _); cbn in Ho; [|by simplify_eq/=].
    destruct (is_some _); cbn in Ho; [|by simplify_eq/=].
    by destruct (inspect_worktree_health git _); simplify_eq/=. }
  split; [done|]. exists worktrees. split; [done|]. apply find_first_None.
  destruct (find_first _ worktrees); [|done]. by simplify_eq/=.
Qed.

(** What an observation was made from. *)
Definition observed_by (git : Git) (observed : ObservedTaskWorktreeCleanup) : Prop :=
  (exists plan, plan_observe git plan = Ok observed) \/ (exists step, step_observe git step = Ok observed).
Lemma observed_by_absent git observed :
  observed_by git observed -> both_absent (oc_facts observed) = true ->
  checkout_is_absent git (oc_proof observed).
Proof.
  unfold observed_by, plan_observe, step_observe.
  intros [[x Hx]|[x Hx]]; (destruct (observing (git_runner git)); [cbn in Hx|discriminate]);
    (destruct (observe_cleanup_facts _ _ _) eqn:Ef; [|discriminate]); injection Hx as <-; cbn;
    by eapply observed_absence.
Qed.

(** C7: a cleanup makes a Task forget its checkout only when that is gone.  If a
    call changes the Tasks, it is the start or the continuation of a cleanup; it
    unbinds the one Task that was observed; git and the file system found
    neither the directory nor a registration of it; and, once a removal can
    have happened, the branch is still at the head that was reserved. *)
Theorem cleanup_clears_only_absent_checkouts call rt reply rt' :
  run_cleanup_call view call rt = (reply, rt') ->
  tasks (wr_state rt') <> tasks (wr_state rt) ->
  exists observed,
    ((exists directories, call = Call_begin directories observed)
     \/ (exists directories o, call = Call_observation directories observed
         /\ find_first (is_cleanup (oc_task_id observed) (oc_operation_id observed))
              (cleanup_operations (wr_state rt)) = Some o
         /\ tcf_head_oid (oc_facts observed) = Some (cb_head_oid (co_baseline o))))
    /\ unbinds (oc_task_id observed) (wr_state rt) (wr_state rt')
    /\ both_absent (oc_facts observed) = true
    /\ forall git, observed_by git observed -> checkout_is_absent git (oc_proof observed).
Proof.
  assert (Hsame : forall A (m : WorktreeM A), runs same_tasks m ->
    tasks (wr_state (m rt).2) <> tasks (wr_state rt) -> False) by (intros A m Hm Hne; by apply Hne, Hm).
  destruct call as [directories observed|directories observed|executed|finalization| |];
    cbn [run_cleanup_call].
  - destruct (begin_cleanup view observed rt) as [r rt1] eqn:E. intros [= <- <-] Hne.
    exists observed. pose proof (begin_unbinds observed rt) as Hu. rewrite E in Hu.
    destruct (both_absent (oc_facts observed)) eqn:Ea.
    + split_and!; [by left; eexists|done..|]. intros git ?. by apply observed_by_absent.
    + exfalso. pose proof (Hsame _ _ (begin_same_tasks_there observed Ea)) as Hx. by rewrite E in Hx.
  - destruct (apply_task_worktree_cleanup_observation view observed rt) as [r rt1] eqn:E.
    intros [= <- <-] Hne. exists observed.
    apply observation_stage in E as [[_ E]|(o & n & rt0 & Ho & Hst & E)]; [by rewrite E in Hne|].
    pose proof (find_first_holds _ _ _ Ho) as Hkey. unfold is_cleanup in Hkey. guards.
    pose proof (stage_unbinds view observed o n rt0) as Hu. rewrite E, Hst in Hu. cbn in Hu.
    destruct (post_removal_matches (oc_facts observed) o) eqn:Ep.
    + unfold post_removal_matches in Ep. guards.
      split_and!; [right; by eexists _, o|by replace (oc_task_id observed) with (co_task_id o)|done|].
      intros git ?. by apply observed_by_absent.
    + exfalso. apply Hne. pose proof (stage_same view observed o n Ep rt0) as Hx.
      by rewrite E, Hst in Hx.
  - destruct (apply_task_worktree_cleanup_removal _ _) as [r rt1] eqn:E. intros [= <- <-] Hne. exfalso.
    eapply (Hsame _ (apply_task_worktree_cleanup_removal (Projection := Projection) executed));
      [|by rewrite E].
    unfold apply_task_worktree_cleanup_removal, on_worktree_store. runs.
  - destruct (finalize_task_worktree_cleanup _ _ _) as [r rt1] eqn:E. intros [= <- <-] Hne. exfalso.
    eapply (Hsame _ (finalize_task_worktree_cleanup view finalization)); [|by rewrite E].
    unfold finalize_task_worktree_cleanup, on_worktree_store. runs.
  - destruct (reconcile_task_worktree_cleanup_operations rt) as [r rt1] eqn:E. intros [= <- <-] Hne.
    exfalso. eapply (Hsame _ reconcile_task_worktree_cleanup_operations); [|by rewrite E].
    apply reconcile_same_tasks.
  - destruct (plan_task_worktree_cleanup_recovery rt) as [r rt1] eqn:E. intros [= <- <-] Hne.
    exfalso. eapply (Hsame _ plan_task_worktree_cleanup_recovery); [|by rewrite E].
    apply plan_recovery_same_tasks.
Qed.
End clearing_calls.

(** ** A removal is issued once *)

Section reissue.
Context `{Host} {Projection : Type}.
Context (view : WorktreeRuntime -> string -> result CoreError Projection).
Implicit Types (t id : string) (rt : WorktreeRuntime).

(** One event keeps one cleanup per Task, and keeps what is settled so. *)
Definition keeps_settled t id (st st' : CurrentState) : Prop :=
  (NoDup (cleanup_tasks st) -> NoDup (cleanup_tasks st'))
  /\ ((exists o, o ∈ cleanup_operations st /\ is_cleanup t id o = true) ->
      all_settled t id st -> all_settled t id st').

Lemma settles_in_keeps known (only : string -> string -> Prop) st st' t id :
  settles_in known only st st' -> only t id -> keeps_settled t id st st'.
Proof. intros [Hn Hs] Ho. split; [done|]. intros Hknown Hall. by apply (Hs t id). Qed.

Lemma removal_keeps executed rt t id :
  ~ refuses_removal t id (Event_call (Projection := Projection) (Call_removal executed)
      (run_cleanup_call view (Call_removal executed) rt).1) ->
  keeps_settled t id (wr_state rt)
    (wr_state (apply_task_worktree_cleanup_removal (Projection := Projection) executed rt).2).
Proof.
  intros Hne.
  assert (Hdec : er_result executed = Err GE_CheckoutContentChanged
                 \/ er_result executed <> Err GE_CheckoutContentChanged)
    by (destruct (er_result executed) as [|[]]; (by left) || by right).
  destruct Hdec as [He|He].
  - eapply settles_in_keeps; [apply removal_settles_but|]. intros [-> ->]. apply Hne.
    by exists executed, (run_cleanup_call view (Call_removal executed) rt).1.
  - eapply settles_in_keeps; [by apply removal_settles|done].
Qed.

Lemma call_keeps call rt reply rt' t id :
  run_cleanup_call view call rt = (reply, rt') -> ~ refuses_removal t id (Event_call call reply) ->
  keeps_settled t id (wr_state rt) (wr_state rt').
Proof.
  intros Hrun. assert (Hrep : reply = (run_cleanup_call view call rt).1) by by rewrite Hrun.
  destruct call as [directories observed|directories observed|executed|finalization| |];
    [| |intros Hne; rewrite Hrep in Hne; apply removal_keeps in Hne| | |]; cbn [run_cleanup_call] in Hrun;
    match type of Hrun with (let '(_, _) := ?m in _) = _ => destruct m as [r rt1] eqn:E end;
    injection Hrun as _ <-; [intros _|intros _| |intros _|intros _|intros _].
  - pose proof (begin_runs_starts view observed rt) as Hs. rewrite E in Hs. by eapply settles_in_keeps.
  - pose proof (apply_runs_settles view observed rt) as Hs. rewrite E in Hs. by eapply settles_in_keeps.
  - exact Hne.
  - pose proof (finalize_runs_settles view finalization rt) as Hs. rewrite E in Hs. by eapply settles_in_keeps.
  - pose proof (reconcile_settles rt) as Hs. rewrite E in Hs. by eapply settles_in_keeps.
  - pose proof (plan_recovery_settles rt) as Hs. rewrite E in Hs. by eapply settles_in_keeps.
Qed.

Lemma elsewhere_keeps rt rt' t id :
  leaves_cleanups rt rt' -> keeps_settled t id (wr_state rt) (wr_state rt').
Proof.
  unfold leaves_cleanups, keeps_settled, cleanup_tasks, all_settled. intros Hsub. split.
  - intros Hnd. eapply sublist_NoDup; [exact Hnd|by apply fmap_sublist].
  - intros _ Hall o Ho. apply Hall. by eapply elem_of_sublist.
Qed.

(** Only an observation issues a removal. *)
Lemma issues_observation call reply rt rt' t id :
  run_cleanup_call view call rt = (reply, rt') -> issues_removal t id (Event_call call reply) ->
  exists directories observed rt1 o presence step,
    @issued directories observed rt rt1 rt' o presence step
    /\ co_task_id o = t /\ co_operation_id o = id
    /\ co_task_id o = oc_task_id observed /\ co_operation_id o = oc_operation_id observed.
Proof.
  intros Hrun (call' & step & [= <- ->] & Ht & Hid).
  destruct call as [directories observed|directories observed|executed|finalization| |];
    cbn [run_cleanup_call] in Hrun;
    match type of Hrun with (let '(_, _) := ?m in _) = _ => destruct m as [r rt1] eqn:E end;
    simplify_eq.
  - by apply begin_never_removes in E.
  - apply removal_issued in E as (rt2 & o & presence & Hi). exists directories, observed, rt2, o, presence, step.
    pose proof (find_first_holds _ _ _ (is_reservation _ _ _ _ _ _ _ Hi)) as Hkey.
    unfold is_cleanup in Hkey. guards.
    destruct (an_operation _ _ _ _ (is_announced _ _ _ _ _ _ _ Hi)) as [now Hop].
    rewrite Hop. done.
  - by apply removal_never_removes in E.
Qed.

Lemma issued_settled call reply rt rt' t id :
  run_cleanup_call view call rt = (reply, rt') -> issues_removal t id (Event_call call reply) ->
  NoDup (cleanup_tasks (wr_state rt')) ->
  in_journal t id rt' /\ all_settled t id (wr_state rt').
Proof.
  intros Hrun Hiss Hnd.
  destruct (issues_observation _ _ _ _ _ _ Hrun Hiss)
    as (directories & observed & rt1 & o & presence & step & Hi & <- & <- & _).
  destruct (is_announced _ _ _ _ _ _ _ Hi) as [_ _ Hrec [now Hop]].
  apply find_first_in in Hrec as [Hin Hk]. split; [by exists (cst_operation step)|].
  intros x Hx Hkx. assert (x = cst_operation step) as ->.
  { apply list_elem_of_lookup in Hin as [i Hi']. apply list_elem_of_lookup in Hx as [j Hj].
    unfold is_cleanup in *. guards.
    change (state (wr_store rt')) with (wr_state rt') in Hi'.
    assert (i = j) as ->; [|congruence]. eapply NoDup_lookup; [exact Hnd| |].
    - unfold cleanup_tasks. rewrite list_lookup_fmap, Hi'. done.
    - unfold cleanup_tasks. rewrite list_lookup_fmap, Hj. cbn. congruence. }
  rewrite Hop. unfold settled, cleanup_retry_stage. cbn. by rewrite andb_false_r.
Qed.

Lemma settled_not_issued call reply rt rt' t id :
  run_cleanup_call view call rt = (reply, rt') -> all_settled t id (wr_state rt) ->
  ~ issues_removal t id (Event_call call reply).
Proof.
  intros Hrun Hall Hiss.
  destruct (issues_observation _ _ _ _ _ _ Hrun Hiss)
    as (directories & observed & rt1 & o & presence & step & [Hres Hstage _ _ _ _ _ _ _ _] & <- & <- & Ht & Hid).
  apply find_first_in in Hres as [Hin Hk]. rewrite <- Ht, <- Hid in Hk.
  apply (Hall o Hin Hk). unfold cleanup_retry_stage. rewrite Hstage. by destruct (co_cleanup_mode o).
Qed.

Lemma event_keeps rt event rt' rest t id :
  cleanup_run view rt ((event, rt') :: rest) -> ~ refuses_removal t id event ->
  keeps_settled t id (wr_state rt) (wr_state rt').
Proof.
  intros Hrun Hne. inversion Hrun; subst; [by eapply call_keeps|by eapply elsewhere_keeps].
Qed.
Lemma run_tail rt event rt' rest :
  cleanup_run view rt ((event, rt') :: rest) -> cleanup_run view rt' rest.
Proof. by inversion 1. Qed.

Lemma event_one_per_task rt event rt' rest :
  cleanup_run view rt ((event, rt') :: rest) -> NoDup (cleanup_tasks (wr_state rt)) ->
  NoDup (cleanup_tasks (wr_state rt')).
Proof.
  intros Hrun. inversion Hrun as [|? call reply ? ? Hcall|]; subst.
  - destruct call as [directories observed|directories observed|executed|finalization| |].
    3: { cbn [run_cleanup_call] in Hcall. revert Hcall.
         pose proof (removal_settles_but (Projection := Projection) executed rt) as [Hn _].
         destruct (apply_task_worktree_cleanup_removal executed rt). intros [= _ <-]. exact Hn. }
    all: apply (call_keeps _ _ _ _ "" "" Hcall); by intros (? & ? & [=] & _).
  - by apply (elsewhere_keeps _ _ "" "").
Qed.

Lemma one_per_task rt events event rt' rest :
  cleanup_run view rt (events ++ (event, rt') :: rest) -> NoDup (cleanup_tasks (wr_state rt)) ->
  NoDup (cleanup_tasks (wr_state rt'))
  /\ exists rt0, cleanup_run view rt0 ((event, rt') :: rest).
Proof.
  revert rt. induction events as [|[e r] events IH]; intros rt Hrun Hnd; cbn in Hrun.
  - split; [by eapply event_one_per_task|by eexists].
  - apply (IH r); [by eapply run_tail|by eapply event_one_per_task].
Qed.

(** C8: a removal is not repeated.  In any history of cleanups in which each
    Task has at most one, once git has been told to remove the checkout of a
    cleanup, no later event tells it so again for the same operation, however
    requests, recovery and other work are interleaved, as long as the operation
    stays in the journal and git did not refuse because the content of the
    checkout had changed. *)
Theorem removal_is_not_reissued rt before e1 rt1 between e2 rt2 after t id :
  NoDup (cleanup_tasks (wr_state rt)) ->
  cleanup_run view rt (before ++ (e1, rt1) :: between ++ (e2, rt2) :: after) ->
  issues_removal t id e1 ->
  (forall e r, (e, r) ∈ between -> ~ refuses_removal t id e /\ in_journal t id r) ->
  ~ issues_removal t id e2.
Proof.
  intros Hnd Hrun Hiss Hbetween.
  destruct (one_per_task _ _ _ _ _ Hrun Hnd) as [Hnd1 [rt0 Hrun0]]. clear Hrun Hnd.
  assert (Hone : in_journal t id rt1 /\ all_settled t id (wr_state rt1)).
  { inversion Hrun0; subst; [by eapply issued_settled|].
    by destruct Hiss as (? & ? & [=] & _). }
  apply run_tail in Hrun0. destruct Hone as [Hin Hall]. clear Hiss e1 rt0.
  revert rt1 Hnd1 Hrun0 Hin Hall. induction between as [|[e r] between IH]; intros rt1 Hnd1 Hrun Hin Hall.
  - inversion Hrun; subst; [by eapply settled_not_issued|]. by intros (? & ? & [=] & _).
  - destruct (Hbetween e r) as [Hne Hin']; [by left|].
    apply (IH ltac:(intros; apply Hbetween; by right) r); [by eapply event_one_per_task|by eapply run_tail|done|].
    by apply (event_keeps _ _ _ _ _ _ Hrun Hne).
Qed.
End reissue.

(** ** A request ends *)

Section ends.
Context `{Host} {Projection : Type}.
Context (view : WorktreeRuntime -> string -> result CoreError Projection).

(** What the successful runs of a method can lead to. *)
Definition leads_to (Q : TaskWorktreeCleanupProgress Projection -> Prop)
    (m : WorktreeM (TaskWorktreeCleanupProgress Projection)) : Prop :=
  forall rt progress rt', m rt = (Ok progress, rt') -> Q progress.
Lemma leads_bind {A} Q (m : WorktreeM A) k : (forall a, leads_to Q (k a)) -> leads_to Q (bind m k).
Proof. intros Hk rt progress rt' (a & rt1 & _ & Hr)%bind_ok. by apply Hk in Hr. Qed.
Lemma leads_returning (Q : _ -> Prop) (m : WorktreeM (CleanupAnswer Projection)) :
  (forall answer, Q (Progress_Return answer)) -> leads_to Q (returning m).
Proof. intros HQ rt progress rt' [answer ->]%returning_ok. apply HQ. Qed.
Lemma leads_fail Q e : leads_to Q (fail e). Proof. by intros ???. Qed.
Lemma leads_ret (Q : _ -> Prop) progress : Q progress -> leads_to Q (ret progress).
Proof. by intros HQ rt progress' rt' [= -> _]. Qed.
Ltac leads :=
  repeat first [ apply leads_returning; by eauto | apply leads_fail | apply leads_ret; by eauto
               | apply leads_bind; intros ? | case_match ].

Definition returned (progress : TaskWorktreeCleanupProgress Projection) : Prop :=
  exists answer, progress = Progress_Return answer.

Lemma begin_leads `{Directories} observed :
  leads_to (fun progress => returned progress \/ exists step, progress = Progress_Revalidate step)
    (begin_cleanup view observed).
Proof. unfold begin_cleanup, refuse_cleanup, revalidate, returned. leads. Qed.
Lemma reserved_leads observed operation n :
  leads_to (fun progress => returned progress \/ exists step, progress = Progress_Remove step)
    (apply_to_reserved view observed operation n).
Proof. unfold apply_to_reserved, fail_with_attention, returned. leads. Qed.
Lemma later_leads observed operation n :
  co_stage operation <> CS_Reserved -> leads_to returned (apply_stage view observed operation n).
Proof.
  intros Hstage. unfold apply_stage. destruct (co_stage operation); [done|..];
    unfold apply_to_remove_prepared, apply_to_removal_verified, apply_to_binding_cleared,
      finish_removal, fail_with_attention, returned; leads.
Qed.

(** What git's removal of the operation's checkout left behind. *)
Definition found_settled task_id operation_id (rt : WorktreeRuntime) : Prop :=
  forall o, find_first (is_cleanup task_id operation_id) (cleanup_operations (wr_state rt)) = Some o ->
    settled o.

Lemma settled_stage o : settled o -> co_stage o <> CS_Reserved.
Proof. unfold settled, cleanup_retry_stage. intros Hs Hstage. apply Hs. rewrite Hstage. by case_match. Qed.

Lemma observation_leads `{Directories} observed rt progress rt' :
  apply_task_worktree_cleanup_observation view observed rt = (Ok progress, rt') ->
  (returned progress \/ exists step, progress = Progress_Remove step)
  /\ (found_settled (oc_task_id observed) (oc_operation_id observed) rt -> returned progress).
Proof.
  intros [[[e [=]] _]|(o & n & rt1 & Ho & _ & Hrun)]%observation_stage. split.
  - destruct (decide (co_stage o = CS_Reserved)) as [Hstage|Hstage].
    + unfold apply_stage in Hrun. rewrite Hstage in Hrun. by eapply reserved_leads.
    + left. by eapply later_leads.
  - intros Hs. eapply later_leads; [|exact Hrun]. apply settled_stage. by apply Hs.
Qed.

Lemma removal_leads executed rt (progress : TaskWorktreeCleanupProgress Projection) rt' :
  apply_task_worktree_cleanup_removal executed rt = (Ok progress, rt') ->
  exists step, progress = Progress_Verify step
  /\ found_settled (co_task_id (cst_operation step)) (co_operation_id (cst_operation step)) rt'.
Proof.
  unfold apply_task_worktree_cleanup_removal. intros Hr. run_hyp Hr.
  destruct (er_result executed) as [u|error].
  - run_hyp Hr. eexists. split; [reflexivity|]. cbn [cst_operation].
    match goal with Hf : find_first _ _ = Some ?current |- _ =>
      pose proof (find_first_holds _ _ _ Hf) as Hkey; unfold is_cleanup in Hkey end. guards.
    intros o Ho. unfold settled, cleanup_retry_stage.
    match goal with Ht : co_task_id ?c = co_task_id _, Hi : co_operation_id ?c = co_operation_id _ |- _ =>
      rewrite Ht, Hi in Ho end.
    simplify_eq.
    match goal with Hf : co_failure _ = None |- _ => rewrite Hf end. cbn. rewrite andb_false_r. congruence.
  - destruct (removal_failure error) as [core_error kind]. run_hyp Hr.
Qed.

Lemma step_observe_keys git step observed :
  step_observe git step = Ok observed ->
  oc_task_id observed = co_task_id (cst_operation step)
  /\ oc_operation_id observed = co_operation_id (cst_operation step).
Proof.
  unfold step_observe. destruct (observing _); [cbn|discriminate].
  destruct (observe_cleanup_facts _ _ _); [cbn|discriminate]. by intros [= <-].
Qed.
End ends.

Section request_ends.
Context `{Host} {Projection : Type}.
Context (view : WorktreeRuntime -> string -> result CoreError Projection).
Context {Value : Type} `{JsonValue Value} `{JsonNumbers Value} `{UuidText}.
Context (w : CleanupWorld).

(** The rest of the daemon does not make a removed checkout's cleanup start
    again. *)
Definition others_keep_settled : Prop :=
  forall k task_id operation_id rt, found_settled task_id operation_id rt ->
    found_settled task_id operation_id (cw_others w k rt).

(** With enough fuel, a drive has one answer. *)
Definition drive_ends (fuel k : nat) (progress : TaskWorktreeCleanupProgress Projection)
    (rt : WorktreeRuntime) : Prop :=
  exists answer, forall n, drive_cleanup view w (fuel + n) k progress rt = Some answer.

Lemma drive_returned fuel k progress rt : returned progress -> drive_ends fuel k progress rt.
Proof. intros [answer ->]. eexists. intros n. by destruct (fuel + n). Qed.
Lemma drive_one_more fuel k progress rt :
  (forall progress' rt', drive_round view w k progress rt = (Ok progress', rt') ->
     drive_ends fuel (S k) progress' rt') ->
  drive_ends (S fuel) k progress rt.
Proof.
  intros Hround. destruct progress as [answer|step|step|step]; [by apply drive_returned; eexists|..];
    unfold drive_ends; cbn [drive_cleanup plus];
    (destruct (drive_round view w k _ rt) as [[progress'|e] rt'];
      [destruct (Hround progress' rt' eq_refl) as [answer Ha]; eauto|eauto]).
Qed.

Lemma verify_ends k step rt :
  others_keep_settled ->
  found_settled (co_task_id (cst_operation step)) (co_operation_id (cst_operation step)) rt ->
  drive_ends 1 k (Progress_Verify step) rt.
Proof.
  intros Hw Hs. apply drive_one_more. intros progress rt' Hround. apply drive_returned. cbn [drive_round] in Hround.
  destruct (cw_gate w k); [cbn iota in Hround|discriminate].
  destruct (step_observe (cw_git w k) step) as [observed|] eqn:Eo; [|discriminate].
  apply step_observe_keys in Eo as [Ht Hi].
  apply (observation_leads view) in Hround as [_ Hret]. apply Hret. rewrite Ht, Hi. by apply Hw.
Qed.
Lemma remove_ends k step rt : others_keep_settled -> drive_ends 2 k (Progress_Remove step) rt.
Proof.
  intros Hw. apply drive_one_more. intros progress rt' Hround. cbn [drive_round] in Hround.
  destruct (cw_gate w k); [|discriminate]. apply removal_leads in Hround as (step' & -> & Hs). by apply verify_ends.
Qed.
Lemma revalidate_ends k step rt : others_keep_settled -> drive_ends 3 k (Progress_Revalidate step) rt.
Proof.
  intros Hw. apply drive_one_more. intros progress rt' Hround. cbn [drive_round] in Hround.
  destruct (cw_gate w k); [cbn iota in Hround|discriminate].
  destruct (step_observe (cw_git w k) step) as [observed|] eqn:Eo; [|discriminate].
  apply (observation_leads view) in Hround as [[Hret|[step' ->]] _]; [by apply drive_returned|].
  by apply remove_ends.
Qed.

End request_ends.

(** C9: the cleanup policy is exact.  A request leaves no blocker unauthorised if
    and only if nothing else goes on at the Task, no Session is counted in the
    checkout, and the checkout is gone, path and registration, or may go: it is
    there and registered, git vouches for its branch and HEAD, and its status
    holds nothing unknown, no lock and no local content but what a request to
    discard acknowledged. *)
Theorem cleanup_policy_is_exact mode acks st observed total_count own :
  unauthorized_cleanup_blockers mode acks (cleanup_policy st observed total_count own).1 = []
  <-> task_is_idle st (oc_task_id observed) own total_count
      /\ (checkout_is_gone mode acks (oc_facts observed)
          \/ checkout_may_go mode acks (oc_facts observed)).
Proof. apply policy_spec. Qed.

(** ** Examples *)

(** A POSIX host, whose directories are compared by their path. *)
#[local] Instance cleanup_host : Host := {
  host_is_windows := false;
  os_baseline := MkLaunchEnvironment [];
  resolve_launch_target program _ := Ok (MkResolvedLaunchTarget program LTK_NativeExecutable None);
  opencode_uses_server_configuration _ _ := false;
  derived_gemini_defaults_present _ := false;
  native_gemini_defaults_present := false
}.
Definition cleanup_directories : Directories := fun path =>
  Some ([47%N], retain (fun part => part != []) (split_bytes 47 (bytes path))).
#[local] Existing Instance cleanup_directories.
Definition cleanup_view (rt : WorktreeRuntime) (task_id : string) : result CoreError string := Ok task_id.

Definition clean_status : WorktreeStatusFacts :=
  MkWorktreeStatusFacts (Some 0%N) CH_Clean CH_Clean CT_Absent CT_Absent
    (MkSubmoduleFacts SB_Absent 0 0) LK_Absent LK_Absent US_InSync.
Definition sample_repository (root : string) : RepositoryFacts :=
  MkRepositoryFacts root root "/repo/.git" "/repo/.git" (Some root) false
    (HS_Attached "refs/heads/task-a" "0123").
Definition sample_registration : WorktreeFacts :=
  MkWorktreeFacts "/wt/a" (RP_Present "/wt/a") (WC_Branch "refs/heads/task-a" (Some "0123"))
    WM_Absent WM_Absent false.

(** Git while the checkout is there, and after it is gone. *)
Definition git_with_checkout : Git := {|
  git_runner := Ok tt;
  inspect_repository root := Ok (sample_repository root);
  canonical_directory_if_exists path := Ok (Some path);
  list_worktrees _ := Ok [sample_registration];
  resolve_ref _ _ := Ok (Some "0123");
  inspect_worktree_health root :=
    Ok (MkWorktreeHealthObservation (sample_repository root) (Some sample_registration) clean_status 5)
|}.
Definition git_without_checkout : Git := {|
  git_runner := Ok tt;
  inspect_repository root := Ok (sample_repository root);
  canonical_directory_if_exists _ := Ok None;
  list_worktrees _ := Ok [];
  resolve_ref _ _ := Ok (Some "0123");
  inspect_worktree_health _ := Err GE_NotRepository
|}.

Definition cleanup_runtime (operations : list WorktreeCleanupOperation) : WorktreeRuntime :=
  MkWorktreeRuntime (store_of (sample_state <| cleanup_operations := operations |>))
    projection_cache_default ∅ ∅ (fun k => N.of_nat k).
Definition reserved_step : TaskWorktreeCleanupStep :=
  MkTaskWorktreeCleanupStep None sample_cleanup sample_proof.
Definition prepared_cleanup (now : N) : WorktreeCleanupOperation :=
  sample_cleanup <| co_stage := CS_RemovePrepared |> <| co_updated_at_epoch_ms := now |>.

Definition default_observation : ObservedTaskWorktreeCleanup :=
  observed_step reserved_step
    (MkTaskWorktreeCleanupFacts CPS_Unknown CRS_Unknown None None false None None).
Definition made (observed : result CoreError ObservedTaskWorktreeCleanup) : ObservedTaskWorktreeCleanup :=
  match observed with Ok observed => observed | Err _ => default_observation end.
Definition seen_there : ObservedTaskWorktreeCleanup := made (step_observe git_with_checkout reserved_step).
Definition seen_gone : ObservedTaskWorktreeCleanup := made (step_observe git_without_checkout reserved_step).

(** A reservation is observed once more, and the removal announced. *)
Definition announced_runtime : WorktreeRuntime :=
  (apply_task_worktree_cleanup_observation cleanup_view seen_there (cleanup_runtime [sample_cleanup])).2.
Definition announced_step : TaskWorktreeCleanupStep :=
  MkTaskWorktreeCleanupStep None (prepared_cleanup 2) sample_proof.

Lemma cleanup_removal_is_authorized_witness :
  step_observe git_with_checkout reserved_step = Ok seen_there
  /\ apply_task_worktree_cleanup_observation cleanup_view seen_there (cleanup_runtime [sample_cleanup])
     = (Ok (Progress_Remove announced_step), announced_runtime)
  /\ removal_is_authorized git_with_checkout (cleanup_runtime [sample_cleanup]) sample_cleanup
       sample_proof "refs/heads/task-a".
Proof.
  assert (Hobs : step_observe git_with_checkout reserved_step = Ok seen_there) by (vm_compute; reflexivity).
  assert (Hrun : apply_task_worktree_cleanup_observation cleanup_view seen_there
      (cleanup_runtime [sample_cleanup]) = (Ok (Progress_Remove announced_step), announced_runtime))
    by (vm_compute; reflexivity).
  split; [exact Hobs|split; [exact Hrun|]].
  destruct (cleanup_removal_is_authorized _ _ _ _ _ _ _ Hobs Hrun) as (o & Ho & _ & Ha & _).
  assert (Heq : Some sample_cleanup = Some o) by (rewrite <- Ho; vm_compute; reflexivity).
  injection Heq as <-. exact Ha.
Defined.

(** The removal has been announced, and the checkout is gone. *)
Definition removed_runtime : WorktreeRuntime :=
  (apply_task_worktree_cleanup_observation cleanup_view seen_gone
     (cleanup_runtime [prepared_cleanup 2])).2.

Lemma cleanup_clears_only_absent_checkouts_witness :
  t_worktree <$> tasks (wr_state removed_runtime) = [None]
  /\ exists observed,
       unbinds (oc_task_id observed) (wr_state (cleanup_runtime [prepared_cleanup 2]))
         (wr_state removed_runtime)
       /\ both_absent (oc_facts observed) = true.
Proof.
  assert (Hrun : run_cleanup_call cleanup_view (Call_observation cleanup_directories seen_gone)
      (cleanup_runtime [prepared_cleanup 2])
    = ((run_cleanup_call cleanup_view (Call_observation cleanup_directories seen_gone)
          (cleanup_runtime [prepared_cleanup 2])).1, removed_runtime)) by (vm_compute; reflexivity).
  assert (Hne : tasks (wr_state removed_runtime)
                <> tasks (wr_state (cleanup_runtime [prepared_cleanup 2]))) by (vm_compute; discriminate).
  split; [vm_compute; reflexivity|].
  destruct (cleanup_clears_only_absent_checkouts cleanup_view _ _ _ _ Hrun Hne)
    as (observed & _ & Hu & Ha & _).
  exists observed. split; [exact Hu|exact Ha].
Defined.

(** After the announcement the daemon restarts and plans the recovery. *)
Definition announced_event : CleanupEvent (Projection := string) :=
  Event_call (Call_observation cleanup_directories seen_there)
    (Reply_progress (Ok (Progress_Remove announced_step))).
Definition recovery_event : CleanupEvent (Projection := string) :=
  Event_call Call_plan_recovery
    (Reply_plans (Ok [announced_step])).

Lemma removal_is_not_reissued_witness :
  cleanup_run cleanup_view (cleanup_runtime [sample_cleanup])
    [(announced_event, announced_runtime); (Event_elsewhere, announced_runtime);
     (recovery_event, announced_runtime)]
  /\ issues_removal "a" "op-cleanup" announced_event
  /\ ~ issues_removal "a" "op-cleanup" recovery_event.
Proof.
  assert (Hrun : cleanup_run cleanup_view (cleanup_runtime [sample_cleanup])
    [(announced_event, announced_runtime); (Event_elsewhere, announced_runtime);
     (recovery_event, announced_runtime)]).
  { apply run_a_call; [vm_compute; reflexivity|].
    apply run_elsewhere; [unfold leaves_cleanups; reflexivity|].
    apply run_a_call; [vm_compute; reflexivity|apply run_end]. }
  assert (Hiss : issues_removal "a" "op-cleanup" announced_event).
  { exists (Call_observation cleanup_directories seen_there), announced_step. split_and!; reflexivity. }
  split; [exact Hrun|split; [exact Hiss|]].
  apply (removal_is_not_reissued cleanup_view (cleanup_runtime [sample_cleanup]) [] _ _
    [(Event_elsewhere, announced_runtime)] _ _ [] _ _ ltac:(apply NoDup_singleton) Hrun Hiss).
  intros e r Hin. apply list_elem_of_singleton in Hin. injection Hin as -> ->. split.
  - intros (executed & reply & Heq & _). discriminate Heq.
  - exists (prepared_cleanup 2). split; [|vm_compute; reflexivity].
    replace (cleanup_operations (wr_state announced_runtime)) with [prepared_cleanup 2]
      by (vm_compute; reflexivity). left.
Defined.

(** A request that runs to its end: the checkout is there when it is planned and
    observed once more, and gone after the removal. *)
Definition request_world : CleanupWorld := {|
  cw_gate _ := Ok tt;
  cw_git k := if (k <=? 1)%nat then git_with_checkout else git_without_checkout;
  cw_directories _ := cleanup_directories;
  cw_remove _ _ _ _ := Ok tt;
  cw_others _ rt := rt
|}.
#[local] Existing Instance AgentClaims.sample_json.
#[local] Instance sample_numbers : JsonNumbers Json := fun value =>
  match value with J_String "1" => Some 1%N | _ => None end.
#[local] Instance cleanup_uuid_text : UuidText := fun id => Some id.
Definition cleanup_params : Json :=
  J_Object [("operationId", J_String "op-cleanup"); ("taskId", J_String "a");
            ("expectedManagedWorktreeOperationId", J_String "op-provision");
            ("expectedWorktreeGeneration", J_String "1"); ("cleanupMode", J_String "safe");
            ("acknowledgedContentBlockers", J_Array [])].
Definition request_outcome (ended : Ended (Projection := string)) : option (string + CoreError) :=
  match ended with
  | Some (Ok answer, _) => Some (inl (ca_outcome answer))
  | Some (Err e, _) => Some (inr e)
  | None => None
  end.

